(* ===== verification/_CoqProject ===== *)
-Q . S2P
Prelude.v
Mem.v
World.v
BlockCache.v
BlockCacheSpec.v
RamDisk.v
BlockCacheProps.v
HeapLift.v
Virtio.v
VirtioSpec.v
VirtioBlk.v
VirtioDev.v
VirtioBlkSpec.v
VirtioDriver.v
VirtioInit.v
VirtioSample.v
VirtioDirect.v
VirtioProps.v
KernelPT.v
PTBits.v
KernelPTSpec.v
KernelPTRec.v
KernelPTProps.v
PTInit.v
Alloc.v
AllocList.v
AllocSpec.v
DmaHeapSpec.v
DmaHeap.v
KHeapSpec.v
CString.v
CStringProps.v
VirtioGpu.v
VirtioGpuDev.v
VirtioGpuSpec.v
VirtioGpuProps.v
Fdt.v
FdtSpec.v
FdtRun.v
FdtProps.v
UserPT.v
UserPTProps.v
FsTypes.v
FsCode.v
Files.v
Proc.v
SysFile.v
SysProc.v
Sample.v
SchedProps.v
FdSpec.v
FdProps.v
FdProc.v
FsFileSpec.v
FsBitmap.v
FsFileProps.v
UserCopy.v
SysIoSpec.v
AddrSpace.v
SysIo.v
UMap.v
ForkCopy.v
FreeSpace.v
SysIoFiles.v
SysIoProps.v
DirSpec.v
GetFile.v
GetFileProps.v
OpenFile.v
OpenProps.v
Sbi.v
Boot.v
Spinlock.v
UserLib.v
Shell.v
ShellSpec.v
ShellRun.v
ShellProps.v
UserProgs.v
UserKernel.v
