(* ===== verification/Prelude.v ===== *)
(** * A verification of the EndrOS kernel

    EndrOS is a small kernel for 64-bit RISC-V (kernel/, utils/): an Sv39 page
    table that maps itself, page allocators, a block cache in front of a virtio
    disk, a Unix-like file system on it, processes with a round-robin scheduler,
    and the system calls that tie these together; user/ holds a C library over
    the system calls, a shell and a few programs.  This library models the C code
    of these parts as functions of an explicit state and proves what they do.

    ** How the C code is modelled

    Integers are [Z] and wrap where the C type does ([u8] ... [i64] below).  A
    function that panics, performs an access without meaning in C or in the
    kernel's address space, or runs a loop without end is a computation with the
    outcomes [Panic], [Fault] and [NoFuel]; stateful code is in the monad [M].
    Memory is a total map of bytes (Mem.v).  A loop that need not end takes fuel:
    theorems that a function returns are proved with the fuel written in the
    definition (the length of the list, the number of pages, the size of the
    table, always an upper bound on the iterations), theorems of non-termination
    are proved for every amount of fuel.

    ** The parts and where they are

    - Prelude.v, Mem.v: integers, outcomes, tactics; memory, the page macros of
      kernel/mem.h, memset and memcpy of utils/string.c.
    - World.v: interfaces.  [DmaHeap] is what dmalloc and dmafree promise to
      their clients, [BlockDriver] what a block device promises to the cache,
      with the number of requests it can still serve.  RamDisk.v is a small
      instance of both.
    - BlockCache.v (kernel/block_device.c, sync_filesystem): the LRU list of 64
      page buffers, with [get_block_buffer], [translate_bytes], [read_bytes],
      [write_bytes].  BlockCacheSpec.v has the invariant of the list and the
      byte device ([view]) the cache stands for; BlockCacheProps.v the theorems,
      and what the code does on blocks that have a valid buffer
      ([cached_bytes_exact]), on which it needs neither memory nor the driver.
    - Virtio.v (drivers/virtio.c, virtio.h): virtqueues, their descriptor,
      available and used rings in the driver's page, direct and indirect chains.
      VirtioBlk.v (drivers/virtio_blk.c): initialisation and requests.  The
      device is a parameter, specified by the classes of VirtioDev.v and
      VirtioInit.v: it may take its time, but serves the chain it is given.  The
      driver uses indirect descriptors without acknowledging the feature, so the
      theorems on requests assume a device that takes them all the same, which
      the virtio specification does not promise: class [TakesIndirect].
      HeapLift.v carries a heap to a larger world; VirtioSpec.v,
      VirtioBlkSpec.v, VirtioInit.v, VirtioDirect.v hold the invariant of a queue
      and the lemmas, VirtioDriver.v the instance of [BlockDriver],
      VirtioSample.v a concrete device, VirtioProps.v the theorems.
    - VirtioGpu.v (drivers/virtio_gpu.c, gpu.c): the GPU commands, the frame
      buffer set-up, flush and draw_rainbow, over the same queues;
      VirtioGpuDev.v specifies the device, VirtioGpuSpec.v and VirtioGpuProps.v
      have the lemmas and theorems.
    - Fdt.v (kernel/fdt.c): parse_dtb as a state machine over the words of the
      blob.  FdtSpec.v: trees, their encoding and what the parser collects from
      them; FdtRun.v, FdtProps.v: the simulation and the theorems.
    - Boot.v (kernel/init.c): clear_bss, the choice of virtio devices, and init up
      to the start of the drivers ([init_early]) over one state of firmware,
      devices, memory and page table; the variables in the bss are loaded from
      the memory that clear_bss leaves.
    - KernelPT.v (kernel/pagetable.c, pagetable.h): page-table entries, the Sv39
      walk, [ptmap] through the recursive mapping, [ptmap_physical] before paging
      is on, [ptunmap], [palloc], [palloc_ptr], [init_pagetable].  The code never
      executes sfence.vma; the flag [retain] says whether the machine keeps
      translations it has used.  PTBits.v has the bit arithmetic, KernelPTSpec.v
      the shape of a page-table tree (which frame is which table), KernelPTRec.v
      the recursive window, KernelPTProps.v and PTInit.v the theorems.
    - Alloc.v (dmalloc, dmafree, kalloc, kfree): the two first-fit free lists
      threaded through free pages.  AllocList.v and AllocSpec.v reason about such
      lists, DmaHeapSpec.v and DmaHeap.v prove dmalloc and dmafree correct and
      give the instance of [DmaHeap] for the kernel; KHeapSpec.v does
      the same for kalloc and kfree, over the invariant [kheap_inv] of both.
    - UserPT.v (walkupt, uptmap, uptunmap, ptref_free, ptref_copy): the page
      tables of a process and the parallel reference tables of the kernel;
      UserPTProps.v has the shape of the two trees.  AddrSpace.v: address spaces
      ([uspace]), in which the machine's tables and the kernel's agree
      ([coherent]) and whose pages neither heap may hand out; what allocation, a
      new level and a mapped page do to them.  UMap.v: uptmap and sys_sbrk;
      ForkCopy.v: ptref_copy and the space of sys_fork's child; FreeSpace.v:
      ptref_free.
    - CString.v (utils/string.c): strlen, strcmp, strncmp, strsep, itoa;
      CStringProps.v the theorems.
    - FsTypes.v, FsCode.v (kernel/filesystem.c, fs_file.c): inodes, bitmaps, the
      block map of a file, truncation, path lookup, file creation.  The state
      holds the bytes [dev] that the cache shows and the set [cached] of blocks
      with valid buffers: an access to cached blocks is the hit path of the cache
      ([blk_io_refines_cache] of FsFileProps.v proves it against BlockCache.v); an
      access to any other block runs [cold], a parameter for the path through the
      driver, and no theorem on the file system says anything about it (the code
      loses whole-block writes there, and returns other blocks once 64 are
      cached).  FSFile objects are cells of a heap, so that use after free is
      visible.  FsBitmap.v, FsFileSpec.v, FsFileProps.v the theorems.
      DirSpec.v says what a directory tree is ([tree_ok]) and what a path means in
      it ([resolve]); GetFile.v and GetFileProps.v relate getfile to it.
    - Files.v (kernel/file.c, stdio.c): calls through the function pointers of a
      File; the console; the frame buffer.
    - Proc.v (kernel/process.c, ctrap.c, timer.c): the process table, the
      scheduler, load_process, free_process_space, the trap frame.
    - SysFile.v (kernel/sysfile.c) and SysProc.v (kernel/sysproc.c, exec.c,
      syscall.c, trap_handler): the system calls and their dispatch.  [run] never
      returns to its caller; [ctl] says whether a call returns a value, has
      resumed a user program, or ends in calls that switch the machine off:
      [Halted], the end of schedule in sync_filesystem and shutdown.
    - UserCopy.v: the copies between a process and the kernel, page by page
      through the tables of the process.  SysIoSpec.v: kernel buffers borrowed
      from the heap for the time of a call ([borrowed], [kept]).  SysIo.v: read
      and write over the classes [Source] and [Sink], what a file promises to the
      system calls; SysIoFiles.v the instances for the console and for regular
      files, SysIoProps.v the theorems.  OpenFile.v, OpenProps.v: openat.
    - Sbi.v (kernel/sbi.c, printk.c, timer.c): the calls of the firmware, which is
      a parameter with the laws of class [Firmware], printk and panic.
    - Spinlock.v (kernel/spinlock.h): the lock as atomic steps of any number of
      harts.
    - UserLib.v (user/libcoreos): the library over the system calls, a class of
      parameters; UserKernel.v: its stubs meet the dispatch of the kernel.
      Shell.v, ShellSpec.v, ShellRun.v, ShellProps.v: the shell, over the class
      [Console].  UserProgs.v: init, cat, ls, graphic and the test programs.
    - SchedProps.v: scheduling theorems.  FdSpec.v, FdProps.v, FdProc.v: the
      reference counts of open files under close, dup, dup3, fork and exit.
      Sample.v: concrete states on which the theorems are
      evaluated.

    ** What the theorems show

    - The cache: reads and writes of any byte range are reads and writes of one
      byte device while the blocks fit in the cache (a write of a whole block
      only if that block is valid in it), and sync makes them durable; a
      whole-block write of an uncached block is lost, and a full cache returns
      another block's bytes.  On cached blocks the device accesses of the file
      system are those of the cache.
    - The block driver: from any state that init_virtio_blk builds, up to 65535
      requests read and write the blocks of the device; what is written through
      the cache over it, in ranges without a whole block, is on the medium after a
      sync from boot on.  After 65536 requests the 16-bit index wraps and the
      driver no longer waits.  Chains are posted and recycled without loss of a
      descriptor.
    - The GPU: a flush moves the frame buffer to the host and nothing else;
      draw_rainbow draws its gradient.
    - The device tree: parse_dtb returns what a traversal of the encoded tree
      collects, but for the number of processors, where comment and code differ;
      a tree deeper than its stack faults.
    - The kernel page table: ptmap through the recursive window writes the tables
      that the physical version writes; ptmap, ptunmap and palloc_ptr change the
      translation of exactly one page; mapping a page under a new table depends on a
      cached translation.
    - Start: init clears the bss, takes the memory and the devices from the device tree of the
      firmware, builds a page table that maps the kernel image, the trampoline and
      the devices, chooses the lowest disk and GPU, and writes nothing else.
    - The DMA allocator: the pages returned are free, mapped to the frames
      reported, and nothing else changes; freeing restores the free set.
    - Address spaces: where the words of the two trees agree ([coherent]), the
      machine's walk and the kernel's walk agree; uptmap adds
      the levels that are missing and changes one translation; sys_sbrk maps fresh
      pages; the child of sys_fork has the parent's bytes and permissions in pages
      of its own; ptref_free gives exactly the pages of a space back, each once, and
      leaves other spaces alone; uptunmap leaves the kernel's reference to the page
      it frees.
    - The file system, on blocks that are cached: allocation of blocks is the smallest free one, freeing is
      its inverse; reading and writing within the direct blocks act on the bytes
      of the file only; inode fields round-trip; truncation to 0 never returns.
    - Scheduling: the choice is round robin, no READY process waits for more
      than 256 calls, a timer interrupt always finds a process.
    - Open files: every count equals the number of descriptors on the file, in
      every process, after close, dup, dup3, fork and exit; dup3 onto itself and
      failed opens break the kernel.
    - The kernel heap: kalloc returns cleared pages that were free and changes no
      other; kfree after kalloc gives the free set back.
    - Copies: a string copied from a process ends at its zero or at the buffer.
    - Reading and writing: a read or write system call moves exactly the bytes it
      reports between the file and the pages of the caller and returns its buffer
      to the heap; what is written to a file is what is read from it.  For
      regular files this is for those whose pages are in the 25 direct blocks,
      and while these are cached.
    - Paths: getfile finds what [resolve] finds in the tree on the disk; openat
      binds it to the smallest free descriptor at position 0, and a read through
      it sees the bytes of the file.
    - The shell: line editing is the fold of the keys typed; the line is split into
      its words, where redirections stand as words of their own; the words are what
      the child executes, with its redirections.
    - The library: the numbers and registers of a stub reach the call of that name.
    - Locks: two harts are never in the same critical section.
    - Strings: strcmp, strsep and itoa against list definitions.

    ** Bounds and fuel

    The waits of the drivers take as fuel the patience that the device promises;
    the string comparisons of parse_dtb take 20, since no literal it compares
    with has more than 18 characters; the cache has its 64 buffers, the process
    table its 256 entries.  Copying a string of [len] bytes takes [2 * len + 1]
    steps; getfile takes at least 60 and more than the names of a directory and
    the bytes of the path; printk more than the length of its message, 512 in
    init; the shell 4096 per line, the size of its buffer, and its console a patience of polls.
    The loops over page tables have their 512 entries; sys_sbrk and sys_fork ask
    for room in the heaps ([room]): at most 6 pages for every page mapped, and for
    a fork one page per page and up to three per table ([copy_cost]).

    ** Not modelled

    Modelled without general theorems: growing truncation, file creation, waitpid,
    exec, init_virtio_gpu.  The kernel stack of a new process has an unmapped
    guard page, which the invariant of the kernel heap does not describe.  Not
    modelled: the assembly of trap.S and entry.S (saving and restoring registers
    has no counterpart in C), the last three calls of init (init_filesystem,
    init_gpu, init_scheduler start parts that are modelled over states of their
    own) and the progress messages of init_pagetable, build scripts.  The
    accessed and dirty bits of page-table entries, interrupts inside the kernel
    (they are off) and other harts (not started) are outside the model. *)
From stdpp Require Export base list list_numbers numbers strings gmap.
From Stdlib Require Export ZArith Lia.

#[global] Open Scope Z_scope.

(** [dlia] is [lia] with the equations of [/] and [mod] added first. *)
Ltac dlia := Z.to_euclidean_division_equations; lia.

(** ** Machine integers (utils/type.h)

    Every C integer is a [Z]; the width of the C type is written out with one
    of the wrap-around functions below at the places where the C code computes
    at that width. *)
Definition u8 (x : Z) : Z := x mod 256.
Definition u16 (x : Z) : Z := x mod 65536.
Definition u32 (x : Z) : Z := x mod 4294967296.
Definition u64 (x : Z) : Z := x mod 18446744073709551616.

Definition i32 (x : Z) : Z :=
  let y := u32 x in if y <? 2147483648 then y else y - 4294967296.
Definition i64 (x : Z) : Z :=
  let y := u64 x in
  if y <? 9223372036854775808 then y else y - 18446744073709551616.

Lemma u8_range x : 0 <= u8 x < 256.
Proof. unfold u8; dlia. Qed.
Lemma u16_range x : 0 <= u16 x < 65536.
Proof. unfold u16; dlia. Qed.
Lemma u32_range x : 0 <= u32 x < 4294967296.
Proof. unfold u32; dlia. Qed.
Lemma u64_range x : 0 <= u64 x < 18446744073709551616.
Proof. unfold u64; dlia. Qed.
Lemma i32_range x : -2147483648 <= i32 x < 2147483648.
Proof. unfold i32, u32. destruct (Z.ltb_spec (x mod 4294967296) 2147483648); dlia. Qed.
Lemma i64_range x : -9223372036854775808 <= i64 x < 9223372036854775808.
Proof.
  unfold i64, u64.
  destruct (Z.ltb_spec (x mod 18446744073709551616) 9223372036854775808); dlia.
Qed.

Lemma u8_small x : 0 <= x < 256 -> u8 x = x.
Proof. unfold u8; dlia. Qed.
Lemma u16_small x : 0 <= x < 65536 -> u16 x = x.
Proof. unfold u16; dlia. Qed.
Lemma u32_small x : 0 <= x < 4294967296 -> u32 x = x.
Proof. unfold u32; dlia. Qed.
Lemma u64_small x : 0 <= x < 18446744073709551616 -> u64 x = x.
Proof. unfold u64; dlia. Qed.
Lemma i32_small x : -2147483648 <= x < 2147483648 -> i32 x = x.
Proof. intros; unfold i32, u32. destruct (Z.ltb_spec (x mod 4294967296) 2147483648); dlia. Qed.
Lemma i64_small x : -9223372036854775808 <= x < 9223372036854775808 -> i64 x = x.
Proof.
  intros; unfold i64, u64.
  destruct (Z.ltb_spec (x mod 18446744073709551616) 9223372036854775808); dlia.
Qed.

Create HintDb endros.
Create Rewrite HintDb endros_rw.
#[export] Hint Resolve u8_range u16_range u32_range u64_range : endros.
#[export] Hint Rewrite u8_small u16_small u32_small u64_small i64_small using lia : endros_rw.

(** ** Outcomes of kernel code

    [panic()] prints and spins for ever; a [Fault] is an access C gives no
    meaning to (a NULL pointer, an array index out of range, a page fault in
    the kernel); [NoFuel] is a loop that was cut off. *)
Inductive outcome (A : Type) : Type :=
  | Ret (a : A)
  | Panic
  | Fault
  | NoFuel.
Arguments Ret {A} a.
Arguments Panic {A}.
Arguments Fault {A}.
Arguments NoFuel {A}.

#[global] Instance outcome_ret : MRet outcome := fun A a => Ret a.
#[global] Instance outcome_bind : MBind outcome := fun A B f o =>
  match o with Ret a => f a | Panic => Panic | Fault => Fault | NoFuel => NoFuel end.

#[global] Instance outcome_fmap : FMap outcome := fun A B f o =>
  match o with Ret a => Ret (f a) | Panic => Panic | Fault => Fault | NoFuel => NoFuel end.

Definition of_option {A} (o : option A) : outcome A :=
  match o with Some a => Ret a | None => Fault end.

(** A computation over a state [S] that may panic, fault or run out of fuel. *)
Definition M (S A : Type) : Type := S -> outcome (A * S).

#[global] Instance M_ret {S} : MRet (M S) := fun A a s => Ret (a, s).
#[global] Instance M_bind {S} : MBind (M S) := fun A B f m s =>
  match m s with
  | Ret (a, s') => f a s'
  | Panic => Panic | Fault => Fault | NoFuel => NoFuel
  end.

Definition gets {S A} (f : S -> A) : M S A := fun s => Ret (f s, s).
Definition modify {S} (f : S -> S) : M S unit := fun s => Ret (tt, f s).
Definition panic {S A} : M S A := fun _ => Panic.
Definition lift {S A} (o : outcome A) : M S A := fun s =>
  match o with
  | Ret a => Ret (a, s)
  | Panic => Panic | Fault => Fault | NoFuel => NoFuel
  end.
Definition when {S} (b : bool) (m : M S unit) : M S unit :=
  if b then m else mret tt.

Lemma bind_ret_l {S A B} (m : M S A) (k : A -> M S B) s a s' :
  m s = Ret (a, s') -> (m ≫= k) s = k a s'.
Proof. intros H. unfold mbind, M_bind. by rewrite H. Qed.

Lemma bind_Ret {S A B} (m : M S A) (k : A -> M S B) s r :
  (m ≫= k) s = Ret r <-> exists a s', m s = Ret (a, s') /\ k a s' = Ret r.
Proof.
  unfold mbind, M_bind. destruct (m s) as [[a s']| | |]; split; try done.
  - intros H; eauto.
  - by intros (a' & s'' & [= <- <-] & H).
  - by intros (? & ? & ? & ?).
  - by intros (? & ? & ? & ?).
  - by intros (? & ? & ? & ?).
Qed.

Lemma outcome_bind_Ret {A B} (m : outcome A) (k : A -> outcome B) r :
  (m ≫= k) = Ret r <-> exists a, m = Ret a /\ k a = Ret r.
Proof.
  destruct m as [a| | |]; split.
  - intros H; eauto.
  - by intros (? & [= <-] & ?).
  - done.
  - by intros (? & ? & ?).
  - done.
  - by intros (? & ? & ?).
  - done.
  - by intros (? & ? & ?).
Qed.

(** [minv H] takes a run [(x ← m; k) s = Ret r] apart into its steps. *)
Ltac minv H :=
  repeat lazymatch type of H with
  | (_ ≫= _) _ = Ret _ =>
      let a := fresh "a" in let s := fresh "s" in let E := fresh "E" in
      apply bind_Ret in H; destruct H as (a & s & E & H)
  end.

(** ** Case analysis on boolean integer tests *)
Ltac zcase_one :=
  match goal with
  | |- context [Z.eqb ?a ?b] => destruct (Z.eqb_spec a b)
  | |- context [Z.ltb ?a ?b] => destruct (Z.ltb_spec a b)
  | |- context [Z.leb ?a ?b] => destruct (Z.leb_spec a b)
  end.
Ltac zcases := repeat (zcase_one; simpl; try lia).

Ltac zcase_hyp :=
  match goal with
  | H : context [Z.eqb ?a ?b] |- _ => destruct (Z.eqb_spec a b)
  | H : context [Z.ltb ?a ?b] |- _ => destruct (Z.ltb_spec a b)
  | H : context [Z.leb ?a ?b] |- _ => destruct (Z.leb_spec a b)
  end.

(** Case analysis on the [decide]s of the goal only. *)
Ltac gdecide :=
  repeat match goal with
  | |- context [@decide ?P ?d] => destruct (@decide P d); try lia
  end.

(** ** Generic lemmas *)
Lemma lookup_insert_list {A} (l : list A) (i j : nat) (x : A) :
  (i < length l)%nat ->
  <[i := x]> l !! j = if decide (i = j) then Some x else l !! j.
Proof.
  intros H. case_decide as E; [subst; by apply list_lookup_insert_eq|].
  by apply list_lookup_insert_ne.
Qed.

Lemma Z_land_7 x : Z.land x 7 = x mod 8.
Proof. change 7 with (Z.ones 3). by rewrite Z.land_ones. Qed.
Lemma Z_land_15 x : Z.land x 15 = x mod 16.
Proof. change 15 with (Z.ones 4). by rewrite Z.land_ones. Qed.
Lemma Z_land_4095 x : Z.land x 4095 = x mod 4096.
Proof. change 4095 with (Z.ones 12). by rewrite Z.land_ones. Qed.
Lemma Z_land_511 x : Z.land x 511 = x mod 512.
Proof. change 511 with (Z.ones 9). by rewrite Z.land_ones. Qed.
Lemma Z_shiftr_div x n : 0 <= n -> Z.shiftr x n = x / 2 ^ n.
Proof. apply Z.shiftr_div_pow2. Qed.

(** ** Bit fields *)
Lemma land_ones_0 a b n : 0 <= n -> 0 <= b < 2 ^ n -> Z.land (a * 2 ^ n) b = 0.
Proof.
  intros Hn Hb. apply Z.bits_inj'. intros m Hm. rewrite Z.land_spec, Z.bits_0.
  destruct (decide (m < n)).
  - by rewrite Z.mul_pow2_bits_low.
  - replace (Z.testbit b m) with false; [by rewrite andb_false_r|]. symmetry.
    destruct (decide (b = 0)) as [->|]; [apply Z.bits_0|]. apply Z.bits_above_log2; [lia|].
    apply Z.log2_lt_pow2; [lia|]. apply Z.lt_le_trans with (2 ^ n); [lia|].
    apply Z.pow_le_mono_r; lia.
Qed.

(** [a << n | b] with [b] below the shift is a sum. *)
Lemma lor_shift_add a b n : 0 <= n -> 0 <= b < 2 ^ n -> Z.lor (a * 2 ^ n) b = a * 2 ^ n + b.
Proof.
  intros Hn Hb. pose proof (land_ones_0 a b n Hn Hb) as H0.
  by rewrite <- Z.lxor_lor, <- Z.add_nocarry_lxor.
Qed.

(** [mstep] runs the first step of a sequence whose result is known by
    computation or by a hypothesis or lemma given to [mstep_with]. *)
Ltac mstep := erewrite bind_ret_l; [|reflexivity].
Tactic Notation "mstep_with" uconstr(E) := erewrite bind_ret_l; [|eapply E; eauto].
