(* ===== verification/Mem.v ===== *)
(** * Byte-addressed memory and the loops of utils/string.c over it

    The kernel's address space as a total map from addresses to bytes, with
    little-endian loads and stores of any width, and [memset] / [memcpy] as the
    byte loops they are in utils/string.c. *)
From S2P Require Import Prelude.

(** ** Pages (kernel/mem.h) *)
Module Page.

Definition PAGESIZE : Z := 4096.
Definition PAGE_2_ADDR (pn : Z) : Z := u64 (pn * PAGESIZE).
Definition ADDR_2_PAGE (addr : Z) : Z := u64 addr / PAGESIZE.
Definition ADDR_2_PAGEUP (addr : Z) : Z :=
  u64 (ADDR_2_PAGE addr +
       (if Z.land (u64 addr) (PAGESIZE - 1) =? 0 then 0 else 1)).
Definition ADDR (pn offset : Z) : Z := u64 (pn * PAGESIZE + offset).
Definition OFFSET (addr : Z) : Z := Z.land (u64 addr) 4095.
Definition TRAMPOLINE : Z := 18446744073709547520.
Definition TRAPFRAME : Z := 18446744073709543424.

Lemma OFFSET_mod a : OFFSET a = u64 a mod 4096.
Proof. apply Z_land_4095. Qed.

Lemma OFFSET_range a : 0 <= OFFSET a < 4096.
Proof. rewrite OFFSET_mod; dlia. Qed.

Lemma ADDR_2_PAGEUP_ceil a :
  0 <= a < 18446744073709551616 -> ADDR_2_PAGEUP a = (a + 4095) / 4096.
Proof.
  intros H. unfold ADDR_2_PAGEUP, ADDR_2_PAGE, PAGESIZE.
  change (4096 - 1) with 4095. rewrite Z_land_4095, (u64_small a) by lia.
  rewrite u64_small; zcases; dlia.
Qed.

Lemma ADDR_2_PAGE_div a :
  0 <= a < 18446744073709551616 -> ADDR_2_PAGE a = a / 4096.
Proof. intros. unfold ADDR_2_PAGE. by rewrite u64_small. Qed.

Lemma ADDR_split a :
  0 <= a < 18446744073709551616 -> ADDR (ADDR_2_PAGE a) (OFFSET a) = a.
Proof.
  intros. unfold ADDR. rewrite OFFSET_mod, ADDR_2_PAGE_div, (u64_small a) by lia.
  unfold PAGESIZE. rewrite u64_small; dlia.
Qed.

End Page.
Export Page.

(** ** Memory *)
Definition mem : Type := Z -> Z.

Definition upd (m : mem) (a v : Z) : mem := fun x => if x =? a then v else m x.

Fixpoint load_le (n : nat) (m : mem) (a : Z) : Z :=
  match n with
  | O => 0
  | S k => m a + 256 * load_le k m (a + 1)
  end.

Fixpoint store_le (n : nat) (m : mem) (a v : Z) : mem :=
  match n with
  | O => m
  | S k => store_le k (upd m a (v mod 256)) (a + 1) (v / 256)
  end.

Definition load32 := load_le 4.
Definition load64 := load_le 8.
Definition store32 := store_le 4.
Definition store64 := store_le 8.

Definition mem_ok (m : mem) : Prop := forall x, 0 <= m x < 256.

Lemma upd_eq m a v : upd m a v a = v.
Proof. unfold upd. by rewrite Z.eqb_refl. Qed.
Lemma upd_ne m a v x : x <> a -> upd m a v x = m x.
Proof. unfold upd. intros. by destruct (Z.eqb_spec x a). Qed.

Lemma store_le_outside n m a v x :
  x < a \/ a + Z.of_nat n <= x -> store_le n m a v x = m x.
Proof.
  revert m a v. induction n as [|n IH]; intros m a v H; [done|]. cbn [store_le].
  rewrite IH by lia. apply upd_ne; lia.
Qed.

Lemma load_le_ext n m m' a :
  (forall x, a <= x < a + Z.of_nat n -> m x = m' x) ->
  load_le n m a = load_le n m' a.
Proof.
  revert a. induction n as [|n IH]; intros a H; [done|]. cbn [load_le].
  rewrite (H a) by lia. rewrite (IH (a + 1)); [done|]. intros; apply H; lia.
Qed.

Lemma load_store_same n m a v :
  0 <= v < 256 ^ Z.of_nat n -> load_le n (store_le n m a v) a = v.
Proof.
  revert m a v. induction n as [|n IH]; intros m a v H.
  - cbn in *. lia.
  - cbn [load_le store_le]. rewrite store_le_outside by lia. rewrite upd_eq.
    rewrite IH; [dlia|].
    rewrite Nat2Z.inj_succ, Z.pow_succ_r in H by lia. split; [dlia|].
    apply Z.div_lt_upper_bound; lia.
Qed.

Lemma load_store_disjoint n k m a b v :
  a + Z.of_nat n <= b \/ b + Z.of_nat k <= a ->
  load_le k (store_le n m a v) b = load_le k m b.
Proof. intros. apply load_le_ext. intros. apply store_le_outside. lia. Qed.

Lemma store_le_ok n m a v : mem_ok m -> mem_ok (store_le n m a v).
Proof.
  revert m a v. induction n as [|n IH]; intros m a v H; [done|]. apply IH.
  intros x. unfold upd. zcases; [dlia|apply H].
Qed.

Lemma load_le_range n m a : mem_ok m -> 0 <= load_le n m a < 256 ^ Z.of_nat n.
Proof.
  intros H. revert a. induction n as [|n IH]; intros a.
  - cbn. lia.
  - cbn [load_le]. specialize (IH (a + 1)). specialize (H a).
    rewrite Nat2Z.inj_succ, Z.pow_succ_r by lia. lia.
Qed.

(** ** memset and memcpy (utils/string.c) *)
Module MemLoops.

(** [for (ptr = start; ptr < start + size; ++ptr) *ptr = byte] with the number
    of iterations left as fuel. *)
Fixpoint memset_loop (fuel : nat) (m : mem) (ptr byte stop : Z) : mem :=
  match fuel with
  | O => m
  | S k => if ptr <? stop then memset_loop k (upd m ptr (u8 byte)) (u64 (ptr + 1)) byte stop
           else m
  end.

Definition memset (m : mem) (start byte size : Z) : mem :=
  memset_loop (Z.to_nat size) m start byte (u64 (start + size)).

(** [for (i = 0; i < size; i++) dst[i] = src[i]]: a forward byte copy, so an
    overlap is seen by later iterations. *)
Fixpoint memcpy_loop (fuel : nat) (m : mem) (dst src i size : Z) : mem :=
  match fuel with
  | O => m
  | S k => if i <? size
           then memcpy_loop k (upd m (u64 (dst + i)) (m (u64 (src + i)))) dst src (i + 1) size
           else m
  end.

Definition memcpy (m : mem) (dst src size : Z) : mem :=
  memcpy_loop (Z.to_nat size) m dst src 0 size.

Lemma memset_loop_spec n m ptr byte x :
  0 <= ptr -> ptr + Z.of_nat n < 18446744073709551616 ->
  memset_loop n m ptr byte (ptr + Z.of_nat n) x =
  if (ptr <=? x) && (x <? ptr + Z.of_nat n) then u8 byte else m x.
Proof.
  revert m ptr. induction n as [|n IH]; intros m ptr H1 H2.
  - cbn [memset_loop]. zcases; done.
  - cbn [memset_loop].
    replace (ptr <? ptr + Z.of_nat (S n)) with true by (symmetry; apply Z.ltb_lt; lia).
    rewrite u64_small by lia.
    replace (ptr + Z.of_nat (S n)) with ((ptr + 1) + Z.of_nat n) by lia.
    rewrite IH by lia. unfold upd. zcases; done.
Qed.

(** memset writes exactly the range it is given. *)
Lemma memset_spec m start byte size x :
  0 <= start -> 0 <= size -> start + size < 18446744073709551616 ->
  memset m start byte size x =
  if (start <=? x) && (x <? start + size) then u8 byte else m x.
Proof.
  intros H1 H2 H3. unfold memset. rewrite u64_small by lia.
  pose proof (memset_loop_spec (Z.to_nat size) m start byte x) as E.
  rewrite Z2Nat.id in E by lia. apply E; lia.
Qed.

Lemma memcpy_loop_spec n m dst src i x :
  0 <= i -> 0 <= dst -> 0 <= src ->
  let size := i + Z.of_nat n in
  dst + size <= 18446744073709551616 -> src + size <= 18446744073709551616 ->
  dst + size <= src \/ src + size <= dst ->
  memcpy_loop n m dst src i size x =
  if (dst + i <=? x) && (x <? dst + size) then m (src + (x - dst)) else m x.
Proof.
  intros Hi Hd Hs size. subst size. revert m i Hi.
  induction n as [|n IH]; intros m i Hi H1 H2 H3.
  - cbn [memcpy_loop]. zcases; done.
  - cbn [memcpy_loop].
    replace (i <? i + Z.of_nat (S n)) with true by (symmetry; apply Z.ltb_lt; lia).
    rewrite !u64_small by lia.
    replace (i + Z.of_nat (S n)) with ((i + 1) + Z.of_nat n) in * by lia.
    rewrite IH by lia. unfold upd. zcases; try done.
    f_equal; lia.
Qed.

(** memcpy copies exactly the range it is given when the ranges do not
    overlap. *)
Lemma memcpy_spec m dst src size x :
  0 <= dst -> 0 <= src -> 0 <= size ->
  dst + size <= 18446744073709551616 -> src + size <= 18446744073709551616 ->
  dst + size <= src \/ src + size <= dst ->
  memcpy m dst src size x =
  if (dst <=? x) && (x <? dst + size) then m (src + (x - dst)) else m x.
Proof.
  intros Hd Hs Hn H1 H2 H3. unfold memcpy.
  pose proof (memcpy_loop_spec (Z.to_nat size) m dst src 0 x) as E. cbn zeta in E.
  rewrite Z2Nat.id in E by lia. rewrite Z.add_0_l, Z.add_0_r in E. apply E; lia.
Qed.

Lemma memset_ok m start byte size : mem_ok m -> mem_ok (memset m start byte size).
Proof.
  unfold memset. generalize (u64 (start + size)) as stop.
  generalize (Z.to_nat size) as n. intros n. revert m start.
  induction n as [|n IH]; intros m start stop H; [done|]. cbn [memset_loop].
  destruct (start <? stop); [|done]. apply IH. intros x. unfold upd.
  zcases; [apply u8_range|apply H].
Qed.

End MemLoops.
Export MemLoops.
