(* ===== verification/World.v ===== *)
(** * Interfaces between the kernel's components

    What the page allocator and the block driver promise to their clients
    (the block cache, the virtqueues, the file system).  A component that
    allocates DMA pages or talks to a disk is written and verified against
    these classes; the operations of the classes are the C functions of the
    same name. *)
From S2P Require Import Prelude Mem.

(** A state that contains the kernel's address space. *)
Class KMem (W : Type) := {
  w_mem : W -> mem;
  w_set : mem -> W -> W;
  w_mem_set : forall m w, w_mem (w_set m w) = m;
  w_set_set : forall m m' w, w_set m (w_set m' w) = w_set m w;
  w_set_mem : forall w, w_set (w_mem w) w = w;
}.

Definition k_memcpy {W} `{KMem W} (dst src n : Z) : M W unit :=
  modify (fun w => w_set (memcpy (w_mem w) dst src n) w).
Definition k_memset {W} `{KMem W} (dst byte n : Z) : M W unit :=
  modify (fun w => w_set (memset (w_mem w) dst byte n) w).

Definition in_pages (vpn n x : Z) : Prop := vpn * 4096 <= x < (vpn + n) * 4096.
#[global] Instance in_pages_dec vpn n x : Decision (in_pages vpn n x).
Proof. unfold in_pages. apply _. Defined.

(** dmalloc / dmafree (kernel/pagetable.c).  [live w x]: address [x] belongs to
    the clients of the allocator; [backed w v p]: kernel page [v] is mapped to
    frame [p]; [avail w k]: at least [k] more single pages can be allocated;
    [avail_run w n]: a run of [n] contiguous pages can be allocated. *)
Class DmaHeap (W : Type) `{KMem W} := {
  dmalloc : Z -> bool -> M W (Z * Z);
  dmafree : Z -> Z -> Z -> M W unit;
  heap_ok : W -> Prop;
  live : W -> Z -> Prop;
  backed : W -> Z -> Z -> Prop;
  avail : W -> Z -> Prop;
  avail_run : W -> Z -> Prop;
  avail_set : forall m w k, heap_ok w -> avail w k ->
    (forall x, ~ live w x -> m x = w_mem w x) -> avail (w_set m w) k;
  avail_mono : forall w k k', avail w k -> k' <= k -> avail w k';
  live_set : forall m w, heap_ok w -> (forall x, ~ live w x -> m x = w_mem w x) ->
    forall x, live (w_set m w) x <-> live w x;
  backed_set : forall m w v p, backed (w_set m w) v p <-> backed w v p;
  backed_frame : forall w v p, heap_ok w -> backed w v p -> 0 <= p < 17592186044416;
  heap_ok_set : forall m w, heap_ok w ->
    (forall x, ~ live w x -> m x = w_mem w x) -> heap_ok (w_set m w);
  dmalloc_law : forall n z w, heap_ok w -> n = 1 /\ avail w 1 \/ 1 <= n /\ avail_run w n ->
    exists pfn vpn w', dmalloc n z w = Ret ((pfn, vpn), w') /\
      heap_ok w' /\ 0 <= vpn /\ (vpn + n) * 4096 <= 18446744073709551616 /\
      (forall i, 0 <= i < n -> backed w' (vpn + i) (pfn + i)) /\
      (forall v p, backed w v p -> backed w' v p) /\
      (forall x, in_pages vpn n x -> ~ live w x) /\
      (forall x, live w' x <-> live w x \/ in_pages vpn n x) /\
      (forall x, live w x -> w_mem w' x = w_mem w x) /\
      (z = true -> forall x, in_pages vpn n x -> w_mem w' x = 0) /\
      (forall k, n = 1 -> avail w (k + 1) -> avail w' k);
  dmafree_law : forall pfn vpn n w, heap_ok w -> 1 <= n ->
    (forall i, 0 <= i < n -> backed w (vpn + i) (pfn + i)) ->
    (forall x, in_pages vpn n x -> live w x) ->
    exists w', dmafree pfn vpn n w = Ret (tt, w') /\ heap_ok w' /\
      (forall x, live w' x <-> live w x /\ ~ in_pages vpn n x) /\
      (forall v p, backed w v p -> backed w' v p) /\
      (forall x, live w' x -> w_mem w' x = w_mem w x) /\
      (forall k, avail w k -> avail w' (k + n));
}.

(** A block device with the two operations of struct BufferedBlockDevice
    (kernel/block_device.h), [disk] its contents, [sectors] its size in units of
    512 bytes and [dev_ok j] the states in which it answers the next [j]
    requests. *)
Class BlockDriver (W : Type) `{DmaHeap W} := {
  read_block : Z -> Z -> Z -> M W Z;
  write_block : Z -> Z -> Z -> M W Z;
  disk : W -> Z -> Z;
  sectors : Z;
  dev_ok : nat -> W -> Prop;
  sectors_range : 0 <= sectors <= 18014398509481984;
  disk_set : forall m w a, disk (w_set m w) a = disk w a;
  dev_ok_mono : forall j j' w, dev_ok j w -> (j' <= j)%nat -> dev_ok j' w;
  dev_ok_set : forall j m w, heap_ok w -> dev_ok j w ->
    (forall x, ~ live w x -> m x = w_mem w x) -> dev_ok j (w_set m w);
  dev_dmalloc : forall z w r w', heap_ok w -> avail w 1 -> dmalloc 1 z w = Ret (r, w') ->
    (forall j, dev_ok j w -> dev_ok j w') /\ (forall a, disk w' a = disk w a);
  read_block_law : forall j s v p w, heap_ok w -> dev_ok (S j) w -> backed w v p ->
    0 <= s -> s + 8 <= sectors -> 0 <= v -> avail w 3 ->
    (forall x, in_pages v 1 x -> live w x) ->
    exists w', read_block s v p w = Ret (0, w') /\ heap_ok w' /\ dev_ok j w' /\
      (forall x, live w' x <-> live w x) /\
      (forall v' p', backed w v' p' -> backed w' v' p') /\
      (forall k, avail w k -> avail w' k) /\
      (forall a, disk w' a = disk w a) /\
      (forall x, live w x -> w_mem w' x =
         if decide (in_pages v 1 x) then disk w (s * 512 + (x - v * 4096))
         else w_mem w x);
  write_block_law : forall j s v p w, heap_ok w -> dev_ok (S j) w -> backed w v p ->
    0 <= s -> s + 8 <= sectors -> 0 <= v -> avail w 3 ->
    (forall x, in_pages v 1 x -> live w x) ->
    exists w', write_block s v p w = Ret (0, w') /\ heap_ok w' /\ dev_ok j w' /\
      (forall x, live w' x <-> live w x) /\
      (forall v' p', backed w v' p' -> backed w' v' p') /\
      (forall k, avail w k -> avail w' k) /\
      (forall a, disk w' a =
         if decide (s * 512 <= a < s * 512 + 4096)
         then w_mem w (v * 4096 + (a - s * 512)) else disk w a) /\
      (forall x, live w x -> w_mem w' x = w_mem w x);
}.

(** The blocks of 8 sectors the cache can use. *)
Definition nblocks {W} `{BlockDriver W} : Z := sectors / 8.
Lemma nblocks_range {W} `{BlockDriver W} : 0 <= nblocks <= 2251799813685248.
Proof. pose proof sectors_range. unfold nblocks. dlia. Qed.
Lemma nblocks_sectors {W} `{BlockDriver W} b : b < nblocks -> b * 8 + 8 <= sectors.
Proof. unfold nblocks. dlia. Qed.
