(* ===== verification/BlockCache.v ===== *)
(** * The buffered block device (kernel/block_device.c, block_device.h)

    An LRU list of [CACHE_BLOCKS] page buffers in front of a block driver.
    Pointers to [BlockBuffer] are indices into [buffer_list] (every
    [BlockBuffer] the code points to is an element of that array), NULL is
    [None]. *)
From S2P Require Import Prelude Mem World.

Module BlockCache.

Definition SECTOR_SIZE : Z := 512.
Definition CACHE_BLOCKS : Z := 64.

Record BlockBuffer := mkBuf {
  valid : bool;
  dirty : bool;
  block_id : Z;
  vpn : Z;
  pfn : Z;
  next : option nat;
}.

Record BufferedBlockDevice := mkDev {
  buffer_head : option nat;
  cache_size : Z;
  size : Z;
  buffer_list : list BlockBuffer;
}.

Definition set_valid (v : bool) (b : BlockBuffer) :=
  mkBuf v (dirty b) (block_id b) (vpn b) (pfn b) (next b).
Definition set_dirty (v : bool) (b : BlockBuffer) :=
  mkBuf (valid b) v (block_id b) (vpn b) (pfn b) (next b).
Definition set_next (n : option nat) (b : BlockBuffer) :=
  mkBuf (valid b) (dirty b) (block_id b) (vpn b) (pfn b) n.
Definition set_head (h : option nat) (d : BufferedBlockDevice) :=
  mkDev h (cache_size d) (size d) (buffer_list d).
Definition set_cache_size (n : Z) (d : BufferedBlockDevice) :=
  mkDev (buffer_head d) n (size d) (buffer_list d).
Definition set_list (l : list BlockBuffer) (d : BufferedBlockDevice) :=
  mkDev (buffer_head d) (cache_size d) (size d) l.

(** The device of wrap_virtio_blk_device: no buffer in use. *)
Definition empty_buf : BlockBuffer := mkBuf false false 0 0 0 None.
Definition wrap_device (capacity : Z) : BufferedBlockDevice :=
  mkDev None 0 (u64 (capacity * SECTOR_SIZE)) (replicate (Z.to_nat CACHE_BLOCKS) empty_buf).

(** Where the search loop of get_block_buffer stops. *)
Inductive scan_result :=
  | Hit (prev : option nat) (ptr : nat)
  | Miss (prev : option nat) (ptr : option nat).

Fixpoint scan (fuel : nat) (bl : list BlockBuffer) (ptr prev : option nat) (id : Z)
  : outcome scan_result :=
  match fuel with
  | O => NoFuel
  | S k =>
      match ptr with
      | None => Ret (Miss prev None)
      | Some p =>
          match bl !! p with
          | None => Fault
          | Some b =>
              if block_id b =? id then Ret (Hit prev p)
              else match next b with
                   | None => Ret (Miss prev (Some p))
                   | Some q => scan k bl (Some q) (Some p) id
                   end
          end
      end
  end.

Section Ops.
Context {W : Type} `{BlockDriver W}.

Definition St : Type := BufferedBlockDevice * W.

Definition dev : M St BufferedBlockDevice := gets fst.
Definition put_dev (f : BufferedBlockDevice -> BufferedBlockDevice) : M St unit :=
  modify (fun s => (f (fst s), snd s)).
Definition world {A} (m : M W A) : M St A := fun s =>
  match m (snd s) with
  | Ret (a, w) => Ret (a, (fst s, w))
  | Panic => Panic | Fault => Fault | NoFuel => NoFuel
  end.

(** [*p] for a buffer pointer, and an update of one of its fields. *)
Definition deref (p : nat) : M St BlockBuffer :=
  d ← dev; lift (of_option (buffer_list d !! p)).
Definition update (p : nat) (f : BlockBuffer -> BlockBuffer) : M St unit :=
  b ← deref p; put_dev (fun d => set_list (<[p := f b]> (buffer_list d)) d).

Definition get_block_buffer (id : Z) : M St nat :=
  d ← dev;
  r ← lift (scan (S (Z.to_nat CACHE_BLOCKS)) (buffer_list d) (buffer_head d) None id);
  match r with
  | Hit None _ => lift (of_option (buffer_head d))
  | Hit (Some prev) ptr =>
      b ← deref ptr;
      update prev (set_next (next b));;
      update ptr (set_next (buffer_head d));;
      put_dev (set_head (Some ptr));;
      mret ptr
  | Miss prev ptr =>
      if cache_size d <? CACHE_BLOCKS then
        '(blk_pfn, blk_vpn) ← world (dmalloc 1 false);
        let i := Z.to_nat (cache_size d) in
        update i (fun _ => mkBuf false false id blk_vpn blk_pfn (buffer_head d));;
        put_dev (fun d' => set_cache_size (cache_size d' + 1) (set_head (Some i) d'));;
        mret i
      else
        p ← lift (of_option ptr);
        b ← deref p;
        (if valid b && dirty b
         then world (write_block (u64 (block_id b * (PAGESIZE / SECTOR_SIZE))) (vpn b) (pfn b));; mret tt
         else mret tt);;
        update p (set_next (buffer_head d));;
        q ← lift (of_option prev);
        update q (set_next None);;
        put_dev (set_head (Some p));;
        mret p
  end.

Definition fill (id : Z) (ptr : nat) : M St unit :=
  b ← deref ptr;
  st ← world (read_block (u64 (id * (PAGESIZE / SECTOR_SIZE))) (vpn b) (pfn b));
  if st =? 0 then update ptr (set_valid true) else mret tt.

Definition read_buffered_block (id buf : Z) : M St unit :=
  ptr ← get_block_buffer id;
  b ← deref ptr;
  (if valid b then mret tt
   else world (read_block (u64 (id * (PAGESIZE / SECTOR_SIZE))) (vpn b) (pfn b));;
        update ptr (set_valid true));;
  world (k_memcpy buf (PAGE_2_ADDR (vpn b)) PAGESIZE).

Definition write_buffered_block (id buf : Z) : M St unit :=
  ptr ← get_block_buffer id;
  update ptr (set_valid true);;
  update ptr (set_dirty true);;
  b ← deref ptr;
  world (k_memcpy (PAGE_2_ADDR (vpn b)) buf PAGESIZE).

(** One iteration of the loop of translate_bytes: the bytes
    [page_offset, temp_page) of block [id]. *)
Definition translate_block (id page_offset temp_page buffer : Z) (write : bool) : M St unit :=
  ptr ← get_block_buffer id;
  b ← deref ptr;
  if write then
    (if negb (valid b) && (negb (page_offset =? 0) || negb (temp_page =? PAGESIZE))
     then fill id ptr else mret tt);;
    update ptr (set_dirty true);;
    world (k_memcpy (ADDR (vpn b) page_offset) buffer (u64 (temp_page - page_offset)))
  else
    (if negb (valid b) then fill id ptr else mret tt);;
    world (k_memcpy buffer (ADDR (vpn b) page_offset) (u64 (temp_page - page_offset))).

Fixpoint translate_loop (fuel : nat) (id stop page_offset page_max buffer : Z) (write : bool)
  : M St unit :=
  match fuel with
  | O => mret tt
  | S k =>
      if id <? stop then
        let temp_page := if PAGESIZE <? page_max then PAGESIZE else page_max in
        let page_max' := if PAGESIZE <? page_max then u64 (page_max - PAGESIZE) else page_max in
        translate_block id page_offset temp_page buffer write;;
        translate_loop k (id + 1) stop 0 page_max' (u64 (buffer + temp_page - page_offset)) write
      else mret tt
  end.

Definition translate_bytes (offset buffer n : Z) (write : bool) : M St unit :=
  let page_offset := OFFSET offset in
  let first := ADDR_2_PAGE offset in
  let stop := ADDR_2_PAGEUP (offset + n) in
  translate_loop (Z.to_nat (stop - first)) first stop page_offset
    (u64 (page_offset + n)) buffer write.

Definition read_bytes (offset buffer n : Z) : M St Z :=
  translate_bytes offset buffer n false;; mret 0.
Definition write_bytes (offset buffer n : Z) : M St Z :=
  translate_bytes offset buffer n true;; mret 0.
Definition get_blk_size : M St Z := d ← dev; mret (size d).

(** sync_filesystem (kernel/filesystem.c): write every valid dirty buffer. *)
Fixpoint sync_loop (fuel : nat) (ptr : option nat) : M St unit :=
  match fuel with
  | O => lift NoFuel
  | S k =>
      match ptr with
      | None => mret tt
      | Some p =>
          b ← deref p;
          (if valid b && dirty b
           then world (write_block (u64 (block_id b * (PAGESIZE / SECTOR_SIZE))) (vpn b) (pfn b));; mret tt
           else mret tt);;
          sync_loop k (next b)
      end
  end.
Definition sync_filesystem : M St unit :=
  d ← dev; sync_loop (S (Z.to_nat CACHE_BLOCKS)) (buffer_head d).

End Ops.
End BlockCache.
