(* ===== verification/BlockCacheSpec.v ===== *)
(** * The block cache implements a flat byte device

    The abstract state of the cache is the list of its buffers without the
    list pointers ([Core]) and the world; [view] is the byte device it stands
    for.  The lemmas follow the operations of BlockCache.v; the properties of
    the component are at the end. *)
From S2P Require Import Prelude Mem World BlockCache.
Import BlockCache.

Record Core := mkCore {
  c_valid : bool; c_dirty : bool; c_id : Z; c_vpn : Z; c_pfn : Z;
}.
Definition core (b : BlockBuffer) : Core :=
  mkCore (valid b) (dirty b) (block_id b) (vpn b) (pfn b).

(** The path of [next] pointers from [h] through the buffers [l] to [t]. *)
Fixpoint seg (bl : list BlockBuffer) (h : option nat) (l : list nat) (t : option nat) : Prop :=
  match l with
  | [] => h = t
  | i :: l' => h = Some i /\ exists b, bl !! i = Some b /\ seg bl (next b) l' t
  end.

Lemma seg_app bl h l1 l2 t :
  seg bl h (l1 ++ l2) t <-> exists m, seg bl h l1 m /\ seg bl m l2 t.
Proof.
  revert h. induction l1 as [|i l1 IH]; intros h; simpl.
  - split; [eauto|]. by intros (m & -> & ?).
  - setoid_rewrite IH. split.
    + intros (-> & b & Hb & m & H1 & H2). eauto 10.
    + intros (m & (-> & b & Hb & H1) & H2). eauto 10.
Qed.

Lemma seg_insert bl h l t i b :
  i ∉ l -> seg bl h l t -> seg (<[i := b]> bl) h l t.
Proof.
  revert h. induction l as [|j l IH]; intros h Hi; simpl; [done|].
  intros (-> & b' & Hj & Hs). split; [done|]. exists b'.
  apply not_elem_of_cons in Hi as [Hne Hi]. split; [|by apply IH].
  by rewrite list_lookup_insert_ne.
Qed.

Lemma seg_last bl h l i b t t' :
  i ∉ l -> bl !! i = Some b -> seg bl h (l ++ [i]) t ->
  seg (<[i := set_next t' b]> bl) h (l ++ [i]) t'.
Proof.
  intros Hi Hb (m & Hl & Hm)%seg_app. apply seg_app. exists m.
  split; [by apply seg_insert|]. simpl in *. destruct Hm as (-> & _).
  split; [done|]. exists (set_next t' b). split; [|done].
  apply list_lookup_insert_eq. by eapply lookup_lt_Some.
Qed.

Lemma seg_in bl h l t i : seg bl h l t -> i ∈ l -> exists b, bl !! i = Some b.
Proof.
  revert h. induction l as [|j l IH]; intros h; simpl.
  - intros _ []%not_elem_of_nil.
  - intros (-> & b & Hb & Hs) [->|Hi]%elem_of_cons; eauto.
Qed.

(** [dev_inv d cs order]: the device's list is well formed, holds the buffers
    [cs], and links them in the order [order]. *)
Record dev_inv (d : BufferedBlockDevice) (cs : list Core) (order : list nat) : Prop := {
  di_len : length (buffer_list d) = 64%nat;
  di_size : cache_size d = Z.of_nat (length cs);
  di_max : (length cs <= 64)%nat;
  di_cores : core <$> take (length cs) (buffer_list d) = cs;
  di_seg : seg (buffer_list d) (buffer_head d) order None;
  di_perm : order ≡ₚ seq 0 (length cs);
}.

Lemma di_in d cs order i : dev_inv d cs order -> i ∈ order <-> (i < length cs)%nat.
Proof. intros [_ _ _ _ _ P]. rewrite P, elem_of_seq. lia. Qed.

Lemma di_nodup d cs order : dev_inv d cs order -> NoDup order.
Proof. intros [_ _ _ _ _ P]. rewrite P. apply NoDup_seq. Qed.

Lemma di_deref d cs order i c :
  dev_inv d cs order -> cs !! i = Some c ->
  exists b, buffer_list d !! i = Some b /\ core b = c.
Proof.
  intros [Hl Hs Hm Hc _ _] Hi. rewrite <- Hc in Hi.
  apply list_lookup_fmap_Some in Hi as (b & -> & Hb).
  apply lookup_take_Some in Hb as [Hb _]. eauto.
Qed.

Lemma di_core d cs order i b :
  dev_inv d cs order -> buffer_list d !! i = Some b -> (i < length cs)%nat ->
  cs !! i = Some (core b).
Proof.
  intros [Hl Hs Hm Hc _ _] Hi Hlt. rewrite <- Hc.
  by rewrite list_lookup_fmap, lookup_take_lt, Hi.
Qed.

(** Rewriting the [next] pointers keeps the cores. *)
Lemma cores_set_next (n : nat) bl i b t :
  bl !! i = Some b -> core <$> take n (<[i := set_next t b]> bl) = core <$> take n bl.
Proof.
  intros Hb. apply list_eq. intros j. rewrite !list_lookup_fmap.
  destruct (decide (j < n)%nat).
  - rewrite !lookup_take_lt by done. rewrite lookup_insert_list by (by eapply lookup_lt_Some).
    case_decide; [subst; by rewrite Hb|done].
  - by rewrite !lookup_take_ge by lia.
Qed.

Definition last_or (prev : option nat) (l : list nat) : option nat :=
  match last l with Some x => Some x | None => prev end.

Lemma last_or_cons prev i l : last_or prev (i :: l) = last_or (Some i) l.
Proof.
  unfold last_or. destruct l as [|j l]; [done|]. rewrite last_cons_cons.
  by destruct (last (j :: l)) eqn:E; [|apply last_None in E].
Qed.

Lemma scan_hit fuel bl h prev pre p post b id t :
  seg bl h (pre ++ p :: post) t -> bl !! p = Some b -> block_id b = id ->
  (forall i b', i ∈ pre -> bl !! i = Some b' -> block_id b' <> id) ->
  (length pre < fuel)%nat ->
  scan fuel bl h prev id = Ret (Hit (last_or prev pre) p).
Proof.
  revert h prev pre. induction fuel as [|k IH]; intros h prev pre Hs Hp Hid Hpre Hf; [lia|].
  destruct pre as [|i pre]; simpl in Hs; destruct Hs as (-> & b' & Hb' & Hs); cbn [scan].
  - rewrite Hp. subst id. by rewrite Z.eqb_refl.
  - rewrite Hb'. destruct (Z.eqb_spec (block_id b') id) as [E|E].
    { exfalso. by eapply Hpre; [apply elem_of_cons; left| |]. }
    assert (exists q, next b' = Some q) as [q Hq].
    { destruct pre; simpl in Hs; destruct Hs as (-> & _); eauto. }
    rewrite Hq. rewrite <- Hq. rewrite last_or_cons. apply IH; try done.
    + intros j b'' Hj. apply Hpre. by apply elem_of_cons; right.
    + simpl in Hf. lia.
Qed.

Lemma scan_miss fuel bl h prev l id :
  seg bl h l None -> (forall i b, i ∈ l -> bl !! i = Some b -> block_id b <> id) ->
  (length l < fuel)%nat ->
  scan fuel bl h prev id =
  Ret (Miss (last_or prev (take (pred (length l)) l)) (last l)).
Proof.
  revert h prev l. induction fuel as [|k IH]; intros h prev l Hs Hl Hf; [lia|].
  destruct l as [|i l]; simpl in Hs.
  - by subst.
  - destruct Hs as (-> & b & Hb & Hs). cbn [scan]. rewrite Hb.
    destruct (Z.eqb_spec (block_id b) id) as [E|E].
    { exfalso. by eapply Hl; [apply elem_of_cons; left| |]. }
    destruct l as [|j l]; simpl in Hs.
    + by rewrite Hs.
    + destruct Hs as (Hj & Hs). rewrite Hj.
      rewrite (IH (Some j) (Some i) (j :: l)); simpl in *; try done; try lia.
      * by rewrite last_or_cons.
      * intros i' b' Hi'. apply Hl. by apply elem_of_cons; right.
Qed.

(** ** One run of get_block_buffer *)
Ltac dsimp := cbn [fst snd buffer_list set_list set_head set_cache_size cache_size
  buffer_head size next set_next set_valid set_dirty valid dirty block_id vpn pfn] in *.

Section Cache.
Context {W : Type} `{BlockDriver W}.
Implicit Types (d : BufferedBlockDevice) (w : W) (cs : list Core).

Lemma run_deref d w p b :
  buffer_list d !! p = Some b -> deref p (d, w) = Ret (b, (d, w)).
Proof. intros Hb. unfold deref. mstep. cbn. by rewrite Hb. Qed.

Lemma run_update d w p b f :
  buffer_list d !! p = Some b ->
  update p f (d, w) = Ret (tt, (set_list (<[p := f b]> (buffer_list d)) d, w)).
Proof. intros Hb. unfold update. mstep_with run_deref. done. Qed.

Lemma run_world {A} (m : M W A) d w a w' :
  m w = Ret (a, w') -> world m (d, w) = Ret (a, (d, w')).
Proof. intros E. unfold world. cbn. by rewrite E. Qed.

(** Cache hit: the buffer moves to the front, nothing else changes. *)
Lemma get_block_buffer_hit d w cs order i c id :
  dev_inv d cs order -> cs !! i = Some c -> c_id c = id ->
  (forall j c', cs !! j = Some c' -> c_id c' = id -> j = i) ->
  exists d' order', get_block_buffer id (d, w) = Ret (i, (d', w)) /\
    dev_inv d' cs order' /\ head order' = Some i /\ size d' = size d.
Proof.
  intros Hd Hi Hid Huniq.
  destruct (di_deref _ _ _ _ _ Hd Hi) as (b & Hb & Hcb).
  assert (i ∈ order) as Hin by (eapply di_in; [done|]; by eapply lookup_lt_Some).
  pose proof (di_nodup _ _ _ Hd) as Hnd.
  apply list_elem_of_split in Hin as (pre & post & ->).
  assert (forall j b', j ∈ pre -> buffer_list d !! j = Some b' -> block_id b' <> id) as Hpre.
  { intros j b' Hj Hb' Hbid.
    assert (j < length cs)%nat by (eapply di_in; [done|]; set_solver).
    assert (j = i) as -> by (eapply Huniq; [by eapply di_core|done]).
    apply NoDup_app in Hnd as (_ & Hnd & _). apply (Hnd i Hj). set_solver. }
  pose proof Hd as [Hlen Hsz Hmax Hcs Hseg Hperm].
  assert (length pre < 65)%nat as Hlp.
  { apply (f_equal length) in Hcs. apply Permutation_length in Hperm.
    rewrite length_app, length_seq in Hperm. simpl in Hperm. lia. }
  unfold get_block_buffer. mstep.
  mstep_with (f_equal (fun o => lift o (d, w))
    (scan_hit 65 (buffer_list d) (buffer_head d) None pre i post b id None Hseg Hb
      ltac:(by rewrite <- Hid, <- Hcb) Hpre Hlp)).
  unfold last_or. destruct (last pre) as [q|] eqn:Hlast.
  - apply last_Some in Hlast as (pre' & ->).
    rewrite <- app_assoc in *. cbn [app] in *.
    apply seg_app in Hseg as (m & Hs1 & Hs2). cbn in Hs2.
    destruct Hs2 as (-> & bq & Hbq & Hnq & b'' & Hb'' & Hs3). simplify_eq.
    assert (NoDup (pre' ++ q :: i :: post)) as Hnd' by done.
    apply NoDup_app in Hnd' as (_ & Hn1 & Hn2).
    apply NoDup_cons in Hn2 as [Hq Hn2]. apply NoDup_cons in Hn2 as [Hip _].
    assert (q <> i) as Hqi by set_solver.
    assert (i ∉ pre') as Hipre by set_solver.
    assert (q ∉ pre') as Hqpre by set_solver.
    assert (<[q := set_next (next b) bq]> (buffer_list d) !! i = Some b) as Hb2
      by by rewrite list_lookup_insert_ne.
    mstep_with run_deref. mstep_with run_update.
    mstep_with (run_update (set_list _ d) _ i b _ Hb2). mstep. eexists _, (i :: pre' ++ q :: post). split; [reflexivity|]. split; [|done].
    split; dsimp; try done.
    + by rewrite !length_insert.
    + rewrite <- Hcs at 2. rewrite cores_set_next; [by rewrite (cores_set_next _ _ q)|].
      by rewrite list_lookup_insert_ne.
    + cbn [seg]. split; [done|]. exists (set_next (buffer_head d) b). split.
      { apply list_lookup_insert_eq. rewrite length_insert. by eapply lookup_lt_Some. }
      cbn [next set_next]. replace (pre' ++ q :: post) with ((pre' ++ [q]) ++ post) by by rewrite <- app_assoc.
      apply seg_app. exists (next b). split.
      * apply seg_insert; [set_solver|]. apply seg_last with (t := Some i); try done.
        apply seg_app. exists (Some q). split; [done|]. cbn. eauto.
      * apply seg_insert; [done|]. apply seg_insert; [set_solver|done].
    + rewrite <- Hperm. rewrite !(Permutation_middle pre').
      solve_Permutation.
  - apply last_None in Hlast as ->. cbn in Hseg. destruct Hseg as (Hh & Hrest).
    dsimp. rewrite Hh. eexists d, (i :: post). split; [done|]. by split.
Qed.

Lemma order_length d cs order : dev_inv d cs order -> length order = length cs.
Proof. intros [_ _ _ _ _ P]. apply Permutation_length in P. by rewrite length_seq in P. Qed.

Lemma no_id_in_order d cs order id :
  dev_inv d cs order -> (forall c, c ∈ cs -> c_id c <> id) ->
  forall i b, i ∈ order -> buffer_list d !! i = Some b -> block_id b <> id.
Proof.
  intros Hd Hno i b Hi Hb. eapply (Hno (core b)).
  eapply list_elem_of_lookup_2, di_core; [done..|]. by eapply di_in.
Qed.

(** Cache miss with a free slot: a fresh invalid buffer in front. *)
Lemma get_block_buffer_new d w cs order id p v w' :
  dev_inv d cs order -> (forall c, c ∈ cs -> c_id c <> id) -> (length cs < 64)%nat ->
  dmalloc 1 false w = Ret ((p, v), w') ->
  exists d', get_block_buffer id (d, w) = Ret (length cs, (d', w')) /\
    dev_inv d' (cs ++ [mkCore false false id v p]) (length cs :: order) /\ size d' = size d.
Proof.
  intros Hd Hno Hlt Hm. pose proof Hd as [Hlen Hsz Hmax Hcs Hseg Hperm].
  pose proof (order_length _ _ _ Hd) as Hol.
  unfold get_block_buffer. mstep.
  mstep_with (f_equal (fun o => lift o (d, w))
    (scan_miss 65 _ _ None order id Hseg (no_id_in_order _ _ _ _ Hd Hno) ltac:(lia))).
  dsimp. replace (cache_size d <? CACHE_BLOCKS) with true
    by (symmetry; apply Z.ltb_lt; unfold CACHE_BLOCKS; lia).
  mstep_with (run_world (dmalloc 1 false) d w _ w' Hm). cbn beta iota.
  rewrite Hsz, Nat2Z.id.
  destruct (lookup_lt_is_Some_2 (buffer_list d) (length cs) ltac:(lia)) as [b0 Hb0].
  mstep_with run_update. mstep. eexists. split; [reflexivity|]. split; [|done].
  assert (length cs ∉ order) as Hnin by (rewrite (di_in _ _ _ _ Hd); lia).
  split; dsimp; rewrite ?length_app, ?length_insert; simpl; try lia.
  - rewrite Nat.add_1_r, (take_S_r _ _ (mkBuf false false id v p (buffer_head d))).
    + rewrite fmap_app, take_insert_ge by lia. by rewrite Hcs.
    + apply list_lookup_insert_eq. lia.
  - split; [done|]. eexists. split; [apply list_lookup_insert_eq; lia|].
    by apply seg_insert.
  - rewrite Nat.add_1_r, seq_S, Hperm. by rewrite <- Permutation_cons_append.
Qed.

(** Cache miss with no free slot: the least recently used buffer is written
    back if it is dirty and moved to the front, and is returned as it is. *)
Lemma get_block_buffer_full d w cs pre q p id c st w' :
  dev_inv d cs (pre ++ [q; p]) -> (forall c, c ∈ cs -> c_id c <> id) -> length cs = 64%nat ->
  cs !! p = Some c ->
  (if c_valid c && c_dirty c
   then write_block (u64 (c_id c * 8)) (c_vpn c) (c_pfn c) w = Ret (st, w') else w' = w) ->
  exists d', get_block_buffer id (d, w) = Ret (p, (d', w')) /\
    dev_inv d' cs (p :: pre ++ [q]) /\ size d' = size d.
Proof.
  intros Hd Hno Hfull Hc Hw. pose proof Hd as [Hlen Hsz Hmax Hcs Hseg Hperm].
  pose proof (order_length _ _ _ Hd) as Hol. pose proof (di_nodup _ _ _ Hd) as Hnd.
  destruct (di_deref _ _ _ _ _ Hd Hc) as (b & Hb & <-).
  pose proof (no_id_in_order _ _ _ _ Hd Hno) as Hno'.
  unfold get_block_buffer. mstep.
  mstep_with (f_equal (fun o => lift o (d, w))
    (scan_miss 65 _ _ None _ id Hseg Hno' ltac:(lia))).
  replace (last (pre ++ [q; p])) with (Some p) 
    by (symmetry; change [q; p] with ([q] ++ [p]); by rewrite app_assoc, last_snoc).
  replace (last_or None (take (pred (length (pre ++ [q; p]))) (pre ++ [q; p]))) with (Some q).
  2:{ replace (pre ++ [q; p]) with ((pre ++ [q]) ++ [p]) by by rewrite <- app_assoc.
      rewrite length_app, Nat.add_1_r. cbn [pred length]. rewrite take_app_length.
      unfold last_or. by rewrite last_snoc. }
  dsimp. replace (cache_size d <? CACHE_BLOCKS) with false
    by (symmetry; apply Z.ltb_ge; unfold CACHE_BLOCKS; lia).
  mstep. mstep_with run_deref.
  assert ((if valid b && dirty b
           then world (write_block (u64 (block_id b * (PAGESIZE / SECTOR_SIZE))) (vpn b) (pfn b));; mret tt
           else mret tt) (d, w) = Ret (tt, (d, w'))) as E.
  { cbn in Hw. destruct (valid b && dirty b); [|by subst].
    mstep_with run_world. done. }
  rewrite (bind_ret_l _ _ _ _ _ E). clear E.
  apply seg_app in Hseg as (m & Hs1 & Hs2). cbn in Hs2.
  destruct Hs2 as (-> & bq & Hbq & Hnq & b' & Hb' & Hnp).
  apply NoDup_app in Hnd as (_ & Hn1 & Hn2). apply NoDup_cons in Hn2 as [Hqp _].
  assert (q <> p) as Hne by set_solver.
  assert (q ∉ pre) as Hqpre by set_solver. assert (p ∉ pre) as Hppre by set_solver.
  assert (<[p := set_next (buffer_head d) b]> (buffer_list d) !! q = Some bq) as Hq2
    by by rewrite list_lookup_insert_ne.
  mstep_with run_update. mstep.
  mstep_with (run_update (set_list _ d) _ q bq _ Hq2). mstep.
  eexists. split; [reflexivity|]. split; [|done].
  split; dsimp; try done.
  - by rewrite !length_insert.
  - rewrite <- Hcs at 2. rewrite cores_set_next by done. by rewrite (cores_set_next _ _ p).
  - cbn [seg]. split; [done|]. exists (set_next (buffer_head d) b). split.
    { rewrite list_lookup_insert_ne by done. apply list_lookup_insert_eq.
      by eapply lookup_lt_Some. }
    dsimp. apply seg_last with (t := Some p); [done|done|]. apply seg_insert; [set_solver|].
    apply seg_app. exists (Some q). split; [done|]. cbn. eauto.
  - rewrite <- Hperm. solve_Permutation.
Qed.

(** An update of the flags of buffer [i]. *)
Lemma update_core d w cs order i c f g :
  dev_inv d cs order -> cs !! i = Some c ->
  (forall b, next (f b) = next b) -> (forall b, core (f b) = g (core b)) ->
  exists d', update i f (d, w) = Ret (tt, (d', w)) /\ dev_inv d' (<[i := g c]> cs) order
    /\ size d' = size d.
Proof.
  intros Hd Hi Hf Hg. destruct (di_deref _ _ _ _ _ Hd Hi) as (b & Hb & <-).
  pose proof (run_update d w i b f Hb) as E. eexists. split; [exact E|]. split; [|done].
  pose proof Hd as [Hlen Hsz Hmax Hcs Hseg Hperm].
  split; dsimp; rewrite ?length_insert; try done.
  - rewrite <- Hg. rewrite take_insert_lt by (by eapply lookup_lt_Some).
    by rewrite list_fmap_insert, Hcs.
  - clear Hperm E Hd. revert Hseg. generalize (buffer_head d) as h.
    induction order as [|j l IH]; intros h; simpl; [done|].
    intros (-> & bj & Hj & Hs). split; [done|].
    destruct (decide (i = j)) as [->|].
    + exists (f b). simplify_eq. rewrite Hf. split; [|by apply IH].
      apply list_lookup_insert_eq. by eapply lookup_lt_Some.
    + exists bj. rewrite list_lookup_insert_ne by done. split; [done|by apply IH].
Qed.

(** ** The byte device a cache stands for *)
Definition find_id (cs : list Core) (id : Z) : option (nat * Core) :=
  list_find (fun c => c_id c = id) cs.

Definition view (cs : list Core) (w : W) (a : Z) : Z :=
  match find_id cs (a / 4096) with
  | Some (_, c) => if c_valid c then w_mem w (c_vpn c * 4096 + a mod 4096) else disk w a
  | None => disk w a
  end.

Definition in_cache (cs : list Core) (x : Z) : Prop :=
  exists i c, cs !! i = Some c /\ in_pages (c_vpn c) 1 x.

Record core_ok (w : W) (c : Core) : Prop := {
  co_id : 0 <= c_id c < nblocks;
  co_vpn : 0 <= c_vpn c /\ (c_vpn c + 1) * 4096 <= 18446744073709551616;
  co_backed : backed w (c_vpn c) (c_pfn c);
  co_live : forall x, in_pages (c_vpn c) 1 x -> live w x;
}.

Record state_ok (nq : nat) (d : BufferedBlockDevice) (w : W) (cs : list Core) (order : list nat) : Prop := {
  so_dev : dev_inv d cs order;
  so_ids : NoDup (c_id <$> cs);
  so_vpns : NoDup (c_vpn <$> cs);
  so_cores : forall i c, cs !! i = Some c -> core_ok w c;
  so_heap : heap_ok w;
  so_drv : dev_ok nq w;
}.

Lemma NoDup_fmap_lookup {A} (f : A -> Z) (l : list A) i j x y :
  NoDup (f <$> l) -> l !! i = Some x -> l !! j = Some y -> f x = f y -> i = j.
Proof.
  intros Hn Hi Hj E. eapply NoDup_lookup; [exact Hn| |].
  - rewrite list_lookup_fmap, Hi. done.
  - rewrite list_lookup_fmap, Hj. cbn. by rewrite E.
Qed.

Lemma find_id_None cs id : find_id cs id = None <-> forall c, c ∈ cs -> c_id c <> id.
Proof. unfold find_id. rewrite list_find_None, Forall_forall. done. Qed.

Lemma find_id_Some cs id i c :
  NoDup (c_id <$> cs) -> find_id cs id = Some (i, c) <-> cs !! i = Some c /\ c_id c = id.
Proof.
  intros Hn. unfold find_id. rewrite list_find_Some. split; [naive_solver|].
  intros [Hi Hc]. split; [done|]. split; [done|]. intros j y Hj Hlt Hy.
  assert (j = i); [|lia]. eapply (NoDup_fmap_lookup c_id); eauto. congruence.
Qed.

(** Two worlds that agree on the cached pages and on the disk have the same
    view. *)
Lemma view_agree cs w w' a :
  (forall i c, cs !! i = Some c -> forall x, in_pages (c_vpn c) 1 x -> w_mem w' x = w_mem w x) ->
  disk w' a = disk w a -> view cs w' a = view cs w a.
Proof.
  intros Hm Hd. unfold view. destruct (find_id cs (a / 4096)) as [[i c]|] eqn:E; [|done].
  destruct (c_valid c); [|done]. apply list_find_Some in E as (Hi & _ & _).
  eapply Hm; [done|]. unfold in_pages. dlia.
Qed.

Lemma find_id_snoc cs c id :
  find_id (cs ++ [c]) id =
  match find_id cs id with
  | Some r => Some r
  | None => if decide (c_id c = id) then Some (length cs, c) else None
  end.
Proof.
  unfold find_id. destruct (list_find _ cs) as [[i c']|] eqn:E.
  - by apply list_find_app_l.
  - rewrite list_find_app_r by done. cbn. case_decide; done.
Qed.

(** An invalid buffer does not change the view. *)
Lemma view_snoc cs c w a : c_valid c = false -> view (cs ++ [c]) w a = view cs w a.
Proof.
  intros Hc. unfold view. rewrite find_id_snoc.
  destruct (find_id cs (a / 4096)) as [[? ?]|]; [done|].
  case_decide; [by rewrite Hc|done].
Qed.

Lemma core_ok_mono w w' c :
  (forall x, live w x -> live w' x) -> (forall v p, backed w v p -> backed w' v p) ->
  core_ok w c -> core_ok w' c.
Proof. intros Hl Hb [? ? ? ?]. split; auto. Qed.

Lemma state_ok_mono nq nq' d w cs order :
  state_ok nq d w cs order -> (nq' <= nq)%nat -> state_ok nq' d w cs order.
Proof. intros [? ? ? ? ? ?] Hle. split; auto. by eapply dev_ok_mono. Qed.

(** Memory written at live addresses only. *)
Lemma state_ok_set nq d w cs order m :
  state_ok nq d w cs order -> (forall x, ~ live w x -> m x = w_mem w x) ->
  state_ok nq d (w_set m w) cs order.
Proof.
  intros [? ? ? Hc ? ?] Hm. split; auto.
  - intros i c Hi. eapply core_ok_mono; [..|by eapply Hc].
    + intros x. by rewrite (live_set m w).
    + intros v p. by rewrite backed_set.
  - by apply heap_ok_set.
  - by apply dev_ok_set.
Qed.

(** get_block_buffer when the block is cached or there is a free slot. *)
Lemma get_block_buffer_ok nq d w cs order id k :
  state_ok nq d w cs order -> 0 <= id < nblocks -> 0 <= k ->
  (find_id cs id = None -> (length cs < 64)%nat) ->
  avail w (k + match find_id cs id with Some _ => 0 | None => 1 end) ->
  exists i c d' w' cs' order',
    get_block_buffer id (d, w) = Ret (i, (d', w')) /\ state_ok nq d' w' cs' order' /\
    cs' !! i = Some c /\ c_id c = id /\ avail w' k /\
    cs' = match find_id cs id with Some _ => cs | None => cs ++ [c] end /\
    (find_id cs id = None -> c_valid c = false) /\
    (forall a, view cs' w' a = view cs w a) /\
    (forall x, live w x -> live w' x /\ w_mem w' x = w_mem w x) /\
    (forall x, live w x -> in_cache cs' x -> in_cache cs x) /\ size d' = size d.
Proof.
  intros Hs Hid Hk Hroom Hav. pose proof Hs as [Hd Hids Hvpns Hcores Hheap Hdrv].
  destruct (find_id cs id) as [[i c]|] eqn:Hf.
  - apply find_id_Some in Hf as [Hi Hc]; [|done].
    destruct (get_block_buffer_hit d w cs order i c id) as (d' & order' & E & Hd' & _ & Hsz);
      [done..| |].
    { intros j c' Hj Hc'. eapply (NoDup_fmap_lookup c_id); eauto. congruence. }
    exists i, c, d', w, cs, order'. rewrite Z.add_0_r in Hav.
    split; [done|]. split; [by split|]. repeat (split; [done|]). done.
  - assert (avail w 1) as Hav1 by (eapply avail_mono; [exact Hav|lia]).
    destruct (dmalloc_law 1 false w Hheap (or_introl (conj eq_refl Hav1)))
      as (p & v & w' & Em & Hh' & Hv & Hv2 & Hbk & Hbm & Hfresh & Hlive & Hmem & _ & Hav').
    specialize (Hav' _ eq_refl Hav).
    destruct (dev_dmalloc _ _ _ _ Hheap Hav1 Em) as [Hdrv' Hdisk].
    pose proof Hf as Hno. rewrite find_id_None in Hno.
    destruct (get_block_buffer_new d w cs order id p v w') as (d' & E & Hd' & Hsz); [by auto..|].
    set (c := mkCore false false id v p) in *.
    assert (forall i c', cs !! i = Some c' -> c_vpn c' <> v) as Hvne.
    { intros i c' Hi Hvv. destruct (Hcores _ _ Hi) as [_ _ _ Hl].
      eapply (Hfresh (v * 4096)); [|apply Hl]; unfold in_pages; lia. }
    exists (length cs), c, d', w', (cs ++ [c]), (length cs :: order).
    split; [done|]. split.
    { split; auto.
      - rewrite fmap_app. apply NoDup_app. split; [done|]. split; [|apply NoDup_singleton].
        intros x (c' & -> & Hc')%list_elem_of_fmap Hx%list_elem_of_singleton.
        by apply (Hno c').
      - rewrite fmap_app. apply NoDup_app. split; [done|]. split; [|apply NoDup_singleton].
        intros x (c' & -> & Hc')%list_elem_of_fmap Hx%list_elem_of_singleton.
        apply list_elem_of_lookup in Hc' as [i Hi]. by apply (Hvne i c').
      - intros i c' [Hi|(_ & Hi)]%lookup_app_Some.
        + eapply core_ok_mono; [| |by eapply Hcores]; [|done].
          intros x Hx. apply Hlive. by left.
        + apply list_lookup_singleton_Some in Hi as [_ <-]. split; cbn.
          * done.
          * split; [done|lia].
          * specialize (Hbk 0 ltac:(lia)). by rewrite !Z.add_0_r in Hbk.
          * intros x Hx. apply Hlive. by right. }
    split; [by rewrite lookup_app_r, Nat.sub_diag by lia|]. repeat (split; [done|]).
    split; [|split; [|split; [|done]]].
    + intros a. transitivity (view cs w' a).
      * by apply view_snoc.
      * apply view_agree; [|by rewrite Hdisk]. intros i c' Hi x Hx. apply Hmem.
        by eapply co_live; [by eapply Hcores|].
    + intros x Hx. split; [apply Hlive; by left|by apply Hmem].
    + intros x Hx (i & c' & [Hi|(_ & Hi)]%lookup_app_Some & Hp); [by exists i, c'|].
      apply list_lookup_singleton_Some in Hi as [_ <-]. by destruct (Hfresh x Hp).
Qed.

(** ** Filling and marking a buffer *)
Lemma find_id_insert cs i c c' id :
  NoDup (c_id <$> cs) -> cs !! i = Some c -> c_id c' = c_id c ->
  find_id (<[i := c']> cs) id = if decide (id = c_id c) then Some (i, c') else find_id cs id.
Proof.
  intros Hn Hi Hc.
  assert (c_id <$> <[i := c']> cs = c_id <$> cs) as Heq.
  { rewrite list_fmap_insert, Hc. apply list_insert_id. by rewrite list_lookup_fmap, Hi. }
  assert (NoDup (c_id <$> <[i := c']> cs)) as Hn' by by rewrite Heq.
  assert (i < length cs)%nat as Hlt by by eapply lookup_lt_Some.
  case_decide as E.
  - apply find_id_Some; [done|]. rewrite list_lookup_insert_eq by done. by subst.
  - destruct (find_id cs id) as [[j cj]|] eqn:F.
    + apply find_id_Some in F as [Hj Hcj]; [|done]. apply find_id_Some; [done|].
      split; [|done]. rewrite list_lookup_insert_ne; [done|]. intros <-. simplify_eq.
    + apply find_id_None. rewrite find_id_None in F. intros x (j & Hx)%list_elem_of_lookup Hid.
      destruct (decide (i = j)) as [<-|Hne].
      * rewrite list_lookup_insert_eq in Hx by done. simplify_eq.
      * rewrite list_lookup_insert_ne in Hx by done. eapply F; [|done].
        by eapply list_elem_of_lookup_2.
Qed.

Lemma state_ok_insert nq d d' w cs order i c c' :
  state_ok nq d w cs order -> cs !! i = Some c ->
  c_id c' = c_id c -> c_vpn c' = c_vpn c -> c_pfn c' = c_pfn c ->
  dev_inv d' (<[i := c']> cs) order -> state_ok nq d' w (<[i := c']> cs) order.
Proof.
  intros [Hd Hids Hvpns Hcores Hh Hdv] Hi E1 E2 E3 Hd'. split; try done.
  - by rewrite list_fmap_insert, E1, list_insert_id by by rewrite list_lookup_fmap, Hi.
  - by rewrite list_fmap_insert, E2, list_insert_id by by rewrite list_lookup_fmap, Hi.
  - intros j cj Hj. rewrite lookup_insert_list in Hj by (by eapply lookup_lt_Some).
    case_decide; [|by eapply Hcores]. simplify_eq.
    destruct (Hcores _ _ Hi) as [? ? ? ?]. split; rewrite ?E1, ?E2, ?E3; done.
Qed.

Lemma in_cache_insert cs i c c' x :
  cs !! i = Some c -> c_vpn c' = c_vpn c -> in_cache (<[i := c']> cs) x <-> in_cache cs x.
Proof.
  intros Hi E. assert (i < length cs)%nat by by eapply lookup_lt_Some.
  split; intros (j & cj & Hj & Hp).
  - rewrite lookup_insert_list in Hj by done. case_decide; [|by exists j, cj].
    simplify_eq. exists j, c. split; [done|]. by rewrite <- E.
  - destruct (decide (i = j)) as [<-|Hne].
    + simplify_eq. exists i, c'. rewrite list_lookup_insert_eq by done. by rewrite E.
    + exists j, cj. by rewrite list_lookup_insert_ne.
Qed.

Lemma other_page cs i j ci cj x :
  NoDup (c_vpn <$> cs) -> cs !! i = Some ci -> cs !! j = Some cj -> i <> j ->
  in_pages (c_vpn cj) 1 x -> ~ in_pages (c_vpn ci) 1 x.
Proof.
  intros Hn Hi Hj Hne Hp1 Hp2. apply Hne. eapply (NoDup_fmap_lookup c_vpn); eauto.
  unfold in_pages in *. lia.
Qed.

Definition mark_valid (c : Core) := mkCore true (c_dirty c) (c_id c) (c_vpn c) (c_pfn c).
Definition mark_dirty (c : Core) := mkCore (c_valid c) true (c_id c) (c_vpn c) (c_pfn c).

Lemma view_mark_dirty cs i c w a :
  NoDup (c_id <$> cs) -> cs !! i = Some c -> view (<[i := mark_dirty c]> cs) w a = view cs w a.
Proof.
  intros Hn Hi. unfold view. rewrite (find_id_insert cs i c) by done.
  case_decide as E; [|done].
  replace (find_id cs (a / 4096)) with (Some (i, c)); [done|]. symmetry.
  by apply find_id_Some.
Qed.

(** Reading a block from the device into its (invalid) buffer. *)
Lemma fill_ok nq d w cs order i c id :
  state_ok (S nq) d w cs order -> cs !! i = Some c -> c_id c = id -> c_valid c = false ->
  avail w 3 ->
  exists d' w', fill id i (d, w) = Ret (tt, (d', w')) /\
    state_ok nq d' w' (<[i := mark_valid c]> cs) order /\
    (forall a, view (<[i := mark_valid c]> cs) w' a = view cs w a) /\
    (forall x, live w' x <-> live w x) /\ (forall k, avail w k -> avail w' k) /\
    (forall x, live w x -> ~ in_cache cs x -> w_mem w' x = w_mem w x) /\ size d' = size d.
Proof.
  intros Hs Hi Hid Hv Hav. pose proof Hs as [Hd Hids Hvpns Hcores Hh Hdv].
  destruct (Hcores _ _ Hi) as [Hcid Hcv Hcb Hcl].
  destruct (di_deref _ _ _ _ _ Hd Hi) as (b & Hb & Hbc).
  pose proof nblocks_range as Hnb. pose proof (nblocks_sectors (c_id c) (proj2 Hcid)) as Hns.
  assert (u64 (id * (PAGESIZE / SECTOR_SIZE)) = id * 8) as Hsec
    by (apply u64_small; change (PAGESIZE / SECTOR_SIZE) with 8; lia).
  destruct (read_block_law nq (id * 8) (c_vpn c) (c_pfn c) w)
    as (w' & Er & Hh' & Hdv' & Hl' & Hb' & Ha' & Hdk & Hm); try done; try lia.
  destruct (update_core d w' cs order i c (set_valid true) mark_valid Hd Hi) as (d' & Eu & Hd' & Hsz);
    [done..|].
  exists d', w'. split.
  { unfold fill. mstep_with run_deref. rewrite Hsec. subst c.
    mstep_with run_world. exact Eu. }
  assert (state_ok nq d w' cs order) as Hs1.
  { split; try done. intros j cj Hj. eapply core_ok_mono; [..|by eapply Hcores].
    - intros x. by rewrite Hl'.
    - done. }
  split; [by apply (state_ok_insert nq d d' w' cs order i c)|].
  split; [|split; [done|split; [done|split; [|done]]]].
  - intros a. unfold view. rewrite (find_id_insert cs i c) by done.
    case_decide as E.
    + replace (find_id cs (a / 4096)) with (Some (i, c))
        by (symmetry; by apply find_id_Some). rewrite Hv. cbn.
      rewrite Hm by (apply Hcl; unfold in_pages; dlia).
      rewrite decide_True by (unfold in_pages; dlia). f_equal. dlia.
    + destruct (find_id cs (a / 4096)) as [[j cj]|] eqn:F; [|by rewrite Hdk].
      apply find_id_Some in F as [Hj Hcj]; [|done].
      destruct (c_valid cj); [|by rewrite Hdk].
      assert (in_pages (c_vpn cj) 1 (c_vpn cj * 4096 + a mod 4096)) as Hp
        by (unfold in_pages; dlia).
      rewrite Hm by (eapply co_live; [by eapply Hcores|done]).
      rewrite decide_False; [done|].
      eapply (other_page cs i j); try done. intros <-. simplify_eq.
  - intros x Hx Hn. rewrite Hm by done. rewrite decide_False; [done|].
    intros Hp. apply Hn. by exists i, c.
Qed.

(** ** One block of translate_bytes *)
Definition cached_valid (cs : list Core) (id : Z) : bool :=
  match find_id cs id with Some (_, c) => c_valid c | None => false end.

(** The block is in the cache, valid and marked for writing back. *)
Definition flushable (cs : list Core) (id : Z) : bool :=
  match find_id cs id with Some (_, c) => c_valid c && c_dirty c | None => false end.

Definition cost (cs : list Core) (id : Z) : Z :=
  match find_id cs id with Some _ => 0 | None => 1 end.

(** What a step of the cache code may do to the rest of the world. *)
Record step_frame (id : Z) (w w' : W) (cs cs' : list Core) : Prop := {
  sf_live : forall x, live w x -> live w' x;
  sf_cache : forall x, live w x -> in_cache cs' x -> in_cache cs x;
  sf_find : forall b, b <> id -> find_id cs' b = find_id cs b;
  sf_id : is_Some (find_id cs' id);
  sf_len : Z.of_nat (length cs') = Z.of_nat (length cs) + cost cs id;
}.

(** get_block_buffer followed by the conditional read of the block. *)
Lemma fetch_ok nq d w cs order id k (dofill : bool) :
  state_ok (S nq) d w cs order -> 0 <= id < nblocks -> 0 <= k ->
  (find_id cs id = None -> (length cs < 64)%nat) -> avail w (3 + k + cost cs id) ->
  exists i c b d1 w1 cs1 order1,
    (forall K : nat -> BlockBuffer -> M St unit,
      (ptr ← get_block_buffer id; b ← deref ptr;
       (if negb (valid b) && dofill then fill id ptr else mret tt);; K ptr b) (d, w)
      = K i b (d1, w1)) /\
    state_ok nq d1 w1 cs1 order1 /\ cs1 !! i = Some c /\ c_id c = id /\ vpn b = c_vpn c /\
    avail w1 (3 + k) /\ (forall a, view cs1 w1 a = view cs w a) /\
    (forall x, live w x -> ~ in_cache cs x -> w_mem w1 x = w_mem w x) /\
    step_frame id w w1 cs cs1 /\ c_valid c = cached_valid cs id || dofill /\ size d1 = size d.
Proof.
  intros Hs Hid Hk Hroom Hav.
  destruct (get_block_buffer_ok (S nq) d w cs order id (3 + k) Hs Hid ltac:(lia) Hroom Hav)
    as (i & c & d' & w' & cs' & order' & Eg & Hs' & Hi & Hc & Hav' & Hcs' & Hnv & Hview & Hlm & Hcache & Hsz).
  pose proof Hs' as [Hd' Hids' _ _ _ _]. pose proof Hs as [_ Hids _ _ _ _].
  destruct (di_deref _ _ _ _ _ Hd' Hi) as (b & Hb & Hbc).
  assert (c_valid c = cached_valid cs id) as Hcv.
  { unfold cached_valid. destruct (find_id cs id) as [[j cj]|] eqn:F; [|by apply Hnv].
    subst cs'. apply find_id_Some in F as [Hj Hcj]; [|done].
    assert (i = j) as -> by (eapply (NoDup_fmap_lookup c_id); eauto; congruence).
    by simplify_eq. }
  assert (step_frame id w w' cs cs') as Hfr.
  { split.
    - intros x Hx. by apply Hlm.
    - done.
    - intros b' Hb'. subst cs'. destruct (find_id cs id); [done|].
      rewrite find_id_snoc. destruct (find_id cs b'); [done|]. by rewrite decide_False by congruence.
    - exists (i, c). by apply find_id_Some.
    - unfold cost. subst cs'. destruct (find_id cs id); [lia|]. rewrite length_app; cbn; lia. }
  destruct (negb (valid b) && dofill) eqn:Ef.
  - apply andb_prop in Ef as [Hvb ->].
    assert (c_valid c = false) as Hvf by (subst c; cbn; by destruct (valid b)).
    destruct (fill_ok nq d' w' cs' order' i c id Hs' Hi Hc Hvf) as
      (d1 & w1 & Ef & Hs1 & Hv1 & Hl1 & Ha1 & Hm1 & Hsz1); [eapply avail_mono; eauto; lia|].
    exists i, (mark_valid c), b, d1, w1, (<[i := mark_valid c]> cs'), order'.
    split. { intros K. mstep_with Eg. mstep_with run_deref. rewrite Hvb. cbn [andb]. mstep_with Ef. done. }
    split; [done|]. split; [apply list_lookup_insert_eq; by eapply lookup_lt_Some|].
    split; [done|]. split; [by subst c|]. split; [by apply Ha1|].
    split; [intros a; by rewrite Hv1|]. split; [|split; [|split; [by rewrite orb_true_r|congruence]]].
    + intros x Hx Hn. destruct (Hlm x Hx) as [Hx' Hmx]. rewrite Hm1; [done|done|].
      intros Hin. by apply Hn, Hcache.
    + destruct Hfr as [F1 F2 F3 [r Hr] F5]. split.
      * intros x Hx. apply Hl1. by apply F1.
      * intros x Hx Hin. apply F2; [done|]. by rewrite in_cache_insert in Hin.
      * intros b' Hb'. rewrite (find_id_insert cs' i c) by done.
        rewrite decide_False by congruence. by apply F3.
      * rewrite (find_id_insert cs' i c) by done. rewrite decide_True by done. eauto.
      * by rewrite length_insert.
  - exists i, c, b, d', w', cs', order'.
    split. { intros K. mstep_with Eg. mstep_with run_deref. rewrite Ef. by mstep. }
    split; [eapply state_ok_mono; [done|lia]|].
    repeat (split; [first [done | by subst c]|]).
    split; [|split; [done|split; [|done]]].
    + intros x Hx _. by apply Hlm.
    + rewrite <- Hcv. subst c. cbn. by destruct (valid b), dofill.
Qed.

(** The caller's buffer: live memory that is not one of the cache's pages. *)
Definition user_buf (w : W) (cs : list Core) (buffer n : Z) : Prop :=
  0 <= buffer /\ buffer + n <= 18446744073709551616 /\
  forall x, buffer <= x < buffer + n -> live w x /\ ~ in_cache cs x.

Lemma user_buf_weaken w cs buffer n j m :
  user_buf w cs buffer n -> 0 <= j -> 0 <= m -> j + m <= n -> user_buf w cs (buffer + j) m.
Proof. intros (H1' & H2' & H3') ? ? ?. repeat split; try lia; apply H3'; lia. Qed.

Lemma user_buf_frame id w w' cs cs' buffer n :
  step_frame id w w' cs cs' -> user_buf w cs buffer n -> user_buf w' cs' buffer n.
Proof.
  intros [F1 F2 _ _ _] (Hb1 & Hb2 & Hb3). split; [done|]. split; [done|].
  intros x Hx. destruct (Hb3 x Hx) as [Hl Hn]. split; [by apply F1|].
  intros Hin. by apply Hn, F2.
Qed.

Lemma page_not_buf w cs buffer n i c x y :
  user_buf w cs buffer n -> cs !! i = Some c -> in_pages (c_vpn c) 1 x ->
  buffer <= y < buffer + n -> x <> y.
Proof. intros (_ & _ & Hb) Hi Hx Hy <-. destruct (Hb _ Hy) as [_ []]. by exists i, c. Qed.

(** A page and the buffer do not overlap. *)
Lemma page_buf_disjoint w cs buffer n i c po m :
  user_buf w cs buffer n -> cs !! i = Some c -> 0 <= po -> po + m <= 4096 -> 0 <= m <= n ->
  c_vpn c * 4096 + po + m <= buffer \/ buffer + m <= c_vpn c * 4096 + po.
Proof.
  intros Hb Hi Hpo Hm Hn. destruct (decide (m = 0)) as [->|Hm0].
  { lia. }
  destruct (decide (c_vpn c * 4096 + po + m <= buffer)); [by left|].
  destruct (decide (buffer + m <= c_vpn c * 4096 + po)); [by right|]. exfalso.
  set (x := Z.max buffer (c_vpn c * 4096 + po)).
  apply (page_not_buf w cs buffer n i c x x Hb Hi); unfold in_pages; lia.
Qed.

Lemma translate_block_read nq d w cs order id po tp buffer k :
  state_ok (S nq) d w cs order -> 0 <= id < nblocks -> 0 <= k ->
  (find_id cs id = None -> (length cs < 64)%nat) -> avail w (3 + k + cost cs id) ->
  0 <= po <= tp -> tp <= 4096 -> user_buf w cs buffer (tp - po) ->
  exists d' w' cs' order',
    translate_block id po tp buffer false (d, w) = Ret (tt, (d', w')) /\
    state_ok nq d' w' cs' order' /\ avail w' (3 + k) /\ step_frame id w w' cs cs' /\
    (forall a, view cs' w' a = view cs w a) /\
    (forall j, 0 <= j < tp - po -> w_mem w' (buffer + j) = view cs w (id * 4096 + po + j)) /\
    (forall x, live w x -> ~ in_cache cs x -> ~ (buffer <= x < buffer + (tp - po)) ->
       w_mem w' x = w_mem w x) /\ size d' = size d.
Proof.
  intros Hs Hid Hk Hroom Hav Hpo Htp Hbuf.
  destruct (fetch_ok nq d w cs order id k true Hs Hid Hk Hroom Hav) as
    (i & c & b & d1 & w1 & cs1 & order1 & Ef & Hs1 & Hi & Hc & Hvp & Hav1 & Hview & Hm1 & Hfr & Hcv & Hsz).
  rewrite orb_true_r in Hcv.
  pose proof (user_buf_frame _ _ _ _ _ _ _ Hfr Hbuf) as (Hb1 & Hb2 & Hb3).
  pose proof (so_cores _ _ _ _ _ Hs1 _ _ Hi) as [_ Hco _ _].
  assert (ADDR (vpn b) po = c_vpn c * 4096 + po \/ tp = po) as Hadr.
  { destruct (decide (tp = po)); [by right|left]. unfold ADDR, PAGESIZE. rewrite Hvp, u64_small; lia. }
  set (m := memcpy (w_mem w1) buffer (ADDR (vpn b) po) (tp - po)).
  assert (forall x, m x = if decide (buffer <= x < buffer + (tp - po))
            then w_mem w1 (c_vpn c * 4096 + po + (x - buffer)) else w_mem w1 x) as Hmx.
  { intros x. destruct Hadr as [Ha| ->].
    - subst m. rewrite Ha, memcpy_spec; try lia.
      + case_decide; zcases; done.
      + pose proof (page_buf_disjoint w1 cs1 buffer (tp - po) i c po (tp - po)
          ltac:(by repeat split; [..|apply Hb3|apply Hb3]) Hi ltac:(lia) ltac:(lia) ltac:(lia)). lia.
    - subst m. rewrite Z.sub_diag. unfold memcpy; cbn. case_decide; [lia|done]. }
  assert (forall x, ~ live w1 x -> m x = w_mem w1 x) as Hnl.
  { intros x Hx. rewrite Hmx. case_decide; [|done]. by destruct (Hb3 x). }
  exists d1, (w_set m w1), cs1, order1. split.
  { unfold translate_block. rewrite (u64_small (tp - po)) by lia.
    transitivity (world (k_memcpy buffer (ADDR (vpn b) po) (tp - po)) (d1, w1)); [|done].
    rewrite <- (Ef (fun _ b => world (k_memcpy buffer (ADDR (vpn b) po) (tp - po)))).
    unfold mbind, M_bind. destruct (get_block_buffer id (d, w)) as [[? ?]| | |]; try done.
    destruct (deref n s) as [[b' ?]| | |]; try done. by rewrite andb_true_r. }
  split; [by apply state_ok_set|]. split; [apply avail_set; [apply Hs1|done..]|]. split.
  { destruct Hfr as [? ? ? ? ?]. split; auto. intros x Hx.
    rewrite (live_set m w1); [auto|apply Hs1|done]. }
  split; [|split; [|split; [|done]]].
  - intros a. rewrite <- Hview. apply view_agree; [|by rewrite disk_set].
    intros j cj Hj x Hx. rewrite w_mem_set, Hmx. case_decide as E; [|done].
    destruct (Hb3 x E) as [_ []]. by exists j, cj.
  - intros j Hj. rewrite w_mem_set, Hmx, decide_True by lia.
    rewrite <- Hview. unfold view.
    replace ((id * 4096 + po + j) / 4096) with id by dlia.
    replace (find_id cs1 id) with (Some (i, c))
      by (symmetry; apply find_id_Some; [apply Hs1|done]).
    rewrite Hcv. f_equal. dlia.
  - intros x Hx Hn Ho. rewrite w_mem_set, Hmx, decide_False by done. by apply Hm1.
Qed.

(** Writing a part of a block, or a block that is valid in the cache. *)
(** The memory after the copy of a write: [tp - po] bytes at offset [po] of the
    page of the core [c]. *)
Definition page_write (m : mem) (c : Core) (po tp buffer x : Z) : Z :=
  if decide (c_vpn c * 4096 + po <= x < c_vpn c * 4096 + tp)
  then m (buffer + (x - (c_vpn c * 4096 + po))) else m x.

Lemma memcpy_page nq d w cs order i c po tp buffer x :
  state_ok nq d w cs order -> cs !! i = Some c -> 0 <= po <= tp -> tp <= 4096 ->
  user_buf w cs buffer (tp - po) ->
  memcpy (w_mem w) (ADDR (c_vpn c) po) buffer (tp - po) x = page_write (w_mem w) c po tp buffer x.
Proof.
  intros Hs Hi Hpo Htp (Hb1 & Hb2 & Hb3). pose proof (so_cores _ _ _ _ _ Hs _ _ Hi) as [_ Hco _ Hcl].
  unfold page_write. destruct (decide (tp = po)) as [->|Hne].
  - rewrite Z.sub_diag. unfold memcpy; cbn. case_decide; [lia|done].
  - assert (ADDR (c_vpn c) po = c_vpn c * 4096 + po) as Ha
      by (unfold ADDR, PAGESIZE; rewrite u64_small; lia).
    pose proof (page_buf_disjoint w cs buffer (tp - po) i c po (tp - po)
        ltac:(by repeat split; [..|apply Hb3|apply Hb3]) Hi ltac:(lia) ltac:(lia) ltac:(lia)).
    rewrite Ha, memcpy_spec; try lia. case_decide; zcases; done.
Qed.

(** The device after that copy, with the core marked dirty. *)
Lemma view_write nq d w cs order i c id po tp buffer m a :
  state_ok nq d w cs order -> cs !! i = Some c -> c_id c = id -> 0 <= po <= tp -> tp <= 4096 ->
  (forall x, m x = page_write (w_mem w) c po tp buffer x) ->
  view (<[i := mark_dirty c]> cs) (w_set m w) a =
  if decide (id * 4096 + po <= a < id * 4096 + tp /\ c_valid c = true)
  then w_mem w (buffer + (a - (id * 4096 + po))) else view cs w a.
Proof.
  intros Hs Hi Hc Hpo Htp Hmx. pose proof (so_ids _ _ _ _ _ Hs) as Hids.
  pose proof (so_vpns _ _ _ _ _ Hs) as Hvpns. pose proof (so_cores _ _ _ _ _ Hs _ _ Hi) as [_ Hco _ Hcl].
  unfold view at 1. rewrite (find_id_insert cs i c) by done.
  assert (view cs w a = match find_id cs (a / 4096) with
           | Some (_, c) => if c_valid c then w_mem w (c_vpn c * 4096 + a mod 4096) else disk w a
           | None => disk w a end) as Hv1 by done.
  case_decide as Ea.
  + rewrite Hv1. replace (find_id cs (a / 4096)) with (Some (i, c))
      by (symmetry; by apply find_id_Some).
    cbn [mark_dirty c_valid c_vpn]. rewrite w_mem_set, disk_set, Hmx. unfold page_write.
    destruct (c_valid c).
    * case_decide as E1; case_decide as E2; try done.
      -- replace (c_vpn c * 4096 + a mod 4096 - (c_vpn c * 4096 + po))
           with (a - (id * 4096 + po)) by dlia. done.
      -- exfalso. apply E2. split; [dlia|done].
      -- exfalso. apply E1. dlia.
    * rewrite decide_False; [done|]. by intros [_ ?].
  + rewrite decide_False by (intros [? _]; apply Ea; dlia). rewrite Hv1.
    destruct (find_id cs (a / 4096)) as [[j cj]|] eqn:F; [|by rewrite disk_set].
    apply find_id_Some in F as [Hj Hcj]; [|done].
    destruct (c_valid cj); [|by rewrite disk_set]. rewrite w_mem_set, Hmx. unfold page_write.
    rewrite decide_False; [done|]. intros Hp.
    eapply (other_page cs i j c cj); try done.
    * intros <-. simplify_eq.
    * unfold in_pages. instantiate (1 := c_vpn cj * 4096 + a mod 4096). dlia.
    * unfold in_pages. lia.
Qed.

Lemma translate_block_write nq d w cs order id po tp buffer k :
  state_ok (S nq) d w cs order -> 0 <= id < nblocks -> 0 <= k ->
  (find_id cs id = None -> (length cs < 64)%nat) -> avail w (3 + k + cost cs id) ->
  0 <= po <= tp -> tp <= 4096 -> user_buf w cs buffer (tp - po) ->
  exists d' w' cs' order',
    translate_block id po tp buffer true (d, w) = Ret (tt, (d', w')) /\
    state_ok nq d' w' cs' order' /\ avail w' (3 + k) /\ step_frame id w w' cs cs' /\
    (forall a, view cs' w' a =
       if decide (id * 4096 + po <= a < id * 4096 + tp /\
                  (cached_valid cs id = true \/ po <> 0 \/ tp <> 4096))
       then w_mem w (buffer + (a - (id * 4096 + po))) else view cs w a) /\
    flushable cs' id = cached_valid cs id || (negb (po =? 0) || negb (tp =? PAGESIZE)) /\
    (forall x, live w x -> ~ in_cache cs x -> w_mem w' x = w_mem w x) /\ size d' = size d.
Proof.
  intros Hs Hid Hk Hroom Hav Hpo Htp Hbuf.
  set (dofill := negb (po =? 0) || negb (tp =? PAGESIZE)).
  destruct (fetch_ok nq d w cs order id k dofill Hs Hid Hk Hroom Hav) as
    (i & c & b & d1 & w1 & cs1 & order1 & Ef & Hs1 & Hi & Hc & Hvp & Hav1 & Hview & Hm1 & Hfr & Hcv & Hsz).
  pose proof (user_buf_frame _ _ _ _ _ _ _ Hfr Hbuf) as Hb1.
  pose proof (so_cores _ _ _ _ _ Hs1 _ _ Hi) as [_ Hco _ Hcl].
  destruct (update_core d1 w1 cs1 order1 i c (set_dirty true) mark_dirty (so_dev _ _ _ _ _ Hs1) Hi)
    as (d2 & Eu & Hd2 & Hsz2); [done..|].
  assert (state_ok nq d2 w1 (<[i := mark_dirty c]> cs1) order1) as Hs2
    by by apply (state_ok_insert nq d1 d2 w1 cs1 order1 i c).
  set (m := memcpy (w_mem w1) (ADDR (vpn b) po) buffer (tp - po)).
  assert (forall x, m x = page_write (w_mem w1) c po tp buffer x) as Hmx.
  { intros x. subst m. rewrite Hvp. by apply (memcpy_page nq d1 w1 cs1 order1 i c). }
  assert (forall x, ~ live w1 x -> m x = w_mem w1 x) as Hnl.
  { intros x Hx. rewrite Hmx. unfold page_write. case_decide; [|done]. destruct Hx. apply Hcl. unfold in_pages. lia. }
  exists d2, (w_set m w1), (<[i := mark_dirty c]> cs1), order1. split.
  { unfold translate_block. rewrite (u64_small (tp - po)) by lia.
    replace (Ret (tt, (d2, w_set m w1))) with
      ((update i (set_dirty true);; world (k_memcpy (ADDR (vpn b) po) buffer (tp - po))) (d1, w1)).
    2:{ mstep_with Eu. done. }
    rewrite <- (Ef (fun ptr b => update ptr (set_dirty true);;
                                 world (k_memcpy (ADDR (vpn b) po) buffer (tp - po)))).
    done. }
  split; [by apply state_ok_set|]. split; [apply avail_set; [apply Hs1|done..]|]. split.
  { destruct Hfr as [F1 F2 F3 [r Hr] F5]. pose proof (so_ids _ _ _ _ _ Hs1). split.
    - intros x Hx. rewrite (live_set m w1); [auto|apply Hs1|done].
    - intros x Hx Hin. apply F2; [done|]. by rewrite in_cache_insert in Hin.
    - intros b' Hb'. rewrite (find_id_insert cs1 i c) by done.
      rewrite decide_False by congruence. by apply F3.
    - rewrite (find_id_insert cs1 i c) by done.
      rewrite decide_True by done. eauto.
    - by rewrite length_insert. }
  split; [|split; [|split; [|congruence]]].
  - intros a. rewrite <- Hview.
    rewrite (view_write nq d1 w1 cs1 order1 i c id po tp buffer) by done.
    assert (c_valid c = true <-> cached_valid cs id = true \/ po <> 0 \/ tp <> 4096) as Hiff.
    { rewrite Hcv. subst dofill. change PAGESIZE with 4096.
      destruct (cached_valid cs id); cbn; [by intuition|].
      destruct (Z.eqb_spec po 0), (Z.eqb_spec tp 4096); cbn; intuition (try done; try lia). }
    destruct (decide (id * 4096 + po <= a < id * 4096 + tp /\ c_valid c = true)) as [[Ha Hv]|Hn].
    + rewrite decide_True by tauto. destruct Hbuf as (_ & _ & Hb4).
      destruct (Hb4 (buffer + (a - (id * 4096 + po)))) as [? ?]; [lia|]. by apply Hm1.
    + rewrite decide_False; [done|]. clear -Hn Hiff. tauto.
  - unfold flushable. rewrite (find_id_insert cs1 i c) by (done || apply Hs1).
    rewrite decide_True by done. cbn. by rewrite Hcv, andb_true_r.
  - intros x Hx Hn. rewrite w_mem_set, Hmx. unfold page_write. rewrite decide_False.
    + by apply Hm1.
    + intros Hp. apply Hn. apply (sf_cache _ _ _ _ _ Hfr); [done|].
      exists i, c. split; [done|]. unfold in_pages. lia.
Qed.

(** ** The loop over the blocks of a range *)

(** How many of the blocks [id, id + n) are not cached. *)
Fixpoint missing (cs : list Core) (id : Z) (n : nat) : Z :=
  match n with O => 0 | S k => cost cs id + missing cs (id + 1) k end.

Lemma cost_range cs id : 0 <= cost cs id <= 1.
Proof. unfold cost. destruct (find_id cs id); lia. Qed.

Lemma missing_range cs id n : 0 <= missing cs id n <= Z.of_nat n.
Proof.
  revert id. induction n as [|n IH]; intros id; cbn [missing]; [lia|].
  pose proof (cost_range cs id). specialize (IH (id + 1)). lia.
Qed.

Lemma missing_frame id w w' cs cs' id' n :
  step_frame id w w' cs cs' -> id < id' -> missing cs' id' n = missing cs id' n.
Proof.
  intros Hf. revert id'. induction n as [|n IH]; intros id' Hlt; cbn [missing]; [done|].
  rewrite IH by lia. unfold cost. by rewrite (sf_find _ _ _ _ _ Hf) by lia.
Qed.

Lemma missing_room cs id n :
  Z.of_nat (length cs) + missing cs id (S n) <= 64 ->
  find_id cs id = None -> (length cs < 64)%nat.
Proof.
  cbn [missing]. intros Hm Hf. unfold cost in Hm. rewrite Hf in Hm.
  pose proof (missing_range cs (id + 1) n). lia.
Qed.

(** The state changes allowed over a whole loop. *)
Record loop_frame (w w' : W) (cs cs' : list Core) : Prop := {
  lf_live : forall x, live w x -> live w' x;
  lf_cache : forall x, live w x -> in_cache cs' x -> in_cache cs x;
}.

Definition range_ok (w : W) (cs : list Core) (id po r : Z) (n : nat) : Prop :=
  0 <= id /\ id + Z.of_nat n <= nblocks /\ 0 <= po < 4096 /\ 0 <= r /\
  Z.of_nat n = (po + r + 4095) / 4096 /\
  Z.of_nat (length cs) + missing cs id n <= 64 /\ avail w (3 + missing cs id n).

Lemma range_ok_next w w' cs cs' id po r n :
  range_ok w cs id po r (S n) -> step_frame id w w' cs cs' ->
  avail w' (3 + missing cs (id + 1) n) ->
  range_ok w' cs' (id + 1) 0 (po + r - Z.min 4096 (po + r)) n.
Proof.
  intros (? & ? & ? & ? & Hn & Hl & _) Hf Hav. cbn [missing] in Hl.
  unfold range_ok. rewrite (missing_frame _ _ _ _ _ _ _ Hf) by lia.
  rewrite (sf_len _ _ _ _ _ Hf). repeat split; try lia; [|done]. dlia.
Qed.

(** One turn of the loop: the block up to [tp], then the rest. *)
Definition next_max (po r : Z) : Z := if 4096 <? po + r then u64 (po + r - 4096) else po + r.

Lemma loop_unroll n id po r buffer wr (s s1 : St) (tp := Z.min 4096 (po + r)) :
  0 <= po < 4096 -> 0 <= r -> Z.of_nat (S n) = (po + r + 4095) / 4096 -> 0 <= buffer -> buffer + r <= 18446744073709551616 ->
  translate_block id po tp buffer wr s = Ret (tt, s1) ->
  translate_loop (S n) id (id + Z.of_nat (S n)) po (po + r) buffer wr s =
  translate_loop n (id + 1) (id + 1 + Z.of_nat n) 0 (next_max po r) (buffer + (tp - po)) wr s1.
Proof.
  intros Hpo Hr Hn Hb0 Hb1 E. cbn [translate_loop]. change PAGESIZE with 4096.
  replace (id <? id + Z.of_nat (S n)) with true by (symmetry; apply Z.ltb_lt; lia).
  replace (if 4096 <? po + r then 4096 else po + r) with tp by (subst tp; zcases; lia).
  rewrite (bind_ret_l _ _ _ _ _ E). destruct n as [|n]; [done|]. assert (4096 < po + r) as Hgt by dlia.
  replace (u64 (buffer + tp - po)) with (buffer + (tp - po)) by (subst tp; rewrite u64_small; lia).
  by replace (id + Z.of_nat (S (S n))) with (id + 1 + Z.of_nat (S n)) by lia.
Qed.

Lemma next_max_ok po r n : 0 <= po < 4096 -> 0 <= r <= 18446744073709551616 -> Z.of_nat (S n) = (po + r + 4095) / 4096 ->
  n = O \/ next_max po r = 0 + (po + r - Z.min 4096 (po + r)).
Proof.
  intros Hpo Hr Hn. unfold next_max. destruct (Z.ltb_spec 4096 (po + r)); [right; rewrite u64_small; lia|left; dlia].
Qed.

Lemma loop_frame_step id w w1 w2 cs cs1 cs2 : step_frame id w w1 cs cs1 -> loop_frame w1 w2 cs1 cs2 -> loop_frame w w2 cs cs2.
Proof.
  intros Hf1 Hf2. split; [intros x Hx; apply Hf2, Hf1, Hx|].
  intros x Hx Hin. apply (sf_cache _ _ _ _ _ Hf1); [done|]. apply (lf_cache _ _ _ _ Hf2); [by apply Hf1|done].
Qed.

Lemma translate_loop_read n : forall nq d w cs order id po r pm buffer,
  state_ok (n + nq) d w cs order -> range_ok w cs id po r n -> (n = O \/ pm = po + r) ->
  user_buf w cs buffer r ->
  exists d' w' cs' order',
    translate_loop n id (id + Z.of_nat n) po pm buffer false (d, w) = Ret (tt, (d', w')) /\
    state_ok nq d' w' cs' order' /\ avail w' 3 /\ loop_frame w w' cs cs' /\
    (forall a, view cs' w' a = view cs w a) /\
    (forall j, 0 <= j < r -> w_mem w' (buffer + j) = view cs w (id * 4096 + po + j)) /\
    (forall x, live w x -> ~ in_cache cs x -> ~ (buffer <= x < buffer + r) ->
       w_mem w' x = w_mem w x) /\ size d' = size d.
Proof.
  induction n as [|n IH]; intros nq d w cs order id po r pm buffer Hs Hr Hpm Hbuf;
    pose proof Hr as (Hid & Hidn & Hpo & Hr0 & Hn & Hlen & Hav).
  - exists d, w, cs, order. split; [done|]. split; [done|]. split; [done|]. split; [by split|].
    split; [done|]. split; [intros j Hj; exfalso; dlia|done].
  - destruct Hpm as [Hz | ->]; [done|]. set (tp := Z.min 4096 (po + r)). assert (po <= tp /\ tp <= 4096 /\ tp <= po + r) as Htp by lia.
    cbn [missing] in Hav. pose proof (missing_range cs (id + 1) n) as Hmr. pose proof Hbuf as (Hb0 & Hb1 & Hb2).
    destruct (translate_block_read (n + nq) d w cs order id po tp buffer (missing cs (id + 1) n))
      as (d1 & w1 & cs1 & o1 & E1 & Hs1 & Hav1 & Hf1 & Hv1 & Hr1 & Hm1 & Hsz1); try done; try lia.
    { by eapply missing_room. }
    { by replace (3 + missing cs (id + 1) n + cost cs id) with (3 + (cost cs id + missing cs (id + 1) n)) by lia. }
    { rewrite <- (Z.add_0_r buffer). eapply user_buf_weaken; [done|lia..]. }
    pose proof (range_ok_next _ _ _ _ _ _ _ _ Hr Hf1 Hav1) as Hr1'. fold tp in Hr1'.
    destruct (IH nq d1 w1 cs1 o1 (id + 1) 0 (po + r - tp) (next_max po r) (buffer + (tp - po)) Hs1 Hr1')
      as (d2 & w2 & cs2 & o2 & E2 & Hs2 & Hav2 & Hf2 & Hv2 & Hr2 & Hm2 & Hsz2).
    { apply next_max_ok; [done|lia|done]. }
    { eapply user_buf_weaken with (n := r); [by eapply user_buf_frame|lia..]. }
    exists d2, w2, cs2, o2. split; [rewrite (loop_unroll n id po r buffer false _ _ Hpo Hr0 Hn Hb0 Hb1 E1); exact E2|].
    split; [done|]. split; [done|]. split; [by eapply loop_frame_step|].
    split; [intros a; by rewrite Hv2|]. split; [|split; [|congruence]].
    + intros j Hj. destruct (decide (j < tp - po)).
      * destruct (user_buf_frame _ _ _ _ _ _ _ Hf1 Hbuf) as (_ & _ & Hb3).
        rewrite Hm2; [apply Hr1; lia| | |lia]; apply Hb3; lia.
      * replace (buffer + j) with (buffer + (tp - po) + (j - (tp - po))) by lia.
        rewrite Hr2, Hv1 by lia. f_equal. lia.
    + intros x Hx Hn' Ho. rewrite Hm2; [apply Hm1; try done; lia|by apply Hf1| |lia].
      intros Hin. by apply Hn', (sf_cache _ _ _ _ _ Hf1).
Qed.

(** Every block of the range that is overwritten as a whole is already valid
    in the cache. *)
Definition whole_blocks_valid (cs : list Core) (off r : Z) : Prop :=
  forall b, off <= b * 4096 -> (b + 1) * 4096 <= off + r -> cached_valid cs b = true.

(** A block that is valid in the cache or written in part only. *)
Lemma translate_block_write_kept nq d w cs order id po tp buffer k :
  state_ok (S nq) d w cs order -> 0 <= id < nblocks -> 0 <= k ->
  (find_id cs id = None -> (length cs < 64)%nat) -> avail w (3 + k + cost cs id) ->
  0 <= po <= tp -> tp <= 4096 -> user_buf w cs buffer (tp - po) ->
  (po = 0 -> tp = 4096 -> cached_valid cs id = true) ->
  exists d' w' cs' order',
    translate_block id po tp buffer true (d, w) = Ret (tt, (d', w')) /\
    state_ok nq d' w' cs' order' /\ avail w' (3 + k) /\ step_frame id w w' cs cs' /\
    (forall a, view cs' w' a =
       if decide (id * 4096 + po <= a < id * 4096 + tp)
       then w_mem w (buffer + (a - (id * 4096 + po))) else view cs w a) /\
    flushable cs' id = true /\
    (forall x, live w x -> ~ in_cache cs x -> w_mem w' x = w_mem w x) /\ size d' = size d.
Proof.
  intros Hs Hid Hk Hroom Hav Hpo Htp Hbuf Hwh.
  destruct (translate_block_write nq d w cs order id po tp buffer k)
    as (d1 & w1 & cs1 & o1 & E1 & Hs1 & Hav1 & Hf1 & Hv1 & Hfl1 & Hm1 & Hsz1); try done.
  assert (cached_valid cs id = true \/ po <> 0 \/ tp <> 4096) as Hval.
  { destruct (decide (po = 0)); [|by right; left]. destruct (decide (tp = 4096)); [|by right; right].
    left. by apply Hwh. }
  exists d1, w1, cs1, o1. split; [done|]. split; [done|]. split; [done|]. split; [done|].
  split; [|split; [|done]].
  - intros a. rewrite Hv1. apply decide_ext. clear -Hval. tauto.
  - rewrite Hfl1. change PAGESIZE with 4096. destruct Hval as [-> | [?|?]]; [done|..];
      destruct (cached_valid cs id); zcases; done.
Qed.

Lemma translate_loop_write n : forall nq d w cs order id po r pm buffer,
  state_ok (n + nq) d w cs order -> range_ok w cs id po r n -> (n = O \/ pm = po + r) ->
  user_buf w cs buffer r -> whole_blocks_valid cs (id * 4096 + po) r ->
  exists d' w' cs' order',
    translate_loop n id (id + Z.of_nat n) po pm buffer true (d, w) = Ret (tt, (d', w')) /\
    state_ok nq d' w' cs' order' /\ avail w' 3 /\ loop_frame w w' cs cs' /\
    (forall a, view cs' w' a =
       if decide (id * 4096 + po <= a < id * 4096 + po + r)
       then w_mem w (buffer + (a - (id * 4096 + po))) else view cs w a) /\
    (forall b, b < id -> find_id cs' b = find_id cs b) /\
    (forall b, id <= b < id + Z.of_nat n -> flushable cs' b = true) /\
    (forall x, live w x -> ~ in_cache cs x -> w_mem w' x = w_mem w x) /\ size d' = size d.
Proof.
  induction n as [|n IH]; intros nq d w cs order id po r pm buffer Hs Hr Hpm Hbuf Hwh;
    pose proof Hr as (Hid & Hidn & Hpo & Hr0 & Hn & Hlen & Hav).
  - exists d, w, cs, order. split; [done|]. split; [done|]. split; [done|]. split; [by split|].
    split; [intros a; rewrite decide_False; [done|dlia]|].
    split; [done|]. split; [intros; lia|done].
  - destruct Hpm as [Hz | ->]; [done|]. set (tp := Z.min 4096 (po + r)). assert (po <= tp /\ tp <= 4096 /\ tp <= po + r) as Htp by lia.
    cbn [missing] in Hav. pose proof (missing_range cs (id + 1) n) as Hmr. pose proof Hbuf as (Hb0 & Hb1 & Hb2).
    destruct (translate_block_write_kept (n + nq) d w cs order id po tp buffer (missing cs (id + 1) n))
      as (d1 & w1 & cs1 & o1 & E1 & Hs1 & Hav1 & Hf1 & Hv1' & Hfl1' & Hm1 & Hsz1); try done; try lia.
    { by eapply missing_room. }
    { by replace (3 + missing cs (id + 1) n + cost cs id) with (3 + (cost cs id + missing cs (id + 1) n)) by lia. }
    { rewrite <- (Z.add_0_r buffer). eapply user_buf_weaken; [done|lia..]. }
    { intros -> Htp'. apply Hwh; lia. }
    pose proof (range_ok_next _ _ _ _ _ _ _ _ Hr Hf1 Hav1) as Hr1'. fold tp in Hr1'.
    destruct (IH nq d1 w1 cs1 o1 (id + 1) 0 (po + r - tp) (next_max po r) (buffer + (tp - po)) Hs1 Hr1')
      as (d2 & w2 & cs2 & o2 & E2 & Hs2 & Hav2 & Hf2 & Hv2 & Hfi2 & Hfl2 & Hm2 & Hsz2).
    { apply next_max_ok; [done|lia|done]. }
    { eapply user_buf_weaken with (n := r); [by eapply user_buf_frame|lia..]. }
    { intros b Hb3 Hb4. unfold cached_valid. rewrite (sf_find _ _ _ _ _ Hf1) by lia. apply Hwh; lia. }
    exists d2, w2, cs2, o2. split; [rewrite (loop_unroll n id po r buffer true _ _ Hpo Hr0 Hn Hb0 Hb1 E1); exact E2|].
    split; [done|]. split; [done|]. split; [by eapply loop_frame_step|].
    split; [|split; [|split; [|split; [|congruence]]]].
    + intros a. rewrite Hv2, Hv1'. gdecide; try done.
      replace (buffer + (tp - po) + (a - ((id + 1) * 4096 + 0)))
        with (buffer + (a - (id * 4096 + po))) by lia.
      apply Hm1; apply Hb2; lia.
    + intros b Hb. rewrite Hfi2 by lia. apply Hf1. lia.
    + intros b Hb. destruct (decide (b = id)) as [->|]; [|apply Hfl2; lia].
      unfold flushable. rewrite Hfi2 by lia. done.
    + intros x Hx Hn'. rewrite Hm2; [by apply Hm1|by apply Hf1|].
      intros Hin. by apply Hn', (sf_cache _ _ _ _ _ Hf1).
Qed.

(** ** read_bytes and write_bytes *)
Definition io_ok (nq : nat) (d : BufferedBlockDevice) (w : W) (cs : list Core) (order : list nat)
    (offset buffer n : Z) : Prop :=
  let blocks := Z.to_nat ((offset mod 4096 + n + 4095) / 4096) in
  state_ok (blocks + nq) d w cs order /\ 0 <= offset /\ 0 <= n /\
  offset + n <= nblocks * 4096 /\ user_buf w cs buffer n /\
  Z.of_nat (length cs) + missing cs (offset / 4096) blocks <= 64 /\
  avail w (3 + missing cs (offset / 4096) blocks).

Lemma translate_bytes_loop nq d w cs order offset buffer n write :
  io_ok nq d w cs order offset buffer n ->
  let blocks := Z.to_nat ((offset mod 4096 + n + 4095) / 4096) in
  range_ok w cs (offset / 4096) (offset mod 4096) n blocks /\
  translate_bytes offset buffer n write =
  translate_loop blocks (offset / 4096) (offset / 4096 + Z.of_nat blocks) (offset mod 4096)
    (offset mod 4096 + n) buffer write.
Proof.
  intros (Hs & Ho & Hn & Hon & Hb & Hlen & Hav) blocks. pose proof nblocks_range as Hnb.
  assert (Z.of_nat blocks = (offset mod 4096 + n + 4095) / 4096) as Hbl by (subst blocks; dlia).
  assert ((offset + n + 4095) / 4096 = offset / 4096 + Z.of_nat blocks) as Hst by dlia.
  split.
  - unfold range_ok. repeat split; try done; dlia.
  - unfold translate_bytes.
    rewrite OFFSET_mod, ADDR_2_PAGE_div, ADDR_2_PAGEUP_ceil, (u64_small offset) by lia.
    rewrite (u64_small (offset mod 4096 + n)) by dlia. rewrite Hst.
    f_equal. lia.
Qed.

(** Reading through the cache: the call returns 0 with the device's bytes in
    the buffer, and neither the device nor the rest of the memory changes. *)
Lemma read_bytes_ok nq d w cs order offset buffer n :
  io_ok nq d w cs order offset buffer n ->
  exists d' w' cs' order',
    read_bytes offset buffer n (d, w) = Ret (0, (d', w')) /\
    state_ok nq d' w' cs' order' /\ avail w' 3 /\
    (forall j, 0 <= j < n -> w_mem w' (buffer + j) = view cs w (offset + j)) /\
    (forall a, view cs' w' a = view cs w a) /\
    (forall x, live w x -> ~ in_cache cs x -> ~ (buffer <= x < buffer + n) ->
       w_mem w' x = w_mem w x) /\ loop_frame w w' cs cs' /\ size d' = size d.
Proof.
  intros Hio. destruct (translate_bytes_loop _ _ _ _ _ _ _ _ false Hio) as [Hr E].
  destruct Hio as (Hs & Ho & Hn & Hon & Hb & _).
  destruct (translate_loop_read _ nq d w cs order _ _ n _ buffer Hs Hr ltac:(by right) Hb)
    as (d' & w' & cs' & o' & E' & Hs' & Hav' & Hf & Hv & Hr' & Hm & Hsz).
  exists d', w', cs', o'. split. { unfold read_bytes. rewrite E. by mstep_with E'. }
  split; [done|]. split; [done|]. split; [|split; [done|split; [done|done]]].
  intros j Hj. rewrite Hr' by done. f_equal. dlia.
Qed.

(** Writing through the cache, when every block that is overwritten as a
    whole is already valid in it: the call returns 0 and the device holds the
    buffer's bytes at the range and its old bytes elsewhere. *)
Lemma write_bytes_ok nq d w cs order offset buffer n :
  io_ok nq d w cs order offset buffer n -> whole_blocks_valid cs offset n ->
  exists d' w' cs' order',
    write_bytes offset buffer n (d, w) = Ret (0, (d', w')) /\
    state_ok nq d' w' cs' order' /\ avail w' 3 /\
    (forall a, view cs' w' a =
       if decide (offset <= a < offset + n) then w_mem w (buffer + (a - offset))
       else view cs w a) /\
    (forall a, offset <= a < offset + n -> flushable cs' (a / 4096) = true) /\
    (forall x, live w x -> ~ in_cache cs x -> w_mem w' x = w_mem w x) /\
    loop_frame w w' cs cs' /\ size d' = size d.
Proof.
  intros Hio Hwh. destruct (translate_bytes_loop _ _ _ _ _ _ _ _ true Hio) as [Hr E].
  destruct Hio as (Hs & Ho & Hn & Hon & Hb & _).
  assert (offset / 4096 * 4096 + offset mod 4096 = offset) as Hoff by dlia.
  destruct (translate_loop_write _ nq d w cs order _ _ n _ buffer Hs Hr ltac:(by right) Hb)
    as (d' & w' & cs' & o' & E' & Hs' & Hav' & Hf & Hv & _ & Hfl & Hm & Hsz); [by rewrite Hoff|].
  rewrite Hoff in Hv.
  exists d', w', cs', o'. split. { unfold write_bytes. rewrite E. by mstep_with E'. }
  split; [done|]. split; [done|]. split; [done|]. split; [|done]. intros a Ha. apply Hfl. dlia.
Qed.

(** ** sync_filesystem *)
Definition writes_back (cs : list Core) (b : Z) (p : nat) : bool :=
  match cs !! p with
  | Some c => (c_id c =? b) && (c_valid c && c_dirty c)
  | None => false
  end.

Lemma writes_back_find cs b p :
  NoDup (c_id <$> cs) -> writes_back cs b p = true ->
  exists c, find_id cs b = Some (p, c) /\ c_valid c = true.
Proof.
  intros Hn. unfold writes_back. destruct (cs !! p) as [c|] eqn:E; [|done].
  intros [H1' H2']%andb_prop. apply andb_prop in H2' as [H2' _]. exists c.
  split; [|done]. apply find_id_Some; [done|]. split; [done|]. by apply Z.eqb_eq.
Qed.

Lemma view_valid cs w a i c :
  find_id cs (a / 4096) = Some (i, c) -> c_valid c = true ->
  view cs w a = w_mem w (c_vpn c * 4096 + a mod 4096).
Proof. intros F V. unfold view. by rewrite F, V. Qed.

Lemma so_live nq d w cs order i c x :
  state_ok nq d w cs order -> cs !! i = Some c -> in_pages (c_vpn c) 1 x -> live w x.
Proof. intros Hs Hi Hx. eapply co_live; [by eapply (so_cores _ _ _ _ _ Hs)|done]. Qed.

Lemma sync_write_ok nq d w cs order p c :
  state_ok (S nq) d w cs order -> cs !! p = Some c -> avail w 3 ->
  exists b w', buffer_list d !! p = Some b /\ core b = c /\
    (if valid b && dirty b
     then world (write_block (u64 (block_id b * (PAGESIZE / SECTOR_SIZE))) (vpn b) (pfn b));; mret tt
     else mret tt) (d, w) = Ret (tt, (d, w')) /\
    state_ok nq d w' cs order /\ avail w' 3 /\
    (forall x, live w' x <-> live w x) /\ (forall x, live w x -> w_mem w' x = w_mem w x) /\
    (forall a, disk w' a = if writes_back cs (a / 4096) p
                           then w_mem w (c_vpn c * 4096 + a mod 4096) else disk w a).
Proof.
  intros Hs Hp Hav. pose proof Hs as [Hd Hids Hvpns Hcores Hh Hdv].
  destruct (di_deref _ _ _ _ _ Hd Hp) as (b & Hb & Hbc).
  destruct (Hcores _ _ Hp) as [Hcid Hcv Hcb Hcl]. unfold writes_back. rewrite Hp.
  assert (valid b && dirty b = c_valid c && c_dirty c) as Hvd by by subst c.
  destruct (c_valid c && c_dirty c) eqn:Evd.
  - pose proof nblocks_range as Hnb. pose proof (nblocks_sectors (c_id c) (proj2 Hcid)) as Hns.
    assert (u64 (block_id b * (PAGESIZE / SECTOR_SIZE)) = c_id c * 8) as Hsec
      by (subst c; cbn in *; change (PAGESIZE / SECTOR_SIZE) with 8; rewrite u64_small; lia).
    destruct (write_block_law nq (c_id c * 8) (c_vpn c) (c_pfn c) w)
      as (w' & Ew & Hh' & Hdv' & Hl' & Hb' & Ha' & Hdk & Hm); try done; [lia..|].
    exists b, w'. split; [done|]. split; [done|]. split.
    { rewrite Hvd, Hsec. subst c. by mstep_with run_world. }
    split.
    { split; try done. intros j cj Hj. eapply core_ok_mono; [..|by eapply Hcores].
      - intros x. by rewrite Hl'.
      - done. }
    split; [by apply Ha'|]. split; [done|]. split; [done|].
    intros a. rewrite Hdk. rewrite andb_true_r.
    destruct (Z.eqb_spec (c_id c) (a / 4096)).
    + rewrite decide_True by dlia. f_equal. dlia.
    + rewrite decide_False by dlia. done.
  - exists b, w. rewrite Hvd. split; [done|]. split; [done|]. split; [done|].
    split; [eapply state_ok_mono; [done|lia]|]. repeat (split; [done|]). intros a. by rewrite andb_false_r.
Qed.

Lemma sync_loop_ok l : forall fuel nq d w cs order h,
  state_ok (length l + nq) d w cs order -> avail w 3 -> seg (buffer_list d) h l None ->
  (forall p, p ∈ l -> (p < length cs)%nat) -> (length l < fuel)%nat ->
  exists w', sync_loop fuel h (d, w) = Ret (tt, (d, w')) /\ state_ok nq d w' cs order /\
    (forall x, live w' x <-> live w x) /\ (forall x, live w x -> w_mem w' x = w_mem w x) /\
    (forall a, disk w' a = if existsb (writes_back cs (a / 4096)) l then view cs w a else disk w a).
Proof.
  induction l as [|p l IH]; intros fuel nq d w cs order h Hs Hav Hseg Hl Hf;
    (destruct fuel as [|fuel]; [cbn in Hf; lia|]); cbn [sync_loop].
  - cbn in Hseg. subst h. exists w. by repeat (split; [done|]).
  - cbn in Hseg. destruct Hseg as (-> & b & Hb & Hseg).
    destruct (lookup_lt_is_Some_2 cs p) as [c Hc]; [apply Hl; set_solver|].
    destruct (sync_write_ok (length l + nq) d w cs order p c Hs Hc Hav)
      as (b' & w1 & Hb' & Hbc & E & Hs1 & Hav1 & Hl1 & Hm1 & Hd1). simplify_eq.
    destruct (IH fuel nq d w1 cs order (next b) Hs1 Hav1 Hseg) as (w2 & E2 & Hs2 & Hl2 & Hm2 & Hd2).
    { intros q Hq. apply Hl. set_solver. } { cbn in Hf. lia. }
    exists w2. split. { mstep_with run_deref. mstep_with E. exact E2. }
    split; [done|]. split; [intros x; by rewrite Hl2, Hl1|].
    split; [intros x Hx; rewrite Hm2; [by apply Hm1|by apply Hl1]|].
    intros a. rewrite Hd2, Hd1. cbn [existsb].
    destruct (existsb (writes_back cs (a / 4096)) l) eqn:El.
    + rewrite orb_true_r. apply existsb_exists in El as (q & _ & Hq).
      eapply writes_back_find in Hq as (cq & Fq & Vq); [|apply Hs].
      rewrite !(view_valid cs _ a q cq) by done.
      apply Hm1. eapply so_live; [done|by apply list_find_Some in Fq as [? _]|]. unfold in_pages; dlia.
    + rewrite orb_false_r. destruct (writes_back cs (a / 4096) p) eqn:Ep; [|done].
      eapply writes_back_find in Ep as (cq & Fq & Vq); [|apply Hs].
      rewrite (view_valid cs w a p cq) by done.
      apply list_find_Some in Fq as [Hq _]. by simplify_eq.
Qed.

(** After sync_filesystem the disk holds, for every block that is valid and
    dirty in the cache, the bytes of the cache, and its old bytes elsewhere;
    what the device shows does not change. *)
Lemma sync_filesystem_ok nq d w cs order :
  state_ok (64 + nq) d w cs order -> avail w 3 ->
  exists w', sync_filesystem (d, w) = Ret (tt, (d, w')) /\ state_ok nq d w' cs order /\
    (forall x, live w x -> w_mem w' x = w_mem w x) /\
    (forall a, disk w' a = if flushable cs (a / 4096) then view cs w a else disk w a).
Proof.
  intros Hs Hav. pose proof (so_dev _ _ _ _ _ Hs) as Hd.
  pose proof (order_length _ _ _ Hd) as Hol. pose proof (di_max _ _ _ Hd) as Hmax.
  destruct (sync_loop_ok order 65 nq d w cs order (buffer_head d) ltac:(eapply state_ok_mono; [exact Hs|lia]) Hav (di_seg _ _ _ Hd))
    as (w' & E & Hs' & Hl & Hm & Hdk); [by intros p; rewrite (di_in _ _ _ _ Hd)|lia|].
  exists w'. split; [exact E|]. split; [done|]. split; [done|].
  intros a. rewrite Hdk.
  enough (existsb (writes_back cs (a / 4096)) order = flushable cs (a / 4096)) as -> by done.
  unfold flushable. destruct (find_id cs (a / 4096)) as [[i c]|] eqn:F.
  - apply find_id_Some in F as [Hi Hc]; [|apply Hs].
    destruct (c_valid c && c_dirty c) eqn:Ec.
    + apply existsb_exists. exists i. split.
      * apply list_elem_of_In. apply (di_in _ _ _ _ Hd). by eapply lookup_lt_Some.
      * unfold writes_back. by rewrite Hi, Hc, Z.eqb_refl, Ec.
    + apply not_true_is_false. intros (q & _ & Hq)%existsb_exists. unfold writes_back in Hq.
      destruct (cs !! q) as [cq|] eqn:Eq; [|done]. apply andb_prop in Hq as [H1' H2'].
      apply Z.eqb_eq in H1'. assert (q = i) as ->; [|simplify_eq; congruence].
      eapply (NoDup_fmap_lookup c_id); [apply Hs|done..|congruence].
  - apply not_true_is_false. intros (q & _ & Hq)%existsb_exists.
    eapply writes_back_find in Hq as (cq & Fq & _); [congruence|apply Hs].
Qed.
End Cache.
