(* ===== verification/RamDisk.v ===== *)
(** * A concrete world: pages handed out in order, a disk in memory

    The smallest instance of the interfaces of World.v, on which the theorems
    about their clients are evaluated.  Page [v] is backed by frame [v]; the
    pages of [ram_list] and those of [ram_next, ram_limit) are free. *)
From S2P Require Import Prelude Mem World.

Record ram := mkRam {
  ram_mem : mem;
  ram_disk : Z -> Z;
  ram_list : list Z;
  ram_next : Z;
  ram_limit : Z;
}.

Definition set_ram_mem (m : mem) (w : ram) : ram :=
  mkRam m (ram_disk w) (ram_list w) (ram_next w) (ram_limit w).

Definition ram_free_page (w : ram) (v : Z) : Prop :=
  v ∈ ram_list w \/ ram_next w <= v < ram_limit w.
Definition ram_free (w : ram) (x : Z) : Prop := ram_free_page w (x / 4096).
#[global] Instance ram_free_dec w x : Decision (ram_free w x).
Proof. unfold ram_free, ram_free_page. apply _. Defined.

Record ram_ok (w : ram) : Prop := {
  ro_next : 0 <= ram_next w <= ram_limit w;
  ro_limit : ram_limit w <= 17592186044416;
  ro_list : forall v, v ∈ ram_list w -> 0 <= v < ram_next w;
  ro_nodup : NoDup (ram_list w);
}.

Definition zero_pages (z : bool) (v n : Z) (m : mem) : mem := fun x =>
  if z && ((v * 4096 <=? x) && (x <? (v + n) * 4096)) then 0 else m x.

Definition ram_dmalloc (n : Z) (z : bool) : M ram (Z * Z) := fun w =>
  match ram_list w with
  | v :: l =>
      if n =? 1 then
        Ret ((v, v), mkRam (zero_pages z v 1 (ram_mem w)) (ram_disk w) l (ram_next w) (ram_limit w))
      else if ram_next w + n <=? ram_limit w then
        let v := ram_next w in
        Ret ((v, v), mkRam (zero_pages z v n (ram_mem w)) (ram_disk w) (ram_list w) (v + n) (ram_limit w))
      else Panic
  | [] =>
      if ram_next w + n <=? ram_limit w then
        let v := ram_next w in
        Ret ((v, v), mkRam (zero_pages z v n (ram_mem w)) (ram_disk w) [] (v + n) (ram_limit w))
      else Panic
  end.

Definition ram_dmafree (p v n : Z) : M ram unit := fun w =>
  Ret (tt, mkRam (ram_mem w) (ram_disk w) (seqZ v n ++ ram_list w) (ram_next w) (ram_limit w)).

Definition ram_read (s v p : Z) : M ram Z := fun w =>
  Ret (0, set_ram_mem (fun x => if (v * 4096 <=? x) && (x <? (v + 1) * 4096)
                                then ram_disk w (s * 512 + (x - v * 4096)) else ram_mem w x) w).

Definition ram_write (s v p : Z) : M ram Z := fun w =>
  Ret (0, mkRam (ram_mem w)
            (fun a => if (s * 512 <=? a) && (a <? s * 512 + 4096)
                      then ram_mem w (v * 4096 + (a - s * 512)) else ram_disk w a)
            (ram_list w) (ram_next w) (ram_limit w)).

#[global] Instance ram_kmem : KMem ram.
Proof. refine {| w_mem := ram_mem; w_set := set_ram_mem |}; [done..|by intros []]. Defined.

Definition ram_backed (w : ram) (v p : Z) : Prop := v = p /\ 0 <= v < ram_next w.

Definition ram_avail (w : ram) (k : Z) : Prop :=
  k <= Z.of_nat (length (ram_list w)) + (ram_limit w - ram_next w).

(** What the allocation of the pages [v, v + n) does. *)
Definition ram_taken (w w' : ram) (v n : Z) (z : bool) : Prop :=
  ram_ok w' /\ 0 <= v /\ v + n <= ram_next w' /\ ram_next w <= ram_next w' /\
  (forall u, v <= u < v + n -> ram_free_page w u) /\
  (forall u, ram_free_page w' u <-> ram_free_page w u /\ ~ (v <= u < v + n)) /\
  ram_mem w' = zero_pages z v n (ram_mem w) /\ ram_disk w' = ram_disk w.

Lemma ram_take_next w n z :
  ram_ok w -> 1 <= n -> ram_next w + n <= ram_limit w ->
  ram_taken w (mkRam (zero_pages z (ram_next w) n (ram_mem w)) (ram_disk w) (ram_list w)
                 (ram_next w + n) (ram_limit w)) (ram_next w) n z.
Proof.
  intros [H1 H2 H3 H4] Hn Hr. unfold ram_taken, ram_free_page. cbn.
  split; [split; cbn; try done; try lia; intros v Hv; apply H3 in Hv; lia|].
  split; [lia|]. split; [lia|]. split; [lia|]. split; [intros; right; lia|]. split; [|done].
  intros u. split.
  - intros [Hu|Hu]; [|split; [right; lia|lia]]. split; [by left|]. apply H3 in Hu. lia.
  - intros [[Hu|Hu] Hn']; [by left|right; lia].
Qed.

Lemma ram_take_list w v l z :
  ram_ok w -> ram_list w = v :: l ->
  ram_taken w (mkRam (zero_pages z v 1 (ram_mem w)) (ram_disk w) l (ram_next w) (ram_limit w)) v 1 z.
Proof.
  intros [H1 H2 H3 H4] E. rewrite E in *. unfold ram_taken, ram_free_page. rewrite E. cbn.
  apply NoDup_cons in H4 as [Hv Hl].
  assert (0 <= v < ram_next w) as Hr by (apply H3; set_solver).
  split; [split; cbn; try done; intros u Hu; apply H3; set_solver|].
  split; [lia|]. split; [lia|]. split; [lia|].
  split; [intros u Hu; replace u with v by lia; left; set_solver|]. split; [|done].
  intros u. rewrite elem_of_cons. split.
  - intros [Hu|Hu]; [|split; [by right|lia]]. split; [by left; right|].
    intros Hu'. replace u with v in Hu by lia. done.
  - intros [[[Hu|Hu]|Hu] Hn]; [lia|by left|by right].
Qed.

Lemma ram_dmalloc_ok n z w :
  ram_ok w -> n = 1 /\ ram_avail w 1 \/ 1 <= n /\ ram_next w + n <= ram_limit w ->
  exists v w', ram_dmalloc n z w = Ret ((v, v), w') /\ ram_taken w w' v n z /\
    (forall k, n = 1 -> ram_avail w (k + 1) -> ram_avail w' k).
Proof.
  intros Hok Hc. unfold ram_dmalloc, ram_avail in *.
  destruct (ram_list w) as [|v l] eqn:E; [|destruct (Z.eqb_spec n 1) as [->|]].
  - assert (1 <= n /\ ram_next w + n <= ram_limit w) as [Hn Hr] by (cbn in Hc; lia).
    destruct (Z.leb_spec (ram_next w + n) (ram_limit w)); [|lia].
    exists (ram_next w). eexists. split; [done|]. split; [|cbn; lia].
    rewrite <- E. by apply ram_take_next.
  - exists v. eexists. split; [done|]. split; [by apply ram_take_list|]. cbn. lia.
  - destruct Hc as [[? _]|[Hn Hr]]; [done|].
    destruct (Z.leb_spec (ram_next w + n) (ram_limit w)); [|lia].
    exists (ram_next w). eexists. split; [done|]. split; [|lia].
    rewrite <- E. by apply ram_take_next.
Qed.

Lemma ram_dmafree_ok v n w :
  ram_ok w -> 1 <= n -> (forall u, v <= u < v + n -> 0 <= u < ram_next w /\ ~ ram_free_page w u) ->
  ram_ok (mkRam (ram_mem w) (ram_disk w) (seqZ v n ++ ram_list w) (ram_next w) (ram_limit w)).
Proof.
  intros [H1 H2 H3 H4] Hn Hu. split; cbn; try done.
  - intros u. rewrite elem_of_app, elem_of_seqZ. intros [Hx|Hx]; [by apply Hu|by apply H3].
  - apply NoDup_app. split; [apply NoDup_seqZ|]. split; [|done].
    intros u Hx%elem_of_seqZ Hl. destruct (Hu u Hx) as [_ []]. by left.
Qed.

#[global] Instance ram_heap : DmaHeap ram.
Proof.
  refine {| dmalloc := ram_dmalloc; dmafree := ram_dmafree;
            heap_ok := ram_ok; live := fun w x => ~ ram_free w x;
            backed := ram_backed; avail := ram_avail;
            avail_run := fun w n => ram_next w + n <= ram_limit w |}.
  - done.
  - unfold ram_avail. lia.
  - done.
  - done.
  - intros w v p [? ? _ _] [-> ?]. lia.
  - intros m w [? ? ? ?] _. by split.
  - intros n z w Hok Hc.
    destruct (ram_dmalloc_ok n z w Hok Hc) as (v & w' & E & (T1 & T2 & T3 & T4 & T5 & T6 & T7 & T8) & Hav).
    exists v, v, w'. split; [done|]. split; [done|]. pose proof (ro_next _ T1). pose proof (ro_limit _ T1).
    split; [done|]. split; [lia|]. unfold ram_backed, ram_free, in_pages. cbn.
    split; [intros; lia|]. split; [intros u q [-> ?]; lia|].
    split; [intros x Hx Hf; apply Hf, T5; dlia|]. split.
    + intros x. rewrite T6. destruct (decide (v <= x / 4096 < v + n)).
      * split; [intros _; right; dlia|tauto].
      * split; [|intros [?|?]; [tauto|dlia]].
        destruct (decide (ram_free w x)); unfold ram_free in *; tauto.
    + rewrite T7. unfold zero_pages. split; [|split; [|done]].
      * intros x Hx. destruct z; [|done]. cbn. zcases; try done.
        destruct Hx. apply T5. dlia.
      * intros -> x Hx. cbn. zcases; done.
  - intros p v n w Hok Hn Hb Hl. eexists. split; [done|].
    assert (forall u, v <= u < v + n -> 0 <= u < ram_next w /\ ~ ram_free_page w u) as Hu.
    { intros u Hu. destruct (Hb (u - v) ltac:(lia)) as [_ Hr]. split; [lia|].
      specialize (Hl (u * 4096)). unfold ram_free in Hl. replace (u * 4096 / 4096) with u in Hl by dlia.
      apply Hl. unfold in_pages. lia. }
    split; [by apply ram_dmafree_ok|]. unfold ram_free, ram_free_page, in_pages, ram_avail. cbn.
    split; [|split; [done|split; [done|]]].
    + intros x. rewrite elem_of_app, elem_of_seqZ.
      destruct (decide (v <= x / 4096 < v + n)); [split; [tauto|dlia]|].
      split; [intros; split; [tauto|dlia]|tauto].
    + intros k. rewrite length_app, length_seqZ. lia.
Defined.

#[global] Instance ram_driver : BlockDriver ram.
Proof.
  refine {| read_block := ram_read; write_block := ram_write;
            disk := ram_disk; sectors := 18014398509481984; dev_ok := fun _ _ => True |}.
  - lia.
  - done.
  - done.
  - done.
  - intros z w r w' Hok Hav E. split; [done|].
    destruct (ram_dmalloc_ok 1 z w Hok (or_introl (conj eq_refl Hav))) as (v & w1 & E1 & T & _).
    unfold dmalloc in E. cbn in E. rewrite E1 in E. injection E as <- <-. intros a.
    destruct T as (_ & _ & _ & _ & _ & _ & _ & Td). cbn. by rewrite Td.
  - intros j s v p w [? ? ? ?] _ Hb Hs Hs8 Hv Hav Hl. eexists. split; [reflexivity|]. cbn in *.
    split; [by split|]. repeat (split; [done|]).
    intros x Hx. unfold in_pages. gdecide; zcases; done.
  - intros j s v p w [? ? ? ?] _ Hb Hs Hs8 Hv Hav Hl. eexists. split; [reflexivity|]. cbn in *.
    split; [by split|]. repeat (split; [done|]). split; [|done].
    intros a. gdecide; zcases; done.
Defined.
