(* ===== verification/BlockCacheProps.v ===== *)
(** * Properties of the block cache

    read_bytes / write_bytes / sync_filesystem against the byte device
    [view], and the two situations in which the code departs from it: a block
    written as a whole before it was read, and a full cache. *)
From S2P Require Import Prelude Mem World BlockCache BlockCacheSpec RamDisk.
Import BlockCache.

Section Props.
Context {W : Type} `{BlockDriver W}.

(** The device set up by wrap_virtio_blk_device is a well-formed empty cache. *)
Lemma wrap_device_ok nq (w : W) capacity :
  heap_ok w -> dev_ok nq w -> state_ok nq (wrap_device capacity) w [] [].
Proof.
  intros Hh Hd. split; try done; try constructor; cbn; try done; try lia.
Qed.

(** Single-block accesses of translate_bytes are one run of the loop body. *)
Lemma translate_bytes_one id po buffer n write :
  0 <= id < 2251799813685248 -> 0 <= po < 4096 -> 1 <= n -> po + n <= 4096 ->
  translate_bytes (id * 4096 + po) buffer n write =
  (translate_block id po (po + n) buffer write;; mret tt).
Proof.
  intros Hid Hpo Hn Hpn. unfold translate_bytes.
  rewrite OFFSET_mod, ADDR_2_PAGE_div, ADDR_2_PAGEUP_ceil by lia.
  rewrite (u64_small (id * 4096 + po)) by lia.
  replace ((id * 4096 + po) mod 4096) with po by dlia.
  replace ((id * 4096 + po) / 4096) with id by dlia.
  replace ((id * 4096 + po + n + 4095) / 4096) with (id + 1) by dlia.
  rewrite u64_small by lia.
  replace (Z.to_nat (id + 1 - id)) with 1%nat by lia. cbn [translate_loop].
  change PAGESIZE with 4096.
  replace (id <? id + 1) with true by (symmetry; apply Z.ltb_lt; lia).
  by replace (4096 <? po + n) with false by (symmetry; apply Z.ltb_ge; lia).
Qed.

(** The last buffer of the list, as get_block_buffer hands it out when the
    cache is full and the block is not in it. *)
Lemma full_cache_fetch nq d w cs pre q p id c :
  state_ok (S nq) d w cs (pre ++ [q; p]) -> length cs = 64%nat -> find_id cs id = None ->
  cs !! p = Some c -> avail w 3 ->
  exists d' w', get_block_buffer id (d, w) = Ret (p, (d', w')) /\
    state_ok nq d' w' cs (p :: pre ++ [q]) /\ (forall x, live w' x <-> live w x) /\
    (forall x, live w x -> w_mem w' x = w_mem w x).
Proof.
  intros Hs Hfull Hf Hc Hav. pose proof Hs as [Hd Hids Hvpns Hcores Hh Hdv].
  destruct (Hcores _ _ Hc) as [Hcid Hcv Hcb Hcl].
  assert (exists st w', (if c_valid c && c_dirty c
     then write_block (u64 (c_id c * 8)) (c_vpn c) (c_pfn c) w = Ret (st, w') else w' = w) /\
     heap_ok w' /\ dev_ok nq w' /\ (forall x, live w' x <-> live w x) /\
     (forall v p, backed w v p -> backed w' v p) /\
     (forall x, live w x -> w_mem w' x = w_mem w x)) as (st & w' & Ew & Hh' & Hdv' & Hl & Hb & Hm).
  { pose proof nblocks_range as Hnb. pose proof (nblocks_sectors (c_id c) (proj2 Hcid)) as Hns.
    assert (u64 (c_id c * 8) = c_id c * 8) as Hsec by (apply u64_small; lia). rewrite Hsec.
    destruct (c_valid c && c_dirty c); [|by exists 0, w; split; [|split; [|split; [eapply dev_ok_mono; [done|lia]|]]]].
    destruct (write_block_law nq (c_id c * 8) (c_vpn c) (c_pfn c) w)
      as (w' & E & ? & ? & ? & ? & _ & _ & ?); try done; [lia..|].
    by exists 0, w'. }
  destruct (get_block_buffer_full d w cs pre q p id c st w' Hd) as (d' & E & Hd' & _);
    [by apply find_id_None|done..|].
  exists d', w'. split; [done|]. split; [|done]. split; try done.
  intros i ci Hi. eapply core_ok_mono; [..|by eapply Hcores]; [|done].
  intros x. by rewrite Hl.
Qed.

(** C13: reading through the cache returns the bytes of the device it stands
    for.  For any range whose uncached blocks fit in the free cache slots, over a
    driver that answers one request per block of the range, read_bytes returns 0 with [buffer] holding the device's bytes, and neither
    the device nor any other live memory changes. *)
Theorem read_bytes_refines nq (d : BufferedBlockDevice) (w : W) cs order offset buffer n :
  io_ok nq d w cs order offset buffer n ->
  exists d' w' cs' order',
    read_bytes offset buffer n (d, w) = Ret (0, (d', w')) /\ state_ok nq d' w' cs' order' /\
    (forall j, 0 <= j < n -> w_mem w' (buffer + j) = view cs w (offset + j)) /\
    (forall a, view cs' w' a = view cs w a) /\
    (forall x, live w x -> ~ in_cache cs x -> ~ (buffer <= x < buffer + n) ->
       w_mem w' x = w_mem w x).
Proof.
  intros Hio. destruct (read_bytes_ok nq d w cs order offset buffer n Hio)
    as (d' & w' & cs' & o' & E & Hs & _ & Hr & Hv & Hm & _). by exists d', w', cs', o'.
Qed.

(** C14: writing through the cache changes exactly the written range of the
    device, provided every block that is overwritten as a whole is already
    valid in the cache and the driver answers one request per block; the rest of the live memory keeps its contents. *)
Theorem write_bytes_refines nq (d : BufferedBlockDevice) (w : W) cs order offset buffer n :
  io_ok nq d w cs order offset buffer n -> whole_blocks_valid cs offset n ->
  exists d' w' cs' order',
    write_bytes offset buffer n (d, w) = Ret (0, (d', w')) /\ state_ok nq d' w' cs' order' /\
    (forall a, view cs' w' a =
       if decide (offset <= a < offset + n) then w_mem w (buffer + (a - offset))
       else view cs w a) /\
    (forall x, live w x -> ~ in_cache cs x -> w_mem w' x = w_mem w x).
Proof.
  intros Hio Hwh. destruct (write_bytes_ok nq d w cs order offset buffer n Hio Hwh)
    as (d' & w' & cs' & o' & E & Hs & _ & Hv & _ & Hm & _). by exists d', w', cs', o'.
Qed.

(** A write followed by sync_filesystem is on the disk: the bytes of the
    written range are the buffer's, whatever the disk held before.  (The driver
    answers a request per block of the range and 64 for the sync.) *)
Theorem write_then_sync_durable nq (d : BufferedBlockDevice) (w : W) cs order offset buffer n :
  io_ok (64 + nq) d w cs order offset buffer n -> whole_blocks_valid cs offset n ->
  exists d' w', (write_bytes offset buffer n ≫= fun _ => sync_filesystem) (d, w) = Ret (tt, (d', w')) /\
    (forall a, offset <= a < offset + n -> disk w' a = w_mem w (buffer + (a - offset))).
Proof.
  intros Hio Hwh. destruct (write_bytes_ok (64 + nq) d w cs order offset buffer n Hio Hwh)
    as (d1 & w1 & cs1 & o1 & E & Hs & Hav & Hv & Hfl & _).
  destruct (sync_filesystem_ok nq d1 w1 cs1 o1 Hs Hav) as (w2 & E2 & _ & _ & Hdk).
  exists d1, w2. split; [by mstep_with E|].
  intros a Ha. rewrite Hdk, Hfl by done. rewrite Hv. by rewrite decide_True.
Qed.

(** A block written as a whole before it is in the cache is lost: the
    call returns 0, but the buffer stays invalid, so the device still shows the
    old bytes and sync_filesystem leaves the disk as it was. *)
Theorem whole_block_write_lost nq (d : BufferedBlockDevice) (w : W) cs order id buffer :
  state_ok (S (64 + nq)) d w cs order -> 0 <= id < nblocks -> cached_valid cs id = false ->
  (length cs < 64)%nat -> avail w 4 -> user_buf w cs buffer 4096 ->
  exists d' w' cs' order',
    write_bytes (id * 4096) buffer 4096 (d, w) = Ret (0, (d', w')) /\
    state_ok (64 + nq) d' w' cs' order' /\ (forall a, view cs' w' a = view cs w a) /\
    exists w'', sync_filesystem (d', w') = Ret (tt, (d', w'')) /\
      (forall a, a / 4096 = id -> disk w'' a = disk w' a).
Proof.
  intros Hs Hid Hnv Hlen Hav Hbuf. pose proof nblocks_range as Hnb.
  destruct (translate_block_write (64 + nq) d w cs order id 0 4096 buffer 0)
    as (d1 & w1 & cs1 & o1 & E & Hs1 & Hav1 & _ & Hv & Hfl & _ & _); try done; try lia.
  { eapply avail_mono; [done|]. pose proof (cost_range cs id). lia. }
  exists d1, w1, cs1, o1. split.
  { unfold write_bytes. rewrite <- (Z.add_0_r (id * 4096)).
    rewrite translate_bytes_one by lia. unfold mbind, M_bind.
    change (0 + 4096) with 4096. by rewrite E. }
  split; [done|]. split.
  { intros a. rewrite Hv, decide_False; [done|]. rewrite Hnv. intros [_ [?|[?|?]]]; done. }
  destruct (sync_filesystem_ok nq d1 w1 cs1 o1 Hs1 Hav1) as (w2 & E2 & _ & _ & Hdk).
  exists w2. split; [done|]. intros a Ha. rewrite Hdk, Ha, Hfl, Hnv. done.
Qed.

(** Once the cache is full, a read of a block that is not in it returns
    the bytes of another block, the least recently used one: get_block_buffer
    hands out its buffer without changing block_id or valid. *)
Theorem full_cache_reads_other_block nq (d : BufferedBlockDevice) (w : W) cs pre q p c id po buffer n :
  state_ok (S nq) d w cs (pre ++ [q; p]) -> length cs = 64%nat -> find_id cs id = None ->
  cs !! p = Some c -> c_valid c = true -> avail w 3 ->
  0 <= id < nblocks -> 0 <= po < 4096 -> 1 <= n -> po + n <= 4096 ->
  user_buf w cs buffer n ->
  exists d' w', read_bytes (id * 4096 + po) buffer n (d, w) = Ret (0, (d', w')) /\
    c_id c <> id /\
    forall j, 0 <= j < n -> w_mem w' (buffer + j) = view cs w (c_id c * 4096 + po + j).
Proof.
  intros Hs Hfull Hf Hc Hval Hav Hid Hpo Hn Hpn Hbuf. pose proof nblocks_range as Hnb.
  destruct (full_cache_fetch nq d w cs pre q p id c Hs Hfull Hf Hc Hav)
    as (d1 & w1 & E & Hs1 & Hl & Hm).
  destruct (di_deref _ _ _ _ _ (so_dev _ _ _ _ _ Hs1) Hc) as (b & Hb & Hbc).
  destruct (so_cores _ _ _ _ _ Hs _ _ Hc) as [Hcid Hcv _ Hcl].
  exists d1, (w_set (memcpy (w_mem w1) buffer (ADDR (vpn b) po) (po + n - po)) w1).
  assert (c_id c <> id) as Hne.
  { intros <-. assert (find_id cs (c_id c) = Some (p, c)) as F
      by (apply find_id_Some; [apply Hs|done]). congruence. }
  assert (vpn b = c_vpn c) as Hvb by by subst c.
  split; [|split; [done|]].
  { unfold read_bytes. rewrite translate_bytes_one by lia.
    assert (translate_block id po (po + n) buffer false (d, w) =
      Ret (tt, (d1, w_set (memcpy (w_mem w1) buffer (ADDR (vpn b) po) (po + n - po)) w1))) as Eb.
    { unfold translate_block. rewrite (u64_small (po + n - po)) by lia.
      mstep_with E. mstep_with run_deref.
      by replace (valid b) with true by (by rewrite <- Hval, <- Hbc). }
    unfold mbind, M_bind. by rewrite Eb. }
  intros j Hj. rewrite w_mem_set, Hvb. replace (po + n - po) with n by lia.
  pose proof (page_buf_disjoint w cs buffer n p c po n Hbuf Hc ltac:(lia) ltac:(lia) ltac:(lia)) as Hdis.
  destruct Hbuf as (Hb0 & Hb1 & Hb2).
  assert (ADDR (c_vpn c) po = c_vpn c * 4096 + po) as -> by (unfold ADDR, PAGESIZE; rewrite u64_small; lia).
  rewrite memcpy_spec by lia.
  replace ((buffer <=? buffer + j) && (buffer + j <? buffer + n)) with true by (symmetry; zcases; done).
  rewrite (view_valid cs w _ p c); [|apply find_id_Some; [apply Hs|split; [done|dlia]]|done].
  rewrite Hm by (apply Hcl; unfold in_pages; dlia). f_equal. dlia.
Qed.
(** ** Cached blocks

    Where every block of the range is valid in the cache, read_bytes and
    write_bytes copy bytes between the caller's buffer and the buffers of the
    blocks: no page is allocated, no request goes to the driver (the number [nq]
    of requests it still answers stays, 0 included), and the same blocks are
    cached afterwards, even when no slot of the cache is free. *)
Definition warm_range (cs : list Core) (offset n : Z) : Prop :=
  forall b, offset / 4096 <= b < (offset + n + 4095) / 4096 -> cached_valid cs b = true.

Record warm_frame (w w' : W) (cs cs' : list Core) : Prop := {
  wf_live : forall x, live w' x <-> live w x;
  wf_cache : forall x, in_cache cs' x <-> in_cache cs x;
  wf_cached : forall b, cached_valid cs' b = cached_valid cs b;
}.

(** What the transfer of [r] bytes makes of the device and of the memory that
    is not the cache's. *)
Definition transferred (wr : bool) (off buffer r : Z) (w w' : W) (cs cs' : list Core) : Prop :=
  (forall a, view cs' w' a = if decide (wr = true /\ off <= a < off + r)
                             then w_mem w (buffer + (a - off)) else view cs w a) /\
  (forall x, live w x -> ~ in_cache cs x ->
     w_mem w' x = if decide (wr = false /\ buffer <= x < buffer + r)
                  then view cs w (off + (x - buffer)) else w_mem w x).

Lemma user_buf_warm w w' cs cs' buffer n : warm_frame w w' cs cs' -> user_buf w cs buffer n -> user_buf w' cs' buffer n.
Proof.
  intros [F1 F2 _] (H1' & H2' & H3'). split; [done|]. split; [done|]. intros x Hx. rewrite F1, F2. by apply H3'.
Qed.

Lemma cached_valid_Some cs id : cached_valid cs id = true -> exists i c, find_id cs id = Some (i, c) /\ c_valid c = true.
Proof. unfold cached_valid. destruct (find_id cs id) as [[i c]|]; [|done]. intros. by exists i, c. Qed.

Lemma fetch_warm nq (d : BufferedBlockDevice) (w : W) cs order id :
  state_ok nq d w cs order -> cached_valid cs id = true ->
  exists i c b d' order', get_block_buffer id (d, w) = Ret (i, (d', w)) /\
    deref i (d', w) = Ret (b, (d', w)) /\ state_ok nq d' w cs order' /\ cs !! i = Some c /\
    find_id cs id = Some (i, c) /\ c_valid c = true /\ valid b = true /\ vpn b = c_vpn c.
Proof.
  intros Hs (i & c & Hf & Hv)%cached_valid_Some. pose proof (so_ids _ _ _ _ _ Hs) as Hids.
  pose proof Hf as [Hi Hc]%find_id_Some; [|done].
  destruct (get_block_buffer_hit d w cs order i c id (so_dev _ _ _ _ _ Hs) Hi Hc) as (d' & o' & E & Hd' & _).
  { intros j c' Hj Hc'. eapply (NoDup_fmap_lookup c_id); eauto. congruence. }
  destruct (di_deref _ _ _ _ _ Hd' Hi) as (b & Hb & Hbc).
  exists i, c, b, d', o'. split; [done|]. split; [by apply run_deref|].
  split; [destruct Hs; by split|]. subst c. done.
Qed.

Lemma block_read_warm nq (d : BufferedBlockDevice) (w : W) cs order id po tp buffer :
  state_ok nq d w cs order -> cached_valid cs id = true -> 0 <= po <= tp -> tp <= 4096 ->
  user_buf w cs buffer (tp - po) ->
  exists d' w' order', translate_block id po tp buffer false (d, w) = Ret (tt, (d', w')) /\
    state_ok nq d' w' cs order' /\ warm_frame w w' cs cs /\
    transferred false (id * 4096 + po) buffer (tp - po) w w' cs cs.
Proof.
  intros Hs Hcv Hpo Htp Hbuf. destruct (fetch_warm _ _ _ _ _ _ Hs Hcv) as (i & c & b & d1 & o1 & E & Ed & Hs1 & Hi & Hf & Hv & Hvb & Hvp).
  pose proof (so_cores _ _ _ _ _ Hs _ _ Hi) as [_ Hco _ _]. pose proof Hbuf as (Hb1 & Hb2 & Hb3).
  set (m := memcpy (w_mem w) buffer (ADDR (vpn b) po) (tp - po)).
  assert (forall x, m x = if decide (buffer <= x < buffer + (tp - po))
            then w_mem w (c_vpn c * 4096 + po + (x - buffer)) else w_mem w x) as Hmx.
  { intros x. subst m. destruct (decide (tp = po)) as [->|Hne].
    { rewrite Z.sub_diag. unfold memcpy; cbn. case_decide; [lia|done]. }
    assert (ADDR (vpn b) po = c_vpn c * 4096 + po) as -> by (unfold ADDR, PAGESIZE; rewrite Hvp, u64_small; lia).
    pose proof (page_buf_disjoint w cs buffer (tp - po) i c po (tp - po) Hbuf Hi ltac:(lia) ltac:(lia) ltac:(lia)).
    rewrite memcpy_spec by lia. case_decide; zcases; done. }
  assert (forall x, ~ live w x -> m x = w_mem w x) as Hnl.
  { intros x Hx. rewrite Hmx. case_decide; [|done]. by destruct (Hb3 x). }
  exists d1, (w_set m w), o1. split.
  { unfold translate_block. rewrite (u64_small (tp - po)) by lia. mstep_with E. mstep_with Ed. by rewrite Hvb. }
  split; [by apply state_ok_set|]. split.
  { split; [|done..]. intros x. apply live_set; [apply Hs|done]. }
  split.
  - intros a. rewrite decide_False by (by intros [? _]). apply view_agree; [|by rewrite disk_set].
    intros j cj Hj x Hx. rewrite w_mem_set, Hmx. case_decide as Ex; [|done].
    destruct (Hb3 x Ex) as [_ []]. by exists j, cj.
  - intros x _ _. rewrite w_mem_set, Hmx.
    case_decide as Ex; [rewrite decide_True by done|by rewrite decide_False by tauto].
    rewrite (view_valid cs w _ i c); [f_equal; dlia| |done]. by replace ((id * 4096 + po + (x - buffer)) / 4096) with id by dlia.
Qed.

Lemma block_write_warm nq (d : BufferedBlockDevice) (w : W) cs order id po tp buffer :
  state_ok nq d w cs order -> cached_valid cs id = true -> 0 <= po <= tp -> tp <= 4096 ->
  user_buf w cs buffer (tp - po) ->
  exists d' w' cs' order', translate_block id po tp buffer true (d, w) = Ret (tt, (d', w')) /\
    state_ok nq d' w' cs' order' /\ warm_frame w w' cs cs' /\
    transferred true (id * 4096 + po) buffer (tp - po) w w' cs cs'.
Proof.
  intros Hs Hcv Hpo Htp Hbuf. destruct (fetch_warm _ _ _ _ _ _ Hs Hcv) as (i & c & b & d1 & o1 & E & Ed & Hs1 & Hi & Hf & Hv & Hvb & Hvp).
  pose proof (so_ids _ _ _ _ _ Hs) as Hids. pose proof Hf as [_ Hc]%find_id_Some; [|done].
  pose proof (so_cores _ _ _ _ _ Hs _ _ Hi) as [_ Hco _ Hcl].
  destruct (update_core d1 w cs o1 i c (set_dirty true) mark_dirty (so_dev _ _ _ _ _ Hs1) Hi)
    as (d2 & Eu & Hd2 & _); [done..|].
  assert (state_ok nq d2 w (<[i := mark_dirty c]> cs) o1) as Hs2 by by apply (state_ok_insert nq d1 d2 w cs o1 i c).
  set (m := memcpy (w_mem w) (ADDR (vpn b) po) buffer (tp - po)).
  assert (forall x, m x = page_write (w_mem w) c po tp buffer x) as Hmx.
  { intros x. subst m. rewrite Hvp. by apply (memcpy_page nq d1 w cs o1 i c). }
  assert (forall x, ~ live w x -> m x = w_mem w x) as Hnl.
  { intros x Hx. rewrite Hmx. unfold page_write. case_decide; [|done]. destruct Hx. apply Hcl. unfold in_pages. lia. }
  exists d2, (w_set m w), (<[i := mark_dirty c]> cs), o1. split.
  { unfold translate_block. rewrite (u64_small (tp - po)) by lia. mstep_with E. mstep_with Ed. rewrite Hvb. cbn [negb andb].
    mstep. by mstep_with Eu. }
  split; [by apply state_ok_set|]. split; [split|split].
  - intros x. apply live_set; [apply Hs|done].
  - intros x. by apply (in_cache_insert cs i c).
  - intros b'. unfold cached_valid. rewrite (find_id_insert cs i c) by done.
    case_decide as Eb; [|done]. replace b' with id by congruence. by rewrite Hf.
  - intros a. rewrite (view_write nq d1 w cs o1 i c id po tp buffer) by done.
    case_decide as E1; case_decide as E2; try done; exfalso; [apply E2; split; [done|lia]|apply E1; split; [lia|done]].
  - intros x Hx Hn. rewrite (decide_False (P := true = false /\ _)) by (by intros [? _]). rewrite w_mem_set, Hmx. unfold page_write.
    rewrite decide_False; [done|]. intros Hp. apply Hn. exists i, c. split; [done|]. unfold in_pages. lia.
Qed.

Lemma block_warm nq (d : BufferedBlockDevice) (w : W) cs order id po tp buffer wr :
  state_ok nq d w cs order -> cached_valid cs id = true -> 0 <= po <= tp -> tp <= 4096 ->
  user_buf w cs buffer (tp - po) ->
  exists d' w' cs' order', translate_block id po tp buffer wr (d, w) = Ret (tt, (d', w')) /\
    state_ok nq d' w' cs' order' /\ warm_frame w w' cs cs' /\
    transferred wr (id * 4096 + po) buffer (tp - po) w w' cs cs'.
Proof.
  intros Hs Hcv Hpo Htp Hbuf. destruct wr; [by eapply block_write_warm|].
  destruct (block_read_warm nq d w cs order id po tp buffer) as (d' & w' & o' & H'); [done..|]. by exists d', w', cs, o'.
Qed.

(** Two transfers one after the other. *)
Lemma transferred_app wr off buffer r1 r2 w w1 w2 cs cs1 cs2 : 0 <= r1 -> 0 <= r2 ->
  user_buf w cs buffer (r1 + r2) -> warm_frame w w1 cs cs1 ->
  transferred wr off buffer r1 w w1 cs cs1 -> transferred wr (off + r1) (buffer + r1) r2 w1 w2 cs1 cs2 ->
  transferred wr off buffer (r1 + r2) w w2 cs cs2.
Proof.
  intros Hr1 Hr2 (Hb1 & Hb2 & Hb3) [F1 F2 _] [V1 M1] [V2 M2]. split.
  - intros a. rewrite V2, V1. destruct wr; [|by rewrite !decide_False by (by intros [? _])].
    destruct (decide (off + r1 <= a < off + r1 + r2)) as [Ha|Ha].
    + rewrite !decide_True by (split; [done|lia]). rewrite M1 by (apply Hb3; lia).
      rewrite decide_False by (by intros [? _]). f_equal. lia.
    + rewrite decide_False by (intros [_ ?]; lia). by apply decide_ext; intuition lia.
  - intros x Hx Hn. rewrite M2, M1 by (rewrite ?F1, ?F2; done). destruct wr; [by rewrite !decide_False by (by intros [? _])|].
    destruct (decide (buffer + r1 <= x < buffer + r1 + r2)) as [Ha|Ha].
    + rewrite !decide_True by (split; [done|lia]). rewrite V1, decide_False by (by intros [? _]). f_equal. lia.
    + rewrite (decide_False (P := _ /\ buffer + r1 <= x < _)) by (intros [_ ?]; lia). by apply decide_ext; intuition lia.
Qed.

Lemma warm_frame_trans w w1 w2 cs cs1 cs2 : warm_frame w w1 cs cs1 -> warm_frame w1 w2 cs1 cs2 -> warm_frame w w2 cs cs2.
Proof.
  intros [A1 A2 A3] [B1 B2 B3]. split; intros x; [by rewrite B1|by rewrite B2|by rewrite B3].
Qed.

Lemma loop_warm n : forall nq (d : BufferedBlockDevice) (w : W) cs order id po r pm buffer wr,
  state_ok nq d w cs order -> 0 <= po < 4096 -> 0 <= r -> Z.of_nat n = (po + r + 4095) / 4096 ->
  (n = O \/ pm = po + r) -> user_buf w cs buffer r ->
  (forall b, id <= b < id + Z.of_nat n -> cached_valid cs b = true) ->
  exists d' w' cs' order', translate_loop n id (id + Z.of_nat n) po pm buffer wr (d, w) = Ret (tt, (d', w')) /\
    state_ok nq d' w' cs' order' /\ warm_frame w w' cs cs' /\ transferred wr (id * 4096 + po) buffer r w w' cs cs'.
Proof.
  induction n as [|n IH]; intros nq d w cs order id po r pm buffer wr Hs Hpo Hr Hn Hpm Hbuf Hw.
  { assert (r = 0) as -> by dlia. exists d, w, cs, order. split; [done|]. split; [done|]. split; [done|].
    split; intros; by rewrite decide_False by (intros [_ ?]; lia). }
  destruct Hpm as [Hz | ->]; [done|]. set (tp := Z.min 4096 (po + r)).
  assert (po <= tp /\ tp <= 4096 /\ tp <= po + r) as Htp by lia. pose proof Hbuf as (Hb0 & Hb1 & _).
  destruct (block_warm nq d w cs order id po tp buffer wr) as (d1 & w1 & cs1 & o1 & E1 & Hs1 & Hf1 & Ht1);
    [done|apply Hw; lia|lia|lia|rewrite <- (Z.add_0_r buffer); eapply user_buf_weaken; [done|lia..]|].
  destruct (IH nq d1 w1 cs1 o1 (id + 1) 0 (po + r - tp) (next_max po r) (buffer + (tp - po)) wr)
    as (d2 & w2 & cs2 & o2 & E2 & Hs2 & Hf2 & Ht2); [done|lia|lia|dlia|apply next_max_ok; [done|lia|done]|..].
  { eapply user_buf_weaken with (n := r); [by eapply user_buf_warm|lia..]. }
  { intros b Hb. rewrite (wf_cached _ _ _ _ Hf1). apply Hw. lia. }
  exists d2, w2, cs2, o2. split; [rewrite (loop_unroll n id po r buffer wr _ _ Hpo Hr Hn Hb0 Hb1 E1); exact E2|].
  split; [done|]. split; [by eapply warm_frame_trans|].
  destruct (decide (po + r <= 4096)) as [Hle|Hgt].
  - replace (po + r - tp) with 0 in Ht2 by lia. replace (tp - po) with r in * by lia.
    replace r with (r + 0) by lia. eapply transferred_app; [lia|lia|by rewrite Z.add_0_r|done|done|].
    destruct Ht2 as [T1 T2]. split; intros; rewrite ?T1, ?T2 by done; by rewrite !decide_False by (intros [_ ?]; lia).
  - replace ((id + 1) * 4096 + 0) with (id * 4096 + po + (tp - po)) in Ht2 by lia.
    replace r with (tp - po + (po + r - tp)) by lia.
    eapply transferred_app; [lia|lia|by replace (tp - po + (po + r - tp)) with r by lia|done|done|done].
Qed.

(** While every block of the range is valid in the cache, read_bytes and
    write_bytes are exact, whole blocks and a full cache included. *)
Lemma cached_bytes_exact nq (d : BufferedBlockDevice) (w : W) cs order offset buffer n (write : bool) :
  state_ok nq d w cs order -> 0 <= offset -> 0 <= n -> offset + n <= nblocks * 4096 ->
  user_buf w cs buffer n -> warm_range cs offset n ->
  exists d' w' cs' order',
    (if write then write_bytes else read_bytes) offset buffer n (d, w) = Ret (0, (d', w')) /\
    state_ok nq d' w' cs' order' /\ warm_frame w w' cs cs' /\
    transferred write offset buffer n w w' cs cs'.
Proof.
  intros Hs Ho Hn Hon Hbuf Hw. pose proof nblocks_range as Hnb.
  set (k := Z.to_nat ((offset mod 4096 + n + 4095) / 4096)).
  assert (Z.of_nat k = (offset mod 4096 + n + 4095) / 4096) as Hk by (subst k; dlia).
  assert ((offset + n + 4095) / 4096 = offset / 4096 + Z.of_nat k) as Hst by dlia.
  destruct (loop_warm k nq d w cs order (offset / 4096) (offset mod 4096) n (offset mod 4096 + n) buffer write)
    as (d' & w' & cs' & o' & E & Hs' & Hf & Ht); [done|dlia|done|done|by right|done|intros b Hb; apply Hw; lia|].
  replace (offset / 4096 * 4096 + offset mod 4096) with offset in Ht by dlia.
  exists d', w', cs', o'. split; [|split; [done|split; [done|done]]].
  assert (translate_bytes offset buffer n write (d, w) = Ret (tt, (d', w'))) as Et.
  { unfold translate_bytes. rewrite OFFSET_mod, ADDR_2_PAGE_div, ADDR_2_PAGEUP_ceil, (u64_small offset) by lia.
    rewrite (u64_small (offset mod 4096 + n)) by dlia. rewrite Hst, <- E. f_equal. lia. }
  destruct write; unfold write_bytes, read_bytes; by mstep_with Et.
Qed.
End Props.

(** ** The properties at concrete states *)
Definition ram0 : ram :=
  mkRam (fun x => x mod 251) (fun a => (a * 7 + 1) mod 256) [] 200 1000.

Lemma ram0_ok : ram_ok ram0.
Proof. split; cbn; try lia; [set_solver|constructor]. Qed.

Lemma ram0_wrap nq : state_ok nq (wrap_device 1000) ram0 [] [].
Proof. apply wrap_device_ok; [apply ram0_ok|done]. Qed.

Lemma ram0_user_buf cs buffer n :
  0 <= buffer -> 0 <= n -> buffer + n <= 100 * 4096 ->
  (forall i c, cs !! i = Some c -> 100 <= c_vpn c) -> user_buf ram0 cs buffer n.
Proof.
  intros Hb Hn Hbn Hc. split; [done|]. split; [lia|]. intros x Hx. split.
  - unfold live; cbn. unfold ram_free, ram_free_page; cbn. intros [?%elem_of_nil|?]; [done|dlia].
  - intros (i & c & Hi & Hp). apply Hc in Hi. unfold in_pages in Hp. lia.
Qed.

Lemma ram0_io nq : io_ok nq (wrap_device 1000) ram0 [] [] 5000 32 10000.
Proof.
  split; [apply ram0_wrap|]. split; [lia|]. split; [lia|]. split; [by vm_compute|].
  split; [by apply ram0_user_buf|]. split; vm_compute; done.
Qed.

Lemma ram0_io_small nq : io_ok nq (wrap_device 1000) ram0 [] [] 5000 32 2000.
Proof.
  split; [apply ram0_wrap|]. split; [lia|]. split; [lia|]. split; [by vm_compute|].
  split; [by apply ram0_user_buf|]. split; vm_compute; done.
Qed.

Lemma read_bytes_refines_witness :
  io_ok 64 (wrap_device 1000) ram0 [] [] 5000 32 10000 /\
  exists d' w', read_bytes 5000 32 10000 (wrap_device 1000, ram0) = Ret (0, (d', w')) /\
    forall j, 0 <= j < 10000 -> w_mem w' (32 + j) = disk ram0 (5000 + j).
Proof.
  split; [apply ram0_io|].
  destruct (read_bytes_refines 64 (wrap_device 1000) ram0 [] [] 5000 32 10000 (ram0_io 64))
    as (d' & w' & cs' & o' & E & _ & Hr & _). exists d', w'. by split.
Defined.

Lemma write_bytes_refines_witness :
  io_ok 64 (wrap_device 1000) ram0 [] [] 5000 32 2000 /\ whole_blocks_valid [] 5000 2000 /\
  exists d' w', write_bytes 5000 32 2000 (wrap_device 1000, ram0) = Ret (0, (d', w')).
Proof.
  assert (whole_blocks_valid [] 5000 2000) as Hw by (intros b H1 H2; lia).
  split; [apply ram0_io_small|]. split; [exact Hw|].
  destruct (write_bytes_refines 64 (wrap_device 1000) ram0 [] [] 5000 32 2000 (ram0_io_small 64) Hw)
    as (d' & w' & cs' & o' & E & _). by exists d', w'.
Defined.

Lemma write_then_sync_durable_witness :
  io_ok 64 (wrap_device 1000) ram0 [] [] 5000 32 2000 /\ whole_blocks_valid [] 5000 2000 /\
  exists d' w', (write_bytes 5000 32 2000 ≫= fun _ => sync_filesystem) (wrap_device 1000, ram0)
      = Ret (tt, (d', w')) /\ disk w' 5100 = w_mem ram0 132.
Proof.
  assert (whole_blocks_valid [] 5000 2000) as Hw by (intros b H1 H2; lia).
  split; [apply ram0_io_small|]. split; [exact Hw|].
  destruct (write_then_sync_durable 0 (wrap_device 1000) ram0 [] [] 5000 32 2000 (ram0_io_small 64) Hw)
    as (d' & w' & E & Hd). exists d', w'. split; [exact E|]. by rewrite (Hd 5100) by lia.
Defined.

Lemma whole_block_write_lost_witness :
  exists d' w' w'', write_bytes (3 * 4096) 32 4096 (wrap_device 1000, ram0) = Ret (0, (d', w')) /\
    sync_filesystem (d', w') = Ret (tt, (d', w'')) /\ disk w'' 12288 = disk w' 12288.
Proof.
  destruct (whole_block_write_lost 0 (wrap_device 1000) ram0 [] [] 3 32)
    as (d' & w' & cs' & o' & E & _ & _ & w'' & E' & Hd).
  - apply ram0_wrap.
  - vm_compute. split; [discriminate|reflexivity].
  - reflexivity.
  - cbn. lia.
  - vm_compute. done.
  - by apply ram0_user_buf.
  - exists d', w', w''. split; [exact E|]. split; [exact E'|]. by rewrite (Hd 12288).
Defined.

(** A full cache: block i in buffer i, linked in the order 0, 1, ..., 63. *)
Definition full_buf (i : nat) : BlockBuffer :=
  mkBuf true false (Z.of_nat i) (100 + Z.of_nat i) (100 + Z.of_nat i)
    (if decide (i = 63)%nat then None else Some (S i)).
Definition full_dev : BufferedBlockDevice :=
  mkDev (Some 0%nat) 64 512000 (full_buf <$> seq 0 64).
Definition full_cores : list Core := core <$> (full_buf <$> seq 0 64).

Lemma full_cores_lookup i c :
  full_cores !! i = Some c -> (i < 64)%nat /\ c = core (full_buf i).
Proof.
  unfold full_cores. intros Hi. rewrite !list_lookup_fmap in Hi.
  destruct (seq 0 64 !! i) eqn:E; [|done]. apply lookup_seq in E as [-> Hlt].
  cbn in Hi. by injection Hi as <-.
Qed.

Lemma full_dev_ok nq : state_ok nq full_dev ram0 full_cores (seq 0 62 ++ [62; 63]%nat).
Proof.
  split; [split|..].
  - done.
  - done.
  - vm_compute. lia.
  - vm_compute. done.
  - cbn. repeat (split; [reflexivity|]; eexists; split; [reflexivity|]). reflexivity.
  - done.
  - unfold full_cores. by apply (bool_decide_unpack _); vm_compute.
  - unfold full_cores. by apply (bool_decide_unpack _); vm_compute.
  - intros i c [Hi ->]%full_cores_lookup.
    assert (nblocks = 2251799813685248) as Hnb by by vm_compute.
    split; [rewrite Hnb|..]; cbn; try lia; try done.
    + unfold backed; cbn. unfold ram_backed; cbn. lia.
    + intros x Hx. unfold ram_free, ram_free_page, in_pages in *. cbn in *. intros [?%elem_of_nil|?]; [done|dlia].
  - apply ram0_ok.
  - done.
Qed.

Lemma full_cache_reads_other_block_witness :
  exists d' w', read_bytes (900 * 4096 + 5) 32 10 (full_dev, ram0) = Ret (0, (d', w')) /\
    w_mem w' 32 = view full_cores ram0 (63 * 4096 + 5).
Proof.
  destruct (full_cache_reads_other_block 0 full_dev ram0 full_cores (seq 0 62) 62 63
    (core (full_buf 63)) 900 5 32 10) as (d' & w' & E & _ & Hr).
  - apply full_dev_ok.
  - reflexivity.
  - vm_compute. reflexivity.
  - reflexivity.
  - reflexivity.
  - vm_compute. done.
  - vm_compute. split; [discriminate|reflexivity].
  - lia.
  - lia.
  - lia.
  - apply ram0_user_buf; try lia. intros i c [Hi ->]%full_cores_lookup. cbn. lia.
  - exists d', w'. split; [exact E|]. exact (Hr 0 ltac:(lia)).
Defined.
