(* ===== verification/HeapLift.v ===== *)
(** * Heaps inside larger states

    A state with more fields than the heap's is a heap again; pages that the
    extra fields reserve for themselves are not at the disposal of the heap's
    clients. *)
From S2P Require Import Prelude Mem World.

Section Lift.
Context {S H : Type} `{DmaHeap H}.
Variable reserved : S -> Z -> Prop.

Definition on_heap {A} (m : M H A) : M (S * H) A := fun s =>
  match m (snd s) with
  | Ret (a, h) => Ret (a, (fst s, h))
  | Panic => Panic | Fault => Fault | NoFuel => NoFuel
  end.

Lemma run_on_heap {A} (m : M H A) s h a h' : m h = Ret (a, h') -> on_heap m (s, h) = Ret (a, (s, h')).
Proof. intros E. unfold on_heap. cbn. by rewrite E. Qed.

Definition lift_kmem : KMem (S * H).
Proof.
  refine {| w_mem s := w_mem (snd s); w_set m s := (fst s, w_set m (snd s)) |}.
  - intros m s. apply w_mem_set.
  - intros m m' s. cbn. by rewrite w_set_set.
  - intros [s h]. cbn. by rewrite w_set_mem.
Defined.
#[local] Existing Instance lift_kmem.

Definition lift_ok (s : S * H) : Prop := heap_ok (snd s) /\ forall x, reserved (fst s) x -> live (snd s) x.
Definition lift_live (s : S * H) (x : Z) : Prop := live (snd s) x /\ ~ reserved (fst s) x.

Lemma lift_agree (s : S * H) (m : mem) :
  (forall x, ~ lift_live s x -> m x = w_mem (snd s) x) -> forall x, ~ live (snd s) x -> m x = w_mem (snd s) x.
Proof. intros Hm x Hx. apply Hm. intros [? _]. done. Qed.

Definition lift_heap : DmaHeap (S * H).
Proof.
  refine {| dmalloc n z := on_heap (dmalloc n z); dmafree p v n := on_heap (dmafree p v n);
            heap_ok := lift_ok; live := lift_live;
            backed s := backed (snd s); avail s := avail (snd s); avail_run s := avail_run (snd s) |}.
  - intros m s k [Hok _] Hav Hm. by apply avail_set, lift_agree.
  - intros s. apply avail_mono.
  - intros m s [Hok _] Hm x. unfold lift_live. cbn.
    by rewrite (live_set m (snd s) Hok (lift_agree s m Hm)).
  - intros m s v p. apply backed_set.
  - intros s v p [Hok _]. by apply backed_frame.
  - intros m s [Hok Hres] Hm. pose proof (lift_agree s m Hm) as Hm'. split; cbn.
    + by apply heap_ok_set.
    + intros x Hx. rewrite (live_set m (snd s) Hok Hm'). by apply Hres.
  - intros n z [s h] [Hok Hres] Hc. cbn in *.
    destruct (dmalloc_law n z h Hok Hc)
      as (p & v & h' & E & L1 & L2 & L3 & L4 & L5 & L6 & L7 & L8 & L9 & L10).
    exists p, v, (s, h'). split; [by apply run_on_heap|]. unfold lift_live, lift_ok. cbn.
    split; [split; [done|]; intros x Hx; apply L7; left; by apply Hres|].
    do 4 (split; [done|]). split; [intros x Hx [Hl _]; by apply (L6 x)|]. split.
    + intros x. rewrite L7. split; [tauto|]. intros [?|Hx]; [tauto|]. split; [by right|].
      intros Hr. by apply (L6 x Hx), Hres.
    + split; [intros x [Hx _]; by apply L8|]. by split.
  - intros p v n [s h] [Hok Hres] Hn Hb Hl. cbn in *.
    destruct (dmafree_law p v n h Hok Hn Hb ltac:(intros x Hx; apply (Hl x Hx)))
      as (h' & E & L1 & L2 & L3 & L4 & L5).
    exists (s, h'). split; [by apply run_on_heap|]. unfold lift_live, lift_ok. cbn.
    split; [split; [done|]|].
    + intros x Hx. apply L2. split; [by apply Hres|]. intros Hp. by destruct (Hl x Hp).
    + split; [|split; [done|split; [|done]]].
      * intros x. rewrite L2. tauto.
      * intros x [Hx _]. by apply L4.
Defined.

End Lift.

(** ** A client that allocates single pages and gives them back

    [ext h0 h ps]: [h] is [h0] with the pages of [ps] (page and frame) in
    addition. *)
Section Ext.
Context {H : Type} `{DmaHeap H}.

Definition page_in (ps : list (Z * Z)) (x : Z) : Prop := exists vp, vp ∈ ps /\ in_pages (fst vp) 1 x.

Record ext (h0 h : H) (ps : list (Z * Z)) : Prop := {
  ex_ok : heap_ok h;
  ex_live : forall x, live h x <-> live h0 x \/ page_in ps x;
  ex_fresh : forall x, page_in ps x -> ~ live h0 x;
  ex_pages : forall vp, vp ∈ ps -> backed h (fst vp) (snd vp) /\ 0 <= fst vp /\
               (fst vp + 1) * 4096 <= 18446744073709551616;
  ex_nodup : NoDup (fst <$> ps);
  ex_backed : forall v p, backed h0 v p -> backed h v p;
  ex_avail : forall k, avail h0 (k + Z.of_nat (length ps)) -> avail h k;
}.

Lemma ext_nil h : heap_ok h -> ext h h [].
Proof.
  intros Hok. split; try done.
  - intros x. split; [by left|]. intros [?|(vp & Hvp & _)]; [done|set_solver].
  - intros x (vp & Hvp & _). set_solver.
  - intros vp Hvp. set_solver.
  - constructor.
  - intros k. by rewrite Z.add_0_r.
Qed.

Lemma page_in_cons v p ps x : page_in ((v, p) :: ps) x <-> in_pages v 1 x \/ page_in ps x.
Proof.
  unfold page_in. split.
  - intros (vp & [->|Hvp]%elem_of_cons & Hx); [by left|right; eauto].
  - intros [Hx|(vp & Hvp & Hx)]; [exists (v, p); set_solver|exists vp; set_solver].
Qed.

Lemma ext_page_live h0 h ps v p x : ext h0 h ps -> (v, p) ∈ ps -> in_pages v 1 x -> live h x.
Proof. intros X Hin Hx. apply (ex_live _ _ _ X). right. by exists (v, p). Qed.

Lemma ext_page_fresh h0 h ps v p x : ext h0 h ps -> (v, p) ∈ ps -> in_pages v 1 x -> ~ live h0 x.
Proof. intros X Hin Hx. apply (ex_fresh _ _ _ X). by exists (v, p). Qed.

Lemma ext_old_live h0 h ps x : ext h0 h ps -> live h0 x -> live h x.
Proof. intros X Hx. apply (ex_live _ _ _ X). by left. Qed.

Lemma ext_alloc h0 h ps :
  ext h0 h ps -> avail h0 (Z.of_nat (length ps) + 1) ->
  exists p v h', dmalloc 1 false h = Ret ((p, v), h') /\ ext h0 h' ((v, p) :: ps) /\
    (forall x, live h x -> w_mem h' x = w_mem h x) /\ (forall x, in_pages v 1 x -> ~ live h x).
Proof.
  intros [E1 E2 E3 E4 E5 E6 E7] Hav.
  assert (avail h 1) as Hav1 by (apply E7; by rewrite Z.add_comm).
  destruct (dmalloc_law 1 false h E1 (or_introl (conj eq_refl Hav1)))
    as (p & v & h' & E & L1 & L2 & L3 & L4 & L5 & L6 & L7 & L8 & _ & L10).
  exists p, v, h'. split; [done|]. split; [|done]. split; try done.
  - intros x. rewrite L7, E2, page_in_cons. tauto.
  - intros x [Hx|Hx]%page_in_cons; [|by apply E3]. intros Hl. apply (L6 x Hx), E2. by left.
  - intros vp [->|Hvp]%elem_of_cons; cbn.
    + specialize (L4 0 ltac:(lia)). rewrite !Z.add_0_r in L4. done.
    + destruct (E4 vp Hvp) as (? & ? & ?). auto.
  - cbn. constructor; [|done]. intros ([v' p'] & Ev & Hvp)%list_elem_of_fmap. cbn in Ev. subst v'.
    apply (L6 (v * 4096)); [unfold in_pages; lia|]. apply E2. right. exists (v, p').
    split; [done|]. unfold in_pages; cbn. lia.
  - intros v' p' Hb. auto.
  - intros k Hk. apply L10; [done|]. apply E7. cbn [length] in Hk.
    by replace (k + 1 + Z.of_nat (length ps)) with (k + Z.of_nat (S (length ps))) by lia.
Qed.

Lemma ext_set h0 h ps m :
  ext h0 h ps -> (forall x, ~ live h x -> m x = w_mem h x) -> ext h0 (w_set m h) ps.
Proof.
  intros [E1 E2 E3 E4 E5 E6 E7] Hm. split; try done.
  - by apply heap_ok_set.
  - intros x. by rewrite (live_set m h).
  - intros vp Hvp. rewrite backed_set. by apply E4.
  - intros v p Hb. rewrite backed_set. auto.
  - intros k Hk. apply avail_set; auto.
Qed.

Lemma ext_free h0 h ps1 v p ps2 :
  ext h0 h (ps1 ++ (v, p) :: ps2) ->
  exists h', dmafree p v 1 h = Ret (tt, h') /\ ext h0 h' (ps1 ++ ps2) /\
    (forall x, live h' x -> w_mem h' x = w_mem h x).
Proof.
  intros [E1 E2 E3 E4 E5 E6 E7].
  assert (forall x, page_in (ps1 ++ (v, p) :: ps2) x <-> in_pages v 1 x \/ page_in (ps1 ++ ps2) x) as Hpi.
  { intros x. rewrite <- (page_in_cons v p). unfold page_in. setoid_rewrite elem_of_app.
    setoid_rewrite elem_of_cons. setoid_rewrite elem_of_app. clear. naive_solver. }
  destruct (E4 (v, p) ltac:(set_solver)) as (Hb & Hv & _). cbn in Hb, Hv.
  destruct (dmafree_law p v 1 h E1 ltac:(lia)) as (h' & E & L1 & L2 & L3 & L4 & L5).
  { intros i Hi. replace i with 0 by lia. by rewrite !Z.add_0_r. }
  { intros x Hx. apply E2. right. apply Hpi. by left. }
  rewrite fmap_app, fmap_cons, NoDup_app in E5. destruct E5 as (N1 & N2 & N3).
  apply NoDup_cons in N3 as [N3 N4].
  assert (forall x, page_in (ps1 ++ ps2) x -> ~ in_pages v 1 x) as Hdis.
  { intros x ([v' p'] & Hvp & Hx) Hxv. cbn in Hx.
    assert (v' = v) as -> by (unfold in_pages in *; lia). apply elem_of_app in Hvp as [Hvp|Hvp].
    - apply (N2 v); [apply list_elem_of_fmap; by exists (v, p')|set_solver].
    - apply N3, list_elem_of_fmap. by exists (v, p'). }
  exists h'. split; [done|]. split; [|done]. split; try done.
  - intros x. rewrite L2, E2, Hpi. split; [tauto|]. intros [Hx|Hx].
    + split; [by left|]. intros Hp. apply (E3 x); [apply Hpi; by left|done].
    + split; [by right; right|by apply Hdis].
  - intros x Hx. apply E3, Hpi. by right.
  - intros vp Hvp. destruct (E4 vp ltac:(set_solver)) as (? & ? & ?). auto.
  - rewrite fmap_app, NoDup_app. split; [done|]. split; [|done]. set_solver.
  - intros v' p' Hb'. auto.
  - intros k Hk. rewrite length_app in *. cbn [length] in *. replace k with (k - 1 + 1) by lia.
    apply L5, E7. by replace (k - 1 + Z.of_nat (length ps1 + S (length ps2))) with (k + Z.of_nat (length ps1 + length ps2)) by lia.
Qed.
End Ext.
