(* ===== verification/Virtio.v ===== *)
(** * Virtqueues (kernel/drivers/virtio.c, virtio.h)

    A split virtqueue of 16 descriptors and the registers of a virtio device on
    the MMIO transport.  The descriptor table and the two rings are in DMA
    memory, where the device reads and writes them; the rest of VirtIOQueue is
    the driver's own.  The device is a parameter: reads and writes of its
    registers, and [device_step], what it does to memory between two reads of
    the used index. *)
From S2P Require Import Prelude Mem World.

Class VirtioMmio (W : Type) := {
  mmio_read : Z -> M W Z;
  mmio_write : Z -> Z -> M W unit;
  device_step : M W unit;
}.

Definition load16 := load_le 2.
Definition store16 := store_le 2.

Module Virtio.

Definition VIRTIO_DEVICE_BLK : Z := 2.
Definition VIRTIO_DEVICE_GPU : Z := 16.
Definition VIRTIO_VERSION_LEGACY : Z := 1.

Definition VIRTIO_STATUS_ACKNOWLEDGE : Z := 1.
Definition VIRTIO_STATUS_DRIVER : Z := 2.
Definition VIRTIO_STATUS_DRIVER_OK : Z := 4.
Definition VIRTIO_STATUS_FEATURES_OK : Z := 8.

Definition VIRTIO_FEATURE_RING_INDIRECT_DESC : Z := 268435456.
Definition VIRTIO_FEATURE_RING_EVENT_IDX : Z := 536870912.

(** The registers of VirtIOHeader and their offsets. *)
Inductive reg :=
  | magic | version | device_id | vendor_id
  | device_features | device_features_sel
  | driver_features | driver_features_sel | legacy_guest_page_size
  | queue_sel | queue_num_max | queue_num | legacy_queue_align | legacy_queue_pfn
  | queue_ready | queue_notify | interrupt_status | interrupt_ack | status
  | queue_desc_low | queue_desc_high | queue_driver_low | queue_driver_high
  | queue_device_low | queue_device_high | config_generation.

Definition VirtIOHeader (r : reg) : Z :=
  match r with
  | magic => 0 | version => 4 | device_id => 8 | vendor_id => 12
  | device_features => 16 | device_features_sel => 20
  | driver_features => 32 | driver_features_sel => 36 | legacy_guest_page_size => 40
  | queue_sel => 48 | queue_num_max => 52 | queue_num => 56
  | legacy_queue_align => 60 | legacy_queue_pfn => 64
  | queue_ready => 68 | queue_notify => 80 | interrupt_status => 96 | interrupt_ack => 100
  | status => 112
  | queue_desc_low => 128 | queue_desc_high => 132
  | queue_driver_low => 144 | queue_driver_high => 148
  | queue_device_low => 160 | queue_device_high => 164 | config_generation => 252
  end.

(** [sizeof(VirtIOHeader)]: the configuration space follows it. *)
Definition VirtIOHeader_size : Z := 256.

Definition VIRTIO_NUM_DESC : Z := 16.
Definition VRING_DESC_F_NEXT : Z := 1.
Definition VRING_DESC_F_WRITE : Z := 2.
Definition VRING_DESC_F_INDIRECT : Z := 4.

Record VirtQueueDesc := mkDesc { d_addr : Z; d_len : Z; d_flags : Z; d_next : Z }.

Definition set_next (n : Z) (d : VirtQueueDesc) := mkDesc (d_addr d) (d_len d) (d_flags d) n.
Definition clear_desc (d : VirtQueueDesc) := mkDesc 0 0 (d_flags d) (d_next d).

(** A descriptor in memory. *)
Definition desc_size : Z := 16.
Definition read_desc (m : mem) (a : Z) : VirtQueueDesc :=
  mkDesc (load64 m a) (load32 m (a + 8)) (load16 m (a + 12)) (load16 m (a + 14)).
Definition write_desc (m : mem) (a : Z) (d : VirtQueueDesc) : mem :=
  store16 (store16 (store32 (store64 m a (d_addr d)) (a + 8) (d_len d)) (a + 12) (d_flags d))
    (a + 14) (d_next d).

(** Field addresses of VirtQueueAvail and VirtQueueUsed. *)
Definition avail_idx_at (p : Z) : Z := p + 2.
Definition avail_ring_at (p i : Z) : Z := p + 4 + 2 * i.
Definition used_idx_at (p : Z) : Z := p + 2.
Definition used_id_at (p i : Z) : Z := p + 4 + 8 * i.
Definition used_len_at (p i : Z) : Z := p + 4 + 8 * i + 4.
Definition avail_event_at (p : Z) : Z := p + 132.

Inductive queue_layout :=
  | LegacyLayout (avail_offset used_offset : Z)
  | ModernLayout (avail_offset : Z).

Record VirtIOQueue := mkQueue {
  queue_idx : Z;
  num_used : Z;
  free_head : Z;
  desc : Z;
  avail : Z;
  used : Z;
  desc_shadow : list VirtQueueDesc;
  avail_idx : Z;
  last_used_idx : Z;
  event_idx : bool;
  indirect : bool;
  indirect_lists : list Z;
  indirect_pfns : list Z;
  layout : queue_layout;
}.

Definition set_num_used (n : Z) (q : VirtIOQueue) := mkQueue (queue_idx q) n (free_head q) (desc q)
  (avail q) (used q) (desc_shadow q) (avail_idx q) (last_used_idx q) (event_idx q) (indirect q)
  (indirect_lists q) (indirect_pfns q) (layout q).
Definition set_free_head (n : Z) (q : VirtIOQueue) := mkQueue (queue_idx q) (num_used q) n (desc q)
  (avail q) (used q) (desc_shadow q) (avail_idx q) (last_used_idx q) (event_idx q) (indirect q)
  (indirect_lists q) (indirect_pfns q) (layout q).
Definition set_shadow (l : list VirtQueueDesc) (q : VirtIOQueue) := mkQueue (queue_idx q) (num_used q)
  (free_head q) (desc q) (avail q) (used q) l (avail_idx q) (last_used_idx q) (event_idx q)
  (indirect q) (indirect_lists q) (indirect_pfns q) (layout q).
Definition set_avail_idx (n : Z) (q : VirtIOQueue) := mkQueue (queue_idx q) (num_used q)
  (free_head q) (desc q) (avail q) (used q) (desc_shadow q) n (last_used_idx q) (event_idx q)
  (indirect q) (indirect_lists q) (indirect_pfns q) (layout q).
Definition set_last_used (n : Z) (q : VirtIOQueue) := mkQueue (queue_idx q) (num_used q)
  (free_head q) (desc q) (avail q) (used q) (desc_shadow q) (avail_idx q) n (event_idx q)
  (indirect q) (indirect_lists q) (indirect_pfns q) (layout q).
Definition set_lists (l : list Z) (q : VirtIOQueue) := mkQueue (queue_idx q) (num_used q)
  (free_head q) (desc q) (avail q) (used q) (desc_shadow q) (avail_idx q) (last_used_idx q)
  (event_idx q) (indirect q) l (indirect_pfns q) (layout q).
Definition set_pfns (l : list Z) (q : VirtIOQueue) := mkQueue (queue_idx q) (num_used q)
  (free_head q) (desc q) (avail q) (used q) (desc_shadow q) (avail_idx q) (last_used_idx q)
  (event_idx q) (indirect q) (indirect_lists q) l (layout q).

(** [for (i = i0; n more times; i++) body(i)] *)
Fixpoint for_loop {S} (n : nat) (i : Z) (body : Z -> M S unit) : M S unit :=
  match n with
  | O => mret tt
  | S n' => body i;; for_loop n' (i + 1) body
  end.

(** The descriptors a device finds from entry [i] of the table at [tab]. *)
Fixpoint table_chain (fuel : nat) (m : mem) (tab i : Z) : option (list VirtQueueDesc) :=
  match fuel with
  | O => None
  | S k =>
      let d := read_desc m (tab + desc_size * i) in
      if Z.land (d_flags d) VRING_DESC_F_NEXT =? 0 then Some [d]
      else cons d <$> table_chain k m tab (d_next d)
  end.

Section Ops.
Context {W : Type} `{DmaHeap W} `{VirtioMmio W}.

(** ** Device registers *)
Definition hdr_read (hdr : Z) (r : reg) : M W Z := mmio_read (hdr + VirtIOHeader r).
Definition hdr_write (hdr : Z) (r : reg) (v : Z) : M W unit := mmio_write (hdr + VirtIOHeader r) (u32 v).

Definition header_init (hdr supported_features : Z) : M W Z :=
  hdr_write hdr status 0;;
  hdr_write hdr status (Z.lor VIRTIO_STATUS_ACKNOWLEDGE VIRTIO_STATUS_DRIVER);;
  f ← hdr_read hdr device_features;
  let device_features := Z.land f supported_features in
  hdr_write hdr device_features_sel device_features;;
  hdr_write hdr status
    (Z.lor (Z.lor VIRTIO_STATUS_ACKNOWLEDGE VIRTIO_STATUS_DRIVER) VIRTIO_STATUS_FEATURES_OK);;
  v ← hdr_read hdr version;
  when (v =? VIRTIO_VERSION_LEGACY) (hdr_write hdr legacy_guest_page_size PAGESIZE);;
  mret (i32 device_features).

Definition finish_init (hdr : Z) : M W unit :=
  hdr_write hdr status
    (Z.lor (Z.lor (Z.lor VIRTIO_STATUS_ACKNOWLEDGE VIRTIO_STATUS_DRIVER) VIRTIO_STATUS_FEATURES_OK)
       VIRTIO_STATUS_DRIVER_OK).

Definition queue_used (hdr idx : Z) : M W bool :=
  hdr_write hdr queue_sel idx;;
  v ← hdr_read hdr version;
  if v =? VIRTIO_VERSION_LEGACY then
    p ← hdr_read hdr legacy_queue_pfn; mret (negb (p =? 0))
  else
    r ← hdr_read hdr queue_ready; mret (negb (r =? 0)).

(** ** The queue: its own state and the world *)
Definition St : Type := VirtIOQueue * W.
Definition queue : M St VirtIOQueue := gets fst.
Definition put_queue (f : VirtIOQueue -> VirtIOQueue) : M St unit :=
  modify (fun s => (f (fst s), snd s)).
Definition world {A} (m : M W A) : M St A := fun s =>
  match m (snd s) with
  | Ret (a, w) => Ret (a, (fst s, w))
  | Panic => Panic | Fault => Fault | NoFuel => NoFuel
  end.
Definition on_mem (f : mem -> mem) : M St unit :=
  modify (fun s => (fst s, w_set (f (w_mem (snd s))) (snd s))).
Definition read_mem {A} (f : mem -> A) : M St A := gets (fun s => f (w_mem (snd s))).

(** Arrays of the queue at an index. *)
Definition at_index {A} (l : list A) (i : Z) : M St A :=
  if i <? 0 then lift Fault else lift (of_option (l !! Z.to_nat i)).
Definition shadow_at (i : Z) : M St VirtQueueDesc := q ← queue; at_index (desc_shadow q) i.
Definition put_shadow (i : Z) (d : VirtQueueDesc) : M St unit :=
  put_queue (fun q => set_shadow (<[Z.to_nat i := d]> (desc_shadow q)) q).
(** [queue->desc[i] = queue->desc_shadow[i]] *)
Definition publish_desc (i : Z) : M St unit :=
  q ← queue; d ← shadow_at i; on_mem (fun m => write_desc m (desc q + desc_size * i) d).

(** *** init_queue *)
(** The descriptor table and the rings in two adjacent DMA pages. *)
Definition legacy_rings (hdr idx : Z) : M W (Z * Z * Z * queue_layout) :=
  '(dma_pfn, dma_vpn) ← dmalloc 2 true;
  hdr_write hdr queue_sel idx;;
  hdr_write hdr queue_num VIRTIO_NUM_DESC;;
  hdr_write hdr legacy_queue_align PAGESIZE;;
  hdr_write hdr legacy_queue_pfn dma_pfn;;
  mret (PAGE_2_ADDR dma_vpn, ADDR dma_vpn (desc_size * VIRTIO_NUM_DESC),
        PAGE_2_ADDR (u64 (dma_vpn + 1)), LegacyLayout (desc_size * VIRTIO_NUM_DESC) PAGESIZE).

(** The rings in two DMA pages of their own. *)
Definition modern_rings (hdr idx : Z) : M W (Z * Z * Z * queue_layout) :=
  '(driver_pfn, driver_vpn) ← dmalloc 1 true;
  '(device_pfn, device_vpn) ← dmalloc 1 true;
  let paddr_desc := PAGE_2_ADDR driver_pfn in
  let paddr_avail := ADDR driver_pfn (desc_size * VIRTIO_NUM_DESC) in
  let paddr_used := PAGE_2_ADDR device_pfn in
  hdr_write hdr queue_sel idx;;
  hdr_write hdr queue_num VIRTIO_NUM_DESC;;
  hdr_write hdr queue_desc_low paddr_desc;;
  hdr_write hdr queue_desc_high (Z.shiftr paddr_desc 32);;
  hdr_write hdr queue_driver_low paddr_avail;;
  hdr_write hdr queue_driver_high (Z.shiftr paddr_avail 32);;
  hdr_write hdr queue_device_low paddr_used;;
  hdr_write hdr queue_device_high (Z.shiftr paddr_used 32);;
  hdr_write hdr queue_ready 1;;
  mret (PAGE_2_ADDR driver_vpn, ADDR driver_vpn (desc_size * VIRTIO_NUM_DESC),
        PAGE_2_ADDR device_vpn, ModernLayout (desc_size * VIRTIO_NUM_DESC)).

Definition empty_desc : VirtQueueDesc := mkDesc 0 0 0 0.

(** One step of the loop that links the free descriptors. *)
Definition link_desc (i : Z) : M St unit :=
  q ← queue;
  d ← shadow_at i;
  put_shadow i (set_next (u16 (i + 1)) d);;
  on_mem (fun m => store16 m (desc q + desc_size * i + 14) (u16 (i + 1))).

Definition init_queue (hdr idx : Z) (ind ev : bool) : M St unit :=
  inuse ← world (queue_used hdr idx);
  if inuse : bool then panic else
  n ← world (hdr_read hdr queue_num_max);
  if n <? VIRTIO_NUM_DESC then panic else
  v ← world (hdr_read hdr version);
  '(d, a, u, lay) ← world (if v =? VIRTIO_VERSION_LEGACY then legacy_rings hdr idx
                           else modern_rings hdr idx);
  put_queue (fun q => mkQueue idx 0 0 d a u
    (replicate (Z.to_nat VIRTIO_NUM_DESC) empty_desc) 0 0 ev ind
    (replicate (Z.to_nat VIRTIO_NUM_DESC) 0) (indirect_pfns q) lay);;
  for_loop (Z.to_nat (VIRTIO_NUM_DESC - 1)) 0 link_desc.

(** *** add_queue *)
(** Entry [i] of an indirect table. *)
Definition put_entry (tab i addr len flags : Z) : M St unit :=
  on_mem (fun m => write_desc m (tab + desc_size * i) (mkDesc addr len flags (u16 (i + 1)))).

Definition indirect_input (tab : Z) (inputs input_lengths : list Z) (i : Z) : M St unit :=
  p ← at_index inputs i;
  l ← at_index input_lengths i;
  put_entry tab i (PAGE_2_ADDR p) l VRING_DESC_F_NEXT.

(** WRITE for an output buffer, with NEXT unless it is the last one. *)
Definition output_flags (i num_outputs : Z) : Z :=
  if negb (i =? num_outputs - 1) then Z.lor VRING_DESC_F_WRITE VRING_DESC_F_NEXT
  else VRING_DESC_F_WRITE.

Definition indirect_output (tab : Z) (outputs output_lengths : list Z) (num_inputs num_outputs i : Z)
  : M St unit :=
  p ← at_index outputs i;
  l ← at_index output_lengths i;
  put_entry tab (num_inputs + i) (PAGE_2_ADDR p) l (output_flags i num_outputs).

Definition add_indirect (head : Z) (inputs input_lengths : list Z) (num_inputs : Z)
    (outputs output_lengths : list Z) (num_outputs : Z) : M St unit :=
  let needed := u8 (num_inputs + num_outputs) in
  if PAGESIZE <? needed * desc_size then panic else
  '(indirect_pfn, indirect_vpn) ← world (dmalloc 1 false);
  let indirect_list := PAGE_2_ADDR indirect_vpn in
  for_loop (Z.to_nat num_inputs) 0 (indirect_input indirect_list inputs input_lengths);;
  for_loop (Z.to_nat num_outputs) 0
    (indirect_output indirect_list outputs output_lengths num_inputs num_outputs);;
  q ← queue;
  old ← at_index (indirect_lists q) head;
  if negb (old =? 0) then panic else
  put_queue (fun q => set_lists (<[Z.to_nat head := indirect_list]> (indirect_lists q)) q);;
  put_queue (fun q => set_pfns (<[Z.to_nat head := indirect_pfn]> (indirect_pfns q)) q);;
  d ← shadow_at head;
  put_queue (set_free_head (d_next d));;
  put_shadow head (mkDesc (PAGE_2_ADDR indirect_pfn) (desc_size * needed) VRING_DESC_F_INDIRECT (d_next d));;
  publish_desc head;;
  put_queue (fun q => set_num_used (u16 (num_used q + 1)) q).

(** One descriptor of a direct chain, taken from the free list. *)
Definition direct_put (addr len flags : Z) : M St unit :=
  q ← queue;
  d ← shadow_at (free_head q);
  put_shadow (free_head q) (mkDesc addr len flags (d_next d));;
  let last := free_head q in
  put_queue (set_free_head (d_next d));;
  publish_desc last;;
  put_queue (fun q => set_num_used (u16 (num_used q + 1)) q).

Definition direct_input (inputs input_lengths : list Z) (i : Z) : M St unit :=
  p ← at_index inputs i;
  l ← at_index input_lengths i;
  direct_put p l VRING_DESC_F_NEXT.
Definition direct_output (outputs output_lengths : list Z) (num_outputs i : Z) : M St unit :=
  p ← at_index outputs i;
  l ← at_index output_lengths i;
  direct_put p l (output_flags i num_outputs).

Definition add_direct (inputs input_lengths : list Z) (num_inputs : Z)
    (outputs output_lengths : list Z) (num_outputs : Z) : M St unit :=
  for_loop (Z.to_nat num_inputs) 0 (direct_input inputs input_lengths);;
  for_loop (Z.to_nat num_outputs) 0 (direct_output outputs output_lengths num_outputs).

(** Putting the head of a chain into the available ring. *)
Definition publish_head (head : Z) : M St unit :=
  q ← queue;
  let avail_slot := u16 (Z.land (avail_idx q) (VIRTIO_NUM_DESC - 1)) in
  on_mem (fun m => store16 m (avail_ring_at (avail q) avail_slot) head);;
  put_queue (set_avail_idx (u32 (avail_idx q + 1)));;
  on_mem (fun m => store16 m (avail_idx_at (avail q)) (u16 (u32 (avail_idx q + 1)))).

Definition add_queue (inputs input_lengths : list Z) (num_inputs : Z)
    (outputs output_lengths : list Z) (num_outputs : Z) : M St Z :=
  let needed := u8 (num_inputs + num_outputs) in
  q ← queue;
  if (VIRTIO_NUM_DESC <=? num_used q) || (VIRTIO_NUM_DESC <? needed)
     || (negb (indirect q) && (VIRTIO_NUM_DESC <? num_used q + needed))
  then mret (-1)
  else
    let head := free_head q in
    (if indirect q && (1 <? needed)
     then add_indirect head inputs input_lengths num_inputs outputs output_lengths num_outputs
     else add_direct inputs input_lengths num_inputs outputs output_lengths num_outputs);;
    publish_head head;;
    mret head.

(** *** recycle_descriptors *)
Fixpoint recycle_chain (fuel : nat) (next original_free_head : Z) : M St unit :=
  match fuel with
  | O => lift NoFuel
  | S k =>
      q ← queue;
      d ← shadow_at next;
      put_shadow next (clear_desc d);;
      put_queue (fun q => set_num_used (u16 (num_used q - 1)) q);;
      if negb (Z.land (d_flags d) VRING_DESC_F_NEXT =? 0) then
        publish_desc next;;
        recycle_chain k (d_next d) original_free_head
      else put_shadow next (set_next original_free_head (clear_desc d))
  end.

Definition recycle_descriptors (head : Z) : M St unit :=
  q ← queue;
  let original_free_head := free_head q in
  put_queue (set_free_head head);;
  d ← shadow_at head;
  if negb (Z.land (d_flags d) VRING_DESC_F_INDIRECT =? 0) then
    indirect_list ← at_index (indirect_lists q) head;
    pfn ← at_index (indirect_pfns q) head;
    put_shadow head (clear_desc d);;
    put_queue (fun q => set_num_used (u16 (num_used q - 1)) q);;
    put_shadow head (set_next original_free_head (clear_desc d));;
    world (dmafree pfn (ADDR_2_PAGE indirect_list) 1);;
    put_queue (fun q => set_lists (<[Z.to_nat head := 0]> (indirect_lists q)) q)
  else recycle_chain (Z.to_nat VIRTIO_NUM_DESC) head original_free_head.

(** *** queue_add_notify_pop *)
Definition should_notify : M St bool :=
  q ← queue;
  if event_idx q then
    avail_event ← read_mem (fun m => load16 m (avail_event_at (used q)));
    mret (Z.land (avail_event + 1) (VIRTIO_NUM_DESC - 1) <=? avail_idx q)
  else
    flags ← read_mem (fun m => load16 m (used q));
    mret (Z.land flags 1 =? 0).

(** The loop that waits until the used index differs from the last one seen;
    the device may act before every read. *)
Fixpoint wait_used (fuel : nat) : M St unit :=
  match fuel with
  | O => lift NoFuel
  | S k =>
      world device_step;;
      q ← queue;
      idx ← read_mem (fun m => load16 m (used_idx_at (used q)));
      if negb (last_used_idx q =? idx) then mret tt else wait_used k
  end.

Definition queue_add_notify_pop (fuel : nat) (hdr : Z) (inputs input_lengths : list Z) (num_inputs : Z)
    (outputs output_lengths : list Z) (num_outputs : Z) : M St Z :=
  token ← add_queue inputs input_lengths num_inputs outputs output_lengths num_outputs;
  if token <? 0 then mret (-1) else
  notify ← should_notify;
  q ← queue;
  when notify (world (hdr_write hdr queue_notify (queue_idx q)));;
  wait_used fuel;;
  q ← queue;
  let last_used_slot := u16 (Z.land (last_used_idx q) (VIRTIO_NUM_DESC - 1)) in
  id ← read_mem (fun m => load32 m (used_id_at (used q) last_used_slot));
  len ← read_mem (fun m => load32 m (used_len_at (used q) last_used_slot));
  let index := u16 id in
  if negb (index =? token) then mret (-1) else
  recycle_descriptors index;;
  put_queue (fun q => set_last_used (u32 (last_used_idx q + 1)) q);;
  mret len.

End Ops.
End Virtio.
