(* ===== verification/VirtioSpec.v ===== *)
(** * The descriptors of a virtqueue

    Descriptors in memory, the free list of descriptors, and what add_queue and
    recycle_descriptors do to both. *)
From S2P Require Import Prelude Mem World Virtio.
Import Virtio.

(** ** Descriptors in memory *)
Record desc_ok (d : VirtQueueDesc) : Prop := {
  do_addr : 0 <= d_addr d < 18446744073709551616;
  do_len : 0 <= d_len d < 4294967296;
  do_flags : 0 <= d_flags d < 65536;
  do_next : 0 <= d_next d < 65536;
}.

Lemma write_desc_outside m a d x : ~ (a <= x < a + 16) -> write_desc m a d x = m x.
Proof.
  intros Hx. unfold write_desc, store16, store32, store64.
  by rewrite !store_le_outside by lia.
Qed.

Lemma read_write_desc m a d : desc_ok d -> read_desc (write_desc m a d) a = d.
Proof.
  intros [H1 H2 H3 H4]. unfold read_desc, write_desc, load64, load32, load16, store16, store32, store64.
  rewrite !load_store_disjoint by lia. rewrite (load_store_same 8) by done.
  rewrite !load_store_disjoint by lia. rewrite (load_store_same 4) by done.
  rewrite !load_store_disjoint by lia. rewrite (load_store_same 2) by done.
  rewrite (load_store_same 2) by done. by destruct d.
Qed.

Lemma read_desc_ext m m' a :
  (forall x, a <= x < a + 16 -> m x = m' x) -> read_desc m a = read_desc m' a.
Proof.
  intros Hm. unfold read_desc, load64, load32, load16.
  f_equal; apply load_le_ext; intros x Hx; apply Hm; lia.
Qed.

Lemma load16_ext m m' a :
  (forall x, a <= x < a + 2 -> m x = m' x) -> load16 m a = load16 m' a.
Proof. intros Hm. apply load_le_ext. intros x Hx. apply Hm. lia. Qed.

(** ** Bounded loops *)
Lemma for_loop_inv {S} (P : Z -> S -> Prop) (body : Z -> M S unit) n : forall i s,
  (forall j s, i <= j < i + Z.of_nat n -> P j s -> exists s', body j s = Ret (tt, s') /\ P (j + 1) s') ->
  P i s -> exists s', for_loop n i body s = Ret (tt, s') /\ P (i + Z.of_nat n) s'.
Proof.
  induction n as [|n IH]; intros i s Hb Hp.
  - exists s. split; [done|]. by rewrite Z.add_0_r.
  - destruct (Hb i s ltac:(lia) Hp) as (s1 & E1 & Hp1). cbn [for_loop].
    destruct (IH (i + 1) s1) as (s2 & E2 & Hp2); [|done|].
    { intros j s' Hj. apply Hb. lia. }
    exists s2. rewrite (bind_ret_l _ _ _ _ _ E1). split; [done|].
    by replace (i + Z.of_nat (Datatypes.S n)) with (i + 1 + Z.of_nat n) by lia.
Qed.

(** ** The buffers of a request *)
Definition buffers (ins ilens outs olens : list Z) : list (Z * Z * Z) :=
  zip_with (fun p l => (p, l, VRING_DESC_F_NEXT)) ins ilens ++
  imap (fun i pl => (fst pl, snd pl, output_flags (Z.of_nat i) (Z.of_nat (length outs)))) (zip outs olens).

Lemma buffers_length ins ilens outs olens :
  length ins = length ilens -> length outs = length olens ->
  length (buffers ins ilens outs olens) = (length ins + length outs)%nat.
Proof. intros H1 H2. unfold buffers. rewrite length_app, length_zip_with, length_imap, length_zip_with. lia. Qed.

Lemma buffers_in ins ilens outs olens i p l :
  ins !! i = Some p -> ilens !! i = Some l ->
  buffers ins ilens outs olens !! i = Some (p, l, VRING_DESC_F_NEXT).
Proof. intros H1 H2. unfold buffers. apply lookup_app_l_Some. by rewrite lookup_zip_with, H1, H2. Qed.

Lemma buffers_out ins ilens outs olens i p l :
  length ins = length ilens -> outs !! i = Some p -> olens !! i = Some l ->
  buffers ins ilens outs olens !! (length ins + i)%nat =
  Some (p, l, output_flags (Z.of_nat i) (Z.of_nat (length outs))).
Proof.
  intros E H1 H2. unfold buffers. rewrite lookup_app_r by (rewrite length_zip_with; lia).
  rewrite length_zip_with, <- E, Nat.min_id.
  replace (length ins + i - length ins)%nat with i by lia.
  by rewrite list_lookup_imap, lookup_zip_with, H1, H2.
Qed.

(** Every buffer but the last one has the NEXT flag. *)
Lemma buffers_next ins ilens outs olens i b :
  length ins = length ilens -> length outs = length olens -> (1 <= length outs)%nat ->
  buffers ins ilens outs olens !! i = Some b ->
  Z.land (snd b) VRING_DESC_F_NEXT = if decide (S i = length ins + length outs)%nat then 0 else 1.
Proof.
  intros E1 E2 Ho. unfold buffers. rewrite lookup_app_Some.
  intros [Hb|(Hi & Hb)].
  - apply lookup_zip_with_Some in Hb as (p & l & -> & Hp & _).
    apply lookup_lt_Some in Hp. by rewrite decide_False by lia.
  - rewrite length_zip_with, <- E1, Nat.min_id in Hi, Hb.
    rewrite list_lookup_imap in Hb. apply fmap_Some in Hb as (pl & Hz & ->). cbn.
    apply lookup_lt_Some in Hz. rewrite length_zip_with in Hz. unfold output_flags.
    destruct (Z.eqb_spec (Z.of_nat (i - length ins)) (Z.of_nat (length outs) - 1)); cbn.
    + by rewrite decide_True by lia.
    + by rewrite decide_False by lia.
Qed.

(** ** The free list of descriptors *)
Fixpoint fchain (sh : list VirtQueueDesc) (h : Z) (l : list Z) : Prop :=
  match l with
  | [] => True
  | i :: l' => h = i /\ exists d, sh !! Z.to_nat i = Some d /\ fchain sh (d_next d) l'
  end.

Lemma fchain_insert sh h l i d :
  i ∉ l -> 0 <= i -> Forall (fun j => 0 <= j) l -> fchain sh h l -> fchain (<[Z.to_nat i := d]> sh) h l.
Proof.
  revert h. induction l as [|j l IH]; intros h Hni Hi Hpos Hc; [done|]. cbn in *.
  apply not_elem_of_cons in Hni as [Hij Hni]. apply Forall_cons in Hpos as [Hj Hpos].
  destruct Hc as (-> & dj & Hdj & Hc). split; [done|]. exists dj. split; [|by apply IH].
  rewrite list_lookup_insert_ne by lia. done.
Qed.

(** [free] are the descriptors that are not part of a request, in the order in
    which they will be used. *)
Record queue_inv (q : VirtIOQueue) (free : list Z) : Prop := {
  qi_shadow : length (desc_shadow q) = 16%nat;
  qi_lists : length (indirect_lists q) = 16%nat;
  qi_pfns : length (indirect_pfns q) = 16%nat;
  qi_next : Forall (fun d => 0 <= d_next d < 65536) (desc_shadow q);
  qi_free : fchain (desc_shadow q) (free_head q) free;
  qi_nodup : NoDup free;
  qi_range : Forall (fun i => 0 <= i < 16) free;
  qi_used : num_used q = 16 - Z.of_nat (length free);
  qi_null : forall i, i ∈ free -> indirect_lists q !! Z.to_nat i = Some 0;
}.

Lemma free_at_most_16 q free : queue_inv q free -> (length free <= 16)%nat.
Proof.
  intros [_ _ _ _ _ Hn Hr _ _].
  assert (length free <= length (seqZ 0 16))%nat as H; [|by rewrite length_seqZ in H].
  apply submseteq_length, NoDup_submseteq; [done|]. intros i Hi.
  apply elem_of_seqZ. eapply Forall_forall in Hr; [|exact Hi]. done.
Qed.

Section Ops.
Context {W : Type} `{DmaHeap W} `{VirtioMmio W}.

Lemma run_at_index {A} (l : list A) i x (s : St) :
  0 <= i -> l !! Z.to_nat i = Some x -> at_index (W:=W) l i s = Ret (x, s).
Proof.
  intros Hi Hl. unfold at_index. destruct (Z.ltb_spec i 0); [lia|]. unfold lift. by rewrite Hl.
Qed.

Lemma run_queue_world {A} (m : M W A) q w a w' : m w = Ret (a, w') -> world m (q, w) = Ret (a, (q, w')).
Proof. intros E. unfold world. cbn. by rewrite E. Qed.

Lemma run_shadow q (w : W) i d :
  0 <= i -> desc_shadow q !! Z.to_nat i = Some d -> shadow_at i (q, w) = Ret (d, (q, w)).
Proof. intros Hi Hd. unfold shadow_at. mstep. by apply run_at_index. Qed.

Lemma run_publish q (w : W) i d :
  0 <= i -> desc_shadow q !! Z.to_nat i = Some d ->
  publish_desc i (q, w) = Ret (tt, (q, w_set (write_desc (w_mem w) (desc q + desc_size * i) d) w)).
Proof. intros Hi Hd. unfold publish_desc. mstep. mstep_with run_shadow. done. Qed.

(** *** Taking and giving back the head of the free list *)
Definition indirect_desc (ip n next : Z) : VirtQueueDesc :=
  mkDesc (PAGE_2_ADDR ip) (desc_size * n) VRING_DESC_F_INDIRECT next.

Definition take_indirect (q : VirtIOQueue) (f tab ip n : Z) (d : VirtQueueDesc) : VirtIOQueue :=
  set_num_used (num_used q + 1)
    (set_shadow (<[Z.to_nat f := indirect_desc ip n (d_next d)]> (desc_shadow q))
      (set_free_head (d_next d)
        (set_pfns (<[Z.to_nat f := ip]> (indirect_pfns q))
          (set_lists (<[Z.to_nat f := tab]> (indirect_lists q)) q)))).

Definition give_indirect (q : VirtIOQueue) (f : Z) (d : VirtQueueDesc) : VirtIOQueue :=
  set_lists (<[Z.to_nat f := 0]> (indirect_lists q))
    (set_shadow (<[Z.to_nat f := mkDesc 0 0 (d_flags d) (free_head q)]> (desc_shadow q))
      (set_num_used (num_used q - 1) (set_free_head f q))).

Lemma free_cons q f free :
  queue_inv q (f :: free) -> 0 <= f < 16 /\ (f ∉ free) /\ free_head q = f /\
  exists d, desc_shadow q !! Z.to_nat f = Some d /\ fchain (desc_shadow q) (d_next d) free /\
    0 <= d_next d < 65536.
Proof.
  intros [Hs _ _ Hn Hf Hnd Hr _ _]. apply NoDup_cons in Hnd as [Hni _]. apply Forall_cons in Hr as [Hr _].
  cbn in Hf. destruct Hf as (Hh & d & Hd & Hc). split; [done|]. split; [done|]. split; [done|].
  exists d. split; [done|]. split; [done|]. by eapply Forall_lookup_1 in Hn.
Qed.

Lemma free_nonneg q free : queue_inv q free -> Forall (fun j => 0 <= j) free.
Proof. intros Hq. eapply Forall_impl; [apply (qi_range _ _ Hq)|]. cbn. lia. Qed.

Lemma take_indirect_inv q f free tab ip n d :
  queue_inv q (f :: free) -> desc_shadow q !! Z.to_nat f = Some d ->
  queue_inv (take_indirect q f tab ip n d) free.
Proof.
  intros Hq Hd. destruct (free_cons _ _ _ Hq) as (Hf & Hni & Hh & d' & Hd' & Hc & Hnx). simplify_eq.
  pose proof (free_nonneg _ _ Hq) as Hpos. apply Forall_cons in Hpos as [_ Hpos].
  destruct Hq as [Q1 Q2 Q3 Q4 Q5 Q6 Q7 Q8 Q9]. apply NoDup_cons in Q6 as [_ Q6].
  apply Forall_cons in Q7 as [_ Q7]. split; cbn; rewrite ?length_insert; try done.
  - by apply Forall_insert.
  - apply fchain_insert; [done|lia|done|done].
  - rewrite Q8. cbn [length]. lia.
  - intros i Hi. rewrite list_lookup_insert_ne; [apply Q9; set_solver|].
    assert (i <> free_head q) by set_solver. eapply Forall_forall in Q7; [|exact Hi]. cbn in Q7. lia.
Qed.

Lemma give_indirect_inv q f free d :
  queue_inv q free -> 0 <= f < 16 -> f ∉ free -> desc_shadow q !! Z.to_nat f = Some d ->
  0 <= free_head q < 65536 -> queue_inv (give_indirect q f d) (f :: free).
Proof.
  intros Hq Hf Hni Hd Hh. pose proof (free_nonneg _ _ Hq) as Hpos.
  destruct Hq as [Q1 Q2 Q3 Q4 Q5 Q6 Q7 Q8 Q9]. split; cbn; rewrite ?length_insert; try done.
  - by apply Forall_insert.
  - split; [done|]. eexists. split; [apply list_lookup_insert_eq; lia|]. cbn.
    apply fchain_insert; [done|lia|done|done].
  - by constructor.
  - by constructor.
  - rewrite Q8. lia.
  - intros i [-> |Hi]%elem_of_cons; [apply list_lookup_insert_eq; lia|].
    assert (i <> f) by set_solver.
    rewrite list_lookup_insert_ne; [by apply Q9|]. eapply Forall_forall in Q7; [|exact Hi]. cbn in Q7. lia.
Qed.

Lemma recycle_indirect_ok q w f free d tab ip w2 :
  queue_inv q free -> 0 <= f < 16 -> f ∉ free -> desc_shadow q !! Z.to_nat f = Some d ->
  d_flags d = VRING_DESC_F_INDIRECT -> indirect_lists q !! Z.to_nat f = Some tab ->
  indirect_pfns q !! Z.to_nat f = Some ip -> dmafree ip (ADDR_2_PAGE tab) 1 w = Ret (tt, w2) ->
  recycle_descriptors f (q, w) = Ret (tt, (give_indirect q f d, w2)).
Proof.
  intros Hq Hf Hni Hd Hfl Hl Hp Hfree. unfold recycle_descriptors. mstep. mstep.
  rewrite (bind_ret_l _ _ _ _ _ (run_shadow (set_free_head f q) w f d (proj1 Hf) Hd)). rewrite Hfl. cbn [negb Z.land Z.eqb].
  change (negb (Z.land VRING_DESC_F_INDIRECT VRING_DESC_F_INDIRECT =? 0)) with true. cbn [fst].
  rewrite (bind_ret_l _ _ _ _ _ (run_at_index (indirect_lists q) f tab _ (proj1 Hf) Hl)).
  rewrite (bind_ret_l _ _ _ _ _ (run_at_index (indirect_pfns q) f ip _ (proj1 Hf) Hp)).
  do 3 mstep. mstep_with run_queue_world.
  assert (0 < num_used q < 65536) as Hnu.
  { rewrite (qi_used _ _ Hq). assert (length free < 16)%nat; [|lia].
    assert (length (f :: free) <= length (seqZ 0 16))%nat as Hlen; [|rewrite length_seqZ in Hlen; cbn in Hlen; lia].
    apply submseteq_length, NoDup_submseteq; [constructor; [done|apply Hq]|].
    intros i Hi. apply elem_of_seqZ. apply elem_of_cons in Hi as [->|Hi]; [done|].
    eapply Forall_forall in Hi; [|apply (qi_range _ _ Hq)]. done. }
  unfold put_queue, modify, give_indirect. cbn. rewrite (u16_small (num_used q - 1)) by lia.
  unfold clear_desc, set_next. cbn. by rewrite list_insert_insert_eq.
Qed.
(** *** Filling an indirect table *)
Definition entry (k : Z) (b : Z * Z * Z) : VirtQueueDesc :=
  mkDesc (PAGE_2_ADDR (fst (fst b))) (snd (fst b)) (snd b) (u16 (k + 1)).

(** The first [n] buffers are in the table at [tab]; only the table changed. *)
Definition table_upto (tab : Z) (bufs : list (Z * Z * Z)) (m m' : mem) (n : Z) : Prop :=
  (forall x, ~ (tab <= x < tab + 16 * n) -> m' x = m x) /\
  (forall i b, Z.of_nat i < n -> bufs !! i = Some b ->
     read_desc m' (tab + 16 * Z.of_nat i) = entry (Z.of_nat i) b).

Definition buf_ok (b : Z * Z * Z) : Prop :=
  0 <= snd (fst b) < 4294967296 /\ 0 <= snd b < 65536.

Lemma table_put tab bufs m m' n b :
  table_upto tab bufs m m' n -> 0 <= n -> bufs !! Z.to_nat n = Some b -> buf_ok b ->
  table_upto tab bufs m (write_desc m' (tab + desc_size * n) (entry n b)) (n + 1).
Proof.
  intros [Ho Hr] Hn Hb [Hb1 Hb2]. unfold desc_size. split.
  - intros x Hx. rewrite write_desc_outside by lia. apply Ho. lia.
  - intros i b' Hi Hb'. destruct (decide (Z.of_nat i = n)) as [<-|Hne].
    + rewrite Nat2Z.id in Hb. simplify_eq. apply read_write_desc. split; cbn; [apply u64_range|done..|apply u16_range].
    + rewrite (read_desc_ext _ m'); [apply Hr; [lia|done]|].
      intros x Hx. apply write_desc_outside. lia.
Qed.

Context (ins ilens outs olens : list Z).
Hypothesis Hins : length ins = length ilens.
Hypothesis Houts : length outs = length olens.
Hypothesis Hlens : Forall (fun l => 0 <= l < 4294967296) (ilens ++ olens).
Abbreviation bufs := (buffers ins ilens outs olens).
Abbreviation nin := (Z.of_nat (length ins)).
Abbreviation nout := (Z.of_nat (length outs)).

Lemma buffers_ok i b : bufs !! i = Some b -> buf_ok b.
Proof using Hlens Hins Houts.
  unfold buffers. rewrite lookup_app_Some. apply Forall_app in Hlens as [Hl1 Hl2]. intros [Hb|(_ & Hb)].
  - apply lookup_zip_with_Some in Hb as (p & l & -> & _ & Hl). split; cbn; [|done].
    by eapply Forall_lookup_1 in Hl1.
  - rewrite list_lookup_imap in Hb. apply fmap_Some in Hb as (pl & Hz & ->). split; cbn.
    + apply lookup_zip_with_Some in Hz as (p & l & -> & _ & Hl). by eapply Forall_lookup_1 in Hl2.
    + unfold output_flags. by destruct (negb _).
Qed.

Lemma fill_table q w tab :
  exists m', (for_loop (Z.to_nat nin) 0 (indirect_input tab ins ilens);;
              for_loop (Z.to_nat nout) 0 (indirect_output tab outs olens nin nout)) (q, w)
             = Ret (tt, (q, w_set m' w)) /\ table_upto tab bufs (w_mem w) m' (nin + nout).
Proof using Hlens Hins Houts.
  set (P := fun n (s : St) => exists m', s = (q, w_set m' w) /\ table_upto tab bufs (w_mem w) m' n).
  destruct (for_loop_inv P (indirect_input tab ins ilens) (Z.to_nat nin) 0 (q, w_set (w_mem w) w))
    as (s1 & E1 & P1).
  - intros j s Hj (m' & -> & Ht).
    destruct (lookup_lt_is_Some_2 ins (Z.to_nat j)) as [p Hp]; [lia|].
    destruct (lookup_lt_is_Some_2 ilens (Z.to_nat j)) as [l Hl]; [lia|].
    eexists. split.
    { unfold indirect_input. mstep_with run_at_index; [|lia]. mstep_with run_at_index; [|lia]. done. }
    exists (write_desc m' (tab + desc_size * j) (entry j (p, l, VRING_DESC_F_NEXT))).
    cbn [fst snd]. rewrite w_mem_set, w_set_set. split; [done|]. pose proof (buffers_in ins ilens outs olens _ p l Hp Hl) as Hb.
    apply table_put; [done|lia|done|by eapply buffers_ok].
  - exists (w_mem w). split; [done|]. split; [done|lia].
  - destruct (for_loop_inv (fun n => P (nin + n)) (indirect_output tab outs olens nin nout) (Z.to_nat nout) 0 s1)
      as (s2 & E2 & P2).
    + intros j s Hj (m' & -> & Ht).
      destruct (lookup_lt_is_Some_2 outs (Z.to_nat j)) as [p Hp]; [lia|].
      destruct (lookup_lt_is_Some_2 olens (Z.to_nat j)) as [l Hl]; [lia|].
      eexists. split.
      { unfold indirect_output. mstep_with run_at_index; [|lia]. mstep_with run_at_index; [|lia]. done. }
      exists (write_desc m' (tab + desc_size * (nin + j)) (entry (nin + j) (p, l, output_flags j nout))).
      cbn [fst snd]. rewrite w_mem_set, w_set_set. split; [done|].
      pose proof (buffers_out ins ilens outs olens _ p l Hins Hp Hl) as Hb. rewrite Z2Nat.id in Hb by lia.
      rewrite Z.add_assoc. apply table_put; [done|lia| |by eapply buffers_ok].
      by replace (Z.to_nat (nin + j)) with (length ins + Z.to_nat j)%nat by lia.
    + rewrite Z.add_0_r. by replace (0 + Z.of_nat (Z.to_nat nin)) with nin in P1 by lia.
    + destruct P2 as (m' & -> & Ht). exists m'. split.
      * rewrite w_set_mem in E1. rewrite (bind_ret_l _ _ _ _ _ E1). exact E2.
      * by replace (nin + nout) with (nin + (0 + Z.of_nat (Z.to_nat nout))) by lia.
Qed.

Lemma add_indirect_ok q w f free ip it w1 :
  queue_inv q (f :: free) -> nin + nout <= 16 -> dmalloc 1 false w = Ret ((ip, it), w1) ->
  exists d m', desc_shadow q !! Z.to_nat f = Some d /\
    table_upto (PAGE_2_ADDR it) bufs (w_mem w1) m' (nin + nout) /\
    add_indirect f ins ilens nin outs olens nout (q, w) =
    Ret (tt, (take_indirect q f (PAGE_2_ADDR it) ip (nin + nout) d,
              w_set (write_desc m' (desc q + desc_size * f) (indirect_desc ip (nin + nout) (d_next d))) w1)).
Proof using Hlens Hins Houts.
  intros Hq Hn Ed. destruct (free_cons _ _ _ Hq) as (Hf & Hni & Hh & d & Hd & Hc & Hnx).
  destruct (fill_table q w1 (PAGE_2_ADDR it)) as (m' & Ef & Ht).
  assert (u8 (nin + nout) = nin + nout) as Hu by (apply u8_small; lia).
  exists d, m'. split; [done|]. split; [done|]. unfold add_indirect. rewrite Hu.
  destruct (Z.ltb_spec PAGESIZE ((nin + nout) * desc_size)) as [Hlt|_]; [unfold PAGESIZE, desc_size in Hlt; lia|].
  mstep_with run_queue_world. apply bind_Ret in Ef as (? & s1 & E1 & E2).
  rewrite (bind_ret_l _ _ _ _ _ E1), (bind_ret_l _ _ _ _ _ E2). mstep. cbn [fst].
  rewrite (bind_ret_l _ _ _ _ _ (run_at_index (indirect_lists q) f 0 _ (proj1 Hf) (qi_null _ _ Hq f ltac:(set_solver)))).
  cbn [Z.eqb negb]. do 2 mstep.
  erewrite bind_ret_l; [|apply (run_shadow _ _ f d (proj1 Hf)); exact Hd]. do 2 mstep.
  erewrite bind_ret_l; [|apply (run_publish _ _ f (indirect_desc ip (nin + nout) (d_next d)) (proj1 Hf));
    apply list_lookup_insert_eq; cbn; rewrite (qi_shadow _ _ Hq); lia].
  cbn [desc set_shadow set_free_head set_pfns set_lists fst snd]. rewrite w_mem_set, w_set_set.
  assert (u16 (num_used q + 1) = num_used q + 1) as Hu1; [apply u16_small|
    unfold put_queue, modify, take_indirect; rewrite <- Hu1; reflexivity].
  pose proof (free_at_most_16 _ _ Hq) as H16. rewrite (qi_used _ _ Hq). cbn [length] in *. lia.
Qed.

End Ops.

(** *** The chain a device reads *)
Fixpoint entries (k : Z) (bs : list (Z * Z * Z)) : list VirtQueueDesc :=
  match bs with
  | [] => []
  | b :: r => entry k b :: entries (k + 1) r
  end.

Lemma table_chain_entries m tab bs : forall k,
  bs <> [] -> 0 <= k -> k + Z.of_nat (length bs) < 65536 ->
  (forall i b, bs !! i = Some b -> read_desc m (tab + 16 * (k + Z.of_nat i)) = entry (k + Z.of_nat i) b) ->
  (forall i b, bs !! i = Some b -> Z.land (snd b) VRING_DESC_F_NEXT = if decide (S i = length bs) then 0 else 1) ->
  table_chain (length bs) m tab k = Some (entries k bs).
Proof.
  induction bs as [|b bs IH]; intros k Hne Hk Hlen Hr Hf; [done|]. cbn [table_chain length entries].
  specialize (Hr 0%nat b eq_refl) as Hr0. rewrite Z.add_0_r in Hr0. unfold desc_size. rewrite Hr0.
  specialize (Hf 0%nat b eq_refl) as Hf0. cbn [d_flags entry]. rewrite Hf0.
  destruct bs as [|b' bs]; [done|]. rewrite decide_False by (cbn; lia). cbn [Z.eqb].
  cbn [d_next entry]. rewrite u16_small by (cbn [length] in Hlen; lia).
  rewrite IH; [done|done|lia|cbn [length] in *; lia|..].
  - intros i c Hc. replace (k + 1 + Z.of_nat i) with (k + Z.of_nat (S i)) by lia. by apply Hr.
  - intros i c Hc. rewrite (Hf (S i) c Hc). apply decide_ext. cbn. lia.
Qed.

Lemma buffers_chain ins ilens outs olens m0 m tab :
  length ins = length ilens -> length outs = length olens -> (1 <= length outs)%nat ->
  Z.of_nat (length ins + length outs) < 65536 ->
  table_upto tab (buffers ins ilens outs olens) m0 m (Z.of_nat (length ins) + Z.of_nat (length outs)) ->
  table_chain (length ins + length outs) m tab 0 = Some (entries 0 (buffers ins ilens outs olens)).
Proof.
  intros H1 H2 Ho Hlen [_ Ht]. pose proof (buffers_length _ _ _ _ H1 H2) as Hl. rewrite <- Hl in *.
  apply table_chain_entries; [intros E; rewrite E in Hl; cbn in Hl; lia|lia|lia|..].
  - intros i b Hb. rewrite Z.add_0_l. apply Ht; [|done]. apply lookup_lt_Some in Hb. lia.
  - intros i b Hb. rewrite (buffers_next _ _ _ _ _ _ H1 H2 Ho Hb). apply decide_ext. lia.
Qed.

(** *** The available ring *)
Definition publish_mem (q : VirtIOQueue) (head : Z) (m : mem) : mem :=
  store16 (store16 m (avail_ring_at (avail q) (avail_idx q mod 16)) head)
    (avail_idx_at (avail q)) (u16 (avail_idx q + 1)).

Lemma publish_outside q f m x : ~ (avail q <= x < avail q + 38) -> publish_mem q f m x = m x.
Proof.
  intros Hx. unfold publish_mem, avail_ring_at, avail_idx_at, store16.
  assert (0 <= avail_idx q mod 16 < 16) by dlia. by rewrite !store_le_outside by lia.
Qed.

Lemma publish_fields q f m :
  0 <= f < 65536 ->
  load16 (publish_mem q f m) (avail_idx_at (avail q)) = u16 (avail_idx q + 1) /\
  load16 (publish_mem q f m) (avail_ring_at (avail q) (avail_idx q mod 16)) = f.
Proof.
  intros Hf. assert (0 <= avail_idx q mod 16 < 16) by dlia.
  unfold publish_mem, load16, store16, avail_ring_at, avail_idx_at. split.
  - apply load_store_same. apply u16_range.
  - rewrite load_store_disjoint by lia. by apply load_store_same.
Qed.

Lemma publish_head_ok {W} `{KMem W} q (w : W) f :
  0 <= avail_idx q -> avail_idx q + 1 < 4294967296 ->
  publish_head f (q, w) =
  Ret (tt, (set_avail_idx (avail_idx q + 1) q, w_set (publish_mem q f (w_mem w)) w)).
Proof.
  intros Ha Hb. unfold publish_head. do 3 mstep. unfold on_mem, modify. cbn [fst snd].
  rewrite w_mem_set, w_set_set. change (VIRTIO_NUM_DESC - 1) with 15. rewrite Z_land_15.
  rewrite (u16_small (avail_idx q mod 16)) by dlia. rewrite !(u32_small (avail_idx q + 1)) by lia. done.
Qed.

Lemma add_queue_indirect {W} `{DmaHeap W} ins ilens outs olens q (w : W) f free ip it w1 :
  length ins = length ilens -> length outs = length olens ->
  Forall (fun l => 0 <= l < 4294967296) (ilens ++ olens) ->
  queue_inv q (f :: free) -> indirect q = true -> (2 <= length ins + length outs <= 16)%nat ->
  0 <= avail_idx q -> avail_idx q + 1 < 4294967296 -> dmalloc 1 false w = Ret ((ip, it), w1) ->
  let n := Z.of_nat (length ins) + Z.of_nat (length outs) in
  exists d m', desc_shadow q !! Z.to_nat f = Some d /\
    table_upto (PAGE_2_ADDR it) (buffers ins ilens outs olens) (w_mem w1) m' n /\
    add_queue ins ilens (Z.of_nat (length ins)) outs olens (Z.of_nat (length outs)) (q, w) =
    Ret (f, (set_avail_idx (avail_idx q + 1) (take_indirect q f (PAGE_2_ADDR it) ip n d),
             w_set (publish_mem q f (write_desc m' (desc q + desc_size * f) (indirect_desc ip n (d_next d)))) w1)).
Proof.
  intros Hi Ho Hl Hq Hind Hn Ha1 Ha2 Ed n.
  destruct (add_indirect_ok ins ilens outs olens Hi Ho Hl q w f free ip it w1 Hq ltac:(lia) Ed)
    as (d & m' & Hd & Ht & E).
  exists d, m'. split; [done|]. split; [done|]. unfold add_queue. fold n in E |- *. mstep. cbn [fst].
  destruct (free_cons _ _ _ Hq) as (Hf & _ & Hh & _).
  pose proof (free_at_most_16 _ _ Hq) as H16. cbn [length] in H16.
  rewrite (u8_small n), (qi_used _ _ Hq), Hind, Hh by lia.
  change VIRTIO_NUM_DESC with 16. cbn [length negb andb orb].
  destruct (Z.leb_spec 16 (16 - Z.of_nat (S (length free)))); [lia|].
  destruct (Z.ltb_spec 16 n); [lia|]. destruct (Z.ltb_spec 1 n); [|lia]. cbn [orb].
  rewrite (bind_ret_l _ _ _ _ _ E).
  erewrite bind_ret_l; [|apply publish_head_ok; done]. by rewrite w_mem_set, w_set_set.
Qed.

(** *** queue_add_notify_pop, from its parts *)
Lemma pop_run {W} `{DmaHeap W} `{VirtioMmio W} fuel hdr ins ilens nin outs olens nout
    (s0 s1 s2 : @St W) (q3 q4 : VirtIOQueue) (w3 w4 : W) f :
  add_queue ins ilens nin outs olens nout s0 = Ret (f, s1) -> 0 <= f < 65536 ->
  (notify ← should_notify; q ← queue; when notify (world (hdr_write hdr queue_notify (queue_idx q)))) s1
    = Ret (tt, s2) ->
  wait_used fuel s2 = Ret (tt, (q3, w3)) -> 0 <= last_used_idx q3 ->
  load32 (w_mem w3) (used_id_at (used q3) (last_used_idx q3 mod 16)) = f ->
  recycle_descriptors f (q3, w3) = Ret (tt, (q4, w4)) ->
  queue_add_notify_pop fuel hdr ins ilens nin outs olens nout s0 =
  Ret (load32 (w_mem w3) (used_len_at (used q3) (last_used_idx q3 mod 16)),
       (set_last_used (u32 (last_used_idx q4 + 1)) q4, w4)).
Proof.
  intros Ea Hf En Ew Hlast Hid Er. unfold queue_add_notify_pop. rewrite (bind_ret_l _ _ _ _ _ Ea).
  destruct (Z.ltb_spec f 0); [lia|].
  apply bind_Ret in En as (nt & t1 & En1 & En2). apply bind_Ret in En2 as (q1 & t2 & En2 & En3).
  rewrite (bind_ret_l _ _ _ _ _ En1), (bind_ret_l _ _ _ _ _ En2), (bind_ret_l _ _ _ _ _ En3).
  rewrite (bind_ret_l _ _ _ _ _ Ew). do 3 mstep. cbn [fst snd].
  change (VIRTIO_NUM_DESC - 1) with 15. rewrite Z_land_15, (u16_small (last_used_idx q3 mod 16)) by dlia.
  rewrite Hid, (u16_small f), Z.eqb_refl by lia. cbn [negb].
  by rewrite (bind_ret_l _ _ _ _ _ Er).
Qed.
