(* ===== verification/VirtioBlk.v ===== *)
(** * The virtio block driver (kernel/drivers/virtio_blk.c, virtio_blk.h)

    A request is two DMA pages, its header and its status byte, queued together
    with the caller's page; the driver waits until the device has answered. *)
From S2P Require Import Prelude Mem World Virtio.
Import Virtio.

Module VirtioBlk.

Definition VIRTIO_BLK_FEATURE_RO : Z := 32.
Definition VIRTIO_BLK_FEATURE_FLUSH : Z := 512.
Definition VIRTIO_BLK_SUPPORTED_FEATURES : Z :=
  Z.lor (Z.lor (Z.lor VIRTIO_BLK_FEATURE_RO VIRTIO_BLK_FEATURE_FLUSH)
           VIRTIO_FEATURE_RING_INDIRECT_DESC) VIRTIO_FEATURE_RING_EVENT_IDX.

(** Offsets in BlkConfig. *)
Definition capacity_low : Z := 0.
Definition capacity_high : Z := 4.

Record VirtIOBlk := mkBlk {
  hdr : Z;
  blk_queue : VirtIOQueue;
  capacity : Z;
  negotiated_features : Z;
}.

Definition set_blk_queue (q : VirtIOQueue) (b : VirtIOBlk) : VirtIOBlk :=
  mkBlk (hdr b) q (capacity b) (negotiated_features b).

(** VirtIOBlkReq: the type, a reserved word and the sector; VirtIOBlkResp: the
    status byte. *)
Inductive req_type := In | Out.
#[global] Instance req_type_eq_dec : EqDecision req_type.
Proof. solve_decision. Defined.
Definition req_code (t : req_type) : Z := match t with In => 0 | Out => 1 end.
Definition VirtIOBlkReq_size : Z := 16.
Definition VirtIOBlkResp_size : Z := 1.
Definition write_req (m : mem) (p : Z) (t : req_type) (sector : Z) : mem :=
  store64 (store32 (store32 m p (req_code t)) (p + 4) 0) (p + 8) sector.

Definition VIRTIO_BLK_RESP_STATUS_OK : Z := 0.
Definition VIRTIO_BLK_RESP_STATUS_IO_ERR : Z := 1.
Definition VIRTIO_BLK_RESP_STATUS_UNSUPPORTED : Z := 2.
Definition VIRTIO_BLK_RESP_STATUS_NOT_READY : Z := 3.

Section Ops.
Context {W : Type} `{DmaHeap W} `{VirtioMmio W}.

Definition BSt : Type := VirtIOBlk * W.
Definition blk : M BSt VirtIOBlk := gets fst.
Definition bworld {A} (m : M W A) : M BSt A := fun s =>
  match m (snd s) with
  | Ret (a, w) => Ret (a, (fst s, w))
  | Panic => Panic | Fault => Fault | NoFuel => NoFuel
  end.
Definition in_queue {A} (m : M St A) : M BSt A := fun s =>
  match m (blk_queue (fst s), snd s) with
  | Ret (a, (q, w)) => Ret (a, (set_blk_queue q (fst s), w))
  | Panic => Panic | Fault => Fault | NoFuel => NoFuel
  end.
Definition bmem (f : mem -> mem) : M BSt unit :=
  modify (fun s => (fst s, w_set (f (w_mem (snd s))) (snd s))).

Definition init_virtio_blk (header : Z) : M BSt unit :=
  f ← bworld (header_init header VIRTIO_BLK_SUPPORTED_FEATURES);
  let negotiated := u32 f in
  lo ← bworld (mmio_read (header + VirtIOHeader_size + capacity_low));
  hi ← bworld (mmio_read (header + VirtIOHeader_size + capacity_high));
  let cap := Z.lor lo (u64 (Z.shiftl hi 32)) in
  in_queue (init_queue header 0
    (negb (Z.land negotiated VIRTIO_FEATURE_RING_INDIRECT_DESC =? 0))
    (negb (Z.land negotiated VIRTIO_FEATURE_RING_INDIRECT_DESC =? 0)));;
  bworld (finish_init header);;
  modify (fun s => (mkBlk header (blk_queue (fst s)) cap negotiated, snd s)).

(** The wait loop of queue_add_notify_pop. *)
Variable fuel : nat.

(** What the two operations share: the two pages of a request, the queue, and
    the status; [inputs] and [outputs] are the buffers the device reads and
    writes, given the frames of the request and of the response. *)
Definition blk_request (t : req_type) (sector : Z) (inputs outputs : Z -> Z -> list Z)
    (input_lengths output_lengths : list Z) : M BSt Z :=
  '(req_pfn, req_vpn) ← bworld (dmalloc 1 false);
  bmem (fun m => write_req m (PAGE_2_ADDR req_vpn) t sector);;
  '(resp_pfn, resp_vpn) ← bworld (dmalloc 1 false);
  bmem (fun m => upd m (PAGE_2_ADDR resp_vpn) VIRTIO_BLK_RESP_STATUS_NOT_READY);;
  b ← blk;
  in_queue (queue_add_notify_pop fuel (hdr b)
    (inputs req_pfn resp_pfn) input_lengths (Z.of_nat (length input_lengths))
    (outputs req_pfn resp_pfn) output_lengths (Z.of_nat (length output_lengths)));;
  status ← gets (fun s => u8 (w_mem (snd s) (PAGE_2_ADDR resp_vpn)));
  bworld (dmafree req_pfn req_vpn 1);;
  bworld (dmafree resp_pfn resp_vpn 1);;
  mret status.

Definition virtio_blk_write_block (sector buf_vpn buf_pfn : Z) : M BSt Z :=
  blk_request Out sector (fun req _ => [req; buf_pfn]) (fun _ resp => [resp])
    [VirtIOBlkReq_size; PAGESIZE] [VirtIOBlkResp_size].

Definition virtio_blk_read_block (sector buf_vpn buf_pfn : Z) : M BSt Z :=
  blk_request In sector (fun req _ => [req]) (fun _ resp => [buf_pfn; resp])
    [VirtIOBlkReq_size] [PAGESIZE; VirtIOBlkResp_size].

End Ops.
End VirtioBlk.
