(* ===== verification/VirtioDev.v ===== *)
(** * The device behind a virtqueue

    What a block device does, as the virtio specification describes it: the
    state [D] of the device with its registers, the requests it finds in the
    rings of the driver, and how it answers them.  The device is a parameter
    with these laws; the driver is verified against them. *)
From S2P Require Import Prelude Mem World HeapLift Virtio VirtioSpec VirtioBlk.
Import Virtio VirtioBlk.

(** A device with state [D] next to a kernel heap [H]. *)
Class Device (D H : Type) := {
  dev_read : Z -> D -> Z * D;
  dev_write : Z -> Z -> D -> D;
  dev_step : D -> H -> D * mem;
}.

#[global] Instance dev_kmem {D H} `{KMem H} `{!Device D H} : KMem (D * H) := lift_kmem.
#[global] Instance dev_heap {D H} `{DmaHeap H} `{!Device D H} : DmaHeap (D * H) :=
  lift_heap (fun _ _ => False).
#[global] Instance dev_mmio {D H} `{KMem H} `{!Device D H} : VirtioMmio (D * H) := {|
  mmio_read a s := let '(v, d) := dev_read a (fst s) in Ret (v, (d, snd s));
  mmio_write a v s := Ret (tt, (dev_write a v (fst s), snd s));
  device_step s := let '(d, m) := dev_step (fst s) (snd s) in Ret (tt, (d, w_set m (snd s)));
|}.

Section Requests.
Context {H : Type} `{DmaHeap H}.

(** Physical address [pa] is the kernel's address [va]. *)
Definition phys (h : H) (pa va : Z) : Prop :=
  exists v p, backed h v p /\ in_pages v 1 va /\ pa = p * 4096 + (va - v * 4096).

(** The physical addresses of the descriptor table, the available ring and the
    used ring, as the device knows them, are those of the driver's queue. *)
Definition ring_at (h : H) (rg : option (Z * Z * Z)) (dt av us : Z) : Prop :=
  exists pd pa pu, rg = Some (pd, pa, pu) /\ phys h pd dt /\ phys h pa av /\ phys h pu us.

(** The buffers of the request whose chain starts at entry [head] of the
    table at [dt]. *)
Inductive chain_at (h : H) (dt head : Z) : list VirtQueueDesc -> Prop :=
  | chain_direct ds :
      Z.land (d_flags (read_desc (w_mem h) (dt + 16 * head))) VRING_DESC_F_INDIRECT = 0 ->
      table_chain 16 (w_mem h) dt head = Some ds -> chain_at h dt head ds
  | chain_indirect ds tab :
      let d := read_desc (w_mem h) (dt + 16 * head) in
      Z.land (d_flags d) VRING_DESC_F_INDIRECT <> 0 -> phys h (d_addr d) tab ->
      table_chain (Z.to_nat (d_len d / 16)) (w_mem h) tab 0 = Some ds -> chain_at h dt head ds.

(** The chain at [head] starts with an indirect descriptor. *)
Definition indirect_head (h : H) (dt head : Z) : Prop :=
  Z.land (d_flags (read_desc (w_mem h) (dt + 16 * head))) VRING_DESC_F_INDIRECT <> 0.

(** A request for eight sectors: [rq_data] is the page to read or to write,
    [rq_status] the byte for the answer. *)
Record request := mkReq {
  rq_head : Z;
  rq_type : req_type;
  rq_sector : Z;
  rq_data : Z;
  rq_status : Z;
}.

Definition writes (d : VirtQueueDesc) : bool := negb (Z.land (d_flags d) VRING_DESC_F_WRITE =? 0).
Definition is_in (t : req_type) : bool := match t with In => true | Out => false end.

(** The three buffers of [r]: its header, the data and the status. *)
Record request_chain (h : H) (ds : list VirtQueueDesc) (r : request) : Prop := {
  rc_shape : (fun d => (d_len d, writes d)) <$> ds = [(16, false); (4096, is_in (rq_type r)); (1, true)];
  rc_header : exists d req, ds !! 0%nat = Some d /\ phys h (d_addr d) req /\
    load32 (w_mem h) req = req_code (rq_type r) /\ load64 (w_mem h) (req + 8) = rq_sector r;
  rc_data : exists d, ds !! 1%nat = Some d /\ phys h (d_addr d) (rq_data r);
  rc_status : exists d, ds !! 2%nat = Some d /\ phys h (d_addr d) (rq_status r);
  rc_aligned : rq_data r mod 4096 = 0;
}.

(** [r] is the next request in the available ring of a device that has seen
    [sn] requests. *)
Record posted (h : H) (rg : option (Z * Z * Z)) (sn dt av us : Z) (r : request) : Prop := {
  po_ring : ring_at h rg dt av us;
  po_idx : load16 (w_mem h) (avail_idx_at av) = u16 (sn + 1);
  po_head : load16 (w_mem h) (avail_ring_at av (sn mod 16)) = rq_head r;
  po_range : 0 <= rq_head r < 16;
  po_chain : exists ds, chain_at h dt (rq_head r) ds /\ request_chain h ds r;
}.

(** The used ring and the buffers the device writes do not overlap. *)
Definition separate (us : Z) (r : request) : Prop :=
  ~ (us <= rq_status r < us + 134) /\ ~ (rq_data r <= rq_status r < rq_data r + 4096) /\
  (rq_data r + 4096 <= us \/ us + 134 <= rq_data r).

(** The memory and the medium after the request was answered. *)
Record served (m m' : mem) (sn us : Z) (r : request) (md md' : Z -> Z) : Prop := {
  sv_frame : forall x, ~ (us <= x < us + 134) -> x <> rq_status r ->
    ~ (rq_type r = In /\ rq_data r <= x < rq_data r + 4096) -> m' x = m x;
  sv_idx : load16 m' (used_idx_at us) = u16 (sn + 1);
  sv_id : load32 m' (used_id_at us (sn mod 16)) = rq_head r;
  sv_event : load16 m' (avail_event_at us) = load16 m (avail_event_at us) \/
             load16 m' (avail_event_at us) = u16 (sn + 1);
  sv_status : m' (rq_status r) = VIRTIO_BLK_RESP_STATUS_OK;
  sv_data : rq_type r = In ->
    forall j, 0 <= j < 4096 -> m' (rq_data r + j) = md (rq_sector r * 512 + j);
  sv_medium : forall a, md' a =
    if decide (rq_type r = Out /\ rq_sector r * 512 <= a < rq_sector r * 512 + 4096)
    then m (rq_data r + (a - rq_sector r * 512)) else md a;
}.
End Requests.

(** A virtio block device.  [seen] counts (modulo 2^16) the requests it has
    taken from the available ring, [medium] are the bytes it stores, [awake]
    says that it will look at the ring without a further notification,
    [indirect_ok] that it takes an indirect descriptor table, and [delay] how
    many steps it still takes before it answers. *)
Class BlkDevice (D H : Type) `{DmaHeap H} `{!Device D H} := {
  blk_header : Z;
  blk_sectors : Z;
  rings : D -> option (Z * Z * Z);
  seen : D -> Z;
  medium : D -> Z -> Z;
  awake : D -> Prop;
  indirect_ok : D -> Prop;
  delay : D -> nat;
  patience : nat;
  blk_sectors_range : 0 <= blk_sectors <= 18014398509481984;
  delay_bound : forall d, (delay d < patience)%nat;
  notify_law : forall d, let d' := dev_write (blk_header + VirtIOHeader queue_notify) 0 d in
    awake d' /\ rings d' = rings d /\ seen d' = seen d /\ (forall a, medium d' a = medium d a);
  (** A device that has set the flag not to be notified polls the ring. *)
  quiet_law : forall d h dt av us r, heap_ok h -> posted h (rings d) (seen d) dt av us r ->
    Z.land (load16 (w_mem h) us) 1 <> 0 -> awake d;
  wait_law : forall d h dt av us r k, heap_ok h -> posted h (rings d) (seen d) dt av us r ->
    awake d -> delay d = S k ->
    exists d', dev_step d h = (d', w_mem h) /\ awake d' /\ delay d' = k /\
      rings d' = rings d /\ seen d' = seen d /\ (forall a, medium d' a = medium d a);
  serve_law : forall d h dt av us r, heap_ok h -> posted h (rings d) (seen d) dt av us r ->
    (indirect_head h dt (rq_head r) -> indirect_ok d) -> separate us r -> 0 <= rq_sector r -> rq_sector r + 8 <= blk_sectors ->
    awake d -> delay d = O ->
    exists d' m', dev_step d h = (d', m') /\ rings d' = rings d /\
      seen d' = u16 (seen d + 1) /\
      served (w_mem h) m' (seen d) us r (medium d) (medium d');
}.

(** The assumption that the block driver makes beyond the virtio specification.
    A device has to take indirect descriptors once the driver has acknowledged
    the feature; header_init never does (virtio.c writes the features to
    device_features_sel, [features_not_acknowledged] of VirtioProps.v), and the
    driver uses them all the same.  The devices of QEMU look at the flag of the
    descriptor only.  The theorems on requests and on the way to the medium rest
    on it; those on the initialisation do not. *)
Class TakesIndirect (D H : Type) `{BlkDevice D H} : Prop :=
  takes_indirect : forall d : D, indirect_ok d.
