(* ===== verification/VirtioBlkSpec.v ===== *)
(** * The block driver and its device

    One request of virtio_blk.c from the allocation of its pages to their
    release: what the driver puts into the queue is a request in the sense of
    VirtioDev.v, the device answers it, and the driver hands the answer back
    with the queue and the heap as they were. *)
From S2P Require Import Prelude Mem World HeapLift Virtio VirtioSpec VirtioBlk VirtioDev.
Import Virtio VirtioBlk.

Lemma PAGE_2_ADDR_page v : 0 <= v -> (v + 1) * 4096 <= 18446744073709551616 -> PAGE_2_ADDR v = v * 4096.
Proof. intros. unfold PAGE_2_ADDR, PAGESIZE. rewrite u64_small; lia. Qed.

Lemma ADDR_2_PAGE_page v : 0 <= v -> (v + 1) * 4096 <= 18446744073709551616 -> ADDR_2_PAGE (v * 4096) = v.
Proof. intros. rewrite ADDR_2_PAGE_div by lia. dlia. Qed.

(** ** Where the queue is *)
Definition queue_pages (q : VirtIOQueue) (x : Z) : Prop :=
  in_pages (desc q / 4096) 1 x \/ in_pages (used q / 4096) 1 x.

Record queue_at (q : VirtIOQueue) (dv uv : Z) : Prop := {
  qa_desc : desc q = dv * 4096;
  qa_avail : avail q = dv * 4096 + 256;
  qa_used : used q = uv * 4096;
  qa_ne : dv <> uv;
}.

Lemma queue_at_pages q dv uv x :
  queue_at q dv uv -> queue_pages q x <-> in_pages dv 1 x \/ in_pages uv 1 x.
Proof.
  intros [E1 _ E2 _]. unfold queue_pages. rewrite E1, E2.
  replace (dv * 4096 / 4096) with dv by dlia. by replace (uv * 4096 / 4096) with uv by dlia.
Qed.

(** A request from its parts. *)
Lemma blk_request_run {W} `{DmaHeap W} `{VirtioMmio W} fuel t s ins outs ilens olens
    (b : VirtIOBlk) (w0 w1 w3 w5 w6 w7 : W) rp rv sp sv len q' :
  dmalloc 1 false w0 = Ret ((rp, rv), w1) ->
  dmalloc 1 false (w_set (write_req (w_mem w1) (PAGE_2_ADDR rv) t s) w1) = Ret ((sp, sv), w3) ->
  queue_add_notify_pop fuel (hdr b) (ins rp sp) ilens (Z.of_nat (length ilens))
    (outs rp sp) olens (Z.of_nat (length olens))
    (blk_queue b, w_set (upd (w_mem w3) (PAGE_2_ADDR sv) VIRTIO_BLK_RESP_STATUS_NOT_READY) w3) =
    Ret (len, (q', w5)) ->
  dmafree rp rv 1 w5 = Ret (tt, w6) -> dmafree sp sv 1 w6 = Ret (tt, w7) ->
  blk_request fuel t s ins outs ilens olens (b, w0) =
  Ret (u8 (w_mem w5 (PAGE_2_ADDR sv)), (set_blk_queue q' b, w7)).
Proof.
  intros E1 E2 E3 E4 E5. unfold blk_request.
  assert (forall A (m : M W A) b w a w', m w = Ret (a, w') -> bworld m (b, w) = Ret (a, (b, w'))) as Hw.
  { intros A m b' w a w' E. unfold bworld. cbn. by rewrite E. }
  rewrite (bind_ret_l _ _ _ _ _ (Hw _ _ b _ _ _ E1)). mstep.
  rewrite (bind_ret_l _ _ _ _ _ (Hw _ _ b _ _ _ E2)). do 2 mstep. cbn [fst snd].
  erewrite (bind_ret_l (in_queue _)); [|unfold in_queue; cbn [fst snd]; rewrite E3; reflexivity].
  mstep. rewrite (bind_ret_l _ _ _ _ _ (Hw _ _ _ _ _ _ E4)).
  by rewrite (bind_ret_l _ _ _ _ _ (Hw _ _ _ _ _ _ E5)).
Qed.

Section Request.
Context {D H : Type} `{BlkDevice D H} `{!TakesIndirect D H}.

(** The driver between two requests, with [n] more to come before the indices
    of the rings wrap. *)
Record blk_inv (n : nat) (b : VirtIOBlk) (d : D) (h : H) : Prop := {
  bi_hdr : hdr b = blk_header;
  bi_queue : exists free, queue_inv (blk_queue b) free /\ length free = 16%nat;
  bi_idx : queue_idx (blk_queue b) = 0;
  bi_ind : indirect (blk_queue b) = true;
  bi_avail : avail_idx (blk_queue b) = seen d;
  bi_last : last_used_idx (blk_queue b) = seen d;
  bi_left : 0 <= seen d /\ seen d + Z.of_nat n < 65536;
  bi_at : exists dv uv, queue_at (blk_queue b) dv uv;
  bi_ring : ring_at h (rings d) (desc (blk_queue b)) (Virtio.avail (blk_queue b)) (used (blk_queue b));
  bi_used : load16 (w_mem h) (used_idx_at (used (blk_queue b))) = seen d;
  bi_event : 0 <= load16 (w_mem h) (avail_event_at (used (blk_queue b))) <= seen d;
}.

Lemma phys_mono h h' pa va :
  (forall v p, backed h v p -> backed h' v p) -> phys h pa va -> phys h' pa va.
Proof. intros Hb (v & p & ? & ? & ?). exists v, p. auto. Qed.

Lemma ring_at_mono h h' rg dt av us :
  (forall v p, backed h v p -> backed h' v p) -> ring_at h rg dt av us -> ring_at h' rg dt av us.
Proof.
  intros Hb (pd & pa & pu & ? & ? & ? & ?). exists pd, pa, pu. split; [done|].
  split; [|split]; by eapply phys_mono.
Qed.

Lemma phys_page h v p : backed h v p -> heap_ok h -> 0 <= v -> phys h (PAGE_2_ADDR p) (v * 4096).
Proof.
  intros Hb Hok Hv. exists v, p. split; [done|]. split; [unfold in_pages; lia|].
  pose proof (backed_frame _ _ _ Hok Hb). rewrite PAGE_2_ADDR_page; lia.
Qed.

(** The buffers of the two kinds of request. *)
Definition req_ins (t : req_type) (rp p sp : Z) : list Z := match t with In => [rp] | Out => [rp; p] end.
Definition req_outs (t : req_type) (rp p sp : Z) : list Z := match t with In => [p; sp] | Out => [sp] end.
Definition req_ilens (t : req_type) : list Z :=
  match t with In => [VirtIOBlkReq_size] | Out => [VirtIOBlkReq_size; PAGESIZE] end.
Definition req_olens (t : req_type) : list Z :=
  match t with In => [PAGESIZE; VirtIOBlkResp_size] | Out => [VirtIOBlkResp_size] end.

Lemma req_buffers t rp p sp :
  buffers (req_ins t rp p sp) (req_ilens t) (req_outs t rp p sp) (req_olens t) =
  [(rp, 16, 1); (p, 4096, if is_in t then 3 else 1); (sp, 1, 2)].
Proof. by destruct t. Qed.

Lemma req_lengths t rp p sp :
  length (req_ins t rp p sp) = length (req_ilens t) /\
  length (req_outs t rp p sp) = length (req_olens t) /\
  (length (req_ins t rp p sp) + length (req_outs t rp p sp))%nat = 3%nat /\
  (1 <= length (req_outs t rp p sp))%nat /\
  Forall (fun l => 0 <= l < 4294967296) (req_ilens t ++ req_olens t).
Proof.
  destruct t; cbn; repeat split; try lia; repeat constructor; vm_compute; done.
Qed.

(** *** The pages of a request *)
(** The header and the status byte are set up; no other memory has changed. *)
Record prepared (h0 h : H) (t : req_type) (s rv rp sv sp : Z) : Prop := {
  pr_ext : ext h0 h [(sv, sp); (rv, rp)];
  pr_mem : forall x, live h0 x -> w_mem h x = w_mem h0 x;
  pr_type : load32 (w_mem h) (rv * 4096) = req_code t;
  pr_sector : load64 (w_mem h) (rv * 4096 + 8) = s;
}.

Lemma write_req_outside m p t s x : ~ (p <= x < p + 16) -> write_req m p t s x = m x.
Proof. intros Hx. unfold write_req, store64, store32. by rewrite !store_le_outside by lia. Qed.

Lemma write_req_fields m p t s :
  0 <= s < 18446744073709551616 ->
  load32 (write_req m p t s) p = req_code t /\ load64 (write_req m p t s) (p + 8) = s.
Proof.
  intros Hs. unfold write_req, load32, load64, store32, store64. split.
  - rewrite !load_store_disjoint by lia. apply load_store_same. by destruct t.
  - by apply load_store_same.
Qed.

Lemma prepare_ok h0 t s :
  heap_ok h0 -> World.avail h0 3 -> 0 <= s < 18446744073709551616 ->
  exists rp rv h1 h2 sp sv h3 h4,
    dmalloc 1 false h0 = Ret ((rp, rv), h1) /\
    h2 = w_set (write_req (w_mem h1) (PAGE_2_ADDR rv) t s) h1 /\
    dmalloc 1 false h2 = Ret ((sp, sv), h3) /\
    h4 = w_set (upd (w_mem h3) (PAGE_2_ADDR sv) VIRTIO_BLK_RESP_STATUS_NOT_READY) h3 /\
    prepared h0 h4 t s rv rp sv sp.
Proof.
  intros Hok Hav Hs. pose proof (ext_nil h0 Hok) as X0.
  destruct (ext_alloc h0 h0 [] X0) as (rp & rv & h1 & E1 & X1 & M1 & _).
  { eapply avail_mono; [exact Hav|cbn; lia]. }
  destruct (ex_pages _ _ _ X1 (rv, rp) ltac:(set_solver)) as (Hb1 & Hv1 & Hv1'). cbn [fst snd] in *.
  pose proof (PAGE_2_ADDR_page rv Hv1 Hv1') as Hrv.
  set (h2 := w_set (write_req (w_mem h1) (PAGE_2_ADDR rv) t s) h1).
  assert (ext h0 h2 [(rv, rp)]) as X2.
  { apply ext_set; [done|]. intros x Hx. rewrite Hrv. apply write_req_outside. intros Hin. apply Hx.
    apply (ext_page_live _ _ _ rv rp x X1); [set_solver|]. unfold in_pages. lia. }
  destruct (ext_alloc h0 h2 [(rv, rp)] X2) as (sp & sv & h3 & E3 & X3 & M3 & Hfresh).
  { eapply avail_mono; [exact Hav|cbn; lia]. }
  destruct (ex_pages _ _ _ X3 (sv, sp) ltac:(set_solver)) as (Hb3 & Hv3 & Hv3'). cbn [fst snd] in *.
  pose proof (PAGE_2_ADDR_page sv Hv3 Hv3') as Hsv.
  set (h4 := w_set (upd (w_mem h3) (PAGE_2_ADDR sv) VIRTIO_BLK_RESP_STATUS_NOT_READY) h3).
  exists rp, rv, h1, h2, sp, sv, h3, h4. do 4 (split; [done|]).
  assert (forall x, live h2 x -> w_mem h4 x = w_mem h2 x) as M4.
  { intros x Hx. unfold h4. rewrite w_mem_set, upd_ne; [by apply M3|]. rewrite Hsv. intros ->.
    apply (Hfresh (sv * 4096)); [unfold in_pages; lia|done]. }
  assert (forall x, live h0 x -> live h2 x) as L02 by (intros x; by eapply ext_old_live).
  assert (forall x, in_pages rv 1 x -> live h2 x) as Lr.
  { intros x Hx. by apply (ext_page_live _ _ _ rv rp x X2); [set_solver|]. }
  assert (w_mem h2 = write_req (w_mem h1) (rv * 4096) t s) as Hm2 by (unfold h2; by rewrite w_mem_set, Hrv).
  destruct (write_req_fields (w_mem h1) (rv * 4096) t s Hs) as [F1 F2].
  split.
  - apply ext_set; [done|]. intros x Hx. apply upd_ne. intros ->. apply Hx. rewrite Hsv.
    apply (ext_page_live _ _ _ sv sp _ X3); [set_solver|]. unfold in_pages. lia.
  - intros x Hx. rewrite M4, Hm2 by auto. rewrite write_req_outside; [by apply M1|].
    intros Hin. by apply (ext_page_fresh _ _ _ rv rp x X1); [set_solver|unfold in_pages; lia|].
  - rewrite <- F1, <- Hm2. apply load_le_ext. intros x Hx. apply M4, Lr. unfold in_pages. lia.
  - rewrite <- F2, <- Hm2. apply load_le_ext. intros x Hx. apply M4, Lr. unfold in_pages. lia.
Qed.

(** *** The request in the queue *)
(** The queue while the request at descriptor [f] is with the device. *)
Definition busy_queue (q : VirtIOQueue) (f it ip : Z) (dsc : VirtQueueDesc) : VirtIOQueue :=
  set_avail_idx (avail_idx q + 1) (take_indirect q f (it * 4096) ip 3 dsc).

Lemma chain_posted h (q : VirtIOQueue) f it ip dsc bufs :
  heap_ok h -> backed h it ip -> 0 <= it -> length bufs = 3%nat ->
  read_desc (w_mem h) (desc q + 16 * f) = indirect_desc ip 3 (d_next dsc) ->
  table_chain 3 (w_mem h) (it * 4096) 0 = Some (entries 0 bufs) ->
  chain_at h (desc q) f (entries 0 bufs).
Proof.
  intros Hok Hb Hit Hl Hd Ht. apply chain_indirect with (tab := it * 4096); rewrite Hd.
  - done.
  - by apply phys_page.
  - exact Ht.
Qed.

Lemma request_chain_ok h t s v p sv sp rv rp f :
  heap_ok h -> backed h v p -> 0 <= v -> backed h sv sp -> 0 <= sv -> backed h rv rp -> 0 <= rv ->
  load32 (w_mem h) (rv * 4096) = req_code t -> load64 (w_mem h) (rv * 4096 + 8) = s ->
  request_chain h (entries 0 [(rp, 16, 1); (p, 4096, if is_in t then 3 else 1); (sp, 1, 2)])
    (mkReq f t s (v * 4096) (sv * 4096)).
Proof.
  intros Hok Hb Hv Hsb Hsv Hrb Hrv Ht Hs. split; cbn.
  - by destruct t.
  - eexists _, (rv * 4096). split; [done|]. split; [|done]. by apply phys_page.
  - eexists. split; [done|]. by apply phys_page.
  - eexists. split; [done|]. by apply phys_page.
  - dlia.
Qed.

(** The memory after add_queue: outside the descriptor page and the new table
    nothing has changed. *)
Record queued (m5 m6 : mem) (q : VirtIOQueue) (f it ip : Z) (dsc : VirtQueueDesc) (bufs : list (Z * Z * Z))
    (dv : Z) : Prop := {
  qd_out : forall x, ~ in_pages dv 1 x -> ~ in_pages it 1 x -> m6 x = m5 x;
  qd_desc : read_desc m6 (desc q + 16 * f) = indirect_desc ip 3 (d_next dsc);
  qd_table : table_chain 3 m6 (it * 4096) 0 = Some (entries 0 bufs);
  qd_idx : load16 m6 (avail_idx_at (Virtio.avail q)) = u16 (avail_idx q + 1);
  qd_slot : load16 m6 (avail_ring_at (Virtio.avail q) (avail_idx q mod 16)) = f;
}.

Lemma queued_ok ins ilens outs olens m5 m' q f it ip dsc dv uv :
  length ins = length ilens -> length outs = length olens -> (1 <= length outs)%nat ->
  (length ins + length outs)%nat = 3%nat ->
  queue_at q dv uv -> dv <> it -> 0 <= f < 16 -> 0 <= ip < 17592186044416 -> 0 <= d_next dsc < 65536 ->
  table_upto (it * 4096) (buffers ins ilens outs olens) m5 m' 3 ->
  queued m5 (publish_mem q f (write_desc m' (desc q + desc_size * f) (indirect_desc ip 3 (d_next dsc))))
    q f it ip dsc (buffers ins ilens outs olens) dv.
Proof.
  intros H1' H2' Ho H3 [Q1 Q2 Q3 Q4] Hne Hf Hip Hdn Ht. unfold desc_size.
  set (dd := indirect_desc ip 3 (d_next dsc)).
  set (m6 := publish_mem q f (write_desc m' (desc q + 16 * f) dd)).
  assert (forall x, ~ in_pages dv 1 x -> m6 x = m' x) as Hout.
  { intros x Hx. unfold in_pages in Hx. unfold m6. rewrite publish_outside by lia.
    apply write_desc_outside. lia. }
  pose proof (publish_fields q f (write_desc m' (desc q + 16 * f) dd) ltac:(lia)) as [F1 F2].
  split; try done.
  - intros x Hx Hi. rewrite Hout by done. apply Ht. unfold in_pages in Hi. lia.
  - transitivity (read_desc (write_desc m' (desc q + 16 * f) dd) (desc q + 16 * f)).
    + apply read_desc_ext. intros x Hx. unfold m6. apply publish_outside. lia.
    + apply read_write_desc. split; cbn; try done. unfold PAGE_2_ADDR. apply u64_range.
  - rewrite <- H3. apply buffers_chain with (m0 := m6); [done..|lia|].
    replace (Z.of_nat (length ins) + Z.of_nat (length outs)) with 3 by lia.
    split; [done|]. intros i b Hi Hb. rewrite <- (proj2 Ht i b Hi Hb).
    apply read_desc_ext. intros x Hx. apply Hout. unfold in_pages. lia.
Qed.

(** *** One request *)
Section One.
Context (n : nat) (b : VirtIOBlk) (d : D) (h0 : H) (t : req_type) (s v p : Z).
Hypothesis Hinv : blk_inv (S n) b d h0.
Hypothesis Hok : heap_ok h0.
Hypothesis Hres : forall x, queue_pages (blk_queue b) x -> live h0 x.
Hypothesis Hav : World.avail h0 3.
Hypothesis Hs : 0 <= s /\ s + 8 <= blk_sectors.
Hypothesis Hv : 0 <= v /\ backed h0 v p.
Hypothesis Hdata : forall x, in_pages v 1 x -> live h0 x /\ ~ queue_pages (blk_queue b) x.
Abbreviation q := (blk_queue b).

Lemma sector_range : 0 <= s < 18446744073709551616.
Proof using Hs. pose proof blk_sectors_range. lia. Qed.

(** What holds while the request is in the queue. *)
Record in_flight (f : Z) (free : list Z) (it ip : Z) (dsc : VirtQueueDesc) (rv rp sv sp : Z) (h : H) : Prop := {
  if_queue : queue_inv q (f :: free);
  if_dsc : desc_shadow q !! Z.to_nat f = Some dsc;
  if_len : length free = 15%nat;
  if_ext : ext h0 h [(it, ip); (sv, sp); (rv, rp)];
  if_posted : posted h (rings d) (seen d) (desc q) (Virtio.avail q) (used q)
                (mkReq f t s (v * 4096) (sv * 4096));
  if_mem : forall x, live h0 x -> ~ in_pages (desc q / 4096) 1 x -> w_mem h x = w_mem h0 x;
}.

Lemma page_of_live h ps u w x :
  ext h0 h ps -> (u, w) ∈ ps -> in_pages u 1 x -> ~ queue_pages q x /\ ~ in_pages v 1 x.
Proof using Hres Hdata.
  intros X Hin Hx. pose proof (ext_page_fresh _ _ _ _ _ _ X Hin Hx) as Hf. split.
  - intros Hq. by apply Hf, Hres.
  - intros Hq. by apply Hf, Hdata.
Qed.

Lemma post_ok h rv rp sv sp :
  prepared h0 h t s rv rp sv sp ->
  exists f free it ip dsc h',
    add_queue (req_ins t rp p sp) (req_ilens t) (Z.of_nat (length (req_ins t rp p sp)))
      (req_outs t rp p sp) (req_olens t) (Z.of_nat (length (req_outs t rp p sp))) (q, (d, h)) =
    Ret (f, (busy_queue q f it ip dsc, (d, h'))) /\
    in_flight f free it ip dsc rv rp sv sp h'.
Proof using All.
  intros [X M Ft Fs]. destruct (bi_queue _ _ _ _ Hinv) as (free0 & Hq & Hlen).
  destruct (bi_at _ _ _ _ Hinv) as (dv & uv & Hat).
  destruct free0 as [|f free]; [done|]. destruct (free_cons _ _ _ Hq) as (Hf & _ & _ & _).
  destruct (ext_alloc h0 h _ X) as (ip & it & h5 & E5 & X5 & M5 & Hfresh); [by cbn|].
  destruct (ex_pages _ _ _ X5 (it, ip) ltac:(set_solver)) as (Hbi & Hit & Hit'). cbn [fst snd] in *.
  destruct (req_lengths t rp p sp) as (L1 & L2 & L3 & L4 & L5).
  pose proof (bi_left _ _ _ _ Hinv) as Hleft. pose proof (bi_avail _ _ _ _ Hinv) as Hai.
  destruct (add_queue_indirect (req_ins t rp p sp) (req_ilens t) (req_outs t rp p sp) (req_olens t)
    q (d, h) f free ip it (d, h5)) as (dsc & m' & Hdsc & Ht & E);
    [done..|apply Hinv|lia|lia|lia|by apply run_on_heap|].
  replace (Z.of_nat (length (req_ins t rp p sp)) + Z.of_nat (length (req_outs t rp p sp))) with 3 in * by lia.
  rewrite PAGE_2_ADDR_page in Ht, E by done.
  assert (forall x, in_pages it 1 x -> ~ queue_pages q x) as Hiq.
  { intros x Hx. apply (page_of_live h5 _ it ip x X5); [set_solver|done]. }
  assert (dv <> it) as Hne.
  { intros ->. apply (Hiq (it * 4096)); [unfold in_pages; lia|].
    apply (queue_at_pages _ _ _ _ Hat). left. unfold in_pages. lia. }
  pose proof (backed_frame _ _ _ (ex_ok _ _ _ X5) Hbi) as Hipr.
  assert (0 <= d_next dsc < 65536) as Hdn.
  { pose proof (qi_next _ _ Hq) as Hn. by eapply Forall_lookup_1 in Hn. }
  pose proof (queued_ok _ _ _ _ _ _ _ _ _ ip dsc _ _ L1 L2 L4 L3 Hat Hne Hf Hipr Hdn Ht) as Hqd.
  rewrite req_buffers in Hqd.
  set (m6 := publish_mem q f (write_desc m' (desc q + desc_size * f) (indirect_desc ip 3 (d_next dsc)))) in *.
  assert (desc q / 4096 = dv) as Hdv by (rewrite (qa_desc _ _ _ Hat); dlia).
  assert (forall x, live h x -> ~ in_pages dv 1 x -> m6 x = w_mem h x) as M6.
  { intros x Hx Hd. rewrite (qd_out _ _ _ _ _ _ _ _ _ Hqd); [by apply M5|done|].
    intros Hi. by apply (Hfresh x). }
  exists f, free, it, ip, dsc, (w_set m6 h5). split; [exact E|].
  assert (ext h0 (w_set m6 h5) [(it, ip); (sv, sp); (rv, rp)]) as X6.
  { apply ext_set; [done|]. intros x Hx. apply (qd_out _ _ _ _ _ _ _ _ _ Hqd).
    - intros Hd. apply Hx. eapply ext_old_live; [exact X5|]. apply Hres, (queue_at_pages _ _ _ _ Hat). by left.
    - intros Hi. apply Hx. by apply (ext_page_live _ _ _ it ip x X5); [set_solver|]. }
  split; try done; [by injection Hlen|..].
  - destruct (ex_pages _ _ _ X6 (sv, sp) ltac:(set_solver)) as (Hsb & Hsv & _).
    destruct (ex_pages _ _ _ X6 (rv, rp) ltac:(set_solver)) as (Hrb & Hrv & _).
    destruct (ex_pages _ _ _ X6 (it, ip) ltac:(set_solver)) as (Hib & _ & _). cbn [fst snd] in *.
    assert (forall x, in_pages rv 1 x -> m6 x = w_mem h x) as Mr.
    { intros x Hx. apply M6; [by apply (ext_page_live _ _ _ rv rp x X); [set_solver|]|].
      intros Hd. destruct (page_of_live h _ rv rp x X ltac:(set_solver) Hx) as [Hnq _].
      apply Hnq, (queue_at_pages _ _ _ _ Hat). by left. }
    destruct Hv as [Hv0 Hvb]. split; rewrite ?w_mem_set; cbn [rq_head].
    + eapply ring_at_mono; [apply (ex_backed _ _ _ X6)|apply Hinv].
    + rewrite (qd_idx _ _ _ _ _ _ _ _ _ Hqd). by rewrite Hai.
    + rewrite <- Hai. apply (qd_slot _ _ _ _ _ _ _ _ _ Hqd).
    + done.
    + eexists. split.
      * eapply chain_posted with (ip := ip) (dsc := dsc); [apply X6|done|done| |..]; [|rewrite w_mem_set; apply Hqd..]; done.
      * apply request_chain_ok with (rv := rv); try done; [apply X6|by apply X6|..]; rewrite w_mem_set.
        -- rewrite <- Ft. apply load_le_ext. intros x Hx. apply Mr. unfold in_pages. lia.
        -- rewrite <- Fs. apply load_le_ext. intros x Hx. apply Mr. unfold in_pages. lia.
  - intros x Hx Hd. rewrite w_mem_set, Hdv in *. rewrite M6; [by apply M|by eapply ext_old_live|done].
Qed.

Lemma used_page x : used q <= x < used q + 134 -> queue_pages q x /\ ~ in_pages (desc q / 4096) 1 x.
Proof using Hinv.
  intros Hx. destruct (bi_at _ _ _ _ Hinv) as (dv & uv & Hat).
  rewrite (queue_at_pages _ _ _ _ Hat). destruct Hat as [Q1 Q2 Q3 Q4].
  replace (desc q / 4096) with dv by (rewrite Q1; dlia). unfold in_pages. lia.
Qed.

Lemma in_flight_used f free it ip dsc rv rp sv sp h x :
  in_flight f free it ip dsc rv rp sv sp h -> used q <= x < used q + 134 -> w_mem h x = w_mem h0 x.
Proof using Hinv Hres.
  intros F Hx. destruct (used_page x Hx) as [Hq Hd]. apply (if_mem _ _ _ _ _ _ _ _ _ _ F); [by apply Hres|done].
Qed.

(** The device is told about the request, or has promised to look. *)
Lemma notify_ok f free it ip dsc rv rp sv sp h :
  in_flight f free it ip dsc rv rp sv sp h ->
  exists d', (notify ← should_notify; q' ← queue;
              when notify (world (hdr_write (hdr b) queue_notify (queue_idx q')))) (busy_queue q f it ip dsc, (d, h))
    = Ret (tt, (busy_queue q f it ip dsc, (d', h))) /\
    awake d' /\ rings d' = rings d /\ seen d' = seen d /\ (forall a, medium d' a = medium d a).
Proof using All.
  intros F. set (q' := busy_queue q f it ip dsc).
  pose proof (bi_event _ _ _ _ Hinv) as Hev. pose proof (bi_avail _ _ _ _ Hinv) as Hai.
  assert (exists nt, should_notify (q', (d, h)) = Ret (nt, (q', (d, h))) /\ (nt = false -> awake d)) as (nt & En & Hnt).
  { unfold should_notify. mstep. cbn [fst]. change (event_idx q') with (event_idx q).
    change (used q') with (used q). destruct (event_idx q); eexists; (split; [by mstep|]).
    - change (avail_idx q') with (avail_idx q + 1).
      change (w_mem (snd (q', (d, h)))) with (w_mem h). rewrite Hai.
      rewrite (load_le_ext 2 (w_mem h) (w_mem h0)).
      2:{ intros x Hx. eapply in_flight_used; [exact F|]. unfold avail_event_at in Hx. lia. }
      change (VIRTIO_NUM_DESC - 1) with 15. rewrite Z_land_15. unfold load16 in *. intros Hlt%Z.leb_gt. dlia.
    - intros Hz%Z.eqb_neq. eapply quiet_law; [apply (ex_ok _ _ _ (if_ext _ _ _ _ _ _ _ _ _ _ F))|apply F|]. exact Hz. }
  rewrite (bind_ret_l _ _ _ _ _ En). mstep. cbn [fst]. destruct nt.
  - exists (dev_write (blk_header + VirtIOHeader queue_notify) 0 d). split; [|apply notify_law].
    change (queue_idx q') with (queue_idx q). rewrite (bi_idx _ _ _ _ Hinv), (bi_hdr _ _ _ _ Hinv). done.
  - exists d. split; [done|]. auto.
Qed.

Lemma in_flight_separate f free it ip dsc rv rp sv sp h :
  in_flight f free it ip dsc rv rp sv sp h -> separate (used q) (mkReq f t s (v * 4096) (sv * 4096)).
Proof using All.
  intros F. destruct (page_of_live h _ sv sp (sv * 4096) (if_ext _ _ _ _ _ _ _ _ _ _ F)) as [Hn1 Hn2];
    [set_solver|unfold in_pages; lia|].
  destruct (bi_at _ _ _ _ Hinv) as (dv & uv & Hat).
  destruct (Hdata (v * 4096)) as [_ Hn3]; [unfold in_pages; lia|].
  rewrite (queue_at_pages _ _ _ _ Hat) in Hn1. rewrite (queue_at_pages _ _ _ _ Hat) in Hn3. destruct Hat as [Q1 Q2 Q3 Q4].
  unfold in_pages in *. unfold separate. cbn. lia.
Qed.

(** The used index before the device has answered. *)
Lemma in_flight_idx f free it ip dsc rv rp sv sp h :
  in_flight f free it ip dsc rv rp sv sp h -> load16 (w_mem h) (used_idx_at (used q)) = seen d.
Proof using All.
  intros F. rewrite <- (bi_used _ _ _ _ Hinv). apply load_le_ext. intros x Hx.
  eapply in_flight_used; [exact F|]. unfold used_idx_at in Hx. lia.
Qed.

(** The device answers after the number of steps it takes. *)
Lemma wait_ok f free it ip dsc rv rp sv sp h : forall k fuel d1,
  in_flight f free it ip dsc rv rp sv sp h ->
  awake d1 -> rings d1 = rings d -> seen d1 = seen d -> (forall a, medium d1 a = medium d a) ->
  delay d1 = k -> (k < fuel)%nat ->
  exists d' m' md, wait_used fuel (busy_queue q f it ip dsc, (d1, h)) =
      Ret (tt, (busy_queue q f it ip dsc, (d', w_set m' h))) /\
    rings d' = rings d /\ seen d' = seen d + 1 /\ (forall a, md a = medium d a) /\
    served (w_mem h) m' (seen d) (used q) (mkReq f t s (v * 4096) (sv * 4096)) md (medium d').
Proof using All.
  intros k fuel. revert k. induction fuel as [|fuel IH]; intros k d1 F Hw Hr Hsn Hmd Hk Hf; [lia|].
  pose proof (ex_ok _ _ _ (if_ext _ _ _ _ _ _ _ _ _ _ F)) as Hokh.
  pose proof (if_posted _ _ _ _ _ _ _ _ _ _ F) as Hp. pose proof (bi_left _ _ _ _ Hinv) as Hleft.
  pose proof (bi_last _ _ _ _ Hinv) as Hlast. pose proof (in_flight_idx _ _ _ _ _ _ _ _ _ _ F) as Hidx.
  rewrite <- Hr, <- Hsn in Hp. cbn [wait_used]. destruct k as [|k].
  - destruct (serve_law d1 h _ _ _ _ Hokh Hp (fun _ => takes_indirect d1) (in_flight_separate _ _ _ _ _ _ _ _ _ _ F) (proj1 Hs) (proj2 Hs) Hw Hk)
      as (d' & m' & Es & R1 & R2 & R3).
    exists d', m', (medium d1). rewrite Hsn in R2, R3. split.
    + erewrite bind_ret_l; [|apply run_queue_world; cbn; rewrite Es; reflexivity]. do 2 mstep. cbn [fst snd].
      change (last_used_idx (busy_queue q f it ip dsc)) with (last_used_idx q).
      change (used (busy_queue q f it ip dsc)) with (used q).
      change (w_mem (d', w_set m' h)) with (w_mem (w_set m' h)).
      rewrite Hlast, w_mem_set, (sv_idx _ _ _ _ _ _ _ R3), u16_small by lia.
      by destruct (Z.eqb_spec (seen d) (seen d + 1)); [lia|].
    + split; [congruence|]. split; [rewrite R2; apply u16_small; lia|]. by split.
  - destruct (wait_law d1 h _ _ _ _ k Hokh Hp Hw Hk) as (d2 & Es & W1 & W2 & W3 & W4 & W5).
    destruct (IH k d2 F W1 ltac:(congruence) ltac:(congruence) ltac:(intros a; by rewrite W5) W2 ltac:(lia))
      as (d' & m' & md & E & R).
    exists d', m', md. split; [|done].
    erewrite bind_ret_l; [|apply run_queue_world; cbn; rewrite Es, w_set_mem; reflexivity]. do 2 mstep. cbn [fst snd].
    change (last_used_idx (busy_queue q f it ip dsc)) with (last_used_idx q).
    change (used (busy_queue q f it ip dsc)) with (used q). change (w_mem (d2, h)) with (w_mem h).
    by rewrite Hlast, Hidx, Z.eqb_refl.
Qed.

(** The queue after the request. *)
Definition done_queue (f it ip : Z) (dsc : VirtQueueDesc) : VirtIOQueue :=
  let q1 := give_indirect (busy_queue q f it ip dsc) f (indirect_desc ip 3 (d_next dsc)) in
  set_last_used (u32 (last_used_idx q1 + 1)) q1.

Lemma busy_inv f free it ip dsc rv rp sv sp h :
  in_flight f free it ip dsc rv rp sv sp h ->
  queue_inv (busy_queue q f it ip dsc) free /\ 0 <= f < 16 /\ (f ∉ free) /\
  desc_shadow (busy_queue q f it ip dsc) !! Z.to_nat f = Some (indirect_desc ip 3 (d_next dsc)) /\
  indirect_lists (busy_queue q f it ip dsc) !! Z.to_nat f = Some (it * 4096) /\
  indirect_pfns (busy_queue q f it ip dsc) !! Z.to_nat f = Some ip /\ 0 <= d_next dsc < 65536.
Proof using All.
  intros F. pose proof (if_queue _ _ _ _ _ _ _ _ _ _ F) as Hq.
  pose proof (if_dsc _ _ _ _ _ _ _ _ _ _ F) as Hd.
  pose proof (take_indirect_inv q f free (it * 4096) ip 3 dsc Hq Hd) as Hi.
  destruct (free_cons _ _ _ Hq) as (Hf & Hni & _ & d' & Hd' & _ & Hnx). simplify_eq.
  destruct Hq as [Q1 Q2 Q3 _ _ _ _ _ _].
  split; [by destruct Hi|]. split; [done|]. split; [done|].
  cbn. rewrite !list_lookup_insert_eq by lia. done.
Qed.

Lemma done_inv f free it ip dsc rv rp sv sp h :
  in_flight f free it ip dsc rv rp sv sp h -> queue_inv (done_queue f it ip dsc) (f :: free).
Proof using All.
  intros F. destruct (busy_inv _ _ _ _ _ _ _ _ _ _ F) as (Hi & Hf & Hni & Hd & _ & _ & Hnx).
  by destruct (give_indirect_inv _ _ _ _ Hi Hf Hni Hd Hnx).
Qed.

Lemma pop_ok fuel h rv rp sv sp :
  prepared h0 h t s rv rp sv sp -> (patience <= fuel)%nat ->
  exists f free it ip dsc h6 len d' h8 m' md,
    queue_add_notify_pop fuel (hdr b)
      (req_ins t rp p sp) (req_ilens t) (Z.of_nat (length (req_ins t rp p sp)))
      (req_outs t rp p sp) (req_olens t) (Z.of_nat (length (req_outs t rp p sp))) (q, (d, h)) =
    Ret (len, (done_queue f it ip dsc, (d', h8))) /\
    in_flight f free it ip dsc rv rp sv sp h6 /\ ext h0 h8 [(sv, sp); (rv, rp)] /\
    rings d' = rings d /\ seen d' = seen d + 1 /\ (forall a, md a = medium d a) /\
    served (w_mem h6) m' (seen d) (used q) (mkReq f t s (v * 4096) (sv * 4096)) md (medium d') /\
    (forall x, live h8 x -> w_mem h8 x = m' x).
Proof using All.
  intros Hpr Hfuel. destruct (post_ok h rv rp sv sp Hpr) as (f & free & it & ip & dsc & h6 & Ea & F).
  destruct (notify_ok _ _ _ _ _ _ _ _ _ _ F) as (d1 & En & A1 & A2 & A3 & A4).
  destruct (wait_ok _ _ _ _ _ _ _ _ _ _ (delay d1) fuel d1 F A1 A2 A3 A4 eq_refl) as (d' & m' & md & Ew & R1 & R2 & R3 & R4).
  { pose proof (delay_bound d1). lia. }
  pose proof (if_ext _ _ _ _ _ _ _ _ _ _ F) as X6.
  assert (ext h0 (w_set m' h6) [(it, ip); (sv, sp); (rv, rp)]) as X7.
  { apply ext_set; [done|]. intros x Hx. apply (sv_frame _ _ _ _ _ _ _ R4); cbn.
    - intros Hu. apply Hx. eapply ext_old_live; [done|]. by apply Hres, used_page.
    - intros ->. apply Hx. apply (ext_page_live _ _ _ sv sp _ X6); [set_solver|unfold in_pages; lia].
    - intros [_ Hd]. apply Hx. eapply ext_old_live; [done|]. apply Hdata. unfold in_pages. lia. }
  destruct (ext_free h0 _ [] it ip [(sv, sp); (rv, rp)] X7) as (h8 & Ef & X8 & M8).
  destruct (busy_inv _ _ _ _ _ _ _ _ _ _ F) as (Hi & Hf & Hni & Hd & Hl & Hp & Hnx).
  destruct (ex_pages _ _ _ X7 (it, ip) ltac:(set_solver)) as (_ & Hit & Hit'). cbn [fst] in *.
  exists f, free, it, ip, dsc, h6. eexists. exists d', h8, m', md.
  split; [|split; [done|split; [done|split; [done|split; [done|split; [done|split; [done|]]]]]]].
  2:{ intros x Hx. by rewrite M8, w_mem_set. }
  eapply (pop_run fuel (hdr b) _ _ _ _ _ _ _ _ _ (busy_queue q f it ip dsc)
    (give_indirect (busy_queue q f it ip dsc) f (indirect_desc ip 3 (d_next dsc)))
    (d', w_set m' h6) (d', h8) f Ea ltac:(lia) En Ew).
  - cbn. rewrite (bi_last _ _ _ _ Hinv). apply (bi_left _ _ _ _ Hinv).
  - change (load32 (w_mem (w_set m' h6)) (used_id_at (used q) (last_used_idx q mod 16)) = f).
    rewrite w_mem_set, (bi_last _ _ _ _ Hinv). apply (sv_id _ _ _ _ _ _ _ R4).
  - apply (recycle_indirect_ok _ (d', w_set m' h6) f free _ (it * 4096) ip (d', h8) Hi Hf Hni Hd); try done.
    rewrite ADDR_2_PAGE_page by done. by apply run_on_heap.
Qed.

Lemma request_inv f free it ip dsc rv rp sv sp h6 h' d' m' md :
  in_flight f free it ip dsc rv rp sv sp h6 -> ext h0 h' [] ->
  rings d' = rings d -> seen d' = seen d + 1 ->
  served (w_mem h6) m' (seen d) (used q) (mkReq f t s (v * 4096) (sv * 4096)) md (medium d') ->
  (forall x, live h0 x -> w_mem h' x = m' x) ->
  blk_inv n (set_blk_queue (done_queue f it ip dsc) b) d' h'.
Proof using All.
  intros F X R1 R2 R4 Hm. pose proof (bi_left _ _ _ _ Hinv) as Hleft.
  assert (forall x, used q <= x < used q + 134 -> w_mem h' x = m' x) as Hmu.
  { intros x Hx. apply Hm, Hres. by apply used_page. }
  destruct (bi_at _ _ _ _ Hinv) as (dv & uv & [Q1 Q2 Q3 Q4]).
  split; try apply Hinv.
  - exists (f :: free). split; [by eapply done_inv|]. cbn. by rewrite (if_len _ _ _ _ _ _ _ _ _ _ F).
  - cbn. rewrite (bi_avail _ _ _ _ Hinv). lia.
  - cbn. rewrite (bi_last _ _ _ _ Hinv), R2. apply u32_small. lia.
  - lia.
  - by exists dv, uv.
  - rewrite R1. eapply ring_at_mono; [apply X|apply Hinv].
  - change (used (blk_queue (set_blk_queue (done_queue f it ip dsc) b))) with (used q).
    rewrite (load16_ext _ m') by (intros x Hx; apply Hmu; unfold used_idx_at in Hx; lia).
    rewrite (sv_idx _ _ _ _ _ _ _ R4), R2. apply u16_small. lia.
  - change (used (blk_queue (set_blk_queue (done_queue f it ip dsc) b))) with (used q).
    rewrite (load16_ext _ m') by (intros x Hx; apply Hmu; unfold avail_event_at in Hx; lia).
    pose proof (bi_event _ _ _ _ Hinv) as Hev.
    destruct (sv_event _ _ _ _ _ _ _ R4) as [-> | ->].
    + rewrite (load16_ext _ (w_mem h0)); [lia|].
      intros x Hx. eapply in_flight_used; [exact F|]. unfold avail_event_at in Hx. lia.
    + rewrite u16_small by lia. lia.
Qed.

Lemma request_ok fuel :
  (patience <= fuel)%nat ->
  exists b' d' h',
    blk_request fuel t s (fun rp sp => req_ins t rp p sp) (fun rp sp => req_outs t rp p sp)
      (req_ilens t) (req_olens t) (b, (d, h0)) = Ret (VIRTIO_BLK_RESP_STATUS_OK, (b', (d', h'))) /\
    ext h0 h' [] /\ blk_inv n b' d' h' /\
    desc (blk_queue b') = desc q /\ used (blk_queue b') = used q /\
    (forall x, live h0 x -> ~ queue_pages q x -> w_mem h' x =
       if decide (t = In /\ in_pages v 1 x) then medium d (s * 512 + (x - v * 4096)) else w_mem h0 x) /\
    (forall a, medium d' a =
       if decide (t = Out /\ s * 512 <= a < s * 512 + 4096)
       then w_mem h0 (v * 4096 + (a - s * 512)) else medium d a).
Proof using All.
  intros Hfuel. destruct (prepare_ok h0 t s Hok Hav sector_range)
    as (rp & rv & h1 & h2 & sp & sv & h3 & h4 & E1 & E2 & E3 & E4 & Hpr).
  destruct (pop_ok fuel h4 rv rp sv sp Hpr Hfuel)
    as (f & free & it & ip & dsc & h6 & len & d' & h8 & m' & md & Ep & F & X8 & R1 & R2 & R3 & R4 & M8).
  destruct (ext_free h0 h8 [(sv, sp)] rv rp [] X8) as (h9 & E9 & X9 & M9).
  destruct (ext_free h0 h9 [] sv sp [] X9) as (h10 & E10 & X10 & M10).
  destruct (ex_pages _ _ _ X8 (sv, sp) ltac:(set_solver)) as (_ & Hsv & Hsv'). cbn [fst] in *.
  destruct (req_lengths t rp p sp) as (L1 & L2 & _ & _ & _).
  assert (forall x, live h0 x -> w_mem h10 x = m' x) as Hm.
  { intros x Hx. rewrite M10, M9, M8; [done|..]; by eapply ext_old_live. }
  pose proof (in_flight_separate _ _ _ _ _ _ _ _ _ _ F) as Hsep.
  exists (set_blk_queue (done_queue f it ip dsc) b), d', h10. split.
  { rewrite (blk_request_run fuel t s _ _ (req_ilens t) (req_olens t) b (d, h0) (d, h1) (d, h3) (d', h8) (d', h9)
      (d', h10) rp rv sp sv len (done_queue f it ip dsc)).
    - change (w_mem (d', h8)) with (w_mem h8). rewrite PAGE_2_ADDR_page by done. do 2 f_equal.
      pose proof (sv_status _ _ _ _ _ _ _ R4) as Hst. cbn [rq_status] in Hst. rewrite M8; [by rewrite Hst|].
      apply (ext_page_live _ _ _ sv sp _ X8); [set_solver|unfold in_pages; lia].
    - by apply run_on_heap.
    - subst h2. exact (run_on_heap _ d _ _ _ E3).
    - subst h4. rewrite <- L1, <- L2. exact Ep.
    - by apply run_on_heap.
    - by apply run_on_heap. }
  split; [done|]. split; [by eapply request_inv|]. split; [done|]. split; [done|]. split.
  - intros x Hx Hnq. rewrite Hm by done. case_decide as Hc.
    + destruct Hc as [Et Hin]. unfold in_pages in Hin.
      pose proof (sv_data _ _ _ _ _ _ _ R4 Et (x - v * 4096) ltac:(lia)) as Hd. cbn in Hd.
      replace (v * 4096 + (x - v * 4096)) with x in Hd by lia. by rewrite Hd, R3.
    + rewrite (sv_frame _ _ _ _ _ _ _ R4); cbn.
      * apply F; [done|]. intros Hd. apply Hnq. by left.
      * intros Hu. by apply Hnq, used_page.
      * intros Ex. apply (ext_page_fresh _ _ _ sv sp x X8); [set_solver|unfold in_pages; lia|done].
      * intros [Et Hd]. apply Hc. split; [done|]. unfold in_pages. lia.
  - intros a. rewrite (sv_medium _ _ _ _ _ _ _ R4). cbn. case_decide as Hc; [|done].
    destruct (Hdata (v * 4096 + (a - s * 512))) as [Hl Hnq]; [unfold in_pages; lia|].
    apply F; [done|]. intros Hd. apply Hnq. by left.
Qed.
End One.
End Request.
