(* ===== verification/VirtioDriver.v ===== *)
(** * The virtio block driver as a block device

    The driver of virtio_blk.c, next to a device that satisfies VirtioDev.v,
    implements the interface [BlockDriver] that the block cache is verified
    against. *)
From S2P Require Import Prelude Mem World HeapLift Virtio VirtioSpec VirtioBlk VirtioDev VirtioBlkSpec.
Import Virtio VirtioBlk.

(** The pages of the queue are the driver's own. *)
#[global] Instance blk_kmem {W} `{KMem W} : KMem (VirtIOBlk * W) := lift_kmem.
#[global] Instance blk_heap {W} `{DmaHeap W} : DmaHeap (VirtIOBlk * W) :=
  lift_heap (fun b => queue_pages (blk_queue b)).

Section Driver.
Context {D H : Type} `{BlkDevice D H} `{!TakesIndirect D H}.

Abbreviation world := (VirtIOBlk * (D * H))%type.

Lemma world_heap (b : VirtIOBlk) (d : D) (h : H) :
  heap_ok (b, (d, h)) <-> heap_ok h /\ forall x, queue_pages (blk_queue b) x -> live h x.
Proof.
  change (heap_ok (b, (d, h))) with ((heap_ok h /\ forall x, False -> live h x) /\
    forall x, queue_pages (blk_queue b) x -> live h x /\ ~ False). naive_solver.
Qed.

Lemma world_live (b : VirtIOBlk) (d : D) (h : H) x :
  live (b, (d, h)) x <-> live h x /\ ~ queue_pages (blk_queue b) x.
Proof.
  change (live (b, (d, h)) x) with ((live h x /\ ~ False) /\ ~ queue_pages (blk_queue b) x). tauto.
Qed.

(** Changes of the heap that leave the pages of the queue alone. *)
Lemma blk_inv_frame n b d (h h' : H) :
  blk_inv n b d h -> (forall v p, backed h v p -> backed h' v p) ->
  (forall x, queue_pages (blk_queue b) x -> w_mem h' x = w_mem h x) -> blk_inv n b d h'.
Proof.
  intros Hi Hb Hm. pose proof Hi as [I1 I2 I3 I4 I5 I6 I7 I8 I9 I10 I11].
  assert (forall x, used (blk_queue b) <= x < used (blk_queue b) + 134 -> w_mem h' x = w_mem h x) as Hu.
  { intros x Hx. apply Hm. destruct I8 as (dv & uv & Hat). apply (queue_at_pages _ _ _ _ Hat).
    right. rewrite (qa_used _ _ _ Hat) in Hx. unfold in_pages. lia. }
  split; try done.
  - by eapply ring_at_mono.
  - rewrite <- I10. apply load16_ext. intros x Hx. apply Hu. unfold used_idx_at in Hx. lia.
  - rewrite (load16_ext _ (w_mem h)); [done|]. intros x Hx. apply Hu. unfold avail_event_at in Hx. lia.
Qed.

Lemma blk_inv_mono n n' b d (h : H) : blk_inv n b d h -> (n' <= n)%nat -> blk_inv n' b d h.
Proof. intros [] Hle. split; try done. lia. Qed.

(** The two operations of the interface, for a request [t] of the driver. *)
Lemma driver_request t n s v p (b : VirtIOBlk) (d : D) (h : H) :
  heap_ok (b, (d, h)) -> blk_inv (S n) b d h -> backed h v p -> 0 <= s -> s + 8 <= blk_sectors ->
  0 <= v -> World.avail h 3 -> (forall x, in_pages v 1 x -> live (b, (d, h)) x) ->
  exists b' d' h',
    blk_request patience t s (fun rp sp => req_ins t rp p sp) (fun rp sp => req_outs t rp p sp)
      (req_ilens t) (req_olens t) (b, (d, h)) = Ret (0, (b', (d', h'))) /\
    heap_ok (b', (d', h')) /\ blk_inv n b' d' h' /\
    (forall x, live (b', (d', h')) x <-> live (b, (d, h)) x) /\
    (forall v' p', backed h v' p' -> backed h' v' p') /\
    (forall k, World.avail h k -> World.avail h' k) /\
    (forall x, live (b, (d, h)) x -> w_mem h' x =
       if decide (t = In /\ in_pages v 1 x) then medium d (s * 512 + (x - v * 4096)) else w_mem h x) /\
    (forall a, medium d' a =
       if decide (t = Out /\ s * 512 <= a < s * 512 + 4096)
       then w_mem h (v * 4096 + (a - s * 512)) else medium d a).
Proof.
  intros [Hok Hres]%world_heap Hi Hb Hs Hs8 Hv Hav Hl.
  destruct (request_ok n b d h t s v p Hi Hok Hres Hav (conj Hs Hs8) (conj Hv Hb)) with (fuel := patience)
    as (b' & d' & h' & E & X & Hi' & Ed & Eu & Hm & Hmd); [|done|].
  { intros x Hx. by apply (world_live b d h), Hl. }
  assert (forall x, queue_pages (blk_queue b') x <-> queue_pages (blk_queue b) x) as Hqp.
  { intros x. unfold queue_pages. by rewrite Ed, Eu. }
  assert (forall x, live h' x <-> live h x) as Hll.
  { intros x. rewrite (ex_live _ _ _ X). split; [|by left]. intros [?|(vp & Hvp & _)]; [done|set_solver]. }
  exists b', d', h'. split; [exact E|]. split.
  { apply world_heap. split; [apply X|]. intros x Hx. apply Hll, Hres. by apply Hqp. }
  split; [done|]. split.
  { intros x. rewrite !world_live. by rewrite Hll, Hqp. }
  split; [apply X|]. split; [|split; [|done]].
  - intros k Hk. apply X. by rewrite Z.add_0_r.
  - intros x [Hx Hnq]%world_live. by apply Hm.
Qed.

#[global] Instance virtio_driver : BlockDriver world.
Proof.
  refine {| read_block := virtio_blk_read_block patience;
            write_block := virtio_blk_write_block patience;
            disk w := medium (fst (snd w)); sectors := blk_sectors;
            dev_ok n w := blk_inv n (fst w) (fst (snd w)) (snd (snd w)) |}.
  - apply blk_sectors_range.
  - done.
  - intros j j' [b [d h]]. apply blk_inv_mono.
  - intros j m [b [d h]] Hok Hi Hm. cbn in Hi |- *. eapply blk_inv_frame; [exact Hi| |].
    + intros v p. by rewrite backed_set.
    + intros x Hx. rewrite w_mem_set. apply (Hm x). intros [_ Hn]%world_live. done.
  - intros z [b [d h]] r w' [Hok Hres]%world_heap Hav E. cbn in Hav.
    destruct (dmalloc_law 1 z h Hok (or_introl (conj eq_refl Hav)))
      as (p & v & h' & E' & _ & _ & _ & _ & Lb & _ & _ & Lm & _ & _).
    pose proof (run_on_heap _ b _ _ _ (run_on_heap _ d _ _ _ E')) as E2.
    change (on_heap (on_heap (dmalloc 1 z)) (b, (d, h)) = Ret (r, w')) in E. rewrite E2 in E.
    injection E as <- <-.
    split; [|done]. intros j Hi. cbn in Hi |- *. eapply blk_inv_frame; [exact Hi|done|].
    intros x Hx. by apply Lm, Hres.
  - intros j s v p [b [d h]] Hok Hi Hb Hs Hs8 Hv Hav Hl.
    destruct (driver_request In j s v p b d h Hok Hi Hb Hs Hs8 Hv Hav Hl)
      as (b' & d' & h' & E & R1 & R2 & R3 & R4 & R5 & R6 & R7).
    exists (b', (d', h')). split; [exact E|]. do 5 (split; [done|]). split.
    + intros a. cbn. rewrite R7. by rewrite decide_False by (by intros [? _]).
    + intros x Hx. change (w_mem (b', (d', h'))) with (w_mem h'). rewrite R6 by done. apply decide_ext. naive_solver.
  - intros j s v p [b [d h]] Hok Hi Hb Hs Hs8 Hv Hav Hl.
    destruct (driver_request Out j s v p b d h Hok Hi Hb Hs Hs8 Hv Hav Hl)
      as (b' & d' & h' & E & R1 & R2 & R3 & R4 & R5 & R6 & R7).
    exists (b', (d', h')). split; [exact E|]. do 5 (split; [done|]). split.
    + intros a. cbn. rewrite R7. apply decide_ext. naive_solver.
    + intros x Hx. change (w_mem (b', (d', h'))) with (w_mem h'). rewrite R6 by done.
      by rewrite decide_False by (by intros [? _]).
Defined.
End Driver.
