(* ===== verification/VirtioInit.v ===== *)
(** * Bringing up the block device

    init_virtio_blk with a device on the legacy transport: the queue it leaves
    is the one the device reads, empty, and the driver is ready for requests. *)
From S2P Require Import Prelude Mem World HeapLift Virtio VirtioSpec VirtioBlk VirtioDev VirtioBlkSpec VirtioDriver.
Import Virtio VirtioBlk.

#[global] Instance reg_eq_dec : EqDecision reg.
Proof. solve_decision. Defined.

(** The addresses of a legacy queue of [n] descriptors at page [p]. *)
Definition align_up (x a : Z) : Z := (x + a - 1) / a * a.
Definition legacy_ring (p psize n align : Z) : Z * Z * Z :=
  (p * psize, p * psize + 16 * n, align_up (p * psize + 16 * n + 2 * (3 + n)) align).

(** The registers of a block device on the legacy transport. *)
Class LegacyBlk (D H : Type) `{BlkDevice D H} := {
  regs : D -> reg -> Z;
  offered : Z;
  num_max : Z;
  cap_lo : Z;
  cap_hi : Z;
  reg_write (r : reg) (v : Z) (d : D) : D := dev_write (blk_header + VirtIOHeader r) v d;
  is_reset (r : reg) (v : Z) : Prop := r = status /\ v = 0;
  write_regs : forall r r' v d, ~ is_reset r v ->
    regs (reg_write r v d) r' = if decide (r = r') then v else regs d r';
  write_rings : forall r v d, rings (reg_write r v d) =
    if decide (is_reset r v) then None
    else if decide (r = legacy_queue_pfn) then
      if decide (v = 0) then None
      else Some (legacy_ring v (regs d legacy_guest_page_size) (regs d queue_num) (regs d legacy_queue_align))
    else rings d;
  write_seen : forall r v d, seen (reg_write r v d) = if decide (is_reset r v) then 0 else seen d;
  write_medium : forall r v d a, medium (reg_write r v d) a = medium d a;
  read_version : forall d, dev_read (blk_header + VirtIOHeader version) d = (VIRTIO_VERSION_LEGACY, d);
  read_features : forall d, dev_read (blk_header + VirtIOHeader device_features) d = (offered, d);
  read_num_max : forall d, dev_read (blk_header + VirtIOHeader queue_num_max) d = (num_max, d);
  read_pfn : forall d, rings d = None -> dev_read (blk_header + VirtIOHeader legacy_queue_pfn) d = (0, d);
  read_cap_lo : forall d, dev_read (blk_header + VirtIOHeader_size + capacity_low) d = (cap_lo, d);
  read_cap_hi : forall d, dev_read (blk_header + VirtIOHeader_size + capacity_high) d = (cap_hi, d);
  offered_range : 0 <= offered < 4294967296;
  cap_range : 0 <= cap_lo < 4294967296 /\ 0 <= cap_hi < 4294967296;
  cap_sectors : blk_sectors = cap_lo + cap_hi * 4294967296;
}.

(** ** Linking the descriptors *)
Definition linked (n : nat) : list VirtQueueDesc :=
  (fun i => mkDesc 0 0 0 (if decide (i < n)%nat then Z.of_nat i + 1 else 0)) <$> seq 0 16.

Lemma linked_insert n : (n < 15)%nat ->
  linked n !! n = Some empty_desc /\
  <[n := set_next (Z.of_nat n + 1) empty_desc]> (linked n) = linked (S n).
Proof. intros Hn. do 15 (destruct n as [|n]; [done|]). lia. Qed.

Lemma link_all {W} `{DmaHeap W} (q : VirtIOQueue) (w : W) :
  desc_shadow q = linked 0 ->
  exists m', for_loop 15 0 link_desc (q, w) = Ret (tt, (set_shadow (linked 15) q, w_set m' w)) /\
    (forall x, ~ (desc q <= x < desc q + 256) -> m' x = w_mem w x).
Proof.
  intros Hq.
  set (P := fun j (s : @St W) => exists m', s = (set_shadow (linked (Z.to_nat j)) q, w_set m' w) /\
    forall x, ~ (desc q <= x < desc q + 256) -> m' x = w_mem w x).
  destruct (for_loop_inv P link_desc 15 0 (q, w)) as (s' & E & m' & -> & Hm').
  - intros j s Hj (m & -> & Hm). destruct (linked_insert (Z.to_nat j)) as [L1 L2]; [lia|].
    rewrite Z2Nat.id in L2 by lia.
    eexists. split.
    + unfold link_desc. mstep. mstep_with run_shadow; [|lia]. mstep. reflexivity.
    + eexists. cbn [fst snd]. rewrite w_mem_set, w_set_set, (u16_small (j + 1)) by lia. split.
      * cbn [desc_shadow set_shadow desc]. rewrite L2.
        by replace (Z.to_nat (j + 1)) with (S (Z.to_nat j)) by lia.
      * intros x Hx. cbn [desc set_shadow]. unfold store16, desc_size.
        rewrite store_le_outside by lia. by apply Hm.
  - exists (w_mem w). split; [|done]. rewrite w_set_mem. change (Z.to_nat 0) with 0%nat. rewrite <- Hq. by destruct q.
  - exists m'. by split.
Qed.

Lemma linked_inv q :
  desc_shadow q = linked 15 -> indirect_lists q = replicate 16 0 -> length (indirect_pfns q) = 16%nat ->
  free_head q = 0 -> num_used q = 0 -> queue_inv q (seqZ 0 16).
Proof.
  intros E1 E2 E3 E4 E5. split; rewrite ?E1, ?E2, ?E3, ?E4, ?E5; try done.
  - unfold linked. apply Forall_fmap, Forall_forall. intros i Hi%elem_of_seq. cbn. case_decide; lia.
  - vm_compute. repeat (split; [reflexivity|]; eexists; split; [reflexivity|]). done.
  - apply NoDup_seqZ.
  - apply Forall_forall. intros i Hi%elem_of_seqZ. lia.
  - intros i Hi%elem_of_seqZ. apply lookup_replicate_2. lia.
Qed.

(** The register a write goes to. *)
Ltac reg_step := repeat match goal with
  | |- context [@decide ?P ?dd] =>
      first [rewrite (@decide_True _ P dd) by (done || by split) | rewrite (@decide_False _ P dd) by (intros [=] || intros [[=] ?] || intros [? [=]])]
  end.

Section Init.
Context {D H : Type} `{LegacyBlk D H}.
Abbreviation hd := blk_header.

Lemma run_hdr_write r v d (h : H) : hdr_write hd r v (d, h) = Ret (tt, (reg_write r (u32 v) d, h)).
Proof. done. Qed.

Lemma run_hdr_read r (d : D) (h : H) v : dev_read (hd + VirtIOHeader r) d = (v, d) ->
  hdr_read hd r (d, h) = Ret (v, (d, h)).
Proof. intros E. unfold hdr_read. cbn. by rewrite E. Qed.

(** The device after the first part of the initialisation. *)
Definition accept (d : D) (f : Z) : D :=
  reg_write legacy_guest_page_size 4096 (reg_write status 11 (reg_write device_features_sel f
    (reg_write status 3 (reg_write status 0 d)))).

Lemma header_init_run f d (h : H) :
  header_init hd f (d, h) = Ret (i32 (Z.land offered f), (accept d (u32 (Z.land offered f)), h)).
Proof.
  unfold header_init. do 2 (erewrite bind_ret_l; [|apply run_hdr_write]).
  erewrite bind_ret_l; [|apply run_hdr_read, read_features].
  do 2 (erewrite bind_ret_l; [|apply run_hdr_write]).
  erewrite bind_ret_l; [|apply run_hdr_read, read_version].
  change (VIRTIO_VERSION_LEGACY =? VIRTIO_VERSION_LEGACY) with true. cbn [when].
  erewrite bind_ret_l; [|apply run_hdr_write]. done.
Qed.

Lemma accept_facts d f :
  rings (accept d f) = None /\ seen (accept d f) = 0 /\ (forall a, medium (accept d f) a = medium d a) /\
  regs (accept d f) legacy_guest_page_size = 4096.
Proof.
  unfold accept. rewrite !write_rings, !write_seen. unfold is_reset. split; [|split; [|split]].
  - by reg_step.
  - by reg_step.
  - intros a. by rewrite !write_medium.
  - rewrite write_regs by (intros [[=] ?]). by reg_step.
Qed.

(** The device after the queue was placed at frame [p]. *)
Definition place (d : D) (p : Z) : D :=
  reg_write legacy_queue_pfn p (reg_write legacy_queue_align 4096 (reg_write queue_num 16
    (reg_write queue_sel 0 (reg_write queue_sel 0 d)))).

Lemma place_facts d p :
  p <> 0 -> regs d legacy_guest_page_size = 4096 ->
  rings (place d p) = Some (p * 4096, p * 4096 + 256, (p + 1) * 4096) /\
  seen (place d p) = seen d /\ (forall a, medium (place d p) a = medium d a).
Proof.
  intros Hp Hg. unfold place. split; [|split].
  - rewrite write_rings. unfold is_reset. rewrite decide_False by (intros [[=] _]).
    rewrite decide_True by done. rewrite decide_False by done.
    rewrite !write_regs by (intros [[=] ?]). reg_step. rewrite Hg.
    unfold legacy_ring, align_up. do 2 f_equal. dlia.
  - rewrite !write_seen. unfold is_reset. by reg_step.
  - intros a. by rewrite !write_medium.
Qed.

Lemma legacy_rings_run d (h h1 : H) p v :
  dmalloc 2 true h = Ret ((p, v), h1) -> 0 <= p < 4294967296 ->
  legacy_rings hd 0 (reg_write queue_sel 0 d, h) =
  Ret ((PAGE_2_ADDR v, ADDR v 256, PAGE_2_ADDR (u64 (v + 1)), LegacyLayout 256 4096), (place d p, h1)).
Proof.
  intros E Hp. unfold legacy_rings.
  rewrite (bind_ret_l _ _ _ _ _ (run_on_heap (dmalloc 2 true) (reg_write queue_sel 0 d) h (p, v) h1 E)).
  do 4 (erewrite bind_ret_l; [|apply run_hdr_write]). rewrite (u32_small p) by done. done.
Qed.

Lemma init_queue_run (q0 : VirtIOQueue) d (h h1 : H) p v ind ev :
  rings d = None -> 16 <= num_max -> length (indirect_pfns q0) = 16%nat ->
  dmalloc 2 true h = Ret ((p, v), h1) -> 0 <= p < 4294967296 -> 0 <= v ->
  (v + 2) * 4096 <= 18446744073709551616 ->
  exists m', init_queue hd 0 ind ev (q0, (d, h)) =
    Ret (tt, (mkQueue 0 0 0 (v * 4096) (v * 4096 + 256) ((v + 1) * 4096) (linked 15) 0 0 ev ind
                (replicate 16 0) (indirect_pfns q0) (LegacyLayout 256 4096),
              (place d p, w_set m' h1))) /\
    (forall x, ~ (v * 4096 <= x < v * 4096 + 256) -> m' x = w_mem h1 x).
Proof.
  intros Hr Hn Hl E Hp Hv Hv2.
  set (q1 := mkQueue 0 0 0 (v * 4096) (v * 4096 + 256) ((v + 1) * 4096) (linked 0) 0 0 ev ind
                (replicate 16 0) (indirect_pfns q0) (LegacyLayout 256 4096)).
  destruct (link_all q1 (place d p, h1) eq_refl) as (m' & El & Hm').
  exists m'. split; [|exact Hm']. unfold init_queue.
  erewrite bind_ret_l.
  2:{ apply run_queue_world. unfold queue_used. erewrite bind_ret_l; [|apply run_hdr_write].
      erewrite bind_ret_l; [|apply run_hdr_read, read_version].
      change (VIRTIO_VERSION_LEGACY =? VIRTIO_VERSION_LEGACY) with true. cbn iota.
      erewrite bind_ret_l; [|apply run_hdr_read, read_pfn; rewrite write_rings; unfold is_reset; by reg_step].
      reflexivity. }
  cbn [Z.eqb negb]. erewrite bind_ret_l; [|apply run_queue_world, run_hdr_read, read_num_max].
  destruct (Z.ltb_spec num_max VIRTIO_NUM_DESC) as [Hlt|_]; [unfold VIRTIO_NUM_DESC in Hlt; lia|].
  erewrite bind_ret_l; [|apply run_queue_world, run_hdr_read, read_version].
  change (VIRTIO_VERSION_LEGACY =? VIRTIO_VERSION_LEGACY) with true. cbn iota.
  erewrite bind_ret_l; [|apply run_queue_world, (legacy_rings_run d h h1 p v E Hp)].
  cbn iota beta. mstep. cbn [fst snd].
  rewrite (u64_small (v + 1)), !PAGE_2_ADDR_page by lia.
  replace (ADDR v 256) with (v * 4096 + 256) by (unfold ADDR, PAGESIZE; rewrite u64_small; lia).
  exact El.
Qed.

Lemma u32_i32 x : 0 <= x < 4294967296 -> u32 (i32 x) = x.
Proof. intros Hx. unfold i32, u32. destruct (Z.ltb_spec (x mod 4294967296) 2147483648); dlia. Qed.

Lemma negotiated_range : 0 <= Z.land offered VIRTIO_BLK_SUPPORTED_FEATURES < 4294967296.
Proof.
  pose proof offered_range as Ho. split; [apply Z.land_nonneg; lia|].
  destruct (Z.eq_dec (Z.land offered VIRTIO_BLK_SUPPORTED_FEATURES) 0) as [->|Hne]; [lia|].
  change 4294967296 with (2 ^ 32). apply Z.log2_lt_pow2.
  { assert (0 <= Z.land offered VIRTIO_BLK_SUPPORTED_FEATURES) by (apply Z.land_nonneg; lia). lia. }
  eapply Z.le_lt_trans; [apply Z.log2_land; [lia|done]|]. apply Z.min_lt_iff. by right.
Qed.

Lemma init_virtio_blk_run (b0 : VirtIOBlk) d (h h1 : H) p v :
  16 <= num_max -> length (indirect_pfns (blk_queue b0)) = 16%nat ->
  dmalloc 2 true h = Ret ((p, v), h1) -> 0 <= p < 4294967296 -> 0 <= v ->
  (v + 2) * 4096 <= 18446744073709551616 ->
  let f := Z.land offered VIRTIO_BLK_SUPPORTED_FEATURES in
  let ind := negb (Z.land f VIRTIO_FEATURE_RING_INDIRECT_DESC =? 0) in
  exists m', init_virtio_blk hd (b0, (d, h)) =
    Ret (tt, (mkBlk hd (mkQueue 0 0 0 (v * 4096) (v * 4096 + 256) ((v + 1) * 4096) (linked 15) 0 0 ind ind
                (replicate 16 0) (indirect_pfns (blk_queue b0)) (LegacyLayout 256 4096)) blk_sectors f,
              (reg_write status 15 (place (accept d f) p), w_set m' h1))) /\
    (forall x, ~ (v * 4096 <= x < v * 4096 + 256) -> m' x = w_mem h1 x).
Proof.
  intros Hn Hl E Hp Hv Hv2 f ind. pose proof negotiated_range as Hf. fold f in Hf.
  destruct (accept_facts d f) as (Ar & _).
  destruct (init_queue_run (blk_queue b0) (accept d f) h h1 p v ind ind Ar Hn Hl E Hp Hv Hv2) as (m' & Eq & Hm').
  exists m'. split; [|done].
  assert (forall A (m : M (D * H) A) b w a w', m w = Ret (a, w') -> bworld m (b, w) = Ret (a, (b, w'))) as Hw.
  { intros A m b w a w' Em. unfold bworld. cbn. by rewrite Em. }
  unfold init_virtio_blk. erewrite bind_ret_l; [|apply Hw, header_init_run].
  fold f. rewrite (u32_small f), (u32_i32 f) by done. fold ind.
  erewrite bind_ret_l; [|apply Hw; cbn; rewrite read_cap_lo; reflexivity].
  erewrite bind_ret_l; [|apply Hw; cbn; rewrite read_cap_hi; reflexivity].
  erewrite (bind_ret_l (in_queue _)); [|unfold in_queue; cbn [fst snd]; rewrite Eq; reflexivity].
  erewrite bind_ret_l; [|apply Hw; unfold finish_init; apply run_hdr_write].
  unfold modify. cbn [fst snd blk_queue set_blk_queue]. do 4 f_equal.
  pose proof cap_range as [Hlo Hhi]. rewrite cap_sectors, Z.shiftl_mul_pow2 by lia.
  rewrite u64_small by lia. rewrite Z.lor_comm, lor_shift_add by lia. lia.
Qed.

(** What dmalloc gives for the queue, and the frame it can be placed at. *)
Lemma init_virtio_blk_ok n (b0 : VirtIOBlk) d (h : H) :
  Z.of_nat n <= 65535 ->
  heap_ok h -> avail_run h 2 -> 16 <= num_max -> length (indirect_pfns (blk_queue b0)) = 16%nat ->
  Z.land offered VIRTIO_FEATURE_RING_INDIRECT_DESC <> 0 ->
  (forall p v h1, dmalloc 2 true h = Ret ((p, v), h1) -> 0 < p < 4294967296) ->
  exists b' d' h', init_virtio_blk hd (b0, (d, h)) = Ret (tt, (b', (d', h'))) /\
    heap_ok (b', (d', h')) /\ blk_inv n b' d' h' /\
    (forall a, medium d' a = medium d a) /\ capacity b' = blk_sectors /\
    (forall x, live (b', (d', h')) x <-> live h x) /\ (forall x, live h x -> w_mem h' x = w_mem h x) /\
    (forall v p, backed h v p -> backed h' v p) /\
    exists r h1, dmalloc 2 true h = Ret (r, h1) /\ forall k, World.avail h1 k -> World.avail h' k.
Proof.
  intros Hn16 Hok Hav Hn Hl Hind Hp. assert (1 <= 2) as H12 by lia.
  destruct (dmalloc_law 2 true h Hok (or_intror (conj H12 Hav)))
    as (p & v & h1 & E & L1 & L2 & L3 & L4 & L5 & L6 & L7 & L8 & L9 & _).
  specialize (Hp p v h1 E). specialize (L9 eq_refl).
  destruct (init_virtio_blk_run b0 d h h1 p v Hn Hl E ltac:(lia) L2 L3) as (m' & Ei & Hm').
  set (f := Z.land offered VIRTIO_BLK_SUPPORTED_FEATURES) in *.
  destruct (accept_facts d f) as (_ & As & Am & Ag).
  destruct (place_facts (accept d f) p ltac:(lia) Ag) as (Pr & Ps & Pm).
  assert (negb (Z.land f VIRTIO_FEATURE_RING_INDIRECT_DESC =? 0) = true) as Ef.
  { unfold f. rewrite <- Z.land_assoc.
    change (Z.land VIRTIO_BLK_SUPPORTED_FEATURES VIRTIO_FEATURE_RING_INDIRECT_DESC) with VIRTIO_FEATURE_RING_INDIRECT_DESC.
    by apply negb_true_iff, Z.eqb_neq. }
  rewrite Ef in Ei. eexists _, _, _. split; [exact Ei|].
  assert (forall x, ~ live h1 x -> m' x = w_mem h1 x) as Hml.
  { intros x Hx. apply Hm'. intros Hin. apply Hx, L7. right. unfold in_pages. lia. }
  set (q := mkQueue 0 0 0 (v * 4096) (v * 4096 + 256) ((v + 1) * 4096) (linked 15) 0 0 true true
                (replicate 16 0) (indirect_pfns (blk_queue b0)) (LegacyLayout 256 4096)).
  assert (queue_at q v (v + 1)) as Hat by (split; cbn; lia).
  assert (forall x, queue_pages q x <-> in_pages v 2 x) as Hqp.
  { intros x. rewrite (queue_at_pages _ _ _ _ Hat). unfold in_pages. lia. }
  assert (forall x, live (w_set m' h1) x <-> live h1 x) as Hlive by (by apply live_set).
  assert (backed (w_set m' h1) v p) as B0.
  { apply backed_set. specialize (L4 0 ltac:(lia)). by rewrite !Z.add_0_r in L4. }
  assert (backed (w_set m' h1) (v + 1) (p + 1)) as B1 by (apply backed_set, L4; lia).
  assert (forall x, (v + 1) * 4096 <= x < (v + 2) * 4096 -> w_mem (w_set m' h1) x = 0) as Hz.
  { intros x Hx. rewrite w_mem_set, Hm' by lia. apply L9. unfold in_pages. lia. }
  assert (forall a, (v + 1) * 4096 <= a -> a + 2 <= (v + 2) * 4096 -> load16 (w_mem (w_set m' h1)) a = 0) as Hz16.
  { intros a Ha1 Ha2. rewrite (load16_ext _ (fun _ => 0)) by (intros x Hx; apply Hz; lia). done. }
  assert (seen (reg_write status 15 (place (accept d f) p)) = 0) as Hseen.
  { rewrite write_seen. unfold is_reset. rewrite decide_False by (intros [_ [=]]). by rewrite Ps. }
  split.
  { apply world_heap. cbn [blk_queue]. fold q. split; [by apply heap_ok_set|].
    intros x Hx%Hqp. apply Hlive, L7. by right. }
  split; [split; cbn [blk_queue hdr]; fold q; try done|].
  - exists (seqZ 0 16). split; [by apply linked_inv|done].
  - rewrite Hseen. lia.
  - by exists v, (v + 1).
  - rewrite write_rings. unfold is_reset. rewrite decide_False by (intros [_ [=]]).
    rewrite decide_False by done. rewrite Pr. do 3 eexists. split; [done|]. cbn.
    split; [|split]; [exists v, p|exists v, p|exists (v + 1), (p + 1)];
      (split; [done|split; [unfold in_pages; lia|lia]]).
  - rewrite Hseen. cbn [used q]. apply Hz16; unfold used_idx_at; cbn; lia.
  - rewrite Hseen. rewrite Hz16; [lia|..]; unfold avail_event_at; cbn; lia.
  - split; [|split; [done|split]].
    + intros a. by rewrite write_medium, Pm.
    + intros x. rewrite world_live. cbn [blk_queue]. fold q. rewrite Hlive, L7, Hqp.
      split; [tauto|]. intros Hx. split; [by left|]. intros Hin. by apply (L6 x Hin).
    + split.
      * intros x Hx. rewrite w_mem_set, Hm'; [by apply L8|]. intros Hin.
        apply (L6 x); [unfold in_pages; lia|done].
      * split; [intros v' p' Hb; by apply backed_set, L5|].
        exists (p, v), h1. split; [done|]. intros k Hk. by apply avail_set.
Qed.
End Init.
