(* ===== verification/VirtioSample.v ===== *)
(** * A block device next to the concrete heap

    A device in the sense of VirtioDev.v and VirtioInit.v that keeps its medium
    in a function, polls the ring and answers the third time, on the heap of
    RamDisk.v, and the states on which the theorems about the driver are
    evaluated. *)
From S2P Require Import Prelude Mem World RamDisk HeapLift Virtio VirtioSpec VirtioBlk VirtioDev VirtioBlkSpec.
From S2P Require Import VirtioDriver VirtioInit.
Import Virtio VirtioBlk.

Record rdev := mkRdev {
  rd_regs : reg -> Z;
  rd_rings : option (Z * Z * Z);
  rd_seen : Z;
  rd_medium : Z -> Z;
  rd_delay : nat;
}.

Definition RD_BASE : Z := 268468224.
Definition all_regs : list reg :=
  [magic; version; device_id; vendor_id; device_features; device_features_sel; driver_features;
   driver_features_sel; legacy_guest_page_size; queue_sel; queue_num_max; queue_num;
   legacy_queue_align; legacy_queue_pfn; queue_ready; queue_notify; interrupt_status; interrupt_ack;
   status; queue_desc_low; queue_desc_high; queue_driver_low; queue_driver_high; queue_device_low;
   queue_device_high; config_generation].
Definition reg_at (a : Z) : option reg :=
  snd <$> list_find (fun r => RD_BASE + VirtIOHeader r = a) all_regs.

Lemma reg_at_ok r : reg_at (RD_BASE + VirtIOHeader r) = Some r.
Proof. by destruct r. Qed.

Definition rd_write (a v : Z) (d : rdev) : rdev :=
  match reg_at a with
  | None => d
  | Some r =>
      if decide (r = status /\ v = 0) then mkRdev (fun _ => 0) None 0 (rd_medium d) 0
      else mkRdev (fun r' => if decide (r = r') then v else rd_regs d r')
        (if decide (r = legacy_queue_pfn) then
           if decide (v = 0) then None
           else Some (legacy_ring v (rd_regs d legacy_guest_page_size) (rd_regs d queue_num)
                        (rd_regs d legacy_queue_align))
         else rd_rings d)
        (rd_seen d) (rd_medium d)
        (if decide (r = queue_notify) then 2%nat else rd_delay d)
  end.

Definition rd_read (a : Z) (d : rdev) : Z * rdev :=
  (match reg_at a with
   | Some version => 1
   | Some device_features => 805306880
   | Some queue_num_max => 1024
   | Some legacy_queue_pfn => match rd_rings d with None => 0 | Some _ => rd_regs d legacy_queue_pfn end
   | Some r => rd_regs d r
   | None => if a =? RD_BASE + 256 then 2000 else 0
   end, d).

Definition rd_delay_of (d : rdev) : nat := Nat.min (rd_delay d) 3.

(** The descriptors of the next request. *)
Definition rd_chain (m : mem) (pd head : Z) : option (list VirtQueueDesc) :=
  let d := read_desc m (pd + 16 * head) in
  if Z.land (d_flags d) VRING_DESC_F_INDIRECT =? 0 then table_chain 16 m pd head
  else table_chain (Z.to_nat (d_len d / 16)) m (d_addr d) 0.

Definition copy_in (m : mem) (data : Z) (md : Z -> Z) (off : Z) : mem := fun x =>
  if (data <=? x) && (x <? data + 4096) then md (off + (x - data)) else m x.
Definition copy_out (md : Z -> Z) (m : mem) (data off : Z) : Z -> Z := fun a =>
  if (off <=? a) && (a <? off + 4096) then m (data + (a - off)) else md a.

(** The entry of the used ring and its index. *)
Definition rd_used (m : mem) (us sn head : Z) : mem :=
  store16 (store16 (store32 (store32 m (used_id_at us (sn mod 16)) head) (used_len_at us (sn mod 16)) 1)
    (used_idx_at us) (u16 (sn + 1))) (avail_event_at us) (u16 (sn + 1)).

Definition rd_serve (d : rdev) (m : mem) (pd pa pu : Z) : rdev * mem :=
  let sn := rd_seen d in
  let head := load16 m (avail_ring_at pa (sn mod 16)) in
  match rd_chain m pd head with
  | Some [d0; d1; d2] =>
      let sector := load64 m (d_addr d0 + 8) in
      let isin := load32 m (d_addr d0) =? 0 in
      let m1 := if isin then copy_in m (d_addr d1) (rd_medium d) (sector * 512) else m in
      let md := if isin then rd_medium d else copy_out (rd_medium d) m (d_addr d1) (sector * 512) in
      (mkRdev (rd_regs d) (rd_rings d) (u16 (sn + 1)) md 0,
       rd_used (upd m1 (d_addr d2) 0) pu sn head)
  | _ => (d, m)
  end.

Definition rd_step (d : rdev) (h : ram) : rdev * mem :=
  match rd_rings d with
  | Some (pd, pa, pu) =>
      match rd_delay_of d with
      | S k => (mkRdev (rd_regs d) (rd_rings d) (rd_seen d) (rd_medium d) k, ram_mem h)
      | O => rd_serve d (ram_mem h) pd pa pu
      end
  | None => (d, ram_mem h)
  end.

#[global] Instance rdev_device : Device rdev ram :=
  {| dev_read := rd_read; dev_write := rd_write; dev_step := rd_step |}.

(** ** The laws *)
Lemma ram_phys (h : ram) pa va : phys h pa va -> pa = va.
Proof. intros (v & p & [-> _] & _ & ->). lia. Qed.

Lemma rd_used_frame m us sn head x : ~ (us <= x < us + 134) -> rd_used m us sn head x = m x.
Proof.
  intros Hx. assert (0 <= sn mod 16 < 16) by dlia.
  unfold rd_used, used_id_at, used_len_at, used_idx_at, avail_event_at, store16, store32.
  by rewrite !store_le_outside by lia.
Qed.

Lemma rd_used_fields m us sn head :
  0 <= head < 16 ->
  load16 (rd_used m us sn head) (used_idx_at us) = u16 (sn + 1) /\
  load32 (rd_used m us sn head) (used_id_at us (sn mod 16)) = head /\
  load16 (rd_used m us sn head) (avail_event_at us) = u16 (sn + 1).
Proof.
  intros Hh. assert (0 <= sn mod 16 < 16) by dlia.
  unfold rd_used, used_id_at, used_len_at, used_idx_at, avail_event_at, store16, store32, load16, load32.
  split; [|split].
  - rewrite load_store_disjoint by lia. apply load_store_same. apply u16_range.
  - rewrite !load_store_disjoint by lia. apply load_store_same. cbn. lia.
  - apply load_store_same. apply u16_range.
Qed.

Lemma rd_chain_ok (h : ram) pd dt head ds :
  pd = dt -> chain_at h dt head ds -> rd_chain (ram_mem h) pd head = Some ds.
Proof.
  intros -> [ds' Hf Ht|ds' tab dd Hf Hp Ht]; unfold rd_chain.
  - change (w_mem h) with (ram_mem h) in *. by rewrite Hf.
  - apply ram_phys in Hp. subst dd. change (w_mem h) with (ram_mem h) in *.
    apply Z.eqb_neq in Hf. rewrite Hf. by rewrite Hp.
Qed.

Lemma rd_serve_ok d (h : ram) dt av us r :
  posted h (rd_rings d) (rd_seen d) dt av us r -> separate us r ->
  exists md pd pa pu, rd_rings d = Some (pd, pa, pu) /\
    let m' := snd (rd_serve d (ram_mem h) pd pa pu) in
    fst (rd_serve d (ram_mem h) pd pa pu) =
      mkRdev (rd_regs d) (rd_rings d) (u16 (rd_seen d + 1)) md 0 /\
    served (ram_mem h) m' (rd_seen d) us r (rd_medium d) md.
Proof.
  intros [(pd & pa & pu & Er & ->%ram_phys & ->%ram_phys & ->%ram_phys) Hidx Hhead Hrange (ds & Hch & Hrc)] (S1 & S2 & S3).
  change (w_mem h) with (ram_mem h) in *.
  pose proof (rd_chain_ok h dt dt (rq_head r) ds eq_refl Hch) as Ech.
  destruct Hrc as [Hshape (d0 & req & H0 & ->%ram_phys%eq_sym & Htype & Hsec) (d1 & H1 & Hdata%ram_phys)
    (d2 & H2 & Hst%ram_phys) _].
  change (w_mem h) with (ram_mem h) in *.
  assert (ds = [d0; d1; d2]) as ->.
  { destruct ds as [|? [|? [|? [|]]]]; cbn in *; congruence. }
  assert ((load32 (ram_mem h) (d_addr d0) =? 0) = is_in (rq_type r)) as Hin by (rewrite Htype; by destruct (rq_type r)).
  eexists _, dt, av, us. split; [done|]. unfold rd_serve. rewrite Hhead, Ech, Hin, Hsec, Hdata, Hst. cbn [fst snd].
  split; [reflexivity|].
  set (m1 := if is_in (rq_type r) then copy_in (ram_mem h) (rq_data r) (rd_medium d) (rq_sector r * 512) else ram_mem h).
  pose proof (rd_used_fields (upd m1 (rq_status r) 0) us (rd_seen d) (rq_head r) Hrange) as (F1 & F2 & F3).
  assert (forall x, x <> rq_status r -> ~ (rq_type r = In /\ rq_data r <= x < rq_data r + 4096) ->
    upd m1 (rq_status r) 0 x = ram_mem h x) as Hm1.
  { intros x Hx Hd. rewrite upd_ne by done. unfold m1, copy_in. destruct (rq_type r); cbn; [|done].
    destruct (Z.leb_spec (rq_data r) x), (Z.ltb_spec x (rq_data r + 4096)); cbn; try done. exfalso. apply Hd. split; [done|lia]. }
  split.
  - intros x Hu Hx Hd. rewrite rd_used_frame by done. by apply Hm1.
  - done.
  - done.
  - by right.
  - rewrite rd_used_frame by done. apply upd_eq.
  - intros Ht j Hj. rewrite rd_used_frame by lia. rewrite upd_ne by lia. unfold m1. rewrite Ht. cbn. unfold copy_in.
    replace ((rq_data r <=? rq_data r + j) && (rq_data r + j <? rq_data r + 4096)) with true by (symmetry; zcases; done).
    f_equal. lia.
  - intros a. destruct (rq_type r); cbn.
    + by rewrite decide_False by (by intros [? _]).
    + unfold copy_out. destruct (Z.leb_spec (rq_sector r * 512) a), (Z.ltb_spec a (rq_sector r * 512 + 4096)); cbn;
        [rewrite decide_True by (split; [done|lia])|rewrite decide_False by lia..]; done.
Qed.

#[global] Instance rdev_blk : BlkDevice rdev ram.
Proof.
  refine {| blk_header := RD_BASE; blk_sectors := 2000; rings := rd_rings; seen := rd_seen;
            medium := rd_medium; awake d := True; indirect_ok d := True; delay := rd_delay_of; patience := 4 |}.
  - lia.
  - intros d. unfold rd_delay_of. lia.
  - intros d. unfold dev_write. cbn [rdev_device]. unfold rd_write. rewrite reg_at_ok.
    rewrite decide_False by (intros [[=] _]). done.
  - done.
  - intros d h dt av us r k Hok Hp Hw Hk.
    destruct (po_ring _ _ _ _ _ _ _ Hp) as (pd & pa & pu & Er & _).
    eexists. unfold dev_step. cbn. unfold rd_step. rewrite Er, Hk. split; [reflexivity|].
    cbn. split; [done|]. split; [unfold rd_delay_of in *; cbn; lia|]. done.
  - intros d h dt av us r Hok Hp _ Hsep Hs Hs8 Hw Hk.
    destruct (rd_serve_ok d h dt av us r Hp Hsep) as (md & pd & pa & pu & Er & E1 & E2).
    eexists _, _. unfold dev_step. cbn. unfold rd_step. rewrite Er, Hk.
    split; [apply surjective_pairing|]. rewrite E1. cbn. done.
Defined.

#[global] Instance rdev_indirect : TakesIndirect rdev ram.
Proof. done. Defined.

#[global] Instance rdev_legacy : LegacyBlk rdev ram.
Proof.
  refine {| regs := rd_regs; offered := 805306880; num_max := 1024; cap_lo := 2000; cap_hi := 0 |};
    try done; try lia.
  - intros r r' v d Hr. unfold dev_write, rdev_device, rd_write. change blk_header with RD_BASE. rewrite reg_at_ok.
    by rewrite decide_False by done.
  - intros r v d. unfold dev_write, rdev_device, rd_write. change blk_header with RD_BASE. rewrite reg_at_ok.
    cbn. case_decide; [done|]. by case_decide.
  - intros r v d. unfold dev_write, rdev_device, rd_write. change blk_header with RD_BASE. rewrite reg_at_ok.
    cbn. by case_decide.
  - intros r v d a. unfold dev_write, rdev_device, rd_write. change blk_header with RD_BASE. rewrite reg_at_ok. by case_decide.
  - intros d Hr. unfold dev_read, rdev_device, rd_read. change blk_header with RD_BASE. rewrite reg_at_ok. cbn in Hr. by rewrite Hr.
Defined.

(** ** Concrete states *)
Definition rdev0 : rdev := mkRdev (fun _ => 0) None 0 (fun a => (a * 7 + 1) mod 256) 0.
Definition ram1 : ram := mkRam (fun _ => 0) (fun _ => 0) [] 200 1000.
Definition queue0 : VirtIOQueue :=
  mkQueue 0 0 0 0 0 0 [] 0 0 false false [] (replicate 16 0) (LegacyLayout 0 0).
Definition blk0 : VirtIOBlk := mkBlk 0 queue0 0 0.

Lemma ram1_ok : ram_ok ram1.
Proof. split; cbn; try lia; [set_solver|constructor]. Qed.

(** The world after init_virtio_blk. *)
Lemma init0 n :
  Z.of_nat n <= 65535 ->
  exists b d h, init_virtio_blk blk_header (blk0, (rdev0, ram1)) = Ret (tt, (b, (d, h))) /\
    heap_ok (b, (d, h)) /\ blk_inv n b d h /\
    (forall a, medium d a = medium rdev0 a) /\ capacity b = blk_sectors /\
    (forall x, live (b, (d, h)) x <-> live ram1 x) /\ (forall x, live ram1 x -> w_mem h x = w_mem ram1 x) /\
    (forall v, 0 <= v < 200 -> backed h v v) /\ World.avail h 798.
Proof.
  intros Hn. destruct (init_virtio_blk_ok n blk0 rdev0 ram1 Hn)
    as (b & d & h & E & I1 & I2 & I3 & I4 & I5 & I6 & I7 & r & h1 & E1 & Ha); cycle 6.
  { exists b, d, h. do 7 (split; [done|]). split; [intros v Hv; apply I7; by split|]. apply Ha.
    assert (h1 = mkRam (zero_pages true 200 2 (fun _ => 0)) (fun _ => 0) [] 202 1000) as ->.
    { change (dmalloc 2 true ram1) with (ram_dmalloc 2 true ram1) in E1. by injection E1 as _ <-. }
    by vm_compute. }
  - apply ram1_ok.
  - by vm_compute.
  - by vm_compute.
  - done.
  - by vm_compute.
  - intros p v h1 E. assert (p = 200) as ->; [|lia].
    cut (fst <$> ram_dmalloc 2 true ram1 = Ret (200, 200)); [|done].
    change (ram_dmalloc 2 true ram1) with (dmalloc 2 true ram1). rewrite E. by intros [= -> ->].
Qed.
