(* ===== verification/VirtioDirect.v ===== *)
(** * Direct descriptor chains

    A request of a queue without indirect descriptors: add_queue takes one
    descriptor of the free list per buffer, recycle_descriptors puts them back. *)
From S2P Require Import Prelude Mem World Virtio VirtioSpec.
Import Virtio.

(** The fields of a queue that requests do not change. *)
Definition same_queue (q q' : VirtIOQueue) : Prop :=
  q' = set_num_used (num_used q') (set_free_head (free_head q') (set_shadow (desc_shadow q') q)).

Lemma same_queue_refl q : same_queue q q.
Proof. by destruct q. Qed.
Lemma same_queue_trans q1 q2 q3 : same_queue q1 q2 -> same_queue q2 q3 -> same_queue q1 q3.
Proof. unfold same_queue. intros -> ->. done. Qed.

(** The buffer of a descriptor. *)
Definition desc_buf (d : VirtQueueDesc) : Z * Z * Z := (d_addr d, d_len d, d_flags d).
Definition put_buf (b : Z * Z * Z) (next : Z) : VirtQueueDesc := mkDesc (fst (fst b)) (snd (fst b)) (snd b) next.

Definition take_direct (q : VirtIOQueue) (f : Z) (b : Z * Z * Z) (next : Z) : VirtIOQueue :=
  set_num_used (num_used q + 1) (set_free_head next
    (set_shadow (<[Z.to_nat f := put_buf b next]> (desc_shadow q)) q)).

Lemma take_direct_inv q f free b d :
  queue_inv q (f :: free) -> desc_shadow q !! Z.to_nat f = Some d ->
  queue_inv (take_direct q f b (d_next d)) free.
Proof.
  intros Hq Hd. destruct (take_indirect_inv q f free 0 0 0 d Hq Hd) as [T1 T2 T3 T4 T5 T6 T7 T8 T9].
  destruct (free_cons _ _ _ Hq) as (Hf & Hni & Hh & d' & Hd' & Hc & Hnx). simplify_eq.
  pose proof (free_nonneg _ _ Hq) as Hpos. apply Forall_cons in Hpos as [_ Hpos].
  destruct Hq as [Q1 Q2 Q3 Q4 Q5 Q6 Q7 Q8 Q9].
  split; cbn; rewrite ?length_insert; try done.
  - by apply Forall_insert.
  - apply fchain_insert; [done|lia|done|done].
  - intros i Hi. apply Q9. set_solver.
Qed.

Section Direct.
Context {W : Type} `{DmaHeap W} `{VirtioMmio W}.

Lemma direct_put_ok q (w : W) f free a l fl d :
  queue_inv q (f :: free) -> desc_shadow q !! Z.to_nat f = Some d ->
  direct_put a l fl (q, w) =
  Ret (tt, (take_direct q f (a, l, fl) (d_next d),
            w_set (write_desc (w_mem w) (desc q + desc_size * f) (put_buf (a, l, fl) (d_next d))) w)).
Proof.
  intros Hq Hd. destruct (free_cons _ _ _ Hq) as (Hf & _ & Hh & _).
  assert (u16 (num_used q + 1) = num_used q + 1) as Hu.
  { apply u16_small. rewrite (qi_used _ _ Hq). pose proof (free_at_most_16 _ _ Hq). cbn [length] in *. lia. }
  unfold direct_put. mstep. cbn [fst]. rewrite Hh.
  rewrite (bind_ret_l _ _ _ _ _ (run_shadow q w f d (proj1 Hf) Hd)). do 2 mstep.
  erewrite bind_ret_l; [|apply (run_publish _ _ f (put_buf (a, l, fl) (d_next d)) (proj1 Hf));
    apply list_lookup_insert_eq; cbn; rewrite (qi_shadow _ _ Hq); lia].
  unfold put_queue, modify, take_direct. by rewrite <- Hu.
Qed.

(** ** Taking a run of descriptors *)
(** The first [j] buffers are in the descriptors [us], linked in that order;
    the memory of the descriptor table shows the same. *)
Record taken (q : VirtIOQueue) (w : W) (us free : list Z) (bufs : list (Z * Z * Z)) (j : nat)
    (q' : VirtIOQueue) (m' : mem) : Prop := {
  tk_inv : queue_inv q' (drop j us ++ free);
  tk_same : same_queue q q';
  tk_desc : forall k u b, (k < j)%nat -> us !! k = Some u -> bufs !! k = Some b ->
    exists nx, desc_shadow q' !! Z.to_nat u = Some (put_buf b nx) /\
      read_desc m' (desc q + 16 * u) = put_buf b nx /\
      (forall u', us !! S k = Some u' -> nx = u');
  tk_mem : forall x, ~ (desc q <= x < desc q + 256) -> m' x = w_mem w x;
  tk_head : (0 < j)%nat -> 0 <= free_head q' < 65536;
}.

Lemma taken_start q w us free bufs : queue_inv q (us ++ free) -> taken q w us free bufs 0 q (w_mem w).
Proof. intros Hq. split; [done|apply same_queue_refl|lia|done|lia]. Qed.

Definition buf_fits (b : Z * Z * Z) : Prop :=
  0 <= fst (fst b) < 18446744073709551616 /\ 0 <= snd (fst b) < 4294967296 /\ 0 <= snd b < 65536.

Lemma taken_step q w us free bufs j q' m' a l fl :
  taken q w us free bufs j q' m' -> (j < length us)%nat -> NoDup us ->
  Forall (fun i => 0 <= i < 16) us ->
  bufs !! j = Some (a, l, fl) -> buf_fits (a, l, fl) ->
  exists q'' m'', direct_put a l fl (q', w_set m' w) = Ret (tt, (q'', w_set m'' w)) /\
    taken q w us free bufs (S j) q'' m''.
Proof.
  intros [Ti Ts Td Tm Th] Hj Hnd Hr Hb (F1 & F2 & F3).
  destruct (lookup_lt_is_Some_2 us j Hj) as [u Hu].
  rewrite (drop_S _ _ _ Hu) in Ti. cbn [app] in Ti.
  destruct (free_cons _ _ _ Ti) as (Hu16 & Hni & Hh & d & Hd & Hc & Hnx).
  assert (desc q' = desc q) as Hdq by (rewrite Ts; done).
  set (nd := put_buf (a, l, fl) (d_next d)).
  exists (take_direct q' u (a, l, fl) (d_next d)), (write_desc m' (desc q' + desc_size * u) nd).
  split. { rewrite (direct_put_ok q' _ u _ a l fl d Ti Hd). by rewrite w_mem_set, w_set_set. }
  unfold desc_size. rewrite Hdq. split.
  - by apply take_direct_inv.
  - eapply same_queue_trans; [exact Ts|]. by destruct q'.
  - intros k v b Hk Hv Hbk. destruct (decide (k = j)) as [->|Hne].
    + simplify_eq. exists (d_next d). split; [|split].
      * cbn. apply list_lookup_insert_eq. rewrite (qi_shadow _ _ Ti). lia.
      * apply read_write_desc. by split.
      * intros u' Hu'. rewrite (drop_S _ _ _ Hu') in Hc. cbn in Hc. by destruct Hc as [-> _].
    + destruct (Td k v b ltac:(lia) Hv Hbk) as (nx & E1 & E2 & E3).
      assert (v <> u) as Hvu by (intros ->; apply Hne; by eapply NoDup_lookup).
      pose proof (proj1 (Forall_lookup _ _) Hr k v Hv) as Hv16. cbn in Hv16.
      exists nx. split; [|split; [|done]].
      * cbn. rewrite list_lookup_insert_ne by lia. done.
      * rewrite <- E2. apply read_desc_ext. intros x Hx. apply write_desc_outside. lia.
  - intros x Hx. rewrite write_desc_outside by lia. by apply Tm.
  - done.
Qed.

Section Request.
Context (ins ilens outs olens : list Z).
Hypothesis Hins : length ins = length ilens.
Hypothesis Houts : length outs = length olens.
Hypothesis Hone : (1 <= length outs)%nat.
Abbreviation bufs := (buffers ins ilens outs olens).
Hypothesis Hfits : Forall buf_fits bufs.
Context (us free : list Z) (q : VirtIOQueue) (w : W).
Hypothesis Hq : queue_inv q (us ++ free).
Hypothesis Hus : length us = (length ins + length outs)%nat.

Lemma us_facts : NoDup us /\ Forall (fun i => 0 <= i < 16) us /\ (forall i, i ∈ us -> i ∉ free).
Proof using Hq.
  pose proof (qi_nodup _ _ Hq) as (H1' & H2' & _)%NoDup_app.
  pose proof (qi_range _ _ Hq) as [H3' _]%Forall_app. done.
Qed.

Lemma add_direct_ok :
  exists q' m', add_direct ins ilens (Z.of_nat (length ins)) outs olens (Z.of_nat (length outs)) (q, w)
      = Ret (tt, (q', w_set m' w)) /\
    taken q w us free bufs (length us) q' m'.
Proof using All.
  destruct us_facts as (Hnd & Hr & _).
  set (P := fun n (s : @St W) => exists q' m', s = (q', w_set m' w) /\ taken q w us free bufs (Z.to_nat n) q' m').
  assert (forall i, Nat.lt i (length us) -> exists a l fl, bufs !! i = Some (a, l, fl) /\ buf_fits (a, l, fl)) as Hbuf.
  { intros i Hi. destruct (lookup_lt_is_Some_2 bufs i) as [[[a l] fl] Hb].
    { rewrite buffers_length by done. lia. }
    exists a, l, fl. split; [done|]. by eapply Forall_lookup_1 in Hfits. }
  unfold add_direct. destruct (for_loop_inv P (direct_input ins ilens) (Z.to_nat (Z.of_nat (length ins))) 0 (q, w))
    as (s1 & E1 & P1).
  - intros j s Hj (q' & m' & -> & Tk).
    destruct (lookup_lt_is_Some_2 ins (Z.to_nat j)) as [p Hp]; [lia|].
    destruct (lookup_lt_is_Some_2 ilens (Z.to_nat j)) as [l Hl]; [lia|].
    pose proof (buffers_in ins ilens outs olens _ p l Hp Hl) as Hb.
    destruct (Hbuf (Z.to_nat j) ltac:(lia)) as (a' & l' & fl' & Hb' & Hft). simplify_eq.
    destruct (taken_step _ _ _ _ _ _ _ _ p l VRING_DESC_F_NEXT Tk ltac:(lia) Hnd Hr Hb Hft) as (q2 & m2 & E2 & T2).
    eexists. split. { unfold direct_input. mstep_with run_at_index; [|lia]. mstep_with run_at_index; [|lia]. exact E2. }
    exists q2, m2. split; [done|]. by replace (Z.to_nat (j + 1)) with (S (Z.to_nat j)) by lia.
  - exists q, (w_mem w). split; [by rewrite w_set_mem|]. by apply taken_start.
  - destruct (for_loop_inv (fun n => P (Z.of_nat (length ins) + n)) (direct_output outs olens (Z.of_nat (length outs)))
      (Z.to_nat (Z.of_nat (length outs))) 0 s1) as (s2 & E2 & (q' & m' & -> & Tk)).
    + intros j s Hj (q' & m' & -> & Tk).
      destruct (lookup_lt_is_Some_2 outs (Z.to_nat j)) as [p Hp]; [lia|].
      destruct (lookup_lt_is_Some_2 olens (Z.to_nat j)) as [l Hl]; [lia|].
      pose proof (buffers_out ins ilens outs olens _ p l Hins Hp Hl) as Hb. rewrite Z2Nat.id in Hb by lia.
      replace (length ins + Z.to_nat j)%nat with (Z.to_nat (Z.of_nat (length ins) + j)) in Hb by lia.
      destruct (Hbuf (Z.to_nat (Z.of_nat (length ins) + j)) ltac:(lia)) as (a' & l' & fl' & Hb' & Hft). simplify_eq.
      destruct (taken_step _ _ _ _ _ _ _ _ p l _ Tk ltac:(lia) Hnd Hr Hb Hft) as (q2 & m2 & E2 & T2).
      eexists. split. { unfold direct_output. mstep_with run_at_index; [|lia]. mstep_with run_at_index; [|lia]. exact E2. }
      exists q2, m2. split; [done|].
      by replace (Z.to_nat (Z.of_nat (length ins) + (j + 1))) with (S (Z.to_nat (Z.of_nat (length ins) + j))) by lia.
    + rewrite Z.add_0_r. by replace (0 + Z.of_nat (Z.to_nat (Z.of_nat (length ins)))) with (Z.of_nat (length ins)) in P1 by lia.
    + exists q', m'. rewrite (bind_ret_l _ _ _ _ _ E1). split; [exact E2|].
      by replace (Z.to_nat (Z.of_nat (length ins) + (0 + Z.of_nat (Z.to_nat (Z.of_nat (length outs)))))) with (length us) in Tk by lia.
Qed.

(** The chain in the descriptor table, as a device follows it. *)
Lemma taken_chain q' m' m : taken q w us free bufs (length us) q' m' ->
  (forall x, desc q <= x < desc q + 256 -> m x = m' x) ->
  forall n k u, (n + k)%nat = length us -> us !! k = Some u ->
  exists ds, table_chain n m (desc q) u = Some ds /\ desc_buf <$> ds = drop k bufs.
Proof using All.
  intros Tk Hm n. induction n as [|n IH]; intros k u Hk Hu; [apply lookup_lt_Some in Hu; lia|].
  destruct (lookup_lt_is_Some_2 bufs k) as [b Hb]; [rewrite buffers_length by done; lia|].
  destruct (tk_desc _ _ _ _ _ _ _ _ Tk k u b) as (nx & _ & Er & Hnx); [lia|done..|].
  destruct us_facts as (_ & Hr & _). pose proof (proj1 (Forall_lookup _ _) Hr k u Hu) as Hu16. cbn in Hu16.
  rewrite <- (read_desc_ext m m') in Er by (intros x Hx; apply Hm; lia).
  cbn [table_chain]. unfold desc_size. rewrite Er. cbn [d_flags put_buf].
  rewrite (buffers_next _ _ _ _ _ _ Hins Houts Hone Hb). rewrite (drop_S _ _ _ Hb).
  destruct b as [[a l] fl]. case_decide as Hlast.
  - eexists. split; [done|]. cbn. f_equal. symmetry. apply drop_ge. rewrite buffers_length by done. lia.
  - destruct (lookup_lt_is_Some_2 us (S k)) as [u' Hu']; [lia|]. rewrite (Hnx u' Hu').
    destruct (IH (S k) u' ltac:(lia) Hu') as (ds & Et & Eb). cbn [Z.eqb d_next put_buf]. rewrite Et.
    eexists. split; [done|]. cbn. by f_equal.
Qed.
End Request.
End Direct.

(** ** Giving a chain back *)
(** The descriptors [us] are linked in this order, the last one without the
    NEXT flag. *)
Fixpoint busy_chain (sh : list VirtQueueDesc) (us : list Z) : Prop :=
  match us with
  | [] => True
  | [u] => exists d, sh !! Z.to_nat u = Some d /\ Z.land (d_flags d) VRING_DESC_F_NEXT = 0
  | u :: ((u' :: _) as us') =>
      exists d, sh !! Z.to_nat u = Some d /\ Z.land (d_flags d) VRING_DESC_F_NEXT <> 0 /\ d_next d = u' /\
      busy_chain sh us'
  end.

Lemma busy_chain_insert sh us i d :
  i ∉ us -> 0 <= i -> Forall (fun j => 0 <= j) us -> busy_chain sh us -> busy_chain (<[Z.to_nat i := d]> sh) us.
Proof.
  intros Hni Hi. induction us as [|u [|u' us] IH]; intros Hpos Hb; [done|..];
    apply not_elem_of_cons in Hni as [Hiu Hni]; apply Forall_cons in Hpos as [Hu Hpos].
  - destruct Hb as (du & Hdu & Hf). exists du. split; [|done]. by rewrite list_lookup_insert_ne by lia.
  - destruct Hb as (du & Hdu & Hf & Hn & Hb). exists du. split; [by rewrite list_lookup_insert_ne by lia|].
    split; [done|]. split; [done|]. by apply IH.
Qed.

Section Recycle.
Context {W : Type} `{DmaHeap W}.

Lemma recycle_chain_ok us : forall fuel q (w : W) h0 free,
  us <> [] -> (length us <= fuel)%nat -> NoDup us -> Forall (fun i => 0 <= i < 16) us ->
  (forall i, i ∈ us -> i ∉ free) -> Forall (fun j => 0 <= j) free ->
  length (desc_shadow q) = 16%nat -> Forall (fun d => 0 <= d_next d < 65536) (desc_shadow q) ->
  0 <= h0 < 65536 -> busy_chain (desc_shadow q) us -> fchain (desc_shadow q) h0 free ->
  Z.of_nat (length us) <= num_used q < 65536 ->
  exists q' m', recycle_chain fuel (default 0 (head us)) h0 (q, w) = Ret (tt, (q', w_set m' w)) /\
    q' = set_num_used (num_used q - Z.of_nat (length us)) (set_shadow (desc_shadow q') q) /\
    length (desc_shadow q') = 16%nat /\ Forall (fun d => 0 <= d_next d < 65536) (desc_shadow q') /\
    (forall i, 0 <= i -> i ∉ us -> desc_shadow q' !! Z.to_nat i = desc_shadow q !! Z.to_nat i) /\
    fchain (desc_shadow q') (default 0 (head us)) (us ++ free) /\
    (forall x, ~ (desc q <= x < desc q + 256) -> m' x = w_mem w x).
Proof.
  induction us as [|u us IH]; intros fuel q w h0 free Hne Hfuel Hnd Hr Hdis Hpos Hlen Hnx Hh0 Hb Hf Hnu; [done|].
  destruct fuel as [|fuel]; [cbn in Hfuel; lia|]. cbn [head default recycle_chain].
  apply NoDup_cons in Hnd as [Hnu' Hnd]. apply Forall_cons in Hr as [Hu Hr].
  assert (u ∉ free) as Huf by (apply Hdis; set_solver).
  assert (Forall (fun j => 0 <= j) us) as Hpos' by (eapply Forall_impl; [exact Hr|cbn; lia]).
  assert (u16 (num_used q - 1) = num_used q - 1) as Hu1 by (apply u16_small; cbn [length] in *; lia).
  destruct us as [|u' us].
  - destruct Hb as (d & Hd & Hfl). pose proof (proj1 (Forall_lookup _ _) Hnx _ _ Hd) as Hdn. cbn in Hdn.
    mstep. rewrite (bind_ret_l _ _ _ _ _ (run_shadow q w u d (proj1 Hu) Hd)). do 2 mstep.
    rewrite Hfl. cbn [negb Z.eqb]. unfold put_shadow, put_queue, modify. cbn [fst snd].
    eexists _, (w_mem w). split; [by rewrite w_set_mem|]. cbn. rewrite Hu1, list_insert_insert_eq, length_insert.
    split; [done|]. split; [done|]. split; [by apply Forall_insert|]. split.
    { intros i Hi Hiu. apply list_lookup_insert_ne. assert (i <> u) by set_solver. lia. }
    split; [|done]. split; [done|]. eexists. split; [apply list_lookup_insert_eq; lia|]. cbn.
    apply fchain_insert; [done|lia|done|done].
  - destruct Hb as (d & Hd & Hfl & Hn & Hb). pose proof (proj1 (Forall_lookup _ _) Hnx _ _ Hd) as Hdn. cbn in Hdn.
    mstep. rewrite (bind_ret_l _ _ _ _ _ (run_shadow q w u d (proj1 Hu) Hd)). do 2 mstep.
    apply Z.eqb_neq in Hfl. rewrite Hfl. cbn [negb].
    erewrite bind_ret_l; [|apply (run_publish _ _ u (clear_desc d) (proj1 Hu)); apply list_lookup_insert_eq; cbn; lia].
    cbn [fst snd num_used set_shadow]. rewrite Hu1, Hn.
    set (q1 := set_num_used (num_used q - 1) (set_shadow (<[Z.to_nat u := clear_desc d]> (desc_shadow q)) q)).
    set (m1 := write_desc (w_mem w) (desc q1 + desc_size * u) (clear_desc d)).
    destruct (IH fuel q1 (w_set m1 w) h0 free) as (q' & m' & E & Hq' & L1 & L2 & L3 & L4 & L5);
      cbn [q1 desc_shadow set_num_used set_shadow num_used]; rewrite ?length_insert; try done.
    { cbn [length] in *. lia. } { intros i Hi. apply Hdis. set_solver. } { by apply Forall_insert. }
    { apply busy_chain_insert; [done|lia|done|done]. } { apply fchain_insert; [done|lia|done|done]. }
    { cbn [length] in *. lia. }
    exists q', m'. rewrite w_set_set in E. split; [exact E|]. split.
    { rewrite Hq'. cbn [desc_shadow set_num_used set_shadow length]. unfold q1, set_num_used, set_shadow. cbn. f_equal. lia. }
    split; [done|]. split; [done|]. split.
    { intros i Hi Hiu. rewrite L3 by set_solver. cbn. apply list_lookup_insert_ne.
      assert (i <> u) by set_solver. lia. }
    split.
    { split; [done|]. exists (clear_desc d). split; [|by rewrite Hn in *; cbn in L4 |- *; rewrite Hn].
      rewrite L3 by (lia || done). cbn. apply list_lookup_insert_eq. lia. }
    intros x Hx. rewrite L5 by done. rewrite w_mem_set. unfold m1, desc_size. change (desc q1) with (desc q) in *. apply write_desc_outside. lia.
Qed.
End Recycle.

(** ** A request from end to end *)
Lemma buffers_direct ins ilens outs olens i b :
  buffers ins ilens outs olens !! i = Some b -> Z.land (snd b) VRING_DESC_F_INDIRECT = 0.
Proof.
  unfold buffers. rewrite lookup_app_Some. intros [Hb|(_ & Hb)].
  - by apply lookup_zip_with_Some in Hb as (p & l & -> & _).
  - rewrite list_lookup_imap in Hb. apply fmap_Some in Hb as (pl & _ & ->). cbn.
    unfold output_flags. by destruct (negb _).
Qed.

Lemma buffers_addrs ins ilens outs olens :
  length ins = length ilens -> length outs = length olens ->
  (fun b => fst (fst b)) <$> buffers ins ilens outs olens = ins ++ outs /\
  (fun b => snd (fst b)) <$> buffers ins ilens outs olens = ilens ++ olens.
Proof.
  intros Hi Ho. unfold buffers. rewrite !fmap_app, !fmap_imap. split; f_equal.
  - apply list_eq. intros i. rewrite list_lookup_fmap, lookup_zip_with.
    destruct (ins !! i) eqn:E; [|done]. cbn. destruct (lookup_lt_is_Some_2 ilens i) as [l ->]; [|done].
    apply lookup_lt_Some in E. lia.
  - apply list_eq. intros i. rewrite list_lookup_imap, lookup_zip_with. destruct (outs !! i) eqn:E; [|done].
    cbn. destruct (lookup_lt_is_Some_2 olens i) as [l ->]; [|done]. apply lookup_lt_Some in E. lia.
  - apply list_eq. intros i. rewrite list_lookup_fmap, lookup_zip_with.
    destruct (ins !! i) eqn:E; cbn; [by destruct (ilens !! i)|].
    symmetry. apply lookup_ge_None in E. apply lookup_ge_None. lia.
  - apply list_eq. intros i. rewrite list_lookup_imap, lookup_zip_with. destruct (outs !! i) eqn:E; cbn; [by destruct (olens !! i)|].
    symmetry. apply lookup_ge_None in E. apply lookup_ge_None. lia.
Qed.

Lemma us_head q us free : queue_inv q (us ++ free) -> us <> [] ->
  exists u us', us = u :: us' /\ free_head q = u /\ 0 <= u < 16.
Proof.
  intros Hq Hne. destruct us as [|u us']; [done|]. exists u, us'. split; [done|].
  destruct (free_cons _ _ _ Hq) as (Hu & _ & Hh & _). done.
Qed.

Section RoundTrip.
Context {W : Type} `{DmaHeap W} `{VirtioMmio W}.
Context (ins ilens outs olens : list Z).
Hypothesis Hins : length ins = length ilens.
Hypothesis Houts : length outs = length olens.
Hypothesis Hone : (1 <= length outs)%nat.
Abbreviation bufs := (buffers ins ilens outs olens).
Hypothesis Hfits : Forall buf_fits bufs.
Context (us free : list Z) (q : VirtIOQueue) (w : W).
Hypothesis Hq : queue_inv q (us ++ free).
Hypothesis Hus : length us = (length ins + length outs)%nat.
Hypothesis Hidx : 0 <= avail_idx q /\ avail_idx q + 1 < 4294967296.
Hypothesis Hind : indirect q = false \/ length us = 1%nat.

Lemma add_queue_direct :
  exists q1 m1, add_queue ins ilens (Z.of_nat (length ins)) outs olens (Z.of_nat (length outs)) (q, w)
      = Ret (free_head q, (set_avail_idx (avail_idx q + 1) q1, w_set (publish_mem q (free_head q) m1) w)) /\
    taken q w us free bufs (length us) q1 m1.
Proof using All.
  destruct (add_direct_ok ins ilens outs olens Hins Houts Hone Hfits us free q w Hq Hus) as (q1 & m1 & E & Tk).
  exists q1, m1. split; [|done].
  pose proof (free_at_most_16 _ _ Hq) as H16. rewrite length_app in H16.
  unfold add_queue. mstep. cbn [fst]. rewrite u8_small by lia. rewrite (qi_used _ _ Hq), length_app.
  change VIRTIO_NUM_DESC with 16.
  destruct (Z.leb_spec 16 (16 - Z.of_nat (length us + length free))); [lia|].
  destruct (Z.ltb_spec 16 (Z.of_nat (length ins) + Z.of_nat (length outs))); [lia|].
  destruct (Z.ltb_spec 16 (16 - Z.of_nat (length us + length free) + (Z.of_nat (length ins) + Z.of_nat (length outs)))); [lia|].
  rewrite andb_false_r. cbn [orb].
  replace (indirect q && (1 <? Z.of_nat (length ins) + Z.of_nat (length outs))) with false.
  2: { destruct Hind as [->|Hl1]; [done|]. symmetry. apply andb_false_iff. right. apply Z.ltb_ge. lia. }
  rewrite (bind_ret_l _ _ _ _ _ E). pose proof (tk_same _ _ _ _ _ _ _ _ Tk) as Hs.
  assert (avail_idx q1 = avail_idx q /\ avail q1 = avail q) as [Ea Ev] by (rewrite Hs; done).
  erewrite bind_ret_l; [|apply publish_head_ok; rewrite Ea; lia].
  unfold publish_mem. by rewrite w_mem_set, w_set_set, Ea, Ev.
Qed.

Lemma taken_busy q1 m1 : taken q w us free bufs (length us) q1 m1 ->
  forall n k, (n + k)%nat = length us -> busy_chain (desc_shadow q1) (drop k us).
Proof using All.
  intros Tk n. induction n as [|n IH]; intros k Hk; [by rewrite drop_ge by lia|].
  destruct (lookup_lt_is_Some_2 us k) as [u Hu]; [lia|].
  destruct (lookup_lt_is_Some_2 bufs k) as [b Hb]; [rewrite buffers_length by done; lia|].
  destruct (tk_desc _ _ _ _ _ _ _ _ Tk k u b) as (nx & Es & _ & Hnx); [lia|done..|].
  pose proof (buffers_next _ _ _ _ _ _ Hins Houts Hone Hb) as Hfl.
  specialize (IH (S k) ltac:(lia)). rewrite (drop_S _ _ _ Hu). destruct (drop (S k) us) as [|u' l] eqn:Ed.
  - exists (put_buf b nx). split; [done|]. cbn. rewrite Hfl, decide_True; [done|].
    assert (length (drop (S k) us) = 0%nat) as Hl by (rewrite Ed; done). rewrite length_drop in Hl. lia.
  - assert (us !! S k = Some u') as Hu'.
    { rewrite <- (Nat.add_0_r (S k)), <- lookup_drop, Ed. done. }
    exists (put_buf b nx). split; [done|]. cbn [d_flags d_next put_buf]. rewrite Hfl, decide_False.
    2: { apply lookup_lt_Some in Hu'. lia. }
    split; [done|]. split; [by apply Hnx|done].
Qed.

Lemma recycle_direct q1 m1 (w' : W) :
  taken q w us free bufs (length us) q1 m1 ->
  exists q2 m2, recycle_descriptors (free_head q) (set_avail_idx (avail_idx q + 1) q1, w') = Ret (tt, (q2, w_set m2 w')) /\
    queue_inv q2 (us ++ free) /\ same_queue (set_avail_idx (avail_idx q + 1) q) q2 /\
    (forall x, ~ (desc q <= x < desc q + 256) -> m2 x = w_mem w' x).
Proof using All.
  intros Tk. destruct (us_head q us free Hq) as (u & us' & Eus & Hh & Hu); [intros ->; cbn in Hus; lia|].
  pose proof (taken_busy q1 m1 Tk _ 0 (Nat.add_0_r _)) as Hbusy. rewrite drop_0 in Hbusy.
  destruct (us_facts us free q Hq) as (Hnd & Hr & Hdis).
  destruct (lookup_lt_is_Some_2 bufs 0) as [b Hb]; [rewrite buffers_length by done; lia|].
  destruct (tk_desc _ _ _ _ _ _ _ _ Tk 0 u b) as (nx & Es & _ & _); [lia|by rewrite Eus|done|].
  pose proof (tk_inv _ _ _ _ _ _ _ _ Tk) as Hi1. rewrite drop_all in Hi1. cbn [app] in Hi1.
  pose proof (tk_same _ _ _ _ _ _ _ _ Tk) as Hs.
  pose proof (free_at_most_16 _ _ Hq) as H16. rewrite length_app in H16.
  set (q1' := set_free_head u (set_avail_idx (avail_idx q + 1) q1)).
  destruct (recycle_chain_ok us 16 q1' w' (free_head q1) free) as (q2 & m2 & E & Eq & L1 & L2 & L3 & L4 & L5).
  - by rewrite Eus. - lia. - done. - done. - done. - apply (free_nonneg _ _ Hi1).
  - apply (qi_shadow _ _ Hi1). - apply (qi_next _ _ Hi1). - apply (tk_head _ _ _ _ _ _ _ _ Tk). lia.
  - done. - apply (qi_free _ _ Hi1). - change (num_used q1') with (num_used q1). rewrite (qi_used _ _ Hi1). lia.
  - exists q2, m2. split.
    { unfold recycle_descriptors. do 2 mstep. cbn [fst snd]. rewrite Hh.
      erewrite bind_ret_l; [|apply (run_shadow _ _ u (put_buf b nx)); [lia|exact Es]].
      cbn [d_flags put_buf]. rewrite (buffers_direct _ _ _ _ _ _ Hb). cbn [Z.eqb negb].
      rewrite Eus in E. exact E. }
    assert (same_queue (set_avail_idx (avail_idx q + 1) q) q2) as Hs2.
    { unfold same_queue. rewrite Eq. unfold q1'. rewrite Hs. done. }
    split; [|split; [exact Hs2|]].
    + destruct Hq as [Q1 Q2 Q3 Q4 Q5 Q6 Q7 Q8 Q9]. split; try done.
      * by rewrite Hs2. * by rewrite Hs2.
      * rewrite Eq at 2. change (free_head _) with u. by rewrite Eus in L4 |- *.
      * rewrite Eq. cbn [num_used set_num_used]. change (num_used q1') with (num_used q1).
        rewrite (qi_used _ _ Hi1), length_app. lia.
      * intros i Hin. rewrite Hs2. by apply Q9.
    + intros x Hx. rewrite L5; [done|]. change (desc q1') with (desc q1). by rewrite Hs.
Qed.
End RoundTrip.
