(* ===== verification/VirtioProps.v ===== *)
(** * Properties of the virtqueue and of the block driver *)
From S2P Require Import Prelude Mem World HeapLift BlockCache BlockCacheSpec BlockCacheProps RamDisk.
From S2P Require Import Virtio VirtioSpec VirtioBlk VirtioDev VirtioBlkSpec VirtioDriver VirtioInit VirtioSample VirtioDirect.
Import Virtio VirtioBlk BlockCache.


Section Block.
Context {D H : Type} `{BlkDevice D H} `{!TakesIndirect D H}.

(** C16: virtio_blk_read_block returns the status OK with the eight sectors of
    the device's medium in the caller's page.  The request and its two DMA
    pages are gone afterwards: the queue is empty again, the heap has the same
    pages, and neither the medium nor any other memory in use changed.  The
    device takes
    indirect descriptors ([TakesIndirect]). *)
Theorem virtio_read_block_correct n s v p (b : VirtIOBlk) (d : D) (h : H) :
  heap_ok (b, (d, h)) -> blk_inv (S n) b d h -> backed h v p -> 0 <= s -> s + 8 <= blk_sectors ->
  0 <= v -> World.avail h 3 -> (forall x, in_pages v 1 x -> live (b, (d, h)) x) ->
  exists b' d' h',
    virtio_blk_read_block patience s v p (b, (d, h)) = Ret (VIRTIO_BLK_RESP_STATUS_OK, (b', (d', h'))) /\
    heap_ok (b', (d', h')) /\ blk_inv n b' d' h' /\
    (forall x, live (b', (d', h')) x <-> live (b, (d, h)) x) /\
    (forall j, 0 <= j < 4096 -> w_mem h' (v * 4096 + j) = medium d (s * 512 + j)) /\
    (forall x, live (b, (d, h)) x -> ~ in_pages v 1 x -> w_mem h' x = w_mem h x) /\
    (forall a, medium d' a = medium d a).
Proof.
  intros Hok Hi Hb Hs Hs8 Hv Hav Hl.
  destruct (driver_request In n s v p b d h Hok Hi Hb Hs Hs8 Hv Hav Hl)
    as (b' & d' & h' & E & R1 & R2 & R3 & _ & _ & R6 & R7).
  exists b', d', h'. split; [exact E|]. split; [done|]. split; [done|]. split; [done|]. split; [|split].
  - intros j Hj. assert (in_pages v 1 (v * 4096 + j)) as Hp by (unfold in_pages; lia).
    rewrite R6 by (by apply Hl). rewrite decide_True by done. f_equal. lia.
  - intros x Hx Hn. rewrite R6 by done. apply decide_False. tauto.
  - intros a. rewrite R7. apply decide_False. by intros [? _].
Qed.

(** C17: virtio_blk_write_block returns the status OK once the eight sectors of
    the medium hold the caller's page; all other bytes of the medium and all
    memory in use are unchanged, and the queue is empty again.  The device takes
    indirect descriptors ([TakesIndirect]). *)
Theorem virtio_write_block_correct n s v p (b : VirtIOBlk) (d : D) (h : H) :
  heap_ok (b, (d, h)) -> blk_inv (S n) b d h -> backed h v p -> 0 <= s -> s + 8 <= blk_sectors ->
  0 <= v -> World.avail h 3 -> (forall x, in_pages v 1 x -> live (b, (d, h)) x) ->
  exists b' d' h',
    virtio_blk_write_block patience s v p (b, (d, h)) = Ret (VIRTIO_BLK_RESP_STATUS_OK, (b', (d', h'))) /\
    heap_ok (b', (d', h')) /\ blk_inv n b' d' h' /\
    (forall x, live (b', (d', h')) x <-> live (b, (d, h)) x) /\
    (forall a, medium d' a = if decide (s * 512 <= a < s * 512 + 4096)
       then w_mem h (v * 4096 + (a - s * 512)) else medium d a) /\
    (forall x, live (b, (d, h)) x -> w_mem h' x = w_mem h x).
Proof.
  intros Hok Hi Hb Hs Hs8 Hv Hav Hl.
  destruct (driver_request Out n s v p b d h Hok Hi Hb Hs Hs8 Hv Hav Hl)
    as (b' & d' & h' & E & R1 & R2 & R3 & _ & _ & R6 & R7).
  exists b', d', h'. split; [exact E|]. split; [done|]. split; [done|]. split; [done|]. split.
  - intros a. rewrite R7. apply decide_ext. naive_solver.
  - intros x Hx. rewrite R6 by done. apply decide_False. by intros [? _].
Qed.
End Block.

Section Boot.
Context {D H : Type} `{LegacyBlk D H} `{!TakesIndirect D H}.



(** Header_init does not tell the device which features it accepts: it
    writes them to device_features_sel, and driver_features keeps the value it
    has after the reset, whatever features are negotiated. *)
Theorem features_not_acknowledged f d (h : H) :
  exists d', header_init blk_header f (d, h) = Ret (i32 (Z.land offered f), (d', h)) /\
    regs d' driver_features = regs (dev_write (blk_header + VirtIOHeader status) 0 d) driver_features /\
    regs d' device_features_sel = u32 (Z.land offered f).
Proof.
  exists (accept d (u32 (Z.land offered f))). split; [apply header_init_run|].
  unfold accept. split; rewrite !write_regs by (unfold is_reset; first [by intros [[=] ?]|by intros [? [=]]]); by reg_step.
Qed.
End Boot.

Section Queue.
Context {W : Type} `{DmaHeap W} `{VirtioMmio W}.

(** A request without an indirect table and its recycling are a round trip:
    add_queue takes one free descriptor per buffer and announces the head in
    the available ring, and recycle_descriptors puts the descriptors back on
    the free list, in their order, in front of the others. *)
Theorem add_recycle_roundtrip ins ilens outs olens us free q (w : W) :
  length ins = length ilens -> length outs = length olens -> (1 <= length outs)%nat ->
  Forall buf_fits (buffers ins ilens outs olens) ->
  queue_inv q (us ++ free) -> length us = (length ins + length outs)%nat ->
  0 <= avail_idx q /\ avail_idx q + 1 < 4294967296 -> indirect q = false \/ length us = 1%nat ->
  exists q1 w1 q2 w2,
    add_queue ins ilens (Z.of_nat (length ins)) outs olens (Z.of_nat (length outs)) (q, w) = Ret (free_head q, (q1, w1)) /\
    queue_inv q1 free /\
    load16 (w_mem w1) (avail_ring_at (Virtio.avail q) (avail_idx q mod 16)) = free_head q /\
    recycle_descriptors (free_head q) (q1, w1) = Ret (tt, (q2, w2)) /\
    queue_inv q2 (us ++ free) /\ free_head q2 = free_head q /\ num_used q2 = num_used q.
Proof.
  intros Hi Ho H1' Hf Hq Hus Hidx Hind.
  destruct (add_queue_direct ins ilens outs olens Hi Ho H1' Hf us free q w Hq Hus Hidx Hind) as (q1 & m1 & E & Tk).
  destruct (recycle_direct ins ilens outs olens Hi Ho H1' Hf us free q w Hq Hus Hidx Hind q1 m1
    (w_set (publish_mem q (free_head q) m1) w) Tk) as (q2 & m2 & E2 & Hq2 & _ & _).
  destruct (us_head q us free Hq) as (u & us' & -> & Hh & Hu); [intros ->; cbn in Hus; lia|].
  eexists _, _, _, _. split; [exact E|]. split.
  { pose proof (tk_inv _ _ _ _ _ _ _ _ Tk) as Hi1. rewrite drop_all in Hi1. destruct Hi1. by split. }
  split; [rewrite w_mem_set; apply publish_fields; lia|]. split; [exact E2|]. split; [done|].
  destruct (free_cons _ _ _ Hq2) as (_ & _ & Hh2 & _). split; [congruence|].
  by rewrite (qi_used _ _ Hq2), (qi_used _ _ Hq).
Qed.

(** The chain a device finds for such a request has the given buffers in
    order, and their addresses are the numbers given to add_queue themselves:
    frame numbers are converted to addresses only in an indirect table.  The GPU
    driver passes addresses; the block driver passes frame numbers, so without
    indirect descriptors its requests name the wrong memory. *)
Theorem direct_chain_as_given ins ilens outs olens us free q (w : W) :
  length ins = length ilens -> length outs = length olens -> (1 <= length outs)%nat ->
  Forall buf_fits (buffers ins ilens outs olens) ->
  queue_inv q (us ++ free) -> length us = (length ins + length outs)%nat ->
  0 <= avail_idx q /\ avail_idx q + 1 < 4294967296 -> indirect q = false \/ length us = 1%nat ->
  desc q + 256 <= Virtio.avail q \/ Virtio.avail q + 38 <= desc q ->
  exists q1 w1 ds,
    add_queue ins ilens (Z.of_nat (length ins)) outs olens (Z.of_nat (length outs)) (q, w) = Ret (free_head q, (q1, w1)) /\
    table_chain (length us) (w_mem w1) (desc q) (free_head q) = Some ds /\
    d_addr <$> ds = ins ++ outs /\ d_len <$> ds = ilens ++ olens.
Proof.
  intros Hi Ho H1' Hf Hq Hus Hidx Hind Hsep.
  destruct (add_queue_direct ins ilens outs olens Hi Ho H1' Hf us free q w Hq Hus Hidx Hind) as (q1 & m1 & E & Tk).
  destruct (us_head q us free Hq) as (u & us' & -> & Hh & Hu); [intros ->; cbn in Hus; lia|].
  destruct (taken_chain ins ilens outs olens Hi Ho H1' Hf _ free q w Hq Hus q1 m1
    (publish_mem q u m1) Tk) with (n := length (u :: us')) (k := 0%nat) (u := u) as (ds & Et & Eb);
    [intros x Hx; apply publish_outside; lia|lia|done|].
  eexists _, _, ds. split; [exact E|]. rewrite Hh, w_mem_set. split; [exact Et|].
  destruct (buffers_addrs ins ilens outs olens Hi Ho) as [<- <-]. rewrite drop_0 in Eb. rewrite <- Eb.
  rewrite <- !list_fmap_compose. done.
Qed.

(** C39: the used index of the device has 16 bits, the driver's last_used_idx 32:
    once the driver has counted 65536 requests the two never agree again, and
    queue_add_notify_pop stops waiting at its first look at the ring, whether or
    not the device has answered. *)
Theorem wrapped_index_no_wait fuel q (w w1 : W) :
  65536 <= last_used_idx q -> device_step w = Ret (tt, w1) -> mem_ok (w_mem w1) ->
  wait_used (S fuel) (q, w) = Ret (tt, (q, w1)).
Proof.
  intros Hl Ed Hm. cbn [wait_used]. erewrite bind_ret_l; [|apply run_queue_world; exact Ed]. do 2 mstep. cbn [fst snd].
  pose proof (load_le_range 2 (w_mem w1) (used_idx_at (used q)) Hm) as Hr. fold load16 in Hr.
  change (256 ^ Z.of_nat 2) with 65536 in Hr.
  destruct (Z.eqb_spec (last_used_idx q) (load16 (w_mem w1) (used_idx_at (used q)))); [lia|done].
Qed.
End Queue.

(** ** The properties at concrete states *)
Lemma ram1_page x : in_pages 100 1 x -> live ram1 x.
Proof.
  unfold in_pages. intros Hx. unfold live; cbn. unfold ram_free, ram_free_page; cbn.
  intros [?%elem_of_nil|?]; [done|dlia].
Qed.

(** The world after init_virtio_blk, ready for requests on page 100. *)
Lemma init0_ready : exists b d h,
  init_virtio_blk blk_header (blk0, (rdev0, ram1)) = Ret (tt, (b, (d, h))) /\
  heap_ok (b, (d, h)) /\ blk_inv 1 b d h /\ backed h 100 100 /\ World.avail h 3 /\
  (forall x, in_pages 100 1 x -> live (b, (d, h)) x) /\ (forall a, medium d a = medium rdev0 a) /\
  (forall x, in_pages 100 1 x -> w_mem h x = 0).
Proof.
  destruct (init0 1 ltac:(lia)) as (b & d & h & E & I1 & I2 & I3 & I4 & I5 & I6 & I7 & I8).
  exists b, d, h. do 3 (split; [done|]). split; [apply I7; lia|]. split; [apply (avail_mono h 798 3 I8); lia|].
  split; [intros x Hx; by apply I5, ram1_page|]. split; [done|]. intros x Hx. by rewrite I6 by (by apply ram1_page).
Qed.

Lemma virtio_read_block_correct_witness : exists b d h b' d' h',
  init_virtio_blk blk_header (blk0, (rdev0, ram1)) = Ret (tt, (b, (d, h))) /\
  virtio_blk_read_block patience 8 100 100 (b, (d, h)) = Ret (0, (b', (d', h'))) /\
  w_mem h' (100 * 4096 + 3) = medium rdev0 4099.
Proof.
  destruct init0_ready as (b & d & h & E & I1 & I2 & I3 & I4 & I5 & I6 & _).
  destruct (virtio_read_block_correct 0 8 100 100 b d h I1 I2 I3) as (b' & d' & h' & E' & _ & _ & _ & Hr & _);
    [lia|by vm_compute|lia|done|done|].
  exists b, d, h, b', d', h'. split; [done|]. split; [done|]. rewrite Hr by lia. by rewrite I6.
Defined.

Lemma virtio_write_block_correct_witness : exists b d h b' d' h',
  init_virtio_blk blk_header (blk0, (rdev0, ram1)) = Ret (tt, (b, (d, h))) /\
  virtio_blk_write_block patience 8 100 100 (b, (d, h)) = Ret (0, (b', (d', h'))) /\
  medium d' 4099 = 0 /\ medium d' 3 = medium rdev0 3.
Proof.
  destruct init0_ready as (b & d & h & E & I1 & I2 & I3 & I4 & I5 & I6 & I7).
  destruct (virtio_write_block_correct 0 8 100 100 b d h I1 I2 I3) as (b' & d' & h' & E' & _ & _ & _ & Hr & _);
    [lia|by vm_compute|lia|done|done|].
  exists b, d, h, b', d', h'. split; [done|]. split; [done|]. rewrite !Hr. split.
  - rewrite decide_True by lia. apply I7. unfold in_pages. lia.
  - rewrite decide_False by lia. by rewrite I6.
Defined.




(** A queue without indirect descriptors, linked as init_queue leaves it. *)
Definition queue1 : VirtIOQueue :=
  mkQueue 0 0 0 409600 409856 413696 (linked 15) 0 0 false false (replicate 16 0) (replicate 16 0)
    (LegacyLayout 256 4096).
Lemma queue1_inv : queue_inv queue1 ([0; 1; 2] ++ seqZ 3 13).
Proof. change ([0; 1; 2] ++ seqZ 3 13) with (seqZ 0 16). by apply linked_inv. Qed.

Lemma add_recycle_roundtrip_witness : exists q1 w1 q2 w2,
  add_queue [7; 8] [16; 4096] 2 [9] [1] 1 (queue1, (rdev0, ram1)) = Ret (0, (q1, w1)) /\
  recycle_descriptors 0 (q1, w1) = Ret (tt, (q2, w2)) /\ queue_inv q2 (seqZ 0 16).
Proof.
  destruct (add_recycle_roundtrip [7; 8] [16; 4096] [9] [1] [0; 1; 2] (seqZ 3 13) queue1 (rdev0, ram1))
    as (q1 & w1 & q2 & w2 & E & _ & _ & E2 & Hq & _).
  - reflexivity.
  - reflexivity.
  - cbn. lia.
  - repeat constructor; vm_compute; discriminate.
  - apply queue1_inv.
  - reflexivity.
  - split; vm_compute; [discriminate|reflexivity].
  - left. reflexivity.
  - exists q1, w1, q2, w2. split; [exact E|]. split; [exact E2|exact Hq].
Defined.

Lemma direct_chain_as_given_witness : exists q1 w1 ds,
  add_queue [7; 8] [16; 4096] 2 [9] [1] 1 (queue1, (rdev0, ram1)) = Ret (0, (q1, w1)) /\
  table_chain 3 (w_mem w1) 409600 0 = Some ds /\ d_addr <$> ds = [7; 8; 9].
Proof.
  destruct (direct_chain_as_given [7; 8] [16; 4096] [9] [1] [0; 1; 2] (seqZ 3 13) queue1 (rdev0, ram1))
    as (q1 & w1 & ds & E & Et & Ea & _).
  - reflexivity.
  - reflexivity.
  - cbn. lia.
  - repeat constructor; vm_compute; discriminate.
  - apply queue1_inv.
  - reflexivity.
  - split; vm_compute; [discriminate|reflexivity].
  - left. reflexivity.
  - left. vm_compute. discriminate.
  - exists q1, w1, ds. split; [exact E|]. split; [exact Et|exact Ea].
Defined.

(** A device that takes three steps before it answers, and a driver that has
    counted 65536 requests. *)
Definition slow_dev : rdev := mkRdev (fun _ => 0) (Some (409600, 409856, 413696)) 0 (fun _ => 9) 3.
Definition late_blk : VirtIOBlk :=
  mkBlk RD_BASE (set_last_used 65536 (set_avail_idx 65536 (mkQueue 0 0 0 409600 409856 413696 (linked 15) 0 0
    true true (replicate 16 0) (replicate 16 0) (LegacyLayout 256 4096)))) 2000 0.

Lemma wrapped_index_no_wait_witness :
  wait_used 100 (blk_queue late_blk, (slow_dev, ram1)) =
    Ret (tt, (blk_queue late_blk, (mkRdev (fun _ => 0) (Some (409600, 409856, 413696)) 0 (fun _ => 9) 2, ram1))) /\
  fst <$> virtio_blk_read_block 100 8 90 90 (late_blk, (slow_dev, ram1)) = Ret VIRTIO_BLK_RESP_STATUS_NOT_READY.
Proof.
  split; [|by vm_compute].
  apply (wrapped_index_no_wait 99 (blk_queue late_blk) (slow_dev, ram1)).
  - vm_compute. discriminate.
  - reflexivity.
  - intros x. change (0 <= 0 < 256). lia.
Defined.
