(* ===== verification/KernelPT.v ===== *)
(** * The kernel's page table (kernel/pagetable.c, pagetable.h)

    The page-table entry macros, the Sv39 walk of the RISC-V privileged
    architecture, and the code that edits the kernel's own page table: before
    paging is on through physical addresses (ptmap_physical), afterwards
    through the recursive mapping of the root (ptmap, ptunmap).

    Memory is split by use: [tab f i] is entry [i] of the page-table frame [f]
    (every access of this code to a table is an aligned pte_t, or clears a whole
    frame), [vmem] is the rest of the kernel's memory by virtual address.
    Accesses to the tables by virtual address are translated: by a cached
    translation if the machine retains them ([retain], see below), else by the
    walk, and fault where the walk fails.  The accessed and dirty bits are not
    modelled. *)
From S2P Require Import Prelude Mem.

Module KernelPT.

Definition PTE_USER : Z := 16.
Definition PTE_EXECUTE : Z := 8.
Definition PTE_WRITE : Z := 4.
Definition PTE_READ : Z := 2.
Definition PTE_VALID : Z := 1.

Definition VPN (level vpn : Z) : Z := Z.land (Z.shiftr vpn (level * 9)) 511.
Definition PTE (pfn flags : Z) : Z := Z.lor (u64 (Z.shiftl pfn 10)) flags.
Definition GET_PFN (pte : Z) : Z := Z.shiftr pte 10.
Definition SET_FLAGS (pte flags : Z) : Z := Z.lor (Z.land pte 18446744073709550592) flags.
Definition GET_FLAGS (pte : Z) : Z := Z.land pte 1023.

Definition is_valid (e : Z) : bool := negb (Z.land e PTE_VALID =? 0).
(** An entry with one of the R, W, X bits is a leaf. *)
Definition is_leaf (e : Z) : bool := negb (Z.land e 14 =? 0).

(** ** The kernel's memory-management state

    [tlb] holds the translations the machine has cached since the last
    sfence.vma; the code below executes none. *)
Record K := mkK {
  vmem : mem;
  tab : Z -> Z -> Z;
  tlb : Z -> option (Z * Z);
  pt_base : Z;
  pfn_start : Z;
  max_pfn : Z;
  pfreelist : Z;
}.

Definition set_vmem (m : mem) (k : K) : K :=
  mkK m (tab k) (tlb k) (pt_base k) (pfn_start k) (max_pfn k) (pfreelist k).
Definition set_tab (t : Z -> Z -> Z) (k : K) : K :=
  mkK (vmem k) t (tlb k) (pt_base k) (pfn_start k) (max_pfn k) (pfreelist k).
Definition set_tlb (c : Z -> option (Z * Z)) (k : K) : K :=
  mkK (vmem k) (tab k) c (pt_base k) (pfn_start k) (max_pfn k) (pfreelist k).
Definition set_pfn_start (n : Z) (k : K) : K :=
  mkK (vmem k) (tab k) (tlb k) (pt_base k) n (max_pfn k) (pfreelist k).
Definition set_pt_base (n : Z) (k : K) : K :=
  mkK (vmem k) (tab k) (tlb k) n (pfn_start k) (max_pfn k) (pfreelist k).
Definition set_pfreelist (n : Z) (k : K) : K :=
  mkK (vmem k) (tab k) (tlb k) (pt_base k) (pfn_start k) (max_pfn k) n.

Definition tset (f i v : Z) (t : Z -> Z -> Z) : Z -> Z -> Z :=
  fun f' i' => if (f' =? f) && (i' =? i) then v else t f' i'.
Definition tzero (f : Z) (t : Z -> Z -> Z) : Z -> Z -> Z :=
  fun f' i' => if f' =? f then 0 else t f' i'.

(** ** The Sv39 walk: the frame and the leaf entry of a virtual page *)
Definition pte_ppn (e : Z) : Z := Z.land (Z.shiftr e 10) 17592186044415.

Definition walk (t : Z -> Z -> Z) (root vpn : Z) : option (Z * Z) :=
  let e2 := t root (VPN 2 vpn) in
  if negb (is_valid e2) then None
  else if is_leaf e2 then
    if Z.land (pte_ppn e2) 262143 =? 0
    then Some (Z.lor (pte_ppn e2) (Z.land vpn 262143), e2) else None
  else
    let e1 := t (pte_ppn e2) (VPN 1 vpn) in
    if negb (is_valid e1) then None
    else if is_leaf e1 then
      if Z.land (pte_ppn e1) 511 =? 0
      then Some (Z.lor (pte_ppn e1) (Z.land vpn 511), e1) else None
    else
      let e0 := t (pte_ppn e1) (VPN 0 vpn) in
      if is_valid e0 && is_leaf e0 then Some (pte_ppn e0, e0) else None.

(** The access is allowed by the leaf entry. *)
Definition permits (e : Z) (write : bool) : bool :=
  negb (Z.land e PTE_READ =? 0) && (negb write || negb (Z.land e PTE_WRITE =? 0)).

Definition kpgdir : Z := 4096.
Definition RW : Z := Z.lor (Z.lor PTE_VALID PTE_READ) PTE_WRITE.

(** ** FreeNode fields: size, pfn and next are the words 0, 1 and 2 *)
Definition fn_size (m : mem) (p : Z) : Z := load64 m p.
Definition fn_pfn (m : mem) (p : Z) : Z := load64 m (p + 8).
Definition fn_next (m : mem) (p : Z) : Z := load64 m (p + 16).

Section Machine.
(** [retain = true]: a translation that was used stays cached until a
    sfence.vma; [retain = false]: every access walks the tables. *)
Variable retain : bool.

Definition cached (k : K) (vpn : Z) : option (Z * Z) := if retain then tlb k vpn else None.

(** The frame an access to page [vpn] reaches, and the state with the
    translation cached. *)
Definition translate (vpn : Z) (write : bool) : M K Z := fun k =>
  match cached k vpn with
  | Some (f, e) => if permits e write then Ret (f, k) else Fault
  | None =>
      match walk (tab k) (pt_base k) vpn with
      | Some (f, e) =>
          if permits e write
          then Ret (f, set_tlb (fun v => if v =? vpn then Some (f, e) else tlb k v) k)
          else Fault
      | None => Fault
      end
  end.

Definition entry (va : Z) : Z := Z.shiftr (OFFSET va) 3.
Definition vload (va : Z) : M K Z :=
  f ← translate (ADDR_2_PAGE va) false; k ← gets id; mret (tab k f (entry va)).
Definition vstore (va v : Z) : M K unit :=
  f ← translate (ADDR_2_PAGE va) true; modify (fun k => set_tab (tset f (entry va) v (tab k)) k).
(** memset(PAGE_2_ADDR(vpn), 0, PAGESIZE) on a page that is a table. *)
Definition vclear (vpn : Z) : M K unit :=
  f ← translate vpn true; modify (fun k => set_tab (tzero f (tab k)) k).
(** SET_FLAGS(pte, flags) *)
Definition set_flags (pte flags : Z) : M K unit :=
  e ← vload pte; vstore pte (SET_FLAGS e flags).

Definition ptunmap (vpn : Z) : M K Z :=
  let pte := Z.lor kpgdir (Z.shiftl (VPN 2 vpn) 3) in
  e ← vload pte;
  if negb (is_valid e) then panic else
  set_flags pte RW;;
  let new_pte := Z.lor (Z.shiftl (VPN 2 vpn) 12) (Z.shiftl (VPN 1 vpn) 3) in
  e1 ← vload new_pte;
  if negb (is_valid e1) then panic else
  set_flags new_pte RW;;
  set_flags pte PTE_VALID;;
  let ptable := Z.lor (Z.shiftl (VPN 2 vpn) 21) (Z.shiftl (VPN 1 vpn) 12) in
  let pte0 := Z.lor ptable (Z.shiftl (VPN 0 vpn) 3) in
  e0 ← vload pte0;
  set_flags pte0 0;;
  set_flags new_pte PTE_VALID;;
  mret (GET_PFN e0).

Definition palloc : M K Z :=
  k ← gets id;
  if negb (pfreelist k =? 0) then
    let pfn := fn_pfn (vmem k) (pfreelist k) in
    let next := fn_next (vmem k) (pfreelist k) in
    ptunmap (ADDR_2_PAGE (pfreelist k));;
    modify (set_pfreelist next);;
    mret pfn
  else if max_pfn k <=? pfn_start k then panic
  else modify (set_pfn_start (u64 (pfn_start k + 1)));; mret (pfn_start k).

(** ptmap by level: a level that is missing is allocated and cleared. *)
Definition ptmap_l2 (vpn : Z) : M K unit :=
  let pte := Z.lor kpgdir (Z.shiftl (VPN 2 vpn) 3) in
  e ← vload pte;
  if negb (is_valid e) then
    temp_pfn ← palloc;
    vstore pte (PTE temp_pfn RW);;
    vclear (VPN 2 vpn)
  else set_flags pte RW.

Definition ptmap_l1 (vpn : Z) : M K unit :=
  let pte := Z.lor kpgdir (Z.shiftl (VPN 2 vpn) 3) in
  let new_pte := Z.lor (PAGE_2_ADDR (VPN 2 vpn)) (Z.shiftl (VPN 1 vpn) 3) in
  e ← vload new_pte;
  if negb (is_valid e) then
    temp_pfn ← palloc;
    vstore new_pte (PTE temp_pfn RW);;
    set_flags pte PTE_VALID;;
    vclear (Z.lor (Z.shiftl (VPN 2 vpn) 9) (VPN 1 vpn))
  else
    set_flags new_pte RW;;
    set_flags pte PTE_VALID.

Definition ptmap_l0 (vpn pfn flags : Z) : M K unit :=
  let pte := Z.lor (PAGE_2_ADDR (VPN 2 vpn)) (Z.shiftl (VPN 1 vpn) 3) in
  let ptable := PAGE_2_ADDR (Z.lor (Z.shiftl (VPN 2 vpn) 9) (VPN 1 vpn)) in
  let new_pte := Z.lor ptable (Z.shiftl (VPN 0 vpn) 3) in
  vstore new_pte (PTE pfn flags);;
  set_flags pte PTE_VALID.

Definition ptmap (vpn pfn flags : Z) : M K unit :=
  ptmap_l2 vpn;; ptmap_l1 vpn;; ptmap_l0 vpn pfn flags.

Definition palloc_ptr (vpn flags : Z) : M K Z :=
  k ← gets id;
  if negb (pfreelist k =? 0) then
    let pfn := fn_pfn (vmem k) (pfreelist k) in
    let next := fn_next (vmem k) (pfreelist k) in
    ptunmap (ADDR_2_PAGE (pfreelist k));;
    modify (set_pfreelist next);;
    ptmap vpn pfn flags;;
    modify (fun k => set_vmem (memset (vmem k) (PAGE_2_ADDR vpn) 0 PAGESIZE) k);;
    mret pfn
  else if max_pfn k <=? pfn_start k then panic
  else
    let pfn := pfn_start k in
    modify (set_pfn_start (u64 (pfn_start k + 1)));;
    ptmap vpn pfn flags;;
    modify (fun k => set_vmem (memset (vmem k) (PAGE_2_ADDR vpn) 0 PAGESIZE) k);;
    mret pfn.

Definition pfree (pfn vpn : Z) : M K unit :=
  modify (fun k =>
    let p := PAGE_2_ADDR vpn in
    set_pfreelist p (set_vmem (store64 (store64 (vmem k) (p + 8) pfn) (p + 16) (pfreelist k)) k)).

(** ptmap_physical runs before paging: addresses are physical, and palloc is
    the same function. *)
Definition phys_level (level vpn temp_pfn : Z) : M K Z :=
  k ← gets id;
  let i := VPN level vpn in
  if negb (is_valid (tab k temp_pfn i)) then
    f ← palloc;
    modify (fun k => set_tab (tzero f (tab k)) k);;
    modify (fun k => set_tab (tset temp_pfn i (PTE f PTE_VALID) (tab k)) k);;
    mret f
  else mret (GET_PFN (tab k temp_pfn i)).

Definition ptmap_physical (vpn pfn flags : Z) : M K unit :=
  k ← gets id;
  f1 ← phys_level 2 vpn (pt_base k);
  f0 ← phys_level 1 vpn f1;
  modify (fun k => set_tab (tset f0 (VPN 0 vpn) (PTE pfn flags) (tab k)) k).

(** A loop of init_pagetable: identity-map the pages [first, last). *)
Fixpoint map_range (n : nat) (pfn flags : Z) : M K unit :=
  match n with
  | O => mret tt
  | S n' => ptmap_physical pfn pfn flags;; map_range n' (pfn + 1) flags
  end.

Fixpoint map_devices (l : list Z) : M K unit :=
  match l with
  | [] => mret tt
  | h :: l' => ptmap_physical (ADDR_2_PAGE h) (ADDR_2_PAGE h) RW;; map_devices l'
  end.

(** The linker symbols init_pagetable uses. *)
Record layout := mkLayout {
  stext : Z; etext : Z; srodata : Z; erodata : Z; sdata : Z; ebss : Z; ekernel : Z;
  strampoline : Z;
}.

Definition pages (lo hi : Z) : nat := Z.to_nat (ADDR_2_PAGEUP hi - ADDR_2_PAGE lo).

Definition init_pagetable (ly : layout) (virtio_mmio_headers : list Z) : M K unit :=
  modify (set_pfn_start (ADDR_2_PAGE (ekernel ly)));;
  b ← palloc;
  modify (set_pt_base b);;
  modify (fun k => set_tab (tzero b (tab k)) k);;
  modify (fun k => set_tab (tset b 0 (PTE b PTE_VALID) (tab k)) k);;
  modify (fun k => set_tab (tset b 1 (PTE b RW) (tab k)) k);;
  map_range (pages (stext ly) (etext ly)) (ADDR_2_PAGE (stext ly))
    (Z.lor (Z.lor PTE_VALID PTE_READ) PTE_EXECUTE);;
  map_range (pages (srodata ly) (erodata ly)) (ADDR_2_PAGE (srodata ly))
    (Z.lor PTE_VALID PTE_READ);;
  map_range (pages (sdata ly) (ebss ly)) (ADDR_2_PAGE (sdata ly)) RW;;
  ptmap_physical (ADDR_2_PAGE TRAMPOLINE) (ADDR_2_PAGE (strampoline ly))
    (Z.lor (Z.lor PTE_VALID PTE_READ) PTE_EXECUTE);;
  map_devices virtio_mmio_headers.

End Machine.
End KernelPT.
