(* ===== verification/PTBits.v ===== *)
(** * Arithmetic of page-table entries and table addresses

    The bit operations of the macros of kernel/pagetable.h as divisions and
    sums, for entries whose frame number fits in the 44 bits of Sv39. *)
From S2P Require Import Prelude Mem KernelPT.
Import KernelPT.

Lemma VPN_range l v : 0 <= VPN l v < 512.
Proof. unfold VPN. rewrite Z_land_511. dlia. Qed.
#[export] Hint Resolve VPN_range : endros.

Lemma VPN0 v : VPN 0 v = v mod 512.
Proof. unfold VPN. by rewrite Z_land_511, Z.mul_0_l, Z.shiftr_0_r. Qed.
Lemma VPN1 v : VPN 1 v = v / 512 mod 512.
Proof. unfold VPN. by rewrite Z_land_511, Z_shiftr_div. Qed.
Lemma VPN2 v : VPN 2 v = v / 262144 mod 512.
Proof. unfold VPN. by rewrite Z_land_511, Z_shiftr_div. Qed.

Lemma PTE_sum f fl :
  0 <= f < 17592186044416 -> 0 <= fl < 1024 -> PTE f fl = f * 1024 + fl.
Proof.
  intros Hf Hfl. unfold PTE. rewrite Z.shiftl_mul_pow2 by lia. change (2 ^ 10) with 1024.
  rewrite u64_small by lia. apply (lor_shift_add f fl 10); [lia|done].
Qed.

Lemma GET_PFN_PTE f fl :
  0 <= f < 17592186044416 -> 0 <= fl < 1024 -> GET_PFN (PTE f fl) = f.
Proof.
  intros Hf Hfl. rewrite PTE_sum by done. unfold GET_PFN. rewrite Z_shiftr_div by lia.
  change (2 ^ 10) with 1024. dlia.
Qed.

Lemma pte_ppn_PTE f fl :
  0 <= f < 17592186044416 -> 0 <= fl < 1024 -> pte_ppn (PTE f fl) = f.
Proof.
  intros Hf Hfl. unfold pte_ppn. fold (GET_PFN (PTE f fl)). rewrite GET_PFN_PTE by done.
  change 17592186044415 with (Z.ones 44). rewrite Z.land_ones by lia. apply Z.mod_small. lia.
Qed.

(** A flag test sees only the flags. *)
Lemma land_flags f fl m :
  0 <= f < 17592186044416 -> 0 <= fl < 1024 -> 0 <= m < 1024 ->
  Z.land (PTE f fl) m = Z.land fl m.
Proof.
  intros Hf Hfl Hm. unfold PTE. rewrite Z.shiftl_mul_pow2 by lia.
  rewrite u64_small by (change (2 ^ 10) with 1024; lia).
  rewrite Z.land_lor_distr_l, land_ones_0 by lia. by rewrite Z.lor_0_l.
Qed.

Lemma is_valid_PTE f fl :
  0 <= f < 17592186044416 -> 0 <= fl < 1024 -> is_valid (PTE f fl) = is_valid fl.
Proof. intros. unfold is_valid. by rewrite land_flags by (done || unfold PTE_VALID; lia). Qed.

Lemma is_leaf_PTE f fl :
  0 <= f < 17592186044416 -> 0 <= fl < 1024 -> is_leaf (PTE f fl) = is_leaf fl.
Proof. intros. unfold is_leaf. by rewrite land_flags. Qed.

Lemma permits_PTE f fl w :
  0 <= f < 17592186044416 -> 0 <= fl < 1024 -> permits (PTE f fl) w = permits fl w.
Proof. intros. unfold permits. by rewrite !land_flags by (done || unfold PTE_READ, PTE_WRITE; lia). Qed.

Lemma SET_FLAGS_PTE f fl fl' :
  0 <= f < 17592186044416 -> 0 <= fl < 1024 -> 0 <= fl' < 1024 ->
  SET_FLAGS (PTE f fl) fl' = PTE f fl'.
Proof.
  intros Hf Hfl Hfl'. rewrite !PTE_sum by done. unfold SET_FLAGS.
  replace (Z.land (f * 1024 + fl) 18446744073709550592) with (f * 2 ^ 10).
  - rewrite lor_shift_add by lia. done.
  - apply Z.bits_inj'. intros n Hn. rewrite Z.land_spec.
    change 18446744073709550592 with (Z.shiftl (Z.ones 54) 10).
    rewrite Z.shiftl_spec by done. destruct (decide (n < 10)) as [Hlt|Hge].
    + rewrite Z.mul_pow2_bits_low by done. by rewrite (Z.testbit_neg_r _ (n - 10)), andb_false_r by lia.
    + rewrite Z.mul_pow2_bits by lia. replace n with (n - 10 + 10) at 2 by lia.
      rewrite <- (Z.div_pow2_bits (f * 1024 + fl) 10 (n - 10)) by lia.
      replace ((f * 1024 + fl) / 2 ^ 10) with f by (change (2 ^ 10) with 1024; dlia).
      destruct (decide (n - 10 < 54)).
      * by rewrite Z.ones_spec_low, andb_true_r by lia.
      * rewrite Z.ones_spec_high, andb_false_r by lia.
        destruct (decide (f = 0)) as [->|]; [apply Z.bits_0|]. apply Z.bits_above_log2; [lia|].
        apply Z.log2_lt_pow2; [lia|]. apply Z.lt_le_trans with (2 ^ 44); [lia|].
        apply Z.pow_le_mono_r; lia.
Qed.

(** Addresses of table entries: page [p], entry [i]. *)
Definition ent_addr (p i : Z) : Z := p * 4096 + i * 8.

Lemma ent_addr_page p i :
  0 <= p < 4503599627370496 -> 0 <= i < 512 ->
  ADDR_2_PAGE (ent_addr p i) = p /\ entry (ent_addr p i) = i.
Proof.
  intros Hp Hi. unfold ent_addr, entry. rewrite OFFSET_mod, ADDR_2_PAGE_div, u64_small by lia.
  rewrite Z_shiftr_div by lia. change (2 ^ 3) with 8. split; dlia.
Qed.

Lemma ent_addr_lor p i :
  0 <= i < 512 -> Z.lor (p * 4096) (Z.shiftl i 3) = ent_addr p i.
Proof.
  intros Hi. unfold ent_addr. rewrite Z.shiftl_mul_pow2 by lia. change (2 ^ 3) with 8.
  apply (lor_shift_add p (i * 8) 12); lia.
Qed.

Lemma PAGE_2_ADDR_small p : 0 <= p < 4503599627370496 -> PAGE_2_ADDR p = p * 4096.
Proof. intros. unfold PAGE_2_ADDR, PAGESIZE. rewrite u64_small; lia. Qed.

Lemma rec_page i j : 0 <= j < 512 -> Z.lor (Z.shiftl i 9) j = i * 512 + j.
Proof.
  intros. rewrite Z.shiftl_mul_pow2 by lia. change 512 with (2 ^ 9) in *.
  by apply lor_shift_add.
Qed.
