(* ===== verification/KernelPTSpec.v ===== *)
(** * The kernel's page table is a tree, and editing it is a map update

    [shape own t root start]: the tables [t] below [root] form a tree whose
    frames are owned by exactly one node and were all allocated (are below
    [start]), with the recursive entries 0 and 1 in the root.  Allocation of a
    level keeps the shape and every translation; writing a leaf changes the
    translation of one page. *)
From S2P Require Import Prelude Mem KernelPT PTBits.
Import KernelPT.

(** The root entries the kernel's virtual memory uses.  Entries 0 and 1 are the
    recursive mapping; entry 128 holds the table of the virtio MMIO pages, which
    at 0x10001000 lie inside the recursive window. *)
Abbreviation managed i := (2 <= i%Z < 512 /\ i%Z <> 128).

Inductive node := Root | L1 (i : Z) | L0 (i j : Z) | Dev.

Definition set_own (own : Z -> option node) (f : Z) (n : node) : Z -> option node :=
  fun x => if x =? f then Some n else own x.

Record shape (own : Z -> option node) (t : Z -> Z -> Z) (root start : Z) : Prop := {
  sh_root : own root = Some Root;
  sh_own : forall f n, own f = Some n -> 0 <= f < start;
  sh_start : start <= 17592186044416;
  sh_rec0 : t root 0 = PTE root PTE_VALID;
  sh_rec1 : t root 1 = PTE root RW;
  sh_l2 : forall i, managed i -> is_valid (t root i) = true ->
    exists f, t root i = PTE f PTE_VALID /\ own f = Some (L1 i);
  sh_l1 : forall f i j, own f = Some (L1 i) -> 0 <= j < 512 -> is_valid (t f j) = true ->
    exists g, t f j = PTE g PTE_VALID /\ own g = Some (L0 i j);
  sh_dev : is_valid (t root 128) = true ->
    exists f, t root 128 = PTE f PTE_VALID /\ own f = Some Dev;
}.

Lemma sh_frame own t root start f n :
  shape own t root start -> own f = Some n -> 0 <= f < 17592186044416.
Proof. intros Hs Hf. pose proof (sh_own _ _ _ _ Hs _ _ Hf). pose proof (sh_start _ _ _ _ Hs). lia. Qed.

(** The leaf entry of a page, through the three levels. *)
Definition pte_at (t : Z -> Z -> Z) (root v : Z) : option Z :=
  let e2 := t root (VPN 2 v) in
  if is_valid e2 then
    let e1 := t (pte_ppn e2) (VPN 1 v) in
    if is_valid e1 then Some (t (pte_ppn e1) (VPN 0 v)) else None
  else None.

Definition leaf_of (o : option Z) : option (Z * Z) :=
  match o with
  | Some e => if is_valid e && is_leaf e then Some (pte_ppn e, e) else None
  | None => None
  end.

Lemma flags_V f : 0 <= f < 17592186044416 ->
  is_valid (PTE f PTE_VALID) = true /\ is_leaf (PTE f PTE_VALID) = false /\
  pte_ppn (PTE f PTE_VALID) = f.
Proof.
  intros Hf. rewrite is_valid_PTE, is_leaf_PTE, pte_ppn_PTE by (done || unfold PTE_VALID; lia).
  done.
Qed.

Lemma flags_RW f : 0 <= f < 17592186044416 ->
  is_valid (PTE f RW) = true /\ is_leaf (PTE f RW) = true /\
  pte_ppn (PTE f RW) = f /\ forall w, permits (PTE f RW) w = true.
Proof.
  intros Hf. rewrite is_valid_PTE, is_leaf_PTE, pte_ppn_PTE by (done || vm_compute; split; done).
  split; [done|]. split; [done|]. split; [done|]. intros w.
  rewrite permits_PTE by (done || vm_compute; split; done). by destruct w.
Qed.

Section Shape.
Context {own : Z -> option node} {t : Z -> Z -> Z} {root start : Z}.
Hypothesis Hs : shape own t root start.

(** The two valid upper entries of a page outside the recursive window. *)
Lemma upper2 i :
  managed i -> is_valid (t root i) = true ->
  exists f, t root i = PTE f PTE_VALID /\ pte_ppn (t root i) = f /\
    is_leaf (t root i) = false /\ own f = Some (L1 i) /\ 0 <= f < start.
Proof using Hs.
  intros Hi Hv. destruct (sh_l2 _ _ _ _ Hs i Hi Hv) as (f & E & Ho).
  destruct (flags_V f (sh_frame _ _ _ _ _ _ Hs Ho)) as (_ & Hl & Hp). rewrite E in *.
  exists f. repeat (split; [done|]). by eapply sh_own.
Qed.

Lemma upper1 f i j :
  own f = Some (L1 i) -> 0 <= j < 512 -> is_valid (t f j) = true ->
  exists g, t f j = PTE g PTE_VALID /\ pte_ppn (t f j) = g /\
    is_leaf (t f j) = false /\ own g = Some (L0 i j) /\ 0 <= g < start.
Proof using Hs.
  intros Ho Hj Hv. destruct (sh_l1 _ _ _ _ Hs f i j Ho Hj Hv) as (g & E & Hg).
  destruct (flags_V g (sh_frame _ _ _ _ _ _ Hs Hg)) as (_ & Hl & Hp). rewrite E in *.
  exists g. repeat (split; [done|]). by eapply sh_own.
Qed.

Lemma walk_pte_at v : managed (VPN 2 v) -> walk t root v = leaf_of (pte_at t root v).
Proof using Hs.
  intros Hv. pose proof (VPN_range 2 v). pose proof (VPN_range 1 v).
  unfold walk, pte_at. destruct (is_valid (t root (VPN 2 v))) eqn:E2; cbn [negb]; [|done].
  destruct (upper2 (VPN 2 v)) as (f & Ef & Hp & Hl & Ho & _); [lia|done|]. rewrite Hl, Hp.
  destruct (is_valid (t f (VPN 1 v))) eqn:E1; cbn [negb]; [|done].
  destruct (upper1 f (VPN 2 v) (VPN 1 v)) as (g & Eg & Hp' & Hl' & Ho' & _); [done|lia|done|].
  by rewrite Hl', Hp'.
Qed.

Lemma own_fresh : own start = None.
Proof using Hs.
  destruct (own start) as [n|] eqn:E; [|done]. pose proof (sh_own _ _ _ _ Hs _ _ E). lia.
Qed.

Lemma own_ne_start f n : own f = Some n -> f <> start.
Proof using Hs. intros Hf ->. rewrite own_fresh in Hf. done. Qed.

(** [n] is the node below entry [x] of the table [p]. *)
Definition child (p x : Z) (n : node) : Prop :=
  (p = root /\ managed x /\ n = L1 x) \/
  (exists i, own p = Some (L1 i) /\ 0 <= x < 512 /\ n = L0 i x) \/
  (p = root /\ x = 128 /\ n = Dev).

Lemma child_own p x n : child p x n -> exists m, own p = Some m.
Proof using Hs. intros [(-> & _)|[(i & ? & _)|(-> & _)]]; eauto using sh_root. Qed.

(** A new, cleared table in a free entry. *)
Definition grow (p x : Z) : Z -> Z -> Z := tset p x (PTE start PTE_VALID) (tzero start t).

Lemma grow_at p x n f m y :
  child p x n -> own f = Some m ->
  grow p x f y = if decide (f = p /\ y = x) then PTE start PTE_VALID else t f y.
Proof using Hs.
  intros Hc Hf. unfold grow, tset, tzero. pose proof (own_ne_start _ _ Hf).
  destruct (Z.eqb_spec f p), (Z.eqb_spec y x), (Z.eqb_spec f start); cbn; gdecide; naive_solver.
Qed.

Lemma grow_new p x n y : child p x n -> grow p x start y = 0.
Proof using Hs.
  intros (m & Hm)%child_own. pose proof (own_ne_start _ _ Hm). unfold grow, tset, tzero.
  destruct (Z.eqb_spec start p); [congruence|]. cbn. by rewrite Z.eqb_refl.
Qed.

Lemma grow_shape p x n :
  child p x n -> is_valid (t p x) = false -> start < 17592186044416 ->
  shape (set_own own start n) (grow p x) root (start + 1).
Proof using Hs.
  intros Hc Hinv Hst. pose proof Hs as [H1 H2 H3 H4 H5 H6 H7 H8].
  assert (0 <= start) by (pose proof (H2 _ _ H1); lia).
  assert (forall f m, own f = Some m -> set_own own start n f = Some m) as Hkeep.
  { intros f m Hf. unfold set_own. pose proof (own_ne_start _ _ Hf). by destruct (Z.eqb_spec f start). }
  assert (set_own own start n start = Some n) as Hnew by (unfold set_own; by rewrite Z.eqb_refl).
  assert (forall y, 0 <= y < 2 -> grow p x root y = t root y) as Hroot.
  { intros y Hy. rewrite (grow_at p x n root Root y Hc H1). rewrite decide_False; [done|].
    intros [<- <-]. destruct Hc as [(_ & ? & _)|[(i & Ho & _)|(_ & ? & _)]]; [lia|congruence|lia]. }
  split; try done.
  - by apply Hkeep.
  - intros f m. unfold set_own. destruct (Z.eqb_spec f start); [lia|]. intros Hf.
    pose proof (H2 _ _ Hf). lia.
  - lia.
  - by rewrite Hroot.
  - by rewrite Hroot.
  - intros i Hi. rewrite (grow_at p x n root Root i Hc H1). case_decide as E.
    + intros _. destruct E as [<- ->]. exists start. split; [done|]. rewrite Hnew. f_equal.
      destruct Hc as [(_ & _ & ->)|[(i' & Ho & _)|(_ & ? & _)]]; [done|congruence|lia].
    + intros Hv. destruct (H6 i Hi Hv) as (f & Ef & Hf). eauto.
  - intros f i j Hf Hj Hv. unfold set_own in Hf. destruct (Z.eqb_spec f start) as [->|].
    + by rewrite (grow_new p x n) in Hv.
    + rewrite (grow_at p x n f (L1 i) j Hc Hf) in *. case_decide as E.
      * exists start. split; [done|]. rewrite Hnew. destruct E as [<- ->]. f_equal.
        destruct Hc as [(-> & _)|[(i' & Ho & _ & ->)|(-> & _)]]; congruence.
      * destruct (H7 f i j Hf Hj Hv) as (g & Eg & Hg). eauto.
  - rewrite (grow_at p x n root Root 128 Hc H1). case_decide as E.
    + intros _. destruct E as [<- <-]. exists start. split; [done|]. rewrite Hnew. f_equal.
      destruct Hc as [(_ & ? & _)|[(i' & Ho & _)|(_ & _ & ->)]]; [lia|congruence|done].
    + intros Hv. destruct (H8 Hv) as (f & Ef & Hf). eauto.
Qed.

Lemma grow_pte_at p x n v :
  child p x n -> is_valid (t p x) = false -> start < 17592186044416 -> managed (VPN 2 v) ->
  leaf_of (pte_at (grow p x) root v) = leaf_of (pte_at t root v).
Proof using Hs.
  intros Hc Hinv Hst Hv. pose proof (sh_root _ _ _ _ Hs) as Hr.
  pose proof (VPN_range 2 v). pose proof (VPN_range 1 v). pose proof (VPN_range 0 v).
  assert (0 <= start) by (pose proof (sh_own _ _ _ _ Hs _ _ Hr); lia).
  destruct (flags_V start ltac:(lia)) as (Fv & _ & Fp).
  unfold pte_at. rewrite (grow_at p x n root Root _ Hc Hr). case_decide as E.
  - destruct E as [<- <-]. rewrite Fv, Fp, (grow_new root _ n), Hinv by done. done.
  - destruct (is_valid (t root (VPN 2 v))) eqn:E2; [|done].
    destruct (upper2 (VPN 2 v)) as (f & Ef & Hp & _ & Ho & _); [lia|done|]. rewrite Hp.
    rewrite (grow_at p x n f _ _ Hc Ho). case_decide as E'.
    + destruct E' as [<- <-]. rewrite Fv, Fp, (grow_new f _ n), Hinv by done. done.
    + destruct (is_valid (t f (VPN 1 v))) eqn:E1; [|done].
      destruct (upper1 f (VPN 2 v) (VPN 1 v)) as (g & Eg & Hp' & _ & Hg & _); [done|lia|done|].
      rewrite Hp'. rewrite (grow_at p x n g _ _ Hc Hg). case_decide as E3; [|done].
      destruct E3 as [<- <-]. exfalso.
      destruct Hc as [(-> & _)|[(i & Hi & _)|(-> & _)]]; congruence.
Qed.

Lemma grow_walk p x n v :
  child p x n -> is_valid (t p x) = false -> start < 17592186044416 -> managed (VPN 2 v) ->
  leaf_of (pte_at (grow p x) root v) = walk t root v.
Proof using Hs. intros. rewrite grow_pte_at with (n := n) by done. by rewrite walk_pte_at. Qed.

(** Writing a leaf entry. *)
Lemma leaf_shape g n y e :
  own g = Some n -> n <> Root -> (forall i, n <> L1 i) -> shape own (tset g y e t) root start.
Proof using Hs.
  intros Hg N1 N2. assert (forall f m z, own f = Some m -> m <> n -> tset g y e t f z = t f z) as Hk.
  { intros f m z Hf Hm. unfold tset. destruct (Z.eqb_spec f g); [congruence|done]. }
  pose proof Hs as [H1 H2 H3 H4 H5 H6 H7 H8]. split; try done.
  - by rewrite (Hk _ _ _ H1).
  - by rewrite (Hk _ _ _ H1).
  - intros i' Hi. rewrite (Hk _ _ _ H1) by done. by apply H6.
  - intros f i' j' Hf. rewrite (Hk _ _ _ Hf) by done. by apply H7.
  - rewrite (Hk _ _ _ H1) by done. by apply H8.
Qed.
End Shape.

Section Leaf.
Context {own : Z -> option node} {t : Z -> Z -> Z} {root start : Z}.
Hypothesis Hs : shape own t root start.

Lemma leaf_walk g v e v' :
  managed (VPN 2 v) -> is_valid (t root (VPN 2 v)) = true ->
  is_valid (t (pte_ppn (t root (VPN 2 v))) (VPN 1 v)) = true ->
  g = pte_ppn (t (pte_ppn (t root (VPN 2 v))) (VPN 1 v)) -> managed (VPN 2 v') ->
  walk (tset g (VPN 0 v) e t) root v' =
  if decide (VPN 2 v' = VPN 2 v /\ VPN 1 v' = VPN 1 v /\ VPN 0 v' = VPN 0 v)
  then leaf_of (Some e) else walk t root v'.
Proof using Hs.
  intros Hv E2 E1 -> Hv'. pose proof (VPN_range 2 v). pose proof (VPN_range 1 v).
  pose proof (VPN_range 2 v'). pose proof (VPN_range 1 v').
  destruct (upper2 Hs (VPN 2 v)) as (f & Ef & Hp & _ & Ho & _); [lia|done|]. rewrite Hp in *.
  destruct (upper1 Hs f (VPN 2 v) (VPN 1 v)) as (g & Eg & Hp' & _ & Hg & _); [done|lia|done|].
  rewrite Hp' in *.
  rewrite (walk_pte_at Hs v' Hv').
  pose proof (leaf_shape Hs g _ (VPN 0 v) e Hg ltac:(done) ltac:(done)) as Hs'.
  assert (forall f m z, own f = Some m -> m <> L0 (VPN 2 v) (VPN 1 v) ->
    tset g (VPN 0 v) e t f z = t f z) as Hk.
  { intros f' m z Hf Hm. unfold tset. destruct (Z.eqb_spec f' g); [congruence|done]. }
  rewrite (walk_pte_at Hs' v' Hv').
  unfold pte_at. rewrite (Hk root Root) by (done || apply Hs).
  destruct (is_valid (t root (VPN 2 v'))) eqn:A.
  2:{ rewrite decide_False; [done|]. intros (Heq & _). rewrite Heq in A. congruence. }
  destruct (upper2 Hs (VPN 2 v')) as (f' & Ef' & Hpf & _ & Ho' & _); [lia|done|]. rewrite Hpf.
  rewrite (Hk f' _ _ Ho') by done. destruct (is_valid (t f' (VPN 1 v'))) eqn:B.
  2:{ rewrite decide_False; [done|]. intros (Heq & Heq' & _). rewrite Heq, Heq' in *. congruence. }
  destruct (upper1 Hs f' (VPN 2 v') (VPN 1 v')) as (g' & Eg' & Hpg & _ & Hg' & _); [done|lia|done|].
  rewrite Hpg. unfold tset. destruct (Z.eqb_spec g' g) as [->|Hne]; cbn [andb].
  - rewrite Hg in Hg'. injection Hg' as Ha Hb. rewrite Ha, Hb.
    destruct (Z.eqb_spec (VPN 0 v') (VPN 0 v)); [by rewrite decide_True|].
    rewrite decide_False; [done|]. intros (_ & _ & ?). done.
  - rewrite decide_False; [done|]. intros (Ha & Hb & _). apply Hne. rewrite Ha, Hb in *. congruence.
Qed.
End Leaf.

(** ** The routines that run before paging *)
Definition kinv (own : Z -> option node) (k : K) : Prop :=
  shape own (tab k) (pt_base k) (pfn_start k) /\ pfreelist k = 0 /\
  max_pfn k <= 17592186044416.

(** What editing the page table leaves alone. *)
Record same_rest (k k' : K) : Prop := {
  sr_vmem : vmem k' = vmem k;
  sr_base : pt_base k' = pt_base k;
  sr_max : max_pfn k' = max_pfn k;
  sr_list : pfreelist k' = pfreelist k;
}.

Definition grown (own own' : Z -> option node) (k k' : K) (n : Z) : Prop :=
  (forall f m, own f = Some m -> own' f = Some m) /\
  pfn_start k <= pfn_start k' <= pfn_start k + n /\
  (forall f m x, own f = Some m -> is_valid (tab k f x) = true -> tab k' f x = tab k f x) /\
  (forall v, managed (VPN 2 v) ->
     walk (tab k') (pt_base k') v = walk (tab k) (pt_base k) v) /\
  (forall f m, own' f = Some m -> own f = Some m \/ pfn_start k <= f).

Lemma palloc_next r k :
  pfreelist k = 0 -> pfn_start k < max_pfn k -> 0 <= pfn_start k ->
  max_pfn k <= 17592186044416 ->
  palloc r k = Ret (pfn_start k, set_pfn_start (pfn_start k + 1) k).
Proof.
  intros Hl Hm H0 Hmax. unfold palloc. mstep. unfold id. rewrite Hl. cbn [Z.eqb negb].
  destruct (Z.leb_spec (max_pfn k) (pfn_start k)); [lia|]. by rewrite u64_small by lia.
Qed.

Lemma palloc_exhausted r k :
  pfreelist k = 0 -> max_pfn k <= pfn_start k -> palloc r k = Panic.
Proof.
  intros Hl Hm. unfold palloc. mstep. unfold id. rewrite Hl. cbn [Z.eqb negb].
  by destruct (Z.leb_spec (max_pfn k) (pfn_start k)); [|lia].
Qed.

Lemma phys_level_ok r own k level vpn p n :
  kinv own k -> child (own := own) (root := pt_base k) p (VPN level vpn) n -> pfn_start k < max_pfn k ->
  exists f own' k', phys_level r level vpn p k = Ret (f, k') /\ kinv own' k' /\
    own' f = Some n /\ tab k' p (VPN level vpn) = PTE f PTE_VALID /\
    grown own own' k k' 1 /\ same_rest k k' /\ tlb k' = tlb k.
Proof.
  intros (Hs & Hl & Hmax) Hc Hm. set (x := VPN level vpn) in *.
  pose proof (sh_root _ _ _ _ Hs) as Hr. pose proof (sh_own _ _ _ _ Hs _ _ Hr) as Hr0.
  unfold phys_level. mstep. unfold id. fold x. cbn zeta.
  destruct (is_valid (tab k p x)) eqn:Hv; cbn [negb].
  - assert (exists f, tab k p x = PTE f PTE_VALID /\ own f = Some n) as (f & Ef & Hf).
    { destruct Hc as [(-> & Hx & ->)|[(i & Hi & Hx & ->)|(-> & Hx & ->)]];
        [by apply (sh_l2 _ _ _ _ Hs)|by apply (sh_l1 _ _ _ _ Hs)|].
      rewrite Hx in *. by apply (sh_dev _ _ _ _ Hs). }
    exists f, own, k. pose proof (sh_frame _ _ _ _ _ _ Hs Hf). split.
    { rewrite Ef, GET_PFN_PTE by (done || unfold PTE_VALID; lia). done. }
    split; [done|]. split; [done|]. split; [done|]. split; [|by split].
    split; [done|]. split; [lia|]. split; [done|]. split; [done|]. by left.
  - assert (is_valid (tab k p x) = false) as Hinv by done.
    pose proof (grow_shape Hs p x n Hc Hinv ltac:(lia)) as Hs'.
    exists (pfn_start k), (set_own own (pfn_start k) n),
      (set_tab (grow (t := tab k) (start := pfn_start k) p x) (set_pfn_start (pfn_start k + 1) k)).
    split. { rewrite (bind_ret_l _ _ _ _ _ (palloc_next r k Hl Hm ltac:(lia) Hmax)). done. }
    split; [by split|]. split; [unfold set_own; by rewrite Z.eqb_refl|].
    destruct (child_own Hs p x n Hc) as (m & Hp). split.
    { cbn. rewrite (grow_at Hs p x n p m x Hc Hp). by rewrite decide_True. }
    split; [|by split]. split.
    { intros f' m' Hf'. unfold set_own. pose proof (own_ne_start Hs _ _ Hf').
      by destruct (Z.eqb_spec f' (pfn_start k)). }
    split; [cbn; lia|]. split.
    + intros f' m' y Hf' Hy. cbn. rewrite (grow_at Hs p x n f' m' y Hc Hf').
      rewrite decide_False; [done|]. intros [-> ->]. congruence.
    + split.
      * intros v Hv2. cbn. rewrite (walk_pte_at Hs' v Hv2).
        rewrite (grow_pte_at Hs p x n v Hc Hinv ltac:(lia) Hv2). by rewrite (walk_pte_at Hs).
      * intros f' m'. unfold set_own. destruct (Z.eqb_spec f' (pfn_start k)); [right; lia|by left].
Qed.

Lemma same_rest_trans k1 k2 k3 : same_rest k1 k2 -> same_rest k2 k3 -> same_rest k1 k3.
Proof. intros [] []. split; congruence. Qed.

Lemma grown_trans own1 own2 own3 k1 k2 k3 a b :
  grown own1 own2 k1 k2 a -> grown own2 own3 k2 k3 b -> grown own1 own3 k1 k3 (a + b).
Proof.
  intros (A1 & A2 & A3 & A4 & A5) (B1 & B2 & B3 & B4 & B5). split; [eauto|]. split; [lia|]. split.
  - intros f m x Hf Hv. rewrite <- (A3 f m x) by done. apply (B3 f m); [eauto|].
    by rewrite (A3 f m).
  - split; [intros v Hv; by rewrite B4, A4|].
    intros f m Hf. destruct (B5 f m Hf) as [Hf'|?]; [by apply A5|right; lia].
Qed.

(** The two upper levels of a page, allocated where they are missing. *)
Lemma phys_levels_ok r own k vpn :
  kinv own k -> managed (VPN 2 vpn) -> pfn_start k + 2 <= max_pfn k ->
  exists f g own1 k1 own2 k2,
    phys_level r 2 vpn (pt_base k) k = Ret (f, k1) /\ kinv own1 k1 /\
    own1 f = Some (L1 (VPN 2 vpn)) /\ tab k1 (pt_base k) (VPN 2 vpn) = PTE f PTE_VALID /\
    grown own own1 k k1 1 /\ same_rest k k1 /\ tlb k1 = tlb k /\
    phys_level r 1 vpn f k1 = Ret (g, k2) /\ kinv own2 k2 /\
    own2 g = Some (L0 (VPN 2 vpn) (VPN 1 vpn)) /\ tab k2 f (VPN 1 vpn) = PTE g PTE_VALID /\
    grown own1 own2 k1 k2 1 /\ same_rest k1 k2 /\ tlb k2 = tlb k1.
Proof.
  intros Hk Hv Hroom. pose proof (VPN_range 2 vpn). pose proof (VPN_range 1 vpn).
  destruct (phys_level_ok r own k 2 vpn (pt_base k) (L1 (VPN 2 vpn)))
    as (f & own1 & k1 & E1 & Hk1 & Ho1 & Ht1 & Hg1 & Hr1 & Hc1); [done|left; split; [done|split; [lia|done]]|lia|].
  destruct (phys_level_ok r own1 k1 1 vpn f (L0 (VPN 2 vpn) (VPN 1 vpn)))
    as (g & own2 & k2 & E2 & Hk2 & Ho2 & Ht2 & Hg2 & Hr2 & Hc2); [done| | |].
  - right. left. by exists (VPN 2 vpn).
  - rewrite (sr_max _ _ Hr1). destruct Hg1 as (_ & ? & _). lia.
  - by exists f, g, own1, k1, own2, k2.
Qed.

Lemma tab_l1_kept own1 own2 k k1 k2 f vpn :
  kinv own1 k1 -> same_rest k k1 -> grown own1 own2 k1 k2 1 ->
  tab k1 (pt_base k) (VPN 2 vpn) = PTE f PTE_VALID -> 0 <= f < 17592186044416 ->
  tab k2 (pt_base k) (VPN 2 vpn) = PTE f PTE_VALID.
Proof.
  intros (Hs & _) Hr (_ & _ & Hkeep & _) Ht Hf. rewrite (Hkeep _ Root); [done|..].
  - rewrite <- (sr_base _ _ Hr). apply Hs.
  - rewrite Ht. by apply flags_V.
Qed.

(** ptmap_physical maps one page and keeps every other translation. *)
Lemma ptmap_physical_ok r own k vpn pfn flags :
  kinv own k -> managed (VPN 2 vpn) -> pfn_start k + 2 <= max_pfn k ->
  exists own' k', ptmap_physical r vpn pfn flags k = Ret (tt, k') /\ kinv own' k' /\
    same_rest k k' /\ pfn_start k <= pfn_start k' <= pfn_start k + 2 /\
    (forall v, managed (VPN 2 v) -> walk (tab k') (pt_base k') v =
       if decide (VPN 2 v = VPN 2 vpn /\ VPN 1 v = VPN 1 vpn /\ VPN 0 v = VPN 0 vpn)
       then leaf_of (Some (PTE pfn flags)) else walk (tab k) (pt_base k) v).
Proof.
  intros Hk Hv Hroom.
  destruct (phys_levels_ok r own k vpn Hk Hv Hroom) as
    (f & g & own1 & k1 & own2 & k2 & E1 & Hk1 & Ho1 & Ht1 & Hg1 & Hr1 & _ & E2 & Hk2 & Ho2 & Ht2 & Hg2 & Hr2 & _).
  pose proof (same_rest_trans _ _ _ Hr1 Hr2) as Hr. pose proof Hk2 as (Hs2 & Hl2 & Hm2).
  pose proof (sh_frame _ _ _ _ _ _ Hs2 (proj1 Hg2 _ _ Ho1)) as Hf.
  pose proof (sh_frame _ _ _ _ _ _ Hs2 Ho2) as Hgr.
  pose proof (tab_l1_kept _ _ _ _ _ _ _ Hk1 Hr1 Hg2 Ht1 Hf) as Ht1'.
  pose proof (grown_trans _ _ _ _ _ _ _ _ Hg1 Hg2) as (_ & Hst & _ & Hw & _).
  eexists own2, _. split.
  { unfold ptmap_physical. mstep. unfold id. rewrite (bind_ret_l _ _ _ _ _ E1).
    rewrite (bind_ret_l _ _ _ _ _ E2). reflexivity. }
  split. { split; [|done]. cbn. by eapply leaf_shape. }
  split; [by destruct Hr|]. split; [cbn; lia|].
  intros v Hv'. cbn. destruct (flags_V f Hf) as (Fv & _ & Fp), (flags_V g Hgr) as (Gv & _ & Gp).
  rewrite (leaf_walk Hs2 g vpn (PTE pfn flags) v); rewrite ?(sr_base _ _ Hr), ?Ht1', ?Fp, ?Ht2; try done.
  case_decide; [done|]. rewrite <- (Hw v Hv'). by rewrite (sr_base _ _ Hr).
Qed.
