(* ===== verification/KernelPTRec.v ===== *)
(** * Editing the page table through itself

    On a machine that retains translations, ptmap through the recursive
    mapping does to the tables what ptmap_physical does through physical
    addresses; on one that does not, its last store faults. *)
From S2P Require Import Prelude Mem KernelPT PTBits KernelPTSpec.
Import KernelPT.

(** ** The recursive window: pages 1, [i] and [i * 512 + j] *)
Section Window.
Context (t : Z -> Z -> Z) (root : Z).
Hypothesis Hroot : 0 <= root < 17592186044416.
Hypothesis Hrec0 : t root 0 = PTE root PTE_VALID.

Lemma walk_page1 : t root 1 = PTE root RW -> walk t root 1 = Some (root, PTE root RW).
Proof using Hroot Hrec0.
  intros H1. destruct (flags_V root Hroot) as (Hv & Hl & Hp).
  destruct (flags_RW root Hroot) as (Hv' & Hl' & Hp' & _).
  unfold walk. change (VPN 2 1) with 0. change (VPN 1 1) with 0. change (VPN 0 1) with 1.
  rewrite Hrec0, Hv, Hl, Hp. cbn [negb]. rewrite Hrec0, Hv, Hl, Hp. cbn [negb].
  by rewrite H1, Hv', Hl', Hp'.
Qed.

Lemma VPN_page i : 0 <= i < 512 -> VPN 2 i = 0 /\ VPN 1 i = 0 /\ VPN 0 i = i.
Proof. intros. rewrite VPN0, VPN1, VPN2. dlia. Qed.

Lemma VPN_page2 i j : 0 <= i < 512 -> 0 <= j < 512 ->
  VPN 2 (i * 512 + j) = 0 /\ VPN 1 (i * 512 + j) = i /\ VPN 0 (i * 512 + j) = j.
Proof. intros. rewrite VPN0, VPN1, VPN2. dlia. Qed.

Lemma walk_page_l1 i f :
  0 <= i < 512 -> 0 <= f < 17592186044416 -> t root i = PTE f RW ->
  walk t root i = Some (f, PTE f RW).
Proof using Hroot Hrec0.
  intros Hi Hf Ht. destruct (flags_V root Hroot) as (Hv & Hl & Hp).
  destruct (flags_RW f Hf) as (Hv' & Hl' & Hp' & _). destruct (VPN_page i Hi) as (E2 & E1 & E0).
  unfold walk. rewrite E2, E1, E0, Hrec0, Hv, Hl, Hp. cbn [negb]. rewrite Hrec0, Hv, Hl, Hp.
  cbn [negb]. by rewrite Ht, Hv', Hl', Hp'.
Qed.

(** Once the root entry is a pointer again, page [i] has no translation. *)
Lemma walk_page_l1_closed i f :
  0 <= i < 512 -> 0 <= f < 17592186044416 -> t root i = PTE f PTE_VALID ->
  walk t root i = None.
Proof using Hroot Hrec0.
  intros Hi Hf Ht. destruct (flags_V root Hroot) as (Hv & Hl & Hp).
  destruct (flags_V f Hf) as (Hv' & Hl' & Hp'). destruct (VPN_page i Hi) as (E2 & E1 & E0).
  unfold walk. rewrite E2, E1, E0, Hrec0, Hv, Hl, Hp. cbn [negb]. rewrite Hrec0, Hv, Hl, Hp.
  cbn [negb]. by rewrite Ht, Hv', Hl'.
Qed.

Lemma walk_page_l0 i j f g :
  0 <= i < 512 -> 0 <= j < 512 -> 0 <= f < 17592186044416 -> 0 <= g < 17592186044416 ->
  t root i = PTE f PTE_VALID -> t f j = PTE g RW ->
  walk t root (i * 512 + j) = Some (g, PTE g RW).
Proof using Hroot Hrec0.
  intros Hi Hj Hf Hg Ht Ht'. destruct (flags_V root Hroot) as (Hv & Hl & Hp).
  destruct (flags_V f Hf) as (Fv & Fl & Fp), (flags_RW g Hg) as (Gv & Gl & Gp & _).
  destruct (VPN_page2 i j Hi Hj) as (E2 & E1 & E0).
  unfold walk. rewrite E2, E1, E0, Hrec0, Hv, Hl, Hp. cbn [negb]. rewrite Ht, Fv, Fl, Fp.
  cbn [negb]. by rewrite Ht', Gv, Gl, Gp.
Qed.
End Window.

(** ** Cached translations *)
(** What is cached for page [v] is the frame [g], with write permission. *)
Definition good (c : Z -> option (Z * Z)) (v g : Z) : Prop :=
  forall g' e, c v = Some (g', e) -> g' = g /\ permits e true = true.

Definition hit (c : Z -> option (Z * Z)) (v g : Z) : Prop :=
  exists e, c v = Some (g, e) /\ permits e true = true.

(** One access caches at most its own page. *)
Definition cached_more (c c' : Z -> option (Z * Z)) (v g : Z) : Prop :=
  hit c' v g /\ forall u, u <> v -> c' u = c u.

Lemma hit_good c v g : hit c v g -> good c v g.
Proof. intros (e & E & Hp) g' e' E'. rewrite E in E'. by injection E' as <- <-. Qed.

Lemma cached_more_good c c' v g u h :
  cached_more c c' v g -> good c u h -> (u = v -> h = g) -> good c' u h.
Proof.
  intros [Hh Hc] Hg Heq. destruct (decide (u = v)) as [->|Hne].
  - rewrite Heq by done. by apply hit_good.
  - intros g' e. rewrite Hc by done. apply Hg.
Qed.

Lemma cached_more_hit c c' v g u h :
  cached_more c c' v g -> hit c u h -> (u = v -> h = g) -> hit c' u h.
Proof.
  intros [Hh Hc] Hg Heq. destruct (decide (u = v)) as [->|Hne]; [by rewrite Heq|].
  unfold hit. by rewrite Hc.
Qed.

Lemma cached_more_trans c c' c'' v g :
  cached_more c c' v g -> cached_more c' c'' v g -> cached_more c c'' v g.
Proof. intros [_ H1] [Hh H2]. split; [done|]. intros u Hu. by rewrite H2, H1. Qed.

Lemma permits_read e w : permits e true = true -> permits e w = true.
Proof. unfold permits. destruct w; [done|]. by intros [-> _]%andb_prop. Qed.

Lemma translate_ok r k v w g :
  good (tlb k) v g ->
  (r = false \/ tlb k v = None -> walk (tab k) (pt_base k) v = Some (g, PTE g RW)) ->
  0 <= g < 17592186044416 ->
  exists c, translate r v w k = Ret (g, set_tlb c k) /\ cached_more (tlb k) c v g.
Proof.
  intros Hg Hw Hr. unfold translate. destruct (cached r k v) as [[g' e]|] eqn:E.
  - assert (tlb k v = Some (g', e)) as E' by by destruct r.
    destruct (Hg g' e E') as [-> Hp]. exists (tlb k). rewrite (permits_read e w Hp).
    split; [by destruct k|]. split; [by exists e|done].
  - rewrite Hw by (destruct r; [by right|by left]). destruct (flags_RW g Hr) as (_ & _ & _ & Hp). rewrite Hp.
    eexists. split; [reflexivity|]. split.
    + exists (PTE g RW). by rewrite Z.eqb_refl.
    + intros u Hu. by destruct (Z.eqb_spec u v).
Qed.

(** Entry [i] of the table that page [v] shows. *)
Section Access.
Context (r : bool) (k : K) (v g i : Z).
Hypothesis Hv : 0 <= v < 4503599627370496.
Hypothesis Hi : 0 <= i < 512.
Hypothesis Hg : good (tlb k) v g.
Hypothesis Hw : r = false \/ tlb k v = None -> walk (tab k) (pt_base k) v = Some (g, PTE g RW).
Hypothesis Hr : 0 <= g < 17592186044416.

Lemma vload_ok : exists c, vload r (ent_addr v i) k = Ret (tab k g i, set_tlb c k) /\
  cached_more (tlb k) c v g.
Proof using All.
  destruct (ent_addr_page v i Hv Hi) as [Ep Ee]. unfold vload. rewrite Ep.
  destruct (translate_ok r k v false g Hg Hw Hr) as (c & E & Hc). exists c. split; [|done].
  rewrite (bind_ret_l _ _ _ _ _ E). mstep. by rewrite Ee.
Qed.

Lemma vstore_ok x : exists c, vstore r (ent_addr v i) x k =
    Ret (tt, set_tab (tset g i x (tab k)) (set_tlb c k)) /\ cached_more (tlb k) c v g.
Proof using All.
  destruct (ent_addr_page v i Hv Hi) as [Ep Ee]. unfold vstore. rewrite Ep.
  destruct (translate_ok r k v true g Hg Hw Hr) as (c & E & Hc). exists c. split; [|done].
  rewrite (bind_ret_l _ _ _ _ _ E). by rewrite Ee.
Qed.

Lemma vclear_ok : exists c, vclear r v k =
    Ret (tt, set_tab (tzero g (tab k)) (set_tlb c k)) /\ cached_more (tlb k) c v g.
Proof using Hv Hg Hw Hr.
  unfold vclear. destruct (translate_ok r k v true g Hg Hw Hr) as (c & E & Hc). exists c.
  split; [|done]. by rewrite (bind_ret_l _ _ _ _ _ E).
Qed.

Lemma set_flags_ok f fl fl' :
  tab k g i = PTE f fl -> 0 <= f < 17592186044416 -> 0 <= fl < 1024 -> 0 <= fl' < 1024 ->
  exists c, set_flags r (ent_addr v i) fl' k =
    Ret (tt, set_tab (tset g i (PTE f fl') (tab k)) (set_tlb c k)) /\ cached_more (tlb k) c v g.
Proof using All.
  intros Ht Hf Hfl Hfl'. destruct vload_ok as (c & E & Hc). unfold set_flags.
  rewrite (bind_ret_l _ _ _ _ _ E), Ht, SET_FLAGS_PTE by done. 
  destruct (ent_addr_page v i Hv Hi) as [Ep Ee]. unfold vstore. rewrite Ep.
  destruct (translate_ok r (set_tlb c k) v true g) as (c' & E' & Hc');
    [apply hit_good, Hc| |done|].
  { intros Hn. cbn. apply Hw. destruct Hn as [Hn|Hn]; [by left|].
    cbn in Hn. destruct Hc as [(e & Hn' & _) _]. congruence. }
  exists c'. rewrite (bind_ret_l _ _ _ _ _ E'), Ee. split; [done|]. by eapply cached_more_trans.
Qed.
End Access.

(** Changes of the cache limited to the pages of a list, each with its frame. *)
Definition tlb_ext (L : list (Z * Z)) (c c' : Z -> option (Z * Z)) : Prop :=
  forall u, c' u = c u \/ exists g, (u, g) ∈ L /\ hit c' u g.

Lemma tlb_ext_refl L c : tlb_ext L c c.
Proof. by left. Qed.

Lemma tlb_ext_more L c c' c'' v g :
  tlb_ext L c c' -> cached_more c' c'' v g -> (v, g) ∈ L -> tlb_ext L c c''.
Proof.
  intros He [Hh Hc] Hin u. destruct (decide (u = v)) as [->|Hne]; [right; eauto|].
  unfold hit. rewrite Hc by done. apply He.
Qed.

Lemma tlb_ext_trans L c c' c'' : tlb_ext L c c' -> tlb_ext L c' c'' -> tlb_ext L c c''.
Proof.
  intros H1 H2 u. destruct (H2 u) as [E|?]; [|by right].
  unfold hit. rewrite E. apply H1.
Qed.

Lemma tlb_ext_good L c c' u h :
  tlb_ext L c c' -> good c u h -> (forall g, (u, g) ∈ L -> g = h) -> good c' u h.
Proof.
  intros He Hg Hl. destruct (He u) as [E|(g & Hin & Hh)].
  - intros g' e. rewrite E. apply Hg.
  - apply Hl in Hin as ->. by apply hit_good.
Qed.

(** The state during the edit: the fields of [kp] and the tables [t]. *)
Record at_state (kp k : K) (t : Z -> Z -> Z) : Prop := {
  as_rest : same_rest kp k;
  as_start : pfn_start k = pfn_start kp;
  as_tab : forall f x, tab k f x = t f x;
}.

Lemma tset_eq f x e t : tset f x e t f x = e.
Proof. unfold tset. by rewrite !Z.eqb_refl. Qed.
Lemma tset_ne f x e t f' x' : f' <> f \/ x' <> x -> tset f x e t f' x' = t f' x'.
Proof. unfold tset. intros. destruct (Z.eqb_spec f' f), (Z.eqb_spec x' x); naive_solver. Qed.
Lemma tzero_eq f t x : tzero f t f x = 0.
Proof. unfold tzero. by rewrite Z.eqb_refl. Qed.
Lemma tzero_ne f t f' x : f' <> f -> tzero f t f' x = t f' x.
Proof. unfold tzero. intros. by destruct (Z.eqb_spec f' f). Qed.

Lemma phys_level_found r level vpn p k f :
  tab k p (VPN level vpn) = PTE f PTE_VALID -> 0 <= f < 17592186044416 ->
  phys_level r level vpn p k = Ret (f, k).
Proof.
  intros Ht Hf. unfold phys_level. mstep. unfold id. cbn zeta. rewrite Ht.
  destruct (flags_V f Hf) as (-> & _). cbn [negb]. by rewrite GET_PFN_PTE by (done || unfold PTE_VALID; lia).
Qed.

Lemma phys_level_new r level vpn p k :
  is_valid (tab k p (VPN level vpn)) = false -> pfreelist k = 0 -> 0 <= pfn_start k < max_pfn k ->
  max_pfn k <= 17592186044416 ->
  phys_level r level vpn p k = Ret (pfn_start k,
    set_tab (tset p (VPN level vpn) (PTE (pfn_start k) PTE_VALID) (tzero (pfn_start k) (tab k)))
      (set_pfn_start (pfn_start k + 1) k)).
Proof.
  intros Hv Hl Hs Hm. unfold phys_level. mstep. unfold id. cbn zeta. rewrite Hv. cbn [negb].
  rewrite (bind_ret_l _ _ _ _ _ (palloc_next r k Hl ltac:(lia) ltac:(lia) Hm)). done.
Qed.

(** ** The three levels of ptmap *)
Section Ptmap.
Context (vpn root : Z).
Let i := VPN 2 vpn.
Let j := VPN 1 vpn.
Let q := i * 512 + j.
Hypothesis Hi : 2 <= i.
Hypothesis Hroot : 0 <= root < 17592186044416.
Context (L : list (Z * Z)).

Lemma pte2_addr : Z.lor kpgdir (Z.shiftl i 3) = ent_addr 1 i.
Proof using Hi. pose proof (VPN_range 2 vpn). by apply (ent_addr_lor 1 i). Qed.
Lemma pte1_addr : Z.lor (PAGE_2_ADDR i) (Z.shiftl j 3) = ent_addr i j.
Proof using Hi.
  pose proof (VPN_range 2 vpn). pose proof (VPN_range 1 vpn).
  rewrite PAGE_2_ADDR_small by (subst i; lia). by apply ent_addr_lor.
Qed.
Lemma pte0_addr y : 0 <= y < 512 ->
  Z.lor (PAGE_2_ADDR (Z.lor (Z.shiftl i 9) j)) (Z.shiftl y 3) = ent_addr q y.
Proof using Hi.
  pose proof (VPN_range 2 vpn). pose proof (VPN_range 1 vpn). intros Hy.
  rewrite rec_page, PAGE_2_ADDR_small by (subst i j; lia). by apply ent_addr_lor.
Qed.

Lemma ptmap_l2_ok r k f k1 :
  pt_base k = root -> tab k root 0 = PTE root PTE_VALID -> tab k root 1 = PTE root RW ->
  pfreelist k = 0 -> root < pfn_start k ->
  (is_valid (tab k root i) = false -> pfn_start k < max_pfn k) -> max_pfn k <= 17592186044416 ->
  phys_level r 2 vpn root k = Ret (f, k1) -> 0 <= f < 17592186044416 -> f <> root ->
  tab k1 root i = PTE f PTE_VALID ->
  good (tlb k) 1 root -> good (tlb k) i f -> (1, root) ∈ L -> (i, f) ∈ L ->
  exists k', ptmap_l2 r vpn k = Ret (tt, k') /\
    at_state k1 k' (tset root i (PTE f RW) (tab k1)) /\ tlb_ext L (tlb k) (tlb k').
Proof using Hi Hroot.
  intros Hb H0 H1 Hl Hrs Hst Hmax Ep Hf Hfr Ht1 G1 Gi L1in Liin.
  pose proof (VPN_range 2 vpn) as Hi2.
  unfold ptmap_l2. fold i. rewrite pte2_addr.
  assert (forall t, t root 0 = PTE root PTE_VALID -> t root 1 = PTE root RW ->
    walk t root 1 = Some (root, PTE root RW)) as W1 by (intros; by apply walk_page1).
  destruct (vload_ok r k 1 root i ltac:(lia) ltac:(lia) G1 ltac:(intros; rewrite Hb; by apply W1) Hroot)
    as (c & E & Hc). rewrite (bind_ret_l _ _ _ _ _ E). clear E.
  pose proof (tlb_ext_more L _ _ _ _ _ (tlb_ext_refl L _) Hc L1in) as He.
  assert (good c 1 root) as G1' by apply hit_good, Hc.
  destruct (is_valid (tab k root i)) eqn:Hv; cbn [negb].
  - (* the level is there *)
    assert (k1 = k) as -> by (unfold phys_level in Ep; unfold mbind, M_bind in Ep; cbn in Ep;
      fold i in Ep; rewrite Hv in Ep; cbn in Ep; by injection Ep).
    destruct (set_flags_ok r (set_tlb c k) 1 root i ltac:(lia) ltac:(lia) G1'
      ltac:(intros; cbn; rewrite Hb; by apply W1) Hroot f PTE_VALID RW Ht1 Hf
      ltac:(by vm_compute) ltac:(by vm_compute)) as (c' & E & Hc').
    eexists. split; [exact E|]. split; [|by eapply tlb_ext_more]. split; done.
  - (* the level is allocated *)
    specialize (Hst eq_refl).
    rewrite (phys_level_new r 2 vpn root k Hv Hl ltac:(lia) Hmax) in Ep. injection Ep as Ef Ek.
    fold i in Ek.
    rewrite (bind_ret_l _ _ _ _ _ (palloc_next r (set_tlb c k) Hl ltac:(cbn; lia) ltac:(cbn; lia) Hmax)).
    cbn [set_tlb pfn_start].
    set (ka := set_pfn_start (pfn_start k + 1) (set_tlb c k)).
    destruct (vstore_ok r ka 1 root i ltac:(lia) ltac:(lia) G1'
      ltac:(intros; cbn; rewrite Hb; by apply W1) Hroot (PTE (pfn_start k) RW)) as (c2 & E & Hc2).
    rewrite (bind_ret_l _ _ _ _ _ E). clear E.
    pose proof (tlb_ext_more L _ _ _ _ _ He Hc2 L1in) as He2.
    set (kb := set_tab _ _).
    assert (good (tlb kb) i f) as Gi'.
    { eapply cached_more_good; [exact Hc2| |lia]. eapply cached_more_good; [exact Hc|done|lia]. }
    rewrite Ef in *.
    destruct (vclear_ok r kb i f ltac:(lia) Gi') as (c3 & E & Hc3); [|done|].
    { intros _. cbn. rewrite Hb. apply walk_page_l1; try done; try lia.
      - rewrite tset_ne by lia. done.
      - rewrite tset_eq; by rewrite ?Ef. }
    eexists. split; [exact E|]. split; [|by eapply tlb_ext_more]. subst k1. split; [done|cbn; lia|].
    intros f' x. cbn. unfold tset, tzero.
    destruct (Z.eqb_spec f' f), (Z.eqb_spec f' root), (Z.eqb_spec x i); cbn; congruence.
Qed.

(** Level 1, from the state in which the root entry is writable: the table of
    the last level is opened or allocated, then the root entry is closed. *)
Section Level1.
Context (r : bool) (k k1 : K) (f g : Z).
Hypothesis Hb : pt_base k1 = root.
Hypothesis At : at_state k1 k (tset root i (PTE f RW) (tab k1)).
Hypothesis H0 : tab k1 root 0 = PTE root PTE_VALID.
Hypothesis H1 : tab k1 root 1 = PTE root RW.
Hypothesis Ht1 : tab k1 root i = PTE f PTE_VALID.
Hypothesis Hf : 0 <= f < 17592186044416.
Hypothesis Hfr : f <> root.
Hypothesis Hg : 0 <= g < 17592186044416.
Hypothesis Hgr : g <> root.
Hypothesis Hgf : g <> f.
Hypothesis Lin : (1, root) ∈ L /\ (i, f) ∈ L /\ (q, g) ∈ L.

Lemma level1_reads : pt_base k = root /\ tab k root 0 = PTE root PTE_VALID /\ tab k root 1 = PTE root RW /\
  tab k root i = PTE f RW /\ forall x, tab k f x = tab k1 f x.
Proof using Hi Hroot Hb At H0 H1 Ht1 Hf Hfr Hg Hgr Hgf Lin.
  destruct At as [Hr _ Ht]. rewrite (sr_base _ _ Hr), !Ht, !(tset_ne _ _ _ _ root) by lia. rewrite tset_eq. do 4 (split; [done|]).
  intros x. by rewrite Ht, tset_ne by lia.
Qed.

(** Closing the root entry in a state that still has it open. *)
Lemma close_root kx : pt_base kx = root -> tab kx root 0 = PTE root PTE_VALID -> tab kx root 1 = PTE root RW ->
  tab kx root i = PTE f RW -> good (tlb kx) 1 root ->
  exists c, set_flags r (ent_addr 1 i) PTE_VALID kx =
    Ret (tt, set_tab (tset root i (PTE f PTE_VALID) (tab kx)) (set_tlb c kx)) /\ cached_more (tlb kx) c 1 root.
Proof using Hi Hroot Hb At H0 H1 Ht1 Hf Hfr Hg Hgr Hgf Lin.
  intros Eb E0 E1 Ei G1. pose proof (VPN_range 2 vpn) as Hi2. fold i in Hi2.
  by apply (set_flags_ok r kx 1 root i ltac:(lia) ltac:(lia) G1 ltac:(intros; rewrite Eb; by apply walk_page1) Hroot
    f RW PTE_VALID Ei Hf ltac:(by vm_compute) ltac:(by vm_compute)).
Qed.

Lemma level1_found c : tab k1 f j = PTE g PTE_VALID -> hit c i f -> good c 1 root ->
  exists k', (set_flags r (ent_addr i j) RW;; set_flags r (ent_addr 1 i) PTE_VALID) (set_tlb c k) = Ret (tt, k') /\
    at_state k1 k' (tset f j (PTE g RW) (tab k1)) /\ (forall c0, tlb_ext L c0 c -> tlb_ext L c0 (tlb k')) /\ hit (tlb k') i f.
Proof using Hi Hroot Hb At H0 H1 Ht1 Hf Hfr Hg Hgr Hgf Lin.
  intros Ht Hh G1. destruct level1_reads as (Hbk & H0k & H1k & Hik & Hfk). destruct At as [Hr Hst Htab]. destruct Lin as (L1in & Liin & _).
  pose proof (VPN_range 2 vpn) as Hi2. pose proof (VPN_range 1 vpn) as Hj. fold i in Hi2. fold j in Hj.
  destruct (set_flags_ok r (set_tlb c k) i f j ltac:(lia) ltac:(lia) (hit_good _ _ _ Hh)
    ltac:(intros; cbn; rewrite Hbk; apply walk_page_l1; done || lia) Hf g PTE_VALID RW ltac:(cbn; by rewrite Hfk) Hg
    ltac:(by vm_compute) ltac:(by vm_compute)) as (c2 & E & Hc2).
  rewrite (bind_ret_l _ _ _ _ _ E).
  destruct (close_root (set_tab (tset f j (PTE g RW) (tab k)) (set_tlb c2 k))) as (c3 & E3 & Hc3);
    [done|cbn; by rewrite tset_ne by lia..|eapply cached_more_good; [exact Hc2|done|lia]|].
  eexists. split; [exact E3|]. split; [|split].
  - split; [by destruct Hr|done|]. intros f' x. cbn. unfold tset. rewrite Htab. unfold tset.
    destruct (Z.eqb_spec f' root), (Z.eqb_spec x i), (Z.eqb_spec f' f), (Z.eqb_spec x j); cbn; congruence.
  - intros c0 He. eapply tlb_ext_more; [eapply tlb_ext_more; [exact He|exact Hc2|done]|exact Hc3|done].
  - eapply cached_more_hit; [exact Hc3| |lia]. apply Hc2.
Qed.

Lemma level1_new c : pfreelist k1 = 0 -> 0 <= pfn_start k1 < max_pfn k1 -> max_pfn k1 <= 17592186044416 -> pfn_start k1 = g ->
  hit c i f -> good c 1 root -> good c q g ->
  exists k', (temp_pfn ← palloc r; vstore r (ent_addr i j) (PTE temp_pfn RW);;
      set_flags r (ent_addr 1 i) PTE_VALID;; vclear r q) (set_tlb c k) = Ret (tt, k') /\
    at_state (set_tab (tset f j (PTE g PTE_VALID) (tzero g (tab k1))) (set_pfn_start (g + 1) k1)) k'
      (tset f j (PTE g RW) (tset f j (PTE g PTE_VALID) (tzero g (tab k1)))) /\
    (forall c0, tlb_ext L c0 c -> tlb_ext L c0 (tlb k')) /\ hit (tlb k') i f.
Proof using Hi Hroot Hb At H0 H1 Ht1 Hf Hfr Hg Hgr Hgf Lin.
  intros Hl Hs Hmax Eg Hh G1 Gq. destruct level1_reads as (Hbk & H0k & H1k & Hik & Hfk). destruct At as [Hr Hst Htab].
  destruct Lin as (L1in & Liin & Lqin).
  pose proof (VPN_range 2 vpn) as Hi2. pose proof (VPN_range 1 vpn) as Hj. fold i in Hi2. fold j in Hj.
  assert (pfreelist k = 0 /\ max_pfn k = max_pfn k1) as [Hlk Hmk] by (destruct Hr; split; congruence).
  rewrite (bind_ret_l _ _ _ _ _ (palloc_next r (set_tlb c k) Hlk ltac:(cbn; lia) ltac:(cbn; lia) ltac:(cbn; lia))).
  cbn [set_tlb pfn_start]. rewrite Hst, Eg. set (ka := set_pfn_start (g + 1) (set_tlb c k)).
  destruct (vstore_ok r ka i f j ltac:(lia) ltac:(lia) (hit_good _ _ _ Hh)
    ltac:(intros; cbn; rewrite Hbk; apply walk_page_l1; done || lia) Hf (PTE g RW)) as (c2 & E & Hc2).
  rewrite (bind_ret_l _ _ _ _ _ E). change (tlb ka) with c in Hc2.
  destruct (close_root (set_tab (tset f j (PTE g RW) (tab ka)) (set_tlb c2 ka))) as (c3 & E3 & Hc3);
    [done|cbn; by rewrite tset_ne by lia..|eapply cached_more_good; [exact Hc2|done|lia]|].
  rewrite (bind_ret_l _ _ _ _ _ E3). cbn [tlb set_tab set_tlb tab] in Hc3 |- *. set (kb := set_tab _ _).
  destruct (vclear_ok r kb q g ltac:(subst q; lia)) as (c4 & E4 & Hc4); [..|done|].
  { eapply cached_more_good; [exact Hc3| |subst q; lia]. eapply cached_more_good; [exact Hc2|exact Gq|subst q; lia]. }
  { intros _. cbn. rewrite Hbk. apply (walk_page_l0 _ root Hroot) with (f := f); try done; try lia.
    - rewrite !tset_ne by lia. done.
    - by rewrite tset_eq.
    - rewrite tset_ne by lia. by rewrite tset_eq. }
  eexists. split; [exact E4|]. split; [|split].
  - split; [by destruct Hr|cbn; lia|]. intros f' x. cbn. unfold tset, tzero. rewrite Htab. unfold tset.
    destruct (Z.eqb_spec f' root), (Z.eqb_spec x i), (Z.eqb_spec f' f), (Z.eqb_spec x j), (Z.eqb_spec f' g); cbn; congruence.
  - intros c0 He. eapply tlb_ext_more; [eapply tlb_ext_more; [eapply tlb_ext_more; [exact He|exact Hc2|done]|exact Hc3|done]|exact Hc4|done].
  - cbn. eapply cached_more_hit; [exact Hc4| |subst q; lia]. eapply cached_more_hit; [exact Hc3| |lia]. apply Hc2.
Qed.
End Level1.

Lemma ptmap_l1_ok r k k1 f g k2 :
  pt_base k1 = root -> at_state k1 k (tset root i (PTE f RW) (tab k1)) ->
  tab k1 root 0 = PTE root PTE_VALID -> tab k1 root 1 = PTE root RW ->
  tab k1 root i = PTE f PTE_VALID ->
  pfreelist k1 = 0 -> root < pfn_start k1 ->
  (is_valid (tab k1 f j) = false -> pfn_start k1 < max_pfn k1) -> f < pfn_start k1 ->
  max_pfn k1 <= 17592186044416 ->
  phys_level r 1 vpn f k1 = Ret (g, k2) -> 0 <= f < 17592186044416 -> f <> root ->
  0 <= g < 17592186044416 -> g <> root -> g <> f -> tab k2 f j = PTE g PTE_VALID ->
  good (tlb k) 1 root -> good (tlb k) i f -> good (tlb k) q g ->
  (1, root) ∈ L -> (i, f) ∈ L -> (q, g) ∈ L ->
  exists k', ptmap_l1 r vpn k = Ret (tt, k') /\
    at_state k2 k' (tset f j (PTE g RW) (tab k2)) /\ tlb_ext L (tlb k) (tlb k') /\
    hit (tlb k') i f.
Proof using Hi Hroot.
  intros Hb At H0 H1 Ht1 Hl Hrs Hroom Hfs Hmax Ep Hf Hfr Hg Hgr Hgf Ht2 G1 Gi Gq L1in Liin Lqin.
  destruct (level1_reads k k1 f g Hb At H0 H1 Ht1 Hf Hfr Hg Hgr Hgf (conj L1in (conj Liin Lqin))) as (Hbk & H0k & H1k & Hik & Hfk).
  pose proof (VPN_range 2 vpn) as Hi2. pose proof (VPN_range 1 vpn) as Hj. fold i in Hi2. fold j in Hj.
  unfold ptmap_l1. fold i j. rewrite pte2_addr, pte1_addr, rec_page by lia. fold q.
  destruct (vload_ok r k i f j ltac:(lia) ltac:(lia) Gi
    ltac:(intros; rewrite Hbk; apply walk_page_l1; done || lia) Hf) as (c & E & Hc).
  rewrite (bind_ret_l _ _ _ _ _ E), Hfk.
  pose proof (tlb_ext_more L _ _ _ _ _ (tlb_ext_refl L _) Hc Liin) as He. pose proof (proj1 Hc) as Hh.
  assert (good c 1 root) as G1' by (eapply cached_more_good; [exact Hc|done|lia]).
  assert (good c q g) as Gq' by (eapply cached_more_good; [exact Hc|done|subst q; lia]).
  destruct (is_valid (tab k1 f j)) eqn:Hv; cbn [negb].
  - assert (k2 = k1) as -> by (unfold phys_level in Ep; unfold mbind, M_bind in Ep; cbn in Ep;
      fold j in Ep; rewrite Hv in Ep; cbn in Ep; by injection Ep).
    destruct (level1_found r k k1 f g Hb At H0 H1 Ht1 Hf Hfr Hg Hgr Hgf (conj L1in (conj Liin Lqin)) c Ht2 Hh G1') as (k' & E' & A & X & Y).
    exists k'. split; [exact E'|]. split; [done|]. split; [by apply X|done].
  - specialize (Hroom eq_refl). rewrite (phys_level_new r 1 vpn f k1 Hv Hl ltac:(lia) Hmax) in Ep. injection Ep as Eg Ek.
    fold j in Ek. rewrite Eg in Ek.
    destruct (level1_new r k k1 f g Hb At H0 H1 Ht1 Hf Hfr Hg Hgr Hgf (conj L1in (conj Liin Lqin)) c Hl ltac:(lia) Hmax Eg Hh G1' Gq')
      as (k' & E' & A & X & Y).
    exists k'. split; [exact E'|]. subst k2. split; [exact A|]. split; [by apply X|done].
Qed.

(** Level 0: the leaf, and the level-1 entry closed through the cached page. *)
Lemma ptmap_l0_ok k k2 f g pfn flags :
  pt_base k2 = root -> at_state k2 k (tset f j (PTE g RW) (tab k2)) ->
  tab k2 root 0 = PTE root PTE_VALID -> tab k2 root i = PTE f PTE_VALID ->
  tab k2 f j = PTE g PTE_VALID -> 0 <= f < 17592186044416 -> f <> root ->
  0 <= g < 17592186044416 -> g <> root -> g <> f ->
  hit (tlb k) i f -> good (tlb k) q g -> (i, f) ∈ L -> (q, g) ∈ L ->
  exists k', ptmap_l0 true vpn pfn flags k = Ret (tt, k') /\
    at_state k2 k' (tset g (VPN 0 vpn) (PTE pfn flags) (tab k2)) /\ tlb_ext L (tlb k) (tlb k').
Proof using Hi Hroot.
  intros Hb [Hr Hst Htab] H0 Ht1 Ht2 Hf Hfr Hg Hgr Hgf Hh Gq Liin Lqin.
  pose proof (VPN_range 2 vpn) as Hi2. pose proof (VPN_range 1 vpn) as Hj.
  pose proof (VPN_range 0 vpn) as Hy. fold i in Hi2. fold j in Hj.
  unfold ptmap_l0. fold i j. rewrite pte1_addr, pte0_addr by done.
  assert (pt_base k = root) as Hbk by (rewrite (sr_base _ _ Hr); done).
  destruct (vstore_ok true k q g (VPN 0 vpn) ltac:(subst q; lia) ltac:(lia) Gq) with (x := PTE pfn flags)
    as (c & E & Hc); [|done|].
  { intros _. rewrite Hbk. apply (walk_page_l0 _ root Hroot) with (f := f); try done; try lia.
    - rewrite Htab, tset_ne by lia. done.
    - rewrite Htab, tset_ne by lia. done.
    - by rewrite Htab, tset_eq. }
  rewrite (bind_ret_l _ _ _ _ _ E). clear E.
  pose proof (tlb_ext_more L _ _ _ _ _ (tlb_ext_refl L _) Hc Lqin) as He.
  assert (hit c i f) as Hh' by (eapply cached_more_hit; [exact Hc|done|subst q; lia]).
  destruct (set_flags_ok true (set_tab (tset g (VPN 0 vpn) (PTE pfn flags) (tab k)) (set_tlb c k)) i f j
    ltac:(lia) ltac:(lia) (hit_good _ _ _ Hh') ltac:(intros [Hn|Hn]; [done|]; cbn in Hn; destruct Hh' as (e & Hn' & _); congruence)
    Hf g RW PTE_VALID ltac:(cbn; rewrite tset_ne by lia; rewrite Htab, tset_eq; done) Hg
    ltac:(by vm_compute) ltac:(by vm_compute)) as (c2 & E & Hc2).
  eexists. split; [exact E|]. split; [|by eapply tlb_ext_more].
  split; [by destruct Hr|done|]. intros f' x. cbn. unfold tset. rewrite Htab. unfold tset.
  destruct (Z.eqb_spec f' g), (Z.eqb_spec x (VPN 0 vpn)), (Z.eqb_spec f' f), (Z.eqb_spec x j);
    cbn; congruence.
Qed.
End Ptmap.
