(* ===== verification/KernelPTProps.v ===== *)
(** * Properties of the kernel's page table

    ptmap through the recursive mapping against ptmap_physical, both against
    the Sv39 walk, and what ptmap needs from the machine. *)
From S2P Require Import Prelude Mem KernelPT PTBits KernelPTSpec KernelPTRec.
Import KernelPT.

(** Every cached translation of the recursive window is one the tables give
    when the entry is open. *)
Record tlb_ok (t : Z -> Z -> Z) (root : Z) (c : Z -> option (Z * Z)) : Prop := {
  to_root : good c 1 root;
  to_l1 : forall i g e, managed i -> c i = Some (g, e) ->
    permits e true = true /\ t root i = PTE g PTE_VALID /\ 0 <= g < 17592186044416;
  to_l0 : forall i j g e, managed i -> 0 <= j < 512 -> c (i * 512 + j) = Some (g, e) ->
    permits e true = true /\ 0 <= g < 17592186044416 /\
    exists f, t root i = PTE f PTE_VALID /\ t f j = PTE g PTE_VALID /\ 0 <= f < 17592186044416;
}.

Lemma PTE_inj f g : 0 <= f < 17592186044416 -> 0 <= g < 17592186044416 ->
  PTE f PTE_VALID = PTE g PTE_VALID -> f = g.
Proof. intros Hf Hg. rewrite !PTE_sum by (done || unfold PTE_VALID; lia). lia. Qed.

Lemma shape_ext own t t' root start :
  (forall f x, t' f x = t f x) -> shape own t root start -> shape own t' root start.
Proof.
  intros He [H1 H2 H3 H4 H5 H6 H7 H8]. split; try done; rewrite ?He; try done.
  - intros i Hi. rewrite He. by apply H6.
  - intros f i j Hf Hj. rewrite He. by apply H7.
Qed.

Lemma walk_ext t t' root v : (forall f x, t' f x = t f x) -> walk t' root v = walk t root v.
Proof. intros He. unfold walk. by rewrite !He. Qed.

(** The state of the page-table code: a tree, and a cache that fits it. *)
Definition pt_ok (own : Z -> option node) (k : K) : Prop :=
  kinv own k /\ tlb_ok (tab k) (pt_base k) (tlb k).

Section Ptmap.
Context (own : Z -> option node) (k : K) (vpn : Z).
Hypothesis Hok : pt_ok own k.
Hypothesis Hvpn : managed (VPN 2 vpn).
Hypothesis Hroom : pfn_start k + 2 <= max_pfn k.

(** The window of one ptmap: the pages it touches and the frames behind them. *)
Definition window (f g : Z) : list (Z * Z) :=
  [(1, pt_base k); (VPN 2 vpn, f); (VPN 2 vpn * 512 + VPN 1 vpn, g)].

Lemma window_in f g u h :
  (u, h) ∈ window f g ->
  (u = 1 /\ h = pt_base k) \/ (u = VPN 2 vpn /\ h = f) \/
  (u = VPN 2 vpn * 512 + VPN 1 vpn /\ h = g).
Proof using Type.
  clear Hvpn. unfold window. rewrite !elem_of_cons, elem_of_nil. naive_solver.
Qed.

(** Facts about the two levels that hold on either machine. *)
Record levels (r : bool) (f g : Z) (own1 : Z -> option node) (k1 : K)
    (own2 : Z -> option node) (k2 : K) : Prop := {
  lv_e1 : phys_level r 2 vpn (pt_base k) k = Ret (f, k1);
  lv_e2 : phys_level r 1 vpn f k1 = Ret (g, k2);
  lv_k1 : kinv own1 k1; lv_k2 : kinv own2 k2;
  lv_o1 : own1 f = Some (L1 (VPN 2 vpn));
  lv_o2 : own2 g = Some (L0 (VPN 2 vpn) (VPN 1 vpn));
  lv_t1 : tab k1 (pt_base k) (VPN 2 vpn) = PTE f PTE_VALID;
  lv_t2 : tab k2 f (VPN 1 vpn) = PTE g PTE_VALID;
  lv_t1' : tab k2 (pt_base k) (VPN 2 vpn) = PTE f PTE_VALID;
  lv_g1 : grown own own1 k k1 1; lv_g2 : grown own1 own2 k1 k2 1;
  lv_r1 : same_rest k k1; lv_r2 : same_rest k1 k2;
  lv_f : 0 <= f < 17592186044416 /\ f <> pt_base k /\ f < pfn_start k1;
  lv_g : 0 <= g < 17592186044416 /\ g <> pt_base k /\ g <> f;
  lv_gi : good (tlb k) (VPN 2 vpn) f;
  lv_gq : good (tlb k) (VPN 2 vpn * 512 + VPN 1 vpn) g;
}.

Lemma levels_ok r : exists f g own1 k1 own2 k2, levels r f g own1 k1 own2 k2.
Proof using All.
  destruct Hok as [Hk Ht]. pose proof (VPN_range 2 vpn) as Hi. pose proof (VPN_range 1 vpn) as Hj.
  destruct (phys_levels_ok r own k vpn Hk Hvpn Hroom) as
    (f & g & own1 & k1 & own2 & k2 & E1 & Hk1 & Ho1 & Ht1 & Hg1 & Hr1 & _ & E2 & Hk2 & Ho2 & Ht2 & Hg2 & Hr2 & _).
  pose proof Hk as (Hs & _). pose proof Hk1 as (Hs1 & _). pose proof Hk2 as (Hs2 & _).
  pose proof (sh_frame _ _ _ _ _ _ Hs1 Ho1) as Hf. pose proof (sh_frame _ _ _ _ _ _ Hs2 Ho2) as Hg.
  pose proof (tab_l1_kept _ _ _ _ _ _ _ Hk1 Hr1 Hg2 Ht1 Hf) as Ht1'.
  pose proof (proj1 Hg1 _ _ (sh_root _ _ _ _ Hs)) as Hor1.
  pose proof (proj1 Hg2 _ _ Hor1) as Hor2. pose proof (proj1 Hg2 _ _ Ho1) as Hof2.
  assert (forall f', tab k (pt_base k) (VPN 2 vpn) = PTE f' PTE_VALID -> 0 <= f' < 17592186044416 ->
    f' = f) as Hu1.
  { intros f' Ef Hf'. apply PTE_inj; try done. rewrite <- Ht1, <- Ef. symmetry.
    eapply (proj1 (proj2 (proj2 Hg1)) _ Root); [apply Hs|]. rewrite Ef. by apply flags_V. }
  exists f, g, own1, k1, own2, k2. split; try done.
  - split; [done|]. split; [congruence|]. by eapply sh_own.
  - split; [done|]. split; congruence.
  - intros g' e Hc. destruct (to_l1 _ _ _ Ht (VPN 2 vpn) g' e ltac:(lia) Hc) as (Hp & Eg & Hg').
    split; [by apply Hu1|done].
  - intros g' e Hc. destruct (to_l0 _ _ _ Ht (VPN 2 vpn) (VPN 1 vpn) g' e ltac:(lia) ltac:(lia) Hc)
      as (Hp & Hg' & f' & Ef' & Eg' & Hf'). split; [|done].
    pose proof (Hu1 f' Ef' Hf') as ->. apply PTE_inj; try done. rewrite <- Ht2, <- Eg'. symmetry.
    destruct (sh_l2 _ _ _ _ Hs (VPN 2 vpn) ltac:(lia)) as (h & Eh & Hoh).
    { rewrite Ef'. by apply flags_V. }
    assert (h = f) as ->.
    { apply PTE_inj; [exact (sh_frame _ _ _ _ _ _ Hs Hoh)|done|congruence]. }
    assert (is_valid (tab k f (VPN 1 vpn)) = true) as Hv by (rewrite Eg'; by apply flags_V).
    rewrite <- (proj1 (proj2 (proj2 Hg1)) _ _ _ Hoh Hv).
    eapply (proj1 (proj2 (proj2 Hg2))); [exact Ho1|].
    by rewrite (proj1 (proj2 (proj2 Hg1)) _ _ _ Hoh Hv).
Qed.

(** The two upper levels through the recursive window. *)
Lemma ptmap_upper r f g own1 k1 own2 k2 :
  levels r f g own1 k1 own2 k2 ->
  exists ka kb, ptmap_l2 r vpn k = Ret (tt, ka) /\ ptmap_l1 r vpn ka = Ret (tt, kb) /\
    at_state k2 kb (tset f (VPN 1 vpn) (PTE g RW) (tab k2)) /\
    tlb_ext (window f g) (tlb k) (tlb kb) /\ hit (tlb kb) (VPN 2 vpn) f.
Proof using All.
  intros [E1 E2 Hk1 Hk2 Ho1 Ho2 Ht1 Ht2 Ht1' Hg1 Hg2 Hr1 Hr2 (Hf & Hfr & Hfs) (Hg & Hgr & Hgf) Gi Gq].
  destruct Hok as [(Hs & Hl & Hm) Ht]. pose proof Hk1 as (Hs1 & Hl1 & Hm1).
  pose proof (VPN_range 2 vpn) as Hi. pose proof (VPN_range 1 vpn) as Hj.
  pose proof (sh_frame _ _ _ _ _ _ Hs (sh_root _ _ _ _ Hs)) as Hroot.
  pose proof (sh_own _ _ _ _ Hs _ _ (sh_root _ _ _ _ Hs)) as Hrs.
  pose proof (to_root _ _ _ Ht) as G1.
  assert (forall u h, (u, h) ∈ window f g -> forall h', (u, h') ∈ window f g -> h' = h) as Hfun.
  { intros u h Hh h' Hh'. apply window_in in Hh, Hh'. lia. }
  assert ((1, pt_base k) ∈ window f g) as W1 by set_solver.
  assert ((VPN 2 vpn, f) ∈ window f g) as Wi by set_solver.
  assert ((VPN 2 vpn * 512 + VPN 1 vpn, g) ∈ window f g) as Wq by set_solver.
  pose proof (proj1 (proj1 Hvpn)) as Hi2.
  destruct (ptmap_l2_ok vpn (pt_base k) Hi2 Hroot (window f g) r k f k1) as (ka & Ea & Ha & Hxa);
    try done; [apply Hs|apply Hs|lia|lia|].
  assert (forall u h, good (tlb k) u h -> (u, h) ∈ window f g -> good (tlb ka) u h) as Hgk.
  { intros u h Hgu Hin. eapply tlb_ext_good; [exact Hxa|done|]. by apply Hfun. }
  destruct (ptmap_l1_ok vpn (pt_base k) Hi2 Hroot (window f g) r ka k1 f g k2)
    as (kb & Eb & Hb & Hxb & Hh); try done; try (by apply Hgk).
  - apply Hr1.
  - rewrite <- (sr_base _ _ Hr1). apply Hs1.
  - rewrite <- (sr_base _ _ Hr1). apply Hs1.
  - destruct Hg1 as (_ & ? & _). lia.
  - rewrite (sr_max _ _ Hr1). destruct Hg1 as (_ & ? & _). lia.
  - exists ka, kb. split; [done|]. split; [done|]. split; [done|]. split; [|done].
    by eapply tlb_ext_trans.
Qed.

(** The cache after an edit that keeps the upper entries fits the tables after
    the edit. *)
Lemma tlb_ok_edit f g (t' : Z -> Z -> Z) c' :
  (forall f' m x, own f' = Some m -> (forall a b, m <> L0 a b) ->
     is_valid (tab k f' x) = true -> t' f' x = tab k f' x) ->
  t' (pt_base k) (VPN 2 vpn) = PTE f PTE_VALID -> 0 <= f < 17592186044416 ->
  t' f (VPN 1 vpn) = PTE g PTE_VALID -> 0 <= g < 17592186044416 ->
  tlb_ext (window f g) (tlb k) c' -> tlb_ok t' (pt_base k) c'.
Proof using Hok Hvpn.
  intros Hkeep Ef Hf Eg Hg Hx. destruct Hok as [(Hs & _) Ht].
  pose proof (VPN_range 2 vpn) as Hi. pose proof (VPN_range 1 vpn) as Hj.
  assert (forall i' g', tab k (pt_base k) i' = PTE g' PTE_VALID -> 0 <= g' < 17592186044416 ->
    t' (pt_base k) i' = PTE g' PTE_VALID) as Hkroot.
  { intros i' g' Et Hg'. rewrite <- Et. eapply (Hkeep _ Root); [apply Hs|done|].
    rewrite Et. by apply flags_V. }
  split.
  - eapply tlb_ext_good; [exact Hx|apply Ht|]. intros h Hin. apply window_in in Hin. lia.
  - intros i' g' e' Hi' Hc. destruct (Hx i') as [Hsame|(h & Hin & (e2 & Hc2 & Hp2))].
    + rewrite Hsame in Hc. destruct (to_l1 _ _ _ Ht i' g' e' Hi' Hc) as (Hp & Et & Hg').
      split; [done|]. split; [|done]. by apply Hkroot.
    + rewrite Hc in Hc2. injection Hc2 as <- <-. split; [done|].
      by assert (i' = VPN 2 vpn /\ g' = f) as [-> ->] by (apply window_in in Hin; lia).
  - intros i' j' g' e' Hi' Hj' Hc. destruct (Hx (i' * 512 + j')) as [Hsame|(h & Hin & (e2 & Hc2 & Hp2))].
    + rewrite Hsame in Hc. destruct (to_l0 _ _ _ Ht i' j' g' e' Hi' Hj' Hc) as (Hp & Hg' & f' & Ef' & Eg' & Hf').
      split; [done|]. split; [done|]. exists f'. split; [by apply Hkroot|]. split; [|done].
      rewrite <- Eg'. destruct (sh_l2 _ _ _ _ Hs i' Hi') as (h & Eh & Hoh).
      { rewrite Ef'. by apply flags_V. }
      assert (h = f') as -> by (apply PTE_inj; [exact (sh_frame _ _ _ _ _ _ Hs Hoh)|done|congruence]).
      eapply Hkeep; [exact Hoh|done|]. rewrite Eg'. by apply flags_V.
    + rewrite Hc in Hc2. injection Hc2 as <- <-. split; [done|].
      assert (i' = VPN 2 vpn /\ j' = VPN 1 vpn /\ g' = g) as (-> & -> & ->) by (apply window_in in Hin; lia).
      split; [done|]. by exists f.
Qed.

Lemma tlb_ok_after f g own1 k1 own2 k2 c' y e t' :
  levels true f g own1 k1 own2 k2 -> tlb_ext (window f g) (tlb k) c' ->
  (forall f' x, t' f' x = tset g y e (tab k2) f' x) -> tlb_ok t' (pt_base k) c'.
Proof using Hok Hvpn.
  intros [E1 E2 Hk1 Hk2 Ho1 Ho2 Ht1 Ht2 Ht1' Hg1 Hg2 Hr1 Hr2 (Hf & Hfr & Hfs) (Hg & Hgr & Hgf) Gi Gq] Hx Ht'.
  apply (tlb_ok_edit f g t' c'); try done.
  - intros f' m x Hf' Hm Hv. rewrite Ht'.
    pose proof (grown_trans _ _ _ _ _ _ _ _ Hg1 Hg2) as (Gown & _ & Gkeep & _).
    rewrite tset_ne; [by eapply Gkeep|]. left. intros ->. apply Gown in Hf'.
    rewrite Ho2 in Hf'. injection Hf' as <-. by eapply Hm.
  - by rewrite Ht', tset_ne by (left; congruence).
  - by rewrite Ht', tset_ne by (left; congruence).
Qed.

(** ptmap on the machine that retains translations: the state of
    ptmap_physical, up to the cache. *)
Lemma ptmap_ok pfn flags :
  exists own' k1 k2, ptmap_physical true vpn pfn flags k = Ret (tt, k1) /\
    ptmap true vpn pfn flags k = Ret (tt, k2) /\ same_rest k1 k2 /\ same_rest k k2 /\
    pfn_start k2 = pfn_start k1 /\ pfn_start k <= pfn_start k2 <= pfn_start k + 2 /\
    (forall f x, tab k2 f x = tab k1 f x) /\ pt_ok own' k2 /\
    (forall f m, own' f = Some m -> own f = Some m \/ pfn_start k <= f).
Proof using All.
  destruct (levels_ok true) as (f & g & own1 & k1 & own2 & k2 & Hlv).
  destruct (ptmap_upper true f g own1 k1 own2 k2 Hlv) as (ka & kb & Ea & Eb & Hb & Hx & Hh).
  pose proof Hlv as [E1 E2 Hk1 Hk2 Ho1 Ho2 Ht1 Ht2 Ht1' Hg1 Hg2 Hr1 Hr2 (Hf & Hfr & Hfs) (Hg & Hgr & Hgf) Gi Gq].
  destruct Hok as [(Hs & Hl & Hm) Ht]. pose proof Hk2 as (Hs2 & Hl2 & Hm2).
  pose proof (same_rest_trans _ _ _ Hr1 Hr2) as Hr.
  pose proof (VPN_range 2 vpn) as Hi. pose proof (VPN_range 1 vpn) as Hj.
  pose proof (proj1 (proj1 Hvpn)) as Hi2.
  destruct (ptmap_l0_ok vpn (pt_base k) Hi2 (sh_frame _ _ _ _ _ _ Hs (sh_root _ _ _ _ Hs))
    (window f g) kb k2 f g pfn flags) as (kc & Ec & [Hrc Hsc Htc] & Hxc); try done.
  { apply Hr. } { rewrite <- (sr_base _ _ Hr). apply Hs2. }
  { eapply tlb_ext_good; [exact Hx|exact Gq|]. intros h Hin. apply window_in in Hin. lia. }
  { set_solver. } { set_solver. }
  pose proof (tlb_ext_trans _ _ _ _ Hx Hxc) as Hxx.
  eexists own2, _, kc. split.
  { unfold ptmap_physical. mstep. unfold id. rewrite (bind_ret_l _ _ _ _ _ E1).
    rewrite (bind_ret_l _ _ _ _ _ E2). reflexivity. }
  split. { unfold ptmap. rewrite (bind_ret_l _ _ _ _ _ Ea). by rewrite (bind_ret_l _ _ _ _ _ Eb). }
  split; [by destruct Hrc|]. split; [by eapply same_rest_trans|]. split; [done|].
  pose proof (grown_trans _ _ _ _ _ _ _ _ Hg1 Hg2) as (_ & Hst & _ & _ & Hnew). split; [lia|].
  split; [done|]. split; [|exact Hnew]. split.
  - split; [|split; [by rewrite (sr_list _ _ Hrc)|by rewrite (sr_max _ _ Hrc)]].
    eapply shape_ext; [exact Htc|]. rewrite (sr_base _ _ Hrc), Hsc. by eapply leaf_shape.
  - rewrite (sr_base _ _ Hrc), (sr_base _ _ Hr). by eapply tlb_ok_after.
Qed.
End Ptmap.

(** ** ptunmap *)
Section Ptunmap.
Context (own : Z -> option node) (k : K) (vpn pfn flags : Z).
Hypothesis Hok : pt_ok own k.
Hypothesis Hvpn : managed (VPN 2 vpn).
Hypothesis Hpfn : 0 <= pfn < 17592186044416.
Hypothesis Hflags : 0 <= flags < 1024.
Hypothesis Hwalk : walk (tab k) (pt_base k) vpn = Some (pfn, PTE pfn flags).

Lemma mapped_levels : exists f g,
  tab k (pt_base k) (VPN 2 vpn) = PTE f PTE_VALID /\ own f = Some (L1 (VPN 2 vpn)) /\
  tab k f (VPN 1 vpn) = PTE g PTE_VALID /\ own g = Some (L0 (VPN 2 vpn) (VPN 1 vpn)) /\
  tab k g (VPN 0 vpn) = PTE pfn flags.
Proof using All.
  destruct Hok as [(Hs & _) _]. rewrite (walk_pte_at Hs vpn Hvpn) in Hwalk. revert Hwalk.
  unfold pte_at. pose proof (VPN_range 1 vpn) as Hj.
  destruct (is_valid (tab k (pt_base k) (VPN 2 vpn))) eqn:E2; [|done].
  destruct (upper2 Hs (VPN 2 vpn) Hvpn E2) as (f & Ef & -> & _ & Hf & _).
  destruct (is_valid (tab k f (VPN 1 vpn))) eqn:E1; [|done].
  destruct (upper1 Hs f (VPN 2 vpn) (VPN 1 vpn) Hf Hj E1) as (g & Eg & -> & _ & Hg & _).
  unfold leaf_of. destruct (is_valid _ && is_leaf _); [|done]. intros [= _ E]. by exists f, g.
Qed.

Lemma ptunmap_addr1 : Z.lor (Z.shiftl (VPN 2 vpn) 12) (Z.shiftl (VPN 1 vpn) 3) =
  ent_addr (VPN 2 vpn) (VPN 1 vpn).
Proof using Type.
  pose proof (VPN_range 1 vpn) as Hj. rewrite (Z.shiftl_mul_pow2 _ 12) by lia.
  by apply ent_addr_lor.
Qed.
Lemma ptunmap_addr0 :
  Z.lor (Z.lor (Z.shiftl (VPN 2 vpn) 21) (Z.shiftl (VPN 1 vpn) 12)) (Z.shiftl (VPN 0 vpn) 3) =
  ent_addr (VPN 2 vpn * 512 + VPN 1 vpn) (VPN 0 vpn).
Proof using Type.
  pose proof (VPN_range 1 vpn) as Hj. pose proof (VPN_range 0 vpn) as Hy.
  rewrite (Z.shiftl_mul_pow2 _ 21), (Z.shiftl_mul_pow2 _ 12) by lia.
  rewrite lor_shift_add by lia. rewrite <- ent_addr_lor by lia. f_equal. lia.
Qed.

(** Opening both levels is what ptmap does where they are there. *)
Lemma open_levels f g :
  tab k (pt_base k) (VPN 2 vpn) = PTE f PTE_VALID -> own f = Some (L1 (VPN 2 vpn)) ->
  tab k f (VPN 1 vpn) = PTE g PTE_VALID -> own g = Some (L0 (VPN 2 vpn) (VPN 1 vpn)) ->
  exists ka kb, ptmap_l2 true vpn k = Ret (tt, ka) /\ ptmap_l1 true vpn ka = Ret (tt, kb) /\
    at_state k ka (tset (pt_base k) (VPN 2 vpn) (PTE f RW) (tab k)) /\ good (tlb ka) (VPN 2 vpn) f /\
    at_state k kb (tset f (VPN 1 vpn) (PTE g RW) (tab k)) /\
    tlb_ext (window k vpn f g) (tlb k) (tlb kb) /\ hit (tlb kb) (VPN 2 vpn) f /\
    good (tlb kb) (VPN 2 vpn * 512 + VPN 1 vpn) g.
Proof using All.
  intros Ef Hof Eg Hog. destruct Hok as [(Hs & Hl & Hm) Ht].
  pose proof (sh_root _ _ _ _ Hs) as Hor. pose proof (sh_frame _ _ _ _ _ _ Hs Hor) as Hr.
  pose proof (sh_frame _ _ _ _ _ _ Hs Hof) as Hf. pose proof (sh_frame _ _ _ _ _ _ Hs Hog) as Hg.
  assert (f <> pt_base k /\ g <> pt_base k /\ g <> f) as (N1 & N2 & N3) by (repeat split; congruence).
  pose proof (VPN_range 2 vpn) as Hi. pose proof (VPN_range 1 vpn) as Hj.
  pose proof (sh_own _ _ _ _ Hs _ _ Hor) as Hrs. pose proof (sh_own _ _ _ _ Hs _ _ Hof) as Hfs.
  destruct (flags_V f Hf) as (Vf & _), (flags_V g Hg) as (Vg & _).
  assert (good (tlb k) (VPN 2 vpn) f) as Gi.
  { intros g' e Hc. destruct (to_l1 _ _ _ Ht _ g' e Hvpn Hc) as (Hp & E & ?).
    split; [apply PTE_inj; congruence|done]. }
  assert (good (tlb k) (VPN 2 vpn * 512 + VPN 1 vpn) g) as Gq.
  { intros g' e Hc. destruct (to_l0 _ _ _ Ht _ _ g' e Hvpn Hj Hc) as (Hp & ? & f' & E & E' & ?).
    assert (f' = f) as -> by (apply PTE_inj; congruence). split; [apply PTE_inj; congruence|done]. }
  assert (forall u h, (u, h) ∈ window k vpn f g -> forall h', (u, h') ∈ window k vpn f g -> h' = h) as Hfun.
  { intros u h Hh h' Hh'. apply window_in in Hh, Hh'. lia. }
  assert ((1, pt_base k) ∈ window k vpn f g) as W1 by set_solver.
  assert ((VPN 2 vpn, f) ∈ window k vpn f g) as Wi by set_solver.
  assert ((VPN 2 vpn * 512 + VPN 1 vpn, g) ∈ window k vpn f g) as Wq by set_solver.
  pose proof (proj1 (proj1 Hvpn)) as Hi2.
  destruct (ptmap_l2_ok vpn (pt_base k) Hi2 Hr (window k vpn f g) true k f k) as (ka & Ea & Ha & Hxa);
    try done; try apply Hs; try lia; [congruence|by apply phys_level_found|apply Ht|].
  assert (forall u h, good (tlb k) u h -> (u, h) ∈ window k vpn f g -> good (tlb ka) u h) as Hgk.
  { intros u h Hgu Hin. eapply tlb_ext_good; [exact Hxa|done|]. by apply Hfun. }
  destruct (ptmap_l1_ok vpn (pt_base k) Hi2 Hr (window k vpn f g) true ka k f g k)
    as (kb & Eb & Hb & Hxb & Hh); try done; try apply Hs; try lia; try (by apply Hgk);
    [congruence|by apply phys_level_found|apply Hgk; [apply Ht|done]|].
  exists ka, kb. do 3 (split; [done|]). split; [by apply Hgk|]. split; [done|].
  split; [by eapply tlb_ext_trans|]. split; [done|].
  eapply tlb_ext_good; [exact Hxb|by apply Hgk|]. by apply Hfun.
Qed.

(** The steps of ptunmap up to the leaf. *)
Lemma ptunmap_opens f g (K0 : M KernelPT.K Z) ka kb :
  tab k (pt_base k) (VPN 2 vpn) = PTE f PTE_VALID -> 0 <= f < 17592186044416 -> f <> pt_base k ->
  tab k f (VPN 1 vpn) = PTE g PTE_VALID -> 0 <= g < 17592186044416 ->
  ptmap_l2 true vpn k = Ret (tt, ka) -> ptmap_l1 true vpn ka = Ret (tt, kb) ->
  at_state k ka (tset (pt_base k) (VPN 2 vpn) (PTE f RW) (tab k)) -> good (tlb ka) (VPN 2 vpn) f ->
  (e ← vload true (ent_addr 1 (VPN 2 vpn));
   if negb (is_valid e) then panic else
   set_flags true (ent_addr 1 (VPN 2 vpn)) RW;;
   e1 ← vload true (ent_addr (VPN 2 vpn) (VPN 1 vpn));
   if negb (is_valid e1) then panic else
   set_flags true (ent_addr (VPN 2 vpn) (VPN 1 vpn)) RW;;
   set_flags true (ent_addr 1 (VPN 2 vpn)) PTE_VALID;; K0) k = K0 kb.
Proof using All.
  intros Ef Hf Hfr Eg Hg Ea Eb [Hra _ Hta] Gi. destruct Hok as [(Hs & _) Ht].
  pose proof (sh_root _ _ _ _ Hs) as Hor. pose proof (sh_frame _ _ _ _ _ _ Hs Hor) as Hr.
  pose proof (VPN_range 2 vpn) as Hi. pose proof (VPN_range 1 vpn) as Hj.
  pose proof (proj1 (proj1 Hvpn)) as Hi2.
  destruct (flags_V f Hf) as (Vf & _), (flags_V g Hg) as (Vg & _).
  unfold ptmap_l2 in Ea. unfold ptmap_l1 in Eb. rewrite pte2_addr in Ea, Eb by done.
  rewrite pte1_addr in Eb by done.
  destruct (vload_ok true k 1 (pt_base k) (VPN 2 vpn) ltac:(lia) Hi (to_root _ _ _ Ht)) as (c1 & E1 & _);
    [|done|]. { intros _. apply walk_page1; [done|apply Hs..]. }
  rewrite (bind_ret_l _ _ _ _ _ E1), Ef, Vf in Ea. rewrite (bind_ret_l _ _ _ _ _ E1), Ef, Vf.
  cbn [negb] in Ea |- *.
  rewrite (bind_ret_l _ _ _ _ _ Ea).
  destruct (vload_ok true ka (VPN 2 vpn) f (VPN 1 vpn) ltac:(lia) Hj Gi) as (c2 & E2 & _); [|done|].
  { intros _. rewrite (sr_base _ _ Hra). apply walk_page_l1; try done; rewrite Hta.
    - rewrite tset_ne by lia. apply Hs.
    - by rewrite tset_eq. }
  rewrite Hta, tset_ne, Eg in E2 by (by left).
  rewrite (bind_ret_l _ _ _ _ _ E2), Vg in Eb. rewrite (bind_ret_l _ _ _ _ _ E2), Vg.
  cbn [negb] in Eb |- *. apply bind_Ret in Eb as ([] & kc & E3 & E4).
  by rewrite (bind_ret_l _ _ _ _ _ E3), (bind_ret_l _ _ _ _ _ E4).
Qed.

(** The state after the leaf is invalid again. *)
Lemma unmapped_leaf f g kd :
  tab k (pt_base k) (VPN 2 vpn) = PTE f PTE_VALID -> own f = Some (L1 (VPN 2 vpn)) ->
  tab k f (VPN 1 vpn) = PTE g PTE_VALID -> own g = Some (L0 (VPN 2 vpn) (VPN 1 vpn)) ->
  same_rest k kd -> pfn_start kd = pfn_start k ->
  (forall f' x, tab kd f' x = tset g (VPN 0 vpn) (PTE pfn 0) (tab k) f' x) ->
  tlb_ext (window k vpn f g) (tlb k) (tlb kd) ->
  pt_ok own kd /\
  (forall v, managed (VPN 2 v) -> walk (tab kd) (pt_base kd) v =
     if decide (VPN 2 v = VPN 2 vpn /\ VPN 1 v = VPN 1 vpn /\ VPN 0 v = VPN 0 vpn)
     then None else walk (tab k) (pt_base k) v).
Proof using All.
  intros Ef Hof Eg Hog Hr Hs' Htk Hxx. pose proof Hok as [(Hs & Hl & Hm) Ht].
  pose proof (sh_frame _ _ _ _ _ _ Hs (sh_root _ _ _ _ Hs)) as Hrt.
  pose proof (sh_frame _ _ _ _ _ _ Hs Hof) as Hf. pose proof (sh_frame _ _ _ _ _ _ Hs Hog) as Hg.
  pose proof (sh_root _ _ _ _ Hs) as Hor.
  assert (f <> pt_base k /\ g <> pt_base k /\ g <> f) as (N1 & N2 & N3) by (repeat split; congruence).
  pose proof (leaf_shape Hs g _ (VPN 0 vpn) (PTE pfn 0) Hog ltac:(done) ltac:(done)) as Hsl.
  pose proof (sr_base _ _ Hr) as Hbd. split.
  - split; [split; [|split; [by rewrite <- Hl; apply Hr|by rewrite <- (sr_max _ _ Hr) in Hm]]|].
    + eapply shape_ext; [exact Htk|]. rewrite Hbd. by rewrite Hs'.
    + rewrite Hbd. apply (tlb_ok_edit own k vpn Hok Hvpn f g); try done; rewrite ?Htk.
      * intros f' m x Hf' Hm' _. rewrite Htk. apply tset_ne. left. intros ->.
        rewrite Hog in Hf'. injection Hf' as <-. by eapply Hm'.
      * by rewrite tset_ne by lia.
      * by rewrite tset_ne by lia.
  - intros v Hv. rewrite (walk_ext _ _ _ _ Htk), Hbd.
    destruct (flags_V f Hf) as (Vf & _ & Pf), (flags_V g Hg) as (Vg & _ & Pg).
    rewrite (leaf_walk Hs g vpn (PTE pfn 0) v); rewrite ?Ef, ?Pf, ?Eg; try done.
    case_decide; [|done]. cbn [leaf_of]. by rewrite is_valid_PTE by (done || lia).
Qed.

Lemma ptunmap_ok : exists k', ptunmap true vpn k = Ret (pfn, k') /\ same_rest k k' /\
  pfn_start k' = pfn_start k /\ pt_ok own k' /\
  (forall v, managed (VPN 2 v) -> walk (tab k') (pt_base k') v =
     if decide (VPN 2 v = VPN 2 vpn /\ VPN 1 v = VPN 1 vpn /\ VPN 0 v = VPN 0 vpn)
     then None else walk (tab k) (pt_base k) v).
Proof using All.
  destruct mapped_levels as (f & g & Ef & Hof & Eg & Hog & Ey).
  destruct (open_levels f g Ef Hof Eg Hog) as (ka & kb & Ea & Eb & Ha & Gia & [Hrb Hsb Htb] & Hx & Hh & Gq).
  pose proof Hok as [(Hs & Hl & Hm) Ht].
  pose proof (sh_root _ _ _ _ Hs) as Hor. pose proof (sh_frame _ _ _ _ _ _ Hs Hor) as Hr.
  pose proof (sh_frame _ _ _ _ _ _ Hs Hof) as Hf. pose proof (sh_frame _ _ _ _ _ _ Hs Hog) as Hg.
  assert (f <> pt_base k /\ g <> pt_base k /\ g <> f) as (N1 & N2 & N3) by (repeat split; congruence).
  pose proof (VPN_range 2 vpn) as Hi. pose proof (VPN_range 1 vpn) as Hj. pose proof (VPN_range 0 vpn) as Hy.
  pose proof (proj1 (proj1 Hvpn)) as Hi2.
  unfold ptunmap. rewrite pte2_addr, ptunmap_addr1, ptunmap_addr0 by done.
  rewrite (ptunmap_opens f g _ ka kb Ef Hf N1 Eg Hg Ea Eb Ha Gia).
  set (q := VPN 2 vpn * 512 + VPN 1 vpn) in *.
  assert (walk (tab kb) (pt_base kb) q = Some (g, PTE g RW)) as Wq.
  { rewrite (sr_base _ _ Hrb). apply (walk_page_l0 _ _ Hr) with (f := f); try done; rewrite Htb.
    - rewrite tset_ne by lia. apply Hs.
    - by rewrite tset_ne by lia.
    - by rewrite tset_eq. }
  destruct (vload_ok true kb q g (VPN 0 vpn) ltac:(subst q; lia) Hy Gq ltac:(done) Hg) as (c1 & E1 & C1).
  assert (tab kb g (VPN 0 vpn) = PTE pfn flags) as Eyb by (rewrite Htb, tset_ne by lia; done).
  rewrite (bind_ret_l _ _ _ _ _ E1), Eyb.
  destruct (set_flags_ok true (set_tlb c1 kb) q g (VPN 0 vpn) ltac:(subst q; lia) Hy
    ltac:(apply hit_good, C1) ltac:(intros; exact Wq) Hg pfn flags 0 Eyb Hpfn Hflags ltac:(lia)) as (c2 & E2 & C2).
  rewrite (bind_ret_l _ _ _ _ _ E2). cbn [tlb tab set_tlb] in *.
  set (kc := set_tab _ _).
  assert (hit (tlb kc) (VPN 2 vpn) f) as Hh2.
  { eapply cached_more_hit; [exact C2| |subst q; lia]. eapply cached_more_hit; [exact C1|done|subst q; lia]. }
  destruct (set_flags_ok true kc (VPN 2 vpn) f (VPN 1 vpn) ltac:(lia) Hj (hit_good _ _ _ Hh2)
    ltac:(intros [Hn|Hn]; [done|]; destruct Hh2 as (e & Hn' & _); congruence) Hf g RW PTE_VALID
    ltac:(cbn; rewrite tset_ne by lia; rewrite Htb, tset_eq; done) Hg ltac:(by vm_compute) ltac:(by vm_compute))
    as (c3 & E3 & C3).
  rewrite (bind_ret_l _ _ _ _ _ E3). eexists. split; [by rewrite GET_PFN_PTE|].
  assert (forall f' x, tab (set_tab (tset f (VPN 1 vpn) (PTE g PTE_VALID) (tab kc)) (set_tlb c3 kc)) f' x =
    tset g (VPN 0 vpn) (PTE pfn 0) (tab k) f' x) as Htk.
  { intros f' x. cbn. unfold tset. rewrite Htb. unfold tset.
    destruct (Z.eqb_spec f' g), (Z.eqb_spec x (VPN 0 vpn)), (Z.eqb_spec f' f), (Z.eqb_spec x (VPN 1 vpn));
      cbn; congruence. }
  set (kd := set_tab (tset f _ _ _) _) in *.
  assert (tlb_ext (window k vpn f g) (tlb k) (tlb kd)) as Hxx.
  { eapply tlb_ext_more; [|exact C3|set_solver]. eapply tlb_ext_more; [|exact C2|set_solver].
    eapply tlb_ext_more; [exact Hx|exact C1|set_solver]. }
  assert (same_rest k kd) as Hrd by (by destruct Hrb). split; [done|]. split; [done|].
  by apply (unmapped_leaf f g).
Qed.
End Ptunmap.

(** The walk after ptmap. *)
Lemma ptmap_walk_ok own k vpn pfn flags :
  pt_ok own k -> managed (VPN 2 vpn) -> pfn_start k + 2 <= max_pfn k ->
  0 <= pfn < 17592186044416 -> 0 <= flags < 1024 ->
  is_valid flags = true -> is_leaf flags = true ->
  exists own' k', ptmap true vpn pfn flags k = Ret (tt, k') /\ pt_ok own' k' /\ same_rest k k' /\
    pfn_start k <= pfn_start k' <= pfn_start k + 2 /\
    (forall f m, own' f = Some m -> own f = Some m \/ pfn_start k <= f) /\
    (forall v, managed (VPN 2 v) -> walk (tab k') (pt_base k') v =
       if decide (VPN 2 v = VPN 2 vpn /\ VPN 1 v = VPN 1 vpn /\ VPN 0 v = VPN 0 vpn)
       then Some (pfn, PTE pfn flags) else walk (tab k) (pt_base k) v).
Proof.
  intros Hok Hv Hroom Hp Hfl Hval Hleaf.
  destruct (ptmap_ok own k vpn Hok Hv Hroom pfn flags)
    as (own' & k1 & k2 & E1 & E2 & H1 & Hr & _ & Hst & H3 & Hok' & Hnew).
  destruct (ptmap_physical_ok true own k vpn pfn flags (proj1 Hok) Hv Hroom)
    as (own'' & k1' & E1' & _ & _ & _ & Hw). rewrite E1 in E1'. injection E1' as <-.
  exists own', k2. do 5 (split; [done|]). intros v Hv'.
  rewrite (walk_ext (tab k1)), (sr_base _ _ H1), Hw by done.
  case_decide; [|done]. cbn [leaf_of].
  by rewrite is_valid_PTE, is_leaf_PTE, pte_ppn_PTE, Hval, Hleaf by done.
Qed.

(** C18: ptmap, which reaches the tables through the recursive mapping of the
    root and opens and closes their entries as it goes, does to them exactly
    what ptmap_physical does through physical addresses, on a machine that
    retains translations: same frames allocated, same entries, nothing else.
    Afterwards the Sv39 walk of the page gives the frame and the flags, every
    other page outside the recursive window translates as before, and the page
    table is a tree with a fitting cache again. *)
Theorem ptmap_refines_physical own k vpn pfn flags :
  pt_ok own k -> managed (VPN 2 vpn) -> pfn_start k + 2 <= max_pfn k ->
  exists k1 k2, ptmap_physical true vpn pfn flags k = Ret (tt, k1) /\
    ptmap true vpn pfn flags k = Ret (tt, k2) /\ same_rest k1 k2 /\
    pfn_start k2 = pfn_start k1 /\ (forall f x, tab k2 f x = tab k1 f x) /\
    (0 <= pfn < 17592186044416 -> 0 <= flags < 1024 -> is_valid flags = true -> is_leaf flags = true ->
     exists own', pt_ok own' k2 /\
       forall v, managed (VPN 2 v) -> walk (tab k2) (pt_base k2) v =
         if decide (VPN 2 v = VPN 2 vpn /\ VPN 1 v = VPN 1 vpn /\ VPN 0 v = VPN 0 vpn)
         then Some (pfn, PTE pfn flags) else walk (tab k) (pt_base k) v).
Proof.
  intros Hok Hv Hr. destruct (ptmap_ok own k vpn Hok Hv Hr pfn flags)
    as (own' & k1 & k2 & E1 & E2 & H1 & _ & H2 & _ & H3 & _). exists k1, k2. do 5 (split; [done|]).
  intros Hp Hfl Hval Hleaf. destruct (ptmap_walk_ok own k vpn pfn flags Hok Hv Hr Hp Hfl Hval Hleaf)
    as (own2 & k' & E & Hok' & _ & _ & _ & Hw). rewrite E2 in E. injection E as <-. by exists own2.
Qed.

(** Ptunmap of a mapped page returns its frame, after which that page has
    no translation and every other page outside the window keeps its own; no
    frame is allocated and the tree and its cache stay well formed. *)
Theorem ptunmap_walk own k vpn pfn flags :
  pt_ok own k -> managed (VPN 2 vpn) -> 0 <= pfn < 17592186044416 -> 0 <= flags < 1024 ->
  walk (tab k) (pt_base k) vpn = Some (pfn, PTE pfn flags) ->
  exists k', ptunmap true vpn k = Ret (pfn, k') /\ pt_ok own k' /\ pfn_start k' = pfn_start k /\
    (forall v, managed (VPN 2 v) -> walk (tab k') (pt_base k') v =
       if decide (VPN 2 v = VPN 2 vpn /\ VPN 1 v = VPN 1 vpn /\ VPN 0 v = VPN 0 vpn)
       then None else walk (tab k) (pt_base k) v).
Proof.
  intros Hok Hv Hp Hfl Hw.
  destruct (ptunmap_ok own k vpn pfn flags Hok Hv Hp Hfl Hw) as (k' & E & _ & Hst & Hok' & Hw').
  by exists k'.
Qed.

(** Frames are handed out upwards, so a frame set aside stays out of the tree. *)
Lemma pt_ok_skip own k :
  pt_ok own k -> pfn_start k < max_pfn k ->
  pt_ok own (set_pfn_start (pfn_start k + 1) k).
Proof.
  intros [([H1 H2 H3 H4 H5 H6 H7 H8] & Hl & Hm) Ht] Hlt. split; [|done]. split; [|done].
  split; try done; cbn; [|lia]. intros f n Hf. specialize (H2 f n Hf). lia.
Qed.

(** palloc_ptr with what it keeps. *)
Lemma palloc_ptr_ok own k vpn flags :
  pt_ok own k -> managed (VPN 2 vpn) -> pfn_start k + 3 <= max_pfn k ->
  0 <= flags < 1024 -> is_valid flags = true -> is_leaf flags = true ->
  exists own' k', palloc_ptr true vpn flags k = Ret (pfn_start k, k') /\ pt_ok own' k' /\
    pt_base k' = pt_base k /\ max_pfn k' = max_pfn k /\
    own' (pfn_start k) = None /\ pfn_start k < pfn_start k' <= pfn_start k + 3 /\
    vmem k' = memset (vmem k) (PAGE_2_ADDR vpn) 0 PAGESIZE /\
    (forall v, managed (VPN 2 v) -> walk (tab k') (pt_base k') v =
       if decide (VPN 2 v = VPN 2 vpn /\ VPN 1 v = VPN 1 vpn /\ VPN 0 v = VPN 0 vpn)
       then Some (pfn_start k, PTE (pfn_start k) flags) else walk (tab k) (pt_base k) v).
Proof.
  intros Hok Hv Hroom Hfl Hval Hleaf. pose proof Hok as [(Hs & Hl & Hm) Ht].
  pose proof (sh_own _ _ _ _ Hs _ _ (sh_root _ _ _ _ Hs)) as Hr.
  destruct (ptmap_walk_ok own _ vpn (pfn_start k) flags (pt_ok_skip own k Hok ltac:(lia)) Hv)
    as (own' & k' & E & Hok' & Hrest & Hst & Hnew & Hw); [cbn; lia|lia|done..|].
  eexists own', _. split.
  { unfold palloc_ptr. mstep. unfold id. rewrite Hl. cbn [Z.eqb negb].
    destruct (Z.leb_spec (max_pfn k) (pfn_start k)); [lia|]. cbn zeta. mstep.
    rewrite u64_small by lia. rewrite (bind_ret_l _ _ _ _ _ E). mstep. reflexivity. }
  split; [destruct Hok' as [Hk' Ht']; by split|]. split; [apply Hrest|]. split; [apply Hrest|]. split.
  { destruct (own' (pfn_start k)) as [m|] eqn:Eo; [|done].
    destruct (Hnew _ _ Eo) as [Ho|Hge]; [|cbn in Hge; lia].
    pose proof (sh_own _ _ _ _ Hs _ _ Ho). lia. }
  cbn in *. split; [lia|]. split; [by rewrite (sr_vmem _ _ Hrest)|]. done.
Qed.

(** Palloc_ptr takes the next frame, maps the page to it and clears the
    page; the frame is not one of the page table's own, and all other
    translations stay. *)
Theorem palloc_ptr_maps own k vpn flags :
  pt_ok own k -> managed (VPN 2 vpn) -> pfn_start k + 3 <= max_pfn k ->
  0 <= flags < 1024 -> is_valid flags = true -> is_leaf flags = true ->
  exists own' k', palloc_ptr true vpn flags k = Ret (pfn_start k, k') /\ pt_ok own' k' /\
    own' (pfn_start k) = None /\ pfn_start k < pfn_start k' <= pfn_start k + 3 /\
    vmem k' = memset (vmem k) (PAGE_2_ADDR vpn) 0 PAGESIZE /\
    (forall v, managed (VPN 2 v) -> walk (tab k') (pt_base k') v =
       if decide (VPN 2 v = VPN 2 vpn /\ VPN 1 v = VPN 1 vpn /\ VPN 0 v = VPN 0 vpn)
       then Some (pfn_start k, PTE (pfn_start k) flags) else walk (tab k) (pt_base k) v).
Proof.
  intros Hok Hv Hroom Hfl Hval Hleaf.
  destruct (palloc_ptr_ok own k vpn flags Hok Hv Hroom Hfl Hval Hleaf)
    as (own' & k' & E & Hok' & _ & _ & Hrest). by exists own', k'.
Qed.

(** C38: on a machine that walks the tables at every access ptmap faults: its
    last store goes through a page of the recursive window whose entry it has
    already closed. *)
Theorem ptmap_needs_cached_translation own k vpn pfn flags :
  pt_ok own k -> managed (VPN 2 vpn) -> pfn_start k + 2 <= max_pfn k ->
  ptmap false vpn pfn flags k = Fault.
Proof.
  intros Hok Hv Hroom.
  destruct (levels_ok own k vpn Hok Hv Hroom false) as (f & g & own1 & k1 & own2 & k2 & Hlv).
  destruct (ptmap_upper own k vpn Hok Hv Hroom false f g own1 k1 own2 k2 Hlv)
    as (ka & kb & Ea & Eb & [Hrb Hsb Htb] & _ & _).
  destruct Hlv as [E1 E2 Hk1 Hk2 Ho1 Ho2 Ht1 Ht2 Ht1' Hg1 Hg2 Hr1 Hr2 (Hf & Hfr & Hfs) (Hg & Hgr & Hgf) Gi Gq].
  destruct Hok as [(Hs & _) Ht]. pose proof Hk2 as (Hs2 & _).
  pose proof (same_rest_trans _ _ _ Hr1 Hr2) as Hr.
  pose proof (VPN_range 2 vpn) as Hi. pose proof (VPN_range 1 vpn) as Hj. pose proof (VPN_range 0 vpn) as Hy.
  pose proof (sh_frame _ _ _ _ _ _ Hs (sh_root _ _ _ _ Hs)) as Hroot.
  unfold ptmap. rewrite (bind_ret_l _ _ _ _ _ Ea), (bind_ret_l _ _ _ _ _ Eb).
  assert (pt_base kb = pt_base k) as Hb by (by rewrite (sr_base _ _ Hrb), (sr_base _ _ Hr)).
  assert (tab k2 (pt_base k) 0 = PTE (pt_base k) PTE_VALID) as H0
    by (rewrite <- (sr_base _ _ Hr); apply Hs2).
  unfold ptmap_l0. rewrite pte1_addr, pte0_addr by lia.
  set (q := VPN 2 vpn * 512 + VPN 1 vpn).
  destruct (ent_addr_page q (VPN 0 vpn) ltac:(subst q; lia) Hy) as [Ep Ee].
  destruct (flags_RW g Hg) as (_ & _ & _ & Hperm).
  assert (walk (tab kb) (pt_base kb) q = Some (g, PTE g RW)) as Wq.
  { rewrite Hb. apply (walk_page_l0 _ _ Hroot) with (f := f); try done; try lia.
    - rewrite Htb, tset_ne by lia. done.
    - rewrite Htb, tset_ne by lia. done.
    - by rewrite Htb, tset_eq. }
  unfold vstore. rewrite Ep. unfold translate at 1. cbn [cached].
  unfold mbind at 1, M_bind at 1. unfold mbind at 1, M_bind at 1. rewrite Wq, Hperm. cbn [modify].
  unfold set_flags, vload. destruct (ent_addr_page (VPN 2 vpn) (VPN 1 vpn) ltac:(lia) Hj) as [-> _].
  unfold translate, mbind, M_bind. cbn [cached tab set_tab set_tlb pt_base].
  rewrite Hb, (walk_page_l1_closed _ (pt_base k) Hroot) with (f := f); try done; try lia.
  - rewrite Ee, tset_ne by lia. rewrite Htb, tset_ne by lia. done.
  - rewrite Ee, tset_ne by lia. rewrite Htb, tset_ne by lia. done.
Qed.

(** Ptunmap panics on a page one of whose upper tables is missing. *)
Theorem ptunmap_unmapped own k vpn :
  pt_ok own k -> managed (VPN 2 vpn) -> is_valid (tab k (pt_base k) (VPN 2 vpn)) = false ->
  ptunmap true vpn k = Panic.
Proof.
  intros [(Hs & _) Ht] Hv Hinv. pose proof (VPN_range 2 vpn) as Hi.
  pose proof (sh_frame _ _ _ _ _ _ Hs (sh_root _ _ _ _ Hs)) as Hr.
  unfold ptunmap. rewrite pte2_addr by lia.
  destruct (vload_ok true k 1 (pt_base k) (VPN 2 vpn) ltac:(lia) Hi (to_root _ _ _ Ht)) as (c & E & _);
    [|done|]. { intros _. apply walk_page1; [done|apply Hs..]. }
  by rewrite (bind_ret_l _ _ _ _ _ E), Hinv.
Qed.

(** ** The properties at a concrete state *)
(** A root at frame 528900 with only its recursive entries. *)
Definition root0 : Z := 528900.
Definition own0 (f : Z) : option node := if f =? root0 then Some Root else None.
Definition kpt0 : K :=
  mkK (fun _ => 255) (tset root0 1 (PTE root0 RW) (tset root0 0 (PTE root0 PTE_VALID) (fun _ _ => 0)))
    (fun _ => None) root0 (root0 + 1) 557056 0.

Lemma kpt0_ok : pt_ok own0 kpt0.
Proof.
  split.
  - split; [|done]. split.
    + done.
    + intros f n. unfold own0. destruct (Z.eqb_spec f root0); [|done]. intros _. subst.
      unfold root0. cbn. unfold root0. lia.
    + cbn. unfold root0. lia.
    + done.
    + done.
    + intros i Hi. cbn. rewrite !tset_ne by lia. done.
    + intros f i j. unfold own0. by destruct (f =? root0).
    + done.
  - split; done.
Qed.

(** The first page of the kernel heap, 0xffffffe000000000. *)
Definition heap_vpn : Z := 4503599593816064.

Lemma heap_managed : managed (VPN 2 heap_vpn).
Proof. replace (VPN 2 heap_vpn) with 384 by reflexivity. lia. Qed.

Lemma ptmap_refines_physical_witness :
  exists k1 k2, ptmap_physical true heap_vpn 530000 RW kpt0 = Ret (tt, k1) /\
    ptmap true heap_vpn 530000 RW kpt0 = Ret (tt, k2) /\ (forall f x, tab k2 f x = tab k1 f x) /\
    walk (tab k2) (pt_base k2) heap_vpn = Some (530000, PTE 530000 RW).
Proof.
  destruct (ptmap_refines_physical own0 kpt0 heap_vpn 530000 RW kpt0_ok)
    as (k1 & k2 & E1 & E2 & _ & _ & Ht & Hw).
  - apply heap_managed.
  - cbn; unfold root0; lia.
  - exists k1, k2. split; [exact E1|]. split; [exact E2|]. split; [exact Ht|].
    destruct Hw as (own' & _ & Hw); [lia|change RW with 7; lia|reflexivity|reflexivity|].
    rewrite Hw; [rewrite decide_True; [reflexivity|auto]|]. apply heap_managed.
Defined.

Lemma palloc_ptr_maps_witness :
  exists k', palloc_ptr true heap_vpn RW kpt0 = Ret (root0 + 1, k') /\
    walk (tab k') (pt_base k') heap_vpn = Some (root0 + 1, PTE (root0 + 1) RW).
Proof.
  destruct (palloc_ptr_maps own0 kpt0 heap_vpn RW kpt0_ok) as (own' & k' & E & _ & _ & _ & _ & Hw).
  - apply heap_managed.
  - cbn; unfold root0; lia.
  - change RW with 7; lia.
  - reflexivity.
  - reflexivity.
  - exists k'. split; [exact E|]. rewrite Hw; [rewrite decide_True; [reflexivity|auto]|].
    apply heap_managed.
Defined.

Lemma ptmap_needs_cached_translation_witness : ptmap false heap_vpn 530000 RW kpt0 = Fault.
Proof.
  apply (ptmap_needs_cached_translation own0 kpt0 heap_vpn 530000 RW kpt0_ok).
  - apply heap_managed.
  - cbn; unfold root0; lia.
Defined.

Lemma ptunmap_unmapped_witness : ptunmap true heap_vpn kpt0 = Panic.
Proof.
  apply (ptunmap_unmapped own0 kpt0 heap_vpn kpt0_ok).
  - apply heap_managed.
  - reflexivity.
Defined.

Lemma ptunmap_walk_witness :
  exists k k', ptmap true heap_vpn 530000 RW kpt0 = Ret (tt, k) /\
    ptunmap true heap_vpn k = Ret (530000, k') /\ walk (tab k') (pt_base k') heap_vpn = None.
Proof.
  assert (managed (VPN 2 heap_vpn)) as Hm by apply heap_managed.
  destruct (ptmap_walk_ok own0 kpt0 heap_vpn 530000 RW kpt0_ok Hm) as (own' & k & E & Hok & _ & _ & _ & Hw).
  - cbn; unfold root0; lia.
  - lia.
  - change RW with 7; lia.
  - reflexivity.
  - reflexivity.
  - destruct (ptunmap_walk own' k heap_vpn 530000 RW Hok Hm) as (k' & E' & _ & _ & Hw').
    + lia.
    + change RW with 7; lia.
    + rewrite Hw by exact Hm. rewrite decide_True; [reflexivity|auto].
    + exists k, k'. split; [exact E|]. split; [exact E'|]. rewrite Hw' by exact Hm.
      rewrite decide_True; [reflexivity|auto].
Defined.
