(* ===== verification/PTInit.v ===== *)
(** * init_pagetable: the page table the kernel starts paging with

    The loops of init_pagetable over ptmap_physical, and the translations the
    finished table has: the kernel's sections and the virtio pages map to
    themselves, the trampoline to its code. *)
From S2P Require Import Prelude Mem KernelPT PTBits KernelPTSpec KernelPTRec.
Import KernelPT.

(** Pages of the lower 128 GiB that are neither in the recursive window nor
    in the device region: where the kernel is linked. *)
Definition kernel_page (v : Z) : Prop := 524288 <= v < 33554432.
(** The virtio MMIO pages, 0x10000000 - 0x101fffff. *)
Definition dev_page (v : Z) : Prop := 65536 <= v < 66048.

Lemma kernel_page_managed v : kernel_page v -> managed (VPN 2 v).
Proof. unfold kernel_page. rewrite VPN2. intros. dlia. Qed.

Lemma VPN_split v : 0 <= v < 134217728 -> v = VPN 2 v * 262144 + VPN 1 v * 512 + VPN 0 v.
Proof. rewrite VPN0, VPN1, VPN2. intros. dlia. Qed.

Lemma kernel_page_eq v w :
  kernel_page v -> kernel_page w ->
  (VPN 2 v = VPN 2 w /\ VPN 1 v = VPN 1 w /\ VPN 0 v = VPN 0 w) <-> v = w.
Proof.
  unfold kernel_page. intros Hv Hw. split; [|by intros ->]. intros (E2 & E1 & E0).
  rewrite (VPN_split v), (VPN_split w) by lia. congruence.
Qed.

Lemma dev_page_VPN v : dev_page v -> VPN 2 v = 0 /\ VPN 1 v = 128 /\ VPN 0 v = v - 65536.
Proof. unfold dev_page. rewrite VPN0, VPN1, VPN2. intros. dlia. Qed.

Section Init.
Context (r : bool).

(** A mapping loop maps exactly its pages. *)
Lemma map_range_ok n : forall own k p flags,
  kinv own k -> (forall v, p <= v < p + Z.of_nat n -> kernel_page v) ->
  pfn_start k + 2 * Z.of_nat n <= max_pfn k -> 0 <= flags < 1024 ->
  is_valid flags = true -> is_leaf flags = true ->
  exists own' k', map_range r n p flags k = Ret (tt, k') /\ kinv own' k' /\ same_rest k k' /\
    pfn_start k <= pfn_start k' <= pfn_start k + 2 * Z.of_nat n /\
    (forall v, kernel_page v -> walk (tab k') (pt_base k') v =
       if decide (p <= v < p + Z.of_nat n) then Some (v, PTE v flags)
       else walk (tab k) (pt_base k) v).
Proof.
  induction n as [|n IH]; intros own k p flags Hk Hp Hroom Hfl Hval Hleaf; cbn [map_range].
  - exists own, k. split; [done|]. split; [done|]. split; [done|]. split; [lia|].
    intros v _. by rewrite decide_False by lia.
  - assert (kernel_page p) as Hkp by (apply Hp; lia).
    destruct (ptmap_physical_ok r own k p p flags Hk (kernel_page_managed p Hkp) ltac:(lia))
      as (own1 & k1 & E1 & Hk1 & Hr1 & Hs1 & Hw1).
    destruct (IH own1 k1 (p + 1) flags Hk1) as (own2 & k2 & E2 & Hk2 & Hr2 & Hs2 & Hw2); try done.
    { intros v Hv. apply Hp. lia. } { rewrite (sr_max _ _ Hr1). lia. }
    exists own2, k2. split; [by rewrite (bind_ret_l _ _ _ _ _ E1)|]. split; [done|].
    split; [by eapply same_rest_trans|]. split; [lia|].
    intros v Hv. rewrite Hw2 by done. destruct (decide (p + 1 <= v < p + 1 + Z.of_nat n)).
    { by rewrite decide_True by lia. }
    rewrite Hw1 by by apply kernel_page_managed.
    destruct (decide (v = p)) as [->|Hne].
    + rewrite decide_True by done. rewrite decide_True by lia. cbn [leaf_of].
      unfold kernel_page in Hkp.
      by rewrite is_valid_PTE, is_leaf_PTE, pte_ppn_PTE, Hval, Hleaf by (done || lia).
    + rewrite decide_False by (rewrite kernel_page_eq by done; done).
      by rewrite decide_False by lia.
Qed.

(** The walk of a device page goes through the root twice. *)
Lemma dev_walk own t root start v :
  shape own t root start -> dev_page v ->
  walk t root v =
  if is_valid (t root 128) then leaf_of (Some (t (pte_ppn (t root 128)) (VPN 0 v))) else None.
Proof.
  intros Hs Hv. destruct (dev_page_VPN v Hv) as (E2 & E1 & _).
  pose proof (sh_frame _ _ _ _ _ _ Hs (sh_root _ _ _ _ Hs)) as Hr.
  destruct (flags_V root Hr) as (Vr & Lr & Pr).
  unfold walk. rewrite E2, E1, (sh_rec0 _ _ _ _ Hs), Vr, Lr, Pr. cbn [negb].
  destruct (is_valid (t root 128)) eqn:E; cbn [negb]; [|done].
  destruct (sh_dev _ _ _ _ Hs E) as (f & Ef & Hf).
  destruct (flags_V f (sh_frame _ _ _ _ _ _ Hs Hf)) as (_ & Lf & _).
  rewrite Ef, Lf, <- Ef. done.
Qed.

(** Mapping a device page: the kernel's pages keep their translations. *)
Lemma ptmap_dev_ok own k v flags :
  kinv own k -> dev_page v -> pfn_start k < max_pfn k -> 0 <= flags < 1024 ->
  is_valid flags = true -> is_leaf flags = true ->
  exists own' k', ptmap_physical r v v flags k = Ret (tt, k') /\ kinv own' k' /\ same_rest k k' /\
    pfn_start k <= pfn_start k' <= pfn_start k + 1 /\
    (forall w, managed (VPN 2 w) -> walk (tab k') (pt_base k') w = walk (tab k) (pt_base k) w) /\
    (forall w, dev_page w -> walk (tab k') (pt_base k') w =
       if decide (w = v) then Some (v, PTE v flags) else walk (tab k) (pt_base k) w).
Proof.
  intros Hk Hv Hroom Hfl Hval Hleaf. destruct (dev_page_VPN v Hv) as (E2 & E1 & E0).
  pose proof Hk as (Hs & _). pose proof (sh_frame _ _ _ _ _ _ Hs (sh_root _ _ _ _ Hs)) as Hr.
  destruct (phys_level_ok r own k 1 v (pt_base k) Dev Hk) as
    (f & own1 & k1 & Ep & Hk1 & Ho1 & Ht1 & Hg1 & Hr1 & _); [right; right; by rewrite E1|done|].
  pose proof Hk1 as (Hs1 & Hl1 & Hm1). pose proof (sh_frame _ _ _ _ _ _ Hs1 Ho1) as Hf.
  pose proof (leaf_shape Hs1 f _ (VPN 0 v) (PTE v flags) Ho1 ltac:(done) ltac:(done)) as Hs2.
  assert (f <> pt_base k) as Hfr.
  { intros ->. pose proof (sh_root _ _ _ _ Hs1) as H. rewrite (sr_base _ _ Hr1) in H. congruence. }
  destruct Hg1 as (Hown & Hst & Hkeep & Hw & _). rewrite E1 in Ht1.
  destruct (flags_V f Hf) as (Vf & _ & Pf).
  eexists own1, _. split.
  { unfold ptmap_physical. mstep. unfold id.
    rewrite (bind_ret_l _ _ _ _ _ (phys_level_found r 2 v (pt_base k) k (pt_base k)
      ltac:(rewrite E2; apply Hs) Hr)).
    rewrite (bind_ret_l _ _ _ _ _ Ep). reflexivity. }
  split; [done|]. split; [by destruct Hr1|]. split; [cbn; lia|]. cbn. split.
  - intros w Hw2. rewrite <- (Hw w Hw2), (walk_pte_at Hs2 w Hw2), (walk_pte_at Hs1 w Hw2).
    assert (forall g m z, own1 g = Some m -> m <> Dev ->
      tset f (VPN 0 v) (PTE v flags) (tab k1) g z = tab k1 g z) as Hk2.
    { intros g m z Hg Hm. apply tset_ne. left. congruence. }
    unfold pte_at. rewrite (Hk2 _ Root) by (done || apply Hs1).
    destruct (is_valid (tab k1 (pt_base k1) (VPN 2 w))) eqn:A; [|done].
    destruct (upper2 Hs1 (VPN 2 w) Hw2 A) as (g & _ & -> & _ & Hg & _). rewrite (Hk2 _ _ _ Hg) by done.
    destruct (is_valid (tab k1 g (VPN 1 w))) eqn:B; [|done].
    destruct (upper1 Hs1 g _ (VPN 1 w) Hg (VPN_range 1 w) B) as (h & _ & -> & _ & Hh & _).
    by rewrite (Hk2 _ _ _ Hh).
  - intros w Hwd. destruct (dev_page_VPN w Hwd) as (_ & _ & E0w).
    rewrite (dev_walk own1 _ _ _ w Hs2 Hwd), (sr_base _ _ Hr1), tset_ne by (left; done).
    rewrite Ht1, Vf, Pf. unfold tset. rewrite Z.eqb_refl, E0w, E0. cbn [andb].
    destruct (decide (w = v)) as [->|Hne].
    + rewrite Z.eqb_refl. unfold dev_page in Hv. cbn [leaf_of].
      by rewrite is_valid_PTE, is_leaf_PTE, pte_ppn_PTE, Hval, Hleaf by (done || lia).
    + destruct (Z.eqb_spec (w - 65536) (v - 65536)); [lia|].
      rewrite (dev_walk own _ _ _ w Hs Hwd), E0w.
      destruct (is_valid (tab k (pt_base k) 128)) eqn:A.
      * destruct (sh_dev _ _ _ _ Hs A) as (g & Eg & Hg).
        rewrite (Hkeep _ Root 128 (sh_root _ _ _ _ Hs) A), Eg in Ht1.
        pose proof (sh_frame _ _ _ _ _ _ Hs Hg) as Hgr.
        rewrite !PTE_sum in Ht1 by (done || unfold PTE_VALID; lia).
        assert (g = f) as -> by lia. rewrite Eg, Pf. f_equal. f_equal.
        destruct (is_valid (tab k f (w - 65536))) eqn:B; [by eapply Hkeep|].
        (* an entry that was free is still free *)
        unfold phys_level, mbind, M_bind in Ep. cbn in Ep. rewrite E1, A in Ep. cbn in Ep.
        by injection Ep as _ <-.
      * unfold phys_level in Ep. unfold mbind at 1, M_bind at 1 in Ep. cbn [gets] in Ep.
        unfold id in Ep. cbn zeta in Ep. rewrite E1, A in Ep. cbn [negb] in Ep.
        rewrite (bind_ret_l _ _ _ _ _ (palloc_next r k (proj1 (proj2 Hk)) Hroom
          ltac:(pose proof (sh_own _ _ _ _ Hs _ _ (sh_root _ _ _ _ Hs)); lia) (proj2 (proj2 Hk)))) in Ep.
        injection Ep as <- <-. cbn. rewrite tset_ne by (left; done). by rewrite tzero_eq.
Qed.
End Init.

Lemma map_devices_ok r l : forall own k,
  kinv own k -> Forall (fun h => dev_page (ADDR_2_PAGE h)) l ->
  pfn_start k + Z.of_nat (length l) <= max_pfn k ->
  exists own' k', map_devices r l k = Ret (tt, k') /\ kinv own' k' /\ same_rest k k' /\
    (forall w, managed (VPN 2 w) -> walk (tab k') (pt_base k') w = walk (tab k) (pt_base k) w) /\
    (forall w, dev_page w -> walk (tab k') (pt_base k') w =
       if decide (w ∈ ADDR_2_PAGE <$> l) then Some (w, PTE w RW) else walk (tab k) (pt_base k) w).
Proof.
  induction l as [|h l IH]; intros own k Hk Hd Hroom; cbn [map_devices].
  - exists own, k. do 4 (split; [done|]). intros w _. by rewrite decide_False by set_solver.
  - apply Forall_cons in Hd as [Hh Hd]. cbn [length] in Hroom.
    destruct (ptmap_dev_ok r own k (ADDR_2_PAGE h) RW Hk Hh ltac:(lia) ltac:(by vm_compute) eq_refl eq_refl)
      as (own1 & k1 & E1 & Hk1 & Hr1 & Hs1 & Hw1 & Hd1).
    destruct (IH own1 k1 Hk1 Hd) as (own2 & k2 & E2 & Hk2 & Hr2 & Hw2 & Hd2).
    { rewrite (sr_max _ _ Hr1). lia. }
    exists own2, k2. split; [by rewrite (bind_ret_l _ _ _ _ _ E1)|]. split; [done|].
    split; [by eapply same_rest_trans|]. split; [intros w Hw; by rewrite Hw2, Hw1|].
    intros w Hw. rewrite Hd2, Hd1 by done. rewrite fmap_cons.
    destruct (decide (w ∈ ADDR_2_PAGE <$> l)); [by rewrite decide_True by set_solver|].
    destruct (decide (w = ADDR_2_PAGE h)) as [->|]; [by rewrite decide_True by set_solver|].
    by rewrite decide_False by set_solver.
Qed.

(** The link order of the sections: text, read-only data, data and bss, each
    ending in a page of its own, within the kernel's pages. *)
Record layout_ok (ly : layout) : Prop := {
  lo_low : 2147483648 <= stext ly;
  lo_text : stext ly <= etext ly <= srodata ly;
  lo_tr : ADDR_2_PAGEUP (etext ly) <= ADDR_2_PAGE (srodata ly);
  lo_ro : srodata ly <= erodata ly <= sdata ly;
  lo_rd : ADDR_2_PAGEUP (erodata ly) <= ADDR_2_PAGE (sdata ly);
  lo_data : sdata ly <= ebss ly;
  lo_high : ebss ly <= 137438953472;
  lo_tramp : 0 <= strampoline ly < 137438953472;
}.

Definition table_pages (ly : layout) : Z :=
  Z.of_nat (pages (stext ly) (etext ly)) + Z.of_nat (pages (srodata ly) (erodata ly)) +
  Z.of_nat (pages (sdata ly) (ebss ly)).

Lemma pages_range lo hi : 0 <= lo <= hi -> hi < 18446744073709551616 ->
  ADDR_2_PAGE lo + Z.of_nat (pages lo hi) = ADDR_2_PAGEUP hi.
Proof.
  intros. unfold pages. rewrite ADDR_2_PAGE_div, ADDR_2_PAGEUP_ceil by lia. dlia.
Qed.

(** The tree with nothing but a root. *)
Lemma root_only own k b :
  (forall f, own f = if f =? b then Some Root else None) -> 0 <= b < 17592186044416 ->
  pt_base k = b -> pfn_start k = b + 1 -> pfreelist k = 0 -> max_pfn k <= 17592186044416 ->
  (forall f i, tab k f i = tset b 1 (PTE b RW) (tset b 0 (PTE b PTE_VALID) (tzero b (tab k))) f i) ->
  kinv own k.
Proof.
  intros Ho Hb Ebase Est Hl Hm Ht. split; [|done]. rewrite Ebase, Est.
  assert (forall i, 2 <= i -> is_valid (tab k b i) = false) as Hz.
  { intros i Hi. by rewrite Ht, !tset_ne, tzero_eq by lia. }
  split.
  - by rewrite Ho, Z.eqb_refl.
  - intros f n. rewrite Ho. destruct (Z.eqb_spec f b); [lia|done].
  - lia.
  - by rewrite Ht, tset_ne, tset_eq by lia.
  - by rewrite Ht, tset_eq.
  - intros i Hi. by rewrite Hz by lia.
  - intros f i j. rewrite Ho. by destruct (f =? b).
  - by rewrite Hz by lia.
Qed.

(** The three ranges of the kernel image, mapped one after the other. *)
Definition text_page (ly : layout) (v : Z) : Prop := ADDR_2_PAGE (stext ly) <= v < ADDR_2_PAGEUP (etext ly).
Definition rodata_page (ly : layout) (v : Z) : Prop := ADDR_2_PAGE (srodata ly) <= v < ADDR_2_PAGEUP (erodata ly).
Definition data_page (ly : layout) (v : Z) : Prop := ADDR_2_PAGE (sdata ly) <= v < ADDR_2_PAGEUP (ebss ly).

Lemma map_image_ok r ly own k0 :
  layout_ok ly -> kinv own k0 -> pfn_start k0 + 2 * table_pages ly <= max_pfn k0 ->
  exists o3 k1 k2 k3,
    map_range r (pages (stext ly) (etext ly)) (ADDR_2_PAGE (stext ly)) 11 k0 = Ret (tt, k1) /\
    map_range r (pages (srodata ly) (erodata ly)) (ADDR_2_PAGE (srodata ly)) 3 k1 = Ret (tt, k2) /\
    map_range r (pages (sdata ly) (ebss ly)) (ADDR_2_PAGE (sdata ly)) RW k2 = Ret (tt, k3) /\
    kinv o3 k3 /\ same_rest k0 k3 /\ pfn_start k3 <= pfn_start k0 + 2 * table_pages ly /\
    (forall v, text_page ly v \/ rodata_page ly v \/ data_page ly v -> kernel_page v) /\
    (forall v, text_page ly v -> walk (tab k3) (pt_base k3) v = Some (v, PTE v 11)) /\
    (forall v, rodata_page ly v -> walk (tab k3) (pt_base k3) v = Some (v, PTE v 3)) /\
    (forall v, data_page ly v -> walk (tab k3) (pt_base k3) v = Some (v, PTE v 7)).
Proof.
  intros [L1' L2 L3 L4 L5 L6 L7 L8] Hk0 Hroom. unfold table_pages, text_page, rodata_page, data_page in *.
  set (n1 := pages (stext ly) (etext ly)) in *. set (n2 := pages (srodata ly) (erodata ly)) in *.
  set (n3 := pages (sdata ly) (ebss ly)) in *.
  pose proof (pages_range (stext ly) (etext ly) ltac:(lia) ltac:(lia)) as R1.
  pose proof (pages_range (srodata ly) (erodata ly) ltac:(lia) ltac:(lia)) as R2.
  pose proof (pages_range (sdata ly) (ebss ly) ltac:(lia) ltac:(lia)) as R3.
  rewrite (ADDR_2_PAGE_div (stext ly)) in * by lia.
  rewrite (ADDR_2_PAGE_div (srodata ly)) in * by lia.
  rewrite (ADDR_2_PAGE_div (sdata ly)) in * by lia.
  rewrite (ADDR_2_PAGEUP_ceil (etext ly)) in * by lia.
  rewrite (ADDR_2_PAGEUP_ceil (erodata ly)) in * by lia.
  rewrite (ADDR_2_PAGEUP_ceil (ebss ly)) in * by lia.
  set (p1 := stext ly / 4096) in *. set (p2 := srodata ly / 4096) in *. set (p3 := sdata ly / 4096) in *.
  assert (524288 <= p1 /\ p3 + Z.of_nat n3 <= 33554432) as [K1 K2] by (subst p1 p2 p3; dlia).
  destruct (map_range_ok r n1 _ k0 p1 11 Hk0) as (o1 & k1 & E1 & Hk1 & Hr1 & Hs1 & W1);
    [unfold kernel_page; lia|lia|lia|done|done|].
  destruct (map_range_ok r n2 _ k1 p2 3 Hk1) as (o2 & k2 & E2 & Hk2 & Hr2 & Hs2 & W2);
    [unfold kernel_page; lia|rewrite (sr_max _ _ Hr1); lia|lia|done|done|].
  destruct (map_range_ok r n3 _ k2 p3 RW Hk2) as (o3 & k3 & E3 & Hk3 & Hr3 & Hs3 & W3);
    [unfold kernel_page; lia|rewrite (sr_max _ _ Hr2), (sr_max _ _ Hr1); lia|by vm_compute|done|done|].
  exists o3, k1, k2, k3. split; [done|]. split; [done|]. split; [done|]. split; [done|].
  split; [by destruct Hr1, Hr2, Hr3; split; congruence|]. split; [lia|].
  split; [unfold kernel_page; lia|]. split; [|split].
  - intros v Hv. rewrite W3, W2, W1 by (unfold kernel_page; lia).
    rewrite decide_False, decide_False, decide_True by lia. done.
  - intros v Hv. rewrite W3, W2 by (unfold kernel_page; lia).
    rewrite decide_False, decide_True by lia. done.
  - intros v Hv. rewrite W3 by (unfold kernel_page; lia). by rewrite decide_True by lia.
Qed.

(** The kernel's pages: text, read-only data and data/bss at their own frames
    with r-x, r-- and rw- permissions, the trampoline page at the trampoline code,
    and every virtio page at itself. *)
Definition boot_map (ly : layout) (devs : list Z) (k : K) : Prop :=
  let at_page v := walk (tab k) (pt_base k) v in
  (forall v, text_page ly v -> at_page v = Some (v, PTE v 11)) /\
  (forall v, rodata_page ly v -> at_page v = Some (v, PTE v 3)) /\
  (forall v, data_page ly v -> at_page v = Some (v, PTE v 7)) /\
  at_page (ADDR_2_PAGE TRAMPOLINE) =
    Some (ADDR_2_PAGE (strampoline ly), PTE (ADDR_2_PAGE (strampoline ly)) 11) /\
  (forall h, h ∈ devs -> at_page (ADDR_2_PAGE h) = Some (ADDR_2_PAGE h, PTE (ADDR_2_PAGE h) 7)).

(** Init_pagetable builds a tree of tables with the recursive root that maps
    these pages, and touches no byte but those of the tables. *)
Lemma init_pagetable_ok r ly devs k :
  layout_ok ly -> Forall (fun h => dev_page (ADDR_2_PAGE h)) devs ->
  pfreelist k = 0 -> max_pfn k <= 17592186044416 -> 0 <= ekernel ly < 18446744073709551616 ->
  ADDR_2_PAGE (ekernel ly) + 3 + 2 * table_pages ly + Z.of_nat (length devs) <= max_pfn k ->
  exists own k', init_pagetable r ly devs k = Ret (tt, k') /\ kinv own k' /\ boot_map ly devs k' /\ vmem k' = vmem k.
Proof.
  intros HL Hdev Hl Hm Hek Hroom. pose proof HL as [_ _ _ _ _ _ L7 L8].
  assert (0 <= table_pages ly) as Htb by (unfold table_pages; lia).
  set (b := ADDR_2_PAGE (ekernel ly)) in *.
  assert (0 <= b < 17592186044416) as Hb by (subst b; rewrite ADDR_2_PAGE_div in * by lia; dlia).
  set (k0 := set_tab (tset b 1 (PTE b RW) (tset b 0 (PTE b PTE_VALID) (tzero b (tab k))))
    (set_pt_base b (set_pfn_start (b + 1) k))).
  assert (kinv (fun f => if f =? b then Some Root else None) k0) as Hk0.
  { apply (root_only _ k0 b); try done. intros f i. cbn. unfold tset, tzero.
    destruct (Z.eqb_spec f b), (Z.eqb_spec i 0), (Z.eqb_spec i 1); done. }
  assert (pfn_start k0 = b + 1 /\ max_pfn k0 = max_pfn k) as [P0 M0] by done.
  destruct (map_image_ok r ly _ k0 HL Hk0) as
    (o3 & k1 & k2 & k3 & E1 & E2 & E3 & Hk3 & Hr3 & Hs3 & Hkp & Wt & Wr & Wd); [lia|]. pose proof (sr_max _ _ Hr3) as Hm3.
  set (tv := ADDR_2_PAGE TRAMPOLINE). set (tp := ADDR_2_PAGE (strampoline ly)).
  assert (0 <= tp < 17592186044416) as Htp by (subst tp; rewrite ADDR_2_PAGE_div by lia; dlia).
  assert (VPN 2 tv = 511) as Htv by reflexivity.
  destruct (ptmap_physical_ok r o3 k3 tv tp 11 Hk3 ltac:(rewrite Htv; lia))
    as (o4 & k4 & E4 & Hk4 & Hr4 & Hs4 & W4); [lia|].
  destruct (map_devices_ok r devs o4 k4 Hk4 Hdev) as (o5 & k5 & E5 & Hk5 & Hr5 & W5 & D5);
    [rewrite (sr_max _ _ Hr4); lia|].
  exists o5, k5. split.
  { unfold init_pagetable. fold b. mstep.
    rewrite (bind_ret_l _ _ _ _ _ (palloc_next r (set_pfn_start b k) Hl
      ltac:(cbn; lia) ltac:(cbn; lia) Hm)). repeat mstep.
    rewrite (bind_ret_l _ _ _ _ _ E1).
    rewrite (bind_ret_l _ _ _ _ _ E2), (bind_ret_l _ _ _ _ _ E3), (bind_ret_l _ _ _ _ _ E4). done. }
  split; [done|]. split; [|by rewrite (sr_vmem _ _ Hr5), (sr_vmem _ _ Hr4), (sr_vmem _ _ Hr3)]. unfold boot_map. cbn zeta. fold tv tp.
  assert (forall v, kernel_page v -> walk (tab k5) (pt_base k5) v = walk (tab k3) (pt_base k3) v) as W45.
  { intros v Hv. rewrite W5, W4 by by apply kernel_page_managed. rewrite decide_False; [done|].
    intros (E & _). pose proof (VPN2 v) as Hv2. unfold kernel_page in Hv. rewrite E, Htv in Hv2. dlia. }
  split; [|split; [|split; [|split]]].
  - intros v Hv. rewrite W45; [by apply Wt|]. apply Hkp. by left.
  - intros v Hv. rewrite W45; [by apply Wr|]. apply Hkp. by right; left.
  - intros v Hv. rewrite W45; [by apply Wd|]. apply Hkp. by right; right.
  - rewrite W5, W4 by (rewrite Htv; lia). rewrite decide_True by done. cbn [leaf_of].
    by rewrite is_valid_PTE, is_leaf_PTE, pte_ppn_PTE by (done || lia).
  - intros h Hh. rewrite D5 by (eapply (proj1 (Forall_forall _ _) Hdev); done).
    rewrite decide_True; [done|]. by apply list_elem_of_fmap_2.
Qed.

(** The layout of an image linked at 0x80200000, with the eight virtio slots of
    the board. *)
Definition layout0 : layout :=
  mkLayout 2149580800 2149608001 2149609472 2149613000 2149613568 2149650000 2149650432 2149580800.
Definition devs0 : list Z := (fun i => 268439552 + 4096 * Z.of_nat i) <$> seq 0 8.
Definition kboot : K := mkK (fun _ => 255) (fun _ _ => 4660) (fun _ => None) 0 0 557056 0.
