(* ===== verification/Alloc.v ===== *)
(** * The page allocators (kernel/pagetable.c: dmalloc, dmafree, kalloc, kfree)

    Two first-fit free lists threaded through the free pages themselves: DMA
    pages keep the frame number of the first page of a run, kernel heap pages
    do not.  A list whose pages are distinct has at most as many nodes as there
    are pages between the base of the region and its break, which is the fuel of
    the search loops. *)
From S2P Require Import Prelude Mem KernelPT.
Import KernelPT.

Module Alloc.

Record A := mkA {
  km : K;
  ptfreelist : Z;
  vfreelist : Z;
  ptbrk : Z;
  kbrk : Z;
}.

Definition set_km (k : K) (a : A) : A := mkA k (ptfreelist a) (vfreelist a) (ptbrk a) (kbrk a).
Definition set_ptfreelist (p : Z) (a : A) : A := mkA (km a) p (vfreelist a) (ptbrk a) (kbrk a).
Definition set_vfreelist (p : Z) (a : A) : A := mkA (km a) (ptfreelist a) p (ptbrk a) (kbrk a).
Definition set_ptbrk (p : Z) (a : A) : A := mkA (km a) (ptfreelist a) (vfreelist a) p (kbrk a).
Definition set_kbrk (p : Z) (a : A) : A := mkA (km a) (ptfreelist a) (vfreelist a) (ptbrk a) p.

Definition amem (a : A) : mem := vmem (km a).
Definition set_amem (m : mem) (a : A) : A := set_km (set_vmem m (km a)) a.
Definition on_mem (f : mem -> mem) : M A unit := modify (fun a => set_amem (f (amem a)) a).

Definition in_km {X} (m : M K X) : M A X := fun a =>
  match m (km a) with
  | Ret (x, k) => Ret (x, set_km k a)
  | Panic => Panic | Fault => Fault | NoFuel => NoFuel
  end.

(** The initial values of ptbrk and kbrk. *)
Definition PTBRK0 : Z := 4294967296.
Definition KBRK0 : Z := 18446743936270598144.

(** Writes to the fields of a FreeNode. *)
Definition put_size (p v : Z) : M A unit := on_mem (fun m => store64 m p v).
Definition put_pfn (p v : Z) : M A unit := on_mem (fun m => store64 m (p + 8) v).
Definition put_next (p v : Z) : M A unit := on_mem (fun m => store64 m (p + 16) v).

(** Where the search of a free list ends: at a run that is long enough, or
    past the end. *)
Inductive found := Run (prev p : Z) | Exhausted.

Fixpoint search (fuel : nat) (m : mem) (pages prev p : Z) : outcome found :=
  match fuel with
  | O => NoFuel
  | S k =>
      if p =? 0 then Ret Exhausted
      else if pages <=? fn_size m p then Ret (Run prev p)
      else search k m pages p (fn_next m p)
  end.

Definition list_fuel (base brk : Z) : nat := S (Z.to_nat (ADDR_2_PAGE brk - ADDR_2_PAGE base)).

Section Machine.
Variable retain : bool.

(** Map the pages [vpn + i] to the frames [pfn + i]. *)
Fixpoint ptmap_run (n : nat) (vpn pfn : Z) : M K unit :=
  match n with
  | O => mret tt
  | S n' => ptmap retain vpn pfn RW;; ptmap_run n' (vpn + 1) (pfn + 1)
  end.

Definition dmalloc (pages : Z) (zeroing : bool) : M A (Z * Z) :=
  a ← gets id;
  r ← lift (search (list_fuel PTBRK0 (ptbrk a)) (amem a) pages 0 (ptfreelist a));
  match r with
  | Run prev p =>
      let m := amem a in
      let pfn := fn_pfn m p in
      (if pages <? fn_size m p then
         let newp := u64 (p + u64 (pages * PAGESIZE)) in
         put_next newp (fn_next m p);;
         put_size newp (u64 (fn_size m p - pages));;
         put_pfn newp (u64 (fn_pfn m p + pages));;
         (if negb (prev =? 0) then put_next prev newp else modify (set_ptfreelist newp))
       else
         (if negb (prev =? 0) then put_next prev (fn_next m p)
          else modify (set_ptfreelist (fn_next m p))));;
      when zeroing (on_mem (fun m => memset m p 0 (u64 (pages * PAGESIZE))));;
      mret (pfn, ADDR_2_PAGE p)
  | Exhausted =>
      let ans := ptbrk a in
      let vpn := ADDR_2_PAGE ans in
      modify (set_ptbrk (u64 (ans + u64 (pages * PAGESIZE))));;
      if pages =? 1 then
        pfn ← in_km (palloc_ptr retain vpn RW);
        mret (pfn, vpn)
      else
        let pfn := pfn_start (km a) in
        if max_pfn (km a) <? u64 (pfn + pages) then panic
        else
          in_km (modify (set_pfn_start (u64 (pfn + pages))));;
          in_km (ptmap_run (Z.to_nat pages) vpn pfn);;
          when zeroing (on_mem (fun m => memset m ans 0 (u64 (pages * PAGESIZE))));;
          mret (pfn, vpn)
  end.

Definition dmafree (pfn vpn pages : Z) : M A unit :=
  a ← gets id;
  let free_head := PAGE_2_ADDR vpn in
  put_size free_head pages;;
  put_pfn free_head pfn;;
  put_next free_head (ptfreelist a);;
  modify (set_ptfreelist free_head).

(** [for (i = 0; i < pages; i++) { palloc_ptr(kbrk); kbrk += PAGESIZE; }] *)
Fixpoint kgrow (n : nat) : M A unit :=
  match n with
  | O => mret tt
  | S n' =>
      a ← gets id;
      in_km (palloc_ptr retain (ADDR_2_PAGE (kbrk a)) RW);;
      modify (set_kbrk (u64 (kbrk a + PAGESIZE)));;
      kgrow n'
  end.

Definition kalloc (size : Z) : M A Z :=
  if size =? 0 then mret 0 else
  let pages := ADDR_2_PAGEUP size in
  a ← gets id;
  r ← lift (search (list_fuel KBRK0 (kbrk a)) (amem a) pages 0 (vfreelist a));
  match r with
  | Run prev p =>
      let m := amem a in
      (if pages <? fn_size m p then
         let newp := u64 (p + u64 (pages * PAGESIZE)) in
         put_next newp (fn_next m p);;
         put_size newp (u64 (fn_size m p - pages));;
         (if negb (prev =? 0) then put_next prev newp else modify (set_vfreelist newp))
       else
         (if negb (prev =? 0) then put_next prev (fn_next m p)
          else modify (set_vfreelist (fn_next m p))));;
      on_mem (fun m => memset m p 0 (u64 (pages * PAGESIZE)));;
      mret p
  | Exhausted =>
      let ans := kbrk a in
      kgrow (Z.to_nat pages);;
      on_mem (fun m => memset m ans 0 (u64 (pages * PAGESIZE)));;
      mret ans
  end.

Definition kfree (ptr size : Z) : M A unit :=
  if size =? 0 then mret tt else
  let pages := ADDR_2_PAGEUP size in
  a ← gets id;
  put_size ptr pages;;
  put_next ptr (vfreelist a);;
  modify (set_vfreelist ptr).

End Machine.
End Alloc.
