(* ===== verification/AllocList.v ===== *)
(** * Free lists in memory

    [flseg b m h l t]: following the next pointers from [h] through the memory
    [m] visits the runs [l] and arrives at [t]; [b] tells whether the nodes
    carry frame numbers.  The pages of a list are [pages_of]. *)
From S2P Require Import Prelude Mem KernelPT Alloc.
Import KernelPT Alloc.

Record run := mkRun { r_vpn : Z; r_size : Z; r_pfn : Z }.
Definition r_addr (r : run) : Z := r_vpn r * 4096.
Definition r_pages (r : run) : list Z := seqZ (r_vpn r) (r_size r).
Definition pages_of (l : list run) : list Z := l ≫= r_pages.

Definition run_ok (base top : Z) (r : run) : Prop :=
  1 <= r_size r /\ base <= r_vpn r /\ r_vpn r + r_size r <= top.

Section Lists.
Context (b : bool).

Definition node_at (m : mem) (h : Z) (r : run) : Prop :=
  h = r_addr r /\ fn_size m h = r_size r /\ (b = true -> fn_pfn m h = r_pfn r).

Fixpoint flseg (m : mem) (h : Z) (l : list run) (t : Z) : Prop :=
  match l with
  | [] => h = t
  | r :: l' => node_at m h r /\ flseg m (fn_next m h) l' t
  end.

Lemma flseg_app m h l1 l2 t :
  flseg m h (l1 ++ l2) t <-> exists h', flseg m h l1 h' /\ flseg m h' l2 t.
Proof.
  revert h. induction l1 as [|r l1 IH]; intros h; cbn [flseg app].
  - split; [eauto|]. by intros (h' & -> & ?).
  - rewrite IH. naive_solver.
Qed.

(** Only the headers of the nodes matter. *)
Definition header (r : run) (x : Z) : Prop := r_addr r <= x < r_addr r + 24.

Lemma node_fields_ext m m' p :
  (forall x, p <= x < p + 24 -> m' x = m x) ->
  fn_size m' p = fn_size m p /\ fn_pfn m' p = fn_pfn m p /\ fn_next m' p = fn_next m p.
Proof.
  intros He. unfold fn_size, fn_pfn, fn_next, load64.
  repeat split; apply load_le_ext; intros; apply He; lia.
Qed.

Lemma flseg_ext m m' h l t :
  (forall r x, r ∈ l -> header r x -> m' x = m x) -> flseg m h l t -> flseg m' h l t.
Proof.
  revert h. induction l as [|r l IH]; intros h He; cbn [flseg]; [done|].
  intros ((-> & Hs & Hp) & Hl).
  destruct (node_fields_ext m m' (r_addr r)) as (E1 & E2 & E3).
  { intros x Hx. apply (He r); [set_solver|done]. }
  unfold node_at. rewrite E1, E2, E3. split; [done|]. apply IH; [|done].
  intros r' x Hr'. apply He. set_solver.
Qed.

Lemma elem_of_pages l v :
  v ∈ pages_of l <-> exists r, r ∈ l /\ r_vpn r <= v < r_vpn r + r_size r.
Proof.
  unfold pages_of. rewrite list_elem_of_bind. unfold r_pages. setoid_rewrite elem_of_seqZ. naive_solver.
Qed.

Lemma pages_of_app l1 l2 : pages_of (l1 ++ l2) = pages_of l1 ++ pages_of l2.
Proof. apply bind_app. Qed.

Lemma pages_of_cons r l : pages_of (r :: l) = r_pages r ++ pages_of l.
Proof. done. Qed.

(** Distinct runs of a list without repeated pages do not touch. *)
Lemma pages_disjoint pre r post r' v v' :
  NoDup (pages_of (pre ++ r :: post)) -> r' ∈ pre ++ post ->
  r_vpn r <= v < r_vpn r + r_size r -> r_vpn r' <= v' < r_vpn r' + r_size r' -> v <> v'.
Proof.
  rewrite pages_of_app, pages_of_cons. intros Hn Hin Hv Hv' <-.
  apply NoDup_app in Hn as (_ & Hd & Hn). apply NoDup_app in Hn as (_ & Hd2 & _).
  assert (v ∈ r_pages r) as Hr by (by apply elem_of_seqZ).
  apply elem_of_app in Hin as [Hin|Hin].
  - apply (Hd v); [|set_solver]. apply elem_of_pages. eauto.
  - apply (Hd2 v Hr). apply elem_of_pages. eauto.
Qed.

(** ** The first-fit search *)
Lemma search_found fuel m pages prev h pre r post t :
  flseg m h (pre ++ r :: post) t -> Forall (fun r => 0 < r_vpn r) (pre ++ [r]) ->
  Forall (fun r => r_size r < pages) pre -> pages <= r_size r -> (length pre < fuel)%nat ->
  search fuel m pages prev h =
  Ret (Run (match last pre with Some q => r_addr q | None => prev end) (r_addr r)).
Proof.
  revert prev h pre. induction fuel as [|fuel IH]; intros prev h pre Hs Hp Hpre Hfit Hf; [lia|].
  destruct pre as [|q pre]; cbn [search].
  - cbn [flseg app] in Hs. destruct Hs as ((-> & Hsz & _) & _). apply Forall_cons in Hp as [Hp _].
    unfold r_addr at 1. destruct (Z.eqb_spec (r_vpn r * 4096) 0); [lia|].
    rewrite Hsz. destruct (Z.leb_spec pages (r_size r)); [done|lia].
  - cbn [flseg app] in Hs. destruct Hs as ((-> & Hsz & _) & Hs). cbn in Hp. apply Forall_cons in Hp as [Hq Hp].
    apply Forall_cons in Hpre as [Hqs Hpre].
    unfold r_addr at 1. destruct (Z.eqb_spec (r_vpn q * 4096) 0); [lia|].
    rewrite Hsz. destruct (Z.leb_spec pages (r_size q)); [lia|].
    rewrite (IH _ _ pre Hs Hp Hpre Hfit) by (cbn in Hf; lia).
    destruct pre as [|q' pre]; [done|]. rewrite last_cons_cons.
    by destruct (last (q' :: pre)) eqn:E; [|apply last_None in E].
Qed.

Lemma search_exhausted fuel m pages prev h l :
  flseg m h l 0 -> Forall (fun r => 0 < r_vpn r) l -> Forall (fun r => r_size r < pages) l ->
  (length l < fuel)%nat -> search fuel m pages prev h = Ret Exhausted.
Proof.
  revert prev h l. induction fuel as [|fuel IH]; intros prev h l Hs Hp Hl Hf; [lia|].
  destruct l as [|q l]; cbn [search].
  - cbn in Hs. by subst.
  - cbn [flseg app] in Hs. destruct Hs as ((-> & Hsz & _) & Hs). apply Forall_cons in Hp as [Hq Hp].
    apply Forall_cons in Hl as [Hqs Hl].
    unfold r_addr at 1. destruct (Z.eqb_spec (r_vpn q * 4096) 0); [lia|].
    rewrite Hsz. destruct (Z.leb_spec pages (r_size q)); [lia|].
    apply (IH _ _ l); try done. cbn in Hf. lia.
Qed.

(** Every list has a first run that fits, or none. *)
Lemma first_fit pages l :
  (exists pre r post, l = pre ++ r :: post /\ Forall (fun r => r_size r < pages) pre /\ pages <= r_size r) \/
  Forall (fun r => r_size r < pages) l.
Proof.
  induction l as [|r l IH]; [by right|]. destruct (decide (pages <= r_size r)) as [Hr|Hr].
  - left. by exists [], r, l.
  - destruct IH as [(pre & r' & post & -> & Hpre & Hr')|Hl].
    + left. exists (r :: pre), r', post. split; [done|]. split; [|done]. constructor; [lia|done].
    + right. constructor; [lia|done].
Qed.

(** The runs of a list without repeated pages are at most as many as the
    pages they lie in. *)
Lemma runs_le_pages base top l :
  NoDup (pages_of l) -> Forall (run_ok base top) l -> (length l <= Z.to_nat (top - base))%nat.
Proof.
  intros Hn Hl. assert (length l <= length (pages_of l))%nat as H1.
  { clear Hn. induction Hl as [|r l [Hs _] Hl IH]; [done|]. rewrite pages_of_cons, length_app.
    unfold r_pages. rewrite length_seqZ. cbn. lia. }
  assert (length (pages_of l) <= length (seqZ base (top - base)))%nat as H2.
  { apply submseteq_length, NoDup_submseteq; [done|]. intros v (r & Hr & Hv)%elem_of_pages.
    apply elem_of_seqZ. eapply Forall_forall in Hl as (? & ? & ?); [|exact Hr]. lia. }
  rewrite length_seqZ in H2. lia.
Qed.
End Lists.
