(* ===== verification/AllocSpec.v ===== *)
(** * dmalloc and dmafree keep the DMA heap

    Taking a run out of a free list and putting one back, on the level of the
    pages of the list; then dmalloc and dmafree over the kernel's page table. *)
From S2P Require Import Prelude Mem KernelPT PTBits KernelPTSpec KernelPTRec KernelPTProps Alloc AllocList.
Import KernelPT Alloc.

(** ** Writing nodes *)
Lemma store64_outside m a v x : ~ (a <= x < a + 8) -> store64 m a v x = m x.
Proof. intros. apply store_le_outside. lia. Qed.

Lemma load64_same m a v : 0 <= v < 18446744073709551616 -> load64 (store64 m a v) a = v.
Proof. intros. by apply load_store_same. Qed.

Lemma load64_other m a v b : a + 8 <= b \/ b + 8 <= a -> load64 (store64 m a v) b = load64 m b.
Proof. intros. apply load_store_disjoint. lia. Qed.

Section Take.
Context (b : bool).

(** The last node of a path gets a new successor. *)
Lemma flseg_relink m m' h pre q t t' :
  flseg b m h (pre ++ [q]) t -> (forall r x, r ∈ pre -> header r x -> m' x = m x) ->
  (forall x, r_addr q <= x < r_addr q + 16 -> m' x = m x) -> fn_next m' (r_addr q) = t' ->
  flseg b m' h (pre ++ [q]) t'.
Proof.
  intros (h' & H1 & H2)%flseg_app Hpre Hq Hn. apply flseg_app. exists h'.
  split; [by eapply flseg_ext|]. cbn [flseg] in *. destruct H2 as ((-> & Hs & Hp) & _).
  split; [|done]. split; [done|]. unfold fn_size, fn_pfn, load64 in *. split.
  - rewrite <- Hs. apply load_le_ext. intros; apply Hq; lia.
  - intros Hb. rewrite <- (Hp Hb). apply load_le_ext. intros; apply Hq; lia.
Qed.

(** The memory after a run of [n] pages was taken at [p] with predecessor
    [prev], as the two branches of dmalloc and kalloc leave it. *)
Definition next_head (m : mem) (n p : Z) : Z :=
  if n <? fn_size m p then u64 (p + u64 (n * PAGESIZE)) else fn_next m p.
Definition split_mem (m : mem) (n p : Z) : mem :=
  if n <? fn_size m p then
    let newp := u64 (p + u64 (n * PAGESIZE)) in
    let m1 := store64 (store64 m (newp + 16) (fn_next m p)) newp (u64 (fn_size m p - n)) in
    if b then store64 m1 (newp + 8) (u64 (fn_pfn m p + n)) else m1
  else m.
Definition take_mem (m : mem) (n prev p : Z) (zeroing : bool) : mem :=
  let m2 := if negb (prev =? 0) then store64 (split_mem m n p) (prev + 16) (next_head m n p)
            else split_mem m n p in
  if zeroing then memset m2 p 0 (u64 (n * PAGESIZE)) else m2.

Definition rest_run (r : run) (n : Z) : list run :=
  if n <? r_size r then [mkRun (r_vpn r + n) (r_size r - n) (r_pfn r + n)] else [].

Context (m : mem) (h n base top : Z) (pre : list run) (r : run) (post : list run).
Hypothesis Hl : flseg b m h (pre ++ r :: post) 0.
Hypothesis Hok : Forall (run_ok base top) (pre ++ r :: post).
Hypothesis Hnd : NoDup (pages_of (pre ++ r :: post)).
Hypothesis Hbase : 0 < base.
Hypothesis Htop : top * 4096 < 18446744073709551616.
Hypothesis Hn : 1 <= n <= r_size r.
Hypothesis Hpfn : b = true -> 0 <= r_pfn r /\ r_pfn r + r_size r < 18446744073709551616.

Lemma run_r : run_ok base top r.
Proof using All. eapply Forall_forall in Hok; [exact Hok|set_solver]. Qed.

Lemma rest_pages : pages_of (pre ++ r :: post) ≡ₚ
  seqZ (r_vpn r) n ++ pages_of (pre ++ rest_run r n ++ post).
Proof using All.
  rewrite !pages_of_app, pages_of_cons. unfold r_pages, rest_run.
  replace (r_size r) with (n + (r_size r - n)) at 1 by lia. rewrite seqZ_app by lia.
  destruct (Z.ltb_spec n (r_size r)).
  - rewrite pages_of_cons. unfold r_pages. cbn [r_vpn r_size pages_of mbind list_bind]. solve_Permutation.
  - replace (r_size r - n) with 0 by lia. cbn. rewrite app_nil_r. solve_Permutation.
Qed.

(** Pages of the other runs are not pages of [r]. *)
Lemma other_header r' x :
  r' ∈ pre ++ post -> header r' x -> ~ (r_vpn r * 4096 <= x < (r_vpn r + r_size r) * 4096).
Proof using All.
  intros Hr' Hx Hin. assert (run_ok base top r') as (Hs & _).
  { eapply Forall_forall in Hok; [exact Hok|]. set_solver. }
  unfold header, r_addr in Hx.
  apply (pages_disjoint pre r post r' (x / 4096) (x / 4096) Hnd Hr'); [dlia..|done].
Qed.

Lemma split_outside x :
  ~ (r_vpn r * 4096 <= x < (r_vpn r + r_size r) * 4096) -> split_mem m n (r_addr r) x = m x.
Proof using All.
  intros Hx. unfold split_mem. pose proof Hl as (h' & _ & Hr)%flseg_app. cbn [flseg] in Hr.
  destruct Hr as ((-> & Hs & _) & _). destruct run_r as (Hr1 & Hr2 & Hr3).
  destruct (Z.ltb_spec n (fn_size m (r_addr r))) as [Hlt|]; [|done].
  rewrite Hs in Hlt. unfold r_addr, PAGESIZE in *. rewrite !(u64_small (n * 4096)), !(u64_small (r_vpn r * 4096 + n * 4096)) by lia.
  cbn zeta. destruct b; rewrite ?store64_outside by lia; done.
Qed.

(** The remaining list, before the predecessor is relinked. *)
Lemma split_tail : flseg b (split_mem m n (r_addr r)) (next_head m n (r_addr r)) (rest_run r n ++ post) 0.
Proof using All.
  pose proof Hl as (h' & H1 & H2)%flseg_app. cbn [flseg] in H2. destruct H2 as ((-> & Hs & Hp) & H2).
  destruct run_r as (Hr1 & Hr2 & Hr3).
  assert (flseg b (split_mem m n (r_addr r)) (fn_next m (r_addr r)) post 0) as Hpost.
  { eapply flseg_ext; [|exact H2]. intros r' x Hr' Hx. apply split_outside.
    eapply other_header; [|exact Hx]. set_solver. }
  unfold rest_run, next_head, split_mem in *. rewrite Hs in *.
  destruct (Z.ltb_spec n (r_size r)) as [Hlt|]; [|done].
  unfold PAGESIZE in *. assert (u64 (r_addr r + u64 (n * 4096)) = (r_vpn r + n) * 4096) as En.
  { unfold r_addr. rewrite !u64_small by (rewrite ?u64_small by lia; lia). lia. }
  rewrite En in *. cbn zeta in *. cbn [app flseg].
  assert (0 <= fn_next m (r_addr r) < 18446744073709551616) as Hnx.
  { destruct post as [|r2 post']; cbn [flseg] in H2; [by rewrite H2|]. destruct H2 as ((-> & _) & _).
    assert (run_ok base top r2) as (? & ? & ?) by (eapply Forall_forall in Hok; [exact Hok|set_solver]).
    unfold r_addr. lia. }
  rewrite (u64_small (r_size r - n)) in * by lia.
  unfold node_at, fn_size, fn_pfn, fn_next in *. cbn [r_addr r_vpn r_size r_pfn].
  destruct b.
  - specialize (Hp eq_refl). rewrite Hp in *. destruct (Hpfn eq_refl) as [P1 P2].
    rewrite (u64_small (r_pfn r + n)) in * by lia.
    split; [split; [done|split]|].
    + rewrite load64_other by lia. by apply load64_same; lia.
    + intros _. apply load64_same. lia.
    + rewrite !load64_other by lia. rewrite load64_same by lia. done.
  - split; [split; [done|split]|]; [|done|].
    + apply load64_same. lia.
    + rewrite load64_other by lia. rewrite load64_same by lia. done.
Qed.

Definition prev_addr : Z := match last pre with Some q => r_addr q | None => 0 end.

Lemma rest_in r' : r' ∈ rest_run r n ->
  r' = mkRun (r_vpn r + n) (r_size r - n) (r_pfn r + n) /\ n < r_size r.
Proof using Type.
  unfold rest_run. destruct (Z.ltb_spec n (r_size r)); [|by intros ?%elem_of_nil].
  intros ->%list_elem_of_singleton. done.
Qed.

Lemma take_runs_ok : Forall (run_ok base top) (pre ++ rest_run r n ++ post) /\
  NoDup (pages_of (pre ++ rest_run r n ++ post)).
Proof using All.
  split.
  - apply Forall_app in Hok as [H1 H2]. apply Forall_cons in H2 as [Hr H2].
    rewrite !Forall_app. split; [done|]. split; [|done]. apply Forall_forall.
    intros r' (-> & Hlt)%rest_in. destruct Hr as (? & ? & ?). unfold run_ok. cbn. lia.
  - pose proof Hnd as Hnd'. rewrite rest_pages in Hnd'. by apply NoDup_app in Hnd' as (_ & _ & ?).
Qed.

(** Headers of the runs that stay are outside the pages that are taken. *)
Lemma stay_header r' x :
  r' ∈ pre ++ rest_run r n ++ post -> header r' x ->
  ~ (r_vpn r * 4096 <= x < (r_vpn r + n) * 4096).
Proof using All.
  rewrite !elem_of_app. intros [H|[(-> & Hlt)%rest_in|H]] Hx.
  - pose proof (other_header r' x ltac:(rewrite elem_of_app; by left) Hx). lia.
  - unfold header, r_addr in Hx. cbn in Hx. lia.
  - pose proof (other_header r' x ltac:(rewrite elem_of_app; by right) Hx). lia.
Qed.

Lemma relink_ok :
  let m2 := if negb (prev_addr =? 0)
            then store64 (split_mem m n (r_addr r)) (prev_addr + 16) (next_head m n (r_addr r))
            else split_mem m n (r_addr r) in
  let h' := if negb (prev_addr =? 0) then h else next_head m n (r_addr r) in
  flseg b m2 h' (pre ++ rest_run r n ++ post) 0 /\
  (forall x, x / 4096 ∉ pages_of (pre ++ r :: post) -> m2 x = m x).
Proof using All.
  pose proof split_tail as Htail. pose proof Hl as (hr & H1 & H2)%flseg_app.
  destruct run_r as (Hr1 & Hr2 & Hr3).
  assert (forall x, x / 4096 ∉ pages_of (pre ++ r :: post) -> split_mem m n (r_addr r) x = m x) as Hso.
  { intros x Hx. apply split_outside. intros Hin. apply Hx, elem_of_pages. exists r.
    split; [set_solver|dlia]. }
  unfold prev_addr. destruct (last pre) as [q|] eqn:Elast.
  - apply last_Some in Elast as (pre0 & Epre).
    assert (run_ok base top q) as (Hq1 & Hq2 & Hq3).
    { eapply Forall_forall in Hok; [exact Hok|]. rewrite Epre. set_solver. }
    assert (forall x, header q x -> ~ (r_vpn r * 4096 <= x < (r_vpn r + r_size r) * 4096)) as Hqr.
    { intros x Hx. eapply other_header; [|exact Hx]. rewrite Epre. set_solver. }
    destruct (Z.eqb_spec (r_addr q) 0) as [E|_]; [unfold r_addr in E; lia|]. cbn [negb].
    assert (forall r' x, r' ∈ pre0 ++ rest_run r n ++ post -> header r' x ->
      store64 (split_mem m n (r_addr r)) (r_addr q + 16) (next_head m n (r_addr r)) x =
      split_mem m n (r_addr r) x) as Hsame.
    { intros r' x Hr' Hx. apply store64_outside. intros Hxq.
      destruct take_runs_ok as [Hok' Hnd']. rewrite Epre, <- app_assoc in Hnd', Hok'. cbn [app] in *.
      assert (run_ok base top r') as (Hs' & _) by (eapply Forall_forall in Hok'; [exact Hok'|set_solver]).
      unfold header, r_addr in *.
      apply (pages_disjoint pre0 q (rest_run r n ++ post) r' (x / 4096) (x / 4096) Hnd' Hr');
        [dlia..|done]. }
    split.
    + apply flseg_app. exists (next_head m n (r_addr r)). split.
      * rewrite Epre in H1 |- *. eapply flseg_relink; [exact H1|..].
        -- intros r' x Hr' Hx. rewrite (Hsame r' x) by (done || set_solver).
           apply split_outside. eapply other_header; [|exact Hx]. rewrite Epre. set_solver.
        -- intros x Hx. rewrite store64_outside by lia. apply split_outside, Hqr. unfold header. lia.
        -- apply load64_same. unfold next_head.
           destruct (_ <? _); [apply u64_range|]. cbn [flseg] in H2. destruct H2 as ((-> & _) & H2).
           destruct post as [|r2 post']; cbn [flseg] in H2; [rewrite H2; lia|]. destruct H2 as ((-> & _) & _).
           assert (run_ok base top r2) as (? & ? & ?) by (eapply Forall_forall in Hok; [exact Hok|set_solver]).
           unfold r_addr. lia.
      * eapply flseg_ext; [|exact Htail]. intros r' x Hr' Hx. apply (Hsame r' x); [set_solver|done].
    + intros x Hx. rewrite store64_outside; [by apply Hso|]. intros Hxq. apply Hx, elem_of_pages.
      exists q. split; [rewrite Epre; set_solver|]. unfold r_addr in Hxq. dlia.
  - apply last_None in Elast as Epre. cbn [Z.eqb negb]. split; [|done]. by rewrite Epre.
Qed.

Lemma take_ok z :
  let m' := take_mem m n prev_addr (r_addr r) z in
  let h' := if negb (prev_addr =? 0) then h else next_head m n (r_addr r) in
  flseg b m' h' (pre ++ rest_run r n ++ post) 0 /\
  (forall x, x / 4096 ∉ pages_of (pre ++ r :: post) -> m' x = m x) /\
  (z = true -> forall x, r_vpn r * 4096 <= x < (r_vpn r + n) * 4096 -> m' x = 0).
Proof using All.
  destruct relink_ok as [Hfl Hout]. unfold take_mem. cbn zeta in *.
  destruct run_r as (Hr1 & Hr2 & Hr3). destruct z; [|done].
  assert (forall mm x, memset mm (r_addr r) 0 (u64 (n * PAGESIZE)) x =
    if (r_addr r <=? x) && (x <? r_addr r + n * 4096) then 0 else mm x) as Hms.
  { intros mm x. unfold PAGESIZE. rewrite u64_small by lia.
    rewrite memset_spec by (unfold r_addr; lia). done. }
  split; [|split].
  - eapply flseg_ext; [|exact Hfl]. intros r' x Hr' Hx. rewrite Hms.
    pose proof (stay_header r' x Hr' Hx). unfold r_addr. zcases; done.
  - intros x Hx. rewrite Hms. rewrite <- (Hout x Hx).
    assert (~ (r_vpn r * 4096 <= x < (r_vpn r + n) * 4096)).
    { intros Hin. apply Hx, elem_of_pages. exists r. split; [set_solver|dlia]. }
    unfold r_addr. zcases; done.
  - intros _ x Hx. rewrite Hms. unfold r_addr. zcases; done.
Qed.
End Take.
