(* ===== verification/DmaHeapSpec.v ===== *)
(** * The DMA heap

    dmalloc and dmafree over the kernel's page table implement the interface
    [DmaHeap] of World.v: the allocator never hands out a page twice, every
    page it hands out is mapped to the frame it reports, and taking and giving
    back runs conserves the pages of the heap. *)
From S2P Require Import Prelude Mem World KernelPT PTBits KernelPTSpec KernelPTRec KernelPTProps.
From S2P Require Import PTInit Alloc AllocList AllocSpec.
Import KernelPT Alloc.

(** First page of the DMA region, and the first page the allocator may not
    reach (the root entries from 128 on are not used for DMA pages). *)
Definition DMA_BASE : Z := 1048576.
Definition DMA_END : Z := 33554432.
Definition brk_page (a : A) : Z := ptbrk a / 4096.

Definition page_maps (k : K) (v p : Z) : Prop := walk (tab k) (pt_base k) v = Some (p, PTE p RW).
Definition run_mapped (k : K) (r : run) : Prop :=
  0 <= r_pfn r /\ r_pfn r + r_size r <= 17592186044416 /\
  forall i, 0 <= i < r_size r -> page_maps k (r_vpn r + i) (r_pfn r + i).

Record dma_inv (own : Z -> option node) (a : A) (l : list run) : Prop := {
  dm_pt : pt_ok own (km a);
  dm_list : flseg true (amem a) (ptfreelist a) l 0;
  dm_runs : Forall (run_ok DMA_BASE (brk_page a)) l;
  dm_nodup : NoDup (pages_of l);
  dm_align : ptbrk a = brk_page a * 4096;
  dm_brk : DMA_BASE <= brk_page a <= DMA_END;
  dm_mapped : Forall (run_mapped (km a)) l;
}.

Lemma dma_fuel own a l : dma_inv own a l -> (length l < list_fuel PTBRK0 (ptbrk a))%nat.
Proof.
  intros [_ _ Hr Hn Ha Hb _]. pose proof (runs_le_pages _ _ _ Hn Hr). unfold list_fuel.
  rewrite Ha, !ADDR_2_PAGE_div by (unfold PTBRK0, DMA_BASE, DMA_END in *; lia).
  unfold DMA_BASE in *. replace (brk_page a * 4096 / 4096) with (brk_page a) by dlia.
  change (PTBRK0 / 4096) with 1048576. lia.
Qed.

Lemma dma_pos own a l : dma_inv own a l -> Forall (fun r => 0 < r_vpn r) l.
Proof.
  intros [_ _ Hr _ _ _ _]. eapply Forall_impl; [exact Hr|]. intros r (_ & H & _).
  unfold DMA_BASE in H. lia.
Qed.

(** ** Running sequences of memory writes *)
Lemma amem_set m a : amem (set_amem m a) = m.
Proof. done. Qed.
Lemma set_amem_set m m' a : set_amem m (set_amem m' a) = set_amem m a.
Proof. done. Qed.
Lemma amem_set_list h a : amem (set_ptfreelist h a) = amem a.
Proof. done. Qed.
Lemma set_amem_list m h a : set_amem m (set_ptfreelist h a) = set_ptfreelist h (set_amem m a).
Proof. done. Qed.
Lemma set_list_list h h' a : set_ptfreelist h (set_ptfreelist h' a) = set_ptfreelist h a.
Proof. done. Qed.
Lemma set_same a : set_amem (amem a) a = a.
Proof. by destruct a as [[] ? ? ? ?]. Qed.
Lemma set_list_same m a : set_ptfreelist (ptfreelist a) (set_amem m a) = set_amem m a.
Proof. by destruct a. Qed.
Lemma bind_assoc_run {X Y Z} (m1 : M A X) (f : X -> M A Y) (g : Y -> M A Z) a :
  ((m1 ≫= f) ≫= g) a = (m1 ≫= (fun x => f x ≫= g)) a.
Proof. unfold mbind, M_bind. by destruct (m1 a) as [[? ?]| | |]. Qed.
Lemma run_mem {X} f (g : unit -> M A X) a :
  (on_mem f ≫= g) a = g tt (set_amem (f (amem a)) a).
Proof. done. Qed.
Lemma run_modify {X} f (g : unit -> M A X) a : (modify f ≫= g) a = g tt (f a).
Proof. done. Qed.
Lemma run_tt {X} (g : unit -> M A X) a : (mret tt ≫= g) a = g tt a.
Proof. done. Qed.

Ltac run_alloc :=
  unfold put_next, put_size, put_pfn, when;
  repeat (rewrite ?bind_assoc_run; (rewrite run_mem || rewrite run_modify || rewrite run_tt);
          rewrite ?amem_set_list, ?amem_set, ?set_amem_list, ?set_amem_set, ?set_list_list);
  rewrite ?set_list_same, ?set_same.

Section Machine.

(** ** Taking a run from the list *)
Lemma dmalloc_from_list own a l n z pre r post :
  dma_inv own a l -> l = pre ++ r :: post -> Forall (fun r => r_size r < n) pre -> 1 <= n <= r_size r ->
  exists a' l', dmalloc true n z a = Ret ((r_pfn r, r_vpn r), a') /\ dma_inv own a' l' /\
    pages_of l ≡ₚ seqZ (r_vpn r) n ++ pages_of l' /\ ptbrk a' = ptbrk a /\
    tab (km a') = tab (km a) /\ pt_base (km a') = pt_base (km a) /\
    pfn_start (km a') = pfn_start (km a) /\ max_pfn (km a') = max_pfn (km a) /\
    (vfreelist a' = vfreelist a /\ kbrk a' = kbrk a) /\
    (forall x, x / 4096 ∉ pages_of l -> amem a' x = amem a x) /\
    (z = true -> forall x, r_vpn r * 4096 <= x < (r_vpn r + n) * 4096 -> amem a' x = 0).
Proof.
  intros Hinv -> Hpre Hn. pose proof Hinv as [Hpt Hl Hr Hnd Ha Hb Hm].
  assert (run_mapped (km a) r) as (Hp1 & Hp2 & Hpm).
  { eapply Forall_forall in Hm; [exact Hm|set_solver]. }
  assert (run_ok DMA_BASE (brk_page a) r) as (Hr1 & Hr2 & Hr3).
  { eapply Forall_forall in Hr; [exact Hr|set_solver]. }
  assert (0 < DMA_BASE) as Hb0 by (unfold DMA_BASE; lia).
  assert (brk_page a * 4096 < 18446744073709551616) as Htop by (unfold DMA_END in *; lia).
  destruct (take_ok true (amem a) (ptfreelist a) n DMA_BASE (brk_page a) pre r post Hl Hr Hnd Hb0 Htop Hn
    ltac:(lia) z) as (Hfl & Hout & Hz).
  destruct (take_runs_ok true (amem a) (ptfreelist a) n DMA_BASE (brk_page a) pre r post Hl Hr Hnd Hb0 Htop Hn
    ltac:(lia)) as (Hr' & Hnd').
  pose proof (rest_pages true (amem a) (ptfreelist a) n DMA_BASE (brk_page a) pre r post Hl Hr Hnd Hb0 Htop Hn
    ltac:(lia)) as Hperm.
  set (prev := prev_addr pre) in *. set (m' := take_mem _ _ _ _ _ _) in *.
  set (h' := if negb (prev =? 0) then _ else _) in *.
  assert (fn_pfn (amem a) (r_addr r) = r_pfn r) as Epfn.
  { pose proof Hl as (h & _ & H2)%flseg_app. cbn [flseg] in H2. destruct H2 as ((-> & _ & H2) & _). by apply H2. }
  exists (set_ptfreelist h' (set_amem m' a)), (pre ++ rest_run r n ++ post). split.
  { unfold dmalloc. mstep. unfold id.
    rewrite (bind_ret_l _ _ _ _ _ (f_equal (fun o => lift o a) (search_found true
      (list_fuel PTBRK0 (ptbrk a)) (amem a) n 0 (ptfreelist a) pre r post 0 Hl
      ltac:(pose proof (dma_pos _ _ _ Hinv) as Hp; rewrite Forall_app in *; rewrite Forall_cons in Hp; split; [apply Hp|by repeat constructor; apply Hp])
      Hpre ltac:(lia) ltac:(pose proof (dma_fuel _ _ _ Hinv) as Hf; rewrite length_app in Hf; lia)))).
    fold (prev_addr pre). fold prev.
    assert (ADDR_2_PAGE (r_addr r) = r_vpn r) as ->.
    { unfold r_addr. rewrite ADDR_2_PAGE_div by (unfold DMA_BASE, DMA_END in *; lia). dlia. }
    subst m' h'. unfold take_mem, split_mem, next_head. rewrite Epfn.
    destruct (n <? fn_size (amem a) (r_addr r)), (negb (prev =? 0)), z; by run_alloc. }
  split.
  { split; try done. apply Forall_app in Hm as [M1 M2]. apply Forall_cons in M2 as [_ M2].
    rewrite !Forall_app. split; [done|]. split; [|done]. apply Forall_forall. intros r' Hin.
    apply rest_in in Hin as [-> Hlt]. split; [cbn; lia|]. split; [cbn; lia|]. intros i Hi. cbn in *.
    replace (r_vpn r + n + i) with (r_vpn r + (n + i)) by lia.
    replace (r_pfn r + n + i) with (r_pfn r + (n + i)) by lia. apply Hpm. lia. }
  split; [done|]. by repeat (split; [done|]).
Qed.

(** ** The pages that the kernel maps *)

(** First page of the heap, and the page of the trap frame, which ends it. *)
Definition KH_BASE : Z := 4503599593816064.
Definition KH_END : Z := 4503599627370494.

(** Pages that the kernel maps: its image and DMA pages, and its heap. *)
Definition heap_page (v : Z) : Prop := KH_BASE <= v < KH_END.
Definition any_page (v : Z) : Prop := kernel_page v \/ heap_page v.

Lemma any_page_managed v : any_page v -> managed (VPN 2 v).
Proof.
  intros [H|H]; [by apply kernel_page_managed|]. unfold heap_page, KH_BASE, KH_END in H.
  rewrite VPN2. dlia.
Qed.

Lemma VPN_low v : VPN 2 v * 262144 + VPN 1 v * 512 + VPN 0 v = v mod 134217728.
Proof. rewrite VPN0, VPN1, VPN2. dlia. Qed.

Lemma any_page_eq v w : any_page v -> any_page w ->
  (VPN 2 v = VPN 2 w /\ VPN 1 v = VPN 1 w /\ VPN 0 v = VPN 0 w) <-> v = w.
Proof.
  intros Hv Hw. split; [|by intros ->]. intros (E2 & E1 & E0).
  assert (v mod 134217728 = w mod 134217728) as E by (rewrite <- !VPN_low; congruence).
  unfold any_page, kernel_page, heap_page, KH_BASE, KH_END in *. dlia.
Qed.

(** ** Pages from the break *)
Lemma ptmap_run_ok n : forall own k v p,
  pt_ok own k -> (forall w, v <= w < v + Z.of_nat n -> kernel_page w) ->
  pfn_start k + 2 * Z.of_nat n <= max_pfn k -> 0 <= p -> p + Z.of_nat n <= 17592186044416 ->
  exists own' k', ptmap_run true n v p k = Ret (tt, k') /\ pt_ok own' k' /\ same_rest k k' /\
    pfn_start k <= pfn_start k' <= pfn_start k + 2 * Z.of_nat n /\
    (forall w, any_page w -> walk (tab k') (pt_base k') w =
       if decide (v <= w < v + Z.of_nat n) then Some (p + (w - v), PTE (p + (w - v)) RW)
       else walk (tab k) (pt_base k) w).
Proof.
  induction n as [|n IH]; intros own k v p Hok Hv Hroom Hp1 Hp2; cbn [ptmap_run].
  - exists own, k. do 3 (split; [done|]). split; [lia|]. intros w _. by rewrite decide_False by lia.
  - assert (kernel_page v) as Hkv by (apply Hv; lia).
    destruct (ptmap_walk_ok own k v p RW Hok (kernel_page_managed v Hkv)) as
      (own1 & k1 & E1 & Hok1 & Hr1 & Hs1 & _ & Hw1); [lia|lia|by vm_compute|done|done|].
    destruct (IH own1 k1 (v + 1) (p + 1) Hok1) as (own2 & k2 & E2 & Hok2 & Hr2 & Hs2 & Hw2).
    { intros w Hw. apply Hv. lia. } { rewrite (sr_max _ _ Hr1). lia. } { lia. } { lia. }
    exists own2, k2. split; [by rewrite (bind_ret_l _ _ _ _ _ E1)|]. split; [done|].
    split; [by eapply same_rest_trans|]. split; [lia|].
    intros w Hw. rewrite Hw2 by done. destruct (decide (v + 1 <= w < v + 1 + Z.of_nat n)).
    { rewrite decide_True by lia. by replace (p + 1 + (w - (v + 1))) with (p + (w - v)) by lia. }
    rewrite Hw1 by by apply any_page_managed. destruct (decide (w = v)) as [->|Hne].
    + rewrite decide_True by done. rewrite decide_True by lia. by rewrite Z.sub_diag, Z.add_0_r.
    + rewrite decide_False by (rewrite any_page_eq by (done || by left); done). by rewrite decide_False by lia.
Qed.

Definition avail_pages (a : A) (k : Z) : Prop :=
  pfn_start (km a) + 3 * k <= max_pfn (km a) /\ brk_page a + k <= DMA_END.

(** The state after new pages were mapped at the break. *)
Lemma dma_inv_grow own own' a l k' n m :
  dma_inv own a l -> 1 <= n -> brk_page a + n <= DMA_END -> pt_ok own' k' ->
  (forall w, kernel_page w -> w < brk_page a ->
     walk (tab k') (pt_base k') w = walk (tab (km a)) (pt_base (km a)) w) ->
  (forall x, ~ (ptbrk a <= x < ptbrk a + n * 4096) -> m x = amem a x) ->
  dma_inv own' (mkA (set_vmem m k') (ptfreelist a) (vfreelist a) (ptbrk a + n * 4096) (kbrk a)) l.
Proof.
  intros [Hpt Hl Hr Hnd Ha Hb Hm] Hn Hend Hpt' Hw Hmem.
  assert (forall a', ptbrk a' = ptbrk a + n * 4096 -> brk_page a' = brk_page a + n) as Hbrk.
  { intros a' E. unfold brk_page in *. rewrite E. dlia. }
  split; rewrite ?(Hbrk (mkA _ _ _ (ptbrk a + n * 4096) _)) by done; try done.
  - eapply flseg_ext; [|exact Hl]. intros r x Hin Hx. cbn. apply Hmem.
    eapply Forall_forall in Hr as (? & ? & ?); [|exact Hin]. unfold header, r_addr in Hx. lia.
  - eapply Forall_impl; [exact Hr|]. intros r (? & ? & ?). unfold run_ok. lia.
  - cbn. lia.
  - lia.
  - rewrite Forall_forall in *. intros r Hin. destruct (Hm r Hin) as (? & ? & Hmap).
    destruct (Hr r Hin) as (? & ? & ?). split; [done|]. split; [done|]. intros i Hi.
    unfold page_maps. cbn. rewrite Hw; [by apply Hmap|..]; [|lia].
    unfold kernel_page, DMA_BASE, DMA_END in *. lia.
Qed.

(** dmalloc when no run of the list is long enough. *)
(** Allocation past the break: the page [brk_page a] and the [n - 1] after it. *)
Section FromBrk.
Context (own : Z -> option node) (a : A) (l : list run) (n : Z) (z : bool).
Hypothesis Hinv : dma_inv own a l.
Hypothesis Hn : 1 <= n.
Hypothesis Hav : avail_pages a n.

Definition brk_result (own' : Z -> option node) (a' : A) (pfn : Z) : Prop :=
  dma_inv own' a' l /\ 0 <= pfn /\ pfn + n <= 17592186044416 /\
  brk_page a' = brk_page a + n /\ (vfreelist a' = vfreelist a /\ kbrk a' = kbrk a) /\ max_pfn (km a') = max_pfn (km a) /\
  pfn_start (km a') <= pfn_start (km a) + 3 * n /\
  (forall i, 0 <= i < n -> page_maps (km a') (brk_page a + i) (pfn + i)) /\
  (forall v p, kernel_page v /\ v < brk_page a \/ heap_page v -> page_maps (km a) v p -> page_maps (km a') v p) /\
  (forall x, ~ (ptbrk a <= x < ptbrk a + n * 4096) -> amem a' x = amem a x) /\
  (z = true -> forall x, ptbrk a <= x < ptbrk a + n * 4096 -> amem a' x = 0).

Lemma brk_kernel_page w : brk_page a <= w < brk_page a + n -> kernel_page w.
Proof.
  destruct Hinv as [_ _ _ _ Ha Hb _], Hav as [_ Hend]. unfold kernel_page, DMA_BASE, DMA_END in *. lia.
Qed.

Lemma keep_range w : kernel_page w /\ w < brk_page a \/ heap_page w -> w < brk_page a \/ brk_page a + n <= w.
Proof.
  destruct Hav as [_ Hend]. intros [[_ H]|H]; [by left|]. unfold heap_page, KH_BASE, KH_END, DMA_END in *. lia.
Qed.

Lemma keep_not_brk w : kernel_page w /\ w < brk_page a \/ heap_page w -> w <> brk_page a.
Proof. intros H%keep_range. lia. Qed.

Lemma from_brk_page : n = 1 ->
  exists own' a' pfn, (pfn ← in_km (palloc_ptr true (brk_page a) RW); mret (pfn, brk_page a))
      (set_ptbrk (ptbrk a + n * 4096) a) = Ret ((pfn, brk_page a), a') /\ brk_result own' a' pfn.
Proof.
  intros H1. pose proof brk_kernel_page as Hkp. pose proof keep_not_brk as Hkb. pose proof Hinv as [Hpt Hfl Hr Hnd Ha Hb Hm].
  destruct Hav as [Hroom Hend]. pose proof Hpt as [(Hs & Hlist & Hmax) _].
  pose proof (sh_own _ _ _ _ Hs _ _ (sh_root _ _ _ _ Hs)) as Hroot. unfold brk_result. rewrite H1 in *.
  destruct (palloc_ptr_ok own (km a) (brk_page a) RW Hpt) as
    (own' & k' & E & Hok' & Hbase & Hmx & _ & Hst & Hvm & Hw);
    [apply kernel_page_managed, Hkp; lia|lia|by vm_compute|done|done|].
  assert (forall w, any_page w -> w <> brk_page a ->
    walk (tab k') (pt_base k') w = walk (tab (km a)) (pt_base (km a)) w) as Hw'.
  { intros w Hkw Hne. rewrite Hw by by apply any_page_managed.
    rewrite decide_False; [done|]. rewrite any_page_eq by (done || left; apply Hkp; lia). done. }
  assert (forall x, vmem k' x = if decide (ptbrk a <= x < ptbrk a + 1 * 4096) then 0 else amem a x) as Hmem.
  { intros x. rewrite Hvm. rewrite PAGE_2_ADDR_small by (unfold DMA_BASE, DMA_END in *; lia).
    unfold PAGESIZE. rewrite <- Ha, memset_spec by (unfold DMA_BASE, DMA_END in *; lia).
    unfold amem. gdecide; zcases; done. }
  exists own', (mkA k' (ptfreelist a) (vfreelist a) (ptbrk a + 1 * 4096) (kbrk a)), (pfn_start (km a)).
  split. { unfold in_km, mbind, M_bind. cbn [set_ptbrk km]. by rewrite E. }
  split.
  { assert (dma_inv own' (mkA (set_vmem (vmem k') k') (ptfreelist a) (vfreelist a)
      (ptbrk a + 1 * 4096) (kbrk a)) l) as Hg; [|by destruct k'].
    eapply dma_inv_grow; try done. { intros w Hkw Hlt. apply Hw'; [by left|lia]. }
    intros x Hx. by rewrite Hmem, decide_False. }
  split; [lia|]. split; [lia|]. split. { unfold brk_page in *. cbn. dlia. }
  split; [done|]. split; [done|]. split; [cbn; lia|]. split.
  { intros i Hi. replace i with 0 by lia. rewrite !Z.add_0_r. unfold page_maps. cbn.
    rewrite Hw by (apply kernel_page_managed, Hkp; lia). by rewrite decide_True. }
  split. { intros v p Hv Hp. unfold page_maps in *. cbn. rewrite Hw'; [done|unfold any_page; tauto|by apply Hkb]. }
  split; [intros x Hx; unfold amem at 1; cbn [km]; by rewrite Hmem, decide_False|].
  intros _ x Hx. unfold amem. cbn [km]. by rewrite Hmem, decide_True.
Qed.

(** The frames of a run of pages: the next [n] that were never handed out. *)
Lemma brk_skip : pt_ok own (set_pfn_start (pfn_start (km a) + n) (km a)).
Proof.
  pose proof Hinv as [Hpt _ _ _ _ _ _]. destruct Hav as [Hroom _].
  destruct Hpt as [([H1 H2 H3 H4 H5 H6 H7 H8] & H9) Ht]. split; [|done]. split; [|done].
  split; try done; cbn; [|lia]. intros f nd Hf. specialize (H2 f nd Hf). lia.
Qed.

Lemma from_brk_run :
  exists own' a' pfn,
    (if max_pfn (km a) <? u64 (pfn_start (km a) + n) then panic
     else in_km (modify (set_pfn_start (u64 (pfn_start (km a) + n))));;
          in_km (ptmap_run true (Z.to_nat n) (brk_page a) (pfn_start (km a)));;
          when z (on_mem (fun m => memset m (ptbrk a) 0 (u64 (n * PAGESIZE))));;
          mret (pfn_start (km a), brk_page a))
      (set_ptbrk (ptbrk a + n * 4096) a) = Ret ((pfn, brk_page a), a') /\ brk_result own' a' pfn.
Proof.
  pose proof brk_kernel_page as Hkp. pose proof keep_range as Hkr. pose proof Hinv as [Hpt Hfl Hr Hnd Ha Hb Hm].
  destruct Hav as [Hroom Hend]. pose proof Hpt as [(Hs & Hlist & Hmax) _].
  pose proof (sh_own _ _ _ _ Hs _ _ (sh_root _ _ _ _ Hs)) as Hroot.
  rewrite (u64_small (pfn_start (km a) + n)) by lia.
  destruct (Z.ltb_spec (max_pfn (km a)) (pfn_start (km a) + n)); [lia|].
  pose proof brk_skip as Hok0. set (k0 := set_pfn_start (pfn_start (km a) + n) (km a)) in *.
  destruct (ptmap_run_ok (Z.to_nat n) own k0 (brk_page a) (pfn_start (km a)) Hok0) as
    (own' & k' & E & Hok' & Hrest & Hst & Hw).
  { intros w Hw. apply Hkp. lia. } { cbn. lia. } { lia. } { lia. }
  rewrite Z2Nat.id in * by lia.
  set (m' := if z then memset (vmem k') (ptbrk a) 0 (u64 (n * PAGESIZE)) else vmem k').
  assert (forall x, m' x = if decide (z = true /\ ptbrk a <= x < ptbrk a + n * 4096) then 0 else amem a x) as Hmem.
  { intros x. unfold m'. rewrite (sr_vmem _ _ Hrest). destruct z.
    - unfold PAGESIZE. rewrite u64_small by (unfold DMA_END in *; lia).
      rewrite memset_spec by (unfold DMA_BASE, DMA_END in *; lia).
      unfold amem. cbn [vmem k0 set_pfn_start]. gdecide; zcases; naive_solver.
    - rewrite decide_False; [done|]. by intros [? _]. }
  exists own', (mkA (set_vmem m' k') (ptfreelist a) (vfreelist a) (ptbrk a + n * 4096) (kbrk a)), (pfn_start (km a)).
  split.
  { unfold in_km, mbind, M_bind. cbn [set_ptbrk km modify set_km]. fold k0. rewrite E. subst m'.
    destruct z; [done|]. by destruct k'. }
  split. { eapply dma_inv_grow; try done.
    - intros w Hkw Hlt. rewrite Hw by by left. by rewrite decide_False by lia.
    - intros x Hx. rewrite Hmem, decide_False; [done|]. by intros [_ ?]. }
  split; [lia|]. split; [lia|]. split. { unfold brk_page in *. cbn. dlia. }
  split; [done|]. split; [cbn; by rewrite (sr_max _ _ Hrest)|]. split; [cbn in *; lia|]. split.
  { intros i Hi. unfold page_maps. cbn. rewrite Hw by (left; apply Hkp; lia).
    rewrite decide_True by lia. by replace (brk_page a + i - brk_page a) with i by lia. }
  split. { intros v p Hv Hp. unfold page_maps in *. cbn. rewrite Hw by (unfold any_page; tauto).
    rewrite decide_False; [done|]. specialize (Hkr v Hv). lia. }
  split.
  + intros x Hx. unfold amem at 1. cbn [km vmem set_vmem]. rewrite Hmem, decide_False; [done|by intros [_ ?]].
  + intros Hz x Hx. unfold amem. cbn [km vmem set_vmem]. by rewrite Hmem, decide_True.
Qed.

Lemma dmalloc_from_brk : Forall (fun r => r_size r < n) l ->
  exists own' a' pfn, dmalloc true n z a = Ret ((pfn, brk_page a), a') /\ brk_result own' a' pfn.
Proof.
  intros Hl. pose proof Hinv as [Hpt Hfl Hr Hnd Ha Hb Hm]. pose proof Hav as [Hroom Hend].
  assert (ADDR_2_PAGE (ptbrk a) = brk_page a) as Evpn.
  { rewrite ADDR_2_PAGE_div; [done|]. unfold DMA_BASE, DMA_END in *. lia. }
  assert (u64 (ptbrk a + u64 (n * PAGESIZE)) = ptbrk a + n * 4096) as Ebrk.
  { unfold PAGESIZE, DMA_BASE, DMA_END in *. rewrite !u64_small by (rewrite ?u64_small by lia; lia). done. }
  unfold dmalloc. rewrite (bind_ret_l (gets id) _ a a a eq_refl).
  rewrite (bind_ret_l _ _ _ _ _ (f_equal (fun o => lift o a) (search_exhausted true
    (list_fuel PTBRK0 (ptbrk a)) (amem a) n 0 (ptfreelist a) l Hfl (dma_pos _ _ _ Hinv) Hl (dma_fuel _ _ _ Hinv)))).
  cbn zeta. rewrite Evpn, Ebrk, run_modify.
  destruct (Z.eqb_spec n 1) as [H1|Hn1]; [by apply from_brk_page|apply from_brk_run].
Qed.

End FromBrk.
End Machine.
