(* ===== verification/DmaHeap.v ===== *)
(** * dmalloc and dmafree as a DMA heap

    The properties of the allocator, and the instance of the interface of
    World.v that the block cache is verified against. *)
From S2P Require Import Prelude Mem World KernelPT PTBits KernelPTSpec KernelPTRec KernelPTProps.
From S2P Require Import PTInit Alloc AllocList AllocSpec DmaHeapSpec.
Import KernelPT Alloc.

(** The runs on the free list, read from memory. *)
Fixpoint collect (fuel : nat) (m : mem) (h : Z) : list run :=
  match fuel with
  | O => []
  | S k => if h =? 0 then []
           else mkRun (h / 4096) (fn_size m h) (fn_pfn m h) :: collect k m (fn_next m h)
  end.

Lemma collect_flseg fuel m h l :
  flseg true m h l 0 -> Forall (fun r => 0 < r_vpn r) l -> (length l < fuel)%nat ->
  collect fuel m h = l.
Proof.
  revert h l. induction fuel as [|fuel IH]; intros h l Hl Hp Hf; [lia|].
  destruct l as [|r l]; cbn [flseg collect] in *.
  - by subst.
  - destruct Hl as ((-> & Hs & Hpf) & Hl). apply Forall_cons in Hp as [Hr Hp].
    destruct (Z.eqb_spec (r_addr r) 0) as [E|_]; [unfold r_addr in E; lia|].
    rewrite Hs, Hpf by done. rewrite (IH _ l Hl Hp) by (cbn in Hf; lia).
    unfold r_addr. replace (r_vpn r * 4096 / 4096) with (r_vpn r) by dlia. by destruct r.
Qed.

Definition free_runs (a : A) : list run :=
  collect (list_fuel PTBRK0 (ptbrk a)) (amem a) (ptfreelist a).
(** The pages the allocator may still hand out. *)
Definition is_free (a : A) (v : Z) : Prop :=
  v ∈ pages_of (free_runs a) \/ brk_page a <= v < DMA_END.

Lemma free_runs_eq own a l : dma_inv own a l -> free_runs a = l.
Proof.
  intros H. apply collect_flseg; [apply H|by eapply dma_pos|by eapply dma_fuel].
Qed.

Lemma dma_free_range own a l v : dma_inv own a l -> v ∈ pages_of l -> DMA_BASE <= v < brk_page a.
Proof.
  intros [_ _ Hr _ _ _ _] (r & Hin & Hv)%elem_of_pages.
  eapply Forall_forall in Hr as (? & ? & ?); [|exact Hin]. lia.
Qed.

(** [k] more single pages can be had: from the free list, then from the break. *)
Definition dma_avail (a : A) (k : Z) : Prop :=
  exists j, 0 <= j /\ avail_pages a j /\ k <= j + Z.of_nat (length (pages_of (free_runs a))).

(** What one call of dmalloc does, from the list or from the break. *)
Record dmalloc_post (own' : Z -> option node) (a a' : A) (l l' : list run) (n pfn vpn : Z) (z : bool) : Prop := {
  dp_inv : dma_inv own' a' l';
  dp_pfn : 0 <= pfn /\ pfn + n <= 17592186044416;
  dp_range : DMA_BASE <= vpn /\ vpn + n <= brk_page a';
  dp_was_free : forall v, vpn <= v < vpn + n -> is_free a v;
  dp_now_free : forall v, is_free a' v <-> is_free a v /\ ~ (vpn <= v < vpn + n);
  dp_maps : forall i, 0 <= i < n -> page_maps (km a') (vpn + i) (pfn + i);
  dp_keep : forall v p, kernel_page v /\ v < brk_page a \/ heap_page v -> page_maps (km a) v p -> page_maps (km a') v p;
  dp_mem : forall x, ~ is_free a (x / 4096) -> amem a' x = amem a x;
  dp_zero : z = true -> forall x, in_pages vpn n x -> amem a' x = 0;
  dp_brk : brk_page a <= brk_page a';
  dp_avail : forall k, dma_avail a (k + n) -> dma_avail a' k;
  dp_heap : vfreelist a' = vfreelist a /\ kbrk a' = kbrk a;
  dp_cost : brk_page a' <= brk_page a + n /\ max_pfn (km a') = max_pfn (km a) /\ pfn_start (km a') <= pfn_start (km a) + 3 * n;
}.

Lemma dmalloc_ok own a l n z :
  dma_inv own a l -> 1 <= n -> avail_pages a n \/ (exists r, r ∈ l /\ n <= r_size r) ->
  exists own' a' l' pfn vpn, dmalloc true n z a = Ret ((pfn, vpn), a') /\
    dmalloc_post own' a a' l l' n pfn vpn z.
Proof.
  intros Hinv Hn Hav. pose proof (free_runs_eq _ _ _ Hinv) as El.
  destruct (first_fit n l) as [(pre & r & post & -> & Hpre & Hfit)|Hnone].
  - destruct (dmalloc_from_list own a _ n z pre r post Hinv eq_refl Hpre ltac:(lia))
      as (a' & l' & E & Hinv' & Hperm & Hbrk & Ht & Hb & Hst & Hmx & [Hvl Hkb] & Hmem & Hz).
    exists own, a', l', (r_pfn r), (r_vpn r). split; [done|].
    assert (brk_page a' = brk_page a) as Hbp by (unfold brk_page; by rewrite Hbrk).
    assert (run_ok DMA_BASE (brk_page a) r) as (Hr1 & Hr2 & Hr3).
    { pose proof (dm_runs _ _ _ Hinv) as Hr. eapply Forall_forall in Hr; [exact Hr|set_solver]. }
    pose proof (free_runs_eq _ _ _ Hinv') as El'.
    assert (forall v, v ∈ pages_of (pre ++ r :: post) <-> r_vpn r <= v < r_vpn r + n \/ v ∈ pages_of l') as Hpg.
    { intros v. rewrite Hperm, elem_of_app, elem_of_seqZ. done. }
    assert (forall v, r_vpn r <= v < r_vpn r + n -> v ∉ pages_of l') as Hdis.
    { intros v Hv. pose proof (dm_nodup _ _ _ Hinv) as Hnd. rewrite Hperm in Hnd.
      apply NoDup_app in Hnd as (_ & Hd & _). apply Hd. by apply elem_of_seqZ. }
    split; unfold is_free; rewrite ?El, ?El', ?Hbp; try done.
    + pose proof (proj1 (Forall_forall _ _) (dm_mapped _ _ _ Hinv) r ltac:(set_solver)) as (? & ? & _). lia.
    + lia.
    + intros v Hv. left. apply Hpg. by left.
    + intros v. rewrite Hpg. split.
      * intros [Hv|Hv]; [|split; [by right|lia]]. split; [left; by right|]. intros Hin. by apply (Hdis v).
      * intros [[[?|?]|?] ?]; [done|by left|by right].
    + intros i Hi. unfold page_maps. rewrite Ht, Hb.
      pose proof (dm_mapped _ _ _ Hinv) as Hm. eapply Forall_forall in Hm as (_ & _ & Hm); [apply Hm; lia|set_solver].
    + intros v p _. unfold page_maps. by rewrite Ht, Hb.
    + intros x Hx. apply Hmem. intros Hin. apply Hx. by left.
    + intros k (j & Hj & [H1 H2] & Hk). exists j. split; [done|]. unfold avail_pages in *.
      rewrite El, Hperm, length_app, length_seqZ in Hk. rewrite El', Hst, Hmx, Hbp. lia.
    + lia.
  - assert (avail_pages a n) as Hav'.
    { destruct Hav as [?|(r & Hr & Hsz)]; [done|].
      eapply Forall_forall in Hnone; [|exact Hr]. lia. }
    destruct (dmalloc_from_brk own a l n z Hinv Hn Hav' Hnone)
      as (own' & a' & pfn & E & Hinv' & Hp1 & Hp2 & Hbp & [Hvl Hkb] & Hmx & Hst & Hmaps & Hkeep & Hmem & Hz).
    exists own', a', l, pfn, (brk_page a). split; [done|].
    pose proof (free_runs_eq _ _ _ Hinv') as El'. pose proof (dm_brk _ _ _ Hinv) as Hb.
    pose proof (dm_align _ _ _ Hinv) as Ha. destruct Hav' as [Ha1 Ha2].
    split; unfold is_free; rewrite ?El, ?El', ?Hbp; try done.
    + lia.
    + intros v Hv. right. lia.
    + intros v. split.
      * intros [Hv|Hv]; [|split; [right; lia|lia]]. split; [by left|].
        pose proof (dma_free_range _ _ _ _ Hinv Hv). lia.
      * intros [[Hv|Hv] Hn']; [by left|right; lia].
    + intros x Hx. apply Hmem. intros Hin. apply Hx. right. split; dlia.
    + intros Hz' x Hx. apply Hz; [done|]. unfold in_pages in Hx. lia.
    + lia.
    + intros k (j & Hj & [H1 H2] & Hk). exists (Z.max j n - n). split; [lia|].
      unfold avail_pages in *. rewrite El in Hk. rewrite El', Hmx, Hbp. lia.
Qed.

(** ** dmafree *)
Lemma dmafree_ok own a l pfn vpn n :
  dma_inv own a l -> run_ok DMA_BASE (brk_page a) (mkRun vpn n pfn) ->
  run_mapped (km a) (mkRun vpn n pfn) ->
  (forall v, vpn <= v < vpn + n -> v ∉ pages_of l) ->
  exists a', dmafree pfn vpn n a = Ret (tt, a') /\ dma_inv own a' (mkRun vpn n pfn :: l) /\
    brk_page a' = brk_page a /\ km a' = set_vmem (amem a') (km a) /\
    (forall x, ~ in_pages vpn n x -> amem a' x = amem a x).
Proof.
  intros Hinv Hr Hm Hdis. pose proof Hinv as [Hpt Hl Hrs Hnd Ha Hb Hms].
  destruct Hr as (Hr1 & Hr2 & Hr3). cbn [r_vpn r_size] in *.
  assert (0 <= vpn < 4503599627370496) as Hv by (unfold DMA_BASE, DMA_END in *; lia).
  set (p := vpn * 4096).
  set (m' := store64 (store64 (store64 (amem a) p n) (p + 8) pfn) (p + 16) (ptfreelist a)).
  assert (forall x, ~ (p <= x < p + 24) -> m' x = amem a x) as Hout.
  { intros x Hx. unfold m'. by rewrite !store64_outside by lia. }
  exists (set_ptfreelist p (set_amem m' a)). split.
  { unfold dmafree. rewrite (bind_ret_l (gets id) _ a a a eq_refl).
    rewrite PAGE_2_ADDR_small by done. fold p. run_alloc. done. }
  split.
  { assert (0 <= ptfreelist a < 18446744073709551616) as Hh.
    { destruct l as [|r l]; cbn [flseg] in Hl; [by rewrite Hl|]. destruct Hl as ((-> & _) & _).
      apply Forall_cons in Hrs as [(? & ? & ?) _]. unfold r_addr, DMA_BASE, DMA_END in *. lia. }
    destruct Hm as (Hm1 & Hm2 & Hm3). cbn [r_pfn r_size] in *.
    split; try done.
    - cbn [flseg]. unfold node_at, fn_size, fn_pfn, fn_next, r_addr. cbn [r_vpn r_size r_pfn].
      rewrite amem_set_list, amem_set. fold p.
      assert (load64 m' p = n /\ load64 m' (p + 8) = pfn /\ load64 m' (p + 16) = ptfreelist a) as (E1 & E2 & E3).
      { unfold m'. split; [|split].
        - rewrite !load64_other by lia. apply load64_same. unfold DMA_BASE, DMA_END in *. lia.
        - rewrite load64_other by lia. apply load64_same. lia.
        - by apply load64_same. }
      cbn [ptfreelist set_ptfreelist]. rewrite E1, E2, E3. split; [done|]. eapply flseg_ext; [|exact Hl].
      intros r x Hin Hx. apply Hout. intros Hxp.
      eapply Forall_forall in Hrs as (? & ? & ?); [|exact Hin].
      apply (Hdis (x / 4096)); [subst p; dlia|]. apply elem_of_pages. exists r. split; [done|].
      unfold header, r_addr in Hx. dlia.
    - by constructor.
    - rewrite pages_of_cons. apply NoDup_app. split; [apply NoDup_seqZ|]. split; [|done].
      intros v Hv'. unfold r_pages in Hv'. apply elem_of_seqZ in Hv'. cbn in Hv'. by apply Hdis.
    - by constructor. }
  split; [done|]. split; [done|]. intros x Hx. cbn. apply Hout. unfold in_pages in Hx. subst p. lia.
Qed.

(** C21: dmalloc returns a run of pages that were free and are free no more,
    each mapped to the frame it reports, cleared if asked; no other page
    changes its contents, its mapping or whether it is free, and the heap
    stays well formed. *)
Theorem dmalloc_correct own a l n z :
  dma_inv own a l -> 1 <= n -> avail_pages a n ->
  exists own' a' l' pfn vpn, dmalloc true n z a = Ret ((pfn, vpn), a') /\ dma_inv own' a' l' /\
    (forall v, vpn <= v < vpn + n -> is_free a v) /\
    (forall v, is_free a' v <-> is_free a v /\ ~ (vpn <= v < vpn + n)) /\
    (forall i, 0 <= i < n -> page_maps (km a') (vpn + i) (pfn + i)) /\
    (z = true -> forall x, in_pages vpn n x -> amem a' x = 0) /\
    (forall x, ~ is_free a (x / 4096) -> amem a' x = amem a x) /\
    (forall v p, kernel_page v -> v < brk_page a -> page_maps (km a) v p -> page_maps (km a') v p).
Proof.
  intros Hinv Hn Hav. destruct (dmalloc_ok own a l n z Hinv Hn (or_introl Hav))
    as (own' & a' & l' & pfn & vpn & E & []). exists own', a', l', pfn, vpn.
  do 7 (split; [done|]). intros v p Hv Hlt. apply dp_keep0. by left.
Qed.

(** C22: pages that are given back can be allocated again: after dmalloc and
    dmafree of the same run the free pages are those of before, and the heap is
    well formed. *)
Theorem dmalloc_dmafree_roundtrip own a l n z :
  dma_inv own a l -> 1 <= n -> avail_pages a n ->
  exists a' own' l' pfn vpn, (r ← dmalloc true n z; dmafree r.1 r.2 n;; mret r) a = Ret ((pfn, vpn), a') /\
    dma_inv own' a' (mkRun vpn n pfn :: l') /\ (forall v, is_free a' v <-> is_free a v).
Proof.
  intros Hinv Hn Hav. destruct (dmalloc_ok own a l n z Hinv Hn (or_introl Hav))
    as (own' & a1 & l1 & pfn & vpn & E & [D1 Dp D2 D3 D4 D5 D6 D7 D8 D9 D10]).
  pose proof (free_runs_eq _ _ _ D1) as E1.
  assert (forall v, vpn <= v < vpn + n -> v ∉ pages_of l1) as Hdis.
  { intros v Hv Hin. apply (proj1 (D4 v)); [|done]. left. by rewrite E1. }
  destruct (dmafree_ok own' a1 l1 pfn vpn n D1) as (a2 & E2 & Hinv2 & Hb2 & _); [..|done|].
  { split; cbn; lia. } { split; cbn; [lia|]. split; [lia|]. intros i Hi. by apply D5. }
  exists a2, own', l1, pfn, vpn. split.
  { rewrite (bind_ret_l _ _ _ _ _ E). cbn [fst snd]. by rewrite (bind_ret_l _ _ _ _ _ E2). }
  split; [done|]. intros v. unfold is_free. rewrite (free_runs_eq _ _ _ Hinv2), Hb2, pages_of_cons, elem_of_app.
  specialize (D4 v). unfold is_free in D4. rewrite E1 in D4. unfold r_pages. rewrite elem_of_seqZ. cbn.
  pose proof (D3 v). unfold is_free in *. destruct (decide (vpn <= v < vpn + n)); tauto.
Qed.

(** ** The interface of World.v *)
#[global] Instance alloc_kmem : KMem A.
Proof. refine {| w_mem := amem; w_set := set_amem |}; [done..|apply set_same]. Defined.

Definition dma_ok (a : A) : Prop := exists own l, dma_inv own a l.
Definition dma_live (a : A) (x : Z) : Prop := ~ is_free a (x / 4096).
Definition dma_backed (a : A) (v p : Z) : Prop :=
  DMA_BASE <= v < brk_page a /\ 0 <= p < 17592186044416 /\ page_maps (km a) v p.

#[global] Instance is_free_dec a v : Decision (is_free a v).
Proof. unfold is_free. apply _. Defined.

Lemma not_live_free a x : ~ dma_live a x <-> is_free a (x / 4096).
Proof. unfold dma_live. destruct (decide (is_free a (x / 4096))); tauto. Qed.

(** Writing live memory only keeps the free list. *)
Lemma dma_inv_set own a l m :
  dma_inv own a l -> (forall x, ~ dma_live a x -> m x = amem a x) -> dma_inv own (set_amem m a) l.
Proof.
  intros Hinv Hm. pose proof Hinv as [H1 H2 H3 H4 H5 H6 H7]. split; try done.
  eapply flseg_ext; [|exact H2]. intros r x Hin Hx. cbn. apply Hm, not_live_free. left.
  rewrite (free_runs_eq _ _ _ Hinv). apply elem_of_pages. exists r. split; [done|].
  eapply Forall_forall in H3 as (? & ? & ?); [|exact Hin]. unfold header, r_addr in Hx. dlia.
Qed.

Lemma is_free_set own a l m v :
  dma_inv own a l -> (forall x, ~ dma_live a x -> m x = amem a x) ->
  is_free (set_amem m a) v <-> is_free a v.
Proof.
  intros Hinv Hm. pose proof (dma_inv_set own a l m Hinv Hm) as Hinv'. unfold is_free.
  by rewrite (free_runs_eq _ _ _ Hinv), (free_runs_eq _ _ _ Hinv').
Qed.

Lemma free_runs_set own a l m :
  dma_inv own a l -> (forall x, ~ dma_live a x -> m x = amem a x) ->
  free_runs (set_amem m a) = free_runs a.
Proof.
  intros Hinv Hm. pose proof (dma_inv_set own a l m Hinv Hm) as Hinv'.
  by rewrite (free_runs_eq _ _ _ Hinv), (free_runs_eq _ _ _ Hinv').
Qed.

(** Single pages can be allocated as long as [dma_avail] says so. *)
Lemma dma_avail_one own a l :
  dma_inv own a l -> dma_avail a 1 -> avail_pages a 1 \/ (exists r, r ∈ l /\ 1 <= r_size r).
Proof.
  intros Hinv (j & Hj & [H1 H2] & Hk). rewrite (free_runs_eq _ _ _ Hinv) in Hk.
  destruct l as [|r l].
  - left. unfold avail_pages. cbn in Hk. lia.
  - right. exists r. split; [set_solver|].
    pose proof (dm_runs _ _ _ Hinv) as Hr. apply Forall_cons in Hr as [(? & ? & ?) _]. lia.
Qed.

Lemma dma_free_ok a pfn vpn n :
  dma_ok a -> 1 <= n -> (forall i, 0 <= i < n -> dma_backed a (vpn + i) (pfn + i)) ->
  (forall x, in_pages vpn n x -> dma_live a x) ->
  exists a', dmafree pfn vpn n a = Ret (tt, a') /\ dma_ok a' /\
    (forall x, dma_live a' x <-> dma_live a x /\ ~ in_pages vpn n x) /\
    (forall v p, dma_backed a v p -> dma_backed a' v p) /\
    (forall x, dma_live a' x -> amem a' x = amem a x) /\
    (forall k, dma_avail a k -> dma_avail a' (k + n)).
Proof.
  intros (own & l & Hinv) Hn Hb Hl. pose proof (free_runs_eq _ _ _ Hinv) as El.
  pose proof (Hb 0 ltac:(lia)) as (Hv & Hp & _). pose proof (Hb (n - 1) ltac:(lia)) as (Hv' & Hp' & _).
  rewrite Z.add_0_r in *.
  destruct (dmafree_ok own a l pfn vpn n Hinv) as (a' & E & Hinv' & Hbp & Ht & Hm).
  - split; cbn; lia.
  - split; cbn; [lia|]. split; [lia|]. intros i Hi. by apply Hb.
  - intros v Hvr Hin. apply (Hl (v * 4096)); [unfold in_pages; lia|].
    replace (v * 4096 / 4096) with v by dlia. left. by rewrite El.
  - pose proof (free_runs_eq _ _ _ Hinv') as El'.
    assert (forall v, is_free a' v <-> is_free a v \/ vpn <= v < vpn + n) as Hf.
    { intros v. unfold is_free. rewrite El, El', Hbp, pages_of_cons, elem_of_app. unfold r_pages.
      rewrite elem_of_seqZ. cbn. tauto. }
    exists a'. split; [done|]. split; [by exists own, (mkRun vpn n pfn :: l)|].
    split; [|split; [|split]].
    + intros x. unfold dma_live. rewrite Hf. unfold in_pages.
      destruct (decide (vpn <= x / 4096 < vpn + n)); [split; [tauto|dlia]|].
      split; [intros ?; split; [tauto|dlia]|tauto].
    + intros v p (? & ? & Hmp). unfold dma_backed, page_maps in *. by rewrite Hbp, Ht.
    + intros x Hx. apply Hm. intros Hin. apply Hx, Hf. right. unfold in_pages in Hin. dlia.
    + intros k (j & Hj & Hav & Hk). exists j. split; [done|]. split; [unfold avail_pages; by rewrite Hbp, Ht|].
      rewrite El in Hk. rewrite El', pages_of_cons, length_app. unfold r_pages. rewrite length_seqZ. cbn. lia.
Qed.

#[global] Instance alloc_heap : DmaHeap A.
Proof.
  refine {| World.dmalloc := Alloc.dmalloc true; World.dmafree := Alloc.dmafree;
            heap_ok := dma_ok; live := dma_live; backed := dma_backed; avail := dma_avail;
            avail_run := avail_pages |}.
  - intros m a k (own & l & Hinv) Hav Hm. unfold dma_avail. by rewrite (free_runs_set own a l).
  - intros a k k' (j & Hj & Hav & Hk) Hle. exists j. split; [done|]. split; [done|lia].
  - intros m a (own & l & Hinv) Hm x. unfold dma_live. cbn. by rewrite (is_free_set own a l).
  - done.
  - by intros a v p _ (_ & ? & _).
  - intros m a (own & l & Hinv) Hm. exists own, l. by apply dma_inv_set.
  - intros n z a (own & l & Hinv) Hc.
    assert (1 <= n /\ (avail_pages a n \/ exists r, r ∈ l /\ n <= r_size r)) as [Hn Hc'].
    { destruct Hc as [[-> Hav]|[? ?]]; [|by split; [|left]]. split; [lia|]. by eapply dma_avail_one. }
    destruct (dmalloc_ok own a l n z Hinv Hn Hc') as (own' & a' & l' & pfn & vpn & E & D).
    exists pfn, vpn, a'. split; [done|]. destruct D as [D1 Dp D2 D3 D4 D5 D6 D7 D8 D9 D10 _ _].
    pose proof (dm_brk _ _ _ D1) as Hb.
    split; [by exists own', l'|]. unfold DMA_BASE, DMA_END in *. split; [lia|]. split; [lia|].
    split; [intros i Hi; split; [unfold DMA_BASE; lia|split; [lia|by apply D5]]|]. split.
    { intros v p (Hv & Hp & Hvp). unfold dma_backed, DMA_BASE in *. split; [lia|]. split; [done|].
      apply D6; [|done]. left. pose proof (dm_brk _ _ _ Hinv).
      unfold kernel_page, DMA_BASE, DMA_END in *. lia. }
    split. { intros x Hx. apply not_live_free, D3. unfold in_pages in Hx. dlia. }
    split.
    { intros x. unfold dma_live, in_pages. rewrite D4.
      destruct (decide (vpn <= x / 4096 < vpn + n)).
      + split; [intros _; right; dlia|tauto].
      + split; [tauto|]. intros [?|?]; [tauto|dlia]. }
    split; [exact D7|]. split; [exact D8|]. intros k -> Hav. by apply D10.
  - intros pfn vpn n a Hok Hn Hb Hl. by apply dma_free_ok.
Defined.


(** ** The properties at a concrete state *)
(** The heap of a kernel that has mapped nothing but its root yet. *)
Definition heap0 : A := mkA kpt0 0 0 PTBRK0 KBRK0.

Lemma heap0_ok : dma_inv own0 heap0 [].
Proof.
  split; try done; [apply kpt0_ok|constructor..].
Qed.

Lemma heap0_avail : avail_pages heap0 3.
Proof. unfold avail_pages, heap0, kpt0, root0. cbn. split; vm_compute; discriminate. Qed.

Lemma dmalloc_correct_witness :
  exists a' pfn vpn, dmalloc true 3 true heap0 = Ret ((pfn, vpn), a') /\
    page_maps (km a') (vpn + 2) (pfn + 2).
Proof.
  destruct (dmalloc_correct own0 heap0 [] 3 true heap0_ok ltac:(lia) heap0_avail)
    as (own' & a' & l' & pfn & vpn & E & _ & _ & _ & Hm & _).
  exists a', pfn, vpn. split; [exact E|]. apply Hm. lia.
Defined.

Lemma dmalloc_dmafree_roundtrip_witness :
  exists a' r, (r ← dmalloc true 3 true; dmafree r.1 r.2 3;; mret r) heap0 = Ret (r, a') /\
    is_free a' DMA_BASE.
Proof.
  destruct (dmalloc_dmafree_roundtrip own0 heap0 [] 3 true heap0_ok ltac:(lia) heap0_avail)
    as (a' & own' & l' & pfn & vpn & E & _ & Hf).
  exists a', (pfn, vpn). split; [exact E|]. apply Hf. right. vm_compute. split; [discriminate|reflexivity].
Defined.
