(* ===== verification/KHeapSpec.v ===== *)
(** * The kernel heap

    kalloc and kfree: the invariant of the heap next to that of the DMA heap,
    with which it shares the memory and the page table, and the two ways in
    which kalloc finds its pages. *)
From S2P Require Import Prelude Mem World KernelPT PTBits KernelPTSpec KernelPTRec KernelPTProps PTInit Alloc AllocList AllocSpec DmaHeapSpec DmaHeap.
Import KernelPT Alloc.

Definition kbrk_page (a : A) : Z := kbrk a / 4096.

Record kheap_inv (own : Z -> option node) (a : A) (l kl : list run) : Prop := {
  kh_dma : dma_inv own a l;
  kh_list : flseg false (amem a) (vfreelist a) kl 0;
  kh_runs : Forall (run_ok KH_BASE (kbrk_page a)) kl;
  kh_nodup : NoDup (pages_of kl);
  kh_align : kbrk a = kbrk_page a * 4096;
  kh_brk : KH_BASE <= kbrk_page a <= KH_END;
  kh_mapped : forall v, KH_BASE <= v < kbrk_page a -> exists p, page_maps (km a) v p;
}.

Lemma kh_fuel own a l kl : kheap_inv own a l kl -> (length kl < list_fuel KBRK0 (kbrk a))%nat.
Proof.
  intros [_ _ Hr Hn Ha Hb _]. pose proof (runs_le_pages _ _ _ Hn Hr). unfold list_fuel.
  unfold KH_BASE, KH_END in *. rewrite Ha, !ADDR_2_PAGE_div by (unfold KBRK0; lia).
  replace (kbrk_page a * 4096 / 4096) with (kbrk_page a) by dlia.
  change (KBRK0 / 4096) with 4503599593816064. lia.
Qed.

Lemma kh_pos own a l kl : kheap_inv own a l kl -> Forall (fun r => 0 < r_vpn r) kl.
Proof.
  intros [_ _ Hr _ _ _ _]. eapply Forall_impl; [exact Hr|]. intros r (_ & H & _). unfold KH_BASE in H. lia.
Qed.

(** The DMA heap does not see writes to the kernel heap, and the other way
    round. *)
Lemma dma_inv_heap_mem own a l m h :
  dma_inv own a l -> (forall x, x / 4096 < KH_BASE -> m x = amem a x) ->
  dma_inv own (set_vfreelist h (set_amem m a)) l.
Proof.
  intros [H1 H2 H3 H4 H5 H6 H7] Hm. split; try done.
  eapply flseg_ext; [|exact H2]. intros r x Hin Hx. cbn. apply Hm.
  eapply Forall_forall in H3 as (? & ? & ?); [|exact Hin].
  unfold header, r_addr, KH_BASE, DMA_BASE, DMA_END in *. dlia.
Qed.

Lemma set_vlist_same m a : set_vfreelist (vfreelist a) (set_amem m a) = set_amem m a.
Proof. by destruct a. Qed.
Lemma amem_set_vlist h a : amem (set_vfreelist h a) = amem a.
Proof. done. Qed.
Lemma set_amem_vlist m h a : set_amem m (set_vfreelist h a) = set_vfreelist h (set_amem m a).
Proof. done. Qed.
Lemma set_vlist_vlist h h' a : set_vfreelist h (set_vfreelist h' a) = set_vfreelist h a.
Proof. done. Qed.

Ltac run_kalloc :=
  unfold put_next, put_size;
  repeat (rewrite ?bind_assoc_run; (rewrite run_mem || rewrite run_modify || rewrite run_tt);
          rewrite ?amem_set_vlist, ?amem_set, ?set_amem_vlist, ?set_amem_set, ?set_vlist_vlist);
  rewrite ?set_vlist_same, ?set_same.

(** Room for [n] more pages: the frames for them and for their tables, and the
    addresses; and how much of it growing by [n] pages takes. *)
Definition kheap_room (a : A) (n : Z) : Prop :=
  pfn_start (km a) + 3 * n <= max_pfn (km a) /\ kbrk_page a + n <= KH_END.

Definition grew (a a' : A) (n : Z) : Prop :=
  kbrk_page a' <= kbrk_page a + n /\ max_pfn (km a') = max_pfn (km a) /\ pfn_start (km a') <= pfn_start (km a) + 3 * n.

Lemma grew_room a a' n k : grew a a' n -> kheap_room a (n + k) -> kheap_room a' k.
Proof. unfold grew, kheap_room. lia. Qed.

(** What one call of kalloc does, for [n] pages at the page [v]. *)
Record kalloc_post (own' : Z -> option node) (a a' : A) (l kl kl' : list run) (n v : Z) : Prop := {
  kp_inv : kheap_inv own' a' l kl';
  kp_range : KH_BASE <= v /\ v + n <= kbrk_page a';
  kp_pages : forall w, w ∈ pages_of kl' \/ kbrk_page a' <= w < KH_END <->
    (w ∈ pages_of kl \/ kbrk_page a <= w < KH_END) /\ ~ (v <= w < v + n);
  kp_was : forall w, v <= w < v + n -> w ∈ pages_of kl \/ kbrk_page a <= w < KH_END;
  kp_zero : forall x, in_pages v n x -> amem a' x = 0;
  kp_mem : forall x, ~ (x / 4096 ∈ pages_of kl \/ kbrk_page a <= x / 4096 < KH_END) -> amem a' x = amem a x;
  kp_keep : forall w p, any_page w -> w < kbrk_page a -> page_maps (km a) w p -> page_maps (km a') w p;
  kp_dma : ptfreelist a' = ptfreelist a /\ ptbrk a' = ptbrk a;
  kp_grew : grew a a' n;
}.

Section FromList.
Context (own : Z -> option node) (a : A) (l kl : list run) (size n : Z) (pre : list run) (r : run) (post : list run).
Hypothesis Hinv : kheap_inv own a l kl.
Hypothesis Hkl : kl = pre ++ r :: post.
Hypothesis Hpre : Forall (fun r => r_size r < n) pre.
Hypothesis Hn : 1 <= n <= r_size r.
Hypothesis Hsize : size <> 0 /\ ADDR_2_PAGEUP size = n.

Let h' := if negb (prev_addr pre =? 0) then vfreelist a else next_head (amem a) n (r_addr r).
Let m' := take_mem false (amem a) n (prev_addr pre) (r_addr r) true.

Lemma kalloc_take_run : kalloc true size a = Ret (r_addr r, set_vfreelist h' (set_amem m' a)).
Proof using All.
  destruct Hsize as [Hs0 Hs]. pose proof (kh_list _ _ _ _ Hinv) as Hl. rewrite Hkl in Hl.
  unfold kalloc. destruct (Z.eqb_spec size 0); [done|]. rewrite Hs, (bind_ret_l (gets id) _ a a a eq_refl).
  unfold id. rewrite (bind_ret_l _ _ _ _ _ (f_equal (fun o => lift o a) (search_found false
    (list_fuel KBRK0 (kbrk a)) (amem a) n 0 (vfreelist a) pre r post 0 Hl
    ltac:(pose proof (kh_pos _ _ _ _ Hinv) as Hp; rewrite Hkl in Hp; rewrite Forall_app in *; rewrite Forall_cons in Hp; split; [apply Hp|by repeat constructor; apply Hp])
    Hpre ltac:(lia) ltac:(pose proof (kh_fuel _ _ _ _ Hinv) as Hf; rewrite Hkl, length_app in Hf; lia)))).
  fold (prev_addr pre). subst h' m'. unfold take_mem, split_mem, next_head.
  destruct (n <? fn_size (amem a) (r_addr r)), (negb (prev_addr pre =? 0)); by run_kalloc.
Qed.

Lemma kalloc_from_list : exists a' kl', kalloc true size a = Ret (r_addr r, a') /\
  kalloc_post own a a' l kl kl' n (r_vpn r).
Proof using All.
  pose proof Hinv as [Hd Hl Hr Hnd Ha Hb Hm]. rewrite Hkl in Hl, Hr, Hnd.
  assert (run_ok KH_BASE (kbrk_page a) r) as (Hr1 & Hr2 & Hr3) by (eapply Forall_forall in Hr; [exact Hr|set_solver]).
  assert (0 < KH_BASE) as Hb0 by (unfold KH_BASE; lia).
  assert (kbrk_page a * 4096 < 18446744073709551616) as Htop by (unfold KH_END in *; lia).
  assert (false = true -> 0 <= r_pfn r /\ r_pfn r + r_size r < 18446744073709551616) as Hpf by done.
  destruct (take_ok false (amem a) (vfreelist a) n KH_BASE (kbrk_page a) pre r post Hl Hr Hnd Hb0 Htop Hn Hpf true)
    as (Hfl & Hout & Hz).
  destruct (take_runs_ok false (amem a) (vfreelist a) n KH_BASE (kbrk_page a) pre r post Hl Hr Hnd Hb0 Htop Hn Hpf)
    as (Hr' & Hnd').
  pose proof (rest_pages false (amem a) (vfreelist a) n KH_BASE (kbrk_page a) pre r post Hl Hr Hnd Hb0 Htop Hn Hpf) as Hperm.
  exists (set_vfreelist h' (set_amem m' a)), (pre ++ rest_run r n ++ post).
  split; [apply kalloc_take_run|]. fold m' in Hfl, Hout, Hz.
  assert (forall w, w ∈ pages_of kl <-> r_vpn r <= w < r_vpn r + n \/ w ∈ pages_of (pre ++ rest_run r n ++ post)) as Hpg.
  { intros w. rewrite Hkl, Hperm, elem_of_app, elem_of_seqZ. done. }
  assert (forall w, w ∈ pages_of kl -> KH_BASE <= w < kbrk_page a) as Hrange.
  { intros w (q & Hq & Hw)%elem_of_pages. rewrite Hkl in Hq. eapply Forall_forall in Hr as (? & ? & ?); [|exact Hq]. lia. }
  split; try done.
  - split; try done. apply dma_inv_heap_mem; [done|]. intros x Hx. apply Hout. rewrite <- Hkl.
    intros Hin. apply Hrange in Hin. lia.
  - unfold kbrk_page in *. cbn. lia.
  - intros w. rewrite Hpg. split.
    + intros [Hw|Hw]; [|split; [by right|unfold kbrk_page in *; cbn in *; lia]]. split; [by left; right|].
      intros Hin. rewrite Hperm in Hnd. apply NoDup_app in Hnd as (_ & Hdis & _). apply (Hdis w); [by apply elem_of_seqZ|done].
    + intros [[[?|?]|?] ?]; [done|by left|by right].
  - intros w Hw. left. apply Hpg. by left.
  - intros x Hx. apply Hz; [done|]. unfold in_pages in Hx. lia.
  - intros x Hx. apply Hout. rewrite <- Hkl. tauto.
  - unfold grew, kbrk_page. cbn. lia.
Qed.
End FromList.

(** ** Pages from the break *)
(** The state after [n] pages were mapped at the break of the heap. *)
Record kgrown (own' : Z -> option node) (a a' : A) (l kl : list run) (n : Z) : Prop := {
  kg_inv : kheap_inv own' a' l kl;
  kg_brk : kbrk_page a' = kbrk_page a + n;
  kg_max : max_pfn (km a') = max_pfn (km a) /\ pfn_start (km a') <= pfn_start (km a) + 3 * n;
  kg_mem : forall x, amem a' x = if decide (in_pages (kbrk_page a) n x) then 0 else amem a x;
  kg_keep : forall w p, any_page w -> w < kbrk_page a -> page_maps (km a) w p -> page_maps (km a') w p;
  kg_dma : ptfreelist a' = ptfreelist a /\ ptbrk a' = ptbrk a /\ vfreelist a' = vfreelist a;
}.

(** A page past the break is mapped: neither list sees it. *)
Lemma kheap_inv_grow own own' a l kl k' :
  kheap_inv own a l kl -> kbrk_page a < KH_END -> pt_ok own' k' ->
  (forall w, any_page w -> walk (tab k') (pt_base k') w =
     if decide (w = kbrk_page a) then Some (pfn_start (km a), PTE (pfn_start (km a)) RW)
     else walk (tab (km a)) (pt_base (km a)) w) ->
  (forall x, vmem k' x = if decide (in_pages (kbrk_page a) 1 x) then 0 else amem a x) ->
  kheap_inv own' (set_kbrk (kbrk a + 4096) (set_km k' a)) l kl.
Proof.
  intros [[D1 D2 D3 D4 D5 D6 D7] Hl Hr Hnd Ha Hb Hm] Hend Hpt Hw Hmem.
  set (a' := set_kbrk (kbrk a + 4096) (set_km k' a)).
  assert (kbrk_page a' = kbrk_page a + 1) as Hbrk by (unfold kbrk_page in *; cbn; dlia).
  assert (forall base top r x, run_ok base top r -> top <= kbrk_page a -> 0 <= base -> header r x -> vmem k' x = amem a x) as Hext.
  { intros base top r x (? & ? & ?) Ht Hb0 Hx. rewrite Hmem, decide_False; [done|].
    unfold in_pages, header, r_addr in *. lia. }
  unfold DMA_BASE, DMA_END, KH_BASE, KH_END in *. split; rewrite ?Hbrk; try done.
  - split; try done.
    + eapply flseg_ext; [|exact D2]. intros r x Hin Hx. eapply Forall_forall in D3; [|exact Hin].
      eapply (Hext _ _ r x D3); [lia|lia|done].
    + rewrite Forall_forall in *. intros r Hin. destruct (D7 r Hin) as (? & ? & Hmap). destruct (D3 r Hin) as (? & ? & ?).
      split; [done|]. split; [done|]. intros i Hi. unfold page_maps. cbn.
      unfold DMA_BASE in *. rewrite Hw by (left; unfold kernel_page; lia). rewrite decide_False by lia. by apply Hmap.
  - eapply flseg_ext; [|exact Hl]. intros r x Hin Hx. eapply Forall_forall in Hr; [|exact Hin].
    eapply (Hext _ _ r x Hr); [lia|lia|done].
  - eapply Forall_impl; [exact Hr|]. intros r (? & ? & ?). unfold run_ok, KH_BASE. lia.
  - cbn. lia.
  - unfold KH_BASE, KH_END in *. lia.
  - intros v Hv. unfold page_maps. cbn. rewrite Hw by (right; unfold heap_page, KH_BASE, KH_END in *; lia).
    destruct (decide (v = kbrk_page a)); [by eexists|]. apply Hm. unfold KH_BASE in *. lia.
Qed.

Lemma kgrow_one own a l kl :
  kheap_inv own a l kl -> kheap_room a 1 ->
  exists own' a', (in_km (palloc_ptr true (ADDR_2_PAGE (kbrk a)) RW);;
      modify (set_kbrk (u64 (kbrk a + PAGESIZE)))) a = Ret (tt, a') /\ kgrown own' a a' l kl 1.
Proof.
  intros Hinv [Hroom Hend]. pose proof Hinv as [Hd _ _ _ Ha Hb _]. pose proof (dm_pt _ _ _ Hd) as Hpt.
  unfold KH_BASE, KH_END in *.
  assert (ADDR_2_PAGE (kbrk a) = kbrk_page a) as -> by (rewrite ADDR_2_PAGE_div; [done|lia]).
  assert (any_page (kbrk_page a)) as Hp by (right; unfold heap_page, KH_BASE, KH_END; lia).
  destruct (palloc_ptr_ok own (km a) (kbrk_page a) RW Hpt) as (own' & k' & E & Hok' & Hbase & Hmx & _ & Hst & Hvm & Hw);
    [by apply any_page_managed|lia|by vm_compute|done|done|].
  assert (forall w, any_page w -> walk (tab k') (pt_base k') w =
     if decide (w = kbrk_page a) then Some (pfn_start (km a), PTE (pfn_start (km a)) RW)
     else walk (tab (km a)) (pt_base (km a)) w) as Hw'.
  { intros w Hkw. rewrite Hw by by apply any_page_managed.
    pose proof (any_page_eq w (kbrk_page a) Hkw Hp). gdecide; tauto. }
  assert (forall x, vmem k' x = if decide (in_pages (kbrk_page a) 1 x) then 0 else amem a x) as Hmem.
  { intros x. rewrite Hvm. rewrite PAGE_2_ADDR_small by lia. unfold PAGESIZE.
    rewrite memset_spec by lia. unfold in_pages, amem. gdecide; zcases; done. }
  pose proof (kheap_inv_grow own own' a l kl k' Hinv ltac:(unfold KH_END; lia) Hok' Hw' Hmem) as Hinv'.
  unfold PAGESIZE. rewrite u64_small by lia.
  exists own', (set_kbrk (kbrk a + 4096) (set_km k' a)). split.
  { unfold in_km, mbind, M_bind. by rewrite E. }
  split; try done; [unfold kbrk_page in *; cbn; dlia|cbn; lia|].
  intros w p Hw1 Hlt Hmp. unfold page_maps in *. cbn. rewrite Hw' by done. by rewrite decide_False by lia.
Qed.

Lemma kgrow_ok n : forall own a l kl,
  kheap_inv own a l kl -> kheap_room a (Z.of_nat n) ->
  exists own' a', kgrow true n a = Ret (tt, a') /\ kgrown own' a a' l kl (Z.of_nat n).
Proof.
  induction n as [|n IH]; intros own a l kl Hinv [Hroom Hend].
  { exists own, a. split; [done|]. split; try done; [lia|lia|].
    intros x. rewrite decide_False; [done|]. unfold in_pages. lia. }
  destruct (kgrow_one own a l kl Hinv) as (own1 & a1 & E1 & [I1 B1 M1 X1 K1 (F1 & F2 & F3)]); [split; lia|].
  destruct (IH own1 a1 l kl I1) as (own2 & a2 & E2 & [I2 B2 M2 X2 K2 (G1 & G2 & G3)]); [split; lia|].
  exists own2, a2. split.
  { cbn [kgrow]. rewrite (bind_ret_l (gets id) _ a a a eq_refl), <- E2. unfold mbind, M_bind in *.
    destruct (in_km _ a) as [[x s]| | |]; try discriminate E1. by injection E1 as <-. }
  split; try done; [lia|lia|..].
  - intros x. rewrite X2, X1, B1. unfold in_pages. gdecide; lia || done.
  - intros w p Hw Hlt Hmp. apply K2; [done|lia|]. by apply K1.
  - by rewrite G1, G2, G3.
Qed.

Lemma kalloc_from_brk own a l kl size n :
  kheap_inv own a l kl -> 1 <= n -> size <> 0 -> ADDR_2_PAGEUP size = n -> kheap_room a n ->
  Forall (fun r => r_size r < n) kl ->
  exists own' a', kalloc true size a = Ret (kbrk_page a * 4096, a') /\ kalloc_post own' a a' l kl kl n (kbrk_page a).
Proof.
  intros Hinv Hn Hs0 Hs Hroom Hnone. pose proof Hinv as [Hd Hl Hr Hnd Ha Hb Hm].
  destruct (kgrow_ok (Z.to_nat n) own a l kl Hinv) as (own' & a' & E & [I1 B1 M1 X1 K1 (F1 & F2 & F3)]);
    rewrite Z2Nat.id in * by lia; [done|]. destruct Hroom as [_ Hend]. unfold KH_BASE, KH_END in *.
  set (m' := memset (amem a') (kbrk a) 0 (u64 (n * PAGESIZE))).
  assert (forall x, m' x = amem a' x) as Hm'.
  { intros x. unfold m', PAGESIZE. rewrite u64_small, memset_spec by lia. rewrite X1, Ha. unfold in_pages.
    gdecide; zcases; done. }
  exists own', (set_amem m' a'). split.
  { unfold kalloc. destruct (Z.eqb_spec size 0); [done|]. rewrite Hs, (bind_ret_l (gets id) _ a a a eq_refl).
    unfold id. rewrite (bind_ret_l _ _ _ _ _ (f_equal (fun o => lift o a) (search_exhausted false
      (list_fuel KBRK0 (kbrk a)) (amem a) n 0 (vfreelist a) kl Hl (kh_pos _ _ _ _ Hinv) Hnone (kh_fuel _ _ _ _ Hinv)))).
    rewrite (bind_ret_l _ _ _ _ _ E). by rewrite <- Ha. }
  pose proof (dma_inv_heap_mem own' a' l m' (vfreelist a') (kh_dma _ _ _ _ I1) ltac:(intros; apply Hm')) as Hdma.
  rewrite set_vlist_same in Hdma.
  assert (kbrk_page (set_amem m' a') = kbrk_page a + n) as Hbrk by done.
  split; rewrite ?Hbrk; try done.
  - destruct I1 as [J1 J2 J3 J4 J5 J6 J7]. split; try done. eapply flseg_ext; [|exact J2].
    intros r x _ _. apply Hm'.
  - unfold KH_BASE. lia.
  - intros w. unfold KH_END. split.
    + intros [Hw|Hw]; [|split; [right; lia|lia]]. split; [by left|].
      apply elem_of_pages in Hw as (q & Hq & Hw). eapply Forall_forall in Hr as (? & ? & ?); [|exact Hq]. lia.
    + intros [[Hw|Hw] Hn']; [by left|right; lia].
  - intros w Hw. right. unfold KH_END. lia.
  - intros x Hx. unfold amem at 1. cbn. rewrite Hm', X1. by rewrite decide_True.
  - intros x Hx. unfold amem at 1. cbn. rewrite Hm', X1, decide_False; [done|]. intros Hin. apply Hx. right.
    unfold in_pages, KH_END in *. dlia.
  - unfold grew. rewrite Hbrk. cbn. lia.
Qed.

(** ** kalloc and kfree

    The kernel heap hands out cleared pages that nobody else has, and takes them
    back, while the DMA heap next to it stays as it is. *)

(** The pages the heap may still hand out, given the runs of its list. *)
Definition kheap_free (a : A) (kl : list run) (w : Z) : Prop :=
  w ∈ pages_of kl \/ kbrk_page a <= w < KH_END.

Lemma kheap_list_range own a l kl w : kheap_inv own a l kl -> w ∈ pages_of kl -> KH_BASE <= w < kbrk_page a.
Proof.
  intros [_ _ Hr _ _ _ _] (r & Hin & Hv)%elem_of_pages.
  eapply Forall_forall in Hr as (? & ? & ?); [|exact Hin]. lia.
Qed.

Lemma kalloc_ok own a l kl size :
  kheap_inv own a l kl -> 1 <= size < 1073741824 -> kheap_room a (ADDR_2_PAGEUP size) ->
  exists own' a' kl' v, kalloc true size a = Ret (v * 4096, a') /\
    kalloc_post own' a a' l kl kl' (ADDR_2_PAGEUP size) v.
Proof.
  intros Hinv Hs Hroom. set (n := ADDR_2_PAGEUP size) in *.
  assert (1 <= n) as Hn by (subst n; rewrite ADDR_2_PAGEUP_ceil by lia; dlia).
  destruct (first_fit n kl) as [(pre & r & post & -> & Hpre & Hfit)|Hnone].
  - destruct (kalloc_from_list own a l _ size n pre r post Hinv eq_refl Hpre ltac:(lia) ltac:(split; [lia|done]))
      as (a' & kl' & E & P). by exists own, a', kl', (r_vpn r).
  - destruct (kalloc_from_brk own a l kl size n Hinv Hn ltac:(lia) eq_refl Hroom Hnone) as (own' & a' & E & P).
    by exists own', a', kl, (kbrk_page a).
Qed.

Lemma kfree_ok own a l kl v size :
  kheap_inv own a l kl -> 1 <= size < 1073741824 -> KH_BASE <= v -> v + ADDR_2_PAGEUP size <= kbrk_page a ->
  (forall w, v <= w < v + ADDR_2_PAGEUP size -> w ∉ pages_of kl) ->
  exists a', kfree (v * 4096) size a = Ret (tt, a') /\
    kheap_inv own a' l (mkRun v (ADDR_2_PAGEUP size) 0 :: kl) /\ kbrk_page a' = kbrk_page a /\
    km a' = set_vmem (amem a') (km a) /\ (forall x, ~ in_pages v (ADDR_2_PAGEUP size) x -> amem a' x = amem a x).
Proof.
  intros Hinv Hs Hv Htop Hdis. set (n := ADDR_2_PAGEUP size) in *.
  assert (1 <= n < 1073741824) as Hn by (subst n; rewrite ADDR_2_PAGEUP_ceil by lia; dlia).
  pose proof Hinv as [Hd Hl Hr Hnd Ha Hb Hm]. set (p := v * 4096).
  set (m' := store64 (store64 (amem a) p n) (p + 16) (vfreelist a)).
  assert (forall x, ~ (p <= x < p + 24) -> m' x = amem a x) as Hout.
  { intros x Hx. unfold m'. by rewrite !store64_outside by lia. }
  assert (0 <= vfreelist a < 18446744073709551616) as Hh.
  { destruct kl as [|r kl]; cbn [flseg] in Hl; [by rewrite Hl|]. destruct Hl as ((-> & _) & _).
    apply Forall_cons in Hr as [(? & ? & ?) _]. unfold r_addr, KH_BASE, KH_END in *. lia. }
  exists (set_vfreelist p (set_amem m' a)). split.
  { unfold kfree. destruct (Z.eqb_spec size 0); [lia|]. fold n. rewrite (bind_ret_l (gets id) _ a a a eq_refl).
    by run_kalloc. }
  split; [|split; [done|split; [done|]]].
  2:{ intros x Hx. cbn. apply Hout. unfold in_pages in Hx. subst p. lia. }
  split; try done.
  - apply dma_inv_heap_mem; [done|]. intros x Hx. apply Hout. unfold KH_BASE in *. subst p. dlia.
  - cbn [flseg]. unfold node_at, fn_size, fn_next, r_addr. cbn [r_vpn r_size r_pfn vfreelist set_vfreelist].
    rewrite amem_set_vlist, amem_set. fold p.
    assert (load64 m' p = n /\ load64 m' (p + 16) = vfreelist a) as (E1 & E2).
    { unfold m'. split; [rewrite load64_other by lia; apply load64_same; lia|by apply load64_same]. }
    rewrite E1, E2. split; [done|]. eapply flseg_ext; [|exact Hl]. intros r x Hin Hx. apply Hout. intros Hxp.
    eapply Forall_forall in Hr as (? & ? & ?); [|exact Hin].
    apply (Hdis (x / 4096)); [subst p; dlia|]. apply elem_of_pages. exists r. split; [done|].
    unfold header, r_addr in Hx. dlia.
  - constructor; [|done]. split; cbn; unfold kbrk_page in *; cbn; lia.
  - rewrite pages_of_cons. apply NoDup_app. split; [apply NoDup_seqZ|]. split; [|done].
    intros w Hw. unfold r_pages in Hw. apply elem_of_seqZ in Hw. cbn in Hw. by apply Hdis.
Qed.

(** C23: kalloc returns cleared pages of the kernel heap that were free and are
    free no more, and are mapped; the list of the DMA heap, every page in use
    and every other translation are as before, and both heaps stay well
    formed. *)
Theorem kalloc_correct own a l kl size :
  kheap_inv own a l kl -> 1 <= size < 1073741824 -> kheap_room a (ADDR_2_PAGEUP size) ->
  exists own' a' kl' v, kalloc true size a = Ret (v * 4096, a') /\ kheap_inv own' a' l kl' /\
    let n := ADDR_2_PAGEUP size in
    (forall w, v <= w < v + n -> kheap_free a kl w) /\
    (forall w, kheap_free a' kl' w <-> kheap_free a kl w /\ ~ (v <= w < v + n)) /\
    (forall w, v <= w < v + n -> exists p, page_maps (km a') w p) /\
    (forall x, in_pages v n x -> amem a' x = 0) /\
    (forall x, ~ kheap_free a kl (x / 4096) -> amem a' x = amem a x) /\
    (forall w p, any_page w -> w < kbrk_page a -> page_maps (km a) w p -> page_maps (km a') w p).
Proof.
  intros Hinv Hs Hroom. destruct (kalloc_ok own a l kl size Hinv Hs Hroom) as (own' & a' & kl' & v & E & [P1 P2 P3 P4 P5 P6 P7 _ _]).
  exists own', a', kl', v. do 4 (split; [done|]). split; [|done].
  intros w Hw. apply (kh_mapped _ _ _ _ P1). lia.
Qed.

(** Pages given back with kfree can be allocated again: after kalloc and
    kfree of the same size the free pages of the heap are those of before, and
    both heaps are well formed. *)
Theorem kalloc_kfree_roundtrip own a l kl size :
  kheap_inv own a l kl -> 1 <= size < 1073741824 -> kheap_room a (ADDR_2_PAGEUP size) ->
  exists own' a' kl' p, (p ← kalloc true size; kfree p size;; mret p) a = Ret (p, a') /\
    kheap_inv own' a' l kl' /\ (forall w, kheap_free a' kl' w <-> kheap_free a kl w).
Proof.
  intros Hinv Hs Hroom.
  destruct (kalloc_ok own a l kl size Hinv Hs Hroom) as (own' & a1 & kl1 & v & E & [P1 P2 P3 P4 P5 P6 P7 P8 P9]).
  destruct (kfree_ok own' a1 l kl1 v size P1 Hs) as (a2 & E2 & I2 & B2 & _ & _); [lia|lia| |].
  { intros w Hw Hin. apply (proj1 (P3 w)); [by left|done]. }
  exists own', a2, (mkRun v (ADDR_2_PAGEUP size) 0 :: kl1), (v * 4096). split.
  { rewrite (bind_ret_l _ _ _ _ _ E). by rewrite (bind_ret_l _ _ _ _ _ E2). }
  split; [done|]. intros w. unfold kheap_free. rewrite B2, pages_of_cons, elem_of_app. unfold r_pages.
  rewrite elem_of_seqZ. cbn. specialize (P3 w). specialize (P4 w).
  destruct (decide (v <= w < v + ADDR_2_PAGEUP size)); tauto.
Qed.

(** ** The properties at a concrete state *)
Lemma kheap0_ok : kheap_inv own0 heap0 [] [].
Proof. split; try done; [apply heap0_ok|constructor..|]. intros v Hv.
  change (kbrk_page heap0) with KH_BASE in Hv. lia.
Qed.

Lemma kheap0_room : kheap_room heap0 (ADDR_2_PAGEUP 8192).
Proof. split; vm_compute; discriminate. Qed.

Lemma kalloc_correct_witness :
  exists a' v, kalloc true 8192 heap0 = Ret (v * 4096, a') /\ amem a' (v * 4096 + 5000) = 0.
Proof.
  destruct (kalloc_correct own0 heap0 [] [] 8192 kheap0_ok ltac:(lia) kheap0_room)
    as (own' & a' & kl' & v & E & _ & _ & _ & _ & Hz & _).
  exists a', v. split; [exact E|]. apply Hz. unfold in_pages. change (ADDR_2_PAGEUP 8192) with 2. lia.
Defined.

Lemma kalloc_kfree_roundtrip_witness :
  exists a' kl p, (p ← kalloc true 8192; kfree p 8192;; mret p) heap0 = Ret (p, a') /\ kheap_free a' kl KH_BASE.
Proof.
  destruct (kalloc_kfree_roundtrip own0 heap0 [] [] 8192 kheap0_ok ltac:(lia) kheap0_room)
    as (own' & a' & kl & p & E & _ & Hf).
  exists a', kl, p. split; [exact E|]. apply Hf. right. vm_compute. split; [discriminate|reflexivity].
Defined.
