(* ===== verification/CStringProps.v ===== *)
(** * What the C string functions compute

    [cstr m s l]: the memory [m] holds the terminated string [l] at [s].
    Every function of CString.v is related to the operation on lists it stands
    for. *)
From S2P Require Import Prelude Mem CString.
Import CString.

Definition bytes_at (m : mem) (s : Z) (l : list Z) : Prop :=
  forall i x, l !! i = Some x -> m (s + Z.of_nat i) = x.

Record cstr (m : mem) (s : Z) (l : list Z) : Prop := {
  cs_char : Forall (fun b => 0 < b < 256) l;
  cs_lo : 0 <= s;
  cs_hi : s + Z.of_nat (length l) < 18446744073709551616;
  cs_bytes : bytes_at m s l;
  cs_end : m (s + Z.of_nat (length l)) = 0;
}.

Lemma bytes_at_cons m s x l : bytes_at m s (x :: l) <-> m s = x /\ bytes_at m (s + 1) l.
Proof.
  split.
  - intros H. split.
    + rewrite <- (Z.add_0_r s). by apply (H 0%nat).
    + intros i y Hi. replace (s + 1 + Z.of_nat i) with (s + Z.of_nat (S i)) by lia. by apply H.
  - intros [Hx Hl] [|i] y Hi; cbn in Hi; [simplify_eq; by rewrite Z.add_0_r|].
    replace (s + Z.of_nat (S i)) with (s + 1 + Z.of_nat i) by lia. by apply Hl.
Qed.

Lemma bytes_at_app m s l1 l2 :
  bytes_at m s (l1 ++ l2) <-> bytes_at m s l1 /\ bytes_at m (s + Z.of_nat (length l1)) l2.
Proof.
  revert s. induction l1 as [|x l1 IH]; intros s; cbn [app length].
  - rewrite Z.add_0_r. split; [|tauto]. intros H. split; [intros i y; by rewrite lookup_nil|done].
  - rewrite !bytes_at_cons, IH. replace (s + 1 + Z.of_nat (length l1))
      with (s + Z.of_nat (S (length l1))) by lia. tauto.
Qed.

Lemma bytes_at_ext m m' s l :
  (forall x, s <= x < s + Z.of_nat (length l) -> m' x = m x) -> bytes_at m s l -> bytes_at m' s l.
Proof.
  intros He H i x Hi. rewrite He; [by apply H|]. apply lookup_lt_Some in Hi. lia.
Qed.

Lemma load32_bytes m a b0 b1 b2 b3 : bytes_at m a [b0; b1; b2; b3] ->
  load32 m a = b0 + 256 * (b1 + 256 * (b2 + 256 * (b3 + 256 * 0))).
Proof.
  rewrite !bytes_at_cons. intros (E0 & E1 & E2 & E3 & _). unfold load32. cbn [load_le].
  by rewrite E0, E1, E2, E3.
Qed.

Lemma cstr_nil m s : cstr m s [] -> m s = 0.
Proof. intros [_ _ _ _ H]. cbn in H. by rewrite Z.add_0_r in H. Qed.

Lemma cstr_cons m s x l :
  cstr m s (x :: l) -> m s = x /\ 0 < x < 256 /\ u64 (s + 1) = s + 1 /\ cstr m (s + 1) l.
Proof.
  intros [Hc Hlo Hhi Hb He]. apply Forall_cons in Hc as [Hx Hc].
  apply bytes_at_cons in Hb as [Hx' Hb]. cbn [length] in *.
  split; [done|]. split; [done|]. split; [apply u64_small; lia|]. split; try done; try lia.
  by replace (s + 1 + Z.of_nat (length l)) with (s + Z.of_nat (S (length l))) by lia.
Qed.

(** A suffix of a string is a string. *)
Lemma cstr_drop m s l k :
  cstr m s l -> (k <= length l)%nat -> cstr m (s + Z.of_nat k) (drop k l).
Proof.
  revert s k. induction l as [|x l IH]; intros s [|k] Hc Hk; cbn [length drop] in *; try lia.
  - by replace (s + Z.of_nat 0) with s by lia.
  - by replace (s + Z.of_nat 0) with s by lia.
  - apply cstr_cons in Hc as (_ & _ & _ & Hc).
    replace (s + Z.of_nat (S k)) with (s + 1 + Z.of_nat k) by lia. apply IH; [done|lia].
Qed.

(** What a write of [n] bytes at [a] shows: the console stops at the first 0. *)
Fixpoint shown (n : nat) (m : mem) (a : Z) : list Z :=
  match n with
  | O => []
  | S k => if m a =? 0 then [] else m a :: shown k m (a + 1)
  end.

Lemma shown_cstr m a l n : cstr m a l -> (length l < n)%nat -> shown n m a = l.
Proof.
  revert a n. induction l as [|x l IH]; intros a [|n] Hc Hn; cbn [length] in Hn; try lia; cbn [shown].
  - by rewrite (cstr_nil _ _ Hc).
  - apply cstr_cons in Hc as (-> & Hx & _ & Hc). destruct (Z.eqb_spec x 0); [lia|].
    f_equal. apply IH; [done|lia].
Qed.

Lemma shown_shift n f k j : shown n (fun i => f (k + i)) j = shown n f (k + j).
Proof.
  revert j. induction n as [|n IH]; intros j; cbn [shown]; [done|]. rewrite IH.
  by replace (k + (j + 1)) with (k + j + 1) by lia.
Qed.

Lemma cstr_byte m s l i : cstr m s l -> (i < length l)%nat -> 0 < m (s + Z.of_nat i) < 256.
Proof.
  intros [Hc _ _ Hb _] Hi. destruct (lookup_lt_is_Some_2 _ _ Hi) as [x Hx].
  rewrite (Hb _ _ Hx). exact (Forall_lookup_1 _ _ _ _ Hc Hx).
Qed.

Lemma cstr_ext m m' s l :
  (forall x, s <= x <= s + Z.of_nat (length l) -> m' x = m x) -> cstr m s l -> cstr m' s l.
Proof.
  intros He [? ? ? ? ?]. split; try done; [|rewrite He by lia; done].
  eapply bytes_at_ext; [|done]. intros; apply He; lia.
Qed.

(** ** strlen *)
Lemma strlen_loop_ok fuel m s l k :
  cstr m s l -> (k <= length l)%nat -> (length l < fuel + k)%nat ->
  strlen_loop fuel m s (Z.of_nat k) = Ret (Z.of_nat (length l)).
Proof.
  intros Hc. pose proof Hc as [_ Hlo Hhi _ He]. revert k.
  induction fuel as [|fuel IH]; intros k Hk Hf; [lia|]. cbn [strlen_loop].
  rewrite u64_small by lia.
  destruct (decide (k = length l)) as [->|Hne].
  - rewrite He. done.
  - destruct (Z.eqb_spec (m (s + Z.of_nat k)) 0) as [E|_].
    + pose proof (cstr_byte _ _ _ k Hc ltac:(lia)). lia.
    + rewrite u64_small by lia. replace (Z.of_nat k + 1) with (Z.of_nat (S k)) by lia.
      apply IH; lia.
Qed.

Lemma strlen_ok fuel m s l :
  cstr m s l -> (length l < fuel)%nat -> strlen fuel m s = Ret (Z.of_nat (length l)).
Proof. intros Hc Hf. apply (strlen_loop_ok fuel m s l 0); [done|lia|lia]. Qed.

(** ** strcmp and strncmp *)
Fixpoint list_cmp (l1 l2 : list Z) : Z :=
  match l1, l2 with
  | [], [] => 0
  | [], y :: _ => - y
  | x :: _, [] => x
  | x :: l1, y :: l2 => if x =? y then list_cmp l1 l2 else x - y
  end.

Lemma list_cmp_0 l1 l2 :
  Forall (fun b => 0 < b < 256) l1 -> Forall (fun b => 0 < b < 256) l2 ->
  list_cmp l1 l2 = 0 <-> l1 = l2.
Proof.
  revert l2. induction l1 as [|x l1 IH]; intros [|y l2] H1 H2; cbn.
  - done.
  - apply Forall_cons in H2 as [? ?]. split; [lia|done].
  - apply Forall_cons in H1 as [? ?]. split; [lia|done].
  - apply Forall_cons in H1 as [? ?], H2 as [? ?].
    destruct (Z.eqb_spec x y) as [->|]; [rewrite IH by done; split; congruence|].
    split; [lia|congruence].
Qed.

(** The byte-wise order is a total preorder: swapping the operands negates. *)
Lemma list_cmp_anti l1 l2 : list_cmp l2 l1 = - list_cmp l1 l2.
Proof.
  revert l2. induction l1 as [|x l1 IH]; intros [|y l2]; cbn; try lia.
  rewrite Z.eqb_sym. destruct (Z.eqb_spec x y); [apply IH|lia].
Qed.

Lemma strcmp_cmp fuel m s1 s2 l1 l2 :
  cstr m s1 l1 -> cstr m s2 l2 -> (Nat.min (length l1) (length l2) < fuel)%nat ->
  strcmp fuel m s1 s2 = Ret (list_cmp l1 l2).
Proof.
  revert s1 s2 l1 l2. induction fuel as [|fuel IH]; intros s1 s2 l1 l2 H1 H2 Hf; [lia|].
  cbn [strcmp]. destruct l1 as [|x l1]; [|destruct l2 as [|y l2]].
  - apply cstr_nil in H1 as ->. cbn [Z.eqb negb andb].
    destruct l2 as [|y l2]; [by apply cstr_nil in H2 as ->|].
    apply cstr_cons in H2 as (-> & ? & _). by rewrite i32_small by lia.
  - apply cstr_nil in H2 as ->. apply cstr_cons in H1 as (-> & ? & _).
    rewrite andb_false_r, i32_small by lia. by rewrite Z.sub_0_r.
  - apply cstr_cons in H1 as (-> & ? & -> & H1), H2 as (-> & ? & -> & H2).
    replace (negb (x =? 0) && negb (y =? 0)) with true by (symmetry; zcases; done).
    cbn [list_cmp]. destruct (Z.eqb_spec x y); cbn [negb].
    + apply IH; [done..|]. cbn in Hf. lia.
    + by rewrite i32_small by lia.
Qed.

Lemma strncmp_0 m s1 s2 l d :
  cstr m s1 l -> cstr m s2 d ->
  strncmp m s1 s2 (Z.of_nat (length d)) = 0 <-> take (length d) l = d.
Proof.
  unfold strncmp. rewrite Nat2Z.id. generalize 0 at 1 as i. generalize (Z.of_nat (length d)) as size.
  intros size i. revert s1 s2 l i. induction d as [|y d IH]; intros s1 s2 l i H1 H2.
  { done. }
  cbn [strncmp_loop length]. apply cstr_cons in H2 as (-> & Hy & -> & H2).
  destruct l as [|x l]; cbn [take].
  - apply cstr_nil in H1 as ->. cbn [Z.eqb negb andb]. rewrite i32_small by lia. split; [lia|done].
  - apply cstr_cons in H1 as (-> & Hx & -> & H1).
    replace (negb (x =? 0) && negb (y =? 0)) with true by (symmetry; zcases; done).
    destruct (Z.eqb_spec x y) as [->|]; cbn [negb].
    + rewrite IH by done. split; congruence.
    + rewrite i32_small by lia. split; [lia|congruence].
Qed.

(** ** strsep *)
Definition match_at (d l : list Z) (k : nat) : Prop := take (length d) (drop k l) = d.

Lemma strsep_clear_spec n m ptr i x :
  0 <= ptr -> 0 <= i -> ptr + (i + Z.of_nat n) < 18446744073709551616 ->
  strsep_clear n m ptr i (i + Z.of_nat n) x =
  if decide (ptr + i <= x < ptr + (i + Z.of_nat n)) then 0 else m x.
Proof.
  revert m i. induction n as [|n IH]; intros m i Hp Hi Hb; cbn [strsep_clear].
  - rewrite decide_False by lia. done.
  - destruct (Z.ltb_spec i (i + Z.of_nat (S n))); [|lia]. rewrite u64_small by lia.
    replace (i + Z.of_nat (S n)) with (i + 1 + Z.of_nat n) by lia. rewrite IH by lia.
    unfold upd. gdecide; zcases; done.
Qed.

(** The search loop from position [j] of the string. *)
Lemma strsep_loop_found fuel m s dl l d k j :
  cstr m s l -> cstr m dl d -> (k + length d < length l)%nat -> match_at d l k ->
  (j <= k)%nat -> (forall i, (j <= i < k)%nat -> ~ match_at d l i) -> (k - j < fuel)%nat ->
  strsep_loop fuel m s dl (Z.of_nat (length d)) (s + Z.of_nat j) =
  Ret (s, s + Z.of_nat k + Z.of_nat (length d),
       strsep_clear (length d) m (s + Z.of_nat k) 0 (Z.of_nat (length d))).
Proof.
  intros Hs Hd Hk Hm. pose proof Hs as [_ Hlo Hhi _ _]. revert j.
  induction fuel as [|fuel IH]; intros j Hj Hno Hf; [lia|]. cbn [strsep_loop].
  rewrite (u64_small (s + Z.of_nat j + _)) by lia.
  pose proof (cstr_byte _ _ _ (j + length d) Hs ltac:(lia)) as Hb. rewrite Nat2Z.inj_add in Hb.
  destruct (Z.eqb_spec (m (s + Z.of_nat j + Z.of_nat (length d))) 0) as [E|_].
  { rewrite Z.add_assoc in Hb. lia. }
  pose proof (strncmp_0 m (s + Z.of_nat j) dl _ d (cstr_drop _ _ _ j Hs ltac:(lia)) Hd) as Hc.
  destruct (Z.eqb_spec (strncmp m (s + Z.of_nat j) dl (Z.of_nat (length d))) 0) as [E|E]; cbn [negb].
  - apply Hc in E. destruct (decide (j = k)) as [->|]; [by rewrite Nat2Z.id|].
    exfalso. by apply (Hno j ltac:(lia)).
  - rewrite u64_small by lia. replace (s + Z.of_nat j + 1) with (s + Z.of_nat (S j)) by lia.
    assert (j <> k) by (intros ->; by apply E, Hc).
    apply IH; [lia| |lia]. intros i Hi. apply Hno. lia.
Qed.

Lemma strsep_loop_none fuel m s dl l d j :
  cstr m s l -> cstr m dl d -> (j + length d <= length l)%nat ->
  (forall i, (j <= i)%nat -> (i + length d < length l)%nat -> ~ match_at d l i) ->
  (length l < fuel + j)%nat ->
  strsep_loop fuel m s dl (Z.of_nat (length d)) (s + Z.of_nat j) = Ret (s, 0, m).
Proof.
  intros Hs Hd. pose proof Hs as [_ Hlo Hhi _ He]. revert j.
  induction fuel as [|fuel IH]; intros j Hj Hno Hf; [lia|]. cbn [strsep_loop].
  rewrite (u64_small (s + Z.of_nat j + _)) by lia.
  destruct (decide (j + length d = length l)%nat) as [E|Hne].
  { replace (s + Z.of_nat j + Z.of_nat (length d)) with (s + Z.of_nat (length l)) by lia.
    by rewrite He. }
  pose proof (cstr_byte _ _ _ (j + length d) Hs ltac:(lia)) as Hb. rewrite Nat2Z.inj_add in Hb.
  destruct (Z.eqb_spec (m (s + Z.of_nat j + Z.of_nat (length d))) 0) as [E|_].
  { rewrite Z.add_assoc in Hb. lia. }
  pose proof (strncmp_0 m (s + Z.of_nat j) dl _ d (cstr_drop _ _ _ j Hs ltac:(lia)) Hd) as Hc.
  destruct (Z.eqb_spec (strncmp m (s + Z.of_nat j) dl (Z.of_nat (length d))) 0) as [E|E]; cbn [negb].
  { exfalso. apply Hc in E. by apply (Hno j ltac:(lia) ltac:(lia)). }
  rewrite u64_small by lia. replace (s + Z.of_nat j + 1) with (s + Z.of_nat (S j)) by lia.
  apply IH; [lia| |lia]. intros i Hi. apply Hno. lia.
Qed.

(** Cutting a string at a cleared delimiter. *)
Lemma cstr_cut m s l k n :
  cstr m s l -> (1 <= n)%nat -> (k + n <= length l)%nat ->
  let m' := strsep_clear n m (s + Z.of_nat k) 0 (Z.of_nat n) in
  cstr m' s (take k l) /\ cstr m' (s + Z.of_nat k + Z.of_nat n) (drop (k + n) l) /\
  (forall x, ~ (s + Z.of_nat k <= x < s + Z.of_nat k + Z.of_nat n) -> m' x = m x).
Proof.
  intros Hs Hn Hk m'. pose proof Hs as [Hc Hlo Hhi Hb He].
  assert (forall x, m' x = if decide (s + Z.of_nat k <= x < s + Z.of_nat k + Z.of_nat n)
                           then 0 else m x) as Hm'.
  { intros x. unfold m'. rewrite <- (Z.add_0_l (Z.of_nat n)) at 1.
    rewrite strsep_clear_spec by lia. by rewrite Z.add_0_l, Z.add_0_r. }
  split; [|split].
  - split; try done.
    + by apply Forall_take.
    + rewrite length_take. lia.
    + intros i x Hi. apply lookup_take_Some in Hi as [Hi Hlt].
      rewrite Hm', decide_False by lia. by apply Hb.
    + rewrite length_take, Nat.min_l by lia. rewrite Hm', decide_True by lia. done.
  - pose proof (cstr_drop _ _ _ (k + n) Hs ltac:(lia)) as Hd.
    rewrite Nat2Z.inj_add, Z.add_assoc in Hd. eapply cstr_ext; [|exact Hd].
    intros x Hx. rewrite Hm', decide_False by lia. done.
  - intros x Hx. by rewrite Hm', decide_False.
Qed.

(** Strcmp on terminated strings ends and is the byte-wise comparison: it
    is 0 exactly on equal strings, and swapping the operands negates it. *)
Theorem strcmp_correct fuel m s1 s2 l1 l2 :
  cstr m s1 l1 -> cstr m s2 l2 -> (length l1 + length l2 < fuel)%nat ->
  exists r, strcmp fuel m s1 s2 = Ret r /\ strcmp fuel m s2 s1 = Ret (- r) /\
    (r = 0 <-> l1 = l2) /\ r = list_cmp l1 l2.
Proof.
  intros H1 H2 Hf. exists (list_cmp l1 l2).
  rewrite (strcmp_cmp _ _ _ _ l1 l2), (strcmp_cmp _ _ _ _ l2 l1) by (done || lia).
  rewrite (list_cmp_anti l1 l2), list_cmp_0; [done|apply H1|apply H2].
Qed.

(** Strsep cuts the string at the first occurrence of the delimiter that
    is followed by at least one more character: the token before it is
    returned, [*stringp] is the string after it, and no byte but the delimiter
    changes. *)
Theorem strsep_splits fuel m s dl l d k :
  cstr m s l -> cstr m dl d -> d <> [] -> (k + length d < length l)%nat -> match_at d l k ->
  (forall i, (i < k)%nat -> ~ match_at d l i) -> (length l < fuel)%nat ->
  exists m', strsep fuel m s dl = Ret (s, s + Z.of_nat (k + length d), m') /\
    cstr m' s (take k l) /\ cstr m' (s + Z.of_nat (k + length d)) (drop (k + length d) l) /\
    (forall x, ~ (s + Z.of_nat k <= x < s + Z.of_nat (k + length d)) -> m' x = m x).
Proof.
  intros Hs Hd Hne Hk Hm Hno Hf. unfold strsep. erewrite strlen_ok; [|done|lia].
  pose proof (strsep_loop_found fuel m s dl l d k 0 Hs Hd Hk Hm) as E.
  rewrite Z.add_0_r in E. cbn [mbind outcome_bind]. rewrite E; [|lia|by intros; apply Hno; lia|lia].
  destruct (cstr_cut m s l k (length d) Hs) as (H1 & H2 & H3).
  { by destruct d; cbn; [|lia]. } { lia. }
  rewrite Nat2Z.inj_add, Z.add_assoc. eauto.
Qed.

(** Strsep does not see a delimiter at the very end of the string: when
    no occurrence is followed by another character, the whole string is the
    token and [*stringp] becomes NULL. *)
Theorem strsep_last_token fuel m s dl l d :
  cstr m s l -> cstr m dl d -> (length d <= length l)%nat ->
  (forall i, (i + length d < length l)%nat -> ~ match_at d l i) -> (length l < fuel)%nat ->
  strsep fuel m s dl = Ret (s, 0, m).
Proof.
  intros Hs Hd Hle Hno Hf. unfold strsep. erewrite strlen_ok; [|done|lia]. cbn [mbind outcome_bind].
  pose proof (strsep_loop_none fuel m s dl l d 0 Hs Hd) as E. rewrite Z.add_0_r in E.
  apply E; [lia|by intros; apply Hno|lia].
Qed.

(** ** itoa *)
Definition putl (st : mem * Z) (l : list Z) : mem * Z := foldl (fun st c => put c st) st l.

Fixpoint digits (base : Z) (n : nat) (x : Z) : list Z :=
  match n with
  | O => []
  | S k => x / base ^ Z.of_nat k :: digits base k (x mod base ^ Z.of_nat k)
  end.

Definition value (base : Z) (ds : list Z) : Z := foldl (fun acc d => acc * base + d) 0 ds.

Lemma foldl_value base ds a :
  foldl (fun acc d => acc * base + d) a ds = a * base ^ Z.of_nat (length ds) + value base ds.
Proof.
  unfold value. revert a. induction ds as [|d ds IH]; intros a; cbn [foldl length].
  - cbn. lia.
  - rewrite IH, (IH (0 * base + d)), Nat2Z.inj_succ, Z.pow_succ_r by lia. lia.
Qed.

Lemma length_digits base n x : length (digits base n x) = n.
Proof. revert x. induction n as [|n IH]; intros x; cbn; [done|by rewrite IH]. Qed.

(** Reading the digits back gives the number. *)
Lemma value_digits base n x :
  2 <= base -> 0 <= x < base ^ Z.of_nat n -> value base (digits base n x) = x.
Proof.
  intros Hb. revert x. induction n as [|n IH]; intros x Hx.
  - cbn in *. unfold value. cbn. lia.
  - cbn [digits]. unfold value. cbn [foldl]. rewrite foldl_value, length_digits.
    assert (0 < base ^ Z.of_nat n) by (apply Z.pow_pos_nonneg; lia).
    rewrite IH by (apply Z.mod_pos_bound; lia). dlia.
Qed.

Lemma digits_range base n x :
  2 <= base -> 0 <= x < base ^ Z.of_nat n -> Forall (fun d => 0 <= d < base) (digits base n x).
Proof.
  intros Hb. revert x. induction n as [|n IH]; intros x Hx; cbn [digits]; [constructor|].
  assert (0 < base ^ Z.of_nat n) by (apply Z.pow_pos_nonneg; lia).
  rewrite Nat2Z.inj_succ, Z.pow_succ_r in Hx by lia.
  constructor; [|apply IH, Z.mod_pos_bound; lia].
  split; [apply Z.div_pos; lia|apply Z.div_lt_upper_bound; lia].
Qed.

(** The scaling loop stops at the first power of the base above the number. *)
Lemma itoa_scale_ok fuel base num n j :
  2 <= base -> base ^ Z.of_nat n <= num * base -> num * base < 9223372036854775808 ->
  num < base ^ Z.of_nat n -> (forall i, (i < n)%nat -> base ^ Z.of_nat i <= num) ->
  (j <= n)%nat -> (n - j < fuel)%nat ->
  itoa_scale fuel (base ^ Z.of_nat j) num base = Ret (base ^ Z.of_nat n).
Proof.
  intros Hb Hn Hov Hlt Hge. revert j. induction fuel as [|fuel IH]; intros j Hj Hf; [lia|].
  cbn [itoa_scale]. destruct (decide (j = n)) as [->|].
  - destruct (Z.leb_spec (base ^ Z.of_nat n) num); [lia|done].
  - pose proof (Hge j ltac:(lia)) as Hp. destruct (Z.leb_spec (base ^ Z.of_nat j) num); [|lia].
    assert (0 < base ^ Z.of_nat j) by (apply Z.pow_pos_nonneg; lia).
    rewrite i64_small by nia.
    replace (base ^ Z.of_nat j * base) with (base ^ Z.of_nat (S j)).
    + apply IH; lia.
    + rewrite Nat2Z.inj_succ, Z.pow_succ_r by lia. lia.
Qed.

Lemma itoa_digits_ok n : forall fuel base num st,
  2 <= base <= 36 -> 0 <= num < base ^ Z.of_nat (S n) -> (S n < fuel)%nat ->
  itoa_digits fuel (base ^ Z.of_nat n) num base st =
  Ret (putl st (DIGIT_TO_CHAR <$> digits base (S n) num)).
Proof.
  induction n as [|n IH]; intros fuel base num st Hb Hx Hf;
    (destruct fuel as [|fuel]; [lia|]); cbn [itoa_digits].
  - change (Z.of_nat 1) with 1 in Hx. rewrite Z.pow_1_r in Hx.
    change (base ^ Z.of_nat 0) with 1. cbn [Z.eqb].
    rewrite Z.quot_1_r, Z.rem_1_r, Z.quot_small, i32_small by lia.
    destruct fuel as [|fuel]; [lia|]. cbn [itoa_digits Z.eqb digits].
    rewrite Z.div_1_r. done.
  - assert (0 < base ^ Z.of_nat (S n)) as Hp by (apply Z.pow_pos_nonneg; lia).
    destruct (Z.eqb_spec (base ^ Z.of_nat (S n)) 0); [lia|].
    rewrite (Nat2Z.inj_succ (S n)), Z.pow_succ_r in Hx by lia.
    assert (0 <= num / base ^ Z.of_nat (S n) < base)
      by (split; [apply Z.div_pos; lia|apply Z.div_lt_upper_bound; lia]).
    rewrite (Z.quot_div_nonneg num), Z.rem_mod_nonneg, i32_small by lia.
    replace (Z.quot (base ^ Z.of_nat (S n)) base) with (base ^ Z.of_nat n).
    + rewrite IH; [done|done|apply Z.mod_pos_bound; lia|lia].
    + rewrite Nat2Z.inj_succ, Z.pow_succ_r by lia.
      rewrite Z.mul_comm, Z.quot_mul by lia. done.
Qed.

(** Appending bytes at the pointer. *)
Lemma putl_spec l : forall m b,
  0 <= b -> b + Z.of_nat (length l) < 18446744073709551616 ->
  Forall (fun c => 0 <= c < 256) l ->
  exists m', putl (m, b) l = (m', b + Z.of_nat (length l)) /\ bytes_at m' b l /\
    (forall x, ~ (b <= x < b + Z.of_nat (length l)) -> m' x = m x).
Proof.
  induction l as [|c l IH]; intros m b Hb Hl Hc.
  - exists m. cbn. rewrite Z.add_0_r. split; [done|]. split; [|done]. intros i y. by rewrite lookup_nil.
  - apply Forall_cons in Hc as [Hc Hcl]. cbn [length] in Hl.
    destruct (IH (upd m b (u8 c)) (b + 1)) as (m' & E & Hb' & Hm); [lia|lia|done|].
    exists m'. unfold putl in *. cbn [foldl length]. unfold put at 2. cbn [fst snd].
    rewrite u64_small by lia. rewrite E. split; [f_equal; lia|]. split.
    + apply bytes_at_cons. split; [|done]. rewrite Hm by lia. rewrite upd_eq. by apply u8_small.
    + intros x Hx. rewrite Hm by lia. apply upd_ne. lia.
Qed.

Definition sign_chars (num : Z) : list Z := if num <? 0 then [45] else [].
Definition prefix_chars (base : Z) : list Z :=
  if base =? 16 then [48; 120] else if base =? 8 then [48; 111]
  else if base =? 2 then [48; 98] else [].

Lemma itoa_prefix_putl base st : itoa_prefix base st = putl st (prefix_chars base).
Proof. unfold itoa_prefix, prefix_chars. by repeat destruct (_ =? _). Qed.

Lemma putl_app st l1 l2 : putl (putl st l1) l2 = putl st (l1 ++ l2).
Proof. unfold putl. by rewrite foldl_app. Qed.

(** The number of digits: the first power of the base above [num]. *)
Lemma digit_count base num :
  2 <= base -> 1 <= num < 9223372036854775808 -> exists n, (1 <= n <= 63)%nat /\
  base ^ Z.of_nat (pred n) <= num < base ^ Z.of_nat n /\
  (forall i, (i < n)%nat -> base ^ Z.of_nat i <= num).
Proof.
  intros Hb Hn.
  assert (exists n, (n <= 63)%nat /\ num < base ^ Z.of_nat n) as (n0 & Hn0 & Hlt).
  { exists 63%nat. split; [done|]. apply Z.lt_le_trans with (2 ^ 63); [lia|].
    apply Z.pow_le_mono_l. lia. }
  induction n0 as [|n0 IH]; [cbn in Hlt; lia|].
  destruct (decide (num < base ^ Z.of_nat n0)) as [H|H]; [apply IH; [lia|done]|].
  exists (S n0). split; [lia|]. cbn [pred]. split; [lia|].
  intros i Hi. apply Z.le_trans with (base ^ Z.of_nat n0); [|lia]. apply Z.pow_le_mono_r; lia.
Qed.

(** The characters itoa writes for a number within range. *)
Lemma itoa_chars fuel m num buffer base :
  2 <= base <= 36 -> -9223372036854775808 < num < 9223372036854775808 ->
  Z.abs num * base < 9223372036854775808 -> (65 <= fuel)%nat ->
  exists n, (1 <= n <= 63)%nat /\ 0 <= Z.abs num < base ^ Z.of_nat n /\
   (num <> 0 -> base ^ Z.of_nat (pred n) <= Z.abs num) /\ (num = 0 -> n = 1%nat) /\
   itoa fuel m num buffer base =
   let st := putl (m, buffer)
     (sign_chars num ++ prefix_chars base ++ (DIGIT_TO_CHAR <$> digits base n (Z.abs num))) in
   Ret (upd (fst st) (snd st) 0).
Proof.
  intros Hb Hn Hov Hf. unfold itoa.
  replace (if num <? 0 then i64 (- num) else num) with (Z.abs num)
    by (zcases; rewrite ?i64_small; lia).
  replace (if num <? 0 then put 45 (m, buffer) else (m, buffer)) with (putl (m, buffer) (sign_chars num))
    by (unfold sign_chars; by destruct (num <? 0)).
  rewrite itoa_prefix_putl, putl_app. destruct (Z.eqb_spec (Z.abs num) 0) as [E|E].
  - exists 1%nat. rewrite E. split; [lia|]. cbn [Z.of_nat]. split; [lia|]. split; [lia|]. split; [done|].
    assert (itoa_scale fuel 1 0 base = Ret 1) as -> by (by destruct fuel; [lia|]).
    cbn [mbind outcome_bind]. rewrite (Z.quot_small 1 base) by lia.
    assert (forall st, itoa_digits fuel 0 0 base st = Ret st) as -> by (by destruct fuel; [lia|]).
    rewrite (app_assoc (sign_chars num)).
    rewrite <- (putl_app (m, buffer) (sign_chars num ++ prefix_chars base)). done.
  - destruct (digit_count base (Z.abs num)) as (n & Hn1 & Hn2 & Hn3); [lia|lia|].
    exists n. split; [done|]. split; [lia|]. split; [lia|]. split; [lia|].
    destruct n as [|n]; [lia|]. cbn [pred] in Hn2.
    assert (0 < base ^ Z.of_nat n) by (apply Z.pow_pos_nonneg; lia).
    pose proof (itoa_scale_ok fuel base (Z.abs num) (S n) 0) as Es.
    change (base ^ Z.of_nat 0) with 1 in Es. rewrite Es;
      [|lia|rewrite Nat2Z.inj_succ, Z.pow_succ_r by lia; nia|lia|lia|done|lia|lia].
    cbn [mbind outcome_bind].
    replace (Z.quot (base ^ Z.of_nat (S n)) base) with (base ^ Z.of_nat n).
    2:{ rewrite Nat2Z.inj_succ, Z.pow_succ_r by lia. rewrite Z.mul_comm, Z.quot_mul by lia. done. }
    rewrite itoa_digits_ok by lia. cbn [mbind outcome_bind]. by rewrite putl_app, <- app_assoc.
Qed.

Lemma DIGIT_TO_CHAR_range d : 0 <= d < 36 -> 48 <= DIGIT_TO_CHAR d < 123.
Proof. unfold DIGIT_TO_CHAR. intros. zcases. Qed.

Lemma itoa_chars_range num base n :
  2 <= base <= 36 -> 0 <= Z.abs num < base ^ Z.of_nat n ->
  Forall (fun c => 0 < c < 256)
    (sign_chars num ++ prefix_chars base ++ (DIGIT_TO_CHAR <$> digits base n (Z.abs num))).
Proof.
  intros Hb Hn. rewrite !Forall_app. split; [|split].
  - unfold sign_chars. destruct (num <? 0); repeat constructor; lia.
  - unfold prefix_chars. repeat destruct (_ =? _); repeat constructor; lia.
  - apply Forall_fmap. eapply Forall_impl; [apply digits_range; [lia|exact Hn]|].
    intros d Hd. cbn in *. pose proof (DIGIT_TO_CHAR_range d). lia.
Qed.

(** Itoa writes the number: a sign, the prefix of the base and digits
    that are all below the base, without leading zeros, and whose value is the
    number; the string is terminated and nothing past it is written. *)
Theorem itoa_correct fuel m num buffer base :
  2 <= base <= 36 -> -9223372036854775808 < num < 9223372036854775808 ->
  Z.abs num * base < 9223372036854775808 -> (65 <= fuel)%nat ->
  0 <= buffer -> buffer + 70 < 18446744073709551616 ->
  exists m' ds, itoa fuel m num buffer base = Ret m' /\
    let s := sign_chars num ++ prefix_chars base ++ (DIGIT_TO_CHAR <$> ds) in
    cstr m' buffer s /\ value base ds = Z.abs num /\ Forall (fun d => 0 <= d < base) ds /\
    (hd_error ds = Some 0 -> ds = [0]) /\
    (forall x, ~ (buffer <= x <= buffer + Z.of_nat (length s)) -> m' x = m x).
Proof.
  intros Hb Hn Hov Hf Hb0 Hb1.
  destruct (itoa_chars fuel m num buffer base Hb Hn Hov Hf) as (n & Hnr & Hrng & Hne & Hz & ->).
  pose proof (itoa_chars_range num base n Hb Hrng) as Hch.
  set (s := sign_chars num ++ prefix_chars base ++ (DIGIT_TO_CHAR <$> digits base n (Z.abs num))) in *.
  assert (length s <= 66)%nat as Hlen.
  { subst s. rewrite !length_app, length_fmap, length_digits. unfold sign_chars, prefix_chars.
    destruct (num <? 0); repeat destruct (_ =? _); cbn; lia. }
  destruct (putl_spec s m buffer) as (m1 & E & Hby & Hout); [done|lia|
    eapply Forall_impl; [exact Hch|cbn; lia]|].
  rewrite E. cbn [fst snd]. eexists _, (digits base n (Z.abs num)). split; [reflexivity|].
  cbn zeta. fold s. split.
  { split; [exact Hch|done|lia| |by rewrite upd_eq].
    eapply bytes_at_ext; [|exact Hby]. intros x Hx. apply upd_ne. lia. }
  split; [apply value_digits; lia|]. split; [apply digits_range; lia|]. split.
  - intros Hhd. destruct n as [|n]; [lia|]. cbn [digits hd_error pred] in *. injection Hhd as Hd.
    destruct (decide (num = 0)) as [->|Hnz]; [by injection (Hz eq_refl) as ->|].
    exfalso. assert (0 < base ^ Z.of_nat n) by (apply Z.pow_pos_nonneg; lia).
    apply Z.div_small_iff in Hd; [|lia]. lia.
  - intros x Hx. rewrite upd_ne by lia. apply Hout. lia.
Qed.

Lemma itoa_scale_zero fuel num base :
  0 <= num -> itoa_scale fuel 0 num base = NoFuel.
Proof.
  intros Hn. induction fuel as [|fuel IH]; [done|]. cbn [itoa_scale].
  destruct (Z.leb_spec 0 num); [|lia]. by rewrite Z.mul_0_l.
Qed.

Lemma itoa_scale_16 fuel num n :
  1152921504606846976 <= num -> (n <= 15)%nat ->
  itoa_scale fuel (16 ^ Z.of_nat n) num 16 = NoFuel.
Proof.
  intros Hn. revert n. induction fuel as [|fuel IH]; intros n Hle; [done|]. cbn [itoa_scale].
  assert (16 ^ Z.of_nat n <= 16 ^ 15) by (apply Z.pow_le_mono_r; lia).
  destruct (Z.leb_spec (16 ^ Z.of_nat n) num); [|lia].
  destruct (decide (n = 15)%nat) as [->|].
  - change (i64 (16 ^ Z.of_nat 15 * 16)) with 0. apply itoa_scale_zero. lia.
  - assert (16 ^ Z.of_nat (S n) <= 16 ^ 15) by (apply Z.pow_le_mono_r; lia).
    replace (16 ^ Z.of_nat n * 16) with (16 ^ Z.of_nat (S n))
      by (rewrite Nat2Z.inj_succ, Z.pow_succ_r by lia; lia).
    rewrite i64_small by (pose proof (Z.pow_pos_nonneg 16 (Z.of_nat (S n))); lia).
    apply IH. lia.
Qed.

(** Itoa never ends in base 16 on a number of 2^60 or more: the scale
    overflows to 0, which never exceeds the number, whatever the fuel. *)
Theorem itoa_hex_diverges fuel m num buffer :
  1152921504606846976 <= num < 9223372036854775808 -> itoa fuel m num buffer 16 = NoFuel.
Proof.
  intros Hn. unfold itoa. destruct (Z.ltb_spec num 0); [lia|].
  change 1 with (16 ^ Z.of_nat 0) at 1. by rewrite (itoa_scale_16 fuel num 0) by lia.
Qed.

(** ** The properties at concrete strings *)
(** "usr/bin" at 100, "/" at 200, "usr/" at 300. *)
Definition mem_path : mem := fun x =>
  if x =? 200 then 47
  else default 0 ([117; 115; 114; 47; 98; 105; 110] !! Z.to_nat (x - 100)) *
         (if (100 <=? x) && (x <? 107) then 1 else 0) +
       default 0 ([117; 115; 114; 47] !! Z.to_nat (x - 300)) *
         (if (300 <=? x) && (x <? 304) then 1 else 0).

Ltac cstr_tac := split; [repeat constructor; lia|lia|cbn; lia|
  intros [|[|[|[|[|[|[|?]]]]]]] ? Hl; try discriminate Hl; by injection Hl as <-|reflexivity].

Lemma path_cstr : cstr mem_path 100 [117; 115; 114; 47; 98; 105; 110].
Proof. cstr_tac. Qed.
Lemma slash_cstr : cstr mem_path 200 [47].
Proof. cstr_tac. Qed.
Lemma dir_cstr : cstr mem_path 300 [117; 115; 114; 47].
Proof. cstr_tac. Qed.

Lemma strcmp_correct_witness :
  exists r, strcmp 20 mem_path 100 300 = Ret r /\ r <> 0.
Proof.
  destruct (strcmp_correct 20 mem_path 100 300 _ _ path_cstr dir_cstr ltac:(cbn; lia))
    as (r & E & _ & Hr & _). exists r. split; [exact E|]. by rewrite Hr.
Defined.

Lemma strsep_splits_witness :
  exists m', strsep 20 mem_path 100 200 = Ret (100, 104, m') /\ cstr m' 100 [117; 115; 114] /\
    cstr m' 104 [98; 105; 110].
Proof.
  destruct (strsep_splits 20 mem_path 100 200 _ _ 3 path_cstr slash_cstr)
    as (m' & E & H1 & H2 & _).
  - done.
  - cbn. lia.
  - reflexivity.
  - intros [|[|[|i]]] Hi; unfold match_at; cbn; (done || lia).
  - cbn. lia.
  - by exists m'.
Defined.

Lemma strsep_last_token_witness : strsep 20 mem_path 300 200 = Ret (300, 0, mem_path).
Proof.
  apply (strsep_last_token 20 mem_path 300 200 _ _ dir_cstr slash_cstr).
  - cbn. lia.
  - intros [|[|[|i]]] Hi; unfold match_at; cbn in *; (done || lia).
  - cbn. lia.
Defined.

Lemma itoa_correct_witness :
  exists m' ds, itoa 65 (fun _ => 0) (-255) 100 16 = Ret m' /\
    cstr m' 100 ([45] ++ [48; 120] ++ (DIGIT_TO_CHAR <$> ds)) /\ value 16 ds = 255.
Proof.
  destruct (itoa_correct 65 (fun _ => 0) (-255) 100 16) as (m' & ds & E & H1 & H2 & _); try lia.
  by exists m', ds.
Defined.

Lemma itoa_hex_diverges_witness :
  itoa 1000 (fun _ => 0) 1152921504606846976 100 16 = NoFuel.
Proof. apply itoa_hex_diverges. lia. Defined.
