(* ===== verification/VirtioGpu.v ===== *)
(** * The virtio GPU driver (kernel/drivers/virtio_gpu.c, virtio_gpu.h, kernel/gpu.c)

    A command is a struct in the first of two DMA pages, the answer of the
    device in the second one.  The queues have no indirect descriptors; the
    buffers are given by their physical addresses. *)
From S2P Require Import Prelude Mem World Virtio.
Import Virtio.

Module VirtioGpu.

Definition VIRTIO_GPU_SUPPORTED_FEATURES : Z := VIRTIO_FEATURE_RING_EVENT_IDX.
Definition SCANOUT_ID : Z := 0.
Definition RESOURCE_ID_FB : Z := 47806.

(** Offsets in GPUConfig. *)
Definition events_read : Z := 0.
Definition num_scanouts : Z := 8.

Inductive hdr_type :=
  | GET_DISPLAY_INFO | RESOURCE_CREATE_2D | RESOURCE_UNREF | SET_SCANOUT | RESOURCE_FLUSH
  | TRANSFER_TO_HOST_2D | RESOURCE_ATTACH_BACKING | RESOURCE_DETACH_BACKING | GET_CAPSET_INFO
  | GET_CAPSET | GET_EDID | UPDATE_CURSOR | MOVE_CURSOR
  | OK_NODATA | OK_DISPLAY_INFO | OK_CAPSET_INFO | OK_CAPSET | OK_EDID
  | ERR_UNSPEC | ERR_OUT_OF_MEMORY | ERR_INVALID_SCANOUT_ID.

Definition hdr_code (t : hdr_type) : Z :=
  match t with
  | GET_DISPLAY_INFO => 256 | RESOURCE_CREATE_2D => 257 | RESOURCE_UNREF => 258 | SET_SCANOUT => 259
  | RESOURCE_FLUSH => 260 | TRANSFER_TO_HOST_2D => 261 | RESOURCE_ATTACH_BACKING => 262
  | RESOURCE_DETACH_BACKING => 263 | GET_CAPSET_INFO => 264 | GET_CAPSET => 265 | GET_EDID => 266
  | UPDATE_CURSOR => 768 | MOVE_CURSOR => 769
  | OK_NODATA => 4352 | OK_DISPLAY_INFO => 4353 | OK_CAPSET_INFO => 4354 | OK_CAPSET => 4355
  | OK_EDID => 4356 | ERR_UNSPEC => 4608 | ERR_OUT_OF_MEMORY => 4609 | ERR_INVALID_SCANOUT_ID => 4610
  end.

(** A struct without gaps: the widths and the values of its fields. *)
Definition fields : Type := list (nat * Z).
Fixpoint write_fields (m : mem) (p : Z) (l : fields) : mem :=
  match l with
  | [] => m
  | (n, v) :: l' => write_fields (store_le n m p v) (p + Z.of_nat n) l'
  end.
Definition sizeof (l : fields) : Z := Z.of_nat (sum_list (fst <$> l)).

Definition B8G8R8A8UNORM : Z := 1.
(** flags, fence_id, ctx_id and padding are 0. *)
Definition ControlHdr (t : hdr_type) : fields := 
  [(4%nat, hdr_code t); (4%nat, 0); (8%nat, 0); (4%nat, 0); (4%nat, 0)].
Definition ReqResourceCreate2D (resource_id width height : Z) : fields :=
  ControlHdr RESOURCE_CREATE_2D ++ [(4%nat, resource_id); (4%nat, B8G8R8A8UNORM); (4%nat, width); (4%nat, height)].
Definition ReqResourceAttachBacking (resource_id addr length : Z) : fields :=
  ControlHdr RESOURCE_ATTACH_BACKING ++ [(4%nat, resource_id); (4%nat, 1); (8%nat, addr); (4%nat, length); (4%nat, 0)].
Definition ReqSetScanout (x y width height scanout_id resource_id : Z) : fields :=
  ControlHdr SET_SCANOUT ++
  [(4%nat, x); (4%nat, y); (4%nat, width); (4%nat, height); (4%nat, scanout_id); (4%nat, resource_id)].
Definition ReqTransferToHost2D (x y width height offset resource_id : Z) : fields :=
  ControlHdr TRANSFER_TO_HOST_2D ++
  [(4%nat, x); (4%nat, y); (4%nat, width); (4%nat, height); (8%nat, offset); (4%nat, resource_id); (4%nat, 0)].
(** The struct ReqResourceFlush with a header of type [t]. *)
Definition ReqResourceFlush (t : hdr_type) (x y width height resource_id : Z) : fields :=
  ControlHdr t ++
  [(4%nat, x); (4%nat, y); (4%nat, width); (4%nat, height); (4%nat, resource_id); (4%nat, 0)].

Definition ControlHdr_size : Z := 24.
(** RespDisplayInfo: a header, then x, y, width, height, enabled and flags. *)
Definition RespDisplayInfo_size : Z := 48.
Definition info_at (k : Z) : Z := 24 + 4 * k.

Record dma_t := mkDma { dma_pfn : Z; dma_vpn : Z; dma_pages : Z }.

Record VirtIOGPU := mkGpu {
  gpu_hdr : Z;
  gpu_size : Z;
  gpu_x : Z;
  gpu_y : Z;
  gpu_width : Z;
  gpu_height : Z;
  frame_buffer_dma : dma_t;
  cursor_buffer_dma : dma_t;
  control_queue : VirtIOQueue;
  cursor_queue : VirtIOQueue;
  queue_buf_dma : dma_t;
  queue_buf_send : Z;
  queue_buf_recv : Z;
}.

Definition set_control (q : VirtIOQueue) (g : VirtIOGPU) : VirtIOGPU :=
  mkGpu (gpu_hdr g) (gpu_size g) (gpu_x g) (gpu_y g) (gpu_width g) (gpu_height g) (frame_buffer_dma g)
    (cursor_buffer_dma g) q (cursor_queue g) (queue_buf_dma g) (queue_buf_send g) (queue_buf_recv g).
Definition set_cursor (q : VirtIOQueue) (g : VirtIOGPU) : VirtIOGPU :=
  mkGpu (gpu_hdr g) (gpu_size g) (gpu_x g) (gpu_y g) (gpu_width g) (gpu_height g) (frame_buffer_dma g)
    (cursor_buffer_dma g) (control_queue g) q (queue_buf_dma g) (queue_buf_send g) (queue_buf_recv g).
Definition set_frame_buffer (d : dma_t) (g : VirtIOGPU) : VirtIOGPU :=
  mkGpu (gpu_hdr g) (gpu_size g) (gpu_x g) (gpu_y g) (gpu_width g) (gpu_height g) d
    (cursor_buffer_dma g) (control_queue g) (cursor_queue g) (queue_buf_dma g) (queue_buf_send g) (queue_buf_recv g).
Definition set_buffers (hdr : Z) (d : dma_t) (send recv : Z) (g : VirtIOGPU) : VirtIOGPU :=
  mkGpu hdr (gpu_size g) (gpu_x g) (gpu_y g) (gpu_width g) (gpu_height g) (frame_buffer_dma g)
    (cursor_buffer_dma g) (control_queue g) (cursor_queue g) d send recv.
Definition set_display (x y w h size : Z) (g : VirtIOGPU) : VirtIOGPU :=
  mkGpu (gpu_hdr g) size x y w h (frame_buffer_dma g)
    (cursor_buffer_dma g) (control_queue g) (cursor_queue g) (queue_buf_dma g) (queue_buf_send g) (queue_buf_recv g).

Section Ops.
Context {W : Type} `{DmaHeap W} `{VirtioMmio W}.

Definition GSt : Type := VirtIOGPU * W.
Definition gpu : M GSt VirtIOGPU := gets fst.
Definition put_gpu (f : VirtIOGPU -> VirtIOGPU) : M GSt unit := modify (fun s => (f (fst s), snd s)).
Definition gworld {A} (m : M W A) : M GSt A := fun s =>
  match m (snd s) with
  | Ret (a, w) => Ret (a, (fst s, w))
  | Panic => Panic | Fault => Fault | NoFuel => NoFuel
  end.
Definition in_queue (get : VirtIOGPU -> VirtIOQueue) (set : VirtIOQueue -> VirtIOGPU -> VirtIOGPU)
    {A} (m : M St A) : M GSt A := fun s =>
  match m (get (fst s), snd s) with
  | Ret (a, (q, w)) => Ret (a, (set q (fst s), w))
  | Panic => Panic | Fault => Fault | NoFuel => NoFuel
  end.
Definition gmem (f : mem -> mem) : M GSt unit :=
  modify (fun s => (fst s, w_set (f (w_mem (snd s))) (snd s))).

(** The wait loop of queue_add_notify_pop. *)
Variable fuel : nat.

(** What all commands do: the struct in the send page, the queue. *)
Definition gpu_command (cmd : fields) (out_length : Z) : M GSt unit :=
  g ← gpu;
  gmem (fun m => write_fields m (queue_buf_send g) cmd);;
  in_queue control_queue set_control (queue_add_notify_pop fuel (gpu_hdr g)
    [PAGE_2_ADDR (dma_pfn (queue_buf_dma g))] [sizeof cmd] 1
    [PAGE_2_ADDR (u64 (dma_pfn (queue_buf_dma g) + 1))] [out_length] 1);;
  mret tt.

(** [((ControlHdr * )queue_buf_recv)->hdr_type == OK_NODATA ? 0 : -1] *)
Definition command_status : M GSt Z :=
  g ← gpu;
  t ← gets (fun s => load32 (w_mem (snd s)) (queue_buf_recv g));
  mret (if t =? hdr_code OK_NODATA then 0 else -1).

Definition get_display_info : M GSt Z :=
  gpu_command (ControlHdr GET_DISPLAY_INFO) RespDisplayInfo_size;;
  g ← gpu; mret (queue_buf_recv g).

Definition resource_create_2d (resource_id width height : Z) : M GSt Z :=
  gpu_command (ReqResourceCreate2D resource_id width height) ControlHdr_size;; command_status.
Definition resource_attach_backing (resource_id paddr length : Z) : M GSt Z :=
  gpu_command (ReqResourceAttachBacking resource_id paddr length) ControlHdr_size;; command_status.
Definition set_scanout (x y width height scanout_id resource_id : Z) : M GSt Z :=
  gpu_command (ReqSetScanout x y width height scanout_id resource_id) ControlHdr_size;; command_status.
Definition transfer_to_host_2d (x y width height offset resource_id : Z) : M GSt Z :=
  gpu_command (ReqTransferToHost2D x y width height offset resource_id) ControlHdr_size;; command_status.
Definition resource_flush (x y width height resource_id : Z) : M GSt Z :=
  gpu_command (ReqResourceFlush TRANSFER_TO_HOST_2D x y width height resource_id) ControlHdr_size;; command_status.

Definition setup_framebuffer : M GSt Z :=
  g ← gpu;
  r ← resource_create_2d RESOURCE_ID_FB (gpu_width g) (gpu_height g);
  if r <? 0 then mret (-1) else
  let size := u32 (u32 (gpu_width g * gpu_height g) * 4) in
  let size_pages := u32 (ADDR_2_PAGEUP size) in
  '(fb_pfn, fb_vpn) ← gworld (dmalloc size_pages false);
  put_gpu (set_frame_buffer (mkDma fb_pfn fb_vpn size_pages));;
  r ← resource_attach_backing RESOURCE_ID_FB (PAGE_2_ADDR fb_pfn) size;
  if r <? 0 then mret (-1) else
  r ← set_scanout (gpu_x g) (gpu_y g) (gpu_width g) (gpu_height g) SCANOUT_ID RESOURCE_ID_FB;
  if r <? 0 then mret (-1) else mret 0.

Definition flush : M GSt Z :=
  g ← gpu;
  r ← transfer_to_host_2d (gpu_x g) (gpu_y g) (gpu_width g) (gpu_height g) 0 RESOURCE_ID_FB;
  if r <? 0 then mret (-1) else
  r ← resource_flush (gpu_x g) (gpu_y g) (gpu_width g) (gpu_height g) RESOURCE_ID_FB;
  if r <? 0 then mret (-1) else mret 0.

Definition init_virtio_gpu (header : Z) : M GSt unit :=
  f ← gworld (header_init header VIRTIO_GPU_SUPPORTED_FEATURES);
  let negotiated := u32 f in
  _ ← gworld (mmio_read (header + VirtIOHeader_size + events_read));
  _ ← gworld (mmio_read (header + VirtIOHeader_size + num_scanouts));
  let ev := negb (Z.land negotiated VIRTIO_FEATURE_RING_EVENT_IDX =? 0) in
  in_queue control_queue set_control (init_queue header 0 false ev);;
  in_queue cursor_queue set_cursor (init_queue header 1 false ev);;
  gworld (finish_init header);;
  '(queue_buf_pfn, queue_buf_vpn) ← gworld (dmalloc 2 false);
  put_gpu (set_buffers header (mkDma queue_buf_pfn queue_buf_vpn 2)
    (PAGE_2_ADDR queue_buf_vpn) (PAGE_2_ADDR (u64 (queue_buf_vpn + 1))));;
  info ← get_display_info;
  m ← gets (fun s => w_mem (snd s));
  let w := load32 m (info + info_at 2) in
  let h := load32 m (info + info_at 3) in
  put_gpu (set_display (load32 m (info + info_at 0)) (load32 m (info + info_at 1)) w h (u32 (u32 (w * h) * 4)));;
  setup_framebuffer;;
  mret tt.

Definition get_gpu_size (g : VirtIOGPU) : Z := gpu_size g.

(** ** kernel/gpu.c *)
Definition RGBA (r g b a : Z) : Z :=
  Z.lor (Z.lor (Z.lor (u32 (Z.shiftl (Z.land a 255) 24)) (Z.shiftl (Z.land r 255) 16))
           (Z.shiftl (Z.land g 255) 8)) (Z.land b 255).

(** [bf[idx] = RGBA(x, y, x + y, 255)] *)
Definition put_pixel (bf width y x : Z) (m : mem) : mem :=
  store32 m (bf + 4 * u32 (y * width + x)) (RGBA x y (u32 (x + y)) 255).
Fixpoint rainbow_row (n : nat) (bf width y x : Z) (m : mem) : mem :=
  match n with O => m | S k => rainbow_row k bf width y (x + 1) (put_pixel bf width y x m) end.
Fixpoint rainbow_rows (n : nat) (bf width y : Z) (m : mem) : mem :=
  match n with
  | O => m
  | S k => rainbow_rows k bf width (y + 1) (rainbow_row (Z.to_nat width) bf width y 0 m)
  end.

Definition rainbow : M GSt unit :=
  g ← gpu;
  gmem (rainbow_rows (Z.to_nat (gpu_height g)) (PAGE_2_ADDR (dma_vpn (frame_buffer_dma g))) (gpu_width g) 0);;
  flush;;
  mret tt.

Definition NO_GPU : Z := 18446744073709551615.
Definition init_gpu (gpu_header : Z) : M GSt unit :=
  if gpu_header =? NO_GPU then mret tt else
  init_virtio_gpu gpu_header;;
  rainbow.

End Ops.
End VirtioGpu.
