(* ===== verification/VirtioGpuDev.v ===== *)
(** * The GPU behind its control queue

    A GPU executes commands: [exec] takes the bytes of a command and the state
    of the screen to the bytes of the answer and the new state.  The laws say
    how a device finds a command in the queue and answers it; what the commands
    mean is left open. *)
From S2P Require Import Prelude Mem World HeapLift Virtio VirtioSpec VirtioBlk VirtioDev CString CStringProps VirtioGpu.
Import Virtio VirtioGpu.

(** ** Structs as bytes *)
Fixpoint le (n : nat) (v : Z) : list Z :=
  match n with O => [] | S k => v mod 256 :: le k (v / 256) end.
Definition enc (l : fields) : list Z := mjoin ((fun f => le (fst f) (snd f)) <$> l).

Lemma le_length n v : length (le n v) = n.
Proof. revert v. induction n as [|n IH]; intros v; cbn; [done|]. by rewrite IH. Qed.

Lemma store_le_bytes n : forall m p v, bytes_at (store_le n m p v) p (le n v).
Proof.
  induction n as [|n IH]; intros m p v; [by intros i x Hi|]. cbn [store_le le]. apply bytes_at_cons. split; [|apply IH].
  rewrite store_le_outside by lia. apply upd_eq.
Qed.

Lemma enc_cons n v l : enc ((n, v) :: l) = le n v ++ enc l.
Proof. done. Qed.

Lemma enc_length l : Z.of_nat (length (enc l)) = sizeof l.
Proof.
  unfold sizeof. f_equal. induction l as [|[n v] l IH]; [done|]. by rewrite enc_cons, length_app, le_length, IH.
Qed.

Lemma write_fields_outside l : forall m p x, ~ (p <= x < p + sizeof l) -> write_fields m p l x = m x.
Proof.
  unfold sizeof. induction l as [|[n v] l IH]; intros m p x Hx; [done|]. cbn [write_fields fmap list_fmap sum_list sum_list_with fst] in *.
  rewrite IH by (cbn in Hx |- *; lia). apply store_le_outside. cbn in Hx. lia.
Qed.

Lemma write_fields_bytes l : forall m p, bytes_at (write_fields m p l) p (enc l).
Proof.
  induction l as [|[n v] l IH]; intros m p; [by intros i x Hi|]. rewrite enc_cons. cbn [write_fields].
  apply bytes_at_app. rewrite le_length. split; [|apply IH].
  eapply bytes_at_ext; [|apply store_le_bytes]. rewrite le_length. intros x Hx. apply write_fields_outside. lia.
Qed.

(** ** Commands *)
Definition bytes_of (m : mem) (a n : Z) : list Z := (fun k => m (a + Z.of_nat k)) <$> seq 0 (Z.to_nat n).

Lemma bytes_of_at m a l : bytes_at m a l -> bytes_of m a (Z.of_nat (length l)) = l.
Proof.
  intros Hb. unfold bytes_of. rewrite Nat2Z.id. apply list_eq. intros i. rewrite list_lookup_fmap.
  destruct (decide (i < length l)%nat) as [Hi|Hi].
  - destruct (lookup_lt_is_Some_2 l i Hi) as [x Hx]. rewrite lookup_seq_lt by done. cbn. by rewrite Hx, (Hb _ _ Hx).
  - rewrite lookup_seq_ge by lia. symmetry. apply lookup_ge_None. lia.
Qed.

(** The head of the chain, the kernel addresses and lengths of its two buffers. *)
Record command := mkCmd { gc_head : Z; gc_in : Z; gc_nin : Z; gc_out : Z; gc_nout : Z }.

Section Commands.
Context {H : Type} `{DmaHeap H}.

Record gpu_posted (h : H) (rg : option (Z * Z * Z)) (sn dt av us : Z) (c : command) : Prop := {
  gp_ring : ring_at h rg dt av us;
  gp_idx : load16 (w_mem h) (avail_idx_at av) = u16 (sn + 1);
  gp_head : load16 (w_mem h) (avail_ring_at av (sn mod 16)) = gc_head c;
  gp_range : 0 <= gc_head c < 16;
  gp_chain : exists d0 d1, chain_at h dt (gc_head c) [d0; d1] /\
    d_len d0 = gc_nin c /\ writes d0 = false /\ phys h (d_addr d0) (gc_in c) /\
    d_len d1 = gc_nout c /\ writes d1 = true /\ phys h (d_addr d1) (gc_out c);
  gp_pages : gc_in c mod 4096 + gc_nin c <= 4096 /\ gc_out c mod 4096 + gc_nout c <= 4096;
}.

(** The used ring and the answer do not overlap. *)
Definition gpu_separate (us : Z) (c : command) : Prop :=
  gc_out c + gc_nout c <= us \/ us + 134 <= gc_out c.

Record gpu_served {S} (exec : list Z -> S -> list Z * S) (m m' : mem) (sn us : Z) (c : command) (s s' : S) : Prop := {
  gs_frame : forall x, ~ (us <= x < us + 134) -> ~ (gc_out c <= x < gc_out c + gc_nout c) -> m' x = m x;
  gs_idx : load16 m' (used_idx_at us) = u16 (sn + 1);
  gs_id : load32 m' (used_id_at us (sn mod 16)) = gc_head c;
  gs_event : load16 m' (avail_event_at us) = load16 m (avail_event_at us) \/
             load16 m' (avail_event_at us) = u16 (sn + 1);
  gs_state : s' = snd (exec (bytes_of m (gc_in c) (gc_nin c)) s);
  gs_answer : forall j b, Z.of_nat j < gc_nout c ->
    fst (exec (bytes_of m (gc_in c) (gc_nin c)) s) !! j = Some b -> m' (gc_out c + Z.of_nat j) = b;
}.
End Commands.

(** A virtio GPU; every answer starts with a header of 24 bytes. *)
Class GpuDevice (D H S : Type) `{DmaHeap H} `{!Device D H} := {
  gpu_base : Z;
  gpu_rings : D -> option (Z * Z * Z);
  gpu_seen : D -> Z;
  screen : D -> S;
  exec : list Z -> S -> list Z * S;
  gpu_awake : D -> Prop;
  gpu_delay : D -> nat;
  gpu_patience : nat;
  gpu_delay_bound : forall d, (gpu_delay d < gpu_patience)%nat;
  exec_header : forall c s, (24 <= length (fst (exec c s)))%nat;
  gpu_notify_law : forall d, let d' := dev_write (gpu_base + VirtIOHeader queue_notify) 0 d in
    gpu_awake d' /\ gpu_rings d' = gpu_rings d /\ gpu_seen d' = gpu_seen d /\ screen d' = screen d;
  gpu_quiet_law : forall d h dt av us c, heap_ok h -> gpu_posted h (gpu_rings d) (gpu_seen d) dt av us c ->
    Z.land (load16 (w_mem h) us) 1 <> 0 -> gpu_awake d;
  gpu_wait_law : forall d h dt av us c k, heap_ok h -> gpu_posted h (gpu_rings d) (gpu_seen d) dt av us c ->
    gpu_awake d -> gpu_delay d = Datatypes.S k ->
    exists d', dev_step d h = (d', w_mem h) /\ gpu_awake d' /\ gpu_delay d' = k /\
      gpu_rings d' = gpu_rings d /\ gpu_seen d' = gpu_seen d /\ screen d' = screen d;
  gpu_serve_law : forall d h dt av us c, heap_ok h -> gpu_posted h (gpu_rings d) (gpu_seen d) dt av us c ->
    gpu_separate us c -> gpu_awake d -> gpu_delay d = O ->
    exists d' m', dev_step d h = (d', m') /\ gpu_rings d' = gpu_rings d /\
      gpu_seen d' = u16 (gpu_seen d + 1) /\
      gpu_served exec (w_mem h) m' (gpu_seen d) us c (screen d) (screen d');
}.
