(* ===== verification/VirtioGpuSpec.v ===== *)
(** * A command of the GPU from end to end

    The driver of virtio_gpu.c next to a device that satisfies VirtioGpuDev.v:
    the device executes exactly the bytes of the command, and its answer is in
    the receive page when gpu_command returns. *)
From S2P Require Import Prelude Mem World HeapLift Virtio VirtioSpec VirtioBlk VirtioDev VirtioBlkSpec VirtioDirect.
From S2P Require Import CString CStringProps VirtioGpu VirtioGpuDev.
Import Virtio VirtioGpu.

Lemma table_chain_more n : forall n' m tab i ds, (n <= n')%nat -> table_chain n m tab i = Some ds -> table_chain n' m tab i = Some ds.
Proof.
  induction n as [|n IH]; intros n' m tab i ds Hn E; [done|]. destruct n' as [|n']; [lia|]. cbn [table_chain] in *.
  destruct (_ =? 0); [done|]. apply fmap_Some in E as (l & El & ->). rewrite (IH n' m tab _ l); [done|lia|done].
Qed.

Section Gpu.
Context {D H S : Type} `{GpuDevice D H S}.

(** The driver between two commands, with [n] more to come before the indices
    wrap. *)
Record gpu_inv (n : nat) (g : VirtIOGPU) (d : D) (h : H) : Prop := {
  gi_hdr : gpu_hdr g = gpu_base;
  gi_queue : exists free, queue_inv (control_queue g) free /\ length free = 16%nat;
  gi_idx : queue_idx (control_queue g) = 0;
  gi_ind : indirect (control_queue g) = false;
  gi_avail : avail_idx (control_queue g) = gpu_seen d;
  gi_last : last_used_idx (control_queue g) = gpu_seen d;
  gi_left : 0 <= gpu_seen d /\ gpu_seen d + Z.of_nat n < 65536;
  gi_at : exists dv uv, queue_at (control_queue g) dv uv;
  gi_ring : ring_at h (gpu_rings d) (desc (control_queue g)) (Virtio.avail (control_queue g)) (used (control_queue g));
  gi_used : load16 (w_mem h) (used_idx_at (used (control_queue g))) = gpu_seen d;
  gi_event : 0 <= load16 (w_mem h) (avail_event_at (used (control_queue g))) <= gpu_seen d;
  gi_heap : heap_ok h;
  gi_live : forall x, queue_pages (control_queue g) x -> live h x;
  gi_buf : exists v, queue_buf_send g = v * 4096 /\ queue_buf_recv g = (v + 1) * 4096 /\
    backed h v (dma_pfn (queue_buf_dma g)) /\ backed h (v + 1) (dma_pfn (queue_buf_dma g) + 1) /\
    0 <= v /\ (v + 2) * 4096 <= 18446744073709551616 /\
    (forall x, in_pages v 2 x -> live h x /\ ~ queue_pages (control_queue g) x);
}.

Section One.
Context (n : nat) (g : VirtIOGPU) (d : D) (h0 : H) (cmd : fields) (nout : Z).
Hypothesis Hinv : gpu_inv (Datatypes.S n) g d h0.
Hypothesis Hcmd : 0 <= sizeof cmd <= 4096.
Hypothesis Hnout : 0 <= nout <= 4096.
Abbreviation q := (control_queue g).
Abbreviation send := (queue_buf_send g).
Abbreviation recv := (queue_buf_recv g).
Abbreviation pin := (PAGE_2_ADDR (dma_pfn (queue_buf_dma g))).
Abbreviation pout := (PAGE_2_ADDR (u64 (dma_pfn (queue_buf_dma g) + 1))).

(** The heap with the command in the send page. *)
Definition h1 : H := w_set (write_fields (w_mem h0) send cmd) h0.

Lemma send_live x : send <= x < send + sizeof cmd -> live h0 x /\ ~ queue_pages q x.
Proof using Hinv Hcmd.
  intros Hx. destruct (gi_buf _ _ _ _ Hinv) as (v & E1 & _ & _ & _ & _ & _ & Hl). apply Hl. unfold in_pages. lia.
Qed.

Lemma h1_ok : heap_ok h1 /\ (forall x, live h1 x <-> live h0 x).
Proof using Hinv Hcmd.
  assert (forall x, ~ live h0 x -> write_fields (w_mem h0) send cmd x = w_mem h0 x) as Hm.
  { intros x Hx. apply write_fields_outside. intros Hin. by apply Hx, send_live. }
  pose proof (gi_heap _ _ _ _ Hinv) as Hok. split; [by apply heap_ok_set|by apply live_set].
Qed.

Lemma h1_queue x : queue_pages q x -> w_mem h1 x = w_mem h0 x.
Proof using Hinv Hcmd.
  intros Hx. unfold h1. rewrite w_mem_set. apply write_fields_outside. intros Hin. by apply (send_live x).
Qed.

(** What holds while the command is in the queue. *)
Record in_flight (f f2 : Z) (free : list Z) (q1 : VirtIOQueue) (m1 m2 : mem) : Prop := {
  fl_queue : queue_inv q ([f; f2] ++ free);
  fl_len : length free = 14%nat;
  fl_head : free_head q = f;
  fl_taken : taken q (d, h1) [f; f2] free (buffers [pin] [sizeof cmd] [pout] [nout]) 2 q1 m1;
  fl_posted : gpu_posted (w_set m2 h1) (gpu_rings d) (gpu_seen d) (desc q) (Virtio.avail q) (used q)
                (mkCmd f send (sizeof cmd) recv nout);
  fl_mem : forall x, ~ in_pages (desc q / 4096) 1 x -> m2 x = w_mem h1 x;
  fl_ok : heap_ok (w_set m2 h1);
}.

Lemma frames : 0 <= dma_pfn (queue_buf_dma g) < 17592186044416 /\
  0 <= dma_pfn (queue_buf_dma g) + 1 < 17592186044416 /\
  pin = dma_pfn (queue_buf_dma g) * 4096 /\ pout = (dma_pfn (queue_buf_dma g) + 1) * 4096.
Proof using Hinv.
  destruct (gi_buf _ _ _ _ Hinv) as (v & _ & _ & B1 & B2 & _).
  pose proof (backed_frame _ _ _ (gi_heap _ _ _ _ Hinv) B1). pose proof (backed_frame _ _ _ (gi_heap _ _ _ _ Hinv) B2).
  rewrite (u64_small (_ + 1)) by lia. rewrite !PAGE_2_ADDR_page by lia. done.
Qed.

Lemma bufs_fit : Forall buf_fits (buffers [pin] [sizeof cmd] [pout] [nout]).
Proof using All.
  destruct frames as (F1 & F2 & -> & ->). unfold buffers. cbn. repeat constructor; cbn; (lia || by vm_compute).
Qed.

Lemma gpu_post_ok :
  exists f f2 free q1 m1 m2,
    add_queue [pin] [sizeof cmd] 1 [pout] [nout] 1 (q, (d, h1)) =
      Ret (f, (set_avail_idx (avail_idx q + 1) q1, (d, w_set m2 h1))) /\
    in_flight f f2 free q1 m1 m2.
Proof using All.
  destruct (gi_queue _ _ _ _ Hinv) as (free0 & Hq & Hlen).
  destruct free0 as [|f [|f2 free]]; [done..|]. change (f :: f2 :: free) with ([f; f2] ++ free) in Hq.
  pose proof (gi_left _ _ _ _ Hinv) as Hleft. pose proof (gi_avail _ _ _ _ Hinv) as Hai.
  destruct (add_queue_direct [pin] [sizeof cmd] [pout] [nout] eq_refl eq_refl ltac:(cbn; lia) bufs_fit [f; f2] free q (d, h1)
    Hq eq_refl ltac:(lia) (or_introl (gi_ind _ _ _ _ Hinv))) as (q1 & m1 & E & Tk).
  destruct (free_cons _ _ _ Hq) as (Hf & _ & Hh & _). rewrite Hh in E.
  destruct (gi_at _ _ _ _ Hinv) as (dv & uv & Hat). pose proof Hat as [A1 A2 A3 A4].
  exists f, f2, free, q1, m1, (publish_mem q f m1). split; [exact E|].
  assert (forall x, ~ in_pages (desc q / 4096) 1 x -> publish_mem q f m1 x = w_mem h1 x) as Hmem.
  { intros x Hx. replace (desc q / 4096) with dv in Hx by (rewrite A1; dlia). unfold in_pages in Hx.
    rewrite publish_outside by lia. apply (tk_mem _ _ _ _ _ _ _ _ Tk). lia. }
  destruct h1_ok as [Hok1 Hl1].
  assert (heap_ok (w_set (publish_mem q f m1) h1)) as Hok2.
  { apply heap_ok_set; [done|]. intros x Hx. apply Hmem. intros Hin. apply Hx, Hl1, (gi_live _ _ _ _ Hinv). by left. }
  split; try done; [by injection Hlen|].
  destruct (gi_buf _ _ _ _ Hinv) as (v & V1 & V2 & B1 & B2 & V3 & V4 & _). destruct frames as (F1 & F2 & Ep & Eo).
  destruct (taken_chain [pin] [sizeof cmd] [pout] [nout] eq_refl eq_refl ltac:(cbn; lia) bufs_fit [f; f2] free q (d, h1)
    Hq eq_refl q1 m1 (publish_mem q f m1) Tk) with (n := 2%nat) (k := 0%nat) (u := f) as (ds & Et & Eb);
    [intros x Hx; apply publish_outside; lia|done|done|].
  rewrite drop_0 in Eb. unfold buffers in Eb. cbn in Eb.
  destruct ds as [|d0 [|d1 [|]]]; try done. injection Eb as E1 E2 E3 E4 E5 E6.
  assert (read_desc (publish_mem q f m1) (desc q + 16 * f) = d0) as Er.
  { cbn [table_chain] in Et. destruct (_ =? 0) in Et; [by injection Et|]. apply fmap_Some in Et as (? & _ & Et). by injection Et. }
  split; rewrite ?w_mem_set; cbn [gc_head gc_in gc_nin gc_out gc_nout].
  - eapply ring_at_mono; [|apply (gi_ring _ _ _ _ Hinv)]. intros v' p' Hb. unfold h1. by rewrite !backed_set.
  - rewrite (proj1 (publish_fields q f m1 ltac:(lia))). by rewrite Hai.
  - rewrite <- Hai. apply (publish_fields q f m1). lia.
  - done.
  - exists d0, d1. split.
    { apply chain_direct; rewrite w_mem_set; [rewrite Er, E3; done|]. by eapply table_chain_more; [|exact Et]; lia. }
    unfold writes. rewrite E2, E3, E5, E6. split; [done|]. split; [done|]. split.
    { exists v, (dma_pfn (queue_buf_dma g)). split; [unfold h1; by rewrite !backed_set|].
      rewrite E1, Ep, V1. unfold in_pages. lia. }
    split; [done|]. split; [done|]. exists (v + 1), (dma_pfn (queue_buf_dma g) + 1).
    split; [unfold h1; by rewrite !backed_set|]. rewrite E4, Eo, V2. unfold in_pages. lia.
  - rewrite V1, V2. rewrite !Z_mod_mult. lia.
Qed.

Lemma gpu_used_page x : used q <= x < used q + 134 -> queue_pages q x /\ ~ in_pages (desc q / 4096) 1 x.
Proof using Hinv.
  intros Hx. destruct (gi_at _ _ _ _ Hinv) as (dv & uv & Hat).
  rewrite (queue_at_pages _ _ _ _ Hat). destruct Hat as [Q1 Q2 Q3 Q4].
  replace (desc q / 4096) with dv by (rewrite Q1; dlia). unfold in_pages. lia.
Qed.

Lemma flight_used f f2 free q1 m1 m2 x :
  in_flight f f2 free q1 m1 m2 -> used q <= x < used q + 134 -> m2 x = w_mem h0 x.
Proof using Hinv Hcmd.
  intros F Hx. destruct (gpu_used_page x Hx) as [Hq Hd]. rewrite (fl_mem _ _ _ _ _ _ F) by done. by apply h1_queue.
Qed.

(** The queue while the device works. *)
Lemma flight_fields f f2 free q1 m1 m2 : in_flight f f2 free q1 m1 m2 ->
  let qb := set_avail_idx (avail_idx q + 1) q1 in
  event_idx qb = event_idx q /\ used qb = used q /\ queue_idx qb = 0 /\ last_used_idx qb = gpu_seen d /\
  avail_idx qb = gpu_seen d + 1.
Proof using Hinv.
  intros F. pose proof (tk_same _ _ _ _ _ _ _ _ (fl_taken _ _ _ _ _ _ F)) as Hs. cbn. rewrite Hs. cbn.
  rewrite (gi_idx _ _ _ _ Hinv), (gi_last _ _ _ _ Hinv), (gi_avail _ _ _ _ Hinv). done.
Qed.

Lemma gpu_notify_ok f f2 free q1 m1 m2 :
  in_flight f f2 free q1 m1 m2 ->
  let qb := set_avail_idx (avail_idx q + 1) q1 in
  exists d', (notify ← should_notify; q' ← queue;
              when notify (world (hdr_write (gpu_hdr g) queue_notify (queue_idx q')))) (qb, (d, w_set m2 h1))
    = Ret (tt, (qb, (d', w_set m2 h1))) /\
    gpu_awake d' /\ gpu_rings d' = gpu_rings d /\ gpu_seen d' = gpu_seen d /\ screen d' = screen d.
Proof using All.
  intros F qb. destruct (flight_fields _ _ _ _ _ _ F) as (E1 & E2 & E3 & E4 & E5). fold qb in E1, E2, E3, E4, E5.
  pose proof (gi_event _ _ _ _ Hinv) as Hev.
  assert (exists nt, should_notify (qb, (d, w_set m2 h1)) = Ret (nt, (qb, (d, w_set m2 h1))) /\ (nt = false -> gpu_awake d))
    as (nt & En & Hnt).
  { unfold should_notify. mstep. cbn [fst]. rewrite E1, E2. destruct (event_idx q); eexists; (split; [by mstep|]).
    - change (w_mem (snd (qb, (d, w_set m2 h1)))) with (w_mem (w_set m2 h1)). rewrite E5, w_mem_set.
      rewrite (load16_ext m2 (w_mem h0)).
      2:{ intros x Hx. eapply flight_used; [exact F|]. unfold avail_event_at in Hx. lia. }
      change (VIRTIO_NUM_DESC - 1) with 15. rewrite Z_land_15. intros Hlt%Z.leb_gt. dlia.
    - intros Hz%Z.eqb_neq. eapply gpu_quiet_law; [apply (fl_ok _ _ _ _ _ _ F)|apply F|]. exact Hz. }
  rewrite (bind_ret_l _ _ _ _ _ En). mstep. cbn [fst]. destruct nt.
  - exists (dev_write (gpu_base + VirtIOHeader queue_notify) 0 d). split; [|apply gpu_notify_law].
    rewrite E3, (gi_hdr _ _ _ _ Hinv). done.
  - exists d. split; [done|]. auto.
Qed.

Lemma flight_separate f : gpu_separate (used q) (mkCmd f send (sizeof cmd) recv nout).
Proof using All.
  destruct (gi_buf _ _ _ _ Hinv) as (v & V1 & V2 & _ & _ & V3 & V4 & Hl).
  destruct (gi_at _ _ _ _ Hinv) as (dv & uv & Hat).
  destruct (Hl ((v + 1) * 4096) ltac:(unfold in_pages; lia)) as [_ Hn].
  rewrite (queue_at_pages _ _ _ _ Hat) in Hn. destruct Hat as [Q1 Q2 Q3 Q4].
  unfold gpu_separate, in_pages in *. cbn. rewrite V2. lia.
Qed.

Lemma gpu_wait_ok f f2 free q1 m1 m2 : forall k fuel d1,
  in_flight f f2 free q1 m1 m2 ->
  gpu_awake d1 -> gpu_rings d1 = gpu_rings d -> gpu_seen d1 = gpu_seen d -> screen d1 = screen d ->
  gpu_delay d1 = k -> (k < fuel)%nat ->
  let qb := set_avail_idx (avail_idx q + 1) q1 in
  exists d' m', wait_used fuel (qb, (d1, w_set m2 h1)) = Ret (tt, (qb, (d', w_set m' h1))) /\
    gpu_rings d' = gpu_rings d /\ gpu_seen d' = gpu_seen d + 1 /\
    gpu_served exec m2 m' (gpu_seen d) (used q) (mkCmd f send (sizeof cmd) recv nout) (screen d) (screen d').
Proof using All.
  intros k fuel. revert k. induction fuel as [|fuel IH]; intros k d1 F Hw Hr Hsn Hsc Hk Hf qb; [lia|].
  destruct (flight_fields _ _ _ _ _ _ F) as (E1 & E2 & E3 & E4 & E5). fold qb in E1, E2, E3, E4, E5.
  pose proof (fl_posted _ _ _ _ _ _ F) as Hp. pose proof (gi_left _ _ _ _ Hinv) as Hleft.
  rewrite <- Hr, <- Hsn in Hp. cbn [wait_used]. destruct k as [|k].
  - destruct (gpu_serve_law d1 _ _ _ _ _ (fl_ok _ _ _ _ _ _ F) Hp (flight_separate f) Hw Hk) as (d' & m' & Es & R1 & R2 & R3).
    rewrite Hsn, Hsc, w_mem_set in *. exists d', m'. split.
    + erewrite bind_ret_l; [|apply run_queue_world; cbn; rewrite Es, w_set_set; reflexivity]. do 2 mstep. cbn [fst snd].
      rewrite E4, E2. change (w_mem (d', w_set m' h1)) with (w_mem (w_set m' h1)).
      rewrite w_mem_set, (gs_idx _ _ _ _ _ _ _ _ R3), u16_small by lia.
      by destruct (Z.eqb_spec (gpu_seen d) (gpu_seen d + 1)); [lia|].
    + split; [congruence|]. split; [rewrite R2; apply u16_small; lia|done].
  - destruct (gpu_wait_law d1 _ _ _ _ _ k (fl_ok _ _ _ _ _ _ F) Hp Hw Hk) as (d2 & Es & W1 & W2 & W3 & W4 & W5).
    destruct (IH k d2 F W1 ltac:(congruence) ltac:(congruence) ltac:(congruence) W2 ltac:(lia)) as (d' & m' & E & R).
    exists d', m'. split; [|done].
    erewrite bind_ret_l; [|apply run_queue_world; cbn; rewrite Es, w_set_mem; reflexivity]. do 2 mstep. cbn [fst snd].
    rewrite E4, E2. change (w_mem (d2, w_set m2 h1)) with (w_mem (w_set m2 h1)). rewrite w_mem_set.
    rewrite (load16_ext m2 (w_mem h0)).
    2:{ intros x Hx. eapply flight_used; [exact F|]. unfold used_idx_at in Hx. lia. }
    by rewrite (gi_used _ _ _ _ Hinv), Z.eqb_refl.
Qed.

(** The command as a whole. *)
Lemma gpu_pop_ok fuel : (gpu_patience <= fuel)%nat ->
  exists f q2 d' m2 m' m3 len,
    queue_add_notify_pop fuel (gpu_hdr g) [pin] [sizeof cmd] 1 [pout] [nout] 1 (q, (d, h1)) =
      Ret (len, (set_last_used (u32 (last_used_idx q2 + 1)) q2, (d', w_set m3 h1))) /\
    (exists free, queue_inv q2 free /\ length free = 16%nat) /\
    same_queue (set_avail_idx (avail_idx q + 1) q) q2 /\
    gpu_rings d' = gpu_rings d /\ gpu_seen d' = gpu_seen d + 1 /\
    (forall x, ~ in_pages (desc q / 4096) 1 x -> m2 x = w_mem h1 x) /\
    gpu_served exec m2 m' (gpu_seen d) (used q) (mkCmd f send (sizeof cmd) recv nout) (screen d) (screen d') /\
    (forall x, ~ in_pages (desc q / 4096) 1 x -> m3 x = m' x).
Proof using All.
  intros Hfuel. destruct gpu_post_ok as (f & f2 & free & q1 & m1 & m2 & Ea & F).
  destruct (gpu_notify_ok _ _ _ _ _ _ F) as (d1 & En & A1 & A2 & A3 & A4).
  destruct (gpu_wait_ok _ _ _ _ _ _ (gpu_delay d1) fuel d1 F A1 A2 A3 A4 eq_refl) as (d' & m' & Ew & R1 & R2 & R3).
  { pose proof (gpu_delay_bound d1). lia. }
  pose proof (fl_queue _ _ _ _ _ _ F) as Hq. pose proof (fl_head _ _ _ _ _ _ F) as Hh.
  destruct (free_cons _ _ _ Hq) as (Hf & _ & _ & _). pose proof (gi_left _ _ _ _ Hinv) as Hleft.
  pose proof (gi_avail _ _ _ _ Hinv) as Hai.
  destruct (recycle_direct [pin] [sizeof cmd] [pout] [nout] eq_refl eq_refl ltac:(cbn; lia) bufs_fit [f; f2] free q (d, h1)
    Hq eq_refl ltac:(lia) (or_introl (gi_ind _ _ _ _ Hinv)) q1 m1 (d', w_set m' h1) (fl_taken _ _ _ _ _ _ F))
    as (q2 & m3 & Er & Hq2 & Hs2 & Hm3).
  rewrite Hh in Er. destruct (flight_fields _ _ _ _ _ _ F) as (_ & E2 & _ & E4 & _).
  eexists f, q2, d', m2, m', m3, _. split; [|split; [|split; [done|split; [done|split; [done|split; [apply F|split; [done|]]]]]]].
  - change (w_set m3 (d', w_set m' h1)) with (d', w_set m3 (w_set m' h1)) in Er. rewrite w_set_set in Er.
    eapply (pop_run fuel (gpu_hdr g) _ _ _ _ _ _ _ _ _ _ q2 _ (d', w_set m3 h1) f Ea ltac:(lia) En Ew).
    + rewrite E4. lia.
    + rewrite E2, E4. change (w_mem (d', w_set m' h1)) with (w_mem (w_set m' h1)). rewrite w_mem_set.
      apply (gs_id _ _ _ _ _ _ _ _ R3).
    + exact Er.
  - exists ([f; f2] ++ free). split; [done|]. rewrite length_app, (fl_len _ _ _ _ _ _ F). done.
  - intros x Hx. change (w_mem (d', w_set m' h1)) with (w_mem (w_set m' h1)) in Hm3. rewrite Hm3, w_mem_set; [done|].
    destruct (gi_at _ _ _ _ Hinv) as (dv & uv & [Q1 Q2 Q3 Q4]). replace (desc q / 4096) with dv in Hx by (rewrite Q1; dlia).
    unfold in_pages in Hx. lia.
Qed.

(** The pages of the driver: the queue, the command and the answer. *)
Definition gpu_pages (g : VirtIOGPU) (x : Z) : Prop :=
  queue_pages (control_queue g) x \/ queue_buf_send g <= x < queue_buf_send g + 8192.

Lemma gpu_command_ok fuel : (gpu_patience <= fuel)%nat ->
  exists q' d' h', gpu_command fuel cmd nout (g, (d, h0)) = Ret (tt, (set_control q' g, (d', h'))) /\
    gpu_inv n (set_control q' g) d' h' /\ desc q' = desc q /\ used q' = used q /\
    screen d' = snd (exec (enc cmd) (screen d)) /\
    (forall j b, Z.of_nat j < nout -> fst (exec (enc cmd) (screen d)) !! j = Some b -> w_mem h' (recv + Z.of_nat j) = b) /\
    (forall x, live h' x <-> live h0 x) /\ (forall v p, backed h0 v p -> backed h' v p) /\
    (forall x, ~ gpu_pages g x -> w_mem h' x = w_mem h0 x).
Proof using All.
  intros Hfuel. destruct (gpu_pop_ok fuel Hfuel) as (f & q2 & d' & m2 & m' & m3 & len & E & (free & Hq2 & Hlen) & Hs2 & R1 & R2 & Hm2 & R3 & Hm3).
  pose proof (gi_left _ _ _ _ Hinv) as Hleft. pose proof (gi_last _ _ _ _ Hinv) as Hlast.
  destruct (gi_buf _ _ _ _ Hinv) as (v & V1 & V2 & B1 & B2 & V3 & V4 & Hl).
  assert (forall x, ~ queue_pages q x -> ~ in_pages (desc q / 4096) 1 x) as Hdp by (intros x Hx Hd; apply Hx; by left).
  assert (enc cmd = bytes_of m2 send (sizeof cmd)) as Hcb.
  { rewrite <- enc_length. symmetry. apply bytes_of_at. eapply bytes_at_ext; [|apply (write_fields_bytes cmd (w_mem h0) send)].
    intros x Hx. rewrite enc_length in Hx. rewrite Hm2; [unfold h1; by rewrite w_mem_set|]. by apply Hdp, send_live. }
  destruct h1_ok as [Hok1 Hl1].
  assert (forall x, ~ live h0 x -> m3 x = w_mem h1 x) as Hdead.
  { intros x Hx. assert (~ in_pages (desc q / 4096) 1 x) as Hnd by (intros Hd; apply Hx, (gi_live _ _ _ _ Hinv); by left).
    rewrite Hm3 by done. rewrite (gs_frame _ _ _ _ _ _ _ _ R3); [by apply Hm2|..].
    - intros Hu. apply Hx, (gi_live _ _ _ _ Hinv). by apply gpu_used_page.
    - cbn. intros Ho. apply Hx, Hl. unfold in_pages. lia. }
  exists (set_last_used (u32 (last_used_idx q2 + 1)) q2), d', (w_set m3 h1). split.
  { unfold gpu_command. do 2 mstep. cbn [fst snd]. erewrite bind_ret_l; [|unfold in_queue; cbn [fst snd]].
    2:{ change (w_set (write_fields (w_mem (d, h0)) send cmd) (d, h0)) with (d, h1). rewrite E. reflexivity. }
    done. }
  assert (heap_ok (w_set m3 h1)) as Hok3 by (apply heap_ok_set; [done|]; intros x Hx; apply Hdead; by rewrite <- Hl1).
  assert (forall x, live (w_set m3 h1) x <-> live h0 x) as Hl3.
  { intros x. rewrite live_set; [apply Hl1|done|]. intros y Hy. apply Hdead. by rewrite <- Hl1. }
  assert (forall v p, backed h0 v p -> backed (w_set m3 h1) v p) as Hb3 by (intros v' p' Hb; unfold h1; by rewrite !backed_set).
  assert (forall x, used q <= x < used q + 134 -> m3 x = m' x) as Hmu by (intros x Hx; apply Hm3; by apply gpu_used_page).
  assert (desc q2 = desc q /\ used q2 = used q) as [Ed Eu] by (rewrite Hs2; done).
  split; [|split; [done|split; [done|split; [by rewrite Hcb; apply (gs_state _ _ _ _ _ _ _ _ R3)|split; [|split; [done|split; [done|]]]]]]].
  - destruct (gi_at _ _ _ _ Hinv) as (dv & uv & [Q1 Q2 Q3 Q4]).
    assert (forall x, queue_pages (set_last_used (u32 (last_used_idx q2 + 1)) q2) x <-> queue_pages q x) as Hqp.
    { intros x. unfold queue_pages. cbn. by rewrite Ed, Eu. }
    split; cbn [control_queue set_control gpu_hdr queue_buf_send queue_buf_recv queue_buf_dma]; rewrite ?w_mem_set.
    + apply Hinv.
    + exists free. split; [|done]. by destruct Hq2.
    + cbn. rewrite Hs2. apply Hinv.
    + cbn. rewrite Hs2. apply Hinv.
    + cbn. rewrite Hs2. cbn. rewrite (gi_avail _ _ _ _ Hinv). lia.
    + cbn. rewrite Hs2. cbn. rewrite Hlast, R2. apply u32_small. lia.
    + lia.
    + exists dv, uv. split; cbn; try rewrite Hs2; done.
    + cbn. rewrite Hs2, R1. cbn. eapply ring_at_mono; [exact Hb3|apply Hinv].
    + change (used (set_last_used (u32 (last_used_idx q2 + 1)) q2)) with (used q2). rewrite Eu, (load16_ext _ m') by (intros x Hx; apply Hmu; unfold used_idx_at in Hx; lia).
      rewrite (gs_idx _ _ _ _ _ _ _ _ R3), R2. apply u16_small. lia.
    + change (used (set_last_used (u32 (last_used_idx q2 + 1)) q2)) with (used q2). rewrite Eu, (load16_ext _ m') by (intros x Hx; apply Hmu; unfold avail_event_at in Hx; lia).
      pose proof (gi_event _ _ _ _ Hinv) as Hev. destruct (gs_event _ _ _ _ _ _ _ _ R3) as [-> | ->]; [|rewrite u16_small; lia].
      rewrite (load16_ext _ (w_mem h0)); [lia|]. intros x Hx. destruct (gpu_used_page x) as [Hq Hd]; [unfold avail_event_at in Hx; lia|].
      rewrite Hm2 by done. by apply h1_queue.
    + done.
    + intros x Hx. by apply Hl3, (gi_live _ _ _ _ Hinv), Hqp.
    + exists v. do 2 (split; [done|]). split; [by apply Hb3|]. split; [by apply Hb3|]. split; [done|]. split; [done|].
      intros x Hx. rewrite Hl3, Hqp. by apply Hl.
  - intros j b Hj Hb. rewrite w_mem_set. rewrite Hcb in Hb. rewrite Hm3.
    + by apply (gs_answer _ _ _ _ _ _ _ _ R3 j b).
    + apply Hdp, Hl. unfold in_pages. lia.
  - intros x Hx. rewrite w_mem_set. assert (~ queue_pages q x) as Hnq by (intros Hq; apply Hx; by left).
    rewrite Hm3 by (by apply Hdp). rewrite (gs_frame _ _ _ _ _ _ _ _ R3).
    + rewrite Hm2 by (by apply Hdp). unfold h1. rewrite w_mem_set. apply write_fields_outside. intros Hs. apply Hx. right. lia.
    + intros Hu. by apply Hnq, gpu_used_page.
    + cbn. intros Ho. apply Hx. right. lia.
Qed.
End One.

(** ** The status of a command *)
(** The first word of a struct in memory. *)
Definition first_word (l : list Z) : Z :=
  match l with
  | b0 :: b1 :: b2 :: b3 :: _ => b0 + 256 * (b1 + 256 * (b2 + 256 * (b3 + 256 * 0)))
  | _ => 0
  end.
Definition status_of (answer : list Z) : Z := if first_word answer =? hdr_code OK_NODATA then 0 else -1.

(** What a command leaves: the device has executed its bytes, and only the
    driver's pages changed. *)
Record commanded (n : nat) (g : VirtIOGPU) (d : D) (h : H) (cs : list (list Z)) (g' : VirtIOGPU) (d' : D) (h' : H) : Prop := {
  cm_inv : gpu_inv n g' d' h';
  cm_gpu : g' = set_control (control_queue g') g;
  cm_pages : desc (control_queue g') = desc (control_queue g) /\ used (control_queue g') = used (control_queue g);
  cm_screen : screen d' = foldl (fun s c => snd (exec c s)) (screen d) cs;
  cm_live : forall x, live h' x <-> live h x;
  cm_mem : forall x, ~ gpu_pages g x -> w_mem h' x = w_mem h x;
}.

Lemma commanded_trans n1 n2 g d h cs1 g1 d1 h1 cs2 g2 d2 h2 :
  commanded n1 g d h cs1 g1 d1 h1 -> commanded n2 g1 d1 h1 cs2 g2 d2 h2 -> commanded n2 g d h (cs1 ++ cs2) g2 d2 h2.
Proof.
  intros [A1 A2 [A3 A4] A5 A6 A7] [B1 B2 [B3 B4] B5 B6 B7]. split.
  - done.
  - rewrite B2, A2. done.
  - split; congruence.
  - by rewrite foldl_app, <- A5.
  - intros x. by rewrite B6, A6.
  - intros x Hx. rewrite B7; [by apply A7|]. intros Hp. apply Hx. unfold gpu_pages, queue_pages in *.
    rewrite A3, A4 in Hp. rewrite A2 in Hp. exact Hp.
Qed.

Lemma gpu_status_ok n fuel cmd g d h :
  gpu_inv (Datatypes.S n) g d h -> 0 <= sizeof cmd <= 4096 -> (gpu_patience <= fuel)%nat ->
  exists g' d' h',
    (gpu_command fuel cmd ControlHdr_size;; command_status) (g, (d, h)) =
      Ret (status_of (fst (exec (enc cmd) (screen d))), (g', (d', h'))) /\
    commanded n g d h [enc cmd] g' d' h'.
Proof.
  intros Hinv Hc Hf.
  destruct (gpu_command_ok n g d h cmd ControlHdr_size Hinv Hc ltac:(done) fuel Hf)
    as (q' & d' & h' & E & I & Ed & Eu & Es & Ea & Hl & _ & Hm).
  exists (set_control q' g), d', h'. split; [|split; try done].
  rewrite (bind_ret_l _ _ _ _ _ E). unfold command_status. do 2 mstep. cbn [fst snd].
  change (queue_buf_recv (set_control q' g)) with (queue_buf_recv g). change (w_mem (d', h')) with (w_mem h').
  unfold mret, M_ret, status_of. do 3 f_equal.
  pose proof (exec_header (enc cmd) (screen d)) as Hlen.
  destruct (fst (exec (enc cmd) (screen d))) as [|b0 [|b1 [|b2 [|b3 l]]]]; cbn [length] in Hlen; try lia.
  cbn [first_word]. erewrite load32_bytes; [reflexivity|]. intros j b Hb. pose proof (lookup_lt_Some _ _ _ Hb) as Hj. cbn in Hj.
  apply Ea; [unfold ControlHdr_size; lia|]. do 4 (destruct j as [|j]; [done|]). lia.
Qed.
End Gpu.
