(* ===== verification/VirtioGpuProps.v ===== *)
(** * Properties of the GPU driver *)
From S2P Require Import Prelude Mem World HeapLift RamDisk Virtio VirtioSpec VirtioBlk VirtioDev VirtioBlkSpec VirtioInit VirtioSample VirtioDirect.
From S2P Require Import CString CStringProps VirtioGpu VirtioGpuDev VirtioGpuSpec.
Import Virtio VirtioGpu.

(** ** Pixels *)
Lemma RGBA_val r g b a : RGBA r g b a = a mod 256 * 16777216 + r mod 256 * 65536 + g mod 256 * 256 + b mod 256.
Proof.
  assert (forall x, Z.land x 255 = x mod 256) as L by (intros x; change 255 with (Z.ones 8); by rewrite Z.land_ones).
  unfold RGBA. rewrite !L, !Z.shiftl_mul_pow2 by lia.
  assert (0 <= a mod 256 < 256 /\ 0 <= r mod 256 < 256 /\ 0 <= g mod 256 < 256 /\ 0 <= b mod 256 < 256) as (Ha & Hr & Hg & Hb) by dlia.
  rewrite u32_small by lia. rewrite <- !Z.lor_assoc.
  rewrite (lor_shift_add (g mod 256) (b mod 256) 8) by lia.
  rewrite (lor_shift_add (r mod 256) _ 16) by lia. rewrite (lor_shift_add (a mod 256) _ 24) by lia. lia.
Qed.

Definition pixel (x y : Z) : Z := 255 * 16777216 + x mod 256 * 65536 + y mod 256 * 256 + (x + y) mod 256.

Lemma put_pixel_ok bf w y x m :
  0 <= x -> 0 <= y -> 0 <= y * w -> y * w + x < 1073741824 -> x + y < 4294967296 ->
  put_pixel bf w y x m = store32 m (bf + 4 * (y * w + x)) (pixel x y).
Proof.
  intros Hx Hy Hw Hr Hs. unfold put_pixel. rewrite (u32_small (y * w + x)), (u32_small (x + y)) by lia.
  rewrite RGBA_val. done.
Qed.

Lemma pixel_range x y : 0 <= pixel x y < 4294967296.
Proof. unfold pixel. dlia. Qed.

Lemma rainbow_row_ok n : forall bf w y x m,
  0 <= x -> 0 <= y -> 0 <= y * w -> y * w + x + Z.of_nat n <= 1073741824 -> x + Z.of_nat n + y <= 4294967296 ->
  (forall k, x <= k < x + Z.of_nat n -> load32 (rainbow_row n bf w y x m) (bf + 4 * (y * w + k)) = pixel k y) /\
  (forall a, ~ (bf + 4 * (y * w + x) <= a < bf + 4 * (y * w + x + Z.of_nat n)) -> rainbow_row n bf w y x m a = m a).
Proof.
  induction n as [|n IH]; intros bf w y x m Hx Hy Hw Hr Hs; cbn [rainbow_row]; [split; [lia|done]|].
  rewrite put_pixel_ok by lia. set (m1 := store32 m (bf + 4 * (y * w + x)) (pixel x y)).
  destruct (IH bf w y (x + 1) m1) as [I1 I2]; [lia..|]. split.
  - intros k Hk. destruct (decide (k = x)) as [->|Hne]; [|apply I1; lia].
    rewrite (load_le_ext 4 _ m1) by (intros a Ha; apply I2; lia). apply load_store_same. apply pixel_range.
  - intros a Ha. rewrite I2 by lia. unfold m1. apply store_le_outside. lia.
Qed.

Lemma rainbow_rows_ok n : forall bf w y m,
  0 <= w -> 0 <= y -> w * (y + Z.of_nat n) <= 1073741824 -> w + (y + Z.of_nat n) <= 4294967296 ->
  (forall j k, y <= j < y + Z.of_nat n -> 0 <= k < w ->
     load32 (rainbow_rows n bf w y m) (bf + 4 * (j * w + k)) = pixel k j) /\
  (forall a, ~ (bf + 4 * (y * w) <= a < bf + 4 * ((y + Z.of_nat n) * w)) -> rainbow_rows n bf w y m a = m a).
Proof.
  induction n as [|n IH]; intros bf w y m Hw Hy Hr Hs; cbn [rainbow_rows]; [split; [lia|done]|].
  set (m1 := rainbow_row (Z.to_nat w) bf w y 0 m).
  assert ((y + Z.of_nat (S n)) * w = y * w + w + Z.of_nat n * w) as E1 by lia.
  assert ((y + 1 + Z.of_nat n) * w = y * w + w + Z.of_nat n * w) as E2 by lia.
  assert (0 <= y * w /\ 0 <= Z.of_nat n * w) as [P1 P2] by nia.
  destruct (IH bf w (y + 1) m1) as [I1 I2]; [lia..|].
  destruct (rainbow_row_ok (Z.to_nat w) bf w y 0 m) as [J1 J2]; [lia..|]. rewrite Z2Nat.id in J1, J2 by lia. fold m1 in J1, J2.
  split.
  - intros j k Hj Hk. destruct (decide (j = y)) as [->|Hne]; [|apply I1; lia].
    rewrite (load_le_ext 4 _ m1) by (intros a Ha; apply I2; lia). apply J1. lia.
  - intros a Ha. rewrite I2 by lia. apply J2. lia.
Qed.

Section Props.
Context {D H S : Type} `{GpuDevice D H S}.

Lemma gpu_inv_mono n n' g d (h : H) : gpu_inv n g d h -> (n' <= n)%nat -> gpu_inv n' g d h.
Proof. intros [] Hle. split; try done. lia. Qed.

(** Writing to pages that are not the driver's. *)
Lemma gpu_inv_set n g d (h : H) m :
  gpu_inv n g d h -> (forall x, ~ (live h x /\ ~ gpu_pages g x) -> m x = w_mem h x) -> gpu_inv n g d (w_set m h).
Proof.
  intros Hi Hm. pose proof Hi as [I1 I2 I3 I4 I5 I6 I7 I8 I9 I10 I11 I12 I13 I14].
  assert (forall x, ~ live h x -> m x = w_mem h x) as Hdead by (intros x Hx; apply Hm; tauto).
  assert (forall x, used (control_queue g) <= x < used (control_queue g) + 134 -> m x = w_mem h x) as Hu.
  { intros x Hx. apply Hm. intros [_ Hn]. apply Hn. left. destruct I8 as (dv & uv & Hat).
    apply (queue_at_pages _ _ _ _ Hat). right. rewrite (qa_used _ _ _ Hat) in Hx. unfold in_pages. lia. }
  split; try done; rewrite ?w_mem_set.
  - eapply ring_at_mono; [|exact I9]. intros v p. by rewrite backed_set.
  - rewrite <- I10. apply load16_ext. intros x Hx. apply Hu. unfold used_idx_at in Hx. lia.
  - rewrite (load16_ext _ (w_mem h)); [done|]. intros x Hx. apply Hu. unfold avail_event_at in Hx. lia.
  - by apply heap_ok_set.
  - intros x Hx. apply live_set; [done..|]. by apply I13.
  - destruct I14 as (v & V1 & V2 & B1 & B2 & V3 & V4 & Hl). exists v. do 2 (split; [done|]). rewrite !backed_set.
    do 4 (split; [done|]). intros x Hx. rewrite live_set by done. by apply Hl.
Qed.

Lemma status_cases a : status_of a = 0 \/ status_of a = -1.
Proof. unfold status_of. destruct (_ =? _); auto. Qed.

(** The two commands of flush. *)
Definition flush_transfer (g : VirtIOGPU) : list Z :=
  enc (ReqTransferToHost2D (gpu_x g) (gpu_y g) (gpu_width g) (gpu_height g) 0 RESOURCE_ID_FB).
Definition flush_second (g : VirtIOGPU) : list Z :=
  enc (ReqResourceFlush TRANSFER_TO_HOST_2D (gpu_x g) (gpu_y g) (gpu_width g) (gpu_height g) RESOURCE_ID_FB).

Lemma flush_ok n fuel g d (h : H) :
  gpu_inv (Datatypes.S (Datatypes.S n)) g d h -> (gpu_patience <= fuel)%nat ->
  let '(a1, s1) := exec (flush_transfer g) (screen d) in
  let ok1 := status_of a1 =? 0 in
  let ok2 := status_of (fst (exec (flush_second g) s1)) =? 0 in
  exists g' d' h', flush fuel (g, (d, h)) = Ret (if ok1 && ok2 then 0 else -1, (g', (d', h'))) /\
    commanded n g d h (flush_transfer g :: if ok1 then [flush_second g] else []) g' d' h'.
Proof.
  intros Hinv Hf. destruct (exec (flush_transfer g) (screen d)) as [a1 s1] eqn:Ex.
  destruct (gpu_status_ok (Datatypes.S n) fuel (ReqTransferToHost2D (gpu_x g) (gpu_y g) (gpu_width g) (gpu_height g) 0 RESOURCE_ID_FB)
    g d h Hinv ltac:(by vm_compute) Hf) as (g1 & d1 & h1 & E1 & C1).
  fold (flush_transfer g) in E1, C1. rewrite Ex in E1. cbn [fst] in E1.
  assert (screen d1 = s1) as Es by (rewrite (cm_screen _ _ _ _ _ _ _ _ C1); cbn [foldl]; by rewrite Ex).
  unfold flush. mstep. cbn [fst]. unfold transfer_to_host_2d. rewrite (bind_ret_l _ _ _ _ _ E1).
  destruct (status_cases a1) as [->| ->]; cbn [Z.ltb Z.compare Z.eqb andb].
  2:{ exists g1, d1, h1. split; [done|]. destruct C1. split; try done. eapply gpu_inv_mono; [done|lia]. }
  destruct (gpu_status_ok n fuel (ReqResourceFlush TRANSFER_TO_HOST_2D (gpu_x g) (gpu_y g) (gpu_width g) (gpu_height g) RESOURCE_ID_FB)
    g1 d1 h1 (cm_inv _ _ _ _ _ _ _ _ C1) ltac:(by vm_compute) Hf) as (g2 & d2 & h2 & E2 & C2).
  fold (flush_second g) in E2, C2. unfold resource_flush. rewrite (bind_ret_l _ _ _ _ _ E2), Es.
  exists g2, d2, h2. split; [|by apply (commanded_trans (Datatypes.S n) n _ _ _ [flush_transfer g] g1 d1 h1 [flush_second g])].
  by destruct (status_cases (fst (exec (flush_second g) s1))) as [->| ->].
Qed.

Lemma hdr_word t l : first_word (enc (ControlHdr t ++ l)) = hdr_code t.
Proof. by destruct t. Qed.

(** Flush makes the device execute the transfer of the whole screen and, if
    that succeeds, a second command; it returns 0 exactly when both succeed, and
    changes no memory but the driver's own pages.  Both commands are
    TRANSFER_TO_HOST_2D: the device never gets a RESOURCE_FLUSH. *)
Theorem flush_only_transfers n fuel g d (h : H) :
  gpu_inv (Datatypes.S (Datatypes.S n)) g d h -> (gpu_patience <= fuel)%nat ->
  let '(a1, s1) := exec (flush_transfer g) (screen d) in
  let ok1 := status_of a1 =? 0 in
  let ok2 := status_of (fst (exec (flush_second g) s1)) =? 0 in
  let commands := flush_transfer g :: if ok1 then [flush_second g] else [] in
  (exists g' d' h', flush fuel (g, (d, h)) = Ret (if ok1 && ok2 then 0 else -1, (g', (d', h'))) /\
    commanded n g d h commands g' d' h') /\
  Forall (fun c => first_word c = hdr_code TRANSFER_TO_HOST_2D) commands.
Proof.
  intros Hinv Hf. pose proof (flush_ok n fuel g d h Hinv Hf) as Hfl.
  destruct (exec (flush_transfer g) (screen d)) as [a1 s1]. split; [exact Hfl|].
  constructor; [apply hdr_word|]. destruct (status_of a1 =? 0); [constructor; [apply hdr_word|constructor]|constructor].
Qed.

(** Rainbow draws its picture: afterwards the pixel in column [x] of row [y]
    of the frame buffer has red [x], green [y] and blue [x + y] (modulo 256), and
    nothing but the frame buffer and the driver's own pages changed. *)
Theorem rainbow_draws n fuel g d (h : H) :
  gpu_inv (Datatypes.S (Datatypes.S n)) g d h -> (gpu_patience <= fuel)%nat ->
  0 <= gpu_width g < 4294967296 -> 0 <= gpu_height g < 4294967296 -> gpu_width g * gpu_height g <= 1073741824 ->
  gpu_width g + gpu_height g <= 4294967296 ->
  let fb := dma_vpn (frame_buffer_dma g) * 4096 in
  let size := 4 * (gpu_width g * gpu_height g) in
  0 <= dma_vpn (frame_buffer_dma g) -> (dma_vpn (frame_buffer_dma g) + 1) * 4096 <= 18446744073709551616 ->
  (forall a, fb <= a < fb + size -> live h a /\ ~ gpu_pages g a) ->
  exists g' d' h', rainbow fuel (g, (d, h)) = Ret (tt, (g', (d', h'))) /\ gpu_inv n g' d' h' /\
    (forall x y, 0 <= x < gpu_width g -> 0 <= y < gpu_height g ->
       load32 (w_mem h') (fb + 4 * (y * gpu_width g + x)) = pixel x y) /\
    (forall a, ~ gpu_pages g a -> ~ (fb <= a < fb + size) -> w_mem h' a = w_mem h a).
Proof.
  intros Hinv Hf Hw Hh Hwh Hsum fb size Hv0 Hv1 Hfb.
  destruct (rainbow_rows_ok (Z.to_nat (gpu_height g)) fb (gpu_width g) 0 (w_mem h)) as [R1 R2]; [lia..|].
  rewrite Z2Nat.id, Z.add_0_l in R1, R2 by lia. set (m1 := rainbow_rows _ _ _ _ _) in *.
  assert (forall x, ~ (live h x /\ ~ gpu_pages g x) -> m1 x = w_mem h x) as Hm1.
  { intros x Hx. apply R2. intros Hin. apply Hx, Hfb. unfold size. lia. }
  pose proof (gpu_inv_set _ g d h m1 Hinv Hm1) as Hi1.
  pose proof (flush_ok n fuel g d (w_set m1 h) Hi1 Hf) as Hfl.
  destruct (exec (flush_transfer g) (screen d)) as [a1 s1]. destruct Hfl as (g' & d' & h' & E & C).
  exists g', d', h'. split.
  { unfold rainbow. do 2 mstep. cbn [fst snd]. change (w_mem (d, h)) with (w_mem h).
    rewrite PAGE_2_ADDR_page by lia. fold fb m1. change (w_set m1 (d, h)) with (d, w_set m1 h).
    by rewrite (bind_ret_l _ _ _ _ _ E). }
  split; [apply C|]. split.
  - intros x y Hx Hy. rewrite <- (R1 y x) by lia. apply load_le_ext. intros a Ha.
    rewrite (cm_mem _ _ _ _ _ _ _ _ C), w_mem_set; [done|]. apply Hfb. unfold size. nia.
  - intros a Hp Ha. rewrite (cm_mem _ _ _ _ _ _ _ _ C), w_mem_set by done. apply R2. unfold size in Ha. lia.
Qed.
End Props.

(** ** A GPU that records its commands *)
Record gdev := mkGdev { gd_rings : option (Z * Z * Z); gd_seen : Z; gd_log : list (list Z) }.

Definition ok_answer : list Z := le 4 (hdr_code OK_NODATA) ++ replicate 44 0.
Definition gd_exec (c : list Z) (s : list (list Z)) : list Z * list (list Z) := (ok_answer, s ++ [c]).
Definition copy_list (m : mem) (a n : Z) (l : list Z) : mem := fun x =>
  if (a <=? x) && (x <? a + n) then default (m x) (l !! Z.to_nat (x - a)) else m x.

Definition gd_step (d : gdev) (h : ram) : gdev * mem :=
  match gd_rings d with
  | Some (pd, pa, pu) =>
      let m := ram_mem h in
      let head := load16 m (avail_ring_at pa (gd_seen d mod 16)) in
      match rd_chain m pd head with
      | Some [d0; d1] =>
          let '(ans, s') := gd_exec (bytes_of m (d_addr d0) (d_len d0)) (gd_log d) in
          (mkGdev (gd_rings d) (u16 (gd_seen d + 1)) s',
           rd_used (copy_list m (d_addr d1) (d_len d1) ans) pu (gd_seen d) head)
      | _ => (d, m)
      end
  | None => (d, ram_mem h)
  end.

#[global] Instance gdev_device : Device gdev ram :=
  {| dev_read _ d := (0, d); dev_write _ _ d := d; dev_step := gd_step |}.

#[global] Instance gdev_gpu : GpuDevice gdev ram (list (list Z)).
Proof.
  refine {| gpu_base := RD_BASE; gpu_rings := gd_rings; gpu_seen := gd_seen; screen := gd_log; exec := gd_exec;
            gpu_awake _ := True; gpu_delay _ := 0%nat; gpu_patience := 1 |}; try done.
  - intros _. lia.
  - intros c s. vm_compute. lia.
  - intros d h dt av us c Hok [(pd & pa & pu & Er & ->%ram_phys & ->%ram_phys & ->%ram_phys) Hidx Hhead Hrange Hch _] Hsep _ _.
    destruct Hch as (d0 & d1 & Hch & L0 & _ & P0%ram_phys & L1 & _ & P1%ram_phys).
    pose proof (rd_chain_ok h dt dt _ _ eq_refl Hch) as Ech. change (w_mem h) with (ram_mem h) in *.
    eexists _, _. unfold dev_step. cbn [gdev_device]. unfold gd_step. rewrite Er, Hhead, Ech. split; [reflexivity|].
    cbn [gd_rings gd_seen gd_log]. split; [done|]. split; [done|]. rewrite L0, L1, P0, P1.
    set (m1 := copy_list (ram_mem h) (gc_out c) (gc_nout c) ok_answer).
    destruct (rd_used_fields m1 us (gd_seen d) (gc_head c) Hrange) as (F1 & F2 & F3). split.
    + intros x Hu Ho. rewrite rd_used_frame by done. unfold m1, copy_list.
      destruct (Z.leb_spec (gc_out c) x), (Z.ltb_spec x (gc_out c + gc_nout c)); cbn; try done. lia.
    + done.
    + done.
    + by right.
    + done.
    + intros j b Hj Hb. unfold gpu_separate in Hsep. rewrite rd_used_frame by lia. unfold m1, copy_list.
      replace ((gc_out c <=? gc_out c + Z.of_nat j) && (gc_out c + Z.of_nat j <? gc_out c + gc_nout c)) with true
        by (symmetry; zcases; done).
      replace (Z.to_nat (gc_out c + Z.of_nat j - gc_out c)) with j by lia. change (ok_answer !! j = Some b) in Hb. by rewrite Hb.
Defined.

(** The control queue in pages 100 and 101, the buffers in pages 110 and 111, a
    screen of 4 by 3 pixels in page 120. *)
Definition gpu0 : VirtIOGPU :=
  mkGpu RD_BASE 48 0 0 4 3 (mkDma 120 120 1) (mkDma 0 0 0)
    (mkQueue 0 0 0 409600 409856 413696 (linked 15) 0 0 false false (replicate 16 0) (replicate 16 0)
      (LegacyLayout 256 4096))
    queue0 (mkDma 110 110 2) 450560 454656.
Definition gdev0 : gdev := mkGdev (Some (409600, 409856, 413696)) 0 [].

Lemma ram1_live x : x < 819200 -> live ram1 x.
Proof.
  intros Hx. unfold live; cbn. unfold ram_free, ram_free_page; cbn. intros [?%elem_of_nil|?]; [done|dlia].
Qed.

Lemma gpu0_at : queue_at (control_queue gpu0) 100 101.
Proof. split; cbn; lia. Qed.
Lemma gpu0_queue_pages x : queue_pages (control_queue gpu0) x <-> 409600 <= x < 417792.
Proof. rewrite (queue_at_pages _ _ _ _ gpu0_at). unfold in_pages. lia. Qed.

Lemma gpu0_inv n : Z.of_nat n < 65536 -> gpu_inv n gpu0 gdev0 ram1.
Proof.
  intros Hn. split; try done.
  - exists (seqZ 0 16). split; [by apply linked_inv|done].
  - by exists 100, 101; apply gpu0_at.
  - exists 409600, 409856, 413696. split; [done|].
    split; [|split]; [exists 100, 100|exists 100, 100|exists 101, 101];
      (split; [split; cbn; lia|split; [unfold in_pages; cbn; lia|cbn; lia]]).
  - apply ram1_ok.
  - intros x Hx%gpu0_queue_pages. apply ram1_live. lia.
  - exists 110. do 2 (split; [done|]). do 2 (split; [split; cbn; lia|]). do 2 (split; [lia|]).
    intros x Hx. unfold in_pages in Hx. split; [apply ram1_live; lia|]. rewrite gpu0_queue_pages. lia.
Qed.

Lemma flush_only_transfers_witness :
  exists g' d' h', flush 5 (gpu0, (gdev0, ram1)) = Ret (0, (g', (d', h'))) /\
    first_word <$> gd_log d' = [261; 261].
Proof.
  destruct (flush_only_transfers 0 5 gpu0 gdev0 ram1) as [(g' & d' & h' & E & C) _].
  - apply gpu0_inv. lia.
  - cbn. lia.
  - exists g', d', h'. split; [exact E|].
    assert (gd_log d' = [flush_transfer gpu0; flush_second gpu0]) as ->
      by exact (cm_screen _ _ _ _ _ _ _ _ C). vm_compute. reflexivity.
Defined.

Lemma rainbow_draws_witness :
  exists g' d' h', rainbow 5 (gpu0, (gdev0, ram1)) = Ret (tt, (g', (d', h'))) /\
    load32 (w_mem h') (491520 + 4 * (2 * 4 + 3)) = pixel 3 2.
Proof.
  destruct (rainbow_draws 0 5 gpu0 gdev0 ram1) as (g' & d' & h' & E & _ & Hp & _).
  - apply gpu0_inv. lia.
  - cbn. lia.
  - cbn. lia.
  - cbn. lia.
  - cbn. lia.
  - cbn. lia.
  - cbn. lia.
  - cbn. lia.
  - intros a Ha. cbn in Ha. split; [apply ram1_live; lia|]. unfold gpu_pages. rewrite gpu0_queue_pages. cbn. lia.
  - exists g', d', h'. split; [exact E|]. exact (Hp 3 2 ltac:(cbn; lia) ltac:(cbn; lia)).
Defined.
