(* ===== verification/Fdt.v ===== *)
(** * The device tree (kernel/fdt.c, fdt.h, machine_spec.h)

    parse_dtb reads the flattened device tree the firmware left in memory and
    fills the global variables that describe the machine.  It is a state machine
    over the 32-bit words of the structure block: [pda] is its state between two
    words, [step] what it does with one word. *)
From S2P Require Import Prelude Mem CString.
Import CString.

Module Fdt.

Definition ntohl (fdt : Z) : Z :=
  Z.lor (Z.lor (Z.lor (Z.shiftr fdt 24)
    (u32 (Z.shiftl (Z.land (Z.shiftr fdt 16) 255) 8)))
    (u32 (Z.shiftl (Z.land (Z.shiftr fdt 8) 255) 16)))
    (u32 (Z.shiftl (Z.land fdt 255) 24)).

Definition ntohll (fdt : Z) : Z :=
  Z.lor (Z.lor (Z.lor (Z.lor (Z.lor (Z.lor (Z.lor (Z.shiftr fdt 56)
    (u64 (Z.shiftl (Z.land (Z.shiftr fdt 48) 255) 8)))
    (u64 (Z.shiftl (Z.land (Z.shiftr fdt 40) 255) 16)))
    (u64 (Z.shiftl (Z.land (Z.shiftr fdt 32) 255) 24)))
    (u64 (Z.shiftl (Z.land (Z.shiftr fdt 24) 255) 32)))
    (u64 (Z.shiftl (Z.land (Z.shiftr fdt 16) 255) 40)))
    (u64 (Z.shiftl (Z.land (Z.shiftr fdt 8) 255) 48)))
    (u64 (Z.shiftl (Z.land fdt 255) 56)).

Definition FDT_BEGIN_NODE : Z := 1.
Definition FDT_END_NODE : Z := 2.
Definition FDT_PROP : Z := 3.
Definition FDT_NOP : Z := 4.
Definition FDT_END : Z := 9.

(** Offsets in struct fdt_header. *)
Definition off_dt_struct : Z := 8.
Definition off_dt_strings : Z := 12.
Definition size_dt_struct : Z := 36.

Definition MAX_VIRTIO_MMIO : Z := 64.

(** The global variables of machine_spec.h. *)
Record machine_spec := mkSpec {
  max_pfn : Z;
  clock_freq : Z;
  nCPU : Z;
  num_virtio_mmio : Z;
  virtio_mmio_headers : list Z;
}.
Definition set_max_pfn (v : Z) (g : machine_spec) :=
  mkSpec v (clock_freq g) (nCPU g) (num_virtio_mmio g) (virtio_mmio_headers g).
Definition set_clock_freq (v : Z) (g : machine_spec) :=
  mkSpec (max_pfn g) v (nCPU g) (num_virtio_mmio g) (virtio_mmio_headers g).
Definition set_nCPU (v : Z) (g : machine_spec) :=
  mkSpec (max_pfn g) (clock_freq g) v (num_virtio_mmio g) (virtio_mmio_headers g).
(** [virtio_mmio_headers[num_virtio_mmio++] = v] *)
Definition add_virtio (v : Z) (g : machine_spec) : outcome machine_spec :=
  if num_virtio_mmio g <? MAX_VIRTIO_MMIO then
    Ret (mkSpec (max_pfn g) (clock_freq g) (nCPU g) (u64 (num_virtio_mmio g + 1))
           (<[Z.to_nat (num_virtio_mmio g) := v]> (virtio_mmio_headers g)))
  else Fault.

Inductive pda_state := initial | nodename | nodeprop | proplen | propoff | propval.

(** The local variables; an element of level_names that was never assigned is
    [None]. *)
Record pda := mkPda {
  state : pda_state;
  indent : Z;
  prop_l : Z;
  level_names : list (option Z);
}.
Definition goto (st : pda_state) (p : pda) := mkPda st (indent p) (prop_l p) (level_names p).
Definition set_prop_l (v : Z) (p : pda) := mkPda (state p) (indent p) v (level_names p).
Definition set_indent (v : Z) (p : pda) := mkPda (state p) v (prop_l p) (level_names p).

(** Where the string literals of parse_dtb are. *)
Record literals := mkLits {
  lit_memory : Z;     (* "memory@" *)
  lit_reg : Z;        (* "reg" *)
  lit_cpus : Z;       (* "cpus" *)
  lit_cpu_map : Z;    (* "cpu-map" *)
  lit_cpu : Z;        (* "cpu" *)
  lit_timebase : Z;   (* "timebase-frequency" *)
  lit_soc : Z;        (* "soc" *)
  lit_virtio : Z;     (* "virtio_mmio@" *)
}.

Section Parse.
Context (m : mem) (L : literals).

(** [a && b] where both sides may fault. *)
Definition and_also (a : outcome bool) (b : unit -> outcome bool) : outcome bool :=
  x ← a; if x : bool then b tt else Ret false.

(** [strcmp(a, lit) == 0]: no literal has more than 18 characters, so the
    comparison ends within 19 iterations. *)
Definition streq (a lit : Z) : outcome bool := r ← strcmp 20 m a lit; Ret (r =? 0).
Definition prefix_eq (a lit n : Z) : outcome bool := Ret (strncmp m a lit n =? 0).

Definition level_name (p : pda) (i : nat) : outcome Z := of_option (mjoin (level_names p !! i)).

(** The name of a new node starts at the next word. *)
Definition begin_node (at_ : Z) (p : pda) : outcome pda :=
  if indent p <? 8 then
    Ret (mkPda nodename (u32 (indent p + 1)) (prop_l p) (<[Z.to_nat (indent p) := Some at_]> (level_names p)))
  else Fault.

(** The four properties the kernel looks for; [val] is the address of the value. *)
Definition find_memory (p : pda) (prop_name val : Z) (g : machine_spec) : outcome machine_spec :=
  hit ← and_also (and_also (Ret (indent p =? 2))
    (fun _ => n ← level_name p 1; prefix_eq n (lit_memory L) 7))
    (fun _ => streq prop_name (lit_reg L));
  if hit : bool then
    let begin := ntohll (load64 m val) in
    let size := ntohll (load64 m (u64 (val + 8))) in
    Ret (set_max_pfn (ADDR_2_PAGE (u64 (begin + size))) g)
  else Ret g.

Definition find_cpu (p : pda) (prop_name : Z) (g : machine_spec) : outcome machine_spec :=
  hit ← and_also (and_also (and_also (Ret (2 <? indent p))
    (fun _ => n ← level_name p 1; streq n (lit_cpus L)))
    (fun _ => n ← level_name p 2; streq n (lit_cpu_map L)))
    (fun _ => streq prop_name (lit_cpu L));
  Ret (if hit : bool then set_nCPU (u64 (nCPU g + 1)) g else g).

Definition find_timebase (p : pda) (prop_name val : Z) (g : machine_spec) : outcome machine_spec :=
  hit ← and_also (and_also (Ret (indent p =? 2))
    (fun _ => n ← level_name p 1; streq n (lit_cpus L)))
    (fun _ => streq prop_name (lit_timebase L));
  Ret (if hit : bool then set_clock_freq (ntohl (load32 m val)) g else g).

Definition find_virtio (p : pda) (prop_name val : Z) (g : machine_spec) : outcome machine_spec :=
  hit ← and_also (and_also (and_also (Ret (indent p =? 3))
    (fun _ => n ← level_name p 1; streq n (lit_soc L)))
    (fun _ => n ← level_name p 2; prefix_eq n (lit_virtio L) 12))
    (fun _ => streq prop_name (lit_reg L));
  if hit : bool then add_virtio (ntohll (load64 m val)) g else Ret g.

(** [name[j] == 0] for one of the four bytes of [*(u32 * )name = w]. *)
Definition has_nul (w : Z) : bool :=
  (Z.land w 255 =? 0) || (Z.land (Z.shiftr w 8) 255 =? 0) ||
  (Z.land (Z.shiftr w 16) 255 =? 0) || (Z.land (Z.shiftr w 24) 255 =? 0).

(** One iteration of the loop: the next state, or the value returned. *)
Definition step (name_block fdt_structs i : Z) (s : pda * machine_spec)
  : outcome ((pda * machine_spec) + (Z * machine_spec)) :=
  let '(p, g) := s in
  let input := ntohl (load32 m (u64 (fdt_structs + 4 * i))) in
  let next := u64 (fdt_structs + 4 * (i + 1)) in
  match state p with
  | initial =>
      if input =? FDT_NOP then Ret (inl s)
      else if input =? FDT_BEGIN_NODE then p' ← begin_node next p; Ret (inl (p', g))
      else Ret (inr (-1, g))
  | nodename =>
      Ret (inl (if has_nul (ntohl input) then goto nodeprop p else p, g))
  | nodeprop =>
      if input =? FDT_NOP then Ret (inl s)
      else if input =? FDT_PROP then Ret (inl (goto proplen p, g))
      else if input =? FDT_BEGIN_NODE then p' ← begin_node next p; Ret (inl (p', g))
      else if input =? FDT_END_NODE then Ret (inl (set_indent (u32 (indent p - 1)) p, g))
      else if input =? FDT_END then Ret (inr (if negb (indent p =? 0) then -1 else 0, g))
      else Ret (inr (-1, g))
  | proplen => Ret (inl (goto propoff (set_prop_l (i32 input) p), g))
  | propoff =>
      let prop_name := u64 (name_block + input) in
      g1 ← find_memory p prop_name next g;
      g2 ← find_cpu p prop_name g1;
      g3 ← find_timebase p prop_name next g2;
      g4 ← find_virtio p prop_name next g3;
      Ret (inl (goto (if negb (prop_l p =? 0) then propval else nodeprop) p, g4))
  | propval =>
      let p' := set_prop_l (i32 (prop_l p - 4)) p in
      Ret (inl (if prop_l p' <=? 0 then goto nodeprop p' else p', g))
  end.

(** [n] more words from word [i] on. *)
Fixpoint parse_loop (n : nat) (name_block fdt_structs i : Z) (s : pda * machine_spec)
  : outcome (Z * machine_spec) :=
  match n with
  | O => Ret (0, snd s)
  | S k =>
      r ← step name_block fdt_structs i s;
      match r with
      | inl s' => parse_loop k name_block fdt_structs (i + 1) s'
      | inr res => Ret res
      end
  end.

Definition parse_dtb (dtb : Z) (g : machine_spec) : outcome (Z * machine_spec) :=
  let name_block := u64 (dtb + ntohl (load32 m (dtb + off_dt_strings))) in
  let fdt_structs := u64 (dtb + ntohl (load32 m (dtb + off_dt_struct))) in
  let words := ntohl (load32 m (dtb + size_dt_struct)) / 4 in
  parse_loop (Z.to_nat words) name_block fdt_structs 0
    (mkPda initial 0 0 (replicate 8 None), g).

End Parse.
End Fdt.
