(* ===== verification/FdtSpec.v ===== *)
(** * Device trees and their flattened form

    A device tree as a tree, its encoding as the structure block of a blob (the
    devicetree specification), and the traversal that collects what the kernel
    looks for.  parse_dtb is related to them in FdtProps.v. *)
From Stdlib Require Import String Ascii.
From S2P Require Import Prelude Mem CString CStringProps Fdt.
Import CString Fdt.

(** ** Byte order *)
Definition be_val (l : list Z) : Z := foldl (fun acc b => acc * 256 + b) 0 l.
Definition be32 (v : Z) : list Z := [v / 16777216 mod 256; v / 65536 mod 256; v / 256 mod 256; v mod 256].
Definition byte (b : Z) : Prop := 0 <= b < 256.

Lemma land_255 x : Z.land x 255 = x mod 256.
Proof. change 255 with (Z.ones 8). by rewrite Z.land_ones. Qed.

(** A field [b] shifted by [k] above the lower part [lo]. *)
Lemma lor_field lo b k : 0 <= k -> 0 <= lo < 2 ^ k -> Z.lor lo (b * 2 ^ k) = lo + b * 2 ^ k.
Proof. intros Hk Hlo. rewrite Z.lor_comm, lor_shift_add by done. lia. Qed.

(** [x >> k & 0xff] of a number given by its digits to base 256. *)
Lemma digit_0 b r : byte b -> Z.land (b + 256 * r) 255 = b.
Proof. unfold byte. intros Hb. rewrite land_255. dlia. Qed.
Lemma digit_S b r k : byte b -> 0 <= k -> Z.shiftr (b + 256 * r) (8 + k) = Z.shiftr r k.
Proof.
  unfold byte. intros Hb Hk. rewrite <- Z.shiftr_shiftr by lia. f_equal.
  rewrite Z.shiftr_div_pow2 by lia. change (2 ^ 8) with 256. dlia.
Qed.

Ltac digits := repeat first
  [ rewrite digit_0 by done
  | match goal with |- context [Z.shiftr (?b + 256 * ?r) ?n] =>
      let k := eval vm_compute in (n - 8) in
      change n with (8 + k); rewrite (digit_S b r k) by (done || lia)
    end
  | rewrite Z.shiftr_0_r ].

Lemma ntohl_bytes b0 b1 b2 b3 : byte b0 -> byte b1 -> byte b2 -> byte b3 ->
  ntohl (b0 + 256 * (b1 + 256 * (b2 + 256 * (b3 + 256 * 0)))) = be_val [b0; b1; b2; b3].
Proof.
  intros H0 H1 H2 H3. unfold ntohl. digits. unfold byte in *.
  rewrite !Z.shiftl_mul_pow2 by lia. rewrite !u32_small by lia.
  rewrite (lor_field _ b2 8) by lia. rewrite (lor_field _ b1 16) by lia. rewrite (lor_field _ b0 24) by lia.
  cbn. lia.
Qed.

Lemma ntohll_bytes b0 b1 b2 b3 b4 b5 b6 b7 :
  byte b0 -> byte b1 -> byte b2 -> byte b3 -> byte b4 -> byte b5 -> byte b6 -> byte b7 ->
  ntohll (b0 + 256 * (b1 + 256 * (b2 + 256 * (b3 + 256 *
    (b4 + 256 * (b5 + 256 * (b6 + 256 * (b7 + 256 * 0)))))))) = be_val [b0; b1; b2; b3; b4; b5; b6; b7].
Proof.
  intros H0 H1 H2 H3 H4 H5 H6 H7. unfold ntohll. digits. unfold byte in *.
  rewrite !Z.shiftl_mul_pow2 by lia. rewrite !u64_small by lia.
  rewrite (lor_field _ b6 8) by lia. rewrite (lor_field _ b5 16) by lia. rewrite (lor_field _ b4 24) by lia.
  rewrite (lor_field _ b3 32) by lia. rewrite (lor_field _ b2 40) by lia. rewrite (lor_field _ b1 48) by lia.
  rewrite (lor_field _ b0 56) by lia. cbn. lia.
Qed.

(** Words and double words of memory, given its bytes. *)
Lemma ntohl_load m a b0 b1 b2 b3 : Forall byte [b0; b1; b2; b3] -> bytes_at m a [b0; b1; b2; b3] ->
  ntohl (load32 m a) = be_val [b0; b1; b2; b3].
Proof.
  intros Hb He. rewrite (load32_bytes _ _ _ _ _ _ He). repeat (apply Forall_cons in Hb as [? Hb]).
  by apply ntohl_bytes.
Qed.

Lemma ntohll_load m a l : length l = 8%nat -> Forall byte l -> bytes_at m a l ->
  ntohll (load64 m a) = be_val l.
Proof.
  intros Hl Hb He. do 8 (destruct l as [|? l]; [done|]). destruct l; [|done].
  rewrite !bytes_at_cons in He. destruct He as (E0 & E1 & E2 & E3 & E4 & E5 & E6 & E7 & _).
  unfold load64. cbn [load_le]. rewrite E0, E1, E2, E3, E4, E5, E6, E7.
  repeat (apply Forall_cons in Hb as [? Hb]). by apply ntohll_bytes.
Qed.

Lemma be32_bytes v : Forall byte (be32 v).
Proof. unfold be32, byte. repeat constructor; dlia. Qed.

Lemma be32_val v : 0 <= v < 4294967296 -> be_val (be32 v) = v.
Proof. intros Hv. unfold be32. cbn. dlia. Qed.

Lemma word_at m a v : 0 <= v < 4294967296 -> bytes_at m a (be32 v) -> ntohl (load32 m a) = v.
Proof.
  intros Hv He. etrans; [|by apply be32_val]. apply ntohl_load; [apply be32_bytes|done].
Qed.

(** ** Trees *)
Record prop := mkProp { p_name : list Z; p_val : list Z }.
Inductive node := Node (name : list Z) (props : list prop) (children : list node).

Section Ind.
Context (P : node -> Prop).
Hypothesis Hnode : forall name props children, Forall P children -> P (Node name props children).
Fixpoint node_ind' (t : node) : P t :=
  match t with
  | Node name props children =>
      Hnode name props children
        ((fix go (l : list node) : Forall P l :=
            match l with [] => Forall_nil_2 P | t :: l' => Forall_cons_2 P t l' (node_ind' t) (go l') end) children)
  end.
End Ind.

(** ** The structure block *)
Definition pad (l : list Z) : list Z := l ++ replicate ((4 - length l mod 4) mod 4) 0.

Section Encode.
(** Where a property name is in the strings block. *)
Context (off : list Z -> Z).

Definition prop_bytes (p : prop) : list Z :=
  be32 FDT_PROP ++ be32 (Z.of_nat (length (p_val p))) ++ be32 (off (p_name p)) ++ pad (p_val p).

Fixpoint node_bytes (t : node) : list Z :=
  match t with
  | Node name props children =>
      be32 FDT_BEGIN_NODE ++ pad (name ++ [0]) ++ mjoin (prop_bytes <$> props) ++
      mjoin (node_bytes <$> children) ++ be32 FDT_END_NODE
  end.

Definition struct_block (root : node) : list Z := node_bytes root ++ be32 FDT_END.
End Encode.

(** ** What the kernel looks for *)
Definition str (s : string) : list Z := (fun c => Z.of_N (N_of_ascii c)) <$> list_ascii_of_string s.
Definition is_str (l : option (list Z)) (s : string) : bool := bool_decide (l = Some (str s)).
Definition starts_with (l : option (list Z)) (s : string) : bool :=
  match l with Some l => bool_decide (take (length (str s)) l = str s) | None => false end.

(** The effect of a property of the node at [path] (the names from the root to
    the node); [None] if its value is shorter than what the parser reads. *)
Definition is_memory (path : list (list Z)) (p : prop) : bool :=
  bool_decide (length path = 2%nat) && starts_with (path !! 1%nat) "memory@" && is_str (Some (p_name p)) "reg".
Definition is_cpu (path : list (list Z)) (p : prop) : bool :=
  bool_decide (2 < length path)%nat && is_str (path !! 1%nat) "cpus" && is_str (path !! 2%nat) "cpu-map" &&
  is_str (Some (p_name p)) "cpu".
Definition is_timebase (path : list (list Z)) (p : prop) : bool :=
  bool_decide (length path = 2%nat) && is_str (path !! 1%nat) "cpus" && is_str (Some (p_name p)) "timebase-frequency".
Definition is_virtio (path : list (list Z)) (p : prop) : bool :=
  bool_decide (length path = 3%nat) && is_str (path !! 1%nat) "soc" && starts_with (path !! 2%nat) "virtio_mmio@" &&
  is_str (Some (p_name p)) "reg".

Definition need (n : nat) (v : list Z) (g : machine_spec) : option machine_spec :=
  if decide (n <= length v)%nat then Some g else None.

Definition visit (path : list (list Z)) (p : prop) (g : machine_spec) : option machine_spec :=
  let v := p_val p in
  g ← (if is_memory path p
       then need 16 v (set_max_pfn (u64 (be_val (take 8 v) + be_val (take 8 (drop 8 v))) / 4096) g)
       else Some g);
  let g := if is_cpu path p then set_nCPU (u64 (nCPU g + 1)) g else g in
  g ← (if is_timebase path p then need 4 v (set_clock_freq (be_val (take 4 v)) g) else Some g);
  if is_virtio path p
  then need 8 v g ≫= (fun g => match add_virtio (be_val (take 8 v)) g with Ret g' => Some g' | _ => None end)
  else Some g.

Definition ofold {A G} (f : A -> G -> option G) : list A -> G -> option G :=
  fix go l g := match l with [] => Some g | x :: l' => g' ← f x g; go l' g' end.

(** The traversal of the tree; [None] also for a node below eight others. *)
Fixpoint collect (path : list (list Z)) (t : node) (g : machine_spec) : option machine_spec :=
  match t with
  | Node name props children =>
      if decide (length path < 8)%nat then
        g' ← ofold (visit (path ++ [name])) props g;
        ofold (collect (path ++ [name])) children g'
      else None
  end.
