(* ===== verification/FdtRun.v ===== *)
(** * parse_dtb on a well-formed structure block

    The state machine of fdt.c run over the encoding of a tree: every node,
    property and value takes it through a known number of words. *)
From Stdlib Require Import String Ascii.
From S2P Require Import Prelude Mem CString CStringProps Fdt FdtSpec.
Import CString Fdt.

(** ** Words without and with a zero byte *)
Lemma be_val_digits b0 b1 b2 b3 :
  be_val [b0; b1; b2; b3] = b3 + 256 * (b2 + 256 * (b1 + 256 * (b0 + 256 * 0))).
Proof. cbn. lia. Qed.

Lemma has_nul_word m a b0 b1 b2 b3 : Forall byte [b0; b1; b2; b3] -> bytes_at m a [b0; b1; b2; b3] ->
  has_nul (ntohl (ntohl (load32 m a))) = (b0 =? 0) || (b1 =? 0) || (b2 =? 0) || (b3 =? 0).
Proof.
  intros Hb He. rewrite (ntohl_load _ _ _ _ _ _ Hb He). repeat (apply Forall_cons in Hb as [? Hb]).
  rewrite be_val_digits, ntohl_bytes, be_val_digits by done. unfold has_nul. by digits.
Qed.

Lemma pad_4 a b c d l : pad (a :: b :: c :: d :: l) = a :: b :: c :: d :: pad l.
Proof.
  unfold pad. cbn [length app]. do 4 f_equal.
  replace (S (S (S (S (length l)))) mod 4)%nat with (length l mod 4)%nat; [done|].
  replace (S (S (S (S (length l))))) with (length l + 1 * 4)%nat by lia. by rewrite Nat.Div0.mod_add.
Qed.

Lemma pad_length l : length (pad l) = (4 * ((length l + 3) / 4))%nat.
Proof.
  unfold pad. rewrite length_app, length_replicate.
  pose proof (Nat.div_mod_eq (length l) 4) as E. pose proof (Nat.mod_upper_bound (length l) 4 ltac:(done)) as Hr.
  set (r := (length l mod 4)%nat) in *. set (k := (length l / 4)%nat) in *. rewrite E.
  replace (4 * k + r + 3)%nat with (r + 3 + k * 4)%nat by lia. rewrite Nat.div_add by done.
  do 4 (destruct r as [|r]; [cbn; lia|]). lia.
Qed.

Section Run.
Context (m : mem) (L : literals) (nb fs : Z) (off : list Z -> Z).

(** The strings the parser compares with. *)
Record lits_ok : Prop := {
  lk_memory : cstr m (lit_memory L) (str "memory@");
  lk_reg : cstr m (lit_reg L) (str "reg");
  lk_cpus : cstr m (lit_cpus L) (str "cpus");
  lk_cpu_map : cstr m (lit_cpu_map L) (str "cpu-map");
  lk_cpu : cstr m (lit_cpu L) (str "cpu");
  lk_timebase : cstr m (lit_timebase L) (str "timebase-frequency");
  lk_soc : cstr m (lit_soc L) (str "soc");
  lk_virtio : cstr m (lit_virtio L) (str "virtio_mmio@");
}.

(** The names are C strings, the values bytes. *)
Definition prop_ok (p : prop) : Prop :=
  cstr m (nb + off (p_name p)) (p_name p) /\ 0 <= off (p_name p) < 4294967296 /\
  Forall byte (p_val p) /\ Z.of_nat (length (p_val p)) < 2147483648.
Fixpoint node_ok (t : node) : Prop :=
  match t with
  | Node name props children =>
      Forall (fun b => 0 < b < 256) name /\ Forall prop_ok props /\ foldr (fun c P => node_ok c /\ P) True children
  end.

Lemma node_ok_children children : foldr (fun c P => node_ok c /\ P) True children <-> Forall node_ok children.
Proof. induction children as [|c l IH]; cbn; [done|]. by rewrite Forall_cons, IH. Qed.

Hypothesis Hlits : lits_ok.
Hypothesis Hfs : 0 <= fs.
Hypothesis Hnb : 0 <= nb.

(** [n] words from word [i] on take the parser from [s] to [s']. *)
Definition reaches (i : Z) (n : nat) (s s' : pda * machine_spec) : Prop :=
  forall k, parse_loop m L (n + k) nb fs i s = parse_loop m L k nb fs (i + Z.of_nat n) s'.

Lemma reaches_refl i s : reaches i 0 s s.
Proof. intros k. cbn. by rewrite Z.add_0_r. Qed.
Lemma reaches_trans i n1 n2 s1 s2 s3 :
  reaches i n1 s1 s2 -> reaches (i + Z.of_nat n1) n2 s2 s3 -> reaches i (n1 + n2) s1 s3.
Proof.
  intros H1 H2 k. rewrite <- Nat.add_assoc, H1, H2. f_equal. lia.
Qed.
Lemma reaches_step i s s' : step m L nb fs i s = Ret (inl s') -> reaches i 1 s s'.
Proof. intros E k. cbn [Nat.add parse_loop]. by rewrite E. Qed.

(** The words from word [i] on. *)
Definition block_at (i : Z) (l : list Z) : Prop :=
  bytes_at m (fs + 4 * i) l /\ 0 <= i /\ fs + 4 * i + Z.of_nat (length l) < 18446744073709551616.

Lemma block_app i l1 l2 n : length l1 = (4 * n)%nat ->
  block_at i (l1 ++ l2) -> block_at i l1 /\ block_at (i + Z.of_nat n) l2.
Proof.
  intros Hl (Hb & Hi & Hr). apply bytes_at_app in Hb as [Hb1 Hb2]. rewrite length_app in Hr.
  split; (split; [|lia]); [done|]. by replace (fs + 4 * (i + Z.of_nat n)) with (fs + 4 * i + Z.of_nat (length l1)) by lia.
Qed.

Lemma block_word i v : 0 <= v < 4294967296 -> block_at i (be32 v) ->
  ntohl (load32 m (u64 (fs + 4 * i))) = v.
Proof using Hfs.
  intros Hv (Hb & Hi & Hr). cbn [length be32] in Hr. rewrite u64_small by lia. by apply word_at.
Qed.

(** ** Names of nodes *)
Lemma name_words n : forall name i p g,
  (length name < n)%nat -> Forall (fun b => 0 < b < 256) name -> block_at i (pad (name ++ [0])) -> state p = nodename ->
  reaches i (length name / 4 + 1) (p, g) (goto nodeprop p, g).
Proof using Hfs.
  induction n as [|n IH]; intros name i p g Hlen Hn Hb Hst; [lia|].
  assert (forall b0 b1 b2 b3, Forall byte [b0; b1; b2; b3] -> block_at i [b0; b1; b2; b3] ->
    reaches i 1 (p, g) (if (b0 =? 0) || (b1 =? 0) || (b2 =? 0) || (b3 =? 0) then goto nodeprop p else p, g)) as Hstep.
  { intros b0 b1 b2 b3 Hby (He & Hi & Hr). apply reaches_step. unfold step. rewrite Hst. cbn [length] in Hr.
    rewrite u64_small by lia. by rewrite (has_nul_word _ _ b0 b1 b2 b3). }
  destruct name as [|a [|b [|c [|d name]]]].
  - apply (Hstep 0 0 0 0); [repeat constructor; unfold byte; lia|done].
  - specialize (Hstep a 0 0 0). repeat (apply Forall_cons in Hn as [? Hn]).
    rewrite (proj2 (Z.eqb_neq a 0)) in Hstep by lia.
    apply Hstep; [repeat constructor; unfold byte; lia|done].
  - specialize (Hstep a b 0 0). repeat (apply Forall_cons in Hn as [? Hn]).
    rewrite (proj2 (Z.eqb_neq a 0)), (proj2 (Z.eqb_neq b 0)) in Hstep by lia.
    apply Hstep; [repeat constructor; unfold byte; lia|done].
  - specialize (Hstep a b c 0). repeat (apply Forall_cons in Hn as [? Hn]).
    rewrite (proj2 (Z.eqb_neq a 0)), (proj2 (Z.eqb_neq b 0)), (proj2 (Z.eqb_neq c 0)) in Hstep by lia.
    apply Hstep; [repeat constructor; unfold byte; lia|done].
  - specialize (Hstep a b c d). do 4 (apply Forall_cons in Hn as [? Hn]).
    rewrite (proj2 (Z.eqb_neq a 0)), (proj2 (Z.eqb_neq b 0)), (proj2 (Z.eqb_neq c 0)), (proj2 (Z.eqb_neq d 0)) in Hstep by lia.
    cbn [app] in Hb. rewrite pad_4 in Hb. apply (block_app i [a; b; c; d] _ 1) in Hb as [Hb1 Hb2]; [|done].
    cbn [length] in *. replace (S (S (S (S (length name)))) / 4 + 1)%nat with (1 + (length name / 4 + 1))%nat.
    2: { replace (S (S (S (S (length name))))) with (length name + 1 * 4)%nat by lia. rewrite Nat.div_add by lia. lia. }
    eapply reaches_trans; [apply Hstep; [repeat constructor; unfold byte; lia|done]|].
    apply IH; [lia|done|done|done].
Qed.

(** ** Values of properties *)
Lemma value_words n : forall i p g,
  (Z.to_nat (prop_l p) < n)%nat -> state p = propval -> 0 < prop_l p < 2147483648 ->
  exists l, reaches i (Z.to_nat ((prop_l p + 3) / 4)) (p, g) (goto nodeprop (set_prop_l l p), g).
Proof.
  induction n as [|n IH]; intros i p g Hn Hst Hl; [lia|].
  assert (step m L nb fs i (p, g) = Ret (inl (if prop_l p - 4 <=? 0 then goto nodeprop (set_prop_l (prop_l p - 4) p)
    else set_prop_l (prop_l p - 4) p, g))) as Es.
  { unfold step. rewrite Hst. cbn [prop_l set_prop_l]. by rewrite i32_small by lia. }
  destruct (Z.leb_spec (prop_l p - 4) 0) as [Hle|Hgt].
  - exists (prop_l p - 4). replace (Z.to_nat ((prop_l p + 3) / 4)) with 1%nat by dlia. by apply reaches_step.
  - destruct (IH (i + 1) (set_prop_l (prop_l p - 4) p) g) as [l Hr]; cbn [prop_l set_prop_l]; [lia|done|lia|].
    exists l. replace (Z.to_nat ((prop_l p + 3) / 4)) with (1 + Z.to_nat ((prop_l p - 4 + 3) / 4))%nat by dlia.
    eapply reaches_trans; [by apply reaches_step|exact Hr].
Qed.

(** ** The comparisons *)
Lemma streq_ok a lit l d : cstr m a l -> cstr m lit d -> (length d < 20)%nat ->
  streq m a lit = Ret (bool_decide (l = d)).
Proof.
  intros Hl Hd Hn. unfold streq. rewrite (strcmp_cmp 20 m a lit l d) by (done || lia). unfold mbind, outcome_bind.
  f_equal. apply eq_true_iff_eq. rewrite bool_decide_eq_true, Z.eqb_eq.
  apply list_cmp_0; [by eapply cs_char|by eapply cs_char].
Qed.

Lemma prefix_ok a lit l d n : cstr m a l -> cstr m lit d -> n = Z.of_nat (length d) ->
  prefix_eq m a lit n = Ret (bool_decide (take (length d) l = d)).
Proof.
  intros Hl Hd ->. unfold prefix_eq. f_equal. apply eq_true_iff_eq. rewrite bool_decide_eq_true, Z.eqb_eq.
  by apply strncmp_0.
Qed.

(** The names of the open nodes, from the root on. *)
Record levels (p : pda) (path : list (list Z)) : Prop := {
  lv_len : length (level_names p) = 8%nat;
  lv_indent : indent p = Z.of_nat (length path);
  lv_names : forall j n, path !! j = Some n -> exists a, level_names p !! j = Some (Some a) /\ cstr m a n;
}.

Lemma level_streq p path j s lit : levels p path -> (j < length path)%nat -> cstr m lit (str s) ->
  (length (str s) < 20)%nat -> (n ← level_name p j; streq m n lit) = Ret (is_str (path !! j) s).
Proof.
  intros Hlv Hj Hlit Hs. destruct (lookup_lt_is_Some_2 path j Hj) as [n Hn].
  destruct (lv_names _ _ Hlv j n Hn) as (a & Ha & Hc). unfold level_name. rewrite Ha.
  change (of_option (mjoin (Some (Some a)))) with (Ret a). unfold mbind, outcome_bind.
  rewrite (streq_ok a lit n (str s)) by done. unfold is_str. rewrite Hn. f_equal. apply bool_decide_ext. split; [by intros ->|by intros [= ->]].
Qed.

Lemma level_prefix p path j s lit n : levels p path -> (j < length path)%nat -> cstr m lit (str s) ->
  n = Z.of_nat (length (str s)) -> (a ← level_name p j; prefix_eq m a lit n) = Ret (starts_with (path !! j) s).
Proof.
  intros Hlv Hj Hlit Hs. destruct (lookup_lt_is_Some_2 path j Hj) as [l Hl].
  destruct (lv_names _ _ Hlv j l Hl) as (a & Ha & Hc). unfold level_name. rewrite Ha.
  change (of_option (mjoin (Some (Some a)))) with (Ret a). unfold mbind, outcome_bind.
  rewrite (prefix_ok a lit l (str s)) by done. unfold starts_with. by rewrite Hl.
Qed.

Lemma name_streq pr s lit : prop_ok pr -> cstr m lit (str s) -> (length (str s) < 20)%nat ->
  streq m (nb + off (p_name pr)) lit = Ret (is_str (Some (p_name pr)) s).
Proof.
  intros (Hc & _) Hl Hs. rewrite (streq_ok _ _ _ _ Hc Hl Hs). unfold is_str. f_equal. apply bool_decide_ext. split; [by intros ->|by intros [= ->]].
Qed.

Lemma and_also_ok a b (x : bool) (y : bool) : a = Ret x -> (x = true -> b tt = Ret y) -> and_also a b = Ret (x && y).
Proof. intros -> Hb. unfold and_also, mbind, outcome_bind. destruct x; [by apply Hb|done]. Qed.

(** ** The four properties *)
Section OneProp.
Context (p : pda) (path : list (list Z)) (pr : prop) (val : Z).
Hypothesis Hlv : levels p path.
Hypothesis Hpr : prop_ok pr.
Hypothesis Hval : bytes_at m val (p_val pr).
Hypothesis Hrange : 0 <= val /\ val + Z.of_nat (length (p_val pr)) < 18446744073709551616.

Lemma value_bytes k n : (k + n <= length (p_val pr))%nat ->
  Forall byte (take n (drop k (p_val pr))) /\ bytes_at m (val + Z.of_nat k) (take n (drop k (p_val pr))) /\
  length (take n (drop k (p_val pr))) = n.
Proof using All.
  intros Hn. destruct Hpr as (_ & _ & Hb & _). split; [by apply Forall_take, Forall_drop|]. split.
  - intros i x Hi. apply lookup_take_Some in Hi as [Hi _]. rewrite lookup_drop in Hi.
    rewrite <- (Hval _ _ Hi). f_equal. lia.
  - rewrite length_take, length_drop. lia.
Qed.

Lemma indent_eqb n : (indent p =? Z.of_nat n) = bool_decide (length path = n).
Proof using All.
  rewrite (lv_indent _ _ Hlv). apply eq_true_iff_eq. rewrite bool_decide_eq_true, Z.eqb_eq. lia.
Qed.

Lemma find_memory_ok g g' :
  (if is_memory path pr
   then need 16 (p_val pr) (set_max_pfn (u64 (be_val (take 8 (p_val pr)) + be_val (take 8 (drop 8 (p_val pr)))) / 4096) g)
   else Some g) = Some g' ->
  find_memory m L p (nb + off (p_name pr)) val g = Ret g'.
Proof using All.
  intros Hg. unfold find_memory.
  rewrite (and_also_ok _ _ (bool_decide (length path = 2%nat) && starts_with (path !! 1%nat) "memory@") (is_str (Some (p_name pr)) "reg")).
  - change (_ && _ && _) with (is_memory path pr). unfold mbind, outcome_bind.
    destruct (is_memory path pr); [|by injection Hg as ->].
    unfold need in Hg. case_decide as Hn; [|done]. injection Hg as <-.
    destruct (value_bytes 0 8 ltac:(lia)) as (B1 & B2 & B3). rewrite drop_0, Z.add_0_r in *.
    destruct (value_bytes 8 8 ltac:(lia)) as (C1 & C2 & C3).
    rewrite (ntohll_load m val _ B3 B1 B2). rewrite (u64_small (val + 8)) by lia.
    rewrite (ntohll_load m (val + 8) _ C3 C1 C2). do 2 f_equal. unfold ADDR_2_PAGE. by rewrite u64_small by apply u64_range.
  - apply and_also_ok; [f_equal; exact (indent_eqb 2)|]. intros Hd%bool_decide_eq_true.
    apply level_prefix; [done|lia|apply Hlits|done].
  - intros _. apply name_streq; [done|apply Hlits|by vm_compute; lia].
Qed.

Lemma find_cpu_ok g :
  find_cpu m L p (nb + off (p_name pr)) g = Ret (if is_cpu path pr then set_nCPU (u64 (nCPU g + 1)) g else g).
Proof using All.
  unfold find_cpu.
  rewrite (and_also_ok _ _ (bool_decide (2 < length path)%nat && is_str (path !! 1%nat) "cpus" && is_str (path !! 2%nat) "cpu-map")
    (is_str (Some (p_name pr)) "cpu")); [done|apply and_also_ok; [apply and_also_ok|]|].
  - f_equal. rewrite (lv_indent _ _ Hlv). apply eq_true_iff_eq. rewrite bool_decide_eq_true, Z.ltb_lt. lia.
  - intros Hd%bool_decide_eq_true. apply level_streq; [done|lia|apply Hlits|by vm_compute; lia].
  - intros [Hd%bool_decide_eq_true _]%andb_true_iff. apply level_streq; [done|lia|apply Hlits|by vm_compute; lia].
  - intros _. apply name_streq; [done|apply Hlits|by vm_compute; lia].
Qed.

Lemma find_timebase_ok g g' :
  (if is_timebase path pr then need 4 (p_val pr) (set_clock_freq (be_val (take 4 (p_val pr))) g) else Some g) = Some g' ->
  find_timebase m L p (nb + off (p_name pr)) val g = Ret g'.
Proof using All.
  intros Hg. unfold find_timebase.
  rewrite (and_also_ok _ _ (bool_decide (length path = 2%nat) && is_str (path !! 1%nat) "cpus") (is_str (Some (p_name pr)) "timebase-frequency")).
  - change (_ && _ && _) with (is_timebase path pr). unfold mbind, outcome_bind.
    destruct (is_timebase path pr); [|by injection Hg as ->].
    unfold need in Hg. case_decide as Hn; [|done]. injection Hg as <-.
    destruct (value_bytes 0 4 ltac:(lia)) as (B1 & B2 & B3). rewrite drop_0, Z.add_0_r in *.
    destruct (take 4 (p_val pr)) as [|b0 [|b1 [|b2 [|b3 [|]]]]]; try done. by rewrite (ntohl_load _ _ b0 b1 b2 b3).
  - apply and_also_ok; [f_equal; exact (indent_eqb 2)|]. intros Hd%bool_decide_eq_true.
    apply level_streq; [done|lia|apply Hlits|by vm_compute; lia].
  - intros _. apply name_streq; [done|apply Hlits|by vm_compute; lia].
Qed.

Lemma find_virtio_ok g g' :
  (if is_virtio path pr
   then need 8 (p_val pr) g ≫= (fun g => match add_virtio (be_val (take 8 (p_val pr))) g with Ret g' => Some g' | _ => None end)
   else Some g) = Some g' ->
  find_virtio m L p (nb + off (p_name pr)) val g = Ret g'.
Proof using All.
  intros Hg. unfold find_virtio.
  rewrite (and_also_ok _ _ (bool_decide (length path = 3%nat) && is_str (path !! 1%nat) "soc" && starts_with (path !! 2%nat) "virtio_mmio@")
    (is_str (Some (p_name pr)) "reg")).
  - change (_ && _ && _ && _) with (is_virtio path pr). unfold mbind, outcome_bind.
    destruct (is_virtio path pr); [|by injection Hg as ->].
    unfold need in Hg. case_decide as Hn; [|done]. cbn in Hg.
    destruct (value_bytes 0 8 ltac:(lia)) as (B1 & B2 & B3). rewrite drop_0, Z.add_0_r in *.
    rewrite (ntohll_load m val _ B3 B1 B2). destruct (add_virtio _ g); [by injection Hg as ->|done..].
  - apply and_also_ok; [apply and_also_ok; [f_equal; exact (indent_eqb 3)|]|].
    + intros Hd%bool_decide_eq_true. apply level_streq; [done|lia|apply Hlits|by vm_compute; lia].
    + intros [Hd%bool_decide_eq_true _]%andb_true_iff. apply level_prefix; [done|lia|apply Hlits|done].
  - intros _. apply name_streq; [done|apply Hlits|by vm_compute; lia].
Qed.

Lemma visit_run g g' : visit path pr g = Some g' ->
  (g1 ← find_memory m L p (nb + off (p_name pr)) val g;
   g2 ← find_cpu m L p (nb + off (p_name pr)) g1;
   g3 ← find_timebase m L p (nb + off (p_name pr)) val g2;
   find_virtio m L p (nb + off (p_name pr)) val g3) = Ret g'.
Proof using All.
  intros Hv. unfold visit in Hv. apply bind_Some in Hv as (g1 & Hg1 & Hv). apply bind_Some in Hv as (g3 & Hg3 & Hv).
  rewrite (find_memory_ok _ _ Hg1). unfold mbind at 1, outcome_bind at 1. rewrite find_cpu_ok.
  unfold mbind at 1, outcome_bind at 1. rewrite (find_timebase_ok _ _ Hg3). by apply find_virtio_ok.
Qed.
End OneProp.

Lemma levels_mono p p' path : level_names p' = level_names p -> indent p' = indent p -> levels p path -> levels p' path.
Proof. intros E1 E2 []. split; rewrite ?E1, ?E2; done. Qed.

Lemma prop_words pr : length (prop_bytes off pr) = (4 * (3 + (length (p_val pr) + 3) / 4))%nat.
Proof. unfold prop_bytes. rewrite !length_app, pad_length. cbn [length be32]. lia. Qed.

Lemma prop_run pr p path g g' i :
  levels p path -> state p = nodeprop -> prop_ok pr -> block_at i (prop_bytes off pr) -> visit path pr g = Some g' ->
  exists p', reaches i (3 + (length (p_val pr) + 3) / 4) (p, g) (p', g') /\ state p' = nodeprop /\ levels p' path.
Proof using Hlits Hfs Hnb.
  intros Hlv Hst Hpr Hb Hv. pose proof Hpr as (Hname & Hoff & _ & Hlen).
  unfold prop_bytes in Hb. apply (block_app _ _ _ 1) in Hb as [B1 Hb]; [|done].
  apply (block_app _ _ _ 1) in Hb as [B2 Hb]; [|done]. apply (block_app _ _ _ 1) in Hb as [B3 B4]; [|done].
  set (len := Z.of_nat (length (p_val pr))) in *.
  set (p3 := goto propoff (set_prop_l len (goto proplen p))).
  assert (reaches i 2 (p, g) (p3, g)) as R2.
  { apply (reaches_trans i 1 1 _ (goto proplen p, g)); apply reaches_step; unfold step.
    - rewrite Hst, (block_word i FDT_PROP) by done. done.
    - cbn [state goto]. rewrite (block_word _ len) by (lia || done). by rewrite i32_small by lia. }
  assert (levels p3 path) as Hlv3 by (eapply levels_mono; [..|exact Hlv]; done).
  pose proof (cs_lo _ _ _ Hname) as Hlo. pose proof (cs_hi _ _ _ Hname) as Hhi.
  destruct B4 as (B4 & Hi4 & Hr4). rewrite pad_length in Hr4.
  replace (i + Z.of_nat 1 + Z.of_nat 1 + Z.of_nat 1) with (i + 3) in * by lia.
  assert (bytes_at m (fs + 4 * (i + 3)) (p_val pr)) as Hval.
  { unfold pad in B4. apply bytes_at_app in B4. apply B4. }
  assert (Z.of_nat (length (p_val pr)) <= Z.of_nat (4 * ((length (p_val pr) + 3) / 4))) as Hle.
  { rewrite <- pad_length. unfold pad. rewrite length_app. lia. }
  pose proof (visit_run p3 path pr (fs + 4 * (i + 3)) Hlv3 Hpr Hval ltac:(destruct B1; lia) g g' Hv) as Ev.
  set (p4 := goto (if negb (len =? 0) then propval else nodeprop) p3).
  assert (reaches (i + 2) 1 (p3, g) (p4, g')) as R3.
  { apply reaches_step. unfold step. cbn [state goto p3]. fold p3.
    replace (i + 2) with (i + Z.of_nat 1 + Z.of_nat 1) by lia. rewrite (block_word _ (off (p_name pr))) by done.
    rewrite (u64_small (nb + _)) by lia. rewrite u64_small by (destruct B1; lia).
    replace (i + Z.of_nat 1 + Z.of_nat 1 + 1) with (i + 3) by lia.
    apply outcome_bind_Ret in Ev as (g1 & E1 & Ev). apply outcome_bind_Ret in Ev as (g2 & E2 & Ev).
    apply outcome_bind_Ret in Ev as (g3 & E3 & E4). rewrite E1. cbn [mbind outcome_bind]. rewrite E2.
    cbn [mbind outcome_bind]. rewrite E3. cbn [mbind outcome_bind]. rewrite E4. done. }
  destruct (Z.eqb_spec len 0) as [H0|H0].
  - exists p4. split; [|split; [done|by eapply levels_mono; [..|exact Hlv]]].
    replace (3 + (length (p_val pr) + 3) / 4)%nat with (2 + 1)%nat.
    2: { unfold len in H0. replace (length (p_val pr)) with 0%nat by lia. done. }
    by eapply reaches_trans; [exact R2|exact R3].
  - destruct (value_words (S (Z.to_nat len)) (i + 2 + 1) p4 g') as [l R4]; [cbn; lia|done|cbn; lia|].
    exists (goto nodeprop (set_prop_l l p4)). split; [|split; [done|by eapply levels_mono; [..|exact Hlv]]].
    replace (3 + (length (p_val pr) + 3) / 4)%nat with (2 + (1 + Z.to_nat ((prop_l p4 + 3) / 4)))%nat.
    2: { cbn [prop_l p4 goto p3 set_prop_l]. unfold len. replace (Z.of_nat (length (p_val pr)) + 3) with (Z.of_nat (length (p_val pr) + 3)) by lia.
         change 4 with (Z.of_nat 4) at 1. rewrite <- Nat2Z.inj_div, Nat2Z.id. lia. }
    eapply reaches_trans; [exact R2|]. eapply reaches_trans; [exact R3|exact R4].
Qed.

(** ** Lists of properties and of nodes *)
Definition runs (path : list (list Z)) (ok : pda_state -> Prop) (l : list Z) (f : machine_spec -> option machine_spec) : Prop :=
  forall p g g' i, levels p path -> ok (state p) -> block_at i l -> f g = Some g' ->
  exists n p', length l = (4 * n)%nat /\ reaches i n (p, g) (p', g') /\ state p' = nodeprop /\ levels p' path.

Definition in_node (st : pda_state) : Prop := st = nodeprop.
Definition before_node (st : pda_state) : Prop := st = nodeprop \/ st = initial.

Lemma runs_list {A} (enc : A -> list Z) (f : A -> machine_spec -> option machine_spec) path l :
  Forall (fun x => runs path in_node (enc x) (f x)) l -> runs path in_node (mjoin (enc <$> l)) (ofold f l).
Proof.
  induction 1 as [|x l Hx Hl IH]; intros p g g' i Hlv Hst Hb Hf.
  - injection Hf as <-. exists 0%nat, p. split; [done|]. split; [apply reaches_refl|done].
  - change (mjoin (enc <$> x :: l)) with (enc x ++ mjoin (enc <$> l)) in *.
    apply bind_Some in Hf as (g1 & Hf1 & Hf2).
    assert (block_at i (enc x)) as Hbx.
    { destruct Hb as (Hb & Hi & Hr). apply bytes_at_app in Hb as [Hb _]. rewrite length_app in Hr. split; [done|lia]. }
    destruct (Hx p g g1 i Hlv Hst Hbx Hf1) as (n1 & p1 & L1 & R1 & S1 & V1).
    apply (block_app _ _ _ n1 L1) in Hb as [_ Hb].
    destruct (IH p1 g1 g' (i + Z.of_nat n1) V1 S1 Hb Hf2) as (n2 & p2 & L2 & R2 & S2 & V2).
    exists (n1 + n2)%nat, p2. split; [rewrite length_app, L1, L2; lia|]. split; [by eapply reaches_trans|done].
Qed.

Lemma runs_prop path pr : prop_ok pr -> runs path in_node (prop_bytes off pr) (visit path pr).
Proof using Hlits Hfs Hnb.
  intros Hpr p g g' i Hlv Hst Hb Hf. destruct (prop_run pr p path g g' i Hlv Hst Hpr Hb Hf) as (p' & R & S' & V).
  eexists _, p'. split; [apply prop_words|done].
Qed.

(** ** Nodes *)
Lemma name_cstr i name : Forall (fun b => 0 < b < 256) name -> block_at i (pad (name ++ [0])) ->
  cstr m (fs + 4 * i) name.
Proof using Hfs.
  intros Hn (Hb & Hi & Hr). unfold pad in Hb. rewrite <- app_assoc in Hb.
  apply bytes_at_app in Hb as [H1 H2]. cbn [app] in H2. apply bytes_at_cons in H2 as [H2 _].
  assert (Z.of_nat (length name) < Z.of_nat (length (pad (name ++ [0])))).
  { unfold pad. rewrite !length_app. cbn. lia. }
  split; [done|lia|lia|done|done].
Qed.

Lemma begin_run p path name g i :
  levels p path -> before_node (state p) -> (length path < 8)%nat -> Forall (fun b => 0 < b < 256) name ->
  block_at i (be32 FDT_BEGIN_NODE) -> block_at (i + 1) (pad (name ++ [0])) ->
  exists p', reaches i (1 + (length name / 4 + 1)) (p, g) (p', g) /\ state p' = nodeprop /\ levels p' (path ++ [name]).
Proof using Hfs.
  intros [V1 V2 V3] Hst Hlen Hn B1 B2.
  pose proof (name_cstr _ _ Hn B2) as Hc. pose proof (cs_hi _ _ _ Hc) as Hhi. pose proof (proj1 (proj2 B1)) as Hi.
  set (p1 := mkPda nodename (u32 (indent p + 1)) (prop_l p) (<[Z.to_nat (indent p) := Some (fs + 4 * (i + 1))]> (level_names p))).
  assert (step m L nb fs i (p, g) = Ret (inl (p1, g))) as Es.
  { assert (begin_node (u64 (fs + 4 * (i + 1))) p = Ret p1) as Eb.
    { unfold begin_node. destruct (Z.ltb_spec (indent p) 8); [|lia]. by rewrite u64_small by lia. }
    unfold step. rewrite (block_word i FDT_BEGIN_NODE) by done. destruct Hst as [->| ->]; cbn [Z.eqb];
      change (FDT_BEGIN_NODE =? FDT_NOP) with false; change (FDT_BEGIN_NODE =? FDT_BEGIN_NODE) with true;
      change (FDT_BEGIN_NODE =? FDT_PROP) with false; cbv iota; by rewrite Eb. }
  exists (goto nodeprop p1). split; [|split; [done|split]].
  - eapply reaches_trans; [by apply reaches_step|]. by apply (name_words (S (length name))); [lia|..].
  - cbn. by rewrite length_insert.
  - cbn. rewrite u32_small by lia. rewrite length_app. cbn. lia.
  - intros j l [Hj|[Hj Hj']]%lookup_app_Some; cbn.
    + pose proof (lookup_lt_Some _ _ _ Hj). rewrite list_lookup_insert_ne by lia. by apply V3.
    + destruct (j - length path)%nat eqn:E; [|done]. cbn in Hj'. injection Hj' as <-.
      exists (fs + 4 * (i + 1)). split; [|done]. rewrite V2, Nat2Z.id. replace j with (length path) by lia.
      apply list_lookup_insert_eq. lia.
Qed.

Lemma end_run p path name g i :
  levels p (path ++ [name]) -> state p = nodeprop -> (length path < 8)%nat -> block_at i (be32 FDT_END_NODE) ->
  exists p', reaches i 1 (p, g) (p', g) /\ state p' = nodeprop /\ levels p' path.
Proof using Hfs.
  intros [V1 V2 V3] Hst Hlen B. exists (set_indent (u32 (indent p - 1)) p). split; [|split; [done|split]].
  - apply reaches_step. unfold step. rewrite Hst, (block_word i FDT_END_NODE) by done. done.
  - done.
  - cbn. rewrite V2, length_app. cbn. rewrite u32_small; lia.
  - intros j l Hj. apply V3. by apply lookup_app_l_Some.
Qed.

Lemma node_run t : node_ok t -> forall path, runs path before_node (node_bytes off t) (collect path t).
Proof using Hlits Hfs Hnb.
  induction t as [name props children IH] using node_ind'. intros (Hn & Hps & Hcs%node_ok_children) path p g g' i Hlv Hst Hb Hf.
  cbn [collect] in Hf. case_decide as Hd; [|done]. apply bind_Some in Hf as (g1 & Hf1 & Hf2).
  cbn [node_bytes] in Hb |- *. apply (block_app _ _ _ 1) in Hb as [B1 Hb]; [|done]. change (Z.of_nat 1) with 1 in Hb.
  assert (length (pad (name ++ [0])) = (4 * (length name / 4 + 1))%nat) as Lp.
  { rewrite pad_length, length_app. cbn [length]. replace (length name + 1 + 3)%nat with (length name + 1 * 4)%nat by lia.
    by rewrite Nat.div_add. }
  apply (block_app _ _ _ _ Lp) in Hb as [B2 Hb].
  destruct (begin_run p path name g i Hlv Hst Hd Hn B1 B2) as (p1 & R1 & S1 & V1).
  assert (runs (path ++ [name]) in_node (mjoin (prop_bytes off <$> props)) (ofold (visit (path ++ [name])) props)) as Rp.
  { apply runs_list. eapply Forall_impl; [exact Hps|]. intros pr Hpr. by apply runs_prop. }
  assert (runs (path ++ [name]) in_node (mjoin (node_bytes off <$> children)) (ofold (collect (path ++ [name])) children)) as Rc.
  { apply runs_list. rewrite Forall_forall in *. intros c Hc q h h' k V' S'. apply (IH c Hc (Hcs c Hc)); [done|by left]. }
  set (j := i + 1 + Z.of_nat (length name / 4 + 1)) in *.
  assert (block_at j (mjoin (prop_bytes off <$> props))) as B3.
  { destruct Hb as (Hb & Hi & Hr). apply bytes_at_app in Hb as [Hb _]. rewrite length_app in Hr. split; [done|lia]. }
  destruct (Rp p1 g g1 j V1 S1 B3 Hf1) as (n2 & p2 & L2 & R2 & S2 & V2).
  apply (block_app _ _ _ n2 L2) in Hb as [_ Hb].
  assert (block_at (j + Z.of_nat n2) (mjoin (node_bytes off <$> children))) as B4.
  { destruct Hb as (Hb & Hi & Hr). apply bytes_at_app in Hb as [Hb _]. rewrite length_app in Hr. split; [done|lia]. }
  destruct (Rc p2 g1 g' _ V2 S2 B4 Hf2) as (n3 & p3 & L3 & R3 & S3 & V3).
  apply (block_app _ _ _ n3 L3) in Hb as [_ B5].
  destruct (end_run p3 path name g' _ V3 S3 Hd B5) as (p4 & R4 & S4 & V4).
  exists (1 + (length name / 4 + 1) + (n2 + (n3 + 1)))%nat, p4. split.
  { rewrite !length_app, Lp, L2, L3. cbn [length be32]. lia. }
  split; [|done]. eapply reaches_trans; [exact R1|]. replace (i + Z.of_nat (1 + (length name / 4 + 1))) with j by lia.
  eapply reaches_trans; [exact R2|]. eapply reaches_trans; [exact R3|exact R4].
Qed.
End Run.
