(* ===== verification/FdtProps.v ===== *)
(** * Properties of the device-tree parser *)
From Stdlib Require Import String Ascii.
From S2P Require Import Prelude Mem CString CStringProps Fdt FdtSpec FdtRun.
Import CString Fdt.

(** ** The blob *)
(** A blob for the tree [root] at [dtb]: the three fields of its header the
    kernel uses, and its two blocks at [so] and [ss]. *)
Record blob_at (m : mem) (dtb so ss : Z) (off : list Z -> Z) (root : node) : Prop := {
  ba_struct : bytes_at m (dtb + off_dt_struct) (be32 so);
  ba_strings : bytes_at m (dtb + off_dt_strings) (be32 ss);
  ba_size : bytes_at m (dtb + size_dt_struct) (be32 (Z.of_nat (length (struct_block off root))));
  ba_root : node_ok m (dtb + ss) off root;
  ba_block : bytes_at m (dtb + so) (struct_block off root);
  ba_so : 0 <= so < 4294967296;
  ba_ss : 0 <= ss < 4294967296;
  ba_len : Z.of_nat (length (struct_block off root)) < 4294967296;
  ba_dtb : 0 <= dtb /\ dtb + 8589934592 < 18446744073709551616;
}.

Section Parse.
Context (m : mem) (L : literals) (dtb so ss : Z) (off : list Z -> Z) (root : node).
Hypothesis Hblob : blob_at m dtb so ss off root.

Lemma parse_dtb_start g :
  parse_dtb m L dtb g = parse_loop m L (length (struct_block off root) / 4) (dtb + ss) (dtb + so) 0
    (mkPda initial 0 0 (replicate 8 None), g).
Proof using Hblob.
  destruct Hblob as [B1 B2 B3 _ _ B6 B7 B8 B9]. unfold parse_dtb.
  rewrite (word_at _ _ _ B7 B2), (word_at _ _ _ B6 B1), (word_at _ _ _ (conj (Nat2Z.is_nonneg _) B8) B3).
  rewrite !u64_small by lia. f_equal. change 4 with (Z.of_nat 4). rewrite <- Nat2Z.inj_div. by rewrite Nat2Z.id.
Qed.

Lemma start_levels : levels m (mkPda initial 0 0 (replicate 8 None)) [].
Proof. split; [done|done|]. by intros j n Hj. Qed.
End Parse.

(** The run of the parser on an encoded tree. *)
Lemma parse_dtb_ok (m : mem) L dtb so ss off root g g' :
  lits_ok m L -> blob_at m dtb so ss off root -> collect [] root g = Some g' ->
  parse_dtb m L dtb g = Ret (0, g').
Proof.
  intros Hl Hb Hc. pose proof Hb as [_ _ _ Hok Hblk Hso Hss Hlen Hd].
  rewrite (parse_dtb_start m L dtb so ss off root Hb).
  assert (block_at m (dtb + so) 0 (struct_block off root)) as Hblock.
  { split; [by rewrite Z.mul_0_r, Z.add_0_r|lia]. }
  unfold struct_block in *.
  assert (block_at m (dtb + so) 0 (node_bytes off root)) as Hroot.
  { destruct Hblock as (B1 & B2 & B3). apply bytes_at_app in B1 as [B1 _]. rewrite length_app in B3. split; [done|lia]. }
  destruct (node_run m L (dtb + ss) (dtb + so) off Hl ltac:(lia) ltac:(lia) root Hok [] _ g g' 0
    (start_levels m) (or_intror eq_refl) Hroot Hc) as (n & p' & Ln & R & Sp & Vp).
  rewrite length_app, Ln. cbn [length be32]. replace ((4 * n + 4) / 4)%nat with (n + 1)%nat.
  2: { replace (4 * n + 4)%nat with (0 + (n + 1) * 4)%nat by lia. by rewrite Nat.div_add. }
  rewrite R. cbn [parse_loop]. apply (block_app _ _ _ _ _ n Ln) in Hblock as [_ Hend].
  unfold step. rewrite Sp, (block_word m (dtb + so) ltac:(lia) _ FDT_END) by (done || lia).
  rewrite (lv_indent _ _ _ Vp). done.
Qed.

(** The same machine: memory, timer and devices.  The number of processors is
    left out: the comment of fdt.c means the subnodes of /cpus by it, the code
    counts the properties [cpu] below /cpus/cpu-map ([nCPU_not_subnodes]), and
    no other code of the kernel reads it. *)
Definition same_machine (g g' : machine_spec) : Prop :=
  max_pfn g = max_pfn g' /\ clock_freq g = clock_freq g' /\
  num_virtio_mmio g = num_virtio_mmio g' /\ virtio_mmio_headers g = virtio_mmio_headers g'.

(** C19: on a blob that encodes a device tree, parse_dtb returns 0 and leaves in
    the global variables what a traversal of the tree finds: the end of memory,
    the timer frequency and the virtio devices.  The traversal is defined unless
    the tree is more than eight levels deep, has more than 64 virtio devices, or
    a value that is too short. *)
Theorem parse_dtb_correct (m : mem) L dtb so ss off root g g' :
  lits_ok m L -> blob_at m dtb so ss off root -> collect [] root g = Some g' ->
  exists g'', parse_dtb m L dtb g = Ret (0, g'') /\ same_machine g'' g'.
Proof. intros Hl Hb Hg. exists g'. split; [by eapply parse_dtb_ok|done]. Qed.

(** ** A tree nested too deep *)
Fixpoint chain (name : list Z) (n : nat) : node :=
  Node name [] (match n with O => [] | S k => [chain name k] end).

Section Deep.
Context (m : mem) (L : literals) (nb fs : Z) (off : list Z -> Z) (name : list Z).
Hypothesis Hfs : 0 <= fs.
Hypothesis Hname : Forall (fun b => 0 < b < 256) name.

Lemma chain_bytes k : node_bytes off (chain name (S k)) =
  be32 FDT_BEGIN_NODE ++ pad (name ++ [0]) ++ (node_bytes off (chain name k) ++ be32 FDT_END_NODE).
Proof. cbn [chain node_bytes]. cbn [fmap list_fmap mjoin list_join app]. by rewrite app_nil_r. Qed.

Lemma chain_begin k : exists l, node_bytes off (chain name k) =
  be32 FDT_BEGIN_NODE ++ pad (name ++ [0]) ++ l ++ be32 FDT_END_NODE.
Proof.
  destruct k as [|k]; [by exists []|]. exists (node_bytes off (chain name k)). by rewrite chain_bytes.
Qed.

(** The ninth open node is written behind the end of level_names. *)
Lemma chain_faults k : forall path p g i n,
  levels m p path -> before_node (state p) -> (length path <= 8)%nat -> (8 <= length path + k)%nat ->
  block_at m fs i (node_bytes off (chain name k)) -> (length (node_bytes off (chain name k)) <= 4 * n + 3)%nat ->
  parse_loop m L n nb fs i (p, g) = Fault.
Proof using Hfs Hname.
  induction k as [|k IH]; intros path p g i n Hlv Hst Hp8 Hk Hb Hn;
    [destruct (chain_begin 0) as [l El]|destruct (chain_begin (S k)) as [l El]].
  all: destruct (decide (length path = 8)%nat) as [H8|H8].
  2: lia.
  1,2: rewrite El in Hb, Hn; apply (block_app _ _ _ _ _ 1) in Hb as [B1 _]; [|done];
    rewrite !length_app in Hn; cbn [length be32] in Hn; destruct n as [|n]; [lia|]; cbn [parse_loop];
    unfold step; rewrite (block_word m fs Hfs i FDT_BEGIN_NODE) by done; pose proof (lv_indent _ _ _ Hlv) as Hi;
    assert (begin_node (u64 (fs + 4 * (i + 1))) p = Fault) as Eb by
      (unfold begin_node; destruct (Z.ltb_spec (indent p) 8); [lia|done]);
    destruct Hst as [->| ->]; cbn [Z.eqb FDT_BEGIN_NODE]; by rewrite Eb.
  clear l El. rewrite chain_bytes in Hb, Hn. apply (block_app _ _ _ _ _ 1) in Hb as [B1 Hb]; [|done].
  assert (length (pad (name ++ [0])) = (4 * (length name / 4 + 1))%nat) as Lp.
  { rewrite pad_length, length_app. cbn [length]. replace (length name + 1 + 3)%nat with (length name + 1 * 4)%nat by lia.
    by rewrite Nat.div_add. }
  apply (block_app _ _ _ _ _ _ Lp) in Hb as [B2 Hb].
  destruct (begin_run m L nb fs Hfs p path name g i Hlv Hst ltac:(lia) Hname B1 B2) as (p1 & R1 & S1 & V1).
  rewrite !length_app, Lp in Hn. cbn [length be32] in Hn.
  replace n with (1 + (length name / 4 + 1) + (n - (1 + (length name / 4 + 1))))%nat by lia. rewrite R1.
  apply (IH (path ++ [name])); [done|by left|rewrite length_app; cbn; lia|rewrite length_app; cbn; lia| |lia].
  destruct Hb as (Hb & Hi & Hr). apply bytes_at_app in Hb as [Hb _]. rewrite length_app in Hr.
  replace (i + Z.of_nat (1 + (length name / 4 + 1))) with (i + Z.of_nat 1 + Z.of_nat (length name / 4 + 1)) by lia.
  split; [done|lia].
Qed.
End Deep.

(** Level_names has eight elements and parse_dtb does not check indent: on a
    device tree with nine nested nodes it writes behind the end of the array. *)
Theorem parse_dtb_deep_tree_faults (m : mem) L dtb so ss off name k g :
  Forall (fun b => 0 < b < 256) name -> blob_at m dtb so ss off (chain name k) -> (8 <= k)%nat ->
  parse_dtb m L dtb g = Fault.
Proof.
  intros Hn Hb Hk. pose proof Hb as [_ _ _ _ Hblk Hso _ Hlen Hd]. rewrite (parse_dtb_start m L dtb so ss off _ Hb).
  unfold struct_block in *. apply bytes_at_app in Hblk as [Hblk _]. rewrite length_app in *. cbn [length be32] in *.
  eapply (chain_faults m L (dtb + ss) (dtb + so) off name ltac:(lia) Hn k []);
    [apply start_levels|by right|cbn; lia|cbn; lia| |].
  - split; [by rewrite Z.mul_0_r, Z.add_0_r|lia].
  - pose proof (Nat.div_mod_eq (length (node_bytes off (chain name k)) + 4) 4) as E.
    pose proof (Nat.mod_upper_bound (length (node_bytes off (chain name k)) + 4) 4). lia.
Qed.

(** ** Any blob *)
(** What holds of the result of code that may fault but always ends. *)
Definition safe {A} (Q : A -> Prop) (o : outcome A) : Prop :=
  match o with Ret a => Q a | Fault => True | Panic | NoFuel => False end.

Lemma safe_bind {A B} (Q : A -> Prop) (R : B -> Prop) (o : outcome A) (f : A -> outcome B) :
  safe Q o -> (forall a, Q a -> safe R (f a)) -> safe R (a ← o; f a).
Proof. destruct o; cbn; auto. Qed.

Lemma be_val_range l : Forall byte l -> 0 <= be_val l < 256 ^ Z.of_nat (length l).
Proof.
  unfold be_val. intros Hb. assert (forall acc k, 0 <= acc < 256 ^ k -> 0 <= k ->
    0 <= foldl (fun acc b => acc * 256 + b) acc l < 256 ^ (k + Z.of_nat (length l))) as H.
  { induction Hb as [|b l Hb _ IH]; intros acc k Ha Hk; cbn [foldl length]; [by rewrite Z.add_0_r|].
    replace (k + Z.of_nat (S (length l))) with (k + 1 + Z.of_nat (length l)) by lia. apply IH; [|lia].
    unfold byte in Hb. rewrite Z.pow_add_r by lia. change (256 ^ 1) with 256. nia. }
  apply (H 0 0); lia.
Qed.

Section Any.
Context (m : mem) (L : literals).
Hypothesis Hm : mem_ok m.
Hypothesis Hlits : lits_ok m L.

Lemma ntohl_range a : 0 <= ntohl (load32 m a) < 4294967296.
Proof using Hm.
  assert (Forall byte [m a; m (a + 1); m (a + 1 + 1); m (a + 1 + 1 + 1)]) as Hb by (repeat constructor; apply Hm).
  rewrite (ntohl_load m a _ _ _ _ Hb); [by apply (be_val_range _ Hb)|].
  rewrite !bytes_at_cons. repeat (split; [done|]). by intros i x Hi.
Qed.

Lemma ntohll_range a : 0 <= ntohll (load64 m a) < 18446744073709551616.
Proof using Hm.
  set (l := (fun k => m (a + Z.of_nat k)) <$> seq 0 8).
  assert (Forall byte l) as Hb by (apply Forall_fmap, Forall_forall; intros k _; apply Hm).
  rewrite (ntohll_load m a l); [by apply (be_val_range _ Hb)|done|done|].
  intros i x Hi. apply list_lookup_fmap_Some in Hi as (k & -> & Hk). by apply lookup_seq in Hk as [-> _].
Qed.

(** Comparing any memory with a string ends at the end of the string. *)
Lemma strcmp_ends fuel : forall a lit d, cstr m lit d -> (length d < fuel)%nat ->
  exists r, strcmp fuel m a lit = Ret r.
Proof.
  induction fuel as [|fuel IH]; intros a lit d Hd Hf; [lia|]. cbn [strcmp]. destruct d as [|x d].
  - rewrite (cstr_nil _ _ Hd). rewrite andb_false_r. eauto.
  - apply cstr_cons in Hd as (_ & _ & -> & Hd). cbn [length] in Hf.
    destruct (negb _ && negb _); [|eauto]. destruct (negb _); [eauto|]. apply (IH _ _ d); [done|lia].
Qed.

Lemma streq_safe a lit s : cstr m lit (str s) -> (length (str s) < 20)%nat -> safe (fun _ => True) (streq m a lit).
Proof.
  intros Hc Hs. unfold streq. destruct (strcmp_ends 20 a lit _ Hc Hs) as [r ->]. done.
Qed.

Lemma level_safe (p : pda) i f : (forall n, safe (fun _ => True) (f n)) ->
  safe (fun _ : bool => True) (n ← level_name p i; f n).
Proof. intros Hf. unfold level_name. destruct (mjoin _); [apply Hf|done]. Qed.

Lemma and_also_safe a b : safe (fun _ : bool => True) a -> safe (fun _ => True) (b tt) -> safe (fun _ => True) (and_also a b).
Proof. intros Ha Hb. unfold and_also. eapply safe_bind; [exact Ha|]. intros [] _; [exact Hb|done]. Qed.

(** The globals fit their C types. *)
Record typed (g : machine_spec) : Prop := {
  ty_pfn : 0 <= max_pfn g < 4503599627370496;
  ty_freq : 0 <= clock_freq g < 4294967296;
  ty_cpu : 0 <= nCPU g < 18446744073709551616;
  ty_num : 0 <= num_virtio_mmio g <= 64;
  ty_len : length (virtio_mmio_headers g) = 64%nat;
  ty_headers : Forall (fun h => 0 <= h < 18446744073709551616) (virtio_mmio_headers g);
}.

Lemma add_virtio_typed v g : typed g -> 0 <= v < 18446744073709551616 -> safe typed (add_virtio v g).
Proof.
  intros [] Hv. unfold add_virtio, MAX_VIRTIO_MMIO. destruct (Z.ltb_spec (num_virtio_mmio g) 64); [|done].
  split; cbn; try done; [rewrite u64_small; lia|by rewrite length_insert|by apply Forall_insert].
Qed.

Ltac safe_hit := repeat first
  [ apply and_also_safe | apply level_safe; intros ? | done
  | eapply streq_safe; [apply Hlits|vm_compute; lia] ].

Lemma find_memory_typed p pn v g : typed g -> safe typed (find_memory m L p pn v g).
Proof using Hm Hlits.
  intros Hg. unfold find_memory. eapply safe_bind; [safe_hit|]. intros [] _; [|done]. destruct Hg. split; try done. cbn [max_pfn set_max_pfn].
  unfold ADDR_2_PAGE, PAGESIZE. generalize (u64_range (u64 (ntohll (load64 m v) + ntohll (load64 m (u64 (v + 8)))))).
  generalize (u64 (u64 (ntohll (load64 m v) + ntohll (load64 m (u64 (v + 8)))))). intros x Hx. dlia.
Qed.

Lemma find_cpu_typed p pn g : typed g -> safe typed (find_cpu m L p pn g).
Proof using Hlits.
  intros Hg. unfold find_cpu. eapply safe_bind; [safe_hit|]. intros [] _; [|done]. destruct Hg. split; try done. apply u64_range.
Qed.

Lemma find_timebase_typed p pn v g : typed g -> safe typed (find_timebase m L p pn v g).
Proof using Hm Hlits.
  intros Hg. unfold find_timebase. eapply safe_bind; [safe_hit|]. intros [] _; [|done]. destruct Hg. split; try done. apply ntohl_range.
Qed.

Lemma find_virtio_typed p pn v g : typed g -> safe typed (find_virtio m L p pn v g).
Proof using Hm Hlits.
  intros Hg. unfold find_virtio. eapply safe_bind; [safe_hit|]. intros [] _; [|done].
  apply add_virtio_typed; [done|apply ntohll_range].
Qed.

Lemma step_typed nb fs i p g : typed g ->
  safe (fun r => match r with inl (_, g') => typed g' | inr (v, g') => (v = 0 \/ v = -1) /\ typed g' end)
    (step m L nb fs i (p, g)).
Proof using Hm Hlits.
  intros Hg. unfold step. destruct (state p).
  - destruct (_ =? _); [done|]. destruct (_ =? _); [|by cbn; auto].
    unfold begin_node. by destruct (_ <? _).
  - done.
  - destruct (_ =? _); [done|]. destruct (_ =? _); [done|]. destruct (_ =? _).
    { unfold begin_node. by destruct (_ <? _). }
    destruct (_ =? _); [done|]. destruct (_ =? _); [|by cbn; auto]. split; [|done]. destruct (negb _); auto.
  - done.
  - do 4 (eapply safe_bind; [first [by apply find_memory_typed|by apply find_cpu_typed|by apply find_timebase_typed
      |by apply find_virtio_typed]|intros ? ?]). done.
  - done.
Qed.

Lemma parse_loop_typed n : forall nb fs i s, typed (snd s) ->
  safe (fun r => (fst r = 0 \/ fst r = -1) /\ typed (snd r)) (parse_loop m L n nb fs i s).
Proof using Hm Hlits.
  induction n as [|n IH]; intros nb fs i [p g] Hg; cbn [parse_loop]; [by split; [left|]|].
  eapply safe_bind; [by apply step_typed|]. intros [[p' g']|[v g']] Hr; [by apply IH|done].
Qed.
End Any.

(** The parser ends on any memory. *)
Lemma parse_dtb_ends (m : mem) L dtb g :
  mem_ok m -> lits_ok m L -> typed g ->
  (exists r g', parse_dtb m L dtb g = Ret (r, g') /\ (r = 0 \/ r = -1) /\ typed g') \/
  parse_dtb m L dtb g = Fault.
Proof.
  intros Hm Hl Hg. pose proof (parse_loop_typed m L Hm Hl (Z.to_nat (ntohl (load32 m (dtb + size_dt_struct)) / 4))
    (u64 (dtb + ntohl (load32 m (dtb + off_dt_strings)))) (u64 (dtb + ntohl (load32 m (dtb + off_dt_struct)))) 0
    (mkPda initial 0 0 (replicate 8 None), g) Hg) as Hs.
  unfold parse_dtb. destruct (parse_loop _ _ _ _ _ _ _) as [[r g']| | |]; [left; by exists r, g'|done|by right|done].
Qed.

(** Ntohl and ntohll read big-endian numbers: of a word loaded from memory
    they give the value of its bytes in order, and applied twice they give the
    argument back. *)
Theorem ntohl_big_endian (m : mem) a :
  mem_ok m ->
  ntohl (load32 m a) = be_val ((fun k => m (a + Z.of_nat k)) <$> seq 0 4) /\
  ntohll (load64 m a) = be_val ((fun k => m (a + Z.of_nat k)) <$> seq 0 8) /\
  ntohl (ntohl (load32 m a)) = load32 m a.
Proof.
  intros Hm.
  assert (forall n, Forall byte ((fun k => m (a + Z.of_nat k)) <$> seq 0 n)) as Hb.
  { intros n. apply Forall_fmap, Forall_forall. intros k _. apply Hm. }
  assert (forall n, bytes_at m a ((fun k => m (a + Z.of_nat k)) <$> seq 0 n)) as Ha.
  { intros n i x Hi. apply list_lookup_fmap_Some in Hi as (k & -> & Hk). by apply lookup_seq in Hk as [-> _]. }
  pose proof (ntohl_load m a _ _ _ _ (Hb 4%nat) (Ha 4%nat)) as E4.
  split; [exact E4|]. split; [by apply ntohll_load|].
  rewrite E4, (load32_bytes m a _ _ _ _ (Ha 4%nat)), be_val_digits. specialize (Hb 4%nat). cbn [fmap list_fmap seq] in Hb.
  repeat (apply Forall_cons in Hb as [? Hb]). rewrite ntohl_bytes, be_val_digits by done. done.
Qed.

(** ** The properties at concrete blobs *)
(** Memory from a list of bytes at address 0. *)
Definition image (l : list Z) : mem := fun x => if x <? 0 then 0 else default 0 (l !! Z.to_nat x).

Definition bytes_check (m : mem) (s : Z) (l : list Z) : bool :=
  bool_decide ((fun k => m (s + Z.of_nat k)) <$> seq 0 (length l) = l).
Lemma bytes_check_ok m s l : bytes_check m s l = true -> bytes_at m s l.
Proof.
  intros E%bool_decide_eq_true i x Hi. rewrite <- E in Hi. apply list_lookup_fmap_Some in Hi as (k & -> & Hk).
  by apply lookup_seq in Hk as [-> _].
Qed.

Definition cstr_check (m : mem) (s : Z) (l : list Z) : bool :=
  forallb (fun b => (0 <? b) && (b <? 256)) l && (0 <=? s) && (s + Z.of_nat (length l) <? 18446744073709551616) &&
  bytes_check m s l && (m (s + Z.of_nat (length l)) =? 0).
Lemma cstr_check_ok m s l : cstr_check m s l = true -> cstr m s l.
Proof.
  unfold cstr_check. rewrite !andb_true_iff, forallb_forall, !Z.eqb_eq, !Z.leb_le, !Z.ltb_lt.
  intros ((((H1 & H2) & H3) & H4%bytes_check_ok) & H5). split; try done.
  apply Forall_forall. intros b Hb. apply list_elem_of_In, H1 in Hb. rewrite andb_true_iff, !Z.ltb_lt in Hb. lia.
Qed.

Definition bytes_of_ints (l : list Z) : list Z := mjoin (be32 <$> l).

(** The literals at address 0, the blob at address 80, its structure block at
    offset 40 and its strings block at offset 2048. *)
Definition lits0 : literals := mkLits 0 8 12 17 25 29 48 52.
Definition lits_image : list Z :=
  mjoin ((fun s => str s ++ [0]) <$> ["memory@"; "reg"; "cpus"; "cpu-map"; "cpu"; "timebase-frequency"; "soc"; "virtio_mmio@"]%string).
Definition off0 (n : list Z) : Z :=
  if bool_decide (n = str "reg") then 0 else if bool_decide (n = str "timebase-frequency") then 4 else 23.
Definition blob_image (t : node) : list Z :=
  let b := struct_block off0 t in
  lits_image ++ replicate (80 - length lits_image) 0 ++
  bytes_of_ints [3490578157; 0; 40; 2048; 0; 17; 16; 0; 0; Z.of_nat (length b)] ++ b ++
  replicate (2008 - length b) 0 ++
  mjoin ((fun s => str s ++ [0]) <$> ["reg"; "timebase-frequency"; "cpu"]%string).

Definition tree0 : node :=
  Node [] [] [
    Node (str "memory@80000000") [mkProp (str "reg") (bytes_of_ints [0; 2147483648; 0; 134217728])] [];
    Node (str "cpus") [mkProp (str "timebase-frequency") (bytes_of_ints [10000000])]
      [Node (str "cpu-map") [] [Node (str "cluster0") []
        [Node (str "core0") [mkProp (str "cpu") (bytes_of_ints [1])] [];
         Node (str "core1") [mkProp (str "cpu") (bytes_of_ints [2])] []]]];
    Node (str "soc") []
      [Node (str "virtio_mmio@10001000") [mkProp (str "reg") (bytes_of_ints [0; 268439552; 0; 4096])] []]].

Definition spec0 : machine_spec := mkSpec 0 0 0 0 (replicate 64 0).

Lemma image_bytes l : Forall byte l -> mem_ok (image l).
Proof.
  intros Hl x. unfold image. destruct (x <? 0); [lia|]. destruct (l !! Z.to_nat x) as [b|] eqn:E; cbn; [|lia].
  by eapply Forall_lookup_1 in Hl.
Qed.

Lemma lits0_ok t : (length (struct_block off0 t) < 2000)%nat -> lits_ok (image (blob_image t)) lits0.
Proof.
  intros Hn. assert (forall s l, cstr_check (image lits_image) s l = true -> s + Z.of_nat (length l) < 65 ->
    cstr (image (blob_image t)) s l) as H.
  { intros s l Hc Hs. apply cstr_check_ok in Hc. eapply cstr_ext; [|exact Hc]. pose proof (cs_lo _ _ _ Hc).
    intros x Hx. unfold image, blob_image. destruct (Z.ltb_spec x 0); [done|].
    rewrite lookup_app_l; [done|]. change (length lits_image) with 65%nat. lia. }
  split; apply H; by vm_compute.
Qed.

(** Checking the well-formedness of a tree by evaluation. *)
Definition prop_check (m : mem) (nb : Z) (off : list Z -> Z) (p : prop) : bool :=
  cstr_check m (nb + off (p_name p)) (p_name p) && (0 <=? off (p_name p)) && (off (p_name p) <? 4294967296) &&
  forallb (fun b => (0 <=? b) && (b <? 256)) (p_val p) && (Z.of_nat (length (p_val p)) <? 2147483648).
Fixpoint node_check (m : mem) (nb : Z) (off : list Z -> Z) (t : node) : bool :=
  match t with
  | Node name props children =>
      forallb (fun b => (0 <? b) && (b <? 256)) name && forallb (prop_check m nb off) props &&
      forallb (node_check m nb off) children
  end.

Lemma forallb_Forall {A} (f : A -> bool) (P : A -> Prop) l :
  (forall x, x ∈ l -> f x = true -> P x) -> forallb f l = true -> Forall P l.
Proof.
  intros Hf. rewrite forallb_forall. intros Hl. apply Forall_forall. intros x Hx. apply Hf; [done|].
  by apply Hl, list_elem_of_In.
Qed.

Lemma prop_check_ok m nb off p : prop_check m nb off p = true -> prop_ok m nb off p.
Proof.
  unfold prop_check. rewrite !andb_true_iff, !Z.leb_le, !Z.ltb_lt. intros ((((H1%cstr_check_ok & H2) & H3) & H4) & H5).
  split; [done|]. split; [done|]. split; [|done]. eapply forallb_Forall; [|exact H4].
  intros b _. rewrite andb_true_iff, Z.leb_le, Z.ltb_lt. done.
Qed.

Lemma node_check_ok m nb off t : node_check m nb off t = true -> node_ok m nb off t.
Proof.
  induction t as [name props children IH] using node_ind'. cbn [node_check node_ok].
  rewrite !andb_true_iff. intros ((H1 & H2) & H3). split; [|split].
  - eapply forallb_Forall; [|exact H1]. intros b _. rewrite andb_true_iff, !Z.ltb_lt. done.
  - eapply forallb_Forall; [|exact H2]. intros b _. apply prop_check_ok.
  - apply node_ok_children. eapply forallb_Forall; [|exact H3]. intros c Hc. rewrite Forall_forall in IH. by apply IH.
Qed.

Definition blob0 : list Z := Eval vm_compute in blob_image tree0.
Lemma blob0_eq : blob_image tree0 = blob0.
Proof. by vm_compute. Qed.

Lemma tree0_blob : blob_at (image blob0) 80 40 2048 off0 tree0.
Proof.
  split; [apply bytes_check_ok; by vm_compute..|apply node_check_ok; by vm_compute|apply bytes_check_ok; by vm_compute
    |lia|lia|by vm_compute|lia].
Qed.

Lemma blob0_bytes : mem_ok (image blob0).
Proof.
  apply image_bytes. apply (forallb_Forall (fun b => (0 <=? b) && (b <? 256))); [|by vm_compute].
  intros b _. unfold byte. rewrite andb_true_iff, Z.leb_le, Z.ltb_lt. done.
Qed.
Lemma blob0_lits : lits_ok (image blob0) lits0.
Proof. rewrite <- blob0_eq. apply lits0_ok. vm_compute. lia. Qed.

(** 128 MiB of memory from 0x80000000, one virtio device. *)
Definition machine0 : machine_spec := mkSpec 557056 10000000 2 1 (<[0%nat := 268439552]> (replicate 64 0)).

Lemma parse_dtb_correct_witness :
  exists g, parse_dtb (image blob0) lits0 80 spec0 = Ret (0, g) /\ same_machine g machine0.
Proof.
  apply (parse_dtb_correct (image blob0) lits0 80 40 2048 off0 tree0 spec0).
  - apply blob0_lits.
  - apply tree0_blob.
  - vm_compute. reflexivity.
Defined.

(** The subnodes of the node [name] below the root. *)
Definition subnodes (name : list Z) (t : node) : list node :=
  let '(Node _ _ children) := t in
  mjoin ((fun c => let '(Node n _ cs) := c in if bool_decide (n = name) then cs else []) <$> children).

(** The comment of fdt.c takes nCPU for the number of subnodes of /cpus.  Here
    /cpus has one subnode, cpu-map, and parse_dtb counts two processors. *)
Lemma nCPU_not_subnodes : exists g, parse_dtb (image blob0) lits0 80 spec0 = Ret (0, g) /\
  nCPU g = 2 /\ length (subnodes (str "cpus") tree0) = 1%nat.
Proof.
  exists machine0. split; [|split; vm_compute; reflexivity].
  apply (parse_dtb_ok (image blob0) lits0 80 40 2048 off0 tree0 spec0); [apply blob0_lits|apply tree0_blob|vm_compute; reflexivity].
Qed.

Definition blob1 : list Z := Eval vm_compute in blob_image (chain (str "n") 8).
Lemma parse_dtb_deep_tree_faults_witness : parse_dtb (image blob1) lits0 80 spec0 = Fault.
Proof.
  apply (parse_dtb_deep_tree_faults (image blob1) lits0 80 40 2048 off0 (str "n") 8 spec0).
  - repeat constructor.
  - split; [apply bytes_check_ok; by vm_compute..|apply node_check_ok; by vm_compute|apply bytes_check_ok; by vm_compute
      |lia|lia|by vm_compute|lia].
  - lia.
Defined.

Lemma spec0_typed : typed spec0.
Proof. split; cbn [spec0 max_pfn clock_freq nCPU num_virtio_mmio virtio_mmio_headers]; try lia; [done|]. by apply Forall_replicate. Qed.

Lemma ntohl_big_endian_witness : ntohl (load32 (image blob0) 80) = 3490578157.
Proof.
  destruct (ntohl_big_endian (image blob0) 80 blob0_bytes) as (E & _ & _). rewrite E. vm_compute. reflexivity.
Defined.
