(* ===== verification/UserPT.v ===== *)
(** * User page tables (kernel/pagetable.c: walkupt, uptmap, uptunmap,
      ptref_free, ptref_copy)

    A process has two parallel trees: the Sv39 tables the machine walks, in DMA
    pages, and the reference tables the kernel walks, in heap pages.  An entry
    of the upper two reference levels is a pair of pointers (the kernel address
    of the table below, the reference table below), an entry of the last level
    is the kernel page of the user page, 0 if there is none. *)
From S2P Require Import Prelude Mem KernelPT Alloc.
Import KernelPT Alloc.

Module UserPT.

(** [ptref_base + i] for tables of 16-byte and of 8-byte entries. *)
Definition ref_entry (base i : Z) : Z := u64 (base + i * 16).
Definition ref0_entry (base i : Z) : Z := u64 (base + i * 8).
Definition ref_ptable (m : mem) (r : Z) : Z := load64 m r.
Definition ref_next (m : mem) (r : Z) : Z := load64 m (r + 8).
(** The entry [i] of the table at the page-aligned kernel address [ptable]. *)
Definition pte_in (ptable i : Z) : Z := Z.lor ptable (Z.shiftl i 3).

Definition walkupt (m : mem) (ptref_base user_vpn : Z) : Z :=
  let ptref2 := ref_entry ptref_base (VPN 2 user_vpn) in
  if ref_ptable m ptref2 =? 0 then 0 else
  let ptref1 := ref_entry (ref_next m ptref2) (VPN 1 user_vpn) in
  if ref_ptable m ptref1 =? 0 then 0 else
  load64 m (ref0_entry (ref_next m ptref1) (VPN 0 user_vpn)).

Definition put64 (a v : Z) : M A unit := on_mem (fun m => store64 m a v).
Definition get64 (a : Z) : M A Z := s ← gets amem; mret (load64 s a).

Section Machine.
Variable retain : bool.

(** The level below the reference entry [ptref], whose table entry is [pte]:
    allocated with a reference table of [ref_size] bytes if it is missing. *)
Definition upt_level (pte ptref ref_size : Z) : M A unit :=
  p ← get64 ptref;
  if p =? 0 then
    '(temp_pfn, temp_vpn) ← dmalloc retain 1 true;
    next_ptref ← kalloc retain ref_size;
    put64 pte (PTE temp_pfn PTE_VALID);;
    put64 ptref (PAGE_2_ADDR temp_vpn);;
    put64 (ptref + 8) next_ptref
  else mret tt.

Definition uptmap (uptbase ptref_base kernel_vpn user_vpn pfn flags : Z) : M A unit :=
  let pte2 := ADDR uptbase (Z.shiftl (VPN 2 user_vpn) 3) in
  let ptref2 := ref_entry ptref_base (VPN 2 user_vpn) in
  upt_level pte2 ptref2 (2 * PAGESIZE);;
  t1 ← get64 ptref2; r1 ← get64 (ptref2 + 8);
  let pte1 := pte_in t1 (VPN 1 user_vpn) in
  let ptref1 := ref_entry r1 (VPN 1 user_vpn) in
  upt_level pte1 ptref1 PAGESIZE;;
  t0 ← get64 ptref1; r0 ← get64 (ptref1 + 8);
  put64 (pte_in t0 (VPN 0 user_vpn)) (PTE pfn flags);;
  put64 (ref0_entry r0 (VPN 0 user_vpn)) kernel_vpn.

Definition uptunmap (uptbase ptref_base user_vpn : Z) : M A unit :=
  let ptref2 := ref_entry ptref_base (VPN 2 user_vpn) in
  t1 ← get64 ptref2;
  if t1 =? 0 then panic else
  r1 ← get64 (ptref2 + 8);
  let ptref1 := ref_entry r1 (VPN 1 user_vpn) in
  t0 ← get64 ptref1;
  if t0 =? 0 then panic else
  r0 ← get64 (ptref1 + 8);
  let pte := pte_in t0 (VPN 0 user_vpn) in
  e ← get64 pte;
  v ← get64 (ref0_entry r0 (VPN 0 user_vpn));
  when (negb (v =? 0)) (dmafree (GET_PFN e) v 1);;
  put64 pte 0.

(** [for (i = 0; i < 512; i++) body(i)], 512 = PAGESIZE / sizeof(pte_t). *)
Fixpoint for_from (n : nat) (i : Z) (body : Z -> M A unit) : M A unit :=
  match n with
  | O => mret tt
  | S n' => body i;; for_from n' (i + 1) body
  end.
Definition for_entries (body : Z -> M A unit) : M A unit := for_from 512 0 body.

(** The user pages of one last-level table. *)
Definition free_pages0 (ptable pt_ref : Z) : M A unit :=
  for_entries (fun k =>
    v ← get64 (ref0_entry pt_ref k);
    if v =? 0 then mret tt else
    e ← get64 (pte_in ptable k);
    dmafree (GET_PFN e) v 1).

Definition free_level1 (ptable2 pt_ref2 : Z) : M A unit :=
  for_entries (fun j =>
    let ptref1 := ref_entry pt_ref2 j in
    t0 ← get64 ptref1;
    if t0 =? 0 then mret tt else
    r0 ← get64 (ptref1 + 8);
    free_pages0 t0 r0;;
    e ← get64 (pte_in ptable2 j);
    dmafree (GET_PFN e) (ADDR_2_PAGE t0) 1;;
    kfree r0 PAGESIZE).

Definition ptref_free (ptbase_pfn ptbase_vpn ptref_base : Z) : M A unit :=
  for_entries (fun i =>
    let ptref2 := ref_entry ptref_base i in
    t1 ← get64 ptref2;
    if t1 =? 0 then mret tt else
    r1 ← get64 (ptref2 + 8);
    free_level1 t1 r1;;
    e ← get64 (ADDR ptbase_vpn (Z.shiftl i 3));
    dmafree (GET_PFN e) (ADDR_2_PAGE t1) 1;;
    kfree r1 (PAGESIZE * 2));;
  dmafree ptbase_pfn ptbase_vpn 1;;
  kfree ptref_base (PAGESIZE * 2).

(** Copy the pages of one last-level table. *)
Definition copy_pages0 (src_ptable src_ref dst_ptable dst_ref : Z) : M A unit :=
  for_entries (fun k =>
    v ← get64 (ref0_entry src_ref k);
    if v =? 0 then mret tt else
    '(pfn, kernel_vpn) ← dmalloc retain 1 false;
    e ← get64 (pte_in src_ptable k);
    put64 (pte_in dst_ptable k) (PTE pfn (GET_FLAGS e));;
    put64 (ref0_entry dst_ref k) kernel_vpn;;
    src ← get64 (ref0_entry src_ref k);
    on_mem (fun m => memcpy m (PAGE_2_ADDR kernel_vpn) (PAGE_2_ADDR src) PAGESIZE)).

(** A new level of the copy: a cleared table and its reference table. *)
Definition copy_level (dst_pte dst_ptref ref_size : Z) : M A unit :=
  '(pfn, kernel_vpn) ← dmalloc retain 1 true;
  r ← kalloc retain ref_size;
  put64 (dst_ptref + 8) r;;
  put64 dst_ptref (PAGE_2_ADDR kernel_vpn);;
  put64 dst_pte (PTE pfn PTE_VALID).

Definition copy_level1 (src_ref2 dst_ptable2 dst_ref2 : Z) : M A unit :=
  for_entries (fun j =>
    let src_ptref1 := ref_entry src_ref2 j in
    let dst_ptref1 := ref_entry dst_ref2 j in
    t ← get64 src_ptref1;
    if t =? 0 then mret tt else
    copy_level (pte_in dst_ptable2 j) dst_ptref1 PAGESIZE;;
    st ← get64 src_ptref1; sr ← get64 (src_ptref1 + 8);
    dt ← get64 dst_ptref1; dr ← get64 (dst_ptref1 + 8);
    copy_pages0 st sr dt dr).

Definition ptref_copy (dst_ptbase_vpn dst_ptref_base src_ptref_base : Z) : M A unit :=
  for_entries (fun i =>
    let src_ptref2 := ref_entry src_ptref_base i in
    let dst_ptref2 := ref_entry dst_ptref_base i in
    t ← get64 src_ptref2;
    if t =? 0 then mret tt else
    copy_level (ADDR dst_ptbase_vpn (Z.shiftl i 3)) dst_ptref2 (PAGESIZE * 2);;
    sr ← get64 (src_ptref2 + 8);
    dt ← get64 dst_ptref2; dr ← get64 (dst_ptref2 + 8);
    copy_level1 sr dt dr).

End Machine.
End UserPT.
