(* ===== verification/UserPTProps.v ===== *)
(** * User page tables: mapping and unmapping a page

    The tables of a process are kept apart by an ownership map of kernel pages:
    every page belongs to at most one table.  On a well-formed tree, mapping a
    page changes the translation of that page only; unmapping it clears the
    machine's entry and frees the page, and leaves the kernel's own reference to
    it in place. *)
From S2P Require Import Prelude Mem KernelPT PTBits Alloc AllocSpec UserPT.
Import KernelPT Alloc UserPT.

(** The tables of a process: the reference tables of the three levels, and the
    machine's tables of the lower two. *)
Inductive utag := RBase | R1 (i : Z) | R0 (i j : Z) | T1 (i : Z) | T0 (i j : Z).

(** The same indices at all three levels. *)
Definition same_page (v w : Z) : Prop := VPN 2 v = VPN 2 w /\ VPN 1 v = VPN 1 w /\ VPN 0 v = VPN 0 w.
#[global] Instance same_page_dec v w : Decision (same_page v w).
Proof. unfold same_page. apply _. Defined.

Section Tree.
Context (own : Z -> option utag) (base : Z).

Definition next1 (m : mem) (i : Z) : Z := ref_next m (ref_entry base i).
Definition table1 (m : mem) (i : Z) : Z := ref_ptable m (ref_entry base i).
Definition next0 (m : mem) (i j : Z) : Z := ref_next m (ref_entry (next1 m i) j).
Definition table0 (m : mem) (i j : Z) : Z := ref_ptable m (ref_entry (next1 m i) j).

(** An aligned run of [n] pages at [a] that belongs to the table [t]. *)
Definition owned (a n : Z) (t : utag) : Prop :=
  a mod 4096 = 0 /\ 0 < a /\ a + n * 4096 < 18446744073709551616 /\
  forall p, a / 4096 <= p < a / 4096 + n -> own p = Some t.

Record upt_wf (m : mem) : Prop := {
  uw_base : owned base 2 RBase;
  uw_1 : forall i, 0 <= i < 512 -> table1 m i <> 0 ->
    owned (next1 m i) 2 (R1 i) /\ owned (table1 m i) 1 (T1 i);
  uw_0 : forall i j, 0 <= i < 512 -> 0 <= j < 512 -> table1 m i <> 0 -> table0 m i j <> 0 ->
    owned (next0 m i j) 1 (R0 i j) /\ owned (table0 m i j) 1 (T0 i j);
}.

(** A word of the table [t], or of no table. *)
Definition word_of (t : option utag) (x : Z) : Prop := own (x / 4096) = t /\ x mod 8 = 0.

Lemma word_16 a t i o : owned a 2 t -> 0 <= i < 512 -> o = 0 \/ o = 8 ->
  ref_entry a i = a + i * 16 /\ word_of (Some t) (a + i * 16 + o).
Proof.
  intros (Ha & H0 & H1 & H2) Hi Ho. split; [apply u64_small; lia|].
  split; [apply H2; dlia|dlia].
Qed.

Lemma word_8 a t i : owned a 1 t -> 0 <= i < 512 -> ref0_entry a i = a + i * 8 /\ word_of (Some t) (a + i * 8).
Proof.
  intros (Ha & H0 & H1 & H2) Hi. split; [apply u64_small; lia|].
  split; [apply H2; dlia|dlia].
Qed.

Lemma pte_word a t i : owned a 1 t -> 0 <= i < 512 -> pte_in a i = a + i * 8 /\ word_of (Some t) (a + i * 8).
Proof.
  intros O Hi. split; [|by apply word_8]. destruct O as (Ha & _). unfold pte_in.
  rewrite Z.shiftl_mul_pow2 by lia. change (2 ^ 3) with 8.
  replace a with (a / 4096 * 2 ^ 12) by dlia. apply lor_shift_add; lia.
Qed.

(** A store to one word leaves every other word of the tables. *)
Lemma load_other m x y v tx ty : word_of tx x -> word_of ty y -> tx <> ty \/ x <> y ->
  load64 (store64 m x v) y = load64 m y.
Proof.
  intros [Ox Mx] [Oy My] H. apply (load_store_disjoint 8 8).
  assert (x <> y) by (intros ->; destruct H; [congruence|done]). dlia.
Qed.

(** The reference path of a user page. *)
Definition ref0 (m : mem) (v : Z) : Z := next0 m (VPN 2 v) (VPN 1 v) + VPN 0 v * 8.
Definition present (m : mem) (v : Z) : Prop :=
  table1 m (VPN 2 v) <> 0 /\ table0 m (VPN 2 v) (VPN 1 v) <> 0.
Definition upte (m : mem) (v : Z) : Z := table0 m (VPN 2 v) (VPN 1 v) + VPN 0 v * 8.

(** Memories that agree on the two upper reference levels. *)
Definition same_upper (m m' : mem) : Prop :=
  (forall i o, 0 <= i < 512 -> o = 0 \/ o = 8 ->
     load64 m' (base + i * 16 + o) = load64 m (base + i * 16 + o)) /\
  (forall i j o, 0 <= i < 512 -> 0 <= j < 512 -> o = 0 \/ o = 8 -> table1 m i <> 0 ->
     load64 m' (next1 m i + j * 16 + o) = load64 m (next1 m i + j * 16 + o)).

Lemma upper_tables m m' : upt_wf m -> same_upper m m' ->
  (forall i, 0 <= i < 512 -> table1 m' i = table1 m i /\ next1 m' i = next1 m i) /\
  (forall i j, 0 <= i < 512 -> 0 <= j < 512 -> table1 m i <> 0 ->
     table0 m' i j = table0 m i j /\ next0 m' i j = next0 m i j).
Proof.
  intros W [H1 H2].
  assert (E1 : forall i, 0 <= i < 512 -> table1 m' i = table1 m i /\ next1 m' i = next1 m i).
  { intros i Hi. unfold table1, next1, ref_ptable, ref_next.
    destruct (word_16 base RBase i 0 (uw_base m W) Hi (or_introl eq_refl)) as [-> _].
    pose proof (H1 i 0 Hi ltac:(auto)) as A. rewrite Z.add_0_r in A. split; [exact A|].
    apply (H1 i 8); auto. }
  split; [done|]. intros i j Hi Hj Ht. unfold table0, next0, ref_ptable, ref_next.
  destruct (E1 i Hi) as [_ ->]. destruct (uw_1 m W i Hi Ht) as [O _].
  destruct (word_16 _ _ j 0 O Hj (or_introl eq_refl)) as [-> _].
  pose proof (H2 i j 0 Hi Hj ltac:(auto) Ht) as A. rewrite Z.add_0_r in A. split; [exact A|].
  apply (H2 i j 8); auto.
Qed.

Lemma upper_wf m m' : upt_wf m -> same_upper m m' -> upt_wf m'.
Proof.
  intros W S. destruct (upper_tables m m' W S) as [E1 E0]. split.
  - apply W.
  - intros i Hi. destruct (E1 i Hi) as [-> ->]. by apply (uw_1 m W).
  - intros i j Hi Hj. destruct (E1 i Hi) as [-> _]. intros Ht.
    destruct (E0 i j Hi Hj Ht) as [-> ->]. by apply (uw_0 m W).
Qed.

Lemma store_upper m x v t : upt_wf m -> word_of t x -> (forall i, t <> Some (R1 i)) -> t <> Some RBase ->
  same_upper m (store64 m x v).
Proof.
  intros W Hx H1 Hb. split.
  - intros i o Hi Ho. destruct (word_16 base RBase i o (uw_base m W) Hi Ho) as [_ Hw].
    eapply load_other; [exact Hx|exact Hw|by left].
  - intros i j o Hi Hj Ho Ht. destruct (uw_1 m W i Hi Ht) as [O _].
    destruct (word_16 _ _ j o O Hj Ho) as [_ Hw].
    eapply load_other; [exact Hx|exact Hw|by left].
Qed.

Lemma same_upper_trans m1 m2 m3 : upt_wf m1 -> same_upper m1 m2 -> same_upper m2 m3 -> same_upper m1 m3.
Proof.
  intros W S12 S23. destruct (upper_tables m1 m2 W S12) as [E1 _].
  destruct S12 as [A1 A2], S23 as [B1 B2]. split.
  - intros i o Hi Ho. by rewrite B1, A1.
  - intros i j o Hi Hj Ho Ht. destruct (E1 i Hi) as [T N].
    rewrite <- N. rewrite B2; [|done|done|done|by rewrite T]. rewrite N. by apply A2.
Qed.

Lemma walkupt_present m v : upt_wf m -> present m v -> walkupt m base v = load64 m (ref0 m v).
Proof.
  intros W [H1 H0]. unfold walkupt. fold (table1 m (VPN 2 v)) (next1 m (VPN 2 v)).
  fold (table0 m (VPN 2 v) (VPN 1 v)) (next0 m (VPN 2 v) (VPN 1 v)).
  rewrite !(proj2 (Z.eqb_neq _ _)) by done.
  destruct (uw_0 m W (VPN 2 v) (VPN 1 v)) as [O _]; [apply VPN_range|apply VPN_range|done|done|].
  destruct (word_8 _ _ (VPN 0 v) O (VPN_range 0 v)) as [-> _]. done.
Qed.

Lemma walkupt_absent m v : ~ present m v -> walkupt m base v = 0.
Proof.
  intros H. unfold walkupt. fold (table1 m (VPN 2 v)) (next1 m (VPN 2 v)).
  fold (table0 m (VPN 2 v) (VPN 1 v)).
  destruct (Z.eqb_spec (table1 m (VPN 2 v)) 0); [done|].
  destruct (Z.eqb_spec (table0 m (VPN 2 v) (VPN 1 v)) 0); [done|]. by destruct H.
Qed.

Lemma words_of_page m v : upt_wf m -> present m v ->
  word_of (Some (R0 (VPN 2 v) (VPN 1 v))) (ref0 m v) /\
  word_of (Some (T0 (VPN 2 v) (VPN 1 v))) (upte m v).
Proof.
  intros W [H1 H0].
  destruct (uw_0 m W (VPN 2 v) (VPN 1 v)) as [O O']; [apply VPN_range|apply VPN_range|done|done|].
  split; [apply (word_8 _ _ _ O (VPN_range 0 v))|apply (word_8 _ _ _ O' (VPN_range 0 v))].
Qed.

Lemma upper_present m m' v : upt_wf m -> same_upper m m' ->
  (present m' v <-> present m v) /\ (present m v -> ref0 m' v = ref0 m v /\ upte m' v = upte m v).
Proof.
  intros W S. destruct (upper_tables m m' W S) as [E1 E0]. unfold present, ref0, upte.
  destruct (E1 (VPN 2 v) (VPN_range 2 v)) as [T1' _]. rewrite T1'.
  split.
  - split; intros [H1 H0]; (split; [done|]);
      destruct (E0 _ _ (VPN_range 2 v) (VPN_range 1 v) H1) as [E _]; congruence.
  - intros [H1 _]. by destruct (E0 _ _ (VPN_range 2 v) (VPN_range 1 v) H1) as [-> ->].
Qed.

(** The translations after a word outside the reference tables has changed. *)
Lemma walkupt_other m x y t w : upt_wf m -> word_of t x ->
  (forall i, t <> Some (R1 i)) -> t <> Some RBase -> (forall i j, t <> Some (R0 i j)) ->
  walkupt (store64 m x y) base w = walkupt m base w.
Proof.
  intros W Hx H1 Hb H0. pose proof (store_upper m x y t W Hx H1 Hb) as S.
  pose proof (upper_wf _ _ W S) as W'. destruct (upper_present m _ w W S) as [Hp Hr].
  destruct (decide (present m w)) as [Hw|Hw].
  - rewrite (walkupt_present _ w W' (proj2 Hp Hw)), (walkupt_present m w W Hw).
    destruct (Hr Hw) as [-> _]. destruct (words_of_page m w W Hw) as [Ww _].
    eapply load_other; [exact Hx|exact Ww|left; apply H0].
  - rewrite (walkupt_absent _ w), (walkupt_absent m w); [done|done|tauto].
Qed.

(** The translations after one word of the last reference level has changed. *)
Lemma walkupt_put_ref m v k w : upt_wf m -> present m v -> 0 <= k < 18446744073709551616 ->
  walkupt (store64 m (ref0 m v) k) base w = if decide (same_page v w) then k else walkupt m base w.
Proof.
  intros W Hv Hk. destruct (words_of_page m v W Hv) as [Wv _].
  assert (S : same_upper m (store64 m (ref0 m v) k)) by (eapply store_upper; [done|exact Wv|done|done]).
  pose proof (upper_wf _ _ W S) as W'. destruct (upper_present m _ w W S) as [Hp Hr].
  destruct (decide (same_page v w)) as [Hs|Hs].
  - assert (Hw : present m w) by (destruct Hs as (E2 & E1 & _); unfold present; by rewrite <- E2, <- E1).
    rewrite (walkupt_present _ w W' (proj2 Hp Hw)). destruct (Hr Hw) as [-> _].
    replace (ref0 m w) with (ref0 m v) by (destruct Hs as (E2 & E1 & E0); unfold ref0; by rewrite E2, E1, E0).
    by apply load64_same.
  - destruct (decide (present m w)) as [Hw|Hw].
    + rewrite (walkupt_present _ w W' (proj2 Hp Hw)), (walkupt_present m w W Hw).
      destruct (Hr Hw) as [-> _]. destruct (words_of_page m w W Hw) as [Ww _].
      eapply load_other; [exact Wv|exact Ww|].
      destruct (decide (VPN 2 v = VPN 2 w /\ VPN 1 v = VPN 1 w)) as [[E2 E1]|Hne]; [right|left; naive_solver].
      intros E. apply Hs. split; [done|]. split; [done|]. unfold ref0 in E. rewrite E2, E1 in E. lia.
    + rewrite (walkupt_absent _ w), (walkupt_absent m w); [done|done|tauto].
Qed.

Lemma get64_run a s : get64 a s = Ret (load64 (amem s) a, s).
Proof. done. Qed.

Lemma upt_level_present retain pte r n s : load64 (amem s) r <> 0 ->
  upt_level retain pte r n s = Ret (tt, s).
Proof.
  intros H. unfold upt_level. rewrite (bind_ret_l _ _ _ _ _ (get64_run r s)).
  by rewrite (proj2 (Z.eqb_neq _ _) H).
Qed.

Lemma load64_ref m v : upt_wf m -> present m v ->
  load64 m (ref_entry base (VPN 2 v)) = table1 m (VPN 2 v) /\
  load64 m (ref_entry (load64 m (ref_entry base (VPN 2 v) + 8)) (VPN 1 v)) = table0 m (VPN 2 v) (VPN 1 v) /\
  pte_in (table0 m (VPN 2 v) (VPN 1 v)) (VPN 0 v) = upte m v /\
  ref0_entry (next0 m (VPN 2 v) (VPN 1 v)) (VPN 0 v) = ref0 m v.
Proof.
  intros W [H1 H0]. split; [done|]. split; [done|].
  destruct (uw_0 m W (VPN 2 v) (VPN 1 v)) as [O O']; [apply VPN_range|apply VPN_range|done|done|].
  split; [apply (pte_word _ _ _ O' (VPN_range 0 v))|apply (word_8 _ _ _ O (VPN_range 0 v))].
Qed.

Lemma uptmap_ok retain uptbase k v pfn fl s :
  upt_wf (amem s) -> present (amem s) v ->
  uptmap retain uptbase base k v pfn fl s =
    Ret (tt, set_amem (store64 (store64 (amem s) (upte (amem s) v) (PTE pfn fl)) (ref0 (amem s) v) k) s).
Proof.
  intros W Hv. destruct (load64_ref (amem s) v W Hv) as (E1 & E0 & Ep & Er). pose proof Hv as [H1 H0].
  unfold uptmap. rewrite (bind_ret_l _ _ _ _ _ (upt_level_present _ _ _ _ s ltac:(by rewrite E1))).
  rewrite (bind_ret_l _ _ _ _ _ (get64_run _ s)), (bind_ret_l _ _ _ _ _ (get64_run _ s)).
  rewrite (bind_ret_l _ _ _ _ _ (upt_level_present _ _ _ _ s ltac:(by rewrite E0))).
  rewrite (bind_ret_l _ _ _ _ _ (get64_run _ s)), (bind_ret_l _ _ _ _ _ (get64_run _ s)).
  rewrite E0, Ep. fold (ref_next (amem s) (ref_entry base (VPN 2 v))).
  fold (next1 (amem s) (VPN 2 v)). fold (ref_next (amem s) (ref_entry (next1 (amem s) (VPN 2 v)) (VPN 1 v))).
  fold (next0 (amem s) (VPN 2 v) (VPN 1 v)). rewrite Er. reflexivity.
Qed.

Lemma uptunmap_ok uptbase v s k :
  upt_wf (amem s) -> present (amem s) v -> walkupt (amem s) base v = k -> k <> 0 ->
  uptunmap uptbase base v s =
    (dmafree (GET_PFN (load64 (amem s) (upte (amem s) v))) k 1;; put64 (upte (amem s) v) 0) s.
Proof.
  intros W Hv Hk Hk0. destruct (load64_ref (amem s) v W Hv) as (E1 & E0 & Ep & Er). pose proof Hv as [H1 H0].
  rewrite (walkupt_present _ _ W Hv) in Hk.
  unfold uptunmap. rewrite (bind_ret_l _ _ _ _ _ (get64_run _ s)), E1.
  rewrite (proj2 (Z.eqb_neq _ _) H1). rewrite (bind_ret_l _ _ _ _ _ (get64_run _ s)).
  rewrite (bind_ret_l _ _ _ _ _ (get64_run _ s)), E0. rewrite (proj2 (Z.eqb_neq _ _) H0).
  do 3 rewrite (bind_ret_l _ _ _ _ _ (get64_run _ s)). rewrite Ep.
  fold (ref_next (amem s) (ref_entry base (VPN 2 v))).
  fold (next1 (amem s) (VPN 2 v)). fold (ref_next (amem s) (ref_entry (next1 (amem s) (VPN 2 v)) (VPN 1 v))).
  fold (next0 (amem s) (VPN 2 v) (VPN 1 v)). rewrite Er, Hk.
  rewrite (proj2 (Z.eqb_neq _ _) Hk0). reflexivity.
Qed.

End Tree.

(** The two stores that map a page of a well-formed tree whose upper levels are
    present: one translation changes, and the tree stays well-formed. *)
Lemma map_page own base m v pte k :
  upt_wf own base m -> present base m v -> 0 <= k < 18446744073709551616 -> 0 <= pte < 18446744073709551616 ->
  let m' := store64 (store64 m (upte base m v) pte) (ref0 base m v) k in
  upt_wf own base m' /\ same_upper base m m' /\ load64 m' (upte base m v) = pte /\
  forall w, walkupt m' base w = if decide (same_page v w) then k else walkupt m base w.
Proof.
  intros W Hv Hk Hp. destruct (words_of_page own base m v W Hv) as [Wr Wp].
  set (m1 := store64 m (upte base m v) pte).
  assert (S1 : same_upper base m m1) by (eapply store_upper; [done|exact Wp|done|done]).
  pose proof (upper_wf own base _ _ W S1) as W1.
  destruct (upper_present own base m m1 v W S1) as [P1 R1]. destruct (R1 Hv) as [Er _].
  assert (S2 : same_upper base m1 (store64 m1 (ref0 base m v) k))
    by (eapply store_upper; [done|exact Wr|done|done]).
  split; [by apply (upper_wf own base m1)|]. split; [by eapply same_upper_trans|]. split.
  - rewrite (load_other own _ _ _ _ _ _ Wr Wp) by (by left). by apply load64_same.
  - intros w. rewrite <- Er. rewrite (walkupt_put_ref own base m1 v k w W1 (proj2 P1 Hv) Hk).
    case_decide; [reflexivity|]. by eapply walkupt_other; [exact W|exact Wp|..].
Qed.

(** Uptunmap clears the machine's entry of a mapped page and gives the page
    back to the allocator, but every kernel translation stays as it was: walkupt
    still returns the freed kernel page for the user page, and a second uptunmap
    or ptref_free frees it again. *)
Theorem uptunmap_keeps_reference own base uptbase v k s :
  upt_wf own base (amem s) -> present base (amem s) v ->
  walkupt (amem s) base v = k -> 0 < k < 4503599627370496 -> own k = None ->
  exists s', uptunmap uptbase base v s = Ret (tt, s') /\
    load64 (amem s') (upte base (amem s) v) = 0 /\
    ptfreelist s' = k * 4096 /\
    (forall w, walkupt (amem s') base w = walkupt (amem s) base w).
Proof.
  intros W Hv Hw Hk Hown. rewrite (uptunmap_ok own base uptbase v s k W Hv Hw) by lia.
  eexists. split; [reflexivity|]. cbn [ptfreelist set_ptfreelist amem].
  rewrite PAGE_2_ADDR_small by lia.
  destruct (words_of_page own base (amem s) v W Hv) as [_ Wp].
  assert (N : forall o, o = 0 \/ o = 8 \/ o = 16 -> word_of own None (k * 4096 + o)).
  { intros o Ho. split; [|dlia]. replace ((k * 4096 + o) / 4096) with k by dlia. done. }
  split; [by apply load64_same|]. split; [done|]. intros w.
  set (m := amem s) in *.
  assert (H1 : forall m' o y, upt_wf own base m' -> o = 0 \/ o = 8 \/ o = 16 ->
    upt_wf own base (store64 m' (k * 4096 + o) y) /\
    walkupt (store64 m' (k * 4096 + o) y) base w = walkupt m' base w).
  { intros m' o y W' Ho. split.
    - eapply upper_wf; [exact W'|]. eapply store_upper; [exact W'|by apply N|done|done].
    - by eapply walkupt_other; [exact W'|by apply N|..]. }
  pose proof (H1 m 0 1 W ltac:(auto)) as [Wa Ea]. rewrite Z.add_0_r in Wa, Ea.
  pose proof (H1 _ 8 (GET_PFN (load64 m (upte base m v))) Wa ltac:(auto)) as [Wb Eb].
  pose proof (H1 _ 16 (ptfreelist s) Wb ltac:(auto)) as [Wc Ec].
  etransitivity; [eapply walkupt_other; [exact Wc|exact Wp|done|done|done]|].
  exact (eq_trans Ec (eq_trans Eb Ea)).
Qed.

(** ** Witnesses: a process with one table per level, user page 1 at kernel page
    1536 *)
Definition upt_mem : mem :=
  let m : mem := fun _ => 0 in
  let m := store64 m 1048576 2097152 in
  let m := store64 m 1048584 3145728 in
  let m := store64 m 3145728 4194304 in
  let m := store64 m 3145736 5242880 in
  store64 m 5242888 1536.
Definition upt_own (p : Z) : option utag :=
  if (p =? 256) || (p =? 257) then Some RBase
  else if (p =? 768) || (p =? 769) then Some (R1 0)
  else if p =? 512 then Some (T1 0)
  else if p =? 1280 then Some (R0 0 0)
  else if p =? 1024 then Some (T0 0 0)
  else None.
Definition upt_state : A :=
  mkA (mkK upt_mem (fun _ _ => 0) (fun _ => None) 0 0 0 0) 0 0 PTBRK0 KBRK0.

Lemma upt_mem_zero a :
  a mod 8 = 0 -> a <> 1048576 -> a <> 1048584 -> a <> 3145728 -> a <> 3145736 -> a <> 5242888 ->
  load64 upt_mem a = 0.
Proof.
  intros H0 H1 H2 H3 H4 H5. unfold upt_mem. rewrite !load64_other by dlia. reflexivity.
Qed.

Lemma upt_owned a n t : a mod 4096 = 0 -> 0 < a < 4503599627370496 -> n = 1 \/ n = 2 ->
  upt_own (a / 4096) = Some t -> (n = 2 -> upt_own (a / 4096 + 1) = Some t) -> owned upt_own a n t.
Proof.
  intros H1 H2 H3 H4 H5. split; [done|]. split; [lia|]. split; [lia|]. intros p Hp.
  destruct (decide (p = a / 4096)) as [->|]; [done|]. destruct H3 as [->| ->]; [lia|].
  replace p with (a / 4096 + 1) by lia. by apply H5.
Qed.

Lemma upt_mem_wf : upt_wf upt_own 1048576 upt_mem.
Proof.
  assert (Hb : owned upt_own 1048576 2 RBase) by (apply upt_owned; try done; try lia).
  assert (Ht1 : forall i, 0 <= i < 512 -> table1 1048576 upt_mem i <> 0 -> i = 0).
  { intros i Hi Hne. destruct (decide (i = 0)); [done|]. exfalso. apply Hne.
    unfold table1, ref_ptable. destruct (word_16 upt_own _ _ i 0 Hb Hi (or_introl eq_refl)) as [-> _].
    apply upt_mem_zero; dlia. }
  assert (H1 : owned upt_own (next1 1048576 upt_mem 0) 2 (R1 0)).
  { change (next1 1048576 upt_mem 0) with 3145728. apply upt_owned; try done; try lia. }
  assert (Ht0 : forall j, 0 <= j < 512 -> table0 1048576 upt_mem 0 j <> 0 -> j = 0).
  { intros j Hj Hne. destruct (decide (j = 0)); [done|]. exfalso. apply Hne.
    unfold table0, ref_ptable. destruct (word_16 upt_own _ _ j 0 H1 Hj (or_introl eq_refl)) as [-> _].
    change (next1 1048576 upt_mem 0) with 3145728. apply upt_mem_zero; dlia. }
  split; [done| |].
  - intros i Hi Hne. pose proof (Ht1 i Hi Hne). subst. split; [done|].
    change (table1 1048576 upt_mem 0) with 2097152. apply upt_owned; try done; try lia.
  - intros i j Hi Hj Hne Hne'. pose proof (Ht1 i Hi Hne). subst. pose proof (Ht0 j Hj Hne'). subst.
    change (next0 1048576 upt_mem 0 0) with 5242880. change (table0 1048576 upt_mem 0 0) with 4194304.
    split; (apply upt_owned; try done; try lia).
Qed.

Lemma upt_present : present 1048576 upt_mem 1.
Proof. split; vm_compute; discriminate. Qed.

Lemma uptunmap_keeps_reference_witness :
  exists s', uptunmap 0 1048576 1 upt_state = Ret (tt, s') /\
    ptfreelist s' = 6291456 /\ walkupt (amem s') 1048576 1 = 1536.
Proof.
  destruct (uptunmap_keeps_reference upt_own 1048576 0 1 1536 upt_state upt_mem_wf upt_present
    ltac:(reflexivity) ltac:(lia) ltac:(reflexivity)) as (s' & E & _ & F & H).
  exists s'. split; [exact E|]. split; [exact F|]. rewrite H. reflexivity.
Defined.
