(* ===== verification/FsTypes.v ===== *)
(** * Files and the on-disk format (kernel/file.h, filesystem.h, fs_file.c)

    The data of the file system: bitmaps, inodes, directory entries, the super
    block, and the state its code works on.  Of the block device file the file
    system sees the bytes [dev] for which the buffered block device stands, and
    [cached], the blocks that have a valid buffer: on those read_bytes and
    write_bytes are exact, need no memory and ask the driver nothing
    (BlockCacheProps.v).  An access to any other block runs [cold].  [FSFile]
    objects live in a heap of typed cells, so an access to a freed one is a
    [Fault].  There is one file system, [rootfs],
    and the [fs] pointer of an FSFile always points to it. *)
From S2P Require Import Prelude Mem KernelPT Alloc.
Import KernelPT Alloc.

Module FsTypes.

Definition DIRECT_PTRS : Z := 25.
Definition ptr_per_page : Z := 1024.

(** ** Bitmaps (kernel/filesystem.h) *)
Definition BITMAP_OFFSET (x : Z) : Z := Z.shiftr x 3.
Definition BITMAP_BITS (x : Z) : Z := Z.land x 7.
Definition BITMAP_GET (byte x : Z) : Z := Z.land (Z.shiftr byte (BITMAP_BITS x)) 1.
Definition BITMAP_SET (byte x : Z) : Z := u8 (Z.lor byte (Z.shiftl 1 (BITMAP_BITS x))).
Definition BITMAP_CLEAR (byte x : Z) : Z :=
  u8 (Z.land byte (Z.lnot (Z.shiftl 1 (BITMAP_BITS x)))).
Definition BITMAP_2_ADDR (offset byte : Z) : Z :=
  Z.lor (u32 (Z.shiftl offset 3)) (BITMAP_BITS byte).

(** ** enum FileType and the permission bits (kernel/file.h) *)
Definition DIRECTORY : Z := 0.
Definition REGULAR : Z := 1.
Definition SYMBOLIC_LINK : Z := 2.
Definition DEVICE : Z := 3.
Definition PERMISSION_R : Z := 4.
Definition PERMISSION_W : Z := 2.
Definition PERMISSION_X : Z := 1.

Record Inode := mkInode {
  itype : Z;
  permission : Z;
  size_bytes : Z;
  direct : list Z;
  single_ind : Z;
  double_ind : Z;
  triple_ind : Z;
}.

Record FSFile := mkFS { inum : Z; rc : Z }.

Record SuperBlock := mkSuper {
  magic : Z;
  inode_bitmap_blocks : Z;
  data_bitmap_blocks : Z;
  inode_table_blocks : Z;
  size_blocks : Z;
  root_inode : Z;
}.

Record Filesystem := mkFilesystem {
  super : SuperBlock;
  root : FSFile;
  dev_dir : FSFile;
  inode_bitmap_offset : Z;
  data_bitmap_offset : Z;
  inode_table_offset : Z;
}.

(** The sets of function pointers a File is given: wrap_fsfile,
    wrap_block_buffer_file, stdin, stdout and stderr, wrap_virtio_gpu_file. *)
Inductive fops := fs_ops | blk_ops | stdin_ops | stdout_ops | gpu_ops.

Record File := mkFile { fsuper : Z; ftype : Z; ops : fops }.

Record FileDescriptor := mkFD {
  occupied : bool;
  open_flags : Z;
  file : File;
  seek : Z;
}.

(** ** Layout on the device: sizeof(Inode) = 128, sizeof(DirEntry) = 64 *)
Definition sizeof_Inode : Z := 128.
Definition sizeof_DirEntry : Z := 64.
Definition sizeof_FSFile : Z := 16.
Definition sizeof_SuperBlock : Z := 24.

Definition load_inode (d : mem) (a : Z) : Inode :=
  mkInode (load32 d a) (load32 d (a + 4)) (load64 d (a + 8))
    (map (fun i => load32 d (a + 16 + 4 * Z.of_nat i)) (seq 0 25))
    (load32 d (a + 116)) (load32 d (a + 120)) (load32 d (a + 124)).

Fixpoint store_words (d : mem) (a : Z) (l : list Z) : mem :=
  match l with
  | [] => d
  | w :: l' => store_words (store32 d a w) (a + 4) l'
  end.

Definition store_inode (d : mem) (a : Z) (i : Inode) : mem :=
  let d := store32 d a (itype i) in
  let d := store32 d (a + 4) (permission i) in
  let d := store64 d (a + 8) (size_bytes i) in
  let d := store_words d (a + 16) (direct i) in
  let d := store32 d (a + 116) (single_ind i) in
  let d := store32 d (a + 120) (double_ind i) in
  store32 d (a + 124) (triple_ind i).

Definition load_super (d : mem) (a : Z) : SuperBlock :=
  mkSuper (load32 d a) (load32 d (a + 4)) (load32 d (a + 8)) (load32 d (a + 12))
    (load32 d (a + 16)) (load32 d (a + 20)).

Definition set_size_bytes (n : Z) (i : Inode) : Inode :=
  mkInode (itype i) (permission i) n (direct i) (single_ind i) (double_ind i) (triple_ind i).
Definition set_permission (p : Z) (i : Inode) : Inode :=
  mkInode (itype i) p (size_bytes i) (direct i) (single_ind i) (double_ind i) (triple_ind i).
Definition set_direct (l : list Z) (i : Inode) : Inode :=
  mkInode (itype i) (permission i) (size_bytes i) l (single_ind i) (double_ind i) (triple_ind i).
Definition set_single (b : Z) (i : Inode) : Inode :=
  mkInode (itype i) (permission i) (size_bytes i) (direct i) b (double_ind i) (triple_ind i).
Definition set_double (b : Z) (i : Inode) : Inode :=
  mkInode (itype i) (permission i) (size_bytes i) (direct i) (single_ind i) b (triple_ind i).
Definition set_triple (b : Z) (i : Inode) : Inode :=
  mkInode (itype i) (permission i) (size_bytes i) (direct i) (single_ind i) (double_ind i) b.

(** ** The block layer below the file system

    What translate_bytes of block_device.c may change when a block of the range
    has no valid buffer: kernel memory and the heaps (dmalloc), the bytes the
    device shows (a buffer handed out for another block) and the set of cached
    blocks.  [bl_read off n] delivers the bytes of the range, [bl_write off n b]
    stores those of [b]; BlockCache.v has the code, which needs the driver. *)
Record View := mkView { v_a : A; v_dev : mem; v_cached : Z -> bool }.
Record BlockLayer := mkLayer {
  bl_read : Z -> Z -> M View mem;
  bl_write : Z -> Z -> mem -> M View unit;
}.

(** ** The state: kernel memory with its allocators, the block device file, the
    file system record, the FSFile objects, the console and the frame buffer
    (virtio_gpu.frame_buffer_dma.vpn and virtio_gpu.size). *)
Record F := mkF {
  fa : A;
  dev : mem;
  dsize : Z;
  rootfs : Filesystem;
  objs : gmap Z FSFile;
  con_in : list Z;
  con_out : list Z;
  fb_vpn : Z;
  fb_size : Z;
  cached : Z -> bool;
  cold : BlockLayer;
}.

Definition set_fa (a : A) (s : F) : F :=
  mkF a (dev s) (dsize s) (rootfs s) (objs s) (con_in s) (con_out s) (fb_vpn s) (fb_size s)
    (cached s) (cold s).
Definition set_dev (d : mem) (s : F) : F :=
  mkF (fa s) d (dsize s) (rootfs s) (objs s) (con_in s) (con_out s) (fb_vpn s) (fb_size s)
    (cached s) (cold s).
Definition set_rootfs (r : Filesystem) (s : F) : F :=
  mkF (fa s) (dev s) (dsize s) r (objs s) (con_in s) (con_out s) (fb_vpn s) (fb_size s)
    (cached s) (cold s).
Definition set_objs (o : gmap Z FSFile) (s : F) : F :=
  mkF (fa s) (dev s) (dsize s) (rootfs s) o (con_in s) (con_out s) (fb_vpn s) (fb_size s)
    (cached s) (cold s).
Definition set_con (i o : list Z) (s : F) : F :=
  mkF (fa s) (dev s) (dsize s) (rootfs s) (objs s) i o (fb_vpn s) (fb_size s)
    (cached s) (cold s).
Definition set_cached (c : Z -> bool) (s : F) : F :=
  mkF (fa s) (dev s) (dsize s) (rootfs s) (objs s) (con_in s) (con_out s) (fb_vpn s) (fb_size s)
    c (cold s).

Definition in_view {X} (m : M View X) : M F X := fun s =>
  match m (mkView (fa s) (dev s) (cached s)) with
  | Ret (x, v) => Ret (x, set_cached (v_cached v) (set_dev (v_dev v) (set_fa (v_a v) s)))
  | Panic => Panic | Fault => Fault | NoFuel => NoFuel
  end.

Definition fmem (s : F) : mem := amem (fa s).
Definition set_fmem (m : mem) (s : F) : F := set_fa (set_amem m (fa s)) s.
Definition on_fmem (f : mem -> mem) : M F unit := modify (fun s => set_fmem (f (fmem s)) s).

Definition in_fa {X} (m : M A X) : M F X := fun s =>
  match m (fa s) with
  | Ret (x, a) => Ret (x, set_fa a s)
  | Panic => Panic | Fault => Fault | NoFuel => NoFuel
  end.

(** ** FSFile objects *)
Definition get_obj (p : Z) : M F FSFile := o ← gets objs; lift (of_option (o !! p)).
Definition put_obj (p : Z) (v : FSFile) : M F unit :=
  modify (fun s => set_objs (<[p := v]> (objs s)) s).
(** [p->field = ...] for an object that must exist. *)
Definition upd_obj (p : Z) (f : FSFile -> FSFile) : M F unit := v ← get_obj p; put_obj p (f v).
(** [kfree(p, sizeof(FSFile))] *)
Definition free_obj (p : Z) : M F unit :=
  v ← get_obj p; in_fa (kfree p sizeof_FSFile);; modify (fun s => set_objs (delete p (objs s)) s).

Definition set_inum (n : Z) (v : FSFile) : FSFile := mkFS n (rc v).
Definition set_rc (n : Z) (v : FSFile) : FSFile := mkFS (inum v) n.

(** A pointer to an FSFile that is only read through: an object of the heap, or
    a structure that does not change during the call (the root of the file
    system, the working directory of a process). *)
Inductive fsref := RVal (v : FSFile) | RObj (p : Z).
Definition deref (r : fsref) : M F FSFile :=
  match r with RVal v => mret v | RObj p => get_obj p end.

End FsTypes.
