(* ===== verification/FsCode.v ===== *)
(** * The file system (kernel/fs_file.c, filesystem.c)

    Inodes, the block map of a file, the two bitmaps, path lookup and file
    creation, as they are in the C code.  A local variable that a failed read
    leaves uninitialised is [None], and using it is a [Fault]. *)
From S2P Require Import Prelude Mem CString KernelPT Alloc FsTypes.
Import KernelPT Alloc FsTypes.

Module FsCode.

(** ** read_bytes and write_bytes under the file system

    Every block that translate_bytes visits for the range has a valid buffer.
    Then get_block_buffer hits for each of them, no block is filled or written
    back, and the bytes are copied. *)
Definition warm (s : F) (off n : Z) : bool :=
  forallb (fun k => cached s (ADDR_2_PAGE off + Z.of_nat k))
    (seq 0 (Z.to_nat (ADDR_2_PAGEUP (off + n) - ADDR_2_PAGE off))).

Definition blit (src : mem) (a : Z) (dst : mem) (b n : Z) : mem := fun x =>
  if (b <=? x) && (x <? b + n) then src (a + (x - b)) else dst x.

(** The bytes of the range, at their places on the device. *)
Definition fetch_bytes (off n : Z) : M F mem :=
  s ← gets id;
  if warm s off n then mret (dev s) else in_view (bl_read (cold s) off n).
(** [f] puts the bytes written at their places on the device. *)
Definition store_bytes (off n : Z) (f : mem -> mem) : M F unit :=
  s ← gets id;
  if warm s off n then modify (set_dev (f (dev s)))
  else in_view (bl_write (cold s) off n (f (fun _ => 0))).

(** A range that wraps around 2^64 and still passes the check of wrapped_read
    moves no block, or an undefined amount when both ends are in one block. *)
Definition blk_range (off n : Z) (transfer : M F unit) : M F Z :=
  (if off + n <? 18446744073709551616 then transfer
   else if ADDR_2_PAGEUP (off + n) <=? ADDR_2_PAGE off then mret tt
   else lift Fault);; mret 0.

Definition blk_read (off buf n : Z) : M F Z :=
  blk_range off n (d ← fetch_bytes off n;
                   modify (fun s => set_fmem (blit d off (fmem s) buf n) s)).
Definition blk_write (off buf n : Z) : M F Z :=
  blk_range off n (m ← gets fmem; store_bytes off n (fun d => blit m buf d off n)).

(** ** wrapped_read and wrapped_write at the block device file

    Its permission is [static_rw], its size [dsize], its [read] and [write]
    those of the block device. *)
Definition dev_read (off buf n : Z) : M F Z :=
  sz ← gets dsize; if sz <? u64 (off + n) then mret (-1) else blk_read off buf n.
Definition dev_write (off buf n : Z) : M F Z :=
  sz ← gets dsize; if sz <? u64 (off + n) then mret (-1) else blk_write off buf n.

(** The same into and from a local variable of [n] bytes. *)
Definition dev_get {X} (off n : Z) (f : mem -> Z -> X) : M F (option X) :=
  sz ← gets dsize;
  if sz <? u64 (off + n) then mret None else d ← fetch_bytes off n; mret (Some (f d off)).
Definition dev_put (off n : Z) (f : mem -> Z -> mem) : M F Z :=
  sz ← gets dsize;
  if sz <? u64 (off + n) then mret (-1) else store_bytes off n (fun d => f d off);; mret 0.

Definition get_byte (off : Z) : M F (option Z) := dev_get off 1 (fun d a => d a).
Definition get_u32 (off : Z) : M F (option Z) := dev_get off 4 load32.
Definition put_u32 (off v : Z) : M F Z := dev_put off 4 (fun d a => store32 d a (u32 v)).

(** ** Inodes *)
Definition get_inode (ino : Z) : M F (option Inode) :=
  fs ← gets rootfs;
  b ← get_byte (ADDR (inode_bitmap_offset fs) (BITMAP_OFFSET ino));
  bitmap_byte ← lift (of_option b);
  if BITMAP_GET bitmap_byte ino =? 0 then mret None
  else dev_get (ADDR (inode_table_offset fs) (ino * sizeof_Inode)) sizeof_Inode load_inode.

(** [get_inode(file, &inode)] whose result is ignored and [inode] used. *)
Definition the_inode (ino : Z) : M F Inode := i ← get_inode ino; lift (of_option i).

Definition fs_file_sync (ino : Z) (inode : Inode) : M F Z :=
  fs ← gets rootfs;
  dev_put (ADDR (inode_table_offset fs) (ino * sizeof_Inode)) sizeof_Inode
    (fun d a => store_inode d a inode).

(** ** The block map: the block of page [id] of a file *)
Definition phy_page (inode : Inode) (id : Z) : M F Z :=
  if id <? DIRECT_PTRS then lift (of_option (direct inode !! Z.to_nat id))
  else if id <? DIRECT_PTRS + ptr_per_page then
    p ← get_u32 (ADDR (single_ind inode) ((id - DIRECT_PTRS) * 4)); lift (of_option p)
  else if id <? DIRECT_PTRS + ptr_per_page + ptr_per_page * ptr_per_page then
    let read_id := id - (DIRECT_PTRS + ptr_per_page) in
    p ← get_u32 (ADDR (double_ind inode) (read_id / ptr_per_page));
    p1 ← lift (of_option p);
    q ← get_u32 (ADDR p1 (Z.land read_id (ptr_per_page - 1)));
    mret (default p1 q)
  else
    let read_id := id - (DIRECT_PTRS + ptr_per_page + ptr_per_page * ptr_per_page) in
    p ← get_u32 (ADDR (triple_ind inode) (read_id / ptr_per_page / ptr_per_page));
    p1 ← lift (of_option p);
    q ← get_u32 (ADDR p1 (Z.land (read_id / ptr_per_page) (ptr_per_page - 1)));
    let p2 := default p1 q in
    r ← get_u32 (ADDR p2 (Z.land read_id (ptr_per_page - 1)));
    mret (default p2 r).

Fixpoint translate_fs_loop (fuel : nat) (inode : Inode)
    (id stop page_offset page_max buffer : Z) (write : bool) : M F unit :=
  match fuel with
  | O => mret tt
  | S k =>
      if id <? stop then
        let temp_page := if PAGESIZE <? page_max then PAGESIZE else page_max in
        let page_max' := if PAGESIZE <? page_max then u64 (page_max - PAGESIZE) else page_max in
        p ← phy_page inode id;
        (if write then dev_write else dev_read)
          (ADDR p page_offset) buffer (u64 (temp_page - page_offset));;
        translate_fs_loop k inode (id + 1) stop 0 page_max'
          (u64 (buffer + temp_page - page_offset)) write
      else mret tt
  end.

Definition translate_fs (ino offset buffer size : Z) (write : bool) : M F unit :=
  inode ← get_inode ino;
  let first := ADDR_2_PAGE offset in
  let stop := ADDR_2_PAGEUP (offset + size) in
  if first <? stop then
    i ← lift (of_option inode);
    translate_fs_loop (Z.to_nat (stop - first)) i first stop (OFFSET offset)
      (u64 (OFFSET offset + size)) buffer write
  else mret tt.

Definition fs_file_read (ino offset buf size : Z) : M F Z :=
  translate_fs ino offset buf size false;; mret 0.
Definition fs_file_write (ino offset buf size : Z) : M F Z :=
  translate_fs ino offset buf size true;; mret 0.

(** ** Bitmap allocation (kernel/filesystem.c) *)

(** [for (bit = 0; bit < 8; bit++) if (BITMAP_GET(buf, bit) == 0) ...] *)
Fixpoint zero_bit (n : nat) (bit buf : Z) : option Z :=
  match n with
  | O => None
  | S k => if BITMAP_GET buf bit =? 0 then Some bit else zero_bit k (bit + 1) buf
  end.

Fixpoint alloc_scan (fuel : nat) (base offset limit : Z) : M F Z :=
  match fuel with
  | O => mret (-1)
  | S k =>
      if offset <? limit then
        d ← fetch_bytes (ADDR base offset) 1;
        let buf := d (ADDR base offset) in
        if buf =? 255 then alloc_scan k base (u32 (offset + 1)) limit else
        match zero_bit 8 0 buf with
        | Some bit =>
            store_bytes (ADDR base offset) 1 (fun d => upd d (ADDR base offset) (BITMAP_SET buf bit));;
            mret (BITMAP_2_ADDR offset bit)
        | None => alloc_scan k base (u32 (offset + 1)) limit
        end
      else mret (-1)
  end.

(** The bound of both allocation loops. *)
Definition bitmap_bytes (n : Z) : Z :=
  u32 (BITMAP_OFFSET n + (if BITMAP_BITS n =? 0 then 0 else 1)).

Definition allocate_inode : M F Z :=
  fs ← gets rootfs;
  let limit := bitmap_bytes (size_blocks (super fs)) in
  alloc_scan (Z.to_nat limit) 1 0 limit.
Definition allocate_block : M F Z :=
  fs ← gets rootfs;
  let limit := bitmap_bytes (size_blocks (super fs)) in
  alloc_scan (Z.to_nat limit) (u32 (1 + inode_bitmap_blocks (super fs))) 0 limit.

Definition clear_bit (base x : Z) : M F Z :=
  let a := ADDR base (BITMAP_OFFSET x) in
  b ← get_byte a;
  buf ← lift (of_option b);
  if BITMAP_GET buf x =? 0 then mret (-1)
  else dev_put a 1 (fun d a => upd d a (BITMAP_CLEAR buf x));; mret 0.
Definition free_inode (ino : Z) : M F Z := clear_bit 1 ino.
Definition free_block (block_id : Z) : M F Z :=
  fs ← gets rootfs; clear_bit (u32 (1 + inode_bitmap_blocks (super fs))) block_id.

(** ** fs_file_truncate *)

(** [block_2nd] and [block_3rd] of the growing loop: [None] while
    uninitialised. *)
Definition locals : Type := option Z * option Z.

(** A failed allocate_block makes fs_file_truncate return -1. *)
Definition alloc_or {X} (k : Z -> M F (option X)) : M F (option X) :=
  b ← allocate_block; if b <? 0 then mret None else k b.

(** [if (!v) wrapped_read(device, a, &v, sizeof(u32))] *)
Definition read_if_zero (v : option Z) (a : Z) : M F Z :=
  b ← lift (of_option v);
  if b =? 0 then r ← get_u32 a; mret (default b r) else mret b.

Definition grow_direct (inode : Inode) (page : Z) (l : locals) : M F (option (Inode * locals)) :=
  alloc_or (fun b =>
    mret (Some (set_direct (<[Z.to_nat page := u32 b]> (direct inode)) inode, l))).

Definition grow_single (inode : Inode) (page : Z) (l : locals) : M F (option (Inode * locals)) :=
  let id := page - DIRECT_PTRS in
  let k inode :=
    alloc_or (fun b => put_u32 (ADDR (single_ind inode) (id * 4)) b;; mret (Some (inode, l))) in
  if id =? 0 then alloc_or (fun b1 => k (set_single (u32 b1) inode)) else k inode.

Definition grow_double (inode : Inode) (page : Z) (l : locals) : M F (option (Inode * locals)) :=
  let id := page - (DIRECT_PTRS + ptr_per_page) in
  let k2 inode b2 :=
    v ← read_if_zero b2 (ADDR (double_ind inode) (id / ptr_per_page));
    alloc_or (fun b => put_u32 (ADDR v (id mod ptr_per_page)) b;;
                       mret (Some (inode, (Some v, snd l)))) in
  let k1 inode :=
    if id mod ptr_per_page =? 0
    then alloc_or (fun b2 => put_u32 (ADDR (double_ind inode) (id / ptr_per_page)) b2;; k2 inode (Some b2))
    else k2 inode (fst l) in
  if id =? 0 then alloc_or (fun b1 => k1 (set_double (u32 b1) inode)) else k1 inode.

Definition grow_triple (inode : Inode) (page : Z) (l : locals) : M F (option (Inode * locals)) :=
  let id := page - (DIRECT_PTRS + ptr_per_page + ptr_per_page * ptr_per_page) in
  let i2 := id / ptr_per_page / ptr_per_page in
  let i3 := (id / ptr_per_page) mod ptr_per_page in
  let k3 inode v2 b3 :=
    v3 ← read_if_zero b3 (ADDR v2 i3);
    alloc_or (fun b => put_u32 (ADDR v3 (id mod ptr_per_page)) b;;
                       mret (Some (inode, (Some v2, Some v3)))) in
  let k2 inode b2 :=
    v2 ← read_if_zero b2 (ADDR (triple_ind inode) i2);
    if id mod ptr_per_page =? 0
    then alloc_or (fun b3 => put_u32 (ADDR v2 i3) b3;; k3 inode v2 (Some b3))
    else k3 inode v2 (snd l) in
  let k1 inode :=
    if id mod (ptr_per_page * ptr_per_page) =? 0
    then alloc_or (fun b2 => put_u32 (ADDR (triple_ind inode) i2) b2;; k2 inode (Some b2))
    else k2 inode (fst l) in
  if id =? 0 then alloc_or (fun b1 => k1 (set_triple (u32 b1) inode)) else k1 inode.

Definition grow_page (inode : Inode) (page : Z) (l : locals) : M F (option (Inode * locals)) :=
  if page <? DIRECT_PTRS then grow_direct inode page l
  else if page <? DIRECT_PTRS + ptr_per_page then grow_single inode page l
  else if page <? DIRECT_PTRS + ptr_per_page + ptr_per_page * ptr_per_page
  then grow_double inode page l
  else grow_triple inode page l.

(** [n] pages from [page] on. *)
Fixpoint grow_loop (n : nat) (inode : Inode) (page : Z) (l : locals) : M F (option Inode) :=
  match n with
  | O => mret (Some inode)
  | S k =>
      r ← grow_page inode page l;
      match r with
      | None => mret None
      | Some (inode', l') => grow_loop k inode' (page + 1) l'
      end
  end.

Definition shrink_page (inode : Inode) (id : Z) : M F unit :=
  if id <? DIRECT_PTRS then
    b ← lift (of_option (direct inode !! Z.to_nat id)); free_block b;; mret tt
  else if id <? DIRECT_PTRS + ptr_per_page then
    let read_id := id - DIRECT_PTRS in
    t ← get_u32 (ADDR (single_ind inode) (read_id * 4));
    temp_block ← lift (of_option t);
    free_block temp_block;;
    (if read_id =? 0 then free_block (single_ind inode);; mret tt else mret tt)
  else if id <? DIRECT_PTRS + ptr_per_page + ptr_per_page * ptr_per_page then
    let read_id := id - (DIRECT_PTRS + ptr_per_page) in
    b2 ← get_u32 (ADDR (double_ind inode) (read_id / ptr_per_page));
    block_2nd ← lift (of_option b2);
    t ← get_u32 (ADDR block_2nd (Z.land read_id (ptr_per_page - 1)));
    temp_block ← lift (of_option t);
    free_block temp_block;;
    (if read_id mod ptr_per_page =? 0 then free_block block_2nd;; mret tt else mret tt);;
    (if read_id =? 0 then free_block (double_ind inode);; mret tt else mret tt)
  else
    let read_id := id - (DIRECT_PTRS + ptr_per_page + ptr_per_page * ptr_per_page) in
    b2 ← get_u32 (ADDR (triple_ind inode) (read_id / ptr_per_page / ptr_per_page));
    block_2nd ← lift (of_option b2);
    b3 ← get_u32 (ADDR block_2nd (Z.land (read_id / ptr_per_page) (ptr_per_page - 1)));
    block_3rd ← lift (of_option b3);
    t ← get_u32 (ADDR block_3rd (Z.land read_id (ptr_per_page - 1)));
    temp_block ← lift (of_option t);
    free_block temp_block;;
    (if read_id mod ptr_per_page =? 0 then free_block block_3rd;; mret tt else mret tt);;
    (if read_id mod (ptr_per_page * ptr_per_page) =? 0 then free_block block_2nd;; mret tt else mret tt);;
    (if read_id =? 0 then free_block (triple_ind inode);; mret tt else mret tt).

(** [for (u64 id = old_pages - 1; id >= new_pages; id--)] *)
Fixpoint shrink_loop (fuel : nat) (inode : Inode) (id new_pages : Z) : M F unit :=
  match fuel with
  | O => lift NoFuel
  | S k =>
      if new_pages <=? id
      then shrink_page inode id;; shrink_loop k inode (u64 (id - 1)) new_pages
      else mret tt
  end.

Section Fs.
(** [fuel] bounds the scans of C strings and the shrinking loop. *)
Variable fuel : nat.

Definition fs_file_truncate (ino newsize : Z) : M F Z :=
  inode ← the_inode ino;
  let oldsize := size_bytes inode in
  if oldsize =? newsize then mret 0 else
  let old_pages := ADDR_2_PAGEUP oldsize in
  let new_pages := ADDR_2_PAGEUP newsize in
  r ← (if old_pages <? new_pages
       then grow_loop (Z.to_nat (new_pages - old_pages)) inode old_pages (None, None)
       else if new_pages <? old_pages
       then shrink_loop fuel inode (old_pages - 1) new_pages;; mret (Some inode)
       else mret (Some inode));
  match r with
  | None => mret (-1)
  | Some inode' => fs_file_sync ino (set_size_bytes newsize inode');; mret 0
  end.

Definition fs_file_get_permission (ino : Z) : M F Z := i ← the_inode ino; mret (permission i).
Definition fs_file_set_permission (ino p : Z) : M F unit :=
  i ← the_inode ino; fs_file_sync ino (set_permission p i);; mret tt.
Definition fs_file_get_size (ino : Z) : M F Z := i ← the_inode ino; mret (size_bytes i).
Definition fs_file_set_size (ino size : Z) : M F unit :=
  i ← the_inode ino; fs_file_sync ino (set_size_bytes size i);; mret tt.

(** The File that wrap_fsfile fills for the object [p]. *)
Definition wrap_fsfile (p : Z) : M F File :=
  v ← get_obj p; i ← the_inode (inum v); mret (mkFile p (itype i) fs_ops).

(** ** Path lookup *)
Variable retain : bool.
(** The stack slot of create_file's [dir_entry], and what its [inode] holds
    before it is assigned. *)
Variable dir_entry : Z.
Variable stack_inode : Inode.

Definition create_file (parent : fsref) (filename : Z) : M F (Z * option File) :=
  pv ← deref parent;
  parent_inode ← the_inode (inum pv);
  let old_size := size_bytes parent_inode in
  t ← fs_file_truncate (inum pv) (u64 (old_size + sizeof_DirEntry));
  if t <? 0 then mret (-1, None) else
  new ← allocate_inode;
  let ino := u32 new in
  m ← gets fmem;
  n ← lift (CString.strlen fuel m filename);
  let len := if 60 <? n then 60 else n in
  on_fmem (fun m => memcpy (memset (store32 m (dir_entry + 60) ino) dir_entry 0 60)
                      dir_entry filename len);;
  fs_file_write (inum pv) old_size dir_entry sizeof_DirEntry;;
  fsfile ← in_fa (kalloc retain sizeof_FSFile);
  put_obj fsfile (mkFS ino 0);;
  fs_file_sync ino
    (mkInode REGULAR (Z.lor PERMISSION_R PERMISSION_W) 0 (direct stack_inode)
       (single_ind stack_inode) (double_ind stack_inode) (triple_ind stack_inode));;
  out ← wrap_fsfile fsfile;
  mret (0, Some out).

(** [for (; *end != '\0' && *end != '/'; end++);] *)
Fixpoint name_end (n : nat) (m : mem) (p : Z) : outcome Z :=
  match n with
  | O => NoFuel
  | S k => if (m p =? 0) || (m p =? 47) then Ret p else name_end k m (u64 (p + 1))
  end.

(** The first entry of the directory at [entries] that has the name. *)
Fixpoint find_entry (n : nat) (m : mem) (entries i ptr name_size : Z) : outcome (option Z) :=
  match n with
  | O => Ret None
  | S k =>
      let e := u64 (entries + i * sizeof_DirEntry) in
      l ← CString.strlen fuel m e;
      if (l =? name_size) && (CString.strncmp m ptr e name_size =? 0)
      then Ret (Some (load32 m (e + 60)))
      else find_entry k m entries (i + 1) ptr name_size
  end.

(** [strcmp(p, "...") == 0] for a literal. *)
Fixpoint str_is (m : mem) (p : Z) (lit : list Z) : bool :=
  match lit with
  | [] => m p =? 0
  | c :: lit' => (m p =? c) && str_is m (u64 (p + 1)) lit'
  end.

Definition lit_framebuffer : list Z := [102;114;97;109;101;98;117;102;102;101;114].
Definition lit_stdin : list Z := [115;116;100;105;110].
Definition lit_stdout : list Z := [115;116;100;111;117;116].
Definition lit_stderr : list Z := [115;116;100;101;114;114].
Definition lit_vda : list Z := [118;100;97].

(** kernel/stdio.c; [root_block_device] and [gpu_device] of filesystem.c. *)
Definition stdin : File := mkFile 0 DEVICE stdin_ops.
Definition stdout : File := mkFile 0 DEVICE stdout_ops.
Definition stderr : File := mkFile 0 DEVICE stdout_ops.
Definition root_block_device : File := mkFile 0 DEVICE blk_ops.
Definition gpu_device : File := mkFile 0 DEVICE gpu_ops.

Definition device_named (m : mem) (ptr : Z) : option File :=
  if str_is m ptr lit_framebuffer then Some gpu_device
  else if str_is m ptr lit_stdin then Some stdin
  else if str_is m ptr lit_stdout then Some stdout
  else if str_is m ptr lit_stderr then Some stdout
  else if str_is m ptr lit_vda then Some root_block_device
  else None.

(** The end of one iteration: the last component found ([fileout] holds it),
    a device, or the error. *)
Definition getfile_step (cwd : fsref) (ptr name_end_ fileout : Z) (create found : bool)
    (continue_ : Z -> M F (Z * option File)) : M F (Z * option File) :=
  m ← gets fmem;
  if (m name_end_ =? 0) && negb found && create then create_file cwd ptr else
  c ← deref cwd;
  fs ← gets rootfs;
  match (if inum c =? inum (dev_dir fs) then device_named m ptr else None) with
  | Some d => free_obj fileout;; mret (0, Some d)
  | None =>
      if found then continue_ (if m name_end_ =? 47 then u64 (name_end_ + 1) else name_end_)
      else free_obj fileout;; mret (-1, None)
  end.

(** [old] is what [cwd_inode] holds from the iteration before. *)
Fixpoint getfile_loop (n : nat) (cwd : fsref) (old : option Inode) (ptr fileout : Z)
    (create : bool) : M F (Z * option File) :=
  match n with
  | O => lift NoFuel
  | S k =>
      m ← gets fmem;
      if m ptr =? 0 then out ← wrap_fsfile fileout; mret (0, Some out) else
      c ← deref cwd;
      i ← get_inode (inum c);
      cwd_inode ← lift (of_option (match i with Some _ => i | None => old end));
      if negb (itype cwd_inode =? DIRECTORY) then mret (-1, None) else
      e ← lift (name_end fuel m ptr);
      let dir_size := size_bytes cwd_inode in
      entries ← in_fa (kalloc retain dir_size);
      fs_file_read (inum c) 0 entries dir_size;;
      m' ← gets fmem;
      r ← lift (find_entry (Z.to_nat (dir_size / sizeof_DirEntry)) m' entries 0 ptr (u64 (e - ptr)));
      (match r with Some ino => upd_obj fileout (set_inum ino) | None => mret tt end);;
      in_fa (kfree entries dir_size);;
      getfile_step cwd ptr e fileout create (bool_decide (is_Some r))
        (fun next => getfile_loop k (RObj fileout) (Some cwd_inode) next fileout create)
  end.

Definition getfile (cwd : fsref) (path : Z) (create : bool) : M F (Z * option File) :=
  s ← gets id;
  let m := fmem s in
  let abs := m path =? 47 in
  let cwd := if abs then RVal (root (rootfs s)) else cwd in
  let ptr := if abs then u64 (path + 1) else path in
  if m ptr =? 0 then mret (-1, None) else
  fileout ← in_fa (kalloc retain sizeof_FSFile);
  put_obj fileout (mkFS 0 0);;
  getfile_loop fuel cwd None ptr fileout create.

(** [slash_dev] is the address of the literal "/dev". *)
Variable slash_dev : Z.

Definition create_filesystem : M F unit :=
  sb ← dev_get 0 sizeof_SuperBlock load_super;
  s ← gets id;
  let sp := default (super (rootfs s)) sb in
  modify (set_rootfs (mkFilesystem sp (set_inum (root_inode sp) (root (rootfs s)))
    (dev_dir (rootfs s)) 1 (u32 (1 + inode_bitmap_blocks sp))
    (u32 (1 + inode_bitmap_blocks sp + data_bitmap_blocks sp))));;
  fs ← gets rootfs;
  '(_, out) ← getfile (RVal (root fs)) slash_dev true;
  outfile ← lift (of_option out);
  v ← get_obj (fsuper outfile);
  modify (fun s => set_rootfs (let r := rootfs s in
    mkFilesystem (super r) (root r) v (inode_bitmap_offset r) (data_bitmap_offset r)
      (inode_table_offset r)) s);;
  free_obj (fsuper outfile).

End Fs.
End FsCode.
