(* ===== verification/Files.v ===== *)
(** * The File interface (kernel/file.c, stdio.c, the frame buffer file)

    Calls through the function pointers of a [File] dispatch on the set of
    pointers it was given; a NULL pointer is a [Fault].  A getter of an fs file
    reads the FSFile object [file->super] points to. *)
From S2P Require Import Prelude Mem CString KernelPT Alloc FsTypes FsCode.
Import KernelPT Alloc FsTypes FsCode.

Module Files.

Definition static_r : Z := PERMISSION_R.
Definition static_w : Z := PERMISSION_W.
Definition static_rw : Z := Z.lor PERMISSION_R PERMISSION_W.
(** [~((u64)0)] *)
Definition static_size : Z := 18446744073709551615.

(** kgetc: the next byte of the console, 255 (the SBI's -1) when there is none. *)
Definition kgetc : M F Z := fun s =>
  match con_in s with
  | [] => Ret (255, s)
  | c :: rest => Ret (u8 c, set_con rest (con_out s) s)
  end.
Definition kputc (c : Z) : M F unit := modify (fun s => set_con (con_in s) (con_out s ++ [c]) s).

Definition stdin_read (buf size : Z) : M F Z :=
  if negb (size =? 1) then mret (-1)
  else c ← kgetc; on_fmem (fun m => upd m buf c);; mret 0.

Fixpoint stdout_write_loop (n : nat) (buf i : Z) : M F Z :=
  match n with
  | O => mret 0
  | S k =>
      m ← gets fmem;
      let c := m (u64 (buf + i)) in
      if c =? 0 then mret 0 else kputc c;; stdout_write_loop k buf (i + 1)
  end.
Definition stdout_write (buf size : Z) : M F Z := stdout_write_loop (Z.to_nat size) buf 0.

Section Calls.
(** [flush] of the GPU driver: a request to the device. *)
Variable gpu_flush : M F unit.
Variable fuel : nat.

Definition fb_read : M F Z := gpu_flush;; mret 0.
Definition fb_write (offset data len : Z) : M F Z :=
  s ← gets id;
  on_fmem (fun m => memcpy m (u64 (PAGE_2_ADDR (fb_vpn s) + offset)) data len);; mret 0.

Definition call_get_permission (f : File) : M F Z :=
  match ops f with
  | fs_ops => v ← get_obj (fsuper f); fs_file_get_permission (inum v)
  | blk_ops | gpu_ops => mret static_rw
  | stdin_ops => mret static_r
  | stdout_ops => mret static_w
  end.

Definition call_get_size (f : File) : M F Z :=
  match ops f with
  | fs_ops => v ← get_obj (fsuper f); fs_file_get_size (inum v)
  | blk_ops => gets dsize
  | gpu_ops => gets fb_size
  | stdin_ops | stdout_ops => mret static_size
  end.

Definition call_read (f : File) (offset buf size : Z) : M F Z :=
  match ops f with
  | fs_ops => v ← get_obj (fsuper f); fs_file_read (inum v) offset buf size
  | blk_ops => blk_read offset buf size
  | gpu_ops => fb_read
  | stdin_ops => stdin_read buf size
  | stdout_ops => lift Fault
  end.

Definition call_write (f : File) (offset buf size : Z) : M F Z :=
  match ops f with
  | fs_ops => v ← get_obj (fsuper f); fs_file_write (inum v) offset buf size
  | blk_ops => blk_write offset buf size
  | gpu_ops => fb_write offset buf size
  | stdin_ops => lift Fault
  | stdout_ops => stdout_write buf size
  end.

Definition wrapped_read (f : File) (offset buf size : Z) : M F Z :=
  p ← call_get_permission f;
  if Z.land p PERMISSION_R =? 0 then mret (-1) else
  sz ← call_get_size f;
  if sz <? u64 (offset + size) then mret (-1) else call_read f offset buf size.

Definition wrapped_write (f : File) (offset buf size : Z) : M F Z :=
  p ← call_get_permission f;
  if Z.land p PERMISSION_W =? 0 then mret (-1) else
  sz ← call_get_size f;
  if sz <? u64 (offset + size) then mret (-1) else call_write f offset buf size.

Definition trunc_file (f : File) (size : Z) : M F Z :=
  if negb (ftype f =? DEVICE)
  then v ← get_obj (fsuper f); fs_file_truncate fuel (inum v) size
  else mret (-1).

End Calls.
End Files.
