(* ===== verification/Proc.v ===== *)
(** * Processes and the scheduler (kernel/process.h, process.c, ctrap.c, timer.h)

    The process control table, the round-robin scheduler and the trap frame.
    [run] enters user mode through [trap_return] and never comes back to its
    caller, so a kernel function either returns a value, leaves for the user
    program of the running process, or stops the machine: [ctl]. *)
From S2P Require Import Prelude Mem KernelPT Alloc UserPT FsTypes FsCode Files.
Import KernelPT Alloc UserPT FsTypes.

Module Proc.

Definition NUM_PROCS : Z := 256.
Definition NUM_FILES : Z := 64.
Definition USER_STACK_SIZE : Z := 1048576.
Definition KERNEL_STACK_SIZE : Z := 1048576.
Definition HEAP_TOP : Z := 274877906944.
Definition FLAGS_WAITED : Z := 1.

Inductive status_t := UNUSED | READY | RUNNING | BLOCKED | ZOMBIE | TERMINATED.
#[global] Instance status_eq_dec : EqDecision status_t.
Proof. solve_decision. Defined.

(** The page-table, trap-frame and kernel-stack fields of a PCB. *)
Record Space := mkSpace {
  ptbase_pfn : Z;
  ptbase_vpn : Z;
  ptref_base : Z;
  brk : Z;
  heap_bottom : Z;
  trapframe : Z;
  kernel_stack_pfn : Z;
  kernel_stack_vpn : Z;
}.

Record PCB := mkPCB {
  pid : Z;
  status : status_t;
  cpuid : Z;
  parent : option nat;
  flags : Z;
  exit_code : Z;
  space : Space;
  cwd_file : FSFile;
  opened_files : list FileDescriptor;
}.

Definition set_pid (x : Z) (p : PCB) : PCB :=
  mkPCB x (status p) (cpuid p) (parent p) (flags p) (exit_code p) (space p) (cwd_file p) (opened_files p).
Definition set_status (x : status_t) (p : PCB) : PCB :=
  mkPCB (pid p) x (cpuid p) (parent p) (flags p) (exit_code p) (space p) (cwd_file p) (opened_files p).
Definition set_cpuid (x : Z) (p : PCB) : PCB :=
  mkPCB (pid p) (status p) x (parent p) (flags p) (exit_code p) (space p) (cwd_file p) (opened_files p).
Definition set_parent (x : option nat) (p : PCB) : PCB :=
  mkPCB (pid p) (status p) (cpuid p) x (flags p) (exit_code p) (space p) (cwd_file p) (opened_files p).
Definition set_pflags (x : Z) (p : PCB) : PCB :=
  mkPCB (pid p) (status p) (cpuid p) (parent p) x (exit_code p) (space p) (cwd_file p) (opened_files p).
Definition set_exit_code (x : Z) (p : PCB) : PCB :=
  mkPCB (pid p) (status p) (cpuid p) (parent p) (flags p) x (space p) (cwd_file p) (opened_files p).
Definition set_space (x : Space) (p : PCB) : PCB :=
  mkPCB (pid p) (status p) (cpuid p) (parent p) (flags p) (exit_code p) x (cwd_file p) (opened_files p).
Definition set_cwd (x : FSFile) (p : PCB) : PCB :=
  mkPCB (pid p) (status p) (cpuid p) (parent p) (flags p) (exit_code p) (space p) x (opened_files p).
Definition set_files (x : list FileDescriptor) (p : PCB) : PCB :=
  mkPCB (pid p) (status p) (cpuid p) (parent p) (flags p) (exit_code p) (space p) (cwd_file p) x.

(** The kernel: files and memory, the process table, [cpus[0].running],
    [next_pid], the time CSR, the deadline of the timer and the clock. *)
Record P := mkP {
  pf : F;
  procs : list PCB;
  running : nat;
  next_pid : Z;
  time : Z;
  deadline : Z;
  clock_freq : Z;
}.

Definition set_pf (x : F) (s : P) : P :=
  mkP x (procs s) (running s) (next_pid s) (time s) (deadline s) (clock_freq s).
Definition set_procs (x : list PCB) (s : P) : P :=
  mkP (pf s) x (running s) (next_pid s) (time s) (deadline s) (clock_freq s).
Definition set_running (x : nat) (s : P) : P :=
  mkP (pf s) (procs s) x (next_pid s) (time s) (deadline s) (clock_freq s).
Definition set_next_pid (x : Z) (s : P) : P :=
  mkP (pf s) (procs s) (running s) x (time s) (deadline s) (clock_freq s).
Definition set_deadline (x : Z) (s : P) : P :=
  mkP (pf s) (procs s) (running s) (next_pid s) (time s) x (clock_freq s).

Definition in_pf {X} (m : M F X) : M P X := fun s =>
  match m (pf s) with
  | Ret (x, f) => Ret (x, set_pf f s)
  | Panic => Panic | Fault => Fault | NoFuel => NoFuel
  end.
Definition in_pa {X} (m : M A X) : M P X := in_pf (in_fa m).
Definition pmem (s : P) : mem := fmem (pf s).
Definition on_pmem (f : mem -> mem) : M P unit := in_pf (on_fmem f).

(** [process_control_table + i] *)
Definition get_proc (i : nat) : M P PCB := l ← gets procs; lift (of_option (l !! i)).
Definition upd_proc (i : nat) (f : PCB -> PCB) : M P unit :=
  p ← get_proc i; modify (fun s => set_procs (<[i := f p]> (procs s)) s).
Definition cur : M P nat := gets running.

(** How a kernel function ends: with a value, in user mode (run does not
    return), or in calls after which the machine is off.  sync_filesystem is
    modelled in BlockCache.v; it writes the dirty buffers of the cache to the disk
    and leaves the bytes that the file system sees as they are. *)
Inductive exit_call := Printk (msg : string) | Sync_filesystem | Shutdown.
Inductive ctl := Value (v : Z) | Resumed | Stopped (calls : list exit_call).
(** The end of schedule, in the order of its calls. *)
Definition Halted : ctl := Stopped
  [Printk "[kernel] All tasks finished!
"; Printk "[kernel] Syncing block cache to disk...
"; Sync_filesystem; Printk "[kernel] Syncing completed!
"; Shutdown].
Definition ret (v : Z) : M P ctl := mret (Value v).

(** ** The trap frame: TrapContext in memory *)
Definition x_off (i : Z) : Z := 8 * i.
Definition sstatus_off : Z := 256.
Definition sepc_off : Z := 264.
Definition kernel_satp_off : Z := 272.
Definition kernel_sp_off : Z := 280.
Definition trap_handler_off : Z := 288.
Definition sizeof_TrapContext : Z := 296.

Definition tf_get (tf off : Z) : M P Z := m ← gets pmem; mret (load64 m (tf + off)).
Definition tf_put (tf off v : Z) : M P unit := on_pmem (fun m => store64 m (tf + off) (u64 v)).

(** app_init_context: [sstatus] and [satp] are the CSRs, [handler] is the
    address of trap_handler. *)
Definition SSTATUS_SPP : Z := 256.
Definition app_init_context (sstatus satp handler ptr entry user_sp kernel_sp : Z) : M P unit :=
  on_pmem (fun m => memset m ptr 0 sizeof_TrapContext);;
  tf_put ptr (x_off 2) user_sp;;
  tf_put ptr sstatus_off (Z.land sstatus (u64 (Z.lnot SSTATUS_SPP)));;
  tf_put ptr sepc_off entry;;
  tf_put ptr kernel_satp_off satp;;
  tf_put ptr kernel_sp_off kernel_sp;;
  tf_put ptr trap_handler_off handler.

(** ** Timer (kernel/timer.h, timer.c) *)
Definition TICKS_PER_SEC : Z := 100.
Definition MICRO_PER_SEC : Z := 1000000.
Definition get_time_us : M P Z :=
  s ← gets id;
  let d := clock_freq s / MICRO_PER_SEC in
  if d =? 0 then lift Fault else mret (time s / d).
Definition set_next_trigger : M P unit :=
  modify (fun s => set_deadline (u64 (time s + clock_freq s / TICKS_PER_SEC)) s).

(** ** The scheduler *)
Definition run (i : nat) : M P ctl :=
  modify (set_running i);;
  upd_proc i (set_status RUNNING);;
  upd_proc i (set_cpuid 0);;
  mret Resumed.

(** The loop of schedule, [target_id] from [(id + 1) % NUM_PROCS] on; it ends
    when [target_id] is back there with [flag] set. *)
Fixpoint pick (fuel : nat) (l : list PCB) (id target : nat) (flag : bool) : outcome (option nat) :=
  match fuel with
  | O => NoFuel
  | S k =>
      let start := ((id + 1) mod 256)%nat in
      if negb flag || negb (bool_decide (target = start)) then
        match l !! target with
        | None => Fault
        | Some p =>
            if decide (status p = READY) then Ret (Some target)
            else pick k l id ((target + 1) mod 256)%nat (flag || bool_decide (target = id))
        end
      else Ret None
  end.

(** Without a READY process the cache is written back and the machine is shut
    down: [Halted]. *)
Definition schedule : M P ctl :=
  s ← gets id;
  r ← lift (pick 257 (procs s) (running s) ((running s + 1) mod 256)%nat false);
  match r with
  | Some i => run i
  | None => mret Halted
  end.

(** ** Freeing a process *)
Section Machine.
Variable retain : bool.

Definition free_process_space (p : PCB) : M P unit :=
  let sp := space p in
  in_pa (ptref_free (ptbase_pfn sp) (ptbase_vpn sp) (ptref_base sp));;
  in_pa (in_km (ptmap retain (kernel_stack_vpn sp) (kernel_stack_pfn sp) RW));;
  in_pa (kfree (PAGE_2_ADDR (kernel_stack_vpn sp)) (KERNEL_STACK_SIZE + PAGESIZE)).

Definition terminate (i : nat) : M P unit := upd_proc i (set_status TERMINATED).

Definition unload_process (i : nat) : M P unit :=
  p ← get_proc i;
  if decide (status p = TERMINATED)
  then free_process_space p;; upd_proc i (set_status UNUSED)
  else panic.

(** ** load_process *)
Variable gpu_flush : M F unit.
(** [strampoline], and the CSRs and handler app_init_context uses. *)
Variables strampoline sstatus satp handler : Z.

Definition USER_RW : Z := Z.lor (Z.lor (Z.lor PTE_USER PTE_VALID) PTE_READ) PTE_WRITE.
Definition TRAMPOLINE_FLAGS : Z := Z.lor (Z.lor PTE_VALID PTE_READ) PTE_EXECUTE.

(** elf.h *)
Definition PT_LOAD : Z := 1.
Definition e_entry (m : mem) (h : Z) : Z := load64 m (h + 24).
Definition e_phoff (m : mem) (h : Z) : Z := load64 m (h + 32).
Definition e_phnum (m : mem) (h : Z) : Z := load_le 2 m (h + 56).
Definition sizeof_Phdr : Z := 56.
Definition p_type (m : mem) (h : Z) : Z := load32 m h.
Definition p_flags (m : mem) (h : Z) : Z := load32 m (h + 4).
Definition p_offset (m : mem) (h : Z) : Z := load64 m (h + 8).
Definition p_vaddr (m : mem) (h : Z) : Z := load64 m (h + 16).
Definition p_memsz (m : mem) (h : Z) : Z := load64 m (h + 40).

Definition segment_flags (pflags : Z) : Z :=
  let f := Z.lor PTE_VALID PTE_USER in
  let f := Z.lor f (if Z.land pflags 4 =? 0 then 0 else PTE_READ) in
  let f := Z.lor f (if Z.land pflags 2 =? 0 then 0 else PTE_WRITE) in
  Z.lor f (if Z.land pflags 1 =? 0 then 0 else PTE_EXECUTE).

(** The pages of a segment from [vpn] on: each gets a page of the file image. *)
Fixpoint load_pages (n : nat) (ptbase ptref vpn start_va program_start fl : Z) : M A unit :=
  match n with
  | O => mret tt
  | S k =>
      '(pfn, kernel_vpn) ← dmalloc retain 1 false;
      let offset := u64 (PAGE_2_ADDR vpn - start_va) in
      on_mem (fun m => memcpy m (PAGE_2_ADDR kernel_vpn) (u64 (program_start + offset)) PAGESIZE);;
      uptmap retain ptbase ptref kernel_vpn vpn pfn fl;;
      load_pages k ptbase ptref (vpn + 1) start_va program_start fl
  end.

Fixpoint load_segments (n : nat) (ptbase ptref buf i max_vpn : Z) : M A Z :=
  match n with
  | O => mret max_vpn
  | S k =>
      m ← gets amem;
      let h := u64 (buf + e_phoff m buf + i * sizeof_Phdr) in
      if negb (p_type m h =? PT_LOAD) then load_segments k ptbase ptref buf (i + 1) max_vpn else
      let start_va := p_vaddr m h in
      let end_va := u64 (p_vaddr m h + p_memsz m h) in
      let top := ADDR_2_PAGEUP end_va in
      load_pages (Z.to_nat (top - ADDR_2_PAGE start_va)) ptbase ptref (ADDR_2_PAGE start_va)
        start_va (u64 (buf + p_offset m h)) (segment_flags (p_flags m h));;
      load_segments k ptbase ptref buf (i + 1) (if max_vpn <? top then top else max_vpn)
  end.

(** The user stack, [n] fresh pages from [vpn] on. *)
Fixpoint map_user (n : nat) (ptbase ptref vpn : Z) : M A unit :=
  match n with
  | O => mret tt
  | S k =>
      '(pfn, kernel_vpn) ← dmalloc retain 1 false;
      uptmap retain ptbase ptref kernel_vpn vpn pfn USER_RW;;
      map_user k ptbase ptref (vpn + 1)
  end.

(** The kernel stack with its first page unmapped: its pages and the frame of
    the unmapped one. *)
Definition kernel_stack : M A (Z * Z) :=
  kernel_sp ← kalloc retain (KERNEL_STACK_SIZE + PAGESIZE);
  pfn ← in_km (ptunmap retain (ADDR_2_PAGE kernel_sp));
  mret (kernel_sp, pfn).

Definition load_process (i : nat) (program : File) : M P Z :=
  '(pt_pfn, pt_vpn) ← in_pa (dmalloc retain 1 true);
  pt_ref ← in_pa (kalloc retain (2 * PAGESIZE));
  in_pa (uptmap retain pt_vpn pt_ref 0 (ADDR_2_PAGE TRAMPOLINE) (ADDR_2_PAGE strampoline) TRAMPOLINE_FLAGS);;
  size ← in_pf (Files.call_get_size program);
  buf ← in_pa (kalloc retain size);
  in_pf (Files.wrapped_read gpu_flush program 0 buf size);;
  m ← gets pmem;
  top ← in_pa (load_segments (Z.to_nat (e_phnum m buf)) pt_vpn pt_ref buf 0 0);
  let max_vpn := u64 (top + 1) in
  let heap := u64 (max_vpn + USER_STACK_SIZE / PAGESIZE) in
  in_pa (map_user (Z.to_nat (heap - max_vpn)) pt_vpn pt_ref max_vpn);;
  '(tpfn, trap_vpn) ← in_pa (dmalloc retain 1 false);
  in_pa (uptmap retain pt_vpn pt_ref trap_vpn (ADDR_2_PAGE TRAPFRAME) tpfn RW);;
  '(kernel_sp, guard) ← in_pa kernel_stack;
  upd_proc i (set_space (mkSpace pt_pfn pt_vpn pt_ref (PAGE_2_ADDR heap) (PAGE_2_ADDR heap)
    (PAGE_2_ADDR trap_vpn) guard (ADDR_2_PAGE kernel_sp)));;
  m ← gets pmem;
  app_init_context sstatus satp handler (PAGE_2_ADDR trap_vpn) (e_entry m buf)
    (u64 (PAGE_2_ADDR max_vpn + USER_STACK_SIZE)) (u64 (kernel_sp + (KERNEL_STACK_SIZE + PAGESIZE)));;
  mret 0.

(** ** init_scheduler *)
Fixpoint first_unused (l : list PCB) (i : nat) : option nat :=
  match l with
  | [] => None
  | p :: l' => if decide (status p = UNUSED) then Some i else first_unused l' (S i)
  end.

Definition no_fd : FileDescriptor := mkFD false 0 (mkFile 0 DIRECTORY fs_ops) 0.
Definition std_files : list FileDescriptor :=
  [mkFD true 0 FsCode.stdin 0; mkFD true 1 FsCode.stdout 0; mkFD true 1 FsCode.stderr 0] ++
  replicate 61 no_fd.

Variable fuel : nat.
Variable dir_entry : Z.
Variable stack_inode : Inode.
(** The address of INIT_PROGRAM, "/bin/init". *)
Variable init_program : Z.

Definition init_scheduler : M P ctl :=
  s ← gets id;
  i ← lift (of_option (first_unused (procs s) 0));
  upd_proc i (set_status READY);;
  upd_proc i (set_cpuid 0);;
  upd_proc i (set_pid (next_pid s));;
  modify (set_next_pid (i32 (next_pid s + 1)));;
  upd_proc i (set_pflags 0);;
  upd_proc i (fun p => set_cwd (set_inum (root_inode (super (rootfs (pf s)))) (cwd_file p)) p);;
  upd_proc i (set_files std_files);;
  '(_, out) ← in_pf (FsCode.getfile fuel retain dir_entry stack_inode
                        (RVal (root (rootfs (pf s)))) init_program false);
  program ← lift (of_option out);
  r ← load_process i program;
  if r <? 0 then panic else
  set_next_trigger;;
  run i.

End Machine.
End Proc.
