(* ===== verification/SysFile.v ===== *)
(** * File system calls (kernel/sysfile.c, utils/fcntl.h)

    The calls work on the running process.  A file descriptor comes from user
    space and is not checked against NUM_FILES; an index outside the table is a
    [Fault].  Kernel page 0 is never mapped, so a copy from or to a user page
    that [walkupt] does not find is a [Fault] as well. *)
From S2P Require Import Prelude Mem KernelPT Alloc UserPT FsTypes FsCode Files Proc.
Import KernelPT Alloc UserPT FsTypes Proc.

Module SysFile.

(** ** utils/fcntl.h *)
Definition O_ACCMODE (fl : Z) : Z := Z.land fl 3.
Definition O_RDONLY : Z := 0.
Definition O_WRONLY : Z := 1.
Definition O_RDWR : Z := 2.
Definition O_CREAT : Z := 64.
Definition O_TRUNC : Z := 512.
Definition O_DIRECTORY : Z := 65536.
Definition SEEK_SET : Z := 0.
Definition SEEK_CUR : Z := 1.
Definition SEEK_END : Z := 2.

Definition set_occupied (b : bool) (d : FileDescriptor) : FileDescriptor :=
  mkFD b (open_flags d) (file d) (seek d).
Definition set_seek (n : Z) (d : FileDescriptor) : FileDescriptor :=
  mkFD (occupied d) (open_flags d) (file d) n.
Definition set_open_flags (n : Z) (d : FileDescriptor) : FileDescriptor :=
  mkFD (occupied d) n (file d) (seek d).
Definition set_file (f : File) (d : FileDescriptor) : FileDescriptor :=
  mkFD (occupied d) (open_flags d) f (seek d).

(** [proc->opened_files[fd]] of the running process. *)
Definition get_fd (fd : Z) : M P FileDescriptor :=
  i ← cur; p ← get_proc i;
  if fd <? 0 then lift Fault else lift (of_option (opened_files p !! Z.to_nat fd)).
Definition put_fd (fd : Z) (d : FileDescriptor) : M P unit :=
  get_fd fd;; i ← cur; upd_proc i (fun p => set_files (<[Z.to_nat fd := d]> (opened_files p)) p).
Definition upd_fd (fd : Z) (f : FileDescriptor -> FileDescriptor) : M P unit :=
  d ← get_fd fd; put_fd fd (f d).

(** The first descriptor that is not occupied. *)
Fixpoint free_slot (l : list FileDescriptor) (fd : Z) : option Z :=
  match l with
  | [] => None
  | d :: l' => if occupied d then free_slot l' (fd + 1) else Some fd
  end.

(** ** Copies between user and kernel memory *)

(** One chunk of translate_buffer. *)
Definition copy_chunk (kernel_buf kernel_vpn page_offset n : Z) (write : bool) : M A unit :=
  if n =? 0 then mret tt
  else if kernel_vpn =? 0 then lift Fault
  else on_mem (fun m => if write then memcpy m kernel_buf (ADDR kernel_vpn page_offset) n
                        else memcpy m (ADDR kernel_vpn page_offset) kernel_buf n).

Fixpoint translate_buffer_loop (n : nat) (ptref kernel_buf user_vpn page_offset page_max : Z)
    (write : bool) : M A unit :=
  match n with
  | O => mret tt
  | S k =>
      let temp_page := if PAGESIZE <? page_max then PAGESIZE else page_max in
      let page_max' := if PAGESIZE <? page_max then u64 (page_max - PAGESIZE) else page_max in
      m ← gets amem;
      copy_chunk kernel_buf (walkupt m ptref user_vpn) page_offset (u64 (temp_page - page_offset)) write;;
      translate_buffer_loop k ptref (u64 (kernel_buf + temp_page - page_offset)) (user_vpn + 1)
        0 page_max' write
  end.

Definition translate_buffer (ptref kernel_buf user_buf size : Z) (write : bool) : M A unit :=
  let first := ADDR_2_PAGE user_buf in
  let stop := ADDR_2_PAGEUP (user_buf + size) in
  translate_buffer_loop (Z.to_nat (u64 (stop - first))) ptref kernel_buf first
    (OFFSET user_buf) (u64 (OFFSET user_buf + size)) write.

(** translate_2_pages: byte by byte until [unit_size] zero bytes in a row that
    start a unit; [ptr] runs to the end [top] of the current page. *)
Fixpoint translate_2_loop (n : nat) (ptref kernel_buf user_vpn ptr top zeros count unit_size : Z)
  : M A unit :=
  match n with
  | O => lift NoFuel
  | S k =>
      m ← gets amem;
      if ptr =? top then
        let v := walkupt m ptref (user_vpn + 1) in
        translate_2_loop k ptref kernel_buf (user_vpn + 1) (PAGE_2_ADDR v) (PAGE_2_ADDR (v + 1))
          zeros count unit_size
      else if ptr <? PAGESIZE then lift Fault
      else
        let c := m ptr in
        on_mem (fun m => upd m kernel_buf c);;
        let zeros' := if (c =? 0) && ((count mod unit_size =? 0) || negb (zeros =? 0))
                      then zeros + 1 else 0 in
        if zeros' =? unit_size then mret tt
        else translate_2_loop k ptref (u64 (kernel_buf + 1)) user_vpn (u64 (ptr + 1)) top
               zeros' (count + 1) unit_size
  end.

Definition translate_2_pages (fuel : nat) (ptref kernel_buf user_buf unit_size : Z) : M A unit :=
  m ← gets amem;
  let user_vpn := ADDR_2_PAGE user_buf in
  let v := walkupt m ptref user_vpn in
  translate_2_loop fuel ptref kernel_buf user_vpn (ADDR v (OFFSET user_buf)) (PAGE_2_ADDR (v + 1))
    0 0 unit_size.

Section Calls.
Variable retain : bool.
Variable fuel : nat.
Variable gpu_flush : M F unit.
Variable dir_entry : Z.
Variable stack_inode : Inode.

Abbreviation getfile := (FsCode.getfile fuel retain dir_entry stack_inode).

(** A user path in a new two-page kernel buffer. *)
Definition user_path (p : PCB) (filename : Z) : M P Z :=
  buf ← in_pa (kalloc retain (2 * PAGESIZE));
  in_pa (translate_2_pages fuel (ptref_base (space p)) buf filename 1);;
  mret buf.

Definition sys_chdir (filename : Z) : M P ctl :=
  i ← cur; p ← get_proc i;
  kernel_buf ← user_path p filename;
  '(res, out) ← in_pf (getfile (RVal (cwd_file p)) kernel_buf false);
  in_pa (kfree kernel_buf (2 * PAGESIZE));;
  if res <? 0 then ret (-1) else
  f ← lift (of_option out);
  if negb (ftype f =? DIRECTORY) then
    (if negb (ftype f =? DEVICE) then in_pf (free_obj (fsuper f)) else mret tt);; ret (-1)
  else
    v ← in_pf (get_obj (fsuper f));
    upd_proc i (set_cwd v);;
    in_pf (free_obj (fsuper f));;
    ret 0.

Definition sys_openat (dfd filename fl mode : Z) : M P ctl :=
  i ← cur; p ← get_proc i;
  d ← get_fd dfd;
  let cwd := if occupied d && (ftype (file d) =? DIRECTORY)
             then RObj (fsuper (file d)) else RVal (cwd_file p) in
  match free_slot (opened_files p) 0 with
  | None => ret (-1)
  | Some fd =>
      upd_fd fd (fun d => mkFD true fl (file d) 0);;
      kernel_filename ← user_path p filename;
      '(res, out) ← in_pf (getfile cwd kernel_filename (negb (Z.land fl O_CREAT =? 0)));
      (match out with Some f => upd_fd fd (set_file f) | None => mret tt end);;
      in_pa (kfree kernel_filename (2 * PAGESIZE));;
      d ← get_fd fd;
      let f := file d in
      let want_dir := negb (Z.land fl O_DIRECTORY =? 0) in
      if (ftype f =? DIRECTORY) && negb want_dir then in_pf (free_obj (fsuper f));; ret (-1)
      else if negb (ftype f =? DIRECTORY) && want_dir then
        (if negb (ftype f =? DEVICE) then in_pf (free_obj (fsuper f)) else mret tt);; ret (-1)
      else if res <? 0 then ret (-1)
      else
        (if negb (ftype f =? DEVICE) then in_pf (upd_obj (fsuper f) (set_rc 1)) else mret tt);;
        ret fd
  end.

Definition sys_close (fd : Z) : M P Z :=
  d ← get_fd fd;
  if negb (occupied d) then mret (-1) else
  (if negb (ftype (file d) =? DEVICE) then
     let p := fsuper (file d) in
     in_pf (upd_obj p (fun v => set_rc (u32 (rc v - 1)) v));;
     v ← in_pf (get_obj p);
     if rc v =? 0 then in_pf (free_obj p) else mret tt
   else mret tt);;
  upd_fd fd (set_occupied false);;
  mret 0.

(** [*result = seek], across a page boundary if need be. *)
Definition put_result (ptref result v : Z) : M A unit :=
  m ← gets amem;
  let begin_vpn := ADDR_2_PAGE result in
  let page_1_sz := u64 (PAGE_2_ADDR (begin_vpn + 1) - result) in
  let kernel_vpn := walkupt m ptref begin_vpn in
  if kernel_vpn =? 0 then lift Fault else
  let kernel_res := ADDR kernel_vpn (OFFSET result) in
  if 8 <=? page_1_sz then put64 kernel_res v
  else
    on_mem (fun m => store_le (Z.to_nat page_1_sz) m kernel_res v);;
    m ← gets amem;
    let kernel_vpn2 := walkupt m ptref (begin_vpn + 1) in
    if kernel_vpn2 =? 0 then lift Fault else
    on_mem (fun m => store_le (Z.to_nat (8 - page_1_sz)) m (PAGE_2_ADDR kernel_vpn2)
                       (Z.shiftr v (8 * page_1_sz))).

Definition sys_lseek (fd off_high off_low result whence : Z) : M P ctl :=
  i ← cur; p ← get_proc i;
  if negb (off_high =? 0) then ret (-1) else
  let finish :=
    d ← get_fd fd;
    in_pa (put_result (ptref_base (space p)) result (seek d));; ret 0 in
  if whence =? SEEK_SET then upd_fd fd (set_seek (u64 off_low));; finish
  else if whence =? SEEK_CUR then upd_fd fd (fun d => set_seek (u64 (seek d + off_low)) d);; finish
  else if whence =? SEEK_END then
    d ← get_fd fd;
    sz ← in_pf (Files.call_get_size (file d));
    upd_fd fd (set_seek (u64 (sz + off_low)));; finish
  else ret (-1).

Definition sys_read (fd buf size : Z) : M P ctl :=
  i ← cur; p ← get_proc i;
  d ← get_fd fd;
  if negb (occupied d) then ret (-1) else
  if negb (O_ACCMODE (open_flags d) =? O_RDWR) && negb (O_ACCMODE (open_flags d) =? O_RDONLY)
  then ret (-1) else
  kernel_ptr ← in_pa (kalloc retain size);
  r ← in_pf (Files.wrapped_read gpu_flush (file d) (seek d) kernel_ptr size);
  if i32 r <? 0 then in_pa (kfree kernel_ptr size);; ret (i32 r) else
  in_pa (translate_buffer (ptref_base (space p)) kernel_ptr buf size false);;
  in_pa (kfree kernel_ptr size);;
  upd_fd fd (fun d => set_seek (u64 (seek d + size)) d);;
  ret 0.

Definition sys_write (fd buf size : Z) : M P ctl :=
  i ← cur; p ← get_proc i;
  d ← get_fd fd;
  if negb (occupied d) then ret (-1) else
  if negb (O_ACCMODE (open_flags d) =? O_RDWR) && negb (O_ACCMODE (open_flags d) =? O_WRONLY)
  then ret (-1) else
  sz ← in_pf (Files.call_get_size (file d));
  let top := u64 (seek d + size) in
  let write :=
    kernel_ptr ← in_pa (kalloc retain size);
    in_pa (translate_buffer (ptref_base (space p)) kernel_ptr buf size true);;
    in_pf (Files.wrapped_write (file d) (seek d) kernel_ptr size);;
    in_pa (kfree kernel_ptr size);;
    upd_fd fd (fun d => set_seek (u64 (seek d + size)) d);;
    ret 0 in
  if sz <? top then
    if negb (Z.land (open_flags d) O_TRUNC =? 0)
    then in_pf (Files.trunc_file fuel (file d) top);; write
    else ret (-1)
  else write.

(** The reference count of the FSFile behind [f] goes up by one. *)
Definition rc_inc (f : File) : M P unit :=
  if negb (ftype f =? DEVICE)
  then in_pf (upd_obj (fsuper f) (fun v => set_rc (u32 (rc v + 1)) v)) else mret tt.

Definition sys_dup (fd : Z) : M P Z :=
  i ← cur; p ← get_proc i;
  d ← get_fd fd;
  if negb (occupied d) then mret (-1) else
  match free_slot (opened_files p) 0 with
  | None => mret (-1)
  | Some new_fd =>
      put_fd new_fd d;;
      d' ← get_fd fd;
      rc_inc (file d');;
      mret 0
  end.

Definition sys_dup3 (old_fd new_fd fl : Z) : M P Z :=
  d ← get_fd old_fd;
  if negb (occupied d) then mret (-1) else
  n ← get_fd new_fd;
  (if occupied n then sys_close new_fd;; mret tt else mret tt);;
  d ← get_fd old_fd;
  put_fd new_fd d;;
  upd_fd new_fd (fun d => set_open_flags (i32 (Z.land (u32 (open_flags d)) (u32 fl))) d);;
  d ← get_fd old_fd;
  rc_inc (file d);;
  mret 0.

End Calls.
End SysFile.
