(* ===== verification/SysProc.v ===== *)
(** * Process system calls, exec and the trap handler
      (kernel/sysproc.c, exec.c, syscall.c, ctrap.c)

    The calls that create, end and wait for processes, the program loader's
    caller, and the dispatch from a trap.  A call that blocks or yields ends in
    [Resumed]: the trap handler's code after it does not run. *)
From S2P Require Import Prelude Mem CString KernelPT Alloc UserPT FsTypes FsCode Files Proc SysFile.
Import KernelPT Alloc UserPT FsTypes Proc SysFile.

Module SysProc.

Section Calls.
Variable retain : bool.
Variable fuel : nat.
Variable gpu_flush : M F unit.
Variable dir_entry : Z.
Variable stack_inode : Inode.
Variables strampoline sstatus satp handler : Z.

Definition sys_yield : M P ctl := schedule.

(** ** sys_sbrk *)
Fixpoint sbrk_map (n : nat) (ptbase ptref vpn : Z) : M A unit :=
  match n with
  | O => mret tt
  | S k =>
      '(pfn, kernel_vpn) ← dmalloc retain 1 false;
      uptmap retain ptbase ptref kernel_vpn vpn pfn USER_RW;;
      sbrk_map k ptbase ptref (vpn + 1)
  end.
Fixpoint sbrk_unmap (n : nat) (ptbase ptref vpn : Z) : M A unit :=
  match n with
  | O => mret tt
  | S k => uptunmap ptbase ptref vpn;; sbrk_unmap k ptbase ptref (vpn + 1)
  end.

Definition sys_sbrk (size : Z) : M P ctl :=
  i ← cur; p ← get_proc i;
  let sp := space p in
  let old_brk := brk sp in
  let new_brk := u64 (old_brk + size) in
  if (HEAP_TOP <=? new_brk) || (new_brk <? heap_bottom sp) then ret (-1) else
  (if 0 <? size then
     in_pa (sbrk_map (Z.to_nat (ADDR_2_PAGEUP new_brk - ADDR_2_PAGEUP old_brk))
              (ptbase_vpn sp) (ptref_base sp) (ADDR_2_PAGEUP old_brk))
   else if size <? 0 then
     in_pa (sbrk_unmap (Z.to_nat (ADDR_2_PAGEUP old_brk - ADDR_2_PAGEUP new_brk))
              (ptbase_vpn sp) (ptref_base sp) (ADDR_2_PAGEUP new_brk))
   else mret tt);;
  ret (i64 old_brk).

(** TimeVal is { sec; usec } at the user address [ts]. *)
Definition sys_get_time (ts : Z) : M P ctl :=
  i ← cur; p ← get_proc i;
  m ← gets pmem;
  let kernel_vpn := walkupt m (ptref_base (space p)) (ADDR_2_PAGE ts) in
  if kernel_vpn =? 0 then lift Fault else
  let kernel_ts := ADDR kernel_vpn (OFFSET ts) in
  us ← get_time_us;
  on_pmem (fun m => store64 m (kernel_ts + 8) us);;
  on_pmem (fun m => store64 m kernel_ts (us / MICRO_PER_SEC));;
  ret 0.

(** ** sys_exit *)
Fixpoint close_all (n : nat) (i : Z) : M P unit :=
  match n with
  | O => mret tt
  | S k =>
      d ← get_fd i;
      (if occupied d then sys_close i;; mret tt else mret tt);;
      close_all k (i + 1)
  end.

Definition sys_exit (xstate : Z) : M P ctl :=
  i ← cur;
  close_all (Z.to_nat NUM_FILES) 0;;
  p ← get_proc i;
  if negb (Z.land (flags p) FLAGS_WAITED =? 0) then
    par ← lift (of_option (parent p));
    upd_proc par (set_status READY);;
    pp ← get_proc par;
    tf_put (trapframe (space pp)) (x_off 10) xstate;;
    terminate i;;
    unload_process retain i;;
    schedule
  else
    upd_proc i (set_status ZOMBIE);;
    upd_proc i (set_exit_code xstate);;
    schedule.

(** ** sys_fork *)

(** The descriptors of the parent copied into the slot [child]. *)
Fixpoint copy_fds (n : nat) (par child : nat) (fd : nat) : M P unit :=
  match n with
  | O => mret tt
  | S k =>
      p ← get_proc par;
      d ← lift (of_option (opened_files p !! fd));
      (if negb (occupied d) then
         upd_proc child (fun c => set_files (alter (set_occupied false) fd (opened_files c)) c)
       else
         upd_proc child (fun c => set_files (<[fd := d]> (opened_files c)) c);;
         rc_inc (file d));;
      copy_fds k par child (S fd)
  end.

(** The address space of the child: its frame, page and reference table. *)
Definition fork_space (src_ptref : Z) : M A (Z * Z * Z) :=
  '(pt_pfn, pt_vpn) ← dmalloc retain 1 true;
  pt_ref ← kalloc retain (2 * PAGESIZE);
  ptref_copy retain pt_vpn pt_ref src_ptref;;
  uptmap retain pt_vpn pt_ref 0 (ADDR_2_PAGE TRAMPOLINE) (ADDR_2_PAGE strampoline) TRAMPOLINE_FLAGS;;
  mret (pt_pfn, pt_vpn, pt_ref).

Definition sys_fork : M P ctl :=
  i ← cur; s ← gets id;
  match first_unused (procs s) 0 with
  | None => ret (-1)
  | Some c =>
      upd_proc c (set_pid (next_pid s));;
      upd_proc c (set_status READY);;
      upd_proc c (set_cpuid 0);;
      upd_proc c (set_parent (Some i));;
      upd_proc c (set_pflags 0);;
      p ← get_proc i;
      '(pt_pfn, pt_vpn, pt_ref) ← in_pa (fork_space (ptref_base (space p)));
      m ← gets pmem;
      let tf := PAGE_2_ADDR (walkupt m pt_ref (ADDR_2_PAGE TRAPFRAME)) in
      '(kernel_sp, guard) ← in_pa (kernel_stack retain);
      upd_proc c (set_space (mkSpace pt_pfn pt_vpn pt_ref (brk (space p)) (heap_bottom (space p))
        tf guard (ADDR_2_PAGE kernel_sp)));;
      tf_put tf kernel_sp_off (kernel_sp + (KERNEL_STACK_SIZE + PAGESIZE));;
      tf_put tf (x_off 10) 0;;
      upd_proc c (set_cwd (cwd_file p));;
      copy_fds (Z.to_nat NUM_FILES) i c 0;;
      modify (fun s => set_next_pid (i32 (next_pid s + 1)) s);;
      ret (next_pid s)
  end.

(** ** sys_waitpid *)

(** The last entry of the table with this pid and parent. *)
Fixpoint find_child (l : list PCB) (i : nat) (wpid : Z) (par : nat) (acc : option nat) : option nat :=
  match l with
  | [] => acc
  | p :: l' =>
      find_child l' (S i) wpid par
        (if (pid p =? wpid) && bool_decide (parent p = Some par) then Some i else acc)
  end.

Definition sys_waitpid (wpid : Z) : M P ctl :=
  i ← cur; s ← gets id;
  match find_child (procs s) 0 wpid i None with
  | None => ret (-1)
  | Some c =>
      p ← get_proc c;
      if decide (status p = ZOMBIE) then
        terminate c;;
        unload_process retain c;;
        ret 0
      else
        upd_proc c (fun p => set_pflags (Z.lor (flags p) FLAGS_WAITED) p);;
        upd_proc i (set_status BLOCKED);;
        schedule
  end.

(** ** sys_execve (kernel/exec.c) *)

(** [for (argp = v; *argp != NULL; ++argp)]: every string of the vector copied
    into a buffer of its own; the number of strings and their total size. *)
Fixpoint copy_args (n : nat) (ptref argp count argsize : Z) : M A (Z * Z) :=
  match n with
  | O => lift NoFuel
  | S k =>
      m ← gets amem;
      let u := load64 m argp in
      if u =? 0 then mret (count, argsize) else
      argi ← kalloc retain (2 * PAGESIZE);
      translate_2_pages fuel ptref argi u 1;;
      put64 argp argi;;
      m ← gets amem;
      l ← lift (CString.strlen fuel m argi);
      copy_args k ptref (u64 (argp + 8)) (count + 1) (u64 (argsize + (l + 1)))
  end.

(** One vector pushed on the user stack with its strings and its NULL: the new
    stack cursor, string cursor and cached page. *)
Fixpoint push_args (n : nat) (ptref v i cnt tsp tstr user_vpn kernel_vpn : Z) : M A (Z * Z * Z * Z) :=
  match n with
  | O => mret (tsp, tstr, user_vpn, kernel_vpn)
  | S k =>
      m ← gets amem;
      let uv := ADDR_2_PAGE tsp in
      let kv := if negb (uv =? user_vpn) then walkupt m ptref uv else kernel_vpn in
      if kv =? 0 then lift Fault else
      let slot := ADDR kv (OFFSET tsp) in
      if negb (i =? cnt) then
        put64 slot tstr;;
        m ← gets amem;
        let s := load64 m (u64 (v + 8 * i)) in
        l ← lift (CString.strlen fuel m s);
        translate_buffer ptref s tstr (l + 1) false;;
        m ← gets amem;
        kfree (load64 m (u64 (v + 8 * i))) (2 * PAGESIZE);;
        push_args k ptref v (i + 1) cnt (u64 (tsp + 8)) (u64 (tstr + (l + 1))) uv kv
      else
        put64 slot 0;;
        push_args k ptref v (i + 1) cnt (u64 (tsp + 8)) tstr uv kv
  end.

Fixpoint free_args (n : nat) (v i : Z) : M A unit :=
  match n with
  | O => mret tt
  | S k =>
      m ← gets amem;
      kfree (load64 m (u64 (v + 8 * i))) (2 * PAGESIZE);;
      free_args k v (i + 1)
  end.

(** The label free_args. *)
Definition free_vectors (argv argc envp envc : Z) : M A unit :=
  free_args (Z.to_nat argc) argv 0;;
  kfree argv (2 * PAGESIZE);;
  free_args (Z.to_nat envc) envp 0;;
  kfree envp (2 * PAGESIZE).

Definition push_vectors (p : PCB) (argv argc envp envc argsize : Z) : M P unit :=
  let ptref := ptref_base (space p) in
  let tf := trapframe (space p) in
  let total := u64 ((argc + envc + 2) * 8 + argsize) in
  let total_size := if Z.land total 15 =? 0 then total
                    else u64 (Z.land total (u64 (Z.lnot 15)) + 16) in
  sp ← tf_get tf (x_off 2);
  tf_put tf (x_off 2) (sp - total_size);;
  tsp ← tf_get tf (x_off 2);
  m ← gets pmem;
  let user_vpn := ADDR_2_PAGE tsp in
  tf_put tf (x_off 11) tsp;;
  tf_put tf (x_off 12) (tsp + (argc + 1) * 8);;
  '(tsp, tstr, uv, kv) ← in_pa (push_args (Z.to_nat (argc + 1)) ptref argv 0 argc tsp
      (u64 (tsp + (argc + envc + 2) * 8)) user_vpn (walkupt m ptref user_vpn));
  in_pa (kfree argv (2 * PAGESIZE));;
  in_pa (push_args (Z.to_nat (envc + 1)) ptref envp 0 envc tsp tstr uv kv);;
  in_pa (kfree envp (2 * PAGESIZE)).

Definition sys_execve (path argv envp : Z) : M P ctl :=
  i ← cur; p ← get_proc i;
  let ptref := ptref_base (space p) in
  kernel_path ← user_path retain fuel p path;
  kernel_argv ← in_pa (kalloc retain (2 * PAGESIZE));
  in_pa (translate_2_pages fuel ptref kernel_argv argv 8);;
  kernel_envp ← in_pa (kalloc retain (2 * PAGESIZE));
  in_pa (translate_2_pages fuel ptref kernel_envp envp 8);;
  '(argc, size1) ← in_pa (copy_args fuel ptref kernel_argv 0 0);
  '(envc, argsize) ← in_pa (copy_args fuel ptref kernel_envp 0 size1);
  '(res, out) ← in_pf (FsCode.getfile fuel retain dir_entry stack_inode
                         (RVal (cwd_file p)) kernel_path false);
  in_pa (kfree kernel_path (2 * PAGESIZE));;
  if res <? 0 then ret (-1) else
  program ← lift (of_option out);
  perm ← in_pf (Files.call_get_permission program);
  if (ftype program =? DIRECTORY) || (Z.land perm PERMISSION_X =? 0) || (Z.land perm PERMISSION_R =? 0)
  then in_pa (free_vectors kernel_argv argc kernel_envp envc);; ret (-1) else
  free_process_space retain p;;
  r ← load_process retain gpu_flush strampoline sstatus satp handler i program;
  if r <? 0 then in_pa (free_vectors kernel_argv argc kernel_envp envc);; ret (-1) else
  p' ← get_proc i;
  push_vectors p' kernel_argv argc kernel_envp envc argsize;;
  ret argc.

(** ** Dispatch (kernel/syscall.c) *)
Definition SYS_DUP : Z := 23.
Definition SYS_DUP3 : Z := 24.
Definition SYS_CHDIR : Z := 49.
Definition SYS_OPENAT : Z := 56.
Definition SYS_CLOSE : Z := 57.
Definition SYS_LSEEK : Z := 62.
Definition SYS_READ : Z := 63.
Definition SYS_WRITE : Z := 64.
Definition SYS_EXIT : Z := 93.
Definition SYS_YIELD : Z := 124.
Definition SYS_GET_TIME : Z := 169.
Definition SYS_SBRK : Z := 214.
Definition SYS_FORK : Z := 220.
Definition SYS_EXECVE : Z := 221.
Definition SYS_WAITPID : Z := 260.

Definition value (m : M P Z) : M P ctl := v ← m; ret v.

(** The table has SYS_WAITPID + 1 entries; a larger id reads past its end. *)
Definition syscall (id a0 a1 a2 a3 a4 : Z) : M P ctl :=
  if SYS_WAITPID <? id then lift Fault
  else if id =? SYS_DUP then value (sys_dup (u32 a0))
  else if id =? SYS_DUP3 then value (sys_dup3 (u32 a0) (u32 a1) (i32 a2))
  else if id =? SYS_CHDIR then sys_chdir retain fuel dir_entry stack_inode a0
  else if id =? SYS_OPENAT then
    sys_openat retain fuel dir_entry stack_inode (i32 a0) a1 (i32 a2) (i32 a3)
  else if id =? SYS_CLOSE then value (sys_close (u32 a0))
  else if id =? SYS_LSEEK then sys_lseek (u32 a0) (i64 a1) (i64 a2) a3 (u32 a4)
  else if id =? SYS_READ then sys_read retain gpu_flush (u32 a0) a1 a2
  else if id =? SYS_WRITE then sys_write retain fuel (u32 a0) a1 a2
  else if id =? SYS_EXIT then sys_exit (i32 a0)
  else if id =? SYS_YIELD then sys_yield
  else if id =? SYS_GET_TIME then sys_get_time a0
  else if id =? SYS_SBRK then sys_sbrk (i64 a0)
  else if id =? SYS_FORK then sys_fork
  else if id =? SYS_EXECVE then sys_execve a0 a1 a2
  else if id =? SYS_WAITPID then sys_waitpid (i32 a0)
  else panic.

(** ** trap_handler (kernel/ctrap.c) *)
Definition TRAP_Interrupt : Z := 9223372036854775808.
Definition TRAP_CODE (c : Z) : Z := Z.land c 9223372036854775807.
Definition TRAP_Interrupt_SupervisorTimer : Z := 5.
Definition TRAP_Exception_IllegalInstruction : Z := 2.
Definition TRAP_Exception_UserEnvCall : Z := 8.
Definition TRAP_Exception_InstructionPageFault : Z := 12.
Definition TRAP_Exception_LoadPageFault : Z := 13.
Definition TRAP_Exception_StorePageFault : Z := 15.

(** trap_return at the end of the handler: the running process goes on.  Its
    status is not set back to RUNNING. *)
Definition trap_return (c : ctl) (after : Z -> M P unit) : M P ctl :=
  match c with
  | Value v => after v;; mret Resumed
  | _ => mret c
  end.

Definition trap_handler (scause : Z) : M P ctl :=
  i ← cur;
  upd_proc i (set_status READY);;
  p ← get_proc i;
  let tf := trapframe (space p) in
  let code := TRAP_CODE scause in
  let exit n := c ← sys_exit n; trap_return c (fun _ => mret tt) in
  if negb (Z.land scause TRAP_Interrupt =? 0) then
    if code =? TRAP_Interrupt_SupervisorTimer then
      set_next_trigger;;
      c ← schedule; trap_return c (fun _ => mret tt)
    else panic
  else if code =? TRAP_Exception_UserEnvCall then
    pc ← tf_get tf sepc_off;
    tf_put tf sepc_off (pc + 4);;
    x17 ← tf_get tf (x_off 17);
    x10 ← tf_get tf (x_off 10);
    x11 ← tf_get tf (x_off 11);
    x12 ← tf_get tf (x_off 12);
    x13 ← tf_get tf (x_off 13);
    x14 ← tf_get tf (x_off 14);
    c ← syscall x17 x10 x11 x12 x13 x14;
    trap_return c (fun v =>
      p' ← get_proc i; tf_put (trapframe (space p')) (x_off 10) v)
  else if code =? TRAP_Exception_LoadPageFault then exit (-1)
  else if code =? TRAP_Exception_StorePageFault then exit (-2)
  else if code =? TRAP_Exception_InstructionPageFault then exit (-3)
  else if code =? TRAP_Exception_IllegalInstruction then exit (-4)
  else exit (-5).

End Calls.
End SysProc.
