(* ===== verification/Sample.v ===== *)
(** * Concrete kernel states on which the theorems are evaluated

    A file system of one block group on a 16-block device: block 0 is the super
    block, block 1 the inode bitmap, block 2 the data bitmap, block 3 the inode
    table.  Inode 0 is the root directory, inode 1 a regular file of one page
    kept in block 5. *)
From S2P Require Import Prelude Mem KernelPT KernelPTProps Alloc DmaHeap FsTypes FsCode Proc.
Import KernelPT Alloc FsTypes Proc.

Definition super0 : SuperBlock := mkSuper 168105733 1 1 1 16 0.
Definition rootfs0 : Filesystem :=
  mkFilesystem super0 (mkFS 0 0) (mkFS 9 0) 1 2 3.

Definition root_inode0 : Inode := mkInode DIRECTORY 6 0 (replicate 25 0) 0 0 0.
Definition file_inode0 : Inode := mkInode REGULAR 6 4096 (5 :: replicate 24 0) 0 0 0.

(** Blocks 0 to 5 and inodes 0 and 1 are in use. *)
Definition dev0 : mem :=
  let d : mem := fun _ => 0 in
  let d := upd d 4096 3 in
  let d := upd d 8192 63 in
  let d := store_inode d 12288 root_inode0 in
  store_inode d (12288 + 128) file_inode0.

(** All 16 blocks have valid buffers; nothing else is on the device. *)
Definition cached0 : Z -> bool := fun b => (0 <=? b) && (b <? 16).
Definition cold0 : BlockLayer := mkLayer (fun _ _ => lift Fault) (fun _ _ _ => lift Fault).

Definition f0 : F := mkF heap0 dev0 65536 rootfs0 ∅ [] [] 0 0 cached0 cold0.

Definition space0 : Space := mkSpace 0 0 0 0 0 0 0 0.
Definition pcb (st : status_t) (l : list FileDescriptor) : PCB :=
  mkPCB 0 st 0 None 0 0 space0 (mkFS 0 0) l.
Definition idle : PCB := pcb UNUSED (replicate 64 no_fd).

(** Slot 0 runs, slot 5 is READY. *)
Definition table0 : list PCB :=
  <[5%nat := pcb READY std_files]> (pcb RUNNING std_files :: replicate 255 idle).
Definition p0 : P := mkP f0 table0 0 6 1000 0 10000000.
