(* ===== verification/SchedProps.v ===== *)
(** * The scheduler: which process runs next, and that none starves

    schedule visits the table in a circle from the slot after the running
    process; the theorems state the choice, the halt when nothing is READY, and
    that a process that stays READY runs within 256 calls. *)
From S2P Require Import Prelude Mem KernelPT Alloc FsTypes Proc SysProc Sample.
Import Proc.

(** The slot [k] places after the one that follows [id]. *)
Definition slot (id k : nat) : nat := ((id + 1 + k) mod 256)%nat.

Definition is_ready (l : list PCB) (i : nat) : Prop :=
  exists p, l !! i = Some p /\ status p = READY.

(** The table is complete and a slot of it is running. *)
Definition table_ok (s : P) : Prop := length (procs s) = 256%nat /\ (running s < 256)%nat.

(** What [run i] makes of the state. *)
Definition dispatched (i : nat) (s s' : P) : Prop :=
  running s' = i /\ length (procs s') = length (procs s) /\
  (exists p, procs s !! i = Some p /\ procs s' !! i = Some (set_cpuid 0 (set_status RUNNING p))) /\
  (forall j, j <> i -> procs s' !! j = procs s !! j) /\
  pf s' = pf s /\ next_pid s' = next_pid s /\ deadline s' = deadline s.

Lemma slot_lt id k : (slot id k < 256)%nat.
Proof. apply Nat.mod_upper_bound. lia. Qed.

Lemma slot_succ id k : ((slot id k + 1) mod 256)%nat = slot id (S k).
Proof. unfold slot. rewrite Nat.Div0.add_mod_idemp_l. f_equal. lia. Qed.

Lemma slot_0 id : slot id 0 = ((id + 1) mod 256)%nat.
Proof. unfold slot. f_equal. lia. Qed.

Lemma slot_back id k : (id < 256)%nat -> (k < 256)%nat -> slot id k = id <-> k = 255%nat.
Proof.
  intros H1 H2. unfold slot. split; intros H.
  - destruct (decide (id + 1 + k < 256)%nat).
    + rewrite Nat.mod_small in H by lia. lia.
    + rewrite <- (Nat.mod_unique (id + 1 + k) 256 1 (id + 1 + k - 256)) in H by lia. lia.
  - subst. symmetry. apply (Nat.mod_unique _ _ 1); lia.
Qed.

(** Every slot is visited: [i] is at its distance from [id]. *)
Definition dist (id i : nat) : nat := ((i + 255 - id) mod 256)%nat.

Lemma slot_dist id i : (id < 256)%nat -> (i < 256)%nat -> slot id (dist id i) = i.
Proof.
  intros H1 H2. unfold slot, dist. rewrite Nat.Div0.add_mod_idemp_r.
  symmetry. apply (Nat.mod_unique _ _ 1); lia.
Qed.

Lemma dist_lt id i : (dist id i < 256)%nat.
Proof. apply Nat.mod_upper_bound. lia. Qed.

(** Choosing a slot [k] places on brings [j] nearer by [k + 1]. *)
Lemma dist_slot id j k :
  (id < 256)%nat -> (j < 256)%nat -> (k < dist id j)%nat ->
  dist (slot id k) j = (dist id j - k - 1)%nat.
Proof.
  intros H1 H2 H3. pose proof (slot_lt id k). pose proof (dist_lt id j).
  pose proof (slot_dist id j H1 H2) as E. symmetry. unfold dist at 2.
  revert E H3. unfold slot at 1. intros E H3.
  assert (Hs : (slot id k = id + 1 + k \/ slot id k + 256 = id + 1 + k)%nat).
  { unfold slot. destruct (decide (id + 1 + k < 256)%nat); [left; by rewrite Nat.mod_small|right].
    rewrite <- (Nat.mod_unique (id + 1 + k) 256 1 (id + 1 + k - 256)) by lia. lia. }
  assert (Hj : (j = id + 1 + dist id j \/ j + 256 = id + 1 + dist id j)%nat).
  { destruct (decide (id + 1 + dist id j < 256)%nat).
    - rewrite Nat.mod_small in E by lia. lia.
    - rewrite <- (Nat.mod_unique (id + 1 + dist id j) 256 1 (id + 1 + dist id j - 256)) in E by lia.
      lia. }
  destruct Hs, Hj;
    first [ apply (Nat.mod_unique _ _ 1); lia | apply (Nat.mod_unique _ _ 0); lia ].
Qed.

(** ** The loop of schedule *)
Lemma pick_ok l id n k :
  length l = 256%nat -> (id < 256)%nat -> (n + k = 256)%nat ->
  (exists j, (k <= j < 256)%nat /\ is_ready l (slot id j) /\
     (forall i, (k <= i < j)%nat -> ~ is_ready l (slot id i)) /\
     pick (S n) l id (slot id k) (bool_decide (k = 256%nat)) = Ret (Some (slot id j))) \/
  ((forall i, (k <= i < 256)%nat -> ~ is_ready l (slot id i)) /\
   pick (S n) l id (slot id k) (bool_decide (k = 256%nat)) = Ret None).
Proof.
  intros Hl Hid. revert k. induction n as [|n IH]; intros k Hk.
  - right. split; [lia|]. replace k with 256%nat by lia. cbn [pick].
    rewrite bool_decide_true by done. rewrite bool_decide_true; [done|].
    unfold slot. replace (id + 1 + 256)%nat with (id + 1 + 1 * 256)%nat by lia.
    apply Nat.Div0.mod_add.
  - cbn [pick]. rewrite (bool_decide_false (k = 256%nat)) by lia. cbn [negb orb].
    destruct (lookup_lt_is_Some_2 l (slot id k)) as [p Hp]; [rewrite Hl; apply slot_lt|].
    rewrite Hp. destruct (decide (status p = READY)) as [Hr|Hr].
    { left. exists k. split; [lia|]. split; [by exists p|]. split; [lia|done]. }
    rewrite slot_succ.
    replace (bool_decide (slot id k = id)) with (bool_decide (S k = 256%nat)).
    2:{ apply bool_decide_ext. rewrite slot_back by lia. lia. }
    assert (Hn : ~ is_ready l (slot id k)) by (intros (q & Hq & ?); congruence).
    destruct (IH (S k)) as [(j & Hj & Hr' & Hb & E)|[Hb E]]; [lia| |].
    + left. exists j. split; [lia|]. split; [done|]. split; [|done].
      intros i Hi. destruct (decide (i = k)) as [->|]; [done|]. apply Hb; lia.
    + right. split; [|done]. intros i Hi.
      destruct (decide (i = k)) as [->|]; [done|]. apply Hb; lia.
Qed.

Lemma run_ok i s : (i < length (procs s))%nat ->
  exists s', run i s = Ret (Resumed, s') /\ dispatched i s s'.
Proof.
  intros Hi. destruct (lookup_lt_is_Some_2 _ _ Hi) as [p Hp].
  assert (Hp2 : <[i := set_status RUNNING p]> (procs s) !! i = Some (set_status RUNNING p))
    by (by rewrite list_lookup_insert_eq).
  eexists. split.
  - unfold run, upd_proc, get_proc. mstep. unfold mbind, M_bind, gets, modify, lift. cbn.
    rewrite Hp. cbn. rewrite Hp2. cbn. reflexivity.
  - repeat split; cbn; try done.
    + by rewrite !length_insert.
    + exists p. split; [done|]. rewrite list_lookup_insert_eq; [done|by rewrite length_insert].
    + intros j Hj. by rewrite !list_lookup_insert_ne by done.
Qed.

Lemma schedule_ok s : table_ok s ->
  (exists k s', (k < 256)%nat /\ is_ready (procs s) (slot (running s) k) /\
     (forall i, (i < k)%nat -> ~ is_ready (procs s) (slot (running s) i)) /\
     schedule s = Ret (Resumed, s') /\ dispatched (slot (running s) k) s s') \/
  ((forall i, ~ is_ready (procs s) i) /\ schedule s = Ret (Halted, s)).
Proof.
  intros [Hl Hr]. destruct (pick_ok (procs s) (running s) 256 0 Hl Hr) as [H|H]; [lia| |].
  - left. destruct H as (k & Hk & Hk1 & Hk2 & E).
    destruct (run_ok (slot (running s) k) s) as (s' & E' & D); [rewrite Hl; apply slot_lt|].
    exists k, s'. split; [lia|]. split; [done|]. split; [intros; apply Hk2; lia|]. split; [|done].
    unfold schedule. mstep. rewrite slot_0 in E. unfold mbind, M_bind, lift, gets.
    cbn [id]. change (bool_decide (0%nat = 256%nat)) with false in E. by rewrite E.
  - right. destruct H as [Hb E]. split.
    + intros i Hi. assert (Hi' : (i < 256)%nat).
      { destruct Hi as (p & Hp & _). apply lookup_lt_Some in Hp. lia. }
      apply (Hb (dist (running s) i)); [pose proof (dist_lt (running s) i); lia|].
      by rewrite slot_dist.
    + unfold schedule. mstep. rewrite slot_0 in E. unfold mbind, M_bind, lift, gets.
      cbn [id]. change (bool_decide (0%nat = 256%nat)) with false in E. by rewrite E.
Qed.

(** C24: schedule runs the first READY process after the running one in the
    circular order of the table, the running one itself last, and changes
    nothing but that entry and [running]; when no process is READY it stops the
    machine and changes nothing. *)
Theorem schedule_round_robin s : table_ok s ->
  (exists k s', (k < 256)%nat /\ is_ready (procs s) (slot (running s) k) /\
     (forall i, (i < k)%nat -> ~ is_ready (procs s) (slot (running s) i)) /\
     schedule s = Ret (Resumed, s') /\ dispatched (slot (running s) k) s s') \/
  ((forall i, ~ is_ready (procs s) i) /\ schedule s = Ret (Halted, s)).
Proof. apply schedule_ok. Qed.

(** One call brings the READY process [j] nearer, or runs it. *)
Lemma schedule_progress s j : table_ok s -> is_ready (procs s) j ->
  exists s', schedule s = Ret (Resumed, s') /\ (running s' < 256)%nat /\
    (running s' = j \/ (dist (running s') j < dist (running s) j)%nat).
Proof.
  intros Hok Hj. pose proof Hok as [Hl Hr].
  assert (Hj' : (j < 256)%nat).
  { destruct Hj as (p & Hp & _). apply lookup_lt_Some in Hp. lia. }
  destruct (schedule_ok s Hok) as [(k & s' & Hk & H1 & H2 & E & D)|[Hn _]]; [|by destruct (Hn j)].
  exists s'. split; [done|]. destruct D as [-> _]. split; [apply slot_lt|].
  destruct (decide (k < dist (running s) j)%nat).
  - right. rewrite dist_slot by done. lia.
  - left. destruct (decide (k = dist (running s) j)) as [->|]; [by apply slot_dist|].
    destruct (H2 (dist (running s) j)); [lia|]. by rewrite slot_dist.
Qed.

(** C25: no starvation.  Along any run of the kernel in which a process [j] is
    READY at every call of schedule (whatever the calls in between do to the
    table), one of the first 256 calls runs [j]. *)
Theorem schedule_no_starvation (run_of : nat -> P) (j : nat) :
  (forall n, table_ok (run_of n)) ->
  (forall n, is_ready (procs (run_of n)) j) ->
  (forall n s', schedule (run_of n) = Ret (Resumed, s') -> running (run_of (S n)) = running s') ->
  exists n s', (n < 256)%nat /\ schedule (run_of n) = Ret (Resumed, s') /\ running s' = j.
Proof.
  intros Hok Hr Hnext.
  assert (H : forall d n, (dist (running (run_of n)) j < d)%nat ->
    exists m s', (n <= m < n + d)%nat /\ schedule (run_of m) = Ret (Resumed, s') /\ running s' = j).
  { induction d as [|d IH]; intros n Hd; [lia|].
    destruct (schedule_progress (run_of n) j) as (s' & E & _ & [Hj|Hlt]); [done|done| |].
    - exists n, s'. split; [lia|done].
    - destruct (IH (S n)) as (m & t & Hm & ?); [rewrite (Hnext n s' E); lia|].
      exists m, t. split; [lia|done]. }
  destruct (H 256%nat 0%nat (dist_lt _ _)) as (m & s' & Hm & ?). exists m, s'. split; [lia|done].
Qed.

(** The state a timer trap hands to schedule. *)
Definition preempted (s : P) : P :=
  set_deadline (u64 (time s + clock_freq s / TICKS_PER_SEC))
    (set_procs (alter (set_status READY) (running s) (procs s)) s).

Definition timer_trap : Z := 9223372036854775813.

Lemma upd_proc_run i f s p : procs s !! i = Some p ->
  upd_proc i f s = Ret (tt, set_procs (<[i := f p]> (procs s)) s).
Proof.
  intros Hp. unfold upd_proc, get_proc, mbind, M_bind, gets, lift, modify. by rewrite Hp.
Qed.

Lemma get_proc_run i s p : procs s !! i = Some p -> get_proc i s = Ret (p, s).
Proof. intros Hp. unfold get_proc, mbind, M_bind, gets, lift. by rewrite Hp. Qed.

Lemma preempted_ready s i : table_ok s ->
  is_ready (procs (preempted s)) i <-> i = running s \/ is_ready (procs s) i.
Proof.
  intros [Hl Hr]. unfold is_ready, preempted. cbn.
  destruct (lookup_lt_is_Some_2 (procs s) (running s)) as [p Hp]; [lia|].
  destruct (decide (i = running s)) as [->|Hi].
  - rewrite list_lookup_alter_eq, Hp. cbn. split; [by left|]. intros _. by eexists.
  - rewrite list_lookup_alter_ne by done. split; [by right|by intros [?|?]].
Qed.

(** C34: a timer interrupt makes the running process READY, sets the next
    deadline to a hundredth of a second from now, and switches to the next
    READY process in the circular order (the interrupted one only if there is
    no other): it never stops the machine. *)
Theorem timer_interrupt_switches retain fuel gpu dent sti str sst satp h s :
  table_ok s ->
  exists k s', (k < 256)%nat /\
    SysProc.trap_handler retain fuel gpu dent sti str sst satp h timer_trap s = Ret (Resumed, s') /\
    dispatched (slot (running s) k) (preempted s) s' /\
    deadline s' = u64 (time s + clock_freq s / 100) /\
    (slot (running s) k = running s \/ is_ready (procs s) (slot (running s) k)) /\
    (forall i, (i < k)%nat -> ~ is_ready (procs s) (slot (running s) i)).
Proof.
  intros Hok. pose proof Hok as [Hl Hr].
  destruct (lookup_lt_is_Some_2 (procs s) (running s)) as [p Hp]; [lia|].
  assert (Hok' : table_ok (preempted s)) by (split; [by cbn; rewrite length_alter|done]).
  destruct (schedule_ok (preempted s) Hok') as [(k & s' & Hk & H1 & H2 & E & D)|[Hn _]].
  2:{ destruct (Hn (running s)). apply preempted_ready; [done|by left]. }
  exists k, s'. split; [done|].
  assert (Ea : alter (set_status READY) (running s) (procs s) = <[running s := set_status READY p]> (procs s)).
  { apply list_eq. intros i. destruct (decide (i = running s)) as [->|Hi].
    - by rewrite list_lookup_alter_eq, Hp, list_lookup_insert_eq by lia.
    - by rewrite list_lookup_alter_ne, list_lookup_insert_ne by done. }
  split; [|split; [done|split; [by destruct D as (_&_&_&_&_&_&->)|split]]].
  - unfold SysProc.trap_handler. mstep.
    erewrite bind_ret_l; [|by apply upd_proc_run].
    erewrite bind_ret_l; [|apply get_proc_run; cbn; apply list_lookup_insert_eq; lia].
    change (negb (Z.land timer_trap SysProc.TRAP_Interrupt =? 0)) with true.
    change (SysProc.TRAP_CODE timer_trap =? SysProc.TRAP_Interrupt_SupervisorTimer) with true.
    cbn iota. mstep. unfold preempted in E. rewrite Ea in E.
    erewrite bind_ret_l; [|exact E]. reflexivity.
  - apply (preempted_ready s _ Hok) in H1 as [?|?]; [by left|by right].
  - intros i Hi Hr'. apply (H2 i Hi). apply preempted_ready; [done|by right].
Qed.

(** ** Witnesses *)
Lemma table0_ok : table_ok p0.
Proof. split; [reflexivity|cbn; lia]. Qed.

Lemma table0_ready5 : is_ready (procs p0) 5.
Proof. eexists. split; [reflexivity|done]. Qed.

Lemma schedule_round_robin_witness :
  table_ok p0 /\
  ((exists k s', (k < 256)%nat /\ is_ready (procs p0) (slot 0 k) /\
     (forall i, (i < k)%nat -> ~ is_ready (procs p0) (slot 0 i)) /\
     schedule p0 = Ret (Resumed, s') /\ dispatched (slot 0 k) p0 s') \/
   ((forall i, ~ is_ready (procs p0) i) /\ schedule p0 = Ret (Halted, p0))).
Proof. split; [exact table0_ok|exact (schedule_round_robin p0 table0_ok)]. Defined.

(** The running process yields for ever to the one in slot 5, and it in turn
    finds itself. *)
Definition ping (n : nat) : P :=
  match n with
  | O => p0
  | S _ => set_procs (<[0%nat := idle]> (<[5%nat := pcb READY std_files]> table0)) (set_running 5 p0)
  end.

Lemma schedule_no_starvation_witness :
  exists n s', (n < 256)%nat /\ schedule (ping n) = Ret (Resumed, s') /\ running s' = 5%nat.
Proof.
  apply (schedule_no_starvation ping 5).
  - intros [|n]; (split; [reflexivity|cbn; lia]).
  - intros [|n]; (eexists; split; [reflexivity|done]).
  - intros [|n] s'; vm_compute; intros [= <-]; reflexivity.
Defined.

Lemma timer_interrupt_switches_witness :
  table_ok p0 /\
  exists k s', (k < 256)%nat /\
    SysProc.trap_handler true 10 (mret tt) 0 root_inode0 0 0 0 0 timer_trap p0 = Ret (Resumed, s') /\
    dispatched (slot (running p0) k) (preempted p0) s' /\
    deadline s' = u64 (time p0 + clock_freq p0 / 100) /\
    (slot (running p0) k = running p0 \/ is_ready (procs p0) (slot (running p0) k)) /\
    (forall i, (i < k)%nat -> ~ is_ready (procs p0) (slot (running p0) i)).
Proof.
  split; [exact table0_ok|].
  exact (timer_interrupt_switches true 10 (mret tt) 0 root_inode0 0 0 0 0 p0 table0_ok).
Defined.
