(* ===== verification/FdSpec.v ===== *)
(** * Descriptor tables and reference counts

    The count kept in every FSFile equals the number of descriptors, over all
    processes, that refer to it; an object that descriptors refer to is never
    freed.  This file has the invariant and the effect on it of writing one
    descriptor and of one count going up or down. *)
From S2P Require Import Prelude Mem KernelPT Alloc FsTypes Proc SysFile.
Import KernelPT Alloc FsTypes Proc SysFile.

(** Does the descriptor hold a reference to the object at [a]? *)
Definition fd_ref (a : Z) (d : FileDescriptor) : nat :=
  if occupied d && (negb (ftype (file d) =? DEVICE) && (fsuper (file d) =? a)) then 1%nat else 0%nat.
Definition refs_in (a : Z) (l : list FileDescriptor) : nat := sum_list_with (fd_ref a) l.
Definition refs (a : Z) (l : list PCB) : nat :=
  sum_list_with (fun p => refs_in a (opened_files p)) l.

Record fd_inv (s : P) : Prop := {
  inv_procs : length (procs s) = 256%nat;
  inv_files : forall i p, procs s !! i = Some p -> length (opened_files p) = 64%nat;
  inv_running : (running s < 256)%nat;
  inv_rc : forall a, match objs (pf s) !! a with
                     | Some v => rc v = Z.of_nat (refs a (procs s))
                     | None => refs a (procs s) = 0%nat
                     end;
}.

(** ** Counting *)
Lemma sum_list_with_insert {X} (f : X -> nat) (l : list X) i x y :
  l !! i = Some x ->
  (sum_list_with f (<[i := y]> l) + f x = sum_list_with f l + f y)%nat.
Proof.
  revert i. induction l as [|z l IH]; intros i H; [done|].
  destruct i as [|i]; [cbn in *; injection H as ->; lia|]. specialize (IH i H).
  change (<[S i := y]> (z :: l)) with (z :: <[i := y]> l). cbn [sum_list_with]. lia.
Qed.

Lemma sum_list_with_lookup_le {X} (f : X -> nat) (l : list X) i x :
  l !! i = Some x -> (f x <= sum_list_with f l)%nat.
Proof.
  revert i. induction l as [|z l IH]; intros i H; [done|].
  destruct i as [|i]; cbn in *; [injection H as ->; lia|]. specialize (IH i H). lia.
Qed.

Lemma sum_list_with_le {X} (f : X -> nat) (l : list X) b :
  (forall i x, l !! i = Some x -> (f x <= b)%nat) -> (sum_list_with f l <= b * length l)%nat.
Proof.
  induction l as [|z l IH]; intros H; [cbn; lia|]. cbn.
  pose proof (H 0%nat z eq_refl). specialize (IH (fun i x => H (S i) x)). lia.
Qed.

Lemma fd_ref_le a d : (fd_ref a d <= 1)%nat.
Proof. unfold fd_ref. case_match; lia. Qed.

(** The table with descriptor [fd] of process [i] replaced by [d]. *)
Definition with_fd (i fd : nat) (d : FileDescriptor) (l : list PCB) : list PCB :=
  alter (fun p => set_files (<[fd := d]> (opened_files p)) p) i l.

Definition fd_of (l : list PCB) (i fd : nat) : option FileDescriptor :=
  p ← l !! i; opened_files p !! fd.

Lemma with_fd_insert i fd d l p : l !! i = Some p ->
  with_fd i fd d l = <[i := set_files (<[fd := d]> (opened_files p)) p]> l.
Proof.
  intros Hp. apply list_eq. intros j. unfold with_fd. destruct (decide (j = i)) as [->|Hj].
  - rewrite list_lookup_alter_eq, Hp, list_lookup_insert_eq; [done|by eapply lookup_lt_Some].
  - by rewrite list_lookup_alter_ne, list_lookup_insert_ne by done.
Qed.

Lemma fd_of_Some l i fd d : fd_of l i fd = Some d <->
  exists p, l !! i = Some p /\ opened_files p !! fd = Some d.
Proof. unfold fd_of. destruct (l !! i) as [p|]; cbn; naive_solver. Qed.

Lemma fd_of_with_fd l i fd d d' j k : fd_of l i fd = Some d ->
  fd_of (with_fd i fd d' l) j k = if decide (j = i /\ k = fd) then Some d' else fd_of l j k.
Proof.
  intros (p & Hp & Hd)%fd_of_Some. rewrite (with_fd_insert _ _ _ _ _ Hp). unfold fd_of.
  pose proof (lookup_lt_Some _ _ _ Hp). pose proof (lookup_lt_Some _ _ _ Hd).
  destruct (decide (j = i)) as [->|Hj].
  - rewrite list_lookup_insert_eq by done. cbn. destruct (decide (k = fd)) as [->|Hk].
    + rewrite decide_True by done. by apply list_lookup_insert_eq.
    + rewrite decide_False by tauto. rewrite list_lookup_insert_ne by done. by rewrite Hp.
  - rewrite decide_False by tauto. by rewrite list_lookup_insert_ne by done.
Qed.

Lemma refs_with_fd a l i fd d d' : fd_of l i fd = Some d ->
  (refs a (with_fd i fd d' l) + fd_ref a d = refs a l + fd_ref a d')%nat.
Proof.
  intros (p & Hp & Hd)%fd_of_Some. rewrite (with_fd_insert _ _ _ _ _ Hp).
  pose proof (sum_list_with_insert (fun p => refs_in a (opened_files p)) l i p
    (set_files (<[fd := d']> (opened_files p)) p) Hp) as E1.
  pose proof (sum_list_with_insert (fd_ref a) (opened_files p) fd d d' Hd) as E2.
  unfold refs, refs_in in *. cbn in E1. lia.
Qed.

Lemma refs_ge a l i fd d : fd_of l i fd = Some d -> (fd_ref a d <= refs a l)%nat.
Proof.
  intros (p & Hp & Hd)%fd_of_Some.
  pose proof (sum_list_with_lookup_le (fun p => refs_in a (opened_files p)) l i p Hp).
  pose proof (sum_list_with_lookup_le (fd_ref a) _ fd d Hd). unfold refs, refs_in in *. lia.
Qed.

Lemma refs_bound s a : fd_inv s -> Z.of_nat (refs a (procs s)) <= 16384.
Proof.
  intros I. pose proof (sum_list_with_le (fun p => refs_in a (opened_files p)) (procs s) 64) as H.
  rewrite (inv_procs s I) in H. unfold refs. enough (sum_list_with (fun p => refs_in a (opened_files p)) (procs s) <= 64 * 256)%nat by lia.
  apply H. intros i p Hp.
  pose proof (sum_list_with_le (fd_ref a) (opened_files p) 1) as H'.
  rewrite (inv_files s I i p Hp) in H'. unfold refs_in. apply H'. intros. apply fd_ref_le.
Qed.

Lemma with_fd_shape (s : P) i fd d : fd_inv s ->
  length (with_fd i fd d (procs s)) = 256%nat /\
  (forall j p, with_fd i fd d (procs s) !! j = Some p -> length (opened_files p) = 64%nat).
Proof.
  intros I. unfold with_fd. split; [rewrite length_alter; apply I|]. intros j p.
  destruct (decide (j = i)) as [->|Hj].
  - rewrite list_lookup_alter_eq. destruct (procs s !! i) as [q|] eqn:E; [|done]. cbn.
    intros [= <-]. cbn. rewrite length_insert. by eapply inv_files.
  - rewrite list_lookup_alter_ne by done. by apply inv_files.
Qed.

(** ** Running the operations on descriptors *)
Definition with_files (i fd : nat) (d : FileDescriptor) (s : P) : P :=
  set_procs (with_fd i fd d (procs s)) s.

Lemma fd_of_is_Some s i fd : fd_inv s -> (i < 256)%nat -> (fd < 64)%nat ->
  exists d, fd_of (procs s) i fd = Some d.
Proof.
  intros I Hi Hfd.
  destruct (lookup_lt_is_Some_2 (procs s) i) as [p Hp]; [by rewrite (inv_procs s I)|].
  destruct (lookup_lt_is_Some_2 (opened_files p) fd) as [d Hd]; [by rewrite (inv_files s I i p Hp)|].
  exists d. apply fd_of_Some. by exists p.
Qed.

Lemma get_fd_run s (fd : nat) d :
  fd_of (procs s) (running s) fd = Some d -> get_fd (Z.of_nat fd) s = Ret (d, s).
Proof.
  intros (p & Hp & Hd)%fd_of_Some.
  unfold get_fd, cur, get_proc, mbind, M_bind, gets, lift. rewrite Hp. cbn [of_option].
  replace (Z.of_nat fd <? 0) with false by (symmetry; apply Z.ltb_ge; lia).
  rewrite Nat2Z.id, Hd. done.
Qed.

Lemma upd_proc_alter i f s p : procs s !! i = Some p ->
  upd_proc i f s = Ret (tt, set_procs (alter f i (procs s)) s).
Proof.
  intros Hp. unfold upd_proc, get_proc, mbind, M_bind, gets, lift, modify. rewrite Hp. cbn.
  do 3 f_equal. apply list_eq. intros j. destruct (decide (j = i)) as [->|Hj].
  - rewrite list_lookup_alter_eq, Hp, list_lookup_insert_eq; [done|by eapply lookup_lt_Some].
  - by rewrite list_lookup_alter_ne, list_lookup_insert_ne by done.
Qed.

Lemma put_fd_run s (fd : nat) d d' :
  fd_of (procs s) (running s) fd = Some d ->
  put_fd (Z.of_nat fd) d' s = Ret (tt, with_files (running s) fd d' s).
Proof.
  intros Hd. pose proof Hd as (p & Hp & _)%fd_of_Some.
  unfold put_fd. erewrite bind_ret_l; [|by apply get_fd_run]. mstep.
  rewrite Nat2Z.id. by rewrite (upd_proc_alter _ _ _ p).
Qed.

Lemma upd_fd_run s (fd : nat) d f :
  fd_of (procs s) (running s) fd = Some d ->
  upd_fd (Z.of_nat fd) f s = Ret (tt, with_files (running s) fd (f d) s).
Proof.
  intros Hd. unfold upd_fd. erewrite bind_ret_l; [|by apply get_fd_run]. by eapply put_fd_run.
Qed.

(** ** One count up or down *)
Definition with_obj (a : Z) (v : FSFile) (s : P) : P :=
  set_pf (set_objs (<[a := v]> (objs (pf s))) (pf s)) s.

Lemma upd_obj_run s a v f : objs (pf s) !! a = Some v ->
  in_pf (upd_obj a f) s = Ret (tt, with_obj a (f v) s).
Proof.
  intros Hv. unfold in_pf, upd_obj, get_obj, put_obj, mbind, M_bind, gets, lift, modify.
  by rewrite Hv.
Qed.

Lemma get_obj_run s a v : objs (pf s) !! a = Some v -> in_pf (get_obj a) s = Ret (v, s).
Proof.
  intros Hv. unfold in_pf, get_obj, mbind, M_bind, gets, lift. rewrite Hv. cbn. by destruct s.
Qed.

Lemma kfree_run a p n : exists a', kfree p n a = Ret (tt, a').
Proof.
  unfold kfree. destruct (n =? 0); [by eexists|].
  unfold mbind, M_bind, gets, put_size, put_next, on_mem, modify. by eexists.
Qed.

Lemma free_obj_run s a v : objs (pf s) !! a = Some v ->
  exists s', in_pf (free_obj a) s = Ret (tt, s') /\ procs s' = procs s /\
    running s' = running s /\ objs (pf s') = delete a (objs (pf s)).
Proof.
  intros Hv. destruct (kfree_run (fa (pf s)) a sizeof_FSFile) as [x Hx].
  eexists. split.
  - unfold in_pf, free_obj, get_obj, mbind, M_bind, gets, lift, in_fa, modify. rewrite Hv.
    cbn [of_option]. by rewrite Hx.
  - done.
Qed.

Lemma fd_ref_eq a d : fd_ref a d = 1%nat <->
  occupied d = true /\ ftype (file d) <> DEVICE /\ fsuper (file d) = a.
Proof.
  unfold fd_ref. destruct (occupied d), (Z.eqb_spec (ftype (file d)) DEVICE),
    (Z.eqb_spec (fsuper (file d)) a); cbn; naive_solver.
Qed.

Lemma fd_ref_01 a d : fd_ref a d = 0%nat \/ fd_ref a d = 1%nat.
Proof. pose proof (fd_ref_le a d). lia. Qed.

(** A descriptor that holds a reference refers to a live object. *)
Lemma ref_live s i fd d : fd_inv s -> fd_of (procs s) i fd = Some d ->
  occupied d = true -> ftype (file d) <> DEVICE ->
  exists v, objs (pf s) !! fsuper (file d) = Some v /\
    rc v = Z.of_nat (refs (fsuper (file d)) (procs s)) /\ 1 <= rc v <= 16384.
Proof.
  intros I Hd Ho Ht. pose proof (refs_ge (fsuper (file d)) _ _ _ _ Hd) as Hge.
  rewrite (proj2 (fd_ref_eq (fsuper (file d)) d)) in Hge by done.
  pose proof (inv_rc s I (fsuper (file d))) as Hrc.
  pose proof (refs_bound s (fsuper (file d)) I).
  destruct (objs (pf s) !! fsuper (file d)) as [v|]; [|lia]. exists v. split; [done|]. split; [done|lia].
Qed.
