(* ===== verification/FdProps.v ===== *)
(** * close, dup, dup3, fork and exit keep the reference counts right

    Every call below is total on a well-formed state, keeps the invariant of
    FdSpec.v and does to the descriptor table what it says. *)
From S2P Require Import Prelude Mem KernelPT Alloc FsTypes FsCode Proc SysFile SysProc FdSpec Sample.
Import KernelPT Alloc FsTypes Proc SysFile SysProc.

(** The objects after descriptor [d] has been replaced by [d']. *)
Definition rc_moves (d d' : FileDescriptor) (o o' : gmap Z FSFile) : Prop :=
  forall a, match o !! a, o' !! a with
            | Some v, Some v' => rc v' + Z.of_nat (fd_ref a d) = rc v + Z.of_nat (fd_ref a d')
            | Some v, None => rc v + Z.of_nat (fd_ref a d') = Z.of_nat (fd_ref a d)
            | None, Some v' => rc v' + Z.of_nat (fd_ref a d) = Z.of_nat (fd_ref a d')
            | None, None => fd_ref a d = fd_ref a d'
            end.

Lemma inv_rebuild s s' i fd d d' :
  fd_inv s -> fd_of (procs s) i fd = Some d ->
  procs s' = with_fd i fd d' (procs s) -> running s' = running s ->
  rc_moves d d' (objs (pf s)) (objs (pf s')) -> fd_inv s'.
Proof.
  intros I Hd Hp Hr Hm. destruct (with_fd_shape s i fd d' I) as [S1 S2]. split.
  - by rewrite Hp.
  - intros j p. rewrite Hp. apply S2.
  - rewrite Hr. apply I.
  - intros a. rewrite Hp. pose proof (refs_with_fd a _ _ _ _ d' Hd) as E.
    specialize (Hm a). pose proof (inv_rc s I a) as Hrc. pose proof (refs_ge a _ _ _ _ Hd).
    destruct (objs (pf s) !! a), (objs (pf s') !! a); lia.
Qed.

Lemma fd_ref_free a d : fd_ref a (set_occupied false d) = 0%nat.
Proof. done. Qed.

Lemma fd_ref_device a d : ftype (file d) = DEVICE -> fd_ref a d = 0%nat.
Proof. intros H. unfold fd_ref. rewrite H. cbn. by destruct (occupied d). Qed.

Lemma fd_ref_unoccupied a d : occupied d = false -> fd_ref a d = 0%nat.
Proof. intros H. unfold fd_ref. by rewrite H. Qed.

Lemma fd_ref_obj a d : occupied d = true -> ftype (file d) <> DEVICE ->
  Z.of_nat (fd_ref a d) = if decide (a = fsuper (file d)) then 1 else 0.
Proof.
  intros Ho Ht. unfold fd_ref. rewrite Ho.
  destruct (Z.eqb_spec (ftype (file d)) DEVICE), (Z.eqb_spec (fsuper (file d)) a);
    cbn; case_decide; first [done|congruence].
Qed.

(** Every object a count of which goes from [rc] to [rc - 1], or away. *)
Definition closed_objs (d : FileDescriptor) (o : gmap Z FSFile) : gmap Z FSFile :=
  if ftype (file d) =? DEVICE then o else
  match o !! fsuper (file d) with
  | Some v => if rc v =? 1 then delete (fsuper (file d)) o
              else <[fsuper (file d) := set_rc (rc v - 1) v]> o
  | None => o
  end.

(** ** sys_close *)
Lemma sys_close_run s (fd : nat) d :
  fd_inv s -> fd_of (procs s) (running s) fd = Some d -> occupied d = true ->
  exists s', sys_close (Z.of_nat fd) s = Ret (0, s') /\
    procs s' = with_fd (running s) fd (set_occupied false d) (procs s) /\
    running s' = running s /\ objs (pf s') = closed_objs d (objs (pf s)).
Proof.
  intros I Hd Ho. unfold sys_close.
  erewrite bind_ret_l; [|by apply get_fd_run]. rewrite Ho. cbn [negb].
  unfold closed_objs. destruct (Z.eqb_spec (ftype (file d)) DEVICE) as [Ht|Ht]; cbn [negb].
  - mstep. erewrite bind_ret_l; [|by apply upd_fd_run]. eexists. split; [reflexivity|done].
  - destruct (ref_live s _ _ d I Hd Ho Ht) as (v & Hv & Hrc & Hb). rewrite Hv.
    set (v' := set_rc (u32 (rc v - 1)) v).
    set (s1 := with_obj (fsuper (file d)) v' s).
    assert (Hv1 : objs (pf s1) !! fsuper (file d) = Some v') by apply lookup_insert_eq.
    assert (E : rc v' = rc v - 1) by (cbn; rewrite u32_small; lia).
    assert (Hst : exists s2,
      (in_pf (upd_obj (fsuper (file d)) (fun v => set_rc (u32 (rc v - 1)) v));;
       w ← in_pf (get_obj (fsuper (file d)));
       if rc w =? 0 then in_pf (free_obj (fsuper (file d))) else mret tt) s = Ret (tt, s2) /\
      procs s2 = procs s /\ running s2 = running s /\
      objs (pf s2) = if rc v =? 1 then delete (fsuper (file d)) (objs (pf s))
                     else <[fsuper (file d) := set_rc (rc v - 1) v]> (objs (pf s))).
    { erewrite bind_ret_l; [|by apply upd_obj_run]. fold v' s1.
      erewrite bind_ret_l; [|by apply get_obj_run]. rewrite E.
      destruct (Z.eqb_spec (rc v) 1) as [H1|H1].
      - replace (rc v - 1 =? 0) with true by (symmetry; apply Z.eqb_eq; lia).
        destruct (free_obj_run s1 _ _ Hv1) as (s2 & E2 & P1 & P2 & P3).
        exists s2. split; [exact E2|]. rewrite P1, P2, P3. split; [done|]. split; [done|].
        apply delete_insert_eq.
      - replace (rc v - 1 =? 0) with false by (symmetry; apply Z.eqb_neq; lia).
        exists s1. split; [done|]. split; [done|]. split; [done|]. cbn. subst v'.
        rewrite u32_small by lia. done. }
    destruct Hst as (s2 & E2 & P1 & P2 & P3).
    erewrite bind_ret_l; [|exact E2].
    erewrite bind_ret_l; [|apply upd_fd_run; rewrite P1, P2; exact Hd].
    eexists. split; [reflexivity|]. cbn. rewrite P1, P2, P3. done.
Qed.

Lemma closed_objs_moves s i fd d : fd_inv s -> fd_of (procs s) i fd = Some d -> occupied d = true ->
  rc_moves d (set_occupied false d) (objs (pf s)) (closed_objs d (objs (pf s))).
Proof.
  intros I Hd Ho a. rewrite fd_ref_free. unfold closed_objs.
  destruct (Z.eqb_spec (ftype (file d)) DEVICE) as [Ht|Ht].
  - rewrite fd_ref_device by done. destruct (objs (pf s) !! a); [lia|done].
  - destruct (ref_live s _ _ d I Hd Ho Ht) as (v & Hv & Hrc & Hb). rewrite Hv.
    pose proof (fd_ref_obj a d Ho Ht) as E. destruct (decide (a = fsuper (file d))) as [->|Hne].
    + rewrite Hv. destruct (Z.eqb_spec (rc v) 1).
      * rewrite lookup_delete_eq. lia.
      * rewrite lookup_insert_eq. cbn. lia.
    + replace (objs (pf s) !! a) with (objs (pf s) !! a) by done.
      destruct (Z.eqb_spec (rc v) 1).
      * rewrite lookup_delete_ne by done. destruct (objs (pf s) !! a); lia.
      * rewrite lookup_insert_ne by done. destruct (objs (pf s) !! a); lia.
Qed.

Lemma sys_close_ok s (fd : nat) d :
  fd_inv s -> fd_of (procs s) (running s) fd = Some d -> occupied d = true ->
  exists s', sys_close (Z.of_nat fd) s = Ret (0, s') /\ fd_inv s' /\
    procs s' = with_fd (running s) fd (set_occupied false d) (procs s) /\
    running s' = running s /\ objs (pf s') = closed_objs d (objs (pf s)).
Proof.
  intros I Hd Ho. destruct (sys_close_run s fd d I Hd Ho) as (s' & E & P1 & P2 & P3).
  exists s'. split; [done|]. split; [|done].
  eapply (inv_rebuild s s'); [done|done|done|done|]. rewrite P3. by eapply closed_objs_moves.
Qed.

(** C26: sys_close of an open descriptor of the running process returns 0, marks
    the slot free and changes no other descriptor of any process; the count of
    the FSFile behind it goes down by one, and the FSFile is freed exactly when
    this was the last descriptor on it; the counts stay right for every file.
    Closing a descriptor that is not open returns -1 and changes nothing. *)
Theorem sys_close_correct s (fd : nat) d :
  fd_inv s -> fd_of (procs s) (running s) fd = Some d ->
  if occupied d then
    exists s', sys_close (Z.of_nat fd) s = Ret (0, s') /\ fd_inv s' /\
      (forall i k, fd_of (procs s') i k =
         if decide (i = running s /\ k = fd) then Some (set_occupied false d) else fd_of (procs s) i k) /\
      (ftype (file d) = DEVICE -> objs (pf s') = objs (pf s)) /\
      (ftype (file d) <> DEVICE ->
         (objs (pf s') !! fsuper (file d) = None <-> refs (fsuper (file d)) (procs s) = 1%nat) /\
         forall a, a <> fsuper (file d) -> objs (pf s') !! a = objs (pf s) !! a)
  else sys_close (Z.of_nat fd) s = Ret (-1, s).
Proof.
  intros I Hd. destruct (occupied d) eqn:Ho.
  - destruct (sys_close_ok s fd d I Hd Ho) as (s' & E & I' & P1 & P2 & P3).
    exists s'. split; [done|]. split; [done|]. split; [|split].
    + intros i k. rewrite P1. by apply fd_of_with_fd with d.
    + intros Ht. rewrite P3. unfold closed_objs. by rewrite Ht.
    + intros Ht. rewrite P3. unfold closed_objs.
      destruct (Z.eqb_spec (ftype (file d)) DEVICE); [done|].
      destruct (ref_live s _ _ d I Hd Ho Ht) as (v & Hv & Hrc & Hb). rewrite Hv.
      destruct (Z.eqb_spec (rc v) 1).
      * split; [|intros; by rewrite lookup_delete_ne by done].
        rewrite lookup_delete_eq. split; [lia|done].
      * split; [|intros; by rewrite lookup_insert_ne by done].
        rewrite lookup_insert_eq. split; [done|lia].
  - unfold sys_close. erewrite bind_ret_l; [|by apply get_fd_run]. by rewrite Ho.
Qed.

(** ** Copying a descriptor into a free slot *)
Definition opened_objs (d : FileDescriptor) (o : gmap Z FSFile) : gmap Z FSFile :=
  if ftype (file d) =? DEVICE then o else
  match o !! fsuper (file d) with
  | Some v => <[fsuper (file d) := set_rc (rc v + 1) v]> o
  | None => o
  end.

(** rc_inc in a state where the object's count is in range. *)
Lemma rc_inc_run s d o : pf s = set_objs o (pf s) ->
  (ftype (file d) <> DEVICE -> exists v, o !! fsuper (file d) = Some v /\ 0 <= rc v <= 16384) ->
  exists s', rc_inc (file d) s = Ret (tt, s') /\ procs s' = procs s /\ running s' = running s /\
    next_pid s' = next_pid s /\ objs (pf s') = opened_objs d o.
Proof.
  intros Ho H. unfold rc_inc, opened_objs.
  assert (Eo : objs (pf s) = o) by (by rewrite Ho).
  destruct (Z.eqb_spec (ftype (file d)) DEVICE) as [Ht|Ht]; cbn [negb]; [by exists s|].
  destruct (H Ht) as (v & Hv & Hb). rewrite Hv. rewrite <- Eo in Hv.
  eexists. split; [by apply upd_obj_run|]. cbn. rewrite Eo, u32_small by lia. done.
Qed.

Lemma opened_objs_moves s i fd d i' fd' n :
  fd_inv s -> fd_of (procs s) i fd = Some d -> occupied d = true ->
  fd_of (procs s) i' fd' = Some n -> occupied n = false ->
  forall d', file d' = file d -> occupied d' = true ->
  rc_moves n d' (objs (pf s)) (opened_objs d (objs (pf s))).
Proof.
  intros I Hd Ho Hn Hn' d' Hf Ho' a. rewrite (fd_ref_unoccupied a n) by done. unfold opened_objs.
  destruct (Z.eqb_spec (ftype (file d)) DEVICE) as [Ht|Ht].
  - rewrite (fd_ref_device a d') by (by rewrite Hf). destruct (objs (pf s) !! a); [lia|done].
  - destruct (ref_live s _ _ d I Hd Ho Ht) as (v & Hv & _ & _). rewrite Hv.
    pose proof (fd_ref_obj a d' Ho') as E. rewrite Hf in E. specialize (E Ht).
    destruct (decide (a = fsuper (file d))) as [->|Hne].
    + rewrite Hv, lookup_insert_eq. cbn. lia.
    + rewrite lookup_insert_ne by done. destruct (objs (pf s) !! a); lia.
Qed.

Lemma free_slot_spec l n :
  match free_slot l n with
  | Some fd => exists (k : nat) d, fd = n + Z.of_nat k /\ l !! k = Some d /\ occupied d = false /\
                 forall j e, (j < k)%nat -> l !! j = Some e -> occupied e = true
  | None => forall j e, l !! j = Some e -> occupied e = true
  end.
Proof.
  revert n. induction l as [|d l IH]; intros n; cbn; [done|].
  destruct (occupied d) eqn:Ho.
  - specialize (IH (n + 1)). destruct (free_slot l (n + 1)) as [fd|].
    + destruct IH as (k & e & -> & Hk & He & Hlt). exists (S k), e.
      split; [lia|]. split; [done|]. split; [done|]. intros [|j] e' Hj; cbn; [naive_solver|].
      apply Hlt. lia.
    + intros [|j] e; cbn; [naive_solver|]. apply IH.
  - exists 0%nat, d. split; [lia|]. split; [done|]. split; [done|]. lia.
Qed.

(** ** sys_dup *)
Lemma fd_of_running s p k : procs s !! running s = Some p ->
  fd_of (procs s) (running s) k = opened_files p !! k.
Proof. intros H. unfold fd_of. by rewrite H. Qed.

Lemma running_proc s : fd_inv s -> exists p, procs s !! running s = Some p.
Proof. intros I. apply lookup_lt_is_Some_2. rewrite (inv_procs s I). apply I. Qed.

Lemma set_objs_id f : set_objs (objs f) f = f.
Proof. by destruct f. Qed.

(** Sys_dup of an open descriptor puts a copy of it into the lowest free
    slot, with the same file, flags and offset; the count of the FSFile goes up
    by one and all counts stay right.  The call returns 0, not the number of the
    new descriptor; with no free slot it returns -1 and changes nothing. *)
Theorem sys_dup_correct s (fd : nat) d :
  fd_inv s -> fd_of (procs s) (running s) fd = Some d -> occupied d = true ->
  (exists k s', (forall j e, (j < k)%nat -> fd_of (procs s) (running s) j = Some e -> occupied e = true) /\
     (exists n, fd_of (procs s) (running s) k = Some n /\ occupied n = false) /\
     sys_dup (Z.of_nat fd) s = Ret (0, s') /\ fd_inv s' /\
     (forall i j, fd_of (procs s') i j =
        if decide (i = running s /\ j = k) then Some d else fd_of (procs s) i j)) \/
  ((forall j e, fd_of (procs s) (running s) j = Some e -> occupied e = true) /\
   sys_dup (Z.of_nat fd) s = Ret (-1, s)).
Proof.
  intros I Hd Ho. destruct (running_proc s I) as [p Hp].
  pose proof (free_slot_spec (opened_files p) 0) as Hs.
  assert (E0 : forall k, fd_of (procs s) (running s) k = opened_files p !! k)
    by (intros; by apply fd_of_running).
  unfold sys_dup. mstep. erewrite bind_ret_l; [|unfold get_proc, mbind, M_bind, gets, lift; by rewrite Hp].
  erewrite bind_ret_l; [|by apply get_fd_run]. rewrite Ho. cbn [negb].
  destruct (free_slot (opened_files p) 0) as [nfd|].
  - left. destruct Hs as (k & n & -> & Hk & Hn & Hlow). rewrite Z.add_0_l.
    assert (Hn' : fd_of (procs s) (running s) k = Some n) by (by rewrite E0).
    assert (Hfk : fd <> k) by (intros ->; rewrite Hn' in Hd; congruence).
    set (s1 := with_files (running s) k d s).
    assert (Hd1 : fd_of (procs s1) (running s1) fd = Some d).
    { change (procs s1) with (with_fd (running s) k d (procs s)). change (running s1) with (running s).
      rewrite (fd_of_with_fd _ _ _ _ _ _ _ Hn'). by rewrite decide_False by naive_solver. }
    destruct (rc_inc_run s1 d (objs (pf s))) as (s' & E & P1 & P2 & _ & P3).
    { symmetry. apply set_objs_id. }
    { intros Ht. destruct (ref_live s _ _ d I Hd Ho Ht) as (v & Hv & _ & Hb). exists v.
      split; [done|lia]. }
    exists k, s'. split; [intros j e; rewrite E0; apply Hlow|]. split; [by exists n|].
    split; [|split].
    + erewrite bind_ret_l; [|by eapply put_fd_run]. fold s1.
      erewrite bind_ret_l; [|by apply get_fd_run]. by erewrite bind_ret_l; [|exact E].
    + eapply (inv_rebuild s s' (running s) k n d); [done|done|by rewrite P1|by rewrite P2|].
      rewrite P3. by eapply opened_objs_moves.
    + intros i j. rewrite P1. by apply fd_of_with_fd with n.
  - right. split; [|done]. intros j e. rewrite E0. apply Hs.
Qed.

Lemma fd_of_with_files s (fd : nat) d d' :
  fd_of (procs s) (running s) fd = Some d ->
  fd_of (procs (with_files (running s) fd d' s)) (running (with_files (running s) fd d' s)) fd = Some d'.
Proof.
  intros H. change (fd_of (with_fd (running s) fd d' (procs s)) (running s) fd = Some d').
  rewrite (fd_of_with_fd _ _ _ _ _ _ _ H). by rewrite decide_True.
Qed.

(** ** sys_dup3 *)
Lemma with_fd_twice i k d1 d2 l : with_fd i k d2 (with_fd i k d1 l) = with_fd i k d2 l.
Proof.
  apply list_eq. intros j. unfold with_fd. destruct (decide (j = i)) as [->|Hj].
  - rewrite !list_lookup_alter_eq. destruct (l !! i) as [p|]; [|done]. cbn.
    by rewrite list_insert_insert_eq.
  - by rewrite !list_lookup_alter_ne by done.
Qed.

Definition masked (fl : Z) (d : FileDescriptor) : FileDescriptor :=
  set_open_flags (i32 (Z.land (u32 (open_flags d)) (u32 fl))) d.

(** The part of sys_dup3 after the target slot has been freed. *)
Lemma dup_into s (fd k : nat) d n fl :
  fd_inv s -> fd_of (procs s) (running s) fd = Some d -> occupied d = true ->
  fd_of (procs s) (running s) k = Some n -> occupied n = false -> fd <> k ->
  exists s', (d ← get_fd (Z.of_nat fd); put_fd (Z.of_nat k) d;;
              upd_fd (Z.of_nat k) (masked fl);;
              d ← get_fd (Z.of_nat fd); rc_inc (file d);; mret 0) s = Ret (0, s') /\
    fd_inv s' /\ procs s' = with_fd (running s) k (masked fl d) (procs s) /\ running s' = running s.
Proof.
  intros I Hd Ho Hn Hn' Hne.
  erewrite bind_ret_l; [|by apply get_fd_run].
  erewrite bind_ret_l; [|by eapply put_fd_run].
  set (s1 := with_files (running s) k d s).
  assert (Hk1 : fd_of (procs s1) (running s1) k = Some d).
  { exact (fd_of_with_files s k n d Hn). }
  erewrite bind_ret_l; [|by apply upd_fd_run].
  set (s2 := with_files (running s1) k (masked fl d) s1).
  assert (E2 : procs s2 = with_fd (running s) k (masked fl d) (procs s)).
  { cbn. apply with_fd_twice. }
  assert (Hd2 : fd_of (procs s2) (running s2) fd = Some d).
  { rewrite E2. change (running s2) with (running s).
    rewrite (fd_of_with_fd _ _ _ _ _ _ _ Hn). by rewrite decide_False by naive_solver. }
  erewrite bind_ret_l; [|by apply get_fd_run].
  destruct (rc_inc_run s2 d (objs (pf s))) as (s' & E & P1 & P2 & _ & P3).
  { symmetry. apply set_objs_id. }
  { intros Ht. destruct (ref_live s _ _ d I Hd Ho Ht) as (v & Hv & _ & Hb). exists v.
    split; [done|lia]. }
  exists s'. split; [by erewrite bind_ret_l; [|exact E]|].
  rewrite P1, P2, E2. split; [|done].
  eapply (inv_rebuild s s' (running s) k n (masked fl d)); [done|done|by rewrite P1|by rewrite P2|].
  rewrite P3. by eapply opened_objs_moves.
Qed.

(** Sys_dup3 from an open descriptor to a different one closes the target if
    it was open, and leaves a copy of the old descriptor there with the flags
    masked by the argument; it returns 0 and every count is right afterwards. *)
Theorem sys_dup3_correct s (fd k : nat) d n fl :
  fd_inv s -> fd_of (procs s) (running s) fd = Some d -> occupied d = true ->
  fd_of (procs s) (running s) k = Some n -> fd <> k ->
  exists s', sys_dup3 (Z.of_nat fd) (Z.of_nat k) fl s = Ret (0, s') /\ fd_inv s' /\
    (forall i j, fd_of (procs s') i j =
       if decide (i = running s /\ j = k) then Some (masked fl d) else fd_of (procs s) i j).
Proof.
  intros I Hd Ho Hn Hne. unfold sys_dup3.
  erewrite bind_ret_l; [|by apply get_fd_run]. rewrite Ho. cbn [negb].
  erewrite bind_ret_l; [|by apply get_fd_run].
  destruct (occupied n) eqn:Hno.
  - destruct (sys_close_ok s k n I Hn Hno) as (s1 & E1 & I1 & P1 & P2 & _).
    erewrite bind_ret_l.
    2:{ erewrite bind_ret_l; [|exact E1]. reflexivity. }
    assert (Hd1 : fd_of (procs s1) (running s1) fd = Some d).
    { rewrite P1, P2, (fd_of_with_fd _ _ _ _ _ _ _ Hn). by rewrite decide_False by naive_solver. }
    assert (Hn1 : fd_of (procs s1) (running s1) k = Some (set_occupied false n)).
    { rewrite P1, P2, (fd_of_with_fd _ _ _ _ _ _ _ Hn). by rewrite decide_True. }
    destruct (dup_into s1 fd k d _ fl I1 Hd1 Ho Hn1 eq_refl Hne) as (s' & E & I' & P3 & _).
    exists s'. split; [exact E|]. split; [done|]. intros i j.
    rewrite P3, P1, P2, with_fd_twice. by apply fd_of_with_fd with n.
  - mstep. destruct (dup_into s fd k d n fl I Hd Ho Hn Hno Hne) as (s' & E & I' & P3 & _).
    exists s'. split; [exact E|]. split; [done|]. intros i j. rewrite P3. by apply fd_of_with_fd with n.
Qed.

(** Sys_dup3 of a descriptor onto itself frees the FSFile when it is the only
    descriptor on it, and then uses the freed object. *)
Theorem sys_dup3_same_fd_faults s (fd : nat) d fl :
  fd_inv s -> fd_of (procs s) (running s) fd = Some d -> occupied d = true ->
  ftype (file d) <> DEVICE -> refs (fsuper (file d)) (procs s) = 1%nat ->
  sys_dup3 (Z.of_nat fd) (Z.of_nat fd) fl s = Fault.
Proof.
  intros I Hd Ho Ht H1. unfold sys_dup3.
  erewrite bind_ret_l; [|by apply get_fd_run]. rewrite Ho. cbn [negb].
  erewrite bind_ret_l; [|by apply get_fd_run]. rewrite Ho.
  destruct (sys_close_ok s fd d I Hd Ho) as (s1 & E1 & I1 & P1 & P2 & P3).
  erewrite bind_ret_l.
  2:{ erewrite bind_ret_l; [|exact E1]. reflexivity. }
  assert (Hd1 : fd_of (procs s1) (running s1) fd = Some (set_occupied false d)).
  { rewrite P1, P2, (fd_of_with_fd _ _ _ _ _ _ _ Hd). by rewrite decide_True. }
  erewrite bind_ret_l; [|by apply get_fd_run].
  erewrite bind_ret_l; [|by eapply put_fd_run].
  set (s2 := with_files (running s1) fd (set_occupied false d) s1).
  assert (Hd2 : fd_of (procs s2) (running s2) fd = Some (set_occupied false d)).
  { exact (fd_of_with_files s1 fd _ _ Hd1). }
  erewrite bind_ret_l; [|by apply upd_fd_run].
  set (s3 := with_files (running s2) fd (masked fl (set_occupied false d)) s2).
  assert (Hd3 : fd_of (procs s3) (running s3) fd = Some (masked fl (set_occupied false d))).
  { exact (fd_of_with_files s2 fd _ _ Hd2). }
  erewrite bind_ret_l; [|by apply get_fd_run].
  unfold rc_inc. cbn [file masked set_open_flags set_occupied].
  destruct (Z.eqb_spec (ftype (file d)) DEVICE); [done|]. cbn [negb].
  unfold mbind, M_bind, in_pf, upd_obj, get_obj, mbind, M_bind, gets, lift. cbn. rewrite P3.
  unfold closed_objs. destruct (Z.eqb_spec (ftype (file d)) DEVICE); [done|].
  destruct (ref_live s _ _ d I Hd Ho Ht) as (v & Hv & Hrc & _). rewrite Hv.
  replace (rc v =? 1) with true by (symmetry; apply Z.eqb_eq; lia).
  by rewrite lookup_delete_eq.
Qed.
