(* ===== verification/FdProc.v ===== *)
(** * Descriptors at exit and fork

    sys_exit closes every descriptor of the process, and the loop of sys_fork
    gives the child a copy of every open descriptor of its parent; both keep the
    reference counts right.  An open that fails leaves its slot occupied. *)
From S2P Require Import Prelude Mem KernelPT Alloc UserPT FsTypes FsCode Proc SysFile SysProc Sample FdSpec FdProps.
Import KernelPT Alloc UserPT FsTypes Proc SysFile SysProc.

(** The tables differ in the descriptors only. *)
Definition same_but_files (l l' : list PCB) : Prop :=
  length l' = length l /\
  forall i p, l !! i = Some p -> exists fds, l' !! i = Some (set_files fds p).

Lemma same_but_files_refl l : same_but_files l l.
Proof. split; [done|]. intros i p Hp. exists (opened_files p). rewrite Hp. by destruct p. Qed.

Lemma same_but_files_trans l1 l2 l3 :
  same_but_files l1 l2 -> same_but_files l2 l3 -> same_but_files l1 l3.
Proof.
  intros [L1 H1] [L2 H2]. split; [congruence|]. intros i p Hp.
  destruct (H1 i p Hp) as [f1 E1]. destruct (H2 i _ E1) as [f2 E2]. by exists f2.
Qed.

Lemma same_but_files_with_fd i fd d l : same_but_files l (with_fd i fd d l).
Proof.
  unfold with_fd. split; [apply length_alter|]. intros j p Hp.
  destruct (decide (j = i)) as [->|Hj].
  - rewrite list_lookup_alter_eq, Hp. by eexists.
  - rewrite list_lookup_alter_ne, Hp by done. exists (opened_files p). by destruct p.
Qed.

Lemma set_occupied_id d : occupied d = false -> set_occupied false d = d.
Proof. destruct d; cbn. by intros ->. Qed.

(** ** sys_exit *)
Lemma close_all_ok n k s :
  fd_inv s -> (k + n = 64)%nat ->
  exists s', close_all n (Z.of_nat k) s = Ret (tt, s') /\ fd_inv s' /\ running s' = running s /\
    same_but_files (procs s) (procs s') /\
    (forall i j, fd_of (procs s') i j =
       if decide (i = running s /\ (k <= j)%nat) then set_occupied false <$> fd_of (procs s) i j
       else fd_of (procs s) i j).
Proof.
  revert k s. induction n as [|n IH]; intros k s I Hk.
  - exists s. split; [done|]. split; [done|]. split; [done|]. split; [apply same_but_files_refl|].
    intros i j. case_decide as Hd; [|done]. destruct (fd_of (procs s) i j) as [d|] eqn:E; [|done].
    apply fd_of_Some in E as (p & Hp & Hj). apply lookup_lt_Some in Hj.
    rewrite (inv_files s I i p Hp) in Hj. lia.
  - destruct (fd_of_is_Some s (running s) k I (inv_running s I)) as [d Hd]; [lia|].
    assert (Hst : exists s1, (d ← get_fd (Z.of_nat k);
        (if occupied d then sys_close (Z.of_nat k);; mret tt else mret tt)) s = Ret (tt, s1) /\
      fd_inv s1 /\ running s1 = running s /\ same_but_files (procs s) (procs s1) /\
      (forall i j, fd_of (procs s1) i j =
         if decide (i = running s /\ j = k) then Some (set_occupied false d) else fd_of (procs s) i j)).
    { erewrite bind_ret_l; [|by apply get_fd_run]. destruct (occupied d) eqn:Ho.
      - destruct (sys_close_ok s k d I Hd Ho) as (s1 & E & I1 & P1 & P2 & _). exists s1.
        split; [by erewrite bind_ret_l; [|exact E]|]. rewrite P1.
        split; [done|]. split; [done|]. split; [apply same_but_files_with_fd|].
        intros i j. by apply fd_of_with_fd with d.
      - exists s. split; [done|]. split; [done|]. split; [done|]. split; [apply same_but_files_refl|].
        intros i j. case_decide as Hij; [|done]. destruct Hij as [-> ->].
        by rewrite Hd, set_occupied_id. }
    destruct Hst as (s1 & E1 & I1 & R1 & B1 & F1).
    destruct (IH (S k) s1 I1) as (s' & E' & I' & R' & B' & F'); [lia|].
    exists s'. split; [|split; [done|split; [congruence|split; [by eapply same_but_files_trans|]]]].
    + cbn [close_all]. replace (Z.of_nat k + 1) with (Z.of_nat (S k)) by lia.
      revert E1. unfold mbind, M_bind.
      destruct (get_fd (Z.of_nat k) s) as [[e t]| | |]; [|done..]. intros E1. rewrite E1. exact E'.
    + intros i j. rewrite F', R1. rewrite !F1.
      destruct (decide (i = running s)) as [->|Hi]; [|gdecide; by try tauto].
      destruct (decide (j = k)) as [->|Hj].
      * rewrite (decide_False (P := running s = running s /\ (S k <= k)%nat)) by lia.
        rewrite decide_True by done. rewrite decide_True by lia. by rewrite Hd.
      * rewrite (decide_False (P := running s = running s /\ j = k)) by tauto.
        gdecide; done.
Qed.

(** C33: a process that exits unwaited closes all its descriptors (the counts of
    the files stay right), becomes a ZOMBIE that keeps its exit code, and the
    scheduler runs. *)
Theorem sys_exit_closes_files retain s p xstate :
  fd_inv s -> procs s !! running s = Some p -> Z.land (flags p) FLAGS_WAITED = 0 ->
  exists s1 q, sys_exit retain xstate s = schedule s1 /\ fd_inv s1 /\ running s1 = running s /\
    procs s1 !! running s = Some q /\ status q = ZOMBIE /\ exit_code q = xstate /\
    pid q = pid p /\ parent q = parent p /\
    (forall i j, fd_of (procs s1) i j =
       if decide (i = running s) then set_occupied false <$> fd_of (procs s) i j
       else fd_of (procs s) i j).
Proof.
  intros I Hp Hw.
  destruct (close_all_ok 64 0 s I) as (s' & E & I' & R' & [L' B'] & F'); [lia|].
  destruct (B' _ _ Hp) as [fds Hq].
  set (q := set_exit_code xstate (set_status ZOMBIE (set_files fds p))).
  set (s1 := set_procs (<[running s := q]> (procs s')) s').
  assert (Hlen : (running s < length (procs s'))%nat) by (rewrite (inv_procs s' I'), <- R'; apply I').
  assert (Hfd : forall i j, fd_of (procs s1) i j = fd_of (procs s') i j).
  { intros i j. unfold fd_of. cbn. destruct (decide (i = running s)) as [->|Hi].
    - by rewrite list_lookup_insert_eq, Hq by done.
    - by rewrite list_lookup_insert_ne by done. }
  assert (Hrefs : forall a, refs a (procs s1) = refs a (procs s')).
  { intros a. pose proof (sum_list_with_insert (fun p => refs_in a (opened_files p)) (procs s')
      (running s) _ q Hq) as Es. unfold refs. cbn in *. lia. }
  exists s1, q. split.
  - unfold sys_exit. mstep. erewrite bind_ret_l; [|exact E].
    erewrite bind_ret_l; [|unfold get_proc, mbind, M_bind, gets, lift; by rewrite Hq].
    change (flags (set_files fds p)) with (flags p). rewrite Hw. cbn [Z.eqb negb].
    unfold upd_proc, get_proc, mbind, M_bind, gets, lift, modify. rewrite Hq. cbn.
    rewrite list_lookup_insert_eq by done. cbn. by rewrite list_insert_insert_eq.
  - split; [|split; [done|split; [by apply list_lookup_insert_eq|]]].
    + split.
      * cbn. rewrite length_insert. apply I'.
      * intros i r. cbn. destruct (decide (i = running s)) as [->|Hi].
        -- rewrite list_lookup_insert_eq by done. intros [= <-]. cbn. by eapply (inv_files s' I' _ _ Hq).
        -- rewrite list_lookup_insert_ne by done. apply I'.
      * apply I'.
      * intros a. rewrite Hrefs. apply (inv_rc s' I' a).
    + split; [done|]. split; [done|]. split; [done|]. split; [done|].
      intros i j. rewrite Hfd, F'. gdecide; by try tauto.
Qed.

(** ** The descriptor loop of sys_fork *)
Definition inherited (d c : FileDescriptor) : FileDescriptor :=
  if occupied d then d else set_occupied false c.

(** One descriptor of the loop. *)
Definition copy_fd (par child k : nat) : M P unit :=
  p ← get_proc par; d ← lift (of_option (opened_files p !! k));
  (if negb (occupied d)
   then upd_proc child (fun c => set_files (alter (set_occupied false) k (opened_files c)) c)
   else upd_proc child (fun c => set_files (<[k := d]> (opened_files c)) c);; rc_inc (file d)).

Lemma free_fd_alter (l : list PCB) child k c : fd_of l child k = Some c ->
  alter (fun q => set_files (alter (set_occupied false) k (opened_files q)) q) child l =
  with_fd child k (set_occupied false c) l.
Proof.
  intros (cp & Hcp & Hcc)%fd_of_Some. unfold with_fd. apply list_eq. intros i.
  destruct (decide (i = child)) as [->|Hi]; [|by rewrite !list_lookup_alter_ne by done].
  rewrite !list_lookup_alter_eq, Hcp. cbn. do 2 f_equal. apply list_eq. intros j.
  destruct (decide (j = k)) as [->|Hj].
  - rewrite list_lookup_alter_eq, Hcc, list_lookup_insert_eq; [done|by eapply lookup_lt_Some].
  - by rewrite list_lookup_alter_ne, list_lookup_insert_ne by done.
Qed.

Lemma copy_fd_ok s par child k d c : fd_inv s -> par <> child ->
  fd_of (procs s) par k = Some d -> fd_of (procs s) child k = Some c -> occupied c = false ->
  exists s1, copy_fd par child k s = Ret (tt, s1) /\ fd_inv s1 /\ running s1 = running s /\
    procs s1 = with_fd child k (inherited d c) (procs s).
Proof.
  intros I Hne Hd Hc Hco. pose proof Hd as (pp & Hpp & Hdp)%fd_of_Some.
  pose proof Hc as (cp & Hcp & Hcc)%fd_of_Some. unfold copy_fd.
  erewrite bind_ret_l; [|unfold get_proc, mbind, M_bind, gets, lift; by rewrite Hpp].
  rewrite Hdp. cbn [of_option]. mstep. unfold inherited. destruct (occupied d) eqn:Ho; cbn [negb].
  - erewrite bind_ret_l; [|by eapply upd_proc_alter].
    fold (with_fd child k d (procs s)). set (s0 := set_procs (with_fd child k d (procs s)) s).
    destruct (rc_inc_run s0 d (objs (pf s))) as (s1 & E & P1 & P2 & _ & P3).
    { symmetry. apply set_objs_id. }
    { intros Ht. destruct (ref_live s _ _ d I Hd Ho Ht) as (v & Hv & _ & Hb). exists v.
      split; [done|lia]. }
    exists s1. split; [exact E|]. split; [|split; [done|by rewrite P1]].
    eapply (inv_rebuild s s1 child k c d); [done|done|by rewrite P1|done|].
    rewrite P3. by eapply (opened_objs_moves s par k d child k c).
  - eexists. split; [by eapply upd_proc_alter|]. rewrite (free_fd_alter _ _ _ _ Hc).
    split; [|split; [done|done]].
    eapply (inv_rebuild s _ child k c (set_occupied false c)); [done|done|done|done|].
    intros a. rewrite fd_ref_free, (fd_ref_unoccupied a c Hco).
    change (objs (pf (set_procs _ s))) with (objs (pf s)).
    destruct (objs (pf s) !! a); [lia|done].
Qed.

Lemma copy_fds_ok n k s par child :
  fd_inv s -> (k + n = 64)%nat -> (par < 256)%nat -> (child < 256)%nat -> par <> child ->
  (forall j d, (k <= j)%nat -> fd_of (procs s) child j = Some d -> occupied d = false) ->
  exists s', copy_fds n par child k s = Ret (tt, s') /\ fd_inv s' /\ running s' = running s /\
    same_but_files (procs s) (procs s') /\
    (forall i j, i <> child \/ (j < k)%nat -> fd_of (procs s') i j = fd_of (procs s) i j) /\
    (forall j d c, (k <= j)%nat -> fd_of (procs s) par j = Some d -> fd_of (procs s) child j = Some c ->
       fd_of (procs s') child j = Some (inherited d c)).
Proof.
  revert k s. induction n as [|n IH]; intros k s I Hk Hpar Hchild Hne Hfree.
  { exists s. split; [done|]. split; [done|]. split; [done|]. split; [apply same_but_files_refl|].
    split; [done|]. intros j d c Hj (p & Hp & Hd)%fd_of_Some _. apply lookup_lt_Some in Hd.
    rewrite (inv_files s I _ _ Hp) in Hd. lia. }
  destruct (fd_of_is_Some s par k I Hpar) as [d Hd]; [lia|].
  destruct (fd_of_is_Some s child k I Hchild) as [c Hc]; [lia|].
  pose proof (Hfree k c (le_n k) Hc) as Hco.
  destruct (copy_fd_ok s par child k d c I Hne Hd Hc Hco) as (s1 & E1 & I1 & R1 & P1).
  assert (F1 : forall i j, fd_of (procs s1) i j =
    if decide (i = child /\ j = k) then Some (inherited d c) else fd_of (procs s) i j).
  { intros i j. rewrite P1. by apply fd_of_with_fd with c. }
  destruct (IH (S k) s1 I1) as (s' & E' & I' & R' & B' & K' & N'); [lia|done|done|done| |].
  { intros j e Hj. rewrite F1. rewrite decide_False by lia. apply Hfree. lia. }
  exists s'. split; [|split; [done|split; [congruence|split]]].
  - cbn [copy_fds]. revert E1. unfold copy_fd, mbind, M_bind.
    destruct (get_proc par s) as [[e t]| | |]; [|done..].
    destruct (lift (of_option (opened_files e !! k)) t) as [[e' t']| | |]; [|done..].
    intros E1. rewrite E1. exact E'.
  - eapply same_but_files_trans; [|exact B']. rewrite P1. apply same_but_files_with_fd.
  - split.
    + intros i j Hij. rewrite K' by (destruct Hij; [by left|right; lia]). rewrite F1.
      rewrite decide_False; [done|]. intros [-> ->]. destruct Hij; [done|lia].
    + intros j d' c' Hj Hd' Hc'. destruct (decide (j = k)) as [->|Hjk].
      * rewrite K' by (right; lia). rewrite F1, decide_True by done. congruence.
      * apply N'; [lia| |].
        -- rewrite F1, decide_False by naive_solver. done.
        -- rewrite F1, decide_False by naive_solver. done.
Qed.

(** C27: after the descriptor loop of sys_fork, for a child slot whose descriptors
    are all free, every open descriptor of the parent is open in the child with
    the same file, flags and offset, every other one of the child is free, no
    other process has changed, and the count of every file is right. *)
Theorem fork_shares_descriptors s par child :
  fd_inv s -> (par < 256)%nat -> (child < 256)%nat -> par <> child ->
  (forall j d, fd_of (procs s) child j = Some d -> occupied d = false) ->
  exists s', copy_fds (Z.to_nat NUM_FILES) par child 0 s = Ret (tt, s') /\ fd_inv s' /\
    same_but_files (procs s) (procs s') /\
    (forall i j, i <> child -> fd_of (procs s') i j = fd_of (procs s) i j) /\
    (forall j d, (j < 64)%nat -> fd_of (procs s) par j = Some d ->
       exists d', fd_of (procs s') child j = Some d' /\
         if occupied d then d' = d else occupied d' = false).
Proof.
  intros I Hpar Hchild Hne Hfree.
  destruct (copy_fds_ok 64 0 s par child I ltac:(lia) Hpar Hchild Hne) as (s' & E & I' & R' & B' & K' & N').
  { intros j d _. apply Hfree. }
  exists s'. split; [exact E|]. split; [done|]. split; [done|]. split; [intros; apply K'; by left|].
  intros j d Hj Hd. destruct (fd_of_is_Some s child j I Hchild Hj) as [c Hc].
  exists (inherited d c). split; [apply N'; [lia|done|done]|]. unfold inherited.
  by destruct (occupied d).
Qed.

(** ** A failed open keeps its slot *)
Lemma in_pf_frame {X} (m : M F X) s x s' : in_pf m s = Ret (x, s') ->
  procs s' = procs s /\ running s' = running s.
Proof.
  unfold in_pf. destruct (m (pf s)) as [[y f]| | |]; [|done..]. by intros [= _ <-].
Qed.

Lemma get_fd_inv s z d s' : get_fd z s = Ret (d, s') ->
  s' = s /\ fd_of (procs s) (running s) (Z.to_nat z) = Some d.
Proof.
  unfold get_fd, cur, get_proc, mbind, M_bind, gets, lift, fd_of.
  destruct (procs s !! running s) as [p|]; [|done]. cbn. destruct (z <? 0); [done|].
  destruct (opened_files p !! Z.to_nat z) eqn:E; [|done]. cbn. intros [= <- <-]. done.
Qed.

Lemma upd_fd_inv s z f u s' : upd_fd z f s = Ret (u, s') ->
  exists d, fd_of (procs s) (running s) (Z.to_nat z) = Some d /\ running s' = running s /\
    fd_of (procs s') (running s) (Z.to_nat z) = Some (f d).
Proof.
  unfold upd_fd. intros H. minv H. apply get_fd_inv in E as [-> Hd].
  unfold put_fd in H. minv H. apply get_fd_inv in E as [-> _].
  unfold cur, gets in E0. injection E0 as <- <-.
  pose proof Hd as (p & Hp & _)%fd_of_Some. rewrite (upd_proc_alter _ _ _ p Hp) in H.
  injection H as _ <-. exists a. split; [done|]. split; [done|].
  change (fd_of (with_fd (running s) (Z.to_nat z) (f a) (procs s)) (running s) (Z.to_nat z) = Some (f a)).
  rewrite (fd_of_with_fd _ _ _ _ _ _ _ Hd). by rewrite decide_True.
Qed.

Lemma user_path_frame retain fuel p name s x s' : user_path retain fuel p name s = Ret (x, s') ->
  procs s' = procs s /\ running s' = running s.
Proof.
  unfold user_path. intros H. minv H. apply in_pf_frame in E as [E1 E2], E0 as [E3 E4].
  injection H; intros; subst. split; congruence.
Qed.

Lemma in_pf_ret {X} (m : M F X) v s c s' : (in_pf m;; ret v) s = Ret (c, s') ->
  procs s' = procs s /\ running s' = running s /\ c = Value v.
Proof. intros H. minv H. apply in_pf_frame in E as [? ?]. injection H; intros; subst. split; [congruence|]. split; congruence. Qed.

(** When sys_openat fails after it has chosen a descriptor (the path does not
    exist, or its type does not fit O_DIRECTORY), the descriptor stays occupied:
    every failed open of a process uses up one of its 64 descriptors. *)
Theorem failed_open_leaks_descriptor retain fuel dent sti dfd name fl mode s s' p fd :
  procs s !! running s = Some p -> free_slot (opened_files p) 0 = Some fd ->
  sys_openat retain fuel dent sti dfd name fl mode s = Ret (Value (-1), s') ->
  exists d, fd_of (procs s') (running s) (Z.to_nat fd) = Some d /\ occupied d = true.
Proof.
  intros Hp Hfree H. unfold sys_openat in H. minv H.
  injection E as <- <-. unfold get_proc in E0. minv E0. injection E as <- <-.
  unfold lift in E0. rewrite Hp in E0. injection E0 as <- <-.
  apply get_fd_inv in E1 as [-> _]. rewrite Hfree in H. minv H.
  apply upd_fd_inv in E as (d0 & _ & R0 & F0). apply user_path_frame in E0 as [U1 U2].
  apply in_pf_frame in E1 as [G1 G2]. destruct a2 as [res out]. minv H.
  assert (Hocc : exists d, fd_of (procs s3) (running s3) (Z.to_nat fd) = Some d /\ occupied d = true /\
                   running s3 = running s).
  { destruct out as [f|].
    - apply upd_fd_inv in E as (d1 & D1 & R1 & F1). rewrite G1, G2, U1, U2, R0 in D1.
      rewrite F0 in D1. injection D1 as <-. rewrite R1, G2, U2, R0. rewrite G2, U2, R0 in F1.
      eexists. split; [exact F1|]. done.
    - injection E as <- <-. rewrite G1, G2, U1, U2, R0. eexists. split; [exact F0|]. done. }
  destruct Hocc as (d & Hd & Ho & R3).
  apply in_pf_frame in E0 as [K1 K2]. apply get_fd_inv in E1 as [-> _].
  exists d. enough (procs s' = procs s4) as -> by (rewrite K1, <- R3; done).
  revert H. repeat case_match; intros HH; repeat (minv HH; simplify_eq);
    repeat match goal with
    | E : in_pf _ _ = Ret _ |- _ => apply in_pf_frame in E as [? ?]
    | E : mret _ _ = Ret _ |- _ => injection E as <- <-
    | E : ret _ _ = Ret _ |- _ => unfold ret in E; injection E; intros; subst
    end; try congruence.
Qed.

(** Opening a path that getfile does not find, with a slot whose File is still
    zero (type 0 is DIRECTORY, super is NULL) and without O_DIRECTORY, makes the
    kernel free the NULL pointer: the error return is taken only after the type
    of the untouched File has been looked at. *)
Theorem failed_open_frees_null retain fuel dent sti dfd name fl mode s p d (fd : nat) n buf s1 s2 :
  procs s !! running s = Some p ->
  fd_of (procs s) (running s) (Z.to_nat dfd) = Some d -> 0 <= dfd ->
  free_slot (opened_files p) 0 = Some (Z.of_nat fd) -> fd_of (procs s) (running s) fd = Some n ->
  file n = mkFile 0 DIRECTORY fs_ops -> Z.land fl O_DIRECTORY = 0 ->
  user_path retain fuel p name
    (with_files (running s) fd (mkFD true fl (file n) 0) s) = Ret (buf, s1) ->
  in_pf (FsCode.getfile fuel retain dent sti
    (if occupied d && (ftype (file d) =? DIRECTORY) then RObj (fsuper (file d)) else RVal (cwd_file p))
    buf (negb (Z.land fl O_CREAT =? 0))) s1 = Ret ((-1, None), s2) ->
  objs (pf s2) !! 0 = None ->
  sys_openat retain fuel dent sti dfd name fl mode s = Fault.
Proof.
  intros Hp Hd Hdfd Hfree Hn Hf Hfl Hpath Hget Hobj. unfold sys_openat. mstep.
  erewrite bind_ret_l; [|unfold get_proc, mbind, M_bind, gets, lift; by rewrite Hp].
  rewrite <- (Z2Nat.id dfd) by done.
  erewrite bind_ret_l; [|by apply get_fd_run]. rewrite Hfree.
  erewrite bind_ret_l; [|by apply upd_fd_run].
  erewrite bind_ret_l; [|exact Hpath]. erewrite bind_ret_l; [|exact Hget].
  cbv beta iota. mstep. apply user_path_frame in Hpath as [U1 U2]. apply in_pf_frame in Hget as [G1 G2].
  destruct (kfree_run (fa (pf s2)) buf (2 * PAGESIZE)) as [a' Ha].
  assert (Ek : in_pa (kfree buf (2 * PAGESIZE)) s2 = Ret (tt, set_pf (set_fa a' (pf s2)) s2)).
  { unfold in_pa, in_pf, in_fa. by rewrite Ha. }
  erewrite bind_ret_l; [|exact Ek].
  erewrite bind_ret_l.
  2:{ apply get_fd_run. change (procs (set_pf _ s2)) with (procs s2).
      change (running (set_pf _ s2)) with (running s2). rewrite G1, G2, U1, U2.
      exact (fd_of_with_files s fd n _ Hn). }
  cbn [file]. rewrite Hf, Hfl. cbn [ftype fsuper].
  unfold mbind, M_bind, in_pf, free_obj, get_obj, mbind, M_bind, gets, lift. cbn. by rewrite Hobj.
Qed.

(** ** The descriptor theorems at a concrete state

    Process 0 has the three console descriptors and, as descriptor 3, the
    regular file of Sample.v, whose FSFile object is at address 77. *)

Definition fd3 : FileDescriptor := mkFD true 2 (mkFile 77 REGULAR fs_ops) 100.
Definition pf3 : F := set_objs {[77 := mkFS 1 1]} f0.
Definition base3 : list PCB := pcb RUNNING std_files :: replicate 255 idle.
Definition p3 : P := mkP pf3 (with_fd 0 3 fd3 base3) 0 6 1000 0 10000000.

(** No descriptor of the table refers to an object. *)
Definition no_refs (l : list PCB) : bool :=
  forallb (fun p => forallb (fun d => negb (occupied d) || (ftype (file d) =? DEVICE)) (opened_files p)) l.

Lemma no_refs_in a l :
  forallb (fun d => negb (occupied d) || (ftype (file d) =? DEVICE)) l = true -> refs_in a l = 0%nat.
Proof.
  induction l as [|d l IH]; [done|]. cbn [forallb]. intros [H1 H2]%andb_true_iff.
  unfold refs_in in *. cbn [sum_list_with]. rewrite (IH H2). unfold fd_ref.
  destruct (occupied d); cbn in *; [|done]. by rewrite H1.
Qed.

Lemma no_refs_zero a l : no_refs l = true -> refs a l = 0%nat.
Proof.
  induction l as [|p l IH]; [done|]. unfold no_refs. cbn [forallb]. intros [H1 H2]%andb_true_iff.
  unfold refs in *. cbn [sum_list_with]. by rewrite (IH H2), no_refs_in.
Qed.

Lemma fd3_slot : fd_of base3 0 3 = Some no_fd.
Proof. reflexivity. Qed.

Lemma p3_inv : fd_inv p3.
Proof.
  split.
  - vm_compute. reflexivity.
  - intros i p. cbn. destruct i as [|i]; [by intros [= <-]|]. intros Hp.
    apply (lookup_replicate_1 255 idle) in Hp as [-> _]. reflexivity.
  - cbn. lia.
  - intros a. pose proof (refs_with_fd a base3 0 3 no_fd fd3 fd3_slot) as E.
    rewrite (no_refs_zero a base3) in E by (vm_compute; reflexivity).
    change (procs p3) with (with_fd 0 3 fd3 base3). change (objs (pf p3)) with ({[77 := mkFS 1 1]} : gmap Z FSFile).
    change (fd_ref a no_fd) with 0%nat in E.
    destruct (decide (a = 77)) as [->|Hne].
    + rewrite lookup_singleton_eq. change (fd_ref 77 fd3) with 1%nat in E. rewrite Nat.add_0_r in E. by rewrite E.
    + rewrite lookup_singleton_ne by done. unfold fd_ref in E. cbn [occupied file ftype fsuper fd3] in E.
      rewrite (proj2 (Z.eqb_neq 77 a)) in E by congruence.
      rewrite Nat.add_0_r in E. exact E.
Qed.

Lemma p3_fd3 : fd_of (procs p3) (running p3) 3 = Some fd3.
Proof. reflexivity. Qed.

Lemma p3_refs : refs 77 (procs p3) = 1%nat.
Proof. vm_compute. reflexivity. Qed.

Lemma sys_close_correct_witness :
  exists s', sys_close 3 p3 = Ret (0, s') /\ fd_inv s' /\ objs (pf s') !! 77 = None.
Proof.
  destruct (sys_close_correct p3 3 fd3 p3_inv p3_fd3) as (s' & E & I & _ & _ & H).
  exists s'. split; [exact E|]. split; [exact I|]. apply H; [discriminate|exact p3_refs].
Defined.

Lemma sys_dup_correct_witness :
  exists s', sys_dup 3 p3 = Ret (0, s') /\ fd_inv s' /\ fd_of (procs s') 0 4 = Some fd3.
Proof.
  destruct (sys_dup_correct p3 3 fd3 p3_inv p3_fd3 eq_refl) as [(k & s' & H1 & (n & H2 & H2') & E & I & F)|[H _]].
  - exists s'. split; [exact E|]. split; [exact I|]. rewrite F.
    destruct (decide (k = 4%nat)) as [->|Hk]; [by rewrite decide_True|].
    exfalso. destruct (decide (k < 4)%nat) as [Hlt|Hge].
    + destruct k as [|[|[|[|k]]]]; [| | | |lia]; by injection H2 as <-.
    + pose proof (H1 4%nat no_fd ltac:(lia) eq_refl) as Hb. discriminate Hb.
  - pose proof (H 4%nat no_fd eq_refl) as Hb. discriminate Hb.
Defined.

(** dup3(3, 1): standard output becomes the file. *)
Lemma sys_dup3_correct_witness :
  exists s', sys_dup3 3 1 3 p3 = Ret (0, s') /\ fd_inv s' /\ fd_of (procs s') 0 1 = Some (masked 3 fd3).
Proof.
  destruct (sys_dup3_correct p3 3 1 fd3 _ 3 p3_inv p3_fd3 eq_refl eq_refl ltac:(lia)) as (s' & E & I & F).
  exists s'. split; [exact E|]. split; [exact I|]. by rewrite F.
Defined.

Lemma sys_dup3_same_fd_faults_witness : sys_dup3 3 3 3 p3 = Fault.
Proof. exact (sys_dup3_same_fd_faults p3 3 fd3 3 p3_inv p3_fd3 eq_refl ltac:(discriminate) p3_refs). Defined.

Lemma sys_exit_closes_files_witness :
  exists s1 q, sys_exit true 7 p3 = schedule s1 /\ procs s1 !! 0%nat = Some q /\
    status q = ZOMBIE /\ exit_code q = 7 /\ fd_of (procs s1) 0 3 = Some (set_occupied false fd3).
Proof.
  destruct (sys_exit_closes_files true p3 _ 7 p3_inv eq_refl eq_refl)
    as (s1 & q & E & _ & _ & Hq & H1 & H2 & _ & _ & F).
  exists s1, q. split; [exact E|]. split; [exact Hq|]. split; [exact H1|]. split; [exact H2|].
  by rewrite F.
Defined.

Lemma fork_shares_descriptors_witness :
  exists s', copy_fds (Z.to_nat NUM_FILES) 0 1 0 p3 = Ret (tt, s') /\ fd_inv s' /\
    fd_of (procs s') 1 3 = Some fd3.
Proof.
  destruct (fork_shares_descriptors p3 0 1 p3_inv ltac:(lia) ltac:(lia) ltac:(lia))
    as (s' & E & I & _ & _ & H).
  - intros j d. change (fd_of (procs p3) 1 j) with (replicate 64 no_fd !! j). intros Hd.
    apply (lookup_replicate_1 64 no_fd) in Hd as [-> _]. reflexivity.
  - exists s'. split; [exact E|]. split; [exact I|].
    destruct (H 3%nat fd3 ltac:(lia) eq_refl) as (d' & Hd' & Heq). change (d' = fd3) in Heq. subst d'. exact Hd'.
Defined.

(** User page 1 of process 0 is kernel page 1536, whose first byte is 0: the user
    address 4096 holds the empty path. *)
Definition user_mem : mem :=
  let m := vmem KernelPTProps.kpt0 in
  let m := store64 m 1048576 2097152 in
  let m := store64 m (1048576 + 8) 3145728 in
  let m := store64 m 3145728 4194304 in
  let m := store64 m (3145728 + 8) 5242880 in
  upd (store64 m (5242880 + 8) 1536) 6291456 0.
Definition open_space : Space := mkSpace 0 0 1048576 0 0 0 0 0.
Definition p_open : P :=
  mkP (set_fmem user_mem f0) (set_space open_space (pcb RUNNING std_files) :: replicate 255 idle)
    0 6 1000 0 10000000.

(** Decided by evaluation: the call fails; the path is copied and the lookup
    fails without having touched the objects. *)
Definition call_fails (o : outcome (ctl * P)) : bool :=
  match o with Ret (Value v, _) => v =? -1 | _ => false end.
Definition lookup_fails (o : outcome (Z * P)) (k : Z -> P -> outcome (Z * option File * P)) : bool :=
  match o with
  | Ret (b, s1) =>
      match k b s1 with
      | Ret ((r, None), s2) => (r =? -1) && bool_decide (objs (pf s2) !! 0 = None)
      | _ => false
      end
  | _ => false
  end.

Lemma call_fails_spec o : call_fails o = true -> exists s', o = Ret (Value (-1), s').
Proof.
  unfold call_fails. destruct o as [[[v| |] s']| | |]; try done. intros ->%Z.eqb_eq. by exists s'.
Qed.

Lemma lookup_fails_spec o k : lookup_fails o k = true ->
  exists b s1 s2, o = Ret (b, s1) /\ k b s1 = Ret ((-1, None), s2) /\ objs (pf s2) !! 0 = None.
Proof.
  unfold lookup_fails. destruct o as [[b s1]| | |]; try done.
  destruct (k b s1) as [[[r [f|]] s2]| | |] eqn:E; try done.
  intros [->%Z.eqb_eq H%bool_decide_eq_true_1]%andb_true_iff. by exists b, s1, s2.
Qed.

Lemma open_empty_fails :
  exists s', sys_openat true 20 0 root_inode0 0 4096 65536 0 p_open = Ret (Value (-1), s').
Proof. apply call_fails_spec. vm_compute. reflexivity. Qed.

Lemma failed_open_leaks_descriptor_witness :
  exists s' d, sys_openat true 20 0 root_inode0 0 4096 65536 0 p_open = Ret (Value (-1), s') /\
    fd_of (procs s') 0 3 = Some d /\ occupied d = true.
Proof.
  destruct open_empty_fails as (s' & E).
  destruct (failed_open_leaks_descriptor true 20 0 root_inode0 0 4096 65536 0 p_open s' _ 3 eq_refl eq_refl E)
    as (d & Hd & Ho).
  exists s', d. split; [exact E|]. split; [exact Hd|exact Ho].
Defined.

Lemma open_lookup_fails :
  exists b s1 s2,
    user_path true 20 (set_space open_space (pcb RUNNING std_files)) 4096
      (with_files 0 3 (mkFD true 0 (file no_fd) 0) p_open) = Ret (b, s1) /\
    in_pf (FsCode.getfile 20 true 0 root_inode0 (RVal (mkFS 0 0)) b false) s1 = Ret ((-1, None), s2) /\
    objs (pf s2) !! 0 = None.
Proof.
  apply (lookup_fails_spec _
    (fun b => in_pf (FsCode.getfile 20 true 0 root_inode0 (RVal (mkFS 0 0)) b false))).
  vm_compute. reflexivity.
Qed.

Lemma failed_open_frees_null_witness : sys_openat true 20 0 root_inode0 0 4096 0 0 p_open = Fault.
Proof.
  destruct open_lookup_fails as (b & s1 & s2 & E1 & E2 & Ho).
  exact (failed_open_frees_null true 20 0 root_inode0 0 4096 0 0 p_open _ _ 3 no_fd b s1 s2
    eq_refl eq_refl ltac:(lia) eq_refl eq_refl eq_refl eq_refl E1 E2 Ho).
Defined.
