(* ===== verification/FsFileSpec.v ===== *)
(** * Reading and writing a file through its block map

    A file whose pages are in the direct blocks of its inode is the sequence of
    bytes of those blocks; fs_file_read copies a range of that sequence, and
    fs_file_write changes exactly the range it is given, while the blocks
    involved have valid buffers in the block cache. *)
From S2P Require Import Prelude Mem KernelPT Alloc FsTypes FsCode.
Import KernelPT Alloc FsTypes FsCode.

(** Byte [o] of the file: [blk] is the block of a page. *)
Definition blk (inode : Inode) (id : Z) : Z := default 0 (direct inode !! Z.to_nat id).
Definition faddr (inode : Inode) (o : Z) : Z := blk inode (o / 4096) * 4096 + o mod 4096.
Definition fbyte (d : mem) (inode : Inode) (o : Z) : Z := d (faddr inode o).

(** The first [n] pages are distinct blocks of the device, from block [lo] on,
    with valid buffers in the cache. *)
Record blocks_ok (s : F) (inode : Inode) (lo n : Z) : Prop := {
  bo_n : 0 <= n <= 25;
  bo_len : length (direct inode) = 25%nat;
  bo_lo : 0 <= lo;
  bo_blk : forall id, 0 <= id < n -> lo <= blk inode id /\ (blk inode id + 1) * 4096 <= dsize s;
  bo_inj : forall i j, 0 <= i < n -> 0 <= j < n -> blk inode i = blk inode j -> i = j;
  bo_size : dsize s < 18446744073709551616;
  bo_cached : forall id, 0 <= id < n -> cached s (blk inode id) = true;
}.

(** The inode and the bitmap byte that says it is in use lie before block [lo],
    in blocks with valid buffers in the cache. *)
Record inode_at (s : F) (ino : Z) (inode : Inode) (lo : Z) : Prop := {
  ia_ino : 0 <= ino < 4294967296;
  ia_ibo : 0 <= inode_bitmap_offset (rootfs s) < 8589934592;
  ia_ito : 0 <= inode_table_offset (rootfs s) < 8589934592;
  ia_bit : inode_bitmap_offset (rootfs s) * 4096 + ino / 8 + 1 <= lo * 4096;
  ia_tab : inode_table_offset (rootfs s) * 4096 + ino * 128 + 128 <= lo * 4096;
  ia_dev : lo * 4096 <= dsize s;
  ia_get : get_inode ino s = Ret (Some inode, s);
  ia_wbit : warm s (inode_bitmap_offset (rootfs s) * 4096 + ino / 8) 1 = true;
  ia_wtab : warm s (inode_table_offset (rootfs s) * 4096 + ino * 128) 128 = true;
}.

(** ** Accesses to cached blocks *)
Lemma fetch_bytes_warm s off n : warm s off n = true -> fetch_bytes off n s = Ret (dev s, s).
Proof. intros H. unfold fetch_bytes, mbind, M_bind, gets, id. by rewrite H. Qed.

Lemma store_bytes_warm s off n f : warm s off n = true -> store_bytes off n f s = Ret (tt, set_dev (f (dev s)) s).
Proof. intros H. unfold store_bytes, mbind, M_bind, gets, id. by rewrite H. Qed.

(** A range inside one block. *)
Lemma warm_block s b po c : cached s b = true -> 0 <= b -> (b + 1) * 4096 < 18446744073709551616 ->
  0 <= po -> 0 <= c -> po + c <= 4096 -> warm s (b * 4096 + po) c = true.
Proof.
  intros H Hb Hr Hpo Hc Hpc. unfold warm. rewrite ADDR_2_PAGE_div, ADDR_2_PAGEUP_ceil by lia.
  apply forallb_forall. intros k Hk%in_seq. replace ((b * 4096 + po) / 4096 + Z.of_nat k) with b; [done|].
  assert (Z.of_nat k < (b * 4096 + po + c + 4095) / 4096 - (b * 4096 + po) / 4096) by lia. dlia.
Qed.

Lemma phy_page_direct s inode lo n id : blocks_ok s inode lo n -> 0 <= id < n ->
  phy_page inode id s = Ret (blk inode id, s).
Proof.
  intros B Hid. pose proof (bo_n _ _ _ _ B). unfold phy_page, DIRECT_PTRS.
  rewrite (proj2 (Z.ltb_lt id 25)) by lia. unfold blk.
  destruct (lookup_lt_is_Some_2 (direct inode) (Z.to_nat id)) as [b Hb];
    [rewrite (bo_len _ _ _ _ B); lia|]. by rewrite Hb.
Qed.

Lemma set_fmem_twice m1 m2 s : set_fmem m2 (set_fmem m1 s) = set_fmem m2 s.
Proof. reflexivity. Qed.

Lemma fmem_set m s : fmem (set_fmem m s) = m.
Proof. reflexivity. Qed.

(** ** One chunk: [c] bytes from offset [po] of block [b] *)
Section Chunk.
Context (s : F) (b po c buf : Z).
Hypothesis Hb : 0 <= b.
Hypothesis Hdev : (b + 1) * 4096 <= dsize s.
Hypothesis Hsz : dsize s < 18446744073709551616.
Hypothesis Hpo : 0 <= po.
Hypothesis Hc : 0 <= c.
Hypothesis Hpc : po + c <= 4096.
Hypothesis Hca : cached s b = true.

Lemma chunk_addr : ADDR b po = b * 4096 + po.
Proof. unfold ADDR, PAGESIZE. apply u64_small. lia. Qed.

Lemma chunk_check : (dsize s <? u64 (b * 4096 + po + c)) = false.
Proof. apply Z.ltb_ge. rewrite u64_small; lia. Qed.

Lemma chunk_warm : warm s (b * 4096 + po) c = true.
Proof. apply warm_block; lia || done. Qed.

Lemma dev_read_chunk : dev_read (ADDR b po) buf c s =
  Ret (0, set_fmem (blit (dev s) (b * 4096 + po) (fmem s) buf c) s).
Proof.
  rewrite chunk_addr. unfold dev_read, blk_read, blk_range. mstep. rewrite chunk_check.
  rewrite (proj2 (Z.ltb_lt _ _)) by lia. unfold mbind, M_bind. by rewrite (fetch_bytes_warm _ _ _ chunk_warm).
Qed.

Lemma dev_write_chunk : dev_write (ADDR b po) buf c s =
  Ret (0, set_dev (blit (fmem s) buf (dev s) (b * 4096 + po) c) s).
Proof.
  rewrite chunk_addr. unfold dev_write, blk_write, blk_range. mstep. rewrite chunk_check.
  rewrite (proj2 (Z.ltb_lt _ _)) by lia. unfold mbind, M_bind, gets. by rewrite (store_bytes_warm _ _ _ _ chunk_warm).
Qed.

End Chunk.

(** ** The arithmetic of the loop: [r] bytes from offset [o] of the file *)
Definition chunk (o r : Z) : Z := (if 4096 <? o mod 4096 + r then 4096 else o mod 4096 + r) - o mod 4096.

Lemma chunk_bounds o r : 0 <= o -> 0 < r ->
  0 < chunk o r <= r /\ o mod 4096 + chunk o r <= 4096 /\
  (forall x, 0 <= x < chunk o r -> (o + x) / 4096 = o / 4096 /\ (o + x) mod 4096 = o mod 4096 + x) /\
  (chunk o r < r -> (o + chunk o r) / 4096 = o / 4096 + 1 /\ (o + chunk o r) mod 4096 = 0 /\
     o mod 4096 + chunk o r = 4096).
Proof.
  intros Ho Hr. unfold chunk. destruct (Z.ltb_spec 4096 (o mod 4096 + r));
    (split; [dlia|]; split; [dlia|]; split; [intros x Hx; dlia|intros Hc; dlia]).
Qed.

Definition stop_page (o r : Z) : Z := (o + r + 4095) / 4096.

(** The loop at offset [o] with [r] bytes to go. *)
Definition fs_loop (o r buf : Z) (inode : Inode) (write : bool) : M F unit :=
  translate_fs_loop (Z.to_nat (stop_page o r - o / 4096)) inode (o / 4096) (stop_page o r)
    (o mod 4096) (o mod 4096 + r) buf write.

(** One iteration of the loop. *)
Lemma fs_loop_step (s : F) (o r buf : Z) (inode : Inode) (write : bool) (b : Z) (s1 : F) :
  0 <= o -> 0 < r -> o + r < 1099511627776 -> 0 <= buf -> buf + r < 18446744073709551616 ->
  phy_page inode (o / 4096) s = Ret (b, s) ->
  (if write then dev_write else dev_read) (ADDR b (o mod 4096)) buf (chunk o r) s = Ret (0, s1) ->
  fs_loop o r buf inode write s =
    if chunk o r <? r then fs_loop (o + chunk o r) (r - chunk o r) (buf + chunk o r) inode write s1
    else Ret (tt, s1).
Proof.
  intros Ho Hr Hor Hbuf Hbr Hp Hx. destruct (chunk_bounds o r Ho Hr) as (C1 & C2 & C3 & C4).
  unfold fs_loop at 1.
  assert (Hst : o / 4096 < stop_page o r) by (unfold stop_page; dlia).
  destruct (Z.to_nat (stop_page o r - o / 4096)) as [|k] eqn:Ek; [lia|].
  cbn [translate_fs_loop]. rewrite (proj2 (Z.ltb_lt _ _) Hst).
  erewrite bind_ret_l; [|exact Hp]. unfold PAGESIZE.
  assert (Et : (if 4096 <? o mod 4096 + r then 4096 else o mod 4096 + r) = o mod 4096 + chunk o r)
    by (unfold chunk; lia).
  rewrite Et. replace (o mod 4096 + chunk o r - o mod 4096) with (chunk o r) by lia.
  rewrite (u64_small (chunk o r)) by lia.
  erewrite bind_ret_l; [|exact Hx].
  replace (buf + (o mod 4096 + chunk o r) - o mod 4096) with (buf + chunk o r) by lia.
  rewrite (u64_small (buf + chunk o r)) by lia.
  destruct (Z.ltb_spec (chunk o r) r) as [Hlt|Hge].
  - destruct (C4 Hlt) as (D1 & D2 & D3). unfold fs_loop. rewrite D1, D2.
    assert (Es : stop_page (o + chunk o r) (r - chunk o r) = stop_page o r)
      by (unfold stop_page; f_equal; lia).
    rewrite Es. replace (Z.to_nat (stop_page o r - (o / 4096 + 1))) with k by lia.
    assert (H4 : 4096 < o mod 4096 + r) by lia. rewrite (proj2 (Z.ltb_lt _ _) H4).
    rewrite u64_small by dlia. do 2 f_equal. lia.
  - assert (Hk : k = O).
    { assert (stop_page o r = o / 4096 + 1); [|lia].
      replace r with (chunk o r) by lia. unfold stop_page. dlia. }
    rewrite Hk. reflexivity.
Qed.

(** ** Reading *)
Lemma read_loop_ok s inode lo n k : blocks_ok s inode lo n -> forall m o r buf,
  (Z.to_nat r < k)%nat -> 0 <= o -> 0 < r -> o + r <= n * 4096 ->
  0 <= buf -> buf + r < 18446744073709551616 ->
  exists m', fs_loop o r buf inode false (set_fmem m s) = Ret (tt, set_fmem m' s) /\
    forall x, m' x = if (buf <=? x) && (x <? buf + r) then fbyte (dev s) inode (o + (x - buf)) else m x.
Proof.
  intros B. induction k as [|k IH]; intros m o r buf Hk Ho Hr Hor Hbuf Hbr; [lia|].
  destruct (chunk_bounds o r Ho Hr) as (C1 & C2 & C3 & C4). pose proof (bo_n _ _ _ _ B) as Hn.
  assert (Hid : 0 <= o / 4096 < n) by dlia.
  pose proof (bo_blk _ _ _ _ B _ Hid) as [L1 L2]. pose proof (bo_lo _ _ _ _ B).
  set (b := blk inode (o / 4096)) in *.
  set (m1 := blit (dev s) (b * 4096 + o mod 4096) m buf (chunk o r)).
  assert (Hm1 : forall x, m1 x = if (buf <=? x) && (x <? buf + chunk o r)
                                 then fbyte (dev s) inode (o + (x - buf)) else m x).
  { intros x. unfold m1, blit. zcases; try done. unfold fbyte, faddr.
    destruct (C3 (x - buf)) as [-> ->]; [lia|]. fold b. f_equal. lia. }
  assert (Hp : phy_page inode (o / 4096) (set_fmem m s) = Ret (b, set_fmem m s)).
  { apply (phy_page_direct (set_fmem m s) inode lo n); [|done]. destruct B. by split. }
  erewrite (fs_loop_step (set_fmem m s) o r buf inode false b (set_fmem m1 s));
    [|lia|lia|lia|lia|lia|exact Hp|].
  2:{ cbn iota. rewrite dev_read_chunk; [done|lia|exact L2|apply B|dlia|lia|lia|by apply B]. }
  destruct (Z.ltb_spec (chunk o r) r) as [Hlt|Hge].
  - destruct (IH m1 (o + chunk o r) (r - chunk o r) (buf + chunk o r)) as (m' & E & Hm'); [lia..|].
    exists m'. split; [exact E|]. intros x. rewrite Hm', Hm1.
    replace (o + chunk o r + (x - (buf + chunk o r))) with (o + (x - buf)) by lia.
    zcases; done.
  - exists m1. split; [done|]. intros x. rewrite Hm1. replace (chunk o r) with r by lia. done.
Qed.

(** ** Writing *)
Lemma faddr_inj s inode lo n o o' : blocks_ok s inode lo n ->
  0 <= o < n * 4096 -> 0 <= o' < n * 4096 -> faddr inode o = faddr inode o' -> o = o'.
Proof.
  intros B Ho Ho' E. unfold faddr in E.
  assert (o / 4096 = o' / 4096).
  { apply (bo_inj _ _ _ _ B); [dlia|dlia|]. generalize dependent (blk inode (o / 4096)).
    generalize (blk inode (o' / 4096)). intros x y E. dlia. }
  replace (blk inode (o / 4096)) with (blk inode (o' / 4096)) in E by congruence. dlia.
Qed.

(** What writing [r] bytes of [m] from [buf] at offset [o] makes of the device. *)
Definition written (inode : Inode) (lo n o r buf : Z) (m d d' : mem) : Prop :=
  (forall q, 0 <= q < n * 4096 -> fbyte d' inode q =
     if (o <=? q) && (q <? o + r) then m (buf + (q - o)) else fbyte d inode q) /\
  (forall a, a < lo * 4096 -> d' a = d a) /\
  (forall a, (forall q, o <= q < o + r -> a <> faddr inode q) -> d' a = d a).

Lemma write_chunk_written s inode lo n o r buf d : blocks_ok s inode lo n ->
  0 <= o -> 0 < r -> o + r <= n * 4096 ->
  written inode lo n o (chunk o r) buf (fmem s) d
    (blit (fmem s) buf d (blk inode (o / 4096) * 4096 + o mod 4096) (chunk o r)).
Proof.
  intros B Ho Hr Hor. destruct (chunk_bounds o r Ho Hr) as (C1 & C2 & C3 & C4).
  assert (Hid : 0 <= o / 4096 < n) by dlia. pose proof (bo_blk _ _ _ _ B _ Hid) as [L1 L2].
  assert (Hin : forall q, o <= q < o + chunk o r ->
    faddr inode q = blk inode (o / 4096) * 4096 + o mod 4096 + (q - o)).
  { intros q Hq. unfold faddr. destruct (C3 (q - o)) as [E1 E2]; [lia|].
    replace (o + (q - o)) with q in E1, E2 by lia. rewrite E1, E2. lia. }
  unfold written, blit. split; [|split].
  - intros q Hq. unfold fbyte.
    destruct (decide (o <= q < o + chunk o r)) as [H|H].
    + rewrite (Hin q H). zcases; try done; f_equal; lia.
    + replace ((o <=? q) && (q <? o + chunk o r)) with false by (symmetry; zcases; done).
      destruct ((_ <=? faddr inode q) && (faddr inode q <? _)) eqn:E; [|done].
      apply andb_true_iff in E as [E1%Z.leb_le E2%Z.ltb_lt]. exfalso. apply H.
      set (q' := o + (faddr inode q - (blk inode (o / 4096) * 4096 + o mod 4096))).
      assert (Hq' : o <= q' < o + chunk o r) by (subst q'; lia).
      assert (q = q'); [|lia]. apply (faddr_inj s inode lo n); [done|done|lia|].
      rewrite (Hin q' Hq'). subst q'. lia.
  - intros a Ha. pose proof (Z.mod_pos_bound o 4096 ltac:(lia)). zcases; done.
  - intros a Ha. destruct ((_ <=? a) && (a <? _)) eqn:E; [|done].
    apply andb_true_iff in E as [E1%Z.leb_le E2%Z.ltb_lt]. exfalso.
    set (q := o + (a - (blk inode (o / 4096) * 4096 + o mod 4096))).
    assert (Hq : o <= q < o + chunk o r) by (subst q; lia).
    apply (Ha q Hq). rewrite (Hin q Hq). subst q. lia.
Qed.

Lemma write_loop_ok s inode lo n k : blocks_ok s inode lo n -> forall d o r buf,
  (Z.to_nat r < k)%nat -> 0 <= o -> 0 < r -> o + r <= n * 4096 ->
  0 <= buf -> buf + r < 18446744073709551616 ->
  exists d', fs_loop o r buf inode true (set_dev d s) = Ret (tt, set_dev d' s) /\
    written inode lo n o r buf (fmem s) d d'.
Proof.
  intros B. induction k as [|k IH]; intros d o r buf Hk Ho Hr Hor Hbuf Hbr; [lia|].
  destruct (chunk_bounds o r Ho Hr) as (C1 & C2 & C3 & C4). pose proof (bo_n _ _ _ _ B) as Hn.
  assert (Hid : 0 <= o / 4096 < n) by dlia.
  pose proof (bo_blk _ _ _ _ B _ Hid) as [L1 L2]. pose proof (bo_lo _ _ _ _ B).
  pose proof (write_chunk_written s inode lo n o r buf d B Ho Hr Hor) as W1.
  set (b := blk inode (o / 4096)) in *.
  set (d1 := blit (fmem s) buf d (b * 4096 + o mod 4096) (chunk o r)) in *.
  assert (Hp : phy_page inode (o / 4096) (set_dev d s) = Ret (b, set_dev d s)).
  { apply (phy_page_direct (set_dev d s) inode lo n); [|done]. destruct B. by split. }
  erewrite (fs_loop_step (set_dev d s) o r buf inode true b (set_dev d1 s));
    [|lia|lia|lia|lia|lia|exact Hp|].
  2:{ cbn iota. rewrite dev_write_chunk; [done|lia|exact L2|apply B|dlia|lia|lia|by apply B]. }
  destruct (Z.ltb_spec (chunk o r) r) as [Hlt|Hge].
  2:{ exists d1. split; [done|]. replace r with (chunk o r) by lia. exact W1. }
  destruct (IH d1 (o + chunk o r) (r - chunk o r) (buf + chunk o r)) as (d' & E & W2 & W3 & W4); [lia..|].
  destruct W1 as (V2 & V3 & V4).
  exists d'. split; [exact E|]. split; [|split].
  - intros q Hq. rewrite W2, V2 by done.
    replace (buf + chunk o r + (q - (o + chunk o r))) with (buf + (q - o)) by lia.
    zcases; done.
  - intros a Ha. rewrite W3, V3 by done. done.
  - intros a Ha. rewrite W4, V4; [done|..]; intros q Hq; apply Ha; lia.
Qed.
