(* ===== verification/FsBitmap.v ===== *)
(** * The allocation bitmaps: the set of blocks in use

    The bitmap of the device stands for a set of numbers; allocate_block adds
    the smallest number that is not in it, free_block removes one. *)
From S2P Require Import Prelude Mem KernelPT PTBits Alloc FsTypes FsCode FsFileSpec Sample.
Import FsTypes FsCode.

(** Bit [x] of the bitmap that starts at block [base]. *)
Definition used (d : mem) (base x : Z) : bool := Z.testbit (d (base * 4096 + x / 8)) (x mod 8).

(** ** Bits of a byte *)
Lemma BITMAP_BITS_mod x : BITMAP_BITS x = x mod 8.
Proof. apply Z_land_7. Qed.

Lemma BITMAP_OFFSET_div x : BITMAP_OFFSET x = x / 8.
Proof. apply (Z.shiftr_div_pow2 x 3). lia. Qed.

Lemma BITMAP_GET_bit byte x : (BITMAP_GET byte x =? 0) = negb (Z.testbit byte (x mod 8)).
Proof.
  unfold BITMAP_GET. rewrite BITMAP_BITS_mod. change 1 with (Z.ones 1) at 1.
  rewrite Z.land_ones by lia. change (2 ^ 1) with 2.
  rewrite <- Z.bit0_mod, Z.shiftr_spec, Z.add_0_l by lia.
  by destruct (Z.testbit byte (x mod 8)).
Qed.

Lemma u8_bit x m : 0 <= m < 8 -> Z.testbit (u8 x) m = Z.testbit x m.
Proof. intros. unfold u8. change 256 with (2 ^ 8). apply Z.mod_pow2_bits_low. lia. Qed.

Lemma one_shifted n m : 0 <= n -> 0 <= m -> Z.testbit (Z.shiftl 1 n) m = (m =? n).
Proof.
  intros Hn Hm. rewrite Z.shiftl_spec by lia. destruct (Z.eqb_spec m n) as [->|H].
  - by rewrite Z.sub_diag.
  - destruct (decide (m < n)); [apply Z.testbit_neg_r; lia|].
    rewrite <- (Z.pow_0_r 2). apply Z.pow2_bits_false. lia.
Qed.

Lemma BITMAP_SET_bit byte x m : 0 <= m < 8 ->
  Z.testbit (BITMAP_SET byte x) m = (m =? x mod 8) || Z.testbit byte m.
Proof.
  intros H. unfold BITMAP_SET. rewrite u8_bit, Z.lor_spec, BITMAP_BITS_mod by done.
  rewrite one_shifted by dlia. apply orb_comm.
Qed.

Lemma BITMAP_CLEAR_bit byte x m : 0 <= m < 8 ->
  Z.testbit (BITMAP_CLEAR byte x) m = negb (m =? x mod 8) && Z.testbit byte m.
Proof.
  intros H. unfold BITMAP_CLEAR. rewrite u8_bit, Z.land_spec, BITMAP_BITS_mod by done.
  rewrite Z.lnot_spec, one_shifted by dlia. apply andb_comm.
Qed.

Lemma byte_ext x y : 0 <= x < 256 -> 0 <= y < 256 ->
  (forall m, 0 <= m < 8 -> Z.testbit x m = Z.testbit y m) -> x = y.
Proof.
  intros Hx Hy H. apply Z.bits_inj'. intros n Hn. destruct (decide (n < 8)); [by apply H|].
  rewrite <- (Z.mod_small x 256), <- (Z.mod_small y 256) by lia. change 256 with (2 ^ 8).
  by rewrite !Z.mod_pow2_bits_high by lia.
Qed.

Lemma bits_255 m : 0 <= m < 8 -> Z.testbit 255 m = true.
Proof.
  intros H. assert (Hm : m = 0 \/ m = 1 \/ m = 2 \/ m = 3 \/ m = 4 \/ m = 5 \/ m = 6 \/ m = 7) by lia.
  repeat (destruct Hm as [->|Hm]; [reflexivity|]). by subst.
Qed.

Lemma BITMAP_2_ADDR_eq offset bit : 0 <= offset < 536870912 -> 0 <= bit < 8 ->
  BITMAP_2_ADDR offset bit = 8 * offset + bit.
Proof.
  intros Ho Hb. unfold BITMAP_2_ADDR. rewrite BITMAP_BITS_mod, (Z.mod_small bit) by lia.
  rewrite Z.shiftl_mul_pow2 by lia. change (2 ^ 3) with 8. rewrite u32_small by lia.
  rewrite (lor_shift_add offset bit 3 : _ -> _ -> Z.lor (offset * 8) bit = offset * 8 + bit) by lia. lia.
Qed.

(** ** The search *)
Lemma zero_bit_spec n b buf : 0 <= b -> b + Z.of_nat n = 8 ->
  match zero_bit n b buf with
  | Some bit => b <= bit < 8 /\ Z.testbit buf bit = false /\
                (forall j, b <= j < bit -> Z.testbit buf j = true)
  | None => forall j, b <= j < 8 -> Z.testbit buf j = true
  end.
Proof.
  revert b. induction n as [|n IH]; intros b Hb Hn; cbn [zero_bit]; [lia|].
  rewrite BITMAP_GET_bit, Z.mod_small by lia. destruct (Z.testbit buf b) eqn:E; cbn [negb].
  - specialize (IH (b + 1) ltac:(lia) ltac:(lia)). destruct (zero_bit n (b + 1) buf) as [bit|].
    + destruct IH as (H1 & H2 & H3). split; [lia|]. split; [done|]. intros j Hj.
      destruct (decide (j = b)) as [->|]; [done|]. apply H3. lia.
    + intros j Hj. destruct (decide (j = b)) as [->|]; [done|]. apply IH. lia.
  - split; [lia|]. split; [done|]. lia.
Qed.

Lemma byte_full d base offset :
  (forall j, 0 <= j < 8 -> Z.testbit (d (base * 4096 + offset)) j = true) ->
  forall x, 8 * offset <= x < 8 * (offset + 1) -> used d base x = true.
Proof.
  intros H x Hx. unfold used. replace (x / 8) with offset by dlia. apply H. dlia.
Qed.

(** The device with number [x] added to the bitmap. *)
Definition mark (d : mem) (base x : Z) : mem :=
  upd d (base * 4096 + x / 8) (BITMAP_SET (d (base * 4096 + x / 8)) x).

Lemma alloc_scan_ok n s base offset limit :
  0 <= base < 4294967296 -> 0 <= offset -> offset + Z.of_nat n = limit -> limit < 536870912 ->
  (forall o, 0 <= o < limit -> cached s (base + o / 4096) = true) ->
  (exists x, 8 * offset <= x < 8 * limit /\ used (dev s) base x = false /\
     (forall y, 8 * offset <= y < x -> used (dev s) base y = true) /\
     alloc_scan n base offset limit s = Ret (x, set_dev (mark (dev s) base x) s)) \/
  ((forall y, 8 * offset <= y < 8 * limit -> used (dev s) base y = true) /\
   alloc_scan n base offset limit s = Ret (-1, s)).
Proof.
  intros Hb. revert offset. induction n as [|n IH]; intros offset Ho Hn Hl Hw.
  { right. split; [lia|done]. }
  cbn [alloc_scan]. rewrite (proj2 (Z.ltb_lt offset limit)) by lia.
  assert (Ea : ADDR base offset = base * 4096 + offset)
    by (unfold ADDR, PAGESIZE; apply u64_small; lia).
  assert (Hwb : warm s (base * 4096 + offset) 1 = true).
  { replace (base * 4096 + offset) with ((base + offset / 4096) * 4096 + offset mod 4096) by dlia.
    apply warm_block; [apply Hw; lia|dlia..]. }
  rewrite Ea. erewrite bind_ret_l; [|exact (fetch_bytes_warm _ _ _ Hwb)].
  rewrite u32_small by lia. set (buf := dev s (base * 4096 + offset)).
  assert (Hskip : (forall j, 0 <= j < 8 -> Z.testbit buf j = true) ->
    (exists x, 8 * offset <= x < 8 * limit /\ used (dev s) base x = false /\
       (forall y, 8 * offset <= y < x -> used (dev s) base y = true) /\
       alloc_scan n base (offset + 1) limit s = Ret (x, set_dev (mark (dev s) base x) s)) \/
    ((forall y, 8 * offset <= y < 8 * limit -> used (dev s) base y = true) /\
     alloc_scan n base (offset + 1) limit s = Ret (-1, s))).
  { intros Hfull. pose proof (byte_full (dev s) base offset Hfull) as Hu.
    destruct (IH (offset + 1)) as [(x & H1 & H2 & H3 & E)|[H1 E]]; [lia|lia|lia|done| |].
    - left. exists x. split; [lia|]. split; [done|]. split; [|done]. intros y Hy.
      destruct (decide (y < 8 * (offset + 1))); [apply Hu; lia|apply H3; lia].
    - right. split; [|done]. intros y Hy.
      destruct (decide (y < 8 * (offset + 1))); [apply Hu; lia|apply H1; lia]. }
  destruct (Z.eqb_spec buf 255) as [E255|E255].
  { apply Hskip. rewrite E255. apply bits_255. }
  pose proof (zero_bit_spec 8 0 buf) as Hz. destruct (zero_bit 8 0 buf) as [bit|].
  2:{ apply Hskip. apply Hz; lia. }
  destruct Hz as (H1 & H2 & H3); [lia|lia|]. left. exists (8 * offset + bit).
  assert (E1 : (8 * offset + bit) / 8 = offset) by dlia.
  assert (E2 : (8 * offset + bit) mod 8 = bit) by dlia.
  split; [lia|]. split; [unfold used; by rewrite E1, E2|]. split.
  - intros y Hy. unfold used. replace (y / 8) with offset by dlia. apply H3. dlia.
  - erewrite bind_ret_l; [|exact (store_bytes_warm _ _ _ _ Hwb)]. rewrite BITMAP_2_ADDR_eq by lia. unfold mark. rewrite E1. fold buf.
    unfold BITMAP_SET. rewrite !BITMAP_BITS_mod, E2, (Z.mod_small bit) by lia. reflexivity.
Qed.

(** ** allocate_block and free_block *)

(** The data bitmap of a file system starts after the inode bitmap. *)
Definition data_base (s : F) : Z := 1 + inode_bitmap_blocks (super (rootfs s)).
Definition block_limit (s : F) : Z := 8 * ((size_blocks (super (rootfs s)) + 7) / 8).

(** The super block is in range and the blocks of the data bitmap have valid
    buffers in the cache. *)
Definition super_ok (s : F) : Prop :=
  0 <= inode_bitmap_blocks (super (rootfs s)) < 4294967295 /\
  0 <= size_blocks (super (rootfs s)) < 4294967289 /\
  (forall o, 0 <= o < (size_blocks (super (rootfs s)) + 7) / 8 -> cached s (data_base s + o / 4096) = true).

Lemma bitmap_bytes_eq n : 0 <= n < 4294967289 -> bitmap_bytes n = (n + 7) / 8.
Proof.
  intros H. unfold bitmap_bytes. rewrite BITMAP_OFFSET_div, BITMAP_BITS_mod.
  rewrite u32_small; zcases; dlia.
Qed.

Lemma used_mark d base x y : 0 <= x -> 0 <= y ->
  used (mark d base x) base y = (y =? x) || used d base y.
Proof.
  intros Hx Hy. unfold used, mark, upd.
  destruct (Z.eqb_spec (base * 4096 + y / 8) (base * 4096 + x / 8)) as [E|E].
  - rewrite BITMAP_SET_bit by dlia. replace (x / 8) with (y / 8) by lia.
    destruct (Z.eqb_spec (y mod 8) (x mod 8)), (Z.eqb_spec y x); try done; dlia.
  - destruct (Z.eqb_spec y x); [subst; done|done].
Qed.

Lemma allocate_block_ok s : super_ok s ->
  (exists x, 0 <= x < block_limit s /\ used (dev s) (data_base s) x = false /\
     (forall y, 0 <= y < x -> used (dev s) (data_base s) y = true) /\
     allocate_block s = Ret (x, set_dev (mark (dev s) (data_base s) x) s)) \/
  ((forall y, 0 <= y < block_limit s -> used (dev s) (data_base s) y = true) /\
   allocate_block s = Ret (-1, s)).
Proof.
  intros (H1 & H2 & Hw). unfold allocate_block, block_limit. mstep.
  rewrite bitmap_bytes_eq by lia. rewrite u32_small by lia. fold (data_base s).
  set (limit := (size_blocks (super (rootfs s)) + 7) / 8).
  assert (Hlim : 0 <= limit < 536870912) by (subst limit; dlia).
  destruct (alloc_scan_ok (Z.to_nat limit) s (data_base s) 0 limit) as [H|H];
    [unfold data_base; lia|lia|lia|lia|exact Hw|left; exact H|right; exact H].
Qed.

(** C31: allocate_block, while the blocks of the data bitmap are cached, returns
    the smallest block number that is free in the bitmap and marks exactly that
    number, changing nothing else on the device; it returns -1, and changes
    nothing, when every number below the size of the file system rounded up to a
    multiple of 8 is in use. *)
Theorem allocate_block_correct s : super_ok s ->
  (exists x s', allocate_block s = Ret (x, s') /\ 0 <= x < block_limit s /\
     used (dev s) (data_base s) x = false /\
     (forall y, 0 <= y < x -> used (dev s) (data_base s) y = true) /\
     (forall y, 0 <= y -> used (dev s') (data_base s) y = (y =? x) || used (dev s) (data_base s) y) /\
     (forall a, a <> data_base s * 4096 + x / 8 -> dev s' a = dev s a) /\ fa s' = fa s) \/
  ((forall y, 0 <= y < block_limit s -> used (dev s) (data_base s) y = true) /\
   allocate_block s = Ret (-1, s)).
Proof.
  intros H. destruct (allocate_block_ok s H) as [(x & H1 & H2 & H3 & E)|]; [left|by right].
  exists x, (set_dev (mark (dev s) (data_base s) x) s). split; [done|]. split; [done|].
  split; [done|]. split; [done|]. split; [|split; [|done]].
  - intros y Hy. apply used_mark; lia.
  - intros a Ha. by apply upd_ne.
Qed.

(** The bitmap is searched to the next multiple of 8: when all blocks of the
    file system are in use and their number is not a multiple of 8, allocate_block
    returns a block past the end of the file system. *)
Theorem allocate_block_past_end s : super_ok s ->
  (forall y, 0 <= y < size_blocks (super (rootfs s)) -> used (dev s) (data_base s) y = true) ->
  size_blocks (super (rootfs s)) mod 8 <> 0 ->
  used (dev s) (data_base s) (size_blocks (super (rootfs s))) = false ->
  exists s', allocate_block s = Ret (size_blocks (super (rootfs s)), s').
Proof.
  intros H Hfull Hm Hfree. pose proof H as (_ & Hs & _).
  destruct (allocate_block_ok s H) as [(x & H1 & H2 & H3 & E)|[H1 _]].
  - assert (x = size_blocks (super (rootfs s))) as ->; [|by eexists].
    destruct (Z.lt_trichotomy x (size_blocks (super (rootfs s)))) as [Hlt|[?|Hgt]]; [|done|].
    + rewrite Hfull in H2 by lia. done.
    + rewrite H3 in Hfree by lia. done.
  - rewrite H1 in Hfree; [done|]. unfold block_limit. dlia.
Qed.

(** The bitmap byte of block [x] is on the device, in a cached block. *)
Definition on_device (s : F) (x : Z) : Prop :=
  0 <= x < 4294967296 /\ data_base s * 4096 + x / 8 + 1 <= dsize s /\
  warm s (data_base s * 4096 + x / 8) 1 = true.

Definition unmark (d : mem) (base x : Z) : mem :=
  upd d (base * 4096 + x / 8) (BITMAP_CLEAR (d (base * 4096 + x / 8)) x).

Lemma free_block_ok s x : super_ok s -> on_device s x ->
  free_block x s = if used (dev s) (data_base s) x
                   then Ret (0, set_dev (unmark (dev s) (data_base s) x) s) else Ret (-1, s).
Proof.
  intros (H1 & H2 & _) (Hx & Hd & Hw). unfold free_block, clear_bit. mstep.
  rewrite u32_small by lia. fold (data_base s).
  assert (Ea : ADDR (data_base s) (BITMAP_OFFSET x) = data_base s * 4096 + x / 8).
  { unfold ADDR, PAGESIZE. rewrite BITMAP_OFFSET_div. apply u64_small. unfold data_base. dlia. }
  rewrite Ea.
  assert (Hck : (dsize s <? u64 (data_base s * 4096 + x / 8 + 1)) = false).
  { apply Z.ltb_ge. rewrite u64_small; [done|]. unfold data_base. dlia. }
  unfold get_byte, dev_get, mbind, M_bind, gets, lift. rewrite Hck, (fetch_bytes_warm _ _ _ Hw). cbn.
  rewrite BITMAP_GET_bit. unfold used. destruct (Z.testbit _ (x mod 8)); cbn [negb]; [|done].
  unfold dev_put, mbind, M_bind, gets. by rewrite Hck, (store_bytes_warm _ _ _ _ Hw).
Qed.

(** Freeing the block just allocated restores the device byte for byte, and
    freeing it a second time is refused. *)
Theorem free_block_roundtrip s x s' : super_ok s -> mem_ok (dev s) ->
  allocate_block s = Ret (x, s') -> x <> -1 -> on_device s x ->
  exists s'', free_block x s' = Ret (0, s'') /\ (forall a, dev s'' a = dev s a) /\
    free_block x s'' = Ret (-1, s'').
Proof.
  intros H Hm E Hx Hd. pose proof (proj1 Hd) as Hx0.
  destruct (allocate_block_ok s H) as [(y & H1 & H2 & H3 & E')|[_ E']]; rewrite E' in E;
    [|congruence]. injection E as -> <-.
  set (s' := set_dev (mark (dev s) (data_base s) x) s).
  assert (Hu : used (dev s') (data_base s') x = true).
  { change (data_base s') with (data_base s). cbn. rewrite used_mark by lia. by rewrite Z.eqb_refl. }
  exists (set_dev (unmark (dev s') (data_base s') x) s'). split; [|split].
  - rewrite free_block_ok by done. by rewrite Hu.
  - intros a. change (data_base s') with (data_base s). cbn. unfold unmark, mark.
    destruct (decide (a = data_base s * 4096 + x / 8)) as [->|Hne]; [|by rewrite !upd_ne].
    rewrite !upd_eq. apply byte_ext; [apply u8_range|apply Hm|]. intros m Hmm.
    rewrite BITMAP_CLEAR_bit, BITMAP_SET_bit by done.
    unfold used in H2. destruct (Z.eqb_spec m (x mod 8)) as [->|]; [by rewrite H2|done].
  - rewrite free_block_ok by done. change (data_base (set_dev _ s')) with (data_base s).
    replace (used _ (data_base s) x) with false; [done|]. cbn. unfold used, unmark.
    rewrite upd_eq, BITMAP_CLEAR_bit by dlia. by rewrite Z.eqb_refl.
Qed.

(** ** Witnesses *)
Lemma small_bitmap_cached o : 0 <= o < 2 -> cached0 (2 + o / 4096) = true.
Proof. intros H. assert (o = 0 \/ o = 1) as [-> | ->] by lia; reflexivity. Qed.

Lemma f0_super : super_ok f0.
Proof. split; [cbn; lia|]. split; [cbn; lia|]. intros o Ho. by apply small_bitmap_cached. Qed.

Lemma allocate_block_correct_witness :
  exists s', allocate_block f0 = Ret (6, s') /\ used (dev s') 2 6 = true.
Proof.
  destruct (allocate_block_correct f0 f0_super) as [(x & s' & E & H1 & H2 & H3 & H4 & _)|[H _]].
  - assert (x = 6) as ->.
    { destruct (Z.lt_trichotomy x 6) as [Hlt|[?|Hgt]]; [|done|].
      - assert (Hx : x = 0 \/ x = 1 \/ x = 2 \/ x = 3 \/ x = 4 \/ x = 5) by lia.
        repeat (destruct Hx as [->|Hx]; [vm_compute in H2; discriminate H2|]).
        subst. vm_compute in H2. discriminate H2.
      - pose proof (H3 6 ltac:(lia)) as Hb. vm_compute in Hb. discriminate Hb. }
    exists s'. split; [exact E|]. apply (H4 6). lia.
  - pose proof (H 6 ltac:(vm_compute; split; [discriminate|reflexivity])) as Hb.
    vm_compute in Hb. discriminate Hb.
Defined.

(** A full file system of 13 blocks. *)
Definition f13 : F :=
  set_rootfs (mkFilesystem (mkSuper 168105733 1 1 1 13 0) (mkFS 0 0) (mkFS 9 0) 1 2 3)
    (set_dev (upd (upd dev0 8192 255) 8193 31) f0).

Lemma allocate_block_past_end_witness : exists s', allocate_block f13 = Ret (13, s').
Proof.
  apply (allocate_block_past_end f13).
  - split; [cbn; lia|]. split; [cbn; lia|]. intros o Ho. by apply small_bitmap_cached.
  - intros y Hy. change (size_blocks (super (rootfs f13))) with 13 in Hy.
    assert (Hx : y = 0 \/ y = 1 \/ y = 2 \/ y = 3 \/ y = 4 \/ y = 5 \/ y = 6 \/ y = 7 \/ y = 8 \/
                 y = 9 \/ y = 10 \/ y = 11 \/ y = 12) by lia.
    repeat (destruct Hx as [->|Hx]; [vm_compute; reflexivity|]). subst. vm_compute. reflexivity.
  - discriminate.
  - vm_compute. reflexivity.
Defined.

Lemma dev0_ok : mem_ok dev0.
Proof.
  assert (H0 : mem_ok (upd (upd (fun _ => 0) 4096 3) 8192 63)).
  { intros y. unfold upd. zcases; lia. }
  assert (Hw : forall l d a, mem_ok d -> mem_ok (store_words d a l)).
  { induction l as [|w l IH]; intros d a Hd; [done|]. cbn [store_words]. apply IH.
    by apply (store_le_ok 4). }
  assert (Hi : forall d a i, mem_ok d -> mem_ok (store_inode d a i)).
  { intros d a i Hd. unfold store_inode. do 3 apply (store_le_ok 4). apply Hw.
    apply (store_le_ok 8). by do 2 apply (store_le_ok 4). }
  apply (Hi (store_inode (upd (upd (fun _ => 0) 4096 3) 8192 63) 12288 root_inode0)
                   (12288 + 128) file_inode0). by apply Hi.
Qed.

Lemma free_block_roundtrip_witness :
  exists x s' s'', allocate_block f0 = Ret (x, s') /\ free_block x s' = Ret (0, s'') /\
    (forall a, dev s'' a = dev f0 a).
Proof.
  destruct (allocate_block_ok f0 f0_super) as [(x & H1 & H2 & H3 & E)|[H _]].
  - change (block_limit f0) with 16 in H1.
    destruct (free_block_roundtrip f0 x _ f0_super dev0_ok E ltac:(lia)) as (s'' & F1 & F2 & _).
    + split; [lia|]. change (data_base f0) with 2. change (dsize f0) with 65536. split; [dlia|].
      apply (warm_block f0 2); reflexivity || dlia.
    + exists x. eexists. exists s''. split; [exact E|]. split; [exact F1|exact F2].
  - pose proof (H 6 ltac:(vm_compute; split; [discriminate|reflexivity])) as Hb.
    vm_compute in Hb. discriminate Hb.
Defined.
