(* ===== verification/FsFileProps.v ===== *)
(** * Files: reading, writing, inodes on the device, truncation to nothing

    At the end, the refinement that ties the device of the file system to the
    block cache. *)
From S2P Require Import Prelude Mem World BlockCache BlockCacheSpec RamDisk BlockCacheProps KernelPT Alloc FsTypes FsCode FsFileSpec Sample.
Import KernelPT Alloc FsTypes FsCode.

(** ** Inodes on the device *)
Record wf_inode (i : Inode) : Prop := {
  wi_type : 0 <= itype i < 4294967296;
  wi_perm : 0 <= permission i < 4294967296;
  wi_size : 0 <= size_bytes i < 18446744073709551616;
  wi_len : length (direct i) = 25%nat;
  wi_direct : forall k b, direct i !! k = Some b -> 0 <= b < 4294967296;
  wi_single : 0 <= single_ind i < 4294967296;
  wi_double : 0 <= double_ind i < 4294967296;
  wi_triple : 0 <= triple_ind i < 4294967296;
}.

Lemma store_words_outside l d a x :
  x < a \/ a + 4 * Z.of_nat (length l) <= x -> store_words d a l x = d x.
Proof.
  revert d a. induction l as [|w l IH]; intros d a H; [done|]. cbn [store_words length] in *.
  rewrite IH by lia. apply (store_le_outside 4). lia.
Qed.

Lemma load_store_words l d a k w : l !! k = Some w -> 0 <= w < 4294967296 ->
  load32 (store_words d a l) (a + 4 * Z.of_nat k) = w.
Proof.
  revert d a k. induction l as [|v l IH]; intros d a k H Hw; [done|]. cbn [store_words].
  destruct k as [|k]; cbn in H.
  - injection H as ->. replace (a + 4 * Z.of_nat 0) with a by lia.
    rewrite (load_le_ext 4 _ (store32 d a w)); [by apply (load_store_same 4)|].
    intros x Hx. apply store_words_outside. lia.
  - replace (a + 4 * Z.of_nat (S k)) with (a + 4 + 4 * Z.of_nat k) by lia. by apply IH.
Qed.

Lemma load_inode_ext d d' a : (forall x, a <= x < a + 128 -> d x = d' x) ->
  load_inode d a = load_inode d' a.
Proof.
  intros H. unfold load_inode.
  assert (E4 : forall o, 0 <= o <= 124 -> load32 d (a + o) = load32 d' (a + o)).
  { intros o Ho. apply load_le_ext. intros x Hx. apply H. lia. }
  rewrite <- (Z.add_0_r a) at 1. rewrite (E4 0), Z.add_0_r, !E4 by lia. f_equal.
  - apply load_le_ext. intros x Hx. apply H. lia.
  - apply map_ext_in. intros i Hi%in_seq. replace (a + 16 + 4 * Z.of_nat i) with (a + (16 + 4 * Z.of_nat i)) by lia.
    apply E4. lia.
Qed.

Lemma store_inode_outside d a i x : length (direct i) = 25%nat ->
  x < a \/ a + 128 <= x -> store_inode d a i x = d x.
Proof.
  intros Hl H. unfold store_inode, store32, store64.
  rewrite !(store_le_outside 4) by lia. rewrite store_words_outside by (rewrite Hl; lia).
  rewrite (store_le_outside 8) by lia. by rewrite !(store_le_outside 4) by lia.
Qed.

(** A field read back through the stores that follow it. *)
Ltac skip_stores :=
  repeat first
    [ rewrite (load_store_disjoint 4 4) by lia
    | rewrite (load_store_disjoint 4 8) by lia ].

Lemma load_store_inode d a i : wf_inode i -> load_inode (store_inode d a i) a = i.
Proof.
  intros [Ht Hp Hs Hl Hd H1 H2 H3]. destruct i as [t p s l b1 b2 b3].
  cbn [itype permission size_bytes direct single_ind double_ind triple_ind] in *.
  unfold store_inode. cbn [itype permission size_bytes direct single_ind double_ind triple_ind].
  set (d0 := store64 (store32 (store32 d a t) (a + 4) p) (a + 8) s).
  assert (Hin : forall n o, 0 <= o -> o + Z.of_nat n <= 16 ->
    load_le n (store_words d0 (a + 16) l) (a + o) = load_le n d0 (a + o)).
  { intros n o Ho Hn. apply load_le_ext. intros x Hx. apply store_words_outside. lia. }
  unfold load_inode, load32, load64, store32, store64 in *. f_equal.
  - skip_stores. pose proof (Hin 4%nat 0 ltac:(lia) ltac:(lia)) as E. rewrite Z.add_0_r in E.
    rewrite E. unfold d0.
    rewrite (load_store_disjoint 8 4) by lia. skip_stores. by apply (load_store_same 4).
  - skip_stores. rewrite Hin by lia. unfold d0. rewrite (load_store_disjoint 8 4) by lia.
    by apply (load_store_same 4).
  - skip_stores. rewrite Hin by lia. unfold d0. by apply (load_store_same 8).
  - apply list_eq. intros k. rewrite list_lookup_fmap.
    destruct (decide (k < 25)%nat) as [Hk|Hk].
    + rewrite lookup_seq_lt by lia. cbn [fmap option_fmap option_map Nat.add].
      destruct (lookup_lt_is_Some_2 l k) as [w Hw]; [lia|]. rewrite Hw. f_equal.
      skip_stores. apply load_store_words; [done|]. by eapply Hd.
    + rewrite (lookup_ge_None_2 l) by lia. rewrite (lookup_ge_None_2 (seq 0 25)); [done|].
      rewrite length_seq. lia.
  - skip_stores. by apply (load_store_same 4).
  - skip_stores. by apply (load_store_same 4).
  - by apply (load_store_same 4).
Qed.

(** ** get_inode *)
Definition inode_addr (s : F) (ino : Z) : Z := inode_table_offset (rootfs s) * 4096 + ino * 128.
Definition inode_bit (s : F) (ino : Z) : Z := inode_bitmap_offset (rootfs s) * 4096 + ino / 8.

Lemma get_inode_run s ino lo : 0 <= ino < 4294967296 ->
  0 <= inode_bitmap_offset (rootfs s) < 8589934592 ->
  0 <= inode_table_offset (rootfs s) < 8589934592 ->
  inode_bit s ino + 1 <= lo * 4096 -> inode_addr s ino + 128 <= lo * 4096 -> lo * 4096 <= dsize s ->
  warm s (inode_bit s ino) 1 = true -> warm s (inode_addr s ino) 128 = true ->
  get_inode ino s =
    Ret (if BITMAP_GET (dev s (inode_bit s ino)) ino =? 0 then None
         else Some (load_inode (dev s) (inode_addr s ino)), s).
Proof.
  intros Hi Hb Ht H1 H2 H3 W1 W2. unfold inode_bit, inode_addr in *. unfold get_inode. mstep.
  assert (Ea : ADDR (inode_bitmap_offset (rootfs s)) (BITMAP_OFFSET ino) =
               inode_bitmap_offset (rootfs s) * 4096 + ino / 8).
  { unfold ADDR, PAGESIZE, BITMAP_OFFSET. rewrite Z.shiftr_div_pow2 by lia. apply u64_small. dlia. }
  assert (Eb : ADDR (inode_table_offset (rootfs s)) (ino * sizeof_Inode) =
               inode_table_offset (rootfs s) * 4096 + ino * 128).
  { unfold ADDR, PAGESIZE, sizeof_Inode. apply u64_small. lia. }
  rewrite Ea, Eb. unfold get_byte, dev_get, mbind, M_bind, gets, lift, sizeof_Inode.
  rewrite (u64_small (_ + 1)) by dlia. rewrite (u64_small (_ + 128)) by lia.
  rewrite (proj2 (Z.ltb_ge _ (_ + 1))) by dlia. rewrite (fetch_bytes_warm _ _ _ W1).
  cbv beta iota delta [of_option mret M_ret].
  destruct (BITMAP_GET _ ino =? 0); [done|]. rewrite (proj2 (Z.ltb_ge _ _)) by lia. by rewrite (fetch_bytes_warm _ _ _ W2).
Qed.

Lemma the_inode_run s ino i : get_inode ino s = Ret (Some i, s) -> the_inode ino s = Ret (i, s).
Proof. intros E. unfold the_inode. by rewrite (bind_ret_l _ _ _ _ _ E). Qed.

(** The inode is found again after any change of the device from block [lo] on. *)
Lemma inode_at_stable s ino inode lo d' : inode_at s ino inode lo ->
  (forall a, a < lo * 4096 -> d' a = dev s a) -> inode_at (set_dev d' s) ino inode lo.
Proof.
  intros [H1 H2 H3 H4 H5 H6 H7 H8 H9] Hd. split; try done.
  rewrite (get_inode_run (set_dev d' s) ino lo) by done.
  rewrite (get_inode_run s ino lo) in H7 by done. revert H7.
  change (inode_bit (set_dev d' s) ino) with (inode_bit s ino).
  change (inode_addr (set_dev d' s) ino) with (inode_addr s ino). cbn [dev set_dev].
  rewrite Hd by (unfold inode_bit; lia).
  rewrite (load_inode_ext d' (dev s)) by (intros x Hx; apply Hd; unfold inode_addr in *; lia).
  destruct (_ =? 0); [done|]. by intros [= <-].
Qed.

(** ** Reading and writing *)
Lemma translate_fs_loop_eq ino inode lo off buf size write s :
  inode_at s ino inode lo -> 0 <= off -> 0 < size -> off + size < 1099511627776 ->
  translate_fs ino off buf size write s = fs_loop off size buf inode write s.
Proof.
  intros I Ho Hs Hos. unfold translate_fs. erewrite bind_ret_l; [|apply I].
  rewrite ADDR_2_PAGE_div, ADDR_2_PAGEUP_ceil, OFFSET_mod, (u64_small off) by lia.
  rewrite (proj2 (Z.ltb_lt _ _)) by dlia. mstep.
  unfold fs_loop, stop_page. rewrite u64_small; [done|dlia].
Qed.

Lemma set_fmem_id s : set_fmem (fmem s) s = s.
Proof. destruct s as [[[] ? ? ? ?] ? ? ? ? ? ? ? ? ? ?]. reflexivity. Qed.

Lemma set_dev_id s : set_dev (dev s) s = s.
Proof. by destruct s. Qed.

Lemma fs_read_ok s ino inode lo n off buf size :
  inode_at s ino inode lo -> blocks_ok s inode lo n ->
  0 <= off -> 0 < size -> off + size <= n * 4096 -> 0 <= buf -> buf + size < 18446744073709551616 ->
  exists m', fs_file_read ino off buf size s = Ret (0, set_fmem m' s) /\
    forall x, m' x = if (buf <=? x) && (x <? buf + size)
                     then fbyte (dev s) inode (off + (x - buf)) else fmem s x.
Proof.
  intros I B Ho Hs Hn Hb Hbs. pose proof (bo_n _ _ _ _ B).
  destruct (read_loop_ok s inode lo n (S (Z.to_nat size)) B (fmem s) off size buf) as (m' & E & Hm');
    [lia..|].
  exists m'. split; [|done]. unfold fs_file_read.
  erewrite bind_ret_l; [reflexivity|]. erewrite translate_fs_loop_eq by (done || lia).
  rewrite set_fmem_id in E. exact E.
Qed.

Lemma fs_write_ok s ino inode lo n off buf size :
  inode_at s ino inode lo -> blocks_ok s inode lo n ->
  0 <= off -> 0 < size -> off + size <= n * 4096 -> 0 <= buf -> buf + size < 18446744073709551616 ->
  exists d', fs_file_write ino off buf size s = Ret (0, set_dev d' s) /\
    written inode lo n off size buf (fmem s) (dev s) d' /\
    inode_at (set_dev d' s) ino inode lo /\ blocks_ok (set_dev d' s) inode lo n.
Proof.
  intros I B Ho Hs Hn Hb Hbs. pose proof (bo_n _ _ _ _ B).
  destruct (write_loop_ok s inode lo n (S (Z.to_nat size)) B (dev s) off size buf) as (d' & E & W);
    [lia..|].
  exists d'. split; [|split; [done|split]].
  - unfold fs_file_write. erewrite bind_ret_l; [reflexivity|].
    erewrite translate_fs_loop_eq by (done || lia). rewrite set_dev_id in E. exact E.
  - apply inode_at_stable; [done|]. apply W.
  - destruct B. by split.
Qed.

(** For a file whose pages are in its direct blocks, fs_file_read of a
    non-empty range inside those pages returns 0 with exactly the bytes of the
    range in the buffer, and changes nothing else in memory or on the device. *)
Theorem fs_file_read_correct s ino inode lo n off buf size :
  inode_at s ino inode lo -> blocks_ok s inode lo n ->
  0 <= off -> 0 < size -> off + size <= n * 4096 -> 0 <= buf -> buf + size < 18446744073709551616 ->
  exists m', fs_file_read ino off buf size s = Ret (0, set_fmem m' s) /\
    forall x, m' x = if (buf <=? x) && (x <? buf + size)
                     then fbyte (dev s) inode (off + (x - buf)) else fmem s x.
Proof. apply fs_read_ok. Qed.

(** Fs_file_write of a non-empty range inside the direct pages returns 0 and
    changes exactly those bytes of the file; no byte of the device outside the
    written range changes, so the inode, the bitmaps and every other file are as
    before. *)
Theorem fs_file_write_correct s ino inode lo n off buf size :
  inode_at s ino inode lo -> blocks_ok s inode lo n ->
  0 <= off -> 0 < size -> off + size <= n * 4096 -> 0 <= buf -> buf + size < 18446744073709551616 ->
  exists d', fs_file_write ino off buf size s = Ret (0, set_dev d' s) /\
    (forall q, 0 <= q < n * 4096 -> fbyte d' inode q =
       if (off <=? q) && (q <? off + size) then fmem s (buf + (q - off)) else fbyte (dev s) inode q) /\
    (forall a, (forall q, off <= q < off + size -> a <> faddr inode q) -> d' a = dev s a) /\
    get_inode ino (set_dev d' s) = Ret (Some inode, set_dev d' s).
Proof.
  intros I B Ho Hs Hn Hb Hbs.
  destruct (fs_write_ok s ino inode lo n off buf size I B Ho Hs Hn Hb Hbs) as (d' & E & (W1 & _ & W3) & I' & _).
  exists d'. split; [done|]. split; [done|]. split; [done|]. apply I'.
Qed.

(** What fs_file_write has written, fs_file_read returns. *)
Theorem fs_write_read_roundtrip s ino inode lo n off buf size buf' :
  inode_at s ino inode lo -> blocks_ok s inode lo n ->
  0 <= off -> 0 < size -> off + size <= n * 4096 -> 0 <= buf -> buf + size < 18446744073709551616 ->
  0 <= buf' -> buf' + size < 18446744073709551616 ->
  exists s', (fs_file_write ino off buf size;; fs_file_read ino off buf' size) s = Ret (0, s') /\
    forall i, 0 <= i < size -> fmem s' (buf' + i) = fmem s (buf + i).
Proof.
  intros I B Ho Hs Hn Hb Hbs Hb' Hbs'.
  destruct (fs_write_ok s ino inode lo n off buf size I B Ho Hs Hn Hb Hbs) as (d' & E & (W1 & _ & _) & I' & B').
  destruct (fs_read_ok (set_dev d' s) ino inode lo n off buf' size I' B' Ho Hs Hn Hb' Hbs') as (m' & E' & Hm').
  exists (set_fmem m' (set_dev d' s)). split; [by erewrite bind_ret_l; [|exact E]|].
  intros i Hi. rewrite fmem_set, Hm'. pose proof (bo_n _ _ _ _ B).
  replace ((buf' <=? buf' + i) && (buf' + i <? buf' + size)) with true by (symmetry; zcases; done).
  change (dev (set_dev d' s)) with d'. rewrite W1 by lia.
  replace ((off <=? _) && (_ <? off + size)) with true by (symmetry; zcases; done).
  f_equal. lia.
Qed.

(** ** The size of a file *)

(** Fs_file_set_size followed by fs_file_get_size returns the size that was
    set, and the rest of the inode is unchanged on the device. *)
Theorem set_get_size_roundtrip s ino inode lo size :
  inode_at s ino inode lo -> wf_inode inode -> 0 <= size < 18446744073709551616 ->
  inode_bitmap_offset (rootfs s) * 4096 + ino / 8 < inode_table_offset (rootfs s) * 4096 ->
  exists s', (fs_file_set_size ino size;; fs_file_get_size ino) s = Ret (size, s') /\
    get_inode ino s' = Ret (Some (set_size_bytes size inode), s') /\
    (forall a, a < inode_addr s ino \/ inode_addr s ino + 128 <= a -> dev s' a = dev s a).
Proof.
  intros I W Hs Hlay. pose proof I as [H1 H2 H3 H4 H5 H6 H7 H8 H9].
  set (i' := set_size_bytes size inode). set (d' := store_inode (dev s) (inode_addr s ino) i').
  assert (W' : wf_inode i') by (destruct W; by split).
  assert (Hout : forall a, a < inode_addr s ino \/ inode_addr s ino + 128 <= a -> d' a = dev s a).
  { intros a Ha. apply store_inode_outside; [apply W|done]. }
  assert (Eb : ADDR (inode_table_offset (rootfs s)) (ino * sizeof_Inode) = inode_addr s ino).
  { unfold ADDR, PAGESIZE, sizeof_Inode, inode_addr. apply u64_small. lia. }
  assert (Esync : fs_file_sync ino i' s = Ret (0, set_dev d' s)).
  { unfold fs_file_sync. mstep. unfold dev_put. mstep. rewrite Eb. unfold sizeof_Inode.
    rewrite u64_small by (unfold inode_addr; lia).
    rewrite (proj2 (Z.ltb_ge _ _)) by (unfold inode_addr; lia).
    by rewrite (bind_ret_l _ _ _ _ _ (store_bytes_warm _ _ _ _ H9)). }
  assert (Eget : get_inode ino (set_dev d' s) = Ret (Some i', set_dev d' s)).
  { rewrite (get_inode_run (set_dev d' s) ino lo) by done.
    rewrite (get_inode_run s ino lo) in H7 by done. revert H7.
    change (inode_bit (set_dev d' s) ino) with (inode_bit s ino).
    change (inode_addr (set_dev d' s) ino) with (inode_addr s ino). cbn [dev set_dev].
    rewrite (Hout (inode_bit s ino)) by (unfold inode_bit, inode_addr; lia).
    destruct (_ =? 0); [done|]. intros _. unfold d'. by rewrite load_store_inode. }
  exists (set_dev d' s). split; [|split; [done|done]].
  assert (Eset : fs_file_set_size ino size s = Ret (tt, set_dev d' s)).
  { unfold fs_file_set_size. rewrite (bind_ret_l _ _ _ _ _ (the_inode_run _ _ _ H7)).
    by rewrite (bind_ret_l _ _ _ _ _ Esync). }
  rewrite (bind_ret_l _ _ _ _ _ Eset). unfold fs_file_get_size.
  by rewrite (bind_ret_l _ _ _ _ _ (the_inode_run _ _ _ Eget)).
Qed.

(** ** Truncation to nothing *)
Lemma shrink_to_zero_loops fuel inode id s r : 0 <= id -> shrink_loop fuel inode id 0 s <> Ret r.
Proof.
  revert id s. induction fuel as [|fuel IH]; intros id s Hid; [done|]. cbn [shrink_loop].
  rewrite (proj2 (Z.leb_le 0 id)) by done. unfold mbind, M_bind.
  destruct (shrink_page inode id s) as [[u s1]| | |]; [|done..].
  apply IH. apply u64_range.
Qed.

(** Truncating a non-empty file to size 0 never returns: the loop counts an
    unsigned page number down to below 0, wraps around and goes on freeing blocks
    (or faults on the way), for any number of iterations. *)
Theorem truncate_to_zero_never_returns fuel ino inode s r :
  get_inode ino s = Ret (Some inode, s) -> 0 < size_bytes inode < 18446744073709551616 ->
  fs_file_truncate fuel ino 0 s <> Ret r.
Proof.
  intros Hi Hs. unfold fs_file_truncate.
  rewrite (bind_ret_l _ _ _ _ _ (the_inode_run _ _ _ Hi)).
  rewrite (proj2 (Z.eqb_neq _ _)) by lia. rewrite !ADDR_2_PAGEUP_ceil by lia.
  change ((0 + 4095) / 4096) with 0.
  rewrite (proj2 (Z.ltb_ge _ _)) by dlia. rewrite (proj2 (Z.ltb_lt _ _)) by dlia.
  unfold mbind, M_bind.
  destruct (shrink_loop fuel inode _ 0 s) as [[u s1]| | |] eqn:E; [|done..].
  exfalso. eapply shrink_to_zero_loops; [|exact E]. dlia.
Qed.

(** ** Witnesses: the one-page file of Sample.v *)
Lemma f0_inode : inode_at f0 1 file_inode0 4.
Proof.
  split; try (cbn; lia); try (vm_compute; discriminate); vm_compute; reflexivity.
Qed.

Lemma f0_blocks : blocks_ok f0 file_inode0 4 1.
Proof.
  split; try (cbn; lia); try reflexivity.
  - intros id Hid. assert (id = 0) as -> by lia. vm_compute. split; discriminate.
  - intros id Hid. assert (id = 0) as -> by lia. reflexivity.
Qed.

Lemma fs_file_read_correct_witness :
  exists m', fs_file_read 1 10 5000 100 f0 = Ret (0, set_fmem m' f0) /\
    m' 5042 = dev0 (5 * 4096 + 52).
Proof.
  destruct (fs_file_read_correct f0 1 file_inode0 4 1 10 5000 100 f0_inode f0_blocks
    ltac:(lia) ltac:(lia) ltac:(lia) ltac:(lia) ltac:(lia)) as (m' & E & H).
  exists m'. split; [exact E|]. rewrite H. reflexivity.
Defined.

Lemma fs_file_write_correct_witness :
  exists d', fs_file_write 1 10 5000 100 f0 = Ret (0, set_dev d' f0) /\
    d' 12288 = dev0 12288 /\ fbyte d' file_inode0 52 = fmem f0 5042.
Proof.
  destruct (fs_file_write_correct f0 1 file_inode0 4 1 10 5000 100 f0_inode f0_blocks
    ltac:(lia) ltac:(lia) ltac:(lia) ltac:(lia) ltac:(lia)) as (d' & E & H1 & H2 & _).
  exists d'. split; [exact E|]. split.
  - apply H2. intros q Hq Ha. unfold faddr in Ha.
    replace (q / 4096) with 0 in Ha by dlia. change (blk file_inode0 0) with 5 in Ha. dlia.
  - rewrite H1 by lia. reflexivity.
Defined.

Lemma fs_write_read_roundtrip_witness :
  exists s', (fs_file_write 1 10 5000 100;; fs_file_read 1 10 9000 100) f0 = Ret (0, s') /\
    fmem s' (9000 + 42) = fmem f0 (5000 + 42).
Proof.
  destruct (fs_write_read_roundtrip f0 1 file_inode0 4 1 10 5000 100 9000 f0_inode f0_blocks
    ltac:(lia) ltac:(lia) ltac:(lia) ltac:(lia) ltac:(lia) ltac:(lia) ltac:(lia)) as (s' & E & H).
  exists s'. split; [exact E|]. apply H. lia.
Defined.

Lemma file_inode0_wf : wf_inode file_inode0.
Proof.
  split; try (unfold file_inode0, REGULAR; cbn; lia); try reflexivity. intros k b Hk.
  cbn [direct file_inode0] in Hk.
  destruct k as [|k]; [change (Some 5 = Some b) in Hk; assert (b = 5) by congruence; lia|].
  apply (lookup_replicate_1 24 0) in Hk as [-> _]. lia.
Qed.

Lemma set_get_size_roundtrip_witness :
  exists s', (fs_file_set_size 1 777;; fs_file_get_size 1) f0 = Ret (777, s') /\ dev s' 8192 = 63.
Proof.
  destruct (set_get_size_roundtrip f0 1 file_inode0 4 777 f0_inode file_inode0_wf ltac:(lia) ltac:(reflexivity))
    as (s' & E & _ & H).
  exists s'. split; [exact E|]. rewrite H; [reflexivity|]. left. reflexivity.
Defined.

Lemma truncate_to_zero_never_returns_witness : fs_file_truncate 1000 1 0 f0 <> Ret (0, f0).
Proof.
  apply (truncate_to_zero_never_returns 1000 1 file_inode0 f0 (0, f0)).
  - exact (ia_get _ _ _ _ f0_inode).
  - cbn. lia.
Defined.

(** ** The device of the file system and the block cache *)
Section Refinement.
Context {W : Type} `{BlockDriver W}.

(** The file system's state [s] shows what the cache [cs] over the world [w]
    holds: the bytes of the device, the blocks that are cached, and the kernel
    memory that is not the cache's. *)
Record stands_for (s : F) (w : W) (cs : list Core) : Prop := {
  sf_bytes : forall a, dev s a = view cs w a;
  sf_cached : forall b, cached s b = cached_valid cs b;
  sf_mem : forall x, live w x -> ~ in_cache cs x -> fmem s x = w_mem w x;
}.

Lemma warm_range_of s (w : W) cs off n : stands_for s w cs -> 0 <= off -> 0 <= n -> off + n < 18446744073709551616 ->
  warm s off n = true -> warm_range cs off n.
Proof.
  intros R Ho Hn Hr Hw b Hb. unfold warm in Hw. rewrite ADDR_2_PAGE_div, ADDR_2_PAGEUP_ceil in Hw by lia.
  rewrite <- (sf_cached _ _ _ R). rewrite forallb_forall in Hw.
  specialize (Hw (Z.to_nat (b - off / 4096))). replace (off / 4096 + Z.of_nat _) with b in Hw by lia.
  apply Hw, in_seq. lia.
Qed.

Lemma blit_in {X} a b n (t f : X) :
  (if (b <=? a) && (a <? b + n) then t else f) = if decide (b <= a < b + n) then t else f.
Proof. zcases; case_decide; lia || done. Qed.

(** C15: the device accesses of the file system are those of the block cache.
    When the file system's state shows what the cache holds and every block of
    the range has a valid buffer, blk_read and blk_write return 0 as read_bytes
    and write_bytes do, and the states they leave show the same bytes, the same
    cached blocks and the same memory again; whole-block writes and a full cache
    included.  The cache needs no free slot, no page and no answer of the driver
    for it ([nq] may be 0). *)
Theorem blk_io_refines_cache nq s d (w : W) cs order off buf n (write : bool) :
  stands_for s w cs -> state_ok nq d w cs order -> 0 <= off -> 0 <= n -> off + n <= nblocks * 4096 ->
  user_buf w cs buf n -> warm s off n = true ->
  exists s' d' w' cs' order',
    (if write then blk_write else blk_read) off buf n s = Ret (0, s') /\
    (if write then BlockCache.write_bytes else BlockCache.read_bytes) off buf n (d, w) = Ret (0, (d', w')) /\
    state_ok nq d' w' cs' order' /\ stands_for s' w' cs'.
Proof.
  intros R Hs Ho Hn Hon Hbuf Hw. pose proof nblocks_range as Hnb.
  destruct (cached_bytes_exact nq d w cs order off buf n write Hs Ho Hn Hon Hbuf)
    as (d' & w' & cs' & o' & E & Hs' & Hf & Hv & Hm); [eapply warm_range_of; eauto; lia|].
  exists (if write then set_dev (blit (fmem s) buf (dev s) off n) s
          else set_fmem (blit (dev s) off (fmem s) buf n) s), d', w', cs', o'.
  split; [|split; [exact E|split; [exact Hs'|]]].
  - destruct write; unfold blk_write, blk_read, blk_range; rewrite (proj2 (Z.ltb_lt _ _)) by lia; unfold mbind, M_bind, gets.
    + by rewrite (store_bytes_warm _ _ _ _ Hw).
    + by rewrite (fetch_bytes_warm _ _ _ Hw).
  - destruct R as [R1 R2 R3], Hbuf as (Hb1 & Hb2 & Hb3), Hf as [F1 F2 F3]. split.
    + intros a. rewrite Hv. destruct write; cbn [dev set_dev set_fmem set_fa]; unfold blit.
      * rewrite (blit_in a off n). destruct (decide (off <= a < off + n)) as [Ea|Ea].
        { rewrite !decide_True by done. apply R3; apply Hb3; lia. }
        rewrite !decide_False by tauto. apply R1.
      * by rewrite decide_False by (by intros [? _]).
    + intros b. rewrite F3, <- R2. by destruct write.
    + intros x Hx%F1 Hn'. rewrite F2 in Hn'. rewrite Hm by done. destruct write.
      * rewrite decide_False by (by intros [? _]). by apply R3.
      * rewrite fmem_set. unfold blit. rewrite (blit_in x buf n). destruct (decide (buf <= x < buf + n)) as [Ea|Ea].
        { rewrite !decide_True by done. apply R1. }
        rewrite !decide_False by tauto. by apply R3.
Qed.

End Refinement.

(** The full cache of 64 blocks: a whole block is written. *)
Definition f64 : F :=
  mkF (set_amem (w_mem ram0) (fa f0)) (view full_cores ram0) 262144 rootfs0 ∅ [] [] 0 0 (cached_valid full_cores) cold0.

Lemma blk_io_refines_cache_witness :
  exists s' d' w' cs', blk_write (7 * 4096) 32 4096 f64 = Ret (0, s') /\
    BlockCache.write_bytes (7 * 4096) 32 4096 (full_dev, ram0) = Ret (0, (d', w')) /\
    stands_for s' w' cs'.
Proof.
  destruct (blk_io_refines_cache 0 f64 full_dev ram0 full_cores _ (7 * 4096) 32 4096 true
    (Build_stands_for f64 ram0 full_cores (fun _ => eq_refl) (fun _ => eq_refl) (fun _ _ _ => eq_refl)) (full_dev_ok 0))
    as (s' & d' & w' & cs' & o' & E & E' & _ & R).
  - lia.
  - lia.
  - by vm_compute.
  - apply ram0_user_buf; try lia. intros i c [Hi ->]%full_cores_lookup. cbn. lia.
  - vm_compute. reflexivity.
  - exists s', d', w', cs'. split; [exact E|]. split; [exact E'|exact R].
Defined.
