(* ===== verification/UserCopy.v ===== *)
(** * Copies between a process and the kernel

    translate_buffer of kernel/sysfile.c walks the pages of a user buffer and
    copies each part.  [ubyte] is the memory as the process sees it; the copies
    in and out are shown to be copies of that view, whatever pages the buffer
    spans and wherever they are in the kernel's memory. *)
From S2P Require Import Prelude Mem KernelPT PTBits Alloc AllocSpec UserPT UserPTProps SysFile.
Import KernelPT Alloc UserPT SysFile.

Section Copy.
Context (own : Z -> option utag) (base : Z).

(** The kernel address of the byte at the user address [x], and the byte. *)
Definition uaddr (m : mem) (x : Z) : Z := walkupt m base (x / 4096) * 4096 + x mod 4096.
Definition ubyte (m : mem) (x : Z) : Z := m (uaddr m x).

Lemma uaddr_page m v o : 0 <= o < 4096 -> uaddr m (v * 4096 + o) = walkupt m base v * 4096 + o.
Proof.
  intros Ho. unfold uaddr. replace ((v * 4096 + o) / 4096) with v by dlia.
  by replace ((v * 4096 + o) mod 4096) with o by dlia.
Qed.

(** Memories that agree on the pages of the tables. *)
Definition same_tables (m m' : mem) : Prop := forall x, own (x / 4096) <> None -> m' x = m x.

Lemma word_same m m' t x : same_tables m m' -> word_of own (Some t) x -> load64 m' x = load64 m x.
Proof.
  intros S [Ho Hx]. apply load_le_ext. intros y Hy. apply S.
  replace (y / 4096) with (x / 4096) by dlia. by rewrite Ho.
Qed.

Lemma tables_upper m m' : upt_wf own base m -> same_tables m m' -> same_upper base m m'.
Proof.
  intros W S. split.
  - intros i o Hi Ho. destruct (word_16 own base RBase i o (uw_base own base m W) Hi Ho) as [_ Hw].
    by eapply word_same.
  - intros i j o Hi Hj Ho Ht. destruct (uw_1 own base m W i Hi Ht) as [H1 _].
    destruct (word_16 own _ _ j o H1 Hj Ho) as [_ Hw]. by eapply word_same.
Qed.

Lemma tables_walk m m' v : upt_wf own base m -> same_tables m m' -> walkupt m' base v = walkupt m base v.
Proof.
  intros W S. pose proof (tables_upper m m' W S) as U. pose proof (upper_wf own base m m' W U) as W'.
  destruct (upper_present own base m m' v W U) as [P R].
  destruct (decide (table1 base m (VPN 2 v) <> 0 /\ table0 base m (VPN 2 v) (VPN 1 v) <> 0)) as [Hp|Hp].
  - destruct (R Hp) as [Er _]. rewrite (walkupt_present own base m' v W' (proj2 P Hp)), Er.
    rewrite (walkupt_present own base m v W Hp). eapply word_same; [done|]. by apply words_of_page.
  - rewrite !walkupt_absent; [done|done|]. intros H. by apply Hp, P.
Qed.

(** One chunk, as a run. *)
Lemma copy_chunk_run kb k off n (w : bool) a :
  0 < k < 4503599627370496 -> 0 <= off -> 0 <= n -> off + n <= 4096 -> 0 <= kb -> kb + n < 18446744073709551616 ->
  (n = 0 \/ kb + n <= k * 4096 + off \/ k * 4096 + off + n <= kb) ->
  exists a', copy_chunk kb k off n w a = Ret (tt, a') /\ a' = set_amem (amem a') a /\
    (forall x, amem a' x =
       if w then (if decide (kb <= x < kb + n) then amem a (k * 4096 + off + (x - kb)) else amem a x)
       else (if decide (k * 4096 + off <= x < k * 4096 + off + n) then amem a (kb + (x - (k * 4096 + off))) else amem a x)).
Proof.
  intros Hk Ho Hn Hon Hkb Hkb' Hdis. unfold copy_chunk. destruct (Z.eqb_spec n 0) as [->|Hn0].
  { exists a. split; [done|]. split; [by destruct a as [[]]|]. intros x. destruct w; by rewrite decide_False by lia. }
  destruct (Z.eqb_spec k 0); [lia|]. unfold ADDR, PAGESIZE. rewrite u64_small by lia.
  eexists. split; [reflexivity|]. split; [done|]. intros x. cbn.
  destruct w; rewrite memcpy_spec by lia; gdecide; zcases; done.
Qed.

(** ** From the process to the kernel *)
Section In.
Context (m0 : mem) (lo hi : Z).
Hypothesis W : upt_wf own base m0.
Hypothesis Hlo : 0 <= lo.
Hypothesis Hhi : hi < 18446744073709551616.
(** The kernel buffer [lo, hi) is in no table and in none of the user pages. *)
Hypothesis Hbuf : forall x, lo <= x < hi -> own (x / 4096) = None.

Definition page_in (v : Z) : Prop :=
  0 < walkupt m0 base v < 4503599627370496 /\
  (walkupt m0 base v * 4096 + 4096 <= lo \/ hi <= walkupt m0 base v * 4096).

Definition outside_same (m : mem) : Prop := forall x, ~ (lo <= x < hi) -> m x = m0 x.

Lemma outside_tables m : outside_same m -> same_tables m0 m.
Proof using Hbuf. intros Hm x Hx. apply Hm. intros Hin. by apply Hx, Hbuf. Qed.

Lemma copy_in_loop n : forall kb v off mx a,
  outside_same (amem a) -> Z.of_nat n = (mx + 4095) / 4096 -> 0 <= off <= mx -> off < 4096 ->
  mx < 9223372036854775808 -> (forall w, v <= w < v + Z.of_nat n -> page_in w) ->
  lo <= kb -> kb + (mx - off) <= hi -> 0 <= v ->
  exists a', translate_buffer_loop n base kb v off mx true a = Ret (tt, a') /\ a' = set_amem (amem a') a /\
    forall x, amem a' x = if decide (kb <= x < kb + (mx - off)) then ubyte m0 (v * 4096 + off + (x - kb)) else amem a x.
Proof using W Hlo Hhi Hbuf.
  induction n as [|n IH]; intros kb v off mx a Hm Hn Ho Ho' Hmx Hp Hkb Hkb' Hv; cbn [translate_buffer_loop].
  { exists a. split; [done|]. split; [by destruct a as [[]]|]. intros x. rewrite decide_False; [done|]. dlia. }
  rewrite (bind_ret_l (gets amem) _ a (amem a) a eq_refl).
  rewrite (tables_walk m0 (amem a) v W (outside_tables _ Hm)).
  destruct (Hp v ltac:(lia)) as [Hk Hd]. set (k := walkupt m0 base v) in *.
  set (tp := if PAGESIZE <? mx then PAGESIZE else mx).
  assert (tp = Z.min 4096 mx) as Htp by (unfold tp, PAGESIZE; destruct (Z.ltb_spec 4096 mx); lia).
  rewrite (u64_small (tp - off)) by lia.
  destruct (copy_chunk_run kb k off (tp - off) true a) as (a1 & E1 & A1 & M1); [lia..|].
  rewrite (bind_ret_l _ _ _ _ _ E1).
  assert (forall x, kb <= x < kb + (tp - off) -> amem a1 x = ubyte m0 (v * 4096 + off + (x - kb))) as Hfirst.
  { intros x Hx. rewrite M1, decide_True by lia. unfold ubyte, uaddr.
    replace ((v * 4096 + off + (x - kb)) / 4096) with v by dlia. fold k. rewrite Hm by lia. f_equal. dlia. }
  assert (forall x, ~ (kb <= x < kb + (tp - off)) -> amem a1 x = amem a x) as Hrest.
  { intros x Hx. by rewrite M1, decide_False. }
  assert (outside_same (amem a1)) as Hm1 by (intros x Hx; rewrite Hrest by lia; by apply Hm).
  rewrite (u64_small (kb + tp - off)) by lia. unfold PAGESIZE.
  destruct (Z.ltb_spec 4096 mx) as [Hlt|Hge].
  - rewrite u64_small by lia.
    destruct (IH (kb + tp - off) (v + 1) 0 (mx - 4096) a1 Hm1) as (a2 & E2 & A2 & M2);
      [dlia|lia|lia|lia|intros w Hw; apply Hp; lia|lia|lia|lia|].
    exists a2. split; [done|]. split; [by rewrite A2, A1|]. intros x. rewrite M2.
    replace ((v + 1) * 4096 + 0 + (x - (kb + tp - off))) with (v * 4096 + off + (x - kb)) by lia.
    destruct (decide (kb + tp - off <= x < _)); [by rewrite decide_True by lia|].
    destruct (decide (kb <= x < kb + (tp - off))); [rewrite decide_True by lia; by apply Hfirst|].
    rewrite decide_False by lia. by apply Hrest.
  - assert (n = 0%nat) as -> by dlia. exists a1. split; [done|]. split; [done|]. intros x.
    destruct (decide (kb <= x < kb + (mx - off))); [apply Hfirst; lia|apply Hrest; lia].
Qed.
(** ** Strings

    The loop of translate_2_pages on a string of the process: [off] is the
    offset in the page [v], 4096 when the page is used up. *)
Definition string_page (w : Z) : Prop := page_in w /\ walkupt m0 base w < 4503599627370495.

Lemma copy_string_loop n : forall len kb v off cnt a,
  outside_same (amem a) -> 0 <= off <= 4096 -> 0 <= v -> 0 <= len ->
  (forall w, v <= w <= v + (off + len) / 4096 -> string_page w) ->
  (forall i, 0 <= i < len -> ubyte m0 (v * 4096 + off + i) <> 0) -> ubyte m0 (v * 4096 + off + len) = 0 ->
  lo <= kb -> kb + len < hi -> 2 * len + (if decide (off = 4096) then 2 else 1) <= Z.of_nat n ->
  exists a', translate_2_loop n base kb v (walkupt m0 base v * 4096 + off) ((walkupt m0 base v + 1) * 4096)
      0 cnt 1 a = Ret (tt, a') /\ a' = set_amem (amem a') a /\
    forall x, amem a' x = if decide (kb <= x <= kb + len) then ubyte m0 (v * 4096 + off + (x - kb)) else amem a x.
Proof using W Hlo Hhi Hbuf.
  induction n as [|n IH]; intros len kb v off cnt a Hm Ho Hv Hl Hp Hne Hz Hkb Hkb' Hn; [case_decide; lia|].
  cbn [translate_2_loop]. rewrite (bind_ret_l (gets amem) _ a (amem a) a eq_refl).
  destruct (Hp v ltac:(split; [lia|dlia])) as [[Hk Hd] Hk']. set (k := walkupt m0 base v) in *.
  destruct (Z.eqb_spec (k * 4096 + off) ((k + 1) * 4096)) as [E|E].
  - assert (off = 4096) as -> by lia. rewrite decide_True in Hn by done.
    rewrite (tables_walk m0 (amem a) (v + 1) W (outside_tables _ Hm)).
    destruct (Hp (v + 1) ltac:(split; [lia|dlia])) as [[Hk1 _] Hk1'].
    rewrite !PAGE_2_ADDR_small by lia.
    destruct (IH len kb (v + 1) 0 cnt a) as (a' & E' & Ha & Hx); try done; try lia.
    + intros w Hw. apply Hp. dlia.
    + intros i Hi. replace ((v + 1) * 4096 + 0 + i) with (v * 4096 + 4096 + i) by lia. by apply Hne.
    + by replace ((v + 1) * 4096 + 0 + len) with (v * 4096 + 4096 + len) by lia.
    + rewrite decide_False by lia. lia.
    + rewrite Z.add_0_r in E'. exists a'. split; [done|]. split; [done|]. intros x. rewrite Hx.
      by replace ((v + 1) * 4096 + 0 + (x - kb)) with (v * 4096 + 4096 + (x - kb)) by lia.
  - assert (0 <= off < 4096) as Ho' by lia. destruct (Z.ltb_spec (k * 4096 + off) PAGESIZE); [unfold PAGESIZE in *; lia|].
    assert (amem a (k * 4096 + off) = ubyte m0 (v * 4096 + off)) as Ec.
    { rewrite Hm by lia. unfold ubyte. by rewrite uaddr_page. }
    rewrite Ec. set (c := ubyte m0 (v * 4096 + off)) in *.
    set (a1 := set_amem (upd (amem a) kb c) a). rewrite (bind_ret_l _ _ a tt a1) by done.
    rewrite Z.mod_1_r. cbn [Z.eqb orb]. rewrite andb_true_r.
    destruct (decide (len = 0)) as [->|Hlen].
    + rewrite Z.add_0_r in Hz. fold c in Hz. rewrite Hz. cbn. exists a1. split; [done|]. split; [done|].
      intros x. unfold a1. cbn. unfold upd. destruct (Z.eqb_spec x kb) as [->|].
      * rewrite decide_True by lia. rewrite Z.sub_diag, Z.add_0_r. by fold c.
      * by rewrite decide_False by lia.
    + assert (c <> 0) as Hc by (specialize (Hne 0 ltac:(lia)); by rewrite Z.add_0_r in Hne).
      destruct (Z.eqb_spec c 0); [done|]. cbn [Z.eqb].
      rewrite (u64_small (kb + 1)), (u64_small (k * 4096 + off + 1)) by lia.
      destruct (IH (len - 1) (kb + 1) v (off + 1) (cnt + 1) a1) as (a' & E' & Ha & Hx); try lia.
      * intros x Hx. unfold a1. cbn. rewrite upd_ne by lia. by apply Hm.
      * intros w Hw. apply Hp. dlia.
      * intros i Hi. replace (v * 4096 + (off + 1) + i) with (v * 4096 + off + (i + 1)) by lia. apply Hne. lia.
      * by replace (v * 4096 + (off + 1) + (len - 1)) with (v * 4096 + off + len) by lia.
      * case_decide; case_decide; lia.
      * fold k in E'. exists a'. split; [by rewrite <- Z.add_assoc, E'|].
        split; [by rewrite Ha|]. intros x. rewrite Hx. unfold a1. cbn. unfold upd.
        replace (v * 4096 + (off + 1) + (x - (kb + 1))) with (v * 4096 + off + (x - kb)) by lia.
        destruct (Z.eqb_spec x kb) as [->|].
        -- rewrite decide_False, decide_True by lia. rewrite Z.sub_diag, Z.add_0_r. by fold c.
        -- gdecide; done || lia.
Qed.
End In.

(** ** From the kernel to the process *)
Section Out.
Context (m0 : mem).
Hypothesis W : upt_wf own base m0.
(** User pages are no tables, and no two share a kernel page. *)
Definition user_pages (m : mem) (v n : Z) : Prop :=
  (forall w, v <= w < v + n -> 0 < walkupt m base w < 4503599627370496 /\ own (walkupt m base w) = None) /\
  (forall w w', v <= w < v + n -> v <= w' < v + n -> walkupt m base w = walkupt m base w' -> w = w').

(** A kernel buffer in none of them. *)
Definition buffer_apart (m : mem) (v n kb len : Z) : Prop :=
  forall w, v <= w < v + n -> walkupt m base w * 4096 + 4096 <= kb \/ kb + len <= walkupt m base w * 4096.

(** What the loop leaves, from [v]'s offset [off] to the end [mx] of the buffer. *)
Definition copied_out (m m' : mem) (kb v off mx : Z) : Prop :=
  (forall i, 0 <= i < mx - off -> m' (uaddr m0 (v * 4096 + off + i)) = m (kb + i)) /\
  (forall x, (forall i, 0 <= i < mx - off -> x <> uaddr m0 (v * 4096 + off + i)) -> m' x = m x).

Lemma copy_out_loop n : forall kb v off mx a,
  same_tables m0 (amem a) -> Z.of_nat n = (mx + 4095) / 4096 -> 0 <= off <= mx -> off < 4096 ->
  mx < 9223372036854775808 -> user_pages m0 v (Z.of_nat n) -> buffer_apart m0 v (Z.of_nat n) kb (mx - off) ->
  0 <= kb -> kb + (mx - off) < 18446744073709551616 -> 0 <= v ->
  exists a', translate_buffer_loop n base kb v off mx false a = Ret (tt, a') /\ a' = set_amem (amem a') a /\
    copied_out (amem a) (amem a') kb v off mx.
Proof using W.
  induction n as [|n IH]; intros kb v off mx a Hm Hn Ho Ho' Hmx [Hp Hinj] Hd Hkb Hkb' Hv; cbn [translate_buffer_loop].
  { exists a. split; [done|]. split; [by destruct a as [[]]|]. split; [intros i Hi; dlia|done]. }
  rewrite (bind_ret_l (gets amem) _ a (amem a) a eq_refl), (tables_walk m0 (amem a) v W Hm).
  destruct (Hp v ltac:(lia)) as [Hk Hown]. specialize (Hd v ltac:(lia)) as Hdv. set (k := walkupt m0 base v) in *.
  set (tp := if PAGESIZE <? mx then PAGESIZE else mx).
  assert (tp = Z.min 4096 mx) as Htp by (unfold tp, PAGESIZE; destruct (Z.ltb_spec 4096 mx); lia).
  rewrite (u64_small (tp - off)) by lia.
  destruct (copy_chunk_run kb k off (tp - off) false a) as (a1 & E1 & A1 & M1); [lia..|].
  rewrite (bind_ret_l _ _ _ _ _ E1).
  assert (forall i, 0 <= i < tp - off -> uaddr m0 (v * 4096 + off + i) = k * 4096 + off + i) as Haddr.
  { intros i Hi. replace (v * 4096 + off + i) with (v * 4096 + (off + i)) by lia. rewrite uaddr_page by lia. fold k. lia. }
  assert (forall x, ~ (k * 4096 + off <= x < k * 4096 + tp) -> amem a1 x = amem a x) as Hrest.
  { intros x Hx. rewrite M1, decide_False; [done|lia]. }
  assert (forall i, 0 <= i < tp - off -> amem a1 (k * 4096 + off + i) = amem a (kb + i)) as Hfirst.
  { intros i Hi. rewrite M1, decide_True by lia. f_equal. lia. }
  assert (same_tables m0 (amem a1)) as Hm1.
  { intros x Hx. rewrite Hrest; [by apply Hm|]. intros Hin. apply Hx. by replace (x / 4096) with k by dlia. }
  rewrite (u64_small (kb + tp - off)) by lia. unfold PAGESIZE.
  destruct (Z.ltb_spec 4096 mx) as [Hlt|Hge].
  - rewrite u64_small by lia.
    destruct (IH (kb + tp - off) (v + 1) 0 (mx - 4096) a1 Hm1) as (a2 & E2 & A2 & C1 & C2);
      [dlia|lia|lia|lia|split; intros; [apply Hp|apply Hinj]; (lia || done)|intros w Hw; specialize (Hd w ltac:(lia)); lia|lia|lia|lia|].
    exists a2. split; [done|]. split; [by rewrite A2, A1|].
    assert (forall j, 0 <= j < mx - 4096 - 0 -> exists w o, v < w < v + Z.of_nat (S n) /\ 0 <= o < 4096 /\
      uaddr m0 ((v + 1) * 4096 + 0 + j) = walkupt m0 base w * 4096 + o) as Hlater.
    { intros j Hj. exists (v + 1 + j / 4096), (j mod 4096). split; [dlia|]. split; [dlia|].
      rewrite <- uaddr_page by dlia. f_equal. dlia. }
    split.
    + intros i Hi. destruct (decide (i < tp - off)) as [Hi'|Hi'].
      * rewrite Haddr by lia. rewrite C2; [apply Hfirst; lia|]. intros j Hj.
        destruct (Hlater j Hj) as (w & o & Hw & Hoo & ->). intros Heq.
        assert (k = walkupt m0 base w) as Hkw by lia. pose proof (Hinj v w ltac:(lia) ltac:(lia) Hkw). lia.
      * replace (v * 4096 + off + i) with ((v + 1) * 4096 + 0 + (i - (tp - off))) by lia.
        rewrite C1 by lia. rewrite Hrest; [f_equal; lia|]. lia.
    + intros x Hx. rewrite C2, Hrest; [done|..].
      * intros Hin. apply (Hx (x - k * 4096 - off)); [lia|]. rewrite Haddr; lia.
      * intros j Hj. replace ((v + 1) * 4096 + 0 + j) with (v * 4096 + off + (j + (tp - off))) by lia. apply Hx. lia.
  - assert (n = 0%nat) as -> by dlia. exists a1. split; [done|]. split; [done|]. split.
    + intros i Hi. rewrite Haddr by lia. apply Hfirst. lia.
    + intros x Hx. apply Hrest. intros Hin. apply (Hx (x - k * 4096 - off)); [lia|]. rewrite Haddr; lia.
Qed.
End Out.

(** The pages of a user buffer. *)
Definition npages (ub size : Z) : Z := (ub mod 4096 + size + 4095) / 4096.

Lemma translate_buffer_pages kb ub size w a :
  0 <= ub -> 0 <= size -> ub + size < 9223372036854775808 ->
  translate_buffer base kb ub size w a =
  translate_buffer_loop (Z.to_nat (npages ub size)) base kb (ub / 4096) (ub mod 4096) (ub mod 4096 + size) w a.
Proof.
  intros Hu Hs Hr. unfold translate_buffer, npages. rewrite OFFSET_mod, ADDR_2_PAGE_div, ADDR_2_PAGEUP_ceil by lia.
  rewrite (u64_small ub), !u64_small by dlia. by replace ((ub + size + 4095) / 4096 - ub / 4096) with ((ub mod 4096 + size + 4095) / 4096) by dlia.
Qed.
End Copy.

(** A copy from the process to the kernel fills the kernel buffer with the
    bytes that the process sees in its buffer, and changes nothing else. *)
Lemma copy_in_ok own base kb ub size a :
  upt_wf own base (amem a) -> 0 <= ub -> 0 <= size -> ub + size < 9223372036854775808 ->
  0 <= kb -> kb + size < 18446744073709551616 ->
  (forall x, kb <= x < kb + size -> own (x / 4096) = None) ->
  (forall w, ub / 4096 <= w < ub / 4096 + npages ub size -> page_in base (amem a) kb (kb + size) w) ->
  exists a', translate_buffer base kb ub size true a = Ret (tt, a') /\ a' = set_amem (amem a') a /\
    forall x, amem a' x = if decide (kb <= x < kb + size) then ubyte base (amem a) (ub + (x - kb)) else amem a x.
Proof.
  intros W Hu Hs Hr Hk Hk' Hb Hp. rewrite translate_buffer_pages by done.
  destruct (copy_in_loop own base (amem a) kb (kb + size) W Hk Hk' Hb (Z.to_nat (npages ub size)) kb (ub / 4096)
    (ub mod 4096) (ub mod 4096 + size) a) as (a' & E & Ha & Hm); rewrite ?Z2Nat.id by (unfold npages; dlia);
    try done; try dlia.
  exists a'. split; [done|]. split; [done|]. intros x. rewrite Hm.
  replace (ub mod 4096 + size - ub mod 4096) with size by lia.
  by replace (ub / 4096 * 4096 + ub mod 4096 + (x - kb)) with (ub + (x - kb)) by dlia.
Qed.

Lemma copy_string_ok own base fuel kb ub len hi a :
  upt_wf own base (amem a) -> 0 <= ub -> 0 <= len -> ub + len < 9223372036854775808 ->
  0 <= kb -> kb + len < hi -> hi < 18446744073709551616 ->
  (forall x, kb <= x < hi -> own (x / 4096) = None) ->
  (forall w, ub / 4096 <= w <= (ub + len) / 4096 -> string_page base (amem a) kb hi w) ->
  (forall i, 0 <= i < len -> ubyte base (amem a) (ub + i) <> 0) -> ubyte base (amem a) (ub + len) = 0 ->
  2 * len + 1 <= Z.of_nat fuel ->
  exists a', translate_2_pages fuel base kb ub 1 a = Ret (tt, a') /\ a' = set_amem (amem a') a /\
    forall x, amem a' x = if decide (kb <= x <= kb + len) then ubyte base (amem a) (ub + (x - kb)) else amem a x.
Proof.
  intros W Hu Hl Hr Hk Hk' Hh Hb Hp Hne Hz Hf. unfold translate_2_pages.
  rewrite (bind_ret_l (gets amem) _ a (amem a) a eq_refl).
  destruct (Hp (ub / 4096) ltac:(dlia)) as [[Hk0 _] Hk1]. rewrite OFFSET_mod, ADDR_2_PAGE_div, (u64_small ub) by lia.
  unfold ADDR, PAGESIZE. rewrite u64_small by dlia. rewrite PAGE_2_ADDR_small by lia.
  assert (forall i, ub / 4096 * 4096 + ub mod 4096 + i = ub + i) as Eub by (intros; dlia).
  destruct (copy_string_loop own base (amem a) kb hi W Hk Hh Hb fuel len kb (ub / 4096) (ub mod 4096) 0 a)
    as (a' & E & Ha & Hx); try done; try dlia.
  - intros w Hw. apply Hp. dlia.
  - intros i Hi. rewrite Eub. by apply Hne.
  - by rewrite Eub.
  - rewrite decide_False by dlia. lia.
  - exists a'. split; [done|]. split; [done|]. intros x. by rewrite Hx, Eub.
Qed.

(** C28: translate_2_pages copies a string of the process: on a string of any
    length, on however many pages, it ends, leaves in the kernel buffer the
    characters up to and with the terminator, and changes nothing else. *)
Theorem copy_string_correct own base fuel kb ub len hi a :
  upt_wf own base (amem a) -> 0 <= ub -> 0 <= len -> ub + len < 9223372036854775808 ->
  0 <= kb -> kb + len < hi -> hi < 18446744073709551616 ->
  (forall x, kb <= x < hi -> own (x / 4096) = None) ->
  (forall w, ub / 4096 <= w <= (ub + len) / 4096 -> string_page base (amem a) kb hi w) ->
  (forall i, 0 <= i < len -> ubyte base (amem a) (ub + i) <> 0) -> ubyte base (amem a) (ub + len) = 0 ->
  2 * len + 1 <= Z.of_nat fuel ->
  exists a', translate_2_pages fuel base kb ub 1 a = Ret (tt, a') /\ a' = set_amem (amem a') a /\
    forall x, amem a' x = if decide (kb <= x <= kb + len) then ubyte base (amem a) (ub + (x - kb)) else amem a x.
Proof. apply copy_string_ok. Qed.

(** A copy from the kernel to the process leaves in the process's buffer, as the
    process sees it, the bytes of the kernel buffer; every other byte, and every
    translation, is unchanged. *)
Lemma copy_out_ok own base kb ub size a :
  upt_wf own base (amem a) -> 0 <= ub -> 0 <= size -> ub + size < 9223372036854775808 ->
  0 <= kb -> kb + size < 18446744073709551616 ->
  user_pages own base (amem a) (ub / 4096) (npages ub size) ->
  buffer_apart base (amem a) (ub / 4096) (npages ub size) kb size ->
  exists a', translate_buffer base kb ub size false a = Ret (tt, a') /\ a' = set_amem (amem a') a /\
    upt_wf own base (amem a') /\ (forall v, walkupt (amem a') base v = walkupt (amem a) base v) /\
    (forall i, 0 <= i < size -> ubyte base (amem a') (ub + i) = amem a (kb + i)) /\
    (forall x, (forall i, 0 <= i < size -> x <> uaddr base (amem a) (ub + i)) -> amem a' x = amem a x).
Proof.
  intros W Hu Hs Hr Hk Hk' Hp Hd. rewrite translate_buffer_pages by done.
  destruct (copy_out_loop own base (amem a) W (Z.to_nat (npages ub size)) kb (ub / 4096)
    (ub mod 4096) (ub mod 4096 + size) a) as (a' & E & Ha & C1 & C2); rewrite ?Z2Nat.id by (unfold npages; dlia);
    rewrite ?Z.add_simpl_l; try done; try dlia.
  assert (forall i, ub / 4096 * 4096 + ub mod 4096 + i = ub + i) as Eub by (intros; dlia).
  rewrite Z.add_simpl_l in C1, C2. setoid_rewrite Eub in C1. setoid_rewrite Eub in C2.
  assert (same_tables own (amem a) (amem a')) as St.
  { intros x Hx. apply C2. intros i Hi ->. apply Hx. unfold uaddr.
    replace ((_ * 4096 + (ub + i) mod 4096) / 4096) with (walkupt (amem a) base ((ub + i) / 4096)) by dlia.
    apply Hp. unfold npages. dlia. }
  exists a'. split; [done|]. split; [done|]. split; [eapply upper_wf; [exact W|by eapply tables_upper]|].
  split; [intros v; by eapply tables_walk|]. split; [|done].
  intros i Hi. unfold ubyte, uaddr. rewrite (tables_walk own base (amem a) (amem a')) by done. by apply C1.
Qed.

(** ** The properties at a concrete process: user pages 1 and 2 at the kernel
    pages 1536 and 1700, a kernel buffer at page 2000 *)
Definition upt2_mem : mem := store64 upt_mem 5242896 1700.
Definition upt2_state : A :=
  mkA (mkK upt2_mem (fun _ _ => 0) (fun _ => None) 0 0 0 0) 0 0 PTBRK0 KBRK0.

Lemma upt2_wf : upt_wf upt_own 1048576 upt2_mem.
Proof.
  eapply upper_wf; [exact upt_mem_wf|]. by apply (store_upper upt_own 1048576 upt_mem 5242896 1700 (Some (R0 0 0)) upt_mem_wf).
Qed.

Lemma upt2_pages w : 1 <= w < 3 -> w = 1 \/ w = 2.
Proof. lia. Qed.

(** The string "ab" across the pages 1 and 2. *)
Definition upt3_mem : mem := upd (upd upt2_mem (1536 * 4096 + 4095) 97) (1700 * 4096) 98.
Definition upt3_state : A :=
  mkA (mkK upt3_mem (fun _ _ => 0) (fun _ => None) 0 0 0 0) 0 0 PTBRK0 KBRK0.

Lemma copy_string_correct_witness :
  exists a', translate_2_pages 10 1048576 8192000 8191 1 upt3_state = Ret (tt, a') /\
    amem a' 8192000 = 97 /\ amem a' 8192001 = 98 /\ amem a' 8192002 = 0.
Proof.
  destruct (copy_string_correct upt_own 1048576 10 8192000 8191 2 8192100 upt3_state) as (a' & E & _ & Hm); try lia.
  - eapply upper_wf; [exact upt2_wf|]. eapply tables_upper; [exact upt2_wf|]. intros x Hx. change (amem upt3_state) with upt3_mem. unfold upt3_mem.
    rewrite !upd_ne; [done|..]; intros ->; by apply Hx.
  - intros x Hx. assert (x / 4096 = 2000) as -> by dlia. reflexivity.
  - intros w Hw. change (8191 / 4096) with 1 in Hw. change ((8191 + 2) / 4096) with 2 in Hw.
    assert (w = 1 \/ w = 2) as [->| ->] by lia; (split; [split; [vm_compute; done|left; vm_compute; discriminate]|by vm_compute]).
  - intros i Hi. assert (i = 0 \/ i = 1) as [->| ->] by lia; vm_compute; discriminate.
  - reflexivity.
  - exists a'. split; [exact E|]. rewrite !Hm. repeat split; vm_compute; reflexivity.
Defined.
