(* ===== verification/SysIoSpec.v ===== *)
(** * A system call's buffer

    sys_read and sys_write borrow a kernel buffer with kalloc, move bytes
    between it and the process with translate_buffer, and give it back with
    kfree.  The lemmas here follow the memory through these steps: the tables
    and the pages of the process stay what they are, and the heap ends with the
    free pages it began with. *)
From S2P Require Import Prelude Mem World KernelPT PTBits KernelPTSpec KernelPTRec KernelPTProps PTInit Alloc AllocList AllocSpec DmaHeapSpec DmaHeap.
From S2P Require Import KHeapSpec UserPT UserPTProps UserCopy.
Import KernelPT Alloc UserPT.

(** User pages have 27-bit numbers. *)
Definition UVPN_END : Z := 134217728.

(** The address space of a process next to the two heaps: its tables are not
    free pages of the kernel heap, its pages are DMA pages in use, no two of
    them the same. *)
Record space_ok (own : Z -> option node) (l kl : list run) (uown : Z -> option utag) (base : Z) (a : A) : Prop := {
  so_heap : kheap_inv own a l kl;
  so_upt : upt_wf uown base (amem a);
  so_tables : forall w, uown w <> None -> ~ kheap_free a kl w;
  so_dma : forall w, uown w <> None -> w ∉ pages_of l;
  so_page : forall v, 0 <= v < UVPN_END -> walkupt (amem a) base v <> 0 ->
    0 < walkupt (amem a) base v < DMA_END /\ uown (walkupt (amem a) base v) = None /\
    walkupt (amem a) base v ∉ pages_of l;
  so_inj : forall v w, 0 <= v < UVPN_END -> 0 <= w < UVPN_END -> walkupt (amem a) base v <> 0 ->
    walkupt (amem a) base v = walkupt (amem a) base w -> v = w;
}.

(** Writes to pages that are on neither list keep both heaps. *)
Lemma kheap_inv_write own a l kl m :
  kheap_inv own a l kl -> (forall x, x / 4096 ∈ pages_of l \/ x / 4096 ∈ pages_of kl -> m x = amem a x) ->
  kheap_inv own (set_amem m a) l kl.
Proof.
  intros [[D1 D2 D3 D4 D5 D6 D7] H2 H3 H4 H5 H6 H7] Hm. split; try done.
  - split; try done. eapply flseg_ext; [|exact D2]. intros r x Hin Hx. cbn. apply Hm. left. apply elem_of_pages.
    exists r. split; [done|]. eapply Forall_forall in D3 as (? & ? & ?); [|exact Hin]. unfold header, r_addr in Hx. dlia.
  - eapply flseg_ext; [|exact H2]. intros r x Hin Hx. cbn. apply Hm. right. apply elem_of_pages.
    exists r. split; [done|]. eapply Forall_forall in H3 as (? & ? & ?); [|exact Hin]. unfold header, r_addr in Hx. dlia.
Qed.

(** The state [a1] after a buffer of [n] pages was taken at the page [v]. *)
Record borrowed (own1 : Z -> option node) (l kl kl1 : list run) (uown : Z -> option utag) (base : Z)
    (a a1 : A) (v n : Z) : Prop := {
  bw_inv : kheap_inv own1 a1 l kl1;
  bw_tables : same_tables uown (amem a) (amem a1);
  bw_user : forall x, x / 4096 < KH_BASE -> amem a1 x = amem a x;
  bw_range : KH_BASE <= v /\ v + n <= kbrk_page a1;
  bw_free : forall w, kheap_free a1 kl1 w <-> kheap_free a kl w /\ ~ (v <= w < v + n);
  bw_was : forall w, v <= w < v + n -> kheap_free a kl w;
  bw_grew : grew a a1 n;
  bw_mem : forall x, ~ kheap_free a kl (x / 4096) -> amem a1 x = amem a x;
}.

Section Borrow.
Context (own : Z -> option node) (l kl : list run) (uown : Z -> option utag) (base : Z) (a : A) (size : Z).
Hypothesis So : space_ok own l kl uown base a.
Hypothesis Hsize : 1 <= size < 1073741824.
Hypothesis Hroom : kheap_room a (ADDR_2_PAGEUP size).

Lemma borrow_ok : exists own1 a1 kl1 v, kalloc true size a = Ret (v * 4096, a1) /\
  borrowed own1 l kl kl1 uown base a a1 v (ADDR_2_PAGEUP size).
Proof using All.
  destruct (kalloc_ok own a l kl size (so_heap _ _ _ _ _ _ So) Hsize Hroom)
    as (own1 & a1 & kl1 & v & E & [P1 P2 P3 P4 P5 P6 P7 P8 P9]).
  exists own1, a1, kl1, v. split; [done|]. split; try done.
  - intros x Hx. apply P6. by apply (so_tables _ _ _ _ _ _ So).
  - intros x Hx. apply P6. intros [Hin|Hin]; [|pose proof (kh_brk _ _ _ _ (so_heap _ _ _ _ _ _ So)); lia].
    pose proof (kheap_list_range _ _ _ _ _ (so_heap _ _ _ _ _ _ So) Hin). lia.
Qed.

Context (own1 : Z -> option node) (kl1 : list run) (a1 : A) (v : Z).
Hypothesis B : borrowed own1 l kl kl1 uown base a a1 v (ADDR_2_PAGEUP size).

Lemma borrowed_walk w : walkupt (amem a1) base w = walkupt (amem a) base w.
Proof using All. eapply tables_walk; [apply So|apply B]. Qed.

Lemma borrowed_wf : upt_wf uown base (amem a1).
Proof using All. eapply upper_wf; [apply So|]. eapply tables_upper; [apply So|apply B]. Qed.

Lemma borrowed_uaddr x : uaddr base (amem a1) x = uaddr base (amem a) x.
Proof using All. unfold uaddr. by rewrite borrowed_walk. Qed.

(** User pages below the heap. *)
Lemma page_low w : 0 <= w < UVPN_END -> walkupt (amem a) base w <> 0 -> walkupt (amem a) base w < KH_BASE.
Proof using So. intros Hw Hn. destruct (so_page _ _ _ _ _ _ So w Hw Hn) as ((_ & H) & _). unfold DMA_END, KH_BASE in *. lia. Qed.

Lemma borrowed_ubyte x : 0 <= x / 4096 < UVPN_END -> walkupt (amem a) base (x / 4096) <> 0 ->
  ubyte base (amem a1) x = ubyte base (amem a) x.
Proof using All.
  intros Hx Hn. unfold ubyte. rewrite borrowed_uaddr. apply (bw_user _ _ _ _ _ _ _ _ _ _ B). unfold uaddr.
  pose proof (page_low (x / 4096) Hx Hn). dlia.
Qed.

Lemma size_pages : size <= ADDR_2_PAGEUP size * 4096 /\ 1 <= ADDR_2_PAGEUP size < 1073741824.
Proof using Hsize. rewrite ADDR_2_PAGEUP_ceil by lia. dlia. Qed.

(** Pages of the buffer are in no table and on no list. *)
Lemma buffer_page w : v <= w < v + ADDR_2_PAGEUP size -> uown w = None /\ (w ∉ pages_of l) /\ (w ∉ pages_of kl1).
Proof using All.
  intros Hw. split; [|split].
  - destruct (uown w) eqn:E; [|done]. exfalso.
    apply (so_tables _ _ _ _ _ _ So w); [by rewrite E|]. by apply (bw_was _ _ _ _ _ _ _ _ _ _ B).
  - intros Hin. pose proof (dma_free_range _ _ _ _ (kh_dma _ _ _ _ (so_heap _ _ _ _ _ _ So)) Hin) as Hr.
    pose proof (bw_range _ _ _ _ _ _ _ _ _ _ B). pose proof (dm_brk _ _ _ (kh_dma _ _ _ _ (so_heap _ _ _ _ _ _ So))).
    unfold KH_BASE, DMA_BASE, DMA_END in *. lia.
  - intros Hin. apply (proj1 (bw_free _ _ _ _ _ _ _ _ _ _ B w)); [by left|done].
Qed.

(** Giving the buffer back after writes to it and to pages of the process. *)
Lemma give_back m :
  (forall x, m x = amem a1 x \/ in_pages v (ADDR_2_PAGEUP size) x \/
     exists w, 0 <= w < UVPN_END /\ walkupt (amem a) base w <> 0 /\ x / 4096 = walkupt (amem a) base w) ->
  exists a', kfree (v * 4096) size (set_amem m a1) = Ret (tt, a') /\
    (exists kl', space_ok own1 l kl' uown base a' /\ forall w, kheap_free a' kl' w <-> kheap_free a kl w) /\
    (forall w, walkupt (amem a') base w = walkupt (amem a) base w) /\
    (forall x, x / 4096 < KH_BASE -> amem a' x = m x) /\ grew a a' (ADDR_2_PAGEUP size).
Proof using All.
  intros Hm. pose proof size_pages as [Hs1 Hs2]. pose proof B as [B1 B2 B3 B4 B5 B6 B7 _].
  set (n := ADDR_2_PAGEUP size) in *.
  assert (forall x, in_pages v n x -> v <= x / 4096 < v + n) as Hpg by (intros x Hx; unfold in_pages in Hx; dlia).
  assert (same_tables uown (amem a1) m) as St.
  { intros x Hx. destruct (Hm x) as [?|[Hin|(w & Hw & Hn & E)]]; [done|..].
    - exfalso. apply Hx. by apply buffer_page, Hpg.
    - exfalso. apply Hx. rewrite E. by apply (so_page _ _ _ _ _ _ So). }
  assert (kheap_inv own1 (set_amem m a1) l kl1) as Hinv.
  { apply kheap_inv_write; [done|]. intros x Hx. destruct (Hm x) as [?|[Hin|(w & Hw & Hn & E)]]; [done|..].
    - exfalso. destruct (buffer_page (x / 4096) (Hpg x Hin)) as (_ & ? & ?). tauto.
    - exfalso. destruct (so_page _ _ _ _ _ _ So w Hw Hn) as (Hr & _ & Hnl). rewrite E in Hx.
      destruct Hx as [?|Hin]; [done|]. pose proof (kheap_list_range _ _ _ _ _ B1 Hin). unfold KH_BASE, DMA_END in *. lia. }
  destruct (kfree_ok own1 (set_amem m a1) l kl1 v size Hinv Hsize) as (a' & E & I' & Hb' & Hk' & Hx'); [lia|exact (proj2 B4)| |].
  { intros w Hw. by apply buffer_page. }
  fold n in I', Hx'. assert (same_tables uown (amem a) (amem a')) as St'.
  { intros x Hx. rewrite Hx'; [cbn; by rewrite St, B2|]. intros Hin. apply Hx. by apply buffer_page, Hpg. }
  assert (forall w, kheap_free a' (mkRun v n 0 :: kl1) w <-> kheap_free a kl w) as Hf.
  { intros w. unfold kheap_free at 1. rewrite Hb', pages_of_cons, elem_of_app. unfold r_pages. rewrite elem_of_seqZ.
    cbn [r_vpn r_size]. specialize (B5 w). specialize (B6 w). unfold kheap_free in B5 at 1.
    change (kbrk_page (set_amem m a1)) with (kbrk_page a1). destruct (decide (v <= w < v + n)); tauto. }
  assert (forall w, walkupt (amem a') base w = walkupt (amem a) base w) as Hwalk
    by (intros w; eapply tables_walk; [apply So|done]).
  exists a'. split; [done|]. split; [|split; [done|]].
  - exists (mkRun v n 0 :: kl1). split; [|done]. destruct So as [S1 S2 S3 S4 S5 S6]. split; try done.
    + eapply upper_wf; [exact S2|by eapply tables_upper].
    + intros w Hw. rewrite Hf. by apply S3.
    + intros w. rewrite !Hwalk. apply S5.
    + intros w w'. rewrite !Hwalk. apply S6.
  - split; [intros x Hx; apply Hx'; unfold in_pages; pose proof (proj1 B4); dlia|].
    unfold grew in *. rewrite Hb', Hk'. exact B7.
Qed.
End Borrow.

(** ** Scratch buffers of the kernel

    A buffer taken with kalloc, written, and given back with kfree: the heap ends
    with the free pages it began with and no page in use was touched. *)
Import KernelPT Alloc.

(** The heap of [a] again, at most [n] pages grown. *)
Record kept (own' : Z -> option node) (a a' : A) (l kl kl' : list run) (n : Z) : Prop := {
  kt_inv : kheap_inv own' a' l kl';
  kt_free : forall w, kheap_free a' kl' w <-> kheap_free a kl w;
  kt_mem : forall x, ~ kheap_free a kl (x / 4096) -> amem a' x = amem a x;
  kt_grew : grew a a' n;
}.

Lemma kept_refl own a l kl n : kheap_inv own a l kl -> 0 <= n -> kept own a a l kl kl n.
Proof. intros H Hn. split; try done. unfold grew. lia. Qed.

Lemma kept_trans own1 own2 a a1 a2 l kl kl1 kl2 n k :
  kept own1 a a1 l kl kl1 n -> kept own2 a1 a2 l kl1 kl2 k -> kept own2 a a2 l kl kl2 (n + k).
Proof.
  intros [I1 F1 M1 G1] [I2 F2 M2 G2]. split; [done|..].
  - intros w. by rewrite F2.
  - intros x Hx. rewrite M2, M1; [done|done|]. by rewrite F1.
  - unfold grew in *. lia.
Qed.

Lemma grew_mono a a' n k : grew a a' n -> n <= k -> grew a a' k.
Proof. unfold grew. lia. Qed.

Lemma kheap_room_mono a n k : kheap_room a k -> n <= k -> kheap_room a n.
Proof. unfold kheap_room. lia. Qed.

(** The buffer is among the pages that were free. *)
Record scratch (own1 : Z -> option node) (a a1 : A) (l kl : list run) (e size n : Z) : Prop := {
  sc_range : 0 < e /\ e + size < 18446744073709551616;
  sc_mem : forall x, ~ kheap_free a kl (x / 4096) -> amem a1 x = amem a x /\ ~ (e <= x < e + size);
  sc_free : forall m, (forall x, ~ (e <= x < e + size) -> m x = amem a1 x) ->
    exists a' kl', kfree e size (set_amem m a1) = Ret (tt, a') /\ kept own1 a a' l kl kl' n;
}.

Lemma scratch_ok own a l kl size : kheap_inv own a l kl -> 1 <= size < 1073741824 -> kheap_room a (ADDR_2_PAGEUP size) ->
  exists own1 a1 e, kalloc true size a = Ret (e, a1) /\ scratch own1 a a1 l kl e size (ADDR_2_PAGEUP size).
Proof.
  intros Hinv Hs Hroom. set (n := ADDR_2_PAGEUP size) in *.
  destruct (kalloc_ok own a l kl size Hinv Hs Hroom) as (own1 & a1 & kl1 & v & E & [P1 P2 P3 P4 P5 P6 P7 P8 P9]).
  fold n in P2, P3, P4, P5, P9. pose proof (size_pages size Hs) as [Hs1 Hs2]. fold n in Hs1, Hs2.
  pose proof (kh_brk _ _ _ _ P1) as Hbrk. unfold KH_BASE, KH_END in Hbrk, P2.
  assert (forall x, v * 4096 <= x < v * 4096 + size -> v <= x / 4096 < v + n) as Hpg by (intros; dlia).
  exists own1, a1, (v * 4096). split; [done|]. split; [lia|..].
  { intros x Hx. split; [by apply P6|]. intros Hin. apply Hx. by apply P4, Hpg. }
  intros m Hm.
  assert (forall w, v <= w < v + n -> (w ∉ pages_of l) /\ (w ∉ pages_of kl1)) as Hout.
  { intros w Hw. split.
    - intros Hin. pose proof (dma_free_range _ _ _ _ (kh_dma _ _ _ _ P1) Hin) as Hr.
      pose proof (dm_brk _ _ _ (kh_dma _ _ _ _ P1)). unfold DMA_BASE, DMA_END in *. lia.
    - intros Hin. apply (proj1 (P3 w)); [by left|done]. }
  assert (kheap_inv own1 (set_amem m a1) l kl1) as Hinv1.
  { apply kheap_inv_write; [done|]. intros x Hx. apply Hm. intros Hin. destruct (Hout _ (Hpg x Hin)). tauto. }
  destruct (kfree_ok own1 (set_amem m a1) l kl1 v size Hinv1 Hs) as (a' & Ef & I' & Hb' & Hk' & Hx');
    [unfold KH_BASE; lia|exact (proj2 P2)|intros w Hw; by apply Hout|].
  fold n in I', Hx'. exists a', (mkRun v n 0 :: kl1). split; [done|]. split; [done|..].
  - intros w. unfold kheap_free at 1. rewrite Hb', pages_of_cons, elem_of_app. unfold r_pages. rewrite elem_of_seqZ.
    cbn [r_vpn r_size]. specialize (P3 w). specialize (P4 w). unfold kheap_free.
    change (kbrk_page (set_amem m a1)) with (kbrk_page a1). destruct (decide (v <= w < v + n)); tauto.
  - intros x Hx. rewrite Hx'.
    + cbn. rewrite Hm; [by apply P6|]. intros Hin. apply Hx. by apply P4, Hpg.
    + intros Hin. apply Hx, P4. unfold in_pages in Hin. dlia.
  - unfold grew in *. rewrite Hb', Hk'. exact P9.
Qed.

(** Pages in use given back. *)
Lemma give_run_ok own a l kl v size : kheap_inv own a l kl -> 1 <= size < 1073741824 ->
  KH_BASE <= v -> v + ADDR_2_PAGEUP size <= KH_END ->
  (forall w, v <= w < v + ADDR_2_PAGEUP size -> ~ kheap_free a kl w) ->
  exists a' kl', kfree (v * 4096) size a = Ret (tt, a') /\ kheap_inv own a' l kl' /\
    (forall w, kheap_free a' kl' w <-> kheap_free a kl w \/ v <= w < v + ADDR_2_PAGEUP size) /\
    (forall x, ~ in_pages v (ADDR_2_PAGEUP size) x -> amem a' x = amem a x) /\ grew a a' 0.
Proof.
  intros Hinv Hs Hv Htop Hused. pose proof (size_pages size Hs) as [_ Hn]. set (n := ADDR_2_PAGEUP size) in *.
  assert (v + n <= kbrk_page a) as Hb.
  { destruct (decide (v + n <= kbrk_page a)); [done|]. exfalso. apply (Hused (v + n - 1)); [lia|]. right. lia. }
  destruct (kfree_ok own a l kl v size Hinv Hs Hv Hb) as (a' & E & I' & Hb' & Hk' & Hx').
  { intros w Hw Hin. apply (Hused w); [done|by left]. }
  fold n in I', Hx'. exists a', (mkRun v n 0 :: kl). split; [done|]. split; [done|]. split; [|split; [done|]].
  - intros w. unfold kheap_free. rewrite Hb', pages_of_cons, elem_of_app. unfold r_pages. rewrite elem_of_seqZ.
    cbn [r_vpn r_size]. tauto.
  - unfold grew. rewrite Hb', Hk'. cbn. lia.
Qed.
