(* ===== verification/AddrSpace.v ===== *)
(** * Address spaces that grow

    A process gets pages from two allocators: its tables and its pages from the
    DMA heap, its reference tables from the kernel heap.  A step of the kernel
    takes some free pages and writes to free pages only; the address space is
    then as before, and a missing level of the tables can be added to it. *)
From S2P Require Import Prelude Mem World KernelPT PTBits KernelPTSpec KernelPTRec KernelPTProps PTInit Alloc AllocList AllocSpec DmaHeapSpec DmaHeap.
From S2P Require Import KHeapSpec UserPT UserPTProps UserCopy SysIoSpec.
Import KernelPT Alloc UserPT.

(** ** Free pages and allocation steps *)

(** The pages that either heap may hand out. *)
Definition frees (a : A) (l kl : list run) (w : Z) : Prop :=
  w ∈ pages_of l \/ brk_page a <= w < DMA_END \/ kheap_free a kl w.

Definition room (a : A) (n : Z) : Prop :=
  pfn_start (km a) + 3 * n <= max_pfn (km a) /\ brk_page a + n <= DMA_END /\ kbrk_page a + n <= KH_END.
Definition cost (a a' : A) (n : Z) : Prop :=
  brk_page a' <= brk_page a + n /\ kbrk_page a' <= kbrk_page a + n /\
  max_pfn (km a') = max_pfn (km a) /\ pfn_start (km a') <= pfn_start (km a) + 3 * n.

Lemma cost_room a a' n k : cost a a' n -> room a (n + k) -> room a' k.
Proof. unfold cost, room. lia. Qed.

Lemma room_mono a n k : room a k -> n <= k -> room a n.
Proof. unfold room. lia. Qed.

(** The pages the two heaps range over. *)
Definition area (w : Z) : Prop := DMA_BASE <= w < DMA_END \/ KH_BASE <= w < KH_END.

(** A step that takes the pages [R]. *)
Record mstep (own' : Z -> option node) (a a' : A) (l l' kl kl' : list run) (R : Z -> Prop) (n : Z) : Prop := {
  ms_inv : kheap_inv own' a' l' kl';
  ms_free : forall w, frees a' l' kl' w <-> frees a l kl w /\ ~ R w;
  ms_was : forall w, R w -> frees a l kl w;
  ms_mem : forall x, ~ frees a l kl (x / 4096) -> amem a' x = amem a x;
  ms_keep : forall w p, area w -> ~ frees a l kl w -> page_maps (km a) w p -> page_maps (km a') w p;
  ms_cost : cost a a' n;
}.

Lemma mstep_refl own a l kl : kheap_inv own a l kl -> mstep own a a l l kl kl (fun _ => False) 0.
Proof. intros H. split; [done|tauto|tauto|done|done|unfold cost; lia]. Qed.

Lemma mstep_trans own1 own2 a a1 a2 l l1 l2 kl kl1 kl2 R1 R2 n1 n2 :
  mstep own1 a a1 l l1 kl kl1 R1 n1 -> mstep own2 a1 a2 l1 l2 kl1 kl2 R2 n2 ->
  mstep own2 a a2 l l2 kl kl2 (fun w => R1 w \/ R2 w) (n1 + n2).
Proof.
  intros [I1 F1 W1 M1 K1 C1] [I2 F2 W2 M2 K2 C2]. split; [done|..].
  - intros w. rewrite F2, F1. tauto.
  - intros w [H|H]; [by apply W1|]. apply W2, F1 in H. tauto.
  - intros x Hx. rewrite M2, M1; [done|done|]. rewrite F1. tauto.
  - intros w p Ha Hw Hm. apply K2; [done| |by apply K1]. rewrite F1. tauto.
  - unfold cost in *. lia.
Qed.

(** Free pages of the two heaps are apart. *)
Lemma dma_not_heap own a l kl w : kheap_inv own a l kl -> w ∈ pages_of l \/ brk_page a <= w < DMA_END ->
  DMA_BASE <= w < DMA_END.
Proof.
  intros I [H|H]; pose proof (dm_brk _ _ _ (kh_dma _ _ _ _ I)); [|lia].
  pose proof (dma_free_range _ _ _ _ (kh_dma _ _ _ _ I) H). lia.
Qed.

Lemma kheap_range own a l kl w : kheap_inv own a l kl -> kheap_free a kl w -> KH_BASE <= w < KH_END.
Proof.
  intros I [H|H]; pose proof (kh_brk _ _ _ _ I); [|lia]. pose proof (kheap_list_range _ _ _ _ _ I H). lia.
Qed.

Lemma page_alloc own a l kl z : kheap_inv own a l kl -> room a 1 ->
  exists own' a' l' pfn vpn, dmalloc true 1 z a = Ret ((pfn, vpn), a') /\
    mstep own' a a' l l' kl kl (fun w => w = vpn) 1 /\ DMA_BASE <= vpn < DMA_END /\ 0 <= pfn < 17592186044416 /\
    page_maps (km a') vpn pfn /\ (z = true -> forall x, in_pages vpn 1 x -> amem a' x = 0).
Proof.
  intros I (R1 & R2 & R3). pose proof (kh_dma _ _ _ _ I) as Hd.
  destruct (dmalloc_ok own a l 1 z Hd ltac:(lia)) as (own' & a' & l' & pfn & vpn & E & [D1 D2 D3 D4 D5 D6 D7 D8 D9 D10 _ [Hv Hk] D13]);
    [by left|]. unfold is_free in *. rewrite (free_runs_eq _ _ _ Hd) in *. rewrite (free_runs_eq _ _ _ D1) in *.
  assert (kbrk_page a' = kbrk_page a) as Ekb by (unfold kbrk_page; by rewrite Hk).
  exists own', a', l', pfn, vpn. split; [done|].
  assert (forall x, KH_BASE <= x / 4096 -> amem a' x = amem a x) as Hheap.
  { intros x Hx. apply D8. intros Hin. pose proof (dma_not_heap own a l kl _ I Hin). unfold KH_BASE, DMA_END in *. lia. }
  split; [split|].
  - destruct I as [K1 K2 K3 K4 K5 K6 K7]. split; rewrite ?Ekb; try done.
    + rewrite Hv. eapply flseg_ext; [|exact K2]. intros r x Hin Hx. apply Hheap.
      eapply Forall_forall in K3 as (? & ? & ?); [|exact Hin]. unfold header, r_addr, KH_BASE in *. dlia.
    + by rewrite Hk.
    + intros w Hw. destruct (K7 w Hw) as [p Hp]. exists p. apply D7; [right; unfold heap_page; lia|done].
  - intros w. unfold frees, kheap_free. rewrite Ekb. specialize (D5 w).
    assert (~ (vpn <= w < vpn + 1) <-> w <> vpn) as Hne by lia. rewrite Hne in D5.
    assert (kheap_free a kl w -> w <> vpn) as Hkw.
    { intros Hin ->. pose proof (kheap_range own a l kl _ I Hin). pose proof (dma_not_heap own a l kl vpn I (D4 vpn ltac:(lia))).
      unfold KH_BASE, DMA_END in *. lia. }
    unfold kheap_free in Hkw. tauto.
  - intros w ->. specialize (D4 vpn ltac:(lia)). unfold frees. tauto.
  - intros x Hx. apply D8. unfold frees in Hx. tauto.
  - intros w p Ha Hw. apply D7. destruct Ha as [Ha|Ha]; [left|right; exact Ha]. unfold frees in Hw.
    split; [unfold kernel_page, DMA_BASE, DMA_END in *|]; lia.
  - unfold cost. rewrite Ekb. lia.
  - pose proof (dma_not_heap own a l kl vpn I (D4 vpn ltac:(lia))). split; [lia|]. split; [lia|]. split; [|done].
    specialize (D6 0 ltac:(lia)). by rewrite !Z.add_0_r in D6.
Qed.

Lemma heap_alloc own a l kl size : kheap_inv own a l kl -> 1 <= size < 1073741824 -> room a (ADDR_2_PAGEUP size) ->
  exists own' a' kl' v, kalloc true size a = Ret (v * 4096, a') /\
    mstep own' a a' l l kl kl' (fun w => v <= w < v + ADDR_2_PAGEUP size) (ADDR_2_PAGEUP size) /\
    KH_BASE <= v /\ v + ADDR_2_PAGEUP size <= KH_END /\ (forall x, in_pages v (ADDR_2_PAGEUP size) x -> amem a' x = 0).
Proof.
  intros I Hs (R1 & R2 & R3). set (n := ADDR_2_PAGEUP size) in *.
  destruct (kalloc_ok own a l kl size I Hs) as (own' & a' & kl' & v & E & [P1 P2 P3 P4 P5 P6 P7 [P8 P8'] P9]); [split; lia|].
  fold n in P2, P3, P4, P5, P9. pose proof (kh_brk _ _ _ _ P1). exists own', a', kl', v. split; [done|].
  assert (brk_page a' = brk_page a) as Eb by (unfold brk_page; by rewrite P8').
  split; [split|]; [done|..].
  - intros w. unfold frees. rewrite Eb. specialize (P3 w). unfold kheap_free.
    assert (w ∈ pages_of l \/ brk_page a <= w < DMA_END -> ~ (v <= w < v + n)) as Hd.
    { intros Hin. pose proof (dma_not_heap own a l kl w I Hin). unfold KH_BASE, DMA_END in *. lia. }
    tauto.
  - intros w Hw. right. right. by apply P4.
  - intros x Hx. apply P6. unfold frees, kheap_free in Hx. tauto.
  - intros w p Ha Hw. pose proof (kh_brk _ _ _ _ I). unfold frees, kheap_free in Hw. apply P7.
    + destruct Ha as [Ha|Ha]; [left; unfold kernel_page, DMA_BASE, DMA_END in *; lia|by right].
    + destruct Ha as [Ha|Ha]; [unfold KH_BASE, DMA_END in *|]; lia.
  - unfold cost. rewrite Eb. unfold grew in P9. pose proof (size_pages size Hs) as [_ Hn]. fold n in Hn. lia.
  - split; [lia|]. split; [lia|done].
Qed.

(** ** Adding a level to the tables *)

(** [own] with the page [t] and the [n] pages from [r] on added. *)
Definition added (uown : Z -> option utag) (t : Z) (tt : utag) (r n : Z) (rt : utag) (w : Z) : option utag :=
  if decide (w = t) then Some tt else if decide (r <= w < r + n) then Some rt else uown w.

Lemma owned_mono (u u' : Z -> option utag) a n t : (forall p x, u p = Some x -> u' p = Some x) -> owned u a n t -> owned u' a n t.
Proof. intros Hu (H1 & H2 & H3 & H4). split; [done|]. split; [done|]. split; [done|]. intros p Hp. by apply Hu, H4. Qed.

Lemma load64_zero m x : (forall y, x <= y < x + 8 -> m y = 0) -> load64 m x = 0.
Proof.
  intros H. unfold load64. rewrite (load_le_ext 8 m (fun _ => 0)); [reflexivity|]. intros y Hy. apply H. lia.
Qed.

(** The reference tables, which the kernel walks. *)
Definition is_ref (t : utag) : Prop := match t with T1 _ | T0 _ _ => False | _ => True end.
(** The reference tables are the same but for the two words at [p]. *)
Definition same_but (uown : Z -> option utag) (m m' : mem) (p : Z) : Prop :=
  forall x t, uown (x / 4096) = Some t -> is_ref t -> ~ (p <= x < p + 16) -> m' x = m x.

(** A word of a table other than the two of an entry at [p]. *)
Lemma kept_word (uown : Z -> option utag) (m m' : mem) p x tag :
  same_but uown m m' p -> word_of uown (Some tag) x -> is_ref tag -> x + 8 <= p \/ p + 16 <= x -> load64 m' x = load64 m x.
Proof.
  intros Hsame [Ho Hx] Ht Hd. apply load_le_ext. intros y Hy. apply (Hsame y tag); [|done|lia].
  by replace (y / 4096) with (x / 4096) by dlia.
Qed.

Lemma words_apart (u : Z -> option utag) x p tx tp : word_of u tx x -> word_of u tp p -> tx <> tp -> p mod 16 = 0 ->
  x + 8 <= p \/ p + 16 <= x.
Proof.
  intros [Ox Mx] [Op Mp] Hne Hp. assert (x / 4096 <> p / 4096) as Hd by (intros E; apply Hne; by rewrite <- Ox, <- Op, E). dlia.
Qed.

Lemma zero_word (m : mem) r n o : (forall x, in_pages r n x -> m x = 0) -> 0 <= o -> o + 8 <= n * 4096 ->
  load64 m (r * 4096 + o) = 0.
Proof. intros Hz Ho Hn. apply load64_zero. intros y Hy. apply Hz. unfold in_pages. lia. Qed.

Section Added.
Context (uown : Z -> option utag) (t r n : Z) (Tt Rt : utag).
Hypothesis Ht : 0 < t < 4503599627370495 /\ uown t = None.
Hypothesis Hr : 0 < r /\ r + n < 4503599627370496 /\ (forall w, r <= w < r + n -> uown w = None /\ w <> t).
Let u' := added uown t Tt r n Rt.

Lemma added_old q x : uown q = Some x -> u' q = Some x.
Proof using Ht Hr.
  intros Hq. unfold u', added. rewrite decide_False by (intros ->; by rewrite (proj2 Ht) in Hq).
  rewrite decide_False; [done|]. intros Hin. destruct (proj2 (proj2 Hr) q Hin). congruence.
Qed.

Lemma added_t : owned u' (t * 4096) 1 Tt.
Proof using Ht.
  split; [dlia|]. split; [lia|]. split; [lia|]. intros q Hq. unfold u', added. rewrite decide_True; [done|]. dlia.
Qed.

Lemma added_r : owned u' (r * 4096) n Rt.
Proof using Hr.
  pose proof (proj1 Hr) as Hr1. pose proof (proj1 (proj2 Hr)) as Hr2.
  split; [dlia|]. split; [lia|]. split; [lia|]. intros q Hq. replace (r * 4096 / 4096) with r in Hq by dlia.
  unfold u', added. rewrite decide_False by (by apply Hr). by rewrite decide_True.
Qed.
End Added.

Lemma walk_eq base m w : walkupt m base w =
  if table1 base m (VPN 2 w) =? 0 then 0 else if table0 base m (VPN 2 w) (VPN 1 w) =? 0 then 0
  else load64 m (ref0_entry (next0 base m (VPN 2 w) (VPN 1 w)) (VPN 0 w)).
Proof. reflexivity. Qed.

(** The entries of the last level are not touched. *)
Lemma kept_leaf uown base m m' p i j k : upt_wf uown base m ->
  same_but uown m m' p ->
  (exists tag, word_of uown (Some tag) p /\ forall i j, tag <> R0 i j) -> p mod 16 = 0 ->
  0 <= i < 512 -> 0 <= j < 512 -> 0 <= k < 512 -> table1 base m i <> 0 -> table0 base m i j <> 0 ->
  load64 m' (ref0_entry (next0 base m i j) k) = load64 m (ref0_entry (next0 base m i j) k).
Proof.
  intros W Hsame (tag & Hpw & Htag) Hp16 Hi Hj Hk H1 H0. destruct (uw_0 _ _ _ W i j Hi Hj H1 H0) as [O _].
  destruct (word_8 uown _ _ k O Hk) as [-> Hw]. eapply kept_word; [exact Hsame|exact Hw|exact I|].
  eapply words_apart; [exact Hw|exact Hpw| |done]. intros [= <-]. by apply (Htag i j).
Qed.

(** A new table of the middle level for the entry [i] of the root. *)
Lemma add_level1 uown base m m' t r i :
  upt_wf uown base m -> 0 < t < 4503599627370495 /\ uown t = None ->
  0 < r /\ r + 2 < 4503599627370496 /\ (forall w, r <= w < r + 2 -> uown w = None /\ w <> t) ->
  (forall x, in_pages r 2 x -> m' x = 0) ->
  same_but uown m m' (base + i * 16) ->
  load64 m' (base + i * 16) = t * 4096 /\ load64 m' (base + i * 16 + 8) = r * 4096 ->
  0 <= i < 512 -> table1 base m i = 0 ->
  let u' := added uown t (T1 i) r 2 (R1 i) in
  upt_wf u' base m' /\ (forall w, walkupt m' base w = walkupt m base w) /\ table1 base m' i = t * 4096 /\
  (forall j, 0 <= j < 512 -> table0 base m' i j = 0) /\
  (forall i', 0 <= i' < 512 -> i' <> i -> table1 base m' i' = table1 base m i') /\
  (forall i' j, 0 <= i' < 512 -> 0 <= j < 512 -> i' <> i -> table1 base m i' <> 0 -> table0 base m' i' j = table0 base m i' j).
Proof.
  intros W Ht Hr Hz Hsame Hp Hi H1 u'. pose proof (uw_base _ _ _ W) as Hb.
  assert (forall i' o, 0 <= i' < 512 -> i' <> i -> o = 0 \/ o = 8 ->
    load64 m' (base + i' * 16 + o) = load64 m (base + i' * 16 + o)) as Hroot.
  { intros i' o Hi' Hne Ho. destruct (word_16 uown base RBase i' o Hb Hi' Ho) as [_ Hw].
    eapply kept_word; [exact Hsame|exact Hw|exact I|lia]. }
  assert (forall i' o, 0 <= i' < 512 -> ref_entry base i' = base + i' * 16) as Hent
    by (intros i' o Hi'; apply (word_16 uown base RBase i' 0 Hb Hi'); by left).
  assert (forall i', 0 <= i' < 512 -> i' <> i -> table1 base m' i' = table1 base m i' /\ next1 base m' i' = next1 base m i') as Hold.
  { intros i' Hi' Hne. unfold table1, next1, ref_ptable, ref_next. rewrite Hent by done.
    pose proof (Hroot i' 0 Hi' Hne ltac:(auto)) as H0. rewrite Z.add_0_r in H0. split; [exact H0|apply Hroot; auto]. }
  assert (table1 base m' i = t * 4096 /\ next1 base m' i = r * 4096) as [En1 En2]
    by (unfold table1, next1, ref_ptable, ref_next; by rewrite Hent).
  pose proof (added_r uown t r 2 (T1 i) (R1 i) Hr) as Or. fold u' in Or.
  assert (forall j, 0 <= j < 512 -> table0 base m' i j = 0) as Hz0.
  { intros j Hj. unfold table0, ref_ptable. rewrite En2. destruct (word_16 u' _ _ j 0 Or Hj (or_introl eq_refl)) as [-> _].
    eapply zero_word; [exact Hz|lia|lia]. }
  assert (forall i' j, 0 <= i' < 512 -> 0 <= j < 512 -> i' <> i -> table1 base m i' <> 0 ->
    table0 base m' i' j = table0 base m i' j /\ next0 base m' i' j = next0 base m i' j) as Hold0.
  { intros i' j Hi' Hj Hne Ht'. unfold table0, next0, ref_ptable, ref_next. destruct (Hold i' Hi' Hne) as [_ ->].
    destruct (uw_1 _ _ _ W i' Hi' Ht') as [O' _]. destruct (word_16 uown _ _ j 0 O' Hj (or_introl eq_refl)) as [-> H0].
    destruct (word_16 uown _ _ j 8 O' Hj (or_intror eq_refl)) as [_ H8].
    destruct (word_16 uown base RBase i 0 Hb Hi (or_introl eq_refl)) as [_ Hpw]. rewrite Z.add_0_r in Hpw, H0.
    assert ((base + i * 16) mod 16 = 0) as Hp16 by (destruct Hb as (Hb & _); dlia).
    split; (eapply kept_word; [exact Hsame|eassumption|exact I|]; eapply words_apart; [eassumption|exact Hpw|done|done]). }
  split; [split|split; [|split; [done|split; [done|split; [apply Hold|intros; by apply Hold0]]]]].
  - eapply owned_mono; [|exact Hb]. by apply added_old.
  - intros i' Hi' Ht'. destruct (decide (i' = i)) as [->|Hne].
    + rewrite En1, En2. split; [done|]. by apply added_t.
    + destruct (Hold i' Hi' Hne) as [E1 E2]. rewrite E1 in *. rewrite E2. destruct (uw_1 _ _ _ W i' Hi' Ht') as [O1 O2].
      split; (eapply owned_mono; [|eassumption]; by apply added_old).
  - intros i' j Hi' Hj Ht' Ht0. destruct (decide (i' = i)) as [->|Hne]; [by rewrite Hz0 in Ht0|].
    destruct (Hold i' Hi' Hne) as [E1 _]. rewrite E1 in Ht'. destruct (Hold0 i' j Hi' Hj Hne Ht') as [E3 E4]. rewrite E3 in *. rewrite E4.
    destruct (uw_0 _ _ _ W i' j Hi' Hj Ht' Ht0) as [O1 O2]. split; (eapply owned_mono; [|eassumption]; by apply added_old).
  - intros w. rewrite !walk_eq. destruct (decide (VPN 2 w = i)) as [Ei|Hne].
    + rewrite Ei, H1, Hz0 by apply VPN_range. by destruct (_ =? 0).
    + destruct (Hold _ (VPN_range 2 w) Hne) as [E1 _]. rewrite E1.
      destruct (Z.eqb_spec (table1 base m (VPN 2 w)) 0) as [|Hn1]; [done|].
      destruct (Hold0 _ _ (VPN_range 2 w) (VPN_range 1 w) Hne Hn1) as [-> ->].
      destruct (Z.eqb_spec (table0 base m (VPN 2 w) (VPN 1 w)) 0) as [|Hn0]; [done|].
      destruct (word_16 uown base RBase i 0 Hb Hi (or_introl eq_refl)) as [_ Hpw]. rewrite Z.add_0_r in Hpw.
      eapply kept_leaf; try eassumption; [by exists RBase| |apply VPN_range..]. destruct Hb as (Hb & _). dlia.
Qed.

(** A new table of the last level for the entry [j] of the table of [i]. *)
Lemma add_level0 uown base m m' t r i j :
  upt_wf uown base m -> 0 < t < 4503599627370495 /\ uown t = None ->
  0 < r /\ r + 1 < 4503599627370496 /\ (forall w, r <= w < r + 1 -> uown w = None /\ w <> t) ->
  (forall x, in_pages r 1 x -> m' x = 0) -> 0 <= i < 512 -> 0 <= j < 512 -> table1 base m i <> 0 -> table0 base m i j = 0 ->
  let p := next1 base m i + j * 16 in
  same_but uown m m' p ->
  load64 m' p = t * 4096 /\ load64 m' (p + 8) = r * 4096 ->
  let u' := added uown t (T0 i j) r 1 (R0 i j) in
  upt_wf u' base m' /\ (forall w, walkupt m' base w = walkupt m base w) /\
  (forall i', 0 <= i' < 512 -> table1 base m' i' = table1 base m i' /\ next1 base m' i' = next1 base m i') /\
  table0 base m' i j = t * 4096 /\
  (forall i' j', 0 <= i' < 512 -> 0 <= j' < 512 -> (i', j') <> (i, j) -> table1 base m i' <> 0 ->
     table0 base m' i' j' = table0 base m i' j').
Proof.
  intros W Ht Hr Hz Hi Hj H1 H0 p Hsame Hp u'. pose proof (uw_base _ _ _ W) as Hb.
  destruct (uw_1 _ _ _ W i Hi H1) as [Oi _]. destruct (word_16 uown _ _ j 0 Oi Hj (or_introl eq_refl)) as [Eij Hpw].
  rewrite Z.add_0_r in Hpw. fold p in Eij, Hpw. assert (p mod 16 = 0) as Hp16 by (destruct Oi as (Oi & _); unfold p; dlia).
  assert (forall i', 0 <= i' < 512 -> table1 base m' i' = table1 base m i' /\ next1 base m' i' = next1 base m i') as Hold.
  { intros i' Hi'. unfold table1, next1, ref_ptable, ref_next.
    destruct (word_16 uown base RBase i' 0 Hb Hi' (or_introl eq_refl)) as [-> Hw0].
    destruct (word_16 uown base RBase i' 8 Hb Hi' (or_intror eq_refl)) as [_ Hw8]. rewrite Z.add_0_r in Hw0.
    split; (eapply kept_word; [exact Hsame|eassumption|exact I|]; eapply words_apart; [eassumption|exact Hpw|done|done]). }
  assert (forall i' j', 0 <= i' < 512 -> 0 <= j' < 512 -> (i', j') <> (i, j) -> table1 base m i' <> 0 ->
    table0 base m' i' j' = table0 base m i' j' /\ next0 base m' i' j' = next0 base m i' j') as Hold0.
  { intros i' j' Hi' Hj' Hne Ht'. unfold table0, next0, ref_ptable, ref_next. destruct (Hold i' Hi') as [_ ->].
    destruct (uw_1 _ _ _ W i' Hi' Ht') as [O' _]. destruct (word_16 uown _ _ j' 0 O' Hj' (or_introl eq_refl)) as [-> Hw0].
    destruct (word_16 uown _ _ j' 8 O' Hj' (or_intror eq_refl)) as [_ Hw8]. rewrite Z.add_0_r in Hw0.
    assert (next1 base m i' + j' * 16 + 16 <= p \/ p + 16 <= next1 base m i' + j' * 16) as Hd.
    { destruct (decide (i' = i)) as [->|Hi0]; [assert (j' <> j) by congruence; unfold p; lia|].
      assert (R1 i' <> R1 i) as Ht0 by congruence. assert (Some (R1 i') <> Some (R1 i)) as Ht1 by congruence.
      destruct (words_apart uown _ p _ _ Hw0 Hpw Ht1 Hp16); [|lia]. destruct O' as (O' & _). dlia. }
    split; (eapply kept_word; [exact Hsame|eassumption|exact I|lia]). }
  assert (table0 base m' i j = t * 4096 /\ next0 base m' i j = r * 4096) as [En1 En2].
  { unfold table0, next0, ref_ptable, ref_next. rewrite (proj2 (Hold i Hi)), Eij. exact Hp. }
  pose proof (added_r uown t r 1 (T0 i j) (R0 i j) Hr) as Or. fold u' in Or.
  split; [split|split; [|split; [apply Hold|split; [done|intros; by apply Hold0]]]].
  - eapply owned_mono; [|exact Hb]. by apply added_old.
  - intros i' Hi'. destruct (Hold i' Hi') as [-> ->]. intros Ht'. destruct (uw_1 _ _ _ W i' Hi' Ht') as [O1 O2].
    split; (eapply owned_mono; [|eassumption]; by apply added_old).
  - intros i' j' Hi' Hj'. rewrite (proj1 (Hold i' Hi')). intros Ht' Ht0. destruct (decide ((i', j') = (i, j))) as [E|Hne].
    + injection E as -> ->. rewrite En1, En2. split; [done|]. by apply added_t.
    + destruct (Hold0 i' j' Hi' Hj' Hne Ht') as [E3 E4]. rewrite E3 in *. rewrite E4.
      destruct (uw_0 _ _ _ W i' j' Hi' Hj' Ht' Ht0) as [O1 O2]. split; (eapply owned_mono; [|eassumption]; by apply added_old).
  - intros w. rewrite !walk_eq. rewrite (proj1 (Hold _ (VPN_range 2 w))).
    destruct (Z.eqb_spec (table1 base m (VPN 2 w)) 0) as [|Hn1]; [done|].
    destruct (decide ((VPN 2 w, VPN 1 w) = (i, j))) as [E|Hne].
    + injection E as -> ->. rewrite H0, En1, En2, (proj2 (Z.eqb_neq _ _)) by lia. cbn [Z.eqb].
      destruct (word_8 u' _ _ (VPN 0 w) Or (VPN_range 0 w)) as [-> _]. pose proof (VPN_range 0 w).
      eapply zero_word; [exact Hz|lia|lia].
    + destruct (Hold0 _ _ (VPN_range 2 w) (VPN_range 1 w) Hne Hn1) as [-> ->].
      destruct (Z.eqb_spec (table0 base m (VPN 2 w) (VPN 1 w)) 0) as [|Hn0]; [done|].
      eapply kept_leaf; try eassumption; [by exists (R1 i)|apply VPN_range..].
Qed.

(** ** Address spaces: the two trees of a process agree

    The machine walks the tables in the DMA pages by frame numbers, the kernel
    walks the reference tables by addresses.  A space is coherent when every
    entry of the machine's tables names the frame of the page that the kernel's
    tables name, and is 0 where they name none.  Allocation, added levels and
    mapped pages keep spaces coherent and apart from free pages. *)

Definition pfn_ok (p : Z) : Prop := 0 <= p < 17592186044416.
Definition flags_ok (fl : Z) : Prop := 0 <= fl < 1024 /\ is_valid fl = true /\ is_leaf fl = true.

(** The machine's entry for the user page [v]. *)
Definition leaf (base : Z) (m : mem) (v : Z) : Z := load64 m (upte base m v).

Lemma load64_page m m' x : x mod 8 = 0 -> (forall y, y / 4096 = x / 4096 -> x <= y < x + 8 -> m' y = m y) -> load64 m' x = load64 m x.
Proof. intros Hx H. apply load_le_ext. intros y Hy. apply H; [dlia|lia]. Qed.

Lemma store64_page m p v x : p mod 8 = 0 -> x / 4096 <> p / 4096 -> store64 m p v x = m x.
Proof. intros Hp Hx. apply store_le_outside. dlia. Qed.

Section Space.
Context (fixed : Z -> Z -> Prop) (root base : Z).

(** The machine's entry [e] for the table that the kernel has at [t]; the
    machine's entry [e] for the user page [v] that the kernel has at the page [k].
    [fixed] are the entries of pages that the process does not own. *)
Definition names (pm : Z -> Z -> Prop) (e t : Z) : Prop :=
  (t = 0 -> e = 0) /\ (t <> 0 -> exists p, pfn_ok p /\ pm (t / 4096) p /\ e = PTE p PTE_VALID).
Definition leaf_ok (pm : Z -> Z -> Prop) (v e k : Z) : Prop :=
  (k = 0 -> e = 0 \/ fixed v e) /\
  (k <> 0 -> exists p fl, pfn_ok p /\ flags_ok fl /\ pm k p /\ e = PTE p fl).

Record coherent (pm : Z -> Z -> Prop) (m : mem) : Prop := {
  co_1 : forall i, 0 <= i < 512 -> names pm (load64 m (root * 4096 + i * 8)) (table1 base m i);
  co_0 : forall i j, 0 <= i < 512 -> 0 <= j < 512 -> table1 base m i <> 0 ->
    names pm (load64 m (table1 base m i + j * 8)) (table0 base m i j);
  co_ref : forall v, present base m v -> leaf_ok pm v (load64 m (upte base m v)) (load64 m (ref0 base m v));
}.

(** In a well-formed tree the word of the last reference table is what the
    kernel's walk finds. *)
Lemma co_leaf uown pm m v : upt_wf uown base m -> coherent pm m -> present base m v ->
  leaf_ok pm v (load64 m (upte base m v)) (walkupt m base v).
Proof. intros W C Hv. rewrite (walkupt_present uown base m v W Hv). by apply (co_ref _ _ C). Qed.

Lemma coherent_intro uown pm m : upt_wf uown base m ->
  (forall i, 0 <= i < 512 -> names pm (load64 m (root * 4096 + i * 8)) (table1 base m i)) ->
  (forall i j, 0 <= i < 512 -> 0 <= j < 512 -> table1 base m i <> 0 ->
    names pm (load64 m (table1 base m i + j * 8)) (table0 base m i j)) ->
  (forall v, present base m v -> leaf_ok pm v (load64 m (upte base m v)) (walkupt m base v)) -> coherent pm m.
Proof. intros W C1 C0 Cl. split; [done|done|]. intros v Hv. rewrite <- (walkupt_present uown base m v W Hv). by apply Cl. Qed.

(** The pages of a space: its tables, and its pages. *)
Definition tpage (uown : Z -> option utag) (w : Z) : Prop := w = root \/ uown w <> None.
Definition spage (uown : Z -> option utag) (m : mem) (w : Z) : Prop :=
  tpage uown w \/ exists v, walkupt m base v = w /\ w <> 0.

(** The machine's tables are DMA pages, the reference tables pages of the heap. *)
Definition home (t : utag) (w : Z) : Prop :=
  match t with T1 _ | T0 _ _ => DMA_BASE <= w < DMA_END | _ => KH_BASE <= w < KH_END end.

Record uspace (own : Z -> option node) (l kl : list run) (uown : Z -> option utag) (a : A) : Prop := {
  us_heap : kheap_inv own a l kl;
  us_upt : upt_wf uown base (amem a);
  us_root : uown root = None /\ DMA_BASE <= root < DMA_END;
  us_used : forall w, spage uown (amem a) w -> area w /\ ~ frees a l kl w;
  us_page : forall v, walkupt (amem a) base v <> 0 ->
    DMA_BASE <= walkupt (amem a) base v < DMA_END /\ ~ tpage uown (walkupt (amem a) base v);
  us_inj : forall v w, walkupt (amem a) base v <> 0 -> walkupt (amem a) base v = walkupt (amem a) base w -> same_page v w;
  us_coh : coherent (page_maps (km a)) (amem a);
  us_home : forall w t, uown w = Some t -> home t w;
}.

Lemma names_mono (pm pm' : Z -> Z -> Prop) e t : (t <> 0 -> forall p, pm (t / 4096) p -> pm' (t / 4096) p) ->
  names pm e t -> names pm' e t.
Proof. intros H [H0 H1]. split; [done|]. intros Ht. destruct (H1 Ht) as (p & ? & ? & ?). exists p. eauto. Qed.

Lemma leaf_mono (pm pm' : Z -> Z -> Prop) v e k : (k <> 0 -> forall p, pm k p -> pm' k p) ->
  leaf_ok pm v e k -> leaf_ok pm' v e k.
Proof. intros H [H0 H1]. split; [done|]. intros Hk. destruct (H1 Hk) as (p & fl & ? & ? & ? & ?). exists p, fl. eauto. Qed.

(** The tables of a well-formed tree are pages of the space. *)
Lemma owned_page (uown : Z -> option utag) x t : owned uown x 1 t -> uown (x / 4096) = Some t.
Proof. intros (_ & _ & _ & H). apply H. lia. Qed.

(** ** Steps elsewhere keep a space *)
Section Keep.
Context (own : Z -> option node) (l kl : list run) (uown : Z -> option utag) (a : A).
Hypothesis Us : uspace own l kl uown a.
Let m := amem a.

Lemma keep_tables m' : (forall x, tpage uown (x / 4096) -> m' x = m x) -> same_tables uown m m'.
Proof using Us. intros H x Hx. apply H. by right. Qed.

Lemma keep_walk m' v : (forall x, tpage uown (x / 4096) -> m' x = m x) -> walkupt m' base v = walkupt m base v.
Proof using Us. intros H. eapply tables_walk; [apply Us|by apply keep_tables]. Qed.

Lemma coherent_keep m' (pm' : Z -> Z -> Prop) : (forall x, tpage uown (x / 4096) -> m' x = m x) ->
  (forall w p, spage uown m w -> page_maps (km a) w p -> pm' w p) -> coherent pm' m'.
Proof using Us.
  intros Hm Hpm. pose proof (us_upt _ _ _ _ _ Us) as W. fold m in W. pose proof (keep_tables m' Hm) as St.
  pose proof (tables_upper uown base m m' W St) as U. pose proof (upper_tables uown base m m' W U) as [E1 E0].
  pose proof (us_coh _ _ _ _ _ Us) as C. pose proof C as [C1 C0 _]. pose proof (fun v => co_leaf uown _ m v W C) as Cl. fold m in C1, C0.
  apply (coherent_intro uown); [by eapply upper_wf|..].
  - intros i Hi. destruct (E1 i Hi) as [-> _]. rewrite (load64_page m m'); [|dlia|].
    + eapply names_mono; [|by apply C1]. intros Ht p. apply Hpm. left. right. destruct (uw_1 _ _ _ W i Hi Ht) as [_ O].
      by rewrite (owned_page _ _ _ O).
    + intros y Hy _. apply Hm. left. dlia.
  - intros i j Hi Hj. destruct (E1 i Hi) as [-> _]. intros Ht. destruct (E0 i j Hi Hj Ht) as [-> _].
    destruct (uw_1 _ _ _ W i Hi Ht) as [_ O]. destruct (word_8 uown _ _ j O Hj) as [_ Hw].
    rewrite (word_same uown m m' _ _ St Hw). eapply names_mono; [|by apply C0]. intros H0 p. apply Hpm. left. right.
    destruct (uw_0 _ _ _ W i j Hi Hj Ht H0) as [_ O']. by rewrite (owned_page _ _ _ O').
  - intros v Hv. destruct (upper_present uown base m m' v W U) as [P R]. apply P in Hv. destruct (R Hv) as [_ ->].
    rewrite (keep_walk m' v Hm). destruct (words_of_page uown base m v W Hv) as [_ Hw].
    rewrite (word_same uown m m' _ _ St Hw). eapply leaf_mono; [|by apply Cl]. intros Hk p. apply Hpm. right. by exists v.
Qed.

Lemma uspace_keep own' l' kl' a' : kheap_inv own' a' l' kl' ->
  (forall w, spage uown m w -> ~ frees a' l' kl' w) -> (forall x, tpage uown (x / 4096) -> amem a' x = m x) ->
  (forall w p, spage uown m w -> page_maps (km a) w p -> page_maps (km a') w p) -> uspace own' l' kl' uown a'.
Proof using Us.
  intros I Hf Hm Hpm. pose proof Us as [U1 U2 U3 U4 U5 U6 U7]. fold m in U2, U4, U5, U6, U7.
  assert (forall w, walkupt (amem a') base w = walkupt m base w) as Ew by (intros w; by apply keep_walk).
  assert (forall w, spage uown (amem a') w -> spage uown m w) as Es.
  { intros w [?|(v & ? & ?)]; [by left|]. right. exists v. by rewrite <- Ew. }
  split; [done| |done|..].
  - eapply upper_wf; [exact U2|]. eapply tables_upper; [exact U2|by apply keep_tables].
  - intros w Hw%Es. split; [by apply U4|by apply Hf].
  - intros v. rewrite Ew. apply U5.
  - intros v w. rewrite !Ew. apply U6.
  - by apply coherent_keep.
  - apply (us_home _ _ _ _ _ Us).
Qed.

Lemma used_area w : spage uown m w -> area w.
Proof using Us. intros H. by apply (us_used _ _ _ _ _ Us). Qed.

Lemma uspace_mstep own' l' kl' a' R n : mstep own' a a' l l' kl kl' R n -> uspace own' l' kl' uown a'.
Proof using Us.
  intros [I F W Mm K C]. apply uspace_keep; [done|..].
  - intros w Hw. rewrite F. pose proof (proj2 (us_used _ _ _ _ _ Us w Hw)). tauto.
  - intros x Hx. apply Mm. apply (us_used _ _ _ _ _ Us). by left.
  - intros w p Hw. apply K; by apply (us_used _ _ _ _ _ Us).
Qed.

(** Writes to the pages of the space keep the heaps. *)
Lemma heap_write m' : (forall x, frees a l kl (x / 4096) -> m' x = m x) -> kheap_inv own (set_amem m' a) l kl.
Proof using Us. intros H. apply kheap_inv_write; [apply Us|]. intros x Hx. apply H. unfold frees, kheap_free. tauto. Qed.

(** Writes to pages that are free to neither side. *)
Lemma uspace_write m' : (forall x, frees a l kl (x / 4096) \/ tpage uown (x / 4096) -> m' x = m x) ->
  uspace own l kl uown (set_amem m' a).
Proof using Us.
  intros H. apply uspace_keep; [by apply heap_write; eauto|..]; [|by eauto|done].
  intros w Hw. by apply (us_used _ _ _ _ _ Us).
Qed.

(** A page that neither heap nor this space has. *)
Definition fresh (w : Z) : Prop := area w /\ ~ frees a l kl w /\ ~ spage uown m w.

Lemma fresh_own w : fresh w -> uown w = None /\ w <> root /\ 0 < w < 4503599627370495.
Proof using Us.
  intros (Ha & _ & Hs). split; [destruct (uown w) eqn:E; [|done]; destruct Hs; left; right; by rewrite E|].
  split; [intros ->; apply Hs; left; by left|]. unfold area, DMA_BASE, DMA_END, KH_BASE, KH_END in *. lia.
Qed.

(** The words of the root are not in a reference table. *)
Lemma root_word i : 0 <= i < 512 -> (root * 4096 + i * 8) / 4096 = root /\ (root * 4096 + i * 8) mod 8 = 0.
Proof. dlia. Qed.

Lemma level1_words t p r i m' : (forall w, w = t \/ r <= w < r + 2 -> fresh w) -> (forall w, r <= w < r + 2 -> w <> t) ->
  let pte := root * 4096 + i * 8 in let q := base + i * 16 in
  0 <= i < 512 -> table1 base m i = 0 -> (forall x, in_pages t 1 x \/ in_pages r 2 x -> m x = 0) ->
  (forall x, ~ (pte <= x < pte + 8) -> ~ (q <= x < q + 16) -> m' x = m x) ->
  load64 m' pte = PTE p PTE_VALID -> load64 m' q = t * 4096 -> load64 m' (q + 8) = r * 4096 ->
  let u' := added uown t (T1 i) r 2 (R1 i) in
  upt_wf u' base m' /\ (forall w, walkupt m' base w = walkupt m base w) /\ table1 base m' i = t * 4096 /\
  (forall j, 0 <= j < 512 -> table0 base m' i j = 0) /\
  (forall i', 0 <= i' < 512 -> i' <> i -> table1 base m' i' = table1 base m i') /\
  (forall i' j, 0 <= i' < 512 -> 0 <= j < 512 -> i' <> i -> table1 base m i' <> 0 -> table0 base m' i' j = table0 base m i' j).
Proof using Us.
  intros Hf Hrt pte q Hi H1 Hz Hm Hp Hq Hq8. pose proof (us_upt _ _ _ _ _ Us) as W. fold m in W.
  pose proof (us_root _ _ _ _ _ Us) as [Hro _]. pose proof (uw_base _ _ _ W) as Hb.
  destruct (word_16 uown base RBase i 0 Hb Hi (or_introl eq_refl)) as [_ [Hqo Hq8']]. rewrite Z.add_0_r in Hqo, Hq8'. fold q in Hqo, Hq8'.
  destruct (fresh_own t (Hf t (or_introl eq_refl))) as (Ht1 & Ht2 & Ht3).
  destruct (fresh_own r (Hf r ltac:(right; lia))) as (_ & _ & Hr3). destruct (fresh_own (r + 1) (Hf (r + 1) ltac:(right; lia))) as (_ & _ & Hr4).
  apply add_level1; try done; try lia.
  - split; [lia|]. split; [lia|]. intros w Hw. split; [by apply fresh_own, Hf; right|by apply Hrt].
  - intros x Hx. assert (r <= x / 4096 < r + 2) as Hxr by (unfold in_pages in Hx; dlia).
    rewrite Hm; [apply Hz; by right|..].
    + destruct (fresh_own _ (Hf (x / 4096) ltac:(by right))) as (_ & Hne & _). intros Hin. apply Hne. unfold pte in Hin. dlia.
    + destruct (fresh_own _ (Hf (x / 4096) ltac:(by right))) as (Ho & _ & _). intros Hin.
      assert (x / 4096 = q / 4096) as E by (destruct Hb as (Hb & _); unfold q in *; dlia). congruence.
  - intros x tg Hx _ Hnq. apply Hm; [|done]. intros Hin. assert (x / 4096 = root) as E by (unfold pte in Hin; dlia). congruence.
Qed.

(** The pages added to the tables of a space. *)
Lemma added_uspace m' t tt r n rt : 0 <= n -> (forall w, w = t \/ r <= w < r + n -> fresh w) ->
  home tt t -> (forall w, r <= w < r + n -> home rt w) ->
  let u' := added uown t tt r n rt in
  upt_wf u' base m' -> (forall w, walkupt m' base w = walkupt m base w) ->
  (forall x, frees a l kl (x / 4096) -> m' x = m x) -> coherent (page_maps (km a)) m' ->
  uspace own l kl u' (set_amem m' a).
Proof using Us.
  intros Hn Hf Ht1 Hr1 u' W' Ew Hm C. pose proof Us as [U1 U2 U3 U4 U5 U6 U7]. fold m in U2, U4, U5, U6, U7.
  assert (forall w, tpage u' w <-> tpage uown w \/ w = t \/ r <= w < r + n) as Ht.
  { intros w. unfold tpage, u', added. case_decide as D1; [subst; intuition done|]. case_decide as D2; intuition done. }
  assert (forall w, w = t \/ r <= w < r + n -> ~ spage uown m w) as Hns by (intros w Hw; by apply Hf).
  split; [by apply heap_write|done|..].
  - split; [|apply U3]. destruct (u' root) eqn:E; [|done]. exfalso. unfold u', added in E.
    assert (root <> t /\ ~ (r <= root < r + n)) as [D1 D2].
    { split; intros D; (apply (Hns root); [|left; by left]); [by left|by right]. }
    rewrite decide_False in E by done. rewrite decide_False in E by done. destruct U3 as [U3 _]. congruence.
  - intros w Hw. change (amem (set_amem m' a)) with m' in Hw.
    assert (spage uown m w \/ w = t \/ r <= w < r + n) as [Hs|Hs].
    { destruct Hw as [Hw%Ht|(v & E & Hw)]; [destruct Hw; [left; by left|by right]|].
      left. right. exists v. by rewrite <- Ew. }
    + by apply U4.
    + destruct (Hf w Hs) as (? & ? & _). done.
  - intros v. change (amem (set_amem m' a)) with m'. rewrite Ew. intros Hv. destruct (U5 v Hv) as [H1 H2].
    split; [done|]. rewrite Ht. intros [?|Hin]; [done|]. apply (Hns _ Hin). right. by exists v.
  - intros v w. change (amem (set_amem m' a)) with m'. rewrite !Ew. apply U6.
  - exact C.
  - intros w tg. unfold u', added. case_decide as D1; [intros [= <-]; by subst|]. case_decide as D2; [intros [= <-]; by apply Hr1|].
    apply (us_home _ _ _ _ _ Us).
Qed.

(** Words of pages that a step does not write to. *)
Lemma off_word m' pte q x : (forall y, ~ (pte <= y < pte + 8) -> ~ (q <= y < q + 16) -> m' y = m y) ->
  pte mod 8 = 0 -> q mod 16 = 0 -> x mod 8 = 0 ->
  x / 4096 <> pte / 4096 \/ x <> pte -> x / 4096 <> q / 4096 -> load64 m' x = load64 m x.
Proof.
  intros Hm Hp Hq Hx H1 H2. apply load_le_ext. intros y Hy. apply Hm; [|dlia]. destruct H1 as [H1|H1]; dlia.
Qed.

(** The translations and the machine's entries of the pages are the same. *)
Definition same_view (m m' : mem) : Prop :=
  (forall w, walkupt m' base w = walkupt m base w) /\ (forall w, present base m w -> present base m' w /\ leaf base m' w = leaf base m w).

Lemma uspace_level1 t p r i m' : (forall w, w = t \/ r <= w < r + 2 -> fresh w) -> (forall w, r <= w < r + 2 -> w <> t) ->
  let pte := root * 4096 + i * 8 in let q := base + i * 16 in
  0 <= i < 512 -> table1 base m i = 0 -> (forall x, in_pages t 1 x \/ in_pages r 2 x -> m x = 0) ->
  (forall x, ~ (pte <= x < pte + 8) -> ~ (q <= x < q + 16) -> m' x = m x) ->
  load64 m' pte = PTE p PTE_VALID -> load64 m' q = t * 4096 -> load64 m' (q + 8) = r * 4096 ->
  pfn_ok p -> page_maps (km a) t p -> DMA_BASE <= t < DMA_END /\ (forall w, r <= w < r + 2 -> KH_BASE <= w < KH_END) ->
  uspace own l kl (added uown t (T1 i) r 2 (R1 i)) (set_amem m' a) /\ same_view m m' /\ table1 base m' i <> 0 /\
  (forall j, 0 <= j < 512 -> table0 base m' i j = 0) /\ (forall i', 0 <= i' < 512 -> i' <> i -> table1 base m' i' = table1 base m i') /\
  (forall i' j, 0 <= i' < 512 -> 0 <= j < 512 -> i' <> i -> table1 base m i' <> 0 -> table0 base m' i' j = table0 base m i' j).
Proof using Us.
  intros Hf Hrt pte q Hi H1 Hz Hm Hp Hq Hq8 Hpo Hpm Hhome.
  destruct (level1_words t p r i m' Hf Hrt Hi H1 Hz Hm Hp Hq Hq8) as (W' & Ew & E1 & E0 & O1 & O0).
  pose proof (us_upt _ _ _ _ _ Us) as W. fold m in W. pose proof (us_root _ _ _ _ _ Us) as [Hro Hror].
  destruct (fresh_own t (Hf t (or_introl eq_refl))) as (Ht1 & Ht2 & Ht3).
  pose proof (uw_base _ _ _ W) as Hb. destruct (root_word i Hi) as [Hpr Hp8]. fold pte in Hpr, Hp8.
  assert (uown (q / 4096) = Some RBase /\ q mod 16 = 0) as [Hqo Hq16].
  { destruct (word_16 uown base RBase i 0 Hb Hi (or_introl eq_refl)) as [_ [E _]]. rewrite Z.add_0_r in E. split; [done|].
    destruct Hb as (Hb & _). unfold q. dlia. }
  assert (forall x tg, uown (x / 4096) = Some tg -> tg <> RBase -> x mod 8 = 0 -> load64 m' x = load64 m x) as Hoff.
  { intros x tg Ho Hne Hx. apply (off_word m' pte q); [done..|left; intros E|intros E]; congruence. }
  assert (forall v, present base m v -> VPN 2 v <> i) as Hpi by (intros v [Hv _] E; by rewrite E in Hv).
  assert (forall v, present base m v -> leaf base m' v = leaf base m v) as Hleaf.
  { intros v Hv. unfold leaf. assert (upte base m' v = upte base m v) as ->
      by (unfold upte; by rewrite O0 by (apply VPN_range || apply Hv || by apply Hpi)).
    destruct (words_of_page uown base m v W Hv) as [_ [Hw Hw8]]. by rewrite (Hoff _ _ Hw). }
  split; [|split; [split; [done|]|split; [rewrite E1; lia|done]]].
  2: { intros v Hv. split; [|by apply Hleaf]. split; [rewrite O1|rewrite O0]; try apply VPN_range; try apply Hv; by apply Hpi. }
  apply added_uspace; [lia|done|exact (proj1 Hhome)|exact (proj2 Hhome)|done|done|..].
  { intros x Hx. apply Hm; intros Hin.
    - apply (proj2 (us_used _ _ _ _ _ Us root (or_introl (or_introl eq_refl)))). by replace root with (x / 4096) by (unfold pte in Hin; dlia).
    - assert (x / 4096 = q / 4096) as E by dlia. rewrite E in Hx.
      assert (spage uown m (q / 4096)) as Hs by (left; right; by rewrite Hqo). by apply (us_used _ _ _ _ _ Us) in Hs as [_ []]. }
  pose proof (us_coh _ _ _ _ _ Us) as C. pose proof C as [C1 C0 _]. pose proof (fun v => co_leaf uown _ m v W C) as Cl. fold m in C1, C0.
  eapply coherent_intro; [exact W'|..].
  - intros i' Hi'. destruct (decide (i' = i)) as [->|Hne].
    + fold pte. rewrite E1, Hp. split; [lia|]. intros _. exists p. split; [done|]. split; [|done]. by replace (t * 4096 / 4096) with t by dlia.
    + rewrite O1 by done. destruct (root_word i' Hi') as [Hx Hx8].
      rewrite (off_word m' pte q _ Hm Hp8 Hq16 Hx8); [by apply C1|right; unfold pte; lia|congruence].
  - intros i' j Hi' Hj Hn. destruct (decide (i' = i)) as [->|Hne].
    + rewrite E0, E1 by done. split; [|done]. intros _.
      rewrite (off_word m' pte q _ Hm Hp8 Hq16); [|dlia|left; replace ((t * 4096 + j * 8) / 4096) with t by dlia; congruence|
        replace ((t * 4096 + j * 8) / 4096) with t by dlia; congruence].
      apply load64_zero. intros y Hy. apply Hz. left. unfold in_pages. lia.
    + rewrite O1 in * by done. rewrite O0 by done. destruct (uw_1 _ _ _ W i' Hi' Hn) as [_ O].
      destruct (word_8 uown _ _ j O Hj) as [_ [Hw Hw8]]. rewrite (Hoff _ _ Hw) by done. by apply C0.
  - intros v [Hv1 Hv0]. destruct (decide (VPN 2 v = i)) as [E|Hnv]; [rewrite E, E0 in Hv0 by apply VPN_range; done|].
    rewrite O1 in Hv1 by (apply VPN_range || done). rewrite O0 in Hv0 by (apply VPN_range || done).
    rewrite Ew. fold (leaf base m' v). rewrite Hleaf by done. by apply Cl.
Qed.

Lemma level0_words t p r i j m' : (forall w, w = t \/ r <= w < r + 1 -> fresh w) -> r <> t ->
  let pte := table1 base m i + j * 8 in let q := next1 base m i + j * 16 in
  0 <= i < 512 -> 0 <= j < 512 -> table1 base m i <> 0 -> table0 base m i j = 0 ->
  (forall x, in_pages t 1 x \/ in_pages r 1 x -> m x = 0) ->
  (forall x, ~ (pte <= x < pte + 8) -> ~ (q <= x < q + 16) -> m' x = m x) ->
  load64 m' pte = PTE p PTE_VALID -> load64 m' q = t * 4096 -> load64 m' (q + 8) = r * 4096 ->
  uown (pte / 4096) = Some (T1 i) /\ uown (q / 4096) = Some (R1 i) /\ pte mod 8 = 0 /\ q mod 16 = 0 /\
  let u' := added uown t (T0 i j) r 1 (R0 i j) in
  upt_wf u' base m' /\ (forall w, walkupt m' base w = walkupt m base w) /\
  (forall i', 0 <= i' < 512 -> table1 base m' i' = table1 base m i' /\ next1 base m' i' = next1 base m i') /\
  table0 base m' i j = t * 4096 /\
  (forall i' j', 0 <= i' < 512 -> 0 <= j' < 512 -> (i', j') <> (i, j) -> table1 base m i' <> 0 ->
     table0 base m' i' j' = table0 base m i' j').
Proof using Us.
  intros Hf Hrt pte q Hi Hj H1 H0 Hz Hm Hp Hq Hq8. pose proof (us_upt _ _ _ _ _ Us) as W. fold m in W.
  destruct (uw_1 _ _ _ W i Hi H1) as [O1 O1'].
  destruct (word_16 uown _ _ j 0 O1 Hj (or_introl eq_refl)) as [_ [Hqo _]]. rewrite Z.add_0_r in Hqo. fold q in Hqo.
  destruct (word_8 uown _ _ j O1' Hj) as [_ [Hpo Hp8]]. fold pte in Hpo, Hp8.
  assert (q mod 16 = 0) as Hq16 by (destruct O1 as (O1 & _); unfold q; dlia).
  destruct (fresh_own t (Hf t (or_introl eq_refl))) as (Ht1 & Ht2 & Ht3).
  destruct (fresh_own r (Hf r ltac:(right; lia))) as (Hr1 & _ & Hr3).
  split; [done|]. split; [done|]. split; [done|]. split; [done|]. apply add_level0; try done; try lia.
  - split; [lia|]. split; [lia|]. intros w Hw. by replace w with r by lia.
  - intros x Hx. assert (x / 4096 = r) as Hxr by (unfold in_pages in Hx; dlia).
    rewrite Hm; [apply Hz; by right|..]; intros Hin.
    + assert (x / 4096 = pte / 4096) as E by dlia. congruence.
    + assert (x / 4096 = q / 4096) as E by dlia. congruence.
  - intros x tg Hx Htg Hnq. apply Hm; [|done]. intros Hin. assert (x / 4096 = pte / 4096) as E by dlia.
    rewrite E, Hpo in Hx. by injection Hx as <-.
Qed.

Lemma uspace_level0 t p r i j m' : (forall w, w = t \/ r <= w < r + 1 -> fresh w) -> r <> t ->
  let pte := table1 base m i + j * 8 in let q := next1 base m i + j * 16 in
  0 <= i < 512 -> 0 <= j < 512 -> table1 base m i <> 0 -> table0 base m i j = 0 ->
  (forall x, in_pages t 1 x \/ in_pages r 1 x -> m x = 0) ->
  (forall x, ~ (pte <= x < pte + 8) -> ~ (q <= x < q + 16) -> m' x = m x) ->
  load64 m' pte = PTE p PTE_VALID -> load64 m' q = t * 4096 -> load64 m' (q + 8) = r * 4096 ->
  pfn_ok p -> page_maps (km a) t p -> DMA_BASE <= t < DMA_END /\ (forall w, r <= w < r + 1 -> KH_BASE <= w < KH_END) ->
  uspace own l kl (added uown t (T0 i j) r 1 (R0 i j)) (set_amem m' a) /\
  same_view m m' /\ (forall i', 0 <= i' < 512 -> table1 base m' i' = table1 base m i' /\ next1 base m' i' = next1 base m i') /\
  table0 base m' i j <> 0 /\ (forall i' j', 0 <= i' < 512 -> 0 <= j' < 512 -> (i', j') <> (i, j) -> table1 base m i' <> 0 ->
     table0 base m' i' j' = table0 base m i' j').
Proof using Us.
  intros Hf Hrt pte q Hi Hj H1 H0 Hz Hm Hp Hq Hq8 Hpo Hpm Hhome.
  destruct (level0_words t p r i j m' Hf Hrt Hi Hj H1 H0 Hz Hm Hp Hq Hq8) as (Hpt & Hqt & Hp8 & Hq16 & W' & Ew & E1n & E0 & O0).
  assert (forall i', 0 <= i' < 512 -> table1 base m' i' = table1 base m i') as E1 by (intros i' Hi'; by apply E1n).
  fold pte in Hpt, Hp8. fold q in Hqt, Hq16.
  pose proof (us_upt _ _ _ _ _ Us) as W. fold m in W. pose proof (us_root _ _ _ _ _ Us) as [Hro Hror].
  destruct (fresh_own t (Hf t (or_introl eq_refl))) as (Ht1 & Ht2 & Ht3).
  assert (forall x, x mod 8 = 0 -> uown (x / 4096) <> Some (R1 i) -> uown (x / 4096) <> Some (T1 i) \/ x <> pte ->
    load64 m' x = load64 m x) as Hoff.
  { intros x Hx Hr Ht. apply (off_word m' pte q); [done..| |intros E; congruence].
    destruct Ht as [Ht|Ht]; [left; intros E; congruence|by right]. }
  assert (forall v, present base m v -> (VPN 2 v, VPN 1 v) <> (i, j)) as Hpi by (intros v [_ Hv] [= E E']; by rewrite E, E' in Hv).
  assert (forall v, present base m v -> leaf base m' v = leaf base m v) as Hleaf.
  { intros v Hv. unfold leaf. assert (upte base m' v = upte base m v) as ->
      by (unfold upte; by rewrite O0 by (apply VPN_range || apply Hv || by apply Hpi)).
    destruct (words_of_page uown base m v W Hv) as [_ [Hw Hw8]].
    apply Hoff; [done|rewrite Hw; congruence|left; rewrite Hw; congruence]. }
  split; [|split; [split; [done|]|split; [done|split; [rewrite E0; lia|done]]]].
  2: { intros v Hv. split; [|by apply Hleaf]. split; [rewrite E1|rewrite O0]; try apply VPN_range; try apply Hv; by apply Hpi. }
  apply added_uspace; [lia|done|exact (proj1 Hhome)|exact (proj2 Hhome)|done|done|..].
  { intros x Hx. assert (forall y, uown y <> None -> ~ frees a l kl y) as Hu
      by (intros y Hy; apply (us_used _ _ _ _ _ Us); left; by right).
    apply Hm; intros Hin.
    - apply (Hu (x / 4096)); [|done]. replace (x / 4096) with (pte / 4096) by dlia. by rewrite Hpt.
    - apply (Hu (x / 4096)); [|done]. replace (x / 4096) with (q / 4096) by dlia. by rewrite Hqt. }
  pose proof (us_coh _ _ _ _ _ Us) as C. pose proof C as [C1 C0 _]. pose proof (fun v => co_leaf uown _ m v W C) as Cl. fold m in C1, C0.
  eapply coherent_intro; [exact W'|..].
  - intros i' Hi'. rewrite E1 by done. destruct (root_word i' Hi') as [Hx Hx8].
    rewrite Hoff; [by apply C1|done|rewrite Hx; congruence|left; rewrite Hx; congruence].
  - intros i' j' Hi' Hj'. rewrite E1 by done. intros Hn. destruct (uw_1 _ _ _ W i' Hi' Hn) as [_ O].
    destruct (word_8 uown _ _ j' O Hj') as [_ [Hw Hw8]]. destruct (decide ((i', j') = (i, j))) as [E|Hne].
    + injection E as -> ->. rewrite E0. fold pte. rewrite Hp. split; [lia|]. intros _. exists p. split; [done|]. split; [|done].
      by replace (t * 4096 / 4096) with t by dlia.
    + rewrite O0 by done. rewrite Hoff; [by apply C0|done|rewrite Hw; congruence|].
      destruct (decide (i' = i)) as [->|]; [|left; rewrite Hw; congruence]. right. unfold pte. assert (j' <> j) by congruence. lia.
  - intros v [Hv1 Hv0]. rewrite E1 in Hv1 by apply VPN_range. rewrite Ew.
    destruct (decide ((VPN 2 v, VPN 1 v) = (i, j))) as [E|Hnv].
    + injection E as Ei Ej. assert (walkupt m base v = 0) as ->
        by (rewrite walkupt_absent; [done|]; unfold present; rewrite Ei, Ej; tauto).
      split; [|done]. intros _. left. unfold upte. rewrite Ei, Ej, E0. pose proof (VPN_range 0 v).
      rewrite Hoff; [|dlia|replace ((t * 4096 + VPN 0 v * 8) / 4096) with t by dlia; congruence|
        left; replace ((t * 4096 + VPN 0 v * 8) / 4096) with t by dlia; congruence].
      apply load64_zero. intros y Hy. apply Hz. left. unfold in_pages. lia.
    + rewrite O0 in Hv0 by (apply VPN_range || done).
      fold (leaf base m' v). rewrite Hleaf by done. by apply Cl.
Qed.

(** What a page [k] must be for user page [v] to be mapped to it: a page of no
    other use, mapped by the kernel to that frame; or none, for a fixed entry. *)
Definition mappable (v k pfn fl : Z) : Prop :=
  pfn_ok pfn /\ 0 <= fl < 1024 /\
  (k = 0 /\ (forall w, same_page v w -> fixed w (PTE pfn fl)) \/
   DMA_BASE <= k < DMA_END /\ fresh k /\ flags_ok fl /\ page_maps (km a) k pfn).

Lemma coherent_map v k pfn fl : present base m v -> mappable v k pfn fl ->
  let m' := store64 (store64 m (upte base m v) (PTE pfn fl)) (ref0 base m v) k in
  coherent (page_maps (km a)) m' /\
  (forall w, present base m w -> leaf base m' w = if decide (same_page v w) then PTE pfn fl else leaf base m w).
Proof using Us.
  intros Hv (Hp & Hf & Hk) m'. pose proof (us_upt _ _ _ _ _ Us) as W. fold m in W. pose proof (us_root _ _ _ _ _ Us) as [Hro _].
  assert (0 <= k < 18446744073709551616) as Hk64
    by (destruct Hk as [[-> _]|[Hk _]]; [lia|unfold DMA_BASE, DMA_END in Hk; lia]).
  assert (0 <= PTE pfn fl < 18446744073709551616) as Hpte by (unfold pfn_ok in Hp; rewrite PTE_sum by done; lia).
  destruct (map_page uown base m v (PTE pfn fl) k W Hv Hk64 Hpte) as (W' & S & El & Ew).
  fold m' in W', S, El, Ew. destruct (upper_tables uown base m m' W S) as [E1 E0].
  destruct (words_of_page uown base m v W Hv) as [Wr Wp]. pose proof (us_coh _ _ _ _ _ Us) as C. pose proof C as [C1 C0 _]. pose proof (fun v => co_leaf uown _ m v W C) as Cl. fold m in C1, C0.
  assert (forall x t, word_of uown t x -> (forall i j, t <> Some (R0 i j)) ->
    t <> Some (T0 (VPN 2 v) (VPN 1 v)) \/ x <> upte base m v -> load64 m' x = load64 m x) as Hoff.
  { intros x t Hw Hr Ht. unfold m'. rewrite (load_other uown _ _ _ _ _ _ Wr Hw) by (left; apply not_eq_sym, Hr).
    apply (load_other uown _ _ _ _ _ _ Wp Hw). destruct Ht; [left|right]; congruence. }
  assert (forall w, present base m w -> leaf base m' w = if decide (same_page v w) then PTE pfn fl else leaf base m w) as Hleaf.
  { intros w Hw. unfold leaf. destruct (upper_present uown base m m' w W S) as [P R]. destruct (R Hw) as [_ ->]. case_decide as Hs.
    - replace (upte base m w) with (upte base m v) by (destruct Hs as (e2 & e1 & e0); unfold upte; by rewrite e2, e1, e0). done.
    - destruct (words_of_page uown base m w W Hw) as [_ Ww]. apply (Hoff _ _ Ww); [done|].
      destruct (decide (VPN 2 w = VPN 2 v /\ VPN 1 w = VPN 1 v)) as [[e2 e1]|Hne]; [right|left; intros E; apply Hne; by injection E].
      intros E. apply Hs. unfold upte in E. rewrite e2, e1 in E. split; [done|]. split; [done|]. lia. }
  split; [|exact Hleaf]. apply (coherent_intro uown); [exact W'|..].
  - intros i Hi. destruct (E1 i Hi) as [-> _]. destruct (root_word i Hi) as [Hx Hx8].
    rewrite (Hoff _ None); [by apply C1|split; [by rewrite Hx|done]|done|by left].
  - intros i j Hi Hj. destruct (E1 i Hi) as [-> _]. intros Ht. destruct (E0 i j Hi Hj Ht) as [-> _].
    destruct (uw_1 _ _ _ W i Hi Ht) as [_ O]. destruct (word_8 uown _ _ j O Hj) as [_ Hw].
    rewrite (Hoff _ _ Hw); [by apply C0|done|by left].
  - intros w Hw. destruct (upper_present uown base m m' w W S) as [P _]. apply P in Hw.
    rewrite Ew. change (load64 m' (upte base m' w)) with (leaf base m' w). rewrite (Hleaf w Hw). case_decide as Hs; [|by apply Cl].
    + destruct Hk as [[-> Hx]|(Hkr & Hfr & Hfl & Hpm)]; split; intros Hk0; try done.
      * right. by apply Hx.
      * unfold DMA_BASE in Hkr. lia.
      * by exists pfn, fl.
Qed.

Lemma uspace_map v k pfn fl : present base m v -> mappable v k pfn fl ->
  let m' := store64 (store64 m (upte base m v) (PTE pfn fl)) (ref0 base m v) k in
  uspace own l kl uown (set_amem m' a) /\ same_upper base m m' /\
  (forall w, walkupt m' base w = if decide (same_page v w) then k else walkupt m base w) /\
  (forall w, present base m w -> leaf base m' w = if decide (same_page v w) then PTE pfn fl else leaf base m w) /\
  (forall x, uown (x / 4096) = None -> m' x = m x).
Proof using Us.
  intros Hv Hma m'. destruct (coherent_map v k pfn fl Hv Hma) as [C Hlf]. fold m' in C, Hlf. destruct Hma as (Hp & Hf & Hk).
  pose proof Us as [U1 U2 U3 U4 U5 U6 U7]. fold m in U2, U4, U5, U6, U7.
  assert (0 <= k < 18446744073709551616) as Hk64
    by (destruct Hk as [[-> _]|[Hk _]]; [lia|unfold DMA_BASE, DMA_END in Hk; lia]).
  assert (0 <= PTE pfn fl < 18446744073709551616) as Hpte by (unfold pfn_ok in Hp; rewrite PTE_sum by done; lia).
  destruct (map_page uown base m v (PTE pfn fl) k U2 Hv Hk64 Hpte) as (W' & S & El & Ew). fold m' in W', S, El, Ew.
  destruct (words_of_page uown base m v U2 Hv) as [[Or Mr] [Op Mp]].
  assert (forall x, uown (x / 4096) = None -> m' x = m x) as Hm.
  { intros x Hx. unfold m'. rewrite !store64_page; [done|done|congruence|done|congruence]. }
  assert (forall w, spage uown m' w -> spage uown m w \/ w = k /\ k <> 0) as Hs.
  { intros w [Ht|(u & E & Hw)]; [left; by left|]. rewrite Ew in E. case_decide; [right; by subst|left; right; by exists u]. }
  assert (k <> 0 -> DMA_BASE <= k < DMA_END /\ fresh k) as Hfr by (destruct Hk as [[? _]|(? & ? & _)]; done).
  split; [|done]. split; [|done|done|..]; change (amem (set_amem m' a)) with m'.
  - apply heap_write. intros x Hx. apply Hm. destruct (uown (x / 4096)) eqn:E; [|done].
    destruct (proj2 (U4 (x / 4096) ltac:(left; right; by rewrite E)) Hx).
  - intros w [Hw|[-> Hk0]]%Hs; [by apply U4|]. destruct (Hfr Hk0) as (_ & Ha & Hn & _). done.
  - intros u. rewrite Ew. case_decide; [|apply U5]. intros Hk0. destruct (Hfr Hk0) as (Hr & _ & _ & Hn). split; [done|].
    intros Ht. apply Hn. by left.
  - intros u w Hu E. rewrite !Ew in *. case_decide as D1; case_decide as D2.
    + destruct D1 as (? & ? & ?), D2 as (? & ? & ?). repeat split; congruence.
    + exfalso. destruct (Hfr Hu) as (_ & _ & _ & Hn). apply Hn. right. exists w. by rewrite <- E.
    + exfalso. rewrite E in Hu. destruct (Hfr Hu) as (_ & _ & _ & Hn). apply Hn. right. by exists u.
    + by apply U6.
  - exact C.
  - apply (us_home _ _ _ _ _ Us).
Qed.

End Keep.

(** ** What the machine sees

    [tab] is the contents of the frames as page-table entries; the frames of the
    tables hold what the kernel wrote to their pages. *)
Section Machine.
Context (uown : Z -> option utag) (a : A).
Let m := amem a.

Definition sees (tab : Z -> Z -> Z) : Prop :=
  forall w p i, tpage uown w -> page_maps (km a) w p -> 0 <= i < 512 -> tab p i = load64 m (w * 4096 + i * 8).

Lemma sees_table tab x p i tg : sees tab -> owned uown x 1 tg -> page_maps (km a) (x / 4096) p -> 0 <= i < 512 ->
  tab p i = load64 m (x + i * 8).
Proof.
  intros Hs O Hp Hi. rewrite (Hs (x / 4096) p i); [|right; by rewrite (owned_page _ _ _ O)|done|done].
  destruct O as (O & _). f_equal. dlia.
Qed.

Lemma machine_walk tab rp v : upt_wf uown base m -> coherent (page_maps (km a)) m -> sees tab -> page_maps (km a) root rp ->
  (walkupt m base v <> 0 -> exists p, page_maps (km a) (walkupt m base v) p /\ walk tab rp v = Some (p, leaf base m v)) /\
  (walkupt m base v = 0 -> walk tab rp v = None \/ exists e, fixed v e /\ walk tab rp v = Some (pte_ppn e, e)).
Proof.
  intros W C Hs Hrp. pose proof C as [C1 C0 _].
  pose proof (VPN_range 2 v) as H2. pose proof (VPN_range 1 v) as H1. pose proof (VPN_range 0 v) as H0.
  assert (forall p, pfn_ok p -> is_valid (PTE p PTE_VALID) = true /\ is_leaf (PTE p PTE_VALID) = false /\ pte_ppn (PTE p PTE_VALID) = p) as Hval.
  { intros p Hp. unfold pfn_ok in Hp. rewrite is_valid_PTE, is_leaf_PTE, pte_ppn_PTE by (done || unfold PTE_VALID; lia). done. }
  unfold walk. rewrite (Hs root rp _ ltac:(by left) Hrp H2). destruct (C1 _ H2) as [N1 Y1].
  destruct (decide (table1 base m (VPN 2 v) = 0)) as [T1'|T1'].
  { rewrite (N1 T1'). rewrite walkupt_absent by (unfold present; tauto). split; [done|]. intros _. left. reflexivity. }
  destruct (Y1 T1') as (p1 & Hp1 & Pm1 & ->). destruct (Hval p1 Hp1) as (-> & -> & ->). cbn [negb].
  destruct (uw_1 _ _ _ W _ H2 T1') as [_ O1]. rewrite (sees_table tab _ p1 _ _ Hs O1 Pm1 H1).
  destruct (C0 _ _ H2 H1 T1') as [N0 Y0]. destruct (decide (table0 base m (VPN 2 v) (VPN 1 v) = 0)) as [T0'|T0'].
  { rewrite (N0 T0'). rewrite walkupt_absent by (unfold present; tauto). split; [done|]. intros _. left. reflexivity. }
  destruct (Y0 T0') as (p0 & Hp0 & Pm0 & ->). destruct (Hval p0 Hp0) as (-> & -> & ->). cbn [negb].
  destruct (uw_0 _ _ _ W _ _ H2 H1 T1' T0') as [_ O0]. rewrite (sees_table tab _ p0 _ _ Hs O0 Pm0 H0).
  fold (upte base m v) (leaf base m v). destruct (co_leaf uown _ m v W C (conj T1' T0')) as [Nl Yl]. fold (leaf base m v) in Nl, Yl. split; intros Hw.
  - destruct (Yl Hw) as (p & fl & Hp & (Hf & Hfv & Hfl) & Pm & ->). exists p. split; [done|]. unfold pfn_ok in Hp.
    by rewrite is_valid_PTE, is_leaf_PTE, pte_ppn_PTE, Hfv, Hfl by done.
  - destruct (Nl Hw) as [->|Hfx]; [left; reflexivity|].
    destruct (is_valid _ && is_leaf _); [right; eauto|by left].
Qed.
End Machine.
End Space.

(** C6: for a coherent address space the machine, which walks the frames from
    the root table on, and the kernel, whose walkupt walks the reference tables
    by addresses, agree: a user page that walkupt finds at a kernel page is
    translated to the frame of that page, with the entry that the kernel wrote; a
    user page that walkupt does not find is not translated, unless it is one of
    the fixed pages.  Coherence compares the words of the two trees, level by
    level; that walkupt reaches the right word of its tree is proved. *)
Theorem user_walk_agrees fixed root base uown a tab rp v :
  upt_wf uown base (amem a) -> coherent fixed root base (page_maps (km a)) (amem a) ->
  sees root uown a tab -> page_maps (km a) root rp ->
  (walkupt (amem a) base v <> 0 ->
     exists p, page_maps (km a) (walkupt (amem a) base v) p /\ walk tab rp v = Some (p, leaf base (amem a) v)) /\
  (walkupt (amem a) base v = 0 -> walk tab rp v = None \/ exists e, fixed v e /\ walk tab rp v = Some (pte_ppn e, e)).
Proof. apply machine_walk. Qed.

(** ** The process of UserPTProps.v with its machine's tables: the root table at
    the kernel page 300, all kernel pages at the frames of their numbers *)
Definition mw_mem : mem :=
  let m := store64 upt_mem 1228800 (PTE 512 PTE_VALID) in
  let m := store64 m 2097152 (PTE 1024 PTE_VALID) in
  store64 m 4194312 (PTE 1536 23).
Definition id_tab (f i : Z) : Z :=
  if f =? 0 then PTE (1 + i) PTE_VALID
  else if f <=? 512 then PTE (1000 + (f - 1) * 512 + i) PTE_VALID
  else PTE ((f - 1000) * 512 + i) RW.
Definition mw_state : A := mkA (mkK mw_mem id_tab (fun _ => None) 0 0 0 0) 0 0 PTBRK0 KBRK0.

Lemma mw_word x : x mod 8 = 0 -> load64 mw_mem x =
  if x =? 4194312 then PTE 1536 23 else if x =? 2097152 then PTE 1024 PTE_VALID else if x =? 1228800 then PTE 512 PTE_VALID
  else load64 upt_mem x.
Proof.
  intros Hx. unfold mw_mem. destruct (Z.eqb_spec x 4194312) as [->|H1]; [reflexivity|]. rewrite load64_other by dlia.
  destruct (Z.eqb_spec x 2097152) as [->|H2]; [reflexivity|]. rewrite load64_other by dlia.
  destruct (Z.eqb_spec x 1228800) as [->|H3]; [reflexivity|]. by rewrite load64_other by dlia.
Qed.

Lemma mw_upper : same_upper 1048576 upt_mem mw_mem.
Proof.
  assert (forall m x v t, upt_wf upt_own 1048576 m -> word_of upt_own t x -> (forall i, t <> Some (R1 i)) -> t <> Some RBase ->
    upt_wf upt_own 1048576 (store64 m x v) /\ same_upper 1048576 m (store64 m x v)) as H.
  { intros m x v t W Hx H1 H2. pose proof (store_upper upt_own 1048576 m x v t W Hx H1 H2) as S. split; [by eapply upper_wf|done]. }
  destruct (H upt_mem 1228800 (PTE 512 PTE_VALID) None upt_mem_wf) as [W1 S1]; [done..|].
  destruct (H _ 2097152 (PTE 1024 PTE_VALID) (Some (T1 0)) W1) as [W2 S2]; [done..|].
  destruct (H _ 4194312 (PTE 1536 23) (Some (T0 0 0)) W2) as [W3 S3]; [done..|].
  unfold mw_mem. cbv zeta. eapply same_upper_trans; [exact upt_mem_wf|exact S1|]. eapply same_upper_trans; [exact W1|exact S2|exact S3].
Qed.

Lemma mw_maps w : w = 300 \/ w = 512 \/ w = 1024 \/ w = 1536 \/ upt_own w <> None -> page_maps (km mw_state) w w.
Proof.
  intros Hw. assert (w ∈ [300; 512; 1024; 1536; 256; 257; 768; 769; 1280]) as Hin.
  { destruct Hw as [->|[->|[->|[->|Hw]]]]; [set_solver..|]. revert Hw. unfold upt_own.
    zcases; cbn; intros Hw; subst; try done; set_solver. }
  repeat (apply elem_of_cons in Hin as [->|Hin]; [vm_compute; reflexivity|]). by apply elem_of_nil in Hin.
Qed.

Lemma mw_wf : upt_wf upt_own 1048576 mw_mem.
Proof. eapply upper_wf; [exact upt_mem_wf|exact mw_upper]. Qed.

(** The only tables are those of the first entries. *)
Lemma mw_tables : (forall i, 0 <= i < 512 -> table1 1048576 mw_mem i = if i =? 0 then 2097152 else 0) /\
  (forall j, 0 <= j < 512 -> table0 1048576 mw_mem 0 j = if j =? 0 then 4194304 else 0) /\ next0 1048576 mw_mem 0 0 = 5242880.
Proof.
  destruct (upper_tables upt_own 1048576 upt_mem mw_mem upt_mem_wf mw_upper) as [E1 E0].
  pose proof (uw_base _ _ _ upt_mem_wf) as Hb. split; [|split].
  - intros i Hi. rewrite (proj1 (E1 i Hi)). destruct (Z.eqb_spec i 0) as [->|Hn]; [reflexivity|].
    unfold table1, ref_ptable. destruct (word_16 upt_own _ _ i 0 Hb Hi (or_introl eq_refl)) as [-> _]. apply upt_mem_zero; dlia.
  - intros j Hj. assert (table1 1048576 upt_mem 0 <> 0) as H1 by (vm_compute; discriminate).
    rewrite (proj1 (E0 0 j ltac:(lia) Hj H1)). destruct (Z.eqb_spec j 0) as [->|Hn]; [reflexivity|].
    destruct (uw_1 _ _ _ upt_mem_wf 0 ltac:(lia) H1) as [O _]. unfold table0, ref_ptable.
    destruct (word_16 upt_own _ _ j 0 O Hj (or_introl eq_refl)) as [-> _]. change (next1 1048576 upt_mem 0) with 3145728. apply upt_mem_zero; dlia.
  - rewrite (proj2 (E0 0 0 ltac:(lia) ltac:(lia) ltac:(vm_compute; discriminate))). reflexivity.
Qed.

Lemma mw_coherent : coherent (fun _ _ => False) 300 1048576 (page_maps (km mw_state)) mw_mem.
Proof.
  destruct mw_tables as (T1' & T0' & N0).
  pose proof (mw_maps 512 (or_intror (or_introl eq_refl))) as mw_512.
  pose proof (mw_maps 1024 (or_intror (or_intror (or_introl eq_refl)))) as mw_1024.
  assert (forall p, page_maps (km mw_state) p p -> 0 < p < 17592186044416 ->
    names (page_maps (km mw_state)) (PTE p PTE_VALID) (p * 4096)) as Hn.
  { intros p Hm Hp. split; [lia|]. intros _. exists p. replace (p * 4096 / 4096) with p by dlia.
    split; [unfold pfn_ok; lia|]. split; [exact Hm|reflexivity]. }
  apply (coherent_intro _ _ _ upt_own); [exact mw_wf|..].
  - intros i Hi. rewrite T1', mw_word by dlia. destruct (Z.eqb_spec i 0) as [->|Hi0].
    + apply (Hn 512); [exact mw_512|lia].
    + split; [|intros H; destruct (H eq_refl)]. intros _. zcases; try lia. apply upt_mem_zero; dlia.
  - intros i j Hi Hj. rewrite T1' by done. destruct (Z.eqb_spec i 0) as [->|Hi0]; [|intros H; destruct (H eq_refl)]. intros _.
    rewrite T0', mw_word by dlia. destruct (Z.eqb_spec j 0) as [->|Hj0].
    + apply (Hn 1024); [exact mw_1024|lia].
    + split; [|intros H; destruct (H eq_refl)]. intros _. zcases; try lia. apply upt_mem_zero; dlia.
  - intros v Hp. pose proof Hp as [H1 H0]. rewrite T1' in H1 by apply VPN_range.
    destruct (Z.eqb_spec (VPN 2 v) 0) as [V2|]; [|destruct (H1 eq_refl)]. rewrite V2 in H0. rewrite T0' in H0 by apply VPN_range.
    destruct (Z.eqb_spec (VPN 1 v) 0) as [V1|]; [|destruct (H0 eq_refl)]. pose proof (VPN_range 0 v) as V0.
    assert (ref0 1048576 mw_mem v = 5242880 + VPN 0 v * 8) as Er by (unfold ref0; by rewrite V2, V1, N0).
    assert (upte 1048576 mw_mem v = 4194304 + VPN 0 v * 8) as Ep by (unfold upte; rewrite V2, V1; by rewrite (T0' 0 ltac:(lia))).
    assert (walkupt mw_mem 1048576 v = if VPN 0 v =? 1 then 1536 else 0) as Ew.
    { rewrite (walkupt_present upt_own 1048576 mw_mem v mw_wf Hp), Er, mw_word by dlia.
      destruct (Z.eqb_spec (VPN 0 v) 1) as [->|Hk]; [reflexivity|]. zcases; try lia. apply upt_mem_zero; dlia. }
    assert (load64 mw_mem (upte 1048576 mw_mem v) = if VPN 0 v =? 1 then PTE 1536 23 else 0) as El.
    { rewrite Ep, mw_word by dlia.
      destruct (Z.eqb_spec (VPN 0 v) 1) as [->|Hk]; [reflexivity|]. zcases; try lia. apply upt_mem_zero; dlia. }
    rewrite Ew, El. destruct (VPN 0 v =? 1).
    + split; [intros H; discriminate H|]. intros _. exists 1536, 23. split; [unfold pfn_ok; lia|].
      split; [vm_compute; repeat split; discriminate|]. split; [exact (mw_maps 1536 (or_intror (or_intror (or_intror (or_introl eq_refl)))))|reflexivity].
    + split; [intros _; by left|intros H; destruct (H eq_refl)].
Qed.

Lemma user_walk_agrees_witness : exists tab,
  walk tab 300 1 = Some (1536, PTE 1536 23) /\ walk tab 300 2 = None.
Proof.
  set (tab := fun p i => load64 mw_mem (p * 4096 + i * 8)). exists tab.
  assert (sees 300 upt_own mw_state tab) as Hs.
  { intros w p i Hw Hm Hi. unfold tab. assert (page_maps (km mw_state) w w) as Hm' by (apply mw_maps; destruct Hw as [->|Hw]; [by left|do 4 right; exact Hw]).
    unfold page_maps in Hm, Hm'. rewrite Hm' in Hm. by injection Hm as <- _. }
  pose proof (fun v => user_walk_agrees (fun _ _ => False) 300 1048576 upt_own mw_state tab 300 v mw_wf mw_coherent Hs (mw_maps 300 (or_introl eq_refl))) as H.
  split.
  - destruct (proj1 (H 1)) as (p & Hm & E); [vm_compute; discriminate|]. change (walkupt (amem mw_state) 1048576 1) with 1536 in Hm.
    pose proof (mw_maps 1536 (or_intror (or_intror (or_intror (or_introl eq_refl))))) as Hm'. unfold page_maps in Hm, Hm'. rewrite Hm' in Hm. injection Hm as <- _. exact E.
  - destruct (proj2 (H 2)) as [E|(e & [] & _)]; [reflexivity|exact E].
Defined.
