(* ===== verification/SysIo.v ===== *)
(** * read and write

    A file promises to give bytes ([Source]) or to take them ([Sink]) through a
    kernel buffer, wherever the buffer is.  sys_read and sys_write are correct
    for every file that keeps its promise; the standard input, the standard
    output and the regular files of the file system do. *)
From S2P Require Import Prelude Mem World KernelPT PTBits KernelPTSpec KernelPTRec KernelPTProps PTInit Alloc AllocList AllocSpec DmaHeapSpec DmaHeap.
From S2P Require Import KHeapSpec UserPT UserPTProps FsTypes FsCode Files Proc SysFile FdSpec FsFileSpec FsFileProps UserCopy SysIoSpec.
Import KernelPT Alloc UserPT FsTypes FsCode Files Proc SysFile.

(** ** What a file promises to the system calls *)

(** Reading gives the bytes [byte 0], [byte 1], ... and leaves the state [rest]. *)
Class Source (gpu_flush : M F unit) (f : File) (off size : Z) (s rest : F) (byte : Z -> Z) : Prop :=
  source_read : forall a kb, 0 <= kb -> kb + size < 18446744073709551616 ->
    exists m', wrapped_read gpu_flush f off kb size (set_fa a s) = Ret (0, set_fa (set_amem m' a) rest) /\
      forall x, m' x = if decide (kb <= x < kb + size) then byte (x - kb) else amem a x.

(** Writing the bytes [byte 0], [byte 1], ... leaves a state that [Q] admits. *)
Class Sink (f : File) (off size : Z) (s : F) (Q : (Z -> Z) -> F -> Prop) : Prop := {
  sink_size : exists sz, u64 (off + size) <= sz /\ forall a, call_get_size f (set_fa a s) = Ret (sz, set_fa a s);
  sink_write : forall a kb byte, 0 <= kb -> kb + size < 18446744073709551616 ->
    (forall i, 0 <= i < size -> amem a (kb + i) = byte i) ->
    exists rest, wrapped_write f off kb size (set_fa a s) = Ret (0, set_fa a rest) /\ Q byte rest;
}.

Lemma set_fa_twice a a' s : set_fa a (set_fa a' s) = set_fa a s.
Proof. reflexivity. Qed.

Lemma set_fa_id s : set_fa (fa s) s = s.
Proof. by destruct s. Qed.

(** ** The call *)
Section Call.
Context (gpu_flush : M F unit) (fuel : nat).
Context (own : Z -> option node) (l kl : list AllocList.run) (uown : Z -> option utag).
Context (s : P) (p : PCB) (fd : nat) (d : FileDescriptor) (ub size : Z).

(** The running process [p] has the descriptor [d], and a mapped buffer. *)
Record caller : Prop := {
  ca_proc : procs s !! running s = Some p;
  ca_fd : opened_files p !! fd = Some d;
  ca_occupied : occupied d = true;
  ca_space : space_ok own l kl uown (ptref_base (space p)) (fa (pf s));
  ca_buf : 0 <= ub /\ ub + size <= UVPN_END * 4096;
  ca_size : 1 <= size < 1073741824;
  ca_mapped : forall v, ub / 4096 <= v < ub / 4096 + npages ub size ->
    walkupt (pmem s) (ptref_base (space p)) v <> 0;
  ca_room : kheap_room (fa (pf s)) (ADDR_2_PAGEUP size);
}.

(** The memory after the call: the heap has the free pages it had, and the
    process sees [byte] in its buffer and everything else as before. *)
Record mem_done (byte : Z -> Z) (a' : A) : Prop := {
  md_space : exists own' kl', space_ok own' l kl' uown (ptref_base (space p)) a' /\
    forall w, kheap_free a' kl' w <-> kheap_free (fa (pf s)) kl w;
  md_walk : forall v, walkupt (amem a') (ptref_base (space p)) v = walkupt (pmem s) (ptref_base (space p)) v;
  md_user : forall x, 0 <= x / 4096 < UVPN_END -> walkupt (pmem s) (ptref_base (space p)) (x / 4096) <> 0 ->
    ubyte (ptref_base (space p)) (amem a') x =
      if decide (ub <= x < ub + size) then byte (x - ub) else ubyte (ptref_base (space p)) (pmem s) x;
  md_grew : grew (fa (pf s)) a' (ADDR_2_PAGEUP size);
}.

(** The state after the call: the files are as [rest] says and the descriptor
    has moved on. *)
Definition call_done (rest : F) (byte : Z -> Z) (s' : P) : Prop := exists a',
  s' = with_files (running s) fd (set_seek (u64 (seek d + size)) d) (set_pf (set_fa a' rest) s) /\
  mem_done byte a'.

Hypothesis Ca : caller.
Let base := ptref_base (space p).
Let a := fa (pf s).

Lemma buf_page i : 0 <= i < size -> ub / 4096 <= (ub + i) / 4096 < ub / 4096 + npages ub size /\
  0 <= (ub + i) / 4096 < UVPN_END.
Proof using Ca. intros Hi. pose proof (ca_buf Ca). unfold npages, UVPN_END in *. dlia. Qed.

Lemma buf_pages w : ub / 4096 <= w < ub / 4096 + npages ub size -> 0 <= w < UVPN_END.
Proof using Ca. pose proof (ca_buf Ca). pose proof (ca_size Ca). unfold npages, UVPN_END in *. dlia. Qed.

Lemma fd_found : fd_of (procs s) (running s) fd = Some d.
Proof using Ca. apply fd_of_Some. exists p. split; apply Ca. Qed.

Context (own1 : Z -> option node) (kl1 : list AllocList.run) (a1 : A) (v : Z).
Hypothesis B : borrowed own1 l kl kl1 uown base a a1 v (ADDR_2_PAGEUP size).

Lemma buf_range : KH_BASE <= v /\ v * 4096 + size <= KH_END * 4096 /\ size <= ADDR_2_PAGEUP size * 4096.
Proof using Ca B.
  pose proof (size_pages size (ca_size Ca)) as [H1 H2]. pose proof (bw_range _ _ _ _ _ _ _ _ _ _ B).
  pose proof (kh_brk _ _ _ _ (bw_inv _ _ _ _ _ _ _ _ _ _ B)). lia.
Qed.

Lemma in_buf x : v * 4096 <= x < v * 4096 + size -> v <= x / 4096 < v + ADDR_2_PAGEUP size.
Proof using Ca B. pose proof buf_range as (_ & _ & ?). intros. dlia. Qed.

(** The copy into the buffer. *)
Lemma buffer_fill_ok : exists m2, translate_buffer base (v * 4096) ub size true a1 = Ret (tt, set_amem m2 a1) /\
  (forall i, 0 <= i < size -> m2 (v * 4096 + i) = ubyte base (amem a) (ub + i)) /\
  (forall x, ~ (v * 4096 <= x < v * 4096 + size) -> m2 x = amem a1 x).
Proof using Ca B.
  pose proof (ca_space Ca) as So. pose proof (ca_size Ca) as Hs. pose proof buf_range as (R1 & R2 & R3).
  pose proof (ca_buf Ca) as Hb. unfold KH_BASE, KH_END, UVPN_END in *.
  destruct (copy_in_ok uown base (v * 4096) ub size a1) as (a2 & E & Ha & Hm); try lia.
  - exact (borrowed_wf own l kl uown base a size So Hs (ca_room Ca) own1 kl1 a1 v B).
  - intros x Hx. apply (buffer_page own l kl uown base a size So Hs (ca_room Ca) own1 kl1 a1 v B). by apply in_buf.
  - intros w Hw. pose proof (buf_pages w Hw) as Hw'. pose proof (ca_mapped Ca w Hw) as Hn.
    unfold page_in. rewrite (borrowed_walk own l kl uown base a size So Hs (ca_room Ca) own1 kl1 a1 v B).
    destruct (so_page _ _ _ _ _ _ So w Hw' Hn) as (Hr & _). unfold DMA_END, base, a, pmem, fmem in *. lia.
  - exists (amem a2). split; [by rewrite E, Ha|]. split.
    + intros i Hi. rewrite Hm, decide_True by lia. replace (ub + (v * 4096 + i - v * 4096)) with (ub + i) by lia.
      destruct (buf_page i Hi) as [Hw Hw']. apply (borrowed_ubyte own l kl uown base a size So Hs (ca_room Ca) own1 kl1 a1 v B); [done|by apply (ca_mapped Ca)].
    + intros x Hx. by rewrite Hm, decide_False by lia.
Qed.

(** The end of the call, after writes to the buffer and to the process. *)
Lemma finish_ok m byte :
  (forall x, m x = amem a1 x \/ v * 4096 <= x < v * 4096 + size \/
     exists i, 0 <= i < size /\ x = uaddr base (amem a) (ub + i)) ->
  (forall x, 0 <= x / 4096 < UVPN_END -> walkupt (amem a) base (x / 4096) <> 0 ->
     m (uaddr base (amem a) x) = if decide (ub <= x < ub + size) then byte (x - ub) else ubyte base (amem a) x) ->
  exists a', kfree (v * 4096) size (set_amem m a1) = Ret (tt, a') /\ mem_done byte a'.
Proof using Ca B.
  intros Hm Hu. pose proof (ca_space Ca) as So.
  destruct (give_back own l kl uown base a size So (ca_size Ca) (ca_room Ca) own1 kl1 a1 v B m)
    as (a' & E & (kl' & S' & Hf) & Hw & Hx & Hg).
  - intros x. destruct (Hm x) as [?|[Hin|(i & Hi & ->)]]; [by left|right; left|right; right].
    + pose proof buf_range as (_ & _ & ?). unfold in_pages. lia.
    + destruct (buf_page i Hi) as [H1 H2]. exists ((ub + i) / 4096). split; [done|].
      split; [by apply (ca_mapped Ca)|]. unfold uaddr. dlia.
  - exists a'. split; [done|]. split; [by exists own1, kl'|done| |done].
    intros x Hr Hn. fold base. rewrite <- Hu by done.
    assert (uaddr base (amem a') x = uaddr base (amem a) x) as Ea by (unfold uaddr; by rewrite Hw).
    unfold ubyte. rewrite Ea. apply Hx. pose proof (page_low own l kl uown base a So _ Hr Hn).
    unfold uaddr. dlia.
Qed.

(** A memory that differs from [a1]'s in the buffer only. *)
Section Filled.
Context (m : mem).
Hypothesis Hm : forall x, ~ (v * 4096 <= x < v * 4096 + size) -> m x = amem a1 x.

Lemma kept_byte x : 0 <= x / 4096 < UVPN_END -> walkupt (amem a) base (x / 4096) <> 0 ->
  m (uaddr base (amem a) x) = ubyte base (amem a) x.
Proof using Ca B Hm.
  intros Hr Hn. pose proof (ca_space Ca) as So. pose proof (page_low own l kl uown base a So _ Hr Hn) as Hp.
  pose proof buf_range. rewrite Hm by (unfold uaddr; dlia).
  rewrite <- (borrowed_uaddr own l kl uown base a size So (ca_size Ca) (ca_room Ca) own1 kl1 a1 v B).
  by apply (borrowed_ubyte own l kl uown base a size So (ca_size Ca) (ca_room Ca) own1 kl1 a1 v B).
Qed.

(** The end of a call that only read the process's buffer. *)
Lemma keep_ok : exists a', kfree (v * 4096) size (set_amem m a1) = Ret (tt, a') /\
  mem_done (fun i => ubyte base (amem a) (ub + i)) a'.
Proof using Ca B Hm.
  apply finish_ok.
  - intros x. destruct (decide (v * 4096 <= x < v * 4096 + size)); [tauto|]. left. by apply Hm.
  - intros x Hr Hn. rewrite kept_byte by done. case_decide; [f_equal; lia|done].
Qed.

Lemma filled_wf : upt_wf uown base m /\ forall w, walkupt m base w = walkupt (amem a) base w.
Proof using Ca B Hm.
  pose proof (ca_space Ca) as So. pose proof (ca_size Ca) as Hs. pose proof (ca_room Ca) as Hroom.
  assert (same_tables uown (amem a1) m) as St.
  { intros x Hx. apply Hm. intros Hin. apply Hx.
    apply (buffer_page own l kl uown base a size So Hs Hroom own1 kl1 a1 v B). by apply in_buf. }
  pose proof (borrowed_wf own l kl uown base a size So Hs Hroom own1 kl1 a1 v B) as W1. split.
  - eapply upper_wf; [exact W1|by eapply tables_upper].
  - intros w. rewrite (tables_walk uown base (amem a1) m) by done.
    by apply (borrowed_walk own l kl uown base a size So Hs Hroom own1 kl1 a1 v B).
Qed.

Lemma filled_pages : user_pages uown base m (ub / 4096) (npages ub size) /\
  buffer_apart base m (ub / 4096) (npages ub size) (v * 4096) size.
Proof using Ca B Hm.
  pose proof (ca_space Ca) as So. destruct filled_wf as [_ Hw]. pose proof buf_range as (R1 & _).
  assert (forall w, ub / 4096 <= w < ub / 4096 + npages ub size -> 0 < walkupt m base w < DMA_END /\ uown (walkupt m base w) = None) as Hpg.
  { intros w Hin. rewrite Hw. destruct (so_page _ _ _ _ _ _ So w (buf_pages w Hin) (ca_mapped Ca w Hin)) as (? & ? & _). done. }
  unfold KH_BASE, DMA_END in *. split; [split|].
  - intros w Hin. destruct (Hpg w Hin). split; [lia|done].
  - intros w w' H1 H2. rewrite !Hw. intros Heq.
    apply (so_inj _ _ _ _ _ _ So); [by apply buf_pages..|by apply (ca_mapped Ca)|done].
  - intros w Hin. destruct (Hpg w Hin). lia.
Qed.

(** Distinct user addresses are distinct bytes. *)
Lemma uaddr_inj x i : 0 <= x / 4096 < UVPN_END -> walkupt (amem a) base (x / 4096) <> 0 -> 0 <= i < size ->
  uaddr base (amem a) x = uaddr base (amem a) (ub + i) -> x = ub + i.
Proof using Ca.
  intros Hr Hn Hi. destruct (buf_page i Hi) as [_ Hr']. unfold uaddr. intros Heq.
  assert (x / 4096 = (ub + i) / 4096) as Hq by (apply (so_inj _ _ _ _ _ _ (ca_space Ca)); [done..|fold base a; dlia]).
  fold base a in Heq. rewrite Hq in Heq. dlia.
Qed.

(** The copy to the process and the end of the call. *)
Lemma drain_ok : exists m3 a',
  translate_buffer base (v * 4096) ub size false (set_amem m a1) = Ret (tt, set_amem m3 a1) /\
  kfree (v * 4096) size (set_amem m3 a1) = Ret (tt, a') /\ mem_done (fun i => m (v * 4096 + i)) a'.
Proof using Ca B Hm.
  destruct filled_wf as [W Hw]. destruct filled_pages as [Hup Hap]. pose proof buf_range as (R1 & R2 & _).
  pose proof (ca_buf Ca). pose proof (ca_size Ca). unfold KH_BASE, KH_END, UVPN_END in *.
  assert (forall x, uaddr base m x = uaddr base (amem a) x) as Hua by (intros x; unfold uaddr; by rewrite Hw).
  destruct (copy_out_ok uown base (v * 4096) ub size (set_amem m a1) W) as (a3 & E & Ha & _ & Hw3 & Hin & Hout); try done; try lia.
  change (amem (set_amem m a1)) with m in *.
  exists (amem a3). destruct (finish_ok (amem a3) (fun i => m (v * 4096 + i))) as (a' & Ef & D);
    [..|by exists a'; rewrite E, Ha].
  - intros x. destruct (decide (v * 4096 <= x < v * 4096 + size)) as [?|Hn]; [tauto|].
    destruct (decide (Exists (fun i => x = uaddr base (amem a) (ub + i)) (seqZ 0 size))) as [Hx|Hx].
    + right. right. apply Exists_exists in Hx as (i & Hi & Hx). apply elem_of_seqZ in Hi. exists i. split; [lia|done].
    + left. rewrite Hout; [by apply Hm|]. intros i Hi Heq. apply Hx, Exists_exists. exists i.
      rewrite elem_of_seqZ, <- Hua. split; [lia|done].
  - intros x Hr Hn. case_decide as Hx.
    + specialize (Hin (x - ub) ltac:(lia)). replace (ub + (x - ub)) with x in Hin by lia.
      rewrite <- Hin. unfold ubyte, uaddr. by rewrite Hw3, Hw.
    + rewrite Hout; [by apply kept_byte|]. intros i Hi. rewrite Hua. intros Heq%uaddr_inj; [lia|done..].
Qed.
End Filled.
End Call.

(** ** sys_read and sys_write

    The two calls for every file that keeps its promise ([Source], [Sink]), and
    then for the files of the system: the standard input and output and the
    regular files. *)
Import KernelPT Alloc UserPT FsTypes FsCode Files Proc SysFile.

Lemma in_pf_run {X} (c : M F X) s x f : c (pf s) = Ret (x, f) -> in_pf c s = Ret (x, set_pf f s).
Proof. intros E. unfold in_pf. by rewrite E. Qed.

Lemma in_pa_run {X} (c : M A X) s x a : c (fa (pf s)) = Ret (x, a) -> in_pa c s = Ret (x, set_pf (set_fa a (pf s)) s).
Proof. intros E. unfold in_pa. apply in_pf_run. unfold in_fa. by rewrite E. Qed.

Lemma set_pf_id s : set_pf (pf s) s = s.
Proof. by destruct s. Qed.

(** The access mode of the descriptor lets the call through. *)
Definition may_read (d : FileDescriptor) : Prop :=
  O_ACCMODE (open_flags d) = O_RDWR \/ O_ACCMODE (open_flags d) = O_RDONLY.
Definition may_write (d : FileDescriptor) : Prop :=
  O_ACCMODE (open_flags d) = O_RDWR \/ O_ACCMODE (open_flags d) = O_WRONLY.

Lemma mode_check x y m : m = x \/ m = y -> negb (m =? x) && negb (m =? y) = false.
Proof. intros [->| ->]; rewrite Z.eqb_refl; [done|]. apply andb_false_r. Qed.

Section Calls.
Context (gpu_flush : M F unit) (fuel : nat).
Context (own : Z -> option node) (l kl : list AllocList.run) (uown : Z -> option utag).
Context (s : P) (p : PCB) (fd : nat) (d : FileDescriptor) (ub size : Z).
Hypothesis Ca : caller own l kl uown s p fd d ub size.

Lemma cur_proc {X} (k : nat -> PCB -> M P X) : (i ← cur; q ← get_proc i; k i q) s = k (running s) p s.
Proof using Ca. mstep. unfold get_proc, mbind, M_bind, gets, lift. by rewrite (ca_proc _ _ _ _ _ _ _ _ _ _ Ca). Qed.

Lemma sys_read_ok rest byte : may_read d -> Source gpu_flush (file d) (seek d) size (pf s) rest byte ->
  exists s', sys_read true gpu_flush (Z.of_nat fd) ub size s = Ret (Value 0, s') /\
    call_done l kl uown s p fd d ub size rest byte s'.
Proof using Ca.
  intros Hmay Src. unfold sys_read. rewrite cur_proc.
  pose proof (fd_found _ _ _ _ _ _ _ _ _ _ Ca) as Hfd.
  rewrite (bind_ret_l _ _ _ _ _ (get_fd_run s fd d Hfd)), (ca_occupied _ _ _ _ _ _ _ _ _ _ Ca).
  cbn [negb]. rewrite mode_check by done. pose proof (ca_size _ _ _ _ _ _ _ _ _ _ Ca) as Hs.
  destruct (borrow_ok own l kl uown _ (fa (pf s)) size (ca_space _ _ _ _ _ _ _ _ _ _ Ca) Hs (ca_room _ _ _ _ _ _ _ _ _ _ Ca))
    as (own1 & a1 & kl1 & v & Ek & B).
  destruct (buf_range own l kl uown s p fd d ub size Ca own1 kl1 a1 v B) as (R1 & R2 & _). unfold KH_BASE, KH_END in *.
  rewrite (bind_ret_l _ _ _ _ _ (in_pa_run _ _ _ _ Ek)).
  destruct (source_read a1 (v * 4096)) as (m & Er & Hm); [lia..|].
  rewrite (bind_ret_l _ _ _ _ _ (in_pf_run _ (set_pf (set_fa a1 (pf s)) s) _ _ Er)). change (i32 0 <? 0) with false. cbn [negb].
  destruct (drain_ok own l kl uown s p fd d ub size Ca own1 kl1 a1 v B m) as (m3 & a' & Et & Ef & D).
  { intros x Hx. by rewrite Hm, decide_False. }
  set (sr := set_pf (set_fa (set_amem m a1) rest) (set_pf (set_fa a1 (pf s)) s)).
  rewrite (bind_ret_l _ _ _ _ _ (in_pa_run _ sr _ _ Et)).
  rewrite (bind_ret_l _ _ _ _ _ (in_pa_run _ (set_pf (set_fa (set_amem m3 a1) (pf sr)) sr) _ _ Ef)).
  erewrite bind_ret_l; [|apply (upd_fd_run _ fd d); exact Hfd].
  eexists. split; [reflexivity|]. exists a'. split; [done|].
  destruct D as [D1 D2 D3 D4]. split; try done. intros x Hx Hn. rewrite D3 by done. case_decide; [|done].
  rewrite Hm, decide_True by lia. f_equal. lia.
Qed.

Lemma sys_write_ok Q : may_write d -> Sink (file d) (seek d) size (pf s) Q ->
  exists s' rest, sys_write true fuel (Z.of_nat fd) ub size s = Ret (Value 0, s') /\
    let byte i := ubyte (ptref_base (space p)) (pmem s) (ub + i) in
    Q byte rest /\ call_done l kl uown s p fd d ub size rest byte s'.
Proof using Ca.
  intros Hmay Snk. unfold sys_write. rewrite cur_proc.
  pose proof (fd_found _ _ _ _ _ _ _ _ _ _ Ca) as Hfd.
  rewrite (bind_ret_l _ _ _ _ _ (get_fd_run s fd d Hfd)), (ca_occupied _ _ _ _ _ _ _ _ _ _ Ca).
  cbn [negb]. rewrite mode_check by done. pose proof (ca_size _ _ _ _ _ _ _ _ _ _ Ca) as Hs.
  destruct sink_size as (sz & Hsz & Esz). specialize (Esz (fa (pf s))). rewrite set_fa_id in Esz.
  rewrite (bind_ret_l _ _ _ _ _ (in_pf_run _ _ _ _ Esz)), set_pf_id, (proj2 (Z.ltb_ge _ _) Hsz).
  destruct (borrow_ok own l kl uown _ (fa (pf s)) size (ca_space _ _ _ _ _ _ _ _ _ _ Ca) Hs (ca_room _ _ _ _ _ _ _ _ _ _ Ca))
    as (own1 & a1 & kl1 & v & Ek & B).
  destruct (buf_range own l kl uown s p fd d ub size Ca own1 kl1 a1 v B) as (R1 & R2 & _). unfold KH_BASE, KH_END in *.
  rewrite (bind_ret_l _ _ _ _ _ (in_pa_run _ _ _ _ Ek)).
  destruct (buffer_fill_ok own l kl uown s p fd d ub size Ca own1 kl1 a1 v B) as (m2 & Et & Hin & Hout).
  rewrite (bind_ret_l _ _ _ _ _ (in_pa_run _ (set_pf (set_fa a1 (pf s)) s) _ _ Et)).
  destruct (sink_write (set_amem m2 a1) (v * 4096) (fun i => ubyte (ptref_base (space p)) (pmem s) (ub + i)))
    as (rest & Ew & Hq); [lia..|exact Hin|].
  set (sw := set_pf (set_fa (set_amem m2 a1) (pf s)) s).
  rewrite (bind_ret_l _ _ _ _ _ (in_pf_run _ sw _ _ Ew)).
  destruct (keep_ok own l kl uown s p fd d ub size Ca own1 kl1 a1 v B m2 Hout) as (a' & Ef & D).
  rewrite (bind_ret_l _ _ _ _ _ (in_pa_run _ (set_pf (set_fa (set_amem m2 a1) rest) sw) _ _ Ef)).
  erewrite bind_ret_l; [|apply (upd_fd_run _ fd d); exact Hfd].
  eexists _, rest. split; [reflexivity|]. split; [done|]. by exists a'.
Qed.
End Calls.
