(* ===== verification/UMap.v ===== *)
(** * Growing an address space: uptmap and sys_sbrk

    uptmap adds the missing levels of the two trees and maps one page; sys_sbrk
    maps fresh pages one after the other. *)
From S2P Require Import Sample.
From S2P Require Import Prelude Mem World KernelPT PTBits KernelPTSpec KernelPTRec KernelPTProps PTInit.
From S2P Require Import Alloc AllocList AllocSpec DmaHeapSpec DmaHeap KHeapSpec UserPT UserPTProps UserCopy SysIoSpec AddrSpace.
From S2P Require Import FsTypes FsCode Files Proc SysProc SchedProps SysIo.
Import KernelPT Alloc UserPT FsTypes FsCode Files Proc SysProc.

(** ** The stores of a new level *)
Section Stores.
Context (m : mem) (pte q v1 v2 v3 : Z).
Hypothesis Hp : pte mod 8 = 0.
Hypothesis Hq : q mod 16 = 0.
Hypothesis Hpq : pte / 4096 <> q / 4096.
Hypothesis H1 : 0 <= v1 < 18446744073709551616.
Hypothesis H2 : 0 <= v2 < 18446744073709551616.
Hypothesis H3 : 0 <= v3 < 18446744073709551616.

Definition level_stored (m' : mem) : Prop :=
  (forall x, ~ (pte <= x < pte + 8) -> ~ (q <= x < q + 16) -> m' x = m x) /\
  load64 m' pte = v1 /\ load64 m' q = v2 /\ load64 m' (q + 8) = v3.

Lemma map_order : level_stored (store64 (store64 (store64 m pte v1) q v2) (q + 8) v3).
Proof using All.
  split; [intros x Hx Hx'; unfold store64; rewrite !store_le_outside by lia; done|].
  split; [rewrite !load64_other by dlia; by apply load64_same|].
  split; [rewrite load64_other by dlia; by apply load64_same|by apply load64_same].
Qed.

Lemma copy_order : level_stored (store64 (store64 (store64 m (q + 8) v3) q v2) pte v1).
Proof using All.
  split; [intros x Hx Hx'; unfold store64; rewrite !store_le_outside by lia; done|].
  split; [by apply load64_same|].
  split; [rewrite load64_other by dlia; by apply load64_same|rewrite !load64_other by dlia; by apply load64_same].
Qed.
End Stores.

(** ** The pages that a copy of a space takes

    One for each page, one and a reference table for each table. *)
Fixpoint total (n : nat) (i : Z) (c : Z -> Z) : Z :=
  match n with
  | O => 0
  | S k => c i + total k (i + 1) c
  end.

Lemma total_nonneg c n i : (forall i, 0 <= c i) -> 0 <= total n i c.
Proof. intros Hc. revert i. induction n as [|n IH]; intros i; cbn [total]; [lia|]. specialize (Hc i). specialize (IH (i + 1)). lia. Qed.

(** The user page with the indices [i], [j], [k]. *)
Definition upage (i j k : Z) : Z := i * 262144 + j * 512 + k.
Lemma upage_VPN i j k : 0 <= i < 512 -> 0 <= j < 512 -> 0 <= k < 512 ->
  VPN 2 (upage i j k) = i /\ VPN 1 (upage i j k) = j /\ VPN 0 (upage i j k) = k.
Proof. intros. unfold upage. rewrite VPN2, VPN1, VPN0. dlia. Qed.

Definition pages_cost (base : Z) (m : mem) (i j : Z) : Z := total 512 0 (fun k => if walkupt m base (upage i j k) =? 0 then 0 else 1).
Definition tables_cost (base : Z) (m : mem) (i : Z) : Z :=
  total 512 0 (fun j => if table0 base m i j =? 0 then 0 else 2 + pages_cost base m i j).
Definition copy_cost (base : Z) (m : mem) : Z :=
  total 512 0 (fun i => if table1 base m i =? 0 then 0 else 3 + tables_cost base m i).

Lemma pages_cost_nonneg base m i j : 0 <= pages_cost base m i j.
Proof. apply total_nonneg. intros k. by destruct (_ =? 0). Qed.
Lemma tables_cost_nonneg base m i : 0 <= tables_cost base m i.
Proof. apply total_nonneg. intros j. pose proof (pages_cost_nonneg base m i j). destruct (_ =? 0); lia. Qed.

Lemma total_ext c c' n : forall i, (forall i', i <= i' < i + Z.of_nat n -> c i' = c' i') -> total n i c = total n i c'.
Proof. induction n as [|n IH]; intros i H; cbn [total]; [done|]. rewrite (H i) by lia. f_equal. apply IH. intros i' Hi'. apply H. lia. Qed.

Lemma copy_cost_same uown base m m' : upt_wf uown base m -> same_tables uown m m' -> copy_cost base m' = copy_cost base m.
Proof.
  intros W St. destruct (upper_tables uown base m m' W (tables_upper uown base _ _ W St)) as [E1 E0].
  apply total_ext. intros i Hi. destruct (E1 i ltac:(lia)) as [-> _].
  destruct (Z.eqb_spec (table1 base m i) 0) as [|H1]; [done|]. f_equal. apply total_ext. intros j Hj.
  destruct (E0 i j ltac:(lia) ltac:(lia) H1) as [-> _]. destruct (_ =? 0); [done|]. f_equal. apply total_ext. intros k Hk.
  by rewrite (tables_walk uown base m m' _ W St).
Qed.

Lemma total_zero c n i : (forall i', i <= i' < i + Z.of_nat n -> c i' = 0) -> total n i c = 0.
Proof. intros H. rewrite (total_ext c (fun _ => 0) n i H). clear H. revert i. induction n as [|n IH]; intros i; cbn [total]; [done|]. by rewrite IH. Qed.

(** A sum with one term changed. *)
Lemma total_bump c c' x d n : forall i, (forall i', i <= i' < i + Z.of_nat n -> i' <> x -> c' i' = c i') -> 0 <= d ->
  (i <= x < i + Z.of_nat n -> c' x <= c x + d) -> total n i c' <= total n i c + d.
Proof.
  induction n as [|n IH]; intros i Hne Hd Hx; cbn [total]; [lia|]. destruct (decide (i = x)) as [->|Hn].
  - specialize (Hx ltac:(lia)). rewrite (total_ext c' c n (x + 1)); [lia|]. intros i' Hi'. apply Hne; lia.
  - rewrite (Hne i) by lia. specialize (IH (i + 1)). lapply IH; [|intros i' Hi'; apply Hne; lia]. intros IH'. specialize (IH' Hd).
    lapply IH'; [lia|]. intros Hi'. apply Hx. lia.
Qed.

Section Cost.
Context (base : Z) (m m' : mem).

Lemma cost_table i : (forall j, 0 <= j < 512 -> table0 base m' i j = table0 base m i j) ->
  (forall w, walkupt m' base w = walkupt m base w) -> tables_cost base m' i = tables_cost base m i.
Proof.
  intros H0 Hw. apply total_ext. intros j Hj. rewrite H0 by lia. destruct (_ =? 0); [done|]. f_equal. apply total_ext. intros k Hk. by rewrite Hw.
Qed.

Lemma cost_level1 i : 0 <= i < 512 -> table1 base m i = 0 -> (forall j, 0 <= j < 512 -> table0 base m' i j = 0) ->
  (forall i', 0 <= i' < 512 -> i' <> i -> table1 base m' i' = table1 base m i') ->
  (forall i' j, 0 <= i' < 512 -> 0 <= j < 512 -> i' <> i -> table1 base m i' <> 0 -> table0 base m' i' j = table0 base m i' j) ->
  (forall w, walkupt m' base w = walkupt m base w) -> copy_cost base m' <= copy_cost base m + 3.
Proof.
  intros Hi H1 H0 Ho1 Ho0 Hw. apply (total_bump _ _ i); [|lia|].
  - intros i' Hi' Hne. rewrite Ho1 by lia. destruct (Z.eqb_spec (table1 base m i') 0) as [|Hn]; [done|]. f_equal.
    apply cost_table; [|done]. intros j Hj. apply Ho0; lia.
  - intros _. rewrite H1. cbn [Z.eqb]. destruct (_ =? 0); [lia|].
    enough (tables_cost base m' i = 0) by lia. apply total_zero. intros j Hj. by rewrite H0 by lia.
Qed.

Lemma cost_level0 i j : 0 <= i < 512 -> 0 <= j < 512 -> (forall i', 0 <= i' < 512 -> table1 base m' i' = table1 base m i') ->
  table0 base m i j = 0 ->
  (forall i' j', 0 <= i' < 512 -> 0 <= j' < 512 -> (i', j') <> (i, j) -> table1 base m i' <> 0 -> table0 base m' i' j' = table0 base m i' j') ->
  (forall w, walkupt m' base w = walkupt m base w) -> copy_cost base m' <= copy_cost base m + 2.
Proof.
  intros Hi Hj Ho1 H0 Ho0 Hw. apply (total_bump _ _ i); [|lia|].
  - intros i' Hi' Hne. rewrite Ho1 by lia. destruct (Z.eqb_spec (table1 base m i') 0) as [|Hn]; [done|]. f_equal.
    apply cost_table; [|done]. intros j' Hj'. apply Ho0; [lia|lia| |done]. congruence.
  - intros _. rewrite Ho1 by lia. destruct (Z.eqb_spec (table1 base m i) 0) as [|Hn]; [lia|].
    enough (tables_cost base m' i <= tables_cost base m i + 2) by lia. apply (total_bump _ _ j); [|lia|].
    + intros j' Hj' Hne. rewrite Ho0; [|lia|lia|congruence|done]. destruct (_ =? 0); [done|]. f_equal. apply total_ext. intros k Hk. by rewrite Hw.
    + intros _. rewrite H0. cbn [Z.eqb]. destruct (_ =? 0); [lia|].
      enough (pages_cost base m' i j = 0) by lia. apply total_zero. intros k Hk. rewrite Hw.
      rewrite walkupt_absent; [done|]. destruct (upage_VPN i j k Hi Hj ltac:(lia)) as (V2 & V1 & _). intros [_ Hx]. by rewrite V2, V1 in Hx.
Qed.

Lemma cost_map v k : (forall i, 0 <= i < 512 -> table1 base m' i = table1 base m i) ->
  (forall i j, 0 <= i < 512 -> 0 <= j < 512 -> table1 base m i <> 0 -> table0 base m' i j = table0 base m i j) ->
  (forall w, walkupt m' base w = if decide (same_page v w) then k else walkupt m base w) -> copy_cost base m' <= copy_cost base m + 1.
Proof.
  intros H1 H0 Hw.
  assert (forall i j k', 0 <= i < 512 -> 0 <= j < 512 -> 0 <= k' < 512 -> (i, j, k') <> (VPN 2 v, VPN 1 v, VPN 0 v) ->
    walkupt m' base (upage i j k') = walkupt m base (upage i j k')) as Hne.
  { intros i j k' Hi Hj Hk Hn. rewrite Hw, decide_False; [done|]. intros (E2 & E1 & E0).
    destruct (upage_VPN i j k' Hi Hj Hk) as (V2 & V1 & V0). congruence. }
  apply (total_bump _ _ (VPN 2 v)); [|lia|].
  - intros i Hi Hn. rewrite H1 by lia. destruct (Z.eqb_spec (table1 base m i) 0) as [|H]; [done|]. f_equal. apply total_ext. intros j Hj.
    rewrite H0 by (lia || done). destruct (_ =? 0); [done|]. f_equal. apply total_ext. intros k' Hk. by rewrite Hne by (lia || congruence).
  - intros _. pose proof (VPN_range 2 v) as Hi. rewrite H1 by done. destruct (Z.eqb_spec (table1 base m (VPN 2 v)) 0) as [|H]; [lia|].
    enough (tables_cost base m' (VPN 2 v) <= tables_cost base m (VPN 2 v) + 1) by lia. apply (total_bump _ _ (VPN 1 v)); [|lia|].
    + intros j Hj Hn. rewrite H0 by (lia || done). destruct (_ =? 0); [done|]. f_equal. apply total_ext. intros k' Hk. by rewrite Hne by (lia || congruence).
    + intros _. rewrite H0 by (apply VPN_range || done). destruct (_ =? 0); [lia|].
      enough (pages_cost base m' (VPN 2 v) (VPN 1 v) <= pages_cost base m (VPN 2 v) (VPN 1 v) + 1) by lia. apply (total_bump _ _ (VPN 0 v)); [|lia|].
      * intros k' Hk Hn. by rewrite Hne by (apply VPN_range || lia || congruence).
      * intros _. destruct (_ =? 0), (_ =? 0); lia.
Qed.
End Cost.

(** A cleared page and a cleared run of [n] pages of the kernel heap. *)
Lemma pair_alloc own l kl a size n : kheap_inv own a l kl -> ADDR_2_PAGEUP size = n -> 1 <= size < 1073741824 ->
  1 <= n -> room a (1 + n) ->
  exists own' l' kl' a1 a' p t r, dmalloc true 1 true a = Ret ((p, t), a1) /\ kalloc true size a1 = Ret (r * 4096, a') /\
    mstep own' a a' l l' kl kl' (fun w => w = t \/ r <= w < r + n) (1 + n) /\
    DMA_BASE <= t < DMA_END /\ KH_BASE <= r /\ r + n <= KH_END /\
    (forall x, in_pages t 1 x \/ in_pages r n x -> amem a' x = 0) /\ pfn_ok p /\ page_maps (km a') t p.
Proof.
  intros I Hn Hs Hn1 Hr.
  destruct (page_alloc own a l kl true I ltac:(eapply room_mono; [exact Hr|lia]))
    as (own1 & a1 & l1 & p & t & E1 & S1 & Ht & Hp & Hpm & Hz1).
  pose proof (cost_room a a1 1 n (ms_cost _ _ _ _ _ _ _ _ _ S1) Hr) as Hr1.
  destruct (heap_alloc own1 a1 l1 kl size (ms_inv _ _ _ _ _ _ _ _ _ S1) Hs ltac:(by rewrite Hn))
    as (own2 & a2 & kl2 & r & E2 & S2 & Hr2 & Hr3 & Hz2). rewrite Hn in *.
  exists own2, l1, kl2, a1, a2, p, t, r. split; [done|]. split; [done|].
  split; [exact (mstep_trans _ _ _ _ _ _ _ _ _ _ _ _ _ _ _ S1 S2)|]. split; [done|]. split; [done|]. split; [done|].
  assert (~ frees a1 l1 kl t) as Htf by (intros Hf; by apply (ms_free _ _ _ _ _ _ _ _ _ S1) in Hf as [_ []]).
  split; [|split; [done|]].
  - intros x [Hx|Hx]; [|by apply Hz2]. rewrite (ms_mem _ _ _ _ _ _ _ _ _ S2); [by apply Hz1|].
    by replace (x / 4096) with t by (unfold in_pages in Hx; dlia).
  - apply (ms_keep _ _ _ _ _ _ _ _ _ S2); [left; lia|done|done].
Qed.

Section Grow.
Context (fixed : Z -> Z -> Prop) (root base : Z).
Notation uspace := (uspace fixed root base).
Notation spage := (spage root base).
Notation tpage := (tpage root).

Lemma mstep_tables own own' l l' kl kl' uown a a' R n : uspace own l kl uown a -> mstep own' a a' l l' kl kl' R n ->
  same_tables uown (amem a) (amem a').
Proof. intros Us S x Hx. apply (ms_mem _ _ _ _ _ _ _ _ _ S), (us_used _ _ _ _ _ _ _ _ Us). left. by right. Qed.

Lemma mstep_walk own own' l l' kl kl' uown a a' R n w : uspace own l kl uown a -> mstep own' a a' l l' kl kl' R n ->
  walkupt (amem a') base w = walkupt (amem a) base w.
Proof. intros Us S. eapply tables_walk; [apply Us|by eapply mstep_tables]. Qed.

Lemma tables_leaf uown m m' v : upt_wf uown base m -> same_tables uown m m' -> present base m v ->
  present base m' v /\ leaf base m' v = leaf base m v.
Proof.
  intros W St Hv. pose proof (tables_upper uown base m m' W St) as U. destruct (upper_present uown base m m' v W U) as [P R].
  split; [by apply P|]. unfold leaf. destruct (R Hv) as [_ ->]. eapply word_same; [exact St|]. by apply words_of_page.
Qed.

Lemma mstep_view own own' l l' kl kl' uown a a' R n : uspace own l kl uown a -> mstep own' a a' l l' kl kl' R n ->
  same_view base (amem a) (amem a').
Proof.
  intros Us S. split; [intros w; by eapply mstep_walk|]. intros w Hw.
  eapply tables_leaf; [apply Us|by eapply mstep_tables|done].
Qed.

(** The pages that a step takes are of no use yet. *)
Lemma mstep_fresh own own' l l' kl kl' uown a a' R n w : uspace own l kl uown a -> mstep own' a a' l l' kl kl' R n ->
  R w -> area w -> fresh root base l' kl' uown a' w.
Proof.
  intros Us S Hw Ha. split; [done|]. split; [intros Hf; by apply (ms_free _ _ _ _ _ _ _ _ _ S) in Hf as [_ []]|].
  intros Hsp. assert (spage uown (amem a) w) as Hsa.
  { destruct Hsp as [?|(v & Ev & ?)]; [by left|]. right. exists v. split; [|done]. rewrite <- Ev. symmetry. by eapply mstep_walk. }
  apply (us_used _ _ _ _ _ _ _ _ Us) in Hsa as [_ []]. by apply (ms_was _ _ _ _ _ _ _ _ _ S).
Qed.

(** A table page and a reference table of [n] pages for a space. *)
Lemma alloc_pair own l kl uown a size n : uspace own l kl uown a -> ADDR_2_PAGEUP size = n -> 1 <= size < 1073741824 ->
  1 <= n -> room a (1 + n) ->
  exists own' l' kl' a1 a' p t r, dmalloc true 1 true a = Ret ((p, t), a1) /\ kalloc true size a1 = Ret (r * 4096, a') /\
    mstep own' a a' l l' kl kl' (fun w => w = t \/ r <= w < r + n) (1 + n) /\ uspace own' l' kl' uown a' /\
    (forall w, w = t \/ r <= w < r + n -> fresh root base l' kl' uown a' w) /\ (forall w, r <= w < r + n -> w <> t) /\
    (forall x, in_pages t 1 x \/ in_pages r n x -> amem a' x = 0) /\ pfn_ok p /\ page_maps (km a') t p /\
    (DMA_BASE <= t < DMA_END /\ (forall w, r <= w < r + n -> KH_BASE <= w < KH_END)) /\
    (0 < t < 4503599627370495 /\ 0 < r < 4503599627370495).
Proof.
  intros Us Hn Hs Hn1 Hr.
  destruct (pair_alloc own l kl a size n (us_heap _ _ _ _ _ _ _ _ Us) Hn Hs Hn1 Hr)
    as (own' & l' & kl' & a1 & a' & p & t & r & E1 & E2 & S & Ht & Hr1 & Hr2 & Hz & Hp & Hpm).
  exists own', l', kl', a1, a', p, t, r. split; [done|]. split; [done|]. split; [done|].
  split; [exact (uspace_mstep fixed root base own l kl uown a Us _ _ _ _ _ _ S)|]. split.
  { intros w Hw. eapply mstep_fresh; [exact Us|exact S|cbn; lia|]. destruct Hw as [->|Hw]; [left; lia|right; lia]. }
  unfold DMA_BASE, DMA_END, KH_BASE, KH_END in *. split; [lia|]. split; [done|]. split; [done|]. split; [done|]. split; [split; lia|]. lia.
Qed.

(** A space after some steps that took free pages, and pages [K] that were not
    free, into its tables and its pages. *)
Record ugrown (own' : Z -> option node) (l l' kl kl' : list AllocList.run) (uown uown' : Z -> option utag) (a a' : A) (K : Z -> Prop) (n : Z) : Prop := {
  gr_space : uspace own' l' kl' uown' a';
  gr_mem : forall x, ~ frees a l kl (x / 4096) -> ~ tpage uown (x / 4096) -> amem a' x = amem a x;
  gr_frees : forall w, frees a' l' kl' w -> frees a l kl w;
  gr_new : forall w, spage uown' (amem a') w -> spage uown (amem a) w \/ frees a l kl w \/ K w;
  gr_table : forall w, tpage uown' w -> tpage uown w \/ frees a l kl w;
  gr_keep : forall w p, area w -> ~ frees a l kl w -> page_maps (km a) w p -> page_maps (km a') w p;
  gr_cost : cost a a' n;
}.

Definition same_walk (a a' : A) : Prop := same_view base (amem a) (amem a').

Lemma grown_refl own l kl uown a n : uspace own l kl uown a -> 0 <= n -> ugrown own l l kl kl uown uown a a (fun _ => False) n.
Proof. intros Us Hn. split; try done; try (by left). unfold cost. lia. Qed.

Lemma ugrown_trans own1 own2 l l1 l2 kl kl1 kl2 u u1 u2 a a1 a2 K1 K2 n1 n2 :
  ugrown own1 l l1 kl kl1 u u1 a a1 K1 n1 -> ugrown own2 l1 l2 kl1 kl2 u1 u2 a1 a2 K2 n2 ->
  ugrown own2 l l2 kl kl2 u u2 a a2 (fun w => K1 w \/ K2 w) (n1 + n2).
Proof.
  intros [A1 A2 A3 A4 A5 A6 A7] [B1 B2 B3 B4 B5 B6 B7]. split; [done|..].
  - intros x Hx Ht. rewrite B2, A2; [done|done|done|naive_solver|]. intros Hu. apply A5 in Hu. tauto.
  - eauto.
  - intros w Hw. destruct (B4 w Hw) as [H|[H|H]]; [|right; left; by apply A3|by right; right; right].
    destruct (A4 w H) as [?|[?|?]]; auto.
  - intros w Hw. destruct (B5 w Hw) as [H|H]; [|right; by apply A3]. by apply A5.
  - intros w p Ha Hf Hm. apply B6; [done|naive_solver|by apply A6].
  - unfold cost in *. lia.
Qed.

Lemma grown_weaken own' l l' kl kl' u u' a a' (K K' : Z -> Prop) n n' :
  ugrown own' l l' kl kl' u u' a a' K n -> (forall w, K w -> K' w \/ frees a l kl w) -> n <= n' -> ugrown own' l l' kl kl' u u' a a' K' n'.
Proof.
  intros [A1 A2 A3 A4 A5 A6 A7] HK Hn. split; try done.
  - intros w Hw. destruct (A4 w Hw) as [?|[?|Hk]]; [auto..|]. destruct (HK w Hk); auto.
  - unfold cost in *. lia.
Qed.

Lemma mstep_grown own own' l l' kl kl' uown a a' R n : uspace own l kl uown a -> mstep own' a a' l l' kl kl' R n ->
  ugrown own' l l' kl kl' uown uown a a' (fun _ => False) n /\ same_walk a a'.
Proof.
  intros Us S. assert (same_walk a a') as Sw by (by eapply mstep_view). split; [|done].
  pose proof S as [I F W Mm K C]. split; try done; try (by left).
  - by eapply uspace_mstep.
  - intros x Hx _. by apply Mm.
  - intros w. rewrite F. tauto.
  - intros w [?|(v & E & Hw)]; left; [by left|right]. exists v. by rewrite <- (proj1 Sw v).
Qed.

(** Other spaces stay. *)
Lemma grown_other own' l l' kl kl' u u' a a' K n fixed2 root2 base2 own u2 :
  ugrown own' l l' kl kl' u u' a a' K n -> AddrSpace.uspace fixed2 root2 base2 own l kl u2 a ->
  (forall w, AddrSpace.spage root2 base2 u2 (amem a) w -> ~ tpage u w) -> AddrSpace.uspace fixed2 root2 base2 own' l' kl' u2 a'.
Proof.
  intros G U2 Hd. eapply uspace_keep; [exact U2|apply (gr_space _ _ _ _ _ _ _ _ _ _ _ G)|..].
  - intros w Hw Hf. apply (gr_frees _ _ _ _ _ _ _ _ _ _ _ G) in Hf. by apply (us_used _ _ _ _ _ _ _ _ U2) in Hw as [_ []].
  - intros x Hx. assert (AddrSpace.spage root2 base2 u2 (amem a) (x / 4096)) as Hs by by left.
    apply (gr_mem _ _ _ _ _ _ _ _ _ _ _ G); [by apply (us_used _ _ _ _ _ _ _ _ U2)|by apply Hd].
  - intros w p Hw. apply (gr_keep _ _ _ _ _ _ _ _ _ _ _ G); by apply (us_used _ _ _ _ _ _ _ _ U2).
Qed.

(** An allocation followed by the three stores of a level. *)
Lemma grown_level own own' l l' kl kl' uown a a' t r n k tt rt m' : uspace own l kl uown a ->
  mstep own' a a' l l' kl kl' (fun w => w = t \/ r <= w < r + n) k ->
  uspace own' l' kl' (added uown t tt r n rt) (set_amem m' a') -> same_view base (amem a') m' ->
  (forall x, ~ tpage uown (x / 4096) -> m' x = amem a' x) ->
  ugrown own' l l' kl kl' uown (added uown t tt r n rt) a (set_amem m' a') (fun _ => False) k /\ same_walk a (set_amem m' a').
Proof.
  intros Us S Us' [Ew El] Hm. pose proof S as [I F W Mm K C].
  assert (forall w, walkupt (amem a') base w = walkupt (amem a) base w) as Ew'.
  { intros w. by eapply mstep_walk. }
  assert (forall w, tpage (added uown t tt r n rt) w -> tpage uown w \/ frees a l kl w) as Ht.
  { intros w [->|Hw]; [left; by left|]. unfold added in Hw. case_decide; [right; apply W; by left|].
    case_decide; [right; apply W; by right|left; by right]. }
  split; [split|]; try done.
  - intros x Hx Hnt. change (m' x = amem a x). rewrite Hm by done. by apply Mm.
  - intros w Hw. change (frees a' l' kl' w) in Hw. rewrite F in Hw. tauto.
  - intros w [Hw%Ht|(v & E & Hw)]; [destruct Hw; [left; by left|tauto]|]. left. right. exists v. split; [|done].
    change (walkupt m' base v = w) in E. by rewrite <- E, Ew, Ew'.
  - split; [intros w; change (walkupt m' base w = walkupt (amem a) base w); by rewrite Ew, Ew'|].
    intros w Hw. change (present base m' w /\ leaf base m' w = leaf base (amem a) w).
    destruct (tables_leaf uown (amem a) (amem a') w (us_upt _ _ _ _ _ _ _ _ Us) (mstep_tables _ _ _ _ _ _ _ _ _ _ _ Us S) Hw) as [Hp <-].
    by apply El.
Qed.

(** The pages of a new level and what the stores of its entry make of them. *)
Definition new_level (own : Z -> option node) (l kl : list AllocList.run) (uown : Z -> option utag) (a : A) (pte q size k : Z) (post : mem -> Prop) : Prop :=
  exists own' l' kl' a1 a2 p t r, dmalloc true 1 true a = Ret ((p, t), a1) /\ kalloc true size a1 = Ret (r * 4096, a2) /\
    pte mod 8 = 0 /\ q mod 16 = 0 /\ pte / 4096 <> q / 4096 /\ pfn_ok p /\ 0 < t < 4503599627370495 /\ 0 < r < 4503599627370495 /\
    forall m', level_stored (amem a2) pte q (PTE p PTE_VALID) (t * 4096) (r * 4096) m' ->
      exists uown', ugrown own' l l' kl kl' uown uown' a (set_amem m' a2) (fun _ => False) k /\ same_walk a (set_amem m' a2) /\ post m'.

Lemma new_level1 own l kl uown a i : uspace own l kl uown a -> room a 3 -> 0 <= i < 512 -> table1 base (amem a) i = 0 ->
  new_level own l kl uown a (root * 4096 + i * 8) (base + i * 16) 8192 3
    (fun m' => table1 base m' i <> 0 /\ (forall j, 0 <= j < 512 -> table0 base m' i j = 0) /\
       (forall i', 0 <= i' < 512 -> i' <> i -> table1 base m' i' = table1 base (amem a) i') /\
       (forall i' j, 0 <= i' < 512 -> 0 <= j < 512 -> i' <> i -> table1 base (amem a) i' <> 0 -> table0 base m' i' j = table0 base (amem a) i' j)).
Proof.
  intros Us Hr Hi H1.
  destruct (alloc_pair own l kl uown a 8192 2 Us eq_refl ltac:(lia) ltac:(lia) Hr)
    as (own' & l' & kl' & a1 & a2 & p & t & r & E1 & E2 & S & Us2 & Hf & Hrt & Hz & Hp & Hpm & Hhome & Ht & Hr').
  exists own', l', kl', a1, a2, p, t, r. split; [done|]. split; [done|].
  pose proof (us_root _ _ _ _ _ _ _ _ Us2) as [Hro _]. pose proof (us_upt _ _ _ _ _ _ _ _ Us2) as W2.
  pose proof (uw_base _ _ _ W2) as Hb.
  destruct (word_16 uown base RBase i 0 Hb Hi (or_introl eq_refl)) as [_ [Hqo _]]. rewrite Z.add_0_r in Hqo.
  destruct (root_word root i Hi) as [Hpr Hp8].
  split; [done|]. split; [destruct Hb as (Hb & _); dlia|]. split; [rewrite Hpr; congruence|].
  split; [done|]. split; [done|]. split; [done|]. intros m' (Hm & L1 & L2 & L3).
  pose proof (mstep_tables _ _ _ _ _ _ _ _ _ _ _ Us S) as St. pose proof (us_upt _ _ _ _ _ _ _ _ Us) as W.
  destruct (upper_tables uown base _ _ W (tables_upper uown base _ _ W St)) as [T1' T0'].
  assert (table1 base (amem a2) i = 0) as H1' by (by destruct (T1' i Hi) as [-> _]).
  destruct (uspace_level1 fixed root base own' l' kl' uown a2 Us2 t p r i m' Hf Hrt Hi H1' Hz Hm L1 L2 L3 Hp Hpm Hhome) as (Us3 & Ew & Hn & Hn0 & Hno & Hno0).
  eexists. destruct (grown_level own own' l l' kl kl' uown a a2 t r 2 3 _ _ m' Us S Us3 Ew) as [G Sw];
    [|split; [done|split; [done|split; [done|split; [done|split]]]]].
  2: { intros i' Hi' Hne. destruct (T1' i' Hi') as [<- _]. by apply Hno. }
  2: { intros i' j Hi' Hj Hne Ht1. destruct (T0' i' j Hi' Hj Ht1) as [<- _]. rewrite <- (proj1 (T1' i' Hi')) in Ht1. by apply Hno0. }
  intros x Hx. apply Hm; intros Hin; apply Hx; [left; dlia|right]. replace (x / 4096) with ((base + i * 16) / 4096) by (destruct Hb as (Hb & _); dlia).
  by rewrite Hqo.
Qed.

Lemma new_level0 own l kl uown a i j : uspace own l kl uown a -> room a 2 -> 0 <= i < 512 -> 0 <= j < 512 ->
  table1 base (amem a) i <> 0 -> table0 base (amem a) i j = 0 ->
  new_level own l kl uown a (table1 base (amem a) i + j * 8) (next1 base (amem a) i + j * 16) 4096 2
    (fun m' => (forall i', 0 <= i' < 512 -> table1 base m' i' = table1 base (amem a) i' /\ next1 base m' i' = next1 base (amem a) i') /\
       table0 base m' i j <> 0 /\ (forall i' j', 0 <= i' < 512 -> 0 <= j' < 512 -> (i', j') <> (i, j) -> table1 base (amem a) i' <> 0 ->
         table0 base m' i' j' = table0 base (amem a) i' j')).
Proof.
  intros Us Hr Hi Hj H1 H0.
  destruct (alloc_pair own l kl uown a 4096 1 Us eq_refl ltac:(lia) ltac:(lia) Hr)
    as (own' & l' & kl' & a1 & a2 & p & t & r & E1 & E2 & S & Us2 & Hf & Hrt & Hz & Hp & Hpm & Hhome & Ht & Hr').
  exists own', l', kl', a1, a2, p, t, r. split; [done|]. split; [done|].
  pose proof (us_upt _ _ _ _ _ _ _ _ Us) as W.
  pose proof (mstep_tables _ _ _ _ _ _ _ _ _ _ _ Us S) as St.
  pose proof (upper_tables uown base _ _ W (tables_upper uown base _ _ W St)) as [T1' T0'].
  destruct (T1' i Hi) as [Et En]. destruct (T0' i j Hi Hj H1) as [Et0 _].
  destruct (uw_1 _ _ _ W i Hi H1) as [O1 O1'].
  destruct (word_16 uown _ _ j 0 O1 Hj (or_introl eq_refl)) as [_ [Hqo _]]. rewrite Z.add_0_r in Hqo.
  destruct (word_8 uown _ _ j O1' Hj) as [_ [Hpo Hp8]].
  split; [done|]. split; [destruct O1 as (O1 & _); dlia|]. split; [congruence|].
  split; [done|]. split; [done|]. split; [done|]. intros m' (Hm & L1 & L2 & L3).
  destruct (uspace_level0 fixed root base own' l' kl' uown a2 Us2 t p r i j m') as (Us3 & Ew & Ht3 & Hn & Hno);
    rewrite ?Et, ?En, ?Et0; try done; [apply Hrt; lia|].
  assert (forall i', 0 <= i' < 512 -> table1 base m' i' = table1 base (amem a) i' /\ next1 base m' i' = next1 base (amem a) i') as Ht4.
  { intros i' Hi'. destruct (T1' i' Hi') as [<- <-]. by apply Ht3. }
  eexists. destruct (grown_level own own' l l' kl kl' uown a a2 t r 1 2 _ _ m' Us S Us3 Ew) as [G Sw];
    [|split; [done|split; [done|split; [done|split; [done|]]]]].
  2: { intros i' j' Hi' Hj' Hne Ht1. destruct (T0' i' j' Hi' Hj' Ht1) as [<- _]. rewrite <- (proj1 (T1' i' Hi')) in Ht1. by apply Hno. }
  intros x Hx. apply Hm; intros Hin; apply Hx; right.
  - replace (x / 4096) with ((table1 base (amem a) i + j * 8) / 4096) by (destruct O1' as (O1' & _); dlia). by rewrite Hpo.
  - replace (x / 4096) with ((next1 base (amem a) i + j * 16) / 4096) by (destruct O1 as (O1 & _); dlia). by rewrite Hqo.
Qed.

Lemma upt_level_new own l kl uown a pte q size k post : new_level own l kl uown a pte q size k post -> load64 (amem a) q = 0 ->
  exists own' l' kl' uown' a', upt_level true pte q size a = Ret (tt, a') /\
    ugrown own' l l' kl kl' uown uown' a a' (fun _ => False) k /\ same_walk a a' /\ post (amem a').
Proof.
  intros (own' & l' & kl' & a1 & a2 & p & t & r & E1 & E2 & Hp & Hq & Hpq & Hpo & Ht & Hr & Hnew) H0.
  assert (0 <= PTE p PTE_VALID < 18446744073709551616) as Hpte
    by (unfold pfn_ok in Hpo; rewrite PTE_sum by (done || unfold PTE_VALID; lia); unfold PTE_VALID; lia).
  destruct (Hnew _ (map_order (amem a2) pte q (PTE p PTE_VALID) (t * 4096) (r * 4096) Hp Hq Hpq Hpte ltac:(lia) ltac:(lia)))
    as (uown' & G & Sw & Po).
  exists own', l', kl', uown'. eexists. split; [|by split].
  unfold upt_level. rewrite (bind_ret_l _ _ _ _ _ (get64_run q a)), H0. change (0 =? 0) with true. cbv iota.
  rewrite (bind_ret_l _ _ _ _ _ E1). cbv beta iota. rewrite (bind_ret_l _ _ _ _ _ E2).
  rewrite PAGE_2_ADDR_small by lia. by destruct a2 as [[]].
Qed.

Lemma present_same_upper m m' uown v : upt_wf uown base m -> same_upper base m m' -> present base m v -> present base m' v.
Proof. intros W S. by apply (upper_present uown base m m' v W S). Qed.

(** The middle level of a user page, present afterwards. *)
Lemma ensure_level1 own l kl uown a i : uspace own l kl uown a -> room a 3 -> 0 <= i < 512 ->
  exists own' l' kl' uown' a', upt_level true (root * 4096 + i * 8) (ref_entry base i) 8192 a = Ret (tt, a') /\
    ugrown own' l l' kl kl' uown uown' a a' (fun _ => False) 3 /\ same_walk a a' /\ table1 base (amem a') i <> 0 /\
    copy_cost base (amem a') <= copy_cost base (amem a) + 3.
Proof.
  intros Us Hr Hi. destruct (word_16 uown base RBase i 0 (uw_base _ _ _ (us_upt _ _ _ _ _ _ _ _ Us)) Hi (or_introl eq_refl)) as [Ee _].
  destruct (decide (table1 base (amem a) i = 0)) as [H1|H1].
  - pose proof (new_level1 own l kl uown a i Us Hr Hi H1) as Hn. unfold table1, ref_ptable in H1. rewrite Ee in *.
    destruct (upt_level_new own l kl uown a _ _ _ _ _ Hn H1) as (own' & l' & kl' & u' & a' & E & G & Sw & Hp & Hz & Ho1 & Ho0).
    exists own', l', kl', u', a'. do 4 (split; [done|]). apply (cost_level1 base _ _ i); try done; [|apply Sw].
    unfold table1, ref_ptable. by rewrite Ee.
  - exists own, l, kl, uown, a. split; [by apply upt_level_present|]. split; [apply grown_refl; [done|lia]|]. do 2 (split; [done|]). lia.
Qed.

Lemma ensure_level0 own l kl uown a i j : uspace own l kl uown a -> room a 2 -> 0 <= i < 512 -> 0 <= j < 512 -> table1 base (amem a) i <> 0 ->
  exists own' l' kl' uown' a',
    upt_level true (pte_in (table1 base (amem a) i) j) (ref_entry (next1 base (amem a) i) j) 4096 a = Ret (tt, a') /\
    ugrown own' l l' kl kl' uown uown' a a' (fun _ => False) 2 /\ same_walk a a' /\
    (forall i', 0 <= i' < 512 -> table1 base (amem a') i' = table1 base (amem a) i' /\ next1 base (amem a') i' = next1 base (amem a) i') /\
    table0 base (amem a') i j <> 0 /\ copy_cost base (amem a') <= copy_cost base (amem a) + 2.
Proof.
  intros Us Hr Hi Hj H1. destruct (uw_1 _ _ _ (us_upt _ _ _ _ _ _ _ _ Us) i Hi H1) as [O1 O1'].
  destruct (pte_word uown _ _ j O1' Hj) as [-> _]. destruct (word_16 uown _ _ j 0 O1 Hj (or_introl eq_refl)) as [Ee _].
  destruct (decide (table0 base (amem a) i j = 0)) as [H0|H0].
  - pose proof (new_level0 own l kl uown a i j Us Hr Hi Hj H1 H0) as Hn. unfold table0, ref_ptable in H0. rewrite Ee in *.
    destruct (upt_level_new own l kl uown a _ _ _ _ _ Hn H0) as (own' & l' & kl' & u' & a' & E & G & Sw & Ht & Hp & Ho0).
    exists own', l', kl', u', a'. do 5 (split; [done|]). apply (cost_level0 base _ _ i j); try done; [|by unfold table0, ref_ptable; rewrite Ee|apply Sw].
    intros i' Hi'. by apply Ht.
  - exists own, l, kl, uown, a. split; [by apply upt_level_present|]. split; [apply grown_refl; [done|lia]|]. do 3 (split; [done|]). lia.
Qed.

Lemma mappable_grown own' l l' kl kl' uown uown' a a' n v k pfn fl :
  ugrown own' l l' kl kl' uown uown' a a' (fun _ => False) n -> mappable fixed root base l kl uown a v k pfn fl ->
  mappable fixed root base l' kl' uown' a' v k pfn fl.
Proof.
  intros G (Hp & Hf & Hk). split; [done|]. split; [done|]. destruct Hk as [Hk|(Hr & (Ha & Hn & Hs) & Hfl & Hpm)]; [by left|right].
  split; [done|]. split; [|split; [done|by apply (gr_keep _ _ _ _ _ _ _ _ _ _ _ G)]]. split; [done|]. split.
  - intros Hx. by apply Hn, (gr_frees _ _ _ _ _ _ _ _ _ _ _ G).
  - intros Hx. destruct (gr_new _ _ _ _ _ _ _ _ _ _ _ G _ Hx) as [?|[?|?]]; done.
Qed.

(** Mapping a page when its levels are there. *)
Lemma map_present own l kl uown a v k pfn fl : uspace own l kl uown a -> present base (amem a) v ->
  mappable fixed root base l kl uown a v k pfn fl ->
  let m' := store64 (store64 (amem a) (upte base (amem a) v) (PTE pfn fl)) (ref0 base (amem a) v) k in
  ugrown own l l kl kl uown uown a (set_amem m' a) (fun w => w = k /\ k <> 0) 0 /\
  (forall w, walkupt m' base w = if decide (same_page v w) then k else walkupt (amem a) base w) /\
  (forall w, present base (amem a) w -> leaf base m' w = if decide (same_page v w) then PTE pfn fl else leaf base (amem a) w) /\
  same_upper base (amem a) m'.
Proof.
  intros Us Hv Hm m'. destruct (uspace_map fixed root base own l kl uown a Us v k pfn fl Hv Hm) as (Us' & S & Ew & El & Hx).
  fold m' in Us', S, Ew, El, Hx. split; [|done]. split; try done.
  - intros x _ Ht. apply Hx. destruct (uown (x / 4096)) eqn:E; [|done]. destruct Ht. right. by rewrite E.
  - intros w [?|(u & E & Hw)]; [left; by left|]. change (walkupt m' base u = w) in E. rewrite Ew in E.
    case_decide; [right; right; by subst|left; right; by exists u].
  - by left.
  - unfold cost, brk_page, kbrk_page. cbn. lia.
Qed.

Lemma uptmap_grows own l kl uown a v k pfn fl : uspace own l kl uown a -> room a 5 -> mappable fixed root base l kl uown a v k pfn fl ->
  exists own' l' kl' uown' a', uptmap true root base k v pfn fl a = Ret (tt, a') /\
    ugrown own' l l' kl kl' uown uown' a a' (fun w => w = k /\ k <> 0) 5 /\
    (forall w, walkupt (amem a') base w = if decide (same_page v w) then k else walkupt (amem a) base w) /\
    leaf base (amem a') v = PTE pfn fl /\
    (forall w, present base (amem a) w -> present base (amem a') w /\ (~ same_page v w -> leaf base (amem a') w = leaf base (amem a) w)) /\
    copy_cost base (amem a') <= copy_cost base (amem a) + 6.
Proof.
  intros Us Hr Hm. pose proof (VPN_range 2 v) as H2. pose proof (VPN_range 1 v) as Hv1.
  destruct (ensure_level1 own l kl uown a (VPN 2 v) Us ltac:(eapply room_mono; [exact Hr|lia]) H2)
    as (own1 & l1 & kl1 & u1 & a1 & E1 & G1 & S1 & T1' & Q1).
  pose proof (gr_space _ _ _ _ _ _ _ _ _ _ _ G1) as Us1.
  destruct (ensure_level0 own1 l1 kl1 u1 a1 (VPN 2 v) (VPN 1 v) Us1 (cost_room a a1 3 2 (gr_cost _ _ _ _ _ _ _ _ _ _ _ G1) Hr) H2 Hv1 T1')
    as (own2 & l2 & kl2 & u2 & a2 & E2 & G2 & S2 & Hkeep & T2b & Q2).
  destruct (Hkeep _ H2) as [Et En]. assert (present base (amem a2) v) as T2 by (split; [by rewrite Et|done]).
  pose proof (gr_space _ _ _ _ _ _ _ _ _ _ _ G2) as Us2.
  pose proof (mappable_grown _ _ _ _ _ _ _ _ _ _ _ _ _ _ G2 (mappable_grown _ _ _ _ _ _ _ _ _ _ _ _ _ _ G1 Hm)) as Hm2.
  destruct (map_present own2 l2 kl2 u2 a2 v k pfn fl Us2 T2 Hm2) as (G3 & Ew & El & Su).
  exists own2, l2, kl2, u2. eexists. split; [|split; [|]].
  - unfold uptmap. replace (ADDR root (Z.shiftl (VPN 2 v) 3)) with (root * 4096 + VPN 2 v * 8).
    2: { rewrite Z.shiftl_mul_pow2 by lia. change (2 ^ 3) with 8.
         pose proof (us_root _ _ _ _ _ _ _ _ Us) as [_ Hro]. unfold ADDR, DMA_BASE, DMA_END, PAGESIZE in *.
         by rewrite u64_small by lia. }
    change (2 * PAGESIZE) with 8192. rewrite (bind_ret_l _ _ _ _ _ E1).
    rewrite !(bind_ret_l _ _ _ _ _ (get64_run _ a1)). change PAGESIZE with 4096.
    change (load64 (amem a1) (ref_entry base (VPN 2 v))) with (table1 base (amem a1) (VPN 2 v)).
    change (load64 (amem a1) (ref_entry base (VPN 2 v) + 8)) with (next1 base (amem a1) (VPN 2 v)).
    rewrite (bind_ret_l _ _ _ _ _ E2). rewrite !(bind_ret_l _ _ _ _ _ (get64_run _ a2)).
    destruct (load64_ref u2 base (amem a2) v (us_upt _ _ _ _ _ _ _ _ Us2) T2) as (_ & L0 & Lp & Lr).
    change (load64 (amem a2) (ref_entry base (VPN 2 v) + 8)) with (next1 base (amem a2) (VPN 2 v)) in L0. rewrite En in L0.
    rewrite L0, Lp. replace (load64 (amem a2) (ref_entry (next1 base (amem a1) (VPN 2 v)) (VPN 1 v) + 8))
      with (next0 base (amem a2) (VPN 2 v) (VPN 1 v)) by (unfold next0, ref_next; by rewrite En).
    rewrite Lr. by destruct a2 as [[]].
  - eapply grown_weaken; [eapply ugrown_trans; [eapply ugrown_trans; [exact G1|exact G2]|exact G3]| |lia].
    intros w [[[]|[]]|Hw]. by left.
  - change (amem (set_amem ?x a2)) with x. split; [|split; [|split]].
    + intros w. rewrite Ew. case_decide; [done|]. by rewrite (proj1 S2 w), (proj1 S1 w).
    + rewrite El by done. by rewrite decide_True.
    + intros w Hw. destruct (proj2 S1 w Hw) as [Hw1 L1]. destruct (proj2 S2 w Hw1) as [Hw2 L2].
      split; [by eapply present_same_upper; [apply Us2|exact Su|]|]. intros Hn. rewrite El by done. rewrite decide_False by done. by rewrite L2.
    + destruct (upper_tables u2 base (amem a2) _ (us_upt _ _ _ _ _ _ _ _ Us2) Su) as [U1 U0].
      etransitivity; [exact (cost_map base (amem a2) _ v k (fun i Hi => proj1 (U1 i Hi)) (fun i j Hi Hj H => proj1 (U0 i j Hi Hj H)) Ew)|]. lia.
Qed.
End Grow.

(** ** The empty space

    A cleared table and a cleared reference table, as load_process, sys_fork and
    sys_execve begin with. *)
Definition base_only (r w : Z) : option utag := if decide (r <= w < r + 2) then Some RBase else None.

Lemma empty_space fixed own l kl a t r : kheap_inv own a l kl -> DMA_BASE <= t < DMA_END -> KH_BASE <= r -> r + 2 <= KH_END ->
  (forall w, w = t \/ r <= w < r + 2 -> ~ frees a l kl w) -> (forall x, in_pages t 1 x \/ in_pages r 2 x -> amem a x = 0) ->
  uspace fixed t (r * 4096) own l kl (base_only r) a /\ forall i, 0 <= i < 512 -> table1 (r * 4096) (amem a) i = 0.
Proof.
  intros I Ht Hr Hr2 Hf Hz.
  assert (owned (base_only r) (r * 4096) 2 RBase) as Hb.
  { unfold KH_BASE, KH_END in *. split; [dlia|]. split; [lia|]. split; [lia|]. intros p Hp. unfold base_only. rewrite decide_True; [done|dlia]. }
  assert (forall i, 0 <= i < 512 -> table1 (r * 4096) (amem a) i = 0) as H1.
  { intros i Hi. unfold table1, ref_ptable. destruct (word_16 _ _ _ i 0 Hb Hi (or_introl eq_refl)) as [-> _].
    eapply (zero_word _ r 2); [intros x Hx; apply Hz; by right|lia|lia]. }
  assert (forall w, ~ present (r * 4096) (amem a) w) as Hnp by (intros w [H _]; apply H, H1, VPN_range).
  assert (forall w, walkupt (amem a) (r * 4096) w = 0) as Hw by (intros w; by apply walkupt_absent).
  split; [|done]. split; [done|..].
  - split; [done|..].
    + intros i Hi Hn. by destruct Hn; apply H1.
    + intros i j Hi Hj Hn. by destruct Hn; apply H1.
  - split; [|done]. unfold base_only. apply decide_False. unfold DMA_END, KH_BASE in *. lia.
  - intros w [[->|Hu]|(v & E & Hv)]; [split; [by left|apply Hf; by left]| |by rewrite Hw in E].
    unfold base_only in Hu. case_decide; [|done]. split; [right; lia|apply Hf; by right].
  - intros v Hv. by rewrite Hw in Hv.
  - intros v w Hv. by rewrite Hw in Hv.
  - split.
    + intros i Hi. rewrite H1 by done. split; [|done]. intros _. eapply (zero_word _ t 1); [intros x Hx; apply Hz; by left|lia|lia].
    + intros i j Hi Hj Hn. by rewrite H1 in Hn.
    + intros v Hv. by destruct (Hnp v).
  - intros w tg. unfold base_only. case_decide; [|done]. intros [= <-]. cbn. lia.
Qed.

(** The first two allocations of a new process. *)
Lemma new_space fixed own l kl a : kheap_inv own a l kl -> room a 3 ->
  exists own' l' kl' a1 a' p t r, dmalloc true 1 true a = Ret ((p, t), a1) /\ kalloc true 8192 a1 = Ret (r * 4096, a') /\
    mstep own' a a' l l' kl kl' (fun w => w = t \/ r <= w < r + 2) 3 /\ pfn_ok p /\ page_maps (km a') t p /\
    uspace fixed t (r * 4096) own' l' kl' (base_only r) a' /\ forall i, 0 <= i < 512 -> table1 (r * 4096) (amem a') i = 0.
Proof.
  intros I Hr. destruct (pair_alloc own l kl a 8192 2 I eq_refl ltac:(lia) ltac:(lia) Hr)
    as (own' & l' & kl' & a1 & a' & p & t & r & E1 & E2 & S & Ht & Hr1 & Hr2 & Hz & Hp & Hpm).
  exists own', l', kl', a1, a', p, t, r. do 5 (split; [done|]).
  eapply empty_space; [apply S|done|done|done| |done].
  intros w Hw Hf. by apply (ms_free _ _ _ _ _ _ _ _ _ S) in Hf as [_ []].
Qed.

(** ** Pages of a process one after the other *)
Lemma same_page_eq v w : 0 <= v < UVPN_END -> 0 <= w < UVPN_END -> same_page v w -> v = w.
Proof.
  unfold UVPN_END. intros Hv Hw (E2 & E1 & E0). pose proof (VPN_low v) as Lv. pose proof (VPN_low w) as Lw.
  rewrite Z.mod_small in Lv, Lw by lia. lia.
Qed.

Lemma USER_RW_ok : flags_ok USER_RW.
Proof. vm_compute. repeat split; discriminate. Qed.

Section Sbrk.
Context (fixed : Z -> Z -> Prop) (root base : Z).

(** The user page [w] is on a page that was free, readable and writable. *)
Definition new_page (a : A) (l kl : list AllocList.run) (a' : A) (w : Z) : Prop :=
  walkupt (amem a') base w <> 0 /\ frees a l kl (walkupt (amem a') base w) /\
  exists p, pfn_ok p /\ leaf base (amem a') w = PTE p USER_RW.

Lemma walk_present m w : walkupt m base w <> 0 -> present base m w.
Proof. intros Hw. destruct (decide (present base m w)) as [|Hn]; [done|]. by rewrite walkupt_absent in Hw. Qed.

Lemma sbrk_map_grows n : forall own l kl uown a v, uspace fixed root base own l kl uown a -> room a (6 * Z.of_nat n) ->
  0 <= v -> v + Z.of_nat n <= UVPN_END ->
  exists own' l' kl' uown' a', sbrk_map true n root base v a = Ret (tt, a') /\
    ugrown fixed root base own' l l' kl kl' uown uown' a a' (fun _ => False) (6 * Z.of_nat n) /\
    (forall w, v <= w < v + Z.of_nat n -> new_page a l kl a' w) /\
    (forall w, (forall u, v <= u < v + Z.of_nat n -> ~ same_page u w) -> walkupt (amem a') base w = walkupt (amem a) base w /\
       (present base (amem a) w -> leaf base (amem a') w = leaf base (amem a) w)) /\
    copy_cost base (amem a') <= copy_cost base (amem a) + 6 * Z.of_nat n.
Proof.
  induction n as [|n IH]; intros own l kl uown a v Us Hr Hv Hn; cbn [sbrk_map].
  { exists own, l, kl, uown, a. split; [done|]. split; [apply grown_refl; [done|lia]|]. split; [lia|]. split; [done|lia]. }
  destruct (page_alloc own a l kl false (us_heap _ _ _ _ _ _ _ _ Us) ltac:(eapply room_mono; [exact Hr|lia]))
    as (own1 & a1 & l1 & p & k & E1 & S1 & Hk & Hp & Hpm & _).
  destruct (mstep_grown fixed root base _ _ _ _ _ _ _ _ _ _ _ Us S1) as [G1 Sw1].
  pose proof (mstep_fresh fixed root base _ _ _ _ _ _ _ _ _ _ _ k Us S1 eq_refl (or_introl Hk)) as Hf.
  pose proof (gr_space _ _ _ _ _ _ _ _ _ _ _ _ _ _ G1) as Us1.
  assert (room a1 (5 + 6 * Z.of_nat n)) as Hr1 by (eapply cost_room; [apply S1|]; eapply room_mono; [exact Hr|lia]).
  destruct (uptmap_grows fixed root base own1 l1 kl uown a1 v k p USER_RW Us1 ltac:(eapply room_mono; [exact Hr1|lia])
    ltac:(split; [done|split; [apply USER_RW_ok|right; split; [lia|split; [done|split; [apply USER_RW_ok|done]]]]])) as (own2 & l2 & kl2 & u2 & a2 & E2 & G2 & Ew2 & El2 & Eo2 & Q2).
  destruct (IH own2 l2 kl2 u2 a2 (v + 1) (gr_space _ _ _ _ _ _ _ _ _ _ _ _ _ _ G2)) as (own3 & l3 & kl3 & u3 & a3 & E3 & G3 & Hnew & Hold & Q3);
    [by eapply cost_room; [apply G2|]|lia|lia|].
  exists own3, l3, kl3, u3, a3. split.
  { rewrite (bind_ret_l _ _ _ _ _ E1). cbv beta iota. by rewrite (bind_ret_l _ _ _ _ _ E2). }
  assert (frees a l kl k) as Hkf by (by apply (ms_was _ _ _ _ _ _ _ _ _ S1)).
  assert (k <> 0) as Hk0 by (unfold DMA_BASE in Hk; lia).
  pose proof (ugrown_trans _ _ _ _ _ _ _ _ _ _ _ _ _ _ _ _ _ _ _ _ _ G1 G2) as G12. split; [|split; [|split]].
  - eapply grown_weaken; [eapply ugrown_trans; [exact G12|exact G3]| |lia]. intros w [[[]|[-> _]]|[]]. by right.
  - intros w Hw. destruct (decide (w = v)) as [->|Hne].
    + assert (walkupt (amem a2) base v = k) as Ek by (by rewrite Ew2, decide_True).
      destruct (Hold v) as [Hw3 Hl3]; [intros u Hu Hs; apply same_page_eq in Hs; lia|]. unfold new_page. rewrite Hw3, Ek.
      split; [done|]. split; [done|]. exists p. split; [done|]. rewrite Hl3; [done|]. apply walk_present. by rewrite Ek.
    + destruct (Hnew w ltac:(lia)) as (H0 & H1 & H2). split; [done|]. split; [|done]. by apply (gr_frees _ _ _ _ _ _ _ _ _ _ _ _ _ _ G12).
  - intros w Hw. destruct (Hold w ltac:(intros u Hu; apply Hw; lia)) as [Hw3 Hl3]. specialize (Hw v ltac:(lia)).
    rewrite Hw3, Ew2, decide_False by done. split; [apply Sw1|]. intros Hpw. destruct (proj2 Sw1 w Hpw) as [Hpw1 <-].
    destruct (Eo2 w Hpw1) as [Hp2 Ho2]. rewrite Hl3 by done. by apply Ho2.
  - pose proof (copy_cost_same uown base (amem a) (amem a1) (us_upt _ _ _ _ _ _ _ _ Us) (mstep_tables fixed root base _ _ _ _ _ _ _ _ _ _ _ Us S1)). lia.
Qed.
End Sbrk.

(** A space is what the system calls that copy bytes expect. *)
Lemma uspace_space_ok fixed root base own l kl uown a : uspace fixed root base own l kl uown a -> space_ok own l kl uown base a.
Proof.
  intros Us. pose proof Us as [U1 U2 U3 U4 U5 U6 U7].
  assert (forall w, uown w <> None -> ~ frees a l kl w) as Hu by (intros w Hw; apply U4; left; by right).
  unfold frees in Hu. split; [done|done|..].
  - intros w Hw Hk. apply (Hu w Hw). tauto.
  - intros w Hw Hk. apply (Hu w Hw). tauto.
  - intros v Hv Hw. destruct (U5 v Hw) as [Hr Ht]. split; [unfold DMA_BASE in Hr; lia|]. split.
    + destruct (uown (walkupt (amem a) base v)) eqn:E; [|done]. destruct Ht. right. by rewrite E.
    + intros Hin. apply (proj2 (U4 (walkupt (amem a) base v) ltac:(right; by exists v))). unfold frees. tauto.
  - intros v w Hv Hw Hn E. apply same_page_eq; [done|done|]. by apply U6.
Qed.

(** The bytes of the pages that a space keeps. *)
Lemma grown_ubyte fixed root base own own' l l' kl kl' u u' a a' K n x : uspace fixed root base own l kl u a ->
  ugrown fixed root base own' l l' kl kl' u u' a a' K n -> walkupt (amem a) base (x / 4096) <> 0 ->
  walkupt (amem a') base (x / 4096) = walkupt (amem a) base (x / 4096) ->
  ubyte base (amem a') x = ubyte base (amem a) x.
Proof.
  intros Us G Hw E. unfold ubyte, uaddr. rewrite E. destruct (us_page _ _ _ _ _ _ _ _ Us _ Hw) as [Hr Ht].
  assert ((walkupt (amem a) base (x / 4096) * 4096 + x mod 4096) / 4096 = walkupt (amem a) base (x / 4096)) as Ed by dlia.
  apply (gr_mem _ _ _ _ _ _ _ _ _ _ _ _ _ _ G); rewrite Ed; [|done].
  apply (us_used _ _ _ _ _ _ _ _ Us). right. by eexists.
Qed.

(** ** sys_sbrk *)
Lemma sys_sbrk_ok fixed s p size own l kl uown :
  procs s !! running s = Some p ->
  let sp := space p in let a := fa (pf s) in let base := ptref_base sp in
  uspace fixed (ptbase_vpn sp) base own l kl uown a ->
  0 <= brk sp -> 0 < size -> heap_bottom sp <= brk sp + size < HEAP_TOP ->
  let v := ADDR_2_PAGEUP (brk sp) in let n := ADDR_2_PAGEUP (brk sp + size) - v in
  room a (6 * n) ->
  exists own' l' kl' uown' a', sys_sbrk true size s = Ret (Value (brk sp), set_pf (set_fa a' (pf s)) s) /\
    ugrown fixed (ptbase_vpn sp) base own' l l' kl kl' uown uown' a a' (fun _ => False) (6 * n) /\
    (forall w, v <= w < v + n -> new_page base a l kl a' w) /\
    (forall w, 0 <= w < UVPN_END -> ~ (v <= w < v + n) -> walkupt (amem a') base w = walkupt (amem a) base w /\
       (present base (amem a) w -> leaf base (amem a') w = leaf base (amem a) w)).
Proof.
  intros Hp sp a base Us Hb Hs Ht v n Hr. unfold HEAP_TOP in Ht.
  assert (v = (brk sp + 4095) / 4096 /\ v + n = (brk sp + size + 4095) / 4096) as [Ev En].
  { unfold n, v. rewrite !ADDR_2_PAGEUP_ceil by lia. split; [reflexivity|ring]. }
  destruct (sbrk_map_grows fixed (ptbase_vpn sp) base (Z.to_nat n) own l kl uown a v Us)
    as (own' & l' & kl' & uown' & a' & E & G & Hnew & Hold & _); [by rewrite Z2Nat.id by dlia|dlia|unfold UVPN_END; dlia|].
  rewrite Z2Nat.id in * by dlia. exists own', l', kl', uown', a'. split; [|split; [done|split; [done|]]].
  - unfold sys_sbrk. rewrite (bind_ret_l cur _ s (running s) s eq_refl), (bind_ret_l _ _ _ _ _ (get_proc_run _ _ _ Hp)).
    cbv zeta. fold sp. rewrite u64_small by lia. unfold HEAP_TOP.
    rewrite (proj2 (Z.leb_gt _ _)) by lia. rewrite (proj2 (Z.ltb_ge (brk sp + size) _)) by lia. cbn [orb].
    rewrite (proj2 (Z.ltb_lt _ _)) by lia. rewrite (bind_ret_l _ _ _ _ _ (in_pa_run _ s _ _ E)).
    unfold ret, mret, M_ret. by rewrite i64_small by lia.
  - intros w Hw Hn. apply Hold. intros u Hu Hsp. apply same_page_eq in Hsp; [lia|unfold UVPN_END; dlia|done].
Qed.

(** C4: sys_sbrk with a positive size in a coherent address space returns the
    old break and maps every page up to the new one to a page of its own that
    was free, readable and writable by the process; the other translations,
    their entries in the machine's tables and the bytes of the process stay, and
    the space stays coherent.  No process changes, its own break neither. *)
Theorem sys_sbrk_grows fixed s p size own l kl uown :
  procs s !! running s = Some p ->
  let sp := space p in let a := fa (pf s) in let base := ptref_base sp in
  uspace fixed (ptbase_vpn sp) base own l kl uown a ->
  0 <= brk sp -> 0 < size -> heap_bottom sp <= brk sp + size < HEAP_TOP ->
  let v := ADDR_2_PAGEUP (brk sp) in let n := ADDR_2_PAGEUP (brk sp + size) - v in
  room a (6 * n) ->
  exists own' l' kl' uown' a', sys_sbrk true size s = Ret (Value (brk sp), set_pf (set_fa a' (pf s)) s) /\
    uspace fixed (ptbase_vpn sp) base own' l' kl' uown' a' /\
    (forall w, v <= w < v + n -> new_page base a l kl a' w) /\
    (forall w w', v <= w < v + n -> 0 <= w' < UVPN_END -> walkupt (amem a') base w = walkupt (amem a') base w' -> w = w') /\
    (forall w, 0 <= w < UVPN_END -> ~ (v <= w < v + n) -> walkupt (amem a') base w = walkupt (amem a) base w /\
       (present base (amem a) w -> leaf base (amem a') w = leaf base (amem a) w)) /\
    (forall x, 0 <= x / 4096 < UVPN_END -> ~ (v <= x / 4096 < v + n) -> walkupt (amem a) base (x / 4096) <> 0 ->
       ubyte base (amem a') x = ubyte base (amem a) x).
Proof.
  intros Hp sp a base Us Hb Hs Ht v n Hr.
  destruct (sys_sbrk_ok fixed s p size own l kl uown Hp Us Hb Hs Ht Hr) as (own' & l' & kl' & uown' & a' & E & G & Hn & Ho).
  pose proof (gr_space _ _ _ _ _ _ _ _ _ _ _ _ _ _ G) as Us'. exists own', l', kl', uown', a'.
  split; [done|]. split; [done|]. split; [done|]. split; [|split; [done|]].
  - intros w w' Hw Hw' Ew. assert (v + n <= UVPN_END /\ 0 <= v) as Hv.
    { unfold HEAP_TOP, n, v in *. rewrite !ADDR_2_PAGEUP_ceil by lia. unfold UVPN_END. dlia. }
    apply same_page_eq; [lia|done|]. apply (us_inj _ _ _ _ _ _ _ _ Us'); [by apply Hn|done].
  - intros x Hx Hnx Hw. eapply grown_ubyte; [exact Us|exact G|done|]. by apply Ho.
Qed.

(** ** A new process that grows *)
Definition sb_pt : Z * Z := match dmalloc true 1 true heap0 with Ret (pt, _) => pt | _ => (0, 0) end.
Definition sb_ref : Z * A :=
  match dmalloc true 1 true heap0 with
  | Ret (_, a1) => match kalloc true 8192 a1 with Ret r => r | _ => (0, heap0) end
  | _ => (0, heap0)
  end.

Lemma sb_room : room heap0 100.
Proof. unfold room. vm_compute. repeat split; discriminate. Qed.

Lemma sb_uspace fixed : exists own l kl r, sb_ref.1 = r * 4096 /\
  uspace fixed sb_pt.2 sb_ref.1 own l kl (base_only r) sb_ref.2 /\ room sb_ref.2 97 /\
  (forall i, 0 <= i < 512 -> table1 sb_ref.1 (amem sb_ref.2) i = 0).
Proof.
  destruct (new_space fixed own0 [] [] heap0 kheap0_ok ltac:(eapply room_mono; [exact sb_room|lia]))
    as (own & l & kl & a1 & a & p & t & r & E1 & E2 & S & _ & _ & Us & Hz).
  exists own, l, kl, r. unfold sb_pt, sb_ref. rewrite E1, E2. split; [done|]. split; [done|]. split; [|done].
  apply (cost_room heap0 a 3 97); [apply S|exact sb_room].
Qed.

Definition sb_pcb : PCB :=
  mkPCB 0 RUNNING 0 None 0 0 (mkSpace sb_pt.1 sb_pt.2 sb_ref.1 40960 40960 0 0 0) (mkFS 0 0) [].
Definition sb_p : P := mkP (mkF sb_ref.2 dev0 65536 rootfs0 ∅ [] [] 0 0 cached0 cold0) [sb_pcb] 0 1 1000 0 10000000.

Lemma sys_sbrk_grows_witness :
  exists a', sys_sbrk true 8192 sb_p = Ret (Value 40960, set_pf (set_fa a' (pf sb_p)) sb_p) /\
    walkupt (amem a') sb_ref.1 10 <> 0 /\ walkupt (amem a') sb_ref.1 11 <> 0 /\
    walkupt (amem a') sb_ref.1 10 <> walkupt (amem a') sb_ref.1 11 /\ walkupt (amem a') sb_ref.1 12 = 0.
Proof.
  destruct (sb_uspace (fun _ _ => False)) as (own & l & kl & r & Er & Us & Hr & Hz).
  destruct (sys_sbrk_grows (fun _ _ => False) sb_p sb_pcb 8192 own l kl (base_only r) eq_refl Us ltac:(cbn; lia) ltac:(lia)
    ltac:(cbn; unfold HEAP_TOP; lia)) as (own' & l' & kl' & u' & a' & E & _ & Hn & Hi & Ho & _).
  { eapply room_mono; [exact Hr|]. vm_compute. discriminate. }
  change (ADDR_2_PAGEUP (brk (space sb_pcb))) with 10 in Hn, Hi, Ho. change (ADDR_2_PAGEUP (brk (space sb_pcb) + 8192)) with 12 in Hn, Hi, Ho.
  exists a'. split; [exact E|]. split; [apply Hn; lia|]. split; [apply Hn; lia|]. split.
  - intros Ew. specialize (Hi 10 11 ltac:(lia) ltac:(unfold UVPN_END; lia) Ew). lia.
  - destruct (Ho 12 ltac:(unfold UVPN_END; lia) ltac:(lia)) as [Ew _].
    assert (walkupt (amem sb_ref.2) sb_ref.1 12 = 0) as E0 by (apply walkupt_absent; intros [Hx _]; apply Hx, Hz, VPN_range).
    exact (eq_trans Ew E0).
Defined.
