(* ===== verification/ForkCopy.v ===== *)
(** * Copying an address space (ptref_copy, the memory of sys_fork)

    The loops of ptref_copy walk the reference tables of the parent and build
    the two trees of the child, page by page.  Every page of the parent gets a
    page of its own in the child with the same bytes and the same permissions;
    the parent is not touched. *)
From S2P Require Import Sample.
From S2P Require Import Prelude Mem World KernelPT PTBits KernelPTSpec KernelPTRec KernelPTProps PTInit.
From S2P Require Import Alloc AllocList AllocSpec DmaHeapSpec DmaHeap KHeapSpec UserPT UserPTProps UserCopy SysIoSpec AddrSpace UMap.
From S2P Require Import Proc SysProc.
Import KernelPT Alloc UserPT Proc SysProc.

(** ** Loops with a bounded use of pages *)
Lemma for_loop (Inv : Z -> A -> Prop) (c : Z -> Z) (body : Z -> M A unit) R n : forall i a,
  (forall i' a' r, i <= i' < i + Z.of_nat n -> 0 <= r -> Inv i' a' -> room a' (c i' + r) ->
     exists a'', body i' a' = Ret (tt, a'') /\ Inv (i' + 1) a'' /\ room a'' r) ->
  (forall i, 0 <= c i) -> 0 <= R -> Inv i a -> room a (total n i c + R) ->
  exists a', for_from n i body a = Ret (tt, a') /\ Inv (i + Z.of_nat n) a' /\ room a' R.
Proof.
  induction n as [|n IH]; intros i a Hstep Hc HR Hi Hr; cbn [for_from total] in *.
  - exists a. by rewrite Z.add_0_r.
  - destruct (Hstep i a (total n (i + 1) c + R) ltac:(lia) ltac:(pose proof (total_nonneg c n (i + 1) Hc); lia) Hi ltac:(by rewrite Z.add_assoc)) as (a1 & E1 & I1 & R1).
    destruct (IH (i + 1) a1) as (a2 & E2 & I2 & R2); [intros; apply Hstep; [lia|done..]|done|done|done|done|].
    exists a2. rewrite (bind_ret_l _ _ _ _ _ E1). split; [done|]. by replace (i + Z.of_nat (S n)) with (i + 1 + Z.of_nat n) by lia.
Qed.

Lemma walkupt_same m base v w : same_page v w -> walkupt m base w = walkupt m base v.
Proof. intros (E2 & E1 & E0). unfold walkupt. by rewrite E2, E1, E0. Qed.

Lemma leaf_same m base v w : same_page v w -> leaf base m w = leaf base m v.
Proof. intros (E2 & E1 & E0). unfold leaf, upte. by rewrite E2, E1, E0. Qed.

Lemma GET_FLAGS_PTE p fl : pfn_ok p -> 0 <= fl < 1024 -> GET_FLAGS (PTE p fl) = fl.
Proof.
  intros Hp Hf. unfold pfn_ok in Hp. rewrite PTE_sum by done. unfold GET_FLAGS. change 1023 with (Z.ones 10).
  rewrite Z.land_ones by lia. change (2 ^ 10) with 1024. dlia.
Qed.

(** The pages that the loops have passed. *)
Definition before (i j k v : Z) : Prop :=
  VPN 2 v < i \/ VPN 2 v = i /\ (VPN 1 v < j \/ VPN 1 v = j /\ VPN 0 v < k).
#[global] Instance before_dec i j k v : Decision (before i j k v).
Proof. unfold before. repeat first [apply or_dec|apply and_dec]; apply _. Defined.

Lemma before_page i j v : before i j 512 v <-> before i (j + 1) 0 v.
Proof. unfold before. pose proof (VPN_range 0 v). pose proof (VPN_range 1 v). lia. Qed.
Lemma before_table i v : before i 512 0 v <-> before (i + 1) 0 0 v.
Proof. unfold before. pose proof (VPN_range 0 v). pose proof (VPN_range 1 v). lia. Qed.

(** Writes to a page that a step has taken. *)
Lemma grown_write fixed root base own' l l' kl kl' u u' a a' K n m' k : ugrown fixed root base own' l l' kl kl' u u' a a' K n ->
  (forall x, x / 4096 <> k -> m' x = amem a' x) -> frees a l kl k -> ~ frees a' l' kl' k -> ~ tpage root u' k ->
  ugrown fixed root base own' l l' kl kl' u u' a (set_amem m' a') K n /\ same_view base (amem a') m'.
Proof.
  intros [G1 G2 G3 G4 G5 G6 G7] Hm Hf Hf' Ht.
  assert (forall x, frees a' l' kl' (x / 4096) \/ tpage root u' (x / 4096) -> m' x = amem a' x) as Hs.
  { intros x Hx. apply Hm. intros E. rewrite E in Hx. tauto. }
  assert (same_tables u' (amem a') m') as St by (intros x Hx; apply Hs; right; by right).
  assert (same_view base (amem a') m') as Sv.
  { split; [intros w; eapply tables_walk; [apply G1|done]|]. intros w Hw. eapply tables_leaf; [apply G1|done|done]. }
  split; [|done]. split; [by apply uspace_write|..]; try done.
  - intros x Hx Hnt. change (m' x = amem a x). rewrite Hm; [by apply G2|]. intros E. by rewrite E in Hx.
  - intros w [?|(v & E & Hw)]; [by apply G4; left|]. apply G4. right. exists v. split; [|done].
    rewrite <- (proj1 Sv v). exact E.
Qed.

(** The stores of copy_level make a new level. *)
Lemma copy_level_new fixed root base own l kl uown a pte q size k post :
  new_level fixed root base own l kl uown a pte q size k post ->
  exists own' l' kl' uown' a', copy_level true pte q size a = Ret (tt, a') /\
    ugrown fixed root base own' l l' kl kl' uown uown' a a' (fun _ => False) k /\ same_view base (amem a) (amem a') /\ post (amem a').
Proof.
  intros (own' & l' & kl' & a1 & a2 & p & t & r & E1 & E2 & Hp & Hq & Hpq & Hpo & Ht & Hr & Hnew).
  assert (0 <= PTE p PTE_VALID < 18446744073709551616) as Hpte
    by (unfold pfn_ok in Hpo; rewrite PTE_sum by (done || unfold PTE_VALID; lia); unfold PTE_VALID; lia).
  destruct (Hnew _ (copy_order (amem a2) pte q (PTE p PTE_VALID) (t * 4096) (r * 4096) Hp Hq Hpq Hpte ltac:(lia) ltac:(lia)))
    as (uown' & G & Sw & Po).
  exists own', l', kl', uown'. eexists. split; [|by split].
  unfold copy_level. rewrite (bind_ret_l _ _ _ _ _ E1). cbv beta iota. rewrite (bind_ret_l _ _ _ _ _ E2).
  rewrite PAGE_2_ADDR_small by lia. by destruct a2 as [[]].
Qed.

Section Copy.
Context (fS fD : Z -> Z -> Prop) (rS bS rD bD : Z) (uS uD0 : Z -> option utag).
Context (own0 : Z -> option node) (l0 kl0 : list AllocList.run) (a0 : A).
Hypothesis UsS : uspace fS rS bS own0 l0 kl0 uS a0.
Hypothesis Apart : forall w, spage rS bS uS (amem a0) w -> ~ spage rD bD uD0 (amem a0) w.
Let m0 := amem a0.

(** A state in which a part of the space has been copied. *)
Definition reach (own : Z -> option node) (l kl : list AllocList.run) (uD : Z -> option utag) (a : A) : Prop :=
  exists n, ugrown fD rD bD own l0 l kl0 kl uD0 uD a0 a (fun _ => False) n.

Lemma reach_step own own' l l' kl kl' uD uD' a a' K n : reach own l kl uD a ->
  ugrown fD rD bD own' l l' kl kl' uD uD' a a' K n -> (forall w, K w -> frees a l kl w) -> reach own' l' kl' uD' a'.
Proof.
  intros (n0 & G0) G HK. exists (n0 + n). eapply grown_weaken; [eapply ugrown_trans; [exact G0|exact G]| |lia].
  intros w [[]|Hw]. right. by apply (gr_frees _ _ _ _ _ _ _ _ _ _ _ _ _ _ G0), HK.
Qed.

Section Reached.
Context (own : Z -> option node) (l kl : list AllocList.run) (uD : Z -> option utag) (a : A).
Hypothesis Re : reach own l kl uD a.

Lemma dst_space : uspace fD rD bD own l kl uD a.
Proof using Re. destruct Re as (n & G). apply G. Qed.

Lemma src_space : uspace fS rS bS own l kl uS a.
Proof using All. destruct Re as (n & G). eapply grown_other; [exact G|exact UsS|]. intros w Hw Ht. apply (Apart w Hw). by left. Qed.

Lemma src_kept x : spage rS bS uS m0 (x / 4096) -> amem a x = m0 x.
Proof using All.
  intros Hs. destruct Re as (n & G). apply (gr_mem _ _ _ _ _ _ _ _ _ _ _ _ _ _ G).
  - by apply (us_used _ _ _ _ _ _ _ _ UsS).
  - intros Ht. apply (Apart _ Hs). by left.
Qed.

Lemma src_tables : same_tables uS m0 (amem a).
Proof using All. intros x Hx. apply src_kept. left. by right. Qed.

Lemma src_apart w : spage rS bS uS m0 w -> ~ spage rD bD uD (amem a) w.
Proof using All.
  intros Hs Hd. destruct Re as (n & G). destruct (gr_new _ _ _ _ _ _ _ _ _ _ _ _ _ _ G w Hd) as [H|[H|[]]].
  - by apply (Apart w).
  - by apply (us_used _ _ _ _ _ _ _ _ UsS) in Hs as [_ []].
Qed.

(** What the loops read of the parent. *)
Lemma src_reads i j : 0 <= i < 512 -> 0 <= j < 512 ->
  table1 bS (amem a) i = table1 bS m0 i /\ next1 bS (amem a) i = next1 bS m0 i /\
  (table1 bS m0 i <> 0 -> table0 bS (amem a) i j = table0 bS m0 i j /\ next0 bS (amem a) i j = next0 bS m0 i j).
Proof using All.
  intros Hi Hj. pose proof (us_upt _ _ _ _ _ _ _ _ UsS) as W.
  destruct (upper_tables uS bS m0 (amem a) W (tables_upper uS bS _ _ W src_tables)) as [E1 E0].
  destruct (E1 i Hi) as [-> ->]. split; [done|]. split; [done|]. intros H1. by apply E0.
Qed.

Lemma src_page v : present bS m0 v ->
  load64 (amem a) (ref0 bS m0 v) = walkupt m0 bS v /\ load64 (amem a) (upte bS m0 v) = leaf bS m0 v.
Proof using All.
  intros Hp. pose proof (us_upt _ _ _ _ _ _ _ _ UsS) as W.
  destruct (words_of_page uS bS m0 v W Hp) as [Wr Wp].
  rewrite (word_same uS m0 (amem a) _ _ src_tables Wr), (word_same uS m0 (amem a) _ _ src_tables Wp).
  by rewrite (walkupt_present uS bS m0 v W Hp).
Qed.

Lemma src_byte v o : walkupt m0 bS v <> 0 -> 0 <= o < 4096 ->
  amem a (walkupt m0 bS v * 4096 + o) = m0 (walkupt m0 bS v * 4096 + o).
Proof using All.
  intros Hw Ho. apply src_kept. right. exists v. split; [|].
  - dlia.
  - replace ((walkupt m0 bS v * 4096 + o) / 4096) with (walkupt m0 bS v) by dlia. done.
Qed.
End Reached.

(** The page [v] of the child is that of the parent. *)
Definition copied (m : mem) (v : Z) : Prop :=
  (walkupt m0 bS v = 0 -> walkupt m bD v = 0) /\
  (walkupt m0 bS v <> 0 -> walkupt m bD v <> 0 /\
     (forall o, 0 <= o < 4096 -> m (walkupt m bD v * 4096 + o) = m0 (walkupt m0 bS v * 4096 + o)) /\
     GET_FLAGS (leaf bD m v) = GET_FLAGS (leaf bS m0 v)).
Definition agree (D : Z -> Prop) (m : mem) : Prop :=
  (forall v, D v -> copied m v) /\ (forall v, ~ D v -> walkupt m bD v = 0).

Lemma agree_iff (D D' : Z -> Prop) m : (forall v, D v <-> D' v) -> agree D m -> agree D' m.
Proof. intros HD [H1 H2]. split; intros v Hv; [apply H1|apply H2]; by rewrite HD. Qed.

(** Pages that the parent does not have need no work. *)
Lemma agree_none i j k i' j' k' m : agree (before i j k) m ->
  (forall v, before i' j' k' v -> before i j k v \/ walkupt m0 bS v = 0) -> (forall v, before i j k v -> before i' j' k' v) ->
  agree (before i' j' k') m.
Proof.
  intros [H1 H2] Hn Hm. split; intros v Hv.
  - destruct (decide (before i j k v)) as [Hb|Hb]; [by apply H1|]. destruct (Hn v Hv) as [?|E]; [done|].
    split; [intros _; by apply H2|]. intros Hw. by rewrite E in Hw.
  - apply H2. intros Hb. by apply Hv, Hm.
Qed.

(** A step that changes no translation keeps what was copied. *)
Lemma copied_keep own own' l l' kl kl' uD uD' a a' K n v : uspace fD rD bD own l kl uD a ->
  ugrown fD rD bD own' l l' kl kl' uD uD' a a' K n ->
  walkupt (amem a') bD v = walkupt (amem a) bD v -> (present bD (amem a) v -> leaf bD (amem a') v = leaf bD (amem a) v) ->
  copied (amem a) v -> copied (amem a') v.
Proof.
  intros Us G Ew El [C0 C1]. unfold copied. rewrite Ew. split; [done|]. intros Hw. destruct (C1 Hw) as (Hn & Hb & Hf).
  split; [done|]. rewrite El by (by apply walk_present). split; [|done]. intros o Ho. rewrite <- Hb by done.
  destruct (us_page _ _ _ _ _ _ _ _ Us v Hn) as [Hr Ht].
  apply (gr_mem _ _ _ _ _ _ _ _ _ _ _ _ _ _ G); replace ((walkupt (amem a) bD v * 4096 + o) / 4096) with (walkupt (amem a) bD v) by dlia; [|done].
  apply (us_used _ _ _ _ _ _ _ _ Us). right. by exists v.
Qed.

Lemma agree_view D own own' l l' kl kl' uD uD' a a' K n : uspace fD rD bD own l kl uD a ->
  ugrown fD rD bD own' l l' kl kl' uD uD' a a' K n -> same_view bD (amem a) (amem a') -> agree D (amem a) -> agree D (amem a').
Proof.
  intros Us G [Ew El] [H1 H2]. split; intros v Hv.
  - eapply copied_keep; [exact Us|exact G|apply Ew|intros Hp; by apply El|by apply H1].
  - rewrite Ew. by apply H2.
Qed.

(** ** One page *)
Definition page_body (st sr dt dr k : Z) : M A unit :=
  v ← get64 (ref0_entry sr k);
  if v =? 0 then mret tt else
  '(pfn, kernel_vpn) ← dmalloc true 1 false;
  e ← get64 (pte_in st k);
  put64 (pte_in dt k) (PTE pfn (GET_FLAGS e));;
  put64 (ref0_entry dr k) kernel_vpn;;
  src ← get64 (ref0_entry sr k);
  on_mem (fun m => memcpy m (PAGE_2_ADDR kernel_vpn) (PAGE_2_ADDR src) PAGESIZE).

Section Page.
Context (own : Z -> option node) (l kl : list AllocList.run) (uD : Z -> option utag) (a : A) (v : Z).
Hypothesis Re : reach own l kl uD a.
Hypothesis Hw : walkupt m0 bS v <> 0.
Hypothesis Hpr : present bD (amem a) v.
Let k0 := walkupt m0 bS v.

Context (st sr dt dr kk : Z).
Hypothesis Esr : ref0_entry sr kk = ref0 bS m0 v.
Hypothesis Est : pte_in st kk = upte bS m0 v.
Hypothesis Edr : ref0_entry dr kk = ref0 bD (amem a) v.
Hypothesis Edt : pte_in dt kk = upte bD (amem a) v.

Lemma src_leaf : exists p fl, pfn_ok p /\ flags_ok fl /\ leaf bS m0 v = PTE p fl /\ GET_FLAGS (leaf bS m0 v) = fl.
Proof using UsS Hw.
  destruct (proj2 (co_leaf _ _ _ _ _ _ v (us_upt _ _ _ _ _ _ _ _ UsS) (us_coh _ _ _ _ _ _ _ _ UsS) (walk_present bS m0 v Hw)) Hw) as (p & fl & Hp & Hf & _ & E).
  exists p, fl. change (leaf bS m0 v = PTE p fl) in E. rewrite E, GET_FLAGS_PTE by (done || apply Hf). done.
Qed.

(** The page is taken, mapped and filled. *)
Lemma copy_page r : 0 <= r -> room a (1 + r) ->
  exists own' l' a', page_body st sr dt dr kk a = Ret (tt, a') /\
    reach own' l' kl uD a' /\ room a' r /\ same_upper bD (amem a) (amem a') /\ copied (amem a') v /\
    forall w, ~ same_page v w -> (copied (amem a) w -> copied (amem a') w) /\ walkupt (amem a') bD w = walkupt (amem a) bD w.
Proof using All.
  intros Hr0 Hr. pose proof (dst_space _ _ _ _ _ Re) as UsD. pose proof (walk_present bS m0 v Hw) as Hps.
  destruct (page_alloc own a l kl false (us_heap _ _ _ _ _ _ _ _ UsD) ltac:(eapply room_mono; [exact Hr|lia]))
    as (own1 & a1 & l1 & p & k & E1 & S1 & Hk & Hp & Hpm & _).
  destruct (mstep_grown fD rD bD _ _ _ _ _ _ _ _ _ _ _ UsD S1) as [G1 Sv1].
  pose proof (mstep_fresh fD rD bD _ _ _ _ _ _ _ _ _ _ _ k UsD S1 eq_refl (or_introl Hk)) as Hf.
  assert (reach own1 l1 kl uD a1) as Re1 by (eapply reach_step; [exact Re|exact G1|done]).
  pose proof (dst_space _ _ _ _ _ Re1) as UsD1. pose proof (us_upt _ _ _ _ _ _ _ _ UsD) as W.
  pose proof (tables_upper uD bD _ _ W (mstep_tables fD rD bD _ _ _ _ _ _ _ _ _ _ _ UsD S1)) as Su1.
  destruct (upper_present uD bD (amem a) (amem a1) v W Su1) as [Pp Pr]. destruct (Pr Hpr) as [Er1 Ep1]. apply Pp in Hpr as Hpr1.
  destruct src_leaf as (ps & fl & _ & Hfl & Els & Egf).
  assert (mappable fD rD bD l1 kl uD a1 v k p fl) as Hma
    by (split; [done|split; [apply Hfl|right; split; [lia|split; [done|split; [done|done]]]]]).
  destruct (map_present fD rD bD own1 l1 kl uD a1 v k p fl UsD1 Hpr1 Hma) as (G2 & Ew2 & El2 & Su2).
  rewrite Er1, Ep1 in *. set (m2 := store64 _ _ k) in *.
  assert (frees a l kl k) as Hkf by (by apply (ms_was _ _ _ _ _ _ _ _ _ S1)).
  assert (k <> 0) as Hk0 by (unfold DMA_BASE in Hk; lia).
  set (a2 := set_amem m2 a1) in *. pose proof (ugrown_trans _ _ _ _ _ _ _ _ _ _ _ _ _ _ _ _ _ _ _ _ _ G1 G2) as G12.
  assert (reach own1 l1 kl uD a2) as Re2 by (eapply reach_step; [exact Re|exact G12|intros w [[]|[-> _]]; done]).
  destruct (us_page _ _ _ _ _ _ _ _ UsS v Hw) as [Hk0r _]. change (walkupt (amem a0) bS v) with k0 in Hk0r.
  assert (k0 <> k) as Hne.
  { intros E. destruct Hf as (_ & _ & Hns). assert (spage rS bS uS m0 k0) as Hs by (right; by exists v).
    apply (us_used _ _ _ _ _ _ _ _ UsS) in Hs as [_ []]. destruct Re as (n & G). apply (gr_frees _ _ _ _ _ _ _ _ _ _ _ _ _ _ G). by rewrite E. }
  unfold DMA_BASE, DMA_END in Hk, Hk0r.
  set (m3 := memcpy m2 (k * 4096) (k0 * 4096) 4096).
  assert (forall x, m3 x = if (k * 4096 <=? x) && (x <? k * 4096 + 4096) then m2 (k0 * 4096 + (x - k * 4096)) else m2 x) as Hm3
    by (intros x; apply memcpy_spec; lia).
  assert (forall x, x / 4096 <> k -> m3 x = amem a2 x) as Hoff.
  { intros x Hx. rewrite Hm3. destruct (Z.leb_spec (k * 4096) x), (Z.ltb_spec x (k * 4096 + 4096)); try done. dlia. }
  destruct (grown_write fD rD bD _ _ _ _ _ _ _ _ _ _ _ m3 k G12 Hoff Hkf) as [G3 Sv3].
  { intros Hx. change (frees a1 l1 kl k) in Hx. by apply Hf in Hx. }
  { intros Ht. apply Hf. by left. }
  change (amem a2) with m2 in Sv3. exists own1, l1, (set_amem m3 a2).
  assert (reach own1 l1 kl uD (set_amem m3 a2)) as Re3 by (eapply reach_step; [exact Re|exact G3|intros w [[]|[-> _]]; done]).
  assert (present bD m2 v) as Hpr2 by (eapply present_same_upper; [apply UsD1|exact Su2|done]).
  assert (same_page v v) as Hvv by (split; [done|split; done]).
  split; [|split; [done|split; [|split; [|split]]]].
  - unfold page_body. rewrite (bind_ret_l _ _ _ _ _ (get64_run _ a)), Esr, (proj1 (src_page _ _ _ _ _ Re v Hps)).
    rewrite (proj2 (Z.eqb_neq _ _) Hw). rewrite (bind_ret_l _ _ _ _ _ E1). cbv beta iota.
    rewrite (bind_ret_l _ _ _ _ _ (get64_run _ a1)), Est, (proj2 (src_page _ _ _ _ _ Re1 v Hps)), Egf, Edt, Edr.
    rewrite (bind_ret_l (put64 _ _) _ a1 tt (set_amem (store64 (amem a1) (upte bD (amem a) v) (PTE p fl)) a1) eq_refl).
    rewrite (bind_ret_l (put64 (ref0 bD (amem a) v) k) _ (set_amem (store64 (amem a1) (upte bD (amem a) v) (PTE p fl)) a1) tt a2 eq_refl).
    rewrite (bind_ret_l _ _ _ _ _ (get64_run _ a2)), (proj1 (src_page _ _ _ _ _ Re2 v Hps)).
    rewrite !PAGE_2_ADDR_small by lia. reflexivity.
  - eapply cost_room; [exact (gr_cost _ _ _ _ _ _ _ _ _ _ _ _ _ _ G3)|exact Hr].
  - eapply same_upper_trans; [exact W|exact Su1|]. eapply same_upper_trans; [apply UsD1|exact Su2|].
    apply (tables_upper uD bD m2 m3); [apply (gr_space _ _ _ _ _ _ _ _ _ _ _ _ _ _ G2)|].
    intros x Hx. apply Hoff. intros E. apply Hf. left. right. by rewrite <- E.
  - change (amem (set_amem m3 a2)) with m3. assert (walkupt m3 bD v = k) as Ek by (rewrite (proj1 Sv3), Ew2; by rewrite decide_True).
    split; [intros H; destruct (Hw H)|]. intros _. rewrite Ek. split; [done|]. split.
    + intros o Ho. rewrite Hm3. destruct (Z.leb_spec (k * 4096) (k * 4096 + o)), (Z.ltb_spec (k * 4096 + o) (k * 4096 + 4096)); try lia. cbn [andb].
      replace (k * 4096 + o - k * 4096) with o by lia. exact (src_byte _ _ _ _ _ Re2 v o Hw Ho).
    + rewrite (proj2 (proj2 Sv3 v Hpr2)), El2 by done. rewrite decide_True by exact Hvv. rewrite Egf. apply GET_FLAGS_PTE; [exact Hp|apply Hfl].
  - intros w Hn. assert (walkupt m3 bD w = walkupt (amem a) bD w) as Ew.
    { rewrite (proj1 Sv3), Ew2, decide_False by done. apply Sv1. }
    split; [|exact Ew]. eapply copied_keep; [exact UsD|exact G3|exact Ew|]. intros Hpw. change (leaf bD m3 w = leaf bD (amem a) w).
    destruct (proj2 Sv1 w Hpw) as [Hpw1 L1]. assert (present bD m2 w) as Hpw2 by (eapply present_same_upper; [apply UsD1|exact Su2|done]).
    rewrite (proj2 (proj2 Sv3 w Hpw2)), El2, decide_False by done. exact L1.
Qed.
End Page.

Lemma copied_same m v w : same_page v w -> copied m v -> copied m w.
Proof. intros Hs. unfold copied. by rewrite !(walkupt_same _ _ v w Hs), !(leaf_same _ _ v w Hs). Qed.

(** ** The pages of one table *)

Section Pages.
Context (uD : Z -> option utag) (a : A) (i j : Z).
Hypothesis W : upt_wf uD bD (amem a).
Hypothesis Hi : 0 <= i < 512.
Hypothesis Hj : 0 <= j < 512.
Hypothesis Hs1 : table1 bS m0 i <> 0.
Hypothesis Hs0 : table0 bS m0 i j <> 0.
Hypothesis Hd1 : table1 bD (amem a) i <> 0.
Hypothesis Hd0 : table0 bD (amem a) i j <> 0.

Definition pages_inv (k : Z) (a' : A) : Prop :=
  exists own l kl, reach own l kl uD a' /\ agree (before i j k) (amem a') /\ same_upper bD (amem a) (amem a').

Lemma pages_step k a' r : 0 <= k < 512 -> 0 <= r -> pages_inv k a' ->
  room a' ((if walkupt m0 bS (upage i j k) =? 0 then 0 else 1) + r) ->
  exists a'', page_body (table0 bS m0 i j) (next0 bS m0 i j) (table0 bD (amem a) i j) (next0 bD (amem a) i j) k a' = Ret (tt, a'') /\
    pages_inv (k + 1) a'' /\ room a'' r.
Proof using All.
  intros Hk Hr0 (own & l & kl & Re & Ag & Su) Hr. set (v := upage i j k) in *.
  destruct (upage_VPN i j k Hi Hj Hk) as (V2 & V1 & V0). fold v in V2, V1, V0.
  assert (present bS m0 v) as Hps by (split; by rewrite ?V2, ?V1). assert (present bD (amem a) v) as Hpd by (split; by rewrite ?V2, ?V1).
  destruct (load64_ref uS bS m0 v (us_upt _ _ _ _ _ _ _ _ UsS) Hps) as (_ & _ & Est & Esr). rewrite V2, V1, V0 in Est, Esr.
  destruct (load64_ref uD bD (amem a) v W Hpd) as (_ & _ & Edt & Edr). rewrite V2, V1, V0 in Edt, Edr.
  assert (forall w, before i j (k + 1) w <-> before i j k w \/ same_page v w) as Hb.
  { intros w. unfold before, same_page. rewrite V2, V1, V0. lia. }
  destruct (Z.eqb_spec (walkupt m0 bS v) 0) as [Hw|Hw].
  - exists a'. split; [|split; [|done]].
    + unfold page_body. rewrite (bind_ret_l _ _ _ _ _ (get64_run _ a')), Esr, (proj1 (src_page _ _ _ _ _ Re v Hps)), Hw. reflexivity.
    + exists own, l, kl. split; [done|]. split; [|done]. eapply agree_none; [exact Ag| |intros w Hx; apply Hb; by left].
      intros w [?|Hx]%Hb; [by left|right]. by rewrite (walkupt_same m0 bS v w Hx).
  - destruct (upper_present uD bD (amem a) (amem a') v W Su) as [Pp Pr]. destruct (Pr Hpd) as [Er Ep].
    rewrite <- Er in Edr. rewrite <- Ep in Edt.
    destruct (copy_page own l kl uD a' v Re Hw (proj2 Pp Hpd) _ _ _ _ k Esr Est Edr Edt r Hr0 Hr)
      as (own' & l' & a'' & E & Re' & Hr' & Su' & Hc & Ho).
    exists a''. split; [done|]. split; [|done]. exists own', l', kl. split; [done|].
    split; [|by eapply same_upper_trans; [exact W|exact Su|]]. destruct Ag as [A1 A2]. split; intros w Hx.
    + destruct (decide (same_page v w)) as [Hsp|Hsp]; [by eapply copied_same|]. apply Hb in Hx as [Hx|Hx]; [|done].
      by apply Ho, A1.
    + assert (~ same_page v w) as Hsp by (intros Hsp; apply Hx, Hb; by right). rewrite (proj2 (Ho w Hsp)).
      apply A2. intros Hx'. apply Hx, Hb. by left.
Qed.

Lemma pages_loop own l kl R : 0 <= R -> reach own l kl uD a -> agree (before i j 0) (amem a) -> room a (pages_cost bS m0 i j + R) ->
  exists a', copy_pages0 true (table0 bS m0 i j) (next0 bS m0 i j) (table0 bD (amem a) i j) (next0 bD (amem a) i j) a = Ret (tt, a') /\
    pages_inv 512 a' /\ room a' R.
Proof using All.
  intros HR Re Ag Hr.
  apply (for_loop pages_inv (fun k => if walkupt m0 bS (upage i j k) =? 0 then 0 else 1)); try done.
  - intros k a' r Hk Hr0. apply pages_step; [lia|done].
  - intros k. by destruct (_ =? 0).
  - exists own, l, kl. split; [done|]. by split.
Qed.
End Pages.

(** ** The tables under one entry of the root *)

Definition table_body (sr dt dr j : Z) : M A unit :=
  let src_ptref1 := ref_entry sr j in
  let dst_ptref1 := ref_entry dr j in
  t ← get64 src_ptref1;
  if t =? 0 then mret tt else
  copy_level true (pte_in dt j) dst_ptref1 PAGESIZE;;
  st ← get64 src_ptref1; sr ← get64 (src_ptref1 + 8);
  dt ← get64 dst_ptref1; dr ← get64 (dst_ptref1 + 8);
  copy_pages0 true st sr dt dr.

Section Tables.
Context (i dt1 dr1 : Z).
Hypothesis Hi : 0 <= i < 512.
Hypothesis Hs1 : table1 bS m0 i <> 0.
Hypothesis Hd1 : dt1 <> 0.

Definition tables_inv (j : Z) (a : A) : Prop :=
  exists own l kl uD, reach own l kl uD a /\ agree (before i j 0) (amem a) /\
    table1 bD (amem a) i = dt1 /\ next1 bD (amem a) i = dr1 /\
    (forall j', j <= j' < 512 -> table0 bD (amem a) i j' = 0) /\ (forall i', i < i' < 512 -> table1 bD (amem a) i' = 0).

(** The words that the loop reads of the two reference tables. *)
Lemma ref_words base m j : load64 m (ref_entry (next1 base m i) j) = table0 base m i j /\
  load64 m (ref_entry (next1 base m i) j + 8) = next0 base m i j.
Proof. done. Qed.

Lemma tables_step j a r : 0 <= j < 512 -> 0 <= r -> tables_inv j a ->
  room a ((if table0 bS m0 i j =? 0 then 0 else 2 + pages_cost bS m0 i j) + r) ->
  exists a', table_body (next1 bS m0 i) dt1 dr1 j a = Ret (tt, a') /\ tables_inv (j + 1) a' /\ room a' r.
Proof using All.
  intros Hj Hr0 (own & l & kl & uD & Re & Ag & Et & En & Hz0 & Hz1) Hr.
  destruct (src_reads _ _ _ _ _ Re i j Hi Hj) as (_ & Sn & St). destruct (St Hs1) as [St0 Sn0].
  unfold table_body. cbv zeta. rewrite (bind_ret_l _ _ _ _ _ (get64_run _ a)).
  replace (load64 (amem a) (ref_entry (next1 bS m0 i) j)) with (table0 bS m0 i j) by (rewrite <- Sn, <- St0; done).
  destruct (Z.eqb_spec (table0 bS m0 i j) 0) as [H0|H0].
  - exists a. split; [done|]. split; [|done]. exists own, l, kl, uD. split; [done|]. split; [|split; [done|split; [done|split; [|done]]]].
    + eapply agree_none; [exact Ag| |unfold before; lia]. intros v Hv. destruct (decide (before i j 0 v)); [by left|right].
      assert (VPN 2 v = i /\ VPN 1 v = j) as [V2 V1] by (unfold before in *; pose proof (VPN_range 0 v); lia).
      apply walkupt_absent. intros [_ Hx]. by rewrite V2, V1 in Hx.
    + intros j' Hj'. apply Hz0. lia.
  - pose proof (dst_space _ _ _ _ _ Re) as UsD. pose proof (pages_cost_nonneg bS m0 i j) as Hpc.
    assert (table1 bD (amem a) i <> 0) as Hd by (by rewrite Et).
    pose proof (new_level0 fD rD bD own l kl uD a i j UsD ltac:(eapply room_mono; [exact Hr|lia]) Hi Hj Hd (Hz0 j ltac:(lia))) as Hnl.
    destruct (uw_1 _ _ _ (us_upt _ _ _ _ _ _ _ _ UsD) i Hi Hd) as [O1 O1'].
    rewrite <- (proj1 (pte_word uD _ _ j O1' Hj)), <- (proj1 (word_16 uD _ _ j 0 O1 Hj (or_introl eq_refl))), Et, En in Hnl.
    destruct (copy_level_new fD rD bD own l kl uD a _ _ _ _ _ Hnl) as (own1 & l1 & kl1 & u1 & a1 & E1 & G1 & Sv1 & T1' & Tij & To).
    assert (reach own1 l1 kl1 u1 a1) as Re1 by (eapply reach_step; [exact Re|exact G1|done]).
    destruct (T1' i Hi) as [Et1 En1]. destruct (src_reads _ _ _ _ _ Re1 i j Hi Hj) as (_ & Sn' & St'). destruct (St' Hs1) as [St0' Sn0'].
    pose proof (dst_space _ _ _ _ _ Re1) as UsD1.
    destruct (pages_loop u1 a1 i j (us_upt _ _ _ _ _ _ _ _ UsD1) Hi Hj Hs1 H0 ltac:(by rewrite Et1) Tij own1 l1 kl1 r Hr0 Re1)
      as (a2 & E2 & (own2 & l2 & kl2 & Re2 & Ag2 & Su2) & Hr2).
    { eapply agree_view; [exact UsD|exact G1|exact Sv1|exact Ag]. }
    { eapply cost_room; [apply G1|]. eapply room_mono; [exact Hr|lia]. }
    exists a2. split; [|split; [|done]].
    + change PAGESIZE with 4096. rewrite (bind_ret_l _ _ _ _ _ E1). rewrite !(bind_ret_l _ _ _ _ _ (get64_run _ a1)).
      rewrite <- Sn', <- En, <- En1. rewrite (proj1 (ref_words bS (amem a1) j)), (proj2 (ref_words bS (amem a1) j)).
      rewrite (proj1 (ref_words bD (amem a1) j)), (proj2 (ref_words bD (amem a1) j)), St0', Sn0'. exact E2.
    + destruct (upper_tables u1 bD (amem a1) (amem a2) (us_upt _ _ _ _ _ _ _ _ UsD1) Su2) as [U1 U0].
      exists own2, l2, kl2, u1. split; [done|]. split; [eapply agree_iff; [|exact Ag2]; apply before_page|].
      destruct (U1 i Hi) as [-> ->]. split; [congruence|]. split; [congruence|]. split.
      * intros j' Hj'. rewrite (proj1 (U0 i j' Hi ltac:(lia) ltac:(congruence))), To; [apply Hz0; lia|done|lia| |done]. intros [= E]. lia.
      * intros i' Hi'. rewrite (proj1 (U1 i' ltac:(lia))), (proj1 (T1' i' ltac:(lia))). by apply Hz1.
Qed.

Lemma tables_loop a R : 0 <= R -> tables_inv 0 a -> room a (tables_cost bS m0 i + R) ->
  exists a', copy_level1 true (next1 bS m0 i) dt1 dr1 a = Ret (tt, a') /\ tables_inv 512 a' /\ room a' R.
Proof using All.
  intros HR I0 Hr. apply (for_loop tables_inv (fun j => if table0 bS m0 i j =? 0 then 0 else 2 + pages_cost bS m0 i j)); try done.
  - intros j a' r Hj Hr0. apply tables_step; [lia|done].
  - intros j. pose proof (pages_cost_nonneg bS m0 i j). destruct (_ =? 0); lia.
Qed.
End Tables.

(** ** The whole space *)

Definition root_body (i : Z) : M A unit :=
  let src_ptref2 := ref_entry bS i in
  let dst_ptref2 := ref_entry bD i in
  t ← get64 src_ptref2;
  if t =? 0 then mret tt else
  copy_level true (ADDR rD (Z.shiftl i 3)) dst_ptref2 (PAGESIZE * 2);;
  sr ← get64 (src_ptref2 + 8);
  dt ← get64 dst_ptref2; dr ← get64 (dst_ptref2 + 8);
  copy_level1 true sr dt dr.

Definition root_inv (i : Z) (a : A) : Prop :=
  exists own l kl uD, reach own l kl uD a /\ agree (before i 0 0) (amem a) /\ (forall i', i <= i' < 512 -> table1 bD (amem a) i' = 0).

Lemma root_words base m i : load64 m (ref_entry base i) = table1 base m i /\ load64 m (ref_entry base i + 8) = next1 base m i.
Proof. done. Qed.

Lemma root_step i a r : 0 <= i < 512 -> 0 <= r -> root_inv i a -> room a ((if table1 bS m0 i =? 0 then 0 else 3 + tables_cost bS m0 i) + r) ->
  exists a', root_body i a = Ret (tt, a') /\ root_inv (i + 1) a' /\ room a' r.
Proof using All.
  intros Hi Hr0 (own & l & kl & uD & Re & Ag & Hz) Hr. assert (0 <= 0 < 512) as H00 by lia.
  destruct (src_reads _ _ _ _ _ Re i 0 Hi H00) as (St & _ & _).
  unfold root_body. cbv zeta. rewrite (bind_ret_l _ _ _ _ _ (get64_run _ a)), (proj1 (root_words bS (amem a) i)), St.
  destruct (Z.eqb_spec (table1 bS m0 i) 0) as [H1|H1].
  - exists a. split; [done|]. split; [|done]. exists own, l, kl, uD. split; [done|]. split; [|intros i' Hi'; apply Hz; lia].
    eapply agree_none; [exact Ag| |unfold before; lia]. intros v Hv. destruct (decide (before i 0 0 v)); [by left|right].
    assert (VPN 2 v = i) as V2 by (unfold before in *; pose proof (VPN_range 0 v); pose proof (VPN_range 1 v); lia).
    apply walkupt_absent. intros [Hx _]. by rewrite V2 in Hx.
  - pose proof (dst_space _ _ _ _ _ Re) as UsD. pose proof (tables_cost_nonneg bS m0 i) as Hpc.
    pose proof (new_level1 fD rD bD own l kl uD a i UsD ltac:(eapply room_mono; [exact Hr|lia]) Hi (Hz i ltac:(lia))) as Hnl.
    rewrite <- (proj1 (word_16 uD _ _ i 0 (uw_base _ _ _ (us_upt _ _ _ _ _ _ _ _ UsD)) Hi (or_introl eq_refl))) in Hnl.
    destruct (copy_level_new fD rD bD own l kl uD a _ _ _ _ _ Hnl) as (own1 & l1 & kl1 & u1 & a1 & E1 & G1 & Sv1 & Ti & T0' & To & _).
    assert (reach own1 l1 kl1 u1 a1) as Re1 by (eapply reach_step; [exact Re|exact G1|done]).
    destruct (src_reads _ _ _ _ _ Re1 i 0 Hi H00) as (_ & Sn' & _).
    destruct (tables_loop i (table1 bD (amem a1) i) (next1 bD (amem a1) i) Hi H1 Ti a1 r Hr0) as (a2 & E2 & (own2 & l2 & kl2 & u2 & Re2 & Ag2 & _ & _ & _ & Hz2) & Hr2).
    { exists own1, l1, kl1, u1. split; [done|]. split; [|split; [done|split; [done|split; [intros j' Hj'; apply T0'; lia|]]]].
      - eapply agree_view; [exact UsD|exact G1|exact Sv1|exact Ag].
      - intros i' Hi'. rewrite To by lia. apply Hz. lia. }
    { eapply cost_room; [apply G1|]. eapply room_mono; [exact Hr|lia]. }
    exists a2. split; [|split; [|done]].
    + replace (ADDR rD (Z.shiftl i 3)) with (rD * 4096 + i * 8).
      2: { rewrite Z.shiftl_mul_pow2 by lia. change (2 ^ 3) with 8.
           pose proof (us_root _ _ _ _ _ _ _ _ UsD) as [_ Hro]. unfold ADDR, DMA_BASE, DMA_END, PAGESIZE in *. by rewrite u64_small by lia. }
      change (PAGESIZE * 2) with 8192. rewrite (bind_ret_l _ _ _ _ _ E1). rewrite !(bind_ret_l _ _ _ _ _ (get64_run _ a1)).
      rewrite (proj2 (root_words bS (amem a1) i)), (proj1 (root_words bD (amem a1) i)), (proj2 (root_words bD (amem a1) i)), Sn'. exact E2.
    + exists own2, l2, kl2, u2. split; [done|]. split; [eapply agree_iff; [|exact Ag2]; apply before_table|]. intros i' Hi'. apply Hz2. lia.
Qed.

Lemma copy_loop R : uspace fD rD bD own0 l0 kl0 uD0 a0 -> (forall i, 0 <= i < 512 -> table1 bD m0 i = 0) ->
  0 <= R -> room a0 (copy_cost bS m0 + R) ->
  exists own l kl uD a, ptref_copy true rD bD bS a0 = Ret (tt, a) /\ reach own l kl uD a /\ (forall v, copied (amem a) v) /\ room a R.
Proof using All.
  intros UsD Hz HR Hr.
  destruct (for_loop root_inv (fun i => if table1 bS m0 i =? 0 then 0 else 3 + tables_cost bS m0 i) root_body R 512 0 a0)
    as (a & E & (own & l & kl & uD & Re & [Ag _] & _) & Hr'); try done.
  - intros i a' r Hi Hr0. apply root_step; [lia|done].
  - intros i. pose proof (tables_cost_nonneg bS m0 i). destruct (_ =? 0); lia.
  - exists own0, l0, kl0, uD0. split; [exists 0; apply grown_refl; [done|lia]|]. split; [|done]. split; intros v Hv.
    + unfold before in Hv. pose proof (VPN_range 0 v). pose proof (VPN_range 1 v). pose proof (VPN_range 2 v). lia.
    + apply walkupt_absent. intros [Hx _]. apply Hx, Hz, VPN_range.
  - exists own, l, kl, uD, a. split; [exact E|]. split; [done|]. split; [|done]. intros v. apply Ag.
    unfold before. pose proof (VPN_range 2 v). left. lia.
Qed.
End Copy.

(** ** The address space of the child *)

(** The page that every space has without owning it. *)
Definition tramp (strampoline : Z) (v e : Z) : Prop :=
  same_page (ADDR_2_PAGE TRAMPOLINE) v /\ e = PTE (ADDR_2_PAGE strampoline) TRAMPOLINE_FLAGS.

Lemma base_only_spage t r m w : (forall v, walkupt m (r * 4096) v = 0) -> spage t (r * 4096) (base_only r) m w ->
  w = t \/ r <= w < r + 2.
Proof.
  intros Hw [[->|Hu]|(v & E & Hv)]; [by left| |by rewrite Hw in E].
  right. unfold base_only in Hu. by case_decide.
Qed.

Section Fork.
Context (st : Z) (rS bS : Z) (own : Z -> option node) (l kl : list AllocList.run) (uS : Z -> option utag) (a : A).
Hypothesis UsS : uspace (tramp st) rS bS own l kl uS a.
Hypothesis Hst : pfn_ok (ADDR_2_PAGE st).
Hypothesis Htr : walkupt (amem a) bS (ADDR_2_PAGE TRAMPOLINE) = 0.

(** The child: a space of its own that shows the bytes of the parent. *)
Record forked (rC bC pfn : Z) (own' : Z -> option node) (l' kl' : list AllocList.run) (uC : Z -> option utag) (a' : A) : Prop := {
  fk_parent : uspace (tramp st) rS bS own' l' kl' uS a';
  fk_child : uspace (tramp st) rC bC own' l' kl' uC a';
  fk_root : page_maps (km a') rC pfn /\ pfn_ok pfn;
  fk_apart : forall w, spage rS bS uS (amem a) w -> ~ spage rC bC uC (amem a') w;
  fk_same : forall x, spage rS bS uS (amem a) (x / 4096) -> amem a' x = amem a x;
  fk_mapped : forall v, walkupt (amem a') bC v <> 0 <-> walkupt (amem a) bS v <> 0;
  fk_bytes : forall x, walkupt (amem a) bS (x / 4096) <> 0 -> ubyte bC (amem a') x = ubyte bS (amem a) x;
  fk_flags : forall v, walkupt (amem a) bS v <> 0 -> GET_FLAGS (leaf bC (amem a') v) = GET_FLAGS (leaf bS (amem a) v);
  fk_tramp : leaf bC (amem a') (ADDR_2_PAGE TRAMPOLINE) = PTE (ADDR_2_PAGE st) TRAMPOLINE_FLAGS;
}.

Lemma tramp_flags : 0 <= TRAMPOLINE_FLAGS < 1024.
Proof. vm_compute. split; [discriminate|reflexivity]. Qed.

Lemma fork_space_ok : room a (8 + copy_cost bS (amem a)) ->
  exists own' l' kl' uC a' pfn rC bC, fork_space true st bS a = Ret ((pfn, rC, bC), a') /\ forked rC bC pfn own' l' kl' uC a'.
Proof using All.
  intros Hr. assert (0 <= copy_cost bS (amem a)) as Hcc
    by (apply total_nonneg; intros i; pose proof (tables_cost_nonneg bS (amem a) i); destruct (_ =? 0); lia).
  destruct (new_space (tramp st) own l kl a (us_heap _ _ _ _ _ _ _ _ UsS) ltac:(eapply room_mono; [exact Hr|lia]))
    as (own0 & l0 & kl0 & a1 & a0 & pfn & t & r & E1 & E2 & S0 & Hp & Hpm & UsD & Hz).
  destruct (mstep_grown (tramp st) rS bS _ _ _ _ _ _ _ _ _ _ _ UsS S0) as [G0 Sv0].
  pose proof (gr_space _ _ _ _ _ _ _ _ _ _ _ _ _ _ G0) as UsS0.
  pose proof (mstep_tables (tramp st) rS bS _ _ _ _ _ _ _ _ _ _ _ UsS S0) as St0.
  assert (forall w, spage rS bS uS (amem a0) w <-> spage rS bS uS (amem a) w) as Hsp.
  { intros w. unfold spage. split; (intros [?|(v & E & ?)]; [by left|right; exists v; split; [|done]]); [by rewrite <- (proj1 Sv0)|by rewrite (proj1 Sv0)]. }
  assert (forall w, spage rS bS uS (amem a0) w -> ~ spage t (r * 4096) (base_only r) (amem a0) w) as Apart.
  { intros w Hw Hd%base_only_spage; [|intros v; apply walkupt_absent; intros [Hx _]; apply Hx, Hz, VPN_range]. apply Hsp, (us_used _ _ _ _ _ _ _ _ UsS) in Hw as [_ []].
    apply (ms_was _ _ _ _ _ _ _ _ _ S0). exact Hd. }
  destruct (copy_loop (tramp st) (tramp st) rS bS t (r * 4096) uS (base_only r) own0 l0 kl0 a0 UsS0 Apart 5 UsD Hz ltac:(lia))
    as (own2 & l2 & kl2 & uC & a2 & E3 & Re & Hcp & Hr2).
  { rewrite (copy_cost_same uS bS (amem a) (amem a0) (us_upt _ _ _ _ _ _ _ _ UsS) St0).
    eapply cost_room; [apply S0|]. eapply room_mono; [exact Hr|lia]. }
  assert (forall v, walkupt (amem a0) bS v = walkupt (amem a) bS v) as Ew0 by apply Sv0.
  assert (uspace (tramp st) t (r * 4096) own2 l2 kl2 uC a2) as UsC by (eapply dst_space; exact Re).
  set (tv := ADDR_2_PAGE TRAMPOLINE) in *.
  assert (forall v, same_page tv v -> walkupt (amem a0) bS v = 0) as Htr0.
  { intros v Hv. rewrite Ew0, (walkupt_same _ _ tv v Hv). exact Htr. }
  destruct (uptmap_grows (tramp st) t (r * 4096) own2 l2 kl2 uC a2 tv 0 (ADDR_2_PAGE st) TRAMPOLINE_FLAGS UsC Hr2)
    as (own3 & l3 & kl3 & uC3 & a3 & E4 & G3 & Ew3 & El3 & Eo3 & _).
  { split; [exact Hst|]. split; [exact tramp_flags|]. left. split; [done|]. intros w Hw. by split. }
  assert (reach (tramp st) t (r * 4096) (base_only r) l0 kl0 a0 own3 l3 kl3 uC3 a3) as Re3
    by (eapply reach_step; [exact Re|exact G3|intros w [_ []]; done]).
  assert (forall v, copied bS (r * 4096) a0 (amem a3) v) as Hc3.
  { intros v. destruct (decide (same_page tv v)) as [Hs|Hs].
    - split; [intros _; by rewrite Ew3, decide_True|]. intros Hn. by destruct Hn; apply Htr0.
    - eapply copied_keep; [exact UsC|exact G3|by rewrite Ew3, decide_False| |apply Hcp]. intros Hpv. by apply Eo3. }
  exists own3, l3, kl3, uC3, a3, pfn, t, (r * 4096). split.
  { unfold fork_space. rewrite (bind_ret_l _ _ _ _ _ E1). cbv beta iota. change (2 * PAGESIZE) with 8192.
    rewrite (bind_ret_l _ _ _ _ _ E2), (bind_ret_l _ _ _ _ _ E3), (bind_ret_l _ _ _ _ _ E4). reflexivity. }
  split.
  - eapply src_space; [exact UsS0|exact Apart|exact Re3].
  - eapply dst_space. exact Re3.
  - split; [|exact Hp]. destruct Re3 as (n & G). apply (gr_keep _ _ _ _ _ _ _ _ _ _ _ _ _ _ G); [|intros Hf|exact Hpm].
    + left. apply (us_root _ _ _ _ _ _ _ _ UsC).
    + apply (ms_free _ _ _ _ _ _ _ _ _ S0) in Hf as [_ []]. by left.
  - intros w Hw. eapply src_apart; [exact UsS0|exact Apart|exact Re3|by apply Hsp].
  - intros x Hx. rewrite (src_kept _ _ _ _ _ _ _ _ _ _ _ _ UsS0 Apart _ _ _ _ _ Re3 x) by (by apply Hsp).
    apply (ms_mem _ _ _ _ _ _ _ _ _ S0). by apply (us_used _ _ _ _ _ _ _ _ UsS).
  - intros v. destruct (Hc3 v) as [C0 C1]. rewrite Ew0 in C0, C1. split; [intros H1 H2; by apply H1, C0|by apply C1].
  - intros x Hx. destruct (proj2 (Hc3 (x / 4096)) ltac:(by rewrite Ew0)) as (_ & Hb & _). unfold ubyte, uaddr. rewrite Hb by dlia.
    rewrite Ew0. apply (ms_mem _ _ _ _ _ _ _ _ _ S0), (us_used _ _ _ _ _ _ _ _ UsS). right. exists (x / 4096). split; [dlia|].
    destruct (us_page _ _ _ _ _ _ _ _ UsS _ Hx) as [Hk _]. unfold DMA_BASE in Hk. dlia.
  - intros v Hv. destruct (proj2 (Hc3 v) ltac:(by rewrite Ew0)) as (_ & _ & ->). f_equal. apply Sv0. by apply walk_present.
  - exact El3.
Qed.
End Fork.

(** C2: the address space that sys_fork builds for the child of a process with
    a coherent address space is coherent, has no page in common with the
    parent's, maps exactly the pages that the parent maps, with the parent's
    bytes and permissions, and the trampoline; the parent's tables and bytes are
    the same as before. *)
Theorem fork_copies_space st rS bS own l kl uS a :
  uspace (tramp st) rS bS own l kl uS a -> pfn_ok (ADDR_2_PAGE st) ->
  walkupt (amem a) bS (ADDR_2_PAGE TRAMPOLINE) = 0 -> room a (8 + copy_cost bS (amem a)) ->
  exists own' l' kl' uC a' pfn rC bC, fork_space true st bS a = Ret ((pfn, rC, bC), a') /\
    uspace (tramp st) rS bS own' l' kl' uS a' /\ uspace (tramp st) rC bC own' l' kl' uC a' /\ page_maps (km a') rC pfn /\
    (forall w, spage rS bS uS (amem a) w -> ~ spage rC bC uC (amem a') w) /\
    (forall x, spage rS bS uS (amem a) (x / 4096) -> amem a' x = amem a x) /\
    (forall v, walkupt (amem a') bC v <> 0 <-> walkupt (amem a) bS v <> 0) /\
    (forall x, walkupt (amem a) bS (x / 4096) <> 0 -> ubyte bC (amem a') x = ubyte bS (amem a) x) /\
    (forall v, walkupt (amem a) bS v <> 0 -> GET_FLAGS (leaf bC (amem a') v) = GET_FLAGS (leaf bS (amem a) v)) /\
    leaf bC (amem a') (ADDR_2_PAGE TRAMPOLINE) = PTE (ADDR_2_PAGE st) TRAMPOLINE_FLAGS.
Proof.
  intros Us Hst Htr Hr. destruct (fork_space_ok st rS bS own l kl uS a Us Hst Htr Hr)
    as (own' & l' & kl' & uC & a' & pfn & rC & bC & E & [F1 F2 F3 F4 F5 F6 F7 F8 F9]).
  exists own', l', kl', uC, a', pfn, rC, bC. destruct F3. done.
Qed.

(** A process with one page of heap that forks. *)
Definition end_state (o : outcome (unit * A)) : A := match o with Ret (_, a) => a | _ => heap0 end.
Definition fk_parent_state : A := end_state (sbrk_map true 1%nat sb_pt.2 sb_ref.1 10 sb_ref.2).

Lemma fk_parent_ok : exists own l kl u, uspace (tramp 2147483648) sb_pt.2 sb_ref.1 own l kl u fk_parent_state /\
  walkupt (amem fk_parent_state) sb_ref.1 10 <> 0 /\ walkupt (amem fk_parent_state) sb_ref.1 (ADDR_2_PAGE TRAMPOLINE) = 0 /\
  room fk_parent_state (8 + copy_cost sb_ref.1 (amem fk_parent_state)).
Proof.
  destruct (sb_uspace (tramp 2147483648)) as (own & l & kl & r & Er & Us & Hr & Hz).
  assert (forall w, walkupt (amem sb_ref.2) sb_ref.1 w = 0) as Hw0
    by (intros w; apply walkupt_absent; intros [Hx _]; apply Hx, Hz, VPN_range).
  assert (copy_cost sb_ref.1 (amem sb_ref.2) = 0) as Hc0 by (apply total_zero; intros i Hi; by rewrite Hz by lia).
  destruct (sbrk_map_grows (tramp 2147483648) sb_pt.2 sb_ref.1 1 own l kl (base_only r) sb_ref.2 10 Us
    ltac:(eapply room_mono; [exact Hr|lia]) ltac:(lia) ltac:(unfold UVPN_END; lia)) as (own1 & l1 & kl1 & u1 & a1 & E1 & G1 & Hn & Ho & Hc).
  assert (fk_parent_state = a1) as -> by (unfold fk_parent_state; by rewrite E1).
  exists own1, l1, kl1, u1. split; [exact (gr_space _ _ _ _ _ _ _ _ _ _ _ _ _ _ G1)|]. split; [exact (proj1 (Hn 10 ltac:(lia)))|]. split.
  - rewrite <- (Hw0 (ADDR_2_PAGE TRAMPOLINE)). apply Ho. intros u Hu (E2 & _). replace u with 10 in E2 by lia. discriminate E2.
  - pose proof (gr_cost _ _ _ _ _ _ _ _ _ _ _ _ _ _ G1) as Hcost. rewrite Hc0 in Hc. change (6 * Z.of_nat 1) with 6 in Hcost, Hc.
    apply (cost_room _ _ _ _ Hcost). apply (room_mono _ _ _ Hr). lia.
Qed.

Lemma fk_st : pfn_ok (ADDR_2_PAGE 2147483648).
Proof. split; vm_compute; [discriminate|reflexivity]. Qed.

Lemma fork_copies_space_witness :
  exists a' pfn rC bC, fork_space true 2147483648 sb_ref.1 fk_parent_state = Ret ((pfn, rC, bC), a') /\
    walkupt (amem a') bC 10 <> 0 /\ walkupt (amem a') bC 10 <> walkupt (amem fk_parent_state) sb_ref.1 10 /\
    ubyte bC (amem a') 40970 = ubyte sb_ref.1 (amem fk_parent_state) 40970.
Proof.
  destruct fk_parent_ok as (own & l & kl & u & Us & Hw & Ht & Hr).
  destruct (fork_copies_space 2147483648 sb_pt.2 sb_ref.1 own l kl u fk_parent_state Us fk_st Ht Hr)
    as (own2 & l2 & kl2 & u2 & a' & pfn & rC & bC & E & _ & _ & _ & Hap & _ & Hm & Hb & _).
  exists a', pfn, rC, bC. split; [exact E|]. assert (walkupt (amem a') bC 10 <> 0) as Hw' by (apply Hm; exact Hw).
  split; [exact Hw'|]. split; [|exact (Hb 40970 Hw)].
  intros Eq. exact (Hap _ (or_intror (ex_intro _ 10 (conj eq_refl Hw))) (or_intror (ex_intro _ 10 (conj Eq Hw)))).
Defined.
