(* ===== verification/FreeSpace.v ===== *)
(** * Freeing an address space (ptref_free)

    The loops of ptref_free walk the reference tables of a process and give its
    pages, then its tables, back to the two heaps.  Every page of the space is
    free afterwards, once, and nothing else has changed. *)
From S2P Require Import Sample.
From S2P Require Import Prelude Mem World KernelPT PTBits KernelPTSpec KernelPTRec KernelPTProps PTInit.
From S2P Require Import Alloc AllocList AllocSpec DmaHeapSpec DmaHeap KHeapSpec UserPT UserPTProps UserCopy SysIoSpec AddrSpace UMap ForkCopy.
From S2P Require Import Proc SysProc.
Import KernelPT Alloc UserPT Proc SysProc.

Lemma for_inv (Inv : Z -> A -> Prop) (body : Z -> M A unit) n : forall i a,
  (forall i' a', i <= i' < i + Z.of_nat n -> Inv i' a' -> exists a'', body i' a' = Ret (tt, a'') /\ Inv (i' + 1) a'') ->
  Inv i a -> exists a', for_from n i body a = Ret (tt, a') /\ Inv (i + Z.of_nat n) a'.
Proof.
  induction n as [|n IH]; intros i a Hstep Hi; cbn [for_from].
  - exists a. by rewrite Z.add_0_r.
  - destruct (Hstep i a ltac:(lia) Hi) as (a1 & E1 & I1).
    destruct (IH (i + 1) a1) as (a2 & E2 & I2); [intros; apply Hstep; [lia|done]|done|].
    exists a2. rewrite (bind_ret_l _ _ _ _ _ E1). split; [done|]. by replace (i + Z.of_nat (S n)) with (i + 1 + Z.of_nat n) by lia.
Qed.

Section Free.
Context (fixed : Z -> Z -> Prop) (root base : Z) (own : Z -> option node) (l0 kl0 : list AllocList.run) (uown : Z -> option utag) (a0 : A).
Hypothesis Us : uspace fixed root base own l0 kl0 uown a0.
Let m0 := amem a0.

(** The state after the pages [F] have been given back. *)
Record freed (F : Z -> Prop) (a : A) (l kl : list AllocList.run) : Prop := {
  fr_inv : kheap_inv own a l kl;
  fr_set : forall w, frees a l kl w <-> frees a0 l0 kl0 w \/ F w;
  fr_mem : forall x, ~ frees a l kl (x / 4096) -> amem a x = m0 x;
  fr_maps : forall w p, page_maps (km a) w p <-> page_maps (km a0) w p;
  fr_brk : brk_page a = brk_page a0 /\ kbrk_page a = kbrk_page a0;
}.

Lemma freed_iff (F F' : Z -> Prop) a l kl : (forall w, F w <-> F' w) -> freed F a l kl -> freed F' a l kl.
Proof. intros HF [I S Mm P B]. split; try done. intros w. rewrite S. specialize (HF w). tauto. Qed.

Lemma freed_none : freed (fun _ => False) a0 l0 kl0.
Proof using Us. split; try done; [apply Us|tauto]. Qed.

(** A page that is in use, of the space or not. *)
Lemma in_use F a l kl w : freed F a l kl -> ~ frees a0 l0 kl0 w -> ~ F w -> ~ frees a l kl w.
Proof. intros Fr H0 HF Hf. apply (fr_set _ _ _ _ Fr) in Hf. tauto. Qed.

Lemma freed_word F a l kl x : freed F a l kl -> ~ frees a l kl (x / 4096) -> x mod 8 = 0 -> load64 (amem a) x = load64 m0 x.
Proof. intros Fr Hx Hm. apply load64_page; [done|]. intros y Hy _. apply (fr_mem _ _ _ _ Fr). by rewrite Hy. Qed.

Lemma free_page F a l kl w p : freed F a l kl -> ~ frees a l kl w -> DMA_BASE <= w < DMA_END -> page_maps (km a0) w p -> pfn_ok p ->
  exists a', dmafree p w 1 a = Ret (tt, a') /\ freed (fun x => F x \/ x = w) a' (mkRun w 1 p :: l) kl.
Proof.
  intros Fr Hnf Hw Hp Hpo. pose proof Fr as [I S Mm P B]. pose proof (kh_dma _ _ _ _ I) as Hd.
  assert (w < brk_page a /\ w ∉ pages_of l) as [Hb Hl] by (unfold frees in Hnf; split; [lia|tauto]).
  assert (run_ok DMA_BASE (brk_page a) (mkRun w 1 p)) as Hrun by (split; cbn; lia).
  assert (run_mapped (km a) (mkRun w 1 p)) as Hmap.
  { unfold pfn_ok in Hpo. split; [cbn; lia|]. split; [cbn; lia|]. cbn. intros i Hi. replace i with 0 by lia. rewrite !Z.add_0_r. by apply P. }
  set (q := w * 4096). set (m' := store64 (store64 (store64 (amem a) q 1) (q + 8) p) (q + 16) (ptfreelist a)).
  assert (dmafree p w 1 a = Ret (tt, set_ptfreelist q (set_amem m' a))) as E.
  { unfold dmafree. rewrite (bind_ret_l (gets id) _ a a a eq_refl).
    rewrite PAGE_2_ADDR_small by (unfold DMA_BASE, DMA_END in Hw; lia). fold q. run_alloc. done. }
  destruct (dmafree_ok own a l p w 1 Hd Hrun Hmap) as (a' & E' & Hd' & Hb' & Hk' & Hm'); [intros v Hv; by replace v with w by lia|].
  rewrite E in E'. injection E' as <-. set (a' := set_ptfreelist q (set_amem m' a)) in *. exists a'. split; [done|].
  assert (forall x, x / 4096 <> w -> amem a' x = amem a x) as Hoff by (intros x Hx; apply Hm'; unfold in_pages; dlia).
  assert (forall x, frees a' (mkRun w 1 p :: l) kl x <-> frees a l kl x \/ x = w) as Hset.
  { intros x. unfold frees. change (kheap_free a' kl x) with (kheap_free a kl x). rewrite Hb', pages_of_cons, elem_of_app.
    unfold r_pages. cbn [r_vpn r_size]. rewrite elem_of_seqZ. assert (w <= x < w + 1 <-> x = w) by lia. tauto. }
  split.
  - destruct I as [K1 K2 K3 K4 K5 K6 K7]. split; [exact Hd'| |exact K3|exact K4|exact K5|exact K6|].
    + eapply flseg_ext; [|exact K2]. intros r x Hin Hx. apply Hoff. eapply Forall_forall in K3 as (? & ? & ?); [|exact Hin].
      unfold header, r_addr, KH_BASE, DMA_END in *. dlia.
    + intros v Hv. destruct (K7 v Hv) as [pv Hpv]. exists pv. rewrite Hk'. exact Hpv.
  - intros x. rewrite Hset, S. tauto.
  - intros x. rewrite Hset. intros Hx. rewrite Hoff by tauto. apply Mm. tauto.
  - intros v pv. rewrite Hk'. apply P.
  - destruct B as [B1 B2]. split; [exact (eq_trans Hb' B1)|exact B2].
Qed.

Lemma free_heap F a l kl r n size : freed F a l kl -> ADDR_2_PAGEUP size = n -> 1 <= size < 1073741824 -> 1 <= n ->
  (forall w, r <= w < r + n -> ~ frees a l kl w /\ KH_BASE <= w < KH_END) ->
  exists a' kl', kfree (r * 4096) size a = Ret (tt, a') /\ freed (fun x => F x \/ r <= x < r + n) a' l kl'.
Proof.
  intros Fr Hn Hs Hn1 Hw. pose proof Fr as [I S Mm P B].
  assert (r + n <= kbrk_page a) as Htop.
  { destruct (Hw (r + n - 1) ltac:(lia)) as [Hf Hr]. unfold frees, kheap_free in Hf. lia. }
  destruct (kfree_ok own a l kl r size I Hs) as (a' & E & I' & Hb' & Hk' & Hm').
  - apply (Hw r). lia.
  - by rewrite Hn.
  - rewrite Hn. intros w Hwr Hin. apply (proj1 (Hw w Hwr)). right. right. by left.
  - rewrite Hn in *. exists a', (mkRun r n 0 :: kl). split; [done|].
    assert (brk_page a' = brk_page a) as Eb.
    { unfold kfree in E. destruct (size =? 0); [by injection E as <-|]. by injection E as <-. }
    assert (forall x, frees a' l (mkRun r n 0 :: kl) x <-> frees a l kl x \/ r <= x < r + n) as Hset.
    { intros x. unfold frees, kheap_free. rewrite Eb, Hb', pages_of_cons, elem_of_app.
      unfold r_pages. cbn [r_vpn r_size]. rewrite elem_of_seqZ. tauto. }
    split; [done|..].
    + intros x. rewrite Hset, S. tauto.
    + intros x. rewrite Hset. intros Hx. rewrite Hm' by (unfold in_pages; intros Hin; apply Hx; right; dlia). apply Mm. tauto.
    + intros v pv. rewrite Hk'. apply P.
    + by rewrite Eb, Hb'.
Qed.

(** ** The pages that the loops have passed *)
Definition tab0 (i j w : Z) : Prop :=
  0 <= i < 512 /\ 0 <= j < 512 /\ table1 base m0 i <> 0 /\ table0 base m0 i j <> 0 /\
  (w = table0 base m0 i j / 4096 \/ w = next0 base m0 i j / 4096).
Definition tab1 (i w : Z) : Prop :=
  0 <= i < 512 /\ table1 base m0 i <> 0 /\
  (w = table1 base m0 i / 4096 \/ next1 base m0 i / 4096 <= w < next1 base m0 i / 4096 + 2).
Definition passed (i j k w : Z) : Prop :=
  (exists v, before i j k v /\ walkupt m0 base v = w /\ w <> 0) \/
  (exists i' j', (i' < i \/ i' = i /\ j' < j) /\ tab0 i' j' w) \/ (exists i', i' < i /\ tab1 i' w).

(** The tables that come later. *)
Definition later (i j : Z) (t : utag) : Prop :=
  match t with
  | T0 i' j' | R0 i' j' => ~ (i' < i \/ i' = i /\ j' < j)
  | T1 i' | R1 i' => ~ i' < i
  | RBase => True
  end.

Lemma tab0_tag i j w : tab0 i j w -> uown w = Some (T0 i j) \/ uown w = Some (R0 i j).
Proof using Us.
  intros (Hi & Hj & H1 & H0 & Hw). destruct (uw_0 _ _ _ (us_upt _ _ _ _ _ _ _ _ Us) i j Hi Hj H1 H0) as [Or Ot].
  destruct Hw as [->| ->]; [left|right]; by apply owned_page.
Qed.

Lemma tab1_tag i w : tab1 i w -> uown w = Some (T1 i) \/ uown w = Some (R1 i).
Proof using Us.
  intros (Hi & H1 & Hw). destruct (uw_1 _ _ _ (us_upt _ _ _ _ _ _ _ _ Us) i Hi H1) as [Or Ot].
  destruct Hw as [->|Hw]; [left; by apply owned_page|right]. destruct Or as (_ & _ & _ & Or). by apply Or.
Qed.

Lemma walk_untagged v w : walkupt m0 base v = w -> w <> 0 -> uown w = None /\ w <> root.
Proof using Us.
  intros <- Hw. destruct (us_page _ _ _ _ _ _ _ _ Us v Hw) as [_ Ht]. split; [|intros E; apply Ht; by left].
  destruct (uown (walkupt m0 base v)) eqn:E; [|done]. destruct Ht. right. change (amem a0) with m0. by rewrite E.
Qed.

Lemma later_not_passed i j k w t : uown w = Some t -> later i j t -> ~ passed i j k w.
Proof using Us.
  intros Hw Hl [(v & _ & E & Hn)|[(i' & j' & Ho & [Ht|Ht]%tab0_tag)|(i' & Ho & [Ht|Ht]%tab1_tag)]].
  - destruct (walk_untagged v w E Hn). congruence.
  - rewrite Ht in Hw. injection Hw as <-. by apply Hl.
  - rewrite Ht in Hw. injection Hw as <-. by apply Hl.
  - rewrite Ht in Hw. injection Hw as <-. by apply Hl.
  - rewrite Ht in Hw. injection Hw as <-. by apply Hl.
Qed.

Lemma page_not_passed i j k v : walkupt m0 base v <> 0 -> ~ before i j k v -> ~ passed i j k (walkupt m0 base v).
Proof using Us.
  intros Hv Hb [(v' & Hb' & E & Hn)|[(i' & j' & _ & Ht%tab0_tag)|(i' & _ & Ht%tab1_tag)]].
  - destruct (us_inj _ _ _ _ _ _ _ _ Us v' v) as (E2 & E1 & E0); [change (walkupt m0 base v' <> 0); by rewrite E|exact E|]. apply Hb. unfold before in *. by rewrite <- E2, <- E1, <- E0.
  - destruct (walk_untagged v _ eq_refl Hv). destruct Ht; congruence.
  - destruct (walk_untagged v _ eq_refl Hv). destruct Ht; congruence.
Qed.

Lemma root_not_passed i j k : ~ passed i j k root.
Proof using Us.
  pose proof (us_root _ _ _ _ _ _ _ _ Us) as [Hr _].
  intros [(v & _ & E & Hn)|[(i' & j' & _ & Ht%tab0_tag)|(i' & _ & Ht%tab1_tag)]].
  - by destruct (walk_untagged v root E Hn).
  - destruct Ht; congruence.
  - destruct Ht; congruence.
Qed.

Section Passing.
Context (i j k : Z) (a : A) (l kl : list AllocList.run).
Hypothesis Fr : freed (passed i j k) a l kl.

Lemma later_used w t : uown w = Some t -> later i j t -> ~ frees a l kl w.
Proof using Us Fr.
  intros Hw Hl. eapply in_use; [exact Fr| |by eapply later_not_passed]. apply (us_used _ _ _ _ _ _ _ _ Us). left. right. by rewrite Hw.
Qed.

Lemma later_word x t : word_of uown (Some t) x -> later i j t -> load64 (amem a) x = load64 m0 x.
Proof using Us Fr. intros [Ho Hx] Hl. eapply freed_word; [exact Fr|by eapply later_used|done]. Qed.
End Passing.

Definition state_at (i j k : Z) (a : A) : Prop := exists l kl, freed (passed i j k) a l kl.

(** ** The pages of one table *)
Section Pages.
Context (i j : Z).
Hypothesis Hi : 0 <= i < 512.
Hypothesis Hj : 0 <= j < 512.
Hypothesis H1 : table1 base m0 i <> 0.
Hypothesis H0 : table0 base m0 i j <> 0.

Lemma page_passed k v : walkupt m0 base v <> 0 -> (forall w, before i j (k + 1) w <-> before i j k w \/ same_page v w) ->
  forall w, passed i j k w \/ w = walkupt m0 base v <-> passed i j (k + 1) w.
Proof.
  intros Hv Hb w. unfold passed. split.
  - intros [[(u & Hu & E & Hn)|Ht]| ->]; [|by right|].
    + left. exists u. split; [apply Hb; by left|done].
    + left. exists v. split; [|done]. apply Hb. by right.
  - intros [(u & [Hu|Hu]%Hb & E & Hn)|Ht]; [left; left; by exists u| |left; by right].
    right. by rewrite <- E, (walkupt_same m0 base v u Hu).
Qed.

Lemma free_page_step k a : 0 <= k < 512 -> state_at i j k a ->
  exists a', (v ← get64 (ref0_entry (next0 base m0 i j) k);
     if v =? 0 then mret tt else e ← get64 (pte_in (table0 base m0 i j) k); dmafree (GET_PFN e) v 1) a = Ret (tt, a') /\
    state_at i j (k + 1) a'.
Proof using All.
  intros Hk (l & kl & Fr). set (v := upage i j k). destruct (upage_VPN i j k Hi Hj Hk) as (V2 & V1 & V0). fold v in V2, V1, V0.
  pose proof (us_upt _ _ _ _ _ _ _ _ Us) as W. change (amem a0) with m0 in W.
  assert (present base m0 v) as Hp by (split; by rewrite ?V2, ?V1).
  destruct (load64_ref uown base m0 v W Hp) as (_ & _ & Et & Er). rewrite V2, V1, V0 in Et, Er.
  destruct (words_of_page uown base m0 v W Hp) as [Wr Wt]. rewrite V2, V1 in Wr, Wt.
  assert (forall w, before i j (k + 1) w <-> before i j k w \/ same_page v w) as Hb.
  { intros w. unfold before, same_page. rewrite V2, V1, V0. lia. }
  rewrite (bind_ret_l _ _ _ _ _ (get64_run _ a)), Er, (later_word i j k a l kl Fr _ _ Wr ltac:(cbn; lia)).
  rewrite <- (walkupt_present uown base m0 v W Hp). destruct (Z.eqb_spec (walkupt m0 base v) 0) as [Hw|Hw].
  - exists a. split; [done|]. exists l, kl. eapply freed_iff; [|exact Fr]. intros w. unfold passed. split.
    + intros [(u & Hu & E & Hn)|Ht]; [left|by right]. exists u. split; [apply Hb; by left|done].
    + intros [(u & [Hu|Hu]%Hb & E & Hn)|Ht]; [left; by exists u| |by right].
      destruct Hn. by rewrite <- E, (walkupt_same m0 base v u Hu).
  - rewrite (bind_ret_l _ _ _ _ _ (get64_run _ a)), Et, (later_word i j k a l kl Fr _ _ Wt ltac:(cbn; lia)).
    destruct (proj2 (co_leaf _ _ _ _ _ _ v (us_upt _ _ _ _ _ _ _ _ Us) (us_coh _ _ _ _ _ _ _ _ Us) Hp) Hw) as (p & fl & Hpo & Hfl & Hpm & Ee).
    change (load64 m0 (upte base m0 v) = PTE p fl) in Ee. rewrite Ee, GET_PFN_PTE by (done || apply Hfl).
    destruct (us_page _ _ _ _ _ _ _ _ Us v Hw) as [Hr _]. change (amem a0) with m0 in Hr.
    destruct (free_page (passed i j k) a l kl (walkupt m0 base v) p Fr) as (a' & E & Fr'); [|done|done|done|].
    + eapply in_use; [exact Fr|apply (us_used _ _ _ _ _ _ _ _ Us); right; by exists v|].
      apply page_not_passed; [done|]. unfold before. rewrite V2, V1, V0. lia.
    + exists a'. split; [done|]. eexists _, _. eapply freed_iff; [|exact Fr']. by apply page_passed.
Qed.

Lemma free_pages_loop a : state_at i j 0 a ->
  exists a', free_pages0 (table0 base m0 i j) (next0 base m0 i j) a = Ret (tt, a') /\ state_at i j 512 a'.
Proof using All.
  intros Hs. apply (for_inv (state_at i j)); [|done]. intros k a' Hk. apply free_page_step. lia.
Qed.
End Pages.

(** ** A table and its reference table *)
Definition give_back (x t r size : Z) : M A unit :=
  e ← get64 x; dmafree (GET_PFN e) (ADDR_2_PAGE t) 1;; kfree r size.

Lemma free_table F a l kl x t r n size p T R : freed F a l kl ->
  load64 (amem a) x = PTE p PTE_VALID -> pfn_ok p -> page_maps (km a0) (t / 4096) p ->
  owned uown t 1 T -> DMA_BASE <= t / 4096 < DMA_END -> owned uown r n R -> ~ frees a l kl (t / 4096) ->
  (forall w, r / 4096 <= w < r / 4096 + n -> ~ frees a l kl w /\ KH_BASE <= w < KH_END) ->
  ADDR_2_PAGEUP size = n -> 1 <= size < 1073741824 -> 1 <= n ->
  exists a' l' kl', give_back x t r size a = Ret (tt, a') /\
    freed (fun w => F w \/ w = t / 4096 \/ r / 4096 <= w < r / 4096 + n) a' l' kl'.
Proof using Us.
  intros Fr Ex Hp Hm (Ht & Ht0 & _) Hd (Hr & _) Hft Hfr Hn Hs Hn1.
  destruct (free_page F a l kl (t / 4096) p Fr Hft Hd Hm Hp) as (a1 & E1 & Fr1).
  destruct (free_heap _ a1 _ kl (r / 4096) n size Fr1 Hn Hs Hn1) as (a2 & kl2 & E2 & Fr2).
  { intros w Hw. destruct (Hfr w Hw) as [Hf Hh]. split; [|done]. intros Hx. apply Hf.
    apply (fr_set _ _ _ _ Fr1) in Hx. apply (fr_set _ _ _ _ Fr). destruct Hx as [?|[?| ->]]; [by left|by right|].
    unfold DMA_END, KH_BASE in *. lia. }
  exists a2, (mkRun (t / 4096) 1 p :: l), kl2. split.
  - unfold give_back. rewrite (bind_ret_l _ _ _ _ _ (get64_run _ a)), Ex, GET_PFN_PTE by (done || unfold PTE_VALID; lia).
    rewrite ADDR_2_PAGE_div by (unfold DMA_BASE, DMA_END in Hd; dlia). rewrite (bind_ret_l _ _ _ _ _ E1). replace r with (r / 4096 * 4096) by dlia. exact E2.
  - eapply freed_iff; [|exact Fr2]. intros w. cbv beta. tauto.
Qed.

(** What the steps of the outer loops pass. *)
Lemma passed_absent0 i j w : table0 base m0 i j = 0 -> passed i j 0 w <-> passed i (j + 1) 0 w.
Proof.
  intros H0. unfold passed. split.
  - intros [(v & Hb & E)|[(i' & j' & Ho & Ht)|Ht]]; [left; exists v; split; [unfold before in *; lia|done]|right; left|by right; right].
    exists i', j'. split; [lia|done].
  - intros [(v & Hb & E & Hn)|[(i' & j' & Ho & Ht)|Ht]]; [left|right; left|by right; right].
    + exists v. split; [|done]. apply before_page in Hb. destruct (decide (before i j 0 v)) as [|Hnb]; [done|]. destruct Hn.
      rewrite <- E. apply walkupt_absent. intros [_ P]. apply P. pose proof (VPN_range 0 v).
      assert (VPN 2 v = i /\ VPN 1 v = j) as [-> ->] by (unfold before in *; lia). done.
    + exists i', j'. split; [|done]. destruct (decide (i' = i /\ j' = j)) as [[-> ->]|]; [by destruct Ht as (_ & _ & _ & [] & _)|lia].
Qed.

Lemma passed_table0 i j w : 0 <= i < 512 -> 0 <= j < 512 -> table1 base m0 i <> 0 -> table0 base m0 i j <> 0 ->
  passed i j 512 w \/ w = table0 base m0 i j / 4096 \/
    next0 base m0 i j / 4096 <= w < next0 base m0 i j / 4096 + 1 <-> passed i (j + 1) 0 w.
Proof.
  intros Hi Hj H1 H0. assert (tab0 i j w <-> w = table0 base m0 i j / 4096 \/
    next0 base m0 i j / 4096 <= w < next0 base m0 i j / 4096 + 1) as <-.
  { unfold tab0. split; [intros (_ & _ & _ & _ & ?); lia|]. intros Hw. do 4 (split; [done|]). lia. }
  unfold passed. split.
  - intros [[(v & Hb%before_page & E)|[(i' & j' & Ho & Ht)|Ht]]|Ht]; [left; by exists v|right; left|by right; right|right; left].
    + exists i', j'. split; [lia|done].
    + exists i, j. split; [lia|done].
  - intros [(v & Hb%before_page & E)|[(i' & j' & Ho & Ht)|Ht]]; [left; left; by exists v| |by left; right; right].
    destruct (decide (i' = i /\ j' = j)) as [[-> ->]|]; [by right|]. left. right. left. exists i', j'. split; [lia|done].
Qed.

Lemma passed_next i w : passed i 512 0 w \/ tab1 i w <-> passed (i + 1) 0 0 w.
Proof.
  unfold passed. split.
  - intros [[(v & Hb%before_table & E)|[(i' & j' & Ho & Ht)|(i' & Ho & Ht)]]|Ht]; [left; by exists v|right; left|right; right|right; right].
    + exists i', j'. split; [lia|done].
    + exists i'. split; [lia|done].
    + exists i. split; [lia|done].
  - intros [(v & Hb%before_table & E)|[(i' & j' & Ho & Ht)|(i' & Ho & Ht)]]; [left; left; by exists v|left; right; left|].
    + exists i', j'. split; [|done]. destruct Ht as (_ & ? & _). lia.
    + destruct (decide (i' = i)) as [->|]; [by right|]. left. right. right. exists i'. split; [lia|done].
Qed.

Lemma passed_absent1 i w : table1 base m0 i = 0 -> passed i 0 0 w <-> passed (i + 1) 0 0 w.
Proof.
  intros H1. unfold passed. split.
  - intros [(v & Hb & E)|[(i' & j' & Ho & Ht)|(i' & Ho & Ht)]]; [left; exists v; split; [unfold before in *; lia|done]|right; left|right; right].
    + exists i', j'. split; [destruct Ht as (_ & ? & _); lia|done].
    + exists i'. split; [lia|done].
  - intros [(v & Hb & E & Hn)|[(i' & j' & Ho & Ht)|(i' & Ho & Ht)]]; [left|right; left|right; right].
    + exists v. split; [|done]. pose proof (VPN_range 1 v). pose proof (VPN_range 0 v).
      destruct (decide (VPN 2 v = i)) as [Ei|]; [|unfold before in *; lia]. destruct Hn. rewrite <- E.
      apply walkupt_absent. intros [P _]. apply P. by rewrite Ei.
    + exists i', j'. split; [|done]. destruct Ht as (? & ? & T & _). destruct (decide (i' = i)) as [->|]; [done|lia].
    + exists i'. split; [|done]. destruct Ht as (? & T & _). destruct (decide (i' = i)) as [->|]; [done|lia].
Qed.

(** ** The outer loops *)

(** Pages of tables that come later are in use, where their kind lives. *)
Lemma later_page i j k a l kl w t : freed (passed i j k) a l kl -> uown w = Some t -> later i j t ->
  ~ frees a l kl w /\ home t w.
Proof using Us. intros Fr Hw Hl. split; [by eapply later_used|]. by apply (us_home _ _ _ _ _ _ _ _ Us). Qed.

Lemma free_table0_step i j a : 0 <= i < 512 -> 0 <= j < 512 -> table1 base m0 i <> 0 -> state_at i j 0 a ->
  exists a', (t0 ← get64 (ref_entry (next1 base m0 i) j);
     if t0 =? 0 then mret tt else
     r0 ← get64 (ref_entry (next1 base m0 i) j + 8);
     free_pages0 t0 r0;; give_back (pte_in (table1 base m0 i) j) t0 r0 PAGESIZE) a = Ret (tt, a') /\
    state_at i (j + 1) 0 a'.
Proof using Us.
  intros Hi Hj H1 (l & kl & Fr). pose proof (us_upt _ _ _ _ _ _ _ _ Us) as W. change (amem a0) with m0 in W.
  destruct (uw_1 _ _ _ W i Hi H1) as [Or Ot].
  destruct (word_16 uown _ _ j 0 Or Hj (or_introl eq_refl)) as [Ee W0]. destruct (word_16 uown _ _ j 8 Or Hj (or_intror eq_refl)) as [_ W8].
  rewrite Z.add_0_r in W0. destruct (pte_word uown _ _ j Ot Hj) as [Ep Wp].
  assert (load64 m0 (next1 base m0 i + j * 16) = table0 base m0 i j) as E0 by (unfold table0, ref_ptable; by rewrite Ee).
  assert (load64 m0 (next1 base m0 i + j * 16 + 8) = next0 base m0 i j) as E8 by (unfold next0, ref_next; by rewrite Ee).
  rewrite Ee, (bind_ret_l _ _ _ _ _ (get64_run _ a)), (later_word i j 0 a l kl Fr _ _ W0 ltac:(cbn; lia)), E0.
  destruct (Z.eqb_spec (table0 base m0 i j) 0) as [H0|H0].
  { exists a. split; [done|]. exists l, kl. eapply freed_iff; [|exact Fr]. intros w. by apply passed_absent0. }
  rewrite (bind_ret_l _ _ _ _ _ (get64_run _ a)), (later_word i j 0 a l kl Fr _ _ W8 ltac:(cbn; lia)), E8.
  destruct (free_pages_loop i j Hi Hj H1 H0 a) as (a1 & E1 & l1 & kl1 & Fr1); [by exists l, kl|].
  rewrite (bind_ret_l _ _ _ _ _ E1), Ep. destruct (uw_0 _ _ _ W i j Hi Hj H1 H0) as [Or0 Ot0].
  destruct (proj2 (co_0 _ _ _ _ _ (us_coh _ _ _ _ _ _ _ _ Us) i j Hi Hj H1) H0) as (p & Hp & Hm & Epte).
  destruct (later_page i j 512 a1 l1 kl1 _ _ Fr1 (owned_page _ _ _ Ot0) ltac:(cbn; lia)) as [Hft Hht].
  destruct (free_table _ a1 l1 kl1 (table1 base m0 i + j * 8) (table0 base m0 i j) (next0 base m0 i j) 1 PAGESIZE p (T0 i j) (R0 i j) Fr1)
    as (a2 & l2 & kl2 & E2 & Fr2); [|exact Hp|exact Hm|exact Ot0|exact Hht|exact Or0|exact Hft| |reflexivity|unfold PAGESIZE; lia|lia|].
  - rewrite (later_word i j 512 a1 l1 kl1 Fr1 _ _ Wp ltac:(cbn; lia)). exact Epte.
  - intros w Hw. apply (later_page i j 512 a1 l1 kl1 w (R0 i j) Fr1); [by apply Or0|cbn; lia].
  - exists a2. split; [exact E2|]. exists l2, kl2. eapply freed_iff; [|exact Fr2]. intros w. by apply passed_table0.
Qed.

Lemma free_level_loop i a : 0 <= i < 512 -> table1 base m0 i <> 0 -> state_at i 0 0 a ->
  exists a', free_level1 (table1 base m0 i) (next1 base m0 i) a = Ret (tt, a') /\ state_at i 512 0 a'.
Proof using Us.
  intros Hi H1 Hs. apply (for_inv (fun j => state_at i j 0)); [|done].
  intros j a' Hj Ha. exact (free_table0_step i j a' Hi ltac:(lia) H1 Ha).
Qed.

Lemma free_table1_step i a : 0 <= i < 512 -> state_at i 0 0 a ->
  exists a', (t1 ← get64 (ref_entry base i);
     if t1 =? 0 then mret tt else
     r1 ← get64 (ref_entry base i + 8);
     free_level1 t1 r1;; give_back (ADDR root (Z.shiftl i 3)) t1 r1 (PAGESIZE * 2)) a = Ret (tt, a') /\
    state_at (i + 1) 0 0 a'.
Proof using Us.
  intros Hi (l & kl & Fr). pose proof (us_upt _ _ _ _ _ _ _ _ Us) as W. change (amem a0) with m0 in W.
  pose proof (uw_base _ _ _ W) as Ob.
  destruct (word_16 uown _ _ i 0 Ob Hi (or_introl eq_refl)) as [Ee W0]. destruct (word_16 uown _ _ i 8 Ob Hi (or_intror eq_refl)) as [_ W8].
  rewrite Z.add_0_r in W0.
  assert (load64 m0 (base + i * 16) = table1 base m0 i) as E0 by (unfold table1, ref_ptable; by rewrite Ee).
  assert (load64 m0 (base + i * 16 + 8) = next1 base m0 i) as E8 by (unfold next1, ref_next; by rewrite Ee).
  rewrite Ee, (bind_ret_l _ _ _ _ _ (get64_run _ a)), (later_word i 0 0 a l kl Fr _ _ W0 I), E0.
  destruct (Z.eqb_spec (table1 base m0 i) 0) as [H1|H1].
  { exists a. split; [done|]. exists l, kl. eapply freed_iff; [|exact Fr]. intros w. by apply passed_absent1. }
  rewrite (bind_ret_l _ _ _ _ _ (get64_run _ a)), (later_word i 0 0 a l kl Fr _ _ W8 I), E8.
  destruct (free_level_loop i a Hi H1) as (a1 & E1 & l1 & kl1 & Fr1); [by exists l, kl|].
  rewrite (bind_ret_l _ _ _ _ _ E1). destruct (uw_1 _ _ _ W i Hi H1) as [Or Ot].
  pose proof (us_root _ _ _ _ _ _ _ _ Us) as [_ Hroot].
  assert (ADDR root (Z.shiftl i 3) = root * 4096 + i * 8) as ->.
  { rewrite Z.shiftl_mul_pow2 by lia. change (2 ^ 3) with 8. unfold ADDR, PAGESIZE. apply u64_small. unfold DMA_BASE, DMA_END in Hroot. lia. }
  destruct (proj2 (co_1 _ _ _ _ _ (us_coh _ _ _ _ _ _ _ _ Us) i Hi) H1) as (p & Hp & Hm & Epte).
  destruct (later_page i 512 0 a1 l1 kl1 _ _ Fr1 (owned_page _ _ _ Ot) ltac:(cbn; lia)) as [Hft Hht].
  destruct (free_table _ a1 l1 kl1 (root * 4096 + i * 8) (table1 base m0 i) (next1 base m0 i) 2 (PAGESIZE * 2) p (T1 i) (R1 i) Fr1)
    as (a2 & l2 & kl2 & E2 & Fr2); [|exact Hp|exact Hm|exact Ot|exact Hht|exact Or|exact Hft| |reflexivity|unfold PAGESIZE; lia|lia|].
  - rewrite (freed_word _ a1 l1 kl1 _ Fr1); [exact Epte| |dlia]. replace ((root * 4096 + i * 8) / 4096) with root by dlia.
    eapply in_use; [exact Fr1| |apply root_not_passed]. apply (us_used _ _ _ _ _ _ _ _ Us). left. by left.
  - intros w Hw. apply (later_page i 512 0 a1 l1 kl1 w (R1 i) Fr1); [by apply Or|cbn; lia].
  - exists a2. split; [exact E2|]. exists l2, kl2. eapply freed_iff; [|exact Fr2]. intros w. rewrite <- passed_next.
    unfold tab1. tauto.
Qed.

(** The pages of the space: its root table, the reference tables of the root,
    the tables below and the pages that they map. *)
Definition space_page (w : Z) : Prop :=
  w = root \/ base / 4096 <= w < base / 4096 + 2 \/ (exists i, tab1 i w) \/ (exists i j, tab0 i j w) \/
  exists v, walkupt m0 base v = w /\ w <> 0.

Lemma passed_all w : passed 512 0 0 w \/ w = root \/ base / 4096 <= w < base / 4096 + 2 <-> space_page w.
Proof.
  unfold passed, space_page. split.
  - intros [[(v & _ & E)|[(i & j & _ & Ht)|(i & _ & Ht)]]|[H|H]]; eauto 10.
  - intros [H|[H|[(i & Ht)|[(i & j & Ht)|(v & E)]]]]; [tauto|tauto|left..].
    + right. right. exists i. split; [apply Ht|done].
    + right. left. exists i, j. split; [left; apply Ht|done].
    + left. exists v. split; [left; apply VPN_range|done].
Qed.

Lemma space_page_used w : space_page w -> spage root base uown m0 w.
Proof using Us.
  pose proof (uw_base _ _ _ (us_upt _ _ _ _ _ _ _ _ Us)) as (_ & _ & _ & Ob).
  intros [H|[H|[(i & Ht%tab1_tag)|[(i & j & Ht%tab0_tag)|H]]]]; [by left; left| | | |by right].
  - left. right. by rewrite Ob.
  - left. right. by destruct Ht as [-> | ->].
  - left. right. by destruct Ht as [-> | ->].
Qed.

Lemma ptref_free_ok rp : page_maps (km a0) root rp -> pfn_ok rp ->
  exists a' l' kl', ptref_free rp root base a0 = Ret (tt, a') /\ freed space_page a' l' kl'.
Proof using Us.
  intros Hrp Hpo. pose proof (us_root _ _ _ _ _ _ _ _ Us) as [Hrt Hroot].
  destruct (for_inv (fun i => state_at i 0 0)
    (fun i => t1 ← get64 (ref_entry base i);
       if t1 =? 0 then mret tt else
       r1 ← get64 (ref_entry base i + 8);
       free_level1 t1 r1;; give_back (ADDR root (Z.shiftl i 3)) t1 r1 (PAGESIZE * 2)) 512 0 a0) as (a1 & E1 & l1 & kl1 & Fr1).
  { intros i a Hi Ha. exact (free_table1_step i a ltac:(lia) Ha). }
  { exists l0, kl0. eapply freed_iff; [|exact freed_none]. intros w. split; [done|]. unfold passed, before.
    intros [(v & Hv & _)|[(i & j & Ho & Ht)|(i & Ho & Ht)]]; [|destruct Ht as (? & ? & _); lia|destruct Ht as (? & _); lia].
    pose proof (VPN_range 2 v). pose proof (VPN_range 1 v). pose proof (VPN_range 0 v). lia. }
  change (0 + Z.of_nat 512) with 512 in Fr1. pose proof (uw_base _ _ _ (us_upt _ _ _ _ _ _ _ _ Us)) as (Hb & _ & _ & Ob).
  destruct (free_page _ a1 l1 kl1 root rp Fr1) as (a2 & E2 & Fr2); [|done|done|done|].
  { eapply in_use; [exact Fr1| |apply root_not_passed]. apply (us_used _ _ _ _ _ _ _ _ Us). left. by left. }
  destruct (free_heap _ a2 _ kl1 (base / 4096) 2 (PAGESIZE * 2) Fr2 eq_refl ltac:(unfold PAGESIZE; lia) ltac:(lia)) as (a3 & kl3 & E3 & Fr3).
  { intros w Hw. destruct (later_page 512 0 0 a1 l1 kl1 w RBase Fr1 (Ob w Hw) I) as [Hf Hh]. split; [|exact Hh].
    intros Hx. apply Hf. apply (fr_set _ _ _ _ Fr2) in Hx. apply (fr_set _ _ _ _ Fr1). destruct Hx as [?|[?| ->]]; [by left|by right|].
    by rewrite (Ob root Hw) in Hrt. }
  exists a3, (mkRun root 1 rp :: l1), kl3. split.
  - unfold ptref_free. rewrite (bind_ret_l _ _ _ _ _ E1), (bind_ret_l _ _ _ _ _ E2).
    replace base with (base / 4096 * 4096) at 1 by dlia. exact E3.
  - eapply freed_iff; [|exact Fr3]. intros w. rewrite <- passed_all. tauto.
Qed.
End Free.

(** C5: ptref_free of a coherent address space returns and gives exactly the
    pages of the space, its root table, its tables and reference tables and every
    page that they map, back to the heaps; none of them was free before, so no
    page is freed twice.  The heaps stay well formed, the memory of the other
    pages is the same, and every address space that shares no page with the one
    that is freed stays as it is. *)
Theorem ptref_free_returns_pages fixed root base own l kl uown a rp :
  uspace fixed root base own l kl uown a -> page_maps (km a) root rp -> pfn_ok rp ->
  exists a' l' kl', ptref_free rp root base a = Ret (tt, a') /\ kheap_inv own a' l' kl' /\
    (forall w, frees a' l' kl' w <-> frees a l kl w \/ space_page root base a w) /\
    (forall w, space_page root base a w -> ~ frees a l kl w) /\
    (forall x, ~ frees a l kl (x / 4096) -> ~ space_page root base a (x / 4096) -> amem a' x = amem a x) /\
    (forall fx r b u, uspace fx r b own l kl u a -> (forall w, spage r b u (amem a) w -> ~ space_page root base a w) ->
       uspace fx r b own l' kl' u a').
Proof.
  intros Us Hrp Hpo. destruct (ptref_free_ok fixed root base own l kl uown a Us rp Hrp Hpo) as (a' & l' & kl' & E & [I S Mm P B]).
  assert (forall w, ~ frees a l kl w -> ~ space_page root base a w -> ~ frees a' l' kl' w) as Hn by (intros w H1 H2; rewrite S; tauto).
  exists a', l', kl'. split; [done|]. split; [done|]. split; [done|]. split; [|split].
  - intros w Hw. apply (us_used _ _ _ _ _ _ _ _ Us). by eapply space_page_used.
  - intros x H1 H2. apply Mm. by apply Hn.
  - intros fx r b u Us2 Hd. assert (forall w, spage r b u (amem a) w -> ~ frees a' l' kl' w) as Hk
      by (intros w Hw; apply Hn; [by apply (us_used _ _ _ _ _ _ _ _ Us2)|by apply Hd]).
    eapply uspace_keep; [exact Us2|done|exact Hk| |intros w p _; apply P]. intros x Hx. apply Mm, Hk. by left.
Qed.

(** A space whose pages keep their bytes translates as before. *)
Lemma kept_space fixed r b own l kl u a a' : uspace fixed r b own l kl u a ->
  (forall x, spage r b u (amem a) (x / 4096) -> amem a' x = amem a x) ->
  (forall v, walkupt (amem a') b v = walkupt (amem a) b v) /\
  (forall w, spage r b u (amem a') w -> spage r b u (amem a) w).
Proof.
  intros Us Hm. assert (forall v, walkupt (amem a') b v = walkupt (amem a) b v) as Ew
    by (intros v; eapply keep_walk; [exact Us|]; intros x Hx; apply Hm; by left).
  split; [exact Ew|]. intros w [Hx|(v & Ev & Hn)]; [by left|]. right. exists v. by rewrite <- Ew.
Qed.

(** The child of fork_copies_space's process gives its pages back; the parent
    keeps its own. *)
Lemma ptref_free_returns_pages_witness : exists a a' pfn rC bC k,
  fork_space true 2147483648 sb_ref.1 fk_parent_state = Ret ((pfn, rC, bC), a) /\
  walkupt (amem a) bC 10 = k /\ k <> 0 /\ ptref_free pfn rC bC a = Ret (tt, a') /\
  (exists l kl, frees a' l kl k /\ frees a' l kl rC /\ ~ frees a' l kl (walkupt (amem a) sb_ref.1 10)) /\
  walkupt (amem a') sb_ref.1 10 = walkupt (amem a) sb_ref.1 10.
Proof.
  destruct fk_parent_ok as (own & l & kl & u & Us & Hw & Ht & Hr).
  destruct (fork_space_ok 2147483648 sb_pt.2 sb_ref.1 own l kl u fk_parent_state Us fk_st Ht Hr)
    as (own1 & l1 & kl1 & uC & a & pfn & rC & bC & E & [UsP UsC [Hrt Hpo] Hap Hsame Hm _ _ _]).
  destruct (ptref_free_returns_pages (tramp 2147483648) rC bC own1 l1 kl1 uC a pfn UsC Hrt Hpo)
    as (a' & l' & kl' & E' & _ & Hset & _ & Hmem & Hoth).
  destruct (kept_space _ _ _ _ _ _ _ _ _ Us Hsame) as [Ew Hsp].
  assert (forall w, spage sb_pt.2 sb_ref.1 u (amem a) w -> ~ space_page rC bC a w) as Hd.
  { intros w Hx Hs. exact (Hap w (Hsp w Hx) (space_page_used _ _ _ _ _ _ _ _ UsC w Hs)). }
  pose proof (Hoth _ _ _ _ UsP Hd) as UsP'.
  destruct (kept_space _ _ _ _ _ _ _ _ a' UsP (fun x Hx => Hmem x (proj2 (us_used _ _ _ _ _ _ _ _ UsP _ Hx)) (Hd _ Hx))) as [Ew' _].
  exists a, a', pfn, rC, bC, (walkupt (amem a) bC 10). split; [exact E|]. split; [reflexivity|].
  assert (walkupt (amem a) bC 10 <> 0) as Hk by (apply Hm; exact Hw). split; [exact Hk|]. split; [exact E'|]. split; [|exact (Ew' 10)].
  exists l', kl'. split; [|split].
  - apply Hset. right. right. right. right. right. exists 10. split; [reflexivity|exact Hk].
  - apply Hset. right. left. reflexivity.
  - apply (us_used _ _ _ _ _ _ _ _ UsP'). right. exists 10. split; [exact (Ew' 10)|]. intros H0. exact (Hw (eq_trans (eq_sym (Ew 10)) H0)).
Defined.
