(* ===== verification/SysIoFiles.v ===== *)
(** * The files of the system behind read and write

    The standard input and output and the regular files keep the promises
    [Source] and [Sink]; with them the two system calls are correct at the
    console and on the file system, and a process reads back what it wrote. *)
From S2P Require Import Prelude Mem World KernelPT PTBits KernelPTSpec KernelPTRec KernelPTProps PTInit CString CStringProps.
From S2P Require Import Alloc AllocList AllocSpec DmaHeapSpec DmaHeap KHeapSpec UserPT UserPTProps.
From S2P Require Import FsTypes FsCode FsFileSpec FsFileProps Files Proc SysFile FdSpec UserCopy SysIoSpec SysIo.
Import KernelPT Alloc UserPT FsTypes FsCode Files Proc SysFile.

Lemma static_fits x : (static_size <? u64 x) = false.
Proof. unfold static_size. pose proof (u64_range x). apply Z.ltb_ge. lia. Qed.

(** ** The console *)
#[export] Instance stdin_source gpu_flush f off s c ks : ops f = stdin_ops -> con_in s = c :: ks ->
  Source gpu_flush f off 1 s (set_con ks (con_out s) s) (fun _ => u8 c).
Proof.
  intros Hf Hc a kb Hkb Hr. unfold wrapped_read, call_get_permission, call_get_size, call_read. rewrite Hf.
  mstep. change (Z.land static_r PERMISSION_R =? 0) with false. cbv iota. mstep. rewrite static_fits.
  unfold stdin_read. change (negb (1 =? 1)) with false. cbv iota.
  unfold kgetc, mbind, M_bind. change (con_in (set_fa a s)) with (con_in s). rewrite Hc.
  eexists. split; [reflexivity|]. intros x. cbn. unfold upd. case_decide; zcases; try done; lia.
Qed.

(** Nothing typed: the byte 255, which is the answer -1 of the firmware. *)
#[export] Instance stdin_empty gpu_flush f off s : ops f = stdin_ops -> con_in s = [] ->
  Source gpu_flush f off 1 s s (fun _ => 255).
Proof.
  intros Hf Hc a kb Hkb Hr. unfold wrapped_read, call_get_permission, call_get_size, call_read. rewrite Hf.
  mstep. change (Z.land static_r PERMISSION_R =? 0) with false. cbv iota. mstep. rewrite static_fits.
  unfold stdin_read. change (negb (1 =? 1)) with false. cbv iota.
  unfold kgetc, mbind, M_bind. change (con_in (set_fa a s)) with (con_in s). rewrite Hc.
  eexists. split; [reflexivity|]. intros x. cbn. unfold upd. case_decide; zcases; try done; lia.
Qed.

Lemma stdout_loop n : forall buf i byte s,
  0 <= buf -> 0 <= i -> buf + i + Z.of_nat n < 18446744073709551616 ->
  (forall j, i <= j < i + Z.of_nat n -> fmem s (buf + j) = byte j) ->
  stdout_write_loop n buf i s = Ret (0, set_con (con_in s) (con_out s ++ shown n byte i) s).
Proof.
  induction n as [|n IH]; intros buf i byte s Hb Hi Hr Hm; cbn [stdout_write_loop shown].
  { rewrite app_nil_r. by destruct s. }
  mstep. rewrite u64_small, Hm by lia. destruct (byte i =? 0); [rewrite app_nil_r; by destruct s|].
  mstep. rewrite (IH buf (i + 1) byte) by (lia || (intros j Hj; apply (Hm j); lia)). cbn. by rewrite <- app_assoc.
Qed.

#[export] Instance stdout_sink f off size s : ops f = stdout_ops -> 0 <= size ->
  Sink f off size s (fun byte r => r = set_con (con_in s) (con_out s ++ shown (Z.to_nat size) byte 0) s).
Proof.
  intros Hf Hs. split.
  - exists static_size. split; [unfold static_size; pose proof (u64_range (off + size)); lia|].
    intros a. unfold call_get_size. by rewrite Hf.
  - intros a kb byte Hkb Hr Hb. eexists. split; [|reflexivity].
    unfold wrapped_write, call_get_permission, call_get_size, call_write. rewrite Hf.
    mstep. change (Z.land static_w PERMISSION_W =? 0) with false. cbv iota. mstep. rewrite static_fits.
    unfold stdout_write. rewrite (stdout_loop _ kb 0 byte); [done|lia..|].
    intros j Hj. apply Hb. lia.
Qed.

(** ** Regular files *)
Lemma inode_at_set_fa a s ino inode lo : inode_at s ino inode lo -> inode_at (set_fa a s) ino inode lo.
Proof.
  intros [H1 H2 H3 H4 H5 H6 H7]. split; try done.
  rewrite (get_inode_run s ino lo) in H7 by done. rewrite (get_inode_run (set_fa a s) ino lo) by done.
  change (dev (set_fa a s)) with (dev s).
  change (inode_bit (set_fa a s) ino) with (inode_bit s ino). change (inode_addr (set_fa a s) ino) with (inode_addr s ino).
  by injection H7 as ->.
Qed.

Lemma blocks_ok_set_fa a s inode lo n : blocks_ok s inode lo n -> blocks_ok (set_fa a s) inode lo n.
Proof. intros [H1 H2 H3 H4 H5 H6]. by split. Qed.

(** The file behind [f]: an FSFile object, its inode, its pages in direct blocks. *)
Record regular (f : File) (s : F) (v : FSFile) (inode : Inode) (lo n : Z) : Prop := {
  rg_ops : ops f = fs_ops;
  rg_obj : objs s !! fsuper f = Some v;
  rg_inode : inode_at s (inum v) inode lo;
  rg_blocks : blocks_ok s inode lo n;
  rg_size : 0 <= size_bytes inode <= n * 4096;
}.

Section Regular.
Context (f : File) (s : F) (v : FSFile) (inode : Inode) (lo n off size : Z).
Hypothesis Rg : regular f s v inode lo n.
Hypothesis Hoff : 0 <= off.
Hypothesis Hsize : 0 < size.
Hypothesis Hin : off + size <= size_bytes inode.

Lemma regular_obj a : get_obj (fsuper f) (set_fa a s) = Ret (v, set_fa a s).
Proof using Rg. unfold get_obj, mbind, M_bind, gets, lift. change (objs (set_fa a s)) with (objs s). by rewrite (rg_obj _ _ _ _ _ _ Rg). Qed.

Lemma regular_size a : call_get_size f (set_fa a s) = Ret (size_bytes inode, set_fa a s).
Proof using Rg.
  unfold call_get_size. rewrite (rg_ops _ _ _ _ _ _ Rg), (bind_ret_l _ _ _ _ _ (regular_obj a)).
  unfold fs_file_get_size. rewrite (bind_ret_l _ _ _ _ _ (the_inode_run (set_fa a s) (inum v) inode
    (ia_get _ _ _ _ (inode_at_set_fa a s _ _ _ (rg_inode _ _ _ _ _ _ Rg))))). done.
Qed.

Lemma regular_permission a : call_get_permission f (set_fa a s) = Ret (permission inode, set_fa a s).
Proof using Rg.
  unfold call_get_permission. rewrite (rg_ops _ _ _ _ _ _ Rg), (bind_ret_l _ _ _ _ _ (regular_obj a)).
  unfold fs_file_get_permission. rewrite (bind_ret_l _ _ _ _ _ (the_inode_run (set_fa a s) (inum v) inode
    (ia_get _ _ _ _ (inode_at_set_fa a s _ _ _ (rg_inode _ _ _ _ _ _ Rg))))). done.
Qed.

Lemma regular_fits : (size_bytes inode <? u64 (off + size)) = false /\ off + size <= n * 4096 /\ off + size < 18446744073709551616.
Proof using All.
  pose proof (rg_size _ _ _ _ _ _ Rg). pose proof (bo_n _ _ _ _ (rg_blocks _ _ _ _ _ _ Rg)).
  rewrite u64_small by lia. split; [by apply Z.ltb_ge|lia].
Qed.

Lemma regular_source gpu_flush : Z.land (permission inode) PERMISSION_R <> 0 ->
  Source gpu_flush f off size s s (fun i => fbyte (dev s) inode (off + i)).
Proof using All.
  intros Hperm a kb Hkb Hr. destruct regular_fits as (Hf & Hn & _). unfold wrapped_read.
  rewrite (bind_ret_l _ _ _ _ _ (regular_permission a)), (proj2 (Z.eqb_neq _ _) Hperm).
  rewrite (bind_ret_l _ _ _ _ _ (regular_size a)), Hf. unfold call_read. rewrite (rg_ops _ _ _ _ _ _ Rg).
  rewrite (bind_ret_l _ _ _ _ _ (regular_obj a)).
  destruct (fs_read_ok (set_fa a s) (inum v) inode lo n off kb size) as (m' & E & Hm); try done.
  { by apply inode_at_set_fa, Rg. } { by apply blocks_ok_set_fa, Rg. }
  exists m'. split; [done|]. intros x. rewrite Hm. case_decide; zcases; try lia; done.
Qed.

(** What a write of [byte] leaves on the device. *)
Definition rewritten (byte : Z -> Z) (r : F) : Prop := exists d', r = set_dev d' s /\
  regular f r v inode lo n /\
  (forall q, 0 <= q < n * 4096 -> fbyte d' inode q =
     if decide (off <= q < off + size) then byte (q - off) else fbyte (dev s) inode q) /\
  (forall x, (forall q, off <= q < off + size -> x <> faddr inode q) -> d' x = dev s x).

Lemma regular_sink : Z.land (permission inode) PERMISSION_W <> 0 -> Sink f off size s rewritten.
Proof using All.
  intros Hperm. destruct regular_fits as (Hf & Hn & Hr64). split.
  { exists (size_bytes inode). split; [by apply Z.ltb_ge|]. exact regular_size. }
  intros a kb byte Hkb Hr Hb. unfold wrapped_write.
  rewrite (bind_ret_l _ _ _ _ _ (regular_permission a)), (proj2 (Z.eqb_neq _ _) Hperm).
  rewrite (bind_ret_l _ _ _ _ _ (regular_size a)), Hf. unfold call_write. rewrite (rg_ops _ _ _ _ _ _ Rg).
  rewrite (bind_ret_l _ _ _ _ _ (regular_obj a)).
  destruct (fs_write_ok (set_fa a s) (inum v) inode lo n off kb size) as (d' & E & (W1 & _ & W3) & I' & B'); try done.
  { by apply inode_at_set_fa, Rg. } { by apply blocks_ok_set_fa, Rg. }
  exists (set_dev d' s). split; [done|]. exists d'. split; [done|]. split; [|split; [|done]].
  - split; try apply Rg.
    + apply (inode_at_set_fa (fa s)) in I'. rewrite <- (set_fa_id (set_dev d' s)). exact I'.
    + apply (blocks_ok_set_fa (fa s)) in B'. rewrite <- (set_fa_id (set_dev d' s)). exact B'.
  - intros q Hq. rewrite W1 by done. case_decide; zcases; try lia; try done.
    change (fmem (set_fa a s)) with (amem a). rewrite <- (Hb (q - off)) by lia. done.
Qed.
End Regular.
