(* ===== verification/SysIoProps.v ===== *)
(** * What a process gets from read and write

    The properties of the two calls on the console and on regular files, and
    the round trip through a file, with a concrete kernel state on which they
    are evaluated. *)
From S2P Require Import Prelude Mem World KernelPT PTBits KernelPTSpec KernelPTRec KernelPTProps PTInit CString CStringProps.
From S2P Require Import Alloc AllocList AllocSpec DmaHeapSpec DmaHeap KHeapSpec UserPT UserPTProps Sample.
From S2P Require Import FsTypes FsCode FsFileSpec FsFileProps Files Proc SysFile FdSpec UserCopy SysIoSpec SysIo SysIoFiles.
Import KernelPT Alloc UserPT FsTypes FsCode Files Proc SysFile.

(** C12: a write to the standard output returns 0 and shows on the console the
    bytes that the process sees in its buffer, up to the first 0; the process
    sees its memory as before, the kernel heap has the free pages it had, and
    the descriptor has moved on by the size. *)
Theorem sys_write_stdout_correct fuel own l kl uown s p fd d ub size :
  caller own l kl uown s p fd d ub size -> may_write d -> ops (file d) = stdout_ops ->
  exists s', sys_write true fuel (Z.of_nat fd) ub size s = Ret (Value 0, s') /\
    call_done l kl uown s p fd d ub size
      (set_con (con_in (pf s)) (con_out (pf s) ++ shown (Z.to_nat size) (ubyte (ptref_base (space p)) (pmem s)) ub) (pf s))
      (fun i => ubyte (ptref_base (space p)) (pmem s) (ub + i)) s'.
Proof.
  intros Ca Hw Hf. pose proof (ca_size _ _ _ _ _ _ _ _ _ _ Ca).
  destruct (sys_write_ok fuel own l kl uown s p fd d ub size Ca _ Hw (stdout_sink (file d) (seek d) size (pf s) Hf ltac:(lia)))
    as (s' & rest & E & -> & D).
  exists s'. split; [done|]. by rewrite shown_shift, Z.add_0_r in D.
Qed.

(** A read of one byte of the standard input returns 0 with the next byte of
    the console at the address the process gave, and takes it from the console;
    nothing else of the process's memory, of the files and of the heap changes. *)
Theorem sys_read_stdin_correct gpu_flush own l kl uown s p fd d ub c ks :
  caller own l kl uown s p fd d ub 1 -> may_read d -> ops (file d) = stdin_ops -> con_in (pf s) = c :: ks ->
  exists s', sys_read true gpu_flush (Z.of_nat fd) ub 1 s = Ret (Value 0, s') /\
    call_done l kl uown s p fd d ub 1 (set_con ks (con_out (pf s)) (pf s)) (fun _ => u8 c) s'.
Proof. intros Ca Hr Hf Hc. apply (sys_read_ok gpu_flush own l kl uown); [done|done|by apply stdin_source]. Qed.

(** C9: a read inside a regular file of at most 25 blocks, all of them direct and
    cached, returns 0 and leaves in the process's buffer, as the process sees it,
    the bytes of the file at the position of the descriptor, which moves on by
    the size; the device, the rest of the memory the process sees and the free
    pages of the heap are as before. *)
Theorem sys_read_file_correct gpu_flush own l kl uown s p fd d ub size v inode lo n :
  caller own l kl uown s p fd d ub size -> may_read d -> regular (file d) (pf s) v inode lo n ->
  0 <= seek d -> seek d + size <= size_bytes inode -> Z.land (permission inode) PERMISSION_R <> 0 ->
  exists s', sys_read true gpu_flush (Z.of_nat fd) ub size s = Ret (Value 0, s') /\
    call_done l kl uown s p fd d ub size (pf s) (fun i => fbyte (dev (pf s)) inode (seek d + i)) s'.
Proof.
  intros Ca Hr Rg Ho Hs Hp. pose proof (ca_size _ _ _ _ _ _ _ _ _ _ Ca).
  apply (sys_read_ok gpu_flush own l kl uown); [done|done|]. eapply regular_source; [exact Rg|lia..|done].
Qed.

(** C10: a write inside a regular file of at most 25 blocks, all of them direct and
    cached, returns 0 and replaces exactly the bytes of the file at the position
    of the descriptor by the bytes that the process sees in its buffer, whole
    blocks included (a whole block that is not cached would be lost); no other
    byte of the device, and nothing that the process sees, changes. *)
Theorem sys_write_file_correct fuel own l kl uown s p fd d ub size v inode lo n :
  caller own l kl uown s p fd d ub size -> may_write d -> regular (file d) (pf s) v inode lo n ->
  0 <= seek d -> seek d + size <= size_bytes inode -> Z.land (permission inode) PERMISSION_W <> 0 ->
  exists s' rest, sys_write true fuel (Z.of_nat fd) ub size s = Ret (Value 0, s') /\
    let byte i := ubyte (ptref_base (space p)) (pmem s) (ub + i) in
    rewritten (file d) (pf s) v inode lo n (seek d) size byte rest /\
    call_done l kl uown s p fd d ub size rest byte s'.
Proof.
  intros Ca Hr Rg Ho Hs Hp. pose proof (ca_size _ _ _ _ _ _ _ _ _ _ Ca).
  apply sys_write_ok with own; [done|done|]. apply regular_sink; [exact Rg|lia..|done].
Qed.

(** Another descriptor of the file after the write. *)
Lemma rewritten_regular f g s v v2 inode lo n off size byte r : 0 <= off -> off + size <= n * 4096 ->
  rewritten f s v inode lo n off size byte r -> regular g s v2 inode lo n -> regular g r v2 inode lo n.
Proof.
  intros Ho Hs (d' & -> & _ & _ & Hd) [H1 H2 H3 H4 H5]. split; try done.
  - apply inode_at_stable; [done|]. intros x Hx. apply Hd. intros q Hq ->.
    destruct (bo_blk _ _ _ _ H4 (q / 4096)) as [Hl _]; [dlia|]. unfold faddr in Hx. dlia.
  - by destruct H4; split.
Qed.

(** The process calls again. *)
Lemma caller_again own l kl uown s p fd d ub size rest byte s' fd2 d2 ub2 size2 :
  caller own l kl uown s p fd d ub size -> call_done l kl uown s p fd d ub size rest byte s' ->
  fd2 <> fd -> opened_files p !! fd2 = Some d2 -> occupied d2 = true ->
  0 <= ub2 /\ ub2 + size2 <= UVPN_END * 4096 -> 1 <= size2 < 1073741824 ->
  (forall v, ub2 / 4096 <= v < ub2 / 4096 + npages ub2 size2 -> walkupt (pmem s) (ptref_base (space p)) v <> 0) ->
  kheap_room (fa (pf s)) (ADDR_2_PAGEUP size + ADDR_2_PAGEUP size2) ->
  exists own' kl' p', space p' = space p /\ caller own' l kl' uown s' p' fd2 d2 ub2 size2 /\
    set_fa (fa (pf s)) (pf s') = set_fa (fa (pf s)) rest.
Proof.
  intros Ca (a' & -> & [(own' & kl' & So & Hf) Hw _ Hg]) Hne Hd2 Ho2 Hb2 Hs2 Hm2 Hroom.
  pose proof (ca_proc _ _ _ _ _ _ _ _ _ _ Ca) as Hp.
  exists own', kl', (set_files (<[fd := set_seek (u64 (seek d + size)) d]> (opened_files p)) p).
  split; [done|]. split; [|done]. split; try done.
  - cbn. rewrite (with_fd_insert _ _ _ _ _ Hp). apply list_lookup_insert_eq. by eapply lookup_lt_Some.
  - cbn. by rewrite list_lookup_insert_ne.
  - intros v Hv. cbn. rewrite Hw. by apply Hm2.
  - cbn. by eapply grew_room.
Qed.

Lemma regular_set_fa f a s v inode lo n : regular f s v inode lo n -> regular f (set_fa a s) v inode lo n.
Proof. intros [H1 H2 H3 H4 H5]. split; try done; [by apply inode_at_set_fa|by apply blocks_ok_set_fa]. Qed.

(** C8: what a process has written to a file of at most 25 blocks, all of them
    direct and cached, through one descriptor it reads back through another one
    at the same position: after the two calls its second buffer holds the bytes
    that its first buffer held. *)
Theorem file_write_read_roundtrip gpu_flush fuel own l kl uown s p fd d fd2 d2 ub ub2 size v v2 inode lo n :
  caller own l kl uown s p fd d ub size -> may_write d -> regular (file d) (pf s) v inode lo n ->
  fd2 <> fd -> opened_files p !! fd2 = Some d2 -> occupied d2 = true -> may_read d2 ->
  regular (file d2) (pf s) v2 inode lo n -> seek d2 = seek d ->
  0 <= seek d -> seek d + size <= size_bytes inode ->
  Z.land (permission inode) PERMISSION_W <> 0 -> Z.land (permission inode) PERMISSION_R <> 0 ->
  0 <= ub2 /\ ub2 + size <= UVPN_END * 4096 ->
  (forall w, ub2 / 4096 <= w < ub2 / 4096 + npages ub2 size -> walkupt (pmem s) (ptref_base (space p)) w <> 0) ->
  kheap_room (fa (pf s)) (ADDR_2_PAGEUP size + ADDR_2_PAGEUP size) ->
  exists s', (sys_write true fuel (Z.of_nat fd) ub size;; sys_read true gpu_flush (Z.of_nat fd2) ub2 size) s =
      Ret (Value 0, s') /\
    forall i, 0 <= i < size ->
      ubyte (ptref_base (space p)) (pmem s') (ub2 + i) = ubyte (ptref_base (space p)) (pmem s) (ub + i).
Proof.
  intros Ca Hw Rg Hne Hd2 Ho2 Hr2 Rg2 Hsk Ho Hs Pw Pr Hb2 Hm2 Hroom. pose proof (ca_size _ _ _ _ _ _ _ _ _ _ Ca) as Hsz.
  pose proof (rg_size _ _ _ _ _ _ Rg) as Hn.
  destruct (sys_write_ok fuel own l kl uown s p fd d ub size Ca _ Hw
    (regular_sink (file d) (pf s) v inode lo n (seek d) size Rg Ho ltac:(lia) Hs Pw)) as (s1 & rest & E1 & Hre & D1).
  destruct (caller_again own l kl uown s p fd d ub size rest _ s1 fd2 d2 ub2 size Ca D1 Hne Hd2 Ho2 Hb2 Hsz Hm2 Hroom)
    as (own' & kl' & p' & Hsp & Ca' & _).
  destruct D1 as (a1 & Es1 & M1).
  assert (regular (file d2) (pf s1) v2 inode lo n) as Rg2'.
  { rewrite Es1. cbn. apply regular_set_fa. eapply rewritten_regular; [exact Ho| |exact Hre|done]. lia. }
  destruct (sys_read_ok gpu_flush own' l kl' uown s1 p' fd2 d2 ub2 size Ca' _ _ Hr2
    (regular_source (file d2) (pf s1) v2 inode lo n (seek d2) size Rg2' ltac:(lia) ltac:(lia) ltac:(lia) gpu_flush Pr)) as (s2 & E2 & (a2 & Es2 & M2)).
  exists s2. split; [by rewrite (bind_ret_l _ _ _ _ _ E1)|]. intros i Hi.
  assert (0 <= (ub2 + i) / 4096 < UVPN_END /\ walkupt (pmem s1) (ptref_base (space p)) ((ub2 + i) / 4096) <> 0) as [Hv Hv'].
  { destruct (buf_page _ _ _ _ _ _ _ _ _ _ Ca' i Hi) as [H1 H2]. split; [done|].
    rewrite <- Hsp. by apply (ca_mapped _ _ _ _ _ _ _ _ _ _ Ca'). }
  rewrite <- Hsp at 1. change (pmem s2) with (amem (fa (pf s2))). rewrite Es2. change (fa (pf _)) with a2.
  rewrite (md_user _ _ _ _ _ _ _ _ _ M2) by (rewrite ?Hsp; done). rewrite decide_True by lia.
  destruct Hre as (d' & -> & _ & Hd' & _). rewrite Es1. change (dev (pf _)) with d'.
  rewrite Hd', decide_True by lia. f_equal. lia.
Qed.

(** ** A concrete process: user pages 1 and 2, the console and two descriptors of
    the file of Sample.v *)
Lemma upt_upper i j : 0 <= i < 512 -> 0 <= j < 512 -> table1 1048576 upt_mem i <> 0 -> UserPTProps.table0 1048576 upt_mem i j <> 0 -> i = 0 /\ j = 0.
Proof.
  intros Hi Hj H1 H0. pose proof upt_mem_wf as W. pose proof (uw_base _ _ _ W) as Hb.
  assert (i = 0) as ->.
  { destruct (decide (i = 0)); [done|]. exfalso. apply H1. unfold table1, ref_ptable.
    destruct (word_16 upt_own _ _ i 0 Hb Hi (or_introl eq_refl)) as [-> _]. apply upt_mem_zero; dlia. }
  split; [done|]. destruct (decide (j = 0)); [done|]. exfalso. apply H0. unfold UserPTProps.table0, ref_ptable.
  destruct (uw_1 _ _ _ W 0 Hi H1) as [Hn _].
  destruct (word_16 upt_own _ _ j 0 Hn Hj (or_introl eq_refl)) as [-> _].
  change (next1 1048576 upt_mem 0) with 3145728. apply upt_mem_zero; dlia.
Qed.

Lemma upt2_walk v : 0 <= v < UVPN_END -> walkupt upt2_mem 1048576 v <> 0 -> v = 1 \/ v = 2.
Proof.
  intros Hv Hn. unfold UVPN_END in Hv. pose proof (VPN_range 2 v) as R2. pose proof (VPN_range 1 v) as R1.
  pose proof (VPN_range 0 v) as R0. pose proof (VPN_low v) as Hlow. rewrite Z.mod_small in Hlow by lia.
  assert (same_upper 1048576 upt_mem upt2_mem) as U
    by (by apply (store_upper upt_own 1048576 upt_mem 5242896 1700 (Some (UserPTProps.R0 0 0)) upt_mem_wf)).
  destruct (upper_present upt_own 1048576 upt_mem upt2_mem v upt_mem_wf U) as [P R].
  assert (present 1048576 upt2_mem v) as Hp.
  { destruct (decide (table1 1048576 upt2_mem (VPN 2 v) = 0)) as [E|H1]; [exfalso; apply Hn, walkupt_absent; intros []; done|].
    destruct (decide (UserPTProps.table0 1048576 upt2_mem (VPN 2 v) (VPN 1 v) = 0)) as [E|H0];
      [exfalso; apply Hn, walkupt_absent; intros []; done|]. split; assumption. }
  rewrite (walkupt_present upt_own 1048576 upt2_mem v upt2_wf Hp) in Hn.
  pose proof (proj1 P Hp) as Hp'. rewrite (proj1 (R Hp')) in Hn. destruct (upt_upper _ _ R2 R1 (proj1 Hp') (proj2 Hp')) as [E2 E1].
  unfold ref0 in Hn. rewrite E1, E2 in *. change (next0 1048576 upt_mem 0 0) with 5242880 in Hn.
  destruct (decide (v = 1)); [by left|]. destruct (decide (v = 2)); [by right|]. exfalso. apply Hn.
  unfold upt2_mem. rewrite load64_other by lia. apply upt_mem_zero; dlia.
Qed.

Definition io_files : list FileDescriptor :=
  [mkFD true O_RDONLY (mkFile 0 DEVICE stdin_ops) 0; mkFD true O_WRONLY (mkFile 0 DEVICE stdout_ops) 0;
   mkFD true O_RDWR (mkFile 8192 REGULAR fs_ops) 10; mkFD true O_RDONLY (mkFile 8192 REGULAR fs_ops) 10].
Definition io_pcb : PCB := mkPCB 0 RUNNING 0 None 0 0 (mkSpace 0 0 1048576 0 0 0 0 0) (mkFS 0 0) io_files.
Definition io_f : F :=
  mkF (set_amem upt2_mem heap0) dev0 65536 rootfs0 {[8192 := mkFS 1 2]} [113] [] 0 0 cached0 cold0.
Definition io_p : P := mkP io_f [io_pcb] 0 1 1000 0 10000000.

Lemma io_space_mem m : same_tables upt_own upt2_mem m -> space_ok own0 [] [] upt_own 1048576 (set_amem m heap0).
Proof.
  intros St. assert (forall w, upt_own w <> None -> w < 2000) as Hown.
  { intros w. unfold upt_own. zcases; cbn; try done; lia. }
  assert (forall v, walkupt m 1048576 v = walkupt upt2_mem 1048576 v) as Em by (intros v; eapply tables_walk; [exact upt2_wf|done]).
  assert (forall v, v = 1 \/ v = 2 -> walkupt upt2_mem 1048576 v = if v =? 1 then 1536 else 1700) as Hw
    by (intros v [->| ->]; reflexivity).
  split; change (amem (set_amem m heap0)) with m; try (intros; apply not_elem_of_nil).
  - by apply kheap_inv_write; [exact kheap0_ok|intros x [H|H]; apply elem_of_nil in H].
  - eapply upper_wf; [exact upt2_wf|]. eapply tables_upper; [exact upt2_wf|done].
  - intros w Hin%Hown [H|H]; [by apply elem_of_nil in H|].
    change (kbrk_page (set_amem m heap0)) with KH_BASE in H. unfold KH_BASE in H. lia.
  - intros v Hv. rewrite Em. intros Hn. rewrite (Hw v (upt2_walk v Hv Hn)).
    unfold DMA_END. destruct (v =? 1); (split; [lia|split; [reflexivity|apply not_elem_of_nil]]).
  - intros v w Hv Hw'. rewrite !Em. intros Hn He. pose proof Hn as Hn'. rewrite He in Hn'.
    pose proof (upt2_walk v Hv Hn) as H1. pose proof (upt2_walk w Hw' Hn') as H2. rewrite (Hw v H1), (Hw w H2) in He.
    revert He. zcases; lia.
Qed.

Lemma io_space : space_ok own0 [] [] upt_own 1048576 (fa io_f).
Proof. by apply io_space_mem. Qed.

Lemma io_room n : 1 <= n <= 4 -> kheap_room (fa io_f) n.
Proof. intros Hn. assert (kheap_room (fa io_f) 4) as [H1 H2] by (split; vm_compute; discriminate). split; lia. Qed.

Lemma io_caller fd d ub size : io_files !! fd = Some d -> occupied d = true -> 4096 <= ub -> ub + size <= 12288 -> 1 <= size ->
  caller own0 [] [] upt_own io_p io_pcb fd d ub size.
Proof.
  intros Hd Ho H1 H2 H3. split; try done; try (unfold UVPN_END; lia).
  - exact io_space.
  - intros v Hv. assert (v = 1 \/ v = 2) as [->| ->] by (unfold npages in Hv; dlia); vm_compute; discriminate.
  - apply io_room. rewrite ADDR_2_PAGEUP_ceil by lia. dlia.
Qed.

Lemma io_regular fd d : fd = 2%nat \/ fd = 3%nat -> io_files !! fd = Some d -> regular (file d) io_f (mkFS 1 2) file_inode0 4 1.
Proof.
  intros Hfd Hd. assert (file d = mkFile 8192 REGULAR fs_ops) as -> by (destruct Hfd as [->| ->]; by injection Hd as <-).
  split; [done|reflexivity| | |cbn; lia].
  - split; try (cbn; lia); try (vm_compute; discriminate); vm_compute; reflexivity.
  - destruct f0_blocks. by split.
Qed.

Lemma sys_write_stdout_correct_witness :
  exists s', sys_write true 10 1 8190 5 io_p = Ret (Value 0, s') /\
    con_out (pf s') = shown 5 (ubyte 1048576 upt2_mem) 8190.
Proof.
  destruct (sys_write_stdout_correct 10 own0 [] [] upt_own io_p io_pcb 1 _ 8190 5
    (io_caller 1 _ 8190 5 eq_refl eq_refl ltac:(lia) ltac:(lia) ltac:(lia)) (or_intror eq_refl) eq_refl) as (s' & E & a' & Es & _).
  exists s'. split; [exact E|]. rewrite Es. reflexivity.
Defined.

Lemma sys_read_stdin_correct_witness :
  exists s', sys_read true (mret tt) 0 5000 1 io_p = Ret (Value 0, s') /\
    ubyte 1048576 (pmem s') 5000 = 113 /\ con_in (pf s') = [].
Proof.
  destruct (sys_read_stdin_correct (mret tt) own0 [] [] upt_own io_p io_pcb 0 _ 5000 113 []
    (io_caller 0 _ 5000 1 eq_refl eq_refl ltac:(lia) ltac:(lia) ltac:(lia)) (or_intror eq_refl) eq_refl eq_refl) as (s' & E & a' & Es & D).
  exists s'. split; [exact E|]. rewrite Es. split; [|reflexivity].
  apply (md_user _ _ _ _ _ _ _ _ _ D 5000); [unfold UVPN_END; dlia|vm_compute; discriminate].
Defined.

Lemma sys_read_file_correct_witness :
  exists s', sys_read true (mret tt) 3 8000 300 io_p = Ret (Value 0, s') /\
    ubyte 1048576 (pmem s') 8250 = fbyte dev0 file_inode0 260.
Proof.
  destruct (sys_read_file_correct (mret tt) own0 [] [] upt_own io_p io_pcb 3 _ 8000 300 (mkFS 1 2) file_inode0 4 1
    (io_caller 3 _ 8000 300 eq_refl eq_refl ltac:(lia) ltac:(lia) ltac:(lia)) (or_intror eq_refl)
    (io_regular 3 _ (or_intror eq_refl) eq_refl) ltac:(cbn; lia) ltac:(cbn; lia) ltac:(vm_compute; discriminate))
    as (s' & E & a' & Es & D).
  exists s'. split; [exact E|]. rewrite Es.
  apply (md_user _ _ _ _ _ _ _ _ _ D 8250); [unfold UVPN_END; dlia|vm_compute; discriminate].
Defined.

Lemma sys_write_file_correct_witness :
  exists s', sys_write true 10 2 8000 300 io_p = Ret (Value 0, s') /\
    fbyte (dev (pf s')) file_inode0 260 = ubyte 1048576 upt2_mem 8250.
Proof.
  destruct (sys_write_file_correct 10 own0 [] [] upt_own io_p io_pcb 2 _ 8000 300 (mkFS 1 2) file_inode0 4 1
    (io_caller 2 _ 8000 300 eq_refl eq_refl ltac:(lia) ltac:(lia) ltac:(lia)) (or_introl eq_refl)
    (io_regular 2 _ (or_introl eq_refl) eq_refl) ltac:(cbn; lia) ltac:(cbn; lia) ltac:(vm_compute; discriminate))
    as (s' & rest & E & (d' & -> & _ & Hd & _) & a' & Es & _).
  exists s'. split; [exact E|]. rewrite Es. apply (Hd 260). lia.
Defined.

Lemma file_write_read_roundtrip_witness :
  exists s', (sys_write true 10 2 4100 300;; sys_read true (mret tt) 3 8000 300) io_p = Ret (Value 0, s') /\
    ubyte 1048576 (pmem s') 8250 = ubyte 1048576 upt2_mem 4350.
Proof.
  destruct (file_write_read_roundtrip (mret tt) 10 own0 [] [] upt_own io_p io_pcb 2 _ 3 _ 4100 8000 300 (mkFS 1 2) (mkFS 1 2) file_inode0 4 1
    (io_caller 2 _ 4100 300 eq_refl eq_refl ltac:(lia) ltac:(lia) ltac:(lia)) (or_introl eq_refl)
    (io_regular 2 _ (or_introl eq_refl) eq_refl) ltac:(done) eq_refl eq_refl (or_intror eq_refl)
    (io_regular 3 _ (or_intror eq_refl) eq_refl) eq_refl ltac:(cbn; lia) ltac:(cbn; lia)
    ltac:(vm_compute; discriminate) ltac:(vm_compute; discriminate) ltac:(unfold UVPN_END; lia)) as (s' & E & H).
  - intros w Hw. assert (w = 1 \/ w = 2) as [->| ->] by (unfold npages in Hw; dlia); vm_compute; discriminate.
  - apply io_room. vm_compute. split; discriminate.
  - exists s'. split; [exact E|]. apply (H 250). lia.
Defined.
