(* ===== verification/DirSpec.v ===== *)
(** * Directories and paths

    A directory is the list of its entries, a path a list of names.  [resolve]
    walks the directories of the device by name: it is what getfile of
    kernel/filesystem.c is meant to compute from the path in memory. *)
From S2P Require Import Prelude Mem CString CStringProps KernelPT Alloc FsTypes FsCode FsFileSpec FsFileProps.
Import CString KernelPT Alloc FsTypes FsCode.

(** ** The tree on the device *)
Definition inode_of (s : F) (ino : Z) : option Inode :=
  if BITMAP_GET (dev s (inode_bit s ino)) ino =? 0 then None
  else Some (load_inode (dev s) (inode_addr s ino)).

(** Entry [k] of a directory: the name is in the first 60 bytes. *)
Definition dent_name (s : F) (i : Inode) (k : nat) : list Z := shown 60 (fbyte (dev s) i) (64 * Z.of_nat k).
Definition dent_ino (s : F) (i : Inode) (k : nat) : Z := load32 (fbyte (dev s) i) (64 * Z.of_nat k + 60).
Definition entries_of (s : F) (i : Inode) : list (list Z * Z) :=
  (fun k => (dent_name s i k, dent_ino s i k)) <$> seq 0 (Z.to_nat (size_bytes i / 64)).

Fixpoint find_name (name : list Z) (es : list (list Z * Z)) : option Z :=
  match es with
  | [] => None
  | (n, ino) :: es' => if bool_decide (n = name) then Some ino else find_name name es'
  end.

(** ** Paths *)
Fixpoint path_str (names : list (list Z)) : list Z :=
  match names with
  | [] => []
  | [n] => n
  | n :: rest => n ++ 47 :: path_str rest
  end.
Definition name_ok (n : list Z) : Prop := n <> [] /\ 47 ∉ n.

Definition device_of (l : list Z) : option File :=
  if bool_decide (l = lit_framebuffer) then Some gpu_device
  else if bool_decide (l = lit_stdin) then Some stdin
  else if bool_decide (l = lit_stdout) then Some stdout
  else if bool_decide (l = lit_stderr) then Some stdout
  else if bool_decide (l = lit_vda) then Some root_block_device
  else None.

(** The end of a walk. *)
Inductive lookup_end := Found (ino : Z) | Device (f : File) | Missing | NotDirectory.

(** The walk from the directory [ino].  Whether it is the directory of the
    devices is looked at after the entry was found; from the second name on
    ([alias]) the number of the entry has then replaced that of the directory. *)
Fixpoint resolve (s : F) (alias : bool) (ino : Z) (names : list (list Z)) : lookup_end :=
  match names with
  | [] => Found ino
  | name :: rest =>
      match inode_of s ino with
      | None => Missing
      | Some i =>
          if negb (itype i =? DIRECTORY) then NotDirectory else
          let r := find_name name (entries_of s i) in
          let here := if alias then default ino r else ino in
          match (if here =? inum (dev_dir (rootfs s)) then device_of (path_str names) else None) with
          | Some f => Device f
          | None => match r with Some ino' => resolve s true ino' rest | None => Missing end
          end
      end
  end.

(** The inodes below [count] are a tree: directories have their entries in
    direct blocks, terminated names, and entries for inodes in use. *)
Record dir_ok (s : F) (i : Inode) (lo count : Z) : Prop := {
  dk_blocks : exists n, blocks_ok s i lo n /\ 0 <= size_bytes i <= n * 4096;
  dk_names : forall k, Z.of_nat k < size_bytes i / 64 ->
    (length (dent_name s i k) < 60)%nat /\ Forall (fun b => 0 < b < 256) (dent_name s i k);
  dk_inos : forall k, Z.of_nat k < size_bytes i / 64 ->
    0 <= dent_ino s i k < count /\ inode_of s (dent_ino s i k) <> None;
}.

Record tree_ok (s : F) (lo count : Z) : Prop := {
  tk_inode : forall ino i, 0 <= ino < count -> inode_of s ino = Some i -> inode_at s ino i lo;
  tk_dir : forall ino i, 0 <= ino < count -> inode_of s ino = Some i -> itype i = DIRECTORY -> dir_ok s i lo count;
}.

(** ** The loops over names *)
Lemma path_str_cons n rest : exists tail, path_str (n :: rest) = n ++ tail /\
  ((rest = [] /\ tail = []) \/ (rest <> [] /\ tail = 47 :: path_str rest)).
Proof.
  destruct rest as [|n' rest]; [exists []; split; [by rewrite app_nil_r|by left]|].
  exists (47 :: path_str (n' :: rest)). split; [done|by right].
Qed.

Lemma name_end_ok fuel m p name tail : cstr m p (name ++ tail) -> 47 ∉ name ->
  tail = [] \/ (exists t, tail = 47 :: t) -> (length name < fuel)%nat ->
  name_end fuel m p = Ret (p + Z.of_nat (length name)) /\
  m (p + Z.of_nat (length name)) = match tail with [] => 0 | c :: _ => c end.
Proof.
  revert p fuel. induction name as [|c name IH]; intros p [|fuel] Hc Hn Ht Hf; cbn [length] in Hf; try lia; cbn [name_end length app].
  - rewrite Z.add_0_r. destruct Ht as [->|(t & ->)].
    + apply cstr_nil in Hc. by rewrite Hc.
    + apply cstr_cons in Hc as (Hc & _). by rewrite Hc.
  - apply cstr_cons in Hc as (Ec & Hr & Eu & Hc). apply not_elem_of_cons in Hn as [Hn1 Hn2].
    rewrite Ec. destruct (Z.eqb_spec c 0); [lia|]. destruct (Z.eqb_spec c 47); [lia|]. cbn [orb]. rewrite Eu.
    destruct (IH (p + 1) fuel Hc Hn2 Ht ltac:(lia)) as [E1 E2].
    rewrite E1. replace (p + Z.of_nat (S (length name))) with (p + 1 + Z.of_nat (length name)) by lia. done.
Qed.

Lemma find_entry_ok fuel m e ptr name tail es : forall i,
  cstr m ptr (name ++ tail) -> 0 <= e -> 0 <= i -> e + 64 * (i + Z.of_nat (length es)) < 18446744073709551616 ->
  (forall j n ino, es !! j = Some (n, ino) -> cstr m (e + 64 * (i + Z.of_nat j)) n /\
     load32 m (e + 64 * (i + Z.of_nat j) + 60) = ino /\ (length n < fuel)%nat) ->
  find_entry fuel (length es) m e i ptr (Z.of_nat (length name)) = Ret (find_name name es).
Proof.
  induction es as [|[n ino] es IH]; intros i Hp He Hi Hr Hes; cbn [find_entry length find_name]; [done|].
  destruct (Hes 0%nat n ino eq_refl) as (Hc & Hl & Hf). rewrite Z.add_0_r in Hc, Hl. cbn [length] in Hr.
  unfold sizeof_DirEntry. rewrite u64_small by lia. replace (e + i * 64) with (e + 64 * i) by lia.
  rewrite (strlen_ok fuel _ _ _ Hc Hf). change (mbind ?f (Ret ?x)) with (f x). cbv beta.
  assert (find_entry fuel (length es) m e (i + 1) ptr (Z.of_nat (length name)) = Ret (find_name name es)) as Hrest.
  { apply IH; try done; try lia. intros j n' ino' Hj. destruct (Hes (S j) n' ino' Hj) as (? & ? & ?).
    by replace (i + 1 + Z.of_nat j) with (i + Z.of_nat (S j)) by lia. }
  destruct (Z.eqb_spec (Z.of_nat (length n)) (Z.of_nat (length name))) as [El|El].
  - rewrite <- El. pose proof (strncmp_0 m ptr (e + 64 * i) (name ++ tail) n Hp Hc) as Hs.
    assert (take (length n) (name ++ tail) = name) as Et by (replace (length n) with (length name) by lia; by rewrite take_app_length).
    rewrite Et in Hs. destruct (Z.eqb_spec (strncmp m ptr (e + 64 * i) (Z.of_nat (length n))) 0) as [E0|E0]; cbn [andb].
    + rewrite bool_decide_true by (symmetry; by apply Hs). by rewrite Hl.
    + rewrite bool_decide_false by (intros ->; apply E0; by apply Hs). by rewrite El.
  - cbn [andb]. rewrite bool_decide_false by (intros ->; lia). done.
Qed.

Lemma str_is_ok m lit : forall p l, cstr m p l -> Forall (fun b => 0 < b < 256) lit -> str_is m p lit = bool_decide (l = lit).
Proof.
  induction lit as [|c lit IH]; intros p l Hc Hl; cbn [str_is].
  - destruct l as [|x l]; [rewrite (cstr_nil _ _ Hc); by rewrite bool_decide_true|].
    apply cstr_cons in Hc as (-> & Hx & _). rewrite bool_decide_false by done. apply Z.eqb_neq. lia.
  - apply Forall_cons in Hl as [Hcr Hl]. destruct l as [|x l].
    + rewrite (cstr_nil _ _ Hc), bool_decide_false by done. by rewrite (proj2 (Z.eqb_neq 0 c)) by lia.
    + apply cstr_cons in Hc as (-> & Hx & -> & Hc). rewrite (IH _ _ Hc Hl).
      destruct (Z.eqb_spec x c) as [->|Hne]; cbn [andb].
      * by case_bool_decide; case_bool_decide; congruence || done.
      * rewrite bool_decide_false; [done|congruence].
Qed.

Lemma device_named_ok m p l : cstr m p l -> device_named m p = device_of l.
Proof.
  intros Hc. unfold device_named, device_of. rewrite !(str_is_ok m _ p l Hc); [done|..]; repeat constructor; lia.
Qed.
