(* ===== verification/GetFile.v ===== *)
(** * getfile finds what the path names

    The loop of getfile keeps a scratch copy of each directory on the kernel
    heap; it is shown to walk the tree of the device as [resolve] does. *)
From S2P Require Import Prelude Mem World CString CStringProps KernelPT PTBits KernelPTSpec KernelPTRec KernelPTProps PTInit.
From S2P Require Import Alloc AllocList AllocSpec DmaHeapSpec DmaHeap KHeapSpec UserPT UserPTProps UserCopy SysIoSpec.
From S2P Require Import FsTypes FsCode FsFileSpec FsFileProps Files Proc SysFile FdSpec SysIo SysIoFiles DirSpec.
Import CString KernelPT Alloc FsTypes FsCode.

Lemma in_fa_run {X} (c : M A X) s x a : c (fa s) = Ret (x, a) -> in_fa c s = Ret (x, set_fa a s).
Proof. intros E. unfold in_fa. by rewrite E. Qed.

Lemma load_le_shift n m m' : forall a b, (forall x, 0 <= x < Z.of_nat n -> m (a + x) = m' (b + x)) ->
  load_le n m a = load_le n m' b.
Proof.
  induction n as [|n IH]; intros a b H; cbn [load_le]; [done|].
  pose proof (H 0 ltac:(lia)) as H0. rewrite !Z.add_0_r in H0. rewrite H0, (IH (a + 1) (b + 1)); [done|].
  intros x Hx. rewrite <- !Z.add_assoc. apply H. lia.
Qed.

Lemma shown_spec n f : forall a, bytes_at f a (shown n f a) /\
  ((length (shown n f a) < n)%nat -> f (a + Z.of_nat (length (shown n f a))) = 0).
Proof.
  induction n as [|n IH]; intros a; cbn [shown]; [split; [by intros i x Hx|cbn; lia]|].
  destruct (Z.eqb_spec (f a) 0) as [E|E]; cbn [length].
  - split; [by intros i x Hx|]. intros _. by rewrite Z.add_0_r.
  - destruct (IH (a + 1)) as [H1 H2]. split; [by apply bytes_at_cons|]. intros Hl.
    replace (a + Z.of_nat (S (length (shown n f (a + 1))))) with (a + 1 + Z.of_nat (length (shown n f (a + 1)))) by lia.
    apply H2. lia.
Qed.

(** ** One directory *)
Section Scan.
Context (fuel : nat) (s : F) (ino : Z) (i : Inode) (lo count : Z).
Hypothesis Hfuel : (60 <= fuel)%nat.
Hypothesis Hi : inode_at s ino i lo.
Hypothesis Hd : dir_ok s i lo count.

(** The bytes of the directory at [e]. *)
Lemma entries_at m e : 0 <= e -> e + size_bytes i < 18446744073709551616 ->
  (forall x, e <= x < e + size_bytes i -> m x = fbyte (dev s) i (x - e)) ->
  forall j n k, entries_of s i !! j = Some (n, k) ->
    cstr m (e + 64 * (0 + Z.of_nat j)) n /\ load32 m (e + 64 * (0 + Z.of_nat j) + 60) = k /\ (length n < fuel)%nat.
Proof using Hd Hfuel.
  intros He Hr Hm j n k Hj. unfold entries_of in Hj. rewrite list_lookup_fmap in Hj.
  destruct (seq 0 (Z.to_nat (size_bytes i / 64)) !! j) as [j'|] eqn:Ej; [|done].
  apply lookup_seq in Ej as [-> Hj']. apply (inj Some) in Hj. injection Hj as <- <-. change (0 + j)%nat with j. rewrite Z.add_0_l.
  destruct (dk_names _ _ _ _ Hd j) as [Hl Hc]; [lia|]. split; [|split; [|lia]].
  - destruct (shown_spec 60 (fbyte (dev s) i) (64 * Z.of_nat j)) as [H1 H2]. fold (dent_name s i j) in H1, H2.
    specialize (H2 Hl). split; try done; try (unfold sizeof_DirEntry; dlia).
    + intros k x Hk. pose proof (lookup_lt_Some _ _ _ Hk). rewrite Hm by dlia. rewrite <- (H1 k x Hk). f_equal. lia.
    + rewrite Hm by dlia. rewrite <- H2. f_equal. lia.
  - unfold dent_ino, load32. apply load_le_shift. intros x Hx. rewrite Hm by dlia. f_equal. lia.
Qed.

Context (own : Z -> option node) (l kl : list AllocList.run) (ptr : Z) (name tail : list Z).
Hypothesis Hinv : kheap_inv own (fa s) l kl.
Hypothesis Hroom : kheap_room (fa s) 25.
Hypothesis Hp : cstr (fmem s) ptr (name ++ tail).
Hypothesis Hused : forall x, ptr <= x <= ptr + Z.of_nat (length (name ++ tail)) -> ~ kheap_free (fa s) kl (x / 4096).

Lemma scan_ok : exists own' kl' e a1 m a',
  kalloc true (size_bytes i) (fa s) = Ret (e, a1) /\
  fs_file_read ino 0 e (size_bytes i) (set_fa a1 s) = Ret (0, set_fa (set_amem m a1) s) /\
  find_entry fuel (Z.to_nat (size_bytes i / sizeof_DirEntry)) m e 0 ptr (Z.of_nat (length name)) =
    Ret (find_name name (entries_of s i)) /\
  kfree e (size_bytes i) (set_amem m a1) = Ret (tt, a') /\ kept own' (fa s) a' l kl kl' 25.
Proof using All.
  destruct (dk_blocks _ _ _ _ Hd) as (n & B & Hsz). pose proof (bo_n _ _ _ _ B) as Hn.
  assert (length (entries_of s i) = Z.to_nat (size_bytes i / 64)) as Hlen by (unfold entries_of; by rewrite length_fmap, length_seq).
  destruct (decide (size_bytes i = 0)) as [E0|E0].
  { exists own, kl, 0, (fa s), (fmem s), (fa s). rewrite E0 in *. split; [done|]. rewrite set_fa_id.
    assert (set_amem (fmem s) (fa s) = fa s) as Ea by (unfold fmem; by destruct (fa s) as [[] ? ? ? ?]).
    rewrite Ea, set_fa_id. split; [|split; [|split; [done|by apply kept_refl]]].
    - unfold fs_file_read. assert (translate_fs ino 0 0 0 false s = Ret (tt, s)) as Et; [|by rewrite (bind_ret_l _ _ _ _ _ Et)].
      unfold translate_fs. by rewrite (bind_ret_l _ _ _ _ _ (ia_get _ _ _ _ Hi)).
    - by rewrite (nil_length_inv _ Hlen). }
  destruct (scratch_ok own (fa s) l kl (size_bytes i) Hinv) as (own1 & a1 & e & Ek & [S1 S2 S3]); [lia|..].
  { eapply kheap_room_mono; [done|]. rewrite ADDR_2_PAGEUP_ceil by lia. dlia. }
  destruct (fs_read_ok (set_fa a1 s) ino i lo n 0 e (size_bytes i)) as (m & Er & Hm);
    [by apply inode_at_set_fa|by apply blocks_ok_set_fa|lia..|].
  assert (forall x, ~ (e <= x < e + size_bytes i) -> m x = amem a1 x) as Hout.
  { intros x Hx. rewrite Hm. zcases; try done; lia. }
  destruct (S3 m Hout) as (a' & kl' & Ef & K). exists own1, kl', e, a1, m, a'. split; [done|]. split; [done|].
  split; [|split; [done|]].
  - unfold sizeof_DirEntry. rewrite <- Hlen. apply (find_entry_ok fuel m e ptr name tail); try lia.
    + eapply cstr_ext; [|exact Hp]. intros x Hx. destruct (S2 x (Hused x Hx)) as [E1 E2]. by rewrite Hout, E1.
    + rewrite Hlen. dlia.
    + apply entries_at; try lia. intros x Hx. rewrite Hm. zcases; lia || done.
  - destruct K as [K1 K2 K3 K4]. split; try done. eapply grew_mono; [done|]. rewrite ADDR_2_PAGEUP_ceil by lia. dlia.
Qed.
End Scan.

Lemma find_name_elem name es ino : find_name name es = Some ino -> exists k, es !! k = Some (name, ino).
Proof.
  induction es as [|[n x] es IH]; cbn [find_name]; [done|]. case_bool_decide as E.
  - intros [= ->]. subst n. by exists 0%nat.
  - intros (k & Hk)%IH. by exists (S k).
Qed.

Lemma find_name_ino s i lo count name ino : dir_ok s i lo count -> find_name name (entries_of s i) = Some ino ->
  0 <= ino < count /\ inode_of s ino <> None.
Proof.
  intros D (k & Hk)%find_name_elem. unfold entries_of in Hk. rewrite list_lookup_fmap in Hk.
  destruct (seq 0 (Z.to_nat (size_bytes i / 64)) !! k) as [k'|] eqn:Ek; [|done].
  apply lookup_seq in Ek as [-> Hk']. apply (inj Some) in Hk. injection Hk as _ <-.
  apply (dk_inos _ _ _ _ D). change (0 + k)%nat with k. lia.
Qed.

(** ** The loop *)

(** The directory of an iteration: a structure that getfile only reads, or, from
    the second name on, the object [fo] that the loop writes. *)
Definition cwd_ok (o : gmap Z FSFile) (fo : Z) (alias : bool) (cwd : fsref) (ino : Z) : Prop :=
  match cwd with
  | RVal v => alias = false /\ inum v = ino
  | RObj p => if alias then p = fo /\ o !! fo = Some (mkFS ino 0)
              else p <> fo /\ exists v, o !! p = Some v /\ inum v = ino
  end.

Lemma cwd_deref s fo alias cwd ino : cwd_ok (objs s) fo alias cwd ino ->
  exists c, deref cwd s = Ret (c, s) /\ inum c = ino.
Proof.
  destruct cwd as [v|p]; cbn [cwd_ok deref].
  - intros [_ H]. by exists v.
  - intros H. unfold get_obj, mbind, M_bind, gets, lift. destruct alias.
    + destruct H as [-> ->]. by eexists.
    + destruct H as (_ & v & -> & H). by exists v.
Qed.

(** After [fo] was given the inode number [r] of the entry found. *)
Lemma cwd_deref_found o fo alias cwd ino y st : cwd_ok o fo alias cwd ino -> objs st = <[fo := mkFS y 0]> o ->
  exists c, deref cwd st = Ret (c, st) /\ inum c = if alias then y else ino.
Proof.
  intros H Ho. destruct cwd as [v|p]; cbn [cwd_ok deref] in *.
  - destruct H as [-> H]. by exists v.
  - unfold get_obj, mbind, M_bind, gets, lift. rewrite Ho. destruct alias.
    + destruct H as [-> _]. rewrite lookup_insert_eq. by eexists.
    + destruct H as (Hne & v & Hv & H). rewrite lookup_insert_ne, Hv by done. by exists v.
Qed.

Lemma cwd_alias o fo cwd ino x : cwd_ok o fo true cwd ino -> o !! fo = Some (mkFS x 0) -> x = ino.
Proof. destruct cwd as [v|p]; [by intros [? _]|]. intros [-> H] H'. congruence. Qed.

(** What is known of the state during the walk: the files of [s0], the object
    [fo], the heap of [s0] with [kept] pages. *)
Record walking (s0 s : F) (own : Z -> option node) (l kl0 kl : list AllocList.run) (fo x n : Z) : Prop := {
  wk_state : s = set_objs (<[fo := mkFS x 0]> (objs s0)) (set_fa (fa s) s0);
  wk_kept : kept own (fa s0) (fa s) l kl0 kl n;
}.

(** The heap at the end: [fo] is still there, or it was given back last. *)
Definition heap_end (s0 s' : F) (own : Z -> option node) (l kl0 kl : list AllocList.run) (n fo : Z) (freed : bool) : Prop :=
  if freed then exists a1, kept own (fa s0) a1 l kl0 kl n /\ kfree fo sizeof_FSFile a1 = Ret (tt, fa s')
  else kept own (fa s0) (fa s') l kl0 kl n.

(** How getfile ends for each end of the walk: the result, the objects, and
    whether [fo] was given back. *)
Definition getfile_end (s0 : F) (fo : Z) (r : lookup_end) (out : Z * option File) (o : gmap Z FSFile) (freed : bool) : Prop :=
  match r with
  | Found ino => freed = false /\ o = <[fo := mkFS ino 0]> (objs s0) /\
      exists i, inode_of s0 ino = Some i /\ out = (0, Some (mkFile fo (itype i) fs_ops))
  | Device f => freed = true /\ o = delete fo (objs s0) /\ out = (0, Some f)
  | Missing => freed = true /\ o = delete fo (objs s0) /\ out = (-1, None)
  | NotDirectory => freed = false /\ (exists x, o = <[fo := mkFS x 0]> (objs s0)) /\ out = (-1, None)
  end.

Definition walked (s0 s' : F) (own : Z -> option node) (l kl0 kl : list AllocList.run) (n fo : Z) (r : lookup_end) (out : Z * option File) : Prop :=
  exists o freed, s' = set_objs o (set_fa (fa s') s0) /\ getfile_end s0 fo r out o freed /\
    heap_end s0 s' own l kl0 kl n fo freed.

(** The tree does not depend on the heap and the objects. *)
Lemma inode_at_files o a s ino inode lo : inode_at s ino inode lo -> inode_at (set_objs o (set_fa a s)) ino inode lo.
Proof.
  intros [H1 H2 H3 H4 H5 H6 H7]. split; try done.
  rewrite (get_inode_run s ino lo) in H7 by done. rewrite (get_inode_run (set_objs o (set_fa a s)) ino lo) by done.
  injection H7 as H7. f_equal. f_equal. exact H7.
Qed.

Lemma dir_ok_files o a s i lo count : dir_ok s i lo count -> dir_ok (set_objs o (set_fa a s)) i lo count.
Proof. intros [(n & [H1 H2 H3 H4 H5 H6] & H7) H8 H9]. split; [exists n; by split|done|done]. Qed.

Lemma tree_ok_set_fa a s lo count : tree_ok s lo count -> tree_ok (set_fa a s) lo count.
Proof.
  intros [T1 T2]. split.
  - intros n i Hn Hi. apply (inode_at_set_fa a). by apply T1.
  - intros n i Hn Hi Hd. by apply (dir_ok_files (objs s) a), (T2 n).
Qed.

Lemma free_obj_walking s0 s own l kl0 kl fo x n : walking s0 s own l kl0 kl fo x n ->
  exists s', free_obj fo s = Ret (tt, s') /\ s' = set_objs (delete fo (objs s0)) (set_fa (fa s') s0) /\
    heap_end s0 s' own l kl0 kl n fo true.
Proof.
  intros [Es K]. destruct (kfree_run (fa s) fo sizeof_FSFile) as [a' Ha].
  exists (set_objs (delete fo (objs s0)) (set_fa a' s0)). split; [|split; [done|by exists (fa s)]].
  unfold free_obj, get_obj, mbind, M_bind, gets, lift, in_fa, modify.
  assert (objs s !! fo = Some (mkFS x 0)) as -> by (rewrite Es; apply lookup_insert_eq).
  cbn [of_option]. rewrite Ha. cbn [objs set_fa]. rewrite Es. cbn [objs set_objs set_fa]. by rewrite delete_insert_eq.
Qed.

Section Loop.
Context (fuel : nat) (dent : Z) (sti : Inode) (create : bool).
Context (s0 : F) (l kl0 : list AllocList.run) (fo lo count : Z).
Hypothesis Hfuel : (60 <= fuel)%nat.
Hypothesis Htree : tree_ok s0 lo count.
Abbreviation loop := (getfile_loop fuel true dent sti).

(** A part of the path in memory that no free page holds. *)
Definition path_at (ptr : Z) (names : list (list Z)) : Prop :=
  Forall name_ok names /\ cstr (fmem s0) ptr (path_str names) /\ (length (path_str names) < fuel)%nat /\
  forall x, ptr <= x <= ptr + Z.of_nat (length (path_str names)) -> ~ kheap_free (fa s0) kl0 (x / 4096).

Lemma path_walking s own kl x n ptr names : walking s0 s own l kl0 kl fo x n -> path_at ptr names ->
  cstr (fmem s) ptr (path_str names) /\
  forall y, ptr <= y <= ptr + Z.of_nat (length (path_str names)) -> ~ kheap_free (fa s) kl (y / 4096).
Proof.
  intros [_ K] (_ & Hc & _ & Hu). split.
  - eapply cstr_ext; [|exact Hc]. intros y Hy. apply (kt_mem _ _ _ _ _ _ _ K). by apply Hu.
  - intros y Hy. rewrite (kt_free _ _ _ _ _ _ _ K). by apply Hu.
Qed.

Lemma path_rest ptr name rest : path_at ptr (name :: rest) ->
  let e := ptr + Z.of_nat (length name) in
  name_end fuel (fmem s0) ptr = Ret e /\
  (fmem s0 e = if bool_decide (rest = []) then 0 else 47) /\
  path_at (if fmem s0 e =? 47 then u64 (e + 1) else e) rest.
Proof.
  intros (Hn & Hc & Hf & Hu) e. apply Forall_cons in Hn as [[_ Hs] Hn].
  destruct (path_str_cons name rest) as (tail & Et & Ht). rewrite Et in *. rewrite length_app in *.
  destruct (name_end_ok fuel (fmem s0) ptr name tail Hc Hs) as [E1 E2];
    [destruct Ht as [[_ ->]|[_ ->]]; [by left|right; by eexists]|lia|]. fold e in E1, E2.
  pose proof (cstr_drop _ _ _ (length name) Hc ltac:(rewrite length_app; lia)) as Hd. rewrite drop_app_length in Hd. fold e in Hd.
  pose proof (cs_hi _ _ _ Hc) as Hh. rewrite length_app in Hh. pose proof (cs_lo _ _ _ Hc) as Hl.
  split; [done|]. destruct Ht as [[-> ->]|[Hr ->]].
  - rewrite bool_decide_true, E2 by done. split; [done|]. change (0 =? 47) with false. cbv iota.
    split; [done|]. split; [done|]. split; [cbn; lia|]. intros x Hx. apply Hu. cbn in *. lia.
  - rewrite bool_decide_false, E2 by done. split; [done|]. change (47 =? 47) with true. cbv iota. cbn [length] in *.
    rewrite u64_small by lia. apply cstr_cons in Hd as (_ & _ & _ & Hd).
    split; [done|]. split; [done|]. split; [lia|]. intros x Hx. apply Hu. lia.
Qed.

(** The end of the path. *)
Lemma loop_end k cwd old ptr own kl ino n s :
  walking s0 s own l kl0 kl fo ino n -> path_at ptr [] -> 0 <= ino < count -> inode_of s0 ino <> None ->
  exists out, loop (S k) cwd old ptr fo create s = Ret (out, s) /\ walked s0 s own l kl0 kl n fo (Found ino) out.
Proof using Htree.
  intros W Hp Hc Hi. destruct (path_walking _ _ _ _ _ _ _ W Hp) as [Hm _]. destruct W as [Es K].
  destruct (inode_of s0 ino) as [i|] eqn:Ei; [|done]. exists (0, Some (mkFile fo (itype i) fs_ops)). split.
  - cbn [getfile_loop]. mstep. rewrite (cstr_nil _ _ Hm). cbn [Z.eqb].
    assert (wrap_fsfile fo s = Ret (mkFile fo (itype i) fs_ops, s)) as Ew; [|by rewrite (bind_ret_l _ _ _ _ _ Ew)].
    pose proof (tk_inode _ _ _ Htree ino i Hc Ei) as Ha. apply (inode_at_files (<[fo := mkFS ino 0]> (objs s0)) (fa s)) in Ha.
    rewrite <- Es in Ha. unfold wrap_fsfile.
    assert (get_obj fo s = Ret (mkFS ino 0, s)) as Eo.
    { unfold get_obj, mbind, M_bind, gets, lift. assert (objs s !! fo = Some (mkFS ino 0)) as ->; [|done].
      rewrite Es. apply lookup_insert_eq. }
    rewrite (bind_ret_l _ _ _ _ _ Eo). by rewrite (bind_ret_l _ _ _ _ _ (the_inode_run _ _ _ (ia_get _ _ _ _ Ha))).
  - exists (<[fo := mkFS ino 0]> (objs s0)), false. split; [done|]. split; [|done]. split; [done|]. split; [done|]. by exists i.
Qed.

(** One name: the state in which the end of the iteration runs. *)
Lemma loop_iter k alias cwd old ptr own kl ino x n s i name rest :
  walking s0 s own l kl0 kl fo x n -> cwd_ok (objs s) fo alias cwd ino -> path_at ptr (name :: rest) ->
  0 <= ino < count -> inode_of s0 ino = Some i -> itype i = DIRECTORY -> kheap_room (fa s) 25 ->
  let r := find_name name (entries_of s0 i) in let e := ptr + Z.of_nat (length name) in
  exists s2 own2 kl2, walking s0 s2 own2 l kl0 kl2 fo (default x r) (n + 25) /\
    (exists c, deref cwd s2 = Ret (c, s2) /\ inum c = if alias then default ino r else ino) /\
    loop (S k) cwd old ptr fo create s =
      getfile_step fuel true dent sti cwd ptr e fo create (bool_decide (is_Some r))
        (fun next => loop k (RObj fo) (Some i) next fo create) s2.
Proof using Hfuel Htree.
  intros W Hcwd Hp Hino Hi Hdir Hroom r e.
  destruct (path_walking _ _ _ _ _ _ _ W Hp) as [Hm Hu]. destruct W as [Es K]. destruct Hp as (Hn & _ & Hf & _).
  apply Forall_cons in Hn as [[Hne Hs] _]. destruct (path_str_cons name rest) as (tail & Et & Ht). rewrite Et in Hm, Hu, Hf.
  rewrite length_app in Hf. destruct (name_end_ok fuel (fmem s) ptr name tail Hm Hs) as [Ee _];
    [destruct Ht as [[_ ->]|[_ ->]]; [by left|right; by eexists]|lia|].
  destruct (cwd_deref s fo alias cwd ino Hcwd) as (c & Ec & Hc).
  pose proof (tk_inode _ _ _ Htree ino i Hino Hi) as Ha. pose proof (tk_dir _ _ _ Htree ino i Hino Hi Hdir) as Hd.
  apply (inode_at_files (<[fo := mkFS x 0]> (objs s0)) (fa s)) in Ha. rewrite <- Es in Ha.
  apply (dir_ok_files (<[fo := mkFS x 0]> (objs s0)) (fa s)) in Hd. rewrite <- Es in Hd.
  assert (entries_of s i = entries_of s0 i) as Een by (rewrite Es; reflexivity).
  destruct (scan_ok fuel s ino i lo count Hfuel Ha Hd own l kl ptr name tail (kt_inv _ _ _ _ _ _ _ K) Hroom Hm Hu)
    as (own2 & kl2 & ea & a1 & m & a' & E1 & E2 & E3 & E4 & K2). rewrite Een in E3. fold r in E3.
  assert ((fmem s ptr =? 0) = false) as Hptr.
  { destruct name as [|c0 name]; [done|]. apply cstr_cons in Hm as (-> & ? & _). apply Z.eqb_neq. lia. }
  assert (objs s !! fo = Some (mkFS x 0)) as Hfo by (rewrite Es; apply lookup_insert_eq).
  set (s2 := set_objs (<[fo := mkFS (default x r) 0]> (objs s0)) (set_fa a' s0)).
  assert (objs s2 = <[fo := mkFS (default x r) 0]> (objs s)) as Eo by (rewrite Es; cbn; by rewrite insert_insert_eq).
  exists s2, own2, kl2. split; [split; [done|by eapply kept_trans]|]. split.
  { destruct (cwd_deref_found _ _ _ _ _ (default x r) s2 Hcwd Eo) as (c' & Ec' & Hc'). exists c'. split; [done|].
    rewrite Hc'. destruct alias; [|done]. by rewrite (cwd_alias _ _ _ _ _ Hcwd Hfo). }
  cbn [getfile_loop]. mstep. rewrite Hptr, (bind_ret_l _ _ _ _ _ Ec), Hc, (bind_ret_l _ _ _ _ _ (ia_get _ _ _ _ Ha)).
  mstep. rewrite Hdir. change (negb (DIRECTORY =? DIRECTORY)) with false. cbv iota.
  rewrite (bind_ret_l _ _ _ _ _ (f_equal (fun o => lift o s) Ee)).
  rewrite (bind_ret_l _ _ _ _ _ (in_fa_run _ _ _ _ E1)), (bind_ret_l _ _ _ _ _ E2). mstep.
  replace (u64 (ptr + Z.of_nat (length name) - ptr)) with (Z.of_nat (length name)).
  2:{ rewrite u64_small; [lia|]. pose proof (cs_hi _ _ _ Hm). pose proof (cs_lo _ _ _ Hm). rewrite length_app in *. lia. }
  change (fmem (set_fa (set_amem m a1) s)) with m.
  rewrite (bind_ret_l _ _ _ _ _ (f_equal (fun o => lift o (set_fa (set_amem m a1) s)) E3)).
  set (st := set_fa (set_amem m a1) s).
  assert ((match r with Some ino' => upd_obj fo (set_inum ino') | None => mret tt end) st =
    Ret (tt, set_objs (<[fo := mkFS (default x r) 0]> (objs s)) st)) as Eu.
  { destruct r; cbn [default from_option].
    - unfold upd_obj, get_obj, put_obj, mbind, M_bind, gets, lift, modify. change (objs st) with (objs s). by rewrite Hfo.
    - rewrite (insert_id (objs s)) by done. unfold st. by destruct s. }
  rewrite (bind_ret_l _ _ _ _ _ Eu).
  rewrite (bind_ret_l _ _ _ _ _ (in_fa_run _ (set_objs (<[fo := mkFS (default x r) 0]> (objs s)) st) _ _ E4)).
  f_equal. unfold st, s2. rewrite Es. cbn. by rewrite insert_insert_eq.
Qed.

Definition creates (r : lookup_end) : Prop := create = false \/ exists ino, r = Found ino.

(** A path that goes on below a file: the object stays behind. *)
Lemma loop_notdir k alias cwd old ptr own kl ino x n s i name rest :
  walking s0 s own l kl0 kl fo x n -> cwd_ok (objs s) fo alias cwd ino -> path_at ptr (name :: rest) ->
  0 <= ino < count -> inode_of s0 ino = Some i -> itype i <> DIRECTORY ->
  loop (S k) cwd old ptr fo create s = Ret ((-1, None), s) /\ walked s0 s own l kl0 kl n fo NotDirectory (-1, None).
Proof using All.
  intros W Hcwd Hp Hino Hi Hdir. destruct (path_walking _ _ _ _ _ _ _ W Hp) as [Hm _]. destruct W as [Es K]. split.
  - destruct (cwd_deref s fo alias cwd ino Hcwd) as (c & Ec & Hc).
    pose proof (tk_inode _ _ _ Htree ino i Hino Hi) as Ha.
    apply (inode_at_files (<[fo := mkFS x 0]> (objs s0)) (fa s)) in Ha. rewrite <- Es in Ha.
    destruct Hp as (Hn & _). apply Forall_cons in Hn as [[Hne _] _]. destruct (path_str_cons name rest) as (tail & Et & _).
    rewrite Et in Hm. destruct name as [|c0 name]; [done|]. apply cstr_cons in Hm as (Hc0 & Hr & _).
    cbn [getfile_loop]. mstep. rewrite Hc0, (proj2 (Z.eqb_neq c0 0)) by lia.
    rewrite (bind_ret_l _ _ _ _ _ Ec), Hc, (bind_ret_l _ _ _ _ _ (ia_get _ _ _ _ Ha)). mstep.
    by rewrite (proj2 (Z.eqb_neq _ _) Hdir).
  - exists (<[fo := mkFS x 0]> (objs s0)), false. split; [done|]. split; [|done]. split; [done|]. split; [by exists x|done].
Qed.

(** The end of an iteration. *)
Lemma step_ok alias cwd ptr own kl ino x n s i name rest (next : Z -> M F (Z * option File)) :
  walking s0 s own l kl0 kl fo x n -> path_at ptr (name :: rest) ->
  let r := find_name name (entries_of s0 i) in let e := ptr + Z.of_nat (length name) in
  (exists c, deref cwd s = Ret (c, s) /\ inum c = if alias : bool then default ino r else ino) ->
  inode_of s0 ino = Some i -> itype i = DIRECTORY -> creates (resolve s0 alias ino (name :: rest)) ->
  (exists r' out s', resolve s0 alias ino (name :: rest) = r' /\ walked s0 s' own l kl0 kl n fo r' out /\
     getfile_step fuel true dent sti cwd ptr e fo create (bool_decide (is_Some r)) next s = Ret (out, s')) \/
  (exists ino', r = Some ino' /\ resolve s0 alias ino (name :: rest) = resolve s0 true ino' rest /\
     getfile_step fuel true dent sti cwd ptr e fo create (bool_decide (is_Some r)) next s =
       next (if fmem s0 e =? 47 then u64 (e + 1) else e) s).
Proof using All.
  intros W Hp r e (c & Ec & Hc) Hi Hdir Hcr. destruct (path_walking _ _ _ _ _ _ _ W Hp) as [Hm _].
  destruct (path_rest _ _ _ Hp) as (_ & Hend & _). fold e in Hend.
  assert (fmem s e = fmem s0 e) as Hme.
  { apply (kt_mem _ _ _ _ _ _ _ (wk_kept _ _ _ _ _ _ _ _ _ W)). apply Hp. destruct (path_str_cons name rest) as (tail & -> & _).
    rewrite length_app. subst e. lia. }
  assert ((fmem s e =? 0) && negb (bool_decide (is_Some r)) && create = false) as Hnc.
  { rewrite Hme, Hend. destruct Hcr as [->|(ino' & Hf)]; [by rewrite andb_false_r|]. cbn [resolve] in Hf. rewrite Hi, Hdir in Hf.
    cbv zeta in Hf. fold r in Hf. change (negb (DIRECTORY =? DIRECTORY)) with false in Hf. cbv iota in Hf.
    destruct r; [by rewrite andb_false_r|]. by repeat case_match. }
  cbn [resolve] in *. rewrite Hi, Hdir in *. cbv zeta in *. fold r. change (negb (DIRECTORY =? DIRECTORY)) with false.
  cbv iota. unfold getfile_step. mstep. rewrite Hnc, (bind_ret_l _ _ _ _ _ Ec). mstep.
  assert (rootfs s = rootfs s0) as -> by (rewrite (wk_state _ _ _ _ _ _ _ _ _ W); reflexivity).
  rewrite (device_named_ok _ _ _ Hm), Hc, Hme. fold (path_str (name :: rest)).
  set (dv := if _ =? inum (dev_dir (rootfs s0)) then device_of (path_str (name :: rest)) else None).
  destruct (free_obj_walking s0 s own l kl0 kl fo x n W) as (s' & Ef & Es' & He).
  destruct dv as [f|].
  - left. exists (Device f), (0, Some f), s'. split; [done|]. split; [by exists (delete fo (objs s0)), true|].
    by rewrite (bind_ret_l _ _ _ _ _ Ef).
  - destruct r as [ino'|].
    + right. by exists ino'.
    + left. exists Missing, (-1, None), s'. split; [done|]. split; [by exists (delete fo (objs s0)), true|].
      rewrite bool_decide_false by (by intros [? ?]). by rewrite (bind_ret_l _ _ _ _ _ Ef).
Qed.

Lemma getfile_loop_ok n : forall names alias cwd old ptr own kl ino x k s,
  walking s0 s own l kl0 kl fo x k -> cwd_ok (objs s) fo alias cwd ino -> (names = [] -> x = ino) -> path_at ptr names ->
  0 <= ino < count -> inode_of s0 ino <> None -> kheap_room (fa s0) (k + 25 * Z.of_nat (length names)) ->
  (length names < n)%nat -> creates (resolve s0 alias ino names) ->
  exists out s' own' kl' k', loop n cwd old ptr fo create s = Ret (out, s') /\
    walked s0 s' own' l kl0 kl' k' fo (resolve s0 alias ino names) out /\ k' <= k + 25 * Z.of_nat (length names).
Proof using All.
  induction n as [|n IH]; intros names alias cwd old ptr own kl ino x k s W Hcwd Hx Hp Hino Hi Hroom Hn Hcr; [lia|].
  destruct names as [|name rest].
  { rewrite (Hx eq_refl) in W. destruct (loop_end n cwd old ptr own kl ino k s W Hp Hino Hi) as (out & E & D).
    exists out, s, own, kl, k. split; [done|]. split; [done|cbn; lia]. }
  destruct (inode_of s0 ino) as [i|] eqn:Ei; [|done]. cbn [length] in *.
  destruct (decide (itype i = DIRECTORY)) as [Hdir|Hdir].
  2:{ destruct (loop_notdir n alias cwd old ptr own kl ino x k s i name rest W Hcwd Hp Hino Ei Hdir) as [E D].
      exists (-1, None), s, own, kl, k. split; [done|]. cbn [resolve]. rewrite Ei, (proj2 (Z.eqb_neq _ _) Hdir).
      split; [exact D|lia]. }
  assert (kheap_room (fa s) 25) as Hr.
  { eapply grew_room; [apply (wk_kept _ _ _ _ _ _ _ _ _ W)|]. eapply kheap_room_mono; [exact Hroom|lia]. }
  destruct (loop_iter n alias cwd old ptr own kl ino x k s i name rest W Hcwd Hp Hino Ei Hdir Hr)
    as (s2 & own2 & kl2 & W2 & Hd2 & E2). rewrite E2. clear E2.
  destruct (step_ok alias cwd ptr own2 kl2 ino _ _ s2 i name rest (fun next => loop n (RObj fo) (Some i) next fo create) W2 Hp Hd2 Ei Hdir Hcr)
    as [(r' & out & s' & Er & D & E)|(ino' & Er & Eres & E)].
  - exists out, s', own2, kl2, (k + 25). rewrite E, Er. split; [done|]. split; [done|lia].
  - rewrite E, Eres. rewrite Er in W2. cbn [default from_option] in W2.
    destruct (path_rest _ _ _ Hp) as (_ & _ & Hp'). set (p' := if _ =? 47 then _ else _) in *.
    assert (0 <= ino' < count /\ inode_of s0 ino' <> None) as [Hin' Hi'].
    { eapply find_name_ino; [|exact Er]. by eapply tk_dir. }
    destruct (IH rest true (RObj fo) (Some i) p' own2 kl2 ino' ino' (k + 25) s2 W2) as (out & s' & own' & kl' & k' & E' & D & Hk);
      try done; try lia.
    + split; [done|]. rewrite (wk_state _ _ _ _ _ _ _ _ _ W2). apply lookup_insert_eq.
    + eapply kheap_room_mono; [exact Hroom|lia].
    + by rewrite <- Eres.
    + exists out, s', own', kl', k'. split; [done|]. split; [done|lia].
Qed.
End Loop.
