(* ===== verification/GetFileProps.v ===== *)
(** * getfile refines the walk of the tree *)
From S2P Require Import Prelude Mem World KernelPT PTBits KernelPTSpec KernelPTRec KernelPTProps PTInit Alloc AllocList AllocSpec DmaHeapSpec DmaHeap.
From S2P Require Import KHeapSpec CString CStringProps UserPT UserPTProps FsTypes FsCode Files Proc SysFile Sample FdSpec FsFileSpec.
From S2P Require Import FsFileProps UserCopy SysIoSpec SysIo SysIoFiles DirSpec GetFile.
Import CString KernelPT Alloc FsTypes FsCode.

(** The objects are in pages that are in use. *)
Definition objs_ok (s : F) (kl : list AllocList.run) : Prop :=
  forall p, is_Some (objs s !! p) -> ~ kheap_free (fa s) kl (p / 4096).

(** Where a path starts. *)
Definition start_ok (s : F) (abs : bool) (cwd : fsref) (ino : Z) : Prop :=
  if abs then ino = inum (root (rootfs s)) else
  match cwd with RVal v => inum v = ino | RObj p => exists v, objs s !! p = Some v /\ inum v = ino end.

(** The objects and the free pages after getfile: one page holds the object of
    the file found, or of the file that is no directory; otherwise all is as
    before. *)
Definition getfile_post (s : F) (kl : list AllocList.run) (r : lookup_end) (fo : Z) (out : Z * option File)
    (o : gmap Z FSFile) (free : Z -> Prop) : Prop :=
  let taken := o !! fo <> None /\ objs s !! fo = None /\ kheap_free (fa s) kl (fo / 4096) /\ forall w, free w <-> kheap_free (fa s) kl w /\ w <> fo / 4096 in
  let same := o = objs s /\ forall w, free w <-> kheap_free (fa s) kl w in
  match r with
  | Found ino => taken /\ o = <[fo := mkFS ino 0]> (objs s) /\
      exists i, inode_of s ino = Some i /\ out = (0, Some (mkFile fo (itype i) fs_ops))
  | Device f => same /\ out = (0, Some f)
  | Missing => same /\ out = (-1, None)
  | NotDirectory => taken /\ (exists x, o = <[fo := mkFS x 0]> (objs s)) /\ out = (-1, None)
  end.

Section Getfile.
Context (fuel : nat) (dent : Z) (sti : Inode) (create : bool) (s : F).
Context (own : Z -> option node) (l kl : list AllocList.run) (lo count : Z).
Context (abs : bool) (cwd : fsref) (path : Z) (names : list (list Z)) (ino : Z).

(** What getfile needs: a tree, a heap with room, and a path in memory in use. *)
Record lookup_ready : Prop := {
  lr_fuel : (60 <= fuel)%nat /\ (length names < fuel)%nat /\ (length (path_str names) < fuel)%nat;
  lr_tree : tree_ok s lo count;
  lr_heap : kheap_inv own (fa s) l kl;
  lr_objs : objs_ok s kl;
  lr_room : kheap_room (fa s) (1 + 25 * Z.of_nat (length names));
  lr_start : start_ok s abs cwd ino;
  lr_ino : 0 <= ino < count /\ inode_of s ino <> None;
  lr_names : names <> [] /\ Forall name_ok names;
  lr_path : cstr (fmem s) path ((if abs then [47] else []) ++ path_str names);
  lr_used : forall x, path <= x <= path + 1 + Z.of_nat (length (path_str names)) -> ~ kheap_free (fa s) kl (x / 4096);
}.

Hypothesis L : lookup_ready.
Let ptr := if abs then u64 (path + 1) else path.

Lemma path_head : (fmem s path =? 47) = abs /\ cstr (fmem s) ptr (path_str names) /\ path <= ptr <= path + 1 /\ (fmem s ptr =? 0) = false.
Proof using L.
  destruct (lr_names L) as [Hn Hok]. pose proof (lr_path L) as Hc. subst ptr.
  destruct names as [|name rest]; [done|]. apply Forall_cons in Hok as [[Hne Hs] _].
  destruct (path_str_cons name rest) as (tail & Et & _). rewrite Et in *. destruct name as [|c name]; [done|].
  apply not_elem_of_cons in Hs as [Hs _]. destruct abs; cbn [app] in Hc.
  - apply cstr_cons in Hc as (-> & _ & -> & Hc). split; [done|]. split; [done|]. split; [lia|].
    apply cstr_cons in Hc as (-> & ? & _). apply Z.eqb_neq. lia.
  - split; [|split; [done|split; [lia|]]]; apply cstr_cons in Hc as (-> & ? & _); apply Z.eqb_neq; lia.
Qed.

(** The object of getfile: one page. *)
Context (own1 : Z -> option node) (a1 : A) (kl1 : list AllocList.run) (v : Z).
Hypothesis P : kalloc_post own1 (fa s) a1 l kl kl1 1 v.
Let s0 := set_fa a1 s.
Let fo := v * 4096.

Lemma new_page : kheap_free (fa s) kl v /\ fo / 4096 = v /\
  (forall w, kheap_free a1 kl1 w <-> kheap_free (fa s) kl w /\ w <> v) /\
  (forall x, ~ kheap_free (fa s) kl (x / 4096) -> amem a1 x = fmem s x).
Proof using L P.
  destruct P as [P1 P2 P3 P4 P5 P6 P7 P8 P9]. split; [apply P4; lia|]. split; [subst fo; dlia|]. split; [|done].
  intros w. specialize (P3 w). unfold kheap_free. assert (w <> v <-> ~ (v <= w < v + 1)) as -> by lia. done.
Qed.

Lemma new_object : objs s !! fo = None.
Proof using L P.
  destruct (objs s !! fo) eqn:E; [|done]. destruct new_page as (H1 & H2 & _). exfalso.
  apply (lr_objs L fo); [by rewrite E|]. by rewrite H2.
Qed.

Lemma start_path : path_at fuel s0 kl1 ptr names.
Proof using L P.
  destruct path_head as (_ & Hc & Hptr & _). destruct new_page as (_ & _ & Hf & Hm).
  assert (forall x, ptr <= x <= ptr + Z.of_nat (length (path_str names)) -> ~ kheap_free (fa s) kl (x / 4096)) as Hu.
  { intros x Hx. apply (lr_used L). lia. }
  split; [apply L|]. split; [|split; [apply (lr_fuel L)|]].
  - eapply cstr_ext; [|exact Hc]. intros x Hx. by apply Hm, Hu.
  - intros x Hx Hin. apply Hf in Hin as [Hin _]. by apply (Hu x).
Qed.

Lemma start_cwd x : cwd_ok (<[fo := x]> (objs s)) fo false (if abs then RVal (root (rootfs s)) else cwd) ino.
Proof using L P.
  pose proof (lr_start L) as Hs. pose proof new_object as Hno. unfold start_ok in Hs. destruct abs; [by split|].
  destruct cwd as [w|p]; [by split|]. destruct Hs as (w & Hw & Hi).
  assert (p <> fo) as Hne by (intros ->; by rewrite Hno in Hw).
  split; [done|]. exists w. by rewrite lookup_insert_ne.
Qed.

(** The object given back. *)
Lemma give_object own' a2 a3 kl2 k : kept own' a1 a2 l kl1 kl2 k -> kfree fo sizeof_FSFile a2 = Ret (tt, a3) ->
  exists kl3, kheap_inv own' a3 l kl3 /\ (forall w, kheap_free a3 kl3 w <-> kheap_free (fa s) kl w) /\
    (forall x, ~ kheap_free (fa s) kl (x / 4096) -> amem a3 x = fmem s x) /\ grew a1 a3 k.
Proof using L P.
  intros [K1 K2 K3 K4] E. destruct new_page as (Hv & Hfo & Hf & Hm). pose proof P as [P1 P2 _ _ _ _ _ _ _].
  assert (~ kheap_free a2 kl2 v) as Hnv by (rewrite K2, Hf; tauto).
  destruct (give_run_ok own' a2 l kl2 v sizeof_FSFile K1) as (a3' & kl3 & E' & I' & Hf' & Hx' & G'); [done|lia|..].
  { pose proof (kh_brk _ _ _ _ P1). change (ADDR_2_PAGEUP sizeof_FSFile) with 1. lia. }
  { change (ADDR_2_PAGEUP sizeof_FSFile) with 1. intros w Hw. by replace w with v by lia. }
  change (ADDR_2_PAGEUP sizeof_FSFile) with 1 in *. fold fo in E'. rewrite E in E'. injection E' as <-.
  exists kl3. split; [done|]. split; [|split].
  - intros w. rewrite Hf', K2, Hf. assert (v <= w < v + 1 <-> w = v) as -> by lia.
    destruct (decide (w = v)) as [->|]; tauto.
  - intros x Hx. rewrite Hx', K3; [by apply Hm|..].
    + rewrite Hf. tauto.
    + intros Hin. apply Hx. unfold in_pages in Hin. by replace (x / 4096) with v by dlia.
  - unfold grew in *. lia.
Qed.

(** The end of the walk, seen from before the object was taken. *)
Lemma walked_post s' own' kl' k r out : walked s0 s' own' l kl1 kl' k fo r out ->
  exists kl'', s' = set_objs (objs s') (set_fa (fa s') s) /\ kheap_inv own' (fa s') l kl'' /\
    (forall x, ~ kheap_free (fa s) kl (x / 4096) -> fmem s' x = fmem s x) /\ grew (fa s) (fa s') (1 + k) /\
    getfile_post s kl r fo out (objs s') (kheap_free (fa s') kl'').
Proof using L P.
  intros (o & freed & Es & Hend & Hheap). destruct new_page as (Hv & Hfo & Hf & Hm). pose proof new_object as Hno.
  assert (objs s' = o) as Eo by (rewrite Es; reflexivity). pose proof (kp_grew _ _ _ _ _ _ _ _ P) as G1.
  assert (s' = set_objs (objs s') (set_fa (fa s') s)) as Es' by (rewrite Eo; exact Es). change (objs s0) with (objs s) in Hend.
  destruct freed; cbn [heap_end] in Hheap.
  - destruct Hheap as (a2 & K & E). destruct (give_object own' a2 (fa s') kl' k K E) as (kl'' & I & Hfr & Hmem & G2).
    exists kl''. split; [done|]. split; [done|]. split; [done|]. split; [unfold grew in *; lia|].
    rewrite Eo. destruct r; destruct Hend as (Hb & Ho & Hout); try done; (split; [|done]); (split; [|done]); rewrite Ho; by apply delete_id.
  - destruct Hheap as [K1 K2 K3 K4]. exists kl'. split; [done|]. split; [done|]. split; [|split].
    + intros x Hx. unfold fmem. rewrite K3; [by apply Hm|]. intros Hin. apply Hf in Hin. tauto.
    + unfold grew in *. change (fa s0) with a1 in K4. lia.
    + assert (forall w, kheap_free (fa s') kl' w <-> kheap_free (fa s) kl w /\ w <> fo / 4096) as Hfr
        by (intros w; rewrite K2, Hfo; apply Hf).
      rewrite Eo. destruct r; destruct Hend as (Hb & Ho & Hout); try done.
      * split; [|done]. rewrite Ho, <- Hfo in *. split; [by rewrite lookup_insert_eq|done].
      * destruct Ho as (x & ->). rewrite <- Hfo in Hv. split; [|split; [by exists x|done]]. split; [by rewrite lookup_insert_eq|done].
Qed.
End Getfile.

Lemma resolve_set_fa a s names : forall alias ino, resolve (set_fa a s) alias ino names = resolve s alias ino names.
Proof.
  induction names as [|name rest IH]; intros alias ino; [done|]. cbn [resolve].
  change (inode_of (set_fa a s) ino) with (inode_of s ino). destruct (inode_of s ino) as [i|]; [|done].
  change (entries_of (set_fa a s) i) with (entries_of s i). change (rootfs (set_fa a s)) with (rootfs s).
  repeat case_match; done.
Qed.

Lemma getfile_ok fuel dent sti create s own l kl lo count abs cwd path names ino :
  lookup_ready fuel s own l kl lo count abs cwd path names ino -> creates create (resolve s false ino names) ->
  exists out s' own' kl' fo, getfile fuel true dent sti cwd path create s = Ret (out, s') /\
    s' = set_objs (objs s') (set_fa (fa s') s) /\ kheap_inv own' (fa s') l kl' /\
    (forall x, ~ kheap_free (fa s) kl (x / 4096) -> fmem s' x = fmem s x) /\
    grew (fa s) (fa s') (1 + 25 * Z.of_nat (length names)) /\
    getfile_post s kl (resolve s false ino names) fo out (objs s') (kheap_free (fa s') kl').
Proof.
  intros L Hcr. destruct (path_head _ _ _ _ _ _ _ _ _ _ _ _ L) as (Habs & _ & _ & Hne).
  pose proof (lr_room _ _ _ _ _ _ _ _ _ _ _ _ L) as Hroom.
  destruct (kalloc_ok own (fa s) l kl sizeof_FSFile (lr_heap _ _ _ _ _ _ _ _ _ _ _ _ L)) as (own1 & a1 & kl1 & v & E & P);
    [done|eapply kheap_room_mono; [exact Hroom|]; change (ADDR_2_PAGEUP sizeof_FSFile) with 1; lia|].
  change (ADDR_2_PAGEUP sizeof_FSFile) with 1 in P. set (fo := v * 4096) in *.
  set (s1 := set_objs (<[fo := mkFS 0 0]> (objs s)) (set_fa a1 s)).
  destruct (getfile_loop_ok fuel dent sti create (set_fa a1 s) l kl1 fo lo count) with (n := fuel) (names := names)
    (alias := false) (cwd := if abs then RVal (root (rootfs s)) else cwd) (old := @None Inode)
    (ptr := if abs then u64 (path + 1) else path) (own := own1) (kl := kl1) (ino := ino) (x := 0) (k := 0) (s := s1)
    as (out & s' & own' & kl' & k' & Eg & W & Hk).
  - apply (lr_fuel _ _ _ _ _ _ _ _ _ _ _ _ L).
  - apply tree_ok_set_fa, L.
  - split; [done|]. apply kept_refl; [apply P|lia].
  - eapply start_cwd; eassumption.
  - intros ->. by destruct (lr_names _ _ _ _ _ _ _ _ _ _ _ _ L).
  - eapply start_path; eassumption.
  - apply L.
  - apply (lr_ino _ _ _ _ _ _ _ _ _ _ _ _ L).
  - eapply grew_room; [apply P|done].
  - apply (lr_fuel _ _ _ _ _ _ _ _ _ _ _ _ L).
  - by rewrite resolve_set_fa.
  - rewrite resolve_set_fa in W. destruct (walked_post _ _ _ _ _ _ _ _ _ _ _ _ L own1 a1 kl1 v P s' own' kl' k' _ _ W) as (kl'' & H1 & H2 & H3 & H4 & H5).
    exists out, s', own', kl'', fo. split; [|split; [done|split; [done|split; [done|split; [|done]]]]].
    + unfold getfile. mstep. unfold id. rewrite Habs, Hne. by rewrite (bind_ret_l _ _ _ _ _ (in_fa_run _ _ _ _ E)).
    + eapply grew_mono; [done|lia].
Qed.

(** C7: getfile of a path is the walk of the tree on the device by its names, for
    absolute and relative paths: it returns the file that the path names, a
    device for a name in /dev, and -1 otherwise.  The device, the memory in use
    and the other objects are as before, and one page of the heap is taken
    exactly when the file is found or a name goes on below a file that is no
    directory (there the object is lost).  The tree is one whose directories have
    at most 25 blocks and whose inodes and directory blocks are cached. *)
Theorem getfile_refines_resolve fuel dent sti create s own l kl lo count abs cwd path names ino :
  lookup_ready fuel s own l kl lo count abs cwd path names ino -> creates create (resolve s false ino names) ->
  exists out s' own' kl' fo, getfile fuel true dent sti cwd path create s = Ret (out, s') /\
    s' = set_objs (objs s') (set_fa (fa s') s) /\ kheap_inv own' (fa s') l kl' /\
    (forall x, ~ kheap_free (fa s) kl (x / 4096) -> fmem s' x = fmem s x) /\
    getfile_post s kl (resolve s false ino names) fo out (objs s') (kheap_free (fa s') kl').
Proof.
  intros L Hcr. destruct (getfile_ok fuel dent sti create s own l kl lo count abs cwd path names ino L Hcr)
    as (out & s' & own' & kl' & fo & E & H1 & H2 & H3 & _ & H4).
  by exists out, s', own', kl', fo.
Qed.

(** ** A device with directories, and a path in memory

    The root directory has the entry bin for inode 2, whose directory has the
    entry sh for the file of Sample.v. *)
Import CString KernelPT Alloc FsTypes FsCode.

Fixpoint lay (m : mem) (a : Z) (l : list Z) : mem :=
  match l with [] => m | c :: l' => upd (lay m (a + 1) l') a c end.

Definition root_inode1 : Inode := mkInode DIRECTORY 6 64 (7 :: replicate 24 0) 0 0 0.
Definition bin_inode1 : Inode := mkInode DIRECTORY 6 64 (6 :: replicate 24 0) 0 0 0.
Definition bin : list Z := [98; 105; 110].
Definition sh : list Z := [115; 104].

Definition dev1 : mem :=
  let d := store_inode dev0 12288 root_inode1 in
  let d := store_inode d (12288 + 256) bin_inode1 in
  let d := upd d 4096 7 in
  let d := store32 (lay d 28672 bin) (28672 + 60) 2 in
  store32 (lay d 24576 sh) (24576 + 60) 1.

(** The path "/bin/sh" at 8192. *)
Definition path1_mem : mem := lay (fun _ => 0) 8192 ([47] ++ path_str [bin; sh]).
Definition f1 : F := mkF (set_amem path1_mem heap0) dev1 65536 rootfs0 ∅ [] [] 0 0 cached0 cold0.

Lemma f1_inodes ino : 0 <= ino < 3 ->
  inode_of f1 ino = Some (if ino =? 0 then root_inode1 else if ino =? 1 then file_inode0 else bin_inode1).
Proof. intros H. assert (ino = 0 \/ ino = 1 \/ ino = 2) as [->|[->| ->]] by lia; vm_compute; reflexivity. Qed.

Lemma f1_dir i b : i = root_inode1 /\ b = 7 \/ i = bin_inode1 /\ b = 6 -> dir_ok f1 i 4 3.
Proof.
  intros Hi. assert (size_bytes i = 64) as Hs by (destruct Hi as [[-> _]|[-> _]]; done).
  assert (forall k, Z.of_nat k < size_bytes i / 64 -> k = 0%nat) as Hk by (intros k; rewrite Hs; dlia).
  split.
  - exists 1. split; [|lia]. destruct Hi as [[-> ->]|[-> ->]]; (split; try (cbn; lia); try reflexivity;
      intros id Hid; assert (id = 0) as -> by lia; (reflexivity || (vm_compute; split; discriminate))).
  - intros k ->%Hk. destruct Hi as [[-> _]|[-> _]]; (split; [vm_compute; lia|vm_compute; repeat constructor]).
  - intros k ->%Hk. destruct Hi as [[-> _]|[-> _]]; (split; [vm_compute; split; [discriminate|reflexivity]|vm_compute; discriminate]).
Qed.

Lemma f1_inode_at ino i : 0 <= ino < 3 -> inode_of f1 ino = Some i -> inode_at f1 ino i 4.
Proof.
  intros Hino Hi.
  assert (inode_bitmap_offset (rootfs f1) = 1 /\ inode_table_offset (rootfs f1) = 3 /\ dsize f1 = 65536) as (E1 & E2 & E3) by done.
  assert (warm f1 (1 * 4096 + ino / 8) 1 = true) as W1 by (apply (warm_block f1 1); reflexivity || dlia).
  assert (warm f1 (3 * 4096 + ino * 128) 128 = true) as W2 by (apply (warm_block f1 3); reflexivity || dlia).
  split; rewrite ?E1, ?E2, ?E3; try done; try dlia.
  rewrite (get_inode_run f1 ino 4); unfold inode_bit, inode_addr; rewrite ?E1, ?E2, ?E3; try done; try dlia.
  rewrite <- Hi. unfold inode_of, inode_bit, inode_addr. by rewrite E1, E2.
Qed.

Lemma f1_tree : tree_ok f1 4 3.
Proof.
  split; [apply f1_inode_at|]. intros ino i Hino. rewrite (f1_inodes ino Hino).
  assert (ino = 0 \/ ino = 1 \/ ino = 2) as [->|[->| ->]] by lia; intros [= <-] Hd; [..|]; try discriminate Hd; eapply f1_dir; by eauto.
Qed.

Lemma f1_ready : lookup_ready 100 f1 own0 [] [] 4 3 true (RVal (mkFS 0 0)) 8192 [bin; sh] 0.
Proof.
  split.
  - cbn. lia.
  - exact f1_tree.
  - by apply kheap_inv_write; [exact kheap0_ok|intros x [H|H]; apply elem_of_nil in H].
  - intros p [v Hv]. done.
  - split; vm_compute; discriminate.
  - reflexivity.
  - split; [lia|vm_compute; discriminate].
  - split; [done|]. repeat constructor; try discriminate; apply (bool_decide_unpack _); vm_compute; done.
  - split; try (cbn; lia); [repeat constructor; lia| |vm_compute; reflexivity].
    intros [|[|[|[|[|[|[|k]]]]]]] x Hx; try (vm_compute in Hx; injection Hx as <-; vm_compute; reflexivity). done.
  - intros x Hx [H|H]; [by apply elem_of_nil in H|]. change (kbrk_page (fa f1)) with KH_BASE in H.
    cbn [length path_str bin sh app] in Hx. unfold KH_BASE in H. dlia.
Qed.

Lemma getfile_refines_resolve_witness :
  exists s' fo, getfile 100 true 0 file_inode0 (RVal (mkFS 0 0)) 8192 false f1 = Ret ((0, Some (mkFile fo REGULAR fs_ops)), s') /\
    objs s' !! fo = Some (mkFS 1 0).
Proof.
  destruct (getfile_refines_resolve 100 0 file_inode0 false f1 own0 [] [] 4 3 true (RVal (mkFS 0 0)) 8192 [bin; sh] 0
    f1_ready (or_introl eq_refl)) as (out & s' & own' & kl' & fo & E & _ & _ & _ & H).
  assert (resolve f1 false 0 [bin; sh] = Found 1) as Er by (vm_compute; reflexivity). rewrite Er in H.
  destruct H as (_ & Ho & i & Hi & ->). assert (inode_of f1 1 = Some file_inode0) as Ei by (vm_compute; reflexivity).
  rewrite Ei in Hi. injection Hi as <-. exists s', fo. split; [exact E|]. rewrite Ho. apply lookup_insert_eq.
Defined.
