(* ===== verification/OpenFile.v ===== *)
(** * open

    sys_openat takes the path from the process, finds the file, and puts it into
    the lowest free descriptor.  The call composes the string copy, getfile and
    the kernel heap. *)
From S2P Require Import Prelude Mem World CString CStringProps KernelPT PTBits KernelPTSpec KernelPTRec KernelPTProps PTInit.
From S2P Require Import Alloc AllocList AllocSpec DmaHeapSpec DmaHeap KHeapSpec UserPT UserPTProps UserCopy SysIoSpec.
From S2P Require Import FsTypes FsCode FsFileSpec FsFileProps Files Proc SysFile FdSpec FdProps SysIo SysIoFiles DirSpec GetFile GetFileProps.
Import CString KernelPT Alloc UserPT FsTypes FsCode Proc SysFile.

(** The address space of a process after a step of the kernel that wrote to free
    pages of its heap only. *)
Lemma space_kept own own' l kl kl' uown base a a' :
  space_ok own l kl uown base a -> kheap_inv own' a' l kl' -> (forall w, kheap_free a' kl' w -> kheap_free a kl w) ->
  (forall x, ~ kheap_free a kl (x / 4096) -> amem a' x = amem a x) ->
  space_ok own' l kl' uown base a' /\ (forall v, walkupt (amem a') base v = walkupt (amem a) base v) /\
  (forall x, 0 <= x / 4096 < UVPN_END -> walkupt (amem a) base (x / 4096) <> 0 -> ubyte base (amem a') x = ubyte base (amem a) x).
Proof.
  intros So I' Hf Hm. pose proof So as [S1 S2 S3 S4 S5 S6].
  assert (same_tables uown (amem a) (amem a')) as St by (intros x Hx; by apply Hm, S3).
  assert (forall v, walkupt (amem a') base v = walkupt (amem a) base v) as Hw by (intros v; by eapply tables_walk).
  split; [|split; [done|]].
  - split; try done.
    + eapply upper_wf; [exact S2|by eapply tables_upper].
    + intros w Hw' Hin. by apply (S3 w Hw'), Hf.
    + intros v. rewrite !Hw. apply S5.
    + intros v w. rewrite !Hw. apply S6.
  - intros x Hx Hn. unfold ubyte, uaddr. rewrite Hw. apply Hm. intros Hin.
    pose proof (page_low own l kl uown base a So _ Hx Hn) as Hlow.
    replace ((walkupt (amem a) base (x / 4096) * 4096 + x mod 4096) / 4096) with (walkupt (amem a) base (x / 4096)) in Hin by dlia.
    destruct Hin as [Hin|Hin]; [pose proof (kheap_list_range _ _ _ _ _ S1 Hin)|pose proof (kh_brk _ _ _ _ S1)]; lia.
Qed.

Section Open.
Context (fuel : nat) (dent : Z) (sti : Inode).
Context (own : Z -> option node) (l kl : list AllocList.run) (uown : Z -> option utag) (lo count : Z).
Context (s : P) (p : PCB) (dfd fd : nat) (d0 d1 : FileDescriptor) (ub fl mode : Z).
Context (abs : bool) (names : list (list Z)) (ino : Z).
Let base := ptref_base (space p).
Let str := (if abs then [47] else []) ++ path_str names.
Let cwd := if occupied d0 && (ftype (file d0) =? DIRECTORY) then RObj (fsuper (file d0)) else RVal (cwd_file p).

(** The running process [p], with a path in its memory and a free descriptor. *)
Record opener : Prop := {
  oc_proc : procs s !! running s = Some p;
  oc_dfd : opened_files p !! dfd = Some d0;
  oc_slot : free_slot (opened_files p) 0 = Some (Z.of_nat fd);
  oc_fd : opened_files p !! fd = Some d1;
  oc_space : space_ok own l kl uown base (fa (pf s));
  oc_tree : tree_ok (pf s) lo count;
  oc_objs : objs_ok (pf s) kl;
  oc_string : cstr (ubyte base (pmem s)) ub str;
  oc_mapped : forall w, ub / 4096 <= w <= (ub + Z.of_nat (length str)) / 4096 -> walkupt (pmem s) base w <> 0;
  oc_len : Z.of_nat (length str) <= 8190 /\ ub + Z.of_nat (length str) < UVPN_END * 4096;
  oc_fuel : (60 <= fuel)%nat /\ (length names < fuel)%nat /\ (2 * length str + 1 <= fuel)%nat;
  oc_room : kheap_room (fa (pf s)) (2 + (1 + 25 * Z.of_nat (length names)));
  oc_start : start_ok (pf s) abs cwd ino;
  oc_ino : 0 <= ino < count /\ inode_of (pf s) ino <> None;
  oc_names : names <> [] /\ Forall name_ok names;
}.

Hypothesis O : opener.

(** user_path: the path in a new buffer. *)
Lemma path_copied : exists own1 a1 kl1 v m2,
  kalloc true (2 * PAGESIZE) (fa (pf s)) = Ret (v * 4096, a1) /\ borrowed own1 l kl kl1 uown base (fa (pf s)) a1 v 2 /\
  translate_2_pages fuel base (v * 4096) ub 1 a1 = Ret (tt, set_amem m2 a1) /\
  cstr m2 (v * 4096) str /\ (forall x, ~ (v * 4096 <= x < v * 4096 + 8192) -> m2 x = amem a1 x).
Proof using O.
  pose proof (oc_space O) as So. assert (1 <= 2 * PAGESIZE < 1073741824) as Hs by (unfold PAGESIZE; lia).
  assert (kheap_room (fa (pf s)) (ADDR_2_PAGEUP (2 * PAGESIZE))) as Hr.
  { eapply kheap_room_mono; [apply (oc_room O)|]. change (ADDR_2_PAGEUP (2 * PAGESIZE)) with 2. lia. }
  destruct (borrow_ok own l kl uown base (fa (pf s)) _ So Hs Hr) as (own1 & a1 & kl1 & v & E & B).
  exists own1, a1, kl1, v. pose proof (bw_range _ _ _ _ _ _ _ _ _ _ B) as Hv. pose proof (kh_brk _ _ _ _ (bw_inv _ _ _ _ _ _ _ _ _ _ B)) as Hb.
  pose proof (borrowed_walk own l kl uown base _ _ So Hs Hr own1 kl1 a1 v B) as Hwalk.
  pose proof (borrowed_ubyte own l kl uown base _ _ So Hs Hr own1 kl1 a1 v B) as Hub.
  pose proof (buffer_page own l kl uown base _ _ So Hs Hr own1 kl1 a1 v B) as Hpg.
  change (ADDR_2_PAGEUP (2 * PAGESIZE)) with 2 in *. unfold KH_BASE, KH_END in *.
  pose proof (oc_string O) as Hc. pose proof (oc_len O) as [Hl1 Hl2]. pose proof (cs_lo _ _ _ Hc) as Hlo. unfold UVPN_END in *.
  assert (forall i, 0 <= i <= Z.of_nat (length str) -> ubyte base (amem a1) (ub + i) = ubyte base (pmem s) (ub + i)) as Hub'.
  { intros i Hi. apply Hub; [unfold UVPN_END; dlia|]. apply (oc_mapped O). dlia. }
  destruct (copy_string_ok uown base fuel (v * 4096) ub (Z.of_nat (length str)) (v * 4096 + 8192) a1) as (a2 & E2 & Ha & Hx); try lia.
  - exact (borrowed_wf own l kl uown base _ _ So Hs Hr own1 kl1 a1 v B).
  - intros x Hx. apply Hpg. dlia.
  - intros w Hw. pose proof (oc_mapped O w Hw) as Hn. destruct (so_page _ _ _ _ _ _ So w) as (Hp & Ho & _); [unfold UVPN_END; dlia|done|].
    unfold string_page, page_in. rewrite Hwalk. unfold DMA_END in Hp. lia.
  - intros i Hi. rewrite Hub' by lia. pose proof (cstr_byte _ _ _ (Z.to_nat i) Hc ltac:(lia)) as Hb'. rewrite Z2Nat.id in Hb' by lia. lia.
  - rewrite Hub' by lia. exact (cs_end _ _ _ Hc).
  - pose proof (oc_fuel O). lia.
  - exists (amem a2). split; [done|]. split; [done|]. split; [by rewrite E2, Ha|]. split.
    + split; try lia; [apply Hc| |].
      * intros i x Hi. pose proof (lookup_lt_Some _ _ _ Hi). rewrite Hx, decide_True by lia.
        replace (v * 4096 + Z.of_nat i - v * 4096) with (Z.of_nat i) by lia. rewrite Hub' by lia. by apply (cs_bytes _ _ _ Hc).
      * rewrite Hx, decide_True by lia. replace (v * 4096 + Z.of_nat (length str) - v * 4096) with (Z.of_nat (length str)) by lia.
        rewrite Hub' by lia. exact (cs_end _ _ _ Hc).
    + intros x Hn. by rewrite Hx, decide_False by lia.
Qed.

(** The state in which getfile runs. *)
Context (own1 : Z -> option node) (a1 : A) (kl1 : list AllocList.run) (v : Z) (m2 : mem).
Hypothesis B : borrowed own1 l kl kl1 uown base (fa (pf s)) a1 v 2.
Hypothesis Hc2 : cstr m2 (v * 4096) str.
Hypothesis Hm2 : forall x, ~ (v * 4096 <= x < v * 4096 + 8192) -> m2 x = amem a1 x.
Let a2 := set_amem m2 a1.
Let f2 := set_fa a2 (pf s).

Lemma buffer_used w : v <= w < v + 2 -> ~ kheap_free a2 kl1 w.
Proof using B. intros Hw Hin. by apply (bw_free _ _ _ _ _ _ _ _ _ _ B) in Hin as [_ ?]. Qed.

Lemma path_ready : lookup_ready fuel f2 own1 l kl1 lo count abs cwd (v * 4096) names ino.
Proof using O B Hc2 Hm2.
  pose proof (oc_fuel O) as (F1 & F2 & F3). pose proof (oc_len O) as [Hl _].
  assert (length (path_str names) <= length str)%nat as Hls by (unfold str; rewrite length_app; lia).
  assert (kheap_inv own1 a2 l kl1) as Hinv.
  { apply kheap_inv_write; [apply B|]. intros x Hx. apply Hm2. intros Hin.
    assert (1 <= 2 * PAGESIZE < 1073741824) as Hs by (unfold PAGESIZE; lia).
    assert (kheap_room (fa (pf s)) (ADDR_2_PAGEUP (2 * PAGESIZE))) as Hr
      by (eapply kheap_room_mono; [apply (oc_room O)|change (ADDR_2_PAGEUP (2 * PAGESIZE)) with 2; lia]).
    destruct (buffer_page own l kl uown base _ _ (oc_space O) Hs Hr own1 kl1 a1 v B (x / 4096)) as (_ & ? & ?); [|tauto].
    change (ADDR_2_PAGEUP (2 * PAGESIZE)) with 2. dlia. }
  split; [lia| |exact Hinv| | | | | |exact Hc2|].
  - apply tree_ok_set_fa, O.
  - intros q Hq Hin. apply (oc_objs O q Hq). by apply (bw_free _ _ _ _ _ _ _ _ _ _ B) in Hin as [? _].
  - eapply grew_room; [exact (bw_grew _ _ _ _ _ _ _ _ _ _ B)|]. apply (oc_room O).
  - exact (oc_start O).
  - exact (oc_ino O).
  - exact (oc_names O).
  - intros x Hx. apply buffer_used. dlia.
Qed.

(** After getfile: the buffer is given back. *)
Lemma path_freed own' kl' a3 (Q : Z -> Prop) : kheap_inv own' a3 l kl' ->
  (forall w, kheap_free a3 kl' w <-> kheap_free a2 kl1 w /\ ~ Q w) ->
  (forall x, ~ kheap_free a2 kl1 (x / 4096) -> amem a3 x = m2 x) -> (forall w, Q w -> kheap_free a2 kl1 w) ->
  grew a2 a3 (1 + 25 * Z.of_nat (length names)) ->
  exists a4 kl4, kfree (v * 4096) (2 * PAGESIZE) a3 = Ret (tt, a4) /\ space_ok own' l kl4 uown base a4 /\
    (forall w, kheap_free a4 kl4 w <-> kheap_free (fa (pf s)) kl w /\ ~ Q w) /\
    (forall w, walkupt (amem a4) base w = walkupt (pmem s) base w) /\
    (forall x, 0 <= x / 4096 < UVPN_END -> walkupt (pmem s) base (x / 4096) <> 0 -> ubyte base (amem a4) x = ubyte base (pmem s) x) /\
    grew (fa (pf s)) a4 (3 + 25 * Z.of_nat (length names)).
Proof using O B Hc2 Hm2.
  intros I Hf Hm HQ Hg. pose proof B as [B1 B2 B3 B4 B5 B6 B7 B8]. pose proof (kh_brk _ _ _ _ B1) as Hb.
  destruct (give_run_ok own' a3 l kl' v (2 * PAGESIZE) I) as (a4 & kl4 & E & I4 & F4 & M4 & G4);
    [unfold PAGESIZE; lia|lia|change (ADDR_2_PAGEUP (2 * PAGESIZE)) with 2; lia| |].
  { intros w Hw. rewrite Hf. intros [Hin _]. by apply (buffer_used w). }
  change (ADDR_2_PAGEUP (2 * PAGESIZE)) with 2 in *.
  assert (forall w, kheap_free a4 kl4 w <-> kheap_free (fa (pf s)) kl w /\ ~ Q w) as Hfree.
  { intros w. rewrite F4, Hf. specialize (B5 w). specialize (B6 w). specialize (HQ w).
    assert (kheap_free a2 kl1 w <-> kheap_free a1 kl1 w) as Ea by done. rewrite Ea in *.
    destruct (decide (v <= w < v + 2)); tauto. }
  assert (forall x, ~ kheap_free (fa (pf s)) kl (x / 4096) -> amem a4 x = amem (fa (pf s)) x) as Hmem.
  { intros x Hx. assert (~ (v <= x / 4096 < v + 2)) as Hn by (intros Hin; by apply Hx, B6).
    rewrite M4 by (unfold in_pages; dlia). rewrite Hm by (intros Hin; apply (proj1 (B5 _)) in Hin; tauto).
    rewrite Hm2 by dlia. by apply B8. }
  destruct (space_kept own own' l kl kl4 uown base (fa (pf s)) a4 (oc_space O) I4) as (S4 & W4 & U4);
    [intros w Hw; apply Hfree in Hw; tauto|done|].
  exists a4, kl4. do 5 (split; [done|]). change (grew a1 a3 (1 + 25 * Z.of_nat (length names))) in Hg. unfold grew in *. lia.
Qed.

(** The state after open. *)
Definition opened (s' : P) (ino' : Z) (i : Inode) : Prop := exists fo own' kl' a',
  s' = set_pf (set_objs (<[fo := mkFS ino' 1]> (objs (pf s))) (set_fa a' (pf s)))
         (with_files (running s) fd (mkFD true fl (mkFile fo (itype i) fs_ops) 0) s) /\
  objs (pf s) !! fo = None /\ space_ok own' l kl' uown base a' /\
  (forall w, kheap_free a' kl' w <-> kheap_free (fa (pf s)) kl w /\ w <> fo / 4096) /\
  (forall w, walkupt (amem a') base w = walkupt (pmem s) base w) /\
  (forall x, 0 <= x / 4096 < UVPN_END -> walkupt (pmem s) base (x / 4096) <> 0 -> ubyte base (amem a') x = ubyte base (pmem s) x) /\
  grew (fa (pf s)) a' (3 + 25 * Z.of_nat (length names)).
End Open.

(** The descriptor of an opened file is as open left it. *)
Lemma sys_openat_ok fuel dent sti own l kl uown lo count s p dfd fd d0 d1 ub fl mode abs names ino ino' i :
  opener fuel own l kl uown lo count s p dfd fd d0 d1 ub abs names ino ->
  resolve (pf s) false ino names = Found ino' -> inode_of (pf s) ino' = Some i -> itype i <> DEVICE ->
  (itype i =? DIRECTORY) = negb (Z.land fl O_DIRECTORY =? 0) ->
  exists s', sys_openat true fuel dent sti (Z.of_nat dfd) ub fl mode s = Ret (Value (Z.of_nat fd), s') /\
    opened l kl uown s p fd fl names s' ino' i.
Proof.
  intros O Hres Hi Hdev Hdir. set (base := ptref_base (space p)).
  destruct (path_copied _ _ _ _ _ _ _ _ _ _ _ _ _ _ _ _ _ O) as (own1 & a1 & kl1 & v & m2 & Ek & B & Et & Hc2 & Hm2).
  pose proof (path_ready _ _ _ _ _ _ _ _ _ _ _ _ _ _ _ _ _ O own1 a1 kl1 v m2 B Hc2 Hm2) as L.
  set (f2 := set_fa (set_amem m2 a1) (pf s)) in *.
  set (cwd := if occupied d0 && (ftype (file d0) =? DIRECTORY) then RObj (fsuper (file d0)) else RVal (cwd_file p)) in *.
  assert (resolve f2 false ino names = Found ino') as Hres2 by (unfold f2; by rewrite resolve_set_fa).
  destruct (getfile_ok fuel dent sti (negb (Z.land fl O_CREAT =? 0)) f2 own1 l kl1 lo count abs cwd (v * 4096) names ino L) as
    (out & f3 & own' & kl' & fo & Eg & Ef3 & I3 & M3 & Hg & Post); [right; by exists ino'|].
  rewrite Hres2 in Post. destruct Post as ((_ & Hno & Hwas & Hfree) & Ho3 & i' & Hi' & ->).
  change (inode_of f2 ino') with (inode_of (pf s) ino') in Hi'. rewrite Hi in Hi'. injection Hi' as <-.
  destruct (path_freed _ _ _ _ _ _ _ _ _ _ _ _ _ _ _ _ _ O own1 a1 kl1 v m2 B Hc2 Hm2 own' kl' (fa f3) (fun w => w = fo / 4096) I3 Hfree M3)
    as (a4 & kl4 & Ef & S4 & F4 & W4 & U4 & G4); [intros w ->; exact Hwas|exact Hg|].
  pose proof (oc_proc _ _ _ _ _ _ _ _ _ _ _ _ _ _ _ _ _ O) as Hp.
  assert (fd_of (procs s) (running s) dfd = Some d0) as Hd0 by (apply fd_of_Some; exists p; split; [done|apply O]).
  assert (fd_of (procs s) (running s) fd = Some d1) as Hd1 by (apply fd_of_Some; exists p; split; [done|apply O]).
  set (dA := mkFD true fl (file d1) 0). set (sA := with_files (running s) fd dA s).
  set (fout := mkFile fo (itype i) fs_ops) in *. set (dB := mkFD true fl fout 0).
  assert (fd_of (procs sA) (running sA) fd = Some dA) as HdA by exact (fd_of_with_files s fd d1 dA Hd1).
  set (sB := with_files (running s) fd dB (set_pf f3 sA)).
  assert (fd_of (procs sB) (running sB) fd = Some dB) as HdB by exact (fd_of_with_files (set_pf f3 sA) fd dA dB HdA).
  set (sC := set_pf (set_fa a4 f3) sB).
  assert (get_proc (running s) s = Ret (p, s)) as Ep by (unfold get_proc, mbind, M_bind, gets, lift; by rewrite Hp).
  assert (objs f3 !! fo = Some (mkFS ino' 0)) as Hobj by (rewrite Ho3; apply lookup_insert_eq).
  assert (user_path true fuel p ub sA = Ret (v * 4096, set_pf f2 sA)) as Eup.
  { unfold user_path. rewrite (bind_ret_l _ _ _ _ _ (in_pa_run _ sA _ _ Ek)).
    by rewrite (bind_ret_l _ _ _ _ _ (in_pa_run _ (set_pf (set_fa a1 (pf s)) sA) _ _ Et)). }
  exists (with_obj fo (mkFS ino' 1) sC). split.
  - unfold sys_openat. mstep. rewrite (bind_ret_l _ _ _ _ _ Ep), (bind_ret_l _ _ _ _ _ (get_fd_run s dfd d0 Hd0)).
    rewrite (oc_slot _ _ _ _ _ _ _ _ _ _ _ _ _ _ _ _ _ O), (bind_ret_l _ _ _ _ _ (upd_fd_run s fd d1 _ Hd1)).
    fold dA sA cwd. rewrite (bind_ret_l _ _ _ _ _ Eup), (bind_ret_l _ _ _ _ _ (in_pf_run _ (set_pf f2 sA) _ _ Eg)).
    cbv beta iota. rewrite (bind_ret_l _ _ _ _ _ (upd_fd_run (set_pf f3 sA) fd dA (set_file fout) HdA)).
    change (with_files _ fd (set_file fout dA) _) with sB.
    rewrite (bind_ret_l _ _ _ _ _ (in_pa_run _ sB _ _ Ef)). change (set_pf (set_fa a4 (pf sB)) sB) with sC.
    rewrite (bind_ret_l _ _ _ _ _ (get_fd_run sC fd dB HdB)). cbv zeta. cbn [file dB ftype fout fsuper]. rewrite Hdir.
    rewrite (proj2 (Z.eqb_neq _ _) Hdev). cbn [negb].
    destruct (Z.land fl O_DIRECTORY =? 0); cbn [negb andb]; change (0 <? 0) with false; cbv iota;
      by rewrite (bind_ret_l _ _ _ _ _ (upd_obj_run sC fo (mkFS ino' 0) (set_rc 1) Hobj)).
  - exists fo, own', kl4, a4. split; [|done]. unfold sC, sB, sA, with_files, with_obj. cbn. rewrite Ho3, insert_insert_eq, with_fd_twice.
    unfold set_pf, set_procs. cbn. rewrite Ef3. cbn. done.
Qed.
