(* ===== verification/OpenProps.v ===== *)
(** * What a process gets from open *)
From S2P Require Import Prelude Mem World CString CStringProps KernelPT PTBits KernelPTSpec KernelPTRec KernelPTProps PTInit.
From S2P Require Import Alloc AllocList AllocSpec DmaHeapSpec DmaHeap KHeapSpec UserPT UserPTProps UserCopy SysIoSpec Sample.
From S2P Require Import FsTypes FsCode FsFileSpec FsFileProps Files Proc SysFile FdSpec FdProps SysIo SysIoFiles SysIoProps.
From S2P Require Import DirSpec GetFile GetFileProps OpenFile.
Import CString KernelPT Alloc UserPT FsTypes FsCode Proc SysFile.

(** C11: open of a path that the tree has returns the lowest free descriptor, and
    the descriptor refers to a new object with the inode of the path, one
    reference, at position 0 and with the flags given; no other descriptor, no
    byte the process sees and nothing on the device changes, and the heap has
    lost one page, that of the object.  The inodes and directory blocks of the
    tree are cached, as for getfile. *)
Theorem sys_openat_correct fuel dent sti own l kl uown lo count s p dfd fd d0 d1 ub fl mode abs names ino ino' i :
  opener fuel own l kl uown lo count s p dfd fd d0 d1 ub abs names ino ->
  resolve (pf s) false ino names = Found ino' -> inode_of (pf s) ino' = Some i -> itype i <> DEVICE ->
  (itype i =? DIRECTORY) = negb (Z.land fl O_DIRECTORY =? 0) ->
  exists s', sys_openat true fuel dent sti (Z.of_nat dfd) ub fl mode s = Ret (Value (Z.of_nat fd), s') /\
    opened l kl uown s p fd fl names s' ino' i.
Proof. apply sys_openat_ok. Qed.

(** The caller of a read of the file just opened. *)
Lemma caller_opened l kl uown s p fd d1 fl names s' ino' i ub size :
  procs s !! running s = Some p -> opened_files p !! fd = Some d1 -> opened l kl uown s p fd fl names s' ino' i ->
  0 <= ub /\ ub + size <= UVPN_END * 4096 -> 1 <= size < 1073741824 ->
  (forall w, ub / 4096 <= w < ub / 4096 + npages ub size -> walkupt (pmem s) (ptref_base (space p)) w <> 0) ->
  kheap_room (fa (pf s)) (3 + 25 * Z.of_nat (length names) + ADDR_2_PAGEUP size) ->
  exists fo own' kl' p', space p' = space p /\ dev (pf s') = dev (pf s) /\
    pf s' = set_objs (<[fo := mkFS ino' 1]> (objs (pf s))) (set_fa (fa (pf s')) (pf s)) /\
    caller own' l kl' uown s' p' fd (mkFD true fl (mkFile fo (itype i) fs_ops) 0) ub size.
Proof.
  intros Hp Hd1 (fo & own' & kl' & a' & -> & Hno & So & Hf & Hw & Hu & Hg) Hb Hs Hm Hroom.
  set (d := mkFD true fl (mkFile fo (itype i) fs_ops) 0).
  exists fo, own', kl', (set_files (<[fd := d]> (opened_files p)) p). do 3 (split; [done|]). split; try done.
  - cbn. rewrite (with_fd_insert _ _ _ _ _ Hp). apply list_lookup_insert_eq. by eapply lookup_lt_Some.
  - cbn. apply list_lookup_insert_eq. by eapply lookup_lt_Some.
  - intros w Hin. cbn. rewrite Hw. by apply Hm.
  - cbn. by eapply grew_room.
Qed.

(** C3: a process that opens a file of at most 25 blocks (the direct ones of its
    inode) by its path and reads from the descriptor gets, in its own memory, the
    first bytes that the inode of that path has on the device.  The blocks of the
    tree and of the file have valid buffers in the block cache; a block that has
    none takes the path of the cache that the code gets wrong when it is full. *)
Theorem open_read_correct gpu_flush fuel dent sti own l kl uown lo count s p dfd fd d0 d1 ub fl mode abs names ino ino' i n ub2 size :
  opener fuel own l kl uown lo count s p dfd fd d0 d1 ub abs names ino ->
  resolve (pf s) false ino names = Found ino' -> 0 <= ino' < count -> inode_of (pf s) ino' = Some i -> itype i = REGULAR ->
  Z.land fl O_DIRECTORY = 0 -> O_ACCMODE fl = O_RDWR \/ O_ACCMODE fl = O_RDONLY ->
  Z.land (permission i) PERMISSION_R <> 0 -> blocks_ok (pf s) i lo n -> 0 <= size_bytes i <= n * 4096 ->
  1 <= size < 1073741824 -> size <= size_bytes i -> 0 <= ub2 /\ ub2 + size <= UVPN_END * 4096 ->
  (forall w, ub2 / 4096 <= w < ub2 / 4096 + npages ub2 size -> walkupt (pmem s) (ptref_base (space p)) w <> 0) ->
  kheap_room (fa (pf s)) (3 + 25 * Z.of_nat (length names) + ADDR_2_PAGEUP size) ->
  exists s', (sys_openat true fuel dent sti (Z.of_nat dfd) ub fl mode;;
      sys_read true gpu_flush (Z.of_nat fd) ub2 size) s = Ret (Value 0, s') /\
    forall k, 0 <= k < size -> ubyte (ptref_base (space p)) (pmem s') (ub2 + k) = fbyte (dev (pf s)) i k.
Proof.
  intros O Hres Hin' Hi Ht Hnd Hacc Hperm Hbl Hsz Hs Hs' Hb2 Hm2 Hroom.
  destruct (sys_openat_ok fuel dent sti own l kl uown lo count s p dfd fd d0 d1 ub fl mode abs names ino ino' i O Hres Hi) as (s1 & E1 & Op);
    [by rewrite Ht|by rewrite Ht, Hnd|].
  destruct (caller_opened l kl uown s p fd d1 fl names s1 ino' i ub2 size (oc_proc _ _ _ _ _ _ _ _ _ _ _ _ _ _ _ _ _ O)
    (oc_fd _ _ _ _ _ _ _ _ _ _ _ _ _ _ _ _ _ O) Op Hb2 Hs Hm2 Hroom) as (fo & own' & kl' & p' & Hsp & Hdv & Hpf & Ca).
  set (d := mkFD true fl (mkFile fo (itype i) fs_ops) 0) in *.
  assert (regular (file d) (pf s1) (mkFS ino' 1) i lo n) as Rg.
  { rewrite Hpf. split; [done|apply lookup_insert_eq|by apply inode_at_files; eapply tk_inode; [apply O|..]| |done].
    destruct Hbl. by split. }
  destruct (sys_read_ok gpu_flush own' l kl' uown s1 p' fd d ub2 size Ca _ _ Hacc
    (regular_source (file d) (pf s1) (mkFS ino' 1) i lo n 0 size Rg ltac:(lia) ltac:(lia) ltac:(lia) gpu_flush Hperm)) as (s2 & E2 & a2 & Es2 & M2).
  exists s2. split; [by rewrite (bind_ret_l _ _ _ _ _ E1)|]. intros k Hk. destruct (buf_page _ _ _ _ _ _ _ _ _ _ Ca k Hk) as [H1 H2].
  rewrite <- Hsp. change (pmem s2) with (amem (fa (pf s2))). rewrite Es2. change (fa (pf _)) with a2.
  rewrite (md_user _ _ _ _ _ _ _ _ _ M2) by (done || by apply (ca_mapped _ _ _ _ _ _ _ _ _ _ Ca)).
  rewrite decide_True by lia. rewrite Hdv. f_equal. lia.
Qed.

(** ** A concrete process: the path "/bin/sh" at the user address 8190, across two
    pages, and the tree of DirSample.v *)
Definition op_mem : mem := lay (lay upt2_mem (1536 * 4096 + 4094) [47; 98]) (1700 * 4096) [105; 110; 47; 115; 104; 0].
Definition op_pcb : PCB := mkPCB 0 RUNNING 0 None 0 0 (mkSpace 0 0 1048576 0 0 0 0 0) (mkFS 0 0) (std_files).
Definition op_p : P := mkP (set_fa (set_amem op_mem heap0) f1) [op_pcb] 0 1 1000 0 10000000.

Lemma op_tables : same_tables upt_own upt2_mem op_mem.
Proof.
  intros x Hx. unfold op_mem. cbn [lay]. rewrite !upd_ne; [done|..]; intros ->; by apply Hx.
Qed.

Lemma op_byte k x : ([47] ++ path_str [bin; sh]) !! k = Some x -> ubyte 1048576 op_mem (8190 + Z.of_nat k) = x.
Proof.
  intros Hk. assert (k < 7)%nat as Hlt by (by apply lookup_lt_Some in Hk).
  destruct k as [|[|[|[|[|[|[|k]]]]]]]; try lia; vm_compute in Hk; injection Hk as <-; vm_compute; reflexivity.
Qed.

Lemma op_opener : opener 100 own0 [] [] upt_own 4 3 op_p op_pcb 0 3 (mkFD true 0 stdin 0) no_fd 8190 true [bin; sh] 0.
Proof.
  split; try done.
  - apply io_space_mem, op_tables.
  - apply tree_ok_set_fa, f1_tree.
  - intros q [w Hq]. done.
  - split; try (cbn; lia); [repeat constructor; lia|exact op_byte|vm_compute; reflexivity].
  - intros w Hw. change (8190 / 4096) with 1 in Hw. change ((8190 + _) / 4096) with 2 in Hw.
    assert (w = 1 \/ w = 2) as [->| ->] by lia; vm_compute; discriminate.
  - split; [cbn; lia|unfold UVPN_END; cbn; lia].
  - split; [done|]. repeat constructor; try discriminate; apply (bool_decide_unpack _); vm_compute; done.
Qed.

Lemma op_resolve : resolve (pf op_p) false 0 [bin; sh] = Found 1 /\ inode_of (pf op_p) 1 = Some file_inode0.
Proof. split; vm_compute; reflexivity. Qed.

Lemma sys_openat_correct_witness :
  exists s' fo, sys_openat true 100 0 file_inode0 0 8190 O_RDONLY 0 op_p = Ret (Value 3, s') /\
    objs (pf s') !! fo = Some (mkFS 1 1) /\ fd_of (procs s') 0 3 = Some (mkFD true O_RDONLY (mkFile fo REGULAR fs_ops) 0).
Proof.
  destruct (sys_openat_correct 100 0 file_inode0 own0 [] [] upt_own 4 3 op_p op_pcb 0 3 (mkFD true 0 stdin 0) no_fd 8190 O_RDONLY 0
    true [bin; sh] 0 1 file_inode0 op_opener (proj1 op_resolve) (proj2 op_resolve) ltac:(discriminate) eq_refl)
    as (s' & E & fo & own' & kl' & a' & Es & _).
  exists s', fo. split; [exact E|]. rewrite Es. split; [apply lookup_insert_eq|reflexivity].
Defined.

Lemma open_read_correct_witness :
  exists s', (sys_openat true 100 0 file_inode0 0 8190 O_RDONLY 0;; sys_read true (mret tt) 3 5000 200) op_p = Ret (Value 0, s') /\
    ubyte 1048576 (pmem s') 5100 = fbyte dev1 file_inode0 100.
Proof.
  destruct (open_read_correct (mret tt) 100 0 file_inode0 own0 [] [] upt_own 4 3 op_p op_pcb 0 3 (mkFD true 0 stdin 0) no_fd 8190 O_RDONLY 0
    true [bin; sh] 0 1 file_inode0 1 5000 200 op_opener (proj1 op_resolve) ltac:(lia) (proj2 op_resolve) eq_refl eq_refl (or_intror eq_refl)
    ltac:(vm_compute; discriminate)) as (s' & E & H); try (cbn; lia).
  - destruct f0_blocks. by split.
  - unfold UVPN_END. lia.
  - intros w Hw. change (5000 / 4096) with 1 in Hw. change (npages 5000 200) with 1 in Hw. assert (w = 1) as -> by lia. vm_compute. discriminate.
  - split; vm_compute; discriminate.
  - exists s'. split; [exact E|]. apply (H 100). lia.
Defined.
