(* ===== verification/Sbi.v ===== *)
(** * The firmware, kernel messages and the timer interrupt
    (kernel/sbi.h, sbi.c, printk.c, timer.h)

    The firmware behind the [ecall] of sbi_call is a parameter; [Firmware] states
    what the legacy calls do with the console and the timer.  The console of the
    file model (Files.v) is what these calls make of such a firmware. *)
From S2P Require Import Prelude Mem CString CStringProps KernelPT Alloc FsTypes FsCode Files.
Import KernelPT Alloc FsTypes.

Module Sbi.

Definition SBI_SET_TIMER : Z := 0.
Definition SBI_CONSOLE_PUTCHAR : Z := 1.
Definition SBI_CONSOLE_GETCHAR : Z := 2.
Definition SBI_CLEAR_IPI : Z := 3.
Definition SBI_SEND_IPI : Z := 4.
Definition SBI_REMOTE_FENCE_I : Z := 5.
Definition SBI_REMOTE_SFENCE_VMA : Z := 6.
Definition SBI_REMOTE_SFENCE_VMA_ASID : Z := 7.
Definition SBI_SHUTDOWN : Z := 8.

Section Calls.
Context {W : Type}.
(** The registers x17 and x10 to x12; the result is x10. *)
Variable ecall : Z -> Z -> Z -> Z -> M W Z.

Definition sbi_call (sbi arg0 arg1 arg2 : Z) : M W Z := ecall sbi arg0 arg1 arg2.
Definition set_timer (timer : Z) : M W unit := sbi_call SBI_SET_TIMER timer 0 0;; mret tt.
Definition kputc (ch : Z) : M W unit := sbi_call SBI_CONSOLE_PUTCHAR ch 0 0;; mret tt.
Definition kgetc : M W Z := v ← sbi_call SBI_CONSOLE_GETCHAR 0 0 0; mret (u8 v).
Definition shutdown : M W unit := sbi_call SBI_SHUTDOWN 0 0 0;; mret tt.

(** [while ( *ptr != 0) kputc( *ptr++);] on the memory [m] of the message. *)
Fixpoint printk_loop (fuel : nat) (m : mem) (ptr : Z) : M W unit :=
  match fuel with
  | O => lift NoFuel
  | S k => if m ptr =? 0 then mret tt else kputc (m ptr);; printk_loop k m (u64 (ptr + 1))
  end.
Definition printk (fuel : nat) (m : mem) (fmt : Z) : M W unit := printk_loop fuel m fmt.

(** [while (1);] *)
Fixpoint spin (fuel : nat) : M W unit :=
  match fuel with O => lift NoFuel | S k => spin k end.
Definition panic (fuel : nat) (m : mem) (fmt : Z) : M W unit := printk fuel m fmt;; spin fuel.
End Calls.

(** enable_timer_interrupt on the CSR sie. *)
Definition SIE_STIMER : Z := 32.
Definition enable_timer_interrupt (sie : Z) : Z := Z.lor sie SIE_STIMER.
End Sbi.

(** What the firmware does. *)
Class Firmware {W : Type} (ecall : Z -> Z -> Z -> Z -> M W Z) := {
  fw_out : W -> list Z;
  fw_in : W -> list Z;
  fw_deadline : W -> Z;
  fw_putchar : forall c w, 0 <= c < 256 -> exists v w', ecall Sbi.SBI_CONSOLE_PUTCHAR c 0 0 w = Ret (v, w') /\
    fw_out w' = fw_out w ++ [c] /\ fw_in w' = fw_in w /\ fw_deadline w' = fw_deadline w;
  fw_getchar : forall w, exists v w', ecall Sbi.SBI_CONSOLE_GETCHAR 0 0 0 w = Ret (v, w') /\
    fw_out w' = fw_out w /\ fw_deadline w' = fw_deadline w /\
    match fw_in w with
    | [] => v = u64 (-1) /\ fw_in w' = []
    | c :: l => v = c /\ fw_in w' = l
    end;
  fw_set_timer : forall t w, exists v w', ecall Sbi.SBI_SET_TIMER t 0 0 w = Ret (v, w') /\
    fw_out w' = fw_out w /\ fw_in w' = fw_in w /\ fw_deadline w' = t;
}.

Section Props.
Context {W : Type} (ecall : Z -> Z -> Z -> Z -> M W Z) `{!Firmware ecall}.

(** printk shows the whole message. *)
Lemma printk_ok fuel m fmt l w : cstr m fmt l -> (length l < fuel)%nat ->
  exists w', Sbi.printk ecall fuel m fmt w = Ret (tt, w') /\ fw_out w' = fw_out w ++ l /\
    fw_in w' = fw_in w /\ fw_deadline w' = fw_deadline w.
Proof using All.
  unfold Sbi.printk. revert fmt l w. induction fuel as [|fuel IH]; intros fmt l w Hc Hf; [lia|]. cbn [Sbi.printk_loop].
  destruct l as [|c l].
  - rewrite (cstr_nil _ _ Hc). exists w. by rewrite app_nil_r.
  - apply cstr_cons in Hc as (-> & Hr & -> & Hc). rewrite (proj2 (Z.eqb_neq c 0)) by lia. cbn [length] in Hf.
    destruct (fw_putchar c w ltac:(lia)) as (v & w1 & E1 & O1 & I1 & D1).
    destruct (IH (fmt + 1) l w1 Hc ltac:(lia)) as (w2 & E2 & O2 & I2 & D2).
    exists w2. split; [|split; [by rewrite O2, O1, <- app_assoc|split; congruence]].
    unfold Sbi.kputc, Sbi.sbi_call, mbind, M_bind in *. rewrite E1. exact E2.
Qed.

(** panic shows its message and never returns: for every amount of fuel
    beyond the message's length the kernel is still in the final loop. *)
Theorem panic_shows_and_stops fuel m fmt l w : cstr m fmt l -> (length l < fuel)%nat ->
  Sbi.panic ecall fuel m fmt w = NoFuel /\
  exists w', Sbi.printk ecall fuel m fmt w = Ret (tt, w') /\ fw_out w' = fw_out w ++ l.
Proof using All.
  intros Hc Hf. destruct (printk_ok fuel m fmt l w Hc Hf) as (w' & E & O & _). split; [|by exists w'].
  unfold Sbi.panic. rewrite (bind_ret_l _ _ _ _ _ E). clear. induction fuel as [|n IH]; [done|exact IH].
Qed.
End Props.

(** ** The console of the file model as a firmware *)
Definition file_firmware (fn a0 a1 a2 : Z) : M (F * Z) Z := fun w =>
  let '(s, t) := w in
  if fn =? Sbi.SBI_CONSOLE_PUTCHAR then Ret (0, (set_con (con_in s) (con_out s ++ [a0]) s, t))
  else if fn =? Sbi.SBI_CONSOLE_GETCHAR then
    match con_in s with
    | [] => Ret (u64 (-1), w)
    | c :: l => Ret (c, (set_con l (con_out s) s, t))
    end
  else if fn =? Sbi.SBI_SET_TIMER then Ret (0, (s, a0))
  else Ret (0, w).

#[export] Instance file_firmware_ok : Firmware file_firmware.
Proof.
  refine {| fw_out w := con_out w.1; fw_in w := con_in w.1; fw_deadline w := w.2;
            fw_putchar := _; fw_getchar := _; fw_set_timer := _ |}.
  - intros c [s t] Hc. by eexists _, _.
  - intros [s t]. cbn. destruct (con_in s) as [|c l] eqn:E; by eexists _, _.
  - intros t [s t0]. by eexists _, _.
Defined.

(** The kputc and kgetc of the file model are those of sbi.c over this firmware. *)
Lemma console_is_sbi s t :
  (forall c, Sbi.kputc file_firmware c (s, t) = '(_, s') ← Files.kputc c s; Ret (tt, (s', t))) /\
  Sbi.kgetc file_firmware (s, t) = '(v, s') ← Files.kgetc s; Ret (v, (s', t)).
Proof.
  split; [done|]. unfold Sbi.kgetc, Sbi.sbi_call, Files.kgetc, mbind, M_bind. cbn. by destruct (con_in s).
Qed.

(** Only the bit of the timer changes. *)
Lemma enable_timer_bits sie i : 0 <= i ->
  Z.testbit (Sbi.enable_timer_interrupt sie) i = (i =? 5) || Z.testbit sie i.
Proof.
  intros Hi. unfold Sbi.enable_timer_interrupt, Sbi.SIE_STIMER. rewrite Z.lor_spec, orb_comm.
  change 32 with (2 ^ 5). by rewrite Z.pow2_bits_eqb, Z.eqb_sym by lia.
Qed.
