(* ===== verification/Boot.v ===== *)
(** * Start of the kernel (kernel/init.c)

    Clearing the bss section, choosing the block device and the GPU among the
    virtio devices that parse_dtb found, and init up to the start of the drivers:
    the messages, the device tree, the page table and the devices, in one state. *)
From S2P Require Import Prelude Mem World Virtio KernelPT PTBits KernelPTSpec KernelPTProps PTInit.
From S2P Require Import CString CStringProps Fdt FdtSpec FdtRun FdtProps FsTypes Sbi.
Import Virtio KernelPT CString Fdt.

Module Boot.

(** [for (ptr = sbss; ptr != ebss; ptr++) *ptr = 0] *)
Fixpoint clear_loop (fuel : nat) (m : mem) (ptr ebss : Z) : outcome mem :=
  match fuel with
  | O => NoFuel
  | S k => if ptr =? ebss then Ret m else clear_loop k (upd m ptr 0) (u64 (ptr + 1)) ebss
  end.
Definition clear_bss (fuel : nat) (m : mem) (sbss ebss : Z) : outcome mem := clear_loop fuel m sbss ebss.

(** [~((u64)0)]: no device found yet. *)
Definition NO_DEVICE : Z := 18446744073709551615.

Section Devices.
Context {W : Type} `{VirtioMmio W}.

(** [virtio_mmio_headers[i]->device_id == id && virtio_mmio_headers[i] < best] *)
Definition better (h id best : Z) : M W Z :=
  d ← hdr_read h device_id;
  mret (if (d =? id) && (h <? best) then h else best).

Fixpoint pick_devices (n : nat) (i : nat) (headers : list Z) (blk gpu : Z) : M W (Z * Z) :=
  match n with
  | O => mret (blk, gpu)
  | S k =>
      h ← lift (of_option (headers !! i));
      blk' ← better h VIRTIO_DEVICE_BLK blk;
      gpu' ← better h VIRTIO_DEVICE_GPU gpu;
      pick_devices k (S i) headers blk' gpu'
  end.

(** The new values of blk_header and gpu_header. *)
Definition init_virtio (g : machine_spec) : M W (Z * Z) :=
  '(blk, gpu) ← pick_devices (Z.to_nat (num_virtio_mmio g)) 0 (virtio_mmio_headers g) NO_DEVICE NO_DEVICE;
  if blk =? NO_DEVICE then panic else mret (blk, gpu).
End Devices.

(** ** init *)

(** Where the string literals of init are. *)
Record messages := mkMsgs {
  msg_banner : Z; msg_hart : Z; msg_dtb : Z; msg_newline : Z; msg_memory : Z; msg_pagetable : Z;
}.
Definition banner_text : string := "
EndrOS v0.0.0

Copyright (c) 2023-2024 Zhenrong Gu
================================================================================
This software is distributed under the GNU General Public License v3. Anyone is
free to use, modify, distribute and redistribute under certain conditions.
Please refer to https://www.gnu.org/licenses/gpl-3.0.html for license details.
================================================================================

".
Definition hart_text : string := "booting with hart ".
Definition dtb_text : string := ", dtb at ".
Definition newline_text : string := "
".
Definition memory_text : string := "[kernel] Done parsing dtb. Available memory 0x80000000-".
Definition pagetable_text : string := "[kernel] Done initializing pagetable.
".

(** Where the linker puts the variables of fdt.c, pagetable.c and init.c that
    have no initial value, and so are in the bss. *)
Record variables := mkVars {
  at_max_pfn : Z; at_clock_freq : Z; at_nCPU : Z; at_num_virtio_mmio : Z; at_headers : Z;
  at_pt_base : Z; at_pfn_start : Z; at_pfreelist : Z; at_blk_header : Z; at_gpu_header : Z;
}.
(** Their addresses and sizes. *)
Definition var_ranges (v : variables) : list (Z * Z) :=
  [(at_max_pfn v, 8); (at_clock_freq v, 4); (at_nCPU v, 8); (at_num_virtio_mmio v, 8); (at_headers v, 512);
   (at_pt_base v, 8); (at_pfn_start v, 8); (at_pfreelist v, 8); (at_blk_header v, 8); (at_gpu_header v, 8)].

(** The firmware and the devices, the CSR stvec, the memory and the page table
    with the variables of pagetable.c, and the variables of fdt.c and init.c. *)
Record early (W : Type) := mkEarly {
  e_world : W; stvec : Z; e_k : K; e_spec : machine_spec; blk_header : Z; gpu_header : Z;
}.
#[global] Arguments mkEarly {W}.
#[global] Arguments e_world {W}.
#[global] Arguments stvec {W}.
#[global] Arguments e_k {W}.
#[global] Arguments e_spec {W}.
#[global] Arguments blk_header {W}.
#[global] Arguments gpu_header {W}.

Section Init.
Context {W : Type} `{VirtioMmio W} (ecall : Z -> Z -> Z -> Z -> M W Z).
Context (retain : bool) (fuel : nat) (ly : layout) (sbss buf : Z) (vars : variables).
Context (lit : literals) (msg : messages).

Definition e_mem (s : early W) : mem := vmem (e_k s).
Definition in_world {A} (c : M W A) : M (early W) A := fun s =>
  '(a, w) ← c (e_world s); Ret (a, mkEarly w (stvec s) (e_k s) (e_spec s) (blk_header s) (gpu_header s)).
Definition in_k {A} (c : M K A) : M (early W) A := fun s =>
  '(a, k) ← c (e_k s); Ret (a, mkEarly (e_world s) (stvec s) k (e_spec s) (blk_header s) (gpu_header s)).
Definition set_mem (m : mem) : M (early W) unit := in_k (modify (set_vmem m)).

(** The state keeps these variables beside the memory; what they hold after the
    loop is what the memory then holds at their addresses. *)
Definition load_spec (m : mem) : machine_spec :=
  mkSpec (load64 m (at_max_pfn vars)) (load32 m (at_clock_freq vars)) (load64 m (at_nCPU vars))
    (load64 m (at_num_virtio_mmio vars)) ((fun i => load64 m (at_headers vars + 8 * Z.of_nat i)) <$> seq 0 64).
Definition load_globals (s : early W) : early W :=
  let m := e_mem s in
  mkEarly (e_world s) (stvec s)
    (mkK m (tab (e_k s)) (tlb (e_k s)) (load64 m (at_pt_base vars)) (load64 m (at_pfn_start vars))
       (load64 m (at_max_pfn vars)) (load64 m (at_pfreelist vars)))
    (load_spec m) (load64 m (at_blk_header vars)) (load64 m (at_gpu_header vars)).
Definition clear : M (early W) unit :=
  m ← gets e_mem;
  m' ← lift (clear_bss (S (Z.to_nat (ebss ly - sbss))) m sbss (ebss ly));
  set_mem m';; modify load_globals.

Definition say (fmt : Z) : M (early W) unit := m ← gets e_mem; in_world (Sbi.printk ecall fuel m fmt).
(** [printk(itoa(num, buffer, base))] *)
Definition say_number (num buffer base : Z) : M (early W) unit :=
  m ← gets e_mem; m' ← lift (itoa fuel m num buffer base); set_mem m';; say buffer.

Definition boot_parse (dtb : Z) : M (early W) Z :=
  s ← gets id;
  '(r, g) ← lift (parse_dtb (e_mem s) lit dtb (e_spec s));
  modify (fun s => mkEarly (e_world s) (stvec s) (e_k s) g (blk_header s) (gpu_header s));; mret r.

(** [max_pfn] of pagetable.c is that of fdt.c. *)
Definition build_pagetable : M (early W) unit :=
  g ← gets e_spec;
  in_k (modify (fun k => mkK (vmem k) (tab k) (tlb k) (pt_base k) (pfn_start k) (max_pfn g) (pfreelist k));;
        init_pagetable retain ly (take (Z.to_nat (num_virtio_mmio g)) (virtio_mmio_headers g))).

(** init up to the calls of init_filesystem, init_gpu and init_scheduler. *)
Definition init_early (hart_id dtb : Z) : M (early W) unit :=
  modify (fun s => mkEarly (e_world s) TRAMPOLINE (e_k s) (e_spec s) (blk_header s) (gpu_header s));;
  clear;;
  say (msg_banner msg);;
  m ← gets e_mem; set_mem (upd m (u64 (buf + 1)) 0);;
  say (msg_hart msg);; say_number (i64 hart_id) buf 10;;
  say (msg_dtb msg);; say_number (i64 dtb) (u64 (buf + 2)) 16;;
  say (msg_newline msg);;
  r ← boot_parse dtb;
  if r <? 0 then panic else
  say (msg_memory msg);;
  g ← gets e_spec;
  say_number (i64 (PAGE_2_ADDR (max_pfn g))) buf 16;; say (msg_newline msg);;
  build_pagetable;;
  say (msg_pagetable msg);;
  g ← gets e_spec;
  '(blk, gpu) ← in_world (init_virtio g);
  modify (fun s => mkEarly (e_world s) (stvec s) (e_k s) (e_spec s) blk gpu).
End Init.
End Boot.
Import Boot.

(** The variables as they are when all their bytes are 0. *)
Definition zero_spec : machine_spec := mkSpec 0 0 0 0 (replicate 64 0).

(** ** clear_bss *)
Lemma clear_bss_ok n : forall m s,
  0 <= s -> s + Z.of_nat n < 18446744073709551616 ->
  exists m', clear_bss (S n) m s (s + Z.of_nat n) = Ret m' /\
    forall x, m' x = if decide (s <= x < s + Z.of_nat n) then 0 else m x.
Proof.
  unfold clear_bss. induction n as [|n IH]; intros m s Hs Hr.
  - rewrite Z.add_0_r. cbn. rewrite Z.eqb_refl. exists m. split; [done|]. intros x. by rewrite decide_False by lia.
  - change (clear_loop (S (S n)) m s (s + Z.of_nat (S n))) with
      (if s =? s + Z.of_nat (S n) then Ret m else clear_loop (S n) (upd m s 0) (u64 (s + 1)) (s + Z.of_nat (S n))).
    destruct (Z.eqb_spec s (s + Z.of_nat (S n))); [lia|]. rewrite u64_small by lia.
    destruct (IH (upd m s 0) (s + 1)) as (m' & E & Hm); [lia|lia|].
    replace (s + 1 + Z.of_nat n) with (s + Z.of_nat (S n)) in * by lia. exists m'. split; [done|].
    intros x. rewrite Hm. unfold upd. destruct (Z.eqb_spec x s); gdecide; done.
Qed.

(** ** init_virtio *)
Section Props.
Context {W : Type} `{VirtioMmio W} (ids : Z -> Z).

(** The lowest address of a device of kind [d]. *)
Definition lowest (d : Z) (headers : list Z) : Z :=
  foldr Z.min NO_DEVICE (filter (fun h => ids h = d) headers).

Lemma better_ok h id best (w : W) : hdr_read h device_id w = Ret (ids h, w) ->
  better h id best w = Ret (if decide (ids h = id) then Z.min h best else best, w).
Proof.
  intros E. unfold better. rewrite (bind_ret_l _ _ _ _ _ E). unfold mret, M_ret. do 2 f_equal.
  case_decide as Hd; destruct (Z.eqb_spec (ids h) id); try done; cbn. destruct (Z.ltb_spec h best); lia.
Qed.

Lemma lowest_cons d h l :
  lowest d (h :: l) = if decide (ids h = d) then Z.min h (lowest d l) else lowest d l.
Proof. unfold lowest. rewrite filter_cons. by case_decide. Qed.

Lemma pick_devices_ok n : forall i headers blk gpu (w : W),
  (i + n <= length headers)%nat ->
  (forall h, h ∈ take n (drop i headers) -> hdr_read h device_id w = Ret (ids h, w)) ->
  pick_devices n i headers blk gpu w =
  Ret ((Z.min blk (foldr Z.min blk (filter (fun h => ids h = VIRTIO_DEVICE_BLK) (take n (drop i headers)))),
        Z.min gpu (foldr Z.min gpu (filter (fun h => ids h = VIRTIO_DEVICE_GPU) (take n (drop i headers))))), w).
Proof.
  assert (forall l (a b : Z), foldr Z.min (Z.min a b) l = Z.min a (foldr Z.min b l)) as Hmin.
  { induction l as [|x l IH]; intros a b; cbn; [done|]. rewrite IH. lia. }
  induction n as [|n IH]; intros i headers blk gpu w Hn Hid; cbn [pick_devices].
  - cbn. unfold mret, M_ret. by rewrite !Z.min_id.
  - destruct (lookup_lt_is_Some_2 headers i) as [h Hh]; [lia|].
    rewrite (drop_S _ _ _ Hh), firstn_cons in Hid |- *.
    assert (hdr_read h device_id w = Ret (ids h, w)) as Hr by (apply Hid; by left).
    erewrite bind_ret_l; [|unfold lift; by rewrite Hh].
    rewrite (bind_ret_l _ _ _ _ _ (better_ok h _ blk w Hr)), (bind_ret_l _ _ _ _ _ (better_ok h _ gpu w Hr)).
    rewrite IH by (lia || (intros h' Hh'; apply Hid; by right)). rewrite !filter_cons. do 3 f_equal.
    + case_decide; cbn; [rewrite Hmin; lia|done].
    + case_decide; cbn; [rewrite Hmin; lia|done].
Qed.

(** Init_virtio takes the block device and the GPU with the lowest
    addresses among the devices of the tree, and panics exactly when there is no
    block device. *)
Theorem init_virtio_lowest (g : machine_spec) (w : W) :
  0 <= num_virtio_mmio g <= Z.of_nat (length (virtio_mmio_headers g)) ->
  (forall h, h ∈ take (Z.to_nat (num_virtio_mmio g)) (virtio_mmio_headers g) -> hdr_read h device_id w = Ret (ids h, w)) ->
  let found := take (Z.to_nat (num_virtio_mmio g)) (virtio_mmio_headers g) in
  init_virtio g w =
  if lowest VIRTIO_DEVICE_BLK found =? NO_DEVICE then Panic
  else Ret ((lowest VIRTIO_DEVICE_BLK found, lowest VIRTIO_DEVICE_GPU found), w).
Proof.
  intros Hn Hid found. unfold init_virtio.
  erewrite bind_ret_l; [|apply pick_devices_ok; [lia|exact Hid]]. rewrite drop_0. fold found.
  assert (forall d, Z.min NO_DEVICE (lowest d found) = lowest d found) as Hm.
  { intros d. unfold lowest. generalize (filter (fun h => ids h = d) found). intros l. induction l as [|x l IH]; cbn; lia. }
  fold (lowest VIRTIO_DEVICE_BLK found) (lowest VIRTIO_DEVICE_GPU found). rewrite !Hm.
  by destruct (lowest VIRTIO_DEVICE_BLK found =? NO_DEVICE).
Qed.
End Props.

(** Two block devices and a GPU. *)
#[local] Instance three_devices : VirtioMmio unit := {|
  mmio_read a _ := Ret (if a =? 4104 then 2 else if a =? 8200 then 2 else if a =? 12296 then 16 else 0, tt);
  mmio_write _ _ _ := Ret (tt, tt);
  device_step _ := Ret (tt, tt);
|}.

Lemma init_virtio_lowest_witness :
  init_virtio (mkSpec 0 0 0 3 ([8192; 4096; 12288] ++ replicate 61 0)) tt = Ret ((4096, 12288), tt).
Proof.
  apply (init_virtio_lowest (fun h => if h =? 4096 then 2 else if h =? 8192 then 2 else if h =? 12288 then 16 else 0)
    (mkSpec 0 0 0 3 ([8192; 4096; 12288] ++ replicate 61 0)) tt).
  - cbn. lia.
  - intros h _. unfold hdr_read. cbn. do 2 f_equal.
    destruct (Z.eqb_spec h 4096) as [->|?]; [reflexivity|]. destruct (Z.eqb_spec h 8192) as [->|?]; [reflexivity|].
    destruct (Z.eqb_spec h 12288) as [->|?]; [reflexivity|].
    destruct (Z.eqb_spec (h + 8) 4104); [lia|]. destruct (Z.eqb_spec (h + 8) 8200); [lia|].
    destruct (Z.eqb_spec (h + 8) 12296); [lia|reflexivity].
Defined.

(** ** The numbers in the messages *)

(** [l] is the number [num] in the base [base], without leading zeros. *)
Definition shows (base num : Z) (l : list Z) : Prop :=
  exists ds, l = sign_chars num ++ prefix_chars base ++ (DIGIT_TO_CHAR <$> ds) /\ value base ds = Z.abs num /\
    Forall (fun d => 0 <= d < base) ds /\ (hd_error ds = Some 0 -> ds = [0]).

Lemma value_nonneg base ds : 0 <= base -> Forall (fun d => 0 <= d < base) ds -> 0 <= value base ds.
Proof.
  intros Hb Hd. unfold value. assert (forall a, 0 <= a -> 0 <= foldl (fun acc d => acc * base + d) a ds) as H; [|by apply H].
  induction Hd as [|d ds Hd _ IH]; intros a Ha; cbn [foldl]; [done|]. apply IH. nia.
Qed.

(** A number has no more digits than its size allows. *)
Lemma digits_bound base ds n : 2 <= base -> Forall (fun d => 0 <= d < base) ds -> (hd_error ds = Some 0 -> ds = [0]) ->
  value base ds < base ^ Z.of_nat n -> (1 <= n)%nat -> (length ds <= n)%nat.
Proof.
  intros Hb Hd Hz Hv Hn. destruct ds as [|d ds]; [cbn; lia|]. cbn [hd_error length] in *.
  destruct (decide (d = 0)) as [->|Hd0]; [injection (Hz eq_refl) as ->; cbn; lia|].
  apply Forall_cons in Hd as [Hd Hds]. change (value base (d :: ds)) with (foldl (fun acc d => acc * base + d) (0 * base + d) ds) in Hv.
  rewrite foldl_value in Hv. pose proof (value_nonneg base ds ltac:(lia) Hds).
  destruct (decide (n <= length ds)%nat) as [Hle|]; [|lia].
  assert (base ^ Z.of_nat n <= base ^ Z.of_nat (length ds)) by (apply Z.pow_le_mono_r; lia). nia.
Qed.

Lemma itoa_fits fuel m num buffer base : base = 10 \/ base = 16 -> (65 <= fuel)%nat ->
  0 <= num -> num * base < 9223372036854775808 -> 0 <= buffer -> buffer + 70 < 18446744073709551616 ->
  exists m' l, itoa fuel m num buffer base = Ret m' /\ cstr m' buffer l /\ shows base num l /\ (length l <= 20)%nat /\
    (forall x, ~ (buffer <= x <= buffer + 20) -> m' x = m x) /\ (mem_ok m -> mem_ok m').
Proof.
  intros Hb Hf Hn Hov Hb0 Hb1. destruct (itoa_correct fuel m num buffer base) as (m' & ds & E & Hc & Hv & Hd & Hz & Hout); try lia.
  set (l := sign_chars num ++ prefix_chars base ++ (DIGIT_TO_CHAR <$> ds)) in *.
  assert (length ds <= 18)%nat as Hds.
  { apply (digits_bound base ds 18); [lia|done|done| |lia]. rewrite Hv, Z.abs_eq by lia. destruct Hb as [-> | ->]; lia. }
  assert (length l <= 20)%nat as Hl.
  { unfold l, sign_chars, prefix_chars. rewrite !length_app, length_fmap, (proj2 (Z.ltb_ge num 0)) by lia. destruct Hb as [-> | ->]; cbn; lia. }
  exists m', l. split; [done|]. split; [done|]. split; [by exists ds|]. split; [done|]. split; [intros x Hx; apply Hout; lia|].
  intros Hm x. destruct (decide (buffer <= x <= buffer + Z.of_nat (length l))) as [Hx|Hx]; [|by rewrite Hout].
  destruct Hc as [Hch _ _ Hby Hend]. destruct (decide (x = buffer + Z.of_nat (length l))) as [->|]; [rewrite Hend; lia|].
  destruct (lookup_lt_is_Some_2 l (Z.to_nat (x - buffer))) as [c Hc]; [lia|].
  specialize (Hby _ _ Hc). rewrite Z2Nat.id, Zplus_minus in Hby by lia. rewrite Hby. eapply Forall_lookup_1 in Hch; [|exact Hc]. cbn in Hch. lia.
Qed.

(** ** The run of init *)
Lemma lift_ret {S A} (s : S) {o : outcome A} {a} : o = Ret a -> lift o s = Ret (a, s).
Proof. by intros ->. Qed.

Section Run.
Context {W : Type} `{VirtioMmio W} (ecall : Z -> Z -> Z -> Z -> M W Z) `{!Firmware ecall}.
Context (retain : bool) (fuel : nat) (ly : layout) (sbss buf : Z) (vars : variables).
Context (lit : literals) (msg : messages) (m0 : mem).
Hypothesis Hfuel : (512 <= fuel)%nat.
Hypothesis Hbss : 0 <= sbss <= ebss ly /\ ebss ly < 18446744073709551616.
Hypothesis Hbuf : 0 <= buf /\ buf + 100 < 18446744073709551616.

(** What init writes to, apart from page tables: the bss and its buffer. *)
Definition scratch (x : Z) : Prop := sbss <= x < ebss ly \/ buf <= x < buf + 64.
Definition steady (m : mem) : Prop :=
  mem_ok m /\ (forall x, ~ scratch x -> m x = m0 x) /\
  (forall x, sbss <= x < ebss ly -> ~ (buf <= x < buf + 64) -> m x = 0).
(** The variables are in the bss and apart from the buffer. *)
Definition vars_in : Prop := Forall (fun '(a, n) => sbss <= a /\ a + n <= ebss ly) (var_ranges vars).
(** The memory is [P] whatever is there. *)
Definition lasting (P : mem -> Prop) : Prop := forall m, (forall x, ~ scratch x -> m x = m0 x) -> P m.
Definition text_at (a : Z) (t : string) : Prop := lasting (fun m => cstr m a (str t)).
Record messages_ok : Prop := {
  mo_banner : text_at (msg_banner msg) banner_text;
  mo_hart : text_at (msg_hart msg) hart_text;
  mo_dtb : text_at (msg_dtb msg) dtb_text;
  mo_newline : text_at (msg_newline msg) newline_text;
  mo_memory : text_at (msg_memory msg) memory_text;
  mo_pagetable : text_at (msg_pagetable msg) pagetable_text;
}.

(** From [s] to [s'] only the text [l] was printed, and scratch memory written. *)
Record said (s s' : early W) (l : list Z) : Prop := {
  sd_mem : steady (e_mem s');
  sd_out : fw_out (e_world s') = fw_out (e_world s) ++ l;
  sd_k : e_k s' = set_vmem (e_mem s') (e_k s);
  sd_rest : stvec s' = stvec s /\ e_spec s' = e_spec s;
}.

Lemma said_trans s1 s2 s3 l l' : said s1 s2 l -> said s2 s3 l' -> said s1 s3 (l ++ l').
Proof.
  intros [A1 A2 A3 [A4 A5]] [B1 B2 B3 [B4 B5]]. split; [done|by rewrite B2, A2, app_assoc| |split; congruence].
  rewrite B3, A3. done.
Qed.

Lemma say_ok s a l : steady (e_mem s) -> cstr (e_mem s) a l -> (length l < fuel)%nat ->
  exists s', say ecall fuel a s = Ret (tt, s') /\ said s s' l.
Proof using Firmware0.
  intros Hs Hc Hl. destruct (printk_ok ecall fuel (e_mem s) a l (e_world s) Hc Hl) as (w & E & Ho & _).
  eexists. split.
  - unfold say, gets, mbind, M_bind, in_world. cbn [mbind outcome_bind]. rewrite E. reflexivity.
  - split; [exact Hs|exact Ho|by destruct s as [? ? []]|done].
Qed.

Lemma say_text s a t : steady (e_mem s) -> text_at a t -> (length (str t) < 512)%nat ->
  exists s', say ecall fuel a s = Ret (tt, s') /\ said s s' (str t).
Proof using Firmware0 Hfuel. intros Hs Ht Hl. apply say_ok; [done|by apply Ht, Hs|lia]. Qed.

Lemma say_number_ok s num b base : steady (e_mem s) -> base = 10 \/ base = 16 -> 0 <= num -> num * base < 9223372036854775808 ->
  buf <= b <= buf + 2 -> exists s' l, say_number ecall fuel num b base s = Ret (tt, s') /\ said s s' l /\ shows base num l.
Proof using Firmware0 Hfuel Hbuf.
  intros (Hm & Hs & Hz) Hb Hn Hov Hbf.
  destruct (itoa_fits fuel (e_mem s) num b base Hb ltac:(lia) Hn Hov ltac:(lia) ltac:(lia)) as (m & l & E & Hc & Hsh & Hl & Hout & Hmo).
  set (s1 := mkEarly (e_world s) (stvec s) (set_vmem m (e_k s)) (e_spec s) (blk_header s) (gpu_header s)).
  assert (steady (e_mem s1)) as Hs1.
  { split; [by apply Hmo|]. split; intros x Hx; change (e_mem s1 x) with (m x).
    - rewrite Hout; [by apply Hs|]. intros Hin. apply Hx. right. lia.
    - intros Hb'. rewrite Hout; [by apply Hz|]. lia. }
  destruct (say_ok s1 b l Hs1 Hc ltac:(lia)) as (s' & E' & [D1 D2 D3 D4]). exists s', l. split; [|split; [|done]].
  - unfold say_number. rewrite (bind_ret_l (gets e_mem) _ s _ _ eq_refl).
    rewrite (bind_ret_l _ _ _ _ _ (lift_ret s E)).
    rewrite (bind_ret_l (set_mem m) _ s tt s1 eq_refl). exact E'.
  - split; [exact D1|exact D2| |exact D4]. rewrite D3. by destruct s as [? ? []].
Qed.

Lemma in_k_ret {A} (c : M K A) (s : early W) a k : c (e_k s) = Ret (a, k) ->
  in_k c s = Ret (a, mkEarly (e_world s) (stvec s) k (e_spec s) (blk_header s) (gpu_header s)).
Proof. intros E. unfold in_k. by rewrite E. Qed.

Lemma in_world_ret {A} (c : M W A) (s : early W) a w : c (e_world s) = Ret (a, w) ->
  in_world c s = Ret (a, mkEarly w (stvec s) (e_k s) (e_spec s) (blk_header s) (gpu_header s)).
Proof. intros E. unfold in_world. by rewrite E. Qed.

Lemma zero_load n m a : (forall x, a <= x < a + Z.of_nat n -> m x = 0) -> load_le n m a = 0.
Proof.
  intros Hz. rewrite (load_le_ext n m (fun _ => 0) a Hz). clear Hz. revert a.
  induction n as [|n IH]; intros a; cbn [load_le]; [done|]. by rewrite IH.
Qed.

(** The variables in a cleared bss. *)
Lemma load_zero (m : mem) : vars_in -> (forall x, sbss <= x < ebss ly -> m x = 0) ->
  load_spec vars m = zero_spec /\ load64 m (at_pfreelist vars) = 0.
Proof using Hfuel.
  intros Hv Hz. unfold vars_in, var_ranges in Hv. rewrite !Forall_cons in Hv.
  destruct Hv as (V1 & V2 & V3 & V4 & V5 & V6 & V7 & V8 & _). split.
  - unfold load_spec, zero_spec, load64, load32. f_equal; try (apply zero_load; intros x Hx; apply Hz; lia).
    apply list_eq. intros i. rewrite list_lookup_fmap. destruct (decide (i < 64)%nat) as [Hi|Hi].
    + rewrite lookup_seq_lt, lookup_replicate_2 by lia. cbn. f_equal. apply (zero_load 8). intros x Hx. apply Hz. lia.
    + rewrite !lookup_ge_None_2 by (rewrite ?length_seq, ?length_replicate; lia). done.
  - apply (zero_load 8). intros x Hx. apply Hz. lia.
Qed.

Lemma clear_ok (s : early W) : e_mem s = m0 -> mem_ok m0 -> vars_in ->
  exists s', clear ly sbss vars s = Ret (tt, s') /\ steady (e_mem s') /\ e_world s' = e_world s /\ stvec s' = stvec s /\
    e_spec s' = zero_spec /\ pfreelist (e_k s') = 0.
Proof using Hbss Hfuel.
  intros Em Hm Hv. destruct (clear_bss_ok (Z.to_nat (ebss ly - sbss)) (e_mem s) sbss ltac:(lia) ltac:(lia)) as (m & E & Hx).
  replace (sbss + Z.of_nat (Z.to_nat (ebss ly - sbss))) with (ebss ly) in * by lia. rewrite Em in Hx.
  assert (forall x, sbss <= x < ebss ly -> m x = 0) as Hz by (intros x Hin; by rewrite Hx, decide_True).
  destruct (load_zero m Hv Hz) as [L1 L2]. eexists. split.
  - unfold clear. rewrite (bind_ret_l (gets e_mem) _ s _ _ eq_refl).
    rewrite (bind_ret_l _ _ _ _ _ (lift_ret s E)). reflexivity.
  - split; [|split; [done|split; [done|split; [exact L1|exact L2]]]]. split; [|split].
    + intros x. change (0 <= m x < 256). rewrite Hx. case_decide; [lia|apply Hm].
    + intros x Hn. change (m x = m0 x). rewrite Hx, decide_False; [done|]. intros Hin. apply Hn. by left.
    + intros x Hin _. by apply Hz.
Qed.

Lemma poke_ok (s : early W) : steady (e_mem s) ->
  exists s', set_mem (upd (e_mem s) (u64 (buf + 1)) 0) s = Ret (tt, s') /\ said s s' [].
Proof using Hbuf Hfuel Firmware0.
  intros (Hm & Hs & Hz). rewrite u64_small by lia. eexists. split; [reflexivity|].
  split; [split; [|split]|by rewrite app_nil_r|by destruct s as [? ? []]|done].
  - intros x. change (0 <= upd (e_mem s) (buf + 1) 0 x < 256). unfold upd. destruct (_ =? _); [lia|apply Hm].
  - intros x Hx. change (upd (e_mem s) (buf + 1) 0 x = m0 x). rewrite upd_ne; [by apply Hs|]. intros ->. apply Hx. right. lia.
  - intros x Hx Hb. change (upd (e_mem s) (buf + 1) 0 x = 0). unfold upd. destruct (_ =? _); [done|by apply Hz].
Qed.

Section Boots.
Context (dtb so ss : Z) (off : list Z -> Z) (root : node) (g : machine_spec) (ids : Z -> Z).
Hypothesis Hmsg : messages_ok.
Hypothesis Hdtb : lasting (fun m => lits_ok m lit /\ blob_at m dtb so ss off root).
Hypothesis Hg : collect [] root zero_spec = Some g.

Lemma parse_ok (s : early W) : steady (e_mem s) -> e_spec s = zero_spec ->
  boot_parse lit dtb s = Ret (0, mkEarly (e_world s) (stvec s) (e_k s) g (blk_header s) (gpu_header s)) /\ typed g.
Proof using Hdtb Hg.
  intros (Hm & Hs & _) Hz. destruct (Hdtb (e_mem s) Hs) as [Hl Hb]. pose proof (parse_dtb_ok _ _ _ _ _ _ _ _ _ Hl Hb Hg) as E. split.
  - unfold boot_parse. rewrite (bind_ret_l (gets id) _ s s s eq_refl). cbv beta. rewrite Hz.
    rewrite (bind_ret_l _ _ _ _ _ (lift_ret s E)). reflexivity.
  - destruct (parse_dtb_ends _ _ dtb zero_spec Hm Hl spec0_typed) as [(r & g' & E' & _ & Ht)|E']; rewrite E in E'; [|done].
    by injection E' as _ <-.
Qed.

Let found := take (Z.to_nat (num_virtio_mmio g)) (virtio_mmio_headers g).
Hypothesis Hly : layout_ok ly.
Hypothesis Hek : 0 <= ekernel ly < 18446744073709551616.
Hypothesis Hmax : max_pfn g <= 17592186044416.
Hypothesis Hroom : ADDR_2_PAGE (ekernel ly) + 3 + 2 * table_pages ly + Z.of_nat (length found) <= max_pfn g.
Hypothesis Hdev : Forall (fun h => dev_page (ADDR_2_PAGE h)) found.
Hypothesis Hids : forall h w, h ∈ found -> hdr_read h device_id w = Ret (ids h, w).
Hypothesis Hblk : lowest ids VIRTIO_DEVICE_BLK found <> NO_DEVICE.

Lemma pagetable_ok (s : early W) : steady (e_mem s) -> e_spec s = g -> pfreelist (e_k s) = 0 ->
  exists own k, build_pagetable retain ly s = Ret (tt, mkEarly (e_world s) (stvec s) k (e_spec s) (blk_header s) (gpu_header s)) /\
    kinv own k /\ boot_map ly found k /\ vmem k = e_mem s.
Proof using Hly Hek Hmax Hroom Hdev.
  intros Hs Es Hf. destruct (e_k s) as [v t c b st mx pl] eqn:Ek. cbn in Hf.
  destruct (init_pagetable_ok retain ly found (mkK v t c b st (max_pfn g) pl) Hly Hdev Hf Hmax Hek Hroom)
    as (own & k & E & Hk & Hb & Hv).
  exists own, k. split; [|split; [done|split; [done|rewrite Hv; unfold e_mem; by rewrite Ek]]].
  unfold build_pagetable. rewrite (bind_ret_l (gets e_spec) _ s _ _ eq_refl).
  apply in_k_ret. rewrite Ek, Es. exact E.
Qed.

(** The text before the page table is built. *)
Definition greeting (hart mem_end : list Z) (at_ : list Z) : list Z :=
  str banner_text ++ str hart_text ++ hart ++ str dtb_text ++ at_ ++ str newline_text ++
  str memory_text ++ mem_end ++ str newline_text.
Definition devices (s : early W) : Prop :=
  blk_header s = lowest ids VIRTIO_DEVICE_BLK found /\ gpu_header s = lowest ids VIRTIO_DEVICE_GPU found.

Lemma init_early_ok (s : early W) hart_id : e_mem s = m0 -> mem_ok m0 -> vars_in ->
  0 <= hart_id < 576460752303423488 -> 0 <= dtb < 576460752303423488 ->
  exists s' own h d e, init_early ecall retain fuel ly sbss buf vars lit msg hart_id dtb s = Ret (tt, s') /\
    stvec s' = TRAMPOLINE /\ e_spec s' = g /\ devices s' /\ kinv own (e_k s') /\ boot_map ly found (e_k s') /\
    steady (e_mem s') /\
    shows 10 hart_id h /\ shows 16 dtb d /\ shows 16 (max_pfn g * 4096) e /\
    fw_out (e_world s') = fw_out (e_world s) ++ greeting h e d ++ str pagetable_text.
Proof using All.
  intros Em Hm Hvi Hh Hd.
  set (s0 := mkEarly (e_world s) TRAMPOLINE (e_k s) (e_spec s) (blk_header s) (gpu_header s)).
  destruct (clear_ok s0 Em Hm Hvi) as (s1 & E1 & S1 & W1 & V1 & Z1 & F1).
  destruct (say_text s1 _ _ S1 (mo_banner Hmsg) ltac:(vm_compute; lia)) as (s2 & E2 & D2).
  destruct (poke_ok s2 (sd_mem _ _ _ D2)) as (s3 & E3 & D3).
  destruct (say_text s3 _ _ (sd_mem _ _ _ D3) (mo_hart Hmsg) ltac:(vm_compute; lia)) as (s4 & E4 & D4).
  destruct (say_number_ok s4 hart_id buf 10 (sd_mem _ _ _ D4) ltac:(lia) ltac:(lia) ltac:(lia) ltac:(lia)) as (s5 & h & E5 & D5 & Sh).
  destruct (say_text s5 _ _ (sd_mem _ _ _ D5) (mo_dtb Hmsg) ltac:(vm_compute; lia)) as (s6 & E6 & D6).
  destruct (say_number_ok s6 dtb (buf + 2) 16 (sd_mem _ _ _ D6) ltac:(lia) ltac:(lia) ltac:(lia) ltac:(lia)) as (s7 & d & E7 & D7 & Sd).
  destruct (say_text s7 _ _ (sd_mem _ _ _ D7) (mo_newline Hmsg) ltac:(vm_compute; lia)) as (s8 & E8 & D8).
  pose proof (said_trans _ _ _ _ _ D2 (said_trans _ _ _ _ _ D3 (said_trans _ _ _ _ _ D4 (said_trans _ _ _ _ _ D5
    (said_trans _ _ _ _ _ D6 (said_trans _ _ _ _ _ D7 D8)))))) as [_ O8 K8 [V8 Z8]].
  destruct (parse_ok s8 (sd_mem _ _ _ D8) ltac:(by rewrite Z8)) as [E9 Ty].
  set (s9 := mkEarly (e_world s8) (stvec s8) (e_k s8) g (blk_header s8) (gpu_header s8)) in E9.
  destruct (say_text s9 _ _ (sd_mem _ _ _ D8) (mo_memory Hmsg) ltac:(vm_compute; lia)) as (s10 & E10 & D10).
  pose proof (ty_pfn _ Ty) as Hp.
  destruct (say_number_ok s10 (max_pfn g * 4096) buf 16 (sd_mem _ _ _ D10) ltac:(lia) ltac:(lia) ltac:(lia) ltac:(lia)) as (s11 & e & E11 & D11 & Se).
  destruct (say_text s11 _ _ (sd_mem _ _ _ D11) (mo_newline Hmsg) ltac:(vm_compute; lia)) as (s12 & E12 & D12).
  pose proof (said_trans _ _ _ _ _ D10 (said_trans _ _ _ _ _ D11 D12)) as [S12 O12 K12 [V12 Z12]].
  destruct (pagetable_ok s12 S12 Z12) as (own & k & E13 & Hk & Hb & Hv); [rewrite K12; change (e_k s9) with (e_k s8); rewrite K8; exact F1|].
  set (s13 := mkEarly (e_world s12) (stvec s12) k (e_spec s12) (blk_header s12) (gpu_header s12)) in E13.
  assert (steady (e_mem s13)) as S13 by (unfold s13, e_mem; cbn [e_k]; by rewrite Hv).
  destruct (say_text s13 _ _ S13 (mo_pagetable Hmsg) ltac:(vm_compute; lia)) as (s14 & E14 & [S14 O14 K14 [V14 Z14]]).
  pose proof (init_virtio_lowest ids g (e_world s14) ltac:(pose proof (ty_num _ Ty); rewrite (ty_len _ Ty); lia)
    (fun h' => Hids h' (e_world s14))) as E15. fold found in E15. cbv zeta in E15. rewrite (proj2 (Z.eqb_neq _ _) Hblk) in E15.
  assert (e_spec s14 = g) as G14 by (rewrite Z14; exact Z12).
  exists (mkEarly (e_world s14) (stvec s14) (e_k s14) g (lowest ids VIRTIO_DEVICE_BLK found) (lowest ids VIRTIO_DEVICE_GPU found)), own, h, d, e. split.
  - unfold init_early. erewrite bind_ret_l; [|reflexivity]. fold s0.
    rewrite (bind_ret_l _ _ _ _ _ E1), (bind_ret_l _ _ _ _ _ E2), (bind_ret_l (gets e_mem) _ s2 _ _ eq_refl), (bind_ret_l _ _ _ _ _ E3).
    rewrite (bind_ret_l _ _ _ _ _ E4), (i64_small hart_id) by lia. rewrite (bind_ret_l _ _ _ _ _ E5), (bind_ret_l _ _ _ _ _ E6).
    rewrite (i64_small dtb), (u64_small (buf + 2)) by lia. rewrite (bind_ret_l _ _ _ _ _ E7), (bind_ret_l _ _ _ _ _ E8), (bind_ret_l _ _ _ _ _ E9).
    cbn [Z.ltb Z.compare]. rewrite (bind_ret_l _ _ _ _ _ E10), (bind_ret_l (gets e_spec) _ s10 _ _ eq_refl), (proj2 (sd_rest _ _ _ D10)).
    change (e_spec s9) with g. rewrite PAGE_2_ADDR_small, i64_small by lia.
    rewrite (bind_ret_l _ _ _ _ _ E11), (bind_ret_l _ _ _ _ _ E12), (bind_ret_l _ _ _ _ _ E13), (bind_ret_l _ _ _ _ _ E14).
    rewrite (bind_ret_l (gets e_spec) _ s14 _ _ eq_refl), G14, (bind_ret_l _ _ _ _ _ (in_world_ret _ s14 _ _ E15)), G14. reflexivity.
  - cbn [stvec e_spec e_k e_world blk_header gpu_header]. rewrite V14, K14.
    split; [change (stvec s13) with (stvec s12); rewrite V12; change (stvec s9) with (stvec s8); by rewrite V8, V1|].
    split; [done|]. split; [done|]. split; [done|]. split; [done|]. split; [exact S14|]. do 3 (split; [done|]).
    rewrite O14. change (e_world s13) with (e_world s12). rewrite O12. change (e_world s9) with (e_world s8).
    rewrite O8, W1. change (e_world s0) with (e_world s). unfold greeting. by rewrite app_nil_l, <- !app_assoc.
Qed.
End Boots.
End Run.

(** What the firmware and the linker hand to init: [m0] is the memory with the
    image of the kernel, the device tree [root] at [dtb] and the messages, all
    of it apart from the bss and the buffer of init. *)
Section Machine.
Context {W : Type} `{VirtioMmio W}.

Record bootable (ly : layout) (sbss buf : Z) (vars : variables) (lit : literals) (msg : messages) (m0 : mem)
    (dtb : Z) (g : machine_spec) (ids : Z -> Z) : Prop := {
  bo_bss : 0 <= sbss <= ebss ly /\ ebss ly < 18446744073709551616;
  bo_buf : 0 <= buf /\ buf + 100 < 18446744073709551616;
  bo_vars : vars_in ly sbss vars;
  bo_mem : mem_ok m0;
  bo_msg : messages_ok ly sbss buf msg m0;
  bo_dtb : exists so ss off root, collect [] root zero_spec = Some g /\
    lasting ly sbss buf m0 (fun m => lits_ok m lit /\ blob_at m dtb so ss off root);
  bo_layout : layout_ok ly /\ 0 <= ekernel ly < 18446744073709551616;
  bo_room : max_pfn g <= 17592186044416 /\
    ADDR_2_PAGE (ekernel ly) + 3 + 2 * table_pages ly + num_virtio_mmio g <= max_pfn g;
  bo_dev : forall h, h ∈ take (Z.to_nat (num_virtio_mmio g)) (virtio_mmio_headers g) ->
    dev_page (ADDR_2_PAGE h) /\ forall w, hdr_read h device_id w = Ret (ids h, w);
  bo_blk : lowest ids VIRTIO_DEVICE_BLK (take (Z.to_nat (num_virtio_mmio g)) (virtio_mmio_headers g)) <> NO_DEVICE;
}.

(** C20: init, from its entry to the start of the drivers, on a machine whose
    firmware passes a device tree: it clears the bss (every byte of it is 0
    afterwards but for the variables that init then sets, and these start from
    0), points stvec to the trampoline, takes the size of memory, the timer
    frequency and the devices from the tree, builds the kernel's page table for
    that memory and those devices, and takes the block device and the GPU with
    the lowest addresses.  It writes no memory but the bss, its buffer and the
    tables, and prints the banner, the hart, the address of the tree and the end
    of memory. *)
Theorem init_early_correct ecall `{!Firmware ecall} retain fuel ly sbss buf vars lit msg dtb g ids (s : early W) hart_id :
  (512 <= fuel)%nat -> bootable ly sbss buf vars lit msg (e_mem s) dtb g ids ->
  0 <= hart_id < 576460752303423488 -> 0 <= dtb < 576460752303423488 ->
  let found := take (Z.to_nat (num_virtio_mmio g)) (virtio_mmio_headers g) in
  exists s' own h d e, init_early ecall retain fuel ly sbss buf vars lit msg hart_id dtb s = Ret (tt, s') /\
    stvec s' = TRAMPOLINE /\ same_machine (e_spec s') g /\
    (forall x, sbss <= x < ebss ly -> ~ (buf <= x < buf + 64) ->
       Forall (fun '(a, n) => ~ (a <= x < a + n)) (var_ranges vars) -> e_mem s' x = 0) /\
    blk_header s' = lowest ids VIRTIO_DEVICE_BLK found /\ gpu_header s' = lowest ids VIRTIO_DEVICE_GPU found /\
    kinv own (e_k s') /\ boot_map ly found (e_k s') /\
    (forall x, ~ scratch ly sbss buf x -> e_mem s' x = e_mem s x) /\
    shows 10 hart_id h /\ shows 16 dtb d /\ shows 16 (max_pfn g * 4096) e /\
    (fw_out (e_world s) ++ greeting h e d) `prefix_of` fw_out (e_world s').
Proof.
  intros Hf [B1 B2 Bv B3 B4 (so & ss & off & root & Hg & B5) [B6 B7] [B8 B9] B10 B11] Hh Hd found.
  assert (Z.of_nat (length found) <= Z.max 0 (num_virtio_mmio g)) as Hlen by (unfold found; rewrite length_take; lia).
  destruct (parse_dtb_ends (e_mem s) lit dtb zero_spec B3 (proj1 (B5 _ (fun _ _ => eq_refl))) spec0_typed) as [(r & g' & E & _ & Ht)|E].
  2: { destruct (B5 _ (fun _ _ => eq_refl)) as [Hl Hb]. by rewrite (parse_dtb_ok _ _ _ _ _ _ _ _ _ Hl Hb Hg) in E. }
  assert (g' = g) as ->.
  { destruct (B5 _ (fun _ _ => eq_refl)) as [Hl Hb]. rewrite (parse_dtb_ok _ _ _ _ _ _ _ _ _ Hl Hb Hg) in E. by injection E. }
  pose proof (ty_num _ Ht).
  destruct (init_early_ok ecall retain fuel ly sbss buf vars lit msg (e_mem s) Hf B1 B2 dtb so ss off root g ids B4 B5 Hg B6 B7 B8)
    with (s := s) (hart_id := hart_id) as (s' & own & h & d & e & E' & A1 & A2 & [A3 A4] & A5 & A6 & A7 & A8 & A9 & A10 & A11);
    [fold found; lia|apply Forall_forall; intros h Hin; by apply B10|intros h w Hin; by apply B10|done|done|done|done|done|done|].
  exists s', own, h, d, e. split; [done|]. split; [done|]. split; [by rewrite A2|].
  split; [intros x Hx Hnb _; by apply A7|]. do 4 (split; [done|]). split; [apply A7|]. do 3 (split; [done|]).
  rewrite A11. exists (str pagetable_text). by rewrite <- app_assoc.
Qed.
End Machine.

(** ** A machine with one disk *)

(** Names that stay in memory keep a tree well formed. *)
Lemma node_ok_keep m m' nb off t : (forall n, cstr m (nb + off n) n -> cstr m' (nb + off n) n) ->
  node_ok m nb off t -> node_ok m' nb off t.
Proof.
  intros Hc. induction t as [name props children IH] using node_ind'. cbn [node_ok].
  intros (H1 & H2 & H3%node_ok_children). split; [done|]. split.
  - eapply Forall_impl; [exact H2|]. intros p (P1 & P2). split; [by apply Hc|done].
  - apply node_ok_children. rewrite Forall_forall in IH, H3 |- *. intros c Hin. by apply IH, H3.
Qed.

(** A string ends at the first zero. *)
Lemma cstr_short m a l z : cstr m a l -> a <= z -> m z = 0 -> a + Z.of_nat (length l) <= z.
Proof.
  intros [Hch _ _ Hby _] Hz Hm. destruct (Z.le_gt_cases (a + Z.of_nat (length l)) z) as [|Hlt]; [done|].
  destruct (lookup_lt_is_Some_2 l (Z.to_nat (z - a))) as [c Hc]; [lia|].
  pose proof (Hby _ _ Hc) as E. rewrite Z2Nat.id, Zplus_minus in E by lia. eapply Forall_lookup_1 in Hch; [|exact Hc]. cbn in Hch. lia.
Qed.

(** The blob of FdtProps.v below 4096, the messages from 4096 on. *)
Definition bt_texts : list string := [banner_text; hart_text; dtb_text; newline_text; memory_text; pagetable_text].
Definition bt_list : list Z :=
  Eval vm_compute in blob0 ++ replicate (4096 - length blob0) 0 ++ mjoin ((fun t => str t ++ [0]) <$> bt_texts).
Definition bt_mem : mem := image bt_list.
Definition bt_msgs : messages := Eval vm_compute in
  let n t := Z.of_nat (length (str t)) + 1 in
  let a1 := 4096 + n banner_text in let a2 := a1 + n hart_text in let a3 := a2 + n dtb_text in
  let a4 := a3 + n newline_text in let a5 := a4 + n memory_text in mkMsgs 4096 a1 a2 a3 a4 a5.
Definition bt_spec : machine_spec := machine0.
(** The variables one after the other from the start of the bss. *)
Definition bt_vars : variables :=
  mkVars 2149620000 2149620008 2149620016 2149620024 2149620032 2149620544 2149620552 2149620560 2149620568 2149620576.

(** The firmware appends to its output; the first device is a disk. *)
Definition bt_ecall (fn a0 a1 a2 : Z) : M (list Z * list Z * Z) Z := fun w =>
  let '(out, inp, t) := w in
  if fn =? Sbi.SBI_CONSOLE_PUTCHAR then Ret (0, (out ++ [a0], inp, t))
  else if fn =? Sbi.SBI_CONSOLE_GETCHAR then
    match inp with [] => Ret (u64 (-1), w) | c :: l => Ret (c, (out, l, t)) end
  else if fn =? Sbi.SBI_SET_TIMER then Ret (0, (out, inp, a0)) else Ret (0, w).
#[local] Instance bt_firmware : Firmware bt_ecall.
Proof.
  refine {| fw_out w := w.1.1; fw_in w := w.1.2; fw_deadline w := w.2; fw_putchar := _; fw_getchar := _; fw_set_timer := _ |}.
  - intros c [[o i] t] Hc. by eexists _, _.
  - intros [[o [|c i]] t]; by eexists _, _.
  - intros t [[o i] t0]. by eexists _, _.
Defined.
#[local] Instance bt_devices : VirtioMmio (list Z * list Z * Z) := {|
  mmio_read a w := Ret (if a =? 268439560 then 2 else 0, w);
  mmio_write _ _ w := Ret (tt, w);
  device_step w := Ret (tt, w);
|}.

Lemma bt_low m x : (forall x, ~ scratch layout0 2149620000 2149614000 x -> m x = bt_mem x) -> 0 <= x < 8192 -> m x = bt_mem x.
Proof. intros Hm Hx. apply Hm. unfold scratch, layout0. cbn [ebss]. lia. Qed.

Lemma bt_lasting a l : cstr_check bt_mem a l = true -> a + Z.of_nat (length l) < 8192 ->
  lasting layout0 2149620000 2149614000 bt_mem (fun m => cstr m a l).
Proof.
  intros Hc%cstr_check_ok Ha m Hm. eapply cstr_ext; [|exact Hc]. intros x Hx. pose proof (cs_lo _ _ _ Hc).
  by apply bt_low; [|lia].
Qed.

Lemma bt_blob : lasting layout0 2149620000 2149614000 bt_mem (fun m => lits_ok m lits0 /\ blob_at m 80 40 2048 off0 tree0).
Proof.
  intros m Hm. split; [split; (apply bt_lasting; [by vm_compute|by vm_compute|exact Hm])|].
  assert (forall a l, bytes_check bt_mem a l = true -> 0 <= a -> a + Z.of_nat (length l) < 8192 -> bytes_at m a l) as Hb.
  { intros a l Hc%bytes_check_ok H0 H1. eapply bytes_at_ext; [|exact Hc]. intros x Hx. by apply bt_low; [|lia]. }
  split; [apply Hb; by vm_compute..| |apply Hb; by vm_compute|lia|lia|by vm_compute|lia].
  apply (node_ok_keep bt_mem); [|apply node_check_ok; by vm_compute].
  intros n Hc. eapply cstr_ext; [|exact Hc]. assert (0 <= off0 n <= 23) as Ho by (unfold off0; repeat case_bool_decide; lia).
  pose proof (cstr_short bt_mem _ n 4095 Hc ltac:(lia) ltac:(by vm_compute)). intros x Hx. by apply bt_low; [|lia].
Qed.

Lemma bt_ok : bootable layout0 2149620000 2149614000 bt_vars lits0 bt_msgs bt_mem 80 bt_spec (fun h => if h =? 268439552 then 2 else 0).
Proof.
  split.
  - by vm_compute.
  - by vm_compute.
  - repeat (apply Forall_cons; split; [by vm_compute|]). done.
  - apply image_bytes. apply (forallb_Forall (fun b => (0 <=? b) && (b <? 256))); [|by vm_compute].
    intros b _. unfold byte. rewrite andb_true_iff, Z.leb_le, Z.ltb_lt. done.
  - split; (apply bt_lasting; by vm_compute).
  - exists 40, 2048, off0, tree0. split; [by vm_compute|exact bt_blob].
  - split; [split; by vm_compute|by vm_compute].
  - split; by vm_compute.
  - intros h Hin. apply list_elem_of_singleton in Hin as ->. split; [by vm_compute|done].
  - by vm_compute.
Qed.

Lemma init_early_correct_witness : exists s',
  init_early bt_ecall true 512 layout0 2149620000 2149614000 bt_vars lits0 bt_msgs 0 80
    (mkEarly ([], [], 0) 0 (mkK bt_mem (fun _ _ => 4660) (fun _ => None) 7 7 7 7) spec0 5 5) = Ret (tt, s') /\
  blk_header s' = 268439552 /\ gpu_header s' = NO_DEVICE /\
  walk (tab (e_k s')) (pt_base (e_k s')) 524800 = Some (524800, PTE 524800 11).
Proof.
  destruct (init_early_correct bt_ecall true 512 layout0 2149620000 2149614000 bt_vars lits0 bt_msgs 80 bt_spec
    (fun h => if h =? 268439552 then 2 else 0)
    (mkEarly ([], [], 0) 0 (mkK bt_mem (fun _ _ => 4660) (fun _ => None) 7 7 7 7) spec0 5 5) 0)
    as (s' & own & h & d & e & E & _ & _ & _ & Hb & Hg & _ & Hm & _).
  - lia.
  - exact bt_ok.
  - lia.
  - lia.
  - exists s'. split; [exact E|]. split; [exact Hb|]. split; [exact Hg|]. apply (proj1 Hm). vm_compute. split; [discriminate|reflexivity].
Defined.
