(* ===== verification/Spinlock.v ===== *)
(** * Spin locks (kernel/spinlock.h)

    Any number of harts at a lock word.  A step of a hart is one atomic access:
    the test-and-set of acquire, which the hart repeats until it reads 0, or the
    store of release.  Whatever the order of the steps, at most one hart is
    between its acquire and its release. *)
From S2P Require Import Prelude.

Module Spinlock.

Definition SPINLOCK_INITIALIZER : Z := 0.

(** [__sync_lock_test_and_set(spinlock, 1)]: the old value and the new word;
    [__sync_lock_release(spinlock)]: the new word. *)
Definition test_and_set (lock : Z) : Z * Z := (lock, 1).
Definition lock_release (lock : Z) : Z := 0.

(** Where a hart is: it does not want the lock, it is in the loop of acquire, or
    it is past acquire. *)
Inductive hart := Idle | Spinning | Holding.
#[global] Instance hart_eq_dec : EqDecision hart.
Proof. solve_decision. Defined.

Record S := mkS { lock : Z; harts : list hart }.

(** One iteration of the loop of acquire. *)
Definition acquire (l : Z) : hart * Z :=
  let '(old, new) := test_and_set l in if negb (old =? 0) then (Spinning, new) else (Holding, new).
Definition release (l : Z) : hart * Z := (Idle, lock_release l).

Definition hart_step (h : hart) (l : Z) : hart * Z :=
  match h with
  | Idle => (Spinning, l)
  | Spinning => acquire l
  | Holding => release l
  end.

Definition step (i : nat) (s : S) : S :=
  match harts s !! i with
  | Some h => let '(h', l) := hart_step h (lock s) in mkS l (<[i := h']> (harts s))
  | None => s
  end.

Definition start (n : nat) : S := mkS SPINLOCK_INITIALIZER (replicate n Idle).

Inductive reachable (n : nat) : S -> Prop :=
| reach_start : reachable n (start n)
| reach_step i s : reachable n s -> reachable n (step i s).

End Spinlock.
Import Spinlock.

(** The word is 1 exactly when one hart holds the lock. *)
Definition lock_inv (s : S) : Prop :=
  (lock s = 0 /\ forall i, harts s !! i <> Some Holding) \/
  (lock s = 1 /\ exists i, harts s !! i = Some Holding /\ forall j, harts s !! j = Some Holding -> j = i).

Lemma step_inv i s : lock_inv s -> lock_inv (step i s).
Proof.
  intros I. unfold step. destruct (harts s !! i) as [h|] eqn:Hi; [|done]. pose proof (lookup_lt_Some _ _ _ Hi) as Hlt.
  assert (forall h', h' <> Holding -> forall j, <[i := h']> (harts s) !! j = Some Holding -> harts s !! j = Some Holding /\ j <> i) as Hout.
  { intros h' Hh j. destruct (decide (j = i)) as [->|Hj].
    - rewrite list_lookup_insert_eq by done. congruence.
    - by rewrite list_lookup_insert_ne. }
  destruct h; cbn [hart_step].
  - destruct I as [[El Hn]|[El (k & Hk & Hu)]]; [left|right]; (split; [done|]).
    + intros j Hj. apply Hout in Hj as [Hj _]; [by apply (Hn j)|done].
    + assert (k <> i) by congruence. exists k. split; [cbn; by rewrite list_lookup_insert_ne|].
      intros j Hj. apply Hout in Hj as [Hj _]; [by apply Hu|done].
  - unfold acquire, test_and_set. destruct I as [[El Hn]|[El (k & Hk & Hu)]]; rewrite El; cbn [Z.eqb negb]; right; (split; [done|]).
    + exists i. split; [cbn; by rewrite list_lookup_insert_eq|]. intros j Hj. destruct (decide (j = i)); [done|].
      cbn in Hj. rewrite list_lookup_insert_ne in Hj by done. by apply Hn in Hj.
    + assert (k <> i) by congruence. exists k. split; [cbn; by rewrite list_lookup_insert_ne|].
      intros j Hj. apply Hout in Hj as [Hj _]; [by apply Hu|done].
  - unfold release, lock_release. destruct I as [[El Hn]|[El (k & Hk & Hu)]]; [by apply Hn in Hi|]. left. split; [done|].
    intros j Hj. apply Hout in Hj as [Hj Hne]; [|done]. apply Hne. by rewrite (Hu j Hj), (Hu i Hi).
Qed.

Lemma reachable_inv n s : reachable n s -> lock_inv s.
Proof.
  induction 1 as [|i s _ IH]; [|by apply step_inv]. left. split; [done|].
  intros i Hi. by apply lookup_replicate in Hi as [? _].
Qed.

(** C40: two harts are never both past acquire, in any interleaving of the atomic
    accesses of any number of harts; and when no hart holds the lock, the next
    hart that tries gets it. *)
Theorem spinlock_mutual_exclusion n s : reachable n s ->
  (forall i j, harts s !! i = Some Holding -> harts s !! j = Some Holding -> i = j) /\
  ((forall i, harts s !! i <> Some Holding) -> forall i, harts s !! i = Some Spinning ->
     harts (step i s) !! i = Some Holding).
Proof.
  intros H. apply reachable_inv in H as [[El Hn]|[El (k & Hk & Hu)]]; split.
  - intros i j Hi. by apply Hn in Hi.
  - intros _ i Hi. unfold step. rewrite Hi. cbn [hart_step]. unfold acquire, test_and_set. rewrite El. cbn.
    rewrite list_lookup_insert_eq; [done|by eapply lookup_lt_Some].
  - intros i j Hi Hj. by rewrite (Hu i Hi), (Hu j Hj).
  - intros Hn. by apply Hn in Hk.
Qed.

Lemma spinlock_mutual_exclusion_witness :
  let s := step 1 (step 0 (step 1 (step 0 (start 2)))) in
  harts s = [Holding; Spinning] /\ (harts s !! 0%nat = Some Holding -> harts s !! 1%nat = Some Holding -> 0%nat = 1%nat).
Proof.
  split; [reflexivity|].
  apply (spinlock_mutual_exclusion 2 (step 1 (step 0 (step 1 (step 0 (start 2)))))). repeat constructor.
Defined.
