(* ===== verification/UserLib.v ===== *)
(** * The user library (user/libcoreos)

    What a user program sees of the kernel: the stubs of libcoreos/syscall.h
    that put a system call's number and arguments in registers, and the library
    of libcoreos/lib.c over them.  The memory here is the address space of one
    process.  The kernel behind the [ecall] instruction is a parameter: it may
    change the memory of the process, and a call that does not come back (exit,
    a successful execve) has the result [None]. *)
From S2P Require Import Prelude Mem.

Module UserLib.

(** ** System call numbers and stubs (libcoreos/syscall.h) *)
Definition SYS_DUP : Z := 23.
Definition SYS_DUP3 : Z := 24.
Definition SYS_CHDIR : Z := 49.
Definition SYS_OPENAT : Z := 56.
Definition SYS_CLOSE : Z := 57.
Definition SYS_LSEEK : Z := 62.
Definition SYS_READ : Z := 63.
Definition SYS_WRITE : Z := 64.
Definition SYS_EXIT : Z := 93.
Definition SYS_YIELD : Z := 124.
Definition SYS_GET_TIME : Z := 169.
Definition SYS_SBRK : Z := 214.
Definition SYS_FORK : Z := 220.
Definition SYS_EXECVE : Z := 221.
Definition SYS_WAITPID : Z := 260.

(** The stubs convert every argument to the u64 of [syscall]: an unsigned
    argument is unchanged, a signed one is extended. *)
Section Stubs.
Context {R : Type}.
Variable syscall : Z -> Z -> Z -> Z -> Z -> Z -> Z -> Z -> R.

Definition sys_dup (fd : Z) : R := syscall SYS_DUP fd 0 0 0 0 0 0.
Definition sys_dup3 (old_fd new_fd flags : Z) : R :=
  syscall SYS_DUP3 old_fd new_fd (u64 flags) 0 0 0 0.
Definition sys_chdir (filename : Z) : R := syscall SYS_CHDIR filename 0 0 0 0 0 0.
Definition sys_openat (dfd filename flags mode : Z) : R :=
  syscall SYS_OPENAT (u64 dfd) filename (u64 flags) (u64 mode) 0 0 0.
Definition sys_close (fd : Z) : R := syscall SYS_CLOSE fd 0 0 0 0 0 0.
Definition sys_lseek (fd off_high off_low result whence : Z) : R :=
  syscall SYS_LSEEK fd (u64 off_high) (u64 off_low) result whence 0 0.
Definition sys_read (fd buffer size : Z) : R := syscall SYS_READ fd buffer size 0 0 0 0.
Definition sys_write (fd buffer size : Z) : R := syscall SYS_WRITE fd buffer size 0 0 0 0.
Definition sys_exit (xstate : Z) : R := syscall SYS_EXIT (u64 xstate) 0 0 0 0 0 0.
Definition sys_yield : R := syscall SYS_YIELD 0 0 0 0 0 0 0.
Definition sys_get_time (ts tz : Z) : R := syscall SYS_GET_TIME ts tz 0 0 0 0 0.
Definition sys_sbrk (size : Z) : R := syscall SYS_SBRK (u64 size) 0 0 0 0 0 0.
Definition sys_fork : R := syscall SYS_FORK 0 0 0 0 0 0 0.
Definition sys_execve (path argv envp : Z) : R := syscall SYS_EXECVE path argv envp 0 0 0 0.
Definition sys_waitpid (pid : Z) : R := syscall SYS_WAITPID (u64 pid) 0 0 0 0 0 0.

End Stubs.

(** ** A running program *)

(** The address space, the kernel, and the global [rand_seed] of lib.c. *)
Record U (K : Type) : Type := mkU { umem : mem; uk : K; rand_seed : Z }.
Arguments mkU {K}.
Arguments umem {K}.
Arguments uk {K}.
Arguments rand_seed {K}.

Definition set_umem {K} (m : mem) (u : U K) : U K := mkU m (uk u) (rand_seed u).

(** A piece of a program: [None] when the process has gone. *)
Definition UM (K A : Type) : Type := U K -> outcome (option A * U K).

#[global] Instance UM_ret {K} : MRet (UM K) := fun A a u => Ret (Some a, u).
#[global] Instance UM_bind {K} : MBind (UM K) := fun A B f m u =>
  match m u with
  | Ret (Some a, u') => f a u'
  | Ret (None, u') => Ret (None, u')
  | Panic => Panic | Fault => Fault | NoFuel => NoFuel
  end.

Definition uliftm {K A} (o : outcome A) : UM K A := fun u =>
  match o with
  | Ret a => Ret (Some a, u)
  | Panic => Panic | Fault => Fault | NoFuel => NoFuel
  end.
Definition ugets {K A} (f : mem -> A) : UM K A := fun u => Ret (Some (f (umem u)), u).
Definition umodify {K} (f : mem -> mem) : UM K unit := fun u => Ret (Some tt, set_umem (f (umem u)) u).

(** The addresses of the locals whose address is passed to the kernel: [ts] of
    get_time, [time] of sleep, [res] of lseek, [argv] and [envp] of exec. *)
Record Frame : Type := mkFrame {
  ts_at : Z; time_at : Z; res_at : Z; null_argv_at : Z; null_envp_at : Z }.

(** ** libcoreos/lib.c *)
Section Lib.
Context {K : Type}.
Variable ecall : Z -> list Z -> M (mem * K) (option Z).
Variable fr : Frame.

(** libcoreos/syscall.c: the registers x17 and x10 to x16; the result is x10. *)
Definition syscall (id a0 a1 a2 a3 a4 a5 a6 : Z) : UM K Z := fun u =>
  match ecall id [a0; a1; a2; a3; a4; a5; a6] (umem u, uk u) with
  | Ret (Some v, (m, k)) => Ret (Some (i64 v), mkU m k (rand_seed u))
  | Ret (None, (m, k)) => Ret (None, mkU m k (rand_seed u))
  | Panic => Panic | Fault => Fault | NoFuel => NoFuel
  end.

Definition read (fd buffer size : Z) : UM K Z := sys_read syscall fd buffer size.
Definition write (fd buffer size : Z) : UM K Z := sys_write syscall fd buffer size.
Definition exit (xstate : Z) : UM K Z := sys_exit syscall xstate.
Definition yield : UM K Z := sys_yield syscall.
(** TimeVal is { sec; usec }. *)
Definition get_time : UM K Z :=
  sys_get_time syscall (ts_at fr) 0;;
  ugets (fun m => load64 m (ts_at fr + 8)).
Definition sbrk (size : Z) : UM K Z := v ← sys_sbrk syscall size; mret (u64 v).
Definition fork : UM K Z := v ← sys_fork syscall; mret (i32 v).
Definition exec (path : Z) : UM K Z :=
  umodify (fun m => store64 m (null_argv_at fr) 0);;
  umodify (fun m => store64 m (null_envp_at fr) 0);;
  sys_execve syscall path (null_argv_at fr) (null_envp_at fr).
Definition execv (path argv : Z) : UM K Z :=
  umodify (fun m => store64 m (null_envp_at fr) 0);;
  sys_execve syscall path argv (null_envp_at fr).
Definition waitpid (pid : Z) : UM K Z := sys_waitpid syscall pid.
Definition open (path flags mode : Z) : UM K Z := sys_openat syscall 0 path flags mode.
Definition close (fd : Z) : UM K Z := sys_close syscall fd.
Definition lseek (fd offset whence : Z) : UM K Z :=
  v ← sys_lseek syscall fd 0 offset (res_at fr) whence;
  let r := i32 v in
  if r <? 0 then mret r else ugets (fun m => i64 (load64 m (res_at fr))).
Definition chdir (path : Z) : UM K Z := sys_chdir syscall path.

Definition srand (seed : Z) : UM K unit := fun u => Ret (Some tt, mkU (umem u) (uk u) (u32 seed)).
Definition rand_next (seed : Z) : Z :=
  let s := u32 (seed mod 3240926471 + 305950204) in
  u32 (s * u32 (s - 2167184647) + 1193798).
Definition rand : UM K Z := fun u =>
  let s := rand_next (rand_seed u) in Ret (Some s, mkU (umem u) (uk u) s).

(** [do { yield(); sys_get_time(&time, 0); } while (time.usec - start < time_us);] *)
Fixpoint sleep_loop (fuel : nat) (start time_us : Z) : UM K unit :=
  match fuel with
  | O => uliftm NoFuel
  | S n =>
      yield;;
      sys_get_time syscall (time_at fr) 0;;
      t ← ugets (fun m => load64 m (time_at fr + 8));
      if u64 (t - start) <? time_us then sleep_loop n start time_us else mret tt
  end.
Definition sleep (fuel : nat) (time_us : Z) : UM K unit :=
  sys_get_time syscall (time_at fr) 0;;
  start ← ugets (fun m => load64 m (time_at fr + 8));
  sleep_loop fuel start time_us.

(** main returns an int. *)
Definition _start (main : UM K Z) : UM K Z := c ← main; exit (i32 c).

Definition dup (fd : Z) : UM K Z := sys_dup syscall fd.
Definition dup2 (old_fd new_fd : Z) : UM K Z := sys_dup3 syscall old_fd new_fd (-1).
Definition dup3 (old_fd new_fd flags : Z) : UM K Z := sys_dup3 syscall old_fd new_fd flags.

End Lib.

(** ** Constants of lib.h and utils/fcntl.h *)
Definition STDIN : Z := 0.
Definition STDOUT : Z := 1.
Definition STDERR : Z := 2.
Definition O_RDONLY : Z := 0.
Definition O_WRONLY : Z := 1.
Definition O_RDWR : Z := 2.
Definition O_CREAT : Z := 64.
Definition O_TRUNC : Z := 512.
Definition O_APPEND : Z := 1024.
Definition O_DIRECTORY : Z := 65536.
Definition SEEK_SET : Z := 0.

End UserLib.
