(* ===== verification/Shell.v ===== *)
(** * The shell (user/program/sh.c)

    The whole of main: reading and echoing a line, cutting it into words,
    redirections, the built-in commands, and fork, dup2 and execv of a program.
    The line buffer, [ch] and the array [argv] are in the memory of the process;
    [lit] gives the address of a string literal, named by its text in the
    source. *)
From S2P Require Import Prelude Mem CString UserLib.
Import CString UserLib.

Module Shell.

Section Shell.
Context {K : Type}.
Variable ecall : Z -> list Z -> M (mem * K) (option Z).
Variable fr : Frame.
Variable lit : string -> Z.
Variables ch_at argv_at : Z.
(** Enough for the string loops over one line. *)
Variable fuel : nat.

Definition ARGV_SIZE : Z := 64.

Let lseek := lseek ecall fr.
Let read := read ecall.
Let write := write ecall.
Let open := open ecall.
Let dup2 := dup2 ecall.

(** [while (ch == 255 || ch == 0) { lseek(STDIN, 0, SEEK_SET); read(STDIN, &ch, 1); }] *)
Fixpoint read_key_loop (n : nat) : UM K Z :=
  ch ← ugets (fun m => m ch_at);
  if (ch =? 255) || (ch =? 0) then
    match n with
    | O => uliftm NoFuel
    | S k => lseek STDIN 0 SEEK_SET;; read STDIN ch_at 1;; read_key_loop k
    end
  else mret ch.
Definition read_key (n : nat) : UM K Z :=
  umodify (fun m => upd m ch_at 0);; read_key_loop n.

(** ** Cutting the line into words *)
Inductive sh_state := Args | InFile | OutFile.

Record toks : Type := mkToks {
  argc : Z; redirect_stdin : Z; stdin_append : bool;
  redirect_stdout : Z; stdout_append : bool; state : sh_state }.

Definition toks0 : toks := mkToks 0 0 false 0 false Args.

(** [argv[argc++] = tok; state = Args;]: the array has 64 elements. *)
Definition push_arg (tk : toks) (tok : Z) : UM K toks :=
  if argc tk <? ARGV_SIZE then
    umodify (fun m => store64 m (u64 (argv_at + 8 * argc tk)) tok);;
    mret (mkToks (argc tk + 1) (redirect_stdin tk) (stdin_append tk)
            (redirect_stdout tk) (stdout_append tk) Args)
  else uliftm Fault.

Definition streq (s1 s2 : Z) : UM K bool :=
  m ← ugets id; r ← uliftm (strcmp fuel m s1 s2); mret (r =? 0).

Definition to_out (app : bool) (tk : toks) : toks :=
  mkToks (argc tk) (redirect_stdin tk) (stdin_append tk) (redirect_stdout tk) app OutFile.
Definition to_in (app : bool) (tk : toks) : toks :=
  mkToks (argc tk) (redirect_stdin tk) app (redirect_stdout tk) (stdout_append tk) InFile.

(** The switch on [state]; [c] is [*tok]. *)
Definition tok_step (tk : toks) (tok c : Z) : UM K toks :=
  match state tk with
  | Args =>
      if c =? 62 then
        two ← streq tok (lit ">>");
        if (two : bool) then mret (to_out true tk) else
        one ← streq tok (lit ">");
        if (one : bool) then mret (to_out false tk) else push_arg tk (u64 (tok + 1))
      else if c =? 60 then
        two ← streq tok (lit "<<");
        if (two : bool) then mret (to_in true tk) else
        one ← streq tok (lit "<");
        if (one : bool) then mret (to_in false tk) else push_arg tk (u64 (tok + 1))
      else push_arg tk tok
  | InFile => mret (mkToks (argc tk) tok (stdin_append tk) (redirect_stdout tk) (stdout_append tk) Args)
  | OutFile => mret (mkToks (argc tk) (redirect_stdin tk) (stdin_append tk) tok (stdout_append tk) Args)
  end.

(** [while (ptr != 0)] *)
Fixpoint tokenize (n : nat) (ptr : Z) (tk : toks) : UM K toks :=
  if ptr =? 0 then mret tk else
  match n with
  | O => uliftm NoFuel
  | S k =>
      m ← ugets id;
      '(tok, ptr', m') ← uliftm (strsep fuel m ptr (lit " "));
      umodify (fun _ => m');;
      c ← ugets (fun m => m tok);
      if c =? 0 then tokenize k ptr' tk
      else tk' ← tok_step tk tok c; tokenize k ptr' tk'
  end.

(** ** Running a command *)

(** One redirection of the child: open, dup2 onto [std], close. *)
Definition redirect (file flags mode std : Z) (open_msg : string) : UM K unit :=
  fd ← open file flags mode;
  let fd := i32 fd in
  (if fd <? 0 then write STDERR (lit open_msg) 21;; exit ecall (-1);; mret tt else mret tt);;
  r ← dup2 (u32 fd) std;
  (if r <? 0 then write STDERR (lit "dup2 failed\n") 21;; exit ecall (-1);; mret tt else mret tt);;
  close ecall (u32 fd);;
  mret tt.

(** The child: the end of argv, the redirections, and execv. *)
Definition child (tk : toks) : UM K Z :=
  (if argc tk <? ARGV_SIZE then umodify (fun m => store64 m (u64 (argv_at + 8 * argc tk)) 0)
   else uliftm Fault);;
  (if negb (redirect_stdin tk =? 0) then
     redirect (redirect_stdin tk)
       (Z.lor (Z.lor O_RDONLY O_CREAT) (if stdin_append tk then O_APPEND else 0)) 420 STDIN
       "reopen stdin failed\n"
   else mret tt);;
  (if negb (redirect_stdout tk =? 0) then
     redirect (redirect_stdout tk)
       (Z.lor (Z.lor (Z.lor O_WRONLY O_CREAT) O_TRUNC) (if stdout_append tk then O_APPEND else 0)) 438 STDOUT
       "reopen stdout failed\n"
   else mret tt);;
  a0 ← ugets (fun m => load64 m argv_at);
  execv ecall fr a0 argv_at;;
  mret (-1).

(** [Some c]: main returns c; [None]: on to the label reset. *)
Definition command (tk : toks) : UM K (option Z) :=
  match state tk with
  | InFile | OutFile => write STDERR (lit "usage: x </<</>/>> file\n") 25;; mret None
  | Args =>
      a0 ← ugets (fun m => load64 m argv_at);
      is_exit ← streq a0 (lit "exit");
      if (is_exit : bool) then mret (Some 0) else
      is_cd ← streq a0 (lit "cd");
      if (is_cd : bool) then
        if negb (argc tk =? 2) then write STDERR (lit "usage: cd [DIRECTORY]\n") 23;; mret None else
        a1 ← ugets (fun m => load64 m (u64 (argv_at + 8)));
        r ← chdir ecall a1;
        if r <? 0 then write STDERR (lit "cd failed\n") 11;; mret None else mret None
      else
        pid ← fork ecall;
        if pid <? 0 then write STDERR (lit "forked failed\n") 15;; mret None
        else if 0 <? pid then waitpid ecall pid;; mret None
        else c ← child tk; mret (Some c)
  end.

(** The label reset. *)
Definition reset (buffer : Z) : UM K unit :=
  umodify (fun m => memset m buffer 0 4096);;
  write STDOUT (lit "sh> ") 6;; mret tt.

(** ** The main loop

    [n] bounds the keys handled, [patience] the polls of the console for one. *)
Fixpoint main_loop (n patience : nat) (buffer ptr : Z) : UM K Z :=
  match n with
  | O => uliftm NoFuel
  | S k =>
      ch ← read_key patience;
      if ch =? 13 then
        write STDOUT (lit "\n") 2;;
        m ← ugets id;
        l ← uliftm (strlen fuel m buffer);
        if l =? 0 then write STDOUT (lit "sh> ") 6;; main_loop k patience buffer ptr else
        tk ← tokenize fuel buffer toks0;
        r ← command tk;
        match r with
        | Some c => mret c
        | None => reset buffer;; main_loop k patience buffer buffer
        end
      else if ch =? 127 then
        if negb (ptr =? buffer) then
          write STDOUT (lit "\033[1D \033[1D") 10;;
          let ptr' := u64 (ptr - 1) in
          umodify (fun m => upd m ptr' 0);;
          main_loop k patience buffer ptr'
        else main_loop k patience buffer ptr
      else
        umodify (fun m => upd m ptr ch);;
        write STDOUT ptr 2;;
        main_loop k patience buffer (u64 (ptr + 1))
  end.

Definition main (n patience : nat) : UM K Z :=
  write STDOUT (lit "sh> ") 5;;
  buffer ← sbrk ecall 4096;
  main_loop n patience buffer buffer.

End Shell.
End Shell.
