(* ===== verification/ShellSpec.v ===== *)
(** * What the shell does with a line

    A line is a list of characters; [words] cuts it the way strsep does, [parse]
    reads the words as arguments and redirections.  [tokenize] of Shell.v is
    shown to compute [parse] on the buffer in memory. *)
From S2P Require Import Prelude Mem CString CStringProps UserLib Shell.
Import CString UserLib Shell.

(** ** Lines and words as lists *)

(** strsep with the delimiter " " does not cut at the last character. *)
Fixpoint tokens (l : list Z) : list (list Z) :=
  match l with
  | [] => [[]]
  | x :: l' =>
      match l' with
      | [] => [[x]]
      | _ => if x =? 32 then [] :: tokens l'
             else match tokens l' with t :: ts => (x :: t) :: ts | [] => [[x]] end
      end
  end.

Definition is_word (t : list Z) : bool := match t with [] => false | _ => true end.
Definition words (l : list Z) : list (list Z) := List.filter is_word (tokens l).

(** Where strsep cuts: before a blank that is not the last character. *)
Lemma tokens_cut l : l <> [] ->
  (tokens l = [l] /\ (forall i, (i + 1 < length l)%nat -> l !! i <> Some 32)) \/
  exists t r, l = t ++ 32 :: r /\ r <> [] /\ tokens l = t :: tokens r /\
    (forall i, (i < length t)%nat -> t !! i <> Some 32).
Proof.
  induction l as [|x l IH]; intros Hl; [done|]. cbn [tokens]. destruct l as [|y l].
  { left. split; [done|]. cbn. lia. }
  destruct (Z.eqb_spec x 32) as [->|Hx].
  { right. exists [], (y :: l). split; [done|]. split; [done|]. split; [done|]. cbn. lia. }
  destruct (IH ltac:(done)) as [(E & Hno)|(t & r & -> & Hr & E & Hno)]; rewrite E.
  - left. split; [done|]. intros [|i] Hi; cbn; [congruence|]. apply Hno. cbn in *. lia.
  - right. exists (x :: t), r. split; [done|]. split; [done|]. split; [done|].
    intros [|i] Hi; cbn; [congruence|]. apply Hno. cbn in *. lia.
Qed.

(** Arguments, the two redirections with their append flags, and what the next
    word is taken for. *)
Record parsed : Type := mkParsed {
  p_args : list (list Z); p_in : option (list Z); p_inapp : bool;
  p_out : option (list Z); p_outapp : bool; p_state : sh_state }.

Definition parsed0 : parsed := mkParsed [] None false None false Args.

(** No room in an array of 64 is [None]. *)
Definition add_arg (a : list Z) (p : parsed) : option parsed :=
  if Z.of_nat (length (p_args p)) <? ARGV_SIZE
  then Some (mkParsed (p_args p ++ [a]) (p_in p) (p_inapp p) (p_out p) (p_outapp p) Args) else None.

Definition parse_word (p : parsed) (t : list Z) : option parsed :=
  match p_state p with
  | Args =>
      if decide (t = [62; 62]) then Some (mkParsed (p_args p) (p_in p) (p_inapp p) (p_out p) true OutFile)
      else if decide (t = [62]) then Some (mkParsed (p_args p) (p_in p) (p_inapp p) (p_out p) false OutFile)
      else if decide (t = [60; 60]) then Some (mkParsed (p_args p) (p_in p) true (p_out p) (p_outapp p) InFile)
      else if decide (t = [60]) then Some (mkParsed (p_args p) (p_in p) false (p_out p) (p_outapp p) InFile)
      else match t with
           | 62 :: t' | 60 :: t' => add_arg t' p
           | _ => add_arg t p
           end
  | InFile => Some (mkParsed (p_args p) (Some t) (p_inapp p) (p_out p) (p_outapp p) Args)
  | OutFile => Some (mkParsed (p_args p) (p_in p) (p_inapp p) (Some t) (p_outapp p) Args)
  end.

Fixpoint parse_words (p : parsed) (ts : list (list Z)) : option parsed :=
  match ts with
  | [] => Some p
  | t :: ts' => p' ← parse_word p t; parse_words p' ts'
  end.
Definition parse (l : list Z) : option parsed := parse_words parsed0 (words l).

(** A word that starts with a redirection character is one of the four
    redirections; the comment in sh.c means [>f] to be a redirection to f, and
    the code makes f an argument. *)
Definition spaced (t : list Z) : Prop :=
  head t = Some 62 \/ head t = Some 60 -> t ∈ [[62]; [62; 62]; [60]; [60; 60]].

(** The command of a line whose redirections stand as words of their own: every
    other word is an argument, or the file of the redirection before it. *)
Definition command_word (p : parsed) (t : list Z) : option parsed :=
  match p_state p with
  | Args =>
      if decide (t = [62; 62]) then Some (mkParsed (p_args p) (p_in p) (p_inapp p) (p_out p) true OutFile)
      else if decide (t = [62]) then Some (mkParsed (p_args p) (p_in p) (p_inapp p) (p_out p) false OutFile)
      else if decide (t = [60; 60]) then Some (mkParsed (p_args p) (p_in p) true (p_out p) (p_outapp p) InFile)
      else if decide (t = [60]) then Some (mkParsed (p_args p) (p_in p) false (p_out p) (p_outapp p) InFile)
      else add_arg t p
  | InFile => Some (mkParsed (p_args p) (Some t) (p_inapp p) (p_out p) (p_outapp p) Args)
  | OutFile => Some (mkParsed (p_args p) (p_in p) (p_inapp p) (Some t) (p_outapp p) Args)
  end.
Definition line_command (l : list Z) : option parsed :=
  foldl (fun p t => p ≫= fun p => command_word p t) (Some parsed0) (words l).

Lemma command_word_parse p t : spaced t -> command_word p t = parse_word p t.
Proof.
  intros Hs. unfold command_word, parse_word. destruct (p_state p); [|done..].
  destruct (decide (t = [62; 62])) as [|N1]; [done|]. destruct (decide (t = [62])) as [|N2]; [done|].
  destruct (decide (t = [60; 60])) as [|N3]; [done|]. destruct (decide (t = [60])) as [|N4]; [done|].
  assert (head t <> Some 62 /\ head t <> Some 60) as [H1 H2].
  { split; intros E; (assert (t ∈ [[62]; [62; 62]; [60]; [60; 60]]) as Hin by (apply Hs; tauto));
      rewrite !elem_of_cons, elem_of_nil in Hin; tauto. }
  destruct t as [|x t]; [done|]. cbn [head] in H1, H2.
  destruct (decide (x = 62)) as [->|D1]; [done|]. destruct (decide (x = 60)) as [->|D2]; [done|].
  destruct x as [|x|x]; try done. do 6 (destruct x as [x|x|]; try done).
Qed.

Lemma line_command_parse l : Forall spaced (words l) -> line_command l = parse l.
Proof.
  unfold line_command, parse. generalize parsed0 as p. induction (words l) as [|t ts IH]; intros p Hs; [done|].
  apply Forall_cons in Hs as [Ht Hs]. cbn [foldl parse_words]. change (Some p ≫= ?f) with (f p). cbv beta.
  rewrite (command_word_parse p t Ht). destruct (parse_word p t) as [p'|]; [by apply IH|].
  change (None ≫= (fun p' : parsed => parse_words p' ts)) with (@None parsed).
  clear. induction ts as [|x ts IH]; [done|]. exact IH.
Qed.

(** ** The memory of the shell *)

(** The literals of sh.c whose bytes matter, by their text in the source. *)
Definition literals : list (string * list Z) :=
  [(" ", [32]); (">>", [62; 62]); (">", [62]); ("<<", [60; 60]); ("<", [60]);
   ("exit", [101; 120; 105; 116]); ("cd", [99; 100]);
   ("\033[1D \033[1D", [27; 91; 49; 68; 32; 27; 91; 49; 68]);
   ("sh> ", [115; 104; 62; 32]); ("\n", [10])]%string.

(** The read-only section [rlo, rhi), the line buffer on the heap, and the
    locals on the stack above it; all of it is mapped ([usr]). *)
Record layout (usr : Z -> Prop) (fr : Frame) (lit : string -> Z) (ch_at argv_at rlo rhi buffer : Z) : Prop := {
  la_usr : forall x, rlo <= x < rhi \/ buffer <= x < buffer + 4096 \/ x = ch_at \/
    res_at fr <= x < res_at fr + 8 -> usr x;
  la_lo : 0 < rlo;
  la_rhi : rlo < rhi <= buffer;
  la_lits : Forall (fun '(s, l) => rlo <= lit s /\ lit s + Z.of_nat (length l) + 16 <= rhi) literals;
  la_ch : buffer + 4096 <= ch_at < 18446744073709551616;
  la_argv : buffer + 4096 <= argv_at /\ argv_at + 512 < 18446744073709551616;
  la_res : buffer + 4096 <= res_at fr /\ res_at fr + 8 < 18446744073709551616;
  la_envp : buffer + 4096 <= null_envp_at fr /\ null_envp_at fr + 8 < 18446744073709551616;
  la_ch_argv : ch_at < argv_at \/ argv_at + 512 <= ch_at;
  la_ch_res : ch_at < res_at fr \/ res_at fr + 8 <= ch_at;
  la_argv_res : argv_at + 512 <= res_at fr \/ res_at fr + 8 <= argv_at;
  la_argv_envp : argv_at + 512 <= null_envp_at fr \/ null_envp_at fr + 8 <= argv_at;
}.

(** ** Running the pieces of a program *)
Lemma ubind_ret {K A B} (m : UM K A) (k : A -> UM K B) u a u' :
  m u = Ret (Some a, u') -> (m ≫= k) u = k a u'.
Proof. intros H. unfold mbind, UM_bind. by rewrite H. Qed.

Lemma ubind_fault {K A B} (m : UM K A) (k : A -> UM K B) u :
  m u = Fault -> (m ≫= k) u = Fault.
Proof. intros H. unfold mbind, UM_bind. by rewrite H. Qed.

Lemma ulift_ret {K A} (o : outcome A) a (u : U K) : o = Ret a -> uliftm o u = Ret (Some a, u).
Proof. by intros ->. Qed.

Lemma bool_decide_ext_Z (x : Z) (P : Prop) `{Decision P} : (x = 0 <-> P) -> (x =? 0) = bool_decide P.
Proof. intros HP. destruct (Z.eqb_spec x 0); case_bool_decide; tauto. Qed.

Section Spec.
Context {K : Type}.
Variable usr : Z -> Prop.
Variable fr : Frame.
Variable lit : string -> Z.
Variables ch_at argv_at rlo rhi buffer : Z.
Variable fuel : nat.
Hypothesis lay : layout usr fr lit ch_at argv_at rlo rhi buffer.

Definition lits_ok (m : mem) : Prop := Forall (fun '(s, l) => cstr m (lit s) l) literals.

Lemma lits_ok_ext m m' :
  (forall x, rlo <= x < rhi -> m' x = m x) -> lits_ok m -> lits_ok m'.
Proof using lay.
  intros He H. unfold lits_ok in *. pose proof (la_lits _ _ _ _ _ _ _ _ lay) as Hl.
  rewrite Forall_forall in *. intros [s l] Hin. specialize (H _ Hin). specialize (Hl _ Hin).
  cbn in *. eapply cstr_ext; [|exact H]. intros x Hx. apply He. lia.
Qed.

Lemma lit_cstr s l m : lits_ok m -> (s, l) ∈ literals -> cstr m (lit s) l.
Proof using. intros H Hin. unfold lits_ok in H. rewrite Forall_forall in H. apply (H _ Hin). Qed.

(** The word [a] at [q], within the part of the buffer before [lim]. *)
Definition word_at (m : mem) (lim q : Z) (a : list Z) : Prop :=
  cstr m q a /\ buffer <= q /\ q + Z.of_nat (length a) < lim.

Definition opt_word (m : mem) (lim q : Z) (o : option (list Z)) : Prop :=
  match o with None => q = 0 | Some a => word_at m lim q a end.

(** [tk] and the array argv stand for [p]. *)
Record toks_rep (m : mem) (lim : Z) (tk : toks) (p : parsed) : Prop := {
  tr_argc : argc tk = Z.of_nat (length (p_args p));
  tr_max : Z.of_nat (length (p_args p)) <= ARGV_SIZE;
  tr_args : forall i a, p_args p !! i = Some a ->
    word_at m lim (load64 m (argv_at + 8 * Z.of_nat i)) a;
  tr_in : opt_word m lim (redirect_stdin tk) (p_in p);
  tr_inapp : stdin_append tk = p_inapp p;
  tr_out : opt_word m lim (redirect_stdout tk) (p_out p);
  tr_outapp : stdout_append tk = p_outapp p;
  tr_state : state tk = p_state p;
}.

Lemma word_at_ext m m' lim lim' q a :
  lim <= lim' -> (forall x, buffer <= x < lim -> m' x = m x) ->
  word_at m lim q a -> word_at m' lim' q a.
Proof using.
  intros Hl He (H & Hq & Hq'). split; [|lia]. eapply cstr_ext; [|exact H]. intros x Hx. apply He. lia.
Qed.

Lemma opt_word_ext m m' lim lim' q o :
  lim <= lim' -> (forall x, buffer <= x < lim -> m' x = m x) ->
  opt_word m lim q o -> opt_word m' lim' q o.
Proof using. intros Hl He. destruct o; [by apply word_at_ext|done]. Qed.

Lemma toks_rep_ext m m' lim lim' tk p :
  lim <= lim' -> (forall x, buffer <= x < lim -> m' x = m x) ->
  (forall x, argv_at <= x < argv_at + 512 -> m' x = m x) ->
  toks_rep m lim tk p -> toks_rep m' lim' tk p.
Proof using.
  intros Hl He Ha [H1 H2 H3 H4 H5 H6 H7 H8]. split; try done.
  - intros i a Hi. apply lookup_lt_Some in Hi as Hlt. unfold ARGV_SIZE in H2.
    replace (load64 m' (argv_at + 8 * Z.of_nat i)) with (load64 m (argv_at + 8 * Z.of_nat i)).
    + eapply word_at_ext; [done|done|]. by apply H3.
    + apply load_le_ext. intros x Hx. symmetry. apply Ha. lia.
  - by eapply opt_word_ext.
  - by eapply opt_word_ext.
Qed.

(** ** One word *)
Lemma shell_streq_ok u s1 s2 l1 l2 :
  cstr (umem u) s1 l1 -> cstr (umem u) s2 l2 -> (length l2 < fuel)%nat ->
  streq (K:=K) fuel s1 s2 u = Ret (Some (bool_decide (l1 = l2)), u).
Proof using.
  intros H1 H2 Hf. unfold streq.
  rewrite (ubind_ret _ _ u (umem u) u) by done.
  rewrite (ubind_ret _ _ u (list_cmp l1 l2) u).
  2:{ unfold uliftm. by rewrite (strcmp_cmp _ _ _ _ l1 l2) by (done || lia). }
  by rewrite (bool_decide_ext_Z _ (l1 = l2)) by (apply list_cmp_0; [apply H1|apply H2]).
Qed.

(** What a step of the loop leaves: the new argument vector, and nothing else
    outside [argv]. *)
Definition argv_only (u u' : U K) : Prop :=
  uk u' = uk u /\ rand_seed u' = rand_seed u /\
  (forall x, ~ (argv_at <= x < argv_at + 512) -> umem u' x = umem u x).

(** argv gets the word [a] at [q] as its next element. *)
Lemma push_arg_ok u tk p lim q a :
  toks_rep (umem u) lim tk p -> word_at (umem u) lim q a -> lim <= buffer + 4096 ->
  match add_arg a p with
  | None => push_arg (K:=K) argv_at tk q u = Fault
  | Some p' => exists tk' u', push_arg argv_at tk q u = Ret (Some tk', u') /\
      toks_rep (umem u') lim tk' p' /\ argv_only u u'
  end.
Proof using lay.
  intros R Hw Hlim. unfold add_arg, push_arg. rewrite (tr_argc _ _ _ _ R).
  destruct (Z.ltb_spec (Z.of_nat (length (p_args p))) ARGV_SIZE) as [Hlt|]; [|done].
  unfold ARGV_SIZE in Hlt. pose proof (la_argv _ _ _ _ _ _ _ _ lay) as La.
  pose proof (la_lo _ _ _ _ _ _ _ _ lay) as Lb. pose proof (la_rhi _ _ _ _ _ _ _ _ lay) as Lc.
  rewrite u64_small by lia. eexists _, _. split; [reflexivity|]. cbn [umem set_umem uk].
  set (m' := store64 _ _ _).
  assert (forall x, ~ (argv_at + 8 * Z.of_nat (length (p_args p)) <= x <
      argv_at + 8 * Z.of_nat (length (p_args p)) + 8) -> m' x = umem u x) as Hm.
  { intros x Hx. apply store_le_outside. lia. }
  split; [|split; [done|split; [done|]]].
  2:{ intros x Hx. apply Hm. lia. }
  destruct R as [H1 H2 H3 H4 H5 H6 H7 H8]. destruct Hw as (Hc & Hq).
  assert (forall x, buffer <= x < lim -> m' x = umem u x) as Hbuf by (intros x Hx; apply Hm; lia).
  split; cbn [p_args p_in p_inapp p_out p_outapp p_state argc redirect_stdin stdin_append
              redirect_stdout stdout_append state]; try done.
  - rewrite length_app. cbn. lia.
  - rewrite length_app. unfold ARGV_SIZE. cbn. lia.
  - intros i b Hi. apply lookup_app_Some in Hi as [Hi|[Hge Hi]].
    + apply lookup_lt_Some in Hi as Hl. unfold load64. rewrite (load_le_ext 8 m' (umem u)).
      * by eapply word_at_ext; [done|exact Hbuf|apply H3].
      * intros x Hx. apply Hm. lia.
    + apply list_lookup_singleton_Some in Hi as [Hi <-].
      replace i with (length (p_args p)) by lia. unfold m', load64, store64. rewrite load_store_same.
      * by eapply word_at_ext; [done|exact Hbuf|split].
      * destruct Hc. lia.
  - by eapply opt_word_ext; [done|exact Hbuf|].
  - by eapply opt_word_ext; [done|exact Hbuf|].
Qed.

Lemma tok_step_ok u tk p lim q x t :
  lits_ok (umem u) -> toks_rep (umem u) lim tk p -> word_at (umem u) lim q (x :: t) ->
  lim <= buffer + 4096 -> (4 < fuel)%nat ->
  match parse_word p (x :: t) with
  | None => tok_step (K:=K) lit argv_at fuel tk q x u = Fault
  | Some p' => exists tk' u', tok_step lit argv_at fuel tk q x u = Ret (Some tk', u') /\
      toks_rep (umem u') lim tk' p' /\ argv_only u u'
  end.
Proof using lay.
  intros HL R Hw Hlim Hf. pose proof R as [H1 H2 H3 H4 H5 H6 H7 H8].
  assert (argv_only u u) as Hsame by done.
  assert (word_at (umem u) lim (u64 (q + 1)) t) as Hw'.
  { destruct Hw as (Hc & Hq & Hq'). apply cstr_cons in Hc as (_ & _ & -> & Hc).
    split; [done|]. cbn [length] in Hq'. lia. }
  unfold tok_step, parse_word. rewrite H8. destruct (p_state p).
  2-3: eexists _, u; (split; [reflexivity|]); split; [by split|done].
  assert (forall s l, (s, l) ∈ literals -> (length l < fuel)%nat ->
    streq (K:=K) fuel q (lit s) u = Ret (Some (bool_decide (x :: t = l)), u)) as Heq.
  { intros s l Hin Hl. apply shell_streq_ok; [apply Hw|by apply lit_cstr|done]. }
  assert (forall a q', word_at (umem u) lim q' a ->
    match add_arg a p with
    | None => push_arg (K:=K) argv_at tk q' u = Fault
    | Some p' => exists tk' u', push_arg argv_at tk q' u = Ret (Some tk', u') /\
        toks_rep (umem u') lim tk' p' /\ argv_only u u'
    end) as Hpush by (intros a q' Hq'; by apply (push_arg_ok u tk p lim q' a)).
  destruct (Z.eqb_spec x 62) as [->|H62]; [|destruct (Z.eqb_spec x 60) as [->|H60]].
  - rewrite (ubind_ret _ _ u _ u (Heq ">>"%string [62; 62] ltac:(set_solver) ltac:(cbn; lia))).
    case_bool_decide; [rewrite decide_True by done|rewrite decide_False by done].
    { eexists _, u. split; [reflexivity|]. by split. }
    rewrite (ubind_ret _ _ u _ u (Heq ">"%string [62] ltac:(set_solver) ltac:(cbn; lia))).
    case_bool_decide; [rewrite decide_True by done|rewrite decide_False by done].
    { eexists _, u. split; [reflexivity|]. by split. }
    rewrite !decide_False by congruence. by apply Hpush.
  - rewrite (decide_False (P := 60 :: t = [62; 62])), (decide_False (P := 60 :: t = [62])) by congruence.
    rewrite (ubind_ret _ _ u _ u (Heq "<<"%string [60; 60] ltac:(set_solver) ltac:(cbn; lia))).
    case_bool_decide; [rewrite decide_True by done|rewrite decide_False by done].
    { eexists _, u. split; [reflexivity|]. by split. }
    rewrite (ubind_ret _ _ u _ u (Heq "<"%string [60] ltac:(set_solver) ltac:(cbn; lia))).
    case_bool_decide; [rewrite decide_True by done|rewrite decide_False by done].
    { eexists _, u. split; [reflexivity|]. by split. }
    by apply Hpush.
  - rewrite !decide_False by congruence. specialize (Hpush _ _ Hw).
    destruct x as [|x|x]; try exact Hpush.
    do 6 (try destruct x as [x|x|]; try exact Hpush; try (by contradict H62); try (by contradict H60)).
Qed.

(** ** The whole line *)
Lemma blank_match l i : match_at [32] l i <-> l !! i = Some 32.
Proof using.
  unfold match_at. cbn [length]. rewrite <- (Nat.add_0_r i) at 2. rewrite <- lookup_drop.
  destruct (drop i l) as [|x r]; cbn; rewrite ?take_0; split; congruence.
Qed.

(** strsep at a blank: the first token and the rest. *)
Lemma strsep_tokens m s l :
  cstr m s l -> cstr m (lit " ") [32] -> l <> [] -> (length l < fuel)%nat ->
  (tokens l = [l] /\ strsep fuel m s (lit " ") = Ret (s, 0, m)) \/
  exists t r m', l = t ++ 32 :: r /\ r <> [] /\ tokens l = t :: tokens r /\
    strsep fuel m s (lit " ") = Ret (s, s + Z.of_nat (length t + 1), m') /\
    cstr m' s t /\ cstr m' (s + Z.of_nat (length t + 1)) r /\
    (forall x, x <> s + Z.of_nat (length t) -> m' x = m x).
Proof using.
  intros Hs Hb Hl Hf. assert (1 < fuel)%nat by (destruct l; [done|cbn in Hf; lia]).
  destruct (tokens_cut l Hl) as [(E & Hno)|(t & r & -> & Hr & E & Hno)].
  - left. split; [done|]. unfold strsep. erewrite strlen_ok; [|exact Hb|cbn; lia]. cbn [mbind outcome_bind].
    pose proof (strsep_loop_none fuel m s (lit " ") l [32] 0 Hs Hb) as E'. rewrite Z.add_0_r in E'.
    apply E'; [destruct l; [done|]; cbn; lia| |lia]. intros i _ Hi. rewrite blank_match. by apply Hno.
  - right. destruct r as [|y r]; [done|]. rewrite length_app in Hf. cbn [length] in Hf.
    unfold strsep. erewrite strlen_ok; [|exact Hb|cbn; lia]. cbn [mbind outcome_bind].
    pose proof (strsep_loop_found fuel m s (lit " ") _ [32] (length t) 0 Hs Hb) as E'.
    rewrite Z.add_0_r in E'.
    destruct (cstr_cut m s _ (length t) 1 Hs) as (H1 & H2 & H3); [lia|rewrite length_app; cbn; lia|].
    rewrite take_app_length in H1. rewrite <- drop_drop, drop_app_length in H2. cbn [drop] in H2.
    eexists t, (y :: r), _. split; [done|]. split; [done|]. split; [done|]. split.
    { rewrite E'; [|rewrite length_app; cbn; lia| | lia| |lia].
      - cbn [length]. rewrite Nat2Z.inj_add, Z.add_assoc. reflexivity.
      - apply blank_match. by rewrite list_lookup_middle.
      - intros i Hi. rewrite blank_match, lookup_app_l by lia. apply Hno. lia. }
    split; [done|]. rewrite Nat2Z.inj_add, Z.add_assoc. split; [done|].
    intros x Hx. apply H3. lia.
Qed.

(** What tokenize leaves unchanged. *)
Definition line_only (u u' : U K) : Prop :=
  uk u' = uk u /\ rand_seed u' = rand_seed u /\
  (forall x, ~ (argv_at <= x < argv_at + 512) -> ~ (buffer <= x < buffer + 4096) -> umem u' x = umem u x).

(** The loop body after strsep, on the token [t]. *)
Lemma after_strsep n t ptr ptr' lim tk p u :
  lits_ok (umem u) -> toks_rep (umem u) ptr tk p -> cstr (umem u) ptr t ->
  buffer <= ptr -> ptr + Z.of_nat (length t) < lim -> lim <= buffer + 4096 -> (4 < fuel)%nat ->
  match (if is_word t then parse_word p t else Some p) with
  | None => (c ← ugets (fun m => m ptr);
             if c =? 0 then tokenize (K:=K) lit argv_at fuel n ptr' tk
             else tk' ← tok_step lit argv_at fuel tk ptr c; tokenize lit argv_at fuel n ptr' tk') u = Fault
  | Some p' => exists tk' u',
      (c ← ugets (fun m => m ptr);
       if c =? 0 then tokenize lit argv_at fuel n ptr' tk
       else tk' ← tok_step lit argv_at fuel tk ptr c; tokenize lit argv_at fuel n ptr' tk') u =
      tokenize lit argv_at fuel n ptr' tk' u' /\
      toks_rep (umem u') lim tk' p' /\ argv_only u u'
  end.
Proof using lay.
  intros HL R Hs Hlo Hhi Hlim Hf. rewrite (ubind_ret _ _ u (umem u ptr) u) by done.
  assert (toks_rep (umem u) lim tk p) as R' by (eapply toks_rep_ext; [|done|done|exact R]; lia).
  destruct t as [|x t]; cbn [is_word].
  { rewrite (cstr_nil _ _ Hs). exists tk, u. by split. }
  pose proof (tok_step_ok u tk p lim ptr x t HL R' (conj Hs (conj Hlo Hhi)) Hlim Hf) as Hstep.
  apply cstr_cons in Hs as Hx. destruct Hx as (-> & Hx & _).
  destruct (Z.eqb_spec x 0); [lia|].
  destruct (parse_word p (x :: t)) as [p'|].
  - destruct Hstep as (tk' & u' & E & R1 & Hu). exists tk', u'. split; [|done]. by rewrite (ubind_ret _ _ _ _ _ E).
  - by apply ubind_fault.
Qed.

Lemma parse_words_cons p t ts :
  parse_words p (List.filter is_word (t :: ts)) =
  (if is_word t then parse_word p t else Some p) ≫= fun p' => parse_words p' (List.filter is_word ts).
Proof using. cbn [List.filter]. by destruct (is_word t). Qed.

Lemma line_only_trans u1 u2 u3 : line_only u1 u2 -> line_only u2 u3 -> line_only u1 u3.
Proof using. intros (H1 & H2 & H3) (H4 & H5 & H6). split; [congruence|]. split; [congruence|]. intros. rewrite H6, H3; done. Qed.

Lemma argv_line_only u u' : argv_only u u' -> line_only u u'.
Proof using. intros (? & ? & H). split; [done|]. split; [done|]. auto. Qed.

Lemma line_only_lits u u' : lits_ok (umem u) -> line_only u u' -> lits_ok (umem u').
Proof using lay.
  intros HL (_ & _ & H). eapply lits_ok_ext; [|exact HL]. intros x Hx.
  pose proof (la_rhi _ _ _ _ _ _ _ _ lay). pose proof (la_argv _ _ _ _ _ _ _ _ lay). apply H; lia.
Qed.

Lemma tokenize_ok n : forall l ptr tk p u,
  lits_ok (umem u) -> toks_rep (umem u) ptr tk p -> cstr (umem u) ptr l -> l <> [] ->
  buffer <= ptr -> ptr + Z.of_nat (length l) < buffer + 4096 ->
  (length l < fuel)%nat -> (4 < fuel)%nat -> (length l <= n)%nat ->
  match parse_words p (words l) with
  | None => tokenize (K:=K) lit argv_at fuel n ptr tk u = Fault
  | Some p' => exists tk' u', tokenize lit argv_at fuel n ptr tk u = Ret (Some tk', u') /\
      toks_rep (umem u') (buffer + 4096) tk' p' /\ line_only u u'
  end.
Proof using lay.
  induction n as [|n IH]; intros l ptr tk p u HL R Hs Hl Hlo Hhi Hf Hf4 Hn; [by destruct l; cbn in Hn; [|lia]|].
  pose proof (la_lo _ _ _ _ _ _ _ _ lay) as Lb. pose proof (la_rhi _ _ _ _ _ _ _ _ lay) as Lc.
  pose proof (la_argv _ _ _ _ _ _ _ _ lay) as La.
  cbn [tokenize]. destruct (Z.eqb_spec ptr 0); [lia|].
  rewrite (ubind_ret _ _ u (umem u) u) by done. unfold words.
  destruct (strsep_tokens (umem u) ptr l Hs) as [(Et & E)|(t & r & m' & -> & Hr & Et & E & Ht & Hrest & Hm)];
    [apply lit_cstr; [done|set_solver]|done|done| |]; rewrite Et, parse_words_cons, (ubind_ret _ _ u _ u (ulift_ret _ _ u E)).
  all: match goal with |- context [umodify (fun _ => ?m)] => rewrite (ubind_ret _ _ u tt (set_umem m u)) by done end.
  - pose proof (after_strsep n l ptr 0 (buffer + 4096) tk p u HL R Hs Hlo Hhi ltac:(lia) Hf4) as Hstep.
    replace (set_umem (umem u) u) with u by (by destruct u). cbn [List.filter].
    destruct (if is_word l then parse_word p l else Some p) as [p'|]; [|done].
    destruct Hstep as (tk' & u' & E' & R' & Hu). exists tk', u'. rewrite E'.
    split; [by destruct n|]. split; [done|by apply argv_line_only].
  - set (u1 := set_umem m' u). set (ptr' := ptr + Z.of_nat (length t + 1)) in *.
    rewrite length_app in *. cbn [length] in *.
    assert (line_only u u1) as Hu1 by (split; [done|]; split; [done|]; intros x Hx Hx'; apply Hm; lia).
    assert (lits_ok m') as HL1 by exact (line_only_lits u u1 HL Hu1).
    assert (toks_rep m' ptr tk p) as R1.
    { apply (toks_rep_ext (umem u) m' ptr ptr); [lia|intros x Hx; apply Hm; lia..|done]. }
    pose proof (after_strsep n t ptr ptr' ptr' tk p u1 HL1 R1 Ht Hlo ltac:(lia) ltac:(lia) Hf4) as Hstep.
    destruct (if is_word t then parse_word p t else Some p) as [p1|]; [|done].
    destruct Hstep as (tk1 & u2 & -> & R2 & Hu2). cbn [mbind option_bind].
    apply argv_line_only in Hu2 as Hu2'. pose proof Hu2 as (_ & _ & Hm2).
    assert (cstr (umem u2) ptr' r) as Hr2 by (eapply cstr_ext; [|exact Hrest]; intros x Hx; apply Hm2; lia).
    specialize (IH r ptr' tk1 p1 u2 (line_only_lits u1 u2 HL1 Hu2') R2 Hr2 Hr
                  ltac:(lia) ltac:(lia) ltac:(lia) Hf4 ltac:(lia)). unfold words in IH.
    destruct (parse_words p1 _) as [p2|]; [|done]. destruct IH as (tk2 & u3 & E3 & R3 & Hu3).
    exists tk2, u3. split; [done|]. split; [done|]. eauto using line_only_trans.
Qed.

End Spec.
