(* ===== verification/ShellRun.v ===== *)
(** * The shell at the console

    [Console] states what the shell relies on of the kernel: a poll of the
    console takes the next character, a write shows the bytes up to the first 0,
    fork and waitpid leave the memory of the process alone.  Against it the
    main loop of the shell is shown to edit a line, and to run it. *)
From S2P Require Import Prelude Mem CString CStringProps UserLib Shell ShellSpec.
Import CString UserLib Shell.

Class Console {K : Type} (ecall : Z -> list Z -> M (mem * K) (option Z)) (usr : Z -> Prop) := {
  keys : K -> list Z;
  screen : K -> list Z;
  con_lseek : forall m k res, (forall x, res <= x < res + 8 -> usr x) ->
    exists v m' k', ecall SYS_LSEEK [0; 0; 0; res; 0; 0; 0] (m, k) = Ret (Some v, (m', k')) /\
      keys k' = keys k /\ screen k' = screen k /\ (forall x, ~ (res <= x < res + 8) -> m' x = m x);
  con_read : forall m k buf c ks, usr buf -> keys k = c :: ks ->
    exists v k', ecall SYS_READ [0; buf; 1; 0; 0; 0; 0] (m, k) = Ret (Some v, (upd m buf c, k')) /\
      keys k' = ks /\ screen k' = screen k;
  con_write : forall m k fd buf n, fd = 1 \/ fd = 2 -> (forall x, buf <= x < buf + n -> usr x) ->
    exists v k', ecall SYS_WRITE [fd; buf; n; 0; 0; 0; 0] (m, k) = Ret (Some v, (m, k')) /\
      keys k' = keys k /\ screen k' = screen k ++ shown (Z.to_nat n) m buf;
  con_fork : forall m k, exists v k',
    ecall SYS_FORK [0; 0; 0; 0; 0; 0; 0] (m, k) = Ret (Some v, (m, k'));
  con_waitpid : forall m k pid, exists v k',
    ecall SYS_WAITPID [u64 pid; 0; 0; 0; 0; 0; 0] (m, k) = Ret (Some v, (m, k'));
}.

(** ** The line editor *)

(** A key typed; 127 erases. *)
Definition edit (l : list Z) (c : Z) : list Z := if c =? 127 then take (length l - 1) l else l ++ [c].

(** What the terminal is sent for a key. *)
Definition echo (l : list Z) (c : Z) : list Z :=
  if c =? 127 then match l with [] => [] | _ => [27; 91; 49; 68; 32; 27; 91; 49; 68] end else [c].

Fixpoint echoes (l cs : list Z) : list Z :=
  match cs with [] => [] | c :: cs' => echo l c ++ echoes (edit l c) cs' end.

(** A key that the shell puts in the line, and a poll without a key. *)
Definition plain (c : Z) : Prop := 0 < c < 255 /\ c <> 13.
Definition idle (c : Z) : Prop := c = 255 \/ c = 0.

(** Keys with the empty polls before each. *)
Definition stream (ts : list (list Z * Z)) : list Z := concat ((fun t => t.1 ++ [t.2]) <$> ts).

Section Run.
Context {K : Type}.
Variable ecall : Z -> list Z -> M (mem * K) (option Z).
Variable usr : Z -> Prop.
Context `{C : !Console ecall usr}.
Variable fr : Frame.
Variable lit : string -> Z.
Variables ch_at argv_at rlo rhi buffer : Z.
Variable fuel : nat.
Hypothesis lay : layout usr fr lit ch_at argv_at rlo rhi buffer.

(** The line [l] in the buffer, the rest of the buffer zero. *)
Record line_at (m : mem) (l : list Z) : Prop := {
  li_lits : lits_ok lit m;
  li_char : Forall (fun c => 0 < c < 256) l;
  li_len : Z.of_nat (length l) < 4095;
  li_bytes : bytes_at m buffer l;
  li_zero : forall x, buffer + Z.of_nat (length l) <= x < buffer + 4096 -> m x = 0;
}.

Lemma line_at_ext m m' l :
  (forall x, rlo <= x < rhi \/ buffer <= x < buffer + 4096 -> m' x = m x) -> line_at m l -> line_at m' l.
Proof using lay.
  intros He [H1 H2 H3 H4 H5]. split; try done.
  - eapply lits_ok_ext; [done| |exact H1]. auto.
  - eapply bytes_at_ext; [|exact H4]. intros x Hx. apply He. lia.
  - intros x Hx. rewrite He by lia. auto.
Qed.

Lemma line_cstr m l : line_at m l -> cstr m buffer l.
Proof using lay.
  intros [H1 H2 H3 H4 H5]. pose proof (la_lo _ _ _ _ _ _ _ _ lay). pose proof (la_rhi _ _ _ _ _ _ _ _ lay).
  pose proof (la_ch _ _ _ _ _ _ _ _ lay). split; try done; [lia|lia|]. apply H5. lia.
Qed.

(** ** Calls *)
Lemma write_ok u fd buf n :
  fd = 1 \/ fd = 2 -> (forall x, buf <= x < buf + n -> usr x) ->
  exists v u', write ecall fd buf n u = Ret (Some v, u') /\ umem u' = umem u /\
    keys (uk u') = keys (uk u) /\ screen (uk u') = screen (uk u) ++ shown (Z.to_nat n) (umem u) buf.
Proof using.
  intros Hfd Hu. destruct (con_write (umem u) (uk u) fd buf n Hfd Hu) as (v & k' & E & Hk & Hs).
  unfold write, sys_write, syscall. rewrite E. by eexists _, _.
Qed.

(** [u'] differs from [u] in [ch] and lseek's [res] only, outside the kernel. *)
Definition key_only (u u' : U K) : Prop :=
  screen (uk u') = screen (uk u) /\
  (forall x, x <> ch_at -> ~ (res_at fr <= x < res_at fr + 8) -> umem u' x = umem u x).

Lemma lseek_ok u : exists v u', lseek ecall fr STDIN 0 SEEK_SET u = Ret (Some v, u') /\
  keys (uk u') = keys (uk u) /\ key_only u u'.
Proof using lay.
  destruct (con_lseek (umem u) (uk u) (res_at fr)) as (v & m' & k' & E & Hk & Hs & Hm).
  { intros x Hx. apply (la_usr _ _ _ _ _ _ _ _ lay). auto. }
  set (u1 := mkU m' k' (rand_seed u)).
  assert (key_only u u1) as Hu by (split; [done|]; intros x _ Hx; by apply Hm).
  unfold lseek. rewrite (ubind_ret _ _ u (i64 v) u1).
  2:{ unfold sys_lseek, syscall, STDIN, SEEK_SET. change (u64 0) with 0. by rewrite E. }
  cbn zeta. destruct (_ <? 0); by eexists _, u1.
Qed.

Lemma read_ok u c ks : keys (uk u) = c :: ks ->
  exists v u', read ecall STDIN ch_at 1 u = Ret (Some v, u') /\
    keys (uk u') = ks /\ umem u' ch_at = c /\ key_only u u'.
Proof using lay.
  intros Hk. destruct (con_read (umem u) (uk u) ch_at c ks) as (v & k' & E & Hk' & Hs); [|done|].
  { apply (la_usr _ _ _ _ _ _ _ _ lay). auto. }
  unfold read, sys_read, syscall, STDIN. rewrite E. eexists _, _. split; [reflexivity|]. cbn [uk umem].
  split; [done|]. split; [by rewrite upd_eq|]. split; [done|]. intros x Hx _. by apply upd_ne.
Qed.

Lemma key_only_trans u1 u2 u3 : key_only u1 u2 -> key_only u2 u3 -> key_only u1 u3.
Proof using. intros [H1 H2] [H3 H4]. split; [congruence|]. intros. rewrite H4, H2; done. Qed.

Lemma read_key_loop_ok n : forall ws u c ks,
  Forall idle ws -> ~ idle c -> keys (uk u) = ws ++ c :: ks -> idle (umem u ch_at) -> (length ws < n)%nat ->
  exists u', read_key_loop ecall fr ch_at n u = Ret (Some c, u') /\ keys (uk u') = ks /\ key_only u u'.
Proof using lay.
  induction n as [|n IH]; intros ws u c ks Hi Hc Hk Hch Hn; [lia|]. cbn [read_key_loop].
  rewrite (ubind_ret _ _ u (umem u ch_at) u) by done.
  replace ((umem u ch_at =? 255) || (umem u ch_at =? 0)) with true
    by (destruct Hch as [->| ->]; done).
  destruct (lseek_ok u) as (v & u1 & E1 & Hk1 & Hu1). rewrite (ubind_ret _ _ u v u1) by done.
  destruct ws as [|i ws]; cbn [app] in Hk.
  - destruct (read_ok u1 c ks) as (v' & u2 & E2 & Hk2 & Hc2 & Hu2); [congruence|].
    rewrite (ubind_ret _ _ u1 v' u2) by done. exists u2. split; [|eauto using key_only_trans].
    assert ((c =? 255) || (c =? 0) = false) as Hb by (unfold idle in Hc; zcases; tauto).
    destruct n; cbn [read_key_loop]; rewrite (ubind_ret _ _ u2 c u2) by (by rewrite <- Hc2); by rewrite Hb.
  - apply Forall_cons in Hi as [Hi His]. cbn [length] in Hn.
    destruct (read_ok u1 i (ws ++ c :: ks)) as (v' & u2 & E2 & Hk2 & Hc2 & Hu2); [congruence|].
    rewrite (ubind_ret _ _ u1 v' u2) by done.
    destruct (IH ws u2 c ks) as (u3 & E3 & Hk3 & Hu3); [done|done|done|by rewrite Hc2|lia|].
    exists u3. eauto using key_only_trans.
Qed.

Lemma read_key_ok n ws u c ks :
  Forall idle ws -> ~ idle c -> keys (uk u) = ws ++ c :: ks -> (length ws < n)%nat ->
  exists u', read_key ecall fr ch_at n u = Ret (Some c, u') /\ keys (uk u') = ks /\ key_only u u'.
Proof using lay.
  intros Hi Hc Hk Hn. unfold read_key.
  set (u1 := set_umem (upd (umem u) ch_at 0) u). rewrite (ubind_ret _ _ u tt u1) by done.
  destruct (read_key_loop_ok n ws u1 c ks) as (u2 & E & Hk2 & Hu2); [done|done|done| |done|].
  { right. apply upd_eq. }
  exists u2. split; [done|]. split; [done|]. eapply key_only_trans; [|exact Hu2].
  split; [done|]. intros x Hx _. by apply upd_ne.
Qed.

Lemma key_only_line u u' l : key_only u u' -> line_at (umem u) l -> line_at (umem u') l.
Proof using lay.
  intros [_ H] Hl. eapply line_at_ext; [|exact Hl]. intros x Hx.
  pose proof (la_ch _ _ _ _ _ _ _ _ lay). pose proof (la_res _ _ _ _ _ _ _ _ lay).
  pose proof (la_rhi _ _ _ _ _ _ _ _ lay). apply H; lia.
Qed.

(** ** One key *)
Lemma line_put m l c : line_at m l -> plain c -> Z.of_nat (length l) < 4094 ->
  line_at (upd m (buffer + Z.of_nat (length l)) c) (l ++ [c]).
Proof using lay.
  intros [H1 H2 H3 H4 H5] Hc Hl. pose proof (la_rhi _ _ _ _ _ _ _ _ lay).
  assert (length (l ++ [c]) = S (length l)) as Hlen by (rewrite length_app; cbn; lia). split.
  - eapply lits_ok_ext; [done| |exact H1]. intros x Hx. apply upd_ne. lia.
  - apply Forall_app. split; [done|]. apply Forall_singleton. unfold plain in Hc. lia.
  - lia.
  - apply bytes_at_app. split.
    + eapply bytes_at_ext; [|exact H4]. intros x Hx. apply upd_ne. lia.
    + apply bytes_at_cons. split; [apply upd_eq|]. intros i x. by rewrite lookup_nil.
  - intros x Hx. rewrite upd_ne by lia. apply H5. lia.
Qed.

Lemma line_erase m l : line_at m l -> l <> [] ->
  line_at (upd m (buffer + Z.of_nat (length l) - 1) 0) (take (length l - 1) l).
Proof using lay.
  intros [H1 H2 H3 H4 H5] Hl. pose proof (la_rhi _ _ _ _ _ _ _ _ lay).
  assert (1 <= length l)%nat as H1l by (destruct l; [done|cbn; lia]).
  assert (length (take (length l - 1) l) = length l - 1)%nat as Hlen by (rewrite length_take; lia). split.
  - eapply lits_ok_ext; [done| |exact H1]. intros x Hx. apply upd_ne. lia.
  - by apply Forall_take.
  - lia.
  - intros i x Hi. apply lookup_take_Some in Hi as [Hi Hlt]. rewrite upd_ne by lia. by apply H4.
  - intros x Hx. destruct (decide (x = buffer + Z.of_nat (length l) - 1)) as [->|]; [apply upd_eq|].
    rewrite upd_ne by done. apply H5. lia.
Qed.

Lemma lit_write u s l n fd :
  lits_ok lit (umem u) -> (s, l) ∈ literals -> fd = 1 \/ fd = 2 ->
  Z.of_nat (length l) < n <= Z.of_nat (length l) + 16 ->
  exists v u', write ecall fd (lit s) n u = Ret (Some v, u') /\ umem u' = umem u /\
    keys (uk u') = keys (uk u) /\ screen (uk u') = screen (uk u) ++ l.
Proof using lay.
  intros HL Hin Hfd Hn. destruct (write_ok u fd (lit s) n Hfd) as (v & u' & E & Hm & Hk & Hs).
  { intros x Hx. apply (la_usr _ _ _ _ _ _ _ _ lay). pose proof (la_lits _ _ _ _ _ _ _ _ lay) as Hl.
    rewrite Forall_forall in Hl. specialize (Hl _ Hin). cbn in Hl. lia. }
  exists v, u'. rewrite (shown_cstr _ _ l) in Hs; [done|by apply lit_cstr|lia].
Qed.

Lemma key_step n patience ws c ks l u :
  line_at (umem u) l -> plain c -> Z.of_nat (length l) < 4094 ->
  Forall idle ws -> (length ws < patience)%nat -> keys (uk u) = ws ++ c :: ks ->
  exists u', main_loop ecall fr lit ch_at argv_at fuel (S n) patience buffer (buffer + Z.of_nat (length l)) u =
    main_loop ecall fr lit ch_at argv_at fuel n patience buffer (buffer + Z.of_nat (length (edit l c))) u' /\
    line_at (umem u') (edit l c) /\ keys (uk u') = ks /\ screen (uk u') = screen (uk u) ++ echo l c.
Proof using lay.
  intros Hl Hc Hlen Hws Hn Hk. pose proof (la_lo _ _ _ _ _ _ _ _ lay). pose proof (la_rhi _ _ _ _ _ _ _ _ lay).
  pose proof (la_ch _ _ _ _ _ _ _ _ lay).
  destruct (read_key_ok patience ws u c ks) as (u1 & E1 & Hk1 & Hu1);
    [done|unfold idle, plain in *; lia|done|done|].
  pose proof (key_only_line _ _ _ Hu1 Hl) as Hl1. destruct Hu1 as [Hs1 _].
  cbn [main_loop]. rewrite (ubind_ret _ _ u c u1) by done.
  destruct (Z.eqb_spec c 13); [by destruct Hc|]. unfold edit, echo.
  destruct (Z.eqb_spec c 127) as [->|H127]; [destruct l as [|x l']|].
  - cbn [length Z.of_nat]. rewrite Z.add_0_r, Z.eqb_refl. cbn [negb]. exists u1.
    rewrite app_nil_r, take_nil. cbn [length Z.of_nat]. by rewrite Z.add_0_r.
  - set (l := x :: l') in *. assert (1 <= length l)%nat as H1l by (cbn; lia).
    destruct (Z.eqb_spec (buffer + Z.of_nat (length l)) buffer); [lia|]. cbn [negb].
    destruct (lit_write u1 "\033[1D \033[1D" _ 10 STDOUT (li_lits _ _ Hl1)
      ltac:(repeat (left || right)) ltac:(auto) ltac:(cbn; lia)) as (v & u2 & E2 & Hm2 & Hk2 & Hs2).
    rewrite (ubind_ret _ _ u1 v u2) by done. cbn zeta. rewrite u64_small by lia.
    set (u3 := set_umem (upd (umem u2) (buffer + Z.of_nat (length l) - 1) 0) u2).
    rewrite (ubind_ret _ _ u2 tt u3) by done. exists u3. split.
    { f_equal. rewrite length_take. lia. }
    split; [|split; [by cbn [u3 set_umem uk]; rewrite Hk2|]].
    + cbn [u3 set_umem umem]. rewrite Hm2. by apply line_erase.
    + cbn [u3 set_umem uk]. by rewrite Hs2, Hs1.
  - set (u2 := set_umem (upd (umem u1) (buffer + Z.of_nat (length l)) c) u1).
    rewrite (ubind_ret _ _ u1 tt u2) by done.
    assert (line_at (umem u2) (l ++ [c])) as Hl2 by (by apply line_put).
    destruct (write_ok u2 STDOUT (buffer + Z.of_nat (length l)) 2) as (v & u3 & E3 & Hm3 & Hk3 & Hs3); [auto| |].
    { intros x Hx. apply (la_usr _ _ _ _ _ _ _ _ lay). lia. }
    rewrite (ubind_ret _ _ u2 v u3) by done. rewrite u64_small by lia. exists u3.
    rewrite length_app. cbn [length]. split; [f_equal; lia|]. split; [by rewrite Hm3|].
    split; [by rewrite Hk3|]. rewrite Hs3. cbn [u2 set_umem uk]. rewrite Hs1. f_equal.
    apply (shown_cstr _ _ [c]); [|cbn; lia].
    rewrite <- (drop_app_length l [c]). apply cstr_drop; [by apply line_cstr|rewrite length_app; lia].
Qed.

(** ** A line *)
Lemma type_line n patience rest : forall ts l u,
  line_at (umem u) l -> Forall (fun t => Forall idle t.1 /\ (length t.1 < patience)%nat /\ plain t.2) ts ->
  Z.of_nat (length l + length ts) < 4095 -> keys (uk u) = stream ts ++ rest ->
  exists u', main_loop ecall fr lit ch_at argv_at fuel (length ts + n) patience buffer
      (buffer + Z.of_nat (length l)) u =
    main_loop ecall fr lit ch_at argv_at fuel n patience buffer
      (buffer + Z.of_nat (length (foldl edit l ts.*2))) u' /\
    line_at (umem u') (foldl edit l ts.*2) /\ keys (uk u') = rest /\
    screen (uk u') = screen (uk u) ++ echoes l ts.*2.
Proof using lay.
  induction ts as [|[ws c] ts IH]; intros l u Hl Hts Hlen Hk.
  { exists u. cbn. by rewrite app_nil_r. }
  apply Forall_cons in Hts as [(Hws & Hp & Hc) Hts]. cbn [fst snd length] in *.
  unfold stream in Hk. cbn in Hk. rewrite <- !app_assoc in Hk. cbn [app] in Hk.
  destruct (key_step (length ts + n) patience ws c _ l u Hl Hc ltac:(lia) Hws Hp Hk)
    as (u1 & E1 & Hl1 & Hk1 & Hs1).
  destruct (IH (edit l c) u1 Hl1 Hts) as (u2 & E2 & Hl2 & Hk2 & Hs2); [|done|].
  { unfold edit. destruct (c =? 127); rewrite ?length_take, ?length_app; cbn [length]; lia. }
  exists u2. cbn [Nat.add]. rewrite E1, E2. split; [done|]. split; [done|]. split; [done|].
  rewrite Hs2, Hs1. cbn. by rewrite app_assoc.
Qed.

(** Return: the line is cut into words and run. *)
Lemma enter_ok n patience ws ks l ptr u :
  line_at (umem u) l -> l <> [] -> Forall idle ws -> (length ws < patience)%nat ->
  keys (uk u) = ws ++ 13 :: ks -> (4096 <= fuel)%nat ->
  exists u1, line_at (umem u1) l /\ keys (uk u1) = ks /\ screen (uk u1) = screen (uk u) ++ [10] /\
    main_loop ecall fr lit ch_at argv_at fuel (S n) patience buffer ptr u =
    (tk ← tokenize lit argv_at fuel fuel buffer toks0;
     r ← command ecall fr lit argv_at fuel tk;
     match r with
     | Some c => mret c
     | None => reset ecall lit buffer;;
               main_loop ecall fr lit ch_at argv_at fuel n patience buffer buffer
     end) u1.
Proof using lay.
  intros Hl Hne Hws Hn Hk Hf. destruct (read_key_ok patience ws u 13 ks) as (u1 & E1 & Hk1 & Hu1);
    [done|unfold idle; lia|done|done|].
  pose proof (key_only_line _ _ _ Hu1 Hl) as Hl1. destruct Hu1 as [Hs1 _].
  destruct (lit_write u1 "\n" _ 2 STDOUT (li_lits _ _ Hl1)
    ltac:(repeat (left || right)) ltac:(auto) ltac:(cbn; lia)) as (v & u2 & E2 & Hm2 & Hk2 & Hs2).
  exists u2. rewrite Hm2, Hk2, Hs2, Hs1. split; [done|]. split; [done|]. split; [done|].
  cbn [main_loop]. rewrite (ubind_ret _ _ u 13 u1) by done. change (13 =? 13) with true. cbn iota.
  rewrite (ubind_ret _ _ u1 v u2) by done. rewrite (ubind_ret _ _ u2 (umem u2) u2) by done.
  pose proof (li_len _ _ Hl1).
  rewrite (ubind_ret _ _ u2 (Z.of_nat (length l)) u2).
  2:{ apply ulift_ret, strlen_ok; [rewrite Hm2; by apply line_cstr|lia]. }
  destruct (Z.eqb_spec (Z.of_nat (length l)) 0); [by destruct l|]. done.
Qed.

Lemma toks0_rep m lim : toks_rep argv_at buffer m lim toks0 parsed0.
Proof using. split; try done. Qed.

(** The words of the line, or a fault at the 65th argument. *)
Lemma line_tokens l u :
  line_at (umem u) l -> l <> [] -> (4096 <= fuel)%nat ->
  match parse l with
  | None => tokenize (K:=K) lit argv_at fuel fuel buffer toks0 u = Fault
  | Some p => exists tk u', tokenize lit argv_at fuel fuel buffer toks0 u = Ret (Some tk, u') /\
      toks_rep argv_at buffer (umem u') (buffer + 4096) tk p /\ line_only argv_at buffer u u'
  end.
Proof using lay.
  intros Hl Hne Hf. pose proof (li_len _ _ Hl).
  apply (tokenize_ok usr fr lit ch_at argv_at rlo rhi buffer fuel lay fuel l buffer toks0 parsed0 u);
    [apply Hl|apply toks0_rep|by apply line_cstr|done|lia..].
Qed.

(** ** Running a program *)
Definition no_builtin (a : list Z) : Prop := a <> [101; 120; 105; 116] /\ a <> [99; 100].

Lemma command_forks tk p a0 args u :
  lits_ok lit (umem u) -> toks_rep argv_at buffer (umem u) (buffer + 4096) tk p ->
  p_state p = Args -> p_args p = a0 :: args -> no_builtin a0 -> (4096 <= fuel)%nat ->
  command ecall fr lit argv_at fuel tk u =
  (pid ← fork ecall;
   if pid <? 0 then write ecall STDERR (lit "forked failed\n") 15;; mret None
   else if 0 <? pid then waitpid ecall pid;; mret None
   else c ← child ecall fr lit argv_at tk; mret (Some c)) u.
Proof using.
  intros HL R Hst Ha [Hx Hc] Hf. unfold command. rewrite (tr_state _ _ _ _ _ _ R), Hst.
  rewrite (ubind_ret _ _ u (load64 (umem u) argv_at) u) by done.
  pose proof (tr_args _ _ _ _ _ _ R 0 a0) as Hw. rewrite Ha, Z.add_0_r in Hw. specialize (Hw eq_refl).
  rewrite (ubind_ret _ _ u false u).
  2:{ rewrite (shell_streq_ok fuel u _ _ a0 [101; 120; 105; 116]); [by rewrite bool_decide_false|apply Hw| |cbn; lia].
      apply lit_cstr; [done|repeat (left || right)]. }
  rewrite (ubind_ret _ _ u false u); [done|].
  rewrite (shell_streq_ok fuel u _ _ a0 [99; 100]); [by rewrite bool_decide_false|apply Hw| |cbn; lia].
  apply lit_cstr; [done|repeat (left || right)].
Qed.

(** The argument vector of execve: the strings and the NULL after them. *)
Definition argv_vec (m : mem) (l : list (list Z)) : Prop :=
  (forall i a, l !! i = Some a -> cstr m (load64 m (argv_at + 8 * Z.of_nat i)) a) /\
  load64 m (argv_at + 8 * Z.of_nat (length l)) = 0.

Lemma child_execs tk p a0 args u :
  toks_rep argv_at buffer (umem u) (buffer + 4096) tk p -> p_args p = a0 :: args ->
  p_in p = None -> p_out p = None -> Z.of_nat (length args) < 63 ->
  exists q u', child ecall fr lit argv_at tk u =
    (sys_execve (syscall ecall) q argv_at (null_envp_at fr);; mret (-1)) u' /\
    uk u' = uk u /\ cstr (umem u') q a0 /\ argv_vec (umem u') (a0 :: args) /\
    load64 (umem u') (null_envp_at fr) = 0.
Proof using lay.
  intros R Ha Hin Hout Hlen. pose proof (la_lo _ _ _ _ _ _ _ _ lay). pose proof (la_rhi _ _ _ _ _ _ _ _ lay).
  pose proof (la_argv _ _ _ _ _ _ _ _ lay). pose proof (la_envp _ _ _ _ _ _ _ _ lay).
  pose proof (la_argv_envp _ _ _ _ _ _ _ _ lay).
  pose proof (tr_argc _ _ _ _ _ _ R) as Hc. rewrite Ha in Hc. cbn [length] in Hc.
  pose proof (tr_in _ _ _ _ _ _ R) as Hi. rewrite Hin in Hi. cbn in Hi.
  pose proof (tr_out _ _ _ _ _ _ R) as Ho. rewrite Hout in Ho. cbn in Ho.
  unfold child. rewrite Hc, Hi, Ho. unfold ARGV_SIZE. destruct (Z.ltb_spec (Z.of_nat (S (length args))) 64); [|lia].
  rewrite u64_small by lia.
  set (m1 := store64 (umem u) (argv_at + 8 * Z.of_nat (S (length args))) 0).
  set (m2 := store64 m1 (null_envp_at fr) 0).
  exists (load64 m1 argv_at), (set_umem m2 u). split; [done|]. split; [done|]. cbn [umem set_umem].
  assert (forall i a, (a0 :: args) !! i = Some a ->
    load64 m1 (argv_at + 8 * Z.of_nat i) = load64 m2 (argv_at + 8 * Z.of_nat i) /\
    cstr m2 (load64 m2 (argv_at + 8 * Z.of_nat i)) a) as Hargs.
  { intros i a Hia. apply lookup_lt_Some in Hia as Hlt. cbn [length] in Hlt.
    pose proof (tr_args _ _ _ _ _ _ R i a) as Hw. rewrite Ha in Hw. destruct (Hw Hia) as (Hs & Hlo & Hhi).
    unfold m2, m1, load64, store64 in *. rewrite !load_store_disjoint by lia. split; [done|].
    eapply cstr_ext; [|exact Hs]. intros x Hx. rewrite !store_le_outside by lia. done. }
  split; [|split; [split; [by apply Hargs|]|]].
  - destruct (Hargs 0%nat a0 eq_refl) as [E Hs]. rewrite Z.add_0_r in E, Hs. by rewrite E.
  - cbn [length]. unfold m2, m1, load64, store64. rewrite load_store_disjoint by lia.
    apply load_store_same. lia.
  - unfold m2, load64, store64. apply load_store_same. lia.
Qed.

(** After the command: an empty line and a prompt. *)
Lemma reset_ok u : lits_ok lit (umem u) ->
  exists u', reset ecall lit buffer u = Ret (Some tt, u') /\ line_at (umem u') [] /\
    screen (uk u') = screen (uk u) ++ [115; 104; 62; 32].
Proof using lay.
  intros HL. pose proof (la_lo _ _ _ _ _ _ _ _ lay). pose proof (la_rhi _ _ _ _ _ _ _ _ lay).
  pose proof (la_ch _ _ _ _ _ _ _ _ lay).
  unfold reset. set (u1 := set_umem (MemLoops.memset (umem u) buffer 0 4096) u).
  assert (forall x, umem u1 x = if decide (buffer <= x < buffer + 4096) then 0 else umem u x) as Hm1.
  { intros x. cbn [u1 set_umem umem]. rewrite MemLoops.memset_spec by lia.
    destruct (decide _); destruct (Z.leb_spec buffer x), (Z.ltb_spec x (buffer + 4096)); done || lia. }
  assert (lits_ok lit (umem u1)) as HL1.
  { eapply lits_ok_ext; [done| |exact HL]. intros x Hx. rewrite Hm1, decide_False by lia. done. }
  rewrite (ubind_ret _ _ u tt u1) by done.
  destruct (lit_write u1 "sh> " _ 6 STDOUT HL1 ltac:(repeat (left || right)) ltac:(auto) ltac:(cbn; lia))
    as (v & u2 & E2 & Hm2 & Hk2 & Hs2).
  rewrite (ubind_ret _ _ u1 v u2) by done. exists u2. split; [done|]. split; [|done].
  split; rewrite ?Hm2; cbn [length]; [done|done|lia|intros i x; by rewrite lookup_nil|].
  intros x Hx. rewrite Hm1, decide_True by lia. done.
Qed.

Lemma fork_ok u : exists pid k, fork ecall u = Ret (Some pid, mkU (umem u) k (rand_seed u)).
Proof using C.
  destruct (con_fork (umem u) (uk u)) as (v & k & E). unfold fork, sys_fork.
  erewrite ubind_ret; [|unfold syscall; rewrite E; reflexivity]. by eexists _, _.
Qed.

Lemma waitpid_ok u pid : exists v k, waitpid ecall pid u = Ret (Some v, mkU (umem u) k (rand_seed u)).
Proof using C.
  destruct (con_waitpid (umem u) (uk u) pid) as (v & k & E). unfold waitpid, sys_waitpid, syscall.
  rewrite E. by eexists _, _.
Qed.

End Run.
