(* ===== verification/ShellProps.v ===== *)
(** * Theorems on the shell

    The line editor, the cutting of a line into words, and the run of a command,
    with a small kernel on which they are evaluated. *)
From S2P Require Import Prelude Mem CString CStringProps UserLib Shell ShellSpec ShellRun.
Import CString UserLib Shell.

Section Props.
Context {K : Type}.
Variable ecall : Z -> list Z -> M (mem * K) (option Z).
Variable usr : Z -> Prop.
Context `{C : !Console ecall usr}.
Variable fr : Frame.
Variable lit : string -> Z.
Variables ch_at argv_at rlo rhi buffer : Z.
Variable fuel : nat.

(** Keys with their empty polls: fewer polls than the patience, no Return. *)
Definition typed (patience : nat) (ts : list (list Z * Z)) : Prop :=
  Forall (fun t => Forall idle t.1 /\ (length t.1 < patience)%nat /\ plain t.2) ts.

(** C35: the shell's main loop is a line editor: whatever keys but Return arrive,
    and however many polls of the console come back empty between them, the
    buffer then holds the line that typing and erasing give (a backspace on an
    empty line does nothing), zeros follow it, the cursor is at its end, and the
    screen has the echo of every key. *)
Theorem shell_edits_line n patience rest ts l u :
  layout usr fr lit ch_at argv_at rlo rhi buffer ->
  line_at lit buffer (umem u) l -> typed patience ts -> Z.of_nat (length l + length ts) < 4095 ->
  keys (uk u) = stream ts ++ rest ->
  exists u', main_loop ecall fr lit ch_at argv_at fuel (length ts + n) patience buffer
      (buffer + Z.of_nat (length l)) u =
    main_loop ecall fr lit ch_at argv_at fuel n patience buffer
      (buffer + Z.of_nat (length (foldl edit l ts.*2))) u' /\
    line_at lit buffer (umem u') (foldl edit l ts.*2) /\ keys (uk u') = rest /\
    screen (uk u') = screen (uk u) ++ echoes l ts.*2.
Proof using. intros lay Hl Hts Hlen Hk. by eapply type_line. Qed.

(** C30: tokenize reads the [line_command] of a line: on any line in the buffer in
    which the redirections stand as words of their own (no word is a redirection
    character with text after it), the array argv gets the arguments in order,
    each a terminated string in the buffer, and the redirections are those of the
    line; a 65th argument is written past the end of the array.  Nothing outside
    the buffer and argv changes. *)
Theorem tokenize_correct l u :
  layout usr fr lit ch_at argv_at rlo rhi buffer ->
  line_at lit buffer (umem u) l -> l <> [] -> Forall spaced (words l) -> (4096 <= fuel)%nat ->
  match line_command l with
  | None => tokenize (K:=K) lit argv_at fuel fuel buffer toks0 u = Fault
  | Some p => exists tk u', tokenize lit argv_at fuel fuel buffer toks0 u = Ret (Some tk, u') /\
      toks_rep argv_at buffer (umem u') (buffer + 4096) tk p /\ line_only argv_at buffer u u'
  end.
Proof using. intros lay Hl Hne Hs Hf. rewrite (line_command_parse l Hs). by eapply line_tokens. Qed.


(** A line with a redirection and no command (such as "> f") makes the
    child pass NULL as the path to execve: argv[0] is the NULL that ends the
    empty argument vector. *)
Theorem redirection_alone_execs_null tk p f u u1 :
  layout usr fr lit ch_at argv_at rlo rhi buffer ->
  toks_rep argv_at buffer (umem u) (buffer + 4096) tk p ->
  p_args p = [] -> p_in p = None -> p_out p = Some f ->
  redirect ecall lit (redirect_stdout tk)
    (Z.lor (Z.lor (Z.lor O_WRONLY O_CREAT) O_TRUNC) (if stdout_append tk then O_APPEND else 0)) 438 STDOUT
    "reopen stdout failed\n" (set_umem (store64 (umem u) argv_at 0) u) = Ret (Some tt, u1) ->
  umem u1 = store64 (umem u) argv_at 0 ->
  exists u2, child ecall fr lit argv_at tk u =
    (sys_execve (syscall ecall) 0 argv_at (null_envp_at fr);; mret (-1)) u2.
Proof using.
  intros lay R Ha Hin Hout Er Hm1. pose proof (la_lo _ _ _ _ _ _ _ _ lay). pose proof (la_rhi _ _ _ _ _ _ _ _ lay).
  pose proof (la_argv _ _ _ _ _ _ _ _ lay).
  pose proof (tr_argc _ _ _ _ _ _ R) as Hc. rewrite Ha in Hc. cbn in Hc.
  pose proof (tr_in _ _ _ _ _ _ R) as Hi. rewrite Hin in Hi. cbn in Hi.
  pose proof (tr_out _ _ _ _ _ _ R) as Ho. rewrite Hout in Ho. destruct Ho as (_ & Ho & _).
  unfold child. rewrite Hc, Hi. change (0 <? ARGV_SIZE) with true. cbn iota.
  rewrite Z.mul_0_r, Z.add_0_r, u64_small by lia.
  erewrite ubind_ret by reflexivity. rewrite (ubind_ret _ _ _ tt (set_umem (store64 (umem u) argv_at 0) u)) by done.
  destruct (Z.eqb_spec (redirect_stdout tk) 0); [lia|]. cbn [negb].
  rewrite (ubind_ret _ _ _ _ _ Er). rewrite (ubind_ret _ _ u1 0 u1).
  - by exists (set_umem (store64 (umem u1) (null_envp_at fr) 0) u1).
  - unfold ugets. rewrite Hm1. unfold load64, store64. by rewrite load_store_same by lia.
Qed.

End Props.

(** ** The theorems on a small kernel *)

(** Pending keys and the screen; fork returns in the child. *)
Definition SK : Type := list Z * list Z.

Definition sk_ecall (c : Z) (args : list Z) : M (mem * SK) (option Z) := fun '(m, (ks, scr)) =>
  match args with
  | a0 :: a1 :: a2 :: a3 :: _ =>
      if c =? SYS_LSEEK then Ret (Some 0, (store64 m a3 0, (ks, scr)))
      else if c =? SYS_READ then
        match ks with
        | k :: ks' => Ret (Some 0, (upd m a1 k, (ks', scr)))
        | [] => Ret (Some (-1), (m, (ks, scr)))
        end
      else if c =? SYS_WRITE then Ret (Some 0, (m, (ks, scr ++ shown (Z.to_nat a2) m a1)))
      else if c =? SYS_FORK then Ret (Some 0, (m, (ks, scr)))
      else if c =? SYS_EXECVE then Ret (None, (m, (ks, scr)))
      else Ret (Some 0, (m, (ks, scr)))
  | _ => Fault
  end.

#[local] Instance sk_console : Console sk_ecall (fun _ => True).
Proof.
  refine {| keys := fun k => k.1; screen := fun k => k.2 |}.
  - intros m [ks scr] res _. eexists _, _, _. split; [reflexivity|]. split; [done|]. split; [done|].
    intros x Hx. apply store_le_outside. lia.
  - intros m [ks' scr] buf c ks _ Hk. cbn in Hk. subst. by eexists _, _.
  - intros m [ks scr] fd buf n _ _. by eexists _, _.
  - intros m [ks scr]. by eexists _, _.
  - intros m [ks scr] p. by eexists _, _.
Defined.

(** Literals 64 bytes apart from 4096 on; the buffer at 65536, the stack above. *)
Fixpoint lit_index (s : string) (l : list (string * list Z)) : Z :=
  match l with
  | [] => 0
  | (t, _) :: l' => if decide (s = t) then 0 else 1 + lit_index s l'
  end.
Definition sk_lit (s : string) : Z := 4096 + 64 * lit_index s literals.
Definition sk_mem : mem := fun x =>
  if (4096 <=? x) && (x <? 8192) then
    match literals !! Z.to_nat ((x - 4096) / 64) with
    | Some (_, l) => default 0 (l !! Z.to_nat ((x - 4096) mod 64))
    | None => 0
    end
  else 0.
Definition sk_frame : Frame := mkFrame 140000 140016 140032 140040 140048.

Lemma sk_layout : layout (fun _ => True) sk_frame sk_lit 131072 131080 4096 8192 65536.
Proof.
  split; try done; try (cbn; lia).
  repeat constructor; vm_compute; (done || (intros ?; discriminate)).
Qed.

(** A check of [cstr] that evaluates. *)
Fixpoint bytesb (m : mem) (s : Z) (l : list Z) : bool :=
  match l with [] => true | x :: l' => (m s =? x) && (0 <? x) && (x <? 256) && bytesb m (s + 1) l' end.
Definition cstrb (m : mem) (s : Z) (l : list Z) : bool :=
  (0 <=? s) && (s + Z.of_nat (length l) <? 18446744073709551616) && bytesb m s l &&
  (m (s + Z.of_nat (length l)) =? 0).

Lemma bytesb_at m s l : bytesb m s l = true -> bytes_at m s l /\ Forall (fun b => 0 < b < 256) l.
Proof.
  revert s. induction l as [|x l IH]; intros s H; cbn [bytesb] in H.
  { split; [|constructor]. intros i y. by rewrite lookup_nil. }
  rewrite !andb_true_iff in H. destruct H as (((H1 & H2) & H3) & H4). destruct (IH _ H4) as [Hb Hf].
  split; [|constructor; [lia|done]]. apply bytes_at_cons. split; [lia|done].
Qed.

Lemma cstrb_cstr m s l : cstrb m s l = true -> cstr m s l.
Proof.
  unfold cstrb. rewrite !andb_true_iff. intros (((H1 & H2) & H3) & H4).
  destruct (bytesb_at _ _ _ H3). split; (done || lia).
Qed.

Lemma sk_line : line_at sk_lit 65536 sk_mem [].
Proof.
  split; [|constructor|cbn; lia|intros i x; by rewrite lookup_nil|].
  - unfold lits_ok. apply Forall_forall. intros [s l] Hin. apply cstrb_cstr.
    assert (forallb (fun '(s, l) => cstrb sk_mem (sk_lit s) l) literals = true) as H by (vm_compute; reflexivity).
    rewrite forallb_forall in H. apply (H (s, l)). by apply list_elem_of_In.
  - intros x Hx. unfold sk_mem. destruct (Z.leb_spec 4096 x), (Z.ltb_spec x 8192); cbn [length] in Hx; done || lia.
Qed.

(** "lx", a backspace, "s -a", with empty polls in between. *)
Definition sk_keys : list (list Z * Z) :=
  [([255; 0], 108); ([], 120); ([255], 127); ([], 115); ([], 32); ([255], 45); ([], 97)].

Lemma sk_typed : typed 10 sk_keys.
Proof. repeat constructor; unfold idle; (auto || lia). Qed.

Lemma shell_edits_line_witness :
  exists u', main_loop sk_ecall sk_frame sk_lit 131072 131080 4096 (7 + 5) 10 65536 65536
      (mkU sk_mem (stream sk_keys ++ [13], []) 0) =
    main_loop sk_ecall sk_frame sk_lit 131072 131080 4096 5 10 65536 65541 u' /\
    line_at sk_lit 65536 (umem u') [108; 115; 32; 45; 97].
Proof.
  destruct (shell_edits_line sk_ecall (fun _ => True) sk_frame sk_lit 131072 131080 4096 8192 65536 4096 5 10
    [13] sk_keys [] (mkU sk_mem (stream sk_keys ++ [13], []) 0) sk_layout sk_line sk_typed) as (u' & E & Hl & _);
    [cbn; lia|reflexivity|]. exists u'. split; [exact E|exact Hl].
Defined.

(** The line [l] in the buffer of the sample. *)
Definition sk_with (l : list Z) : mem := fun x =>
  if (65536 <=? x) && (x <? 65536 + Z.of_nat (length l)) then default 0 (l !! Z.to_nat (x - 65536)) else sk_mem x.

Lemma sk_with_line l :
  Forall (fun c => 0 < c < 256) l -> Z.of_nat (length l) < 4095 -> line_at sk_lit 65536 (sk_with l) l.
Proof.
  intros Hc Hl. destruct sk_line as [H1 _ _ _ H5]. split; [|done|done| |].
  - eapply lits_ok_ext; [exact sk_layout| |exact H1]. intros x Hx. unfold sk_with.
    destruct (Z.leb_spec 65536 x); [lia|done].
  - intros i x Hi. apply lookup_lt_Some in Hi as Hlt. unfold sk_with.
    destruct (Z.leb_spec 65536 (65536 + Z.of_nat i)); [|lia].
    destruct (Z.ltb_spec (65536 + Z.of_nat i) (65536 + Z.of_nat (length l))); [|lia].
    cbn [andb]. replace (Z.to_nat (65536 + Z.of_nat i - 65536)) with i by lia. by rewrite Hi.
  - intros x Hx. unfold sk_with. destruct (Z.ltb_spec x (65536 + Z.of_nat (length l))); [lia|].
    rewrite andb_false_r. apply H5. cbn [length]. lia.
Qed.

(** "l > f" *)
Lemma tokenize_correct_witness :
  exists tk u', tokenize sk_lit 131080 4096 4096 65536 toks0
      (mkU (sk_with [108; 32; 62; 32; 102]) (([], []) : SK) 0) = Ret (Some tk, u') /\
    toks_rep 131080 65536 (umem u') (65536 + 4096) tk (mkParsed [[108]] None false (Some [102]) false Args).
Proof.
  destruct (tokenize_correct (fun _ => True) sk_frame sk_lit 131072 131080 4096 8192 65536 4096
    [108; 32; 62; 32; 102] (mkU (sk_with [108; 32; 62; 32; 102]) (([], []) : SK) 0) sk_layout)
    as (tk & u' & E & R & _).
  - apply sk_with_line; [repeat constructor; lia|cbn; lia].
  - done.
  - repeat (apply Forall_cons; split; [intros [[=]|[=]]; set_solver|]). done.
  - lia.
  - by exists tk, u'.
Defined.


(** "> f" *)
Lemma redirection_alone_witness :
  exists tk u u2, child sk_ecall sk_frame sk_lit 131080 tk u =
    (sys_execve (syscall sk_ecall) 0 131080 140048;; mret (-1)) u2.
Proof.
  destruct (line_tokens (fun _ => True) sk_frame sk_lit 131072 131080 4096 8192 65536 4096 sk_layout
    [62; 32; 102] (mkU (sk_with [62; 32; 102]) (([], []) : SK) 0)) as (tk & u & _ & R & _).
  { apply sk_with_line; [repeat constructor; lia|cbn; lia]. } { done. } { lia. }
  exists tk, u. destruct u as [m [ks scr] sd].
  apply (redirection_alone_execs_null sk_ecall (fun _ => True) sk_frame sk_lit 131072 131080 4096 8192 65536
    tk (mkParsed [] None false (Some [102]) false Args) [102] (mkU m (ks, scr) sd)
    (mkU (store64 m 131080 0) (ks, scr) sd)
    sk_layout R eq_refl eq_refl eq_refl); reflexivity.
Defined.
