(* ===== verification/UserProgs.v ===== *)
(** * User programs (user/program: init.c, cat.c, ls.c, graphic.c)

    The programs started by the kernel and from the shell.  Locals whose address
    is taken are at given addresses of the process; [lit] gives the address of a
    string literal, named by its text in the source. *)
From S2P Require Import Prelude Mem CString UserLib.
Import CString UserLib.

Module UserProgs.

Section Programs.
Context {K : Type}.
Variable ecall : Z -> list Z -> M (mem * K) (option Z).
Variable fr : Frame.
Variable lit : string -> Z.

Let write := write ecall.
Let read := read ecall.
Let open := open ecall.
Let lseek := lseek ecall fr.

(** ** init.c: [str] is "Hello world!\n" on the stack, 14 bytes with its NUL. *)
Definition init_str : list Z := [72; 101; 108; 108; 111; 32; 119; 111; 114; 108; 100; 33; 10; 0].

Fixpoint put_bytes (m : mem) (a : Z) (l : list Z) : mem :=
  match l with [] => m | x :: l' => put_bytes (upd m a x) (a + 1) l' end.

Definition init_main (str_at : Z) : UM K Z :=
  umodify (fun m => put_bytes m str_at init_str);;
  write STDOUT str_at 14;;
  pid ← fork ecall;
  (if pid <? 0 then write STDOUT (lit "fork failed\n") 12;; mret tt else mret tt);;
  (if pid =? 0 then
     write STDOUT (lit "I'm the child!\n") 15;;
     exec ecall fr (lit "/bin/sh");; mret tt
   else
     waitpid ecall pid;;
     write STDOUT (lit "Child has exited\n") 18;; mret tt);;
  mret 0.

(** ** cat.c *)
Fixpoint cat_loop (n : nat) (fd ch_at : Z) : UM K unit :=
  match n with
  | O => uliftm NoFuel
  | S k =>
      r ← read (u32 fd) ch_at 1;
      if r =? 0 then write STDOUT ch_at 1;; cat_loop k fd ch_at else mret tt
  end.

Definition cat_main (n : nat) (ch_at argc argv : Z) : UM K Z :=
  if negb (argc =? 2) then write STDERR (lit "Usage: cat FILE\n") 17;; mret (-1) else
  a1 ← ugets (fun m => load64 m (u64 (argv + 8)));
  fd ← open a1 O_RDONLY 420;
  let fd := i32 fd in
  if fd =? -1 then write STDERR (lit "cannot open file\n") 18;; mret (-1) else
  cat_loop n fd ch_at;;
  mret 0.

(** ** ls.c: a directory entry is a name of 60 bytes and an inode number. *)
Fixpoint ls_loop (n fuel : nat) (fd entry_at buf_at : Z) : UM K unit :=
  match n with
  | O => uliftm NoFuel
  | S k =>
      r ← read (u32 fd) entry_at 64;
      if 0 <=? r then
        inode ← ugets (fun m => i32 (load32 m (entry_at + 60)));
        m ← ugets id;
        m' ← uliftm (itoa fuel m inode buf_at 16);
        umodify (fun _ => m');;
        write STDOUT buf_at 16;;
        write STDOUT (lit "\t") 2;;
        write STDOUT entry_at 60;;
        write STDOUT (lit "\n") 2;;
        ls_loop k fuel fd entry_at buf_at
      else mret tt
  end.

Definition ls_main (n fuel : nat) (default_path_at entry_at buf_at argc argv : Z) : UM K Z :=
  umodify (fun m => put_bytes m default_path_at [46; 0]);;
  a1 ← ugets (fun m => load64 m (u64 (argv + 8)));
  if negb (argc =? 1) && negb (argc =? 2) then
    write STDERR (lit "Usage: ls DIRECTORY\n") 21;; mret (-1)
  else
    let path := if argc =? 1 then default_path_at else a1 in
    fd ← open path (Z.lor O_RDONLY O_DIRECTORY) 420;
    if fd <? 0 then write STDERR (lit "cannot open file\n") 18;; mret (-1) else
    ls_loop n fuel fd entry_at buf_at;;
    mret 0.

(** ** graphic.c *)
Definition SCREEN_WIDTH : Z := 1280.
Definition FONT_WIDTH : Z := 12.
Definition FONT_HEIGHT : Z := 16.
Definition BITMAP_COLS : Z := 16.
Definition BITMAP_WIDTH : Z := FONT_WIDTH * BITMAP_COLS.
Definition RGBA (r g b a : Z) : Z :=
  u32 (Z.lor (Z.lor (Z.lor (Z.shiftl (Z.land a 255) 24) (Z.shiftl (Z.land r 255) 16))
             (Z.shiftl (Z.land g 255) 8)) (Z.land b 255)).
Definition BG_COLOR : Z := RGBA 0 0 0 0.
Definition COLS : Z := 80.

(** [row_buf], 2 bytes, and [row_bitmap], 12 words of 4 bytes. *)
Variables row_buf_at row_bitmap_at : Z.

(** [for (int j = 0; j < FONT_WIDTH; j++)]: an index past row_buf is a fault. *)
Fixpoint pixel_loop (n : nat) (m : mem) (pos_offset j color : Z) : outcome mem :=
  match n with
  | O => Ret m
  | S k =>
      let i := Z.shiftr (pos_offset + j) 3 in
      if i <? 2 then
        let lit_bit := Z.land (Z.shiftr (m (row_buf_at + i)) (7 - Z.land (pos_offset + j) 7)) 1 in
        pixel_loop k (store32 m (row_bitmap_at + 4 * j) (if negb (lit_bit =? 0) then color else BG_COLOR))
          pos_offset (j + 1) color
      else Fault
  end.

(** The position of row [i] of the glyph of [c] in the font, in bits. *)
Definition glyph_pos (c i : Z) : Z :=
  let bitmap_x := c mod BITMAP_COLS * FONT_WIDTH in
  let bitmap_y := c / BITMAP_COLS * FONT_HEIGHT in
  BITMAP_WIDTH * (bitmap_y + i) + bitmap_x.

(** The bytes of the font that hold it: [pos_top_byte - pos_byte]. *)
Definition glyph_bytes (pos : Z) : Z :=
  let pos_top := pos + FONT_WIDTH in
  Z.shiftr pos_top 3 + (if negb (Z.land pos_top 7 =? 0) then 1 else 0) - Z.shiftr pos 3.

Definition draw_row (fd_bitmap fd_fb c x y i color : Z) : UM K unit :=
  let pos := glyph_pos c i in
  lseek (u32 fd_bitmap) (Z.shiftr pos 3) SEEK_SET;;
  read (u32 fd_bitmap) row_buf_at (u64 (glyph_bytes pos));;
  m ← ugets id;
  m' ← uliftm (pixel_loop (Z.to_nat FONT_WIDTH) m (Z.land pos 7) 0 color);
  umodify (fun _ => m');;
  lseek (u32 fd_fb) (4 * ((y * FONT_HEIGHT + i) * SCREEN_WIDTH + x * FONT_WIDTH)) SEEK_SET;;
  write (u32 fd_fb) row_bitmap_at 48;; mret tt.

Fixpoint draw_rows (n : nat) (fd_bitmap fd_fb c x y i color : Z) : UM K unit :=
  match n with
  | O => mret tt
  | S k => draw_row fd_bitmap fd_fb c x y i color;; draw_rows k fd_bitmap fd_fb c x y (i + 1) color
  end.

(** [for (char *ptr = buf; *ptr != '\0'; ++ptr)]; [n] bounds the characters. *)
Fixpoint draw_text (n : nat) (fd_bitmap fd_fb ptr x y color : Z) : UM K unit :=
  c ← ugets (fun m => m ptr);
  if c =? 0 then mret tt else
  match n with
  | O => uliftm NoFuel
  | S k =>
      let x1 := if c =? 10 then 0 else x in
      let y1 := if c =? 10 then y + 1 else y in
      draw_rows (Z.to_nat FONT_HEIGHT) fd_bitmap fd_fb c x1 y1 0 color;;
      let wrap := x1 + 1 =? COLS in
      read (u32 fd_fb) 0 0;;
      draw_text k fd_bitmap fd_fb (u64 (ptr + 1)) (if wrap then 0 else x1 + 1)
        (if wrap then y1 + 1 else y1) (u32 (color + 1))
  end.

Definition graphic_buf : list Z := [72; 101; 108; 108; 111; 32; 119; 111; 114; 108; 100; 33; 0].

Definition graphic_main (n : nat) (buf_at : Z) : UM K Z :=
  fd_bitmap ← open (lit "/font.bitmap") O_RDONLY 420;
  fd_fb ← open (lit "/dev/framebuffer") O_RDWR 438;
  t ← get_time ecall fr;
  srand t;;
  umodify (fun m => put_bytes m buf_at graphic_buf);;
  r ← rand; g ← rand; b ← rand;
  draw_text n (i32 fd_bitmap) (i32 fd_fb) buf_at 0 0 (RGBA (r mod 255) (g mod 255) (b mod 255) 255);;
  close ecall (u32 (i32 fd_bitmap));;
  close ecall (u32 (i32 fd_fb));;
  mret 0.

End Programs.
End UserProgs.
Import UserProgs.

(** ** A row of a glyph *)

(** Bit [p] of the font, the most significant bit of a byte first. *)
Definition font_bit (font : Z -> Z) (p : Z) : bool := Z.testbit (font (p / 8)) (7 - p mod 8).

Lemma glyph_pos_aligned c i : glyph_pos c i mod 8 = 0 \/ glyph_pos c i mod 8 = 4.
Proof. unfold glyph_pos, BITMAP_WIDTH, BITMAP_COLS, FONT_WIDTH, FONT_HEIGHT. dlia. Qed.

Lemma land_7 x : Z.land x 7 = x mod 8.
Proof. change 7 with (Z.ones 3). by rewrite Z.land_ones. Qed.

Lemma glyph_bytes_2 c i : glyph_bytes (glyph_pos c i) = 2.
Proof.
  destruct (glyph_pos_aligned c i) as [H|H]; revert H; generalize (glyph_pos c i); intros p H;
    unfold glyph_bytes, FONT_WIDTH; rewrite !Z.shiftr_div_pow2 by lia;
    rewrite land_7; change (2 ^ 3) with 8;
    destruct (Z.eqb_spec ((p + 12) mod 8) 0); cbn [negb]; dlia.
Qed.

Lemma shiftr_bit v n : 0 <= n -> negb (Z.land (Z.shiftr v n) 1 =? 0) = Z.testbit v n.
Proof.
  intros Hn. change 1 with (Z.ones 1). rewrite Z.land_ones by lia. change (2 ^ 1) with 2.
  rewrite <- Z.bit0_mod, Z.shiftr_spec, Z.add_0_l by lia. by destruct (Z.testbit v n).
Qed.

Section Glyph.
Variables (row_buf_at row_bitmap_at : Z) (font : Z -> Z) (pos color : Z).
Hypothesis Hdisj : row_buf_at + 2 <= row_bitmap_at \/ row_bitmap_at + 48 <= row_buf_at.
Hypothesis Hpos : pos mod 8 = 0 \/ pos mod 8 = 4.
Hypothesis Hcol : 0 <= color < 4294967296.

Definition row_in_buf (m : mem) : Prop := forall k, 0 <= k < 2 -> m (row_buf_at + k) = font (pos / 8 + k).
Definition pixel (j : Z) : Z := if font_bit font (pos + j) then color else BG_COLOR.

(** The bit that the loop tests for pixel [j]. *)
Lemma pixel_step m j : row_in_buf m -> 0 <= j < 12 ->
  let i := Z.shiftr (Z.land pos 7 + j) 3 in
  (i <? 2) = true /\
  (if negb (Z.land (Z.shiftr (m (row_buf_at + i)) (7 - Z.land (Z.land pos 7 + j) 7)) 1 =? 0)
   then color else BG_COLOR) = pixel j.
Proof using Hpos Hcol.
  intros Hm Hj. cbn zeta. rewrite !land_7, Z.shiftr_div_pow2 by lia.
  change (2 ^ 3) with 8. split; [dlia|]. rewrite shiftr_bit by dlia. unfold pixel, font_bit.
  rewrite Hm by dlia.
  replace ((pos + j) / 8) with (pos / 8 + (pos mod 8 + j) / 8) by dlia.
  by replace ((pos + j) mod 8) with ((pos mod 8 + j) mod 8) by dlia.
Qed.

Lemma pixel_loop_ok n : forall m j, row_in_buf m -> 0 <= j -> j + Z.of_nat n = 12 ->
  (forall i, 0 <= i < j -> load32 m (row_bitmap_at + 4 * i) = pixel i) ->
  exists m', pixel_loop row_buf_at row_bitmap_at n m (Z.land pos 7) j color = Ret m' /\
    (forall i, 0 <= i < 12 -> load32 m' (row_bitmap_at + 4 * i) = pixel i) /\
    (forall x, ~ (row_bitmap_at <= x < row_bitmap_at + 48) -> m' x = m x).
Proof using Hdisj Hpos Hcol.
  induction n as [|n IH]; intros m j Hm Hj Hn Hdone; cbn [pixel_loop].
  { exists m. split; [done|]. split; [|done]. intros i Hi. apply Hdone. lia. }
  destruct (pixel_step m j Hm ltac:(lia)) as [-> ->].
  set (m1 := store32 m (row_bitmap_at + 4 * j) (pixel j)).
  assert (0 <= pixel j < 4294967296) as Hp by (unfold pixel; destruct (font_bit _ _); [done|by vm_compute]).
  assert (forall x, ~ (row_bitmap_at + 4 * j <= x < row_bitmap_at + 4 * j + 4) -> m1 x = m x) as Hm1
    by (intros x Hx; apply store_le_outside; lia).
  destruct (IH m1 (j + 1)) as (m' & E & Hpix & Hout); [|lia|lia| |].
  - intros k Hk. rewrite Hm1 by lia. by apply Hm.
  - intros i Hi. destruct (decide (i = j)) as [->|].
    + by apply load_store_same.
    + unfold m1, load32, store32. rewrite load_store_disjoint by lia. apply Hdone. lia.
  - exists m'. split; [done|]. split; [done|]. intros x Hx. rewrite Hout by lia. apply Hm1. lia.
Qed.
End Glyph.

(** C37: graphic draws a row of a glyph from the font: for every character and
    row, two bytes of the font hold the row (as many as row_buf has), no index
    leaves row_buf, and the twelve words of row_bitmap are the colour where the
    font has a bit and the background where it has none; nothing else changes. *)
Theorem glyph_row_pixels row_buf_at row_bitmap_at font c i color m :
  row_buf_at + 2 <= row_bitmap_at \/ row_bitmap_at + 48 <= row_buf_at -> 0 <= color < 4294967296 ->
  (forall k, 0 <= k < glyph_bytes (glyph_pos c i) ->
     m (row_buf_at + k) = font (Z.shiftr (glyph_pos c i) 3 + k)) ->
  glyph_bytes (glyph_pos c i) = 2 /\
  exists m', pixel_loop row_buf_at row_bitmap_at (Z.to_nat FONT_WIDTH) m (Z.land (glyph_pos c i) 7) 0 color = Ret m' /\
    (forall j, 0 <= j < FONT_WIDTH -> load32 m' (row_bitmap_at + 4 * j) =
       if font_bit font (glyph_pos c i + j) then color else BG_COLOR) /\
    (forall x, ~ (row_bitmap_at <= x < row_bitmap_at + 48) -> m' x = m x).
Proof.
  intros Hd Hc Hm. split; [apply glyph_bytes_2|]. rewrite glyph_bytes_2, Z.shiftr_div_pow2 in Hm by lia.
  apply (pixel_loop_ok row_buf_at row_bitmap_at font (glyph_pos c i) color Hd (glyph_pos_aligned c i) Hc 12 m 0);
    [exact Hm|lia|lia|lia].
Qed.

(** A font of alternating bytes, the letter 'H'. *)
Lemma glyph_row_pixels_witness :
  exists m', pixel_loop 1000 2000 12 (fun x => if x =? 1000 then 170 else 85) 0 0 7 = Ret m' /\
    load32 m' 2000 = 7 /\ load32 m' 2004 = 0.
Proof.
  destruct (glyph_row_pixels 1000 2000 (fun x => if x =? Z.shiftr (glyph_pos 72 0) 3 then 170 else 85) 72 0 7
    (fun x => if x =? 1000 then 170 else 85)) as (_ & m' & E & Hp & _); [lia|lia| |].
  - intros k Hk. change (glyph_bytes (glyph_pos 72 0)) with 2 in Hk.
    destruct (Z.eqb_spec (1000 + k) 1000), (Z.eqb_spec (Z.shiftr (glyph_pos 72 0) 3 + k) (Z.shiftr (glyph_pos 72 0) 3));
      done || lia.
  - exists m'. split; [exact E|]. split; [apply (Hp 0)|apply (Hp 1)]; unfold FONT_WIDTH; lia.
Defined.

(** ** Test programs (user/program: 1.c, 2.c, 3.c, 4.c, 5.c)

    Programs that print, allocate and fork, and two that fault on purpose.  The
    loops that only spend time have no effect on the memory and are left out;
    the address 0 is never mapped. *)
Import CString UserLib.

Module UserTests.

Section Programs.
Context {K : Type}.
Variable ecall : Z -> list Z -> M (mem * K) (option Z).
Variable fr : Frame.
Variable lit : string -> Z.

Let write := write ecall.

(** ** 1.c: [buf] is on the stack at [buf_at]. *)
Fixpoint ones (n : nat) (i : Z) : UM K unit :=
  match n with
  | O => mret tt
  | S k => (if i mod 1000000 =? 0 then write STDOUT (lit "1") 2;; mret tt else mret tt);; ones k (i + 1)
  end.

Definition main_1 (fuel : nat) (buf_at : Z) : UM K Z :=
  write STDOUT (lit "Hello 1!\n") 10;;
  s ← sbrk ecall 8;
  umodify (fun m => store64 m s 16);;
  m ← ugets id;
  m' ← uliftm (itoa fuel m (i64 (load64 m s)) buf_at 10);
  umodify (fun _ => m');;
  write STDOUT buf_at 16;;
  write STDOUT (lit "\n") 2;;
  pid ← fork ecall;
  (if pid <? 0 then write STDOUT (lit "Fork failed!\n") 14;; mret tt else mret tt);;
  (if pid =? 0 then exec ecall fr (lit "/bin/5");; mret tt else mret tt);;
  ones (Z.to_nat 100000000) 0;;
  waitpid ecall pid;;
  write STDOUT (lit "Hello end!\n") 10;;
  mret 0.

(** ** 2.c *)
Definition main_2 : UM K Z := write STDERR (lit "Hello 2!\n") 10;; mret 0.

(** ** 3.c: reads through a null pointer *)
Definition main_3 : UM K Z :=
  write STDOUT (lit "Able to reach this line!\n") 26;;
  x ← uliftm Fault;
  write STDOUT (lit "Unable to reach this line!\n") 28;;
  mret x.

(** ** 4.c: an instruction that is none *)
Definition main_4 : UM K Z :=
  uliftm (A := unit) Fault;;
  write STDOUT (lit "Hello 4!\n") 10;;
  mret 0.

(** ** 5.c *)
Fixpoint fibonacci (k : nat) : UM K unit :=
  match k with
  | O => mret tt
  | S j => write STDOUT (lit "5") 2;; fibonacci j
  end.

Definition main_5 : UM K Z :=
  fibonacci 100;;
  write STDOUT (lit "\nHello 5!\n") 10;;
  mret 0.
End Programs.
End UserTests.
