(* ===== verification/UserKernel.v ===== *)
(** * The user library against the kernel

    The numbers and argument registers of libcoreos/syscall.h are those that
    kernel/syscall.c dispatches on: a stub called with the kernel's [syscall] in
    place of [ecall] is the kernel's handler on the same arguments. *)
From S2P Require Import Prelude Mem KernelPT Alloc FsTypes Files Proc SysFile SysProc UserLib.
Import FsTypes Proc.

Section Abi.
Variable retain : bool.
Variable fuel : nat.
Variable gpu_flush : M F unit.
Variable dir_entry : Z.
Variable stack_inode : Inode.
Variables strampoline sstatus satp handler : Z.

(** The kernel's end of a system call; x15 and x16 are not read. *)
Definition kernel_syscall (c a0 a1 a2 a3 a4 a5 a6 : Z) : M P ctl :=
  SysProc.syscall retain fuel gpu_flush dir_entry stack_inode strampoline sstatus satp handler c a0 a1 a2 a3 a4.

Definition is_u32 (x : Z) : Prop := 0 <= x < 4294967296.
Definition is_i32 (x : Z) : Prop := -2147483648 <= x < 2147483648.
Definition is_i64 (x : Z) : Prop := -9223372036854775808 <= x < 9223372036854775808.

Lemma u32_id x : is_u32 x -> u32 x = x.
Proof using. apply u32_small. Qed.
Lemma i32_u64 x : is_i32 x -> i32 (u64 x) = x.
Proof using.
  unfold is_i32. intros H. unfold i32, u32, u64.
  destruct (Z.ltb_spec (x mod 18446744073709551616 mod 4294967296) 2147483648); dlia.
Qed.
Lemma i64_u64 x : is_i64 x -> i64 (u64 x) = x.
Proof using.
  unfold is_i64. intros H. unfold i64, u64.
  destruct (Z.ltb_spec (x mod 18446744073709551616 mod 18446744073709551616) 9223372036854775808); dlia.
Qed.

(** The branch of the kernel's dispatch for a number of the library. *)
Ltac dispatch := lazy beta iota delta [kernel_syscall SysProc.syscall
  UserLib.sys_dup UserLib.sys_dup3 UserLib.sys_chdir UserLib.sys_openat UserLib.sys_close UserLib.sys_lseek UserLib.sys_read UserLib.sys_write UserLib.sys_exit UserLib.sys_yield UserLib.sys_get_time UserLib.sys_sbrk UserLib.sys_fork UserLib.sys_execve UserLib.sys_waitpid
  UserLib.SYS_DUP UserLib.SYS_DUP3 UserLib.SYS_CHDIR UserLib.SYS_OPENAT UserLib.SYS_CLOSE UserLib.SYS_LSEEK UserLib.SYS_READ UserLib.SYS_WRITE UserLib.SYS_EXIT UserLib.SYS_YIELD UserLib.SYS_GET_TIME UserLib.SYS_SBRK UserLib.SYS_FORK UserLib.SYS_EXECVE UserLib.SYS_WAITPID
  SysProc.SYS_DUP SysProc.SYS_DUP3 SysProc.SYS_CHDIR SysProc.SYS_OPENAT SysProc.SYS_CLOSE SysProc.SYS_LSEEK SysProc.SYS_READ SysProc.SYS_WRITE SysProc.SYS_EXIT SysProc.SYS_YIELD SysProc.SYS_GET_TIME SysProc.SYS_SBRK SysProc.SYS_FORK SysProc.SYS_EXECVE SysProc.SYS_WAITPID
  Z.ltb Z.eqb Z.compare Pos.compare Pos.compare_cont Pos.eqb].

(** C36: every stub of the user library reaches the handler of the same name in
    the kernel with the same arguments: a descriptor and whence come back from
    their u64 registers as the same u32, flags, modes, pids and exit codes as
    the same signed int, offsets and sizes as the same i64. *)
Theorem library_reaches_kernel fd fd2 flags dfd mode pid xstate off size whence a1 a2 a3 :
  is_u32 fd -> is_u32 fd2 -> is_u32 whence -> is_i32 flags -> is_i32 dfd -> is_i32 mode -> is_i32 pid ->
  is_i32 xstate -> is_i64 off -> is_i64 size ->
  UserLib.sys_dup kernel_syscall fd = SysProc.value (SysFile.sys_dup fd) /\
  UserLib.sys_dup3 kernel_syscall fd fd2 flags = SysProc.value (SysFile.sys_dup3 fd fd2 flags) /\
  UserLib.sys_chdir kernel_syscall a1 = SysFile.sys_chdir retain fuel dir_entry stack_inode a1 /\
  UserLib.sys_openat kernel_syscall dfd a1 flags mode =
    SysFile.sys_openat retain fuel dir_entry stack_inode dfd a1 flags mode /\
  UserLib.sys_close kernel_syscall fd = SysProc.value (SysFile.sys_close fd) /\
  UserLib.sys_lseek kernel_syscall fd 0 off a3 whence = SysFile.sys_lseek fd 0 off a3 whence /\
  UserLib.sys_read kernel_syscall fd a1 a2 = SysFile.sys_read retain gpu_flush fd a1 a2 /\
  UserLib.sys_write kernel_syscall fd a1 a2 = SysFile.sys_write retain fuel fd a1 a2 /\
  UserLib.sys_exit kernel_syscall xstate = SysProc.sys_exit retain xstate /\
  UserLib.sys_yield kernel_syscall = SysProc.sys_yield /\
  UserLib.sys_get_time kernel_syscall a1 0 = SysProc.sys_get_time a1 /\
  UserLib.sys_sbrk kernel_syscall size = SysProc.sys_sbrk retain size /\
  UserLib.sys_fork kernel_syscall = SysProc.sys_fork retain strampoline /\
  UserLib.sys_execve kernel_syscall a1 a2 a3 =
    SysProc.sys_execve retain fuel gpu_flush dir_entry stack_inode strampoline sstatus satp handler a1 a2 a3 /\
  UserLib.sys_waitpid kernel_syscall pid = SysProc.sys_waitpid retain pid.
Proof using.
  intros Hfd Hfd2 Hw Hfl Hdfd Hmode Hpid Hx Hoff Hsz.
  repeat apply conj; dispatch; rewrite ?u32_id, ?i32_u64, ?i64_u64 by done; reflexivity.
Qed.
End Abi.

(** Concrete arguments of dup2 onto the standard input. *)
Definition no_inode : Inode := mkInode 0 0 0 [] 0 0 0.
Lemma library_reaches_kernel_witness :
  UserLib.sys_dup3 (kernel_syscall false 0 (mret tt) 0 no_inode 0 0 0 0) 3 0 (-1) =
  SysProc.value (SysFile.sys_dup3 3 0 (-1)).
Proof.
  destruct (library_reaches_kernel false 0 (mret tt) 0 no_inode 0 0 0 0
    3 0 (-1) 0 0 1 0 0 0 0 0 0 0) as (_ & H & _); unfold is_u32, is_i32, is_i64; try lia. exact H.
Defined.
